(* ===== verification/_CoqProject ===== *)
-Q . S2P
Prelude.v
Utf8.v
Types.v
Platform.v
Frames.v
Dll.v
ErrorEntry.v
ObjectDict.v
OdPredefined.v
StatusFrames.v
Nmt.v
OdSchema.v
SdoCodec.v
SdoServer.v
SdoEmbedded.v
SdoClient.v
SdoExchange.v
Node.v
StackTypes.v
MnState.v
MnScheduler.v
MnPayload.v
MnNode.v
MnAsync.v
MnBoot.v
MnQuiet.v
Monitor.v
MonitorServer.v
CnPayload.v
CnNode.v
NodeTypes.v
CnSafety.v
MnSafety.v
IoModule.v
Platforms.v
PdoExchange.v
Network.v
NetworkSystem.v
Simulator.v
Identification.v
XdcText.v
XdcTypes.v
XdcResolve.v
XdcBuild.v
XdcConvert.v
XdcRoundtrip.v
XdcDevice.v
XdcDevResolve.v
XdcAppProcess.v
XdcFile.v
XdcFileRoundtrip.v
XdcNode.v
LoopbackTest.v
