(* ===== verification/Prelude.v ===== *)
(** * powerlink-rs: a verified model

    This development models the repository's Ethernet POWERLINK stack, the crate
    [powerlink-rs] ([src/crates/powerlink-rs/src]), the device descriptions of
    [powerlink-rs-xdc], the monitor [powerlink-rs-monitor], the network interfaces
    of [powerlink-rs-linux] and [powerlink-rs-windows], the I/O module of the examples and the
    repository's tests of whole networks.  The file names
    below without a directory are files of [powerlink-rs]; those of the section on
    device descriptions are files of [powerlink-rs-xdc].

    ** Parts and files

    Foundations:
    - [Prelude] (this file): results and the [?] operator, machine integers,
      bytes and buffers, trimming, ordered maps, and the tactics and hint
      databases the other files use.
    - [Utf8]: [str::from_utf8] and [String::from_utf8_lossy] of the standard
      library, which the dictionary and the payload parsers rely on.
    - [Types]: the enumerations of [types.rs], [common.rs], [hal.rs],
      [nmt/states.rs], [nmt/events.rs], [nmt/flags.rs] and
      [frame/error/types.rs]; the class [ByteEnum] is the contract between an
      enumeration with a wire value and the codecs that carry it.
    - [Platform]: the trait [NetworkInterface] of [hal.rs], with its laws, and
      [src/crates/powerlink-rs-linux/src/lib.rs], which implements it over the raw
      channel and the socket of the operating system.
    - [Platforms]: the packet capture of that interface (the feature [pcap]) and
      [src/crates/powerlink-rs-windows/src/lib.rs]; the relation between interfaces that
      an application cannot tell apart.

    Frames, data link layer, dictionary, network management:
    - [Frames]: [frame/basic.rs], [frame/control/soc.rs], [soa.rs], [asnd.rs],
      [frame/poll], [frame/codec.rs] and [serialize_frame_action] of
      [node/mod.rs].  The class [Codec] is the trait of [frame/codec.rs] and
      [CodecLaws] what the generic theorems need of an implementation.
    - [Dll]: [frame/cs_state_machine.rs], [frame/ms_state_machine.rs] and
      [frame/error] (threshold counters, counters of both node types, manager).
    - [ErrorEntry]: the 20-octet entry of [frame/error/status_response.rs].
    - [ObjectDict]: [od/value.rs], [od/entry.rs], [od/mod.rs],
      [od/pdo_validator.rs], [od/error_history.rs], [od/commands.rs] and
      [pdo/mapping.rs].  The class [ObjectDictionaryStorage] is the trait of
      [hal.rs], [StorageLaws] its documented contract and [MemStorage] an
      instance of both.
    - [OdPredefined]: [od/predefined.rs], [od/utils.rs], [od/storage.rs].
    - [StatusFrames]: [frame/control/ident_response.rs] and
      [frame/control/status_response.rs].
    - [Nmt]: [nmt/state_machine.rs] and the two machines; the class
      [NmtStateMachine] is the trait, with the dictionary it mirrors into.
    - [OdSchema]: what no operation of the dictionary changes, as a preorder on
      dictionaries; the class [StorageKeeps] is what it asks of the storage.

    SDO:
    - [SdoCodec]: [sdo/sequence.rs], [sdo/command/base.rs], [sdo/asnd.rs],
      [sdo/udp.rs] and [sdo/embedded.rs].
    - [SdoServer]: [sdo/state.rs], [sdo/sequence_handler.rs],
      [sdo/handlers.rs], [sdo/command/handler.rs] and [sdo/server.rs].
    - [SdoEmbedded]: [sdo/embedded_server.rs] and [sdo/embedded_client.rs].
    - [SdoClient]: [sdo/client.rs], [sdo/client_connection.rs] and
      [sdo/client_manager.rs].
    - [SdoExchange]: a client connection against a server connection.

    Nodes:
    - [Node]: what both nodes share: [node/mod.rs], [node/pdo_handler.rs] and the
      frames of [sdo/transport.rs].
    - [StackTypes]: the preorder of [OdSchema] along the SDO servers and the process
      data; the class [HandlerKeeps] is what it asks of the command handler.
    - [MnState], [MnScheduler], [MnPayload], [MnNode]: the managing node
      ([node/mn/]): its context, its node lists, checks and scheduler, the frames
      it builds, and its cycle, events, tick and main loop.
    - [MnAsync]: the asynchronous slots of successive cycles.
    - [MnBoot]: the invariant of a run of the managing node.
    - [MnQuiet]: what the managing node sends, and the invariant of a run in which no
      node has reported to it that it is pre-operational.
    - [CnPayload], [CnNode]: the controlled node ([node/cn/]).
    - [NodeTypes]: the dictionary of a running node, of either kind.
    - [CnSafety], [MnSafety]: when [run_cycle] of the two nodes does not return.
    - [IoModule]: [powerlink-rs-linux/examples/io_module.rs], its dictionaries and the
      loop of its controlled node, over any network interface.
    - [PdoExchange], [Network], [Identification]: the nodes together, over the
      wire: process data, NMT commands, identification.
    - [NetworkSystem]: the network of one managing node and any controlled nodes, as
      a transition system whose steps are the calls of [run_cycle].
    - [Simulator]: [powerlink-rs/tests/simulator], the virtual network and the
      harnesses, and [powerlink-rs/tests/boot_up_test.rs], which runs on them.
    - [LoopbackTest]: [powerlink-rs-linux/tests/loopback_test.rs], a controlled node
      and the script of a managing node over real interfaces.
    - [Monitor], [MonitorServer]: [model.rs], and the bridge and the WebSockets of
      [lib.rs] and [server.rs], of [src/crates/powerlink-rs-monitor/src].

    Device descriptions:
    - [XdcText]: [parser.rs] and what the standard library does with numbers in
      text.
    - [XdcTypes], [XdcDevice]: [error.rs], [types.rs] (prefix [X]) and [model/]
      (prefix [M]).
    - [XdcResolve], [XdcDevResolve]: [resolver/], but for the application process.
    - [XdcBuild]: [builder/], the communication profile.
    - [XdcAppProcess]: the application process, both ways.
    - [XdcFile]: the device profile of [builder/], the container of a file, and
      [resolve_data].
    - [XdcConvert]: [converter.rs].
    - [XdcRoundtrip], [XdcFileRoundtrip]: the theorems about them.
    - [XdcNode]: the node that a description is made into.

    ** How the parts interact

    A received frame is parsed by [Frames] and drives the DLL machines of [Dll]
    and the NMT machine of [Nmt]; their errors go to the error manager, which
    counts, logs into the dictionary of [ObjectDict] and signals an NMT action; an
    NMT transition writes the state back into the dictionary.  An SDO payload goes
    to the server of [SdoServer], or to the client of [SdoClient] when it answers,
    and both work on the same dictionary; so do the PDO channels of [SdoEmbedded]
    and the process data of [Node].  [MnNode] and [CnNode] compose these into
    [run_cycle] of the two nodes: one Ethernet buffer, one datagram and the time go
    in, the context and an action come out.  [Network], [Identification] and
    [PdoExchange] put the frame that one node sends into the parser and handler of
    the other; [NetworkSystem] lets all of them call [run_cycle] in any order, over a wire
    that keeps every frame sent and delivers any of them at any time, or none, and
    [Simulator] is one schedule of it.  [XdcConvert] makes the dictionary a node is created with, and [XdcNode]
    follows it through the creation.  An application, as that of [IoModule], moves
    frames between an interface of [Platform] and [run_cycle].

    ** Conventions

    A method that takes [&mut self] takes and returns the state; a [Result] is
    [result], with the state beside it where the method changes state before
    it fails; a panic is [None].  A serializer into a [&mut [u8]] returns the
    buffer too.  An integer is a [Z] with its wrap-around or saturation written
    out; where the code uses the bare operator, the release build is meant, which
    wraps, and [usize] has 64 bits.  A byte string is a [list Z], and a Rust
    [String] its UTF-8 octets; [f32] and [f64] are their bit patterns.  A
    [BTreeMap] is a [gmap], iterated in ascending key order by [btree_items].
    Logging and the exhaustion of memory are not modelled.  Enum constructors
    carry a prefix where Rust has the type's name.

    Code outside the repository is a parameter: the storage back end
    ([ObjectDictionaryStorage]), the application's command handler
    ([SdoCommandHandler]), the crate [hex] ([HexDecode] with [HexDecodeLaws]), the
    order of equal priorities in a [BinaryHeap], which is not specified
    ([RequestHeap] with [RequestHeapLaws]), the raw channel, the socket and the
    interfaces of the operating system ([RawChannel], [Socket] with [SocketLaws],
    [System]), and the broadcast channel of the monitor ([Broadcast] with
    [BroadcastLaws]), and the capture file and the clock of the packet capture
    ([CaptureFile], [WallClock]).

    ** Theorems

    - Frames: every well-formed frame is sent with at least the minimum Ethernet
      length and parsed back to itself ([frame_send_receive_roundtrip]).
    - DLL: the CS machine refines the language of cycles
      ([cs_accepts_exactly_the_cycles]); the counters refine a leaky
      bucket on plain integers ([cn_error_counters_leaky_buckets]).
    - Object dictionary: encoding round trip ([object_value_roundtrip]); a write
      that succeeds is read back and changes nothing else
      ([od_write_then_read]); an accepted PDO mapping fits its
      frame ([validate_pdo_mapping_sound]); stored parameters survive a boot,
      unless a restore of the defaults is pending ([stored_parameters_survive_boot]); the dictionary of a running node keeps its
      objects and their types ([node_dictionary_typed]).
    - NMT: the operational state is reached only through the boot sequence
      ([mn_operational_only_after_boot]); object 0x1F8C, where it is the
      predefined one, always mirrors the state ([nmt_state_mirrored_in_od]).
    - SDO: the invariants of both ends of a connection
      under any traffic ([sdo_connection_invariant],
      [client_connection_invariant]); segmented upload delivers exactly the object
      ([segmented_upload_delivers]); the client's configuration download
      sends what a reference says ([configuration_download_reference]); the sequence layer
      ([sequence_layer_spec]); clients do not interfere ([server_isolates_clients]); why
      client and server never get a transfer under way
      ([client_server_dead_end]); over every schedule, what the channel in
      PDOs does and when it loses its step ([embedded_exchange]).
    - Managing node: which nodes it polls, and in which order
      ([isochronous_polls_reference]); the search for an unidentified node ends
      ([identification_search]) and starves none ([identification_fair]); it starts
      the network only with nodes it has heard ([mn_starts_heard_nodes]), which is
      also what the monitor shows ([monitor_tells_what_was_heard]); it serves the
      requests of the nodes by priority ([async_slots_by_priority]); the three cases
      in which it stops ([managing_node_stops]).
    - Controlled node: it speaks only when it is addressed or a transfer times
      out ([cn_speaks_when_addressed]), and nothing in the stack makes it operational
      ([cn_node_never_operational]); the one case in which it panics, shown for the
      application of the I/O module ([io_module_cn_panics_only_on_short_abort]).
    - Networks (of a managing node that does not assign itself to the isochronous
      phase): what the managing node knows of its nodes is true
      ([network_knowledge_sound]), but it polls none of them before they report to be
      pre-operational and they report nothing before they are polled, so that no
      network of these nodes starts ([network_never_starts]); the simulator is such
      a network ([simulator_refines_network]), and so the boot-up test fails
      ([boot_up_test_fails]); the tests over real interfaces fail for another reason,
      whatever datagrams are exchanged ([integration_tests_fail]).
    - Platforms: an application cannot tell the interfaces apart ([platforms_agree]),
      unless the capture fails, which cuts it off ([capture_failure_cuts_the_node]).
    - Composition: process data arrives where the mappings say
      ([process_data_transfer]); what an NMT command does at its receiver
      ([nmt_command_delivery]); the identification of a node
      ([identification_exchange]).
    - Device descriptions: a saved file loads, and for the stack it is the same
      ([saved_file_loads]); the node made from a description is the node described,
      up to the values beyond a declared count ([description_becomes_node]).

    The files hold further theorems that these do not subsume, such as
    [core_od_well_formed], [od_types_invariant], [error_history_newest_first],
    [manager_logs_what_it_signals], [mn_error_counters_isolated], [od_write_outcome],
    [cn_operational_only_after_boot], [sdo_udp_roundtrip], [segmented_download_refused],
    [expedited_write_all_or_nothing], [ident_response_roundtrip], [status_response_roundtrip],
    [headed_test_half_passes] and [io_module_mn_never_starts].

    ** Fuel

    Recursion is structural but for these.  The UTF-8 scanners, the parser of
    error entries and [trim] run on the length of the input: every step consumes at
    least one octet, so the fuel never runs out, and the theorems are about these
    functions run with that fuel.  The search of the scheduler for an unidentified
    node runs on [IDENT_FUEL], 512: the loop visits at most 239 addresses before it
    meets its start, and [identification_search] shows when it does not end at all,
    which no fuel would change.  The loop that empties an inbox of the simulator
    runs on one more than the packets in it ([drain_empties]), and the loop of the boot-up test on
    [TEST_FUEL], 5000 rounds of a millisecond, which are the five seconds of the test
    (the second half of [simulator_refines_network]).  The formatter of numbers runs on [FORMAT_FUEL], 64
    digits, enough for any integer of 64 bits in any radix.

    ** Not modelled

    The loop of the managing node in the I/O module, [cn_listener.rs] and [mn_web_monitor.rs] do not
    compile against the stack of this commit.  The routes of the monitor's web
    server are third-party code, and its standalone mode only prints a line.
    [docker_test.rs] starts processes in containers, and the environment variables that
    choose the role and the number of [loopback_test.rs] are arguments here; the tests of
    [powerlink-rs-xdc] read files of their own.  The XML text of a device description is read and
    written by a third-party library from the attributes on the structures of
    [model/]; the development starts and ends with these structures.  Logging,
    [lib.rs] and the [Display] of errors have no behaviour to verify. *)

From Stdlib Require Export ZArith Lia Bool.
From stdpp Require Export base list gmap strings sorting.

#[global] Open Scope Z_scope.
#[global] Set Default Goal Selector "!".

(** ** Results

    [Result<T, E>] of the source.  The error type comes first so that
    [result E] is a type constructor in the value. *)
Inductive result (E A : Type) : Type :=
| Ok (a : A)
| Err (e : E).
Arguments Ok {E A} a.
Arguments Err {E A} e.

#[export] Instance result_eq_dec {E A} `{EqDecision E, EqDecision A} : EqDecision (result E A).
Proof. solve_decision. Defined.

Declare Scope rust_scope.
Delimit Scope rust_scope with rust.

(** The [?] operator: the error is returned to the caller. *)
Notation "'let?' x ':=' m 'in' k" :=
  (match m with Ok x => k | Err e => Err e end)
  (at level 10, x pattern, m at level 200, k at level 200) : rust_scope.
#[global] Open Scope rust_scope.

Definition is_ok {E A} (r : result E A) : bool := match r with Ok _ => true | Err _ => false end.

(** [Option::unwrap_or]. *)
Definition unwrap_or {A} (o : option A) (d : A) : A := match o with Some a => a | None => d end.

(** [Option::ok_or]. *)
Definition ok_or {E A} (o : option A) (e : E) : result E A :=
  match o with Some a => Ok a | None => Err e end.

(** ** Machine integers

    Every integer of the source is a [Z]; the width is written out where it
    matters.  [wrap w] is the value a [w]-bit unsigned integer keeps
    ([as] casts, [wrapping_add], and the arithmetic of a build without
    overflow checks). *)
Definition wrap (w x : Z) : Z := x mod 2 ^ w.
Definition u8 := wrap 8.
Definition u16 := wrap 16.
Definition u32 := wrap 32.
Definition u64 := wrap 64.
Definition in_width (w x : Z) : Prop := 0 <= x < 2 ^ w.

Lemma wrap_small w x : in_width w x -> wrap w x = x.
Proof. apply Z.mod_small. Qed.

Lemma wrap_range w x : 0 <= w -> in_width w (wrap w x).
Proof. intros Hw. apply Z.mod_pos_bound. lia. Qed.

(** [u32::saturating_add] and [saturating_sub]. *)
Definition sat_add (w a b : Z) : Z := Z.min (2 ^ w - 1) (a + b).
Definition sat_sub (a b : Z) : Z := Z.max 0 (a - b).

(** [x & (1 << i) != 0]. *)
Definition bit (x i : Z) : bool := negb (Z.land x (Z.shiftl 1 i) =? 0).
(** [if b { v } else { 0 }]. *)
Definition flag (b : bool) (v : Z) : Z := if b then v else 0.

(** *** Bit fields *)
Lemma bit_testbit x i : 0 <= i -> bit x i = Z.testbit x i.
Proof.
  intros Hi. unfold bit. rewrite Z.shiftl_1_l.
  destruct (Z.testbit x i) eqn:E.
  - destruct (Z.eqb_spec (Z.land x (2 ^ i)) 0) as [H|]; [|done].
    assert (Ht : Z.testbit (Z.land x (2 ^ i)) i = true)
      by (rewrite Z.land_spec, E, Z.pow2_bits_true by lia; done).
    rewrite H, Z.bits_0 in Ht. done.
  - assert (Z.land x (2 ^ i) = 0) as ->; [|done].
    apply Z.bits_inj'. intros j Hj. rewrite Z.land_spec, Z.bits_0.
    destruct (Z.eq_dec i j) as [->|]; [by rewrite E|].
    rewrite Z.pow2_bits_false by lia. apply andb_false_r.
Qed.

(** A field placed above a smaller one. *)
Lemma lor_shiftl_add a b n : 0 <= n -> in_width n a -> Z.lor a (Z.shiftl b n) = a + b * 2 ^ n.
Proof.
  intros Hn Ha. rewrite <- Z.shiftl_mul_pow2 by lia.
  assert (Z.land a (Z.shiftl b n) = 0) as Hl.
  { apply Z.bits_inj'. intros i Hi. rewrite Z.land_spec, Z.bits_0.
    destruct (Z.lt_ge_cases i n).
    - rewrite Z.shiftl_spec_low by lia. apply andb_false_r.
    - rewrite <- (Z.mod_small a (2 ^ n)) by done. by rewrite Z.mod_pow2_bits_high. }
  by rewrite Z.add_nocarry_lxor, Z.lxor_lor.
Qed.

Lemma land_ones_small a n : 0 <= n -> in_width n a -> Z.land a (Z.ones n) = a.
Proof. intros ? Ha. rewrite Z.land_ones by lia. by apply Z.mod_small. Qed.

(** Reading the two fields back. *)
Lemma field_low a b n : 0 <= n -> in_width n a -> Z.land (a + b * 2 ^ n) (Z.ones n) = a.
Proof.
  intros ? Ha. rewrite Z.land_ones, Z_mod_plus_full by lia. by apply Z.mod_small.
Qed.
Lemma field_high a b n : 0 <= n -> in_width n a -> Z.shiftr (a + b * 2 ^ n) n = b.
Proof.
  intros ? Ha. pose proof (Z.pow_pos_nonneg 2 n).
  rewrite Z.shiftr_div_pow2 by lia. rewrite Z.div_add by lia. rewrite Z.div_small by done. lia.
Qed.
Lemma field_bit a b n i :
  0 <= n <= i -> in_width n a -> Z.testbit (a + b * 2 ^ n) i = Z.testbit b (i - n).
Proof.
  intros Hn Ha. replace i with (i - n + n) at 1 by lia.
  rewrite <- Z.div_pow2_bits by lia. rewrite <- Z.shiftr_div_pow2 by lia. by rewrite field_high by (done || lia).
Qed.

(** ** Byte strings *)
Abbreviation bytes := (list Z).
Definition byte_ok (b : Z) : Prop := in_width 8 b.
Definition bytes_ok (l : bytes) : Prop := Forall byte_ok l.

(** Length as an integer, [len()] of a slice. *)
Definition len {A} (l : list A) : Z := Z.of_nat (length l).

(** [buffer[i]], for an index the caller has checked. *)
Definition byte_at (l : bytes) (i : nat) : Z := nth i l 0.
(** [buffer[a..b]], for a range the caller has checked. *)
Definition slice {A} (l : list A) (a b : nat) : list A := take (b - a) (drop a l).
(** [buffer[off..off + bs.len()].copy_from_slice(bs)], in range. *)
Definition put {A} (buf : list A) (off : nat) (bs : list A) : list A :=
  take off buf ++ bs ++ drop (off + length bs) buf.
(** [buffer[a..b].fill(v)], in range. *)
Definition fill (buf : bytes) (a b : nat) (v : Z) : bytes := put buf a (replicate (b - a) v).

(** [to_le_bytes] and [from_le_bytes] of an [n]-byte integer. *)
Fixpoint le_bytes (n : nat) (v : Z) : bytes :=
  match n with O => [] | S n => v mod 256 :: le_bytes n (v / 256) end.
Fixpoint le_val (l : bytes) : Z :=
  match l with [] => 0 | b :: l => b + 256 * le_val l end.
(** Network order, [to_be_bytes] and [from_be_bytes]. *)
Definition be_bytes (n : nat) (v : Z) : bytes := rev (le_bytes n v).
Definition be_val (l : bytes) : Z := le_val (rev l).

Lemma length_le_bytes n v : length (le_bytes n v) = n.
Proof. revert v. induction n as [|n IH]; intros v; simpl; [done|by rewrite IH]. Qed.

Lemma length_be_bytes n v : length (be_bytes n v) = n.
Proof. unfold be_bytes. by rewrite length_rev, length_le_bytes. Qed.

Lemma le_bytes_ok n v : bytes_ok (le_bytes n v).
Proof.
  revert v. induction n as [|n IH]; intros v; simpl; constructor.
  - apply Z.mod_pos_bound. lia.
  - apply IH.
Qed.

Lemma be_bytes_ok n v : bytes_ok (be_bytes n v).
Proof. apply Forall_rev, le_bytes_ok. Qed.

Lemma le_val_le_bytes n v : in_width (8 * Z.of_nat n) v -> le_val (le_bytes n v) = v.
Proof.
  unfold in_width. revert v. induction n as [|n IH]; intros v Hv; simpl.
  - simpl in Hv. lia.
  - replace (8 * Z.of_nat (S n)) with (8 + 8 * Z.of_nat n) in Hv by lia.
    rewrite Z.pow_add_r in Hv by lia.
    rewrite IH.
    + pose proof (Z.div_mod v 256). lia.
    + split; [apply Z.div_pos; lia|].
      apply Z.div_lt_upper_bound; lia.
Qed.

Lemma le_bytes_le_val l n : bytes_ok l -> length l = n -> le_bytes n (le_val l) = l.
Proof.
  intros Hl <-. induction Hl as [|b l Hb Hl IH]; [done|]. cbn [length le_bytes le_val].
  unfold byte_ok, in_width in Hb. change (2 ^ 8) with 256 in Hb.
  replace (b + 256 * le_val l) with (b + le_val l * 256) by lia.
  rewrite Z_mod_plus_full, Z_div_plus_full by lia.
  rewrite Z.mod_small, Z.div_small, Z.add_0_l by lia. by rewrite IH.
Qed.

Lemma le_val_range l : bytes_ok l -> in_width (8 * len l) (le_val l).
Proof.
  unfold in_width, len. induction 1 as [|b l Hb Hl IH]; simpl; [lia|].
  replace (8 * Z.of_nat (S (length l))) with (8 + 8 * Z.of_nat (length l)) by lia.
  rewrite Z.pow_add_r by lia. change (2 ^ 8) with 256.
  unfold byte_ok, in_width in Hb. change (2 ^ 8) with 256 in Hb. lia.
Qed.

Lemma be_val_be_bytes n v : in_width (8 * Z.of_nat n) v -> be_val (be_bytes n v) = v.
Proof. intros Hv. unfold be_val, be_bytes. by rewrite rev_involutive, le_val_le_bytes. Qed.

Lemma length_put {A} (buf bs : list A) off :
  (off + length bs <= length buf)%nat -> length (put buf off bs) = length buf.
Proof. intros H. unfold put. rewrite !length_app, length_take, length_drop. lia. Qed.

(** A write at the end of the part already written. *)
Lemma put_app {A} (pre rest bs : list A) off :
  off = length pre -> put (pre ++ rest) off bs = (pre ++ bs) ++ drop (length bs) rest.
Proof.
  intros ->. unfold put. rewrite take_app_length, drop_app_add.
  by rewrite <- app_assoc.
Qed.

Lemma put_0 {A} (buf bs : list A) : put buf 0 bs = bs ++ drop (length bs) buf.
Proof. done. Qed.

Lemma slice_app {A} (pre mid post : list A) a b :
  a = length pre -> b = (length pre + length mid)%nat -> slice (pre ++ mid ++ post) a b = mid.
Proof.
  intros -> ->. unfold slice. rewrite drop_app_length.
  replace (length pre + length mid - length pre)%nat with (length mid) by lia.
  apply take_app_length.
Qed.

(** Reading back a field after in-range writes. *)
Lemma slice_put_same {A} (buf bs : list A) a b :
  b = (a + length bs)%nat -> (b <= length buf)%nat -> slice (put buf a bs) a b = bs.
Proof.
  intros -> Hb. unfold put. apply slice_app; rewrite length_take; lia.
Qed.

Lemma slice_put_before {A} (buf bs : list A) off a b :
  (b <= off)%nat -> (off <= length buf)%nat -> slice (put buf off bs) a b = slice buf a b.
Proof.
  intros Hb Ho. transitivity (slice (take off buf ++ drop off buf) a b); [|by rewrite take_drop].
  unfold put.
  assert (Hs : forall l1 l2 : list A, (b <= length l1)%nat -> slice (l1 ++ l2) a b = slice l1 a b).
  { intros l1 l2 Hl. unfold slice. destruct (decide (a <= b)%nat).
    - rewrite drop_app_le by lia. apply take_app_le. rewrite length_drop. lia.
    - replace (b - a)%nat with O by lia. done. }
  by rewrite !Hs by (rewrite length_take; lia).
Qed.

Lemma slice_put_after {A} (buf bs : list A) off a b :
  (off + length bs <= a)%nat -> (off + length bs <= length buf)%nat ->
  slice (put buf off bs) a b = slice buf a b.
Proof.
  intros Ha Hl. unfold slice, put. f_equal.
  rewrite drop_app_ge by (rewrite length_take; lia).
  rewrite drop_app_ge by (rewrite length_take; lia).
  rewrite drop_drop, length_take. f_equal. lia.
Qed.

(** A sequence of writes at increasing, disjoint offsets up to [n]. *)
Definition puts {A} (buf : list A) (ws : list (nat * list A)) : list A :=
  foldl (fun b w => put b (fst w) (snd w)) buf ws.
Fixpoint writes_ok {A} (lo n : nat) (ws : list (nat * list A)) : Prop :=
  match ws with
  | [] => (lo <= n)%nat
  | (off, bs) :: ws => (lo <= off)%nat /\ writes_ok (off + length bs) n ws
  end.

Lemma writes_ok_le {A} lo n (ws : list (nat * list A)) : writes_ok lo n ws -> (lo <= n)%nat.
Proof.
  revert lo. induction ws as [|[off bs] ws IH]; intros lo; [done|].
  intros [? H]. apply IH in H. lia.
Qed.

Lemma length_puts {A} lo n ws (buf : list A) :
  writes_ok lo n ws -> (n <= length buf)%nat -> length (puts buf ws) = length buf.
Proof.
  revert lo buf. induction ws as [|[off bs] ws IH]; intros lo buf; [done|]. intros [? H] Hn.
  pose proof (writes_ok_le _ _ _ H). simpl. rewrite (IH _ _ H); rewrite length_put; lia.
Qed.

Lemma slice_puts_below {A} lo n ws (buf : list A) a b :
  writes_ok lo n ws -> (n <= length buf)%nat -> (b <= lo)%nat ->
  slice (puts buf ws) a b = slice buf a b.
Proof.
  revert lo buf. induction ws as [|[off bs] ws IH]; intros lo buf; [done|]. intros [? H] Hn Hb.
  pose proof (writes_ok_le _ _ _ H). simpl.
  rewrite (IH _ _ H); [|rewrite length_put; lia|lia]. apply slice_put_before; lia.
Qed.

Lemma slice_puts {A} lo n ws (buf : list A) off bs :
  writes_ok lo n ws -> (n <= length buf)%nat -> (off, bs) ∈ ws ->
  slice (puts buf ws) off (off + length bs) = bs.
Proof.
  revert lo buf. induction ws as [|[o c] ws IH]; intros lo buf; [by intros _ _ H; inversion H|].
  intros [? H] Hn Hin. pose proof (writes_ok_le _ _ _ H). simpl.
  apply elem_of_cons in Hin as [Hin|Hin].
  - simplify_eq. rewrite (slice_puts_below _ _ _ _ _ _ H); [|rewrite length_put; lia|lia].
    apply slice_put_same; lia.
  - apply (IH _ _ H); [rewrite length_put; lia|done].
Qed.

Lemma byte_at_slice l i : (i < length l)%nat -> slice l i (S i) = [byte_at l i].
Proof.
  intros Hi. unfold slice, byte_at. replace (S i - i)%nat with 1%nat by lia.
  destruct (nth_lookup_or_length l i 0) as [H|]; [|lia].
  rewrite (drop_S _ _ _ H). done.
Qed.

Lemma byte_at_of_slice l i v : slice l i (S i) = [v] -> byte_at l i = v.
Proof.
  intros Hs. destruct (decide (i < length l)%nat) as [Hi|Hi].
  - rewrite byte_at_slice in Hs by done. congruence.
  - unfold slice in Hs. rewrite drop_ge in Hs by lia. by rewrite take_nil in Hs.
Qed.

(** ** Searching and trimming *)

(** [iter().position(p)] and [iter().rposition(p)]. *)
Fixpoint position {A} (p : A -> bool) (l : list A) : option nat :=
  match l with
  | [] => None
  | x :: l => if p x then Some O else S <$> position p l
  end.
Fixpoint rposition {A} (p : A -> bool) (l : list A) : option nat :=
  match l with
  | [] => None
  | x :: l => match rposition p l with
              | Some i => Some (S i)
              | None => if p x then Some O else None
              end
  end.

(** The prefix up to the last non-zero byte, as the ASnd parser computes it. *)
Definition strip_zeros (l : bytes) : bytes :=
  take (match rposition (fun x => negb (x =? 0)) l with None => O | Some i => S i end) l.

Lemma strip_zeros_nil : strip_zeros [] = [].
Proof. done. Qed.

Lemma strip_zeros_cons x l :
  strip_zeros (x :: l) =
    match strip_zeros l with [] => if x =? 0 then [] else [x] | l' => x :: l' end.
Proof.
  unfold strip_zeros. simpl. destruct l as [|y l]; simpl.
  - by destruct (x =? 0).
  - destruct (rposition _ l); simpl; [done|].
    destruct (y =? 0), (x =? 0); done.
Qed.

Lemma strip_zeros_app_replicate l n : strip_zeros (l ++ replicate n 0) = strip_zeros l.
Proof.
  induction l as [|x l IH]; simpl.
  - induction n as [|n IH]; [done|]. simpl. by rewrite strip_zeros_cons, IH.
  - by rewrite !strip_zeros_cons, IH.
Qed.

Lemma strip_zeros_id l : last l <> Some 0 -> strip_zeros l = l.
Proof.
  induction l as [|x l IH]; [done|]. intros Hl. rewrite strip_zeros_cons.
  destruct l as [|y l].
  - simpl in *. destruct (Z.eqb_spec x 0); congruence.
  - rewrite IH; [done|]. by rewrite last_cons_cons in Hl.
Qed.

Lemma strip_zeros_prefix l : exists n, l = strip_zeros l ++ replicate n 0.
Proof.
  induction l as [|x l [n IH]]; [by exists O|].
  rewrite strip_zeros_cons. destruct (strip_zeros l) as [|y l'] eqn:E.
  - destruct (Z.eqb_spec x 0) as [->|].
    + exists (S n). simpl in *. by rewrite IH at 1.
    + exists n. simpl in *. by rewrite IH at 1.
  - exists n. simpl in *. by rewrite IH at 1.
Qed.

Lemma last_strip_zeros l : last (strip_zeros l) <> Some 0.
Proof.
  induction l as [|x l IH]; [done|]. rewrite strip_zeros_cons.
  destruct (strip_zeros l) as [|y l'] eqn:E.
  - destruct (Z.eqb_spec x 0); simpl; congruence.
  - by rewrite last_cons_cons.
Qed.

(** ** Ordered maps

    A [BTreeMap] is iterated in ascending key order. *)
Definition key_le {K A} (le : relation K) (x y : K * A) : Prop := le (fst x) (fst y).
#[export] Instance key_le_dec {K A} (le : relation K) `{!RelDecision le} :
  RelDecision (key_le (A:=A) le).
Proof. intros x y. unfold key_le. apply _. Defined.

Definition btree_items {K A} `{Countable K} (le : relation K) `{!RelDecision le} (m : gmap K A)
    : list (K * A) :=
  merge_sort (key_le le) (map_to_list m).

Lemma btree_items_perm {K A} `{Countable K} (le : relation K) `{!RelDecision le} (m : gmap K A) :
  btree_items le m ≡ₚ map_to_list m.
Proof. apply merge_sort_Permutation. Qed.

Lemma elem_of_btree_items {K A} `{Countable K} (le : relation K) `{!RelDecision le} (m : gmap K A) k x :
  (k, x) ∈ btree_items le m <-> m !! k = Some x.
Proof. rewrite btree_items_perm. apply elem_of_map_to_list. Qed.

Lemma NoDup_btree_items {K A} `{Countable K} (le : relation K) `{!RelDecision le} (m : gmap K A) :
  NoDup (btree_items le m).*1.
Proof. rewrite btree_items_perm. apply NoDup_fst_map_to_list. Qed.

(** The keys come in strictly ascending order. *)
Lemma strictly_ascending (l : list Z) : StronglySorted Z.le l -> NoDup l -> StronglySorted Z.lt l.
Proof.
  induction 1 as [|k l Hs IH Hk]; [constructor|]. intros Hd. apply NoDup_cons in Hd as [Hn Hd].
  constructor; [by apply IH|]. apply Forall_forall. intros x Hx. rewrite Forall_forall in Hk.
  assert (k <> x) by (intros ->; done). specialize (Hk x Hx). lia.
Qed.
Lemma btree_items_ascending {A} (m : gmap Z A) : StronglySorted Z.lt (btree_items Z.le m).*1.
Proof.
  apply strictly_ascending; [|apply NoDup_btree_items].
  assert (Hs : StronglySorted (key_le (A:=A) Z.le) (btree_items Z.le m)).
  { apply StronglySorted_merge_sort.
    - intros x y z. unfold key_le. lia.
    - intros x y. unfold key_le. lia. }
  induction Hs as [|x l _ IH Hx]; [constructor|]. cbn. constructor; [exact IH|]. by apply Forall_map.
Qed.

(** ** Automation

    The database [wire] holds the length facts of encoded fields; [put_chain]
    replays a sequence of in-order field writes. *)
Create Rewrite HintDb wire.
#[export] Hint Rewrite @length_app length_le_bytes length_be_bytes @length_replicate @length_nil
  @length_cons @length_take @length_drop : wire.

Ltac wire_len := autorewrite with wire; simpl; try lia.

Ltac put_chain :=
  repeat (rewrite put_app by (wire_len; reflexivity)).

(** Lengths are unchanged by in-range writes. *)
Ltac put_len :=
  repeat match goal with
    | |- context [length (put ?b ?o ?l)] =>
        rewrite (length_put b l o) by (put_len; wire_len)
    end.

(** Split a flag test or comparison in the goal, rejecting impossible sides. *)
Ltac case_if :=
  match goal with
  | |- context [if ?b then _ else _] =>
      let E := fresh "E" in destruct b eqn:E
  end.

(** The guards [length _ <? n] and [n <=? length _]. *)
Lemma nat_ltb_false n m : (m <= n)%nat -> (n <? m)%nat = false.
Proof. intros. apply Nat.ltb_ge. lia. Qed.
Lemma nat_ltb_true n m : (n < m)%nat -> (n <? m)%nat = true.
Proof. intros. apply Nat.ltb_lt. lia. Qed.

(** Well-formed byte strings: the structural rules are applied, the leaves are
    left to the database [byte] and arithmetic. *)
Create HintDb byte.
#[export] Hint Extern 4 (byte_ok _) => (unfold byte_ok, in_width in *; lia) : byte.
#[export] Hint Resolve le_bytes_ok be_bytes_ok : byte.

Lemma bytes_ok_replicate n : bytes_ok (replicate n 0).
Proof. apply Forall_replicate. unfold byte_ok, in_width. lia. Qed.
#[export] Hint Resolve bytes_ok_replicate : byte.

Lemma byte_ok_flag b v : byte_ok v -> byte_ok (flag b v).
Proof. destruct b; [done|]. intros _. unfold byte_ok, in_width. simpl. lia. Qed.

Ltac solve_bytes :=
  repeat match goal with
    | H : ?P |- ?P => exact H
    | |- bytes_ok ?l => change (Forall byte_ok l)
    | |- Forall byte_ok (le_bytes _ _) => apply le_bytes_ok
    | |- Forall byte_ok (be_bytes _ _) => apply be_bytes_ok
    | |- Forall byte_ok [] => apply Forall_nil_2
    | |- Forall byte_ok (_ :: _) => apply Forall_cons_2
    | |- Forall byte_ok (_ ++ _) => apply Forall_app_2
    | |- Forall byte_ok ?l => change (bytes_ok l); solve [auto with byte]
    | |- byte_ok _ => solve [auto with byte]
    end.

Lemma bytes_ok_app l1 l2 : bytes_ok (l1 ++ l2) <-> bytes_ok l1 /\ bytes_ok l2.
Proof. apply Forall_app. Qed.

Lemma bytes_ok_take n l : bytes_ok l -> bytes_ok (take n l).
Proof. apply Forall_take. Qed.

Lemma bytes_ok_drop n l : bytes_ok l -> bytes_ok (drop n l).
Proof. apply Forall_drop. Qed.

Lemma bytes_ok_slice a b l : bytes_ok l -> bytes_ok (slice l a b).
Proof. intros. unfold slice. by apply bytes_ok_take, bytes_ok_drop. Qed.
#[export] Hint Resolve bytes_ok_take bytes_ok_drop bytes_ok_slice : byte.

Lemma byte_at_ok l i : bytes_ok l -> byte_ok (byte_at l i).
Proof.
  intros H. unfold byte_at. destruct (nth_in_or_default i l 0) as [Hin| ->].
  - by apply (proj1 (List.Forall_forall _ _) H).
  - unfold byte_ok, in_width. lia.
Qed.
#[export] Hint Resolve byte_at_ok : byte.

(** A field cut out of a buffer of bytes has the width of its slice. *)
Lemma le_slice_width buf a b n :
  bytes_ok buf -> (b - a <= n)%nat -> in_width (8 * Z.of_nat n) (le_val (slice buf a b)).
Proof.
  intros Hb Hn. pose proof (le_val_range (slice buf a b) (bytes_ok_slice a b buf Hb)) as H.
  assert (length (slice buf a b) <= n)%nat by (unfold slice; wire_len).
  unfold in_width, len in *. split; [lia|]. eapply Z.lt_le_trans; [apply H|].
  apply Z.pow_le_mono_r; lia.
Qed.

(** A length known to be at least a numeral exposes that many elements. *)
Ltac expose l n :=
  match n with
  | O => idtac
  | S ?n' => let x := fresh "b" in
      destruct l as [|x l]; [exfalso; simpl in *; lia|]; expose l n'
  end.

(** Reading back a little-endian field byte by byte. *)
Lemma le2_expand v : in_width 16 v ->
  v mod 256 + 256 * ((v / 256) mod 256 + 256 * 0) = v.
Proof. apply (le_val_le_bytes 2). Qed.
Lemma le4_expand v : in_width 32 v ->
  v mod 256 + 256 * ((v / 256) mod 256 + 256 * ((v / 256 / 256) mod 256
    + 256 * ((v / 256 / 256 / 256) mod 256 + 256 * 0))) = v.
Proof. apply (le_val_le_bytes 4). Qed.
Lemma le8_expand v : in_width 64 v ->
  v mod 256 + 256 * ((v / 256) mod 256 + 256 * ((v / 256 / 256) mod 256
    + 256 * ((v / 256 / 256 / 256) mod 256 + 256 * ((v / 256 / 256 / 256 / 256) mod 256
    + 256 * ((v / 256 / 256 / 256 / 256 / 256) mod 256
    + 256 * ((v / 256 / 256 / 256 / 256 / 256 / 256) mod 256
    + 256 * ((v / 256 / 256 / 256 / 256 / 256 / 256 / 256) mod 256 + 256 * 0))))))) = v.
Proof. apply (le_val_le_bytes 8). Qed.

Create Rewrite HintDb le.
#[export] Hint Rewrite le2_expand le4_expand le8_expand using assumption : le.
