(* ===== verification/Utf8.v ===== *)
(** * UTF-8

    The Standard Library's [String::from_utf8] and [String::from_utf8_lossy],
    which the object dictionary and the ident response call: a string of the
    source is the list of its bytes, valid in the sense of [utf8_valid]. *)
From S2P Require Import Prelude.

Definition in_range (lo hi b : Z) : bool := (lo <=? b) && (b <=? hi).
Definition cont (b : Z) : bool := in_range 0x80 0xBF b.

(** The second byte a three- or four-byte lead allows. *)
Definition second_ok (b0 b1 : Z) : bool :=
  if b0 =? 0xE0 then in_range 0xA0 0xBF b1
  else if b0 =? 0xED then in_range 0x80 0x9F b1
  else if b0 =? 0xF0 then in_range 0x90 0xBF b1
  else if b0 =? 0xF4 then in_range 0x80 0x8F b1
  else cont b1.

(** The first character of a non-empty string: its length, or the length of the
    invalid prefix to reject (a missing byte reads as 0, which no position
    allows). *)
Definition utf8_step (l : bytes) : bool * nat :=
  let b0 := byte_at l 0 in
  let b1 := byte_at l 1 in
  let b2 := byte_at l 2 in
  let b3 := byte_at l 3 in
  if b0 <? 0x80 then (true, 1%nat)
  else if in_range 0xC2 0xDF b0 then
    if cont b1 then (true, 2%nat) else (false, 1%nat)
  else if in_range 0xE0 0xEF b0 then
    if second_ok b0 b1 then if cont b2 then (true, 3%nat) else (false, 2%nat) else (false, 1%nat)
  else if in_range 0xF0 0xF4 b0 then
    if second_ok b0 b1 then
      if cont b2 then if cont b3 then (true, 4%nat) else (false, 3%nat) else (false, 2%nat)
    else (false, 1%nat)
  else (false, 1%nat).

(** One character is at least one byte, so the length is enough fuel. *)
Fixpoint utf8_valid_fuel (fuel : nat) (l : bytes) : bool :=
  match l, fuel with
  | [], _ => true
  | _, O => false
  | _, S fuel =>
      let '(ok, n) := utf8_step l in
      if ok then utf8_valid_fuel fuel (drop n l) else false
  end.
Definition utf8_valid (l : bytes) : bool := utf8_valid_fuel (length l) l.

(** [String::from_utf8]. *)
Definition from_utf8 (l : bytes) : option bytes := if utf8_valid l then Some l else None.

(** The replacement character U+FFFD. *)
Definition replacement : bytes := [0xEF; 0xBF; 0xBD].

Fixpoint from_utf8_lossy_fuel (fuel : nat) (l : bytes) : bytes :=
  match l, fuel with
  | [], _ => []
  | _, O => []
  | _, S fuel =>
      let '(ok, n) := utf8_step l in
      (if ok then take n l else replacement) ++ from_utf8_lossy_fuel fuel (drop n l)
  end.
Definition from_utf8_lossy (l : bytes) : bytes := from_utf8_lossy_fuel (length l) l.

(** ** Facts *)
Lemma utf8_step_pos l : (1 <= snd (utf8_step l) <= 4)%nat.
Proof. unfold utf8_step. repeat case_if; simpl; lia. Qed.

Lemma in_range_0 lo hi : 0 < lo -> in_range lo hi 0 = false.
Proof. intros. unfold in_range. destruct (Z.leb_spec lo 0); [lia|done]. Qed.

Lemma second_ok_0 b : second_ok b 0 = false.
Proof. unfold second_ok, cont. by repeat case_if; rewrite ?in_range_0 in *. Qed.

(** The branches of [utf8_step] that a hypothesis about its result allows. *)
Ltac step_cases H :=
  repeat match type of H with
    | context [if ?b then _ else _] => let E := fresh "E" in destruct b eqn:E
    end; simpl in H; try discriminate H;
  repeat match goal with
    | E : second_ok _ 0 = true |- _ => by rewrite second_ok_0 in E
    | E : cont 0 = true |- _ => discriminate E
    end.

(** A complete character lies inside the string. *)
Lemma utf8_step_complete l : l <> [] -> fst (utf8_step l) = true ->
  (snd (utf8_step l) <= length l)%nat.
Proof.
  intros Hl. unfold utf8_step, byte_at.
  destruct l as [|a [|b [|c [|d l]]]]; [done|..]; simpl; intros Ht; step_cases Ht; simpl; lia.
Qed.

Lemma utf8_step_app l r :
  l <> [] -> fst (utf8_step l) = true -> utf8_step (l ++ r) = utf8_step l.
Proof.
  intros Hl. unfold utf8_step, byte_at.
  destruct l as [|a [|b [|c [|d l]]]]; [done|..]; simpl; intros Ht; step_cases Ht; done.
Qed.

Lemma utf8_valid_fuel_enough l n m :
  (length l <= n)%nat -> (length l <= m)%nat -> utf8_valid_fuel n l = utf8_valid_fuel m l.
Proof.
  revert l m. induction n as [|n IH]; intros [|b l] m Hn Hm;
    try (by destruct m); try (simpl in Hn; lia).
  destruct m as [|m]; [simpl in Hm; lia|]. cbn [utf8_valid_fuel].
  pose proof (utf8_step_pos (b :: l)). destruct (utf8_step (b :: l)) as [[] k]; [|done].
  apply IH; rewrite length_drop; simpl in *; lia.
Qed.

(** The unfolding of [utf8_valid], without its fuel. *)
Lemma utf8_valid_step l : l <> [] ->
  utf8_valid l = fst (utf8_step l) && utf8_valid (drop (snd (utf8_step l)) l).
Proof.
  intros Hl. unfold utf8_valid at 1. destruct l as [|b l]; [done|]. cbn [length utf8_valid_fuel].
  pose proof (utf8_step_pos (b :: l)). destruct (utf8_step (b :: l)) as [[] k]; [|done].
  simpl fst. simpl snd. rewrite andb_true_l. apply utf8_valid_fuel_enough; [|done].
  rewrite length_drop. simpl in *. lia.
Qed.

Lemma utf8_valid_cons_char c l :
  c <> [] -> utf8_step c = (true, length c) -> utf8_valid (c ++ l) = utf8_valid l.
Proof.
  intros Hc Hs. rewrite utf8_valid_step by (by destruct c).
  rewrite utf8_step_app by (done || by rewrite Hs). rewrite Hs. simpl. by rewrite drop_app_length.
Qed.

(** A character is one whatever follows it. *)
Lemma utf8_step_take l :
  l <> [] -> fst (utf8_step l) = true ->
  take (snd (utf8_step l)) l <> [] /\
  utf8_step (take (snd (utf8_step l)) l) = (true, length (take (snd (utf8_step l)) l)).
Proof.
  intros Hl. unfold utf8_step, byte_at.
  destruct l as [|a [|b [|c [|d l]]]]; [done|..]; simpl; intros Ht; step_cases Ht; simpl;
    split; try done; unfold byte_at; simpl;
    repeat match goal with H : ?x = _ |- context [?x] => rewrite H end; done.
Qed.

(** Ill-formed input is always replaced by valid text, valid input is kept. *)
Lemma from_utf8_lossy_fuel_valid n l :
  (length l <= n)%nat -> utf8_valid (from_utf8_lossy_fuel n l) = true.
Proof.
  revert l. induction n as [|n IH]; intros [|b l] Hn; try done. cbn [from_utf8_lossy_fuel].
  pose proof (utf8_step_pos (b :: l)) as Hp.
  pose proof (utf8_step_take (b :: l)) as Ht. specialize (Ht ltac:(done)).
  specialize (IH (drop (snd (utf8_step (b :: l))) (b :: l))).
  rewrite length_drop in IH. specialize (IH ltac:(simpl in *; lia)).
  destruct (utf8_step (b :: l)) as [[] k]; cbn [fst snd] in *.
  - destruct (Ht eq_refl) as [??]. by rewrite utf8_valid_cons_char.
  - by rewrite utf8_valid_cons_char.
Qed.

Lemma from_utf8_lossy_valid l : utf8_valid (from_utf8_lossy l) = true.
Proof. by apply from_utf8_lossy_fuel_valid. Qed.

Lemma from_utf8_lossy_id l : utf8_valid l = true -> from_utf8_lossy l = l.
Proof.
  unfold from_utf8_lossy, utf8_valid. generalize (length l) as n. intros n. revert l.
  induction n as [|n IH]; intros [|b l]; try done.
  cbn [from_utf8_lossy_fuel utf8_valid_fuel]. destruct (utf8_step (b :: l)) as [[] k]; [|done].
  intros Hv. rewrite IH by done. apply take_drop.
Qed.
