(* ===== verification/Types.v ===== *)
(** * Protocol types

    The enumerations, newtypes and error type shared by every layer:
    [types.rs], [common.rs], [hal.rs] (the error type), [nmt/states.rs],
    [nmt/events.rs], [nmt/flags.rs] and [frame/error/types.rs].  An enum with
    [#[repr(u8)]] is an inductive type with its discriminant function and its
    [TryFrom<u8>]; the class [ByteEnum] is what the frame codecs need of the
    two. *)
From S2P Require Import Prelude.

(** ** Errors ([hal.rs]) *)
Inductive PowerlinkError : Type :=
| BufferTooShort | IoError | InvalidEthernetFrame | InvalidPlFrame
| InvalidMessageType (v : Z) | InvalidNmtState (v : Z) | InvalidServiceId (v : Z)
| InvalidRequestedServiceId (v : Z) | InvalidNodeId (v : Z) | InvalidPayloadSize (v : Z)
| InvalidEnumValue | SliceConversion | FrameTooLarge | NotReady
| ObjectNotFound | SubObjectNotFound | TypeMismatch
| StorageError (s : string) | ValidationError (s : string) | SdoSequenceError (s : string)
| SdoAborted (code : Z) | SdoInvalidCommandPayload | PdoMapOverrun | InternalError (s : string).

#[export] Instance PowerlinkError_eq_dec : EqDecision PowerlinkError.
Proof. solve_decision. Defined.

(** [Result<A, PowerlinkError>]. *)
Abbreviation res A := (result PowerlinkError A).

(** A fieldless enum with its wire value, and the parser of that value. *)
Class ByteEnum (A : Type) : Type := {
  to_u8 : A -> Z;
  from_u8 : Z -> res A;
  to_u8_range : forall a, byte_ok (to_u8 a);
  from_to_u8 : forall a, from_u8 (to_u8 a) = Ok a;
  to_from_u8 : forall v a, from_u8 v = Ok a -> to_u8 a = v
}.

(** Closes the three laws for a concrete enum. *)
Ltac byte_enum :=
  first
    [ by intros []
    | by intros []; unfold byte_ok, in_width; simpl; lia
    | let H := fresh in
      intros ? ? H; match type of H with ?f _ = _ => unfold f in H end;
      repeat case_match; simplify_eq; done ].

(** ** Node addresses ([types.rs])

    [NodeId] wraps a [u8]; it is that integer here. *)
Abbreviation NodeId := Z.
Definition C_ADR_MN_DEF_NODE_ID : NodeId := 240.
Definition C_ADR_DIAG_DEF_NODE_ID : NodeId := 253.
Definition C_ADR_RT1_DEF_NODE_ID : NodeId := 254.
Definition C_ADR_BROADCAST_NODE_ID : NodeId := 255.
Definition C_DLL_ETHERTYPE_EPL : Z := 0x88AB.
Definition C_DLL_ISOCHR_MAX_PAYL : Z := 1490.

(** [TryFrom<u8> for NodeId], its error already converted to
    [PowerlinkError::InvalidNodeId]. *)
Definition NodeId_try_from (value : Z) : res NodeId :=
  if ((1 <=? value) && (value <=? C_ADR_MN_DEF_NODE_ID))%Z then Ok value
  else if (value =? C_ADR_DIAG_DEF_NODE_ID) || (value =? C_ADR_RT1_DEF_NODE_ID)
          || (value =? C_ADR_BROADCAST_NODE_ID) then Ok value
  else Err (InvalidNodeId value).

(** ** Message types ([types.rs]) *)
Inductive MessageType : Type := MT_SoC | MT_PReq | MT_PRes | MT_SoA | MT_ASnd.

#[export] Instance MessageType_eq_dec : EqDecision MessageType.
Proof. solve_decision. Defined.

Definition MessageType_as_u8 (m : MessageType) : Z :=
  match m with
  | MT_SoC => 0x01 | MT_PReq => 0x03 | MT_PRes => 0x04 | MT_SoA => 0x05 | MT_ASnd => 0x06
  end.

(** [TryFrom<u8>]; [From<InvalidMessageTypeError>] turns its error into
    [InvalidEnumValue]. *)
Definition MessageType_try_from (value : Z) : res MessageType :=
  match value with
  | 0x01 => Ok MT_SoC
  | 0x03 => Ok MT_PReq
  | 0x04 => Ok MT_PRes
  | 0x05 => Ok MT_SoA
  | 0x06 => Ok MT_ASnd
  | _ => Err InvalidEnumValue
  end.

#[export, refine] Instance MessageType_enum : ByteEnum MessageType :=
  { to_u8 := MessageType_as_u8; from_u8 := MessageType_try_from }.
Proof. all: byte_enum. Defined.

(** ** NMT states ([nmt/states.rs]) *)
Inductive NodeType : Type := ControlledNode | ManagingNode.

Inductive NmtState : Type :=
| NmtGsOff | NmtGsInitialising | NmtGsResetApplication
| NmtGsResetCommunication | NmtGsResetConfiguration
| NmtNotActive | NmtPreOperational1 | NmtPreOperational2
| NmtReadyToOperate | NmtOperational | NmtCsStopped | NmtBasicEthernet.

#[export] Instance NmtState_eq_dec : EqDecision NmtState.
Proof. solve_decision. Defined.

Definition NmtState_as_u8 (s : NmtState) : Z :=
  match s with
  | NmtGsOff => 0x00
  | NmtGsInitialising => 0x19
  | NmtGsResetApplication => 0x29
  | NmtGsResetCommunication => 0x39
  | NmtGsResetConfiguration => 0x79
  | NmtNotActive => 0x1C
  | NmtPreOperational1 => 0x1D
  | NmtPreOperational2 => 0x5D
  | NmtReadyToOperate => 0x6D
  | NmtOperational => 0xFD
  | NmtCsStopped => 0x4D
  | NmtBasicEthernet => 0x1E
  end.

Definition NmtState_try_from (value : Z) : res NmtState :=
  match value with
  | 0x00 => Ok NmtGsOff
  | 0x19 => Ok NmtGsInitialising
  | 0x29 => Ok NmtGsResetApplication
  | 0x39 => Ok NmtGsResetCommunication
  | 0x79 => Ok NmtGsResetConfiguration
  | 0x1C => Ok NmtNotActive
  | 0x1D => Ok NmtPreOperational1
  | 0x5D => Ok NmtPreOperational2
  | 0x6D => Ok NmtReadyToOperate
  | 0xFD => Ok NmtOperational
  | 0x4D => Ok NmtCsStopped
  | 0x1E => Ok NmtBasicEthernet
  | _ => Err (InvalidNmtState value)
  end.

Definition from_u8_with_context (value : Z) (_node_type : NodeType) : res NmtState :=
  match value with
  | 0x1C => Ok NmtNotActive
  | 0x1D => Ok NmtPreOperational1
  | 0x5D => Ok NmtPreOperational2
  | 0x6D => Ok NmtReadyToOperate
  | 0xFD => Ok NmtOperational
  | 0x1E => Ok NmtBasicEthernet
  | _ => NmtState_try_from value
  end.

#[export, refine] Instance NmtState_enum : ByteEnum NmtState :=
  { to_u8 := NmtState_as_u8; from_u8 := NmtState_try_from }.
Proof. all: byte_enum. Defined.

(** [#[derive(PartialOrd)]]: variants compare by their discriminants. *)
Definition nmt_leb (a b : NmtState) : bool := NmtState_as_u8 a <=? NmtState_as_u8 b.
Definition nmt_ltb (a b : NmtState) : bool := NmtState_as_u8 a <? NmtState_as_u8 b.

(** ** NMT commands and events ([nmt/events.rs]) *)
Inductive NmtStateCommand : Type :=
| Cmd_StartNode | Cmd_StopNode | Cmd_EnterPreOperational2 | Cmd_EnableReadyToOperate
| Cmd_ResetNode | Cmd_ResetCommunication | Cmd_ResetConfiguration | Cmd_SwReset.

#[export] Instance NmtStateCommand_eq_dec : EqDecision NmtStateCommand.
Proof. solve_decision. Defined.

Definition NmtStateCommand_as_u8 (c : NmtStateCommand) : Z :=
  match c with
  | Cmd_StartNode => 0x21 | Cmd_StopNode => 0x22 | Cmd_EnterPreOperational2 => 0x23
  | Cmd_EnableReadyToOperate => 0x24 | Cmd_ResetNode => 0x28
  | Cmd_ResetCommunication => 0x29 | Cmd_ResetConfiguration => 0x2A | Cmd_SwReset => 0x2B
  end.

Definition NmtStateCommand_try_from (value : Z) : res NmtStateCommand :=
  match value with
  | 0x21 => Ok Cmd_StartNode
  | 0x22 => Ok Cmd_StopNode
  | 0x23 => Ok Cmd_EnterPreOperational2
  | 0x24 => Ok Cmd_EnableReadyToOperate
  | 0x28 => Ok Cmd_ResetNode
  | 0x29 => Ok Cmd_ResetCommunication
  | 0x2A => Ok Cmd_ResetConfiguration
  | 0x2B => Ok Cmd_SwReset
  | _ => Err InvalidEnumValue
  end.

#[export, refine] Instance NmtStateCommand_enum : ByteEnum NmtStateCommand :=
  { to_u8 := NmtStateCommand_as_u8; from_u8 := NmtStateCommand_try_from }.
Proof. all: byte_enum. Defined.

Inductive NmtManagingCommand : Type := NmtNetHostNameSet | NmtFlushArpEntry.

#[export] Instance NmtManagingCommand_eq_dec : EqDecision NmtManagingCommand.
Proof. solve_decision. Defined.

Definition NmtManagingCommand_as_u8 (c : NmtManagingCommand) : Z :=
  match c with NmtNetHostNameSet => 0x62 | NmtFlushArpEntry => 0x63 end.

Definition NmtManagingCommand_try_from (value : Z) : res NmtManagingCommand :=
  match value with
  | 0x62 => Ok NmtNetHostNameSet
  | 0x63 => Ok NmtFlushArpEntry
  | _ => Err InvalidEnumValue
  end.

#[export, refine] Instance NmtManagingCommand_enum : ByteEnum NmtManagingCommand :=
  { to_u8 := NmtManagingCommand_as_u8; from_u8 := NmtManagingCommand_try_from }.
Proof. all: byte_enum. Defined.

Inductive NmtServiceRequest : Type := Srv_IdentRequest | Srv_StatusRequest.

#[export] Instance NmtServiceRequest_eq_dec : EqDecision NmtServiceRequest.
Proof. solve_decision. Defined.

Definition NmtServiceRequest_as_u8 (s : NmtServiceRequest) : Z :=
  match s with Srv_IdentRequest => 0x01 | Srv_StatusRequest => 0x02 end.

Definition NmtServiceRequest_try_from (value : Z) : res NmtServiceRequest :=
  match value with
  | 0x01 => Ok Srv_IdentRequest
  | 0x02 => Ok Srv_StatusRequest
  | _ => Err InvalidEnumValue
  end.

#[export, refine] Instance NmtServiceRequest_enum : ByteEnum NmtServiceRequest :=
  { to_u8 := NmtServiceRequest_as_u8; from_u8 := NmtServiceRequest_try_from }.
Proof. all: byte_enum. Defined.

Inductive CnNmtRequest : Type :=
| CnReq_Command (c : NmtStateCommand)
| CnReq_Service (s : NmtServiceRequest).

Definition CnNmtRequest_as_u8 (r : CnNmtRequest) : Z :=
  match r with
  | CnReq_Command cmd => NmtStateCommand_as_u8 cmd
  | CnReq_Service srv => NmtServiceRequest_as_u8 srv
  end.

Inductive MnNmtCommandRequest : Type :=
| MnReq_State (c : NmtStateCommand)
| MnReq_Managing (c : NmtManagingCommand).

Definition MnNmtCommandRequest_as_u8 (r : MnNmtCommandRequest) : Z :=
  match r with
  | MnReq_State cmd => NmtStateCommand_as_u8 cmd
  | MnReq_Managing cmd => NmtManagingCommand_as_u8 cmd
  end.

Inductive NmtEvent : Type :=
| Ev_StartNode | Ev_StopNode | Ev_EnterPreOperational2 | Ev_EnableReadyToOperate
| Ev_Reset | Ev_SwReset | Ev_ResetNode | Ev_ResetCommunication | Ev_ResetConfiguration
| Ev_EnterEplMode | Ev_Timeout | Ev_Error
| Ev_SocSoAReceived | Ev_SocReceived | Ev_PowerlinkFrameReceived
| Ev_CnConfigurationComplete
| Ev_AllCnsIdentified | Ev_ConfigurationCompleteCnsReady | Ev_AllMandatoryCnsOperational.

#[export] Instance NmtEvent_eq_dec : EqDecision NmtEvent.
Proof. solve_decision. Defined.

(** [event as u8]: the enum has no explicit discriminants. *)
Definition NmtEvent_as_u8 (e : NmtEvent) : Z :=
  match e with
  | Ev_StartNode => 0 | Ev_StopNode => 1 | Ev_EnterPreOperational2 => 2
  | Ev_EnableReadyToOperate => 3 | Ev_Reset => 4 | Ev_SwReset => 5 | Ev_ResetNode => 6
  | Ev_ResetCommunication => 7 | Ev_ResetConfiguration => 8 | Ev_EnterEplMode => 9
  | Ev_Timeout => 10 | Ev_Error => 11 | Ev_SocSoAReceived => 12 | Ev_SocReceived => 13
  | Ev_PowerlinkFrameReceived => 14 | Ev_CnConfigurationComplete => 15
  | Ev_AllCnsIdentified => 16 | Ev_ConfigurationCompleteCnsReady => 17
  | Ev_AllMandatoryCnsOperational => 18
  end.

(** ** Feature flags ([nmt/flags.rs]): a [u32] bit mask. *)
Module FeatureFlags.
Definition ISOCHRONOUS : Z := Z.shiftl 1 0.
Definition SDO_UDP : Z := Z.shiftl 1 1.
Definition SDO_ASND : Z := Z.shiftl 1 2.
Definition SDO_PDO : Z := Z.shiftl 1 3.
Definition NMT_INFO_SERVICES : Z := Z.shiftl 1 4.
Definition EXTENDED_NMT_CMDS : Z := Z.shiftl 1 5.
Definition DYNAMIC_PDO_MAPPING : Z := Z.shiftl 1 6.
Definition NMT_SERVICE_UDP : Z := Z.shiftl 1 7.
Definition CONFIG_MANAGER : Z := Z.shiftl 1 8.
Definition MULTIPLEXED_ACCESS : Z := Z.shiftl 1 9.
Definition NODE_ID_BY_SW : Z := Z.shiftl 1 10.
Definition MN_BASIC_ETHERNET : Z := Z.shiftl 1 11.
Definition SDO_RW_ALL_BY_INDEX : Z := Z.shiftl 1 14.
Definition SDO_RW_MULTIPLE_BY_INDEX : Z := Z.shiftl 1 15.
Definition empty : Z := 0.
Definition contains (self other : Z) : bool := Z.land self other =? other.
Definition insert (self other : Z) : Z := Z.lor self other.
(** [self.0 &= !other.0]. *)
Definition remove (self other : Z) : Z := Z.ldiff self other.
Definition bitor (self rhs : Z) : Z := Z.lor self rhs.
End FeatureFlags.

(** ** DLL errors and actions ([frame/error/types.rs]) *)
Inductive NmtAction : Type :=
| Act_None | Act_ResetCommunication | Act_ResetNode (n : NodeId).

#[export] Instance NmtAction_eq_dec : EqDecision NmtAction.
Proof. solve_decision. Defined.

Inductive DllError : Type :=
| LossOfLink | BadPhysicalMode | MacBuffer | Crc | Collision | InvalidFormat
| LossOfSoc | LossOfSoa | LossOfPreq
| LossOfPres (node_id : NodeId) | LossOfStatusRes (node_id : NodeId)
| CycleTimeExceeded | LatePres (node_id : NodeId) | SoCJitter | MsWaitSoc
| MultipleMn | AddressConflict | MevAsndTimeout
| UnexpectedEventInState (state event : Z)
| PdoMapVersion (node_id : NodeId) | PdoPayloadShort (node_id : NodeId)
| HeartbeatTimeout (node_id : NodeId).

#[export] Instance DllError_eq_dec : EqDecision DllError.
Proof. solve_decision. Defined.

Definition to_error_code (e : DllError) : Z :=
  match e with
  | LossOfLink => 0x8165
  | BadPhysicalMode => 0x8161
  | MacBuffer => 0x8166
  | Crc => 0x8164
  | Collision => 0x8163
  | InvalidFormat => 0x8241
  | LossOfSoc => 0x8245
  | LossOfSoa => 0x8244
  | LossOfPreq => 0x8242
  | LossOfPres _ => 0x8243
  | LossOfStatusRes _ => 0x8246
  | CycleTimeExceeded => 0x8233
  | LatePres _ => 0x8236
  | SoCJitter => 0x8235
  | PdoMapVersion _ => 0x8211
  | PdoPayloadShort _ => 0x8210
  | HeartbeatTimeout _ => 0x8250
  | _ => 0x8000
  end.

(** ** Time stamps and addresses ([common.rs], [frame/basic.rs]) *)
Record NetTime : Type := mkNetTime { nt_seconds : Z; nt_nanoseconds : Z }.
Record RelativeTime : Type := mkRelativeTime { rt_seconds : Z; rt_nanoseconds : Z }.
Record TimeOfDay : Type := mkTimeOfDay { tod_ms : Z; tod_days : Z }.
Record TimeDifference : Type := mkTimeDifference { td_ms : Z; td_days : Z }.

#[export] Instance NetTime_eq_dec : EqDecision NetTime.
Proof. solve_decision. Defined.
#[export] Instance RelativeTime_eq_dec : EqDecision RelativeTime.
Proof. solve_decision. Defined.
#[export] Instance TimeOfDay_eq_dec : EqDecision TimeOfDay.
Proof. solve_decision. Defined.
#[export] Instance TimeDifference_eq_dec : EqDecision TimeDifference.
Proof. solve_decision. Defined.

(** A MAC address is its six octets. *)
Abbreviation MacAddress := bytes.
Definition mac_ok (m : MacAddress) : Prop := length m = 6%nat /\ bytes_ok m.

Definition C_DLL_MULTICAST_SOC : MacAddress := [0x01; 0x11; 0x1E; 0x00; 0x00; 0x01].
Definition C_DLL_MULTICAST_PRES : MacAddress := [0x01; 0x11; 0x1E; 0x00; 0x00; 0x02].
Definition C_DLL_MULTICAST_SOA : MacAddress := [0x01; 0x11; 0x1E; 0x00; 0x00; 0x03].
Definition C_DLL_MULTICAST_ASND : MacAddress := [0x01; 0x11; 0x1E; 0x00; 0x00; 0x04].

Definition is_multicast (m : MacAddress) : bool := negb (Z.land (byte_at m 0) 0x01 =? 0).
Definition is_broadcast (m : MacAddress) : bool :=
  bool_decide (m = replicate 6 0xFF).

Definition net_time_ok (t : NetTime) : Prop :=
  in_width 32 (nt_seconds t) /\ in_width 32 (nt_nanoseconds t).
Definition relative_time_ok (t : RelativeTime) : Prop :=
  in_width 32 (rt_seconds t) /\ in_width 32 (rt_nanoseconds t).

(** ** Facts about the enumerations *)
Lemma NodeId_try_from_ok v n :
  NodeId_try_from v = Ok n -> n = v /\ (1 <= v <= 240 \/ 253 <= v <= 255).
Proof.
  unfold NodeId_try_from, C_ADR_MN_DEF_NODE_ID, C_ADR_DIAG_DEF_NODE_ID,
    C_ADR_RT1_DEF_NODE_ID, C_ADR_BROADCAST_NODE_ID.
  repeat case_match; intros; simplify_eq; lia.
Qed.

Lemma from_u8_with_context_try_from v nt : from_u8_with_context v nt = NmtState_try_from v.
Proof. unfold from_u8_with_context. repeat case_match; done. Qed.

(** The operating states are ordered as the boot sequence reaches them. *)
Lemma nmt_boot_order :
  nmt_ltb NmtNotActive NmtPreOperational1 = true /\
  nmt_ltb NmtPreOperational1 NmtPreOperational2 = true /\
  nmt_ltb NmtPreOperational2 NmtReadyToOperate = true /\
  nmt_ltb NmtReadyToOperate NmtOperational = true.
Proof. done. Qed.

(** Parsing a discriminant, in the concrete form the codecs meet. *)
Create Rewrite HintDb enum.
Lemma NmtState_round s : NmtState_try_from (NmtState_as_u8 s) = Ok s.
Proof. exact (from_to_u8 s). Qed.
Lemma MessageType_round s : MessageType_try_from (MessageType_as_u8 s) = Ok s.
Proof. exact (from_to_u8 s). Qed.
Lemma NmtStateCommand_round s : NmtStateCommand_try_from (NmtStateCommand_as_u8 s) = Ok s.
Proof. exact (from_to_u8 s). Qed.
#[export] Hint Rewrite NmtState_round MessageType_round NmtStateCommand_round : enum.
