(* ===== verification/Platform.v ===== *)
(** * The network interface

    The trait [NetworkInterface] of [hal.rs] and its implementation
    [LinuxPnetInterface] of [src/crates/powerlink-rs-linux/src/lib.rs], without the optional
    packet capture, which is in [Platforms] with [WindowsPnetInterface].  The raw channel and the UDP
    socket are the operating system's and parameters. *)
From S2P Require Import Prelude Types.

(** ** The trait *)
Class NetworkInterface (I : Type) : Type := {
  send_frame : I -> bytes -> I * res unit;
  (** The interface, the buffer, and the number of octets. *)
  receive_frame : I -> bytes -> I * bytes * res Z;
  local_node_id : I -> Z;
  local_mac_address : I -> bytes;
  send_udp : I -> bytes -> Z -> bytes -> I * res unit;
  receive_udp : I -> bytes -> I * bytes * res (option (Z * bytes * Z));
  local_ip_address : I -> bytes
}.

(** What the loops over an interface rely on: a buffer keeps its length, as a slice does, and
    no more octets are announced than it has. *)
Class InterfaceLaws (I : Type) `{NetworkInterface I} : Prop := {
  receive_frame_length : forall i buf i' buf' r, receive_frame i buf = (i', buf', r) ->
    length buf' = length buf /\ forall n, r = Ok n -> 0 <= n <= len buf;
  receive_udp_length : forall i buf i' buf' r, receive_udp i buf = (i', buf', r) ->
    length buf' = length buf /\ forall n ip port, r = Ok (Some (n, ip, port)) -> 0 <= n <= len buf
}.

(** ** The operating system *)
Inductive ErrorKind : Type := TimedOut | WouldBlock | OtherKind.
Inductive SocketAddr : Type := Addr_V4 (ip : bytes) (port : Z) | Addr_V6 (ip : bytes) (port : Z).

(** [DataLinkSender] and [DataLinkReceiver] of the crate [pnet]; [None]: the channel is closed. *)
Class RawChannel (T R : Type) : Type := {
  tx_send_to : T -> bytes -> T * option (result ErrorKind unit);
  rx_next : R -> R * result ErrorKind bytes
}.
(** [std::net::UdpSocket]. *)
Class Socket (U : Type) : Type := {
  sock_send_to : U -> bytes -> SocketAddr -> U * result ErrorKind Z;
  recv_from : U -> bytes -> U * bytes * result ErrorKind (Z * SocketAddr)
}.
(** A datagram is written to the front of the buffer, and the excess is lost. *)
Class SocketLaws (U : Type) `{Socket U} : Prop := {
  recv_from_length : forall u buf u' buf' r, recv_from u buf = (u', buf', r) ->
    length buf' = length buf /\ forall n addr, r = Ok (n, addr) -> 0 <= n <= len buf
}.

(** An interface as [datalink::interfaces] lists it. *)
Record PnetInterface : Type := mkPnet {
  pnet_name : bytes; pnet_mac : option bytes; pnet_ips : list SocketAddr }.
(** The outcomes of [datalink::channel]. *)
Inductive Channel (T R : Type) : Type := Channel_Ethernet (tx : T) (rx : R) | Channel_Other.
Arguments Channel_Ethernet {T R} tx rx.
Arguments Channel_Other {T R}.
Class System (T R U : Type) : Type := {
  interfaces : list PnetInterface;
  (** With the read time-out in microseconds. *)
  channel : PnetInterface -> Z -> result ErrorKind (Channel T R);
  bind : bytes -> Z -> result ErrorKind U;
  set_nonblocking : U -> result ErrorKind U
}.

Definition C_SDO_EPL_PORT : Z := 3819.

(** The messages [new] fails with, by what they say. *)
Inductive InterfaceError : Type :=
| If_NotFound (interface_name : bytes) | If_NoMac | If_UnsupportedChannel | If_ChannelError (e : ErrorKind)
| If_NoIpv4 (interface_name : bytes) | If_Bind (ip : bytes) (port : Z) (e : ErrorKind)
| If_Nonblocking (e : ErrorKind).

(** ** [LinuxPnetInterface] *)
Record LinuxPnetInterface (T R U : Type) : Type := mkLinux {
  tx_raw : T; rx_raw : R; pnet_iface : PnetInterface; lx_node_id : Z; lx_mac_address : bytes;
  udp_socket : U; lx_local_ip_address : bytes }.
Arguments mkLinux {T R U}.
Arguments tx_raw {T R U}.
Arguments rx_raw {T R U}.
Arguments pnet_iface {T R U}.
Arguments lx_node_id {T R U}.
Arguments lx_mac_address {T R U}.
Arguments udp_socket {T R U}.
Arguments lx_local_ip_address {T R U}.

Section Linux.
Context {T R U : Type} `{RC : RawChannel T R} `{SK : Socket U}.
Implicit Types i : LinuxPnetInterface T R U.

Definition with_channel i (tx : T) (rx : R) : LinuxPnetInterface T R U :=
  mkLinux tx rx (pnet_iface i) (lx_node_id i) (lx_mac_address i) (udp_socket i) (lx_local_ip_address i).
Definition with_socket i (u : U) : LinuxPnetInterface T R U :=
  mkLinux (tx_raw i) (rx_raw i) (pnet_iface i) (lx_node_id i) (lx_mac_address i) u (lx_local_ip_address i).

Definition first_ipv4 (ips : list SocketAddr) : option bytes :=
  match List.find (fun a => match a with Addr_V4 _ _ => true | Addr_V6 _ _ => false end) ips with
  | Some (Addr_V4 ip _) => Some ip
  | _ => None
  end.

Definition LinuxPnetInterface_new `{SY : System T R U} (interface_name : bytes) (node_id : Z)
    : result InterfaceError (LinuxPnetInterface T R U) :=
  let? interface :=
    ok_or (List.find (fun iface => bool_decide (pnet_name iface = interface_name)) interfaces)
      (If_NotFound interface_name) in
  let? mac_address := ok_or (pnet_mac interface) If_NoMac in
  match channel interface 1000 with
  | Ok (Channel_Ethernet tx_raw rx_raw) =>
      let? local_ip := ok_or (first_ipv4 (pnet_ips interface)) (If_NoIpv4 interface_name) in
      match bind local_ip C_SDO_EPL_PORT with
      | Ok udp_socket =>
          match set_nonblocking udp_socket with
          | Ok udp_socket => Ok (mkLinux tx_raw rx_raw interface node_id mac_address udp_socket local_ip)
          | Err e => Err (If_Nonblocking e)
          end
      | Err e => Err (If_Bind local_ip C_SDO_EPL_PORT e)
      end
  | Ok Channel_Other => Err If_UnsupportedChannel
  | Err e => Err (If_ChannelError e)
  end.

Definition set_read_timeout `{SY : System T R U} (duration_us : Z) i : LinuxPnetInterface T R U * res unit :=
  match channel (pnet_iface i) duration_us with
  | Ok (Channel_Ethernet tx rx) => (with_channel i tx rx, Ok tt)
  | Ok Channel_Other | Err _ => (i, Err IoError)
  end.

Definition linux_send_frame i (frame : bytes) : LinuxPnetInterface T R U * res unit :=
  let '(tx, r) := tx_send_to (tx_raw i) frame in
  (with_channel i tx (rx_raw i), match r with Some (Ok _) => Ok tt | _ => Err IoError end).

Definition linux_receive_frame i (buffer : bytes) : LinuxPnetInterface T R U * bytes * res Z :=
  let '(rx, r) := rx_next (rx_raw i) in
  let i := with_channel i (tx_raw i) rx in
  match r with
  | Ok frame =>
      if (length frame <=? length buffer)%nat
      then (i, frame ++ drop (length frame) buffer, Ok (len frame))
      else (i, buffer, Err BufferTooShort)
  | Err TimedOut => (i, buffer, Ok 0)
  | Err _ => (i, buffer, Err IoError)
  end.

Definition linux_send_udp i (dest_ip : bytes) (dest_port : Z) (data : bytes)
    : LinuxPnetInterface T R U * res unit :=
  let '(u, r) := sock_send_to (udp_socket i) data (Addr_V4 dest_ip dest_port) in
  (with_socket i u, match r with Ok _ => Ok tt | Err _ => Err IoError end).

Definition linux_receive_udp i (buffer : bytes)
    : LinuxPnetInterface T R U * bytes * res (option (Z * bytes * Z)) :=
  let '(u, buffer, r) := recv_from (udp_socket i) buffer in
  (with_socket i u, buffer,
   match r with
   | Ok (size, Addr_V4 src_ip src_port) => Ok (Some (size, src_ip, src_port))
   | Ok (_, Addr_V6 _ _) => Ok None
   | Err WouldBlock => Ok None
   | Err _ => Err IoError
   end).

#[export] Instance Linux_interface : NetworkInterface (LinuxPnetInterface T R U) :=
  { send_frame := linux_send_frame; receive_frame := linux_receive_frame;
    local_node_id := lx_node_id; local_mac_address := lx_mac_address;
    send_udp := linux_send_udp; receive_udp := linux_receive_udp;
    local_ip_address := lx_local_ip_address }.

#[export] Instance Linux_laws `{!SocketLaws U} : InterfaceLaws (LinuxPnetInterface T R U).
Proof.
  split.
  - intros i buf i' buf' r. cbn [receive_frame Linux_interface]. unfold linux_receive_frame.
    destruct (rx_next (rx_raw i)) as [rx [frame|[]]]; cbv zeta; try (intros [= <- <- <-]; split; [done|]; intros n [= <-];
      unfold len; lia).
    destruct (Nat.leb_spec (length frame) (length buf)); intros [= <- <- <-]; [|done].
    split; [rewrite length_app, length_drop; lia|]. intros n [= <-]. unfold len. lia.
  - intros i buf i' buf' r. cbn [receive_udp Linux_interface]. unfold linux_receive_udp.
    destruct (recv_from (udp_socket i) buf) as [[u b] q] eqn:E. destruct (recv_from_length _ _ _ _ _ E) as [Hl Hn].
    intros [= <- <- <-]. split; [done|]. intros n ip port Hr.
    destruct q as [[size [a p|a p]]|[]]; simplify_eq. by eapply Hn.
Qed.
End Linux.
Arguments LinuxPnetInterface_new {T R U} {SY} interface_name node_id.

(** The octets a loop hands to the node are the frame received. *)
Lemma linux_receives {T R U} `{RC : RawChannel T R} `{SK : Socket U} (i : LinuxPnetInterface T R U) buf rx frame :
  rx_next (rx_raw i) = (rx, Ok frame) -> (length frame <= length buf)%nat ->
  exists i' buf', receive_frame i buf = (i', buf', Ok (len frame)) /\ take (Z.to_nat (len frame)) buf' = frame.
Proof.
  intros Hr Hl. cbn [receive_frame Linux_interface]. unfold linux_receive_frame. rewrite Hr. cbv zeta.
  destruct (Nat.leb_spec (length frame) (length buf)); [|lia]. eexists _, _. split; [done|].
  unfold len. rewrite Nat2Z.id. by rewrite take_app_length.
Qed.
