(* ===== verification/Frames.v ===== *)
(** * Frame codecs

    [frame/basic.rs], [frame/codec.rs], [frame/mod.rs], the SoC, SoA, ASnd,
    PReq and PRes codecs, and [serialize_frame_action] of [node/mod.rs].

    A serializer writes into a caller's buffer, so it is a function from the
    buffer to the buffer it leaves and the [Result] it returns.  The class
    [Codec] is the trait of the source; [CodecLaws] is what a frame codec
    promises to the code above it: the bytes it writes ([wire]), the one error
    it reports, and that parsing them gives the frame back. *)
From S2P Require Import Prelude Types.

(** ** Ethernet and POWERLINK headers ([frame/basic.rs], [frame/codec.rs]) *)
Record EthernetHeader : Type := mkEthernetHeader {
  destination_mac : MacAddress;
  source_mac : MacAddress;
  ether_type : Z
}.

#[export] Instance EthernetHeader_eq_dec : EqDecision EthernetHeader.
Proof. solve_decision. Defined.

Definition EthernetHeader_new (dest src : MacAddress) : EthernetHeader :=
  mkEthernetHeader dest src C_DLL_ETHERTYPE_EPL.

Definition is_powerlink (h : EthernetHeader) : bool := ether_type h =? C_DLL_ETHERTYPE_EPL.

Definition eth_ok (h : EthernetHeader) : Prop :=
  mac_ok (destination_mac h) /\ mac_ok (source_mac h) /\ ether_type h = C_DLL_ETHERTYPE_EPL.

Definition serialize_eth_header (header : EthernetHeader) (buffer : bytes) : bytes :=
  if (14 <=? length buffer)%nat then
    let buffer := put buffer 0 (destination_mac header) in
    let buffer := put buffer 6 (source_mac header) in
    put buffer 12 (be_bytes 2 (ether_type header))
  else buffer.

Definition serialize_pl_header (message_type : MessageType) (destination source : NodeId)
    (buffer : bytes) : bytes :=
  if (3 <=? length buffer)%nat then
    let buffer := put buffer 0 [MessageType_as_u8 message_type] in
    let buffer := put buffer 1 [destination] in
    put buffer 2 [source]
  else buffer.

Definition deserialize_eth_header (buffer : bytes) : res EthernetHeader :=
  if (length buffer <? 14)%nat then Err BufferTooShort else
  Ok {| destination_mac := slice buffer 0 6;
        source_mac := slice buffer 6 12;
        ether_type := be_val (slice buffer 12 14) |}.

Definition deserialize_pl_header (buffer : bytes) : res (MessageType * NodeId * NodeId) :=
  if (length buffer <? 3)%nat then Err BufferTooShort else
  let? message_type := MessageType_try_from (Z.land (byte_at buffer 0) 0x7F) in
  Ok (message_type, byte_at buffer 1, byte_at buffer 2).

(** ** The codec trait and its contract *)
Class Codec (F : Type) : Type := {
  serialize : F -> bytes -> bytes * res nat;
  deserialize : EthernetHeader -> bytes -> res F
}.

Class CodecLaws (F : Type) `{Codec F} : Type := {
  frame_eth : F -> EthernetHeader;
  frame_wf : F -> Prop;
  wire : F -> bytes;
  wire_min : forall f, (46 <= length (wire f))%nat;
  wire_ok : forall f, frame_wf f -> bytes_ok (wire f);
  wire_type : forall f, Z.land (byte_at (wire f) 0) 0x7F = byte_at (wire f) 0;
  serialize_fits : forall f buf, (length (wire f) <= length buf)%nat ->
    serialize f buf = (wire f ++ drop (length (wire f)) buf, Ok (length (wire f)));
  serialize_too_short : forall f buf, (length buf < length (wire f))%nat ->
    snd (serialize f buf) = Err BufferTooShort;
  deserialize_wire : forall f, frame_wf f -> deserialize (frame_eth f) (wire f) = Ok f
}.

(** The header as it is on the wire, and the padding to the minimum Ethernet
    payload. *)
Definition pl_header (t : MessageType) (d s : NodeId) : bytes := [MessageType_as_u8 t; d; s].
Definition pad46 (l : bytes) : bytes := l ++ replicate (46 - length l) 0.

Lemma length_pad46 l : length (pad46 l) = Nat.max (length l) 46.
Proof. unfold pad46. wire_len. Qed.

Lemma pad46_ok l : bytes_ok l -> bytes_ok (pad46 l).
Proof.
  intros. apply Forall_app. split; [done|]. apply Forall_replicate.
  unfold byte_ok, in_width. lia.
Qed.

Lemma serialize_pl_header_spec t d s buf :
  (3 <= length buf)%nat ->
  serialize_pl_header t d s buf = pl_header t d s ++ drop 3 buf.
Proof.
  intros H. unfold serialize_pl_header.
  replace (3 <=? length buf)%nat with true by (symmetry; apply Nat.leb_le; lia).
  rewrite put_0. put_chain. simpl. by rewrite !drop_drop.
Qed.

Lemma length_serialize_pl_header t d s buf :
  length (serialize_pl_header t d s buf) = length buf.
Proof.
  unfold serialize_pl_header. destruct (3 <=? length buf)%nat eqn:E; [|done].
  apply Nat.leb_le in E. by put_len.
Qed.

Lemma deserialize_pl_header_spec t d s rest :
  deserialize_pl_header (pl_header t d s ++ rest) = Ok (t, d, s).
Proof. unfold deserialize_pl_header, byte_at. destruct t; simpl; done. Qed.

(** ** SoC ([frame/control/soc.rs]) *)
Record SocFlags : Type := mkSocFlags { soc_mc : bool; soc_ps : bool }.
Record SocFrame : Type := mkSocFrame {
  soc_eth_header : EthernetHeader;
  soc_message_type : MessageType;
  soc_destination : NodeId;
  soc_source : NodeId;
  soc_flags : SocFlags;
  soc_net_time : NetTime;
  soc_relative_time : RelativeTime
}.

Definition SocFrame_new (source_mac : MacAddress) (flags : SocFlags) (net_time : NetTime)
    (relative_time : RelativeTime) : SocFrame :=
  {| soc_eth_header := EthernetHeader_new C_DLL_MULTICAST_SOC source_mac;
     soc_message_type := MT_SoC;
     soc_destination := C_ADR_BROADCAST_NODE_ID;
     soc_source := C_ADR_MN_DEF_NODE_ID;
     soc_flags := flags; soc_net_time := net_time; soc_relative_time := relative_time |}.

Definition SocFrame_serialize (f : SocFrame) (buffer : bytes) : bytes * res nat :=
  let pl_data_len := 22%nat in
  let min_eth_payload_after_header := 46%nat in
  if (length buffer <? pl_data_len)%nat then (buffer, Err BufferTooShort) else
  let buffer := serialize_pl_header (soc_message_type f) (soc_destination f) (soc_source f) buffer in
  let buffer := put buffer 3 [0] in
  let octet4 := 0 in
  let octet4 := if soc_mc (soc_flags f) then Z.lor octet4 (Z.shiftl 1 7) else octet4 in
  let octet4 := if soc_ps (soc_flags f) then Z.lor octet4 (Z.shiftl 1 6) else octet4 in
  let buffer := put buffer 4 [octet4] in
  let buffer := put buffer 5 [0] in
  let buffer := put buffer 6 (le_bytes 4 (nt_seconds (soc_net_time f))) in
  let buffer := put buffer 10 (le_bytes 4 (nt_nanoseconds (soc_net_time f))) in
  let buffer := put buffer 14 (le_bytes 4 (rt_seconds (soc_relative_time f))) in
  let buffer := put buffer 18 (le_bytes 4 (rt_nanoseconds (soc_relative_time f))) in
  let pl_frame_len := Nat.max pl_data_len min_eth_payload_after_header in
  if (length buffer <? pl_frame_len)%nat then (buffer, Err BufferTooShort) else
  (fill buffer pl_data_len pl_frame_len 0, Ok pl_frame_len).

Definition SocFrame_deserialize (eth_header : EthernetHeader) (buffer : bytes) : res SocFrame :=
  let pl_data_len := 22%nat in
  if (length buffer <? pl_data_len)%nat then Err BufferTooShort else
  let? (message_type, destination, source) := deserialize_pl_header buffer in
  if negb (bool_decide (message_type = MT_SoC)) then Err InvalidPlFrame else
  let octet4 := byte_at buffer 4 in
  Ok {| soc_eth_header := eth_header;
        soc_message_type := message_type;
        soc_destination := destination;
        soc_source := source;
        soc_flags := {| soc_mc := bit octet4 7; soc_ps := bit octet4 6 |};
        soc_net_time := {| nt_seconds := le_val (slice buffer 6 10);
                           nt_nanoseconds := le_val (slice buffer 10 14) |};
        soc_relative_time := {| rt_seconds := le_val (slice buffer 14 18);
                                rt_nanoseconds := le_val (slice buffer 18 22) |} |}.

#[export] Instance SocFrame_codec : Codec SocFrame :=
  { serialize := SocFrame_serialize; deserialize := SocFrame_deserialize }.

Definition SocFrame_wire (f : SocFrame) : bytes :=
  pl_header (soc_message_type f) (soc_destination f) (soc_source f) ++
  [0; flag (soc_mc (soc_flags f)) 128 + flag (soc_ps (soc_flags f)) 64; 0] ++
  le_bytes 4 (nt_seconds (soc_net_time f)) ++ le_bytes 4 (nt_nanoseconds (soc_net_time f)) ++
  le_bytes 4 (rt_seconds (soc_relative_time f)) ++
  le_bytes 4 (rt_nanoseconds (soc_relative_time f)) ++ replicate 24 0.

Definition SocFrame_wf (f : SocFrame) : Prop :=
  eth_ok (soc_eth_header f) /\ soc_message_type f = MT_SoC /\
  byte_ok (soc_destination f) /\ byte_ok (soc_source f) /\
  net_time_ok (soc_net_time f) /\ relative_time_ok (soc_relative_time f).

(** ** SoA ([frame/control/soa.rs]) *)
Inductive RequestedServiceId : Type :=
| Req_NoService | Req_IdentRequest | Req_StatusRequest | Req_NmtRequestInvite
| Req_UnspecifiedInvite.

#[export] Instance RequestedServiceId_eq_dec : EqDecision RequestedServiceId.
Proof. solve_decision. Defined.

Definition RequestedServiceId_as_u8 (s : RequestedServiceId) : Z :=
  match s with
  | Req_NoService => 0x00 | Req_IdentRequest => 0x01 | Req_StatusRequest => 0x02
  | Req_NmtRequestInvite => 0x03 | Req_UnspecifiedInvite => 0xFF
  end.

Definition RequestedServiceId_try_from (value : Z) : res RequestedServiceId :=
  match value with
  | 0x00 => Ok Req_NoService
  | 0x01 => Ok Req_IdentRequest
  | 0x02 => Ok Req_StatusRequest
  | 0x03 => Ok Req_NmtRequestInvite
  | 0xFF => Ok Req_UnspecifiedInvite
  | _ => Err (InvalidRequestedServiceId value)
  end.

#[export, refine] Instance RequestedServiceId_enum : ByteEnum RequestedServiceId :=
  { to_u8 := RequestedServiceId_as_u8; from_u8 := RequestedServiceId_try_from }.
Proof. all: byte_enum. Defined.

Record SoAFlags : Type := mkSoAFlags { soa_ea : bool; soa_er : bool }.
Record SoAFrame : Type := mkSoAFrame {
  soa_eth_header : EthernetHeader;
  soa_message_type : MessageType;
  soa_destination : NodeId;
  soa_source : NodeId;
  soa_nmt_state : NmtState;
  soa_flags : SoAFlags;
  soa_req_service_id : RequestedServiceId;
  soa_target_node_id : NodeId;
  soa_epl_version : Z
}.

Definition SoAFrame_new (source_mac : MacAddress) (nmt_state : NmtState) (flags : SoAFlags)
    (requested_service : RequestedServiceId) (target_node_id : NodeId) (epl_version : Z) : SoAFrame :=
  {| soa_eth_header := EthernetHeader_new C_DLL_MULTICAST_SOA source_mac;
     soa_message_type := MT_SoA;
     soa_destination := C_ADR_BROADCAST_NODE_ID;
     soa_source := C_ADR_MN_DEF_NODE_ID;
     soa_nmt_state := nmt_state; soa_flags := flags;
     soa_req_service_id := requested_service; soa_target_node_id := target_node_id;
     soa_epl_version := epl_version |}.

Definition SoAFrame_serialize (f : SoAFrame) (buffer : bytes) : bytes * res nat :=
  let pl_data_len := 9%nat in
  let min_eth_payload_after_header := 46%nat in
  if (length buffer <? pl_data_len)%nat then (buffer, Err BufferTooShort) else
  let buffer := serialize_pl_header (soa_message_type f) (soa_destination f) (soa_source f) buffer in
  let buffer := put buffer 3 [NmtState_as_u8 (soa_nmt_state f)] in
  let octet4 := 0 in
  let octet4 := if soa_ea (soa_flags f) then Z.lor octet4 (Z.shiftl 1 2) else octet4 in
  let octet4 := if soa_er (soa_flags f) then Z.lor octet4 (Z.shiftl 1 1) else octet4 in
  let buffer := put buffer 4 [octet4] in
  let buffer := put buffer 5 [0] in
  let buffer := put buffer 6 [RequestedServiceId_as_u8 (soa_req_service_id f)] in
  let buffer := put buffer 7 [soa_target_node_id f] in
  let buffer := put buffer 8 [soa_epl_version f] in
  let pl_frame_len := Nat.max pl_data_len min_eth_payload_after_header in
  if (length buffer <? pl_frame_len)%nat then (buffer, Err BufferTooShort) else
  (fill buffer pl_data_len pl_frame_len 0, Ok pl_frame_len).

Definition SoAFrame_deserialize (eth_header : EthernetHeader) (buffer : bytes) : res SoAFrame :=
  let pl_data_len := 9%nat in
  if (length buffer <? pl_data_len)%nat then Err BufferTooShort else
  let? (message_type, destination, source) := deserialize_pl_header buffer in
  if negb (bool_decide (message_type = MT_SoA)) then Err InvalidPlFrame else
  let? nmt_state := NmtState_try_from (byte_at buffer 3) in
  let octet4 := byte_at buffer 4 in
  let? req_service_id := RequestedServiceId_try_from (byte_at buffer 6) in
  Ok {| soa_eth_header := eth_header;
        soa_message_type := message_type;
        soa_destination := destination;
        soa_source := source;
        soa_nmt_state := nmt_state;
        soa_flags := {| soa_ea := bit octet4 2; soa_er := bit octet4 1 |};
        soa_req_service_id := req_service_id;
        soa_target_node_id := byte_at buffer 7;
        soa_epl_version := byte_at buffer 8 |}.

#[export] Instance SoAFrame_codec : Codec SoAFrame :=
  { serialize := SoAFrame_serialize; deserialize := SoAFrame_deserialize }.

Definition SoAFrame_wire (f : SoAFrame) : bytes :=
  pl_header (soa_message_type f) (soa_destination f) (soa_source f) ++
  [NmtState_as_u8 (soa_nmt_state f); flag (soa_ea (soa_flags f)) 4 + flag (soa_er (soa_flags f)) 2;
   0; RequestedServiceId_as_u8 (soa_req_service_id f); soa_target_node_id f; soa_epl_version f] ++
  replicate 37 0.

Definition SoAFrame_wf (f : SoAFrame) : Prop :=
  eth_ok (soa_eth_header f) /\ soa_message_type f = MT_SoA /\
  byte_ok (soa_destination f) /\ byte_ok (soa_source f) /\
  byte_ok (soa_target_node_id f) /\ byte_ok (soa_epl_version f).

(** ** ASnd ([frame/control/asnd.rs]) *)
Inductive ServiceId : Type :=
| Svc_IdentResponse | Svc_StatusResponse | Svc_NmtRequest | Svc_NmtCommand | Svc_Sdo
| NMTPublishTime | NMTPublishNMTState | NMTPublishNodeState | NMTPublishNodeList
| NMTPublishEmergNew | NMTPublishHeartbeat | NMTPublishActiveNodes.

#[export] Instance ServiceId_eq_dec : EqDecision ServiceId.
Proof. solve_decision. Defined.

Definition ServiceId_as_u8 (s : ServiceId) : Z :=
  match s with
  | Svc_IdentResponse => 0x01 | Svc_StatusResponse => 0x02 | Svc_NmtRequest => 0x03
  | Svc_NmtCommand => 0x04 | Svc_Sdo => 0x05
  | NMTPublishTime => 0x0B | NMTPublishNMTState => 0x0D | NMTPublishNodeState => 0x0E
  | NMTPublishNodeList => 0x0F | NMTPublishEmergNew => 0x10 | NMTPublishHeartbeat => 0x11
  | NMTPublishActiveNodes => 0x12
  end.

Definition ServiceId_try_from (value : Z) : res ServiceId :=
  match value with
  | 0x01 => Ok Svc_IdentResponse
  | 0x02 => Ok Svc_StatusResponse
  | 0x03 => Ok Svc_NmtRequest
  | 0x04 => Ok Svc_NmtCommand
  | 0x05 => Ok Svc_Sdo
  | 0x0B => Ok NMTPublishTime
  | 0x0D => Ok NMTPublishNMTState
  | 0x0E => Ok NMTPublishNodeState
  | 0x0F => Ok NMTPublishNodeList
  | 0x10 => Ok NMTPublishEmergNew
  | 0x11 => Ok NMTPublishHeartbeat
  | 0x12 => Ok NMTPublishActiveNodes
  | _ => Err (InvalidServiceId value)
  end.

#[export, refine] Instance ServiceId_enum : ByteEnum ServiceId :=
  { to_u8 := ServiceId_as_u8; from_u8 := ServiceId_try_from }.
Proof. all: byte_enum. Defined.

Record ASndFrame : Type := mkASndFrame {
  asnd_eth_header : EthernetHeader;
  asnd_message_type : MessageType;
  asnd_destination : NodeId;
  asnd_source : NodeId;
  asnd_service_id : ServiceId;
  asnd_payload : bytes
}.

Definition ASndFrame_new (source_mac dest_mac : MacAddress) (target_node_id source_node_id : NodeId)
    (service_id : ServiceId) (payload : bytes) : ASndFrame :=
  {| asnd_eth_header := EthernetHeader_new dest_mac source_mac;
     asnd_message_type := MT_ASnd;
     asnd_destination := target_node_id; asnd_source := source_node_id;
     asnd_service_id := service_id; asnd_payload := payload |}.

Definition ASndFrame_serialize (f : ASndFrame) (buffer : bytes) : bytes * res nat :=
  let pl_header_size := 4%nat in
  let total_pl_frame_size := (pl_header_size + length (asnd_payload f))%nat in
  let min_eth_payload_after_header := 46%nat in
  if (length buffer <? total_pl_frame_size)%nat then (buffer, Err BufferTooShort) else
  let buffer := serialize_pl_header (asnd_message_type f) (asnd_destination f) (asnd_source f) buffer in
  let buffer := put buffer 3 [ServiceId_as_u8 (asnd_service_id f)] in
  let payload_start := pl_header_size in
  let payload_end := total_pl_frame_size in
  let buffer := put buffer payload_start (asnd_payload f) in
  let pl_frame_len := payload_end in
  let padded_pl_len := Nat.max pl_frame_len min_eth_payload_after_header in
  if (pl_frame_len <? padded_pl_len)%nat then
    if (length buffer <? padded_pl_len)%nat then (buffer, Err BufferTooShort)
    else (fill buffer pl_frame_len padded_pl_len 0, Ok padded_pl_len)
  else (buffer, Ok padded_pl_len).

Definition ASndFrame_deserialize (eth_header : EthernetHeader) (buffer : bytes) : res ASndFrame :=
  let pl_header_size := 4%nat in
  if (length buffer <? pl_header_size)%nat then Err BufferTooShort else
  let? (message_type, destination, source) := deserialize_pl_header buffer in
  if negb (bool_decide (message_type = MT_ASnd)) then Err InvalidPlFrame else
  let? service_id := ServiceId_try_from (byte_at buffer 3) in
  let potential_payload := drop pl_header_size buffer in
  let min_eth_payload_after_header := 46%nat in
  let payload :=
    if (length buffer =? min_eth_payload_after_header)%nat then
      let actual_len :=
        match rposition (fun x => negb (x =? 0)) potential_payload with
        | None => O
        | Some i => S i
        end in
      take actual_len potential_payload
    else potential_payload in
  Ok {| asnd_eth_header := eth_header;
        asnd_message_type := message_type;
        asnd_destination := destination;
        asnd_source := source;
        asnd_service_id := service_id;
        asnd_payload := payload |}.

#[export] Instance ASndFrame_codec : Codec ASndFrame :=
  { serialize := ASndFrame_serialize; deserialize := ASndFrame_deserialize }.

Definition ASndFrame_wire (f : ASndFrame) : bytes :=
  pad46 (pl_header (asnd_message_type f) (asnd_destination f) (asnd_source f) ++
         [ServiceId_as_u8 (asnd_service_id f)] ++ asnd_payload f).

(** A payload short enough to be padded must not end in a zero byte: the
    parser drops the zeros at the end of a minimum-size frame. *)
Definition ASndFrame_wf (f : ASndFrame) : Prop :=
  eth_ok (asnd_eth_header f) /\ asnd_message_type f = MT_ASnd /\
  byte_ok (asnd_destination f) /\ byte_ok (asnd_source f) /\ bytes_ok (asnd_payload f) /\
  ((length (asnd_payload f) <= 42)%nat -> last (asnd_payload f) <> Some 0).

(** ** PReq ([frame/poll/preq.rs]) *)
Record PReqFlags : Type := mkPReqFlags { preq_ms : bool; preq_ea : bool; preq_rd : bool }.
Record PReqFrame : Type := mkPReqFrame {
  preq_eth_header : EthernetHeader;
  preq_message_type : MessageType;
  preq_destination : NodeId;
  preq_source : NodeId;
  preq_flags : PReqFlags;
  preq_pdo_version : Z;
  preq_payload_size : Z;
  preq_payload : bytes
}.

Definition PReqFrame_new (source_mac dest_mac : MacAddress) (target_node_id : NodeId)
    (flags : PReqFlags) (pdo_version : Z) (payload : bytes) : PReqFrame :=
  {| preq_eth_header := EthernetHeader_new dest_mac source_mac;
     preq_message_type := MT_PReq;
     preq_destination := target_node_id;
     preq_source := C_ADR_MN_DEF_NODE_ID;
     preq_flags := flags; preq_pdo_version := pdo_version;
     preq_payload_size := u16 (len payload); preq_payload := payload |}.

(** The tail shared by the two poll codecs: version, size, payload, padding. *)
Definition poll_tail_serialize (pdo_version payload_size : Z) (payload buffer : bytes)
    : bytes * res nat :=
  let buffer := put buffer 6 [pdo_version] in
  let buffer := put buffer 7 [0] in
  let buffer := put buffer 8 (le_bytes 2 payload_size) in
  let payload_start := 10%nat in
  let payload_end := (payload_start + length payload)%nat in
  let buffer := put buffer payload_start payload in
  let pl_frame_len := payload_end in
  let min_eth_payload := 46%nat in
  let padded_pl_len := Nat.max pl_frame_len min_eth_payload in
  if (pl_frame_len <? padded_pl_len)%nat then
    if (length buffer <? padded_pl_len)%nat then (buffer, Err BufferTooShort)
    else (fill buffer pl_frame_len padded_pl_len 0, Ok padded_pl_len)
  else (buffer, Ok padded_pl_len).

Definition PReqFrame_serialize (f : PReqFrame) (buffer : bytes) : bytes * res nat :=
  let pl_header_size := 10%nat in
  let total_pl_frame_size := (pl_header_size + length (preq_payload f))%nat in
  if (length buffer <? total_pl_frame_size)%nat then (buffer, Err BufferTooShort) else
  let buffer := serialize_pl_header (preq_message_type f) (preq_destination f) (preq_source f) buffer in
  let buffer := put buffer 3 [0] in
  let octet4_flags := 0 in
  let octet4_flags := if preq_ms (preq_flags f) then Z.lor octet4_flags (Z.shiftl 1 5) else octet4_flags in
  let octet4_flags := if preq_ea (preq_flags f) then Z.lor octet4_flags (Z.shiftl 1 2) else octet4_flags in
  let octet4_flags := if preq_rd (preq_flags f) then Z.lor octet4_flags (Z.shiftl 1 0) else octet4_flags in
  let buffer := put buffer 4 [octet4_flags] in
  let buffer := put buffer 5 [0] in
  poll_tail_serialize (preq_pdo_version f) (preq_payload_size f) (preq_payload f) buffer.

Definition PReqFrame_deserialize (eth_header : EthernetHeader) (buffer : bytes) : res PReqFrame :=
  let pl_header_size := 10%nat in
  if (length buffer <? pl_header_size)%nat then Err BufferTooShort else
  let? (message_type, destination, source) := deserialize_pl_header buffer in
  if negb (bool_decide (message_type = MT_PReq)) then Err InvalidPlFrame else
  let octet4_flags := byte_at buffer 4 in
  let payload_size := le_val (slice buffer 8 10) in
  let payload_start := pl_header_size in
  let payload_end := (payload_start + Z.to_nat payload_size)%nat in
  if (length buffer <? payload_end)%nat then Err BufferTooShort else
  Ok {| preq_eth_header := eth_header;
        preq_message_type := message_type;
        preq_destination := destination;
        preq_source := source;
        preq_flags := {| preq_ms := bit octet4_flags 5; preq_ea := bit octet4_flags 2;
                         preq_rd := bit octet4_flags 0 |};
        preq_pdo_version := byte_at buffer 6;
        preq_payload_size := payload_size;
        preq_payload := slice buffer payload_start payload_end |}.

#[export] Instance PReqFrame_codec : Codec PReqFrame :=
  { serialize := PReqFrame_serialize; deserialize := PReqFrame_deserialize }.

Definition PReqFrame_wire (f : PReqFrame) : bytes :=
  pad46 (pl_header (preq_message_type f) (preq_destination f) (preq_source f) ++
    [0; flag (preq_ms (preq_flags f)) 32 + flag (preq_ea (preq_flags f)) 4
        + flag (preq_rd (preq_flags f)) 1; 0; preq_pdo_version f; 0] ++
    le_bytes 2 (preq_payload_size f) ++ preq_payload f).

Definition PReqFrame_wf (f : PReqFrame) : Prop :=
  eth_ok (preq_eth_header f) /\ preq_message_type f = MT_PReq /\
  byte_ok (preq_destination f) /\ byte_ok (preq_source f) /\ byte_ok (preq_pdo_version f) /\
  in_width 16 (preq_payload_size f) /\ preq_payload_size f = len (preq_payload f) /\
  bytes_ok (preq_payload f).

(** ** PRes ([frame/poll/pres.rs]) *)
Definition RSFlag_new (value : Z) : Z := Z.min value 7.

Inductive PRFlag : Type :=
| PrioNmtRequest | High3 | High2 | High1 | PrioGenericRequest | Low3 | Low2 | Low1.

#[export] Instance PRFlag_eq_dec : EqDecision PRFlag.
Proof. solve_decision. Defined.

Definition PRFlag_as_u8 (p : PRFlag) : Z :=
  match p with
  | PrioNmtRequest => 7 | High3 => 6 | High2 => 5 | High1 => 4
  | PrioGenericRequest => 3 | Low3 => 2 | Low2 => 1 | Low1 => 0
  end.

Definition PRFlag_try_from (value : Z) : res PRFlag :=
  match Z.land value 7 with
  | 7 => Ok PrioNmtRequest
  | 6 => Ok High3
  | 5 => Ok High2
  | 4 => Ok High1
  | 3 => Ok PrioGenericRequest
  | 2 => Ok Low3
  | 1 => Ok Low2
  | 0 => Ok Low1
  | _ => Err InvalidEnumValue
  end.

Record PResFlags : Type := mkPResFlags {
  pres_ms : bool; pres_en : bool; pres_rd : bool; pres_pr : PRFlag; pres_rs : Z
}.
Record PResFrame : Type := mkPResFrame {
  pres_eth_header : EthernetHeader;
  pres_message_type : MessageType;
  pres_destination : NodeId;
  pres_source : NodeId;
  pres_nmt_state : NmtState;
  pres_flags : PResFlags;
  pres_pdo_version : Z;
  pres_payload_size : Z;
  pres_payload : bytes
}.

Definition PResFrame_new (source_mac : MacAddress) (source_node_id : NodeId) (nmt_state : NmtState)
    (flags : PResFlags) (pdo_version : Z) (payload : bytes) : PResFrame :=
  {| pres_eth_header := EthernetHeader_new C_DLL_MULTICAST_PRES source_mac;
     pres_message_type := MT_PRes;
     pres_destination := C_ADR_BROADCAST_NODE_ID;
     pres_source := source_node_id; pres_nmt_state := nmt_state;
     pres_flags := flags; pres_pdo_version := pdo_version;
     pres_payload_size := u16 (len payload); pres_payload := payload |}.

Definition PResFrame_serialize (f : PResFrame) (buffer : bytes) : bytes * res nat :=
  let pl_header_size := 10%nat in
  let total_pl_frame_size := (pl_header_size + length (pres_payload f))%nat in
  if (length buffer <? total_pl_frame_size)%nat then (buffer, Err BufferTooShort) else
  let buffer := serialize_pl_header (pres_message_type f) (pres_destination f) (pres_source f) buffer in
  let buffer := put buffer 3 [NmtState_as_u8 (pres_nmt_state f)] in
  let octet4_flags1 := 0 in
  let octet4_flags1 := if pres_ms (pres_flags f) then Z.lor octet4_flags1 (Z.shiftl 1 5) else octet4_flags1 in
  let octet4_flags1 := if pres_en (pres_flags f) then Z.lor octet4_flags1 (Z.shiftl 1 4) else octet4_flags1 in
  let octet4_flags1 := if pres_rd (pres_flags f) then Z.lor octet4_flags1 (Z.shiftl 1 0) else octet4_flags1 in
  let buffer := put buffer 4 [octet4_flags1] in
  let octet5_flags2 := Z.lor (Z.shiftl (PRFlag_as_u8 (pres_pr (pres_flags f))) 3) (pres_rs (pres_flags f)) in
  let buffer := put buffer 5 [octet5_flags2] in
  poll_tail_serialize (pres_pdo_version f) (pres_payload_size f) (pres_payload f) buffer.

Definition PResFrame_deserialize (eth_header : EthernetHeader) (buffer : bytes) : res PResFrame :=
  let pl_header_size := 10%nat in
  if (length buffer <? pl_header_size)%nat then Err BufferTooShort else
  let? (message_type, destination, source) := deserialize_pl_header buffer in
  if negb (bool_decide (message_type = MT_PRes)) then Err InvalidPlFrame else
  if negb (destination =? C_ADR_BROADCAST_NODE_ID) then Err InvalidPlFrame else
  let? nmt_state := NmtState_try_from (byte_at buffer 3) in
  let octet4_flags1 := byte_at buffer 4 in
  let octet5_flags2 := byte_at buffer 5 in
  let? pr := PRFlag_try_from (Z.shiftr octet5_flags2 3) in
  let flags :=
    {| pres_ms := bit octet4_flags1 5; pres_en := bit octet4_flags1 4;
       pres_rd := bit octet4_flags1 0; pres_pr := pr;
       pres_rs := RSFlag_new (Z.land octet5_flags2 7) |} in
  let payload_size := le_val (slice buffer 8 10) in
  let payload_start := pl_header_size in
  let payload_end := (payload_start + Z.to_nat payload_size)%nat in
  if (length buffer <? payload_end)%nat then Err BufferTooShort else
  Ok {| pres_eth_header := eth_header;
        pres_message_type := message_type;
        pres_destination := destination;
        pres_source := source;
        pres_nmt_state := nmt_state;
        pres_flags := flags;
        pres_pdo_version := byte_at buffer 6;
        pres_payload_size := payload_size;
        pres_payload := slice buffer payload_start payload_end |}.

#[export] Instance PResFrame_codec : Codec PResFrame :=
  { serialize := PResFrame_serialize; deserialize := PResFrame_deserialize }.

Definition PResFrame_wire (f : PResFrame) : bytes :=
  pad46 (pl_header (pres_message_type f) (pres_destination f) (pres_source f) ++
    [NmtState_as_u8 (pres_nmt_state f);
     flag (pres_ms (pres_flags f)) 32 + flag (pres_en (pres_flags f)) 16 + flag (pres_rd (pres_flags f)) 1;
     Z.lor (Z.shiftl (PRFlag_as_u8 (pres_pr (pres_flags f))) 3) (pres_rs (pres_flags f));
     pres_pdo_version f; 0] ++
    le_bytes 2 (pres_payload_size f) ++ pres_payload f).

Definition PResFrame_wf (f : PResFrame) : Prop :=
  eth_ok (pres_eth_header f) /\ pres_message_type f = MT_PRes /\
  pres_destination f = C_ADR_BROADCAST_NODE_ID /\ byte_ok (pres_source f) /\
  0 <= pres_rs (pres_flags f) <= 7 /\ byte_ok (pres_pdo_version f) /\
  in_width 16 (pres_payload_size f) /\ pres_payload_size f = len (pres_payload f) /\
  bytes_ok (pres_payload f).

(** ** The codecs keep their contract *)

#[export] Hint Extern 1 (byte_ok (MessageType_as_u8 _)) => exact (to_u8_range (A:=MessageType) _) : byte.
#[export] Hint Extern 1 (byte_ok (NmtState_as_u8 _)) => exact (to_u8_range (A:=NmtState) _) : byte.
#[export] Hint Extern 1 (byte_ok (ServiceId_as_u8 _)) => exact (to_u8_range (A:=ServiceId) _) : byte.
#[export] Hint Extern 1 (byte_ok (RequestedServiceId_as_u8 _)) =>
  exact (to_u8_range (A:=RequestedServiceId) _) : byte.
#[export] Hint Extern 2 (byte_ok (_ + flag _ _)) =>
  (unfold flag, byte_ok, in_width; repeat case_if; lia) : byte.

(** Splits the flag bits of an octet into their cases. *)
Ltac flag_cases :=
  repeat match goal with
    | |- context [if ?b then Z.lor _ _ else _] => destruct b; simpl
    | |- context [flag ?b _] => destruct b; unfold flag; simpl
    end.

Ltac eq_step :=
  first
    [ done
    | lazymatch goal with |- @eq nat _ _ => autorewrite with wire; simpl; lia end
    | f_equal ].

(** Compares the buffer a serializer leaves with the specified bytes. *)
Ltac buffer_done :=
  unfold fill; put_chain; rewrite ?drop_drop, <- ?app_assoc; simpl; flag_cases;
  repeat eq_step.

Lemma RequestedServiceId_round s :
  RequestedServiceId_try_from (RequestedServiceId_as_u8 s) = Ok s.
Proof. exact (from_to_u8 s). Qed.
Lemma ServiceId_round s : ServiceId_try_from (ServiceId_as_u8 s) = Ok s.
Proof. exact (from_to_u8 s). Qed.
#[export] Hint Rewrite RequestedServiceId_round ServiceId_round : enum.

Lemma length_SocFrame_wire f : length (SocFrame_wire f) = 46%nat.
Proof. unfold SocFrame_wire. wire_len. Qed.

#[export, refine] Instance SocFrame_laws : CodecLaws SocFrame :=
  { frame_eth := soc_eth_header; frame_wf := SocFrame_wf; wire := SocFrame_wire }.
Proof.
  - intros f. rewrite length_SocFrame_wire. lia.
  - intros f (_&Ht&?&?&[??]&[??]). unfold SocFrame_wire, pl_header. solve_bytes.
  - intros f. unfold SocFrame_wire, byte_at. by destruct (soc_message_type f).
  - intros f buf. rewrite length_SocFrame_wire. intros H. simpl. unfold SocFrame_serialize.
    rewrite nat_ltb_false, serialize_pl_header_spec by lia.
    put_chain. rewrite nat_ltb_false by wire_len. buffer_done.
  - intros f buf. rewrite length_SocFrame_wire. intros H. simpl. unfold SocFrame_serialize.
    destruct (length buf <? 22)%nat eqn:E; [done|]. apply Nat.ltb_ge in E.
    rewrite serialize_pl_header_spec by lia. put_chain.
    rewrite nat_ltb_true by wire_len. done.
  - intros [eth t d s [mc ps] [ns nn] [rs rn]] (_&Ht&?&?&[??]&[??]). simpl in *. subst t.
    unfold SocFrame_deserialize. rewrite nat_ltb_false by (rewrite length_SocFrame_wire; lia).
    unfold SocFrame_wire at 1. rewrite deserialize_pl_header_spec. cbn.
    autorewrite with le. by destruct mc, ps.
Defined.

Lemma length_SoAFrame_wire f : length (SoAFrame_wire f) = 46%nat.
Proof. unfold SoAFrame_wire. wire_len. Qed.

#[export, refine] Instance SoAFrame_laws : CodecLaws SoAFrame :=
  { frame_eth := soa_eth_header; frame_wf := SoAFrame_wf; wire := SoAFrame_wire }.
Proof.
  - intros f. rewrite length_SoAFrame_wire. lia.
  - intros f (_&Ht&?&?&?&?). unfold SoAFrame_wire, pl_header. solve_bytes.
  - intros f. unfold SoAFrame_wire, byte_at. by destruct (soa_message_type f).
  - intros f buf. rewrite length_SoAFrame_wire. intros H. simpl. unfold SoAFrame_serialize.
    rewrite nat_ltb_false, serialize_pl_header_spec by lia.
    put_chain. rewrite nat_ltb_false by wire_len. buffer_done.
  - intros f buf. rewrite length_SoAFrame_wire. intros H. simpl. unfold SoAFrame_serialize.
    destruct (length buf <? 9)%nat eqn:E; [done|]. apply Nat.ltb_ge in E.
    rewrite serialize_pl_header_spec by lia. put_chain.
    rewrite nat_ltb_true by wire_len. done.
  - intros [eth t d s st [ea er] rq tg ver] (_&Ht&?&?&?&?). simpl in *. subst t.
    unfold SoAFrame_deserialize. rewrite nat_ltb_false by (rewrite length_SoAFrame_wire; lia).
    unfold SoAFrame_wire at 1. rewrite deserialize_pl_header_spec. cbn -[NmtState_try_from RequestedServiceId_try_from].
    autorewrite with enum.
    by destruct ea, er.
Defined.

(** *** ASnd *)
Lemma length_ASndFrame_wire f :
  length (ASndFrame_wire f) = Nat.max (4 + length (asnd_payload f)) 46.
Proof. unfold ASndFrame_wire. rewrite length_pad46. wire_len. Qed.

(** What the parser returns for any payload: a frame at the minimum size loses
    the zeros at its end. *)
Lemma ASndFrame_deserialize_wire f :
  asnd_message_type f = MT_ASnd ->
  ASndFrame_deserialize (asnd_eth_header f) (ASndFrame_wire f) =
  Ok {| asnd_eth_header := asnd_eth_header f; asnd_message_type := asnd_message_type f;
        asnd_destination := asnd_destination f; asnd_source := asnd_source f;
        asnd_service_id := asnd_service_id f;
        asnd_payload := if (length (asnd_payload f) <=? 42)%nat then strip_zeros (asnd_payload f)
                        else asnd_payload f |}.
Proof.
  destruct f as [eth t d s svc pay]. simpl. intros ->.
  unfold ASndFrame_deserialize. rewrite nat_ltb_false by (rewrite length_ASndFrame_wire; lia).
  rewrite length_ASndFrame_wire. unfold ASndFrame_wire, pad46 at 1. simpl asnd_message_type.
  rewrite <- !app_assoc, deserialize_pl_header_spec. cbn -[ServiceId_try_from Nat.max Nat.leb].
  autorewrite with enum. do 2 f_equal.
  destruct (Nat.leb_spec (length pay) 42).
  - rewrite Nat.max_r, Nat.eqb_refl by lia. apply strip_zeros_app_replicate.
  - destruct (_ =? 46)%nat eqn:E46; [apply Nat.eqb_eq in E46; lia|].
    match goal with |- context [replicate ?n 0] => replace n with O by (simpl; lia) end.
    apply app_nil_r.
Qed.

(** A frame longer than the minimum has an empty padding. *)
Ltac no_padding :=
  match goal with |- context [replicate ?n 0] => replace n with O by wire_len end;
  simpl replicate; rewrite ?app_nil_r.

#[export, refine] Instance ASndFrame_laws : CodecLaws ASndFrame :=
  { frame_eth := asnd_eth_header; frame_wf := ASndFrame_wf; wire := ASndFrame_wire }.
Proof.
  - intros f. rewrite length_ASndFrame_wire. lia.
  - intros f (_&Ht&?&?&?&_). apply pad46_ok. unfold pl_header. solve_bytes.
  - intros f. unfold ASndFrame_wire, byte_at. by destruct (asnd_message_type f).
  - intros f buf. rewrite length_ASndFrame_wire. intros H. cbn [serialize ASndFrame_codec].
    unfold ASndFrame_serialize.
    rewrite nat_ltb_false, serialize_pl_header_spec by lia. put_chain. case_if.
    + apply Nat.ltb_lt in E. rewrite nat_ltb_false by wire_len.
      unfold ASndFrame_wire, pad46. buffer_done.
    + apply Nat.ltb_ge in E. unfold ASndFrame_wire, pad46. no_padding. buffer_done.
  - intros f buf. rewrite length_ASndFrame_wire. intros H. cbn [serialize ASndFrame_codec].
    unfold ASndFrame_serialize.
    destruct (length buf <? _)%nat eqn:E; [done|]. apply Nat.ltb_ge in E.
    rewrite serialize_pl_header_spec by lia. put_chain.
    rewrite nat_ltb_true, nat_ltb_true by wire_len. done.
  - intros f Hf. simpl. destruct Hf as (_&Ht&_&_&_&Hz).
    rewrite ASndFrame_deserialize_wire by done. destruct f as [eth t d s svc pay]; simpl in *.
    do 2 f_equal. destruct (Nat.leb_spec (length pay) 42); [|done].
    apply strip_zeros_id. auto.
Defined.

(** *** PReq and PRes *)
Lemma poll_tail_fits v sz pay pre rest :
  length pre = 6%nat -> (Nat.max (10 + length pay) 46 <= 6 + length rest)%nat ->
  poll_tail_serialize v sz pay (pre ++ rest) =
    (pad46 (pre ++ [v; 0] ++ le_bytes 2 sz ++ pay) ++
       drop (Nat.max (10 + length pay) 46 - 6) rest,
     Ok (Nat.max (10 + length pay) 46)).
Proof.
  intros Hp Hr. unfold poll_tail_serialize. put_chain. case_if.
  - apply Nat.ltb_lt in E. rewrite nat_ltb_false by wire_len.
    unfold pad46. buffer_done.
  - apply Nat.ltb_ge in E. unfold pad46. no_padding. buffer_done.
Qed.

Lemma poll_tail_too_short v sz pay pre rest :
  length pre = 6%nat -> (10 + length pay <= 6 + length rest)%nat ->
  (6 + length rest < Nat.max (10 + length pay) 46)%nat ->
  snd (poll_tail_serialize v sz pay (pre ++ rest)) = Err BufferTooShort.
Proof.
  intros Hp Hr Hs. unfold poll_tail_serialize. put_chain.
  rewrite nat_ltb_true, nat_ltb_true by wire_len. done.
Qed.

(** The octet shared by the PR and RS flags. *)
Lemma prrs_cases rs : 0 <= rs <= 7 ->
  rs = 0 \/ rs = 1 \/ rs = 2 \/ rs = 3 \/ rs = 4 \/ rs = 5 \/ rs = 6 \/ rs = 7.
Proof. lia. Qed.

Lemma prrs_byte_ok pr rs : 0 <= rs <= 7 -> byte_ok (Z.lor (Z.shiftl (PRFlag_as_u8 pr) 3) rs).
Proof.
  intros H. apply prrs_cases in H.
  repeat destruct H as [->|H]; subst; destruct pr; by split.
Qed.

Lemma prrs_round pr rs : 0 <= rs <= 7 ->
  PRFlag_try_from (Z.shiftr (Z.lor (Z.shiftl (PRFlag_as_u8 pr) 3) rs) 3) = Ok pr /\
  RSFlag_new (Z.land (Z.lor (Z.shiftl (PRFlag_as_u8 pr) 3) rs) 7) = rs.
Proof.
  intros H. apply prrs_cases in H. repeat destruct H as [->|H]; subst; by destruct pr.
Qed.

(** Cutting the payload out of a padded poll frame. *)
Lemma poll_payload_slice pre pay n :
  slice (pad46 (pre ++ pay) ++ n) (length pre) (length pre + length pay) = pay.
Proof. unfold pad46. rewrite <- !app_assoc. by apply slice_app. Qed.

Lemma length_PReqFrame_wire f :
  length (PReqFrame_wire f) = Nat.max (10 + length (preq_payload f)) 46.
Proof. unfold PReqFrame_wire. rewrite length_pad46. wire_len. Qed.

Lemma length_PResFrame_wire f :
  length (PResFrame_wire f) = Nat.max (10 + length (pres_payload f)) 46.
Proof. unfold PResFrame_wire. rewrite length_pad46. wire_len. Qed.

#[export, refine] Instance PReqFrame_laws : CodecLaws PReqFrame :=
  { frame_eth := preq_eth_header; frame_wf := PReqFrame_wf; wire := PReqFrame_wire }.
Proof.
  - intros f. rewrite length_PReqFrame_wire. lia.
  - intros f (_&_&?&?&?&_&_&?). apply pad46_ok. unfold pl_header. solve_bytes.
  - intros f. unfold PReqFrame_wire, byte_at. by destruct (preq_message_type f).
  - intros f buf. rewrite length_PReqFrame_wire. intros H. cbn [serialize PReqFrame_codec].
    unfold PReqFrame_serialize. rewrite nat_ltb_false, serialize_pl_header_spec by lia.
    put_chain. rewrite poll_tail_fits by wire_len.
    unfold PReqFrame_wire. rewrite !drop_drop, <- !app_assoc. simpl. flag_cases.
    all: repeat f_equal; lia.
  - intros f buf. rewrite length_PReqFrame_wire. intros H. cbn [serialize PReqFrame_codec].
    unfold PReqFrame_serialize. destruct (length buf <? _)%nat eqn:E; [done|].
    apply Nat.ltb_ge in E. rewrite serialize_pl_header_spec by lia. put_chain.
    apply poll_tail_too_short; wire_len.
  - intros [eth t d s [ms ea rd] v sz pay] (_&Ht&_&_&_&Hsz&Hl&_).
    cbn [deserialize PReqFrame_codec frame_eth]. simpl in Ht, Hsz, Hl. subst t.
    unfold PReqFrame_deserialize. rewrite nat_ltb_false by (rewrite length_PReqFrame_wire; lia).
    unfold PReqFrame_wire at 1, pad46 at 1. rewrite <- !app_assoc, deserialize_pl_header_spec.
    replace (le_val (slice _ 8 10)) with sz by (cbn; by autorewrite with le).
    assert (Hn : Z.to_nat sz = length pay) by (rewrite Hl; apply Nat2Z.id).
    rewrite length_PReqFrame_wire. simpl preq_payload.
    rewrite Hn, nat_ltb_false by lia.
    replace (slice _ 10 _) with pay.
    + cbn -[Z.to_nat]. by destruct ms, ea, rd.
    + symmetry. rewrite <- (app_nil_r (PReqFrame_wire _)). unfold PReqFrame_wire. simpl.
      apply (poll_payload_slice [_;_;_;_;_;_;_;_;_;_] pay []).
Defined.

#[export, refine] Instance PResFrame_laws : CodecLaws PResFrame :=
  { frame_eth := pres_eth_header; frame_wf := PResFrame_wf; wire := PResFrame_wire }.
Proof.
  - intros f. rewrite length_PResFrame_wire. lia.
  - intros f (_&_&Hd&?&?&?&_&_&?). apply pad46_ok. unfold pl_header. rewrite Hd.
    unfold C_ADR_BROADCAST_NODE_ID. solve_bytes. by apply prrs_byte_ok.
  - intros f. unfold PResFrame_wire, byte_at. by destruct (pres_message_type f).
  - intros f buf. rewrite length_PResFrame_wire. intros H. cbn [serialize PResFrame_codec].
    unfold PResFrame_serialize. rewrite nat_ltb_false, serialize_pl_header_spec by lia.
    put_chain. rewrite poll_tail_fits by wire_len.
    unfold PResFrame_wire. rewrite !drop_drop, <- !app_assoc. simpl. flag_cases.
    all: repeat f_equal; lia.
  - intros f buf. rewrite length_PResFrame_wire. intros H. cbn [serialize PResFrame_codec].
    unfold PResFrame_serialize. destruct (length buf <? _)%nat eqn:E; [done|].
    apply Nat.ltb_ge in E. rewrite serialize_pl_header_spec by lia. put_chain.
    apply poll_tail_too_short; wire_len.
  - intros [eth t d s st [ms en rd pr rs] v sz pay] (_&Ht&Hd&_&Hrs&_&Hsz&Hl&_).
    cbn [deserialize PResFrame_codec frame_eth]. simpl in Ht, Hd, Hrs, Hsz, Hl. subst t d.
    unfold PResFrame_deserialize. rewrite nat_ltb_false by (rewrite length_PResFrame_wire; lia).
    unfold PResFrame_wire at 1, pad46 at 1. rewrite <- !app_assoc, deserialize_pl_header_spec.
    replace (le_val (slice _ 8 10)) with sz by (cbn; by autorewrite with le).
    assert (Hn : Z.to_nat sz = length pay) by (rewrite Hl; apply Nat2Z.id).
    rewrite length_PResFrame_wire. simpl pres_payload.
    rewrite Hn, nat_ltb_false by lia.
    replace (slice _ 10 _) with pay.
    + cbn -[Z.to_nat NmtState_try_from PRFlag_try_from Z.shiftl Z.shiftr Z.lor Z.land].
      autorewrite with enum. destruct (prrs_round pr rs Hrs) as [-> ->]. by destruct ms, en, rd.
    + symmetry. rewrite <- (app_nil_r (PResFrame_wire _)). unfold PResFrame_wire. simpl.
      apply (poll_payload_slice [_;_;_;_;_;_;_;_;_;_] pay []).
Defined.

(** ** Frames of any type ([frame/mod.rs], [frame/codec.rs]) *)
Inductive PowerlinkFrame : Type :=
| PF_Soc (f : SocFrame)
| PF_PReq (f : PReqFrame)
| PF_PRes (f : PResFrame)
| PF_SoA (f : SoAFrame)
| PF_ASnd (f : ASndFrame).

Definition ethernet_header (frame : PowerlinkFrame) : EthernetHeader :=
  match frame with
  | PF_Soc f => soc_eth_header f
  | PF_PReq f => preq_eth_header f
  | PF_PRes f => pres_eth_header f
  | PF_SoA f => soa_eth_header f
  | PF_ASnd f => asnd_eth_header f
  end.

Definition PowerlinkFrame_serialize (frame : PowerlinkFrame) (buffer : bytes) : bytes * res nat :=
  match frame with
  | PF_Soc f => serialize f buffer
  | PF_PReq f => serialize f buffer
  | PF_PRes f => serialize f buffer
  | PF_SoA f => serialize f buffer
  | PF_ASnd f => serialize f buffer
  end.

(** [Result::map]. *)
Definition map_ok {A B} (f : A -> B) (r : res A) : res B :=
  match r with Ok a => Ok (f a) | Err e => Err e end.

Definition deserialize_frame (buffer : bytes) : res PowerlinkFrame :=
  let? eth_header := deserialize_eth_header buffer in
  if negb (is_powerlink eth_header) then Err InvalidEthernetFrame else
  let pl_buffer := drop 14 buffer in
  match pl_buffer with
  | [] => Err InvalidPlFrame
  | b0 :: _ =>
      let message_type_byte := Z.land b0 0x7F in
      match MessageType_try_from message_type_byte with
      | Ok MT_SoC => map_ok PF_Soc (deserialize eth_header pl_buffer)
      | Ok MT_PReq => map_ok PF_PReq (deserialize eth_header pl_buffer)
      | Ok MT_PRes => map_ok PF_PRes (deserialize eth_header pl_buffer)
      | Ok MT_SoA => map_ok PF_SoA (deserialize eth_header pl_buffer)
      | Ok MT_ASnd => map_ok PF_ASnd (deserialize eth_header pl_buffer)
      | Err _ => Err (InvalidMessageType message_type_byte)
      end
  end.

(** ** Handing a frame to the network ([node/mod.rs]) *)
Inductive NodeAction : Type :=
| SendFrame (data : bytes)
| SendUdp (dest_ip : bytes) (dest_port : Z) (data : bytes)
| NoAction.

(** A CN only sends PRes and ASnd frames, an MN never sends a PRes. *)
Definition may_send (is_cn : bool) (frame : PowerlinkFrame) : bool :=
  match frame with
  | PF_PRes _ => is_cn
  | PF_ASnd _ => true
  | _ => negb is_cn
  end.

Definition serialize_frame_action (is_cn : bool) (frame : PowerlinkFrame) : res NodeAction :=
  let buf := replicate 1518 0 in
  let eth_header := ethernet_header frame in
  if negb (may_send is_cn frame) then Ok NoAction else
  let buf := serialize_eth_header eth_header buf in
  match PowerlinkFrame_serialize frame (drop 14 buf) with
  | (tail, Ok pl_size) =>
      let buf := take 14 buf ++ tail in
      let total_size := (14 + pl_size)%nat in
      let buf := take (Nat.max total_size 60) buf in
      let buf := if (total_size <? 60)%nat then fill buf total_size 60 0 else buf in
      Ok (SendFrame buf)
  | (_, Err e) => Err e
  end.

(** ** The contract of [PowerlinkFrame] *)
Definition PowerlinkFrame_wf (frame : PowerlinkFrame) : Prop :=
  match frame with
  | PF_Soc f => SocFrame_wf f
  | PF_PReq f => PReqFrame_wf f
  | PF_PRes f => PResFrame_wf f
  | PF_SoA f => SoAFrame_wf f
  | PF_ASnd f => ASndFrame_wf f
  end.

Definition PowerlinkFrame_wire (frame : PowerlinkFrame) : bytes :=
  match frame with
  | PF_Soc f => wire f
  | PF_PReq f => wire f
  | PF_PRes f => wire f
  | PF_SoA f => wire f
  | PF_ASnd f => wire f
  end.

Definition eth_bytes (h : EthernetHeader) : bytes :=
  destination_mac h ++ source_mac h ++ be_bytes 2 (ether_type h).

(** The whole Ethernet frame. *)
Definition full_wire (frame : PowerlinkFrame) : bytes :=
  eth_bytes (ethernet_header frame) ++ PowerlinkFrame_wire frame.

Lemma PowerlinkFrame_wire_min f : (46 <= length (PowerlinkFrame_wire f))%nat.
Proof. destruct f; apply wire_min. Qed.

Lemma PowerlinkFrame_serialize_fits f buf :
  (length (PowerlinkFrame_wire f) <= length buf)%nat ->
  PowerlinkFrame_serialize f buf =
    (PowerlinkFrame_wire f ++ drop (length (PowerlinkFrame_wire f)) buf,
     Ok (length (PowerlinkFrame_wire f))).
Proof. destruct f; apply serialize_fits. Qed.

Lemma PowerlinkFrame_serialize_too_short f buf :
  (length buf < length (PowerlinkFrame_wire f))%nat ->
  snd (PowerlinkFrame_serialize f buf) = Err BufferTooShort.
Proof. destruct f; apply serialize_too_short. Qed.

Lemma PowerlinkFrame_wf_eth f : PowerlinkFrame_wf f -> eth_ok (ethernet_header f).
Proof. by destruct f; intros [? _]. Qed.

Lemma length_eth_bytes h : eth_ok h -> length (eth_bytes h) = 14%nat.
Proof. intros ([??]&[??]&_). unfold eth_bytes. wire_len. Qed.

Lemma serialize_eth_header_spec h buf :
  eth_ok h -> (14 <= length buf)%nat ->
  serialize_eth_header h buf = eth_bytes h ++ drop 14 buf.
Proof.
  intros ([Hd _]&[Hs _]&_) H. unfold serialize_eth_header.
  replace (14 <=? length buf)%nat with true by (symmetry; apply Nat.leb_le; lia).
  rewrite put_0. put_chain. unfold eth_bytes.
  rewrite !drop_drop, <- !app_assoc. wire_len. by rewrite Hd, Hs.
Qed.

Lemma deserialize_eth_header_spec h rest :
  eth_ok h -> deserialize_eth_header (eth_bytes h ++ rest) = Ok h.
Proof.
  intros Hh. pose proof (length_eth_bytes h Hh) as Hl. destruct Hh as ([Hd ?]&[Hs ?]&He).
  unfold deserialize_eth_header. rewrite nat_ltb_false by wire_len.
  destruct h as [d s t]. unfold eth_bytes in *. simpl in *. rewrite <- !app_assoc.
  do 2 f_equal.
  - exact (slice_app [] d _ 0 6 eq_refl (eq_sym Hd)).
  - by rewrite slice_app by lia.
  - rewrite app_assoc, slice_app by (rewrite length_app; simpl; lia).
    apply be_val_be_bytes. subst t. by vm_compute.
Qed.

Lemma byte_at_app l r i : (i < length l)%nat -> byte_at (l ++ r) i = byte_at l i.
Proof. apply app_nth1. Qed.

(** The bytes after the Ethernet header go to the codec of their message type. *)
Definition dispatch (h : EthernetHeader) (pl : bytes) (t : MessageType) : res PowerlinkFrame :=
  match t with
  | MT_SoC => map_ok PF_Soc (deserialize h pl)
  | MT_PReq => map_ok PF_PReq (deserialize h pl)
  | MT_PRes => map_ok PF_PRes (deserialize h pl)
  | MT_SoA => map_ok PF_SoA (deserialize h pl)
  | MT_ASnd => map_ok PF_ASnd (deserialize h pl)
  end.

Lemma deserialize_frame_eth h pl :
  eth_ok h -> (0 < length pl)%nat ->
  deserialize_frame (eth_bytes h ++ pl) =
    match MessageType_try_from (Z.land (byte_at pl 0) 0x7F) with
    | Ok t => dispatch h pl t
    | Err _ => Err (InvalidMessageType (Z.land (byte_at pl 0) 0x7F))
    end.
Proof.
  intros He Hp. unfold deserialize_frame. rewrite deserialize_eth_header_spec by done.
  unfold is_powerlink. rewrite (proj2 (proj2 He)). simpl negb. cbv iota.
  rewrite drop_app_length' by (by rewrite length_eth_bytes).
  destruct pl as [|b0 pl]; [simpl in Hp; lia|]. unfold byte_at. simpl nth.
  destruct (MessageType_try_from (Z.land b0 127)) as [[]|]; done.
Qed.

(** One message type: the type byte selects the codec, the codec its frame. *)
Ltac parse_as F f Hf t :=
  rewrite (wire_type (F:=F) f); change (byte_at (wire f) 0) with (MessageType_as_u8 t);
  rewrite (proj1 (proj2 Hf)), MessageType_round;
  unfold dispatch; pose proof (deserialize_wire (F:=F) f Hf) as Hw; simpl in Hw |- *;
  by rewrite Hw.

(** Parsing the bytes of a well-formed frame. *)
Lemma deserialize_full_wire f :
  PowerlinkFrame_wf f -> deserialize_frame (full_wire f) = Ok f.
Proof.
  intros Hf. pose proof (PowerlinkFrame_wf_eth f Hf) as He. unfold full_wire.
  pose proof (PowerlinkFrame_wire_min f) as Hm.
  rewrite deserialize_frame_eth by (done || lia).
  destruct f as [f|f|f|f|f]; cbn [PowerlinkFrame_wire ethernet_header] in *.
  - parse_as SocFrame f Hf (soc_message_type f).
  - parse_as PReqFrame f Hf (preq_message_type f).
  - parse_as PResFrame f Hf (pres_message_type f).
  - parse_as SoAFrame f Hf (soa_message_type f).
  - parse_as ASndFrame f Hf (asnd_message_type f).
Qed.

(** ** What a receiver may rely on *)
Lemma length_full_wire f :
  PowerlinkFrame_wf f -> length (full_wire f) = (14 + length (PowerlinkFrame_wire f))%nat.
Proof.
  intros Hf. unfold full_wire. rewrite length_app, length_eth_bytes; [done|].
  by apply PowerlinkFrame_wf_eth.
Qed.

Lemma full_wire_ok f : PowerlinkFrame_wf f -> bytes_ok (full_wire f).
Proof.
  intros Hf. destruct (PowerlinkFrame_wf_eth f Hf) as ([_ ?]&[_ ?]&_).
  apply bytes_ok_app. split; [unfold eth_bytes; solve_bytes|].
  destruct f as [f|f|f|f|f]; exact (wire_ok f Hf).
Qed.

(** Every case of handing a frame to the network. *)
Lemma serialize_frame_action_eq is_cn f :
  eth_ok (ethernet_header f) ->
  serialize_frame_action is_cn f =
    if negb (may_send is_cn f) then Ok NoAction
    else if (1504 <? length (PowerlinkFrame_wire f))%nat then Err BufferTooShort
    else Ok (SendFrame (full_wire f)).
Proof.
  intros He. unfold serialize_frame_action. case_if; [done|].
  pose proof (PowerlinkFrame_wire_min f) as Hm.
  pose proof (length_eth_bytes _ He) as Hl.
  rewrite serialize_eth_header_spec by (done || (rewrite length_replicate; lia)).
  rewrite drop_app_length' by done. rewrite take_app_length' by done.
  destruct (Nat.ltb_spec 1504 (length (PowerlinkFrame_wire f))).
  - pose proof (PowerlinkFrame_serialize_too_short f (drop 14 (replicate 1518 0))) as Hs.
    rewrite length_drop, length_replicate in Hs. specialize (Hs ltac:(lia)).
    destruct (PowerlinkFrame_serialize f _) as [? r]. simpl in Hs. by subst r.
  - rewrite PowerlinkFrame_serialize_fits by (rewrite length_drop, length_replicate; lia).
    rewrite (nat_ltb_false _ 60) by lia. rewrite Nat.max_l by lia.
    do 2 f_equal. unfold full_wire. rewrite app_assoc.
    apply take_app_length'. rewrite length_app. lia.
Qed.

Ltac inv_ok H :=
  repeat match type of H with
    | (if ?b then Err _ else _) = Ok _ => let E := fresh "E" in destruct b eqn:E; [discriminate H|]
    | match ?r with Ok _ => _ | Err _ => _ end = Ok _ =>
        let E := fresh "E" in destruct r eqn:E; [|discriminate H]
    | (let (_, _) := ?p in _) = Ok _ => destruct p
    end.

Lemma negb_bool_decide_false (P : Prop) `{Decision P} : negb (bool_decide P) = false -> P.
Proof. intros E. apply negb_false_iff in E. by apply bool_decide_eq_true in E. Qed.

Lemma deserialize_pl_header_inv buf t d s :
  deserialize_pl_header buf = Ok (t, d, s) -> d = byte_at buf 1 /\ s = byte_at buf 2.
Proof. unfold deserialize_pl_header. intros H. inv_ok H. by simplify_eq. Qed.

Lemma deserialize_eth_header_ok buf h :
  bytes_ok buf -> deserialize_eth_header buf = Ok h -> is_powerlink h = true -> eth_ok h.
Proof.
  unfold deserialize_eth_header. intros Hb H Hp. inv_ok H. simplify_eq.
  apply Z.eqb_eq in Hp. simpl in Hp. apply Nat.ltb_ge in E.
  split_and!; [split; cbn [destination_mac source_mac]..|exact Hp].
  1,3: unfold slice; rewrite length_take, length_drop; lia.
  all: by apply bytes_ok_slice.
Qed.

(** The frame of a codec parsed from octets that are bytes is well formed. *)
Lemma land_7_range x : 0 <= Z.land x 7 <= 7.
Proof.
  assert (Z.land x 7 = x mod 8) as -> by (change 7 with (Z.ones 3); by rewrite Z.land_ones).
  pose proof (Z.mod_pos_bound x 8). lia.
Qed.

Lemma poll_parsed buf n :
  bytes_ok buf -> n = Z.to_nat (le_val (slice buf 8 10)) -> (10 + n <= length buf)%nat ->
  in_width 16 (le_val (slice buf 8 10)) /\
  le_val (slice buf 8 10) = len (slice buf 10 (10 + n)) /\
  bytes_ok (slice buf 10 (10 + n)).
Proof.
  intros Hb Hn Hl. pose proof (le_slice_width buf 8 10 2 Hb ltac:(lia)) as Hw.
  repeat split; [apply Hw|apply Hw| |auto with byte].
  unfold in_width in Hw. set (v := le_val _) in *. clearbody v.
  unfold len, slice. rewrite length_take, length_drop. lia.
Qed.

Definition parsed_ok (h : EthernetHeader) (buf : bytes) (f : PowerlinkFrame) : Prop :=
  PowerlinkFrame_wf f /\ ethernet_header f = h /\
  (length (PowerlinkFrame_wire f) <= length buf)%nat.

Ltac parsed H :=
  inv_ok H; simplify_eq;
  repeat match goal with
    | E : negb (bool_decide _) = false |- _ => apply negb_bool_decide_false in E
    | E : negb (_ =? _) = false |- _ => apply negb_false_iff, Z.eqb_eq in E
    | E : deserialize_pl_header _ = Ok _ |- _ => apply deserialize_pl_header_inv in E as [??]
    | E : (_ <? _)%nat = false |- _ => apply Nat.ltb_ge in E
    end; simplify_eq; subst.

Lemma SocFrame_parsed h buf f :
  eth_ok h -> bytes_ok buf -> (46 <= length buf)%nat -> SocFrame_deserialize h buf = Ok f ->
  parsed_ok h buf (PF_Soc f).
Proof.
  intros Hh Hb Hl H. unfold SocFrame_deserialize in H. parsed H.
  assert (H32 : forall i, in_width 32 (le_val (slice buf i (i + 4)))).
  { intros i. apply (le_slice_width buf i (i + 4) 4 Hb). lia. }
  split_and!; [split_and!; try done|done|].
  1,2: by apply byte_at_ok.
  1: split; apply H32.
  1: split; apply H32.
  cbn [PowerlinkFrame_wire wire SocFrame_laws]. by rewrite length_SocFrame_wire.
Qed.

Lemma SoAFrame_parsed h buf f :
  eth_ok h -> bytes_ok buf -> (46 <= length buf)%nat -> SoAFrame_deserialize h buf = Ok f ->
  parsed_ok h buf (PF_SoA f).
Proof.
  intros Hh Hb Hl H. unfold SoAFrame_deserialize in H. parsed H.
  split_and!; [split_and!; try done; by apply byte_at_ok|done|].
  cbn [PowerlinkFrame_wire wire SoAFrame_laws]. by rewrite length_SoAFrame_wire.
Qed.

Lemma ASndFrame_parsed h buf f :
  eth_ok h -> bytes_ok buf -> (46 <= length buf)%nat -> ASndFrame_deserialize h buf = Ok f ->
  parsed_ok h buf (PF_ASnd f).
Proof.
  intros Hh Hb Hl H. unfold ASndFrame_deserialize in H. parsed H.
  fold (strip_zeros (drop 4 buf)).
  assert (Hp : bytes_ok (if (length buf =? 46)%nat then strip_zeros (drop 4 buf) else drop 4 buf)).
  { case_if; [unfold strip_zeros|]; auto with byte. }
  split_and!; [split_and!; try done; try by apply byte_at_ok|done|].
  - cbn [asnd_payload]. destruct (Nat.eqb_spec (length buf) 46); intros Hs.
    + apply last_strip_zeros.
    + rewrite length_drop in Hs. lia.
  - cbn [PowerlinkFrame_wire wire ASndFrame_laws]. rewrite length_ASndFrame_wire. cbn [asnd_payload].
    assert (length (strip_zeros (drop 4 buf)) <= length (drop 4 buf))%nat
      by (unfold strip_zeros; rewrite length_take; lia).
    rewrite length_drop in *. case_if; rewrite ?length_drop; lia.
Qed.

Lemma PReqFrame_parsed h buf f :
  eth_ok h -> bytes_ok buf -> (46 <= length buf)%nat -> PReqFrame_deserialize h buf = Ok f ->
  parsed_ok h buf (PF_PReq f).
Proof.
  intros Hh Hb Hl H. unfold PReqFrame_deserialize in H. parsed H.
  destruct (poll_parsed buf _ Hb eq_refl) as (?&?&?); [done|].
  split_and!; [split_and!; try done; by apply byte_at_ok|done|].
  cbn [PowerlinkFrame_wire wire PReqFrame_laws]. rewrite length_PReqFrame_wire.
  cbn [preq_payload]. unfold slice. rewrite length_take, length_drop. lia.
Qed.

Lemma PResFrame_parsed h buf f :
  eth_ok h -> bytes_ok buf -> (46 <= length buf)%nat -> PResFrame_deserialize h buf = Ok f ->
  parsed_ok h buf (PF_PRes f).
Proof.
  intros Hh Hb Hl H. unfold PResFrame_deserialize in H. parsed H.
  destruct (poll_parsed buf _ Hb eq_refl) as (?&?&?); [done|].
  split_and!; [split_and!; try done; try by apply byte_at_ok|done|].
  - cbn [pres_rs pres_flags]. pose proof (land_7_range (byte_at buf 5)). unfold RSFlag_new. lia.
  - cbn [pres_rs pres_flags]. pose proof (land_7_range (byte_at buf 5)). unfold RSFlag_new. lia.
  - cbn [PowerlinkFrame_wire wire PResFrame_laws]. rewrite length_PResFrame_wire.
    cbn [pres_payload]. unfold slice. rewrite length_take, length_drop. lia.
Qed.

(** A buffer of the minimum Ethernet size that parses gives a well-formed
    frame, which is no longer than the buffer. *)
Lemma deserialize_frame_parsed buf f :
  bytes_ok buf -> (60 <= length buf)%nat -> deserialize_frame buf = Ok f ->
  exists h, deserialize_eth_header buf = Ok h /\ parsed_ok h (drop 14 buf) f.
Proof.
  intros Hb Hl H. unfold deserialize_frame in H. inv_ok H. exists a. split; [done|].
  apply negb_false_iff in E0. pose proof (deserialize_eth_header_ok _ _ Hb E E0) as Ha.
  assert (Hd : (46 <= length (drop 14 buf))%nat) by (rewrite length_drop; lia).
  pose proof (bytes_ok_drop 14 buf Hb) as Hbd.
  destruct (drop 14 buf) as [|b0 pl]; [discriminate H|]. revert H.
  destruct (MessageType_try_from _) as [[]|]; unfold map_ok; cbn [deserialize SocFrame_codec
    PReqFrame_codec PResFrame_codec SoAFrame_codec ASndFrame_codec]; try done.
  all: intros H; inv_ok H; simplify_eq.
  - by apply SocFrame_parsed.
  - by apply PReqFrame_parsed.
  - by apply PResFrame_parsed.
  - by apply SoAFrame_parsed.
  - by apply ASndFrame_parsed.
Qed.

(** ** Properties *)
Definition demo_mac : MacAddress := [0x02; 0; 0; 0; 0; 0x2A].
Definition demo_pres : PowerlinkFrame :=
  PF_PRes (PResFrame_new demo_mac 42 NmtOperational (mkPResFlags false true true High2 3) 1 [1; 2; 0]).

(** C1: every well-formed frame that fits the 1518-byte buffer and that the
    node may send is handed to the network as one Ethernet frame of 60 to 1518
    octets, and parsing these octets gives the same frame back. *)
Theorem frame_send_receive_roundtrip is_cn f :
  PowerlinkFrame_wf f -> may_send is_cn f = true ->
  (length (PowerlinkFrame_wire f) <= 1504)%nat ->
  exists b, serialize_frame_action is_cn f = Ok (SendFrame b) /\
    60 <= len b <= 1518 /\ bytes_ok b /\ deserialize_frame b = Ok f.
Proof.
  intros Hf Hs Hl. exists (full_wire f).
  rewrite serialize_frame_action_eq by (by apply PowerlinkFrame_wf_eth).
  rewrite Hs, nat_ltb_false by done.
  pose proof (PowerlinkFrame_wire_min f). unfold len. rewrite length_full_wire by done.
  split_and!; [done|lia..|by apply full_wire_ok|by apply deserialize_full_wire].
Qed.

Lemma frame_send_receive_roundtrip_witness :
  exists b, serialize_frame_action true demo_pres = Ok (SendFrame b) /\
    60 <= len b <= 1518 /\ bytes_ok b /\ deserialize_frame b = Ok demo_pres.
Proof.
  apply (frame_send_receive_roundtrip true demo_pres).
  - split_and!; try done; repeat constructor; done.
  - reflexivity.
  - vm_compute. lia.
Defined.

(** handing a frame to the network never fails silently: a frame of a type
    the node may not send gives no action, an oversized one [BufferTooShort],
    and every other frame exactly its Ethernet header and its encoding. *)
Theorem serialize_frame_action_total is_cn f :
  eth_ok (ethernet_header f) ->
  (may_send is_cn f = false -> serialize_frame_action is_cn f = Ok NoAction) /\
  (may_send is_cn f = true -> (1504 < length (PowerlinkFrame_wire f))%nat ->
     serialize_frame_action is_cn f = Err BufferTooShort) /\
  (may_send is_cn f = true -> (length (PowerlinkFrame_wire f) <= 1504)%nat ->
     serialize_frame_action is_cn f = Ok (SendFrame (full_wire f))).
Proof.
  intros He. rewrite serialize_frame_action_eq by done.
  split_and!; intros ->; simpl; [done|intros H; by rewrite nat_ltb_true|intros H; by rewrite nat_ltb_false].
Qed.

Lemma serialize_frame_action_total_witness :
  serialize_frame_action false demo_pres = Ok NoAction /\
  serialize_frame_action true demo_pres = Ok (SendFrame (full_wire demo_pres)).
Proof.
  split.
  - apply (proj1 (serialize_frame_action_total false demo_pres
      ltac:(split_and!; try done; repeat constructor; done))). reflexivity.
  - apply (proj2 (proj2 (serialize_frame_action_total true demo_pres
      ltac:(split_and!; try done; repeat constructor; done)))); [reflexivity|vm_compute; lia].
Defined.

(** a received buffer of a legal Ethernet size that parses gives a
    well-formed frame, and a node permitted to send that frame re-encodes it to
    octets that parse to the same frame. *)
Theorem parsed_frame_reencodes is_cn buf f :
  bytes_ok buf -> (60 <= length buf <= 1518)%nat -> deserialize_frame buf = Ok f ->
  PowerlinkFrame_wf f /\
  (may_send is_cn f = true ->
   exists b, serialize_frame_action is_cn f = Ok (SendFrame b) /\
     (length b <= length buf)%nat /\ deserialize_frame b = Ok f).
Proof.
  intros Hb Hl H. destruct (deserialize_frame_parsed buf f) as (h&_&Hf&_&Hw); [done|lia|done|].
  split; [done|]. intros Hs. rewrite length_drop in Hw. exists (full_wire f).
  rewrite serialize_frame_action_eq by (by apply PowerlinkFrame_wf_eth).
  rewrite Hs, nat_ltb_false by lia. rewrite length_full_wire by done.
  split_and!; [done|lia|by apply deserialize_full_wire].
Qed.

Lemma parsed_frame_reencodes_witness :
  PowerlinkFrame_wf demo_pres /\
  exists b, serialize_frame_action true demo_pres = Ok (SendFrame b) /\
     (length b <= length (full_wire demo_pres))%nat /\ deserialize_frame b = Ok demo_pres.
Proof.
  destruct (parsed_frame_reencodes true (full_wire demo_pres) demo_pres) as [Hf Hs].
  - apply full_wire_ok. split_and!; try done; repeat constructor; done.
  - vm_compute. lia.
  - vm_compute. reflexivity.
  - split; [exact Hf|]. apply Hs. reflexivity.
Defined.

(** an ASnd frame survives the wire up to the trailing zeros of a payload
    short enough to be padded: those are lost, and no other byte is. *)
Theorem asnd_roundtrip_trailing_zeros f buf :
  asnd_message_type f = MT_ASnd ->
  (length (ASndFrame_wire f) <= length buf)%nat ->
  exists buf' n pay k,
    ASndFrame_serialize f buf = (buf', Ok n) /\
    ASndFrame_deserialize (asnd_eth_header f) (take n buf') =
      Ok {| asnd_eth_header := asnd_eth_header f; asnd_message_type := MT_ASnd;
            asnd_destination := asnd_destination f; asnd_source := asnd_source f;
            asnd_service_id := asnd_service_id f; asnd_payload := pay |} /\
    asnd_payload f = pay ++ replicate k 0 /\
    ((42 < length (asnd_payload f))%nat -> k = O) /\
    ((length (asnd_payload f) <= 42)%nat -> last pay <> Some 0).
Proof.
  intros Ht Hl. pose proof (serialize_fits f buf Hl) as Hs.
  eexists _, _, (if (length (asnd_payload f) <=? 42)%nat then strip_zeros (asnd_payload f)
                 else asnd_payload f).
  destruct (Nat.leb_spec (length (asnd_payload f)) 42).
  - destruct (strip_zeros_prefix (asnd_payload f)) as [k Hk]. exists k.
    split; [exact Hs|]. rewrite take_app_length.
    pose proof (ASndFrame_deserialize_wire f Ht) as Hd.
    rewrite (proj2 (Nat.leb_le _ _) H), Ht in Hd.
    split_and!; [exact Hd|done|lia|intros _; apply last_strip_zeros].
  - exists O. split; [exact Hs|]. rewrite take_app_length.
    pose proof (ASndFrame_deserialize_wire f Ht) as Hd.
    rewrite (proj2 (Nat.leb_gt _ _) H), Ht in Hd.
    split_and!; [exact Hd|by rewrite app_nil_r|done|lia].
Qed.

Lemma asnd_roundtrip_trailing_zeros_witness :
  exists buf' n pay k,
    let f := ASndFrame_new demo_mac demo_mac 1 2 Svc_Sdo [7; 0; 0] in
    ASndFrame_serialize f (replicate 60 0) = (buf', Ok n) /\
    ASndFrame_deserialize (asnd_eth_header f) (take n buf') =
      Ok {| asnd_eth_header := asnd_eth_header f; asnd_message_type := MT_ASnd;
            asnd_destination := asnd_destination f; asnd_source := asnd_source f;
            asnd_service_id := asnd_service_id f; asnd_payload := pay |} /\
    [7; 0; 0] = pay ++ replicate k 0 /\ ((42 < 3)%nat -> k = O) /\
    ((3 <= 42)%nat -> last pay <> Some 0).
Proof.
  apply (asnd_roundtrip_trailing_zeros (ASndFrame_new demo_mac demo_mac 1 2 Svc_Sdo [7; 0; 0])
           (replicate 60 0)).
  - reflexivity.
  - vm_compute. lia.
Defined.
