(* ===== verification/Dll.v ===== *)
(** * Data link layer: cycle state machines and error handling

    [frame/cs_state_machine.rs] and [frame/ms_state_machine.rs] (the cycle
    state machines of a controlled and of the managing node), the frame-to-event
    maps of [frame/mod.rs], and [frame/error/] (threshold counters, the counter
    sets of the two node kinds, the error manager).

    The traits [ErrorHandler] and [ErrorCounters] are classes; what a counter
    set promises to the manager and to the nodes is [ErrorCountersLaws]. *)
From S2P Require Import Prelude Types Frames.

(** ** Controlled node: DLL_CS ([frame/cs_state_machine.rs]) *)
Inductive DllCsState : Type := Cs_NonCyclic | Cs_WaitSoc | Cs_WaitPreq | Cs_WaitSoa.
Inductive DllCsEvent : Type := CE_Soc | CE_Preq | CE_Pres | CE_Soa | CE_Asnd | CE_SocTimeout.

#[export] Instance DllCsState_eq_dec : EqDecision DllCsState.
Proof. solve_decision. Defined.
#[export] Instance DllCsEvent_eq_dec : EqDecision DllCsEvent.
Proof. solve_decision. Defined.

(** The [as u8] casts of the two enums. *)
Definition DllCsState_as_u8 (s : DllCsState) : Z :=
  match s with Cs_NonCyclic => 0 | Cs_WaitSoc => 1 | Cs_WaitPreq => 2 | Cs_WaitSoa => 3 end.
Definition DllCsEvent_as_u8 (e : DllCsEvent) : Z :=
  match e with
  | CE_Soc => 0 | CE_Preq => 1 | CE_Pres => 2 | CE_Soa => 3 | CE_Asnd => 4 | CE_SocTimeout => 5
  end.

(** [if errors.is_empty() { None } else { Some(errors) }]. *)
Definition report (errors : list DllError) : option (list DllError) :=
  match errors with [] => None | _ => Some errors end.

(** The transition of a cyclic NMT state: next state and errors pushed. *)
Definition DllCs_transition (state : DllCsState) (event : DllCsEvent)
    : DllCsState * list DllError :=
  match state, event with
  | Cs_WaitPreq, CE_Preq => (Cs_WaitSoa, [])
  | Cs_WaitSoa, CE_Soa => (Cs_WaitSoc, [])
  | Cs_WaitSoa, CE_Preq => (Cs_WaitSoc, [LossOfSoc; LossOfSoa])
  | Cs_WaitSoa, CE_SocTimeout => (Cs_WaitSoc, [LossOfSoc; LossOfSoa])
  | Cs_WaitSoc, CE_Asnd => (Cs_WaitSoc, [])
  | Cs_WaitSoc, CE_Preq => (Cs_WaitSoc, [LossOfSoc])
  | Cs_WaitSoc, CE_Pres => (Cs_WaitSoc, [LossOfSoc])
  | Cs_WaitSoc, CE_Soa => (Cs_WaitSoc, [LossOfSoc])
  | Cs_WaitSoc, CE_SocTimeout => (Cs_WaitSoc, [LossOfSoc])
  | Cs_WaitPreq, CE_Pres => (Cs_WaitPreq, [])
  | Cs_WaitPreq, CE_Asnd => (Cs_WaitPreq, [LossOfSoa])
  | Cs_WaitPreq, CE_Soc => (Cs_WaitPreq, [LossOfSoa])
  | Cs_WaitPreq, CE_Soa => (Cs_WaitSoc, [LossOfPreq])
  | Cs_WaitPreq, CE_SocTimeout => (Cs_WaitSoc, [LossOfSoc; LossOfSoa])
  | Cs_WaitSoa, CE_Soc => (Cs_WaitPreq, [LossOfSoa])
  | Cs_WaitSoa, CE_Pres => (Cs_WaitSoa, [])
  | Cs_WaitSoa, CE_Asnd => (Cs_WaitSoa, [LossOfSoa])
  | _, CE_Soc => (Cs_WaitPreq, [])
  | current, _ =>
      (current, [UnexpectedEventInState (DllCsState_as_u8 current) (DllCsEvent_as_u8 event)])
  end.

Definition DllCs_process_event (state : DllCsState) (event : DllCsEvent) (nmt_state : NmtState)
    : DllCsState * option (list DllError) :=
  match nmt_state with
  | NmtPreOperational2 | NmtReadyToOperate | NmtOperational | NmtCsStopped =>
      let '(next_state, errors) := DllCs_transition state event in
      (next_state, report errors)
  | _ => (Cs_NonCyclic, None)
  end.

(** ** Managing node: DLL_MS ([frame/ms_state_machine.rs]) *)
Inductive DllMsState : Type :=
| Ms_NonCyclic | Ms_WaitSocTrig | Ms_WaitPres | Ms_WaitAsnd | Ms_WaitSoa.
Inductive DllMsEvent : Type :=
| ME_Pres | ME_PresTimeout | ME_Asnd | ME_AsndTimeout | ME_SocTrig | ME_SoaTrig.

#[export] Instance DllMsState_eq_dec : EqDecision DllMsState.
Proof. solve_decision. Defined.
#[export] Instance DllMsEvent_eq_dec : EqDecision DllMsEvent.
Proof. solve_decision. Defined.

Definition DllMsState_as_u8 (s : DllMsState) : Z :=
  match s with
  | Ms_NonCyclic => 0 | Ms_WaitSocTrig => 1 | Ms_WaitPres => 2 | Ms_WaitAsnd => 3 | Ms_WaitSoa => 4
  end.
Definition DllMsEvent_as_u8 (e : DllMsEvent) : Z :=
  match e with
  | ME_Pres => 0 | ME_PresTimeout => 1 | ME_Asnd => 2 | ME_AsndTimeout => 3 | ME_SocTrig => 4
  | ME_SoaTrig => 5
  end.

(** NmtPreOperational1: the reduced cycle. *)
Definition DllMs_reduced (state : DllMsState) (event : DllMsEvent)
    (response_expected async_in async_out : bool) : DllMsState * list DllError :=
  match state, event with
  | Ms_WaitSoa, ME_SoaTrig =>
      match async_in, response_expected, async_out with
      | true, false, _ => (Ms_WaitSoa, [])
      | false, _, true => (Ms_WaitSoa, [])
      | false, _, false => (Ms_WaitSoa, [])
      | true, true, _ => (Ms_WaitAsnd, [])
      end
  | Ms_WaitAsnd, (ME_AsndTimeout | ME_SoaTrig) =>
      let errors := if bool_decide (event = ME_AsndTimeout) then [MevAsndTimeout] else [] in
      match async_in, response_expected with
      | false, _ => (Ms_WaitSoa, errors)
      | true, false => (Ms_WaitSoa, errors)
      | true, true => (Ms_WaitAsnd, errors ++ [MevAsndTimeout])
      end
  | current, _ =>
      (current, [UnexpectedEventInState (DllMsState_as_u8 current) (DllMsEvent_as_u8 event)])
  end.

(** NmtPreOperational2, NmtReadyToOperate, NmtOperational: the full cycle. *)
Definition DllMs_cyclic (state : DllMsState) (event : DllMsEvent)
    (async_in async_out isochr isochr_out : bool) (dest_node_id : NodeId)
    : DllMsState * list DllError :=
  match state, event with
  | Ms_WaitSocTrig, ME_SocTrig =>
      match isochr, async_in, isochr_out, async_out with
      | true, _, _, _ => (Ms_WaitPres, [])
      | false, true, true, _ => (Ms_WaitAsnd, [])
      | false, true, _, _ => (Ms_WaitAsnd, [])
      | false, false, true, _ => (Ms_WaitSocTrig, [])
      | false, false, _, true => (Ms_WaitSocTrig, [])
      | false, false, _, _ => (Ms_WaitSocTrig, [])
      end
  | Ms_WaitPres, (ME_Pres | ME_PresTimeout) =>
      let errors := if bool_decide (event = ME_PresTimeout) then [LossOfPres dest_node_id] else [] in
      match isochr, async_in, isochr_out, async_out with
      | true, _, _, _ => (Ms_WaitPres, errors)
      | false, false, true, _ => (Ms_WaitSocTrig, errors)
      | false, false, _, true => (Ms_WaitSocTrig, errors)
      | false, false, _, _ => (Ms_WaitSocTrig, errors)
      | false, true, true, _ => (Ms_WaitAsnd, errors)
      | false, true, _, _ => (Ms_WaitAsnd, errors)
      end
  | Ms_WaitAsnd, ME_SocTrig =>
      match isochr, async_in, isochr_out, async_out with
      | false, false, true, _ => (Ms_WaitSocTrig, [])
      | false, false, _, true => (Ms_WaitSocTrig, [])
      | false, false, _, _ => (Ms_WaitSocTrig, [])
      | false, true, _, _ => (Ms_WaitAsnd, [])
      | true, _, _, _ => (Ms_WaitPres, [])
      end
  | Ms_WaitAsnd, ME_Asnd => (Ms_WaitAsnd, [])
  | Ms_NonCyclic, ME_SocTrig => (Ms_WaitSocTrig, [])
  | current, _ =>
      (current, [UnexpectedEventInState (DllMsState_as_u8 current) (DllMsEvent_as_u8 event)])
  end.

Definition DllMs_process_event (state : DllMsState) (event : DllMsEvent) (nmt_state : NmtState)
    (response_expected async_in async_out isochr isochr_out : bool) (dest_node_id : NodeId)
    : DllMsState * option (list DllError) :=
  match nmt_state with
  | NmtPreOperational1 =>
      let '(next_state, errors) := DllMs_reduced state event response_expected async_in async_out in
      (next_state, report errors)
  | NmtOperational | NmtReadyToOperate | NmtPreOperational2 =>
      let '(next_state, errors) :=
        DllMs_cyclic state event async_in async_out isochr isochr_out dest_node_id in
      (next_state, report errors)
  | _ => (Ms_NonCyclic, None)
  end.

(** ** Frames as events ([frame/mod.rs]) *)
Definition dll_cn_event (frame : PowerlinkFrame) : DllCsEvent :=
  match frame with
  | PF_Soc _ => CE_Soc | PF_PReq _ => CE_Preq | PF_PRes _ => CE_Pres
  | PF_SoA _ => CE_Soa | PF_ASnd _ => CE_Asnd
  end.
Definition dll_mn_event (frame : PowerlinkFrame) : DllMsEvent :=
  match frame with PF_PRes _ => ME_Pres | PF_ASnd _ => ME_Asnd | _ => ME_Asnd end.
Definition nmt_event (frame : PowerlinkFrame) : option NmtEvent :=
  match frame with
  | PF_Soc _ => Some Ev_SocReceived | PF_SoA _ => Some Ev_SocSoAReceived | _ => None
  end.

(** ** Error handlers and counters ([frame/error/traits.rs], [counters.rs]) *)
Class ErrorHandler (H : Type) : Type := { log_error : H -> DllError -> H }.

(** [NoOpErrorHandler]. *)
#[export] Instance NoOpErrorHandler : ErrorHandler unit := { log_error h _ := h }.
(** [LoggingErrorHandler]: the log is the list of lines written, newest last. *)
#[export] Instance LoggingErrorHandler : ErrorHandler (list DllError) :=
  { log_error h e := h ++ [e] }.

Class ErrorCounters (C : Type) : Type := {
  on_cycle_complete : C -> C * bool;
  handle_error : forall {H} `{ErrorHandler H}, C -> DllError -> H -> C * H * (NmtAction * bool)
}.

Record ThresholdCounter : Type := mkThresholdCounter {
  cumulative_cnt : Z; threshold_cnt : Z; threshold : Z
}.

#[export] Instance ThresholdCounter_eq_dec : EqDecision ThresholdCounter.
Proof. solve_decision. Defined.

Definition ThresholdCounter_default : ThresholdCounter := mkThresholdCounter 0 0 0.
Definition ThresholdCounter_new (t : Z) : ThresholdCounter := mkThresholdCounter 0 0 t.
Definition increment (c : ThresholdCounter) : ThresholdCounter :=
  mkThresholdCounter (cumulative_cnt c) (sat_add 32 (threshold_cnt c) 8) (threshold c).
Definition decrement (c : ThresholdCounter) : ThresholdCounter :=
  mkThresholdCounter (cumulative_cnt c) (sat_sub (threshold_cnt c) 1) (threshold c).
Definition check_and_reset (c : ThresholdCounter) : ThresholdCounter * bool :=
  if (0 <? threshold c) && (threshold c <=? threshold_cnt c) then
    (mkThresholdCounter (sat_add 32 (cumulative_cnt c) 1) 0 (threshold c), true)
  else (c, false).
Definition is_active (c : ThresholdCounter) : bool := 0 <? threshold_cnt c.

(** *** Controlled node *)
Record CnErrorCounters : Type := mkCnErrorCounters {
  cn_collision : ThresholdCounter;
  cn_loss_of_soc : ThresholdCounter;
  cn_loss_of_soa : ThresholdCounter;
  cn_loss_of_preq : ThresholdCounter;
  cn_soc_jitter : ThresholdCounter;
  cn_crc_errors : ThresholdCounter;
  cn_heartbeat_timeout : ThresholdCounter;
  cn_loss_of_link_cumulative : Z
}.

Definition CnErrorCounters_new : CnErrorCounters :=
  {| cn_loss_of_soc := ThresholdCounter_new 15; cn_loss_of_soa := ThresholdCounter_new 15;
     cn_loss_of_preq := ThresholdCounter_new 15; cn_crc_errors := ThresholdCounter_new 15;
     cn_collision := ThresholdCounter_new 15; cn_soc_jitter := ThresholdCounter_new 15;
     cn_heartbeat_timeout := ThresholdCounter_new 15; cn_loss_of_link_cumulative := 0 |}.

Definition is_any_active (c : CnErrorCounters) : bool :=
  is_active (cn_loss_of_soc c) || is_active (cn_loss_of_soa c) || is_active (cn_loss_of_preq c)
  || is_active (cn_crc_errors c) || is_active (cn_collision c) || is_active (cn_soc_jitter c)
  || is_active (cn_heartbeat_timeout c).

Definition cn_on_cycle_complete (c : CnErrorCounters) : CnErrorCounters * bool :=
  let was_active := is_any_active c in
  let c :=
    {| cn_loss_of_soc := decrement (cn_loss_of_soc c);
       cn_loss_of_soa := decrement (cn_loss_of_soa c);
       cn_loss_of_preq := decrement (cn_loss_of_preq c);
       cn_crc_errors := decrement (cn_crc_errors c);
       cn_collision := decrement (cn_collision c);
       cn_soc_jitter := decrement (cn_soc_jitter c);
       cn_heartbeat_timeout := decrement (cn_heartbeat_timeout c);
       cn_loss_of_link_cumulative := cn_loss_of_link_cumulative c |} in
  let is_still_active := is_any_active c in
  (c, was_active && negb is_still_active).

Definition set_collision c x := mkCnErrorCounters x (cn_loss_of_soc c) (cn_loss_of_soa c)
  (cn_loss_of_preq c) (cn_soc_jitter c) (cn_crc_errors c) (cn_heartbeat_timeout c)
  (cn_loss_of_link_cumulative c).
Definition set_loss_of_soc c x := mkCnErrorCounters (cn_collision c) x (cn_loss_of_soa c)
  (cn_loss_of_preq c) (cn_soc_jitter c) (cn_crc_errors c) (cn_heartbeat_timeout c)
  (cn_loss_of_link_cumulative c).
Definition set_loss_of_soa c x := mkCnErrorCounters (cn_collision c) (cn_loss_of_soc c) x
  (cn_loss_of_preq c) (cn_soc_jitter c) (cn_crc_errors c) (cn_heartbeat_timeout c)
  (cn_loss_of_link_cumulative c).
Definition set_loss_of_preq c x := mkCnErrorCounters (cn_collision c) (cn_loss_of_soc c)
  (cn_loss_of_soa c) x (cn_soc_jitter c) (cn_crc_errors c) (cn_heartbeat_timeout c)
  (cn_loss_of_link_cumulative c).
Definition set_soc_jitter c x := mkCnErrorCounters (cn_collision c) (cn_loss_of_soc c)
  (cn_loss_of_soa c) (cn_loss_of_preq c) x (cn_crc_errors c) (cn_heartbeat_timeout c)
  (cn_loss_of_link_cumulative c).
Definition set_crc_errors c x := mkCnErrorCounters (cn_collision c) (cn_loss_of_soc c)
  (cn_loss_of_soa c) (cn_loss_of_preq c) (cn_soc_jitter c) x (cn_heartbeat_timeout c)
  (cn_loss_of_link_cumulative c).
Definition set_heartbeat_timeout c x := mkCnErrorCounters (cn_collision c) (cn_loss_of_soc c)
  (cn_loss_of_soa c) (cn_loss_of_preq c) (cn_soc_jitter c) (cn_crc_errors c) x
  (cn_loss_of_link_cumulative c).
Definition set_loss_of_link c x := mkCnErrorCounters (cn_collision c) (cn_loss_of_soc c)
  (cn_loss_of_soa c) (cn_loss_of_preq c) (cn_soc_jitter c) (cn_crc_errors c)
  (cn_heartbeat_timeout c) x.

(** [counter.increment(); counter.check_and_reset()] on one field. *)
Definition count_error (set : CnErrorCounters -> ThresholdCounter -> CnErrorCounters)
    (get : CnErrorCounters -> ThresholdCounter) (c : CnErrorCounters) : CnErrorCounters * bool :=
  let '(x, reached) := check_and_reset (increment (get c)) in (set c x, reached).

Definition cn_handle_error {H} `{ErrorHandler H} (c : CnErrorCounters) (error : DllError)
    (handler : H) : CnErrorCounters * H * (NmtAction * bool) :=
  let '(c, handler, status_changed, threshold_reached) :=
    match error with
    | LossOfSoc => let '(c, r) := count_error set_loss_of_soc cn_loss_of_soc c in (c, handler, false, r)
    | LossOfSoa => let '(c, r) := count_error set_loss_of_soa cn_loss_of_soa c in (c, handler, false, r)
    | LossOfPreq => let '(c, r) := count_error set_loss_of_preq cn_loss_of_preq c in (c, handler, false, r)
    | Crc => let '(c, r) := count_error set_crc_errors cn_crc_errors c in (c, handler, false, r)
    | Collision => let '(c, r) := count_error set_collision cn_collision c in (c, handler, false, r)
    | SoCJitter => let '(c, r) := count_error set_soc_jitter cn_soc_jitter c in (c, handler, false, r)
    | HeartbeatTimeout _ =>
        let '(c, r) := count_error set_heartbeat_timeout cn_heartbeat_timeout c in (c, handler, false, r)
    | LossOfLink =>
        (set_loss_of_link c (sat_add 32 (cn_loss_of_link_cumulative c) 1),
         log_error handler error, true, false)
    | PdoMapVersion _ | PdoPayloadShort _ => (c, log_error handler error, true, false)
    | _ => (c, handler, false, false)
    end in
  if (threshold_reached : bool) then (c, log_error handler error, (Act_ResetCommunication, true))
  else (c, handler, (Act_None, status_changed)).

#[export] Instance CnErrorCounters_counters : ErrorCounters CnErrorCounters :=
  { on_cycle_complete := cn_on_cycle_complete; handle_error H EH := @cn_handle_error H EH }.

(** *** Managing node *)
Record MnErrorCounters : Type := mkMnErrorCounters {
  mn_crc_errors : ThresholdCounter;
  mn_collision : ThresholdCounter;
  mn_cycle_time_exceeded : ThresholdCounter;
  mn_loss_of_link_cumulative : Z;
  mn_cn_late_pres : gmap NodeId ThresholdCounter;
  mn_cn_loss_of_pres : gmap NodeId ThresholdCounter;
  mn_cn_loss_of_status_response : gmap NodeId ThresholdCounter
}.

(** [Self::default()], derived. *)
Definition MnErrorCounters_new : MnErrorCounters :=
  {| mn_crc_errors := ThresholdCounter_default; mn_collision := ThresholdCounter_default;
     mn_cycle_time_exceeded := ThresholdCounter_default; mn_loss_of_link_cumulative := 0;
     mn_cn_late_pres := ∅; mn_cn_loss_of_pres := ∅; mn_cn_loss_of_status_response := ∅ |}.

Definition mn_on_cycle_complete (c : MnErrorCounters) : MnErrorCounters * bool :=
  ({| mn_crc_errors := decrement (mn_crc_errors c);
      mn_collision := decrement (mn_collision c);
      mn_cycle_time_exceeded := decrement (mn_cycle_time_exceeded c);
      mn_loss_of_link_cumulative := mn_loss_of_link_cumulative c;
      mn_cn_late_pres := decrement <$> mn_cn_late_pres c;
      mn_cn_loss_of_pres := decrement <$> mn_cn_loss_of_pres c;
      mn_cn_loss_of_status_response := decrement <$> mn_cn_loss_of_status_response c |}, false).

(** [entry(node_id).or_insert_with(|| ThresholdCounter::new(15))], then the
    increment and the check on the entry. *)
Definition counter_for (m : gmap NodeId ThresholdCounter) (node_id : NodeId) : ThresholdCounter :=
  unwrap_or (m !! node_id) (ThresholdCounter_new 15).
Definition count_node_error (m : gmap NodeId ThresholdCounter) (node_id : NodeId)
    : gmap NodeId ThresholdCounter * bool :=
  let '(x, reached) := check_and_reset (increment (counter_for m node_id)) in
  (<[node_id := x]> m, reached).

Definition mn_handle_error {H} `{ErrorHandler H} (c : MnErrorCounters) (error : DllError)
    (handler : H) : MnErrorCounters * H * (NmtAction * bool) :=
  let '(c, handler, status_changed, (threshold_reached, node_id)) :=
    match error with
    | Crc =>
        let '(x, r) := check_and_reset (increment (mn_crc_errors c)) in
        (mkMnErrorCounters x (mn_collision c) (mn_cycle_time_exceeded c)
           (mn_loss_of_link_cumulative c) (mn_cn_late_pres c) (mn_cn_loss_of_pres c)
           (mn_cn_loss_of_status_response c), handler, false, (r, None))
    | Collision =>
        let '(x, r) := check_and_reset (increment (mn_collision c)) in
        (mkMnErrorCounters (mn_crc_errors c) x (mn_cycle_time_exceeded c)
           (mn_loss_of_link_cumulative c) (mn_cn_late_pres c) (mn_cn_loss_of_pres c)
           (mn_cn_loss_of_status_response c), handler, false, (r, None))
    | CycleTimeExceeded =>
        let '(x, r) := check_and_reset (increment (mn_cycle_time_exceeded c)) in
        (mkMnErrorCounters (mn_crc_errors c) (mn_collision c) x
           (mn_loss_of_link_cumulative c) (mn_cn_late_pres c) (mn_cn_loss_of_pres c)
           (mn_cn_loss_of_status_response c), handler, false, (r, None))
    | LossOfPres node_id =>
        let '(m, r) := count_node_error (mn_cn_loss_of_pres c) node_id in
        (mkMnErrorCounters (mn_crc_errors c) (mn_collision c) (mn_cycle_time_exceeded c)
           (mn_loss_of_link_cumulative c) (mn_cn_late_pres c) m
           (mn_cn_loss_of_status_response c), handler, false, (r, Some node_id))
    | LatePres node_id =>
        let '(m, r) := count_node_error (mn_cn_late_pres c) node_id in
        (mkMnErrorCounters (mn_crc_errors c) (mn_collision c) (mn_cycle_time_exceeded c)
           (mn_loss_of_link_cumulative c) m (mn_cn_loss_of_pres c)
           (mn_cn_loss_of_status_response c), handler, false, (r, Some node_id))
    | LossOfStatusRes node_id =>
        let '(m, r) := count_node_error (mn_cn_loss_of_status_response c) node_id in
        (mkMnErrorCounters (mn_crc_errors c) (mn_collision c) (mn_cycle_time_exceeded c)
           (mn_loss_of_link_cumulative c) (mn_cn_late_pres c) (mn_cn_loss_of_pres c) m,
         handler, false, (r, Some node_id))
    | PdoMapVersion _ | PdoPayloadShort _ => (c, log_error handler error, true, (false, None))
    | _ => (c, handler, false, (false, None))
    end in
  if (threshold_reached : bool) then
    (c, log_error handler error,
     (match node_id with Some id => Act_ResetNode id | None => Act_ResetCommunication end, true))
  else (c, handler, (Act_None, status_changed)).

#[export] Instance MnErrorCounters_counters : ErrorCounters MnErrorCounters :=
  { on_cycle_complete := mn_on_cycle_complete; handle_error H EH := @mn_handle_error H EH }.

(** ** The manager ([frame/error/manager.rs]) *)
Record DllErrorManager (C H : Type) : Type := mkDllErrorManager { counters : C; handler : H }.
Arguments mkDllErrorManager {C H} counters handler.
Arguments counters {C H} d.
Arguments handler {C H} d.

Definition manager_handle_error {C H} `{ErrorCounters C, ErrorHandler H}
    (m : DllErrorManager C H) (error : DllError) : DllErrorManager C H * (NmtAction * bool) :=
  let '(c, h, r) := handle_error (counters m) error (handler m) in (mkDllErrorManager c h, r).

Definition manager_on_cycle_complete {C H} `{ErrorCounters C}
    (m : DllErrorManager C H) : DllErrorManager C H * bool :=
  let '(c, changed) := on_cycle_complete (counters m) in (mkDllErrorManager c (handler m), changed).

(** ** The counters over a run *)
Inductive CounterOp : Type := OpError | OpGood.

Definition counter_step (c : ThresholdCounter) (op : CounterOp) : ThresholdCounter * bool :=
  match op with OpError => check_and_reset (increment c) | OpGood => (decrement c, false) end.

(** The counter after a run, and how often the threshold was reached. *)
Fixpoint run_counter (c : ThresholdCounter) (ops : list CounterOp) : ThresholdCounter * Z :=
  match ops with
  | [] => (c, 0)
  | op :: ops =>
      let '(c, reached) := counter_step c op in
      let '(c, n) := run_counter c ops in (c, n + Z.b2z reached)
  end.

Fixpoint errors_in (ops : list CounterOp) : Z :=
  match ops with [] => 0 | OpError :: ops => 1 + errors_in ops | OpGood :: ops => errors_in ops end.

(** Every error is followed by eight error-free cycles before the next. *)
Definition quiet : list CounterOp := replicate 8 OpGood.

Definition counter_ok (c : ThresholdCounter) : Prop :=
  threshold c = 15 /\ 0 <= threshold_cnt c <= 14 /\ in_width 32 (cumulative_cnt c).

Lemma counter_new_ok : counter_ok (ThresholdCounter_new 15).
Proof. by unfold counter_ok, in_width; simpl; lia. Qed.

Lemma decrement_ok c : counter_ok c -> counter_ok (decrement c).
Proof. unfold counter_ok, decrement, sat_sub. simpl. intuition lia. Qed.

(** One error: eight more, and an alarm exactly when that makes fifteen. *)
Lemma error_step_eq c :
  counter_ok c ->
  check_and_reset (increment c) =
    if 7 <=? threshold_cnt c
    then (mkThresholdCounter (sat_add 32 (cumulative_cnt c) 1) 0 15, true)
    else (mkThresholdCounter (cumulative_cnt c) (threshold_cnt c + 8) 15, false).
Proof.
  intros (Ht&Hc&Hw). unfold check_and_reset, increment. simpl. rewrite Ht. simpl.
  assert (sat_add 32 (threshold_cnt c) 8 = threshold_cnt c + 8) as -> by (unfold sat_add; lia).
  destruct (Z.leb_spec 15 (threshold_cnt c + 8)), (Z.leb_spec 7 (threshold_cnt c)); try lia; done.
Qed.

Lemma error_step_ok c : counter_ok c -> counter_ok (fst (check_and_reset (increment c))).
Proof.
  intros Hc. rewrite error_step_eq by done. destruct Hc as (Ht&Hc&Hw).
  destruct (Z.leb_spec 7 (threshold_cnt c)); unfold counter_ok, in_width, sat_add in *; simpl; lia.
Qed.

Lemma counter_step_ok c op : counter_ok c -> counter_ok (fst (counter_step c op)).
Proof. destruct op; [apply error_step_ok|apply decrement_ok]. Qed.

(** What a run has accumulated since the counter [c]. *)
Lemma run_counter_spec c ops :
  counter_ok c ->
  let '(c', n) := run_counter c ops in
  counter_ok c' /\ 0 <= n /\ cumulative_cnt c' = Z.min (2 ^ 32 - 1) (cumulative_cnt c + n) /\
  15 * n + threshold_cnt c' <= threshold_cnt c + 8 * errors_in ops.
Proof.
  revert c. induction ops as [|op ops IH]; intros c Hc; simpl.
  - pose proof Hc as (?&?&[??]). split_and!; try done; lia.
  - pose proof (counter_step_ok c op Hc) as Hs. destruct op; simpl in *.
    + rewrite error_step_eq in * by done. pose proof Hc as (?&?&[??]).
      destruct (Z.leb_spec 7 (threshold_cnt c)); simpl in *;
        specialize (IH _ Hs); destruct (run_counter _ ops) as [c' n];
        simpl in IH; unfold sat_add in *; intuition lia.
    + specialize (IH _ Hs). destruct (run_counter _ ops) as [c' n]. simpl in IH.
      unfold sat_sub in IH. destruct Hc as (?&?&[??]). intuition lia.
Qed.

Lemma run_counter_app c ops1 ops2 :
  run_counter c (ops1 ++ ops2) =
    let '(c1, n1) := run_counter c ops1 in
    let '(c2, n2) := run_counter c1 ops2 in (c2, n1 + n2).
Proof.
  revert c. induction ops1 as [|op ops1 IH]; intros c; simpl.
  - by destruct (run_counter c ops2).
  - destruct (counter_step c op) as [c0 r]. rewrite IH.
    destruct (run_counter c0 ops1) as [c1 n1]. destruct (run_counter c1 ops2) as [c2 n2].
    f_equal. lia.
Qed.

(** The bucket the standard describes, on plain integers: an error adds 8, a
    cycle without one takes 1, and a level of 15 raises an alarm and empties the
    bucket.  The result is the level after the run and the number of alarms. *)
Fixpoint bucket (level : Z) (ops : list CounterOp) : Z * Z :=
  match ops with
  | [] => (level, 0)
  | OpError :: ops =>
      if 15 <=? level + 8 then let '(l, alarms) := bucket 0 ops in (l, alarms + 1)
      else bucket (level + 8) ops
  | OpGood :: ops => bucket (Z.max 0 (level - 1)) ops
  end.

(** The counter of the code refines the bucket. *)
Lemma run_counter_bucket ops : forall c,
  counter_ok c ->
  (threshold_cnt (fst (run_counter c ops)), snd (run_counter c ops)) = bucket (threshold_cnt c) ops.
Proof.
  induction ops as [|op ops IH]; intros c Hc; [done|].
  pose proof (counter_step_ok c op Hc) as Hs. destruct op; cbn [run_counter counter_step bucket].
  - cbn [counter_step] in Hs. rewrite error_step_eq in * by done. pose proof Hc as (_&?&_).
    destruct (Z.leb_spec 7 (threshold_cnt c)), (Z.leb_spec 15 (threshold_cnt c + 8)); try lia;
      specialize (IH _ Hs); cbn [fst threshold_cnt] in IH; rewrite <- IH;
      destruct (run_counter _ ops) as [c' n]; cbn [fst snd]; f_equal; simpl; lia.
  - specialize (IH _ Hs). destruct (run_counter (decrement c) ops) as [c' n] eqn:E.
    cbn [counter_step fst] in IH. rewrite E in IH. cbn [fst snd] in *.
    unfold decrement, sat_sub in IH. cbn [threshold_cnt] in IH. rewrite <- IH. f_equal. simpl. lia.
Qed.

(** An isolated error leaves no trace. *)
Lemma isolated_error c :
  counter_ok c -> threshold_cnt c = 0 ->
  run_counter c (OpError :: quiet) = (c, 0).
Proof.
  intros Hc H0. cbn [run_counter counter_step]. rewrite error_step_eq by done. rewrite H0. simpl.
  destruct c as [cu cn t]. destruct Hc as (Ht&_&_). simpl in *. by subst.
Qed.

Lemma isolated_errors c n :
  counter_ok c -> threshold_cnt c = 0 ->
  run_counter c (concat (replicate n (OpError :: quiet))) = (c, 0).
Proof.
  intros Hc H0. induction n as [|n IH]; [done|].
  change (concat (replicate (S n) (OpError :: quiet)))
    with ((OpError :: quiet) ++ concat (replicate n (OpError :: quiet))).
  by rewrite run_counter_app, isolated_error, IH.
Qed.

(** ** What a counter set promises *)
Definition concerns (e : DllError) (n : NodeId) : Prop :=
  e = LossOfPres n \/ e = LatePres n \/ e = LossOfStatusRes n.

Class ErrorCountersLaws (C : Type) `{ErrorCounters C} : Type := {
  counters_wf : C -> Prop;
  wf_cycle : forall c, counters_wf c -> counters_wf (fst (on_cycle_complete c));
  wf_error : forall H (EH : ErrorHandler H) c e h,
    counters_wf c -> counters_wf (fst (fst (handle_error c e h)));
  logged_once : forall H (EH : ErrorHandler H) c e h,
    snd (fst (handle_error c e h)) =
      if snd (snd (handle_error c e h)) then log_error h e else h;
  action_signalled : forall H (EH : ErrorHandler H) c e h,
    fst (snd (handle_error c e h)) <> Act_None -> snd (snd (handle_error c e h)) = true;
  reset_node_concerns : forall H (EH : ErrorHandler H) c e h n,
    fst (snd (handle_error c e h)) = Act_ResetNode n -> concerns e n
}.

(** The seven counted kinds of a controlled node. *)
Inductive CnKind : Type :=
| K_Collision | K_LossOfSoc | K_LossOfSoa | K_LossOfPreq | K_SoCJitter | K_Crc | K_Heartbeat.

#[export] Instance CnKind_eq_dec : EqDecision CnKind.
Proof. solve_decision. Defined.

Definition kind_of (e : DllError) : option CnKind :=
  match e with
  | Collision => Some K_Collision | LossOfSoc => Some K_LossOfSoc | LossOfSoa => Some K_LossOfSoa
  | LossOfPreq => Some K_LossOfPreq | SoCJitter => Some K_SoCJitter | Crc => Some K_Crc
  | HeartbeatTimeout _ => Some K_Heartbeat | _ => None
  end.

Definition counter_of (k : CnKind) (c : CnErrorCounters) : ThresholdCounter :=
  match k with
  | K_Collision => cn_collision c | K_LossOfSoc => cn_loss_of_soc c
  | K_LossOfSoa => cn_loss_of_soa c | K_LossOfPreq => cn_loss_of_preq c
  | K_SoCJitter => cn_soc_jitter c | K_Crc => cn_crc_errors c
  | K_Heartbeat => cn_heartbeat_timeout c
  end.

(** Handling an error: its own counter makes one error step, no other moves. *)
Lemma cn_handle_error_counter {H} `{ErrorHandler H} c e (h : H) k :
  counter_of k (fst (fst (cn_handle_error c e h))) =
    if bool_decide (kind_of e = Some k)
    then fst (check_and_reset (increment (counter_of k c))) else counter_of k c.
Proof.
  destruct e, k; unfold cn_handle_error, count_error; simpl;
    try destruct (check_and_reset (increment _)) as [x []]; done.
Qed.

Lemma cn_handle_error_action {H} `{ErrorHandler H} c e (h : H) :
  fst (snd (cn_handle_error c e h)) =
    match kind_of e with
    | Some k => if snd (check_and_reset (increment (counter_of k c)))
                then Act_ResetCommunication else Act_None
    | None => Act_None
    end.
Proof.
  destruct e; unfold cn_handle_error, count_error; simpl;
    try destruct (check_and_reset (increment _)) as [x []]; done.
Qed.

Lemma cn_on_cycle_counter c k :
  counter_of k (fst (cn_on_cycle_complete c)) = decrement (counter_of k c).
Proof. by destruct k. Qed.

Definition cn_counters_ok (c : CnErrorCounters) : Prop := forall k, counter_ok (counter_of k c).

#[export, refine] Instance CnErrorCounters_laws : ErrorCountersLaws CnErrorCounters :=
  { counters_wf := cn_counters_ok }.
Proof.
  - intros c Hc k. cbn [on_cycle_complete CnErrorCounters_counters]. rewrite cn_on_cycle_counter. apply decrement_ok, Hc.
  - intros H EH c e h Hc k. cbn [handle_error CnErrorCounters_counters]. rewrite cn_handle_error_counter.
    case_if; [apply error_step_ok|]; apply Hc.
  - intros H EH c e h. destruct e; simpl; unfold cn_handle_error, count_error; simpl;
      try destruct (check_and_reset (increment _)) as [x []]; done.
  - intros H EH c e h. destruct e; simpl; unfold cn_handle_error, count_error; simpl;
      try destruct (check_and_reset (increment _)) as [x []]; done.
  - intros H EH c e h n. cbn [handle_error CnErrorCounters_counters]. rewrite cn_handle_error_action.
    repeat case_match; done.
Defined.

(** *** The managing node's counters *)
Definition mn_counters_ok (c : MnErrorCounters) : Prop :=
  map_Forall (fun _ x => counter_ok x) (mn_cn_late_pres c) /\
  map_Forall (fun _ x => counter_ok x) (mn_cn_loss_of_pres c) /\
  map_Forall (fun _ x => counter_ok x) (mn_cn_loss_of_status_response c) /\
  threshold (mn_crc_errors c) = 0 /\ threshold (mn_collision c) = 0 /\
  threshold (mn_cycle_time_exceeded c) = 0.

Lemma counter_for_ok m n :
  map_Forall (fun _ x => counter_ok x) m -> counter_ok (counter_for m n).
Proof.
  intros Hm. unfold counter_for. destruct (m !! n) as [x|] eqn:E; simpl.
  - by apply (Hm n).
  - apply counter_new_ok.
Qed.

Lemma count_node_error_ok m n :
  map_Forall (fun _ x => counter_ok x) m ->
  map_Forall (fun _ x => counter_ok x) (fst (count_node_error m n)).
Proof.
  intros Hm. unfold count_node_error.
  pose proof (error_step_ok _ (counter_for_ok m n Hm)) as Hs.
  destruct (check_and_reset _) as [x r]. by apply map_Forall_insert_2.
Qed.

Lemma decrement_map_ok (m : gmap NodeId ThresholdCounter) :
  map_Forall (fun _ x => counter_ok x) m ->
  map_Forall (fun _ x => counter_ok x) (decrement <$> m).
Proof. intros Hm n x. rewrite lookup_fmap_Some. intros (y&<-&Hy). apply decrement_ok. by apply (Hm n). Qed.

(** A threshold of zero is never reached. *)
Lemma disabled_counter c : threshold c = 0 -> check_and_reset (increment c) = (increment c, false).
Proof. intros Ht. unfold check_and_reset. simpl. by rewrite Ht. Qed.

#[export, refine] Instance MnErrorCounters_laws : ErrorCountersLaws MnErrorCounters :=
  { counters_wf := mn_counters_ok }.
Proof.
  - intros c (?&?&?&?&?&?). split_and!; simpl; try done; by apply decrement_map_ok.
  - intros H EH c e h (Hl&Hp&Hs&H1&H2&H3). simpl. unfold mn_handle_error.
    destruct e; simpl; rewrite ?disabled_counter by done; try (by split_and!);
      match goal with
      | |- context [count_node_error ?m ?n] =>
          pose proof (count_node_error_ok m n ltac:(done)); destruct (count_node_error m n) as [? []]
      end; by split_and!.
  - intros H EH c e h. destruct e; simpl; unfold mn_handle_error; simpl;
      try destruct (count_node_error _ _) as [? []];
      try destruct (check_and_reset _) as [? []]; done.
  - intros H EH c e h. destruct e; simpl; unfold mn_handle_error; simpl;
      try destruct (count_node_error _ _) as [? []];
      try destruct (check_and_reset _) as [? []]; done.
  - intros H EH c e h n. unfold concerns. destruct e; simpl; unfold mn_handle_error; simpl;
      try destruct (count_node_error _ _) as [? []];
      try destruct (check_and_reset _) as [? []]; simpl; intros; simplify_eq; auto.
Defined.

(** ** Runs of a manager *)
Inductive MgrOp : Type := Op_Error (e : DllError) | Op_Cycle.

(** The manager after a run, and the answer given to each reported error. *)
Fixpoint run_manager {C H} `{ErrorCounters C, ErrorHandler H} (m : DllErrorManager C H)
    (ops : list MgrOp) : DllErrorManager C H * list (DllError * (NmtAction * bool)) :=
  match ops with
  | [] => (m, [])
  | Op_Error e :: ops =>
      let '(m, r) := manager_handle_error m e in
      let '(m, outs) := run_manager m ops in (m, (e, r) :: outs)
  | Op_Cycle :: ops =>
      let '(m, _) := manager_on_cycle_complete m in run_manager m ops
  end.

Definition signalled (o : DllError * (NmtAction * bool)) : bool := snd (snd o).

(** What one kind of error sees of a run. *)
Definition project (mine : DllError -> bool) (ops : list MgrOp) : list CounterOp :=
  omap (fun op => match op with
                  | Op_Cycle => Some OpGood
                  | Op_Error e => if mine e then Some OpError else None
                  end) ops.

Definition count_if {A} (p : A -> bool) (l : list A) : Z := len (List.filter p l).

Lemma count_if_cons {A} (p : A -> bool) x l :
  count_if p (x :: l) = Z.b2z (p x) + count_if p l.
Proof. unfold count_if, len. simpl. destruct (p x); simpl; lia. Qed.

(** A counter that makes an error step on the errors selected by [mine], a good
    step on each cycle and answers [act] when it reaches its threshold follows
    [run_counter] on the projection of any run. *)
Lemma run_manager_bucket {C H} `{ErrorCountersLaws C, ErrorHandler H}
    (get : C -> ThresholdCounter) (mine : DllError -> bool) (act : NmtAction -> bool) :
  (forall c, counters_wf c -> get (fst (on_cycle_complete c)) = decrement (get c)) ->
  (forall c e (h : H), counters_wf c -> get (fst (fst (handle_error c e h))) =
     if mine e then fst (check_and_reset (increment (get c))) else get c) ->
  (forall c e (h : H), counters_wf c -> mine e = true ->
     act (fst (snd (handle_error c e h))) = snd (check_and_reset (increment (get c)))) ->
  forall ops (m m' : DllErrorManager C H) outs,
    counters_wf (counters m) -> run_manager m ops = (m', outs) ->
    counters_wf (counters m') /\
    run_counter (get (counters m)) (project mine ops) =
      (get (counters m'), count_if (fun o => mine (fst o) && act (fst (snd o))) outs).
Proof.
  intros Hcyc Herr Hact. induction ops as [|op ops IH]; intros m m' outs Hm Hr; simpl in Hr.
  - by simplify_eq.
  - destruct op as [e|].
    + unfold manager_handle_error in Hr.
      pose proof (wf_error H _ (counters m) e (handler m) Hm) as Hw.
      pose proof (Herr (counters m) e (handler m) Hm) as Hg.
      pose proof (Hact (counters m) e (handler m) Hm) as Ha.
      destruct (handle_error (counters m) e (handler m)) as [[c h] r].
      destruct (run_manager (mkDllErrorManager c h) ops) as [m2 outs2] eqn:E. simplify_eq.
      destruct (IH (mkDllErrorManager c h) _ _ Hw E) as [Hw' IHr]. split; [done|]. simpl in *.
      rewrite count_if_cons. simpl. destruct (mine e) eqn:Em; simpl in *.
      * rewrite Ha by done. destruct (check_and_reset _) as [x b]. simpl in *. subst x.
        rewrite IHr. f_equal. lia.
      * by rewrite <- Hg, IHr.
    + unfold manager_on_cycle_complete in Hr.
      pose proof (wf_cycle (counters m) Hm) as Hw. pose proof (Hcyc (counters m) Hm) as Hg.
      destruct (on_cycle_complete (counters m)) as [c b]. simpl in *.
      destruct (IH (mkDllErrorManager c (handler m)) _ _ Hw Hr) as [Hw' IHr]. split; [done|]. simpl in *.
      rewrite <- Hg, IHr. f_equal. lia.
Qed.

(** What the run of any counter set says about one of its buckets. *)
Definition bucket_bounds (c : ThresholdCounter) (alarms errors : Z) : Prop :=
  0 <= threshold_cnt c <= 14 /\ cumulative_cnt c = Z.min (2 ^ 32 - 1) alarms /\
  15 * alarms + threshold_cnt c <= 8 * errors.

Lemma run_counter_new_bounds ops c n :
  run_counter (ThresholdCounter_new 15) ops = (c, n) -> bucket_bounds c n (errors_in ops).
Proof.
  intros Hr. pose proof (run_counter_spec _ ops counter_new_ok) as Hs. rewrite Hr in Hs.
  destruct Hs as ((_&?&_)&_&?&?). unfold bucket_bounds. simpl in *. by split_and!; try lia.
Qed.

Definition is_reset_communication (a : NmtAction) : bool :=
  bool_decide (a = Act_ResetCommunication).
Definition of_kind (k : CnKind) (e : DllError) : bool := bool_decide (kind_of e = Some k).

(** ** The managing node, per node and kind *)
Inductive MnKind : Type := M_LossOfPres | M_LatePres | M_LossOfStatusRes.
Definition mn_map (k : MnKind) (c : MnErrorCounters) : gmap NodeId ThresholdCounter :=
  match k with
  | M_LossOfPres => mn_cn_loss_of_pres c | M_LatePres => mn_cn_late_pres c
  | M_LossOfStatusRes => mn_cn_loss_of_status_response c
  end.
Definition mn_error (k : MnKind) (n : NodeId) : DllError :=
  match k with
  | M_LossOfPres => LossOfPres n | M_LatePres => LatePres n
  | M_LossOfStatusRes => LossOfStatusRes n
  end.
Definition mn_counter (k : MnKind) (n : NodeId) (c : MnErrorCounters) : ThresholdCounter :=
  counter_for (mn_map k c) n.

Lemma count_node_error_for m n n' :
  counter_for (fst (count_node_error m n)) n' =
    if bool_decide (n = n') then fst (check_and_reset (increment (counter_for m n)))
    else counter_for m n'.
Proof.
  unfold count_node_error. destruct (check_and_reset _) as [x r]. simpl.
  unfold counter_for. case_bool_decide; subst.
  - by rewrite lookup_insert_eq.
  - by rewrite lookup_insert_ne.
Qed.

Lemma mn_handle_error_counter {H} `{ErrorHandler H} c e (h : H) k n :
  mn_counter k n (fst (fst (mn_handle_error c e h))) =
    if bool_decide (e = mn_error k n)
    then fst (check_and_reset (increment (mn_counter k n c))) else mn_counter k n c.
Proof.
  destruct e as [| | | | | | | | |n'|n'| |n'| | | | | | |n'|n'|n'];
    unfold mn_handle_error; simpl; try (by destruct k);
    try (by destruct k, (check_and_reset _) as [? []]).
  all: match goal with |- context [count_node_error ?m ?n] =>
         pose proof (fun n2 => count_node_error_for m n n2) as Hc;
         destruct (count_node_error m n) as [m2 [] ] end.
  all: specialize (Hc n); simpl in Hc; destruct k; unfold mn_counter; simpl; try done.
  all: rewrite Hc; repeat case_bool_decide; simplify_eq; congruence.
Qed.

Lemma mn_handle_error_action {H} `{ErrorHandler H} c (h : H) k n :
  fst (snd (mn_handle_error c (mn_error k n) h)) =
    if snd (check_and_reset (increment (mn_counter k n c))) then Act_ResetNode n else Act_None.
Proof.
  destruct k; unfold mn_handle_error, mn_counter, count_node_error; simpl;
    destruct (check_and_reset _) as [? []]; done.
Qed.

Lemma mn_on_cycle_counter c k n :
  mn_counter k n (fst (mn_on_cycle_complete c)) = decrement (mn_counter k n c).
Proof.
  unfold mn_counter, counter_for. destruct k; simpl; rewrite lookup_fmap;
    by destruct (_ !! n).
Qed.

Lemma mn_never_resets_communication {H} `{ErrorHandler H} c e (h : H) :
  mn_counters_ok c -> fst (snd (mn_handle_error c e h)) <> Act_ResetCommunication.
Proof.
  intros (_&_&_&H1&H2&H3).
  destruct e; unfold mn_handle_error; simpl; rewrite ?disabled_counter by done; try done;
    destruct (count_node_error _ _) as [? []]; done.
Qed.

Lemma mn_new_ok : mn_counters_ok MnErrorCounters_new.
Proof. split_and!; try done; apply map_Forall_empty. Qed.

Lemma cn_new_ok : cn_counters_ok CnErrorCounters_new.
Proof. intros []; apply counter_new_ok. Qed.

(** ** The cycle of a controlled node *)
Definition cs_cyclic (s : NmtState) : bool :=
  match s with
  | NmtPreOperational2 | NmtReadyToOperate | NmtOperational | NmtCsStopped => true
  | _ => false
  end.

(** The machine over a sequence of events in one NMT state: final state and all
    errors reported. *)
Fixpoint run_cs (nmt_state : NmtState) (s : DllCsState) (es : list DllCsEvent)
    : DllCsState * list DllError :=
  match es with
  | [] => (s, [])
  | e :: es =>
      let '(s, errs) := DllCs_process_event s e nmt_state in
      let '(s, errs') := run_cs nmt_state s es in (s, unwrap_or errs [] ++ errs')
  end.

Lemma DllCs_process_event_cyclic nmt s e :
  cs_cyclic nmt = true ->
  DllCs_process_event s e nmt = (fst (DllCs_transition s e), report (snd (DllCs_transition s e))).
Proof. destruct nmt; try done; intros _; simpl; by destruct (DllCs_transition s e). Qed.

Lemma run_cs_cons nmt s e es :
  cs_cyclic nmt = true ->
  run_cs nmt s (e :: es) =
    let '(s', errs) := run_cs nmt (fst (DllCs_transition s e)) es in
    (s', snd (DllCs_transition s e) ++ errs).
Proof.
  intros Hn. simpl. rewrite DllCs_process_event_cyclic by done.
  destruct (DllCs_transition s e) as [s1 []]; done.
Qed.

Lemma run_cs_app nmt s es1 es2 :
  run_cs nmt s (es1 ++ es2) =
    let '(s1, r1) := run_cs nmt s es1 in
    let '(s2, r2) := run_cs nmt s1 es2 in (s2, r1 ++ r2).
Proof.
  revert s. induction es1 as [|e es1 IH]; intros s; simpl.
  - by destruct (run_cs nmt s es2).
  - destruct (DllCs_process_event s e nmt) as [s0 r0]. rewrite IH.
    destruct (run_cs nmt s0 es1) as [s1 r1]. destruct (run_cs nmt s1 es2) as [s2 r2].
    by rewrite app_assoc.
Qed.

(** One cycle as a controlled node sees it: SoC, its own PReq among the PRes
    of other nodes, SoA, and the asynchronous frames. *)
Definition cycle_events (p q a : nat) : list DllCsEvent :=
  CE_Soc :: replicate p CE_Pres ++ CE_Preq :: replicate q CE_Pres ++ CE_Soa :: replicate a CE_Asnd.
Inductive is_cycle : list DllCsEvent -> Prop :=
| is_cycle_intro p q a : is_cycle (cycle_events p q a).

(** A state with a self loop without error on [e]. *)
Lemma run_cs_loop nmt s e n :
  cs_cyclic nmt = true -> DllCs_transition s e = (s, []) ->
  run_cs nmt s (replicate n e) = (s, []).
Proof.
  intros Hn He. induction n as [|n IH]; [done|].
  cbn [replicate]. rewrite run_cs_cons by done. rewrite He. simpl. by rewrite IH.
Qed.

Lemma run_cs_cycle nmt es :
  cs_cyclic nmt = true -> is_cycle es -> run_cs nmt Cs_WaitSoc es = (Cs_WaitSoc, []).
Proof.
  intros Hn [p q a]. unfold cycle_events. rewrite run_cs_cons by done. simpl fst. simpl snd.
  rewrite run_cs_app, run_cs_loop by done. rewrite run_cs_cons by done. simpl fst. simpl snd.
  rewrite run_cs_app, run_cs_loop by done. rewrite run_cs_cons by done. simpl fst. simpl snd.
  by rewrite run_cs_loop.
Qed.

Lemma run_cs_cycles nmt cycles :
  cs_cyclic nmt = true -> Forall is_cycle cycles ->
  run_cs nmt Cs_WaitSoc (concat cycles) = (Cs_WaitSoc, []).
Proof.
  intros Hn. induction 1 as [|es cycles He Hc IH]; [done|].
  simpl concat. by rewrite run_cs_app, run_cs_cycle, IH.
Qed.

(** The languages accepted without error from each state. *)
Definition lang_soc (es : list DllCsEvent) : Prop :=
  exists a cycles, Forall is_cycle cycles /\ es = replicate a CE_Asnd ++ concat cycles.
Definition lang_soa (es : list DllCsEvent) : Prop :=
  exists q rest, lang_soc rest /\ es = replicate q CE_Pres ++ CE_Soa :: rest.
Definition lang_preq (es : list DllCsEvent) : Prop :=
  exists p rest, lang_soa rest /\ es = replicate p CE_Pres ++ CE_Preq :: rest.

Lemma lang_soc_cons_soc es : lang_preq es -> lang_soc (CE_Soc :: es).
Proof.
  intros (p&?&(q&?&(a&cycles&Hc&->)&->)&->). exists O, (cycle_events p q a :: cycles).
  split; [constructor; [constructor|done]|].
  unfold cycle_events. simpl. by rewrite <- !app_assoc; simpl; rewrite <- !app_assoc.
Qed.

Lemma run_cs_error_free nmt es :
  cs_cyclic nmt = true ->
  (run_cs nmt Cs_WaitSoc es = (Cs_WaitSoc, []) -> lang_soc es) /\
  (run_cs nmt Cs_WaitPreq es = (Cs_WaitSoc, []) -> lang_preq es) /\
  (run_cs nmt Cs_WaitSoa es = (Cs_WaitSoc, []) -> lang_soa es).
Proof.
  intros Hn. induction es as [|e es (IHs&IHp&IHa)].
  - split_and!; [|done|done]. intros _. by exists O, [].
  - rewrite !run_cs_cons by done.
    split_and!; destruct e; simpl;
      repeat match goal with |- context [run_cs ?n ?s ?l] => destruct (run_cs n s l) as [? ?] end;
      intros Hr; try (exfalso; congruence); simpl in *.
    + by apply lang_soc_cons_soc, IHp.
    + destruct (IHs Hr) as (a&cycles&Hc&->). by exists (S a), cycles.
    + exists O, es. split; [by apply IHa|done].
    + destruct (IHp Hr) as (p&rest&Hl&->). by exists (S p), rest.
    + destruct (IHa Hr) as (q&rest&Hl&->). by exists (S q), rest.
    + exists O, es. split; [by apply IHs|done].
Qed.

(** ** The cycle of the managing node *)
Definition ms_cyclic (s : NmtState) : bool :=
  match s with NmtPreOperational2 | NmtReadyToOperate | NmtOperational => true | _ => false end.

(** Where the node goes next, given what remains to be done in the cycle. *)
Definition ms_next (isochr async_in : bool) : DllMsState :=
  if isochr then Ms_WaitPres else if async_in then Ms_WaitAsnd else Ms_WaitSocTrig.

(** The events a state waits for in a cyclic NMT state. *)
Definition ms_awaited (s : DllMsState) (e : DllMsEvent) : bool :=
  match s, e with
  | Ms_WaitSocTrig, ME_SocTrig | Ms_WaitAsnd, ME_SocTrig
  | Ms_WaitPres, ME_Pres | Ms_WaitPres, ME_PresTimeout => true
  | _, _ => false
  end.

(** The run of a controlled node's error manager drives the counter of a kind
    by what the kind sees. *)
Lemma cn_manager_bucket ops (m' : DllErrorManager CnErrorCounters (list DllError)) outs k :
  run_manager (mkDllErrorManager CnErrorCounters_new []) ops = (m', outs) ->
  run_counter (ThresholdCounter_new 15) (project (of_kind k) ops) =
    (counter_of k (counters m'),
     count_if (fun o => of_kind k (fst o) && is_reset_communication (fst (snd o))) outs).
Proof.
  intros Hr.
  replace (ThresholdCounter_new 15) with (counter_of k CnErrorCounters_new) by (by destruct k).
  refine (proj2 (run_manager_bucket (counter_of k) (of_kind k) is_reset_communication
    _ _ _ ops _ _ _ _ Hr)).
  - intros c _. apply cn_on_cycle_counter.
  - intros c e h _. apply cn_handle_error_counter.
  - intros c e h _ Hk. apply bool_decide_eq_true in Hk.
    cbn [handle_error CnErrorCounters_counters]. rewrite cn_handle_error_action, Hk.
    by destruct (snd _).
  - apply cn_new_ok.
Qed.

(** ** Properties *)

(** C19: a controlled node in a cyclic NMT state that waits for a SoC accepts
    exactly the protocol: it ends waiting for a SoC with no error reported
    precisely on asynchronous frames followed by complete cycles; and from any
    state and after any disturbance one SoC, PReq, SoA brings it back there. *)
Theorem cs_accepts_exactly_the_cycles nmt :
  cs_cyclic nmt = true ->
  (forall es, run_cs nmt Cs_WaitSoc es = (Cs_WaitSoc, []) <->
     exists a cycles, Forall is_cycle cycles /\ es = replicate a CE_Asnd ++ concat cycles) /\
  (forall s es, fst (run_cs nmt s (es ++ [CE_Soc; CE_Preq; CE_Soa])) = Cs_WaitSoc).
Proof.
  intros Hn. split.
  - intros es. split; [by apply run_cs_error_free|].
    intros (a&cycles&Hc&->). by rewrite run_cs_app, run_cs_loop, run_cs_cycles.
  - intros s es. rewrite run_cs_app. destruct (run_cs nmt s es) as [s1 r1].
    rewrite !run_cs_cons by done. by destruct s1.
Qed.

Lemma cs_accepts_exactly_the_cycles_witness :
  run_cs NmtOperational Cs_WaitSoc ([CE_Asnd] ++ cycle_events 2 1 1 ++ cycle_events 0 0 0)
    = (Cs_WaitSoc, []).
Proof.
  apply (cs_accepts_exactly_the_cycles NmtOperational eq_refl).
  exists 1%nat, [cycle_events 2 1 1; cycle_events 0 0 0].
  split; [repeat constructor|reflexivity].
Defined.

(** the managing node's machine in a cyclic NMT state: an awaited event
    leads to the state for what is left of the cycle, with [LossOfPres] of the
    polled node reported exactly on a PRes timeout; any other event but an ASnd
    in its window and the first SoC leaves the state and is reported.  In
    PreOperational1 a machine that has not left [NonCyclic] never leaves it:
    every event is reported as unexpected. *)
Theorem ms_process_event_spec s e rexp ain aout iso isoout n :
  (forall nmt, ms_cyclic nmt = true ->
     DllMs_process_event s e nmt rexp ain aout iso isoout n =
       if ms_awaited s e then
         (ms_next iso ain, if bool_decide (e = ME_PresTimeout) then Some [LossOfPres n] else None)
       else if bool_decide (s = Ms_WaitAsnd /\ e = ME_Asnd) then (s, None)
       else if bool_decide (s = Ms_NonCyclic /\ e = ME_SocTrig) then (Ms_WaitSocTrig, None)
       else (s, Some [UnexpectedEventInState (DllMsState_as_u8 s) (DllMsEvent_as_u8 e)])) /\
  DllMs_process_event Ms_NonCyclic e NmtPreOperational1 rexp ain aout iso isoout n =
    (Ms_NonCyclic, Some [UnexpectedEventInState 0 (DllMsEvent_as_u8 e)]) /\
  (forall nmt, ms_cyclic nmt = false -> nmt <> NmtPreOperational1 ->
     DllMs_process_event s e nmt rexp ain aout iso isoout n = (Ms_NonCyclic, None)).
Proof.
  split_and!.
  - intros nmt Hn. destruct nmt; try discriminate Hn; destruct s, e, iso, ain, isoout, aout; reflexivity.
  - by destruct e.
  - intros nmt Hn Hp. by destruct nmt.
Qed.

(** C34: in every run of a controlled node's error manager, each of the seven
    counted kinds follows its own leaky [bucket], an independent description on
    plain integers: an error of the kind adds 8, a completed cycle takes 1, and a
    level of 15 raises an alarm and empties the bucket.  The threshold counter of
    the kind is the bucket's level, the reset requests its errors cause are as
    many as the bucket's alarms after every run, and the cumulative counter is
    the number of alarms, saturated at 2^32 - 1.  So fifteen eighths of the
    alarms never exceed the errors of that kind, and errors that are each followed
    by eight error-free cycles never cause a reset. *)
Theorem cn_error_counters_leaky_buckets ops (m' : DllErrorManager CnErrorCounters (list DllError)) outs k :
  run_manager (mkDllErrorManager CnErrorCounters_new []) ops = (m', outs) ->
  let seen := project (of_kind k) ops in
  let alarms := count_if (fun o => of_kind k (fst o) && is_reset_communication (fst (snd o))) outs in
  bucket 0 seen = (threshold_cnt (counter_of k (counters m')), alarms) /\
  cumulative_cnt (counter_of k (counters m')) = Z.min (2 ^ 32 - 1) alarms /\
  0 <= threshold_cnt (counter_of k (counters m')) <= 14 /\
  15 * alarms + threshold_cnt (counter_of k (counters m')) <= 8 * errors_in seen /\
  (forall j, seen = concat (replicate j (OpError :: quiet)) -> alarms = 0).
Proof.
  intros Hr seen alarms. pose proof (cn_manager_bucket ops m' outs k Hr) as Hb.
  fold alarms in Hb. fold seen in Hb.
  pose proof (run_counter_bucket seen (ThresholdCounter_new 15) counter_new_ok) as Hs.
  rewrite Hb in Hs. destruct (run_counter_new_bounds _ _ _ Hb) as (?&?&?).
  split; [done|]. split_and!; try lia.
  intros j Hj. rewrite Hj, isolated_errors in Hb by (done || apply counter_new_ok).
  by injection Hb.
Qed.

Lemma cn_error_counters_leaky_buckets_witness :
  bucket 0 [OpError; OpGood; OpError; OpGood; OpError] = (8, 1).
Proof.
  apply (proj1 (cn_error_counters_leaky_buckets
    [Op_Error Crc; Op_Error LossOfSoc; Op_Cycle; Op_Error Crc; Op_Cycle; Op_Error Crc] _ _ K_Crc
    eq_refl)).
Defined.

(** the managing node's counters are independent per node and per kind:
    in every run the [ResetNode n] requests caused by one kind of error of node
    [n] are exactly the alarms of a bucket that sees only these errors and the
    cycles.  The managing node's own counters (CRC, collision, cycle time) have
    threshold zero and never request a reset. *)
Theorem mn_error_counters_isolated ops (m' : DllErrorManager MnErrorCounters (list DllError)) outs k n :
  run_manager (mkDllErrorManager MnErrorCounters_new []) ops = (m', outs) ->
  let mine e := bool_decide (e = mn_error k n) in
  let alarms := count_if (fun o => mine (fst o) && bool_decide (fst (snd o) = Act_ResetNode n)) outs in
  run_counter (ThresholdCounter_new 15) (project mine ops) = (mn_counter k n (counters m'), alarms) /\
  bucket_bounds (mn_counter k n (counters m')) alarms (errors_in (project mine ops)) /\
  (forall e (h : list DllError),
     fst (snd (handle_error (counters m') e h)) <> Act_ResetCommunication).
Proof.
  intros Hr mine alarms.
  assert (Hrun : counters_wf (counters m') /\
    run_counter (mn_counter k n MnErrorCounters_new) (project mine ops)
      = (mn_counter k n (counters m'), alarms)).
  { refine (run_manager_bucket (mn_counter k n) mine (fun a => bool_decide (a = Act_ResetNode n))
      _ _ _ ops _ _ _ _ Hr).
    - intros c _. apply mn_on_cycle_counter.
    - intros c e h _. apply mn_handle_error_counter.
    - intros c e h _ He. apply bool_decide_eq_true in He. subst e.
      cbn [handle_error MnErrorCounters_counters]. rewrite mn_handle_error_action.
      destruct (snd _); [by rewrite bool_decide_eq_true|done].
    - apply mn_new_ok. }
  destruct Hrun as [Hw Hb].
  assert (mn_counter k n MnErrorCounters_new = ThresholdCounter_new 15) as Hn by (by destruct k).
  rewrite Hn in Hb.
  split_and!; [done|by apply run_counter_new_bounds in Hb|].
  intros e h. by apply mn_never_resets_communication.
Qed.

Lemma mn_error_counters_isolated_witness :
  exists c, run_counter (ThresholdCounter_new 15) [OpError; OpError] = (c, 1).
Proof.
  eexists.
  apply (proj1 (mn_error_counters_isolated
    [Op_Error (LossOfPres 7); Op_Error (LossOfPres 8); Op_Error (LossOfPres 7)] _ _
    M_LossOfPres 7 eq_refl)).
Defined.

(** for every counter set that keeps the interface, the log of a run is
    exactly the list of the errors it signalled, in order, and an NMT action is
    only ever requested for an error that is signalled, [ResetNode n] only for
    an error that concerns node [n]. *)
Theorem manager_logs_what_it_signals {C} `{ErrorCountersLaws C} ops :
  forall (m m' : DllErrorManager C (list DllError)) outs,
  run_manager m ops = (m', outs) ->
  handler m' = handler m ++ map fst (List.filter signalled outs) /\
  Forall (fun o => (fst (snd o) <> Act_None -> signalled o = true) /\
                   (forall n, fst (snd o) = Act_ResetNode n -> concerns (fst o) n)) outs.
Proof.
  induction ops as [|[e|] ops IH]; intros m m' outs Hr; simpl in Hr.
  - simplify_eq. simpl. by rewrite app_nil_r.
  - unfold manager_handle_error in Hr.
    pose proof (logged_once _ _ (counters m) e (handler m)) as Hl.
    pose proof (action_signalled _ _ (counters m) e (handler m)) as Ha.
    pose proof (reset_node_concerns _ _ (counters m) e (handler m)) as Hc.
    destruct (handle_error (counters m) e (handler m)) as [[c h] r].
    destruct (run_manager (mkDllErrorManager c h) ops) as [m2 outs2] eqn:E. simplify_eq.
    destruct (IH _ _ _ E) as [IHl IHf]. split; [|constructor; [by split|done]].
    rewrite IHl. simpl in *. subst h. unfold signalled at 2. simpl.
    destruct (snd r); simpl; [by rewrite <- app_assoc|done].
  - unfold manager_on_cycle_complete in Hr. destruct (on_cycle_complete (counters m)) as [c b].
    by destruct (IH _ _ _ Hr).
Qed.

Lemma manager_logs_what_it_signals_witness :
  exists m', handler (C:=MnErrorCounters) m' = [PdoPayloadShort 3; LatePres 9].
Proof.
  eexists.
  exact (proj1 (manager_logs_what_it_signals
    [Op_Error (PdoPayloadShort 3); Op_Error (LatePres 9); Op_Cycle; Op_Error Crc; Op_Error (LatePres 9)]
    (mkDllErrorManager MnErrorCounters_new []) _ _ eq_refl)).
Defined.
