(* ===== verification/ErrorEntry.v ===== *)
(** * Error entries

    The 20-byte entries of the status response and of the error history:
    [ErrorEntryMode], [EntryType], [ErrorEntry] and the parser of
    [frame/error/status_response.rs], and the encoder of [od/error_history.rs]. *)
From S2P Require Import Prelude Types.

Inductive ErrorEntryMode : Type :=
| Mode_Terminator | Mode_ErrorActive | Mode_ErrorCleared | Mode_EventOccurred.

#[export] Instance ErrorEntryMode_eq_dec : EqDecision ErrorEntryMode.
Proof. solve_decision. Defined.

Definition ErrorEntryMode_as_u8 (m : ErrorEntryMode) : Z :=
  match m with
  | Mode_Terminator => 0 | Mode_ErrorActive => 1 | Mode_ErrorCleared => 2 | Mode_EventOccurred => 3
  end.

Definition ErrorEntryMode_try_from (value : Z) : res ErrorEntryMode :=
  match value with
  | 0 => Ok Mode_Terminator
  | 1 => Ok Mode_ErrorActive
  | 2 => Ok Mode_ErrorCleared
  | 3 => Ok Mode_EventOccurred
  | _ => Err InvalidEnumValue
  end.

#[export, refine] Instance ErrorEntryMode_enum : ByteEnum ErrorEntryMode :=
  { to_u8 := ErrorEntryMode_as_u8; from_u8 := ErrorEntryMode_try_from }.
Proof. all: byte_enum. Defined.

Record EntryType : Type := mkEntryType {
  is_status_entry : bool; send_to_queue : bool; et_mode : ErrorEntryMode; et_profile : Z
}.
#[export] Instance EntryType_eq_dec : EqDecision EntryType.
Proof. solve_decision. Defined.

Record ErrorEntry : Type := mkErrorEntry {
  entry_type : EntryType; error_code : Z; ee_timestamp : NetTime; additional_information : Z
}.
#[export] Instance ErrorEntry_eq_dec : EqDecision ErrorEntry.
Proof. solve_decision. Defined.

Definition EntryType_from_u16 (value : Z) : res EntryType :=
  let? mode := ErrorEntryMode_try_from (u8 (Z.land (Z.shiftr value 12) 3)) in
  Ok {| is_status_entry := bit value 15; send_to_queue := bit value 14;
        et_mode := mode; et_profile := Z.land value 0x0FFF |}.

Definition ErrorEntry_deserialize (buffer : bytes) : res ErrorEntry :=
  if (length buffer <? 20)%nat then Err BufferTooShort else
  let entry_type_val := le_val (slice buffer 0 2) in
  let error_code := le_val (slice buffer 2 4) in
  let seconds := le_val (slice buffer 4 8) in
  let nanoseconds := le_val (slice buffer 8 12) in
  let additional_information := le_val (slice buffer 12 20) in
  let? entry_type := EntryType_from_u16 entry_type_val in
  Ok {| entry_type := entry_type; error_code := error_code;
        ee_timestamp := {| nt_seconds := seconds; nt_nanoseconds := nanoseconds |};
        additional_information := additional_information |}.

(** The packed [entry_type_val] of [ErrorEntry::serialize]. *)
Definition EntryType_to_u16 (t : EntryType) : Z :=
  Z.lor (Z.lor (Z.lor (Z.land (et_profile t) 0x0FFF) (Z.shiftl (ErrorEntryMode_as_u8 (et_mode t)) 12))
           (flag (is_status_entry t) (Z.shiftl 1 15)))
        (flag (send_to_queue t) (Z.shiftl 1 14)).

Definition ErrorEntry_serialize (e : ErrorEntry) : bytes :=
  let buf := replicate 20 0 in
  let entry_type_val := EntryType_to_u16 (entry_type e) in
  let buf := put buf 0 (le_bytes 2 entry_type_val) in
  let buf := put buf 2 (le_bytes 2 (error_code e)) in
  let buf := put buf 4 (le_bytes 4 (nt_seconds (ee_timestamp e))) in
  let buf := put buf 8 (le_bytes 4 (nt_nanoseconds (ee_timestamp e))) in
  put buf 12 (le_bytes 8 (additional_information e)).

Definition entry_type_ok (t : EntryType) : Prop := in_width 12 (et_profile t).
Definition error_entry_ok (e : ErrorEntry) : Prop :=
  entry_type_ok (entry_type e) /\ in_width 16 (error_code e) /\ net_time_ok (ee_timestamp e) /\
  in_width 64 (additional_information e).

(** ** Facts *)

Definition error_entry_wire (e : ErrorEntry) : bytes :=
  le_bytes 2 (EntryType_to_u16 (entry_type e)) ++ le_bytes 2 (error_code e) ++
  le_bytes 4 (nt_seconds (ee_timestamp e)) ++ le_bytes 4 (nt_nanoseconds (ee_timestamp e)) ++
  le_bytes 8 (additional_information e).

Lemma ErrorEntry_serialize_eq e : ErrorEntry_serialize e = error_entry_wire e.
Proof.
  unfold ErrorEntry_serialize, error_entry_wire. rewrite put_0. put_chain.
  rewrite <- !app_assoc. simpl. done.
Qed.

Lemma length_error_entry_wire e : length (error_entry_wire e) = 20%nat.
Proof. done. Qed.

Lemma error_entry_wire_ok e : bytes_ok (error_entry_wire e).
Proof. unfold error_entry_wire. solve_bytes. Qed.

(** The packed type: the profile below the mode and the two flags. *)
Lemma EntryType_to_u16_eq t :
  entry_type_ok t ->
  EntryType_to_u16 t = et_profile t +
    (ErrorEntryMode_as_u8 (et_mode t) + flag (send_to_queue t) 4 + flag (is_status_entry t) 8) * 2 ^ 12.
Proof.
  intros Hp. unfold EntryType_to_u16. change 0x0FFF with (Z.ones 12).
  rewrite land_ones_small by (done || lia). rewrite <- lor_shiftl_add by (done || lia).
  rewrite <- !Z.lor_assoc. f_equal. by destruct t as [[] [] [] p].
Qed.

Lemma EntryType_round t : entry_type_ok t -> EntryType_from_u16 (EntryType_to_u16 t) = Ok t.
Proof.
  intros Hp. rewrite EntryType_to_u16_eq by done. unfold EntryType_from_u16.
  rewrite !bit_testbit by lia. change 0x0FFF with (Z.ones 12).
  rewrite field_low, field_high, !field_bit by (done || lia). by destruct t as [[] [] [] p].
Qed.

Lemma EntryType_to_u16_width t : entry_type_ok t -> in_width 16 (EntryType_to_u16 t).
Proof.
  intros Hp. rewrite EntryType_to_u16_eq by done. unfold entry_type_ok, in_width in *.
  destruct t as [[] [] [] p]; simpl in *; lia.
Qed.

Lemma ErrorEntry_deserialize_app e rest :
  error_entry_ok e -> ErrorEntry_deserialize (error_entry_wire e ++ rest) = Ok e.
Proof.
  intros (Ht&Hc&[Hs Hn]&Ha). pose proof (EntryType_to_u16_width _ Ht) as Hw.
  unfold ErrorEntry_deserialize, error_entry_wire. cbn -[EntryType_from_u16].
  autorewrite with le. rewrite EntryType_round by done. by destruct e as [? ? [? ?] ?].
Qed.
