(* ===== verification/ObjectDict.v ===== *)
(** * The object dictionary

    [od/entry.rs], [od/value.rs], [od/mod.rs], [od/commands.rs],
    [od/storage.rs], [od/pdo_validator.rs], [od/error_history.rs],
    [od/predefined.rs], [od/utils.rs] and [pdo/mapping.rs].

    The dictionary is a finite map from the 16-bit index to an entry; a
    [BTreeMap] is iterated in ascending key order ([btree_items]).  The
    persistent storage is the class [ObjectDictionaryStorage] of the trait in
    [hal.rs], with its documented contract in [StorageLaws] and an in-memory
    instance.  [f32] and [f64] are their bit patterns, a [String] its bytes. *)
From S2P Require Import Prelude Utf8 Types ErrorEntry.

(** ** Values ([od/value.rs]) *)
Inductive ObjectValue : Type :=
| OV_Boolean (v : Z)
| OV_Integer8 (v : Z) | OV_Integer16 (v : Z) | OV_Integer32 (v : Z) | OV_Integer64 (v : Z)
| OV_Unsigned8 (v : Z) | OV_Unsigned16 (v : Z) | OV_Unsigned32 (v : Z) | OV_Unsigned64 (v : Z)
| OV_Real32 (v : Z) | OV_Real64 (v : Z)
| OV_VisibleString (v : bytes) | OV_OctetString (v : bytes) | OV_UnicodeString (v : list Z)
| OV_Domain (v : bytes)
| OV_TimeOfDay (v : TimeOfDay) | OV_TimeDifference (v : TimeDifference) | OV_NetTime (v : NetTime)
| OV_MacAddress (v : MacAddress) | OV_IpAddress (v : bytes).

#[export] Instance ObjectValue_eq_dec : EqDecision ObjectValue.
Proof. solve_decision. Defined.

(** [core::mem::discriminant]. *)
Definition discriminant (v : ObjectValue) : Z :=
  match v with
  | OV_Boolean _ => 0 | OV_Integer8 _ => 1 | OV_Integer16 _ => 2 | OV_Integer32 _ => 3
  | OV_Integer64 _ => 4 | OV_Unsigned8 _ => 5 | OV_Unsigned16 _ => 6 | OV_Unsigned32 _ => 7
  | OV_Unsigned64 _ => 8 | OV_Real32 _ => 9 | OV_Real64 _ => 10 | OV_VisibleString _ => 11
  | OV_OctetString _ => 12 | OV_UnicodeString _ => 13 | OV_Domain _ => 14 | OV_TimeOfDay _ => 15
  | OV_TimeDifference _ => 16 | OV_NetTime _ => 17 | OV_MacAddress _ => 18 | OV_IpAddress _ => 19
  end.

(** Two's complement: [to_le_bytes] of a negative integer is [le_bytes] of it,
    and [from_le_bytes] of a [w]-bit signed integer is [signed w]. *)
Definition signed (w x : Z) : Z := if x <? 2 ^ (w - 1) then x else x - 2 ^ w.

Definition ObjectValue_serialize (v : ObjectValue) : bytes :=
  match v with
  | OV_Boolean v => le_bytes 1 v
  | OV_Integer8 v => le_bytes 1 v
  | OV_Integer16 v => le_bytes 2 v
  | OV_Integer32 v => le_bytes 4 v
  | OV_Integer64 v => le_bytes 8 v
  | OV_Unsigned8 v => le_bytes 1 v
  | OV_Unsigned16 v => le_bytes 2 v
  | OV_Unsigned32 v => le_bytes 4 v
  | OV_Unsigned64 v => le_bytes 8 v
  | OV_Real32 v => le_bytes 4 v
  | OV_Real64 v => le_bytes 8 v
  | OV_VisibleString v => v
  | OV_OctetString v => v
  | OV_Domain v => v
  | OV_TimeOfDay v => le_bytes 4 (tod_ms v) ++ le_bytes 2 (tod_days v)
  | OV_TimeDifference v => le_bytes 4 (td_ms v) ++ le_bytes 2 (td_days v)
  | OV_NetTime v => le_bytes 4 (nt_seconds v) ++ le_bytes 4 (nt_nanoseconds v)
  | OV_MacAddress v => v
  | OV_IpAddress v => v
  | OV_UnicodeString v => concat (map (le_bytes 2) v)
  end.

(** The macro [deserialize_fixed!]. *)
Definition deserialize_fixed (data : bytes) (expected_len : nat) (variant : Z -> ObjectValue)
    (of_raw : Z -> Z) : res ObjectValue :=
  if (length data <? expected_len)%nat then Err BufferTooShort
  else Ok (variant (of_raw (le_val (take expected_len data)))).

(** [chunks_exact(2)] of the UnicodeString case. *)
Fixpoint u16_chunks (l : bytes) : list Z :=
  match l with a :: b :: l => le_val [a; b] :: u16_chunks l | _ => [] end.

Definition ObjectValue_deserialize (data : bytes) (type_template : ObjectValue) : res ObjectValue :=
  match type_template with
  | OV_Boolean _ => deserialize_fixed data 1 OV_Boolean id
  | OV_Integer8 _ => deserialize_fixed data 1 OV_Integer8 (signed 8)
  | OV_Integer16 _ => deserialize_fixed data 2 OV_Integer16 (signed 16)
  | OV_Integer32 _ => deserialize_fixed data 4 OV_Integer32 (signed 32)
  | OV_Integer64 _ => deserialize_fixed data 8 OV_Integer64 (signed 64)
  | OV_Unsigned8 _ => deserialize_fixed data 1 OV_Unsigned8 id
  | OV_Unsigned16 _ => deserialize_fixed data 2 OV_Unsigned16 id
  | OV_Unsigned32 _ => deserialize_fixed data 4 OV_Unsigned32 id
  | OV_Unsigned64 _ => deserialize_fixed data 8 OV_Unsigned64 id
  | OV_Real32 _ => deserialize_fixed data 4 OV_Real32 id
  | OV_Real64 _ => deserialize_fixed data 8 OV_Real64 id
  | OV_VisibleString _ =>
      match from_utf8 data with
      | Some s => Ok (OV_VisibleString s)
      | None => Err TypeMismatch
      end
  | OV_OctetString _ => Ok (OV_OctetString data)
  | OV_Domain _ => Ok (OV_Domain data)
  | OV_TimeOfDay _ =>
      if (length data <? 6)%nat then Err BufferTooShort
      else Ok (OV_TimeOfDay {| tod_ms := le_val (slice data 0 4); tod_days := le_val (slice data 4 6) |})
  | OV_TimeDifference _ =>
      if (length data <? 6)%nat then Err BufferTooShort
      else Ok (OV_TimeDifference {| td_ms := le_val (slice data 0 4); td_days := le_val (slice data 4 6) |})
  | OV_NetTime _ =>
      if (length data <? 8)%nat then Err BufferTooShort
      else Ok (OV_NetTime {| nt_seconds := le_val (slice data 0 4);
                             nt_nanoseconds := le_val (slice data 4 8) |})
  | OV_MacAddress _ =>
      if (length data <? 6)%nat then Err BufferTooShort else Ok (OV_MacAddress (slice data 0 6))
  | OV_IpAddress _ =>
      if (length data <? 4)%nat then Err BufferTooShort else Ok (OV_IpAddress (slice data 0 4))
  | OV_UnicodeString _ =>
      if negb (Nat.even (length data)) then Err TypeMismatch
      else Ok (OV_UnicodeString (u16_chunks data))
  end.

(** The values a Rust [ObjectValue] can hold. *)
Definition in_signed (w x : Z) : Prop := - 2 ^ (w - 1) <= x < 2 ^ (w - 1).
Definition value_ok (v : ObjectValue) : Prop :=
  match v with
  | OV_Boolean v | OV_Unsigned8 v => in_width 8 v
  | OV_Integer8 v => in_signed 8 v
  | OV_Integer16 v => in_signed 16 v
  | OV_Integer32 v => in_signed 32 v
  | OV_Integer64 v => in_signed 64 v
  | OV_Unsigned16 v => in_width 16 v
  | OV_Unsigned32 v | OV_Real32 v => in_width 32 v
  | OV_Unsigned64 v | OV_Real64 v => in_width 64 v
  | OV_VisibleString v => bytes_ok v /\ utf8_valid v = true
  | OV_OctetString v | OV_Domain v => bytes_ok v
  | OV_UnicodeString v => Forall (in_width 16) v
  | OV_TimeOfDay v => in_width 32 (tod_ms v) /\ in_width 16 (tod_days v)
  | OV_TimeDifference v => in_width 32 (td_ms v) /\ in_width 16 (td_days v)
  | OV_NetTime v => net_time_ok v
  | OV_MacAddress v => mac_ok v
  | OV_IpAddress v => length v = 4%nat /\ bytes_ok v
  end.

(** ** Entries ([od/entry.rs]) *)
Inductive Object : Type :=
| Obj_Variable (v : ObjectValue)
| Obj_Array (vs : list ObjectValue)
| Obj_Record (vs : list ObjectValue).

#[export] Instance Object_eq_dec : EqDecision Object.
Proof. solve_decision. Defined.

Inductive AccessType : Type :=
| ReadOnly | WriteOnly | WriteOnlyStore | ReadWrite | ReadWriteStore | Constant | Conditional.
#[export] Instance AccessType_eq_dec : EqDecision AccessType.
Proof. solve_decision. Defined.

Inductive Category : Type := Cat_Mandatory | Cat_Optional | Cat_Conditional.
Inductive PdoMapping : Type := Pdo_No | Pdo_Optional | Pdo_Default.
Record ValueRange : Type := mkValueRange { vr_min : ObjectValue; vr_max : ObjectValue }.

Record ObjectEntry : Type := mkObjectEntry {
  object : Object;
  name : string;
  category : Category;
  access : option AccessType;
  default_value : option ObjectValue;
  value_range : option ValueRange;
  pdo_mapping : option PdoMapping
}.

Definition set_object (e : ObjectEntry) (o : Object) : ObjectEntry :=
  mkObjectEntry o (name e) (category e) (access e) (default_value e) (value_range e) (pdo_mapping e).

(** ** PDO mapping entries ([pdo/mapping.rs]) *)
Record PdoMappingEntry : Type := mkPdoMappingEntry {
  pm_index : Z; pm_sub_index : Z; pm_offset_bits : Z; pm_length_bits : Z
}.
#[export] Instance PdoMappingEntry_eq_dec : EqDecision PdoMappingEntry.
Proof. solve_decision. Defined.

Definition from_u64 (value : Z) : PdoMappingEntry :=
  {| pm_index := u16 (Z.land value 0xFFFF);
     pm_sub_index := u8 (Z.land (Z.shiftr value 16) 0xFF);
     pm_offset_bits := u16 (Z.land (Z.shiftr value 32) 0xFFFF);
     pm_length_bits := u16 (Z.land (Z.shiftr value 48) 0xFFFF) |}.

Definition to_u64 (e : PdoMappingEntry) : Z :=
  Z.lor (Z.lor (Z.lor (pm_index e) (Z.shiftl (pm_sub_index e) 16))
           (Z.shiftl (pm_offset_bits e) 32))
        (Z.shiftl (pm_length_bits e) 48).

Definition byte_offset (e : PdoMappingEntry) : option Z :=
  if pm_offset_bits e mod 8 =? 0 then Some (pm_offset_bits e / 8) else None.
Definition byte_length (e : PdoMappingEntry) : option Z :=
  if pm_length_bits e mod 8 =? 0 then Some (pm_length_bits e / 8) else None.

(** [TryFrom<u16> for PayloadSize]. *)
Definition PayloadSize_try_from (value : Z) : option Z :=
  if (0 <=? value) && (value <=? C_DLL_ISOCHR_MAX_PAYL) then Some value else None.

(** ** Persistent storage ([hal.rs]) *)
Abbreviation Params := (gmap (Z * Z) ObjectValue).

Class ObjectDictionaryStorage (S : Type) : Type := {
  load : S -> S * res Params;
  save : S -> Params -> S * res unit;
  clear : S -> S * res unit;
  restore_defaults_requested : S -> bool;
  request_restore_defaults : S -> S * res unit;
  clear_restore_defaults_flag : S -> S * res unit
}.

(** What the trait's documentation promises of an operation that succeeds: a
    load returns what the last save stored and changes nothing, a clear empties
    the storage, and only the restore requests move the flag. *)
Class StorageLaws (S : Type) `{ObjectDictionaryStorage S} : Type := {
  contents : S -> Params;
  load_contents : forall s s' m, load s = (s', Ok m) -> m = contents s;
  load_same : forall s s' r, load s = (s', r) ->
    contents s' = contents s /\ restore_defaults_requested s' = restore_defaults_requested s;
  save_contents : forall s s' m, save s m = (s', Ok tt) ->
    contents s' = m /\ restore_defaults_requested s' = restore_defaults_requested s;
  clear_contents : forall s s', clear s = (s', Ok tt) ->
    contents s' = ∅ /\ restore_defaults_requested s' = restore_defaults_requested s;
  request_flag : forall s s', request_restore_defaults s = (s', Ok tt) ->
    contents s' = contents s /\ restore_defaults_requested s' = true;
  clear_flag : forall s s', clear_restore_defaults_flag s = (s', Ok tt) ->
    contents s' = contents s /\ restore_defaults_requested s' = false
}.

(** An in-memory storage that never fails. *)
Record MemStorage : Type := mkMemStorage { mem_params : Params; mem_flag : bool }.
#[export] Instance MemStorage_storage : ObjectDictionaryStorage MemStorage :=
  { load s := (s, Ok (mem_params s));
    save s m := (mkMemStorage m (mem_flag s), Ok tt);
    clear s := (mkMemStorage ∅ (mem_flag s), Ok tt);
    restore_defaults_requested s := mem_flag s;
    request_restore_defaults s := (mkMemStorage (mem_params s) true, Ok tt);
    clear_restore_defaults_flag s := (mkMemStorage (mem_params s) false, Ok tt) }.
#[export, refine] Instance MemStorage_laws : StorageLaws MemStorage := { contents := mem_params }.
Proof. all: intros; simpl in *; simplify_eq; done. Defined.

(** ** The dictionary ([od/mod.rs]) *)
Record ObjectDictionary (S : Type) : Type := mkOD {
  entries : gmap Z ObjectEntry;
  storage : option S
}.
Arguments mkOD {S} entries storage.
Arguments entries {S} o.
Arguments storage {S} o.

Section Dictionary.
Context {S : Type}.
Implicit Types od : ObjectDictionary S.

Definition ObjectDictionary_new (st : option S) : ObjectDictionary S := mkOD ∅ st.

Definition set_entries od (m : gmap Z ObjectEntry) : ObjectDictionary S := mkOD m (storage od).

Definition insert_entry od (index : Z) (entry : ObjectEntry) : ObjectDictionary S :=
  set_entries od (<[index := entry]> (entries od)).

(** The values of an array or a record, and the object with new ones. *)
Definition sub_values (o : Object) : option (list ObjectValue) :=
  match o with Obj_Variable _ => None | Obj_Array vs | Obj_Record vs => Some vs end.
Definition with_values (o : Object) (vs : list ObjectValue) : Object :=
  match o with Obj_Variable v => Obj_Variable v | Obj_Array _ => Obj_Array vs | Obj_Record _ => Obj_Record vs end.

Definition read_entry (e : ObjectEntry) (sub_index : Z) : option ObjectValue :=
  match object e with
  | Obj_Variable value => if sub_index =? 0 then Some value else None
  | Obj_Array values | Obj_Record values =>
      if sub_index =? 0 then Some (OV_Unsigned8 (u8 (Z.min (len values) 254)))
      else values !! Z.to_nat (sub_index - 1)
  end.

Definition read od (index sub_index : Z) : option ObjectValue :=
  entries od !! index ≫= fun e => read_entry e sub_index.

Definition read_object od (index : Z) : option Object := object <$> entries od !! index.

Definition read_u8 od (index sub_index : Z) : option Z :=
  match read od index sub_index with Some (OV_Unsigned8 v) => Some v | _ => None end.
Definition read_u16 od (index sub_index : Z) : option Z :=
  match read od index sub_index with Some (OV_Unsigned16 v) => Some v | _ => None end.
Definition read_u32 od (index sub_index : Z) : option Z :=
  match read od index sub_index with Some (OV_Unsigned32 v) => Some v | _ => None end.
Definition read_u64 od (index sub_index : Z) : option Z :=
  match read od index sub_index with Some (OV_Unsigned64 v) => Some v | _ => None end.

Definition get_configured_cns od : list NodeId :=
  match object <$> entries od !! 0x1F81 with
  | Some (Obj_Array values) =>
      omap (fun iv => match iv with
                      | (i, OV_Unsigned32 assignment) =>
                          if bit assignment 0 && negb (bit assignment 8)
                          then Some (u8 (Z.of_nat i + 1)) else None
                      | _ => None
                      end) (zip (seq 0 (length values)) values)
  | _ => []
  end.

Definition is_rpdo_mapping (index : Z) : bool := (0x1600 <=? index) && (index <=? 0x16FF).
Definition is_tpdo_mapping (index : Z) : bool := (0x1A00 <=? index) && (index <=? 0x1AFF).

(** *** [od/pdo_validator.rs] *)

(** The loop over the enabled entries: the bits they require, or the first
    entry missing. *)
Fixpoint mapping_bits (vs : list ObjectValue) (n : nat) (max_bits_required : Z) {struct n} : res Z :=
  match n with
  | O => Ok max_bits_required
  | Datatypes.S n =>
      match vs with
      | OV_Unsigned64 raw_mapping :: vs =>
          let entry := from_u64 raw_mapping in
          let end_pos_bits := pm_offset_bits entry + pm_length_bits entry in
          mapping_bits vs n (Z.max max_bits_required end_pos_bits)
      | _ => Err (ValidationError "Incomplete PDO mapping configuration: Missing entries")
      end
  end.

Definition payload_limit_bytes od (index : Z) : Z :=
  if is_tpdo_mapping index then unwrap_or (read_u16 od 0x1F98 1) 1490
  else unwrap_or (read_u16 od 0x1F98 2) 1490.

Definition validate_pdo_mapping od (index new_num_entries : Z) : res unit :=
  if new_num_entries =? 0 then Ok tt else
  let is_tpdo := is_tpdo_mapping index in
  let is_rpdo := is_rpdo_mapping index in
  if negb is_tpdo && negb is_rpdo then Ok tt else
  let payload_limit_bytes := payload_limit_bytes od index in
  match read_object od index with
  | Some (Obj_Array vs) =>
      let? max_bits_required := mapping_bits vs (Z.to_nat new_num_entries) 0 in
      let required_bytes := (max_bits_required + 7) / 8 in
      if payload_limit_bytes <? required_bytes then Err PdoMapOverrun else Ok tt
  | _ => Err ObjectNotFound
  end.

(** *** [write_internal] *)
Definition is_pdo_mapping_index0 (index sub_index : Z) : bool :=
  (sub_index =? 0) && (is_rpdo_mapping index || is_tpdo_mapping index).

(** The closure on the entry found: the object it leaves. *)
Definition write_entry (index : Z) (entry : ObjectEntry) (sub_index : Z) (value : ObjectValue)
    (check_access : bool) : res Object :=
  if check_access && (match access entry with Some (ReadOnly | Constant) => true | _ => false end)
  then Err (StorageError "Object is read-only") else
  match object entry with
  | Obj_Variable v =>
      if sub_index =? 0 then
        if negb (discriminant v =? discriminant value) then Err TypeMismatch
        else Ok (Obj_Variable value)
      else Err SubObjectNotFound
  | (Obj_Array values | Obj_Record values) as o =>
      if sub_index =? 0 then
        if is_pdo_mapping_index0 index sub_index then
          match value with OV_Unsigned8 _ => Ok o | _ => Err TypeMismatch end
        else Err (StorageError "Cannot write to sub-index 0 of standard Array/Record")
      else
        match values !! Z.to_nat (sub_index - 1) with
        | Some v =>
            if negb (discriminant v =? discriminant value) then Err TypeMismatch
            else Ok (with_values o (<[Z.to_nat (sub_index - 1) := value]> values))
        | None => Err SubObjectNotFound
        end
  end.

Definition write_internal od (index sub_index : Z) (value : ObjectValue) (check_access : bool)
    : ObjectDictionary S * res unit :=
  match entries od !! index with
  | None => (od, Err ObjectNotFound)
  | Some entry =>
      match write_entry index entry sub_index value check_access with
      | Ok o => (insert_entry od index (set_object entry o), Ok tt)
      | Err e => (od, Err e)
      end
  end.

(** *** [increment_counter] *)
Definition bump (v : ObjectValue) : ObjectValue :=
  match v with OV_Unsigned32 n => OV_Unsigned32 (u32 (n + 1)) | v => v end.

Definition increment_counter od (index sub_index : Z) : ObjectDictionary S :=
  match entries od !! index with
  | None => od
  | Some entry =>
      match object entry with
      | Obj_Variable val =>
          if sub_index =? 0 then insert_entry od index (set_object entry (Obj_Variable (bump val)))
          else od
      | Obj_Record vals =>
          if 0 <? sub_index then
            insert_entry od index
              (set_object entry (Obj_Record (alter bump (Z.to_nat (sub_index - 1)) vals)))
          else od
      | Obj_Array _ => od
      end
  end.

(** *** [od/error_history.rs] *)
Definition write_error_to_history od (entry : ErrorEntry) : ObjectDictionary S :=
  match entries od !! 0x1003 with
  | Some e =>
      match object e with
      | Obj_Array values =>
          let values := OV_Domain (ErrorEntry_serialize entry) :: values in
          let values := if (254 <? length values)%nat then removelast values else values in
          insert_entry od 0x1003 (set_object e (Obj_Array values))
      | _ => od
      end
  | None => od
  end.

(** *** [find_by_name] *)
Definition find_by_name od (nm : string) : option (Z * Z) :=
  match List.find (fun ie => bool_decide (name (snd ie) = nm)) (btree_items Z.le (entries od)) with
  | Some (index, _) => Some (index, 0)
  | None => None
  end.

End Dictionary.

Section Storage.
Context {S : Type} `{ObjectDictionaryStorage S}.
Implicit Types od : ObjectDictionary S.

Definition set_storage od (s : S) : ObjectDictionary S := mkOD (entries od) (Some s).

(** *** [od/commands.rs] *)
Definition should_save (list_to_save index : Z) : bool :=
  match list_to_save with
  | 1 => true
  | 2 => (0x1000 <=? index) && (index <=? 0x1FFF)
  | 3 => (0x6000 <=? index) && (index <=? 0x9FFF)
  | _ => false
  end.
Definition is_stored (e : ObjectEntry) : bool :=
  match access e with Some (ReadWriteStore | WriteOnlyStore) => true | _ => false end.

(** The parameters one entry contributes, in insertion order. *)
Definition entry_params (index : Z) (e : ObjectEntry) : list ((Z * Z) * ObjectValue) :=
  match object e with
  | Obj_Variable val => [((index, 0), val)]
  | Obj_Record vals | Obj_Array vals =>
      zip_with (fun i val => ((index, u8 (Z.of_nat i + 1)), val)) (seq 0 (length vals)) vals
  end.

Definition insert_params (l : list ((Z * Z) * ObjectValue)) (m : Params) : Params :=
  foldl (fun m kv => <[fst kv := snd kv]> m) m l.

Definition storable_params od (list_to_save : Z) : Params :=
  foldl (fun m ie =>
           if should_save list_to_save (fst ie) && is_stored (snd ie)
           then insert_params (entry_params (fst ie) (snd ie)) m else m)
        ∅ (btree_items Z.le (entries od)).

Definition store_parameters od (list_to_save : Z) : ObjectDictionary S * res unit :=
  if list_to_save =? 0 then (od, Err (StorageError "Cannot save to sub-index 0")) else
  match storage od with
  | Some s =>
      let '(s, r) := save s (storable_params od list_to_save) in (set_storage od s, r)
  | None => (od, Err (StorageError "No storage backend configured"))
  end.

Definition restore_defaults od (list_to_restore : Z) : ObjectDictionary S * res unit :=
  if list_to_restore =? 0 then (od, Err (StorageError "Cannot restore from sub-index 0")) else
  match storage od with
  | Some s => let '(s, r) := request_restore_defaults s in (set_storage od s, r)
  | None => (od, Err (StorageError "No storage backend configured"))
  end.

(** *** [write] *)
Definition ascii_save : bytes := [115; 97; 118; 101].
Definition ascii_load : bytes := [108; 111; 97; 100].

Definition write od (index sub_index : Z) (value : ObjectValue) : ObjectDictionary S * res unit :=
  if index =? 0x1010 then
    match value with
    | OV_VisibleString s =>
        if (0 <? sub_index) && bool_decide (s = ascii_save) then store_parameters od sub_index
        else (od, Err (StorageError "Invalid signature or sub-index for Store Parameters"))
    | _ => (od, Err (StorageError "Invalid signature or sub-index for Store Parameters"))
    end
  else if index =? 0x1011 then
    match value with
    | OV_VisibleString s =>
        if (0 <? sub_index) && bool_decide (s = ascii_load) then restore_defaults od sub_index
        else (od, Err (StorageError "Invalid signature or sub-index for Restore Defaults"))
    | _ => (od, Err (StorageError "Invalid signature or sub-index for Restore Defaults"))
    end
  else if is_pdo_mapping_index0 index sub_index then
    match value with
    | OV_Unsigned8 new_num_entries =>
        match validate_pdo_mapping od index new_num_entries with
        | Ok _ => write_internal od index sub_index value true
        | Err e => (od, Err e)
        end
    | _ => (od, Err TypeMismatch)
    end
  else write_internal od index sub_index value true.

(** *** [restore_power_on_values] *)
Definition stored_value (p : option Params) (index sub_index : Z) : option ObjectValue :=
  p ≫= fun p => p !! (index, sub_index).

Definition restore_sub (p : option Params) (d : option ObjectValue) (index : Z)
    (i : nat) (val : ObjectValue) : ObjectValue :=
  match stored_value p index (u8 (Z.of_nat i + 1)) with
  | Some stored_val => stored_val
  | None =>
      match d with
      | Some default_val =>
          if discriminant val =? discriminant default_val then default_val else val
      | None => val
      end
  end.

Definition restore_object (p : option Params) (index : Z) (entry : ObjectEntry) : Object :=
  match object entry with
  | Obj_Variable val =>
      match stored_value p index 0 with
      | Some stored_val => Obj_Variable stored_val
      | None => Obj_Variable (unwrap_or (default_value entry) val)
      end
  | Obj_Array values => Obj_Array (imap (restore_sub p (default_value entry) index) values)
  | Obj_Record values => Obj_Record (imap (restore_sub p (default_value entry) index) values)
  end.

Definition restore_entry (p : option Params) (start_index end_index index : Z) (entry : ObjectEntry)
    : ObjectEntry :=
  if (index <? start_index) || (end_index <? index) then entry
  else if index =? 0x1003 then entry
  else set_object entry (restore_object p index entry).

Definition load_for_restore od : ObjectDictionary S * option Params :=
  match storage od with
  | Some s =>
      match load s with
      | (s, Ok params) => (set_storage od s, Some params)
      | (s, Err _) => (set_storage od s, None)
      end
  | None => (od, None)
  end.

Definition restore_power_on_values od (start_index end_index : Z) : ObjectDictionary S :=
  let '(od, stored_params) := load_for_restore od in
  set_entries od
    (map_imap (fun index entry => Some (restore_entry stored_params start_index end_index index entry))
              (entries od)).
End Storage.

(** ** Facts about values *)
Lemma le_bytes_mod n v : le_bytes n (v mod 2 ^ (8 * Z.of_nat n)) = le_bytes n v.
Proof.
  revert v. induction n as [|n IH]; intros v; [done|]. cbn [le_bytes].
  replace (8 * Z.of_nat (Datatypes.S n)) with (8 + 8 * Z.of_nat n) by lia.
  rewrite Z.pow_add_r by lia. change (2 ^ 8) with 256.
  pose proof (Z.pow_pos_nonneg 2 (8 * Z.of_nat n)).
  rewrite Z.rem_mul_r by lia. f_equal.
  - rewrite (Z.mul_comm 256), Z_mod_plus_full. by rewrite Z.mod_mod.
  - rewrite (Z.mul_comm 256), Z.div_add by lia.
    rewrite (Z.div_small (v mod 256)) by (apply Z.mod_pos_bound; lia). apply IH.
Qed.

Lemma signed_le_val n v :
  (0 < n)%nat -> in_signed (8 * Z.of_nat n) v ->
  signed (8 * Z.of_nat n) (le_val (le_bytes n v)) = v.
Proof.
  intros Hn Hv. set (w := 8 * Z.of_nat n) in *. unfold in_signed in Hv.
  assert (Hw : 2 ^ w = 2 * 2 ^ (w - 1)) by (rewrite <- Z.pow_succ_r by lia; f_equal; lia).
  rewrite <- le_bytes_mod. fold w. rewrite le_val_le_bytes by (apply Z.mod_pos_bound; lia).
  unfold signed. destruct (Z.lt_ge_cases v 0).
  - assert (v mod 2 ^ w = v + 2 ^ w) as -> by (symmetry; apply (Z.mod_unique _ _ (-1)); lia).
    destruct (Z.ltb_spec (v + 2 ^ w) (2 ^ (w - 1))); lia.
  - rewrite Z.mod_small by lia. destruct (Z.ltb_spec v (2 ^ (w - 1))); lia.
Qed.

Lemma deserialize_fixed_round n variant of_raw v :
  of_raw (le_val (le_bytes n v)) = v ->
  deserialize_fixed (le_bytes n v) n variant of_raw = Ok (variant v).
Proof.
  intros Hv. unfold deserialize_fixed. rewrite length_le_bytes, Nat.ltb_irrefl.
  rewrite firstn_all2 by (by rewrite length_le_bytes). by rewrite Hv.
Qed.

Lemma u16_chunks_concat l :
  Forall (in_width 16) l -> u16_chunks (concat (map (le_bytes 2) l)) = l.
Proof.
  induction 1 as [|v l Hv Hl IH]; [done|].
  change (concat (map (le_bytes 2) (v :: l))) with (le_bytes 2 v ++ concat (map (le_bytes 2) l)).
  set (r := concat _) in *. cbn [le_bytes app u16_chunks]. rewrite IH. f_equal.
  exact (le_val_le_bytes 2 v Hv).
Qed.

Lemma length_utf16 l : length (concat (map (le_bytes 2) l)) = (2 * length l)%nat.
Proof.
  induction l as [|v l IH]; [done|].
  change (concat (map (le_bytes 2) (v :: l))) with (le_bytes 2 v ++ concat (map (le_bytes 2) l)).
  rewrite length_app, IH, length_le_bytes. cbn [length]. lia.
Qed.

Lemma ObjectValue_round v t :
  value_ok v -> discriminant t = discriminant v ->
  ObjectValue_deserialize (ObjectValue_serialize v) t = Ok v.
Proof.
  intros Hv Ht.
  assert (Hs : forall n, (0 < n)%nat -> forall x, in_signed (8 * Z.of_nat n) x ->
    signed (8 * Z.of_nat n) (le_val (le_bytes n x)) = x) by (intros; by apply signed_le_val).
  assert (Hu : forall n x, in_width (8 * Z.of_nat n) x -> id (le_val (le_bytes n x)) = x)
    by (intros; by apply le_val_le_bytes).
  destruct v; destruct t; try discriminate Ht; cbn [ObjectValue_serialize ObjectValue_deserialize].
  all: try (apply deserialize_fixed_round;
    by first [apply Hu; exact Hv|apply (Hs 1%nat); [lia|exact Hv]|apply (Hs 2%nat); [lia|exact Hv]
             |apply (Hs 4%nat); [lia|exact Hv]|apply (Hs 8%nat); [lia|exact Hv]]).
  - destruct Hv as [_ Hv]. unfold from_utf8. by rewrite Hv.
  - done.
  - rewrite length_utf16, Nat.even_mul. simpl. by rewrite u16_chunks_concat.
  - done.
  - destruct v as [ms d], Hv as [Hm Hd]. simpl in Hm, Hd. cbn. by autorewrite with le.
  - destruct v as [ms d], Hv as [Hm Hd]. simpl in Hm, Hd. cbn. by autorewrite with le.
  - destruct v as [ms d], Hv as [Hm Hd]. simpl in Hm, Hd. cbn. by autorewrite with le.
  - destruct Hv as [Hl _]. rewrite Hl. simpl. do 2 f_equal. apply firstn_all2. simpl. lia.
  - destruct Hv as [Hl _]. rewrite Hl. simpl. do 2 f_equal. apply firstn_all2. simpl. lia.
Qed.

(** ** Facts about PDO mapping entries *)
Definition mapping_ok (e : PdoMappingEntry) : Prop :=
  in_width 16 (pm_index e) /\ in_width 8 (pm_sub_index e) /\
  in_width 16 (pm_offset_bits e) /\ in_width 16 (pm_length_bits e).

Lemma to_u64_eq e : mapping_ok e ->
  to_u64 e = pm_index e + (pm_sub_index e + (pm_offset_bits e + pm_length_bits e * 2 ^ 16) * 2 ^ 16) * 2 ^ 16.
Proof.
  intros (Hi&Hs&Ho&Hl). unfold to_u64, in_width in *.
  rewrite (lor_shiftl_add (pm_index e) _ 16) by (unfold in_width; lia).
  rewrite (lor_shiftl_add _ _ 32) by (unfold in_width; lia).
  rewrite (lor_shiftl_add _ _ 48) by (unfold in_width; lia). lia.
Qed.

Lemma from_to_u64 e : mapping_ok e -> from_u64 (to_u64 e) = e.
Proof.
  intros H. rewrite to_u64_eq by done. destruct H as (Hi&Hs&Ho&Hl), e as [i s o l]. simpl in *.
  unfold from_u64.
  assert (Hs16 : in_width 16 s) by (unfold in_width in *; lia).
  replace 48 with (16 + (16 + 16)) by lia. replace 32 with (16 + 16) by lia.
  rewrite <- !Z.shiftr_shiftr by lia.
  rewrite !field_high by (done || lia). change 0xFFFF with (Z.ones 16). change 0xFF with (Z.ones 8).
  rewrite !(field_low _ _ 16), (land_ones_small l) by (done || lia).
  replace (s + (o + l * 2 ^ 16) * 2 ^ 16) with (s + ((o + l * 2 ^ 16) * 2 ^ 8) * 2 ^ 8) by lia.
  rewrite field_low by (done || lia). unfold u16, u8. by rewrite !wrap_small.
Qed.

(** ** Reads and writes *)
Section WriteFacts.
Context {S : Type}.
Implicit Types od : ObjectDictionary S.

(** The count of a mapping array, which a write accepts but does not store. *)
Definition is_count (e : ObjectEntry) (sub_index : Z) : bool :=
  (sub_index =? 0) && match object e with Obj_Variable _ => false | _ => true end.

Lemma set_object_same e : set_object e (object e) = e.
Proof. by destruct e. Qed.

Lemma write_entry_read index e s v chk o :
  0 <= s -> write_entry index e s v chk = Ok o ->
  (is_count e s = true -> o = object e) /\
  (is_count e s = false -> read_entry (set_object e o) s = Some v) /\
  (forall s', 0 <= s' -> s' <> s -> read_entry (set_object e o) s' = read_entry e s').
Proof.
  intros Hs. unfold write_entry, is_count, read_entry, len. destruct (chk && _); [done|].
  destruct (object e) as [x|vs|vs]; simpl.
  - destruct (s =? 0) eqn:E0; [|done]. destruct (negb _); [done|]. intros; simplify_eq.
    apply Z.eqb_eq in E0. split_and!; try done. intros s' _ Hs'.
    by destruct (Z.eqb_spec s' 0); [lia|].
  - destruct (s =? 0) eqn:E0; simpl.
    + case_match; [|done]. case_match; try done. intros; simplify_eq. by split_and!.
    + apply Z.eqb_neq in E0. destruct (vs !! _) as [w|] eqn:Ev; [|done].
      destruct (negb _); [done|]. intros; simplify_eq. split_and!; [done| |].
      * intros _. simpl. rewrite list_lookup_insert_eq; [done|]. by apply lookup_lt_Some in Ev.
      * intros s' ? ?. simpl. rewrite length_insert. destruct (Z.eqb_spec s' 0); [done|].
        rewrite list_lookup_insert_ne; [done|lia].
  - destruct (s =? 0) eqn:E0; simpl.
    + case_match; [|done]. case_match; try done. intros; simplify_eq. by split_and!.
    + apply Z.eqb_neq in E0. destruct (vs !! _) as [w|] eqn:Ev; [|done].
      destruct (negb _); [done|]. intros; simplify_eq. split_and!; [done| |].
      * intros _. simpl. rewrite list_lookup_insert_eq; [done|]. by apply lookup_lt_Some in Ev.
      * intros s' ? ?. simpl. rewrite length_insert. destruct (Z.eqb_spec s' 0); [done|].
        rewrite list_lookup_insert_ne; [done|lia].
Qed.

Lemma read_insert_entry od i e i' s' :
  read (insert_entry od i e) i' s' = if bool_decide (i = i') then read_entry e s' else read od i' s'.
Proof.
  unfold read, insert_entry. simpl. case_bool_decide; subst.
  - by rewrite lookup_insert_eq.
  - by rewrite lookup_insert_ne.
Qed.

(** The effect of a write that succeeded, seen through [read]. *)
Definition write_effect od od' (i s : Z) (v : ObjectValue) : Prop :=
  (forall i' s', 0 <= s' -> (i', s') <> (i, s) -> read od' i' s' = read od i' s') /\
  exists e, entries od !! i = Some e /\
    if is_count e s then entries od' = entries od else read od' i s = Some v.

Lemma write_internal_effect od i s v chk od' r :
  0 <= s -> write_internal od i s v chk = (od', r) ->
  storage od' = storage od /\
  (r <> Ok tt -> entries od' = entries od) /\ (r = Ok tt -> write_effect od od' i s v).
Proof.
  intros Hs. unfold write_internal. destruct (entries od !! i) as [e|] eqn:Ee.
  - destruct (write_entry i e s v chk) as [o|] eqn:Ew; intros; simplify_eq; [|done].
    destruct (write_entry_read i e s v chk o Hs Ew) as (Hc&Hr&Ho).
    split_and!; [done|done|]. intros _. split.
    + intros i' s' Hs' Hne. rewrite read_insert_entry. case_bool_decide; [|done]. subst i'.
      unfold read. rewrite Ee. simpl. apply Ho; congruence.
    + exists e. split; [done|]. destruct (is_count e s).
      * rewrite Hc by done. rewrite set_object_same. simpl. by apply insert_id.
      * rewrite read_insert_entry, bool_decide_eq_true_2 by done. by apply Hr.
  - intros; simplify_eq. by split_and!.
Qed.

(** *** When a write succeeds *)
Definition is_read_only (e : ObjectEntry) : bool :=
  match access e with Some (ReadOnly | Constant) => true | _ => false end.

(** The outcome of a write to an ordinary object, in terms of what can be read. *)
Definition write_outcome od (i s : Z) (v : ObjectValue) : res unit :=
  match entries od !! i with
  | None => Err ObjectNotFound
  | Some e =>
      if is_read_only e then Err (StorageError "Object is read-only")
      else if is_count e s then
        Err (StorageError "Cannot write to sub-index 0 of standard Array/Record")
      else match read od i s with
           | None => Err SubObjectNotFound
           | Some w => if discriminant w =? discriminant v then Ok tt else Err TypeMismatch
           end
  end.

Lemma write_internal_outcome od i s v :
  is_pdo_mapping_index0 i s = false ->
  snd (write_internal od i s v true) = write_outcome od i s v.
Proof.
  intros Hp. unfold write_internal, write_outcome, read.
  destruct (entries od !! i) as [e|] eqn:Ee; [|done]. simpl.
  unfold write_entry, is_count, read_entry, is_read_only. rewrite Hp. simpl.
  destruct (access e) as [[]|]; simpl; try done.
  all: destruct (object e) as [x|vs|vs]; simpl; destruct (s =? 0); simpl; try done;
    try (destruct (discriminant x =? discriminant v); simpl; done);
    destruct (vs !! _) as [w|]; simpl; try done;
    destruct (discriminant w =? discriminant v); simpl; done.
Qed.

(** *** Types never change *)
Definition object_shape (o : Object) : Z * list Z :=
  match o with
  | Obj_Variable v => (0, [discriminant v])
  | Obj_Array vs => (1, map discriminant vs)
  | Obj_Record vs => (2, map discriminant vs)
  end.
Definition shape od : gmap Z (Z * list Z) := (fun e => object_shape (object e)) <$> entries od.

Definition object_values (o : Object) : list ObjectValue :=
  match o with Obj_Variable v => [v] | Obj_Array vs | Obj_Record vs => vs end.
Definition od_wf od : Prop :=
  map_Forall (fun _ e => Forall value_ok (object_values (object e))) (entries od).

Lemma map_insert_same_key (f : ObjectValue -> Z) vs i v w :
  vs !! i = Some w -> f w = f v -> map f (<[i := v]> vs) = map f vs.
Proof.
  intros Hi Hf. revert i Hi. induction vs as [|x vs IH]; intros [|i] Hi; simplify_eq/=; f_equal; auto.
Qed.

Lemma write_entry_shape index e s v chk o :
  write_entry index e s v chk = Ok o -> object_shape o = object_shape (object e).
Proof.
  unfold write_entry. destruct (chk && _); [done|].
  destruct (object e) as [x|vs|vs]; simpl; intros H; repeat case_match; simplify_eq/=; try done.
  all: repeat match goal with E : negb (_ =? _) = false |- _ =>
         apply negb_false_iff, Z.eqb_eq in E end.
  - by f_equal; f_equal.
  - f_equal. by eapply map_insert_same_key.
  - f_equal. by eapply map_insert_same_key.
Qed.

Lemma write_entry_wf index e s v chk o :
  value_ok v -> Forall value_ok (object_values (object e)) ->
  write_entry index e s v chk = Ok o -> Forall value_ok (object_values o).
Proof.
  intros Hv He. unfold write_entry. destruct (chk && _); [done|].
  destruct (object e) as [x|vs|vs]; simpl in *; intros H; repeat case_match; simplify_eq/=; try done.
  - by constructor.
  - by apply Forall_insert.
  - by apply Forall_insert.
Qed.

Lemma shape_insert od i e o :
  entries od !! i = Some e -> object_shape o = object_shape (object e) ->
  shape (insert_entry od i (set_object e o)) = shape od.
Proof.
  intros He Ho. unfold shape. simpl. rewrite fmap_insert. simpl. rewrite Ho.
  apply insert_id. rewrite lookup_fmap, He. done.
Qed.

Lemma write_internal_shape od i s v chk :
  shape (fst (write_internal od i s v chk)) = shape od.
Proof.
  unfold write_internal. destruct (entries od !! i) as [e|] eqn:Ee; [|done].
  destruct (write_entry i e s v chk) as [o|] eqn:Ew; [|done]. simpl.
  apply shape_insert; [done|]. by eapply write_entry_shape.
Qed.

Lemma write_internal_wf od i s v chk :
  value_ok v -> od_wf od -> od_wf (fst (write_internal od i s v chk)).
Proof.
  intros Hv Hod. unfold write_internal. destruct (entries od !! i) as [e|] eqn:Ee; [|done].
  destruct (write_entry i e s v chk) as [o|] eqn:Ew; [|done]. simpl.
  apply map_Forall_insert_2; [|done]. simpl. eapply write_entry_wf; [done| |done].
  exact (Hod _ _ Ee).
Qed.

Lemma discriminant_bump v : discriminant (bump v) = discriminant v.
Proof. by destruct v. Qed.

Lemma value_ok_bump v : value_ok v -> value_ok (bump v).
Proof. destruct v; try done. intros _. simpl. apply wrap_range. lia. Qed.

Lemma map_alter_same {A} (f : A -> Z) (g : A -> A) vs n :
  (forall x, f (g x) = f x) -> map f (alter g n vs) = map f vs.
Proof.
  intros Hf. revert n. induction vs as [|y vs IH]; intros [|n]; simpl; try done.
  - by rewrite Hf.
  - f_equal. apply IH.
Qed.

Lemma Forall_alter_bump vs n : Forall value_ok vs -> Forall value_ok (alter bump n vs).
Proof.
  intros Hv. revert n. induction Hv as [|y vs Hy Hv IH]; intros [|n]; simpl; try done.
  - constructor; [by apply value_ok_bump|done].
  - constructor; [done|apply IH].
Qed.

Lemma increment_counter_shape od i s : shape (increment_counter od i s) = shape od.
Proof.
  unfold increment_counter. destruct (entries od !! i) as [e|] eqn:Ee; [|done].
  destruct (object e) as [x|vs|vs] eqn:Eo; repeat case_match; try done;
    apply shape_insert; try done; rewrite Eo; simpl.
  - by rewrite discriminant_bump.
  - f_equal. apply map_alter_same, discriminant_bump.
Qed.

Lemma increment_counter_wf od i s : od_wf od -> od_wf (increment_counter od i s).
Proof.
  intros Hod. unfold increment_counter. destruct (entries od !! i) as [e|] eqn:Ee; [|done].
  pose proof (Hod _ _ Ee) as He. simpl in He.
  destruct (object e) as [x|vs|vs] eqn:Eo; repeat case_match; try done;
    (apply map_Forall_insert_2; [|done]); simpl in *.
  - constructor; [|done]. apply value_ok_bump. by inversion He.
  - by apply Forall_alter_bump.
Qed.

(** *** The validation of a PDO mapping *)
Definition fits (limit : Z) (v : option ObjectValue) : Prop :=
  exists raw, v = Some (OV_Unsigned64 raw) /\
    pm_offset_bits (from_u64 raw) + pm_length_bits (from_u64 raw) <= 8 * limit.

Lemma div8_le b limit : 0 <= limit -> ((b + 7) / 8 <= limit <-> b <= 8 * limit).
Proof.
  intros Hl. pose proof (Z.div_mod (b + 7) 8). pose proof (Z.mod_pos_bound (b + 7) 8). lia.
Qed.

(** The required bits are the maximum over the enabled entries. *)
Lemma mapping_bits_spec vs n m limit :
  0 <= limit ->
  (exists b, mapping_bits vs n m = Ok b /\ b <= 8 * limit) <->
  m <= 8 * limit /\ forall k, (k < n)%nat -> fits limit (vs !! k).
Proof.
  intros Hl. revert vs m. induction n as [|n IH]; intros vs m; cbn [mapping_bits].
  - split.
    + intros (b&Hb&Hle). injection Hb as <-. split; [exact Hle|]. intros k Hk. lia.
    + intros [Hm _]. by exists m.
  - destruct vs as [|v vs]; [|destruct v].
    all: try (split; [intros (?&?&_); by simplify_eq/=|]; intros [_ H];
      destruct (H O ltac:(lia)) as (?&?&_); by simplify_eq/=).
    rewrite IH. split.
    + intros [Hm Hk]. split; [lia|]. intros [|k] Hkn; [|apply Hk; lia]. exists v. split; [done|]. lia.
    + intros [Hm Hk]. destruct (Hk O ltac:(lia)) as (raw&?&Hf). simplify_eq/=.
      split; [by apply Z.max_lub|]. intros k ?. apply (Hk (Datatypes.S k)). lia.
Qed.

End WriteFacts.

(** ** The error history *)
Lemma drop_oldest {A} (l : list A) :
  (length l <= 255)%nat ->
  (if (254 <? length l)%nat then removelast l else l) = take 254 l.
Proof.
  intros Hl. destruct (Nat.ltb_spec 254 (length l)).
  - rewrite removelast_firstn_len. f_equal. lia.
  - by rewrite firstn_all2.
Qed.

Lemma write_error_to_history_values {S} (od : ObjectDictionary S) e vs en :
  entries od !! 0x1003 = Some en -> object en = Obj_Array vs -> (length vs <= 254)%nat ->
  read_object (write_error_to_history od e) 0x1003 =
    Some (Obj_Array (take 254 (OV_Domain (ErrorEntry_serialize e) :: vs))).
Proof.
  intros He Ho Hl. unfold write_error_to_history, read_object. rewrite He, Ho.
  rewrite drop_oldest by (cbn [length]; lia).
  unfold insert_entry. cbn [entries set_entries]. by rewrite lookup_insert_eq.
Qed.

(** ** Commands and restores leave the rest alone *)
Section StorageFacts.
Context {S : Type} `{ObjectDictionaryStorage S}.
Implicit Types od : ObjectDictionary S.

Lemma store_parameters_entries od i : entries (fst (store_parameters od i)) = entries od.
Proof.
  unfold store_parameters. case_if; [done|]. destruct (storage od) as [s|]; [|done].
  by destruct (save s _).
Qed.

Lemma restore_defaults_entries od i : entries (fst (restore_defaults od i)) = entries od.
Proof.
  unfold restore_defaults. case_if; [done|]. destruct (storage od) as [s|]; [|done].
  by destruct (request_restore_defaults s).
Qed.

Definition is_command (index : Z) : bool := (index =? 0x1010) || (index =? 0x1011).

Lemma write_command_entries od i s v :
  is_command i = true -> entries (fst (write od i s v)) = entries od.
Proof.
  unfold is_command, write. intros Hi.
  destruct (i =? 0x1010).
  - destruct v; try done. case_if; [apply store_parameters_entries|done].
  - destruct (i =? 0x1011); [|done].
    destruct v; try done. case_if; [apply restore_defaults_entries|done].
Qed.

(** A write that is not a command is a [write_internal], or leaves everything. *)
Lemma write_cases od i s v :
  is_command i = false ->
  (exists e, write od i s v = (od, Err e)) \/ write od i s v = write_internal od i s v true.
Proof.
  unfold is_command, write. intros Hi. apply orb_false_elim in Hi as [-> ->].
  case_if; [|by right]. destruct v; try (left; by eexists).
  destruct (validate_pdo_mapping _ _ _); [by right|left; by eexists].
Qed.

Lemma write_plain od i s v :
  is_command i = false -> is_pdo_mapping_index0 i s = false ->
  write od i s v = write_internal od i s v true.
Proof.
  unfold is_command, write. intros Hi ->. by apply orb_false_elim in Hi as [-> ->].
Qed.

Lemma shape_entries od od' : entries od' = entries od -> shape od' = shape od.
Proof. unfold shape. by intros ->. Qed.

Lemma write_shape od i s v : shape (fst (write od i s v)) = shape od.
Proof.
  destruct (is_command i) eqn:Ei; [by apply shape_entries, write_command_entries|].
  destruct (write_cases od i s v Ei) as [[e ->]| ->]; [done|apply write_internal_shape].
Qed.

Lemma write_wf od i s v : value_ok v -> od_wf od -> od_wf (fst (write od i s v)).
Proof.
  intros Hv Hod. destruct (is_command i) eqn:Ei.
  - unfold od_wf. by rewrite write_command_entries.
  - destruct (write_cases od i s v Ei) as [[e ->]| ->]; [done|by apply write_internal_wf].
Qed.

(** *** [restore_power_on_values] *)
Lemma load_for_restore_entries od : entries (fst (load_for_restore od)) = entries od.
Proof.
  unfold load_for_restore. destruct (storage od) as [s|]; [|done].
  by destruct (load s) as [? []].
Qed.

Lemma restore_lookup od a b i :
  entries (restore_power_on_values od a b) !! i =
    restore_entry (snd (load_for_restore od)) a b i <$> entries od !! i.
Proof.
  unfold restore_power_on_values. pose proof (load_for_restore_entries od) as He.
  destruct (load_for_restore od) as [od1 p]. simpl in *. rewrite map_lookup_imap, He.
  by destruct (entries od !! i).
Qed.

Lemma restore_sub_idem p d i k v : restore_sub p d i k (restore_sub p d i k v) = restore_sub p d i k v.
Proof.
  unfold restore_sub. destruct (stored_value _ _ _); [done|]. destruct d as [d|]; [|done].
  destruct (Z.eqb_spec (discriminant v) (discriminant d)); [by rewrite Z.eqb_refl|].
  by destruct (Z.eqb_spec (discriminant v) (discriminant d)).
Qed.

Lemma imap_idem {A} (f : nat -> A -> A) l :
  (forall i x, f i (f i x) = f i x) -> imap f (imap f l) = imap f l.
Proof.
  intros Hf. apply list_eq. intros i. rewrite !list_lookup_imap.
  destruct (l !! i); simpl; [by rewrite Hf|done].
Qed.

Lemma restore_entry_idem p a b i e :
  restore_entry p a b i (restore_entry p a b i e) = restore_entry p a b i e.
Proof.
  unfold restore_entry. destruct (_ || _); [done|]. destruct (i =? 0x1003); [done|].
  unfold restore_object. destruct (object e) as [v|vs|vs] eqn:Eo; simpl.
  - destruct (stored_value p i 0); simpl; [done|]. by destruct (default_value e).
  - unfold set_object. simpl. do 2 f_equal. apply imap_idem. intros; apply restore_sub_idem.
  - unfold set_object. simpl. do 2 f_equal. apply imap_idem. intros; apply restore_sub_idem.
Qed.
End StorageFacts.

(** ** Properties *)
Inductive OdOp : Type :=
| OpWrite (index sub_index : Z) (v : ObjectValue)
| OpWriteInternal (index sub_index : Z) (v : ObjectValue)
| OpIncrement (index sub_index : Z).

Definition op_value_ok (op : OdOp) : Prop :=
  match op with OpWrite _ _ v | OpWriteInternal _ _ v => value_ok v | OpIncrement _ _ => True end.

Definition od_step {S} `{ObjectDictionaryStorage S} (od : ObjectDictionary S) (op : OdOp)
    : ObjectDictionary S :=
  match op with
  | OpWrite i s v => fst (write od i s v)
  | OpWriteInternal i s v => fst (write_internal od i s v false)
  | OpIncrement i s => increment_counter od i s
  end.

(** A dictionary for the witnesses: a stored parameter, a constant, and a
    mapping with one entry. *)
Definition demo_entry (o : Object) (a : AccessType) (d : option ObjectValue) : ObjectEntry :=
  mkObjectEntry o "" Cat_Optional (Some a) d None None.
Definition demo_od : ObjectDictionary MemStorage :=
  mkOD (list_to_map
    [(0x1003, demo_entry (Obj_Array []) ReadOnly None);
     (0x1A00, demo_entry (Obj_Array [OV_Unsigned64 (to_u64 (mkPdoMappingEntry 0x6000 1 0 16))]) ReadWrite None);
     (0x6000, demo_entry (Obj_Record [OV_Unsigned16 7; OV_Integer8 (-1)]) ReadWriteStore (Some (OV_Unsigned16 3)))])
    (Some (mkMemStorage {[ (0x6000, 1) := OV_Unsigned16 99 ]} false)).

(** C35: every value the dictionary can hold survives its encoding, read back
    with any template of the same type. *)
Theorem object_value_roundtrip v t :
  value_ok v -> discriminant t = discriminant v ->
  ObjectValue_deserialize (ObjectValue_serialize v) t = Ok v.
Proof. apply ObjectValue_round. Qed.

Lemma object_value_roundtrip_witness :
  ObjectValue_deserialize (ObjectValue_serialize (OV_Integer16 (-300))) (OV_Integer16 0)
    = Ok (OV_Integer16 (-300)).
Proof. apply (object_value_roundtrip (OV_Integer16 (-300)) (OV_Integer16 0)); [split; done|done]. Defined.

(** C17: a write that fails, and a write to the command objects 0x1010 and
    0x1011, leaves every entry; a write that succeeds elsewhere changes the
    addressed value and no other, and the value written is the value read back.
    The one exception is the entry count of a PDO mapping: writing it succeeds
    and changes nothing. *)
Theorem od_write_then_read {S} `{ObjectDictionaryStorage S} (od od' : ObjectDictionary S) i s v r :
  0 <= s -> write od i s v = (od', r) ->
  (r <> Ok tt \/ is_command i = true -> entries od' = entries od) /\
  (r = Ok tt -> is_command i = false -> write_effect od od' i s v /\ storage od' = storage od).
Proof.
  intros Hs Hw. destruct (is_command i) eqn:Ei.
  - pose proof (write_command_entries od i s v Ei) as He. rewrite Hw in He. by split.
  - destruct (write_cases od i s v Ei) as [[e He]|He]; rewrite Hw in He.
    + simplify_eq. by split.
    + symmetry in He. destruct (write_internal_effect _ _ _ _ _ _ _ Hs He) as (Ht&Hf&Hok).
      split; [intros [?|?]; [by apply Hf|done]|]. intros Hr _. split; [by apply Hok|done].
Qed.

Lemma od_write_then_read_witness :
  write_effect demo_od (fst (write demo_od 0x6000 2 (OV_Integer8 5))) 0x6000 2 (OV_Integer8 5).
Proof.
  apply (proj2 (od_write_then_read demo_od _ 0x6000 2 (OV_Integer8 5) (Ok tt)
    ltac:(lia) ltac:(vm_compute; reflexivity))); reflexivity.
Defined.

(** outside the command objects and the mapping counts, the outcome of a
    write is decided by what can be read: [ObjectNotFound] for no entry, a
    storage error for a read-only or constant object or an element count,
    [SubObjectNotFound] where nothing can be read, [TypeMismatch] where the
    value read has another type, and success in every other case. *)
Theorem od_write_outcome {S} `{ObjectDictionaryStorage S} (od : ObjectDictionary S) i s v :
  is_command i = false -> is_pdo_mapping_index0 i s = false ->
  snd (write od i s v) = write_outcome od i s v.
Proof. intros Hi Hp. rewrite write_plain by done. by apply write_internal_outcome. Qed.

Lemma od_write_outcome_witness :
  snd (write demo_od 0x6000 1 (OV_Unsigned8 1)) = Err TypeMismatch /\
  snd (write demo_od 0x6000 3 (OV_Unsigned8 1)) = Err SubObjectNotFound.
Proof.
  split; rewrite (od_write_outcome demo_od) by reflexivity; reflexivity.
Defined.

(** no sequence of writes, internal writes and counter increments ever
    changes which objects exist, the number of their values or the type of one,
    and values in range stay in range. *)
Theorem od_types_invariant {S} `{ObjectDictionaryStorage S} (od : ObjectDictionary S) ops :
  shape (foldl od_step od ops) = shape od /\
  (od_wf od -> Forall op_value_ok ops -> od_wf (foldl od_step od ops)).
Proof.
  revert od. induction ops as [|op ops IH]; intros od; [done|]. simpl.
  destruct (IH (od_step od op)) as [IHs IHw]. split.
  - rewrite IHs. destruct op; simpl;
      [apply write_shape|apply write_internal_shape|apply increment_counter_shape].
  - intros Hod Hops. inversion Hops as [|? ? Hop Hops']; subst. apply IHw; [|done].
    destruct op; simpl in *;
      [by apply write_wf|by apply write_internal_wf|by apply increment_counter_wf].
Qed.

Lemma od_types_invariant_witness :
  od_wf (foldl od_step demo_od [OpWrite 0x6000 2 (OV_Integer8 5); OpWrite 0x1010 1 (OV_VisibleString ascii_save)]).
Proof.
  apply (proj2 (od_types_invariant demo_od
    [OpWrite 0x6000 2 (OV_Integer8 5); OpWrite 0x1010 1 (OV_VisibleString ascii_save)])).
  - repeat (apply map_Forall_insert_2; [repeat constructor; vm_compute; done|]). apply map_Forall_empty.
  - repeat constructor; done.
Defined.

(** C36: enabling [n] entries of a PDO mapping is accepted exactly when the
    mapping is an array whose first [n] elements are present, are 64-bit
    mappings, and each end within the payload limit of its direction. *)
Theorem validate_pdo_mapping_sound {S} (od : ObjectDictionary S) i n :
  0 < n -> is_rpdo_mapping i || is_tpdo_mapping i = true -> 0 <= payload_limit_bytes od i ->
  validate_pdo_mapping od i n = Ok tt <->
  exists vs, read_object od i = Some (Obj_Array vs) /\
    forall k, (k < Z.to_nat n)%nat -> fits (payload_limit_bytes od i) (vs !! k).
Proof.
  intros Hn Hi Hl. unfold validate_pdo_mapping.
  destruct (Z.eqb_spec n 0); [lia|]. rewrite <- negb_orb, orb_comm, Hi. simpl.
  destruct (read_object od i) as [[v|vs|vs]|]; try (split; [done|]; by intros (?&?&_)).
  pose proof (mapping_bits_spec vs (Z.to_nat n) 0 (payload_limit_bytes od i) Hl) as Hm.
  split.
  - intros Hv. exists vs. split; [done|]. apply Hm.
    destruct (mapping_bits vs _ 0) as [b|]; [|done]. exists b. split; [done|].
    apply div8_le; [done|]. destruct (Z.ltb_spec (payload_limit_bytes od i) ((b + 7) / 8)); [done|lia].
  - intros (?&?&Hk). simplify_eq. destruct (proj2 Hm) as (b&->&Hb).
    + split; [lia|done].
    + apply div8_le in Hb; [|done]. by rewrite (proj2 (Z.ltb_ge _ _)).
Qed.

Lemma validate_pdo_mapping_sound_witness :
  exists vs, read_object demo_od 0x1A00 = Some (Obj_Array vs) /\
    forall k, (k < 1)%nat -> fits 1490 (vs !! k).
Proof.
  apply (proj1 (validate_pdo_mapping_sound demo_od 0x1A00 1 ltac:(lia) eq_refl ltac:(vm_compute; discriminate))).
  vm_compute. reflexivity.
Defined.

(** the error history keeps the newest entries first: after an error is
    recorded the array is that error followed by the older ones, never more
    than 254 entries, and the first element decodes to the error recorded. *)
Theorem error_history_newest_first {S} (od : ObjectDictionary S) e en vs :
  entries od !! 0x1003 = Some en -> object en = Obj_Array vs -> (length vs <= 254)%nat ->
  error_entry_ok e ->
  let od' := write_error_to_history od e in
  exists vs', read_object od' 0x1003 = Some (Obj_Array vs') /\
    vs' = take 254 (OV_Domain (ErrorEntry_serialize e) :: vs) /\ (length vs' <= 254)%nat /\
    exists b, read od' 0x1003 1 = Some (OV_Domain b) /\ ErrorEntry_deserialize b = Ok e.
Proof.
  intros He Ho Hl Hw od'. pose proof (write_error_to_history_values od e vs en He Ho Hl) as Hv.
  fold od' in Hv. exists (take 254 (OV_Domain (ErrorEntry_serialize e) :: vs)).
  split_and!; [done|done|rewrite length_take; lia|].
  exists (ErrorEntry_serialize e). split.
  - unfold read_object in Hv. apply fmap_Some in Hv as (en'&Hen&Heq).
    unfold read. rewrite Hen. simpl. unfold read_entry. by rewrite <- Heq.
  - rewrite ErrorEntry_serialize_eq, <- (app_nil_r (error_entry_wire e)).
    by apply ErrorEntry_deserialize_app.
Qed.

Definition demo_error : ErrorEntry :=
  mkErrorEntry (mkEntryType false true Mode_EventOccurred 2) 0x8245 (mkNetTime 10 20) 0.

Lemma error_history_newest_first_witness :
  exists b, read (write_error_to_history demo_od demo_error) 0x1003 1 = Some (OV_Domain b) /\
            ErrorEntry_deserialize b = Ok demo_error.
Proof.
  destruct (error_history_newest_first demo_od demo_error
    (demo_entry (Obj_Array []) ReadOnly None) []) as (vs'&_&_&_&H).
  - vm_compute. reflexivity.
  - reflexivity.
  - simpl. lia.
  - split_and!; done.
  - exact H.
Defined.

(** restoring the power-on values of a range leaves the objects outside
    the range and the error history as they are, keeps every other object's
    values to what is stored, else to the default, else to the current value,
    and doing it twice is doing it once. *)
Theorem restore_power_on_values_spec {S} `{ObjectDictionaryStorage S} (od : ObjectDictionary S) a b i :
  let od' := restore_power_on_values od a b in
  (i < a \/ b < i \/ i = 0x1003 -> entries od' !! i = entries od !! i) /\
  (forall e v, a <= i <= b -> i <> 0x1003 -> entries od !! i = Some e -> object e = Obj_Variable v ->
     read od' i 0 = Some (unwrap_or (stored_value (snd (load_for_restore od)) i 0)
                                    (unwrap_or (default_value e) v))) /\
  (snd (load_for_restore od') = snd (load_for_restore od) ->
   entries (restore_power_on_values od' a b) !! i = entries od' !! i).
Proof.
  intros od'. split_and!.
  - intros Hi. unfold od'. rewrite restore_lookup. destruct (entries od !! i) as [e|]; [|done].
    simpl. unfold restore_entry. destruct (Z.ltb_spec i a); [done|]. destruct (Z.ltb_spec b i); [done|].
    destruct (Z.eqb_spec i 0x1003); [done|lia].
  - intros e v Hi Hne He Ho. unfold read, od'. rewrite restore_lookup, He. simpl.
    unfold restore_entry. destruct (Z.ltb_spec i a); [lia|]. destruct (Z.ltb_spec b i); [lia|].
    destruct (Z.eqb_spec i 0x1003); [done|]. simpl. unfold read_entry, restore_object. simpl.
    rewrite Ho. by destruct (stored_value _ i 0).
  - intros Hs. rewrite restore_lookup, Hs. unfold od'. rewrite restore_lookup.
    destruct (entries od !! i); [|done]. simpl. by rewrite restore_entry_idem.
Qed.

Lemma restore_power_on_values_spec_witness :
  entries (restore_power_on_values (restore_power_on_values demo_od 0x6000 0x9FFF) 0x6000 0x9FFF) !! 0x6000
    = entries (restore_power_on_values demo_od 0x6000 0x9FFF) !! 0x6000.
Proof.
  apply (proj2 (proj2 (restore_power_on_values_spec demo_od 0x6000 0x9FFF 0x6000))).
  vm_compute. reflexivity.
Defined.
