(* ===== verification/OdPredefined.v ===== *)
(** * Predefined objects of the dictionary

    [od/predefined.rs], [od/storage.rs] (the start-up sequence) and [od/utils.rs]
    (the default dictionaries of a controlled and of a managing node). *)
From S2P Require Import Prelude Utf8 Types ErrorEntry ObjectDict.

(** ** Protocol objects ([od/predefined.rs]) *)
Definition protocol_objects : list (Z * ObjectEntry) :=
  [(0x1010, mkObjectEntry (Obj_Record [OV_Unsigned32 1; OV_Unsigned32 1; OV_Unsigned32 1])
       "NMT_StoreParam_REC"
     Cat_Mandatory None None None None);
   (0x1011, mkObjectEntry (Obj_Record [OV_Unsigned32 1; OV_Unsigned32 1; OV_Unsigned32 1])
       "NMT_RestoreDefParam_REC"
     Cat_Optional None None None None);
   (0x1300, mkObjectEntry (Obj_Variable (OV_Unsigned32 15000)) "SDO_SequLayerTimeout_U32"
     Cat_Mandatory (Some ReadWriteStore) (Some (OV_Unsigned32 15000)) None (Some Pdo_No));
   (0x1302, mkObjectEntry (Obj_Variable (OV_Unsigned32 2)) "SDO_SequLayerNoAck_U32"
     Cat_Optional (Some ReadWriteStore) (Some (OV_Unsigned32 2)) None (Some Pdo_No));
   (0x0420, mkObjectEntry (Obj_Record [OV_Unsigned8 2; OV_Unsigned8 0; OV_Unsigned8 0])
       "PDO_CommParamRecord_TYPE"
     Cat_Mandatory (Some Constant) None None (Some Pdo_No));
   (0x1400, mkObjectEntry (Obj_Record [OV_Unsigned8 0; OV_Unsigned8 0]) "PDO_RxCommParam_00h_REC"
     Cat_Mandatory None None None None);
   (0x1600, mkObjectEntry (Obj_Array []) "PDO_RxMappParam_00h_AU64"
     Cat_Mandatory None None None None);
   (0x1800, mkObjectEntry (Obj_Record [OV_Unsigned8 1; OV_Unsigned8 0]) "PDO_TxCommParam_00h_REC"
     Cat_Mandatory None None None None);
   (0x1A00, mkObjectEntry (Obj_Array []) "PDO_TxMappParam_00h_AU64"
     Cat_Mandatory None None None None);
   (0x1C80, mkObjectEntry (Obj_Variable (OV_OctetString (replicate 32 0))) "PDO_ErrMapVers_OSTR"
     Cat_Optional (Some ReadWrite) (Some (OV_OctetString (replicate 32 0))) None (Some Pdo_No));
   (0x1C81, mkObjectEntry (Obj_Variable (OV_OctetString (replicate 32 0))) "PDO_ErrShort_RX_OSTR"
     Cat_Optional (Some ReadWrite) (Some (OV_OctetString (replicate 32 0))) None (Some Pdo_No));
   (0x1F8C, mkObjectEntry (Obj_Variable (OV_Unsigned8 0)) "NMT_CurrNMTState_U8"
     Cat_Mandatory (Some ReadOnly) (Some (OV_Unsigned8 0)) None (Some Pdo_No))].

Section Init.
Context {S : Type} `{ObjectDictionaryStorage S}.
Implicit Types od : ObjectDictionary S.

(** The macro [insert_if_missing!]. *)
Definition insert_if_missing od (ie : Z * ObjectEntry) : ObjectDictionary S :=
  match entries od !! fst ie with
  | None => insert_entry od (fst ie) (snd ie)
  | Some _ => od
  end.

Definition populate_protocol_objects od : ObjectDictionary S :=
  foldl insert_if_missing od protocol_objects.

Definition contains_key od (index : Z) : bool := bool_decide (is_Some (entries od !! index)).

Definition COMMON_MANDATORY_OBJECTS : list Z := [0x1000; 0x1018; 0x1F82].
Definition MN_MANDATORY_OBJECTS : list Z := [0x1006; 0x1F81; 0x1F89].
Definition CN_MANDATORY_OBJECTS : list Z := [0x1F93; 0x1F99].

Definition validate_mandatory_objects od (is_mn : bool) : res unit :=
  if negb (forallb (contains_key od) COMMON_MANDATORY_OBJECTS) then
    Err (ValidationError "Missing common mandatory object")
  else if is_mn then
    if negb (forallb (contains_key od) MN_MANDATORY_OBJECTS) then
      Err (ValidationError "Missing MN-specific mandatory object")
    else Ok tt
  else
    if negb (forallb (contains_key od) CN_MANDATORY_OBJECTS) then
      Err (ValidationError "Missing CN-specific mandatory object")
    else Ok tt.

(** ** Start-up ([od/storage.rs]) *)
Definition key_order : relation (Z * Z) :=
  fun a b => fst a < fst b \/ (fst a = fst b /\ snd a <= snd b).
#[export] Instance key_order_dec : RelDecision key_order.
Proof. intros a b. unfold key_order. apply _. Defined.

(** The loop over the stored parameters: one that cannot be written is skipped. *)
Definition restore_stored od (stored : list ((Z * Z) * ObjectValue)) : ObjectDictionary S :=
  foldl (fun od kv => fst (write_internal od (fst (fst kv)) (snd (fst kv)) (snd kv) false)) od stored.

(** Steps 2 and 3 of [storage::init], on the populated dictionary. *)
Definition init_storage od : ObjectDictionary S * res unit :=
  match storage od with
  | None => (od, Ok tt)
  | Some s =>
      if restore_defaults_requested s then
        let '(s, r) := clear s in
        let od := set_storage od s in
        match r with
        | Err e => (od, Err e)
        | Ok _ => let '(s, r) := clear_restore_defaults_flag s in (set_storage od s, r)
        end
      else
        let '(s, r) := load s in
        let od := set_storage od s in
        match r with
        | Err e => (od, Err e)
        | Ok stored_params => (restore_stored od (btree_items key_order stored_params), Ok tt)
        end
  end.

Definition init od : ObjectDictionary S * res unit := init_storage (populate_protocol_objects od).
End Init.

(** ** Default dictionaries ([od/utils.rs]) *)
Definition default_device_name : bytes :=
  [112; 111; 119; 101; 114; 108; 105; 110; 107; 45; 114; 115; 32; 67; 78].

Definition diagnostic_objects : list (Z * ObjectEntry) :=
  [(0x1101, mkObjectEntry (Obj_Record [OV_Unsigned32 0; OV_Unsigned32 0; OV_Unsigned32 0;
       OV_Unsigned32 0; OV_Unsigned32 0; OV_Unsigned32 0; OV_Unsigned32 0; OV_Unsigned32 0])
       "DIA_NMTTelegrCount_REC"
     Cat_Optional (Some ReadOnly) None None (Some Pdo_No));
   (0x1102, mkObjectEntry (Obj_Record [OV_Unsigned32 0; OV_Unsigned32 0; OV_Unsigned32 0;
       OV_Unsigned32 0; OV_Unsigned32 0; OV_Unsigned32 0; OV_Unsigned32 0])
       "DIA_ERRStatistics_REC"
     Cat_Optional (Some ReadOnly) None None (Some Pdo_No))].

Definition cn_objects (node_id : NodeId) (cn_flags : Z) : list (Z * ObjectEntry) :=
  [(0x1000, mkObjectEntry (Obj_Variable (OV_Unsigned32 0x000F0191)) "NMT_DeviceType_U32"
     Cat_Mandatory (Some Constant) None None None);
   (0x1001, mkObjectEntry (Obj_Variable (OV_Unsigned8 0)) "NMT_ErrorRegister_U8"
     Cat_Mandatory (Some ReadOnly) (Some (OV_Unsigned8 0)) None (Some Pdo_Optional));
   (0x1006, mkObjectEntry (Obj_Variable (OV_Unsigned32 20000)) "NMT_CycleLen_U32"
     Cat_Mandatory (Some ReadWrite) None None None);
   (0x1008, mkObjectEntry (Obj_Variable (OV_VisibleString default_device_name))
       "NMT_ManufactDevName_VS"
     Cat_Optional (Some Constant) None None None);
   (0x1010, mkObjectEntry (Obj_Record [OV_Unsigned32 0; OV_Unsigned32 0; OV_Unsigned32 0;
       OV_Unsigned32 0]) "NMT_StoreParam_REC"
     Cat_Optional (Some ReadWrite) None None None);
   (0x1011, mkObjectEntry (Obj_Record [OV_Unsigned32 0; OV_Unsigned32 0; OV_Unsigned32 0;
       OV_Unsigned32 0]) "NMT_RestoreParam_REC"
     Cat_Optional (Some ReadWrite) None None None);
   (0x1018, mkObjectEntry (Obj_Record [OV_Unsigned32 0x12345678; OV_Unsigned32 0x00000001;
       OV_Unsigned32 0x00010000; OV_Unsigned32 0xABCDEF01]) "NMT_IdentityObject_REC"
     Cat_Mandatory (Some Constant) None None None);
   (0x1F82, mkObjectEntry (Obj_Variable (OV_Unsigned32 cn_flags)) "NMT_FeatureFlags_U32"
     Cat_Mandatory (Some Constant) None None None);
   (0x1F93, mkObjectEntry (Obj_Record [OV_Unsigned8 node_id; OV_Boolean 0]) "NMT_EPLNodeID_REC"
     Cat_Mandatory (Some ReadWrite) None None None);
   (0x1C14, mkObjectEntry (Obj_Variable (OV_Unsigned32 100000)) "DLL_CNLossOfSocTolerance_U32"
     Cat_Mandatory (Some ReadWrite) None None None);
   (0x1F99, mkObjectEntry (Obj_Variable (OV_Unsigned32 5000000)) "NMT_CNBasicEthernetTimeout_U32"
     Cat_Mandatory (Some ReadWrite) None None None)].

Definition mn_objects (mn_flags : Z) : list (Z * ObjectEntry) :=
  [(0x1F82, mkObjectEntry (Obj_Variable (OV_Unsigned32 mn_flags)) "NMT_FeatureFlags_U32"
     Cat_Mandatory (Some Constant) None None None);
   (0x1F80, mkObjectEntry (Obj_Variable (OV_Unsigned32 0)) "NMT_StartUp_U32"
     Cat_Mandatory (Some ReadWrite) None None None);
   (0x1F81, mkObjectEntry (Obj_Array (replicate 254 (OV_Unsigned32 0))) "NMT_NodeAssignment_AU32"
     Cat_Mandatory (Some ReadWrite) None None None);
   (0x1F89, mkObjectEntry (Obj_Record [OV_Unsigned32 1000000; OV_Unsigned32 500000; OV_Unsigned32
       500000; OV_Unsigned32 500000; OV_Unsigned32 500000; OV_Unsigned32 500000; OV_Unsigned32
       500000; OV_Unsigned32 500000; OV_Unsigned32 500000]) "NMT_BootTime_REC"
     Cat_Mandatory (Some ReadWrite) None None None);
   (0x1F84, mkObjectEntry (Obj_Array (replicate 254 (OV_Unsigned32 0))) "NMT_MNNodeList_AU32"
     Cat_Mandatory (Some ReadWrite) None None None);
   (0x1F85, mkObjectEntry (Obj_Array (replicate 254 (OV_Unsigned32 0))) "NMT_MNVendorIdList_AU32"
     Cat_Mandatory (Some ReadWrite) None None None);
   (0x1F86, mkObjectEntry (Obj_Array (replicate 254 (OV_Unsigned32 0))) "NMT_MNProductCodeList_AU32"
     Cat_Mandatory (Some ReadWrite) None None None);
   (0x1F87, mkObjectEntry (Obj_Array (replicate 254 (OV_Unsigned32 0))) "NMT_MNRevisionNoList_AU32"
     Cat_Mandatory (Some ReadWrite) None None None);
   (0x1F8D, mkObjectEntry (Obj_Array (replicate 254 (OV_Unsigned16 0)))
       "DLL_MNPResPayloadLimitList_AU16"
     Cat_Mandatory (Some ReadWrite) None None None);
   (0x1F92, mkObjectEntry (Obj_Array (replicate 254 (OV_Unsigned32 100000)))
       "DLL_MNPResTimeOut_AU32"
     Cat_Mandatory (Some ReadWrite) None None None)].

Section Defaults.
Context {S : Type}.

(** Consecutive [od.insert] calls. *)
Definition insert_all (od : ObjectDictionary S) (l : list (Z * ObjectEntry)) : ObjectDictionary S :=
  foldl (fun od ie => insert_entry od (fst ie) (snd ie)) od l.

Definition add_diagnostic_objects (od : ObjectDictionary S) : ObjectDictionary S :=
  insert_all od diagnostic_objects.

Definition new_cn_default (node_id : NodeId) : res (ObjectDictionary S) :=
  let od := ObjectDictionary_new None in
  let cn_flags := FeatureFlags.bitor FeatureFlags.ISOCHRONOUS FeatureFlags.SDO_ASND in
  let od := insert_all od (cn_objects node_id cn_flags) in
  Ok (add_diagnostic_objects od).

Definition new_mn_default (node_id : NodeId) : res (ObjectDictionary S) :=
  let? od := new_cn_default node_id in
  let mn_flags := FeatureFlags.bitor FeatureFlags.ISOCHRONOUS FeatureFlags.SDO_ASND in
  Ok (insert_all od (mn_objects mn_flags)).
End Defaults.

(** ** What is stored *)
Section StoreFacts.
Context {S : Type} `{ObjectDictionaryStorage S}.
Implicit Types od : ObjectDictionary S.

Lemma insert_params_app l1 l2 m : insert_params (l1 ++ l2) m = insert_params l2 (insert_params l1 m).
Proof. apply foldl_app. Qed.

Lemma insert_params_lookup l k v :
  NoDup l.*1 -> insert_params l ∅ !! k = Some v <-> (k, v) ∈ l.
Proof.
  intros Hl. assert (insert_params l ∅ = list_to_map (reverse l)) as ->.
  { induction l as [|[k' v'] l IH] using rev_ind; [done|].
    rewrite insert_params_app, reverse_snoc. simpl. rewrite IH; [done|].
    rewrite fmap_app in Hl. by apply NoDup_app in Hl as [? _]. }
  rewrite <- elem_of_list_to_map.
  - apply elem_of_reverse.
  - by rewrite fmap_reverse, reverse_Permutation.
Qed.

(** The parameters of all entries, in the order they are collected. *)
Definition all_params (list_to_save : Z) (items : list (Z * ObjectEntry))
    : list ((Z * Z) * ObjectValue) :=
  concat (map (fun ie => if should_save list_to_save (fst ie) && is_stored (snd ie)
                         then entry_params (fst ie) (snd ie) else []) items).

Lemma storable_params_all od n :
  storable_params od n = insert_params (all_params n (btree_items Z.le (entries od))) ∅.
Proof.
  unfold storable_params, all_params. generalize (∅ : Params) as m.
  induction (btree_items Z.le (entries od)) as [|ie l IH]; intros m; [done|].
  simpl. rewrite insert_params_app, IH. by case_if.
Qed.

Definition small (e : ObjectEntry) : Prop := (length (object_values (object e)) <= 254)%nat.

(** The values an entry stores are the ones that can be read, counts apart. *)
Lemma entry_params_read i e j s v :
  small e -> (j, s, v) ∈ entry_params i e <->
  j = i /\ 0 <= s /\ is_count e s = false /\ read_entry e s = Some v.
Proof.
  unfold small, entry_params, is_count, read_entry.
  assert (Hz : forall vs, (length vs <= 254)%nat ->
    (j, s, v) ∈ zip_with (fun k val => (i, u8 (Z.of_nat k + 1), val)) (seq 0 (length vs)) vs <->
    j = i /\ 0 <= s /\ (s =? 0) && true = false /\
      (if s =? 0 then Some (OV_Unsigned8 (u8 (Z.min (len vs) 254))) else vs !! Z.to_nat (s - 1)) = Some v).
  { intros vs Hl. rewrite elem_of_lookup_zip_with. split.
    - intros (k&a&val&Heq&Ha&Hval). apply lookup_seq in Ha as [-> Hk]. simpl in Heq.
      unfold u8 in Heq. rewrite wrap_small in Heq by (unfold in_width; lia). simplify_eq.
      destruct (Z.eqb_spec (Z.of_nat k + 1) 0); [lia|].
      replace (Z.to_nat (Z.of_nat k + 1 - 1)) with k by lia. split_and!; done || lia.
    - intros (->&Hs&Hc&Hv). destruct (Z.eqb_spec s 0); [done|].
      assert (Hk := lookup_lt_Some _ _ _ Hv).
      exists (Z.to_nat (s - 1)), (Z.to_nat (s - 1)), v.
      split_and!; [|by apply lookup_seq|done].
      unfold u8. rewrite wrap_small by (unfold in_width; lia). do 2 f_equal. lia. }
  destruct (object e) as [x|vs|vs]; simpl; intros Hl; [|by apply Hz|by apply Hz].
  rewrite list_elem_of_singleton. rewrite andb_false_r. split.
  - intros Heq. simplify_eq. simpl. split_and!; done.
  - intros (->&Hs&_&Hr). destruct (Z.eqb_spec s 0); by simplify_eq.
Qed.

Lemma all_params_elem n items j s v :
  (j, s, v) ∈ all_params n items <->
  exists i e, (i, e) ∈ items /\ should_save n i = true /\ is_stored e = true /\
              (j, s, v) ∈ entry_params i e.
Proof.
  unfold all_params. rewrite list_elem_of_In, in_concat. split.
  - intros (l&Hl&Hin). apply in_map_iff in Hl as ([i e]&<-&Hie). simpl in Hin.
    destruct (should_save n i) eqn:E1, (is_stored e) eqn:E2; try done.
    exists i, e. by rewrite !list_elem_of_In.
  - intros (i&e&Hie&H1&H2&Hin). exists (entry_params i e).
    split; [|by apply list_elem_of_In]. apply in_map_iff. exists (i, e). simpl.
    rewrite H1, H2. split; [done|]. by apply list_elem_of_In.
Qed.

Lemma entry_params_NoDup i e : small e -> NoDup (entry_params i e).*1.
Proof.
  unfold small, entry_params.
  assert (Hz : forall vs : list ObjectValue, (length vs <= 254)%nat ->
    NoDup (zip_with (fun k val => (i, u8 (Z.of_nat k + 1), val)) (seq 0 (length vs)) vs).*1).
  { intros vs Hl.
    replace (_.*1) with ((fun k => (i, u8 (Z.of_nat k + 1))) <$> seq 0 (length vs)).
    - apply NoDup_fmap_2_strong; [|apply NoDup_seq].
      intros x y Hx Hy. apply elem_of_seq in Hx, Hy. unfold u8.
      rewrite !wrap_small by (unfold in_width; lia). intros; simplify_eq. lia.
    - clear Hl. generalize 0%nat as a. induction vs as [|w vs IH]; intros a; [done|].
      simpl. by f_equal. }
  destruct (object e); simpl; intros; [apply NoDup_singleton|by apply Hz|by apply Hz].
Qed.

Lemma all_params_NoDup n items :
  NoDup items.*1 -> Forall (fun ie => small (snd ie)) items -> NoDup (all_params n items).*1.
Proof.
  induction items as [|[i e] items IH]; intros Hnd Hsm; [apply NoDup_nil_2|].
  inversion Hnd as [|? ? Hi Hnd']; subst. inversion Hsm as [|? ? He Hsm']; subst. simpl in *.
  unfold all_params. simpl. fold (all_params n items). rewrite fmap_app. apply NoDup_app. split_and!.
  - case_if; [by apply entry_params_NoDup|apply NoDup_nil_2].
  - intros [j s] Hin Hin2. apply list_elem_of_fmap in Hin as ([[j1 s1] v]&Heq&Hv).
    apply list_elem_of_fmap in Hin2 as ([[j2 s2] v2]&Heq2&Hv2). simpl in *. simplify_eq.
    apply all_params_elem in Hv2 as (i2&e2&Hie&_&_&Hp2).
    destruct (_ && _); [|by inversion Hv].
    apply entry_params_read in Hv as (->&_); [|done].
    assert (small e2) by (rewrite Forall_forall in Hsm'; exact (Hsm' _ Hie)).
    apply entry_params_read in Hp2 as (->&_); [|done].
    apply Hi. by apply (list_elem_of_fmap_2 fst) in Hie.
  - by apply IH.
Qed.

(** The stored parameters, in terms of what can be read. *)
Lemma storable_params_lookup od n j s v :
  map_Forall (fun _ e => small e) (entries od) ->
  storable_params od n !! (j, s) = Some v <->
  exists e, entries od !! j = Some e /\ should_save n j = true /\ is_stored e = true /\
            0 <= s /\ is_count e s = false /\ read_entry e s = Some v.
Proof.
  intros Hsm. rewrite storable_params_all, insert_params_lookup.
  - rewrite all_params_elem. split.
    + intros (i&e&Hie&H1&H2&Hin). apply elem_of_btree_items in Hie.
      apply entry_params_read in Hin as (->&?&?&?); [|by apply (Hsm i)].
      exists e. by split_and!.
    + intros (e&He&?&?&?&?&?). exists j, e. rewrite elem_of_btree_items.
      split_and!; try done. apply entry_params_read; [by apply (Hsm j)|done].
  - apply all_params_NoDup; [apply NoDup_btree_items|].
    apply Forall_forall. intros [i e] Hie. apply elem_of_btree_items in Hie. by apply (Hsm i).
Qed.

(** *** Reading the stored parameters back *)

(** The shape of a dictionary determines the type of what is read. *)
Definition entry_type_at (sh : Z * list Z) (s : Z) : option Z :=
  match sh with
  | (0, [d]) => if s =? 0 then Some d else None
  | (_, ds) => if s =? 0 then Some 5 else ds !! Z.to_nat (s - 1)
  end.

Lemma read_entry_type e s : discriminant <$> read_entry e s = entry_type_at (object_shape (object e)) s.
Proof.
  unfold read_entry. destruct (object e); simpl; destruct (s =? 0); simpl; try done.
  all: by rewrite list_lookup_fmap.
Qed.

Lemma is_count_shape e1 e2 s :
  object_shape (object e1) = object_shape (object e2) -> is_count e1 s = is_count e2 s.
Proof. unfold is_count. by destruct (object e1), (object e2). Qed.

Lemma shape_lookup od1 od2 i e1 :
  shape od1 = shape od2 -> entries od1 !! i = Some e1 ->
  exists e2, entries od2 !! i = Some e2 /\ object_shape (object e1) = object_shape (object e2).
Proof.
  intros Hs He. assert (Hl : shape od1 !! i = shape od2 !! i) by (by rewrite Hs).
  unfold shape in Hl. rewrite !lookup_fmap, He in Hl. simpl in Hl.
  destruct (entries od2 !! i) as [e2|]; [|done]. simpl in Hl. simplify_eq. by exists e2.
Qed.

(** An internal write of a value of the right type succeeds. *)
Lemma write_internal_ok od i s v e w :
  entries od !! i = Some e -> is_count e s = false -> read_entry e s = Some w ->
  discriminant w = discriminant v -> snd (write_internal od i s v false) = Ok tt.
Proof.
  intros He Hc Hr Hd. unfold write_internal. rewrite He.
  unfold write_entry. simpl. unfold is_count, read_entry in *.
  destruct (object e) as [x|vs|vs]; simpl in *; destruct (s =? 0); simpl in *; simplify_eq; try done.
  - by rewrite Hd, Z.eqb_refl.
  - by rewrite Hr, Hd, Z.eqb_refl.
  - by rewrite Hr, Hd, Z.eqb_refl.
Qed.

Definition storable_at od (kv : (Z * Z) * ObjectValue) : Prop :=
  0 <= snd (fst kv) /\
  exists e w, entries od !! fst (fst kv) = Some e /\ is_count e (snd (fst kv)) = false /\
    read_entry e (snd (fst kv)) = Some w /\ discriminant w = discriminant (snd kv).

Lemma storable_at_shape od1 od2 kv :
  shape od1 = shape od2 -> storable_at od1 kv -> storable_at od2 kv.
Proof.
  intros Hs (H0&e&w&He&Hc&Hr&Hd). split; [done|].
  destruct (shape_lookup od1 od2 _ _ Hs He) as (e2&He2&Hsh).
  pose proof (read_entry_type e (snd (fst kv))) as H1.
  rewrite Hsh, <- read_entry_type, Hr in H1. simpl in H1.
  destruct (read_entry e2 _) as [w2|] eqn:Hr2; [|done]. simpl in H1. simplify_eq.
  exists e2, w2. split_and!; try done; [|congruence]. by rewrite <- (is_count_shape e e2).
Qed.

(** After the loop every stored value is in place and nothing else moved. *)
Lemma restore_stored_spec l : forall od,
  NoDup l.*1 -> Forall (storable_at od) l ->
  let od' := restore_stored od l in
  storage od' = storage od /\ shape od' = shape od /\
  (forall i s v, (i, s, v) ∈ l -> read od' i s = Some v) /\
  (forall i s, 0 <= s -> (i, s) ∉ l.*1 -> read od' i s = read od i s).
Proof.
  induction l as [|[[i s] v] l IH]; intros od Hnd Hl.
  { split_and!; try done. intros ? ? ? Hin. by inversion Hin. }
  inversion Hnd as [|? ? Hi Hnd']; subst. inversion Hl as [|? ? Hk Hl']; subst. simpl in *.
  destruct Hk as (H0&e&w&He&Hc&Hr&Hd). simpl in *.
  pose proof (write_internal_ok od i s v e w He Hc Hr Hd) as Hok.
  pose proof (write_internal_shape od i s v false) as Hsh.
  destruct (write_internal od i s v false) as [od1 r] eqn:Ew. simpl in *. subst r.
  destruct (write_internal_effect _ _ _ _ _ _ _ H0 Ew) as (Hst&_&Heff).
  destruct (Heff eq_refl) as (Hoth&e'&He'&Hnew). simplify_eq. rewrite Hc in Hnew.
  destruct (IH od1 Hnd') as (IHst&IHsh&IHin&IHout).
  { eapply Forall_impl; [exact Hl'|]. intros kv. by apply storable_at_shape. }
  split_and!; [congruence|congruence| |].
  - intros j t x Hin. apply elem_of_cons in Hin as [Hin|Hin]; [|by apply IHin]. simplify_eq.
    by rewrite IHout.
  - intros j t Ht Hin. apply not_elem_of_cons in Hin as [Hne Hin].
    rewrite IHout by done. by apply Hoth.
Qed.
End StoreFacts.

Lemma populate_storage {S} (od : ObjectDictionary S) :
  storage (populate_protocol_objects od) = storage od.
Proof.
  unfold populate_protocol_objects. generalize protocol_objects as l. intros l. revert od.
  induction l as [|ie l IH]; intros od; [done|]. simpl. rewrite IH.
  unfold insert_if_missing. by case_match.
Qed.

(** Populating never replaces an entry of the firmware. *)
Lemma populate_keeps {S} (od : ObjectDictionary S) i e :
  entries od !! i = Some e -> entries (populate_protocol_objects od) !! i = Some e.
Proof.
  unfold populate_protocol_objects. generalize protocol_objects as l. intros l. revert od.
  induction l as [|ie l IH]; intros od He; [done|]. simpl. apply IH.
  unfold insert_if_missing. case_match; [done|]. simpl.
  rewrite lookup_insert_ne; [done|]. intros Heq. congruence.
Qed.

Definition stored_in {S} (od : ObjectDictionary S) (i : Z) : bool :=
  match entries od !! i with Some e => is_stored e | None => false end.

Lemma init_eq {S} `{ObjectDictionaryStorage S} (od : ObjectDictionary S) :
  init od = init_storage (populate_protocol_objects od).
Proof. done. Qed.

Lemma save_command {S} `{StorageLaws S} (od od1 : ObjectDictionary S) s :
  write od 0x1010 1 (OV_VisibleString ascii_save) = (od1, Ok tt) -> storage od1 = Some s ->
  contents s = storable_params od 1.
Proof.
  unfold write. simpl. unfold store_parameters. simpl.
  destruct (storage od) as [s0|]; [|done]. destruct (save s0 _) as [s1 r] eqn:Es.
  intros; simplify_eq/=. by destruct (save_contents _ _ _ Es).
Qed.

Definition restore_pending {S} `{ObjectDictionaryStorage S} (od : ObjectDictionary S) : bool :=
  match storage od with Some s => restore_defaults_requested s | None => false end.

Lemma save_command_flag {S} `{StorageLaws S} (od od1 : ObjectDictionary S) s :
  write od 0x1010 1 (OV_VisibleString ascii_save) = (od1, Ok tt) -> storage od1 = Some s ->
  restore_defaults_requested s = restore_pending od.
Proof.
  unfold write, restore_pending. simpl. unfold store_parameters. simpl.
  destruct (storage od) as [s0|]; [|done]. destruct (save s0 _) as [s1 r] eqn:Es.
  intros; simplify_eq/=. by destruct (save_contents _ _ _ Es).
Qed.

Lemma restore_stored_shape {S} `{ObjectDictionaryStorage S} l (od : ObjectDictionary S) :
  shape (restore_stored od l) = shape od.
Proof.
  revert od. induction l as [|kv l IH]; intros od; [done|]. simpl.
  etransitivity; [apply IH|]. apply write_internal_shape.
Qed.

(** The element count only depends on the shape. *)
Lemma read_count_shape e1 e2 s :
  object_shape (object e1) = object_shape (object e2) -> is_count e1 s = true ->
  read_entry e1 s = read_entry e2 s.
Proof.
  unfold is_count, read_entry, len. intros Hs Hc. destruct (s =? 0); [|done].
  assert (Hl : forall vs ws, map discriminant vs = map discriminant ws -> length vs = length ws).
  { intros vs ws Hm. by rewrite <- !(length_map discriminant), Hm. }
  destruct (object e1), (object e2); simpl in *; simplify_eq; by erewrite Hl.
Qed.

(** Booting with stored parameters, as the reads see it. *)
Lemma init_storage_restores {S} `{StorageLaws S} (od od0 od2 : ObjectDictionary S) s :
  map_Forall (fun _ e => small e) (entries od) ->
  storage od0 = Some s -> contents s = storable_params od 1 ->
  restore_defaults_requested s = false -> shape od0 = shape od ->
  init_storage od0 = (od2, Ok tt) ->
  forall i sub, 0 <= sub ->
    read od2 i sub = if stored_in od i then read od i sub else read od0 i sub.
Proof.
  intros Hsm Hst Hc Hflag Hsh Hinit i sub Hsub.
  unfold init_storage in Hinit. rewrite Hst, Hflag in Hinit. destruct (load s) as [s' [p|]] eqn:El; [|done].
  simplify_eq. rewrite (load_contents _ _ _ El), Hc.
  set (l := btree_items key_order (storable_params od 1)).
  assert (Hl : Forall (storable_at (set_storage od0 s')) l).
  { apply Forall_forall. intros [[j t] v] Hin. apply elem_of_btree_items in Hin.
    apply storable_params_lookup in Hin as (e&He&_&_&Ht&Hcnt&Hr); [|done].
    apply (storable_at_shape od); [by rewrite <- Hsh|]. split; [done|].
    exists e, v. by split_and!. }
  destruct (restore_stored_spec l _ (NoDup_btree_items _ _) Hl) as (_&_&Hin&Hout).
  unfold stored_in. destruct (entries od !! i) as [e|] eqn:Ee.
  - destruct (is_stored e) eqn:Es; [destruct (is_count e sub) eqn:Ecnt;
      [|destruct (read_entry e sub) as [v|] eqn:Er]|].
    + (* the element count *)
      rewrite Hout; [|done|].
      * destruct (shape_lookup od od0 i e (eq_sym Hsh) Ee) as (e2&He2&Hse).
        unfold read. simpl. rewrite Ee, He2. simpl. symmetry. by apply read_count_shape.
      * intros Hk. apply list_elem_of_fmap in Hk as ([k v]&Hke&Hk). simpl in Hke. subst k.
        apply elem_of_btree_items, storable_params_lookup in Hk as (e'&?&_&_&_&?&_); [|done].
        congruence.
    + rewrite (Hin i sub v); [by unfold read; rewrite Ee|].
      apply elem_of_btree_items, storable_params_lookup; [done|]. by exists e.
    + rewrite Hout; [|done|].
      * unfold read. rewrite Ee. simpl. rewrite Er.
        destruct (shape_lookup od od0 i e (eq_sym Hsh) Ee) as (e2&He2&Hse).
        rewrite He2. simpl. pose proof (read_entry_type e sub) as H1.
        rewrite Er, Hse, <- read_entry_type in H1. by destruct (read_entry e2 sub).
      * intros Hk. apply list_elem_of_fmap in Hk as ([k v]&Hke&Hk). simpl in Hke. subst k.
        apply elem_of_btree_items, storable_params_lookup in Hk as (e'&?&_&_&_&_&?); [|done].
        congruence.
    + apply Hout; [done|]. intros Hk.
      apply list_elem_of_fmap in Hk as ([k v]&Hke&Hk). simpl in Hke. subst k.
      apply elem_of_btree_items, storable_params_lookup in Hk as (e'&?&_&?&_); [|done]. congruence.
  - apply Hout; [done|]. intros Hk.
    apply list_elem_of_fmap in Hk as ([k v]&Hke&Hk). simpl in Hke. subst k.
    apply elem_of_btree_items, storable_params_lookup in Hk as (e'&?&_); [|done]. congruence.
Qed.

(** Booting with a pending restore request. *)
Lemma init_storage_clears {S} `{StorageLaws S} (od0 od2 : ObjectDictionary S) s :
  storage od0 = Some s -> restore_defaults_requested s = true -> init_storage od0 = (od2, Ok tt) ->
  entries od2 = entries od0 /\
  exists s2, storage od2 = Some s2 /\ contents s2 = ∅ /\ restore_defaults_requested s2 = false.
Proof.
  intros Hst Hflag Hinit. unfold init_storage in Hinit. rewrite Hst, Hflag in Hinit.
  destruct (clear s) as [s1 [[]|]] eqn:Ec; [|done].
  destruct (clear_restore_defaults_flag s1) as [s2 r] eqn:Ef. simplify_eq.
  split; [done|]. exists s2. split; [done|].
  destruct (clear_contents _ _ Ec) as [H1 _]. destruct (clear_flag _ _ Ef) as [H2 ?].
  split; [congruence|done].
Qed.

(** ** Properties *)

(** C28: a dictionary saved through 0x1010/1 comes back at the next boot of the
    same firmware.  The dictionary has no object of more than 254 values
    ([small]), the firmware has the same objects, of the same types and counts,
    and the boot succeeds.  Then, if no restore of the defaults is pending,
    every parameter whose access type is stored reads as it did when it was
    saved, and every other value as the firmware initialises it; if one is
    pending (saving does not withdraw it) the saved values are lost: everything
    reads as the firmware initialises it, and the storage is empty. *)
Theorem stored_parameters_survive_boot {S} `{StorageLaws S} (od od1 od2 : ObjectDictionary S) s fw :
  map_Forall (fun _ e => small e) (entries od) ->
  write od 0x1010 1 (OV_VisibleString ascii_save) = (od1, Ok tt) -> storage od1 = Some s ->
  shape (populate_protocol_objects (mkOD fw (Some s))) = shape od ->
  init (mkOD fw (Some s)) = (od2, Ok tt) ->
  restore_defaults_requested s = restore_pending od /\
  if restore_pending od
  then entries od2 = entries (populate_protocol_objects (mkOD fw (Some s))) /\
       exists s2, storage od2 = Some s2 /\ contents s2 = ∅ /\ restore_defaults_requested s2 = false
  else forall i sub, 0 <= sub ->
    read od2 i sub = if stored_in od i then read od i sub
                     else read (populate_protocol_objects (mkOD fw (Some s))) i sub.
Proof.
  intros Hsm Hsave Hst Hsh Hinit. rewrite init_eq in Hinit.
  pose proof (save_command_flag od od1 s Hsave Hst) as Hf. split; [done|].
  destruct (restore_pending od).
  - apply (init_storage_clears (populate_protocol_objects (mkOD fw (Some s))) od2 s); try done.
    by rewrite populate_storage.
  - apply (init_storage_restores od _ od2 s Hsm); try done.
    + by rewrite populate_storage.
    + by apply (save_command od od1).
Qed.

Definition demo_boot : ObjectDictionary MemStorage :=
  populate_protocol_objects (mkOD ∅ (Some (mkMemStorage ∅ false))).
Definition demo_saved : ObjectDictionary MemStorage :=
  fst (write demo_boot 0x1300 0 (OV_Unsigned32 9000)).

Lemma stored_parameters_survive_boot_witness :
  exists s od2, storage (fst (write demo_saved 0x1010 1 (OV_VisibleString ascii_save))) = Some s /\
    init (mkOD ∅ (Some s)) = (od2, Ok tt) /\ read od2 0x1300 0 = Some (OV_Unsigned32 9000).
Proof.
  destruct (storage (fst (write demo_saved 0x1010 1 (OV_VisibleString ascii_save)))) as [s|] eqn:Es;
    [|vm_compute in Es; discriminate Es].
  exists s, (fst (init (mkOD ∅ (Some s)))).
  assert (Hi : init (mkOD ∅ (Some s)) = (fst (init (mkOD ∅ (Some s))), Ok tt)).
  { vm_compute in Es. injection Es as <-. vm_compute. reflexivity. }
  split; [reflexivity|]. split; [exact Hi|].
  pose proof (stored_parameters_survive_boot demo_saved
    (fst (write demo_saved 0x1010 1 (OV_VisibleString ascii_save)))
    (fst (init (mkOD ∅ (Some s)))) s ∅) as Hb.
  assert (Hp : restore_pending demo_saved = false) by (vm_compute; reflexivity).
  rewrite Hp in Hb. rewrite (fun a b c d e => proj2 (Hb a b c d e)); try exact Es; try exact Hi.
  - vm_compute. reflexivity.
  - apply (bool_decide_unpack (map_Forall (fun _ e => (length (object_values (object e)) <= 254)%nat) _)).
    vm_compute. exact I.
  - vm_compute. reflexivity.
  - vm_compute in Es. injection Es as <-. vm_compute. reflexivity.
  - lia.
Defined.

(** a restore requested through 0x1011 takes effect at the next boot: the
    dictionary is the firmware's with the protocol objects added, and the
    storage is left empty with the request cleared. *)
Theorem restore_defaults_takes_effect_at_boot {S} `{StorageLaws S}
    (od od1 od2 : ObjectDictionary S) k s fw :
  write od 0x1011 k (OV_VisibleString ascii_load) = (od1, Ok tt) -> storage od1 = Some s ->
  init (mkOD fw (Some s)) = (od2, Ok tt) ->
  entries od1 = entries od /\
  entries od2 = entries (populate_protocol_objects (mkOD fw (Some s))) /\
  exists s2, storage od2 = Some s2 /\ contents s2 = ∅ /\ restore_defaults_requested s2 = false.
Proof.
  intros Hw Hst Hinit.
  assert (Hflag : restore_defaults_requested s = true).
  { unfold write in Hw. cbn -[restore_defaults] in Hw. case_match; [|done].
    unfold restore_defaults in Hw. case_match; [done|]. destruct (storage od) as [s0|]; [|done].
    destruct (request_restore_defaults s0) as [s1 r] eqn:Er. simplify_eq/=.
    by destruct (request_flag _ _ Er). }
  split; [by rewrite <- (write_command_entries od 0x1011 k (OV_VisibleString ascii_load)), Hw|].
  rewrite init_eq in Hinit.
  apply (init_storage_clears (populate_protocol_objects (mkOD fw (Some s))) od2 s); try done.
  by rewrite populate_storage.
Qed.

Lemma restore_defaults_takes_effect_at_boot_witness :
  exists od2, init (mkOD ∅ (Some (mkMemStorage {[ (0x1300, 0) := OV_Unsigned32 1 ]} true))) = (od2, Ok tt) /\
    exists s2, storage od2 = Some s2 /\ contents s2 = ∅ /\ restore_defaults_requested s2 = false.
Proof.
  eexists. split; [reflexivity|].
  refine (proj2 (proj2 (restore_defaults_takes_effect_at_boot
    (mkOD ∅ (Some (mkMemStorage {[ (0x1300, 0) := OV_Unsigned32 1 ]} false))) _ _ 1
    (mkMemStorage {[ (0x1300, 0) := OV_Unsigned32 1 ]} true) ∅ _ _ _))); reflexivity.
Defined.

(** The default dictionaries have what their node type must have. *)
Example default_dictionaries_valid :
  match @new_cn_default MemStorage 42, @new_mn_default MemStorage 240 with
  | Ok cn, Ok mn => (validate_mandatory_objects cn false, validate_mandatory_objects mn true)
  | _, _ => (Err NotReady, Err NotReady)
  end = (Ok tt, Ok tt).
Proof. vm_compute. reflexivity. Qed.
