(* ===== verification/StatusFrames.v ===== *)
(** * Ident and status responses

    The ASnd payloads of [frame/control/ident_response.rs] and
    [frame/control/status_response.rs]: how they are built from the dictionary,
    written and parsed. *)
From S2P Require Import Prelude Utf8 Types Frames ErrorEntry ObjectDict.

(** ** IdentResponse *)
Definition IDENT_RESPONSE_PAYLOAD_SIZE : nat := 158.
Definition HOSTNAME_OFFSET : nat := 78.
Definition HOSTNAME_SIZE : nat := 32.

Record IdentResponsePayload : Type := mkIdent {
  id_pr : PRFlag; id_rs : Z; id_nmt_state : NmtState; id_epl_version : Z; id_feature_flags : Z;
  id_mtu : Z; id_poll_in_size : Z; id_poll_out_size : Z; id_response_time : Z; id_device_type : Z;
  id_vendor_id : Z; id_product_code : Z; id_revision_number : Z; id_serial_number : Z;
  id_verify_conf_date : Z; id_verify_conf_time : Z; id_app_sw_date : Z; id_app_sw_time : Z;
  id_ip_address : bytes; id_subnet_mask : bytes; id_default_gateway : bytes; id_host_name : bytes
}.

Definition IdentResponsePayload_new {S} (od : ObjectDictionary S) : IdentResponsePayload :=
  {| id_pr := PrioGenericRequest; id_rs := 0;
     id_nmt_state :=
       match read_u8 od 0x1F8C 0 with
       | Some val => match NmtState_try_from val with Ok s => s | Err _ => NmtNotActive end
       | None => NmtNotActive
       end;
     id_epl_version := unwrap_or (read_u8 od 0x1F83 0) 0;
     id_feature_flags := unwrap_or (read_u32 od 0x1F82 0) 0;
     id_mtu := unwrap_or (read_u16 od 0x1F98 8) 0;
     id_poll_in_size := unwrap_or (read_u16 od 0x1F98 4) 0;
     id_poll_out_size := unwrap_or (read_u16 od 0x1F98 5) 0;
     id_response_time := unwrap_or (read_u32 od 0x1F98 3) 0;
     id_device_type := unwrap_or (read_u32 od 0x1000 0) 0;
     id_vendor_id := unwrap_or (read_u32 od 0x1018 1) 0;
     id_product_code := unwrap_or (read_u32 od 0x1018 2) 0;
     id_revision_number := unwrap_or (read_u32 od 0x1018 3) 0;
     id_serial_number := unwrap_or (read_u32 od 0x1018 4) 0;
     id_verify_conf_date := unwrap_or (read_u32 od 0x1020 1) 0;
     id_verify_conf_time := unwrap_or (read_u32 od 0x1020 2) 0;
     id_app_sw_date := unwrap_or (read_u32 od 0x1F52 1) 0;
     id_app_sw_time := unwrap_or (read_u32 od 0x1F52 2) 0;
     id_ip_address := le_bytes 4 (unwrap_or (read_u32 od 0x1E40 2) 0);
     id_subnet_mask := le_bytes 4 (unwrap_or (read_u32 od 0x1E40 3) 0);
     id_default_gateway := le_bytes 4 (unwrap_or (read_u32 od 0x1E40 5) 0);
     id_host_name := match read od 0x1F9A 0 with Some (OV_VisibleString s) => s | _ => [] end |}.

Definition IdentResponsePayload_serialize (p : IdentResponsePayload) (buffer : bytes)
    : bytes * res nat :=
  if (length buffer <? IDENT_RESPONSE_PAYLOAD_SIZE)%nat then (buffer, Err BufferTooShort) else
  let buffer := fill buffer 0 IDENT_RESPONSE_PAYLOAD_SIZE 0 in
  let buffer := put buffer 1 [Z.lor (Z.shiftl (PRFlag_as_u8 (id_pr p)) 3) (id_rs p)] in
  let buffer := put buffer 2 [NmtState_as_u8 (id_nmt_state p)] in
  let buffer := put buffer 4 [id_epl_version p] in
  let buffer := put buffer 6 (le_bytes 4 (id_feature_flags p)) in
  let buffer := put buffer 10 (le_bytes 2 (id_mtu p)) in
  let buffer := put buffer 12 (le_bytes 2 (id_poll_in_size p)) in
  let buffer := put buffer 14 (le_bytes 2 (id_poll_out_size p)) in
  let buffer := put buffer 16 (le_bytes 4 (id_response_time p)) in
  let buffer := put buffer 22 (le_bytes 4 (id_device_type p)) in
  let buffer := put buffer 26 (le_bytes 4 (id_vendor_id p)) in
  let buffer := put buffer 30 (le_bytes 4 (id_product_code p)) in
  let buffer := put buffer 34 (le_bytes 4 (id_revision_number p)) in
  let buffer := put buffer 38 (le_bytes 4 (id_serial_number p)) in
  let buffer := put buffer 50 (le_bytes 4 (id_verify_conf_date p)) in
  let buffer := put buffer 54 (le_bytes 4 (id_verify_conf_time p)) in
  let buffer := put buffer 58 (le_bytes 4 (id_app_sw_date p)) in
  let buffer := put buffer 62 (le_bytes 4 (id_app_sw_time p)) in
  let buffer := put buffer 66 (id_ip_address p) in
  let buffer := put buffer 70 (id_subnet_mask p) in
  let buffer := put buffer 74 (id_default_gateway p) in
  let hostname_bytes := id_host_name p in
  let len := Nat.min (length hostname_bytes) HOSTNAME_SIZE in
  let buffer := put buffer HOSTNAME_OFFSET (take len hostname_bytes) in
  (buffer, Ok IDENT_RESPONSE_PAYLOAD_SIZE).

(** The bytes before the first NUL. *)
Definition cut_nul (l : bytes) : bytes :=
  take (unwrap_or (position (fun b => b =? 0) l) HOSTNAME_SIZE) l.

Definition IdentResponsePayload_deserialize (buffer : bytes) : res IdentResponsePayload :=
  if (length buffer <? IDENT_RESPONSE_PAYLOAD_SIZE)%nat then Err BufferTooShort else
  let octet1 := byte_at buffer 1 in
  let? pr := PRFlag_try_from (Z.shiftr octet1 3) in
  let rs := RSFlag_new (Z.land octet1 7) in
  let? nmt_state := NmtState_try_from (byte_at buffer 2) in
  let hostname_slice := slice buffer HOSTNAME_OFFSET (HOSTNAME_OFFSET + HOSTNAME_SIZE) in
  Ok {| id_pr := pr; id_rs := rs; id_nmt_state := nmt_state;
        id_epl_version := byte_at buffer 4;
        id_feature_flags := le_val (slice buffer 6 10);
        id_mtu := le_val (slice buffer 10 12);
        id_poll_in_size := le_val (slice buffer 12 14);
        id_poll_out_size := le_val (slice buffer 14 16);
        id_response_time := le_val (slice buffer 16 20);
        id_device_type := le_val (slice buffer 22 26);
        id_vendor_id := le_val (slice buffer 26 30);
        id_product_code := le_val (slice buffer 30 34);
        id_revision_number := le_val (slice buffer 34 38);
        id_serial_number := le_val (slice buffer 38 42);
        id_verify_conf_date := le_val (slice buffer 50 54);
        id_verify_conf_time := le_val (slice buffer 54 58);
        id_app_sw_date := le_val (slice buffer 58 62);
        id_app_sw_time := le_val (slice buffer 62 66);
        id_ip_address := slice buffer 66 70;
        id_subnet_mask := slice buffer 70 74;
        id_default_gateway := slice buffer 74 78;
        id_host_name := from_utf8_lossy (cut_nul hostname_slice) |}.

(** The payloads a node can hold. *)
Definition ip_ok (a : bytes) : Prop := length a = 4%nat /\ bytes_ok a.
Definition ident_ok (p : IdentResponsePayload) : Prop :=
  0 <= id_rs p <= 7 /\ byte_ok (id_epl_version p) /\ in_width 32 (id_feature_flags p) /\
  in_width 16 (id_mtu p) /\ in_width 16 (id_poll_in_size p) /\ in_width 16 (id_poll_out_size p) /\
  in_width 32 (id_response_time p) /\ in_width 32 (id_device_type p) /\
  in_width 32 (id_vendor_id p) /\ in_width 32 (id_product_code p) /\
  in_width 32 (id_revision_number p) /\ in_width 32 (id_serial_number p) /\
  in_width 32 (id_verify_conf_date p) /\ in_width 32 (id_verify_conf_time p) /\
  in_width 32 (id_app_sw_date p) /\ in_width 32 (id_app_sw_time p) /\
  ip_ok (id_ip_address p) /\ ip_ok (id_subnet_mask p) /\ ip_ok (id_default_gateway p).

Definition set_host_name (p : IdentResponsePayload) (h : bytes) : IdentResponsePayload :=
  mkIdent (id_pr p) (id_rs p) (id_nmt_state p) (id_epl_version p) (id_feature_flags p) (id_mtu p)
    (id_poll_in_size p) (id_poll_out_size p) (id_response_time p) (id_device_type p)
    (id_vendor_id p) (id_product_code p) (id_revision_number p) (id_serial_number p)
    (id_verify_conf_date p) (id_verify_conf_time p) (id_app_sw_date p) (id_app_sw_time p)
    (id_ip_address p) (id_subnet_mask p) (id_default_gateway p) h.

(** ** StatusResponse *)
Definition STATIC_ERROR_BIT_FIELD_SIZE : nat := 8.
Definition STATUS_PAYLOAD_HEADER_SIZE : nat := 14.
Definition ERROR_ENTRY_SIZE : nat := 20.

Record StaticErrorBitField : Type := mkStaticErr { error_register : Z; specific_errors : bytes }.

Definition StaticErrorBitField_new {S} (od : ObjectDictionary S) : StaticErrorBitField :=
  mkStaticErr (unwrap_or (read_u8 od 0x1001 0) 0) (replicate 7 0).

Definition StaticErrorBitField_serialize (f : StaticErrorBitField) (buffer : bytes)
    : bytes * res nat :=
  if (length buffer <? STATIC_ERROR_BIT_FIELD_SIZE)%nat then (buffer, Err BufferTooShort) else
  let buffer := put buffer 0 [error_register f] in
  (put buffer 1 (specific_errors f), Ok STATIC_ERROR_BIT_FIELD_SIZE).

Definition StaticErrorBitField_deserialize (buffer : bytes) : res StaticErrorBitField :=
  if (length buffer <? STATIC_ERROR_BIT_FIELD_SIZE)%nat then Err BufferTooShort else
  Ok (mkStaticErr (byte_at buffer 0) (slice buffer 1 8)).

Record StatusResponsePayload : Type := mkStatus {
  sr_en_flag : bool; sr_ec_flag : bool; sr_pr : PRFlag; sr_rs : Z; sr_nmt_state : NmtState;
  static_error_bit_field : StaticErrorBitField; error_entries : list ErrorEntry
}.

(** The entries from [offset] on, and the terminator after them. *)
Fixpoint write_entries (buffer : bytes) (offset : nat) (es : list ErrorEntry) : bytes * nat :=
  match es with
  | [] => (put buffer offset (replicate 20 0), (offset + ERROR_ENTRY_SIZE)%nat)
  | e :: es => write_entries (put buffer offset (ErrorEntry_serialize e)) (offset + ERROR_ENTRY_SIZE) es
  end.

Definition StatusResponsePayload_serialize (p : StatusResponsePayload) (buffer : bytes)
    : bytes * res nat :=
  let required_size :=
    (STATUS_PAYLOAD_HEADER_SIZE + length (error_entries p) * ERROR_ENTRY_SIZE + ERROR_ENTRY_SIZE)%nat in
  if (length buffer <? required_size)%nat then (buffer, Err BufferTooShort) else
  let buffer := fill buffer 0 STATUS_PAYLOAD_HEADER_SIZE 0 in
  let buffer := put buffer 0
    [Z.lor (if sr_en_flag p then Z.shiftl 1 5 else 0) (if sr_ec_flag p then Z.shiftl 1 4 else 0)] in
  let buffer := put buffer 1 [Z.lor (Z.shiftl (PRFlag_as_u8 (sr_pr p)) 3) (sr_rs p)] in
  let buffer := put buffer 2 [NmtState_as_u8 (sr_nmt_state p)] in
  match StaticErrorBitField_serialize (static_error_bit_field p) (slice buffer 6 14) with
  | (_, Err e) => (buffer, Err e)
  | (field, Ok _) =>
      let buffer := put buffer 6 field in
      let '(buffer, offset) := write_entries buffer STATUS_PAYLOAD_HEADER_SIZE (error_entries p) in
      (buffer, Ok offset)
  end.

(** The [while] loop over the entries; every turn moves on by 20 bytes, so the
    length of the buffer is enough fuel. *)
Fixpoint read_entries (fuel : nat) (rest : bytes) : res (list ErrorEntry) :=
  match fuel with
  | O => Ok []
  | S fuel =>
      if (ERROR_ENTRY_SIZE <=? length rest)%nat then
        let? entry := ErrorEntry_deserialize (take ERROR_ENTRY_SIZE rest) in
        if bool_decide (et_mode (entry_type entry) = Mode_Terminator) then Ok []
        else let? es := read_entries fuel (drop ERROR_ENTRY_SIZE rest) in Ok (entry :: es)
      else Ok []
  end.

Definition StatusResponsePayload_deserialize (buffer : bytes) : res StatusResponsePayload :=
  if (length buffer <? STATUS_PAYLOAD_HEADER_SIZE)%nat then Err BufferTooShort else
  let octet0 := byte_at buffer 0 in
  let octet1 := byte_at buffer 1 in
  let? pr := PRFlag_try_from (Z.shiftr octet1 3) in
  let rs := RSFlag_new (Z.land octet1 7) in
  let? nmt_state := NmtState_try_from (byte_at buffer 2) in
  let? field := StaticErrorBitField_deserialize (slice buffer 6 14) in
  let? es := read_entries (length buffer) (drop STATUS_PAYLOAD_HEADER_SIZE buffer) in
  Ok {| sr_en_flag := bit octet0 5; sr_ec_flag := bit octet0 4; sr_pr := pr; sr_rs := rs;
        sr_nmt_state := nmt_state; static_error_bit_field := field; error_entries := es |}.

Definition status_ok (p : StatusResponsePayload) : Prop :=
  0 <= sr_rs p <= 7 /\ byte_ok (error_register (static_error_bit_field p)) /\
  length (specific_errors (static_error_bit_field p)) = 7%nat /\
  bytes_ok (specific_errors (static_error_bit_field p)) /\
  Forall (fun e => error_entry_ok e /\ et_mode (entry_type e) <> Mode_Terminator) (error_entries p).

(** ** IdentResponse: reading back what was written *)
Definition ident_writes (p : IdentResponsePayload) : list (nat * bytes) :=
  [(1%nat, [Z.lor (Z.shiftl (PRFlag_as_u8 (id_pr p)) 3) (id_rs p)]);
   (2%nat, [NmtState_as_u8 (id_nmt_state p)]); (4%nat, [id_epl_version p]);
   (6%nat, le_bytes 4 (id_feature_flags p)); (10%nat, le_bytes 2 (id_mtu p));
   (12%nat, le_bytes 2 (id_poll_in_size p)); (14%nat, le_bytes 2 (id_poll_out_size p));
   (16%nat, le_bytes 4 (id_response_time p)); (22%nat, le_bytes 4 (id_device_type p));
   (26%nat, le_bytes 4 (id_vendor_id p)); (30%nat, le_bytes 4 (id_product_code p));
   (34%nat, le_bytes 4 (id_revision_number p)); (38%nat, le_bytes 4 (id_serial_number p));
   (50%nat, le_bytes 4 (id_verify_conf_date p)); (54%nat, le_bytes 4 (id_verify_conf_time p));
   (58%nat, le_bytes 4 (id_app_sw_date p)); (62%nat, le_bytes 4 (id_app_sw_time p));
   (66%nat, id_ip_address p); (70%nat, id_subnet_mask p); (74%nat, id_default_gateway p);
   (78%nat, take (Nat.min (length (id_host_name p)) 32) (id_host_name p))].

Lemma ident_writes_ok p : ident_ok p -> writes_ok 1 110 (ident_writes p).
Proof.
  intros Hp. destruct Hp as (_&_&_&_&_&_&_&_&_&_&_&_&_&_&_&_&[H1 _]&[H2 _]&[H3 _]).
  unfold ident_writes. simpl. rewrite H1, H2, H3, length_take. lia.
Qed.

Lemma ident_serialize_puts p buf :
  (158 <= length buf)%nat ->
  IdentResponsePayload_serialize p buf = (puts (fill buf 0 158 0) (ident_writes p), Ok 158%nat).
Proof.
  intros H. unfold IdentResponsePayload_serialize, IDENT_RESPONSE_PAYLOAD_SIZE.
  rewrite nat_ltb_false by lia. unfold puts, ident_writes. cbn [foldl fst snd]. reflexivity.
Qed.

Lemma length_fill buf a b v :
  (a <= b)%nat -> (b <= length buf)%nat -> length (fill buf a b v) = length buf.
Proof. intros. unfold fill. apply length_put. rewrite length_replicate. lia. Qed.

(** What is left of the host name in its 32 bytes. *)
Definition host_field (h : bytes) : bytes :=
  take (Nat.min (length h) 32) h ++ replicate (32 - Nat.min (length h) 32) 0.

(** A host name that is valid, at most 32 bytes long and free of NUL comes back. *)
Lemma cut_nul_host h :
  (length h <= 32)%nat -> 0 ∉ h -> cut_nul (host_field h) = h.
Proof.
  intros Hh Hz. unfold host_field, cut_nul, HOSTNAME_SIZE.
  rewrite Nat.min_l by done. rewrite firstn_all.
  assert (Hpos : forall t, position (fun b => b =? 0) (h ++ t) =
    Nat.add (length h) <$> position (fun b => b =? 0) t).
  { clear Hh. induction h as [|x h IH]; intros t; simpl.
    - by destruct (position _ t).
    - apply not_elem_of_cons in Hz as [Hx Hz]. destruct (Z.eqb_spec x 0); [congruence|].
      rewrite IH by done. by destruct (position _ t). }
  rewrite Hpos. destruct (32 - length h)%nat as [|k] eqn:Ek; simpl.
  - rewrite app_nil_r. apply firstn_all2. lia.
  - rewrite Nat.add_0_r. apply take_app_length.
Qed.

Lemma slice_puts_above {A} lo n ws (b : list A) x y :
  writes_ok lo n ws -> (n <= length b)%nat -> (n <= x)%nat -> slice (puts b ws) x y = slice b x y.
Proof.
  revert lo b. induction ws as [|[o c] ws IH]; intros lo b; [done|]. intros [? H] Hn Hx.
  pose proof (writes_ok_le _ _ _ H). simpl.
  rewrite (IH _ _ H); [|rewrite length_put; lia|lia]. apply slice_put_after; lia.
Qed.

Lemma slice_fill_zero (b : bytes) x n y : (x <= y <= n)%nat -> (n <= length b)%nat ->
  slice (fill b 0 n 0) x y = replicate (y - x) 0.
Proof.
  intros H Hn. unfold fill, slice. rewrite Nat.sub_0_r, put_0.
  rewrite drop_app_le by (rewrite length_replicate; lia).
  rewrite take_app_le by (rewrite length_drop, length_replicate; lia).
  rewrite drop_replicate, take_replicate. f_equal. lia.
Qed.

Lemma slice_join {A} (l : list A) a b c l1 l2 :
  slice l a b = l1 -> slice l b c = l2 -> (a <= b <= c)%nat -> slice l a c = l1 ++ l2.
Proof.
  intros <- <- H. unfold slice.
  rewrite <- (take_drop (b - a) (take (c - a) (drop a l))). f_equal.
  - rewrite take_take. f_equal. lia.
  - rewrite skipn_firstn_comm, drop_drop. f_equal; [lia|f_equal; lia].
Qed.

Section IdentFields.
Context (p : IdentResponsePayload) (buf : bytes) (Hp : ident_ok p) (Hl : (158 <= length buf)%nat).
Let out := puts (fill buf 0 158 0) (ident_writes p).

Lemma ident_length : length out = length buf.
Proof.
  unfold out. rewrite (length_puts 1 110) by
    (try apply ident_writes_ok; try done; rewrite length_fill; lia). apply length_fill; lia.
Qed.

Lemma ident_field off bs n :
  (off, bs) ∈ ident_writes p -> n = (off + length bs)%nat -> slice out off n = bs.
Proof.
  intros Hin ->. apply (slice_puts 1 110); [by apply ident_writes_ok|rewrite length_fill; lia|done].
Qed.

Lemma ident_host : slice out 78 110 = host_field (id_host_name p).
Proof.
  set (k := Nat.min (length (id_host_name p)) 32).
  assert (Hk : length (take k (id_host_name p)) = k) by (rewrite length_take; lia).
  change (host_field (id_host_name p)) with (take k (id_host_name p) ++ replicate (32 - k) 0).
  apply (slice_join _ _ (78 + k)); [| |lia].
  - apply ident_field; [|by rewrite Hk]. unfold ident_writes. rewrite list_elem_of_In. simpl. tauto.
  - unfold out.
    rewrite (slice_puts_above 1 (78 + k)); [| |rewrite length_fill; lia|lia].
    + rewrite slice_fill_zero by lia. by replace (110 - (78 + k))%nat with (32 - k)%nat by lia.
    + clear out. destruct Hp as (_&_&_&_&_&_&_&_&_&_&_&_&_&_&_&_&[H1 _]&[H2 _]&[H3 _]).
      unfold ident_writes. fold k. cbn [writes_ok].
      rewrite H1, H2, H3, !length_le_bytes, Hk. simpl. lia.
Qed.


Ltac mem := unfold ident_writes; repeat first [apply list_elem_of_here|apply list_elem_of_further].

Lemma ident_deserialize_out :
  IdentResponsePayload_deserialize out =
    Ok (set_host_name p (from_utf8_lossy (cut_nul (host_field (id_host_name p))))).
Proof.
  pose proof ident_field as Hf. pose proof ident_host as Hh. pose proof ident_length as Hlen.
  destruct Hp as (Hrs&Hv&H3&H4&H5&H6&H7&H8&H9&H10&H11&H12&H13&H14&H15&H16&[H17 _]&[H18 _]&[H19 _]).
  assert (Hb : forall i v, (i, [v]) ∈ ident_writes p -> byte_at out i = v).
  { intros i v Hin. apply byte_at_of_slice. apply Hf; [done|simpl; lia]. }
  assert (Hw : forall i j n v, (i, le_bytes n v) ∈ ident_writes p -> j = (i + n)%nat ->
    in_width (8 * Z.of_nat n) v -> le_val (slice out i j) = v).
  { intros i j n v Hin -> Hn. rewrite (Hf _ _ (i + n)%nat Hin) by (by rewrite length_le_bytes).
    by apply le_val_le_bytes. }
  unfold IdentResponsePayload_deserialize, IDENT_RESPONSE_PAYLOAD_SIZE, HOSTNAME_OFFSET, HOSTNAME_SIZE.
  rewrite nat_ltb_false by lia. clearbody out.
  rewrite (Hb 1%nat (Z.lor (Z.shiftl (PRFlag_as_u8 (id_pr p)) 3) (id_rs p))) by mem.
  destruct (prrs_round (id_pr p) (id_rs p) Hrs) as [-> ->].
  rewrite (Hb 2%nat (NmtState_as_u8 (id_nmt_state p))) by mem. rewrite NmtState_round.
  change (78 + 32)%nat with 110%nat. rewrite Hh. unfold set_host_name. f_equal. f_equal.
  all: first
    [ reflexivity
    | apply Hb; mem
    | apply (Hw _ _ 4%nat); [mem|reflexivity|assumption]
    | apply (Hw _ _ 2%nat); [mem|reflexivity|assumption]
    | apply Hf; [mem|simpl; congruence] ].
Qed.
End IdentFields.

(** ** StatusResponse: the bytes written *)
Definition entries_wire (es : list ErrorEntry) : bytes := concat (map error_entry_wire es).

Lemma length_entries_wire es : length (entries_wire es) = (length es * 20)%nat.
Proof.
  induction es as [|e es IH]; [done|]. unfold entries_wire in *. cbn [map concat].
  rewrite length_app, IH, length_error_entry_wire. simpl. lia.
Qed.

Lemma write_entries_spec es : forall pre rest,
  (length es * 20 + 20 <= length rest)%nat ->
  write_entries (pre ++ rest) (length pre) es =
    (pre ++ entries_wire es ++ replicate 20 0 ++ drop (length es * 20 + 20) rest,
     (length pre + length es * 20 + 20)%nat).
Proof.
  induction es as [|e es IH]; intros pre rest Hl; cbn [write_entries].
  - rewrite put_app by done. rewrite length_replicate. rewrite <- app_assoc.
    f_equal. unfold ERROR_ENTRY_SIZE. simpl. lia.
  - rewrite ErrorEntry_serialize_eq, put_app by done. rewrite length_error_entry_wire.
    replace (length pre + ERROR_ENTRY_SIZE)%nat with (length (pre ++ error_entry_wire e))
      by (rewrite length_app, length_error_entry_wire; done).
    cbn [length] in Hl. rewrite IH by (rewrite length_drop; lia).
    rewrite drop_drop, length_app, length_error_entry_wire. unfold entries_wire. cbn [map concat].
    rewrite <- !app_assoc. cbn [length].
    replace (20 + (length es * 20 + 20))%nat with (S (length es) * 20 + 20)%nat by lia.
    f_equal. lia.
Qed.

Definition status_header (p : StatusResponsePayload) : bytes :=
  [flag (sr_en_flag p) 32 + flag (sr_ec_flag p) 16;
   Z.lor (Z.shiftl (PRFlag_as_u8 (sr_pr p)) 3) (sr_rs p); NmtState_as_u8 (sr_nmt_state p); 0; 0; 0;
   error_register (static_error_bit_field p)] ++ specific_errors (static_error_bit_field p).

Definition status_wire (p : StatusResponsePayload) : bytes :=
  status_header p ++ entries_wire (error_entries p) ++ replicate 20 0.

Lemma length_status_header p : status_ok p -> length (status_header p) = 14%nat.
Proof. intros (_&_&Hl&_). unfold status_header. rewrite length_app, Hl. done. Qed.

Lemma length_status_wire p :
  status_ok p -> length (status_wire p) = (34 + length (error_entries p) * 20)%nat.
Proof.
  intros Hp. unfold status_wire. rewrite !length_app, length_status_header by done.
  rewrite length_entries_wire, length_replicate. lia.
Qed.

(** The header fields, written over a cleared header. *)
Lemma status_header_written p rest :
  status_ok p ->
  let b := put (replicate 14 0 ++ rest) 0
    [Z.lor (if sr_en_flag p then Z.shiftl 1 5 else 0) (if sr_ec_flag p then Z.shiftl 1 4 else 0)] in
  let b := put b 1 [Z.lor (Z.shiftl (PRFlag_as_u8 (sr_pr p)) 3) (sr_rs p)] in
  let b := put b 2 [NmtState_as_u8 (sr_nmt_state p)] in
  exists field, StaticErrorBitField_serialize (static_error_bit_field p) (slice b 6 14) = (field, Ok 8%nat) /\
    put b 6 field = status_header p ++ rest.
Proof.
  intros (_&_&Hs&_&_). destruct p as [en ec pr rs st [reg spec] es]. simpl in Hs.
  do 7 (destruct spec as [|? spec]; [discriminate Hs|]). destruct spec; [|discriminate Hs].
  cbn -[Z.lor Z.shiftl PRFlag_as_u8 NmtState_as_u8]. eexists. split; [reflexivity|].
  cbn -[Z.lor Z.shiftl PRFlag_as_u8 NmtState_as_u8]. by destruct en, ec.
Qed.

Lemma status_serialize_fits p buf :
  status_ok p -> (length (status_wire p) <= length buf)%nat ->
  StatusResponsePayload_serialize p buf =
    (status_wire p ++ drop (length (status_wire p)) buf, Ok (length (status_wire p))).
Proof.
  intros Hp Hl. pose proof (length_status_header p Hp) as Hh. rewrite length_status_wire in * by done.
  unfold StatusResponsePayload_serialize, STATUS_PAYLOAD_HEADER_SIZE, ERROR_ENTRY_SIZE.
  rewrite nat_ltb_false by lia. unfold fill. rewrite (put_0 buf), length_replicate.
  change (14 - 0)%nat with 14%nat.
  destruct (status_header_written p (drop 14 buf) Hp) as (field&Hf&Hput).
  cbv zeta in *. rewrite Hf, Hput, <- Hh.
  rewrite write_entries_spec by (rewrite length_drop; lia).
  rewrite Hh, drop_drop. unfold status_wire. rewrite <- !app_assoc.
  replace (14 + (length (error_entries p) * 20 + 20))%nat
    with (34 + length (error_entries p) * 20)%nat by lia.
  f_equal. f_equal. lia.
Qed.

(** ** StatusResponse: reading it back *)
Lemma read_entries_spec es : forall fuel rest,
  (length es < fuel)%nat ->
  Forall (fun e => error_entry_ok e /\ et_mode (entry_type e) <> Mode_Terminator) es ->
  read_entries fuel (entries_wire es ++ replicate 20 0 ++ rest) = Ok es.
Proof.
  induction es as [|e es IH]; intros [|fuel] rest Hf He; try (simpl in Hf; lia).
  - reflexivity.
  - inversion He as [|? ? [Hok Hm] He']; subst. unfold entries_wire. cbn [map concat read_entries].
    fold (entries_wire es). unfold ERROR_ENTRY_SIZE.
    rewrite (proj2 (Nat.leb_le _ _)) by (rewrite !length_app, length_error_entry_wire; lia).
    rewrite <- app_assoc, take_app_length' by done.
    rewrite <- (app_nil_r (error_entry_wire e)) at 1. rewrite ErrorEntry_deserialize_app by done.
    rewrite bool_decide_eq_false_2 by done. rewrite drop_app_length' by done.
    rewrite IH; [done|simpl in Hf; lia|done].
Qed.

Lemma status_deserialize_wire p rest :
  status_ok p -> StatusResponsePayload_deserialize (status_wire p ++ rest) = Ok p.
Proof.
  intros Hp. pose proof (length_status_header p Hp) as Hh.
  pose proof (length_status_wire p Hp) as Hw.
  unfold StatusResponsePayload_deserialize, STATUS_PAYLOAD_HEADER_SIZE.
  rewrite nat_ltb_false by (rewrite length_app; lia).
  assert (Hfuel : (length (error_entries p) < length (status_wire p ++ rest))%nat)
    by (rewrite length_app; lia).
  assert (Hd : drop 14 (status_wire p ++ rest) =
    entries_wire (error_entries p) ++ replicate 20 0 ++ rest).
  { unfold status_wire. rewrite <- !app_assoc. by apply drop_app_length'. }
  assert (Hb : forall i, (i < 14)%nat -> byte_at (status_wire p ++ rest) i = byte_at (status_header p) i).
  { intros i Hi. unfold status_wire. rewrite <- app_assoc. apply byte_at_app. lia. }
  assert (Hs : slice (status_wire p ++ rest) 6 14 =
    error_register (static_error_bit_field p) :: specific_errors (static_error_bit_field p)).
  { unfold status_wire. rewrite <- app_assoc. unfold slice.
    rewrite drop_app_le, take_app_le by (rewrite ?length_drop; lia).
    unfold status_header. simpl. f_equal. apply firstn_all2. destruct Hp as (_&_&->&_). done. }
  rewrite Hd, Hs, !Hb by lia. destruct Hp as (Hrs&Hreg&Hl&Hsp&He).
  rewrite read_entries_spec by done.
  unfold byte_at, status_header. simpl nth.
  destruct (prrs_round (sr_pr p) (sr_rs p) Hrs) as [-> ->]. rewrite NmtState_round.
  unfold StaticErrorBitField_deserialize, STATIC_ERROR_BIT_FIELD_SIZE. simpl length.
  rewrite Hl. simpl Nat.ltb. cbv iota.
  destruct p as [en ec pr rs st [reg spec] es]. simpl in Hl.
  do 7 (destruct spec as [|? spec]; [discriminate Hl|]). destruct spec; [|discriminate Hl].
  by destruct en, ec.
Qed.

(** Payloads without entries lose the zeros at their end on the way. *)
Lemma status_received f p :
  asnd_message_type f = MT_ASnd -> status_ok p -> asnd_payload f = status_wire p ->
  exists f', ASndFrame_deserialize (asnd_eth_header f) (ASndFrame_wire f) = Ok f' /\
    asnd_payload f' = if bool_decide (error_entries p = []) then strip_zeros (status_header p)
                      else status_wire p.
Proof.
  intros Ht Hp Hpay. rewrite ASndFrame_deserialize_wire by done. eexists. split; [done|]. cbn [asnd_payload].
  rewrite Hpay, length_status_wire by done. case_bool_decide as Hn.
  - unfold status_wire. rewrite Hn. change (34 + length (@nil ErrorEntry) * 20 <=? 42)%nat with true.
    cbv iota. apply (strip_zeros_app_replicate (status_header p) 20).
  - destruct (error_entries p); [done|]. simpl length. by destruct (_ <=? 42)%nat eqn:E; [apply Nat.leb_le in E; lia|].
Qed.

Lemma length_strip_zeros l : (length (strip_zeros l) <= length l)%nat.
Proof. unfold strip_zeros. rewrite length_take. lia. Qed.

(** ** Properties *)
Definition demo_ident : IdentResponsePayload :=
  set_host_name (IdentResponsePayload_new (ObjectDictionary_new (S:=unit) None)) [112; 108].
Definition demo_status (es : list ErrorEntry) : StatusResponsePayload :=
  mkStatus true false High1 2 NmtOperational (mkStaticErr 0 (replicate 7 0)) es.
Definition demo_status_frame (es : list ErrorEntry) : ASndFrame :=
  ASndFrame_new [2; 0; 0; 0; 0; 1] [2; 0; 0; 0; 0; 2] 240 42 Svc_StatusResponse (status_wire (demo_status es)).

(** an IdentResponse comes back as it was sent, from any buffer that holds
    it; of the host name comes back the text before the first NUL of its first
    32 bytes, which is the name itself when it is valid, fits and has no NUL. *)
Theorem ident_response_roundtrip p buf :
  ident_ok p -> (IDENT_RESPONSE_PAYLOAD_SIZE <= length buf)%nat ->
  exists buf' host,
    IdentResponsePayload_serialize p buf = (buf', Ok IDENT_RESPONSE_PAYLOAD_SIZE) /\
    length buf' = length buf /\
    IdentResponsePayload_deserialize buf' = Ok (set_host_name p host) /\ utf8_valid host = true /\
    ((length (id_host_name p) <= 32)%nat -> 0 ∉ id_host_name p -> utf8_valid (id_host_name p) = true ->
     host = id_host_name p).
Proof.
  intros Hp Hl. exists (puts (fill buf 0 158 0) (ident_writes p)),
    (from_utf8_lossy (cut_nul (host_field (id_host_name p)))).
  split_and!.
  - by apply ident_serialize_puts.
  - exact (ident_length p buf Hp Hl).
  - exact (ident_deserialize_out p buf Hp Hl).
  - apply from_utf8_lossy_valid.
  - intros Hh Hz Hv. rewrite cut_nul_host by done. by apply from_utf8_lossy_id.
Qed.

Lemma ident_response_roundtrip_witness :
  exists buf' host,
    IdentResponsePayload_serialize demo_ident (replicate 158 0xFF) = (buf', Ok 158%nat) /\
    length buf' = 158%nat /\
    IdentResponsePayload_deserialize buf' = Ok (set_host_name demo_ident host) /\ utf8_valid host = true /\
    ((2 <= 32)%nat -> 0 ∉ [112; 108] -> utf8_valid [112; 108] = true -> host = [112; 108]).
Proof.
  apply (ident_response_roundtrip demo_ident (replicate 158 0xFF)).
  - split_and!; try done; repeat constructor; done.
  - vm_compute. lia.
Defined.

(** a StatusResponse comes back as it was sent from its own bytes and from
    any buffer it starts.  Received through an ASnd frame it comes back when it
    carries an error entry; without one the receiver loses the zeros at its end,
    and a payload whose static error field is all zero is then too short to
    parse. *)
Theorem status_response_roundtrip p buf :
  status_ok p -> (length (status_wire p) <= length buf)%nat ->
  (exists buf', StatusResponsePayload_serialize p buf = (buf', Ok (length (status_wire p))) /\
     take (length (status_wire p)) buf' = status_wire p /\
     StatusResponsePayload_deserialize buf' = Ok p) /\
  (forall f, asnd_message_type f = MT_ASnd -> asnd_payload f = status_wire p ->
     exists f', ASndFrame_deserialize (asnd_eth_header f) (ASndFrame_wire f) = Ok f' /\
       (error_entries p <> [] -> StatusResponsePayload_deserialize (asnd_payload f') = Ok p) /\
       (error_entries p = [] -> static_error_bit_field p = mkStaticErr 0 (replicate 7 0) ->
        StatusResponsePayload_deserialize (asnd_payload f') = Err BufferTooShort)).
Proof.
  intros Hp Hl. split.
  - eexists. split; [by apply status_serialize_fits|].
    split; [apply take_app_length|by apply status_deserialize_wire].
  - intros f Ht Hpay. destruct (status_received f p Ht Hp Hpay) as (f'&Hf&Hf').
    exists f'. split; [done|]. rewrite Hf'. split; intros Hn.
    + rewrite bool_decide_eq_false_2 by done. rewrite <- (app_nil_r (status_wire p)).
      by apply status_deserialize_wire.
    + intros Hz. rewrite bool_decide_eq_true_2 by done. unfold status_header. rewrite Hz. simpl app.
      unfold StatusResponsePayload_deserialize.
      rewrite (nat_ltb_true); [done|]. unfold STATUS_PAYLOAD_HEADER_SIZE.
      match goal with |- context [strip_zeros (?a :: ?b :: ?c :: ?l)] =>
        change (a :: b :: c :: l) with ([a; b; c] ++ replicate 11 0) end.
      rewrite strip_zeros_app_replicate.
      eapply Nat.le_lt_trans; [apply length_strip_zeros|simpl; lia].
Qed.

Lemma status_response_roundtrip_witness :
  exists f', ASndFrame_deserialize (asnd_eth_header (demo_status_frame []))
               (ASndFrame_wire (demo_status_frame [])) = Ok f' /\
    StatusResponsePayload_deserialize (asnd_payload f') = Err BufferTooShort.
Proof.
  destruct (proj2 (status_response_roundtrip (demo_status []) (replicate 100 0)
    ltac:(split_and!; try done; repeat constructor; done) ltac:(vm_compute; lia))
    (demo_status_frame []) eq_refl eq_refl) as (f'&Hf&_&Hs).
  exists f'. split; [exact Hf|]. apply Hs; reflexivity.
Defined.
