(* ===== verification/Nmt.v ===== *)
(** * Network management state machines

    [nmt/state_machine.rs], [nmt/cn_state_machine.rs], [nmt/mn_state_machine.rs].

    The trait [NmtStateMachine] is a class; its provided methods
    ([update_od_state], [reset], [run_internal_initialisation]) are defined once
    for every instance, and its contract is [NmtLaws]. *)
From S2P Require Import Prelude Utf8 Types ErrorEntry ObjectDict OdPredefined.

(** ** The trait ([nmt/state_machine.rs]) *)
Class NmtCore (M : Type) : Type := {
  node_id : M -> NodeId;
  current_state : M -> NmtState;
  set_state : M -> NmtState -> M
}.

(** The events the machines answer with [reset]. *)
Definition is_reset_event (event : NmtEvent) : bool :=
  match event with
  | Ev_Reset | Ev_SwReset | Ev_ResetNode | Ev_ResetCommunication | Ev_ResetConfiguration => true
  | _ => false
  end.

Section Provided.
Context {M : Type} `{NmtCore M} {S : Type} `{ObjectDictionaryStorage S}.
Implicit Types (m : M) (od : ObjectDictionary S).

Definition update_od_state m od : ObjectDictionary S :=
  fst (write_internal od 0x1F8C 0 (OV_Unsigned8 (NmtState_as_u8 (current_state m))) false).

(** One stage: enter the state and mirror it in the dictionary. *)
Definition enter m od (s : NmtState) : M * ObjectDictionary S :=
  let m := set_state m s in (m, update_od_state m od).

Definition initial_reset_state (event : NmtEvent) : option NmtState :=
  match event with
  | Ev_Reset | Ev_SwReset => Some NmtGsInitialising
  | Ev_ResetNode => Some NmtGsResetApplication
  | Ev_ResetCommunication => Some NmtGsResetCommunication
  | Ev_ResetConfiguration => Some NmtGsResetConfiguration
  | _ => None
  end.

Definition reset m (event : NmtEvent) od : M * ObjectDictionary S :=
  match initial_reset_state event with
  | None => (m, od)
  | Some initial =>
      let from s := bool_decide (initial = s) in
      let '(m, od) := if from NmtGsInitialising then enter m od NmtGsInitialising else (m, od) in
      let '(m, od) :=
        if from NmtGsInitialising || from NmtGsResetApplication then
          let '(m, od) := enter m od NmtGsResetApplication in
          let od := restore_power_on_values od 0x2000 0x5FFF in
          let od := restore_power_on_values od 0x6000 0x9FFF in
          (m, od)
        else (m, od) in
      let '(m, od) :=
        if from NmtGsInitialising || from NmtGsResetApplication || from NmtGsResetCommunication then
          let '(m, od) := enter m od NmtGsResetCommunication in
          (m, restore_power_on_values od 0x1000 0x1FFF)
        else (m, od) in
      let '(m, od) :=
        if from NmtGsInitialising || from NmtGsResetApplication || from NmtGsResetCommunication
           || from NmtGsResetConfiguration then enter m od NmtGsResetConfiguration
        else (m, od) in
      enter m od NmtNotActive
  end.

Definition run_internal_initialisation m od : M * ObjectDictionary S :=
  if negb (bool_decide (current_state m = NmtGsInitialising)) then (m, od)
  else reset m Ev_SwReset od.

(** The part of [process_event] the two machines share: the reset events, and
    the update of the state and its mirror after a transition. *)
Definition handle_reset m (event : NmtEvent) od : M * ObjectDictionary S * option (list DllError) :=
  let old_state := current_state m in
  let '(m, od) := reset m event od in
  let od := if negb (bool_decide (old_state = current_state m)) then update_od_state m od else od in
  (m, od, None).

Definition change_state m od (next_state : NmtState) : M * ObjectDictionary S :=
  if negb (bool_decide (current_state m = next_state)) then enter m od next_state else (m, od).
End Provided.

Class NmtStateMachine (M : Type) `{NmtCore M} : Type := {
  process_event : forall {S} `{ObjectDictionaryStorage S},
    M -> NmtEvent -> ObjectDictionary S -> M * ObjectDictionary S * option (list DllError)
}.

(** ** Controlled node ([nmt/cn_state_machine.rs]) *)
Record CnNmtStateMachine : Type := mkCnNmt {
  cn_current_state : NmtState; cn_node_id : NodeId; cn_feature_flags : Z;
  cn_basic_ethernet_timeout : Z
}.

#[export] Instance CnNmt_core : NmtCore CnNmtStateMachine :=
  { node_id := cn_node_id; current_state := cn_current_state;
    set_state m s := mkCnNmt s (cn_node_id m) (cn_feature_flags m) (cn_basic_ethernet_timeout m) }.

Definition CnNmtStateMachine_new (node_id : NodeId) (feature_flags basic_ethernet_timeout : Z)
    : CnNmtStateMachine :=
  mkCnNmt NmtGsInitialising node_id feature_flags basic_ethernet_timeout.

Definition cn_from_od {S} (od : ObjectDictionary S) : res CnNmtStateMachine :=
  let? node_id_val := ok_or (read od 0x1F93 1) ObjectNotFound in
  let? node_id :=
    match node_id_val with OV_Unsigned8 val => NodeId_try_from val | _ => Err TypeMismatch end in
  let? feature_flags_val := ok_or (read od 0x1F82 0) ObjectNotFound in
  let? feature_flags := match feature_flags_val with OV_Unsigned32 val => Ok val | _ => Err TypeMismatch end in
  let? timeout_val := ok_or (read od 0x1F99 0) ObjectNotFound in
  let? timeout := match timeout_val with OV_Unsigned32 val => Ok val | _ => Err TypeMismatch end in
  Ok (CnNmtStateMachine_new node_id feature_flags timeout).

(** The [match (self.current_state, event)]: next state and errors pushed. *)
Definition cn_transition (state : NmtState) (event : NmtEvent) : NmtState * list DllError :=
  match state, event with
  | NmtNotActive, (Ev_SocReceived | Ev_SocSoAReceived) => (NmtPreOperational1, [])
  | NmtNotActive, Ev_Timeout => (NmtBasicEthernet, [])
  | NmtPreOperational1, Ev_SocReceived => (NmtPreOperational2, [])
  | NmtPreOperational2, Ev_EnableReadyToOperate => (NmtPreOperational2, [])
  | NmtPreOperational2, Ev_CnConfigurationComplete => (NmtReadyToOperate, [])
  | NmtReadyToOperate, Ev_StartNode => (NmtOperational, [])
  | (NmtPreOperational2 | NmtReadyToOperate | NmtOperational), Ev_StopNode => (NmtCsStopped, [])
  | NmtOperational, Ev_EnterPreOperational2 => (NmtPreOperational2, [])
  | NmtCsStopped, Ev_EnterPreOperational2 => (NmtPreOperational2, [])
  | (NmtPreOperational2 | NmtReadyToOperate | NmtOperational | NmtCsStopped), Ev_Error =>
      (NmtPreOperational1, [])
  | NmtBasicEthernet, Ev_PowerlinkFrameReceived => (NmtPreOperational1, [])
  | current, _ =>
      (current, [UnexpectedEventInState (NmtState_as_u8 current) (NmtEvent_as_u8 event)])
  end.

Definition cn_process_event {S} `{ObjectDictionaryStorage S} (m : CnNmtStateMachine)
    (event : NmtEvent) (od : ObjectDictionary S)
    : CnNmtStateMachine * ObjectDictionary S * option (list DllError) :=
  if is_reset_event event then handle_reset m event od
  else
    let '(next_state, errors) := cn_transition (current_state m) event in
    let '(m, od) := change_state m od next_state in
    (m, od, match errors with [] => None | _ => Some errors end).

#[export] Instance CnNmt_machine : NmtStateMachine CnNmtStateMachine :=
  { process_event S ST := @cn_process_event S ST }.

(** ** Managing node ([nmt/mn_state_machine.rs]) *)
Record MnNmtStateMachine : Type := mkMnNmt {
  mn_current_state : NmtState; mn_node_id : NodeId; mn_feature_flags : Z;
  wait_not_active_timeout : Z; startup_flags : Z
}.

#[export] Instance MnNmt_core : NmtCore MnNmtStateMachine :=
  { node_id := mn_node_id; current_state := mn_current_state;
    set_state m s :=
      mkMnNmt s (mn_node_id m) (mn_feature_flags m) (wait_not_active_timeout m) (startup_flags m) }.

Definition MnNmtStateMachine_new (node_id : NodeId) (feature_flags wait_not_active_timeout
    startup_flags : Z) : MnNmtStateMachine :=
  mkMnNmt NmtGsInitialising node_id feature_flags wait_not_active_timeout startup_flags.

Definition mn_from_od {S} (od : ObjectDictionary S) : res MnNmtStateMachine :=
  let? feature_flags_val := ok_or (read od 0x1F82 0) ObjectNotFound in
  let? feature_flags := match feature_flags_val with OV_Unsigned32 val => Ok val | _ => Err TypeMismatch end in
  let? wait_val := ok_or (read od 0x1F89 1) ObjectNotFound in
  let? wait := match wait_val with OV_Unsigned32 val => Ok val | _ => Err TypeMismatch end in
  let? startup_val := ok_or (read od 0x1F80 0) ObjectNotFound in
  let? startup := match startup_val with OV_Unsigned32 val => Ok val | _ => Err TypeMismatch end in
  Ok (MnNmtStateMachine_new C_ADR_MN_DEF_NODE_ID feature_flags wait startup).

Definition mn_transition (startup_flags : Z) (state : NmtState) (event : NmtEvent) : NmtState :=
  match state, event with
  | NmtNotActive, Ev_Timeout =>
      if bit startup_flags 13 then NmtBasicEthernet else NmtPreOperational1
  | NmtPreOperational1, Ev_AllCnsIdentified => NmtPreOperational2
  | NmtPreOperational2, Ev_ConfigurationCompleteCnsReady => NmtReadyToOperate
  | NmtReadyToOperate, Ev_AllMandatoryCnsOperational => NmtOperational
  | NmtOperational, Ev_Error => NmtPreOperational1
  | NmtBasicEthernet, Ev_PowerlinkFrameReceived => NmtPreOperational1
  | current, _ => current
  end.

Definition mn_process_event {S} `{ObjectDictionaryStorage S} (m : MnNmtStateMachine)
    (event : NmtEvent) (od : ObjectDictionary S)
    : MnNmtStateMachine * ObjectDictionary S * option (list DllError) :=
  if is_reset_event event then handle_reset m event od
  else
    let next_state := mn_transition (startup_flags m) (current_state m) event in
    let '(m, od) := change_state m od next_state in
    (m, od, None).

#[export] Instance MnNmt_machine : NmtStateMachine MnNmtStateMachine :=
  { process_event S ST := @mn_process_event S ST }.

(** ** What a machine promises *)
Class NmtLaws (M : Type) `{NmtStateMachine M} : Type := {
  current_set : forall m s, current_state (set_state m s) = s;
  process_reset : forall S (ST : ObjectDictionaryStorage S) m e (od : ObjectDictionary S),
    is_reset_event e = true -> process_event m e od = handle_reset m e od;
  process_other : forall S (ST : ObjectDictionaryStorage S) m e (od : ObjectDictionary S),
    is_reset_event e = false ->
    exists next, fst (process_event m e od) = change_state m od next
}.

#[export, refine] Instance CnNmt_laws : NmtLaws CnNmtStateMachine := {}.
Proof.
  - done.
  - intros S ST m e od He. simpl. unfold cn_process_event. by rewrite He.
  - intros S ST m e od He. simpl. unfold cn_process_event. rewrite He.
    destruct (cn_transition _ e) as [next errs]. exists next. by destruct (change_state m od next).
Defined.

#[export, refine] Instance MnNmt_laws : NmtLaws MnNmtStateMachine := {}.
Proof.
  - done.
  - intros S ST m e od He. simpl. unfold mn_process_event. by rewrite He.
  - intros S ST m e od He. simpl. unfold mn_process_event. rewrite He.
    exists (mn_transition (startup_flags m) (mn_current_state m) e). simpl.
    by destruct (change_state m od _).
Defined.

(** The machine and the dictionary after a sequence of events. *)
Fixpoint run_nmt {M} `{NmtStateMachine M} {S} `{ObjectDictionaryStorage S} (m : M)
    (od : ObjectDictionary S) (es : list NmtEvent) : M * ObjectDictionary S :=
  match es with
  | [] => (m, od)
  | e :: es => let '(m, od, _) := process_event m e od in run_nmt m od es
  end.

(** ** The mirror of the state in object 0x1F8C *)
Section Mirror.
Context {M : Type} `{NmtLaws M} {S : Type} `{StorageLaws S}.
Implicit Types (m : M) (od : ObjectDictionary S).

Definition is_u8_value (v : ObjectValue) : bool :=
  match v with OV_Unsigned8 _ => true | _ => false end.

(** 0x1F8C is an UNSIGNED8 variable, and neither its default nor the storage
    can change its type. *)
Definition slot_ok od : Prop :=
  (exists e v, entries od !! 0x1F8C = Some e /\ object e = Obj_Variable (OV_Unsigned8 v) /\
     match default_value e with Some d => is_u8_value d = true | None => True end) /\
  match storage od with Some s => contents s !! (0x1F8C, 0) = None | None => True end.

Definition mirrored m od : Prop := read_u8 od 0x1F8C 0 = Some (NmtState_as_u8 (current_state m)).

Lemma update_od_state_slot m od :
  slot_ok od -> slot_ok (update_od_state m od) /\ mirrored m (update_od_state m od).
Proof.
  intros [(e&v&He&Ho&Hd) Hst]. unfold update_od_state, write_internal, write_entry.
  rewrite He. simpl. rewrite Ho. simpl. split.
  - split; [|done]. exists (set_object e (Obj_Variable (OV_Unsigned8 (NmtState_as_u8 (current_state m))))).
    eexists. simpl. rewrite lookup_insert_eq. by split_and!.
  - unfold mirrored, read_u8, read. simpl. by rewrite lookup_insert_eq.
Qed.

Lemma load_for_restore_storage od :
  match storage od with Some s => contents s !! (0x1F8C, 0) = None | None => True end ->
  match storage (fst (load_for_restore od)) with
  | Some s => contents s !! (0x1F8C, 0) = None | None => True end /\
  stored_value (snd (load_for_restore od)) 0x1F8C 0 = None.
Proof.
  unfold load_for_restore. destruct (storage od) as [s|] eqn:Es; simpl; [|by rewrite Es].
  intros Hs. destruct (load s) as [s' [p|]] eqn:El; simpl;
    destruct (load_same _ _ _ El) as [Hc _]; rewrite Hc; split; try done.
  by rewrite (load_contents _ _ _ El).
Qed.

Lemma restore_slot od a b : slot_ok od -> slot_ok (restore_power_on_values od a b).
Proof.
  intros [(e&v&He&Ho&Hd) Hst]. destruct (load_for_restore_storage od Hst) as [Hst' Hsv].
  split.
  - rewrite restore_lookup, He. simpl. unfold restore_entry.
    destruct (_ || _); [by exists e, v|]. simpl. unfold restore_object. rewrite Ho, Hsv. simpl.
    eexists _, (match default_value e with Some (OV_Unsigned8 d) => d | _ => v end).
    split_and!; [done| |done]. simpl. by destruct (default_value e) as [[]|].
  - unfold restore_power_on_values. by destruct (load_for_restore od).
Qed.

Lemma enter_slot m od s :
  slot_ok od -> slot_ok (snd (enter m od s)) /\ mirrored (fst (enter m od s)) (snd (enter m od s)) /\
  current_state (fst (enter m od s)) = s.
Proof.
  intros Hs. unfold enter. simpl. destruct (update_od_state_slot (set_state m s) od Hs).
  split_and!; try done. apply current_set.
Qed.

Lemma reset_slot m e od :
  slot_ok od -> is_reset_event e = true ->
  let '(m', od') := reset m e od in
  slot_ok od' /\ mirrored m' od' /\ current_state m' = NmtNotActive.
Proof.
  intros Hs He.
  destruct e; try discriminate He; unfold reset; simpl initial_reset_state; cbv iota beta;
    rewrite ?bool_decide_eq_true_2, ?bool_decide_eq_false_2 by done; simpl orb; cbv iota;
    unfold enter; cbv beta iota zeta.
  all: split_and!; [|apply update_od_state_slot|apply current_set].
  all: repeat first [apply update_od_state_slot|apply restore_slot]; done.
Qed.

Lemma change_state_slot m od s :
  slot_ok od ->
  let '(m', od') := change_state m od s in
  slot_ok od' /\ current_state m' = s /\ (mirrored m od -> mirrored m' od').
Proof.
  intros Hs. unfold change_state. case_bool_decide as Hc; simpl.
  - by split_and!.
  - destruct (update_od_state_slot (set_state m s) od Hs). split_and!; try done. apply current_set.
Qed.

Lemma process_event_slot m od e :
  slot_ok od ->
  let '(m', od', _) := process_event m e od in
  slot_ok od' /\ (mirrored m od \/ is_reset_event e = true -> mirrored m' od').
Proof.
  intros Hs. destruct (is_reset_event e) eqn:He.
  - rewrite process_reset by done. unfold handle_reset.
    pose proof (reset_slot m e od Hs He) as Hr. destruct (reset m e od) as [m1 od1].
    destruct Hr as (Hr1&Hr2&_). case_bool_decide; simpl; [done|].
    destruct (update_od_state_slot m1 od1 Hr1). by split.
  - destruct (process_other _ _ m e od He) as [next Hn].
    pose proof (change_state_slot m od next Hs) as Hc.
    destruct (process_event m e od) as [[m1 od1] r]. simpl in Hn. rewrite <- Hn in Hc.
    destruct Hc as (?&_&Hm). split; [done|]. intros [?|?]; [by apply Hm|done].
Qed.
End Mirror.

(** ** What a reset does to the dictionary *)
Definition reset_ranges (e : NmtEvent) : list (Z * Z) :=
  match e with
  | Ev_Reset | Ev_SwReset | Ev_ResetNode => [(0x2000, 0x5FFF); (0x6000, 0x9FFF); (0x1000, 0x1FFF)]
  | Ev_ResetCommunication => [(0x1000, 0x1FFF)]
  | _ => []
  end.

Section ResetEffect.
Context {M : Type} `{NmtLaws M} {S : Type} `{ObjectDictionaryStorage S}.
Implicit Types (m : M) (od : ObjectDictionary S).

(** Equal but for the mirror object. *)
Definition agree od1 od2 : Prop :=
  storage od1 = storage od2 /\ forall i, i <> 0x1F8C -> entries od1 !! i = entries od2 !! i.

Lemma agree_refl od : agree od od.
Proof. done. Qed.

Lemma agree_update m od1 od2 : agree od1 od2 -> agree (update_od_state m od1) od2.
Proof.
  intros [Hs He]. unfold update_od_state, write_internal.
  destruct (entries od1 !! 0x1F8C) as [e|]; [|done].
  destruct (write_entry _ _ _ _ _); [|done]. split; [done|]. intros i Hi. simpl.
  rewrite lookup_insert_ne; [by apply He|done].
Qed.

Lemma agree_restore od1 od2 a b :
  agree od1 od2 -> agree (restore_power_on_values od1 a b) (restore_power_on_values od2 a b).
Proof.
  intros [Hs He].
  assert (Hl : snd (load_for_restore od1) = snd (load_for_restore od2) /\
               storage (fst (load_for_restore od1)) = storage (fst (load_for_restore od2))).
  { unfold load_for_restore. rewrite Hs. destruct (storage od2) as [s|] eqn:E2; [|split; [done|simpl; congruence]].
    by destruct (load s) as [? []]. }
  destruct Hl as [Hp Hst]. split.
  - unfold restore_power_on_values.
    by destruct (load_for_restore od1), (load_for_restore od2).
  - intros i Hi. by rewrite !restore_lookup, He, Hp.
Qed.

Definition restore_ranges od (rs : list (Z * Z)) : ObjectDictionary S :=
  foldl (fun od r => restore_power_on_values od (fst r) (snd r)) od rs.

Lemma reset_agrees m e od :
  is_reset_event e = true ->
  agree (snd (reset m e od)) (restore_ranges od (reset_ranges e)) /\
  current_state (fst (reset m e od)) = NmtNotActive.
Proof.
  intros He.
  destruct e; try discriminate He; unfold reset; simpl initial_reset_state; cbv iota beta;
    rewrite ?bool_decide_eq_true_2, ?bool_decide_eq_false_2 by done; simpl orb; cbv iota;
    unfold enter; cbv beta iota zeta; simpl fst; simpl snd.
  all: split; [|apply current_set].
  all: unfold restore_ranges; simpl.
  all: repeat first [apply agree_update|apply agree_restore]; apply agree_refl.
Qed.

Lemma restore_ranges_untouched od rs i :
  i = 0x1003 \/ Forall (fun r => i < fst r \/ snd r < i) rs ->
  entries (restore_ranges od rs) !! i = entries od !! i.
Proof.
  revert od. induction rs as [|[a b] rs IH]; intros od Hi; [done|]. simpl. rewrite IH.
  - rewrite restore_lookup. destruct (entries od !! i) as [e|]; [|done]. simpl. unfold restore_entry.
    destruct Hi as [->|Hi]; [by case_if|]. inversion Hi as [|? ? Hr1 _]; subst. simpl in Hr1.
    destruct (Z.ltb_spec i a); [done|]. destruct (Z.ltb_spec b i); [done|lia].
  - destruct Hi as [Hi|Hi]; [by left|right]. by inversion Hi.
Qed.
End ResetEffect.

(** ** The state alone *)
Definition cn_next (s : NmtState) (e : NmtEvent) : NmtState :=
  if is_reset_event e then NmtNotActive else fst (cn_transition s e).
Definition mn_next (flags : Z) (s : NmtState) (e : NmtEvent) : NmtState :=
  if is_reset_event e then NmtNotActive else mn_transition flags s e.

Lemma handle_reset_state {M} `{NmtLaws M} {S} `{ObjectDictionaryStorage S} (m : M) e
    (od : ObjectDictionary S) :
  is_reset_event e = true -> current_state (fst (fst (handle_reset m e od))) = NmtNotActive.
Proof.
  intros He. unfold handle_reset. destruct (reset_agrees m e od He) as [_ Hr].
  by destruct (reset m e od).
Qed.

Lemma change_state_state {M} `{NmtLaws M} {S} `{ObjectDictionaryStorage S} (m : M)
    (od : ObjectDictionary S) s : current_state (fst (change_state m od s)) = s.
Proof. unfold change_state. case_bool_decide; simpl; [done|apply current_set]. Qed.

Lemma cn_process_state {S} `{ObjectDictionaryStorage S} m e (od : ObjectDictionary S) :
  cn_current_state (fst (fst (process_event m e od))) = cn_next (cn_current_state m) e.
Proof.
  unfold cn_next. cbn [process_event CnNmt_machine]. unfold cn_process_event.
  destruct (is_reset_event e) eqn:He; [exact (handle_reset_state (M:=CnNmtStateMachine) m e od He)|].
  cbn [current_state CnNmt_core]. destruct (cn_transition _ e) as [next errs].
  pose proof (change_state_state m od next) as Hc. by destruct (change_state m od next).
Qed.

Lemma mn_process_state {S} `{ObjectDictionaryStorage S} m e (od : ObjectDictionary S) :
  let m' := fst (fst (process_event m e od)) in
  mn_current_state m' = mn_next (startup_flags m) (mn_current_state m) e /\
  startup_flags m' = startup_flags m /\ snd (process_event m e od) = None.
Proof.
  unfold mn_next. cbn [process_event MnNmt_machine]. unfold mn_process_event.
  destruct (is_reset_event e) eqn:He.
  - split; [exact (handle_reset_state (M:=MnNmtStateMachine) m e od He)|]. unfold handle_reset.
    assert (Hf : startup_flags (fst (reset m e od)) = startup_flags m)
      by (destruct e; try discriminate He; reflexivity).
    by destruct (reset m e od).
  - cbn [current_state MnNmt_core].
    pose proof (change_state_state m od (mn_transition (startup_flags m) (mn_current_state m) e)) as Hc.
    unfold change_state in *. case_bool_decide; by split_and!.
Qed.

Lemma run_cn_state {S} `{ObjectDictionaryStorage S} es : forall m (od : ObjectDictionary S),
  cn_current_state (fst (run_nmt m od es)) = foldl cn_next (cn_current_state m) es.
Proof.
  induction es as [|e es IH]; intros m od; [done|]. simpl.
  pose proof (cn_process_state m e od) as Hp. simpl in Hp.
  destruct (cn_process_event m e od) as [[m1 od1] r]. simpl in *. by rewrite IH, Hp.
Qed.

Lemma run_mn_state {S} `{ObjectDictionaryStorage S} es : forall m (od : ObjectDictionary S),
  mn_current_state (fst (run_nmt m od es)) =
    foldl (mn_next (startup_flags m)) (mn_current_state m) es.
Proof.
  induction es as [|e es IH]; intros m od; [done|]. simpl.
  destruct (mn_process_state m e od) as (Hp&Hf&_). simpl in Hp, Hf.
  destruct (mn_process_event m e od) as [[m1 od1] r]. simpl in *. by rewrite IH, Hp, Hf.
Qed.

(** *** The history of a controlled node that operates *)
Definition cn_disturbing (e : NmtEvent) : bool :=
  is_reset_event e || match e with Ev_StopNode | Ev_Error => true | _ => false end.
Definition cn_leaving (e : NmtEvent) : bool :=
  cn_disturbing e || match e with Ev_EnterPreOperational2 => true | _ => false end.

Definition cn_configured (es : list NmtEvent) : Prop :=
  exists a b, es = a ++ Ev_CnConfigurationComplete :: b /\ Ev_SocReceived ∈ a /\
    Forall (fun e => cn_disturbing e = false) b.
Definition cn_started (es : list NmtEvent) : Prop :=
  exists a b, es = a ++ Ev_StartNode :: b /\ cn_configured a /\
    Forall (fun e => cn_leaving e = false) b.

Definition cn_history (s : NmtState) (es : list NmtEvent) : Prop :=
  match s with
  | NmtPreOperational2 | NmtCsStopped => Ev_SocReceived ∈ es
  | NmtReadyToOperate => cn_configured es
  | NmtOperational => cn_started es
  | _ => True
  end.

Lemma cn_configured_snoc es e :
  cn_configured es -> cn_disturbing e = false -> cn_configured (es ++ [e]).
Proof.
  intros (a&b&->&Ha&Hb) He. exists a, (b ++ [e]). rewrite <- app_assoc.
  split_and!; [done|done|]. apply Forall_app. by split; [|constructor].
Qed.

Lemma cn_started_snoc es e : cn_started es -> cn_leaving e = false -> cn_started (es ++ [e]).
Proof.
  intros (a&b&->&Ha&Hb) He. exists a, (b ++ [e]). rewrite <- app_assoc.
  split_and!; [done|done|]. apply Forall_app. by split; [|constructor].
Qed.

Lemma cn_configured_soc es : cn_configured es -> Ev_SocReceived ∈ es.
Proof. intros (a&b&->&Ha&_). apply elem_of_app. by left. Qed.
Lemma cn_started_soc es : cn_started es -> Ev_SocReceived ∈ es.
Proof. intros (a&b&->&Ha&_). apply elem_of_app. left. by apply cn_configured_soc. Qed.

Lemma cn_history_step s es e : cn_history s es -> cn_history (cn_next s e) (es ++ [e]).
Proof.
  intros Hs. unfold cn_next. destruct (is_reset_event e) eqn:He; [done|].
  destruct s; simpl in Hs; destruct e; try discriminate He; simpl; try done.
  all: try (apply elem_of_app; left; done).
  all: try (apply elem_of_app; right; apply list_elem_of_singleton; done).
  all: try (apply elem_of_app; left; first [by apply cn_configured_soc|by apply cn_started_soc]).
  all: try (by apply cn_configured_snoc).
  all: try (by apply cn_started_snoc).
  - by exists es, [].
  - by exists es, [].
Qed.

Lemma foldl_snoc_inv {A B} (f : A -> B -> A) (P : A -> list B -> Prop) a l :
  P a [] -> (forall a l b, P a l -> P (f a b) (l ++ [b])) -> P (foldl f a l) l.
Proof.
  intros H0 Hs. induction l as [|b l IH] using rev_ind; [done|]. rewrite foldl_snoc. by apply Hs.
Qed.

(** *** The history of a managing node that operates *)
Definition no_reset (es : list NmtEvent) : Prop := Forall (fun e => is_reset_event e = false) es.
Definition mn_identified (flags : Z) (es : list NmtEvent) : Prop :=
  exists a b, es = a ++ Ev_AllCnsIdentified :: b /\ no_reset b /\
    (bit flags 13 = true -> Ev_PowerlinkFrameReceived ∈ a).
Definition mn_configured (flags : Z) (es : list NmtEvent) : Prop :=
  exists a b, es = a ++ Ev_ConfigurationCompleteCnsReady :: b /\ mn_identified flags a /\ no_reset b.
Definition mn_started (flags : Z) (es : list NmtEvent) : Prop :=
  exists a b, es = a ++ Ev_AllMandatoryCnsOperational :: b /\ mn_configured flags a /\ no_reset b /\
    Ev_Error ∉ b.

Definition mn_history (flags : Z) (s : NmtState) (es : list NmtEvent) : Prop :=
  match s with
  | NmtPreOperational1 => bit flags 13 = true -> Ev_PowerlinkFrameReceived ∈ es
  | NmtPreOperational2 => mn_identified flags es
  | NmtReadyToOperate => mn_configured flags es
  | NmtOperational => mn_started flags es
  | NmtCsStopped => False
  | _ => True
  end.

Lemma no_reset_snoc es e : no_reset es -> is_reset_event e = false -> no_reset (es ++ [e]).
Proof. intros. apply Forall_app. by split; [|constructor]. Qed.

Lemma mn_identified_snoc f es e :
  mn_identified f es -> is_reset_event e = false -> mn_identified f (es ++ [e]).
Proof.
  intros (a&b&->&Hb&Ha) He. exists a, (b ++ [e]). rewrite <- app_assoc.
  split_and!; [done| |done]. by apply no_reset_snoc.
Qed.
Lemma mn_configured_snoc f es e :
  mn_configured f es -> is_reset_event e = false -> mn_configured f (es ++ [e]).
Proof.
  intros (a&b&->&Hb&Ha) He. exists a, (b ++ [e]). rewrite <- app_assoc.
  split_and!; [done|done|]. by apply no_reset_snoc.
Qed.
Lemma mn_started_snoc f es e :
  mn_started f es -> is_reset_event e = false -> e <> Ev_Error -> mn_started f (es ++ [e]).
Proof.
  intros (a&b&->&Ha&Hb&Hn) He Hne. exists a, (b ++ [e]). rewrite <- app_assoc.
  split_and!; [done|done|by apply no_reset_snoc|].
  rewrite elem_of_app, list_elem_of_singleton. intros [?|?]; [done|congruence].
Qed.
Lemma mn_started_frame f es :
  mn_started f es -> bit f 13 = true -> Ev_PowerlinkFrameReceived ∈ es.
Proof.
  intros (?&?&->&(?&?&->&(?&?&->&_&Hf)&_)&_) Hb. specialize (Hf Hb). set_solver.
Qed.

Lemma mn_history_step f s es e : mn_history f s es -> mn_history f (mn_next f s e) (es ++ [e]).
Proof.
  intros Hs. unfold mn_next. destruct (is_reset_event e) eqn:He; [done|].
  destruct s; simpl in Hs; destruct e; try discriminate He; simpl; try done.
  all: try (intros Hb; apply elem_of_app; left; by apply Hs).
  all: try (by apply mn_identified_snoc).
  all: try (by apply mn_configured_snoc).
  all: try (by apply mn_started_snoc).
  - destruct (bit f 13) eqn:Hb; simpl; [done|by rewrite Hb].
  - exists es, []. split_and!; [done|apply Forall_nil_2|done].
  - exists es, []. split_and!; [done|done|apply Forall_nil_2].
  - exists es, []. split_and!; [done|done|apply Forall_nil_2|apply not_elem_of_nil].
  - intros Hb. apply elem_of_app. left. by apply (mn_started_frame f).
  - intros _. set_solver.
Qed.

(** The storage holds no value for the object that shows the state. *)
Definition nothing_stored_for_state {S} `{StorageLaws S} (od : ObjectDictionary S) : Prop :=
  match storage od with Some s => contents s !! (0x1F8C, 0) = None | None => True end.

Lemma run_nmt_slot {M} `{NmtLaws M} {S} `{StorageLaws S} (m : M) (od : ObjectDictionary S) es :
  slot_ok od -> mirrored m od \/ existsb is_reset_event es = true ->
  let '(m', od') := run_nmt m od es in slot_ok od' /\ mirrored m' od'.
Proof.
  revert m od. induction es as [|e es IH]; intros m od Hs Hm; simpl.
  - destruct Hm; done.
  - pose proof (process_event_slot m od e Hs) as Hp.
    destruct (process_event m e od) as [[m1 od1] r]. destruct Hp as [Hs1 Hm1].
    apply IH; [done|]. destruct Hm as [Hm|Hm]; [left; by apply Hm1; left|].
    simpl in Hm. destruct (is_reset_event e); [left; by apply Hm1; right|by right].
Qed.

Lemma populate_keeps_absent {S} l (od : ObjectDictionary S) i :
  i ∉ l.*1 -> entries (foldl insert_if_missing od l) !! i = entries od !! i.
Proof.
  revert od. induction l as [|ie l IH]; intros od Hi; [done|]. simpl in *.
  apply not_elem_of_cons in Hi as [Hne Hi]. rewrite IH by done.
  unfold insert_if_missing. case_match; [done|]. simpl. by rewrite lookup_insert_ne.
Qed.

Lemma populate_adds {S} l1 l2 (od : ObjectDictionary S) i e :
  entries od !! i = None -> i ∉ l1.*1 -> i ∉ l2.*1 ->
  entries (foldl insert_if_missing od (l1 ++ (i, e) :: l2)) !! i = Some e.
Proof.
  intros Hi H1 H2. rewrite foldl_app. simpl. rewrite populate_keeps_absent by done.
  unfold insert_if_missing at 1. cbn [fst snd]. rewrite populate_keeps_absent, Hi by done.
  simpl. apply lookup_insert_eq.
Qed.

Lemma protocol_objects_split :
  protocol_objects = take 11 protocol_objects ++
    (0x1F8C, mkObjectEntry (Obj_Variable (OV_Unsigned8 0)) "NMT_CurrNMTState_U8" Cat_Mandatory
               (Some ReadOnly) (Some (OV_Unsigned8 0)) None (Some Pdo_No)) :: [].
Proof. reflexivity. Qed.

Lemma populate_slot {S} `{StorageLaws S} (od : ObjectDictionary S) :
  entries od !! 0x1F8C = None -> nothing_stored_for_state od ->
  slot_ok (populate_protocol_objects od).
Proof.
  intros He Hst. split; [|by rewrite populate_storage].
  assert (He' : exists e, entries (populate_protocol_objects od) !! 0x1F8C = Some e /\
    object e = Obj_Variable (OV_Unsigned8 0) /\ default_value e = Some (OV_Unsigned8 0)).
  { eexists. split.
    - unfold populate_protocol_objects. rewrite protocol_objects_split.
      apply populate_adds; [exact He| |apply not_elem_of_nil].
      apply (bool_decide_unpack _). reflexivity.
    - split; reflexivity. }
  destruct He' as (e&He1&Ho&Hd). exists e, 0. by rewrite Hd.
Qed.

(** An internal write to another place leaves the object what it is. *)
Lemma write_internal_slot {S} `{StorageLaws S} (od : ObjectDictionary S) i s v chk :
  slot_ok od -> slot_ok (fst (write_internal od i s v chk)).
Proof.
  intros [(e&w&He&Ho&Hd) Hst]. unfold write_internal.
  destruct (entries od !! i) as [e'|] eqn:Ei; [|by split; [exists e, w|]].
  destruct (write_entry i e' s v chk) as [o|] eqn:Ew; [|by split; [exists e, w|]].
  split; [|done]. simpl. destruct (decide (i = 0x1F8C)) as [->|Hne].
  - rewrite lookup_insert_eq. rewrite He in Ei. injection Ei as <-. unfold write_entry in Ew.
    destruct (_ && _); [done|]. rewrite Ho in Ew. destruct (s =? 0); [|done]. simpl in Ew.
    destruct v; simpl in Ew; try done. injection Ew as <-. by eexists _, _.
  - rewrite lookup_insert_ne by done. by exists e, w.
Qed.

Lemma restore_stored_slot {S} `{StorageLaws S} l : forall od : ObjectDictionary S,
  slot_ok od -> slot_ok (restore_stored od l).
Proof.
  induction l as [|kv l IH]; intros od Hs; [done|]. simpl. by apply IH, write_internal_slot.
Qed.

Lemma init_storage_slot {S} `{StorageLaws S} (od od' : ObjectDictionary S) :
  slot_ok od -> init_storage od = (od', Ok tt) -> slot_ok od'.
Proof.
  intros Hs Hi. destruct (storage od) as [s|] eqn:Es;
    [destruct (restore_defaults_requested s) eqn:Hf|].
  - destruct (init_storage_clears _ _ _ Es Hf Hi) as (Hent&s2&Hs2&Hc&_).
    split; [rewrite Hent; apply Hs|]. by rewrite Hs2, Hc.
  - unfold init_storage in Hi. rewrite Es, Hf in Hi. destruct (load s) as [s1 [p|]] eqn:El; [|done].
    injection Hi as <-. apply restore_stored_slot. destruct Hs as [Hent Hst]. split; [done|].
    rewrite Es in Hst. simpl. by destruct (load_same _ _ _ El) as [-> _].
  - unfold init_storage in Hi. rewrite Es in Hi. by injection Hi as <-.
Qed.

Lemma init_slot_ok {S} `{StorageLaws S} (od od' : ObjectDictionary S) :
  entries od !! 0x1F8C = None -> nothing_stored_for_state od -> init od = (od', Ok tt) ->
  slot_ok od'.
Proof.
  intros He Hn Hi. rewrite init_eq in Hi.
  exact (init_storage_slot _ _ (populate_slot od He Hn) Hi).
Qed.

(** ** Properties *)
Definition demo_cn : CnNmtStateMachine := CnNmtStateMachine_new 42 0 5000000.
Definition demo_mn (flags : Z) : MnNmtStateMachine := MnNmtStateMachine_new 240 0 1000000 flags.
Definition boot_cn : list NmtEvent :=
  [Ev_Reset; Ev_SocSoAReceived; Ev_SocReceived; Ev_EnableReadyToOperate;
   Ev_CnConfigurationComplete; Ev_StartNode].
Definition boot_mn : list NmtEvent :=
  [Ev_SwReset; Ev_Timeout; Ev_AllCnsIdentified; Ev_ConfigurationCompleteCnsReady;
   Ev_AllMandatoryCnsOperational].

(** a controlled node is operational only with the consent of both sides:
    in every event sequence from power-on that ends in [NmtOperational] there
    is a SoC, later the application's [CnConfigurationComplete], later the
    [StartNode] command, with no reset, error or [StopNode] since the first of
    the latter two and no [EnterPreOperational2] since the last. *)
Theorem cn_operational_only_after_boot {S} `{ObjectDictionaryStorage S} m (od : ObjectDictionary S) es :
  cn_current_state m = NmtGsInitialising ->
  cn_current_state (fst (run_nmt m od es)) = NmtOperational ->
  exists a b c, es = a ++ Ev_CnConfigurationComplete :: b ++ Ev_StartNode :: c /\
    Ev_SocReceived ∈ a /\ Forall (fun e => cn_disturbing e = false) b /\
    Forall (fun e => cn_leaving e = false) c.
Proof.
  intros Hm Hs. rewrite run_cn_state, Hm in Hs.
  pose proof (foldl_snoc_inv cn_next cn_history NmtGsInitialising es I cn_history_step) as Hh.
  rewrite Hs in Hh. destruct Hh as (?&c&->&(a&b&->&Ha&Hb)&Hc).
  exists a, b, c. by rewrite <- app_assoc.
Qed.

Lemma cn_operational_only_after_boot_witness :
  exists a b c, boot_cn = a ++ Ev_CnConfigurationComplete :: b ++ Ev_StartNode :: c /\
    Ev_SocReceived ∈ a /\ Forall (fun e => cn_disturbing e = false) b /\
    Forall (fun e => cn_leaving e = false) c.
Proof. apply (cn_operational_only_after_boot demo_cn demo_boot); vm_compute; reflexivity. Defined.

(** C21: a managing node becomes operational only in the order of the boot
    procedure: all nodes identified, then configured, then operational, with no
    reset in between and no error since; with start-up bit 13 set it has seen a
    POWERLINK frame before it identified the nodes.  In no event sequence does
    the machine stop, and from every state it reaches no event makes it report
    an error of its own. *)
Theorem mn_operational_only_after_boot {S} `{ObjectDictionaryStorage S} m (od : ObjectDictionary S) es :
  mn_current_state m = NmtGsInitialising ->
  mn_current_state (fst (run_nmt m od es)) <> NmtCsStopped /\
  (forall e, let '(m', od') := run_nmt m od es in snd (process_event m' e od') = None) /\
  (mn_current_state (fst (run_nmt m od es)) = NmtOperational ->
   exists a b c d, es = a ++ Ev_AllCnsIdentified :: (b ++ Ev_ConfigurationCompleteCnsReady ::
                        (c ++ Ev_AllMandatoryCnsOperational :: d)) /\
     no_reset b /\ no_reset c /\ no_reset d /\ (Ev_Error ∉ d) /\
     (bit (startup_flags m) 13 = true -> Ev_PowerlinkFrameReceived ∈ a)).
Proof.
  intros Hm. rewrite run_mn_state, Hm.
  pose proof (foldl_snoc_inv (mn_next (startup_flags m)) (mn_history (startup_flags m))
    NmtGsInitialising es I (mn_history_step (startup_flags m))) as Hh.
  split_and!.
  - intros Hs. by rewrite Hs in Hh.
  - intros e. destruct (run_nmt m od es) as [m' od']. apply mn_process_state.
  - intros Hs. rewrite Hs in Hh.
    destruct Hh as (?&d&->&(?&c&->&(a&b&->&Hb&Ha)&Hc)&Hd&He).
    exists a, b, c, d. split_and!; try done. rewrite <- !app_assoc. simpl. by rewrite <- ?app_assoc.
Qed.

Lemma mn_operational_only_after_boot_witness :
  exists a b c d, boot_mn = a ++ Ev_AllCnsIdentified :: (b ++ Ev_ConfigurationCompleteCnsReady ::
                            (c ++ Ev_AllMandatoryCnsOperational :: d)) /\
     no_reset b /\ no_reset c /\ no_reset d /\ (Ev_Error ∉ d) /\
     (bit 0 13 = true -> Ev_PowerlinkFrameReceived ∈ a).
Proof.
  apply (proj2 (proj2 (mn_operational_only_after_boot (demo_mn 0) demo_boot boot_mn eq_refl))).
  vm_compute. reflexivity.
Defined.

(** C40: the current NMT state is what object 0x1F8C shows.  For a dictionary
    whose object 0x1F8C is an UNSIGNED8 variable, with no default or an UNSIGNED8
    one, and whose storage holds no value for it ([slot_ok]): in every event
    sequence of either machine the object shows the state afterwards, if it did
    before or if a reset occurs in the sequence, and the condition still holds.
    The dictionary that a successful [init] makes of a firmware's satisfies it
    if the firmware leaves 0x1F8C to the predefined objects and its storage
    holds no value for it. *)
Theorem nmt_state_mirrored_in_od {M} `{NmtLaws M} {S} `{StorageLaws S} :
  (forall (m : M) (od : ObjectDictionary S) es,
     slot_ok od -> mirrored m od \/ existsb is_reset_event es = true ->
     let '(m', od') := run_nmt m od es in slot_ok od' /\ mirrored m' od') /\
  (forall od0 od : ObjectDictionary S, entries od0 !! 0x1F8C = None ->
     nothing_stored_for_state od0 -> init od0 = (od, Ok tt) -> slot_ok od).
Proof.
  split; [intros m od es; by apply run_nmt_slot|]. intros od0 od. apply init_slot_ok.
Qed.

Lemma nmt_state_mirrored_in_od_witness :
  (let '(m', od') := run_nmt demo_cn demo_boot boot_cn in slot_ok od' /\ mirrored m' od') /\
  slot_ok (fst (init (mkOD ∅ (Some (mkMemStorage {[ (0x1300, 0) := OV_Unsigned32 9000 ]} false))))).
Proof.
  split.
  - apply (proj1 (nmt_state_mirrored_in_od (M := CnNmtStateMachine)) demo_cn demo_boot boot_cn).
    + split; [|vm_compute; reflexivity]. eexists _, _. split; [vm_compute; reflexivity|].
      split; [reflexivity|]. reflexivity.
    + right. reflexivity.
  - apply (proj2 (nmt_state_mirrored_in_od (M := CnNmtStateMachine))
      (mkOD ∅ (Some (mkMemStorage {[ (0x1300, 0) := OV_Unsigned32 9000 ]} false))));
      [reflexivity|vm_compute; reflexivity|vm_compute; reflexivity].
Defined.

(** every reset ends in [NmtNotActive].  Up to the mirror object its effect
    on the dictionary is to restore the power-on values of the ranges of its
    kind: application and communication ranges for a node reset, communication
    only for a communication reset, none for a configuration reset; every object
    outside these ranges, and the error history, is left as it was. *)
Theorem reset_restores_its_ranges {M} `{NmtLaws M} {S} `{ObjectDictionaryStorage S} (m : M) e
    (od : ObjectDictionary S) :
  is_reset_event e = true ->
  let '(m', od') := reset m e od in
  current_state m' = NmtNotActive /\ agree od' (restore_ranges od (reset_ranges e)) /\
  (forall i, i <> 0x1F8C ->
     i = 0x1003 \/ Forall (fun r => i < fst r \/ snd r < i) (reset_ranges e) ->
     entries od' !! i = entries od !! i).
Proof.
  intros He. destruct (reset_agrees m e od He) as [Ha Hs]. destruct (reset m e od) as [m' od'].
  simpl in *. split; [done|]. split; [done|]. intros i Hi Hr.
  destruct Ha as [_ Ha]. rewrite Ha by done. by apply restore_ranges_untouched.
Qed.

Lemma reset_restores_its_ranges_witness :
  let '(m', od') := reset demo_cn Ev_ResetCommunication demo_boot in
  entries od' !! 0x0420 = entries demo_boot !! 0x0420.
Proof.
  pose proof (reset_restores_its_ranges demo_cn Ev_ResetCommunication demo_boot eq_refl) as Hr.
  destruct (reset demo_cn Ev_ResetCommunication demo_boot) as [m' od'].
  apply Hr; [discriminate|]. right. repeat constructor; simpl; lia.
Defined.
