(* ===== verification/OdSchema.v ===== *)
(** * The types of a dictionary

    What no operation of the stack changes: which objects a dictionary has, the name, category,
    access, default, range and mapping of each, the number of its values and their types.  The
    one exception is the length of the error history 0x1003.  [od_evolves] says it of two
    dictionaries, as a preorder, so that it is proved operation by operation and composed along
    the handlers of the nodes. *)
From S2P Require Import Prelude Types ErrorEntry ObjectDict OdPredefined Nmt.

(** What the trait's documentation makes of the storage: a load returns only what was there
    or was given to a save, also where an operation fails. *)
Class StorageKeeps (S : Type) `{ObjectDictionaryStorage S} : Type := {
  may_load : S -> Z * Z -> ObjectValue -> Prop;
  load_may : forall s s' r, load s = (s', r) ->
    (forall m k v, r = Ok m -> m !! k = Some v -> may_load s k v) /\
    (forall k v, may_load s' k v -> may_load s k v);
  save_may : forall s s' m r, save s m = (s', r) ->
    forall k v, may_load s' k v -> may_load s k v \/ m !! k = Some v;
  clear_may : forall s s' r, clear s = (s', r) -> forall k v, may_load s' k v -> may_load s k v;
  request_may : forall s s' r, request_restore_defaults s = (s', r) ->
    forall k v, may_load s' k v -> may_load s k v;
  clear_flag_may : forall s s' r, clear_restore_defaults_flag s = (s', r) ->
    forall k v, may_load s' k v -> may_load s k v
}.

#[export, refine] Instance MemStorage_keeps : StorageKeeps MemStorage :=
  { may_load s k v := mem_params s !! k = Some v }.
Proof. all: intros; simpl in *; simplify_eq; simpl in *; naive_solver. Defined.

(** ** Signatures *)
Definition error_history : Z := 0x1003.

(** An entry without its values, with the types of the values. *)
Definition signature (index : Z) (e : ObjectEntry) : (Z * list Z) * ObjectEntry :=
  (match object e with
   | Obj_Array _ => if index =? error_history then (1, []) else object_shape (object e)
   | o => object_shape o
   end, set_object e (Obj_Array [])).
Definition signatures {S} (od : ObjectDictionary S) : gmap Z ((Z * list Z) * ObjectEntry) :=
  map_imap (fun i e => Some (signature i e)) (entries od).

Lemma signatures_lookup {S} (od : ObjectDictionary S) i :
  signatures od !! i = signature i <$> entries od !! i.
Proof. unfold signatures. rewrite map_lookup_imap. by destruct (entries od !! i). Qed.

Lemma signatures_entries {S} (d d' : ObjectDictionary S) :
  entries d' = entries d -> signatures d' = signatures d.
Proof. unfold signatures. by intros ->. Qed.

Lemma signature_set i e o :
  (object_shape o = object_shape (object e) \/
   i = error_history /\ exists vs ws, object e = Obj_Array vs /\ o = Obj_Array ws) ->
  signature i (set_object e o) = signature i e.
Proof.
  unfold signature. intros [Ho|[-> (vs&ws&He&->)]].
  - simpl. unfold set_object. f_equal. destruct o, (object e); simpl in *; try congruence.
    case_match; congruence.
  - rewrite He. done.
Qed.

Lemma signatures_insert {S} (d : ObjectDictionary S) i e o :
  entries d !! i = Some e ->
  (object_shape o = object_shape (object e) \/
   i = error_history /\ exists vs ws, object e = Obj_Array vs /\ o = Obj_Array ws) ->
  signatures (insert_entry d i (set_object e o)) = signatures d.
Proof.
  intros He Ho. apply map_eq. intros j. rewrite !signatures_lookup. simpl.
  destruct (decide (j = i)) as [->|Hne]; [|by rewrite lookup_insert_ne].
  rewrite lookup_insert_eq, He. simpl. by rewrite signature_set.
Qed.

(** Entries of dictionaries with the same signatures. *)
Lemma same_signature {S} (d d' : ObjectDictionary S) i e' :
  signatures d' = signatures d -> entries d' !! i = Some e' ->
  exists e, entries d !! i = Some e /\ set_object e' (Obj_Array []) = set_object e (Obj_Array []) /\
    (i <> error_history -> object_shape (object e') = object_shape (object e)).
Proof.
  intros Hs He. assert (Hl : signatures d' !! i = signatures d !! i) by (by rewrite Hs).
  rewrite !signatures_lookup, He in Hl. simpl in Hl.
  destruct (entries d !! i) as [e|]; [|done]. simpl in Hl. injection Hl as H1 H2.
  exists e. split; [done|]. split; [unfold set_object in *; congruence|]. intros Hne.
  apply Z.eqb_neq in Hne. rewrite Hne in H1. destruct (object e'), (object e); simpl in *; congruence.
Qed.

(** ** Typed dictionaries *)
Section Typed.
Context {S : Type} `{ST : ObjectDictionaryStorage S}.
Implicit Types d : ObjectDictionary S.

(** The default of a variable, and what the storage holds for a value, have its type; an
    object has at most the 254 values a sub-index can name. *)
Record od_typed `{!StorageKeeps S} d : Prop := mkTyped {
  typed_small : map_Forall (fun _ e => small e) (entries d);
  typed_default : forall i e v w, entries d !! i = Some e -> object e = Obj_Variable v ->
    default_value e = Some w -> discriminant w = discriminant v;
  typed_stored : forall st i e s v w, storage d = Some st -> i <> error_history -> 0 <= s ->
    entries d !! i = Some e -> is_count e s = false -> read_entry e s = Some v ->
    may_load st (i, s) w -> discriminant w = discriminant v
}.

Definition storage_within `{!StorageKeeps S} d d' : Prop :=
  forall s', storage d' = Some s' -> exists s, storage d = Some s /\
    forall k v, may_load s' k v -> may_load s k v.

(** A dictionary evolves into another: the signatures stay, and the types are kept. *)
Definition od_evolves d d' : Prop :=
  forall K : StorageKeeps S, od_typed d -> od_typed d' /\ signatures d' = signatures d.
#[export] Instance od_evolves_preorder : PreOrder od_evolves.
Proof.
  split; [by intros d K|]. intros a b c H1 H2 K Ha.
  destruct (H1 K Ha) as [Hb E1]. destruct (H2 K Hb) as [Hc E2]. split; [done|congruence].
Qed.

Lemma typed_same `{!StorageKeeps S} d d' :
  map_Forall (fun _ e => small e) (entries d') -> signatures d' = signatures d ->
  storage_within d d' -> od_typed d -> od_typed d'.
Proof.
  intros Hsm Hs Hst [T1 T2 T3]. split; [done| |].
  - intros i e' v' w He' Ho Hd. destruct (same_signature d d' i e' Hs He') as (e&He&Hm&Hsh).
    assert (default_value e = Some w) as Hde by (unfold set_object in Hm; congruence).
    destruct (decide (i = error_history)) as [->|Hne].
    + pose proof (f_equal (lookup error_history) Hs) as Hl. rewrite !signatures_lookup, He, He' in Hl.
      simpl in Hl. injection Hl as Hl _. rewrite Ho in Hl.
      destruct (object e) as [v|vs|vs] eqn:Eo; simpl in Hl; try discriminate.
      rewrite (T2 _ _ _ _ He Eo Hde). congruence.
    + specialize (Hsh Hne). rewrite Ho in Hsh. destruct (object e) as [v|vs|vs] eqn:Eo; simpl in Hsh; try discriminate.
      rewrite (T2 _ _ _ _ He Eo Hde). congruence.
  - intros st' i e' s v' w Hst' Hne H0 He' Hc Hr Hm.
    destruct (Hst st' Hst') as (st&E&Hw). destruct (same_signature d d' i e' Hs He') as (e&He&_&Hsh).
    specialize (Hsh Hne). pose proof (read_entry_type e' s) as Ht.
    rewrite Hr, Hsh, <- read_entry_type in Ht. destruct (read_entry e s) as [v|] eqn:Er; [|done].
    simpl in Ht. injection Ht as Ht. rewrite Ht.
    apply (T3 st i e s v w); try done; [|by apply Hw]. by rewrite <- (is_count_shape e' e s Hsh).
Qed.

Lemma within_storage `{!StorageKeeps S} d d' : storage d' = storage d -> storage_within d d'.
Proof. intros E s' Hs. exists s'. by rewrite <- E. Qed.
End Typed.

Lemma shape_length o o' : object_shape o = object_shape o' -> length (object_values o) = length (object_values o').
Proof.
  destruct o, o'; simpl; intros [= E]; try done;
    by rewrite <- (length_map discriminant), E, length_map.
Qed.

(** ** The operations *)
Section Operations.
Context {S : Type} `{ST : ObjectDictionaryStorage S}.
Implicit Types d : ObjectDictionary S.

(** Storing an object of the same shape. *)
Lemma types_object d i e o : entries d !! i = Some e -> object_shape o = object_shape (object e) ->
  od_evolves d (insert_entry d i (set_object e o)).
Proof.
  intros He Ho K Ht. assert (Hs : signatures (insert_entry d i (set_object e o)) = signatures d)
    by (apply signatures_insert; auto).
  split; [|done]. eapply typed_same; [|exact Hs|by apply within_storage|done].
  pose proof (typed_small d Ht) as Hsm. apply map_Forall_insert_2; [|done].
  unfold small. cbn [set_object object]. rewrite (shape_length _ _ Ho). by apply (Hsm i).
Qed.

Lemma types_write_internal d i s v chk : od_evolves d (fst (write_internal d i s v chk)).
Proof.
  unfold write_internal. destruct (entries d !! i) as [e|] eqn:Ee; [|done].
  destruct (write_entry i e s v chk) as [o|] eqn:Ew; [|done].
  apply types_object; [done|]. by eapply write_entry_shape.
Qed.

Lemma types_increment d i s : od_evolves d (increment_counter d i s).
Proof.
  unfold increment_counter. destruct (entries d !! i) as [e|] eqn:Ee; [|done].
  destruct (object e) as [x|vs|vs] eqn:Eo; repeat case_match; try done;
    (apply types_object; [done|]); rewrite Eo; simpl.
  - by rewrite discriminant_bump.
  - f_equal. apply map_alter_same, discriminant_bump.
Qed.

Lemma types_history d en : od_evolves d (write_error_to_history d en).
Proof.
  unfold write_error_to_history. destruct (entries d !! 0x1003) as [e|] eqn:Ee; [|done].
  destruct (object e) as [x|vs|vs] eqn:Eo; [done| |done]. intros K Ht.
  match goal with |- context [set_object e (Obj_Array ?l)] => set (ws := l) end.
  assert (Hs : signatures (insert_entry d 0x1003 (set_object e (Obj_Array ws))) = signatures d).
  { apply signatures_insert; [done|]. right. split; [done|]. by exists vs, ws. }
  split; [|done]. eapply typed_same; [|exact Hs|by apply within_storage|done].
  pose proof (typed_small d Ht) as Hsm. apply map_Forall_insert_2; [|done].
  specialize (Hsm _ _ Ee). unfold small in *. rewrite Eo in Hsm. cbn [object set_object object_values] in *.
  subst ws. case_match eqn:Hl; [|apply Nat.ltb_ge in Hl; lia].
  rewrite removelast_firstn_len, length_take. simpl. lia.
Qed.

Lemma types_store d n : od_evolves d (fst (store_parameters d n)).
Proof.
  unfold store_parameters. destruct (n =? 0); [done|]. destruct (storage d) as [st|] eqn:Es; [|done].
  destruct (save st _) as [st' r] eqn:Ev. intros K [T1 T2 T3]. split; [|done]. split; [done|done|].
  intros st1 i e s v w [= <-] Hne H0 He Hc Hr Hm.
  destruct (save_may _ _ _ _ Ev _ _ Hm) as [Hm'|Hp]; [by eapply T3|].
  apply storable_params_lookup in Hp as (e1&He1&_&_&_&_&Hr1); [|done]. cbn [fst] in He.
  cbn [entries set_storage] in He. rewrite He in He1. injection He1 as <-. congruence.
Qed.

Lemma types_restore_defaults d n : od_evolves d (fst (restore_defaults d n)).
Proof.
  unfold restore_defaults. destruct (n =? 0); [done|]. destruct (storage d) as [st|] eqn:Es; [|done].
  destruct (request_restore_defaults st) as [st' r] eqn:Ev. intros K Ht. split; [|done].
  apply (typed_same d); [exact (typed_small d Ht)|done| |done]. intros s' [= <-]. exists st.
  split; [done|]. by apply (request_may _ _ _ Ev).
Qed.

Lemma types_write d i s v : od_evolves d (fst (write d i s v)).
Proof.
  unfold write. destruct (i =? 0x1010).
  { destruct v; try done. destruct (_ && _); [apply types_store|done]. }
  destruct (i =? 0x1011).
  { destruct v; try done. destruct (_ && _); [apply types_restore_defaults|done]. }
  destruct (is_pdo_mapping_index0 i s); [|apply types_write_internal].
  destruct v; try done. destruct (validate_pdo_mapping _ _ _); [apply types_write_internal|done].
Qed.

Lemma map_imap_same (f : nat -> ObjectValue -> ObjectValue) vs :
  (forall k v, vs !! k = Some v -> discriminant (f k v) = discriminant v) ->
  map discriminant (imap f vs) = map discriminant vs.
Proof.
  intros Hf. apply list_eq. intros k. change (map ?g ?l) with (g <$> l).
  rewrite !list_lookup_fmap, list_lookup_imap. destruct (vs !! k) eqn:Ev; [|done]. simpl. by rewrite Hf.
Qed.

Lemma load_for_restore_keeps `{!StorageKeeps S} d :
  storage_within d (fst (load_for_restore d)) /\
  forall p k v, snd (load_for_restore d) = Some p -> p !! k = Some v ->
    exists st, storage d = Some st /\ may_load st k v.
Proof.
  unfold load_for_restore. destruct (storage d) as [st|] eqn:Es.
  - destruct (load st) as [st' r] eqn:El. destruct (load_may _ _ _ El) as [Hl Hk].
    destruct r as [m|e]; (split; [intros s' [= <-]; by exists st|]); [|done].
    intros p k v [= <-] Hp. exists st. split; [done|]. by eapply Hl.
  - split; [by apply within_storage|done].
Qed.

Lemma restore_object_shape `{!StorageKeeps S} d i e :
  od_typed d -> i <> error_history -> entries d !! i = Some e ->
  object_shape (restore_object (snd (load_for_restore d)) i e) = object_shape (object e).
Proof.
  intros Ht Hne He. destruct (load_for_restore_keeps d) as [_ Hl].
  assert (Hst : forall s v w, 0 <= s -> is_count e s = false -> read_entry e s = Some v ->
    stored_value (snd (load_for_restore d)) i s = Some w -> discriminant w = discriminant v).
  { intros s v w H0 Hc Hr Hv. unfold stored_value in Hv.
    destruct (snd (load_for_restore d)) as [p|] eqn:Ep; [|done].
    destruct (Hl p (i, s) w eq_refl Hv) as (st&Es&Hm). by eapply (typed_stored d Ht). }
  pose proof (typed_small d Ht i e He) as Hsm. unfold small in Hsm.
  assert (Hsub : forall vs, sub_values (object e) = Some vs -> (length vs <= 254)%nat ->
    map discriminant (imap (restore_sub (snd (load_for_restore d)) (default_value e) i) vs) = map discriminant vs).
  { intros vs Eo Hlen. apply map_imap_same. intros k v Hk. unfold restore_sub.
    pose proof (lookup_lt_Some _ _ _ Hk). unfold u8. rewrite wrap_small by (unfold in_width; lia).
    destruct (stored_value _ i _) as [w|] eqn:Ew.
    - apply (Hst (Z.of_nat k + 1)); try done; [lia| |].
      + unfold is_count. destruct (Z.eqb_spec (Z.of_nat k + 1) 0); [lia|done].
      + unfold read_entry. destruct (Z.eqb_spec (Z.of_nat k + 1) 0); [lia|].
        replace (Z.to_nat (Z.of_nat k + 1 - 1)) with k by lia.
        destruct (object e); simpl in Eo; simplify_eq; done.
    - destruct (default_value e) as [w|]; [|done]. by destruct (Z.eqb_spec (discriminant v) (discriminant w)). }
  unfold restore_object. destruct (object e) as [v|vs|vs] eqn:Eo; simpl in *.
  - destruct (stored_value _ i 0) as [w|] eqn:Ew; simpl; do 2 f_equal.
    + apply (Hst 0 v w); try done; [unfold is_count|unfold read_entry]; by rewrite Eo.
    + destruct (default_value e) as [w|] eqn:Ed; [|done]. by eapply (typed_default d Ht).
  - f_equal. by apply Hsub.
  - f_equal. by apply Hsub.
Qed.

Lemma types_restore d a b : od_evolves d (restore_power_on_values d a b).
Proof.
  intros K Ht. destruct (load_for_restore_keeps d) as [Hst _].
  assert (Hsh : forall i e, entries d !! i = Some e ->
    signature i (restore_entry (snd (load_for_restore d)) a b i e) = signature i e /\
    small (restore_entry (snd (load_for_restore d)) a b i e)).
  { intros i e He. pose proof (typed_small d Ht i e He) as Hsm. unfold restore_entry.
    destruct (_ || _); [done|]. destruct (Z.eqb_spec i 0x1003) as [|Hne]; [done|].
    pose proof (restore_object_shape d i e Ht Hne He) as Ho. split.
    - apply signature_set. by left.
    - unfold small in *. cbn [set_object object]. by rewrite (shape_length _ _ Ho). }
  assert (Hs : signatures (restore_power_on_values d a b) = signatures d).
  { apply map_eq. intros i. rewrite !signatures_lookup, restore_lookup.
    destruct (entries d !! i) as [e|] eqn:He; [|done]. simpl. by rewrite (proj1 (Hsh i e He)). }
  split; [|done]. apply (typed_same d); [|done| |done].
  - intros i e'. rewrite restore_lookup. destruct (entries d !! i) as [e|] eqn:He; [|done].
    intros [= <-]. by apply Hsh.
  - intros s'. unfold restore_power_on_values. destruct (load_for_restore d) as [d1 p]. apply Hst.
Qed.
End Operations.

(** Chains of operations, one at a time. *)
Create HintDb od_steps.
#[export] Hint Resolve types_write_internal types_increment types_history types_write
  types_restore : od_steps.

(** ** Network management *)
Section Machines.
Context {M : Type} `{NmtLaws M} {S : Type} `{ST : ObjectDictionaryStorage S}.
Implicit Types (m : M) (d : ObjectDictionary S).

Lemma types_update m d : od_evolves d (update_od_state m d).
Proof. apply types_write_internal. Qed.

Lemma types_reset_od m e d : od_evolves d (snd (reset m e d)).
Proof.
  unfold reset. destruct (initial_reset_state e) as [s|]; [|done]. unfold enter. cbv zeta.
  destruct s; repeat (rewrite bool_decide_eq_true_2 by done || rewrite bool_decide_eq_false_2 by done);
    simpl; repeat first [apply types_update | etransitivity; [|apply types_update]
                        | etransitivity; [|apply types_restore]]; reflexivity.
Qed.

Lemma types_process_event m e d : od_evolves d (snd (fst (process_event m e d))).
Proof.
  destruct (is_reset_event e) eqn:He.
  - rewrite process_reset by done. unfold handle_reset.
    pose proof (types_reset_od m e d) as Hr. destruct (reset m e d) as [m' d']. cbn [fst snd] in *.
    case_match; [|done]. etransitivity; [exact Hr|apply types_update].
  - destruct (process_other S ST m e d He) as [next ->]. unfold change_state.
    case_match; [|done]. apply types_update.
Qed.

Lemma types_initialisation m d : od_evolves d (snd (run_internal_initialisation m d)).
Proof. unfold run_internal_initialisation. case_match; [done|apply types_reset_od]. Qed.
End Machines.

(** ** Start-up *)
Section Start.
Context {S : Type} `{ST : ObjectDictionaryStorage S}.
Implicit Types d : ObjectDictionary S.

Lemma types_restore_stored l d : od_evolves d (restore_stored d l).
Proof.
  unfold restore_stored. revert d. induction l as [|kv l IH]; intros d; [done|]. cbn [foldl].
  etransitivity; [|apply IH]. apply types_write_internal.
Qed.

Lemma types_set_storage d st st' : storage d = Some st ->
  (forall `{!StorageKeeps S} k v, may_load st' k v -> may_load st k v) -> od_evolves d (set_storage d st').
Proof.
  intros Hs Hm K Ht. split; [|done]. apply (typed_same d); [exact (typed_small d Ht)|done| |done].
  intros s' [= <-]. exists st. split; [done|]. apply Hm.
Qed.

Lemma types_init_storage d : od_evolves d (fst (init_storage d)).
Proof.
  unfold init_storage. destruct (storage d) as [st|] eqn:Es; [|done].
  destruct (restore_defaults_requested st).
  - destruct (clear st) as [st1 r1] eqn:E1.
    assert (H1 : od_evolves d (set_storage d st1)) by (eapply types_set_storage; [done|]; intros ?; by apply (clear_may _ _ _ E1)).
    destruct r1; [|done]. destruct (clear_restore_defaults_flag st1) as [st2 r2] eqn:E2.
    etransitivity; [exact H1|]. apply (types_set_storage _ st1); [done|]. intros ?. by apply (clear_flag_may _ _ _ E2).
  - destruct (load st) as [st1 r1] eqn:E1.
    assert (H1 : od_evolves d (set_storage d st1)) by (eapply types_set_storage; [done|]; intros ?; by apply (load_may _ _ _ E1)).
    destruct r1; [|done]. etransitivity; [exact H1|]. apply types_restore_stored.
Qed.

Lemma types_init d : od_evolves (populate_protocol_objects d) (fst (init d)).
Proof. rewrite init_eq. apply types_init_storage. Qed.
End Start.
