(* ===== verification/SdoCodec.v ===== *)
(** * SDO wire formats

    [sdo/sequence.rs], [sdo/command/base.rs], [sdo/asnd.rs], [sdo/udp.rs] and
    [sdo/embedded.rs]: the sequence layer header, the command layer with its
    request payloads, and the three containers that carry them (an ASnd
    payload, a UDP datagram, a PDO channel).  A serializer that writes into a
    buffer returns the buffer and the number of bytes, as in [Frames]. *)
From S2P Require Import Prelude Utf8 Types Frames.

(** ** The sequence layer ([sdo/sequence.rs]) *)
Inductive ReceiveConnState : Type :=
| Rcon_NoConnection | Rcon_Initialization | Rcon_ConnectionValid | Rcon_ErrorResponse.
#[export] Instance ReceiveConnState_eq_dec : EqDecision ReceiveConnState.
Proof. solve_decision. Defined.

Definition ReceiveConnState_as_u8 (s : ReceiveConnState) : Z :=
  match s with
  | Rcon_NoConnection => 0 | Rcon_Initialization => 1
  | Rcon_ConnectionValid => 2 | Rcon_ErrorResponse => 3
  end.
Definition ReceiveConnState_try_from (value : Z) : res ReceiveConnState :=
  match value with
  | 0 => Ok Rcon_NoConnection
  | 1 => Ok Rcon_Initialization
  | 2 => Ok Rcon_ConnectionValid
  | 3 => Ok Rcon_ErrorResponse
  | _ => Err InvalidEnumValue
  end.
#[export, refine] Instance ReceiveConnState_enum : ByteEnum ReceiveConnState :=
  { to_u8 := ReceiveConnState_as_u8; from_u8 := ReceiveConnState_try_from }.
Proof. all: byte_enum. Defined.

Inductive SendConnState : Type :=
| Scon_NoConnection | Scon_Initialization | Scon_ConnectionValid | Scon_ConnectionValidAckRequest.
#[export] Instance SendConnState_eq_dec : EqDecision SendConnState.
Proof. solve_decision. Defined.

Definition SendConnState_as_u8 (s : SendConnState) : Z :=
  match s with
  | Scon_NoConnection => 0 | Scon_Initialization => 1
  | Scon_ConnectionValid => 2 | Scon_ConnectionValidAckRequest => 3
  end.
Definition SendConnState_try_from (value : Z) : res SendConnState :=
  match value with
  | 0 => Ok Scon_NoConnection
  | 1 => Ok Scon_Initialization
  | 2 => Ok Scon_ConnectionValid
  | 3 => Ok Scon_ConnectionValidAckRequest
  | _ => Err InvalidEnumValue
  end.
#[export, refine] Instance SendConnState_enum : ByteEnum SendConnState :=
  { to_u8 := SendConnState_as_u8; from_u8 := SendConnState_try_from }.
Proof. all: byte_enum. Defined.

Record SequenceLayerHeader : Type := mkSeqHeader {
  receive_sequence_number : Z; receive_con : ReceiveConnState;
  send_sequence_number : Z; send_con : SendConnState
}.
#[export] Instance SequenceLayerHeader_eq_dec : EqDecision SequenceLayerHeader.
Proof. solve_decision. Defined.

(** [#[derive(Default)]]. *)
Definition SequenceLayerHeader_default : SequenceLayerHeader :=
  mkSeqHeader 0 Rcon_NoConnection 0 Scon_NoConnection.

Definition SequenceLayerHeader_serialize (h : SequenceLayerHeader) (buffer : bytes)
    : bytes * res nat :=
  let HEADER_SIZE := 4%nat in
  if (length buffer <? HEADER_SIZE)%nat then (buffer, Err BufferTooShort) else
  let buffer := put buffer 0 [Z.lor (u8 (Z.shiftl (receive_sequence_number h) 2))
                                    (ReceiveConnState_as_u8 (receive_con h))] in
  let buffer := put buffer 1 [Z.lor (u8 (Z.shiftl (send_sequence_number h) 2))
                                    (SendConnState_as_u8 (send_con h))] in
  let buffer := put buffer 2 [0; 0] in
  (buffer, Ok HEADER_SIZE).

Definition SequenceLayerHeader_deserialize (buffer : bytes) : res SequenceLayerHeader :=
  let HEADER_SIZE := 4%nat in
  if (length buffer <? HEADER_SIZE)%nat then Err BufferTooShort else
  let octet0 := byte_at buffer 0 in
  let octet1 := byte_at buffer 1 in
  let? rcon := ReceiveConnState_try_from (Z.land octet0 3) in
  let? scon := SendConnState_try_from (Z.land octet1 3) in
  Ok {| receive_con := rcon;
        receive_sequence_number := Z.land (Z.shiftr octet0 2) 63;
        send_con := scon;
        send_sequence_number := Z.land (Z.shiftr octet1 2) 63 |}.

(** Sequence numbers have six bits. *)
Definition seq_header_ok (h : SequenceLayerHeader) : Prop :=
  0 <= receive_sequence_number h < 64 /\ 0 <= send_sequence_number h < 64.

(** ** The command layer ([sdo/command/base.rs]) *)
Inductive CommandId : Type :=
| Cid_Nil | Cid_WriteByIndex | Cid_ReadByIndex | Cid_WriteAllByIndex | Cid_ReadAllByIndex
| Cid_WriteByName | Cid_ReadByName | Cid_FileWrite | Cid_FileRead
| Cid_WriteMultipleParamByIndex | Cid_ReadMultipleParamByIndex | Cid_Abort | Cid_MaxSegmentSize.
#[export] Instance CommandId_eq_dec : EqDecision CommandId.
Proof. solve_decision. Defined.

Definition CommandId_as_u8 (c : CommandId) : Z :=
  match c with
  | Cid_Nil => 0x00 | Cid_WriteByIndex => 0x01 | Cid_ReadByIndex => 0x02
  | Cid_WriteAllByIndex => 0x03 | Cid_ReadAllByIndex => 0x04
  | Cid_WriteByName => 0x05 | Cid_ReadByName => 0x06
  | Cid_FileWrite => 0x20 | Cid_FileRead => 0x21
  | Cid_WriteMultipleParamByIndex => 0x31 | Cid_ReadMultipleParamByIndex => 0x32
  | Cid_Abort => 0x40 | Cid_MaxSegmentSize => 0x70
  end.
Definition CommandId_try_from (value : Z) : res CommandId :=
  match value with
  | 0x00 => Ok Cid_Nil
  | 0x01 => Ok Cid_WriteByIndex
  | 0x02 => Ok Cid_ReadByIndex
  | 0x03 => Ok Cid_WriteAllByIndex
  | 0x04 => Ok Cid_ReadAllByIndex
  | 0x05 => Ok Cid_WriteByName
  | 0x06 => Ok Cid_ReadByName
  | 0x20 => Ok Cid_FileWrite
  | 0x21 => Ok Cid_FileRead
  | 0x31 => Ok Cid_WriteMultipleParamByIndex
  | 0x32 => Ok Cid_ReadMultipleParamByIndex
  | 0x40 => Ok Cid_Abort
  | 0x70 => Ok Cid_MaxSegmentSize
  | _ => Err InvalidEnumValue
  end.
#[export, refine] Instance CommandId_enum : ByteEnum CommandId :=
  { to_u8 := CommandId_as_u8; from_u8 := CommandId_try_from }.
Proof. all: byte_enum. Defined.

Inductive Segmentation : Type := Seg_Expedited | Seg_Initiate | Seg_Segment | Seg_Complete.
#[export] Instance Segmentation_eq_dec : EqDecision Segmentation.
Proof. solve_decision. Defined.

Definition Segmentation_as_u8 (s : Segmentation) : Z :=
  match s with Seg_Expedited => 0 | Seg_Initiate => 1 | Seg_Segment => 2 | Seg_Complete => 3 end.
Definition Segmentation_try_from (value : Z) : res Segmentation :=
  match value with
  | 0 => Ok Seg_Expedited
  | 1 => Ok Seg_Initiate
  | 2 => Ok Seg_Segment
  | 3 => Ok Seg_Complete
  | _ => Err InvalidEnumValue
  end.
#[export, refine] Instance Segmentation_enum : ByteEnum Segmentation :=
  { to_u8 := Segmentation_as_u8; from_u8 := Segmentation_try_from }.
Proof. all: byte_enum. Defined.

Record CommandLayerHeader : Type := mkCmdHeader {
  transaction_id : Z; is_response : bool; is_aborted : bool;
  segmentation : Segmentation; command_id : CommandId; segment_size : Z
}.
#[export] Instance CommandLayerHeader_eq_dec : EqDecision CommandLayerHeader.
Proof. solve_decision. Defined.

Definition CommandLayerHeader_default : CommandLayerHeader :=
  mkCmdHeader 0 false false Seg_Expedited Cid_Nil 0.

Record SdoCommand : Type := mkSdoCommand {
  cmd_header : CommandLayerHeader; data_size : option Z; payload : bytes
}.
#[export] Instance SdoCommand_eq_dec : EqDecision SdoCommand.
Proof. solve_decision. Defined.

(** The flags octet shared with the PDO channel. *)
Definition command_flags (is_response is_aborted : bool) (seg : Segmentation) : Z :=
  Z.lor (Z.lor (flag is_response 0x10) (flag is_aborted 0x20))
        (u8 (Z.shiftl (Segmentation_as_u8 seg) 6)).

Definition SdoCommand_deserialize (buffer : bytes) : res SdoCommand :=
  let FIXED_HEADER_SIZE := 8%nat in
  if (length buffer <? FIXED_HEADER_SIZE)%nat then Err BufferTooShort else
  let transaction_id := byte_at buffer 1 in
  let flags := byte_at buffer 2 in
  let is_response := bit flags 4 in
  let is_aborted := bit flags 5 in
  let? segmentation := Segmentation_try_from (Z.land (Z.shiftr flags 6) 3) in
  let? command_id := CommandId_try_from (byte_at buffer 3) in
  let segment_size := le_val (slice buffer 4 6) in
  let header := mkCmdHeader transaction_id is_response is_aborted segmentation command_id
                  segment_size in
  let? (data_size, payload_offset) :=
    (if bool_decide (segmentation = Seg_Initiate) then
       if (length buffer <? 12)%nat then Err BufferTooShort
       else Ok (Some (le_val (slice buffer 8 12)), 12%nat)
     else Ok (None, FIXED_HEADER_SIZE)) in
  let payload_end := (payload_offset + Z.to_nat segment_size)%nat in
  if (length buffer <? payload_end)%nat then Err BufferTooShort else
  Ok (mkSdoCommand header data_size (slice buffer payload_offset payload_end)).

Definition SdoCommand_serialize (c : SdoCommand) (buffer : bytes) : bytes * res nat :=
  let h := cmd_header c in
  let flags := command_flags (is_response h) (is_aborted h) (segmentation h) in
  let FIXED_HEADER_SIZE := 8%nat in
  if (length buffer <? FIXED_HEADER_SIZE)%nat then (buffer, Err BufferTooShort) else
  let buffer := put buffer 0 [0] in
  let buffer := put buffer 1 [transaction_id h] in
  let buffer := put buffer 2 [flags] in
  let buffer := put buffer 3 [CommandId_as_u8 (command_id h)] in
  let buffer := put buffer 4 (le_bytes 2 (segment_size h)) in
  let buffer := put buffer 6 [0; 0] in
  let initiate := bool_decide (segmentation h = Seg_Initiate) in
  if initiate && (length buffer <? 12)%nat then (buffer, Err BufferTooShort) else
  let '(buffer, current_offset) :=
    if initiate then (put buffer 8 (le_bytes 4 (unwrap_or (data_size c) 0)), 12%nat)
    else (buffer, FIXED_HEADER_SIZE) in
  let payload_len := length (payload c) in
  if (length buffer <? current_offset + payload_len)%nat then (buffer, Err BufferTooShort) else
  (put buffer current_offset (payload c), Ok (current_offset + payload_len)%nat).

(** A command as the parser builds it: the segment size is the payload's, and
    the total size is present exactly in an Initiate frame. *)
Definition sdo_command_ok (c : SdoCommand) : Prop :=
  byte_ok (transaction_id (cmd_header c)) /\
  segment_size (cmd_header c) = len (payload c) /\ in_width 16 (len (payload c)) /\
  match data_size c with
  | Some n => segmentation (cmd_header c) = Seg_Initiate /\ in_width 32 n
  | None => segmentation (cmd_header c) <> Seg_Initiate
  end.

(** *** Request payloads *)
Record ReadByIndexRequest : Type := mkReadByIndex { rbi_index : Z; rbi_sub_index : Z }.
Definition ReadByIndexRequest_from_payload (payload : bytes) : res ReadByIndexRequest :=
  if (length payload <? 4)%nat then Err SdoInvalidCommandPayload else
  Ok (mkReadByIndex (le_val (slice payload 0 2)) (byte_at payload 2)).

Record ReadByNameRequest : Type := mkReadByName { rbn_name : bytes }.
Definition ReadByNameRequest_from_payload (payload : bytes) : res ReadByNameRequest :=
  let name_end := unwrap_or (position (fun b => b =? 0) payload) (length payload) in
  match from_utf8 (take name_end payload) with
  | Some name => Ok (mkReadByName name)
  | None => Err SdoInvalidCommandPayload
  end.

Record WriteByIndexRequest : Type := mkWriteByIndex {
  wbi_index : Z; wbi_sub_index : Z; wbi_data : bytes }.
Definition WriteByIndexRequest_from_payload (payload : bytes) : res WriteByIndexRequest :=
  if (length payload <? 4)%nat then Err SdoInvalidCommandPayload else
  Ok (mkWriteByIndex (le_val (slice payload 0 2)) (byte_at payload 2) (drop 4 payload)).

Record WriteAllByIndexRequest : Type := mkWriteAll { wabi_index : Z; wabi_data : bytes }.
Definition WriteAllByIndexRequest_from_payload (payload : bytes) : res WriteAllByIndexRequest :=
  if (length payload <? 4)%nat then Err SdoInvalidCommandPayload else
  Ok (mkWriteAll (le_val (slice payload 0 2)) (drop 4 payload)).

Record WriteByNameRequest : Type := mkWriteByName { wbn_name : bytes; wbn_data : bytes }.
Definition WriteByNameRequest_from_payload (payload : bytes) : res WriteByNameRequest :=
  let name_end := unwrap_or (position (fun b => b =? 0) payload) 0%nat in
  if (name_end =? 0)%nat then Err SdoInvalidCommandPayload else
  match from_utf8 (take name_end payload) with
  | Some name => Ok (mkWriteByName name (drop (name_end + 1) payload))
  | None => Err SdoInvalidCommandPayload
  end.

Record MultipleParamEntry : Type := mkParamEntry { mpe_index : Z; mpe_sub_index : Z }.
(** [chunks_exact(4)]. *)
Fixpoint param_chunks (l : bytes) : list MultipleParamEntry :=
  match l with
  | a :: b :: c :: _ :: l => mkParamEntry (le_val [a; b]) c :: param_chunks l
  | _ => []
  end.
Definition ReadMultipleParamRequest_from_payload (payload : bytes)
    : res (list MultipleParamEntry) :=
  if negb (len payload mod 4 =? 0) then Err SdoInvalidCommandPayload else
  Ok (param_chunks payload).

(** ** The ASnd container ([sdo/asnd.rs]) *)
Definition serialize_sdo_asnd_payload (seq_header : SequenceLayerHeader) (cmd : SdoCommand)
    : res bytes :=
  let estimated_size :=
    (4 + 4 + (match data_size cmd with Some _ => 4 | None => 0 end) + length (payload cmd))%nat in
  let '(seq_buf, r) := SequenceLayerHeader_serialize seq_header (replicate 4 0) in
  let? _ := r in
  let '(cmd_buf, r) := SdoCommand_serialize cmd (replicate (estimated_size - 4) 0) in
  let? cmd_len := r in
  Ok (seq_buf ++ take cmd_len cmd_buf).

(** ** The UDP container ([sdo/udp.rs]) *)
Definition UDP_SDO_PREFIX_SIZE : nat := 4.

(** A serializer called on the tail [buffer[off..]]. *)
Definition write_tail (buffer : bytes) (off : nat) (write : bytes -> bytes * res nat)
    : bytes * res nat :=
  let '(tail, r) := write (drop off buffer) in (take off buffer ++ tail, r).

Definition serialize_sdo_udp_payload (seq_header : SequenceLayerHeader) (cmd : SdoCommand)
    (buffer : bytes) : bytes * res nat :=
  if (length buffer <? UDP_SDO_PREFIX_SIZE + 4)%nat then (buffer, Err BufferTooShort) else
  let buffer := put buffer 0 [MessageType_as_u8 MT_ASnd] in
  let buffer := put buffer 1 [0; 0] in
  let buffer := put buffer 3 [ServiceId_as_u8 Svc_Sdo] in
  let '(buffer, r) :=
    write_tail buffer UDP_SDO_PREFIX_SIZE (SequenceLayerHeader_serialize seq_header) in
  match r with
  | Err e => (buffer, Err e)
  | Ok seq_len =>
      let seq_end_offset := (UDP_SDO_PREFIX_SIZE + seq_len)%nat in
      let '(buffer, r) := write_tail buffer seq_end_offset (SdoCommand_serialize cmd) in
      match r with
      | Err e => (buffer, Err e)
      | Ok cmd_len => (buffer, Ok (seq_end_offset + cmd_len)%nat)
      end
  end.

Definition deserialize_sdo_udp_payload (buffer : bytes)
    : res (SequenceLayerHeader * SdoCommand) :=
  if (length buffer <? UDP_SDO_PREFIX_SIZE + 4)%nat then Err BufferTooShort else
  if negb (byte_at buffer 0 =? MessageType_as_u8 MT_ASnd) then Err InvalidPlFrame else
  if negb (byte_at buffer 3 =? ServiceId_as_u8 Svc_Sdo)
  then Err (InvalidServiceId (byte_at buffer 3)) else
  let? seq_header := SequenceLayerHeader_deserialize (drop UDP_SDO_PREFIX_SIZE buffer) in
  let? cmd := SdoCommand_deserialize (drop (UDP_SDO_PREFIX_SIZE + 4) buffer) in
  Ok (seq_header, cmd).

(** ** The PDO container ([sdo/embedded.rs]) *)
Record PdoSequenceLayerHeader : Type := mkPdoSeq { sequence_number : Z; connection_state : Z }.
#[export] Instance PdoSequenceLayerHeader_eq_dec : EqDecision PdoSequenceLayerHeader.
Proof. solve_decision. Defined.

Definition PdoSequenceLayerHeader_serialize (h : PdoSequenceLayerHeader) (buffer : bytes)
    : bytes * res nat :=
  match buffer with
  | [] => (buffer, Err BufferTooShort)
  | _ => (put buffer 0 [Z.lor (u8 (Z.shiftl (sequence_number h) 2)) (connection_state h)], Ok 1%nat)
  end.
Definition PdoSequenceLayerHeader_deserialize (buffer : bytes) : res PdoSequenceLayerHeader :=
  match buffer with
  | [] => Err BufferTooShort
  | _ => Ok (mkPdoSeq (Z.land (Z.shiftr (byte_at buffer 0) 2) 63) (Z.land (byte_at buffer 0) 3))
  end.

Record PdoSdoCommand : Type := mkPdoSdo {
  psc_sequence_header : PdoSequenceLayerHeader;
  psc_transaction_id : Z; psc_is_response : bool; psc_is_aborted : bool;
  psc_segmentation : Segmentation; valid_payload_length : Z; psc_command_id : CommandId;
  psc_index : Z; psc_sub_index : Z; psc_data : bytes
}.
#[export] Instance PdoSdoCommand_eq_dec : EqDecision PdoSdoCommand.
Proof. solve_decision. Defined.

Definition PdoSdoCommand_deserialize (buffer : bytes) : res PdoSdoCommand :=
  if (length buffer <? 8)%nat then Err BufferTooShort else
  let? sequence_header := PdoSequenceLayerHeader_deserialize (slice buffer 0 1) in
  let transaction_id := byte_at buffer 1 in
  let flags := byte_at buffer 2 in
  let valid_payload_length := byte_at buffer 3 in
  let? command_id := CommandId_try_from (byte_at buffer 4) in
  let index := le_val (slice buffer 5 7) in
  let sub_index := byte_at buffer 7 in
  let is_response := bit flags 4 in
  let is_aborted := bit flags 5 in
  let? segmentation := Segmentation_try_from (Z.land (Z.shiftr flags 6) 3) in
  let data_offset := 8%nat in
  let data_len := Z.to_nat valid_payload_length in
  if (length buffer <? data_offset + data_len)%nat then Err BufferTooShort else
  Ok (mkPdoSdo sequence_header transaction_id is_response is_aborted segmentation
        valid_payload_length command_id index sub_index
        (slice buffer data_offset (data_offset + data_len))).

Definition PdoSdoCommand_serialize (c : PdoSdoCommand) : bytes :=
  [Z.lor (u8 (Z.shiftl (sequence_number (psc_sequence_header c)) 2))
         (connection_state (psc_sequence_header c));
   psc_transaction_id c;
   command_flags (psc_is_response c) (psc_is_aborted c) (psc_segmentation c);
   u8 (len (psc_data c));
   CommandId_as_u8 (psc_command_id c)] ++
  le_bytes 2 (psc_index c) ++ [psc_sub_index c] ++ psc_data c.

(** A command whose declared length is its data's. *)
Definition pdo_sdo_ok (c : PdoSdoCommand) : Prop :=
  0 <= sequence_number (psc_sequence_header c) < 64 /\
  0 <= connection_state (psc_sequence_header c) < 4 /\
  in_width 16 (psc_index c) /\
  valid_payload_length c = len (psc_data c) /\ len (psc_data c) <= 255.

(** ** Encoded headers *)
Lemma seq_octet_eq n k : 0 <= n < 64 -> 0 <= k < 4 ->
  Z.lor (u8 (Z.shiftl n 2)) k = k + n * 2 ^ 2.
Proof.
  intros Hn Hk. unfold u8. rewrite wrap_small.
  - rewrite Z.lor_comm. apply lor_shiftl_add; [lia|]. unfold in_width. lia.
  - rewrite Z.shiftl_mul_pow2 by lia. unfold in_width. lia.
Qed.

Lemma seq_octet_low n k : 0 <= n < 64 -> 0 <= k < 4 -> Z.land (Z.lor (u8 (Z.shiftl n 2)) k) 3 = k.
Proof. intros. rewrite seq_octet_eq by done. change 3 with (Z.ones 2). apply field_low; unfold in_width; lia. Qed.

Lemma seq_octet_high n k : 0 <= n < 64 -> 0 <= k < 4 ->
  Z.land (Z.shiftr (Z.lor (u8 (Z.shiftl n 2)) k) 2) 63 = n.
Proof.
  intros. rewrite seq_octet_eq, field_high by (done || unfold in_width; lia).
  change 63 with (Z.ones 6). apply land_ones_small; unfold in_width; lia.
Qed.

Lemma ReceiveConnState_range s : 0 <= ReceiveConnState_as_u8 s < 4.
Proof. destruct s; simpl; lia. Qed.
Lemma SendConnState_range s : 0 <= SendConnState_as_u8 s < 4.
Proof. destruct s; simpl; lia. Qed.

Lemma command_flags_fields r a s :
  bit (command_flags r a s) 4 = r /\ bit (command_flags r a s) 5 = a /\
  Z.land (Z.shiftr (command_flags r a s) 6) 3 = Segmentation_as_u8 s.
Proof. by destruct r, a, s. Qed.

Lemma CommandId_round c : CommandId_try_from (CommandId_as_u8 c) = Ok c.
Proof. exact (from_to_u8 c). Qed.
Lemma Segmentation_round c : Segmentation_try_from (Segmentation_as_u8 c) = Ok c.
Proof. exact (from_to_u8 c). Qed.
Lemma ReceiveConnState_round c : ReceiveConnState_try_from (ReceiveConnState_as_u8 c) = Ok c.
Proof. exact (from_to_u8 c). Qed.
Lemma SendConnState_round c : SendConnState_try_from (SendConnState_as_u8 c) = Ok c.
Proof. exact (from_to_u8 c). Qed.
#[export] Hint Rewrite CommandId_round Segmentation_round ReceiveConnState_round
  SendConnState_round : enum.

(** *** The bytes of a sequence header *)
Definition seq_wire (h : SequenceLayerHeader) : bytes :=
  [Z.lor (u8 (Z.shiftl (receive_sequence_number h) 2)) (ReceiveConnState_as_u8 (receive_con h));
   Z.lor (u8 (Z.shiftl (send_sequence_number h) 2)) (SendConnState_as_u8 (send_con h)); 0; 0].

Lemma seq_serialize_spec h buf : (4 <= length buf)%nat ->
  SequenceLayerHeader_serialize h buf = (seq_wire h ++ drop 4 buf, Ok 4%nat).
Proof.
  intros Hl. unfold SequenceLayerHeader_serialize. rewrite nat_ltb_false by done.
  do 4 (destruct buf as [|? buf]; [simpl in Hl; lia|]). done.
Qed.

Lemma seq_deserialize_wire h rest : seq_header_ok h ->
  SequenceLayerHeader_deserialize (seq_wire h ++ rest) = Ok h.
Proof.
  intros [Hr Hs]. unfold SequenceLayerHeader_deserialize, seq_wire. cbn [app length Nat.ltb Nat.leb].
  unfold byte_at. cbn [nth].
  pose proof (ReceiveConnState_range (receive_con h)). pose proof (SendConnState_range (send_con h)).
  rewrite !seq_octet_low, !seq_octet_high by done.
  autorewrite with enum. by destruct h.
Qed.

Lemma seq_deserialize_ok buf h : SequenceLayerHeader_deserialize buf = Ok h -> seq_header_ok h.
Proof.
  unfold SequenceLayerHeader_deserialize. intros H. repeat case_match; simplify_eq.
  split; simpl; change 63 with (Z.ones 6); rewrite Z.land_ones by lia; apply Z.mod_pos_bound; lia.
Qed.

(** *** The bytes of a command *)
Definition cmd_prefix (c : SdoCommand) : bytes :=
  let h := cmd_header c in
  [0; transaction_id h; command_flags (is_response h) (is_aborted h) (segmentation h);
   CommandId_as_u8 (command_id h)] ++ le_bytes 2 (segment_size h) ++ [0; 0].
Definition cmd_size_field (c : SdoCommand) : bytes :=
  if bool_decide (segmentation (cmd_header c) = Seg_Initiate)
  then le_bytes 4 (unwrap_or (data_size c) 0) else [].
Definition cmd_wire (c : SdoCommand) : bytes := cmd_prefix c ++ cmd_size_field c ++ payload c.

Lemma length_cmd_wire c : length (cmd_wire c) =
  (8 + (if bool_decide (segmentation (cmd_header c) = Seg_Initiate) then 4 else 0)
   + length (payload c))%nat.
Proof. unfold cmd_wire, cmd_prefix, cmd_size_field. case_bool_decide; wire_len. Qed.

Lemma cmd_prefix_written c buf : (8 <= length buf)%nat ->
  put (put (put (put (put (put buf 0 [0]) 1 [transaction_id (cmd_header c)]) 2
    [command_flags (is_response (cmd_header c)) (is_aborted (cmd_header c))
       (segmentation (cmd_header c))]) 3 [CommandId_as_u8 (command_id (cmd_header c))]) 4
    (le_bytes 2 (segment_size (cmd_header c)))) 6 [0; 0] = cmd_prefix c ++ drop 8 buf.
Proof.
  intros Hl. do 8 (destruct buf as [|? buf]; [simpl in Hl; lia|]). done.
Qed.

Lemma cmd_serialize_spec c buf :
  SdoCommand_serialize c buf =
    if (length buf <? length (cmd_wire c))%nat
    then (fst (SdoCommand_serialize c buf), Err BufferTooShort)
    else (cmd_wire c ++ drop (length (cmd_wire c)) buf, Ok (length (cmd_wire c))).
Proof.
  rewrite length_cmd_wire. unfold SdoCommand_serialize.
  destruct (Nat.ltb_spec (length buf) 8) as [Hs|Hs].
  { rewrite nat_ltb_true by lia. done. }
  rewrite cmd_prefix_written by done. unfold cmd_wire, cmd_size_field.
  assert (Hpl : length (cmd_prefix c ++ drop 8 buf) = length buf)
    by (unfold cmd_prefix; wire_len).
  rewrite Hpl. case_bool_decide as Hi; cbn [andb].
  - destruct (Nat.ltb_spec (length buf) 12) as [H12|H12].
    { rewrite nat_ltb_true by lia. done. }
    rewrite put_app by done. rewrite length_le_bytes, drop_drop.
    rewrite length_app, length_drop, length_app.
    replace (length (cmd_prefix c)) with 8%nat by done. rewrite length_le_bytes.
    replace (8 + 4 + (length buf - (8 + 4)))%nat with (length buf) by lia.
    rewrite <- Nat.add_assoc in *. simpl Nat.add in *.
    case_if; [done|]. rewrite put_app by (unfold cmd_prefix; wire_len).
    rewrite drop_drop, <- !app_assoc. done.
  - rewrite Hpl. replace (8 + 0 + length (payload c))%nat with (8 + length (payload c))%nat by lia.
    case_if; [done|]. rewrite put_app by done. rewrite drop_drop, <- !app_assoc. done.
Qed.

Lemma cmd_deserialize_wire c rest : sdo_command_ok c ->
  SdoCommand_deserialize (cmd_wire c ++ rest) = Ok c.
Proof.
  intros (Ht & Hseg & Hlen & Hd). unfold cmd_wire, cmd_prefix, cmd_size_field.
  destruct (command_flags_fields (is_response (cmd_header c)) (is_aborted (cmd_header c))
    (segmentation (cmd_header c))) as (F4 & F5 & F6).
  generalize dependent (command_flags (is_response (cmd_header c)) (is_aborted (cmd_header c))
    (segmentation (cmd_header c))). intros fl F4 F5 F6.
  unfold SdoCommand_deserialize. rewrite nat_ltb_false by wire_len.
  rewrite <- !app_assoc.
  change (byte_at _ 1) with (transaction_id (cmd_header c)). change (byte_at _ 2) with fl.
  change (byte_at _ 3) with (CommandId_as_u8 (command_id (cmd_header c))).
  rewrite F4, F5, F6. autorewrite with enum.
  change (slice _ 4 6) with (le_bytes 2 (segment_size (cmd_header c))).
  rewrite Hseg, le_val_le_bytes by done.
  assert (Hn : Z.to_nat (len (payload c)) = length (payload c)) by (unfold len; lia).
  case_bool_decide as Hi.
  - destruct (data_size c) as [n|] eqn:Ec; [|done]. destruct Hd as [_ Hn32].
    rewrite nat_ltb_false by wire_len. cbn [unwrap_or].
    match goal with |- context [slice ?l 8 12] => change (slice l 8 12) with (le_bytes 4 n) end.
    rewrite le_val_le_bytes by done. rewrite nat_ltb_false by (rewrite Hn; wire_len).
    rewrite Hn, !app_assoc. rewrite <- (app_assoc _ (payload c)).
    rewrite slice_app by wire_len.
    destruct c as [[]]; simpl in *; by subst.
  - destruct (data_size c) as [n|] eqn:Ec; [destruct Hd; done|].
    rewrite nat_ltb_false by (rewrite Hn; wire_len).
    rewrite Hn, app_nil_l, !app_assoc. rewrite <- (app_assoc _ (payload c)).
    rewrite slice_app by wire_len.
    destruct c as [[]]; simpl in *; by subst.
Qed.

(** ** The containers *)
Lemma cmd_serialize_fits c buf : (length (cmd_wire c) <= length buf)%nat ->
  SdoCommand_serialize c buf = (cmd_wire c ++ drop (length (cmd_wire c)) buf, Ok (length (cmd_wire c))).
Proof. intros. rewrite cmd_serialize_spec. by rewrite nat_ltb_false. Qed.

Lemma cmd_serialize_too_short c buf : (length buf < length (cmd_wire c))%nat ->
  snd (SdoCommand_serialize c buf) = Err BufferTooShort.
Proof. intros. rewrite cmd_serialize_spec. by rewrite nat_ltb_true. Qed.

Definition udp_prefix : bytes := [MessageType_as_u8 MT_ASnd; 0; 0; ServiceId_as_u8 Svc_Sdo].
Definition udp_wire (h : SequenceLayerHeader) (c : SdoCommand) : bytes :=
  udp_prefix ++ seq_wire h ++ cmd_wire c.

Lemma length_udp_wire h c : length (udp_wire h c) = (8 + length (cmd_wire c))%nat.
Proof. done. Qed.

Lemma write_tail_app pre rest write : write_tail (pre ++ rest) (length pre) write =
  (pre ++ fst (write rest), snd (write rest)).
Proof.
  unfold write_tail. rewrite drop_app_length, take_app_length. by destruct (write rest).
Qed.

Lemma udp_serialize_spec h c buf : (8 <= length buf)%nat ->
  serialize_sdo_udp_payload h c buf =
    (udp_prefix ++ seq_wire h ++ fst (SdoCommand_serialize c (drop 8 buf)),
     match snd (SdoCommand_serialize c (drop 8 buf)) with
     | Ok n => Ok (8 + n)%nat | Err e => Err e end).
Proof.
  intros Hl. unfold serialize_sdo_udp_payload, UDP_SDO_PREFIX_SIZE.
  rewrite nat_ltb_false by done.
  assert (Hp : put (put (put buf 0 [MessageType_as_u8 MT_ASnd]) 1 [0; 0]) 3 [ServiceId_as_u8 Svc_Sdo]
               = udp_prefix ++ drop 4 buf).
  { do 4 (destruct buf as [|? buf]; [simpl in Hl; lia|]). done. }
  rewrite Hp. rewrite (write_tail_app udp_prefix).
  rewrite seq_serialize_spec by (rewrite length_drop; lia). cbn [fst snd].
  rewrite drop_drop, app_assoc. change (4 + 4)%nat with (length (udp_prefix ++ seq_wire h)) at 1.
  rewrite write_tail_app. change (4 + 4)%nat with 8%nat.
  rewrite <- app_assoc. change (length (udp_prefix ++ seq_wire h)) with 8%nat.
  by destruct (SdoCommand_serialize c (drop 8 buf)) as [? []].
Qed.

Lemma udp_deserialize_wire h c rest : seq_header_ok h -> sdo_command_ok c ->
  deserialize_sdo_udp_payload (udp_wire h c ++ rest) = Ok (h, c).
Proof.
  intros Hh Hc. unfold deserialize_sdo_udp_payload, udp_wire. rewrite <- !app_assoc.
  rewrite nat_ltb_false by (rewrite !length_app; unfold UDP_SDO_PREFIX_SIZE; simpl; lia).
  change (byte_at _ 0 =? MessageType_as_u8 MT_ASnd) with true.
  change (byte_at _ 3 =? ServiceId_as_u8 Svc_Sdo) with true. cbn [negb].
  change (drop UDP_SDO_PREFIX_SIZE (udp_prefix ++ seq_wire h ++ cmd_wire c ++ rest))
    with (seq_wire h ++ cmd_wire c ++ rest).
  change (drop (UDP_SDO_PREFIX_SIZE + 4) (udp_prefix ++ seq_wire h ++ cmd_wire c ++ rest))
    with (cmd_wire c ++ rest).
  by rewrite seq_deserialize_wire, cmd_deserialize_wire.
Qed.

(** A serialized PDO command followed by any padding. *)
Lemma pdo_sdo_deserialize_wire c pad :
  0 <= sequence_number (psc_sequence_header c) < 64 ->
  0 <= connection_state (psc_sequence_header c) < 4 ->
  in_width 16 (psc_index c) ->
  let n := u8 (len (psc_data c)) in
  PdoSdoCommand_deserialize (PdoSdoCommand_serialize c ++ pad) =
    Ok (mkPdoSdo (psc_sequence_header c) (psc_transaction_id c) (psc_is_response c)
          (psc_is_aborted c) (psc_segmentation c) n (psc_command_id c) (psc_index c)
          (psc_sub_index c) (take (Z.to_nat n) (psc_data c))).
Proof.
  intros Hs Hc Hi n.
  assert (Hn : 0 <= n <= len (psc_data c)).
  { unfold n, u8, wrap, len. split; [apply Z.mod_pos_bound; lia | apply Z.mod_le; lia]. }
  destruct (command_flags_fields (psc_is_response c) (psc_is_aborted c) (psc_segmentation c))
    as (F4 & F5 & F6).
  unfold PdoSdoCommand_serialize. fold n. rewrite <- !app_assoc.
  generalize dependent (command_flags (psc_is_response c) (psc_is_aborted c) (psc_segmentation c)).
  intros fl F4 F5 F6. unfold PdoSdoCommand_deserialize.
  rewrite nat_ltb_false by wire_len.
  set (b0 := Z.lor _ _).
  change (slice _ 0 1) with [b0]. change (byte_at _ 1) with (psc_transaction_id c).
  change (byte_at _ 2) with fl. change (byte_at _ 3) with n.
  change (byte_at _ 4) with (CommandId_as_u8 (psc_command_id c)).
  change (slice _ 5 7) with (le_bytes 2 (psc_index c)).
  change (byte_at _ 7) with (psc_sub_index c).
  rewrite F4, F5, F6, le_val_le_bytes by done. autorewrite with enum.
  unfold PdoSequenceLayerHeader_deserialize. change (byte_at [b0] 0) with b0. unfold b0.
  rewrite seq_octet_low, seq_octet_high by done.
  rewrite nat_ltb_false by (unfold len in Hn; wire_len).
  f_equal. f_equal; [by destruct (psc_sequence_header c)|].
  unfold slice. replace (8 + Z.to_nat n - 8)%nat with (Z.to_nat n) by lia.
  apply (take_app_le (psc_data c)). unfold len in Hn. lia.
Qed.

(** An SDO message for the witnesses: a read of 0x1000/0. *)
Definition demo_seq : SequenceLayerHeader :=
  mkSeqHeader 5 Rcon_ConnectionValid 63 Scon_ConnectionValidAckRequest.
Definition demo_read : SdoCommand :=
  mkSdoCommand (mkCmdHeader 7 false false Seg_Expedited Cid_ReadByIndex 4) None [0; 16; 0; 0].
Definition demo_initiate : SdoCommand :=
  mkSdoCommand (mkCmdHeader 7 false false Seg_Initiate Cid_WriteByIndex 5) (Some 3000) [0; 96; 1; 0; 9].

(** ** Properties *)

(** A well-formed SDO message written into a UDP buffer that has room for it occupies
    exactly its wire length, leaves the rest of the buffer alone, and is parsed back to the
    same sequence header and command; a shorter buffer is refused with [BufferTooShort]. *)
Theorem sdo_udp_roundtrip h c buf :
  seq_header_ok h -> sdo_command_ok c ->
  let n := (16 + (if bool_decide (segmentation (cmd_header c) = Seg_Initiate) then 4 else 0)
            + length (payload c))%nat in
  if (length buf <? n)%nat
  then snd (serialize_sdo_udp_payload h c buf) = Err BufferTooShort
  else exists buf', serialize_sdo_udp_payload h c buf = (buf', Ok n) /\
         length buf' = length buf /\ drop n buf' = drop n buf /\
         deserialize_sdo_udp_payload (take n buf') = Ok (h, c).
Proof.
  intros Hh Hc n. assert (Hn : n = length (udp_wire h c))
    by (unfold n; rewrite length_udp_wire, length_cmd_wire; lia).
  clearbody n. subst n. rewrite length_udp_wire. destruct (Nat.ltb_spec (length buf) (8 + length (cmd_wire c))) as [Hs|Hs].
  - destruct (decide (length buf < 8)%nat).
    + unfold serialize_sdo_udp_payload. by rewrite nat_ltb_true.
    + rewrite udp_serialize_spec by lia. cbn [snd].
      by rewrite cmd_serialize_too_short by (rewrite length_drop; lia).
  - rewrite udp_serialize_spec by lia.
    rewrite cmd_serialize_fits by (rewrite length_drop; lia). cbn [fst snd].
    rewrite drop_drop. eexists. split; [reflexivity|].
    rewrite !app_assoc, <- (app_assoc udp_prefix). fold (udp_wire h c).
    rewrite <- length_udp_wire with (h := h) in *. split_and!.
    + rewrite length_app, length_drop. lia.
    + by rewrite drop_app_length.
    + rewrite take_app_length, <- (app_nil_r (udp_wire h c)). by apply udp_deserialize_wire.
Qed.

Lemma sdo_udp_roundtrip_witness :
  exists buf', serialize_sdo_udp_payload demo_seq demo_initiate (replicate 30 0) = (buf', Ok 25%nat) /\
    length buf' = 30%nat /\ drop 25 buf' = drop 25 (replicate 30 0) /\
    deserialize_sdo_udp_payload (take 25 buf') = Ok (demo_seq, demo_initiate).
Proof.
  apply (sdo_udp_roundtrip demo_seq demo_initiate (replicate 30 0)).
  - unfold seq_header_ok; simpl; lia.
  - unfold sdo_command_ok, byte_ok, in_width, len; simpl. split_and!; first [done | lia].
Defined.

(** The ASnd payload of an SDO message is produced only when the command carries a data
    size without being an Initiate frame: the buffer allocated for the command is four octets
    short of the eight-octet header.  Every well-formed command, which carries a data size
    exactly in Initiate frames, is therefore refused with [BufferTooShort]. *)
Theorem sdo_asnd_payload_spec h c :
  serialize_sdo_asnd_payload h c =
    (if match data_size c with Some _ => true | None => false end
        && negb (bool_decide (segmentation (cmd_header c) = Seg_Initiate))
     then Ok (seq_wire h ++ cmd_wire c) else Err BufferTooShort) /\
  (sdo_command_ok c -> serialize_sdo_asnd_payload h c = Err BufferTooShort).
Proof.
  assert (Hall : serialize_sdo_asnd_payload h c =
    if match data_size c with Some _ => true | None => false end
        && negb (bool_decide (segmentation (cmd_header c) = Seg_Initiate))
    then Ok (seq_wire h ++ cmd_wire c) else Err BufferTooShort).
  { unfold serialize_sdo_asnd_payload.
    rewrite seq_serialize_spec by done. cbn [replicate drop]. rewrite app_nil_r.
    rewrite cmd_serialize_spec, length_replicate, length_cmd_wire.
    destruct (data_size c), (bool_decide _) eqn:Eb; cbn [andb negb];
      first [rewrite nat_ltb_true by lia; reflexivity | idtac].
    rewrite nat_ltb_false by lia. cbn iota beta. f_equal. f_equal.
    rewrite take_app_le by (rewrite length_cmd_wire, Eb; lia).
    apply take_ge. rewrite length_cmd_wire, Eb. lia. }
  split; [exact Hall|]. intros (_&_&_&Hd). rewrite Hall.
  destruct (data_size c); [|done]. destruct Hd as [-> _]. done.
Qed.

Lemma sdo_asnd_payload_spec_witness :
  serialize_sdo_asnd_payload demo_seq demo_read = Err BufferTooShort.
Proof.
  apply (proj2 (sdo_asnd_payload_spec demo_seq demo_read)).
  unfold sdo_command_ok, byte_ok, in_width, len; simpl. split_and!; first [done | lia].
Defined.

(** An SDO command carried in a PDO channel, whatever padding follows it, is parsed back
    with the first [len mod 256] octets of its data and that length; with at most 255 octets
    of data and a truthful length field it is the same command. *)
Theorem pdo_sdo_roundtrip c pad :
  0 <= sequence_number (psc_sequence_header c) < 64 ->
  0 <= connection_state (psc_sequence_header c) < 4 ->
  in_width 16 (psc_index c) ->
  let n := u8 (len (psc_data c)) in
  PdoSdoCommand_deserialize (PdoSdoCommand_serialize c ++ pad) =
    Ok (mkPdoSdo (psc_sequence_header c) (psc_transaction_id c) (psc_is_response c)
          (psc_is_aborted c) (psc_segmentation c) n (psc_command_id c) (psc_index c)
          (psc_sub_index c) (take (Z.to_nat n) (psc_data c))) /\
  (pdo_sdo_ok c -> PdoSdoCommand_deserialize (PdoSdoCommand_serialize c ++ pad) = Ok c).
Proof.
  intros Hs Hc Hi n. pose proof (pdo_sdo_deserialize_wire c pad Hs Hc Hi) as Hd.
  split; [exact Hd|]. intros (_&_&_&Hv&Hl). cbv zeta in Hd. rewrite Hd.
  assert (u8 (len (psc_data c)) = len (psc_data c)) as Hnl.
  { unfold u8. apply wrap_small. unfold in_width, len in *. lia. }
  rewrite Hnl, take_ge, <- Hv by (unfold len; lia). by destruct c.
Qed.

Lemma pdo_sdo_roundtrip_witness :
  let c := mkPdoSdo (mkPdoSeq 63 2) 9 false false Seg_Expedited 2 Cid_WriteByIndex 0x6000 1 [1; 2] in
  PdoSdoCommand_deserialize (PdoSdoCommand_serialize c ++ [0; 0]) = Ok c.
Proof.
  intros c. apply (proj2 (pdo_sdo_roundtrip c [0; 0] ltac:(simpl; lia) ltac:(simpl; lia)
    ltac:(unfold in_width; simpl; lia))).
  unfold pdo_sdo_ok, in_width, len; simpl; split_and!; first [done | lia].
Defined.
