(* ===== verification/SdoServer.v ===== *)
(** * The SDO server

    [sdo/state.rs] (segmented transfers), [sdo/sequence_handler.rs] (one
    connection), [sdo/handlers.rs] and [sdo/command/handler.rs] (the
    commands) and [sdo/server.rs] (the connections of all clients).

    A handler that mutates a connection and the dictionary returns both beside
    its response; a method that returns [Err] returns the state it leaves
    too.  The application's command handler is the class [SdoCommandHandler]. *)
From S2P Require Import Prelude Utf8 Types ErrorEntry ObjectDict SdoCodec.

Definition OD_IDX_SDO_TIMEOUT : Z := 0x1300.
Definition OD_IDX_SDO_RETRIES : Z := 0x1302.
Definition MAX_EXPEDITED_PAYLOAD : nat := 1452.

(** ** Transfers ([sdo/state.rs]) *)
Record SdoTransferState : Type := mkTransfer {
  ts_transaction_id : Z;
  total_size : nat;
  data_buffer : bytes;
  ts_offset : nat;
  ts_index : Z;
  ts_sub_index : Z;
  deadline_us : option Z;
  retransmissions_left : Z;
  last_sent_segment : option SdoCommand
}.
#[export] Instance SdoTransferState_eq_dec : EqDecision SdoTransferState.
Proof. solve_decision. Defined.

Inductive SdoServerState : Type :=
| Srv_Closed | Srv_Opening | Srv_Established
| Srv_SegmentedDownload (s : SdoTransferState)
| Srv_SegmentedUpload (s : SdoTransferState).
#[export] Instance SdoServerState_eq_dec : EqDecision SdoServerState.
Proof. solve_decision. Defined.

Section Transfers.
Context {S : Type} `{ObjectDictionaryStorage S}.
Implicit Types od : ObjectDictionary S.

(** [current_time_us + timeout_ms * 1000]. *)
Definition sdo_deadline od (current_time_us : Z) : Z :=
  u64 (current_time_us + unwrap_or (read_u32 od OD_IDX_SDO_TIMEOUT 0) 15000 * 1000).

Definition get_next_upload_segment od (current_time_us : Z) (st : SdoTransferState)
    : SdoTransferState * SdoCommand * bool :=
  let chunk_size := MAX_EXPEDITED_PAYLOAD in
  let remaining := (total_size st - ts_offset st)%nat in
  let current_chunk_size := Nat.min chunk_size remaining in
  let chunk := slice (data_buffer st) (ts_offset st) (ts_offset st + current_chunk_size) in
  let first := (ts_offset st =? 0)%nat in
  let data_size := if first then Some (u32 (Z.of_nat (total_size st))) else None in
  let segmentation := if first then Seg_Initiate else Seg_Segment in
  let offset := (ts_offset st + current_chunk_size)%nat in
  let is_last_segment := (total_size st <=? offset)%nat in
  let segmentation := if is_last_segment then Seg_Complete else segmentation in
  let command := mkSdoCommand
    (mkCmdHeader (ts_transaction_id st) true false segmentation Cid_ReadByIndex (u16 (len chunk)))
    data_size chunk in
  let st' :=
    if is_last_segment then
      mkTransfer (ts_transaction_id st) (total_size st) (data_buffer st) offset (ts_index st)
        (ts_sub_index st) None (retransmissions_left st) None
    else
      mkTransfer (ts_transaction_id st) (total_size st) (data_buffer st) offset (ts_index st)
        (ts_sub_index st) (Some (sdo_deadline od current_time_us))
        (unwrap_or (read_u32 od OD_IDX_SDO_RETRIES 0) 2) (Some command) in
  (st', command, is_last_segment).

(** SDO abort codes are values of [Err]. *)
Definition perform_od_write (st : SdoTransferState) od : ObjectDictionary S * result Z unit :=
  match read od (ts_index st) (ts_sub_index st) with
  | Some type_template =>
      match ObjectValue_deserialize (data_buffer st) type_template with
      | Ok value =>
          if negb (discriminant value =? discriminant type_template) then (od, Err 0x06070010) else
          let '(od, r) := write od (ts_index st) (ts_sub_index st) value in
          (od, match r with
               | Ok _ => Ok tt
               | Err e =>
                   if bool_decide (e = StorageError "Object is read-only") then Err 0x06010002 else
                   match e with
                   | TypeMismatch => Err 0x06070010
                   | ValidationError _ => Err 0x06090030
                   | _ => Err 0x08000020
                   end
               end)
      | Err BufferTooShort => (od, Err 0x06070013)
      | Err _ => (od, Err 0x06070010)
      end
  | None =>
      match read_object od (ts_index st) with
      | None => (od, Err 0x06020000)
      | Some _ => (od, Err 0x06090011)
      end
  end.

Definition process_download_segment (command : SdoCommand) od (current_time_us : Z)
    (st : SdoTransferState) : SdoTransferState * ObjectDictionary S * result Z bool :=
  if (total_size st <? ts_offset st + length (payload command))%nat
  then (st, od, Err 0x06070010) else
  let st := mkTransfer (ts_transaction_id st) (total_size st) (data_buffer st ++ payload command)
    (ts_offset st + length (payload command)) (ts_index st) (ts_sub_index st) (deadline_us st)
    (retransmissions_left st) (last_sent_segment st) in
  if bool_decide (segmentation (cmd_header command) = Seg_Complete) then
    if negb (ts_offset st =? total_size st)%nat then
      (st, od, Err (if (ts_offset st <? total_size st)%nat then 0x06070013 else 0x06070012))
    else
      let '(od, r) := perform_od_write st od in
      (st, od, match r with Ok _ => Ok true | Err abort_code => Err abort_code end)
  else
    (mkTransfer (ts_transaction_id st) (total_size st) (data_buffer st) (ts_offset st)
       (ts_index st) (ts_sub_index st) (Some (sdo_deadline od current_time_us))
       (retransmissions_left st) (last_sent_segment st), od, Ok false).
End Transfers.

(** ** One connection ([sdo/sequence_handler.rs], [sdo/server.rs]) *)
Inductive SdoClientInfo : Type :=
| Client_Asnd (source_node_id : NodeId) (source_mac : MacAddress)
| Client_Udp (source_ip : bytes) (source_port : Z).
#[export] Instance SdoClientInfo_eq_dec : EqDecision SdoClientInfo.
Proof. solve_decision. Defined.

Record SdoResponseData : Type := mkResponse {
  rd_client_info : SdoClientInfo; seq_header : SequenceLayerHeader; rd_command : SdoCommand
}.
#[export] Instance SdoResponseData_eq_dec : EqDecision SdoResponseData.
Proof. solve_decision. Defined.

Record SdoSequenceHandler : Type := mkHandler {
  sh_state : SdoServerState;
  sh_send_sequence_number : Z;
  last_received_sequence_number : Z;
  client_info : SdoClientInfo
}.

Definition SdoSequenceHandler_new (client_info : SdoClientInfo) : SdoSequenceHandler :=
  mkHandler Srv_Closed 0 63 client_info.

(** [*handler.state_mut() = s]. *)
Definition set_state (h : SdoSequenceHandler) (s : SdoServerState) : SdoSequenceHandler :=
  mkHandler s (sh_send_sequence_number h) (last_received_sequence_number h) (client_info h).
Definition set_send_seq (h : SdoSequenceHandler) (n : Z) : SdoSequenceHandler :=
  mkHandler (sh_state h) n (last_received_sequence_number h) (client_info h).
Definition set_last_received (h : SdoSequenceHandler) (n : Z) : SdoSequenceHandler :=
  mkHandler (sh_state h) (sh_send_sequence_number h) n (client_info h).

Definition is_closed (h : SdoSequenceHandler) : bool :=
  match sh_state h with Srv_Closed => true | _ => false end.
Definition SdoSequenceHandler_reset (h : SdoSequenceHandler) : SdoSequenceHandler :=
  mkHandler Srv_Closed 0 63 (client_info h).
(** [n.wrapping_add(1) % 64]. *)
Definition next_seq (n : Z) : Z := u8 (n + 1) mod 64.
Definition increment_send_seq (h : SdoSequenceHandler) : SdoSequenceHandler :=
  set_send_seq h (next_seq (sh_send_sequence_number h)).

(** The abort frame, and the reset that goes with it. *)
Definition abort_command (transaction_id abort_code : Z) : SdoCommand :=
  mkSdoCommand (mkCmdHeader transaction_id true true Seg_Expedited Cid_Nil 4) None
    (le_bytes 4 abort_code).
Definition SdoSequenceHandler_abort (h : SdoSequenceHandler) (transaction_id abort_code : Z)
    : SdoSequenceHandler * SdoCommand :=
  (SdoSequenceHandler_reset h, abort_command transaction_id abort_code).

Definition handler_respond (h : SdoSequenceHandler) (scon : SendConnState) (command : SdoCommand)
    : SdoResponseData :=
  mkResponse (client_info h)
    (mkSeqHeader (last_received_sequence_number h) Rcon_ConnectionValid
       (sh_send_sequence_number h) scon) command.

(** [deadline.is_some_and(|d| current_time_us >= d)]. *)
Definition expired (current_time_us : Z) (d : option Z) : bool :=
  match d with Some deadline => deadline <=? current_time_us | None => false end.

Definition handler_tick {S} (h : SdoSequenceHandler) (current_time_us : Z)
    (od : ObjectDictionary S) : SdoSequenceHandler * res (option SdoResponseData) :=
  let timed_out st :=
    let '(h, command) := SdoSequenceHandler_abort h (ts_transaction_id st) 0x05040000 in
    (h, Ok (Some (handler_respond h Scon_NoConnection command))) in
  match sh_state h with
  | Srv_SegmentedUpload st =>
      if expired current_time_us (deadline_us st) then
        if 0 <? retransmissions_left st then
          let st := mkTransfer (ts_transaction_id st) (total_size st) (data_buffer st)
            (ts_offset st) (ts_index st) (ts_sub_index st)
            (Some (sdo_deadline od current_time_us)) (retransmissions_left st - 1)
            (last_sent_segment st) in
          let h := set_state h (Srv_SegmentedUpload st) in
          match last_sent_segment st with
          | Some last_command =>
              (h, Ok (Some (handler_respond h Scon_ConnectionValidAckRequest last_command)))
          | None => (h, Err (InternalError "Missing last sent segment during retransmission"))
          end
        else timed_out st
      else (h, Ok None)
  | Srv_SegmentedDownload st =>
      if expired current_time_us (deadline_us st) then timed_out st else (h, Ok None)
  | _ => (h, Ok None)
  end.

Definition process_sequence_layer (h : SdoSequenceHandler) (request : SequenceLayerHeader)
    : SdoSequenceHandler * res SequenceLayerHeader :=
  match sh_state h with
  | Srv_Closed =>
      if bool_decide (send_con request = Scon_Initialization) then
        let h := set_last_received (set_send_seq (set_state h Srv_Opening) 0)
                   (send_sequence_number request) in
        (h, Ok (mkSeqHeader (last_received_sequence_number h) Rcon_Initialization
                  (sh_send_sequence_number h) Scon_Initialization))
      else
        (h, Ok (mkSeqHeader (send_sequence_number request) Rcon_NoConnection
                  (sh_send_sequence_number h) Scon_NoConnection))
  | Srv_Opening =>
      if bool_decide (send_con request = Scon_ConnectionValid)
         && (receive_sequence_number request =? sh_send_sequence_number h) then
        let h := increment_send_seq
          (set_last_received (set_state h Srv_Established) (send_sequence_number request)) in
        (h, Ok (mkSeqHeader (last_received_sequence_number h) Rcon_ConnectionValid
                  (sh_send_sequence_number h) Scon_ConnectionValid))
      else
        (set_state h Srv_Closed, Err (SdoSequenceError "Invalid sequence state during SDO opening."))
  | Srv_Established | Srv_SegmentedDownload _ | Srv_SegmentedUpload _ =>
      let expected_seq := next_seq (last_received_sequence_number h) in
      if send_sequence_number request =? last_received_sequence_number h then
        (h, Ok (mkSeqHeader (last_received_sequence_number h) Rcon_ConnectionValid
                  (sh_send_sequence_number h) Scon_ConnectionValid))
      else if negb (send_sequence_number request =? expected_seq) then
        (h, Err (SdoSequenceError "SDO sequence number mismatch."))
      else
        let h := set_last_received h (send_sequence_number request) in
        let h :=
          match sh_state h with
          | Srv_SegmentedUpload st =>
              if receive_sequence_number request =? sh_send_sequence_number h then
                set_state h (Srv_SegmentedUpload
                  (mkTransfer (ts_transaction_id st) (total_size st) (data_buffer st) (ts_offset st)
                     (ts_index st) (ts_sub_index st) None 0 None))
              else h
          | _ => h
          end in
        let h := increment_send_seq h in
        let scon :=
          match sh_state h with
          | Srv_SegmentedUpload st =>
              if (ts_offset st =? 0)%nat then Scon_ConnectionValidAckRequest else Scon_ConnectionValid
          | _ => Scon_ConnectionValid
          end in
        (h, Ok (mkSeqHeader (last_received_sequence_number h) Rcon_ConnectionValid
                  (sh_send_sequence_number h) scon))
  end.

(** ** Commands ([sdo/handlers.rs], [sdo/command/handler.rs]) *)

(** The application's handler for the commands the crate does not implement. *)
Class SdoCommandHandler (H S : Type) : Type := {
  handle_write_all_by_index : H -> SdoCommand -> ObjectDictionary S -> H * ObjectDictionary S * SdoCommand;
  handle_write_multiple_params : H -> SdoCommand -> ObjectDictionary S -> H * ObjectDictionary S * SdoCommand;
  handle_file_read : H -> SdoCommand -> ObjectDictionary S -> H * ObjectDictionary S * SdoCommand;
  handle_file_write : H -> SdoCommand -> ObjectDictionary S -> H * ObjectDictionary S * SdoCommand
}.

(** [abort] of [command/handler.rs]. *)
Definition handler_abort (command : SdoCommand) (abort_code : Z) : SdoCommand :=
  mkSdoCommand (mkCmdHeader (transaction_id (cmd_header command)) true true Seg_Expedited Cid_Nil 4)
    None (le_bytes 4 abort_code).

(** A unit struct. *)
Inductive DefaultSdoHandler : Type := mkDefaultSdoHandler.
#[export] Instance DefaultSdoHandler_handler {S} : SdoCommandHandler DefaultSdoHandler S :=
  { handle_write_all_by_index h c od := (h, od, handler_abort c 0x06010001);
    handle_write_multiple_params h c od := (h, od, handler_abort c 0x06010001);
    handle_file_read h c od := (h, od, handler_abort c 0x06010001);
    handle_file_write h c od := (h, od, handler_abort c 0x06010001) }.

(** A name received from the network, as the dictionary's names are kept. *)
Fixpoint string_of_bytes (l : bytes) : string :=
  match l with
  | [] => EmptyString
  | b :: l => String (Ascii.ascii_of_nat (Z.to_nat b)) (string_of_bytes l)
  end.

Definition with_segment_size (h : CommandLayerHeader) (n : Z) : CommandLayerHeader :=
  mkCmdHeader (transaction_id h) (is_response h) (is_aborted h) (segmentation h) (command_id h) n.

Section Handlers.
Context {S : Type} `{ObjectDictionaryStorage S}.
Implicit Types (h : SdoSequenceHandler) (od : ObjectDictionary S).

(** The answer of a read: expedited when it fits, else the first segment of an
    upload whose state the connection keeps. *)
Definition answer_read h (tid : Z) (response_header : CommandLayerHeader) od (t : Z)
    (index sub_index : Z) (pl : bytes) : SdoSequenceHandler * SdoCommand :=
  if (length pl <=? MAX_EXPEDITED_PAYLOAD)%nat then
    (h, mkSdoCommand (with_segment_size response_header (u16 (len pl))) None pl)
  else
    let transfer_state := mkTransfer tid (length pl) pl 0 index sub_index None 0 None in
    let '(transfer_state, response_command, is_last) :=
      get_next_upload_segment od t transfer_state in
    (if negb is_last then set_state h (Srv_SegmentedUpload transfer_state) else h, response_command).

(** The error arms of [from_payload]. *)
Definition payload_abort (e : PowerlinkError) : Z :=
  match e with SdoInvalidCommandPayload => 0x05040001 | _ => 0x08000000 end.

Definition handle_read_by_index h (command : SdoCommand) (response_header : CommandLayerHeader)
    od (t : Z) : SdoSequenceHandler * SdoCommand :=
  let tid := transaction_id (cmd_header command) in
  match ReadByIndexRequest_from_payload (payload command) with
  | Ok req =>
      match read od (rbi_index req) (rbi_sub_index req) with
      | Some value =>
          answer_read h tid response_header od t (rbi_index req) (rbi_sub_index req)
            (ObjectValue_serialize value)
      | None =>
          match read_object od (rbi_index req) with
          | None => SdoSequenceHandler_abort h tid 0x06020000
          | Some _ => SdoSequenceHandler_abort h tid 0x06090011
          end
      end
  | Err e => SdoSequenceHandler_abort h tid (payload_abort e)
  end.

(** An acknowledgement without data. *)
Definition ack (response_header : CommandLayerHeader) : SdoCommand :=
  mkSdoCommand response_header None [].

Definition handle_write_by_index h (command : SdoCommand) (response_header : CommandLayerHeader)
    od (t : Z) : SdoSequenceHandler * ObjectDictionary S * SdoCommand :=
  let tid := transaction_id (cmd_header command) in
  let abort h od code := let '(h, c) := SdoSequenceHandler_abort h tid code in (h, od, c) in
  match segmentation (cmd_header command) with
  | Seg_Expedited =>
      match WriteByIndexRequest_from_payload (payload command) with
      | Ok req =>
          let state := mkTransfer tid (length (wbi_data req)) (wbi_data req) (length (wbi_data req))
            (wbi_index req) (wbi_sub_index req) None 0 None in
          let '(od, r) := perform_od_write state od in
          match r with
          | Ok _ => (h, od, ack response_header)
          | Err abort_code => abort h od abort_code
          end
      | Err e => abort h od (payload_abort e)
      end
  | Seg_Initiate =>
      match WriteByIndexRequest_from_payload (payload command) with
      | Ok req =>
          let total_size := unwrap_or (data_size command) 0 in
          if total_size =? 0 then abort h od 0x06070010 else
          (set_state h (Srv_SegmentedDownload
             (mkTransfer tid (Z.to_nat total_size) (wbi_data req) (length (wbi_data req))
                (wbi_index req) (wbi_sub_index req) (Some (sdo_deadline od t)) 0 None)),
           od, ack response_header)
      | Err e => abort h od (payload_abort e)
      end
  | Seg_Segment | Seg_Complete =>
      match sh_state h with
      | Srv_SegmentedDownload transfer_state =>
          if negb (ts_transaction_id transfer_state =? tid) then abort h od 0x08000000 else
          let '(transfer_state, od, r) := process_download_segment command od t transfer_state in
          match r with
          | Ok true => (set_state h Srv_Established, od, ack response_header)
          | Ok false => (set_state h (Srv_SegmentedDownload transfer_state), od, ack response_header)
          | Err abort_code => abort (set_state h Srv_Established) od abort_code
          end
      | _ => abort (set_state h Srv_Established) od 0x05040003
      end
  end.

Definition handle_read_by_name h (command : SdoCommand) (response_header : CommandLayerHeader)
    od (t : Z) : SdoSequenceHandler * SdoCommand :=
  let tid := transaction_id (cmd_header command) in
  match ReadByNameRequest_from_payload (payload command) with
  | Ok req =>
      match find_by_name od (string_of_bytes (rbn_name req)) with
      | Some (index, sub_index) =>
          let read_req_command :=
            mkSdoCommand (with_segment_size (cmd_header command) 4) (data_size command)
              (le_bytes 2 index ++ [sub_index] ++ [0]) in
          handle_read_by_index h read_req_command response_header od t
      | None => SdoSequenceHandler_abort h tid 0x060A0023
      end
  | Err e => SdoSequenceHandler_abort h tid (payload_abort e)
  end.

Definition handle_write_by_name h (command : SdoCommand) (response_header : CommandLayerHeader)
    od (t : Z) : SdoSequenceHandler * ObjectDictionary S * SdoCommand :=
  let tid := transaction_id (cmd_header command) in
  let abort code := let '(h, c) := SdoSequenceHandler_abort h tid code in (h, od, c) in
  match WriteByNameRequest_from_payload (payload command) with
  | Ok req =>
      match find_by_name od (string_of_bytes (wbn_name req)) with
      | Some (index, sub_index) =>
          let new_payload := le_bytes 2 index ++ [sub_index] ++ [0] ++ wbn_data req in
          let command :=
            mkSdoCommand (with_segment_size (cmd_header command) (u16 (len new_payload)))
              (data_size command) new_payload in
          handle_write_by_index h command response_header od t
      | None => abort 0x060A0023
      end
  | Err e => abort (payload_abort e)
  end.

(** The loop over the sub-indices of [handle_read_all_by_index]. *)
Fixpoint read_subs od (index : Z) (subs : list nat) (acc : bytes) : option bytes :=
  match subs with
  | [] => Some acc
  | i :: subs =>
      match read od index (u8 (Z.of_nat i + 1)) with
      | Some value => read_subs od index subs (acc ++ ObjectValue_serialize value)
      | None => None
      end
  end.

Definition handle_read_all_by_index h (command : SdoCommand) (response_header : CommandLayerHeader)
    od (t : Z) : SdoSequenceHandler * SdoCommand :=
  let tid := transaction_id (cmd_header command) in
  if (length (payload command) <? 2)%nat then SdoSequenceHandler_abort h tid 0x05040001 else
  let index := le_val (slice (payload command) 0 2) in
  match read_object od index with
  | Some (Obj_Record sub_indices | Obj_Array sub_indices) =>
      match read_subs od index (seq 0 (length sub_indices)) [] with
      | Some pl => answer_read h tid response_header od t index 0 pl
      | None => SdoSequenceHandler_abort h tid 0x06090011
      end
  | Some (Obj_Variable _) => SdoSequenceHandler_abort h tid 0x06090030
  | None => SdoSequenceHandler_abort h tid 0x06020000
  end.

(** The padding loop [while payload.len() % 4 != 0]. *)
Definition pad4 (l : bytes) : bytes := l ++ replicate ((4 - length l mod 4) mod 4) 0.

(** The loop over the entries of [handle_read_multiple_params]; the error is
    the abort code. *)
Fixpoint read_params od (es : list MultipleParamEntry) (acc : bytes) : result Z bytes :=
  match es with
  | [] => Ok acc
  | e :: es =>
      match read od (mpe_index e) (mpe_sub_index e) with
      | Some value =>
          let data := ObjectValue_serialize value in
          read_params od es
            (pad4 (acc ++ [0] ++ [0] ++ le_bytes 2 (u16 (len data)) ++ data))
      | None =>
          Err (match read_object od (mpe_index e) with None => 0x06020000 | Some _ => 0x06090011 end)
      end
  end.

Definition handle_read_multiple_params h (command : SdoCommand)
    (response_header : CommandLayerHeader) od (t : Z) : SdoSequenceHandler * SdoCommand :=
  let tid := transaction_id (cmd_header command) in
  match ReadMultipleParamRequest_from_payload (payload command) with
  | Ok req =>
      match read_params od req [] with
      | Ok pl =>
          let final_payload := le_bytes 4 (u32 (len req)) ++ pl in
          answer_read h tid response_header od t 0 0 final_payload
      | Err abort_code => SdoSequenceHandler_abort h tid abort_code
      end
  | Err e => SdoSequenceHandler_abort h tid (payload_abort e)
  end.

Definition handle_max_segment_size (command : SdoCommand) (response_header : CommandLayerHeader)
    : SdoCommand :=
  let max_size_server := Z.of_nat MAX_EXPEDITED_PAYLOAD in
  let max_size_client :=
    if (2 <=? length (payload command))%nat then le_val (slice (payload command) 0 2) else 0 in
  mkSdoCommand (with_segment_size response_header 4) None
    (le_bytes 2 max_size_client ++ le_bytes 2 max_size_server).
End Handlers.

(** ** Requests ([sdo/sequence_handler.rs]) *)
Section Requests.
Context {S H : Type} `{ST : ObjectDictionaryStorage S} `{!SdoCommandHandler H S}.
Implicit Types (h : SdoSequenceHandler) (od : ObjectDictionary S) (ch : H).

(** A response with the abort flag and nothing else. *)
Definition aborted_ack : SdoCommand :=
  mkSdoCommand (mkCmdHeader 0 false true Seg_Expedited Cid_Nil 0) None [].

(** The dispatch on the command identifier. *)
Definition dispatch_command h ch (command : SdoCommand) od (t : Z)
    : SdoSequenceHandler * H * ObjectDictionary S * SdoCommand :=
  let tid := transaction_id (cmd_header command) in
  let response_header := mkCmdHeader tid true false Seg_Expedited Cid_Nil 0 in
  let pure (r : SdoSequenceHandler * SdoCommand) := let '(h, c) := r in (h, ch, od, c) in
  let writing (r : SdoSequenceHandler * ObjectDictionary S * SdoCommand) :=
    let '(h, od, c) := r in (h, ch, od, c) in
  let custom (r : H * ObjectDictionary S * SdoCommand) := let '(ch, od, c) := r in (h, ch, od, c) in
  match command_id (cmd_header command) with
  | Cid_ReadByIndex => pure (handle_read_by_index h command response_header od t)
  | Cid_WriteByIndex => writing (handle_write_by_index h command response_header od t)
  | Cid_ReadByName => pure (handle_read_by_name h command response_header od t)
  | Cid_WriteByName => writing (handle_write_by_name h command response_header od t)
  | Cid_ReadAllByIndex => pure (handle_read_all_by_index h command response_header od t)
  | Cid_ReadMultipleParamByIndex =>
      pure (handle_read_multiple_params h command response_header od t)
  | Cid_MaxSegmentSize => (h, ch, od, handle_max_segment_size command response_header)
  | Cid_WriteAllByIndex => custom (handle_write_all_by_index ch command od)
  | Cid_WriteMultipleParamByIndex => custom (handle_write_multiple_params ch command od)
  | Cid_FileRead => custom (handle_file_read ch command od)
  | Cid_FileWrite => custom (handle_file_write ch command od)
  | Cid_Nil => (h, ch, od, ack response_header)
  | Cid_Abort => pure (SdoSequenceHandler_abort h tid 0x05040001)
  end.

Definition process_command_layer h ch (command : SdoCommand) od (t : Z)
    : SdoSequenceHandler * H * ObjectDictionary S * SdoCommand :=
  let hd := cmd_header command in
  let abort h code :=
    let '(h, c) := SdoSequenceHandler_abort h (transaction_id hd) code in (h, ch, od, c) in
  match sh_state h with
  | Srv_SegmentedUpload state =>
      if (ts_transaction_id state =? transaction_id hd) && negb (is_aborted hd) then
        if bool_decide (command_id hd = Cid_Nil) || is_response hd then
          let '(state, response_command, is_last) := get_next_upload_segment od t state in
          (set_state h (if negb is_last then Srv_SegmentedUpload state else Srv_Established),
           ch, od, response_command)
        else abort h 0x05040003
      else if is_aborted hd then (set_state h Srv_Established, ch, od, aborted_ack)
      else abort h 0x08000000
  | _ =>
      if is_aborted hd then (set_state h Srv_Established, ch, od, aborted_ack)
      else dispatch_command h ch command od t
  end.

(** The branch of [handle_request] for a frame without a command. *)
Definition handle_empty_command h ch (sequence_header : SequenceLayerHeader)
    (response_header : SequenceLayerHeader) od (t : Z)
    : SdoSequenceHandler * H * ObjectDictionary S * res SdoResponseData :=
  let is_init_handshake := bool_decide (sh_state h = Srv_Opening) in
  let is_ack := bool_decide (send_con sequence_header = Scon_ConnectionValid) in
  let reply h c :=
    mkResponse (client_info h)
      (mkSeqHeader (last_received_sequence_number h) (receive_con response_header)
         (send_sequence_number response_header) (send_con response_header)) c in
  if is_init_handshake || is_ack then
    match sh_state h with
    | Srv_SegmentedUpload state =>
        let '(state, response_command, is_last) := get_next_upload_segment od t state in
        let h := set_state h (if negb is_last then Srv_SegmentedUpload state else Srv_Closed) in
        (h, ch, od, Ok (reply h response_command))
    | _ =>
        let response_command :=
          mkSdoCommand (mkCmdHeader 0 true false Seg_Expedited Cid_Nil 0) None [] in
        let h := if negb is_init_handshake && bool_decide (sh_state h = Srv_Established)
                 then set_state h Srv_Closed else h in
        (h, ch, od, Ok (reply h response_command))
    end
  else (h, ch, od, Err SdoInvalidCommandPayload).

Definition nil_command : SdoCommand := mkSdoCommand CommandLayerHeader_default None [].

(** The branch of [handle_request] for an [ErrorResponse] of the client. *)
Definition handle_error_response h ch (sequence_header : SequenceLayerHeader) od
    : SdoSequenceHandler * H * ObjectDictionary S * res SdoResponseData :=
  let resend :=
    match sh_state h with Srv_SegmentedUpload state => last_sent_segment state | _ => None end in
  match resend with
  | Some last_command =>
      (h, ch, od,
       Ok (mkResponse (client_info h)
             (mkSeqHeader (send_sequence_number sequence_header) Rcon_ConnectionValid
                (sh_send_sequence_number h) Scon_ConnectionValidAckRequest) last_command))
  | None =>
      let '(h, r) := process_sequence_layer h sequence_header in
      (h, ch, od,
       match r with
       | Ok ack_header => Ok (mkResponse (client_info h) ack_header nil_command)
       | Err e => Err e
       end)
  end.

(** The branch of [handle_request] for a frame with a command. *)
Definition handle_command h ch (response_header : SequenceLayerHeader) (command_payload : bytes)
    od (t : Z) : SdoSequenceHandler * H * ObjectDictionary S * res SdoResponseData :=
  let reply h scon c :=
    mkResponse (client_info h)
      (mkSeqHeader (last_received_sequence_number h) (receive_con response_header)
         (send_sequence_number response_header) scon) c in
  match SdoCommand_deserialize command_payload with
  | Ok sdo_command =>
      let '(h, ch, od, response_command) := process_command_layer h ch sdo_command od t in
      let rh := cmd_header response_command in
      let h :=
        if negb (bool_decide (sh_state h = Srv_Opening))
           && (bool_decide (segmentation rh = Seg_Expedited)
               || bool_decide (segmentation rh = Seg_Complete) || is_aborted rh)
        then set_state h Srv_Closed else h in
      let scon := if is_aborted rh then Scon_NoConnection else send_con response_header in
      (h, ch, od, Ok (reply h scon response_command))
  | Err _ =>
      let tid := Z.land (byte_at command_payload 0) 0x0F in
      let '(h, abort_command) := SdoSequenceHandler_abort h tid 0x05040001 in
      (h, ch, od, Ok (reply h Scon_NoConnection abort_command))
  end.

Definition handle_request h ch (request_sdo_payload : bytes) od (t : Z)
    : SdoSequenceHandler * H * ObjectDictionary S * res SdoResponseData :=
  if (length request_sdo_payload <? 4)%nat then (h, ch, od, Err BufferTooShort) else
  match SequenceLayerHeader_deserialize (slice request_sdo_payload 0 4) with
  | Err e => (h, ch, od, Err e)
  | Ok sequence_header =>
      let command_payload := drop 4 request_sdo_payload in
      if bool_decide (receive_con sequence_header = Rcon_ErrorResponse)
      then handle_error_response h ch sequence_header od
      else
        let '(h, r) := process_sequence_layer h sequence_header in
        match r with
        | Err e => (h, ch, od, Err e)
        | Ok response_header =>
            match command_payload with
            | [] => handle_empty_command h ch sequence_header response_header od t
            | _ => handle_command h ch response_header command_payload od t
            end
        end
  end.
End Requests.

(** ** The server ([sdo/server.rs]) *)

(** [#[derive(Ord)]] on [SdoClientInfo]: by variant, then by the fields; octet
    arrays of one length compare lexicographically. *)
Definition client_key (c : SdoClientInfo) : list Z :=
  match c with Client_Asnd n m => 0 :: n :: m | Client_Udp ip p => 1 :: ip ++ [p] end.
Fixpoint lex_leb (a b : list Z) : bool :=
  match a, b with
  | [], _ => true
  | _ :: _, [] => false
  | x :: a, y :: b => (x <? y) || ((x =? y) && lex_leb a b)
  end.
Definition client_le (a b : SdoClientInfo) : Prop := lex_leb (client_key a) (client_key b) = true.
#[export] Instance client_le_dec : RelDecision client_le.
Proof. intros a b. unfold client_le. apply _. Defined.

#[export] Instance SdoClientInfo_countable : Countable SdoClientInfo.
Proof.
  apply (inj_countable'
    (fun c => match c with Client_Asnd n m => inl (n, m) | Client_Udp ip p => inr (ip, p) end)
    (fun s => match s with inl (n, m) => Client_Asnd n m | inr (ip, p) => Client_Udp ip p end)).
  by intros [].
Defined.

Abbreviation Connections := (gmap SdoClientInfo SdoSequenceHandler).

Record SdoServer (H : Type) : Type := mkServer { connections : Connections; handler : H }.
Arguments mkServer {H} connections handler.
Arguments connections {H} s.
Arguments handler {H} s.

Definition SdoServer_default : SdoServer DefaultSdoHandler := mkServer ∅ mkDefaultSdoHandler.
Definition with_handler {H} (handler : H) : SdoServer H := mkServer ∅ handler.

Section Server.
Context {S H : Type}.
Implicit Types (srv : SdoServer H) (od : ObjectDictionary S).

Definition transfer_deadline (h : SdoSequenceHandler) : option Z :=
  match sh_state h with
  | Srv_SegmentedUpload state | Srv_SegmentedDownload state => deadline_us state
  | _ => None
  end.
(** [Iterator::min]. *)
Definition min_option (l : list Z) : option Z :=
  foldl (fun m x => Some (match m with Some y => Z.min y x | None => x end)) None l.
Definition next_action_time srv : option Z :=
  min_option (omap (fun ch => transfer_deadline (snd ch)) (btree_items client_le (connections srv))).

(** The loop of [tick] over the connections: the connections with the ticked
    handlers, and either the error that ends the loop or the response found and
    the clients to prune. *)
Fixpoint tick_loop (t : Z) od (items : list (SdoClientInfo * SdoSequenceHandler))
    (conns : Connections) (response_data : option SdoResponseData) (clients_to_prune : list SdoClientInfo)
    : Connections * res (option SdoResponseData * list SdoClientInfo) :=
  match items with
  | [] => (conns, Ok (response_data, clients_to_prune))
  | (client_info, h) :: items =>
      let '(h, r) :=
        match response_data with
        | None => handler_tick h t od
        | Some _ => (h, Ok response_data)
        end in
      let conns := <[client_info := h]> conns in
      match r with
      | Err e => (conns, Err e)
      | Ok response_data =>
          tick_loop t od items conns response_data
            (if is_closed h then clients_to_prune ++ [client_info] else clients_to_prune)
      end
  end.

Definition prune (conns : Connections) (clients : list SdoClientInfo) : Connections :=
  foldl (fun m c => delete c m) conns clients.

Definition server_tick srv (t : Z) od : SdoServer H * res (option SdoResponseData) :=
  let '(conns, r) :=
    tick_loop t od (btree_items client_le (connections srv)) (connections srv) None [] in
  match r with
  | Err e => (mkServer conns (handler srv), Err e)
  | Ok (response_data, clients_to_prune) =>
      (mkServer (prune conns clients_to_prune) (handler srv), Ok response_data)
  end.

Context `{ST : ObjectDictionaryStorage S} `{!SdoCommandHandler H S}.

Definition server_handle_request srv (request_sdo_payload : bytes) (client_info : SdoClientInfo)
    od (t : Z) : SdoServer H * ObjectDictionary S * res SdoResponseData :=
  if (length request_sdo_payload <? 4)%nat then (srv, od, Err BufferTooShort) else
  let h := unwrap_or (connections srv !! client_info) (SdoSequenceHandler_new client_info) in
  let '(h, ch, od, r) := handle_request h (handler srv) request_sdo_payload od t in
  let conns := <[client_info := h]> (connections srv) in
  match r with
  | Err e => (mkServer conns ch, od, Err e)
  | Ok response =>
      (mkServer (if is_closed h then delete client_info conns else conns) ch, od, Ok response)
  end.
End Server.

(** ** The invariant of a connection *)
Definition seq_ok (n : Z) : Prop := 0 <= n < 64.
(** The cursor of an upload is inside its data, and a running timer has a
    segment to retransmit. *)
Definition upload_wf (st : SdoTransferState) : Prop :=
  total_size st = length (data_buffer st) /\ (0 < ts_offset st < total_size st)%nat /\
  (deadline_us st <> None -> last_sent_segment st <> None).
(** An upload about to send its next segment. *)
Definition upload_ready (st : SdoTransferState) : Prop :=
  total_size st = length (data_buffer st) /\ (ts_offset st < total_size st)%nat.
Definition state_wf (s : SdoServerState) : Prop :=
  match s with
  | Srv_SegmentedUpload st => upload_wf st
  | Srv_SegmentedDownload _ => False
  | _ => True
  end.
Definition handler_wf (h : SdoSequenceHandler) : Prop :=
  seq_ok (sh_send_sequence_number h) /\ seq_ok (last_received_sequence_number h) /\
  state_wf (sh_state h).

(** What a command handler leaves: a well-formed connection, or a download
    just started and answered by an expedited acknowledgement. *)
Definition outcome_wf (h : SdoSequenceHandler) (c : SdoCommand) : Prop :=
  seq_ok (sh_send_sequence_number h) /\ seq_ok (last_received_sequence_number h) /\
  match sh_state h with
  | Srv_SegmentedDownload _ => segmentation (cmd_header c) = Seg_Expedited
  | s => state_wf s
  end.

Lemma next_seq_ok n : seq_ok (next_seq n).
Proof. unfold seq_ok, next_seq. apply Z.mod_pos_bound. lia. Qed.

Lemma upload_wf_ready st : upload_wf st -> upload_ready st.
Proof. unfold upload_wf, upload_ready. lia. Qed.

(** The bytes a segment carries, and the cursor after it. *)
Definition chunk_of (st : SdoTransferState) : bytes :=
  take MAX_EXPEDITED_PAYLOAD (drop (ts_offset st) (data_buffer st)).

Section TransferLemmas.
Context {S : Type} `{ObjectDictionaryStorage S}.
Implicit Types od : ObjectDictionary S.

Lemma get_next_spec od t st : upload_ready st ->
  exists st' c, get_next_upload_segment od t st =
      (st', c, (total_size st <=? ts_offset st + MAX_EXPEDITED_PAYLOAD)%nat) /\
    payload c = chunk_of st /\
    transaction_id (cmd_header c) = ts_transaction_id st /\ is_response (cmd_header c) = true /\
    is_aborted (cmd_header c) = false /\
    segmentation (cmd_header c) =
      (if (total_size st <=? ts_offset st + MAX_EXPEDITED_PAYLOAD)%nat then Seg_Complete
       else if (ts_offset st =? 0)%nat then Seg_Initiate else Seg_Segment) /\
    data_size c = (if (ts_offset st =? 0)%nat then Some (u32 (Z.of_nat (total_size st))) else None) /\
    ts_transaction_id st' = ts_transaction_id st /\ data_buffer st' = data_buffer st /\
    total_size st' = total_size st /\
    ts_offset st' = (ts_offset st + length (chunk_of st))%nat /\
    ((total_size st <=? ts_offset st + MAX_EXPEDITED_PAYLOAD)%nat = false ->
       upload_wf st' /\ length (chunk_of st) = MAX_EXPEDITED_PAYLOAD /\
       last_sent_segment st' = Some c /\ deadline_us st' = Some (sdo_deadline od t) /\
       retransmissions_left st' = unwrap_or (read_u32 od OD_IDX_SDO_RETRIES 0) 2).
Proof.
  intros [Ht Ho]. set (L := (total_size st <=? ts_offset st + MAX_EXPEDITED_PAYLOAD)%nat).
  assert (Hchunk : slice (data_buffer st) (ts_offset st)
    (ts_offset st + Nat.min MAX_EXPEDITED_PAYLOAD (total_size st - ts_offset st)) = chunk_of st).
  { unfold slice, chunk_of.
    replace (ts_offset st + Nat.min MAX_EXPEDITED_PAYLOAD (total_size st - ts_offset st) - ts_offset st)%nat
      with (Nat.min MAX_EXPEDITED_PAYLOAD (total_size st - ts_offset st)) by lia.
    destruct (decide (MAX_EXPEDITED_PAYLOAD <= total_size st - ts_offset st)%nat).
    - by rewrite Nat.min_l by lia.
    - rewrite Nat.min_r by lia. rewrite !take_ge; rewrite ?length_drop; lia || done. }
  assert (Hlen : length (chunk_of st) = Nat.min MAX_EXPEDITED_PAYLOAD (total_size st - ts_offset st))
    by (unfold chunk_of; rewrite length_take, length_drop; lia).
  assert (HL : (total_size st <=? ts_offset st + Nat.min MAX_EXPEDITED_PAYLOAD (total_size st - ts_offset st))%nat = L).
  { unfold L. apply eq_bool_prop_intro. rewrite !Is_true_true, !Nat.leb_le. lia. }
  unfold get_next_upload_segment. rewrite Hchunk, HL. rewrite <- Hlen.
  eexists _, _. split; [reflexivity|]. cbn [payload cmd_header transaction_id is_response is_aborted
    segmentation data_size]. split_and!; try done.
  1-4: by destruct L.
  intros HLf. rewrite HLf. unfold L in HLf. apply Nat.leb_gt in HLf.
  split; [|split; [lia|done]]. unfold upload_wf.
  cbn [total_size data_buffer ts_offset deadline_us last_sent_segment]. unfold MAX_EXPEDITED_PAYLOAD in *.
  split_and!; [done|lia|lia|done].
Qed.

(** *** Every operation keeps the invariant *)
Implicit Types h : SdoSequenceHandler.

Lemma handler_outcome h c : handler_wf h -> outcome_wf h c.
Proof. intros (?&?&Hs). split_and!; [done..|]. by destruct (sh_state h). Qed.

Lemma reset_wf h : handler_wf (SdoSequenceHandler_reset h).
Proof. unfold handler_wf, seq_ok; simpl; lia. Qed.

Lemma abort_outcome h tid code h' c :
  SdoSequenceHandler_abort h tid code = (h', c) -> outcome_wf h' c.
Proof. unfold SdoSequenceHandler_abort. intros ?; simplify_eq. apply handler_outcome, reset_wf. Qed.

Lemma answer_read_outcome h tid rh od t i s pl h' c : handler_wf h ->
  answer_read h tid rh od t i s pl = (h', c) -> outcome_wf h' c.
Proof.
  intros Hw. unfold answer_read. destruct (Nat.leb_spec (length pl) MAX_EXPEDITED_PAYLOAD) as [|Hl].
  - intros ?; simplify_eq. by apply handler_outcome.
  - set (st := mkTransfer _ _ _ _ _ _ _ _ _).
    destruct (get_next_spec od t st) as (st' & c' & -> & Hrest); [split; simpl; lia|].
    destruct Hrest as (_&_&_&_&_&_&_&_&_&_&Hu).
    destruct (_ <=? _)%nat; intros ?; simplify_eq/=; [by apply handler_outcome|].
    destruct Hw as (? & ? & _). destruct (Hu eq_refl) as [? _]. by split_and!.
Qed.

Lemma read_by_index_outcome h c rh od t h' c' : handler_wf h ->
  handle_read_by_index h c rh od t = (h', c') -> outcome_wf h' c'.
Proof.
  intros Hw. unfold handle_read_by_index.
  repeat case_match; intros; eauto using abort_outcome, answer_read_outcome.
Qed.

Lemma write_by_index_outcome h c rh od t h' od' c' : handler_wf h ->
  segmentation rh = Seg_Expedited ->
  handle_write_by_index h c rh od t = (h', od', c') -> outcome_wf h' c'.
Proof.
  intros Hw Hrh. unfold handle_write_by_index.
  destruct (segmentation (cmd_header c)).
  1: destruct (WriteByIndexRequest_from_payload _); [destruct (perform_od_write _ _) as [? []]|];
     intros ?; simplify_eq/=; apply handler_outcome; [done|apply reset_wf..].
  1: destruct (WriteByIndexRequest_from_payload _); [case_if|];
     intros ?; simplify_eq/=; [apply handler_outcome, reset_wf| |apply handler_outcome, reset_wf].
  1: destruct Hw as (?&?&_); by split_and!.
  all: destruct Hw as (?&?&Hs); destruct (sh_state h); [..|done|];
     intros ?; simplify_eq/=; apply handler_outcome, reset_wf.
Qed.

Lemma read_by_name_outcome h c rh od t h' c' : handler_wf h ->
  handle_read_by_name h c rh od t = (h', c') -> outcome_wf h' c'.
Proof.
  intros Hw. unfold handle_read_by_name.
  repeat case_match; intros; eauto using abort_outcome, read_by_index_outcome.
Qed.

Lemma write_by_name_outcome h c rh od t h' od' c' : handler_wf h ->
  segmentation rh = Seg_Expedited ->
  handle_write_by_name h c rh od t = (h', od', c') -> outcome_wf h' c'.
Proof.
  intros Hw Hrh. unfold handle_write_by_name.
  repeat case_match; intros; simplify_eq; eauto using write_by_index_outcome, abort_outcome.
Qed.

Lemma read_all_outcome h c rh od t h' c' : handler_wf h ->
  handle_read_all_by_index h c rh od t = (h', c') -> outcome_wf h' c'.
Proof.
  intros Hw. unfold handle_read_all_by_index.
  repeat case_match; intros; eauto using abort_outcome, answer_read_outcome.
Qed.

Lemma read_multiple_outcome h c rh od t h' c' : handler_wf h ->
  handle_read_multiple_params h c rh od t = (h', c') -> outcome_wf h' c'.
Proof.
  intros Hw. unfold handle_read_multiple_params.
  repeat case_match; intros; eauto using abort_outcome, answer_read_outcome.
Qed.
End TransferLemmas.

Section RequestLemmas.
Context {S H : Type} `{ST : ObjectDictionaryStorage S} `{!SdoCommandHandler H S}.
Implicit Types (h : SdoSequenceHandler) (od : ObjectDictionary S) (ch : H).

Lemma dispatch_command_outcome h ch c od t h' ch' od' c' : handler_wf h ->
  dispatch_command h ch c od t = (h', ch', od', c') -> outcome_wf h' c'.
Proof.
  intros Hw. unfold dispatch_command.
  destruct (command_id (cmd_header c)).
  all: repeat match goal with
    | |- (let '(_, _) := ?r in _) = _ -> _ => let E := fresh "E" in destruct r eqn:E
    | |- (let '(_, _) := (let '(_, _) := ?r in _) in _) = _ -> _ => let E := fresh "E" in destruct r eqn:E
    end; intros ?; simplify_eq/=.
  all: eauto using handler_outcome, read_by_index_outcome, read_by_name_outcome, read_all_outcome,
    read_multiple_outcome, abort_outcome, write_by_index_outcome, write_by_name_outcome.
  - eapply write_by_index_outcome; [eassumption| |eassumption]. done.
  - eapply write_by_name_outcome; [eassumption| |eassumption]. done.
Qed.

Lemma process_command_layer_outcome h ch c od t h' ch' od' c' : handler_wf h ->
  process_command_layer h ch c od t = (h', ch', od', c') -> outcome_wf h' c'.
Proof.
  intros Hw. unfold process_command_layer.
  assert (Hplain : (if is_aborted (cmd_header c)
    then (set_state h Srv_Established, ch, od, aborted_ack) else dispatch_command h ch c od t)
    = (h', ch', od', c') -> outcome_wf h' c').
  { case_if; [|by apply dispatch_command_outcome]. intros ?; simplify_eq. destruct Hw as (?&?&_). by split_and!. }
  pose proof Hw as (? & ? & Hs). destruct (sh_state h) as [| | |st|st] eqn:Est; try exact Hplain.
  simpl in Hs. destruct (get_next_spec od t st) as (st' & c1 & Hg & Hrest); [by apply upload_wf_ready|].
  rewrite Hg. destruct Hrest as (_&_&_&_&_&_&_&_&_&_&Hu).
  set (last := (_ <=? _)%nat) in *. destruct last;
    repeat case_if; intros ?; simplify_eq/=; try (apply handler_outcome, reset_wf);
    by split_and!; try apply Hu.
Qed.

Lemma process_sequence_layer_wf h r : handler_wf h -> seq_header_ok r ->
  handler_wf (fst (process_sequence_layer h r)).
Proof.
  intros (? & ? & Hs) [? ?]. unfold process_sequence_layer.
  pose proof next_seq_ok. destruct (sh_state h) as [| | |st|st] eqn:Est; try done.
  all: repeat case_if; cbn [fst]; unfold handler_wf, increment_send_seq, set_send_seq, set_last_received,
    set_state; cbn [sh_state sh_send_sequence_number last_received_sequence_number];
    rewrite ?Est; cbn [sh_state sh_send_sequence_number last_received_sequence_number state_wf];
    split_and!; try done; try (unfold seq_ok; lia).
  all: simpl in *; unfold upload_wf in *; simpl; tauto.
Qed.

Lemma handle_empty_command_wf h ch sq rh od t : handler_wf h ->
  handler_wf (fst (fst (fst (handle_empty_command h ch sq rh od t)))).
Proof.
  intros Hw. unfold handle_empty_command. case_if; [|done].
  pose proof Hw as (? & ? & Hs). destruct (sh_state h) as [| | |st|st] eqn:Est; try done.
  all: try (cbn [fst]; case_if; [by split_and!|done]).
  destruct (get_next_spec od t st) as (st' & c1 & -> & Hrest); [by apply upload_wf_ready|].
  destruct Hrest as (_&_&_&_&_&_&_&_&_&_&Hu).
  set (last := (_ <=? _)%nat) in *. destruct last; cbn [fst negb]; split_and!; try done; by apply Hu.
Qed.

Lemma handle_command_wf h ch rh pl od t : handler_wf h ->
  handler_wf (fst (fst (fst (handle_command h ch rh pl od t)))).
Proof.
  intros Hw. unfold handle_command.
  destruct (SdoCommand_deserialize pl) as [c|]; [|apply reset_wf].
  destruct (process_command_layer h ch c od t) as [[[h' ch'] od'] c'] eqn:E. cbn [fst].
  apply process_command_layer_outcome in E as (? & ? & Hs); [|done].
  destruct (sh_state h') as [| | |st|st] eqn:Est.
  4: { rewrite Hs. cbn. by split_and!. }
  all: case_if; split_and!; (done || by rewrite Est).
Qed.

Lemma handle_request_wf h ch pl od t : handler_wf h ->
  handler_wf (fst (fst (fst (handle_request h ch pl od t)))).
Proof.
  intros Hw. unfold handle_request, handle_error_response. case_if; [done|].
  destruct (SequenceLayerHeader_deserialize _) as [sq|] eqn:Esq; [|done].
  apply seq_deserialize_ok in Esq.
  pose proof (process_sequence_layer_wf h sq Hw Esq) as Hp.
  destruct (process_sequence_layer h sq) as [h1 r]. cbn [fst] in Hp.
  case_if.
  - case_match; [done|]. done.
  - destruct r as [rh|]; [|done].
    destruct (drop 4 pl); [by apply handle_empty_command_wf | by apply handle_command_wf].
Qed.

Lemma handler_tick_wf h t od : handler_wf h ->
  handler_wf (fst (handler_tick h t od)) /\ exists r, snd (handler_tick h t od) = Ok r.
Proof.
  intros Hw. pose proof Hw as (? & ? & Hs). unfold handler_tick.
  destruct (sh_state h) as [| | |st|st] eqn:Est; [..|destruct Hs|].
  1-3: split; [exact Hw|by eexists].
  - simpl in Hs. destruct (expired t (deadline_us st)) eqn:Ee; [|split; [exact Hw|by eexists]].
    destruct Hs as (Hs1 & Hs2 & Hs3).
    case_if; [|split; [apply reset_wf|by eexists]].
    destruct (last_sent_segment st) as [c|] eqn:El.
    + cbn [last_sent_segment]. split; [|by eexists]. by split_and!.
    + exfalso. apply Hs3; [|done]. by destruct (deadline_us st).
Qed.
End RequestLemmas.

(** ** Following a transfer *)
Definition client_header (h : SdoSequenceHandler) : SequenceLayerHeader :=
  mkSeqHeader (sh_send_sequence_number h) Rcon_ConnectionValid
    (next_seq (last_received_sequence_number h)) Scon_ConnectionValid.
(** The client's next frame on an open connection: a command, or no command to
    acknowledge the last segment. *)
Definition ack_frame (h : SdoSequenceHandler) : bytes := seq_wire (client_header h).
Definition command_frame (h : SdoSequenceHandler) (c : SdoCommand) : bytes :=
  seq_wire (client_header h) ++ cmd_wire c.

Lemma next_seq_eq n : seq_ok n -> next_seq n = (n + 1) mod 64.
Proof.
  unfold seq_ok, next_seq, u8, wrap. intros. rewrite (Z.mod_small (n + 1)); [done|].
  change (2 ^ 8) with 256. lia.
Qed.

Lemma next_seq_neq n : seq_ok n -> next_seq n <> n.
Proof.
  intros Hn. rewrite next_seq_eq by done. unfold seq_ok in Hn.
  destruct (decide (n = 63)) as [->|]; [done|]. rewrite Z.mod_small; lia.
Qed.

Lemma client_header_ok h : handler_wf h -> seq_header_ok (client_header h).
Proof. intros (?&?&?). split; [done|]. apply next_seq_ok. Qed.

(** The frame is accepted and both counters advance. *)
Definition advance (h : SdoSequenceHandler) : SdoSequenceHandler :=
  mkHandler
    (match sh_state h with
     | Srv_SegmentedUpload st =>
         Srv_SegmentedUpload (mkTransfer (ts_transaction_id st) (total_size st) (data_buffer st)
           (ts_offset st) (ts_index st) (ts_sub_index st) None 0 None)
     | s => s
     end)
    (next_seq (sh_send_sequence_number h)) (next_seq (last_received_sequence_number h)) (client_info h).

Definition is_open (h : SdoSequenceHandler) : Prop :=
  match sh_state h with Srv_Established | Srv_SegmentedUpload _ => True | _ => False end.

Lemma process_next h : handler_wf h -> is_open h ->
  process_sequence_layer h (client_header h) =
    (advance h, Ok (mkSeqHeader (last_received_sequence_number (advance h)) Rcon_ConnectionValid
       (sh_send_sequence_number (advance h)) Scon_ConnectionValid)).
Proof.
  intros (Hs & Hl & Hst) Ho. unfold process_sequence_layer, is_open, advance in *.
  cbn [client_header send_sequence_number receive_sequence_number].
  pose proof (next_seq_neq _ Hl) as Hne%Z.eqb_neq. rewrite Hne, Z.eqb_refl. cbn [negb].
  unfold increment_send_seq, set_send_seq, set_state, set_last_received.
  destruct h as [[| | |st|st] n m ci]; cbn in *; try done; rewrite !Z.eqb_refl; cbn; [done|].
  destruct Hst as (_ & Ho' & _). destruct (Nat.eqb_spec (ts_offset st) 0); [lia|done].
Qed.

Section Following.
Context {S H : Type} `{ST : ObjectDictionaryStorage S} `{!SdoCommandHandler H S}.
Implicit Types (h : SdoSequenceHandler) (od : ObjectDictionary S) (ch : H).

Lemma request_open h ch od t c : handler_wf h -> is_open h ->
  handle_request h ch (seq_wire (client_header h) ++ c) od t =
    let rh := mkSeqHeader (last_received_sequence_number (advance h)) Rcon_ConnectionValid
       (sh_send_sequence_number (advance h)) Scon_ConnectionValid in
    match c with
    | [] => handle_empty_command (advance h) ch (client_header h) rh od t
    | _ => handle_command (advance h) ch rh c od t
    end.
Proof.
  intros Hw Ho. unfold handle_request.
  rewrite nat_ltb_false by (rewrite length_app; simpl; lia).
  change (slice (seq_wire (client_header h) ++ c) 0 4) with (seq_wire (client_header h)).
  change (drop 4 (seq_wire (client_header h) ++ c)) with c.
  rewrite <- (app_nil_r (seq_wire _)), seq_deserialize_wire by (by apply client_header_ok).
  rewrite bool_decide_false by done. rewrite process_next by done. by destruct c.
Qed.

(** One acknowledgement fetches one segment. *)
Lemma ack_step h ch od t st : handler_wf h -> sh_state h = Srv_SegmentedUpload st ->
  let last := (total_size st <=? ts_offset st + MAX_EXPEDITED_PAYLOAD)%nat in
  exists h' r, handle_request h ch (ack_frame h) od t = (h', ch, od, Ok r) /\ handler_wf h' /\
    payload (rd_command r) = chunk_of st /\
    transaction_id (cmd_header (rd_command r)) = ts_transaction_id st /\
    is_aborted (cmd_header (rd_command r)) = false /\
    segmentation (cmd_header (rd_command r)) = (if last then Seg_Complete else Seg_Segment) /\
    if last then sh_state h' = Srv_Closed
    else exists st', sh_state h' = Srv_SegmentedUpload st' /\ data_buffer st' = data_buffer st /\
           total_size st' = total_size st /\ ts_transaction_id st' = ts_transaction_id st /\
           ts_offset st' = (ts_offset st + MAX_EXPEDITED_PAYLOAD)%nat.
Proof.
  intros Hw Hst last. pose proof (handle_request_wf h ch (ack_frame h) od t Hw) as Hw'.
  pose proof Hw as (? & ? & Hu). rewrite Hst in Hu. simpl in Hu.
  unfold ack_frame in *. rewrite <- (app_nil_r (seq_wire _)) in *.
  rewrite request_open in * by (unfold is_open; rewrite ?Hst; done).
  cbn [handle_empty_command] in *. unfold handle_empty_command in *.
  set (st0 := mkTransfer (ts_transaction_id st) (total_size st) (data_buffer st) (ts_offset st)
    (ts_index st) (ts_sub_index st) None 0 None).
  assert (Ha : sh_state (advance h) = Srv_SegmentedUpload st0) by (unfold advance; by rewrite Hst).
  rewrite Ha in *. cbn [client_header send_con] in *.
  rewrite (bool_decide_true (Scon_ConnectionValid = _)) in * by done. rewrite orb_true_r in *.
  destruct (get_next_spec od t st0) as (st' & c & Hg & Hp & Ht & _ & Hab & Hsg & _ & Ht' & Hd' & Htot & Ho' & Hn).
  { by apply upload_wf_ready in Hu. }
  rewrite Hg in *. change (total_size st0) with (total_size st) in *.
  change (ts_offset st0) with (ts_offset st) in *. fold last in Hsg, Hn, Hw' |- *.
  change (chunk_of st0) with (chunk_of st) in *.
  destruct Hu as (_ & Hoff & _). destruct (Nat.eqb_spec (ts_offset st) 0) as [|_]; [lia|].
  destruct last; cbn [negb] in *; eexists _, _; (split; [reflexivity|]);
    cbn [rd_command]; split_and!; try done.
  exists st'. destruct (Hn eq_refl) as (_ & Hcl & _). split_and!; try done. lia.
Qed.
End Following.

Section Dialogues.
Context {S H : Type} `{ST : ObjectDictionaryStorage S} `{!SdoCommandHandler H S}.
Implicit Types (h : SdoSequenceHandler) (od : ObjectDictionary S) (ch : H).

(** A client that acknowledges, at the given times, and the commands it
    receives. *)
Fixpoint acknowledge h ch od (ts : list Z) : SdoSequenceHandler * list SdoCommand :=
  match ts with
  | [] => (h, [])
  | t :: ts =>
      let '(h, ch, od, r) := handle_request h ch (ack_frame h) od t in
      match r with
      | Ok r => let '(h, cs) := acknowledge h ch od ts in (h, rd_command r :: cs)
      | Err _ => (h, [])
      end
  end.

(** A data-carrying response of transaction [tid]. *)
Definition answers (tid : Z) (c : SdoCommand) : Prop :=
  transaction_id (cmd_header c) = tid /\ is_aborted (cmd_header c) = false.

Lemma acknowledge_delivers ts : forall h ch od st, handler_wf h ->
  sh_state h = Srv_SegmentedUpload st ->
  (length ts * MAX_EXPEDITED_PAYLOAD < total_size st - ts_offset st + MAX_EXPEDITED_PAYLOAD)%nat ->
  (total_size st - ts_offset st <= length ts * MAX_EXPEDITED_PAYLOAD)%nat ->
  exists h' cs, acknowledge h ch od ts = (h', cs) /\ sh_state h' = Srv_Closed /\
    length cs = length ts /\ concat (payload <$> cs) = drop (ts_offset st) (data_buffer st) /\
    Forall (answers (ts_transaction_id st)) cs /\
    (exists c, last cs = Some c /\ segmentation (cmd_header c) = Seg_Complete).
Proof.
  assert (Hmax : (0 < MAX_EXPEDITED_PAYLOAD)%nat) by (unfold MAX_EXPEDITED_PAYLOAD; lia).
  induction ts as [|t ts IH]; intros h ch od st Hw Hst Hlo Hhi.
  { pose proof Hw as (_ & _ & Hu). rewrite Hst in Hu. destruct Hu as (? & ? & _).
    simpl in Hhi. lia. }
  cbn [length acknowledge] in *.
  destruct (ack_step h ch od t st Hw Hst) as (h1 & r & -> & Hw1 & Hp & Ht & Ha & Hsg & Hnext).
  pose proof Hw as (_ & _ & Hu). rewrite Hst in Hu. destruct Hu as (Htot & Hoff & _).
  destruct (Nat.leb_spec (total_size st) (ts_offset st + MAX_EXPEDITED_PAYLOAD)) as [Hl|Hl].
  - assert (ts = []) as -> by (destruct ts; [done|cbn [length] in Hlo; nia]).
    cbn [acknowledge]. eexists _, _. split; [reflexivity|]. split_and!; try done.
    + simpl. rewrite Hp, app_nil_r. unfold chunk_of. apply take_ge. rewrite length_drop. lia.
    + by constructor.
    + by eexists.
  - destruct Hnext as (st1 & Hst1 & Hd1 & Ht1 & Hid1 & Ho1).
    destruct (IH h1 ch od st1 Hw1 Hst1) as (h' & cs & -> & Hc & Hlen & Hcat & Hall & Hlast); [lia..|].
    eexists _, _. split; [reflexivity|]. split_and!; [done|simpl; lia| |by constructor; [|rewrite Hid1 in Hall]|].
    + cbn [fmap list_fmap concat]. rewrite Hp, Hcat, Ho1, Hd1. unfold chunk_of.
      by rewrite <- drop_drop, take_drop.
    + destruct Hlast as (c & Hc1 & Hc2). exists c. split; [|done]. destruct cs; [done|]. by rewrite last_cons_cons.
Qed.

(** *** A command on an established connection *)
Lemma request_command h ch od t c : handler_wf h -> sh_state h = Srv_Established ->
  sdo_command_ok c ->
  handle_request h ch (command_frame h c) od t =
    let '(h1, ch1, od1, c1) := process_command_layer (advance h) ch c od t in
    let rh := cmd_header c1 in
    let h2 :=
      if negb (bool_decide (sh_state h1 = Srv_Opening))
         && (bool_decide (segmentation rh = Seg_Expedited)
             || bool_decide (segmentation rh = Seg_Complete) || is_aborted rh)
      then set_state h1 Srv_Closed else h1 in
    (h2, ch1, od1,
     Ok (mkResponse (client_info h2)
           (mkSeqHeader (last_received_sequence_number h2) Rcon_ConnectionValid
              (sh_send_sequence_number (advance h))
              (if is_aborted rh then Scon_NoConnection else Scon_ConnectionValid)) c1)).
Proof.
  intros Hw Hst Hc. unfold command_frame.
  rewrite request_open by (unfold is_open; rewrite ?Hst; done). cbv zeta.
  replace (match cmd_wire c with [] => _ | _ :: _ => _ end)
    with (handle_command (advance h) ch
      (mkSeqHeader (last_received_sequence_number (advance h)) Rcon_ConnectionValid
         (sh_send_sequence_number (advance h)) Scon_ConnectionValid) (cmd_wire c) od t) by done.
  unfold handle_command. rewrite <- (app_nil_r (cmd_wire c)), cmd_deserialize_wire by done.
  done.
Qed.

(** A request to read an object by its index. *)
Definition read_request (tid index sub : Z) : SdoCommand :=
  mkSdoCommand (mkCmdHeader tid false false Seg_Expedited Cid_ReadByIndex 4) None
    (le_bytes 2 index ++ [sub; 0]).
Definition write_request (tid index sub : Z) (data : bytes) : SdoCommand :=
  mkSdoCommand (mkCmdHeader tid false false Seg_Expedited Cid_WriteByIndex (4 + len data)) None
    (le_bytes 2 index ++ [sub; 0] ++ data).

Lemma read_request_ok tid i s : byte_ok tid -> sdo_command_ok (read_request tid i s).
Proof. intros. split_and!; try done. Qed.

Lemma write_request_ok tid i s d : byte_ok tid -> 4 + len d < 2 ^ 16 ->
  sdo_command_ok (write_request tid i s d).
Proof.
  intros. unfold sdo_command_ok, write_request, in_width, len in *. cbn [cmd_header transaction_id
    segment_size payload data_size segmentation]. rewrite !length_app, length_le_bytes. simpl length.
  split_and!; (done || lia).
Qed.

Lemma parse_read_request tid i s : in_width 16 i ->
  ReadByIndexRequest_from_payload (payload (read_request tid i s)) = Ok (mkReadByIndex i s).
Proof.
  intros. unfold ReadByIndexRequest_from_payload. cbn [payload read_request].
  rewrite nat_ltb_false by wire_len.
  change (slice _ 0 2) with (le_bytes 2 i). by rewrite le_val_le_bytes.
Qed.

Lemma parse_write_request tid i s d : in_width 16 i ->
  WriteByIndexRequest_from_payload (payload (write_request tid i s d)) = Ok (mkWriteByIndex i s d).
Proof.
  intros. unfold WriteByIndexRequest_from_payload. cbn [payload write_request].
  rewrite nat_ltb_false by wire_len.
  change (slice _ 0 2) with (le_bytes 2 i). by rewrite le_val_le_bytes.
Qed.

Lemma advance_established h : sh_state h = Srv_Established -> sh_state (advance h) = Srv_Established.
Proof. unfold advance. by intros ->. Qed.
End Dialogues.

(** ** What an SDO write does to the dictionary *)
Section Verdict.
Context {S : Type} `{ObjectDictionaryStorage S}.
Implicit Types od : ObjectDictionary S.

(** The value a write of [d] stores, or the abort code that refuses it, from
    what can be read of the dictionary. *)
Definition sdo_write_verdict od (i s : Z) (d : bytes) : result Z ObjectValue :=
  match entries od !! i with
  | None => Err 0x06020000
  | Some e =>
      match read od i s with
      | None => Err 0x06090011
      | Some w =>
          match ObjectValue_deserialize d w with
          | Err BufferTooShort => Err 0x06070013
          | Err _ => Err 0x06070010
          | Ok v =>
              if is_read_only e then Err 0x06010002
              else if is_count e s then Err 0x08000020 else Ok v
          end
      end
  end.

Lemma deserialize_discriminant d w v :
  ObjectValue_deserialize d w = Ok v -> discriminant v = discriminant w.
Proof.
  unfold ObjectValue_deserialize, deserialize_fixed. destruct w; repeat case_match;
    intros; simplify_eq; done.
Qed.

Lemma perform_od_write_verdict od st : 0 <= ts_sub_index st ->
  is_command (ts_index st) = false -> is_pdo_mapping_index0 (ts_index st) (ts_sub_index st) = false ->
  match sdo_write_verdict od (ts_index st) (ts_sub_index st) (data_buffer st) with
  | Ok v => exists od', perform_od_write st od = (od', Ok tt) /\
              write_effect od od' (ts_index st) (ts_sub_index st) v
  | Err code => exists od', perform_od_write st od = (od', Err code) /\ entries od' = entries od
  end.
Proof.
  intros Hs Hc Hm. unfold sdo_write_verdict, perform_od_write.
  destruct (entries od !! ts_index st) as [e|] eqn:Ee.
  2: { unfold read, read_object. rewrite Ee. simpl. by eexists. }
  destruct (read od (ts_index st) (ts_sub_index st)) as [w|] eqn:Er.
  2: { unfold read_object. rewrite Ee. simpl. by eexists. }
  destruct (ObjectValue_deserialize (data_buffer st) w) as [v|err] eqn:Ed.
  2: { by destruct err; eexists. }
  pose proof (deserialize_discriminant _ _ _ Ed) as Hd. rewrite Hd, Z.eqb_refl. cbn [negb].
  rewrite write_plain by done.
  pose proof (write_internal_outcome od (ts_index st) (ts_sub_index st) v Hm) as Ho.
  destruct (write_internal od (ts_index st) (ts_sub_index st) v true) as [od' r] eqn:Ew.
  cbn [snd] in Ho. unfold write_outcome in Ho. rewrite Ee, Er, Hd, Z.eqb_refl in Ho.
  destruct (write_internal_effect _ _ _ _ _ _ _ Hs Ew) as (_ & Hsame & Hok).
  destruct (is_read_only e); [|destruct (is_count e _)]; subst r.
  - rewrite bool_decide_true by done. eexists. split; [done|]. by apply Hsame.
  - rewrite bool_decide_false by done. eexists. split; [done|]. by apply Hsame.
  - eexists. split; [done|]. by apply Hok.
Qed.
End Verdict.

(** A connection and a dictionary for the witnesses. *)
Definition demo_client : SdoClientInfo := Client_Asnd 240 [2; 0; 0; 0; 0; 1].
Definition demo_handler : SdoSequenceHandler := mkHandler Srv_Established 1 63 demo_client.
Definition demo_blob : bytes := replicate (Z.to_nat 3000) 7.
Definition demo_sdo_od : ObjectDictionary MemStorage :=
  mkOD (list_to_map
    [(0x2000, demo_entry (Obj_Variable (OV_Domain demo_blob)) ReadOnly None);
     (0x6000, demo_entry (Obj_Record [OV_Unsigned16 7; OV_Integer8 (-1)]) ReadWrite None)]) None.
Lemma demo_handler_wf : handler_wf demo_handler.
Proof. unfold handler_wf, seq_ok; simpl; lia. Qed.

(** ** Properties *)

(** What may happen to a connection: a request of any bytes, the timer, a
    reset, or a change of the dictionary by another part of the node. *)
Inductive HandlerOp (S : Type) : Type :=
| HOp_request (pl : bytes) (t : Z) | HOp_tick (t : Z) | HOp_reset | HOp_od (od : ObjectDictionary S).
Arguments HOp_request {S} pl t.
Arguments HOp_tick {S} t.
Arguments HOp_reset {S}.
Arguments HOp_od {S} od.

Definition handler_step {S H} `{ObjectDictionaryStorage S} `{!SdoCommandHandler H S}
    (s : SdoSequenceHandler * H * ObjectDictionary S) (op : HandlerOp S)
    : SdoSequenceHandler * H * ObjectDictionary S :=
  let '(h, ch, od) := s in
  match op with
  | HOp_request pl t => fst (handle_request h ch pl od t)
  | HOp_tick t => (fst (handler_tick h t od), ch, od)
  | HOp_reset => (SdoSequenceHandler_reset h, ch, od)
  | HOp_od od => (h, ch, od)
  end.

Lemma handler_steps_wf {S H} `{ObjectDictionaryStorage S} `{!SdoCommandHandler H S} ops :
  forall s : SdoSequenceHandler * H * ObjectDictionary S,
  handler_wf (fst (fst s)) -> handler_wf (fst (fst (foldl handler_step s ops))).
Proof.
  induction ops as [|op ops IH]; intros [[h ch] od] Hw; [done|]. simpl. apply IH.
  destruct op; simpl; [by apply handle_request_wf|by apply handler_tick_wf|apply reset_wf|done].
Qed.

(** C31: Whatever frames a client sends and whenever the timer runs, a connection's sequence
    numbers stay below 64, an upload's cursor stays inside its data (the segment slice never
    goes out of range), the timer never fails for want of a segment to retransmit, and no
    segmented download survives the request that starts it. *)
Theorem sdo_connection_invariant {S H} `{ObjectDictionaryStorage S} `{!SdoCommandHandler H S}
    client (ch : H) (od : ObjectDictionary S) ops t :
  let '(h, _, od) := foldl handler_step (SdoSequenceHandler_new client, ch, od) ops in
  0 <= sh_send_sequence_number h < 64 /\ 0 <= last_received_sequence_number h < 64 /\
  (exists r, snd (handler_tick h t od) = Ok r) /\
  match sh_state h with
  | Srv_SegmentedUpload st =>
      total_size st = length (data_buffer st) /\ (0 < ts_offset st < total_size st)%nat
  | Srv_SegmentedDownload _ => False
  | _ => True
  end.
Proof.
  assert (Hn : handler_wf (SdoSequenceHandler_new client)) by (unfold handler_wf, seq_ok; simpl; lia).
  pose proof (handler_steps_wf ops (SdoSequenceHandler_new client, ch, od) Hn) as Hw.
  destruct (foldl _ _ ops) as [[h ch'] od']. cbn [fst] in Hw.
  pose proof (handler_tick_wf h t od' Hw) as [_ ?]. destruct Hw as (? & ? & Hs).
  unfold seq_ok in *. split_and!; [lia..|done|]. destruct (sh_state h); try done. destruct Hs as (?&?&?). done.
Qed.

(** A read of a long object answers with the first segment and opens an upload. *)
Lemma read_starts_upload {S H} `{ObjectDictionaryStorage S} `{!SdoCommandHandler H S}
    h (ch : H) (od : ObjectDictionary S) tid index sub v t :
  handler_wf h -> sh_state h = Srv_Established -> byte_ok tid -> in_width 16 index ->
  read od index sub = Some v ->
  let d := ObjectValue_serialize v in
  (MAX_EXPEDITED_PAYLOAD < length d)%nat ->
  exists h1 r st c,
    handle_request h ch (command_frame h (read_request tid index sub)) od t = (h1, ch, od, Ok r) /\
    handler_wf h1 /\ sh_state h1 = Srv_SegmentedUpload st /\ rd_command r = c /\
    ts_transaction_id st = tid /\ total_size st = length d /\
    ts_offset st = MAX_EXPEDITED_PAYLOAD /\ data_buffer st = d /\
    payload c = take MAX_EXPEDITED_PAYLOAD d /\ segmentation (cmd_header c) = Seg_Initiate /\
    data_size c = Some (u32 (len d)) /\ answers tid c.
Proof.
  intros Hw Hst Ht Hi Hr d Hlong.
  pose proof (handle_request_wf h ch (command_frame h (read_request tid index sub)) od t Hw) as Hw1.
  assert (Hreq : exists st c, get_next_upload_segment od t
    (mkTransfer tid (length d) d 0 index sub None 0 None) = (st, c, false) /\
    process_command_layer (advance h) ch (read_request tid index sub) od t =
      (set_state (advance h) (Srv_SegmentedUpload st), ch, od, c)).
  { destruct (get_next_spec od t (mkTransfer tid (length d) d 0 index sub None 0 None))
      as (st & c & Hg & _); [split; simpl; lia|].
    cbn [total_size ts_offset] in Hg. rewrite (proj2 (Nat.leb_gt _ _)) in Hg by lia.
    exists st, c. split; [done|]. unfold process_command_layer.
    rewrite (advance_established h Hst). cbn [read_request cmd_header is_aborted].
    unfold dispatch_command. cbn [command_id cmd_header]. unfold handle_read_by_index.
    fold (read_request tid index sub).
    rewrite (parse_read_request tid index sub Hi). cbn [rbi_index rbi_sub_index].
    rewrite Hr. fold d. unfold answer_read.
    change (transaction_id (cmd_header (read_request tid index sub))) with tid.
    rewrite (proj2 (Nat.leb_gt _ _)) by lia. by rewrite Hg. }
  destruct Hreq as (st & c & Hg & Hp).
  destruct (get_next_spec od t (mkTransfer tid (length d) d 0 index sub None 0 None))
    as (st1 & c1 & Hg1 & Hpay & Htid & _ & Hab & Hsg & Hds & Hid & Hd & Htot & Ho & Hn);
    [split; simpl; lia|].
  rewrite Hg in Hg1. injection Hg1 as <- <- HL. cbn [total_size ts_offset] in HL, Hn, Hsg, Hds, Htot, Ho.
  change (0 + MAX_EXPEDITED_PAYLOAD)%nat with MAX_EXPEDITED_PAYLOAD in *.
  rewrite <- HL in Hsg, Hn. destruct (Hn eq_refl) as (_ & Hcl & _). cbn [Nat.eqb] in Hsg, Hds.
  rewrite (request_command h ch od t _ Hw Hst (read_request_ok tid index sub Ht)) in *.
  rewrite Hp in *. cbv zeta beta iota in *. rewrite Hsg, Hab in *.
  rewrite (bool_decide_false (Seg_Initiate = Seg_Expedited)),
    (bool_decide_false (Seg_Initiate = Seg_Complete)) in Hw1 |- * by done.
  cbn [orb] in *. rewrite andb_false_r in *. cbn [fst] in Hw1.
  eexists _, _, st, c. split; [reflexivity|]. split_and!; try done. by rewrite Ho, Hcl.
Qed.

(** C18: A client that reads, over an established connection, an object too long for one frame
    and acknowledges each segment receives an Initiate segment with the total size, then the
    rest of the object and only that: the segments' payloads in order are its encoding, none is
    an abort, the last one is marked Complete, and the connection is then closed. *)
Theorem segmented_upload_delivers {S H} `{ObjectDictionaryStorage S} `{!SdoCommandHandler H S}
    h (ch : H) (od : ObjectDictionary S) tid index sub v t ts :
  handler_wf h -> sh_state h = Srv_Established -> byte_ok tid -> in_width 16 index ->
  read od index sub = Some v ->
  let d := ObjectValue_serialize v in
  (MAX_EXPEDITED_PAYLOAD < length d)%nat ->
  (length ts * MAX_EXPEDITED_PAYLOAD < length d <= Datatypes.S (length ts) * MAX_EXPEDITED_PAYLOAD)%nat ->
  exists h1 r h2 cs c,
    handle_request h ch (command_frame h (read_request tid index sub)) od t = (h1, ch, od, Ok r) /\
    acknowledge h1 ch od ts = (h2, cs) /\
    segmentation (cmd_header (rd_command r)) = Seg_Initiate /\
    data_size (rd_command r) = Some (u32 (len d)) /\
    concat (payload <$> (rd_command r :: cs)) = d /\ length cs = length ts /\
    Forall (answers tid) (rd_command r :: cs) /\
    last cs = Some c /\ segmentation (cmd_header c) = Seg_Complete /\ sh_state h2 = Srv_Closed.
Proof.
  intros Hw Hst Ht Hi Hr d Hlong Hts.
  destruct (read_starts_upload h ch od tid index sub v t Hw Hst Ht Hi Hr Hlong)
    as (h1 & r & st & c & Hreq & Hw1 & Hst1 & Hrc & Hid & Htot & Ho & Hd & Hp & Hsg & Hds & Ha).
  destruct (acknowledge_delivers ts h1 ch od st Hw1 Hst1) as (h2 & cs & Hack & Hc & Hlen & Hcat & Hall & c2 & Hl & Hsc);
    [rewrite Htot, Ho; fold d; lia..|].
  exists h1, r, h2, cs, c2. rewrite Hrc. split_and!; try done.
  - cbn [fmap list_fmap concat]. rewrite Hp, Hcat, Ho, Hd. apply take_drop.
  - constructor; [done|]. by rewrite Hid in Hall.
Qed.

Lemma segmented_upload_delivers_witness :
  exists h1 r h2 cs c,
    handle_request demo_handler mkDefaultSdoHandler
      (command_frame demo_handler (read_request 4 0x2000 0)) demo_sdo_od 0
      = (h1, mkDefaultSdoHandler, demo_sdo_od, Ok r) /\
    acknowledge h1 mkDefaultSdoHandler demo_sdo_od [10; 20] = (h2, cs) /\
    segmentation (cmd_header (rd_command r)) = Seg_Initiate /\
    data_size (rd_command r) = Some (u32 (len demo_blob)) /\
    concat (payload <$> (rd_command r :: cs)) = demo_blob /\ length cs = 2%nat /\
    Forall (answers 4) (rd_command r :: cs) /\
    last cs = Some c /\ segmentation (cmd_header c) = Seg_Complete /\ sh_state h2 = Srv_Closed.
Proof.
  apply (segmented_upload_delivers demo_handler mkDefaultSdoHandler demo_sdo_od 4 0x2000 0
           (OV_Domain demo_blob) 0 [10; 20]).
  - exact demo_handler_wf.
  - reflexivity.
  - unfold byte_ok, in_width; lia.
  - unfold in_width; lia.
  - vm_compute. reflexivity.
  - apply Nat.ltb_lt. vm_compute. reflexivity.
  - split; [apply Nat.ltb_lt | apply Nat.leb_le]; vm_compute; reflexivity.
Defined.

(** The command layer on an expedited write, outside an upload. *)
Lemma process_write {S H} `{ObjectDictionaryStorage S} `{!SdoCommandHandler H S}
    h (ch : H) (od : ObjectDictionary S) tid i s d t :
  match sh_state h with Srv_SegmentedUpload _ => False | _ => True end ->
  in_width 16 i -> 0 <= s -> is_command i = false -> is_pdo_mapping_index0 i s = false ->
  exists h' od' c,
    process_command_layer h ch (write_request tid i s d) od t = (h', ch, od', c) /\
    match sdo_write_verdict od i s d with
    | Ok v => h' = h /\ c = ack (mkCmdHeader tid true false Seg_Expedited Cid_Nil 0) /\
              write_effect od od' i s v
    | Err code => h' = SdoSequenceHandler_reset h /\ c = abort_command tid code /\
                  entries od' = entries od
    end.
Proof.
  intros Hst Hi Hs Hc Hm.
  pose proof (perform_od_write_verdict od (mkTransfer tid (length d) d (length d) i s None 0 None)
    Hs Hc Hm) as Hv. cbn [ts_index ts_sub_index data_buffer] in Hv.
  assert (E : process_command_layer h ch (write_request tid i s d) od t
    = dispatch_command h ch (write_request tid i s d) od t).
  { unfold process_command_layer. destruct (sh_state h); (done || by destruct Hst). }
  rewrite E. unfold dispatch_command. cbn [command_id cmd_header write_request].
  unfold handle_write_by_index. fold (write_request tid i s d).
  rewrite (parse_write_request tid i s d Hi). cbn [wbi_index wbi_sub_index wbi_data].
  change (segmentation (cmd_header (write_request tid i s d))) with Seg_Expedited.
  change (transaction_id (cmd_header (write_request tid i s d))) with tid.
  destruct (sdo_write_verdict od i s d) as [v|code]; destruct Hv as (od' & Hp & He);
    cbn [segmentation cmd_header]; rewrite Hp; eexists _, od', _; by split.
Qed.

(** An expedited write over an established connection, to any object but the command
    objects and the mapping counts, either stores the value its data encodes, and then only
    that value, answered by an empty acknowledgement, or changes nothing and is answered by the
    abort code of the first check that fails: no such object, no such sub-index, data too short,
    data of the wrong type, read-only object, element count.  The connection is closed. *)
Theorem expedited_write_all_or_nothing {S H} `{ObjectDictionaryStorage S} `{!SdoCommandHandler H S}
    h (ch : H) (od : ObjectDictionary S) tid i s d t :
  handler_wf h -> sh_state h = Srv_Established -> byte_ok tid -> in_width 16 i -> 0 <= s ->
  4 + len d < 2 ^ 16 -> is_command i = false -> is_pdo_mapping_index0 i s = false ->
  exists h' od' r,
    handle_request h ch (command_frame h (write_request tid i s d)) od t = (h', ch, od', Ok r) /\
    sh_state h' = Srv_Closed /\
    match sdo_write_verdict od i s d with
    | Ok v => rd_command r = ack (mkCmdHeader tid true false Seg_Expedited Cid_Nil 0) /\
              write_effect od od' i s v
    | Err code => rd_command r = abort_command tid code /\ entries od' = entries od
    end.
Proof.
  intros Hw Hst Ht Hi Hs Hl Hc Hm.
  destruct (process_write (advance h) ch od tid i s d t) as (h1 & od' & c & Hp & Hv); try done.
  { by rewrite (advance_established h Hst). }
  rewrite (request_command h ch od t _ Hw Hst (write_request_ok tid i s d Ht Hl)), Hp.
  destruct (sdo_write_verdict od i s d) as [v|code]; destruct Hv as (-> & -> & He);
    (eexists _, od', _; split; [reflexivity|]; split; [|done]).
  - rewrite (advance_established h Hst). by rewrite bool_decide_false, bool_decide_true by done.
  - done.
Qed.

Lemma expedited_write_all_or_nothing_witness :
  exists h' od' r,
    handle_request demo_handler mkDefaultSdoHandler
      (command_frame demo_handler (write_request 4 0x6000 2 [0xFE])) demo_sdo_od 0
      = (h', mkDefaultSdoHandler, od', Ok r) /\ sh_state h' = Srv_Closed /\
    rd_command r = ack (mkCmdHeader 4 true false Seg_Expedited Cid_Nil 0) /\
    write_effect demo_sdo_od od' 0x6000 2 (OV_Integer8 (-2)).
Proof.
  apply (expedited_write_all_or_nothing demo_handler mkDefaultSdoHandler demo_sdo_od 4 0x6000 2
           [0xFE] 0).
  - exact demo_handler_wf.
  - reflexivity.
  - unfold byte_ok, in_width; lia.
  - unfold in_width; lia.
  - lia.
  - unfold len; simpl; lia.
  - reflexivity.
  - reflexivity.
Defined.

(** C33: The sequence layer of an open connection compares a request's number with the last one
    it accepted, modulo 64.  The next number is accepted, and both counters advance by one; any
    number but the next and the last is refused and changes nothing; the last one again is
    answered like a new frame and changes nothing. *)
Theorem sequence_layer_spec h r :
  handler_wf h -> is_open h -> seq_header_ok r ->
  let distance := (send_sequence_number r - last_received_sequence_number h) mod 64 in
  let '(h', result) := process_sequence_layer h r in
  (distance = 1 ->
     last_received_sequence_number h' = (last_received_sequence_number h + 1) mod 64 /\
     sh_send_sequence_number h' = (sh_send_sequence_number h + 1) mod 64 /\
     result = Ok (mkSeqHeader (last_received_sequence_number h') Rcon_ConnectionValid
                    (sh_send_sequence_number h') Scon_ConnectionValid) /\ is_open h') /\
  (distance = 0 -> h' = h /\
     result = Ok (mkSeqHeader (last_received_sequence_number h) Rcon_ConnectionValid
                    (sh_send_sequence_number h) Scon_ConnectionValid)) /\
  (1 < distance -> h' = h /\ result = Err (SdoSequenceError "SDO sequence number mismatch.")).
Proof.
  intros Hw Ho Hr distance. destruct (process_sequence_layer h r) as [h' result] eqn:E.
  destruct Hw as (Hs & Hl & Hst). destruct Hr as [_ Hr].
  pose proof (next_seq_eq _ Hl) as Hn. pose proof (next_seq_neq _ Hl) as Hne. pose proof (next_seq_ok (last_received_sequence_number h)) as Hno.
  unfold seq_ok in *.
  assert (Hd0 : distance = 0 <-> send_sequence_number r = last_received_sequence_number h).
  { unfold distance. split; [intros Hd|intros ->; by rewrite Z.sub_diag].
    apply Z.mod_divide in Hd; [|lia]. destruct Hd as [k Hk]. lia. }
  assert (Hd1 : distance = 1 <-> send_sequence_number r = next_seq (last_received_sequence_number h)).
  { rewrite Hn. unfold distance. Z.div_mod_to_equations. lia. }
  assert (Hdr : 0 <= distance < 64) by (apply Z.mod_pos_bound; lia).
  destruct h as [[| | |st|st] n m ci]; try done; simpl in *;
    unfold process_sequence_layer in E; simpl in E;
    (destruct (Z.eqb_spec (send_sequence_number r) m) as [E1|E1];
       [simplify_eq; split_and!; intros; try done; lia|]);
    (destruct (Z.eqb_spec (send_sequence_number r) (next_seq m)) as [E2|E2]; simpl in E;
       [|simplify_eq; split_and!; intros; try done; lia]).
  - simplify_eq. split_and!; intros; [|lia..]. split_and!; try done; simpl; [by rewrite E2|by apply next_seq_eq].
  - destruct Hst as (_ & Hoff & _).
    destruct (receive_sequence_number r =? n); simpl in E;
      (destruct (Nat.eqb_spec (ts_offset st) 0); [lia|]);
      simplify_eq; (split_and!; intros; [|lia..]); split_and!; try done; simpl;
      first [by rewrite E2 | by apply next_seq_eq].
Qed.

Lemma sequence_layer_spec_witness :
  process_sequence_layer demo_handler
    (mkSeqHeader 1 Rcon_ConnectionValid 5 Scon_ConnectionValid)
    = (demo_handler, Err (SdoSequenceError "SDO sequence number mismatch.")).
Proof.
  pose proof (sequence_layer_spec demo_handler
    (mkSeqHeader 1 Rcon_ConnectionValid 5 Scon_ConnectionValid) demo_handler_wf I
    ltac:(split; simpl; lia)) as Hs. simpl in Hs.
  destruct Hs as (_ & _ & Hgap). destruct (Hgap ltac:(vm_compute; reflexivity)) as [Hh Hres].
  exact (f_equal2 pair Hh Hres).
Defined.

(** *** Timeouts *)

(** The results of a run of the timer. *)
Fixpoint ticks {S} (h : SdoSequenceHandler) (od : ObjectDictionary S) (ts : list Z)
    : SdoSequenceHandler * list (res (option SdoResponseData)) :=
  match ts with
  | [] => (h, [])
  | t :: ts =>
      let '(h, r) := handler_tick h t od in
      let '(h, rs) := ticks h od ts in (h, r :: rs)
  end.
(** Each time is at or after the deadline then running. *)
Fixpoint overdue {S} (od : ObjectDictionary S) (deadline : Z) (ts : list Z) : Prop :=
  match ts with
  | [] => True
  | t :: ts => deadline <= t /\ overdue od (sdo_deadline od t) ts
  end.

(** An upload whose client falls silent retransmits the last segment, unchanged and under
    the same sequence number, once per expired deadline while retransmissions are left; the next
    expiry sends the timeout abort and closes the connection.  Before the deadline the timer
    does nothing. *)
Theorem upload_timeout_bounded {S} h (od : ObjectDictionary S) st c deadline n ts :
  sh_state h = Srv_SegmentedUpload st -> deadline_us st = Some deadline ->
  last_sent_segment st = Some c -> retransmissions_left st = Z.of_nat n ->
  length ts = Datatypes.S n -> overdue od deadline ts ->
  (forall t, t < deadline -> handler_tick h t od = (h, Ok None)) /\
  ticks h od ts =
    (SdoSequenceHandler_reset h,
     replicate n (Ok (Some (handler_respond h Scon_ConnectionValidAckRequest c))) ++
     [Ok (Some (handler_respond (SdoSequenceHandler_reset h) Scon_NoConnection
                  (abort_command (ts_transaction_id st) 0x05040000)))]).
Proof.
  intros Hst Hd Hc Hn Hts Hover. split.
  { intros t Ht. unfold handler_tick. rewrite Hst, Hd. simpl. by destruct (Z.leb_spec deadline t); [lia|]. }
  revert h st deadline n Hst Hd Hc Hn Hts Hover.
  induction ts as [|t ts IH]; intros h st deadline n Hst Hd Hc Hn Hts Hover; [done|].
  destruct Hover as [Hle Hover]. injection Hts as Hts. cbn [ticks]. unfold handler_tick.
  rewrite Hst, Hd. cbn [expired]. rewrite (proj2 (Z.leb_le _ _) Hle), Hn.
  destruct n as [|n].
  - destruct ts; [|done]. done.
  - rewrite (proj2 (Z.ltb_lt _ _)) by lia. cbn [last_sent_segment]. rewrite Hc.
    set (h1 := set_state h _).
    pose proof (IH h1 _ _ n eq_refl eq_refl eq_refl) as IH1. cbn [retransmissions_left ts_transaction_id] in IH1.
    rewrite IH1 by (done || lia). done.
Qed.

Definition demo_upload (c : SdoCommand) : SdoTransferState :=
  mkTransfer 4 3000 demo_blob 1452 0x2000 0 (Some 100) 1 (Some c).
Lemma upload_timeout_bounded_witness :
  let h := mkHandler (Srv_SegmentedUpload (demo_upload nil_command)) 3 7 demo_client in
  ticks h demo_sdo_od [100; 15000100] =
    (SdoSequenceHandler_new demo_client,
     [Ok (Some (handler_respond h Scon_ConnectionValidAckRequest nil_command));
      Ok (Some (handler_respond (SdoSequenceHandler_new demo_client) Scon_NoConnection
                  (abort_command 4 0x05040000)))]).
Proof.
  intros h. apply (upload_timeout_bounded h demo_sdo_od (demo_upload nil_command) nil_command 100 1
    [100; 15000100]); try reflexivity.
  split; [lia|split; [|done]]. vm_compute. discriminate.
Defined.

(** *** Downloads *)
Fixpoint download {S} `{ObjectDictionaryStorage S} (st : SdoTransferState) (od : ObjectDictionary S)
    (segs : list (Z * SdoCommand)) : SdoTransferState * ObjectDictionary S * result Z bool :=
  match segs with
  | [] => (st, od, Ok false)
  | (t, c) :: segs =>
      let '(st, od, r) := process_download_segment c od t st in
      match r with Ok false => download st od segs | _ => (st, od, r) end
  end.

(** Download segments, none but the last marked Complete, are assembled in order: if their
    lengths add up to the announced size, exactly their concatenation is written to the object
    and the transfer's outcome is the outcome of that write; if they exceed it the transfer is
    aborted with [0x06070010], if they fall short with [0x06070013], and the dictionary is
    untouched. *)
Theorem download_assembles_object {S} `{ObjectDictionaryStorage S} segs last_seg t
    (st : SdoTransferState) (od : ObjectDictionary S) :
  ts_offset st = length (data_buffer st) ->
  Forall (fun s => segmentation (cmd_header (snd s)) <> Seg_Complete) segs ->
  segmentation (cmd_header last_seg) = Seg_Complete ->
  let received := data_buffer st ++ concat (map (fun s => payload (snd s)) segs) ++ payload last_seg in
  let '(_, od', r) := download st od (segs ++ [(t, last_seg)]) in
  ((total_size st < length received)%nat -> od' = od /\ r = Err 0x06070010) /\
  ((length received < total_size st)%nat -> od' = od /\ r = Err 0x06070013) /\
  (length received = total_size st ->
     exists st', ts_index st' = ts_index st /\ ts_sub_index st' = ts_sub_index st /\
       data_buffer st' = received /\
       (od', r) = (fst (perform_od_write st' od),
                   match snd (perform_od_write st' od) with Ok _ => Ok true | Err e => Err e end)).
Proof.
  intros Ho Hsegs Hlast. revert st Ho. induction Hsegs as [|[t1 c] segs Hc Hsegs IH]; intros st Ho received.
  - cbn [app download map concat] in *. subst received.
    unfold process_download_segment. rewrite Hlast, bool_decide_true by done.
    rewrite length_app, <- Ho.
    destruct (Nat.ltb_spec (total_size st) (ts_offset st + length (payload last_seg))) as [Hl|Hl].
    { split_and!; intros; [done|lia..]. }
    cbn [ts_offset total_size]. destruct (Nat.eqb_spec (ts_offset st + length (payload last_seg)) (total_size st)) as [He|He]; cbn [negb].
    + set (st' := mkTransfer _ _ _ _ _ _ _ _ _).
      destruct (perform_od_write st' od) as [od' w] eqn:Ew.
      assert (Hgoal : exists st'0, ts_index st'0 = ts_index st /\ ts_sub_index st'0 = ts_sub_index st /\
        data_buffer st'0 = data_buffer st ++ payload last_seg /\
        (od', match w with Ok _ => Ok true | Err e => Err e end) =
          (fst (perform_od_write st'0 od),
           match snd (perform_od_write st'0 od) with Ok _ => Ok true | Err e => Err e end)).
      { exists st'. by rewrite Ew. }
      destruct w; (split_and!; intros; [lia..|exact Hgoal]).
    + rewrite (proj2 (Nat.ltb_lt _ _)) by lia. split_and!; intros; [lia|done|lia].
  - cbn [app download map concat snd] in *. subst received.
    unfold process_download_segment. rewrite (bool_decide_false _ Hc).
    destruct (Nat.ltb_spec (total_size st) (ts_offset st + length (payload c))) as [Hl|Hl].
    { rewrite !length_app, <- Ho. split_and!; intros; [done|lia..]. }
    match goal with |- context [download ?s od _] => specialize (IH s) end.
    cbn [ts_offset data_buffer total_size ts_index ts_sub_index] in IH.
    rewrite <- !app_assoc in IH |- *. apply IH. rewrite length_app. by rewrite Ho.
Qed.

Lemma download_assembles_object_witness :
  let st := mkTransfer 4 2 [1] 1 0x6000 1 None 0 None in
  let c := mkSdoCommand (mkCmdHeader 4 false false Seg_Complete Cid_WriteByIndex 1) None [2] in
  let '(_, od', r) := download st demo_sdo_od [(5, c)] in
  exists st', data_buffer st' = [1; 2] /\ od' = fst (perform_od_write st' demo_sdo_od) /\
    r = Ok true.
Proof.
  intros st c.
  pose proof (download_assembles_object [] c 5 st demo_sdo_od eq_refl (Forall_nil_2 _) eq_refl) as Hd.
  cbn [app] in Hd.
  assert (Hr : snd (download st demo_sdo_od [(5, c)]) = Ok true) by (vm_compute; reflexivity).
  destruct (download st demo_sdo_od [(5, c)]) as [[st1 od1] r1]. cbn [snd] in Hr.
  destruct Hd as (_ & _ & Hd). destruct (Hd eq_refl) as (st' & _ & _ & Hb & Heq).
  exists st'. split; [exact Hb|]. split; [exact (f_equal fst Heq)|exact Hr].
Defined.

(** *** A segmented download over the wire *)
Definition initiate_write_request (tid i s total : Z) (d : bytes) : SdoCommand :=
  mkSdoCommand (mkCmdHeader tid false false Seg_Initiate Cid_WriteByIndex (4 + len d)) (Some total)
    (le_bytes 2 i ++ [s; 0] ++ d).

(** The request that initiates a segmented download over an established connection is
    acknowledged, but the acknowledgement is marked expedited and so closes the connection at
    once; every later segment of the download, sent without a new handshake, is answered by the
    abort [0x05040003] and writes nothing. *)
Theorem segmented_download_refused {S H} `{ObjectDictionaryStorage S} `{!SdoCommandHandler H S}
    h (ch : H) (od : ObjectDictionary S) tid i s total d t sq c t' :
  handler_wf h -> sh_state h = Srv_Established -> byte_ok tid -> in_width 16 i ->
  4 + len d < 2 ^ 16 -> 0 < total < 2 ^ 32 ->
  seq_header_ok sq -> send_con sq <> Scon_Initialization -> receive_con sq <> Rcon_ErrorResponse ->
  sdo_command_ok c -> command_id (cmd_header c) = Cid_WriteByIndex ->
  is_aborted (cmd_header c) = false ->
  segmentation (cmd_header c) = Seg_Segment \/ segmentation (cmd_header c) = Seg_Complete ->
  exists h1 r1 h2 r2,
    handle_request h ch (command_frame h (initiate_write_request tid i s total d)) od t
      = (h1, ch, od, Ok r1) /\
    rd_command r1 = ack (mkCmdHeader tid true false Seg_Expedited Cid_Nil 0) /\
    sh_state h1 = Srv_Closed /\
    handle_request h1 ch (seq_wire sq ++ cmd_wire c) od t' = (h2, ch, od, Ok r2) /\
    rd_command r2 = abort_command (transaction_id (cmd_header c)) 0x05040003 /\
    sh_state h2 = Srv_Closed.
Proof.
  intros Hw Hst Ht Hi Hl Htot Hsq Hnoinit Hnoerr Hc Hid Hab Hseg.
  assert (Hok : sdo_command_ok (initiate_write_request tid i s total d)).
  { unfold sdo_command_ok, initiate_write_request, in_width, len in *. cbn [cmd_header transaction_id
      segment_size payload data_size segmentation]. rewrite !length_app, length_le_bytes. simpl length.
    split_and!; (done || lia). }
  assert (Hparse : WriteByIndexRequest_from_payload (payload (initiate_write_request tid i s total d))
    = Ok (mkWriteByIndex i s d)).
  { rewrite <- (parse_write_request tid i s d Hi). done. }
  assert (H1 : exists h1 r1,
    handle_request h ch (command_frame h (initiate_write_request tid i s total d)) od t
      = (h1, ch, od, Ok r1) /\
    rd_command r1 = ack (mkCmdHeader tid true false Seg_Expedited Cid_Nil 0) /\
    sh_state h1 = Srv_Closed).
  { rewrite (request_command h ch od t _ Hw Hst Hok).
    unfold process_command_layer. rewrite (advance_established h Hst).
    cbn [initiate_write_request cmd_header is_aborted]. unfold dispatch_command. cbn [command_id cmd_header].
    unfold handle_write_by_index. fold (initiate_write_request tid i s total d). rewrite Hparse.
    change (segmentation (cmd_header (initiate_write_request tid i s total d))) with Seg_Initiate.
    change (data_size (initiate_write_request tid i s total d)) with (Some total). cbn [unwrap_or].
    rewrite (proj2 (Z.eqb_neq total 0)) by lia.
    eexists _, _. split; [reflexivity|]. by split. }
  destruct H1 as (h1 & r1 & -> & Hr1 & Hst1).
  exists h1, r1. unfold handle_request.
  rewrite nat_ltb_false by (rewrite length_app; simpl; lia).
  change (slice (seq_wire sq ++ cmd_wire c) 0 4) with (seq_wire sq).
  change (drop 4 (seq_wire sq ++ cmd_wire c)) with (cmd_wire c).
  rewrite <- (app_nil_r (seq_wire sq)), seq_deserialize_wire, bool_decide_false by done.
  unfold process_sequence_layer. rewrite Hst1, bool_decide_false by done.
  change (cmd_wire c) with (hd 0 (cmd_wire c) :: tl (cmd_wire c)). cbv iota.
  change (hd 0 (cmd_wire c) :: tl (cmd_wire c)) with (cmd_wire c).
  unfold handle_command. rewrite <- (app_nil_r (cmd_wire c)), cmd_deserialize_wire by done.
  unfold process_command_layer. rewrite Hst1, Hab. unfold dispatch_command. rewrite Hid.
  unfold handle_write_by_index. rewrite Hst1.
  destruct Hseg as [-> | ->]; (eexists _, _; split_and!; [done..|reflexivity|done|done]).
Qed.

Lemma segmented_download_refused_witness :
  let c := mkSdoCommand (mkCmdHeader 4 false false Seg_Complete Cid_WriteByIndex 1) None [2] in
  let frame := command_frame demo_handler (initiate_write_request 4 0x6000 1 2 [1]) in
  let sq := mkSeqHeader 2 Rcon_ConnectionValid 1 Scon_ConnectionValid in
  exists h1 r1 h2 r2,
    handle_request demo_handler mkDefaultSdoHandler frame demo_sdo_od 0
      = (h1, mkDefaultSdoHandler, demo_sdo_od, Ok r1) /\
    rd_command r1 = ack (mkCmdHeader 4 true false Seg_Expedited Cid_Nil 0) /\
    sh_state h1 = Srv_Closed /\
    handle_request h1 mkDefaultSdoHandler (seq_wire sq ++ cmd_wire c) demo_sdo_od 1
      = (h2, mkDefaultSdoHandler, demo_sdo_od, Ok r2) /\
    rd_command r2 = abort_command 4 0x05040003 /\ sh_state h2 = Srv_Closed.
Proof.
  intros c frame sq.
  apply (segmented_download_refused demo_handler mkDefaultSdoHandler demo_sdo_od 4 0x6000 1 2 [1] 0 sq c 1);
    try reflexivity; try discriminate.
  - exact demo_handler_wf.
  - unfold byte_ok, in_width; lia.
  - unfold in_width; lia.
  - lia.
  - unfold seq_header_ok; simpl; lia.
  - unfold sdo_command_ok, byte_ok, in_width, len; simpl. split_and!; first [done | lia].
  - right. reflexivity.
Defined.

(** ** The clients of a server do not interfere *)
Section Clients.
Context {S H : Type} `{ST : ObjectDictionaryStorage S} `{!SdoCommandHandler H S}.
Implicit Types (h : SdoSequenceHandler) (od : ObjectDictionary S) (ch : H) (srv : SdoServer H).

Lemma answer_read_client h tid rh od t i s pl : client_info (fst (answer_read h tid rh od t i s pl)) = client_info h.
Proof. unfold answer_read. case_if; [done|]. destruct (get_next_upload_segment _ _ _) as [[? ?] []]; done. Qed.

Lemma read_by_index_client h c rh od t : client_info (fst (handle_read_by_index h c rh od t)) = client_info h.
Proof. unfold handle_read_by_index. repeat case_match; try done; apply answer_read_client. Qed.

Lemma write_by_index_client h c rh od t :
  client_info (fst (fst (handle_write_by_index h c rh od t))) = client_info h.
Proof.
  unfold handle_write_by_index.
  repeat case_match; simplify_eq/=; try done;
    unfold SdoSequenceHandler_abort in *; simplify_eq; done.
Qed.

Lemma read_by_name_client h c rh od t : client_info (fst (handle_read_by_name h c rh od t)) = client_info h.
Proof. unfold handle_read_by_name. repeat case_match; try done; apply read_by_index_client. Qed.

Lemma write_by_name_client h c rh od t :
  client_info (fst (fst (handle_write_by_name h c rh od t))) = client_info h.
Proof.
  unfold handle_write_by_name. destruct (WriteByNameRequest_from_payload _); [|done].
  destruct (find_by_name _ _) as [[? ?]|]; [apply write_by_index_client|done].
Qed.

Lemma read_all_client h c rh od t : client_info (fst (handle_read_all_by_index h c rh od t)) = client_info h.
Proof. unfold handle_read_all_by_index. repeat case_match; try done; apply answer_read_client. Qed.

Lemma read_multiple_client h c rh od t :
  client_info (fst (handle_read_multiple_params h c rh od t)) = client_info h.
Proof. unfold handle_read_multiple_params. repeat case_match; try done; apply answer_read_client. Qed.

Lemma dispatch_command_client h ch c od t :
  client_info (fst (fst (fst (dispatch_command h ch c od t)))) = client_info h.
Proof.
  set (rh := mkCmdHeader (transaction_id (cmd_header c)) true false Seg_Expedited Cid_Nil 0).
  pose proof (read_by_index_client h c rh od t). pose proof (write_by_index_client h c rh od t).
  pose proof (read_by_name_client h c rh od t). pose proof (write_by_name_client h c rh od t).
  pose proof (read_all_client h c rh od t). pose proof (read_multiple_client h c rh od t).
  unfold dispatch_command. fold rh. destruct (command_id (cmd_header c)); try done.
  - by destruct (handle_write_by_index _ _ _ _ _) as [[? ?] ?].
  - by destruct (handle_read_by_index _ _ _ _ _).
  - by destruct (handle_write_all_by_index _ _ _) as [[? ?] ?].
  - by destruct (handle_read_all_by_index _ _ _ _ _).
  - by destruct (handle_write_by_name _ _ _ _ _) as [[? ?] ?].
  - by destruct (handle_read_by_name _ _ _ _ _).
  - by destruct (handle_file_write _ _ _) as [[? ?] ?].
  - by destruct (handle_file_read _ _ _) as [[? ?] ?].
  - by destruct (handle_write_multiple_params _ _ _) as [[? ?] ?].
  - by destruct (handle_read_multiple_params _ _ _ _ _).
Qed.

Lemma command_layer_client h ch c od t :
  client_info (fst (fst (fst (process_command_layer h ch c od t)))) = client_info h.
Proof.
  pose proof (dispatch_command_client h ch c od t). unfold process_command_layer.
  destruct (sh_state h) as [| | |st|st]; try (case_if; done).
  destruct (get_next_upload_segment od t st) as [[? ?] ?]. repeat case_if; done.
Qed.

Lemma sequence_layer_client h r : client_info (fst (process_sequence_layer h r)) = client_info h.
Proof. unfold process_sequence_layer. destruct (sh_state h) eqn:E; repeat case_if; simpl; rewrite ?E; try case_if; done. Qed.

(** Every reply of a connection goes to its client. *)
Definition replies_to (c : SdoClientInfo) (r : res SdoResponseData) : Prop :=
  match r with Ok d => rd_client_info d = c | Err _ => True end.

Lemma handle_request_client h ch pl od t :
  client_info (fst (fst (fst (handle_request h ch pl od t)))) = client_info h /\
  replies_to (client_info h) (snd (handle_request h ch pl od t)).
Proof.
  unfold handle_request. case_if; [done|].
  destruct (SequenceLayerHeader_deserialize _) as [sq|]; [|done].
  pose proof (sequence_layer_client h sq) as Hp. unfold handle_error_response.
  destruct (process_sequence_layer h sq) as [h1 r]. cbn [fst] in Hp.
  case_if; [by case_match; [|destruct r]|].
  destruct r as [rh|]; [|done]. rewrite <- Hp. destruct (drop 4 pl).
  - unfold handle_empty_command. case_if; [|done].
    destruct (sh_state h1) as [| | |st|st]; try (case_if; done).
    by destruct (get_next_upload_segment od t st) as [[? ?] ?].
  - unfold handle_command. destruct (SdoCommand_deserialize _) as [c|]; [|done].
    pose proof (command_layer_client h1 ch c od t) as Hc.
    destruct (process_command_layer h1 ch c od t) as [[[h2 ch2] od2] c2]. cbn [fst] in Hc.
    case_if; done.
Qed.

Lemma handler_tick_client h t od :
  client_info (fst (handler_tick h t od)) = client_info h /\
  match snd (handler_tick h t od) with Ok (Some d) => rd_client_info d = client_info h | _ => True end.
Proof.
  unfold handler_tick. destruct (sh_state h) as [| | |st|st]; try done; case_if; try done.
  case_if; [|done]. by case_match.
Qed.

Definition server_wf srv : Prop :=
  map_Forall (fun c h => client_info h = c /\ handler_wf h) (connections srv).

(** The connection [h] of client [c] after a tick that answered [resp]. *)
Definition addressed (resp : option SdoResponseData) (c : SdoClientInfo) : Prop :=
  match resp with Some d => rd_client_info d = c | None => False end.

Lemma handler_tick_none h t od h' : handler_tick h t od = (h', Ok None) -> h' = h.
Proof. unfold handler_tick. repeat case_match; intros; by simplify_eq. Qed.

Lemma handler_tick_cases h t od : handler_wf h ->
  handler_tick h t od = (h, Ok None) \/
  exists h' d, handler_tick h t od = (h', Ok (Some d)) /\ handler_wf h' /\
    client_info h' = client_info h /\ rd_client_info d = client_info h.
Proof.
  intros Hw. pose proof (handler_tick_wf h t od Hw) as [Hw' [r Hr]].
  pose proof (handler_tick_client h t od) as [Hc Hd].
  destruct (handler_tick h t od) as [h' r'] eqn:E. cbn [fst snd] in *. subst r'.
  destruct r as [d|]; [right; by exists h', d|left]. by rewrite (handler_tick_none _ _ _ _ E).
Qed.

Lemma tick_loop_spec t od items : forall conns resp pr,
  NoDup items.*1 -> (forall c h, (c, h) ∈ items -> conns !! c = Some h) ->
  map_Forall (fun c h => client_info h = c /\ handler_wf h) conns ->
  (forall c, c ∈ items.*1 -> c ∉ pr) -> (forall c, addressed resp c -> c ∉ items.*1) ->
  exists conns' resp' pr', tick_loop t od items conns resp pr = (conns', Ok (resp', pr')) /\
    map_Forall (fun c h => client_info h = c /\ handler_wf h) conns' /\
    (forall c, c ∉ items.*1 -> conns' !! c = conns !! c /\ (c ∈ pr' <-> c ∈ pr)) /\
    (forall c h, (c, h) ∈ items -> exists h', conns' !! c = Some h' /\
       (c ∈ pr' <-> is_closed h' = true) /\ (addressed resp' c \/ h' = h)) /\
    (forall c, addressed resp' c -> addressed resp c \/ c ∈ items.*1) /\
    (forall c, addressed resp c -> addressed resp' c).
Proof.
  induction items as [|[c0 h0] items IH]; intros conns resp pr Hnd Hin Hwf Hpr Hresp.
  { exists conns, resp, pr. split_and!; try done; [set_solver|by left]. }
  cbn [fmap list_fmap fst] in *. apply NoDup_cons in Hnd as [Hc0 Hnd].
  pose proof (Hin c0 h0 ltac:(apply elem_of_cons; by left)) as Hlk.
  destruct (map_Forall_lookup_1 _ _ _ _ Hwf Hlk) as [Hci Hw0].
  assert (Hstep : exists h1 resp1,
    match resp with None => handler_tick h0 t od | Some _ => (h0, Ok resp) end = (h1, Ok resp1) /\
    client_info h1 = c0 /\ handler_wf h1 /\ (addressed resp1 c0 \/ h1 = h0) /\
    (forall c, addressed resp1 c -> addressed resp c \/ c = c0) /\
    (forall c, addressed resp c -> addressed resp1 c)).
  { destruct resp as [d|]; [exists h0, (Some d); split_and!; try done; [by right|by left]|].
    destruct (handler_tick_cases h0 t od Hw0) as [->|(h1 & d & -> & Hw1 & Hc1 & Hd)].
    - exists h0, None. split_and!; try done. by right.
    - exists h1, (Some d). split_and!; try done; [congruence|left; simpl; congruence|].
      intros c Ha. right. simpl in Ha. congruence. }
  destruct Hstep as (h1 & resp1 & Hst & Hci1 & Hw1 & Hadd & Hadd' & Hkeep).
  cbn [tick_loop]. rewrite Hst.
  set (pr1 := if is_closed h1 then pr ++ [c0] else pr).
  assert (Hpr1 : forall c, c ∈ pr1 <-> c ∈ pr \/ (c = c0 /\ is_closed h1 = true)).
  { intros c. unfold pr1. destruct (is_closed h1); [|set_solver].
    rewrite elem_of_app, list_elem_of_singleton. naive_solver. }
  destruct (IH (<[c0:=h1]> conns) resp1 pr1) as (conns' & resp' & pr' & -> & Hwf' & Hout & Hitems & Hres & Hkeep'); [done|..].
  - intros c h Hch. rewrite lookup_insert_ne; [apply Hin; apply elem_of_cons; by right|].
    intros ->. apply Hc0. apply list_elem_of_fmap. by exists (c, h).
  - apply map_Forall_insert_2; done.
  - intros c Hc. rewrite Hpr1. intros [Hp|[-> _]]; [|done]. apply (Hpr c); [set_solver|done].
  - intros c Ha Hc. destruct (Hadd' c Ha) as [Ha'| ->]; [apply (Hresp c Ha'); set_solver|done].
  - exists conns', resp', pr'. split; [done|]. split; [done|]. split; [|split; [|split]].
    + intros c Hc. apply not_elem_of_cons in Hc as [Hne Hc]. destruct (Hout c Hc) as [-> ->].
      rewrite lookup_insert_ne by done. split; [done|]. rewrite Hpr1. naive_solver.
    + intros c h Hch. apply elem_of_cons in Hch as [Heq|Hch]; [|by apply Hitems].
      injection Heq as -> ->. destruct (Hout c0 Hc0) as [Hl Hp].
      exists h1. rewrite Hl, lookup_insert_eq, Hp, Hpr1. split; [done|]. split.
      * split; [intros [Hbad|[_ ?]]; [|done]|by right]. destruct (Hpr c0); [set_solver|done].
      * destruct Hadd as [Ha|?]; [left; by apply Hkeep'|by right].
    + intros c Ha. destruct (Hres c Ha) as [Ha'|Hc]; [|right; apply elem_of_cons; by right].
      destruct (Hadd' c Ha') as [?| ->]; [by left|right; apply elem_of_cons; by left].
    + intros c Ha. by apply Hkeep', Hkeep.
Qed.

Lemma prune_lookup conns pr c :
  prune conns pr !! c = if bool_decide (c ∈ pr) then None else conns !! c.
Proof.
  unfold prune. revert conns. induction pr as [|c0 pr IH]; intros conns; [done|].
  cbn [foldl]. rewrite IH. repeat case_bool_decide; try set_solver.
  - destruct (decide (c = c0)) as [->|]; [by rewrite lookup_delete_eq|set_solver].
  - rewrite lookup_delete_ne by set_solver. done.
Qed.
End Clients.

(** What the timer sends for the connection [h]: the last segment of an upload that was not
    acknowledged in time, while there are retransmissions left, and else the abort of the
    transfer. *)
Definition timed_out_answer (t : Z) (h : SdoSequenceHandler) (d : SdoResponseData) : Prop :=
  rd_client_info d = client_info h /\
  match sh_state h with
  | Srv_SegmentedUpload st =>
      expired t (deadline_us st) = true /\
      if 0 <? retransmissions_left st then last_sent_segment st = Some (rd_command d)
      else rd_command d = abort_command (ts_transaction_id st) 0x05040000
  | Srv_SegmentedDownload st =>
      expired t (deadline_us st) = true /\ rd_command d = abort_command (ts_transaction_id st) 0x05040000
  | _ => False
  end.

Lemma handler_tick_answer {S} h t (od : ObjectDictionary S) d :
  snd (handler_tick h t od) = Ok (Some d) -> timed_out_answer t h d.
Proof.
  unfold handler_tick, timed_out_answer, handler_respond. cbv zeta.
  destruct (sh_state h) as [| | |st|st]; try discriminate;
    (destruct (expired t (deadline_us st)) eqn:Ex; cbn; [|discriminate]).
  - intros [= <-]. by split_and!.
  - destruct (0 <? retransmissions_left st); [destruct (last_sent_segment st) as [cmd|]|];
      cbn; try discriminate; intros [= <-]; by split_and!.
Qed.

Lemma tick_loop_answer {S} t (od : ObjectDictionary S) d items : forall conns resp pr pr',
  snd (tick_loop t od items conns resp pr) = Ok (Some d, pr') ->
  resp = Some d \/ exists c h, (c, h) ∈ items /\ timed_out_answer t h d.
Proof.
  induction items as [|[c h] items IH]; intros conns resp pr pr'; cbn [tick_loop].
  { cbn. intros [= ->]. by left. }
  destruct resp as [d0|].
  - intros Hd. apply IH in Hd as [Hd|(c' & h' & Hin & Ha)]; [by left|right].
    exists c', h'. split; [by apply list_elem_of_further|done].
  - pose proof (handler_tick_answer h t od) as Hans. destruct (handler_tick h t od) as [h1 [r|]]; [|done].
    cbn [snd] in Hans. intros Hd. right. apply IH in Hd as [->|(c' & h' & Hin & Ha)].
    + exists c, h. split; [apply list_elem_of_here|by apply Hans].
    + exists c', h'. split; [by apply list_elem_of_further|done].
Qed.

Lemma server_tick_answer {S H} (srv : SdoServer H) t (od : ObjectDictionary S) d :
  snd (server_tick srv t od) = Ok (Some d) ->
  exists c h, connections srv !! c = Some h /\ timed_out_answer t h d.
Proof.
  unfold server_tick.
  pose proof (tick_loop_answer t od d (btree_items client_le (connections srv)) (connections srv) None []) as Hl.
  destruct (tick_loop _ _ _ _ _ _) as [conns [[resp pr]|]]; [|done]. cbn [snd] in *. intros [= ->].
  destruct (Hl pr eq_refl) as [|(c & h & Hin & Ha)]; [done|]. exists c, h. split; [|done].
  by apply elem_of_btree_items in Hin.
Qed.

(** The connection a request is handled on. *)
Definition connection_of {H} (srv : SdoServer H) (client : SdoClientInfo) : SdoSequenceHandler :=
  unwrap_or (connections srv !! client) (SdoSequenceHandler_new client).
Lemma server_reply_client {S H} `{ObjectDictionaryStorage S} `{!SdoCommandHandler H S}
    (srv srv' : SdoServer H) pl client (od od' : ObjectDictionary S) t d :
  server_handle_request srv pl client od t = (srv', od', Ok d) ->
  rd_client_info d = client_info (connection_of srv client).
Proof.
  unfold server_handle_request. case_if; [done|]. fold (connection_of srv client).
  pose proof (handle_request_client (connection_of srv client) (handler srv) pl od t) as [_ Hr].
  destruct (handle_request _ _ _ _ _) as [[[h1 ch1] od1] [d1|]]; [|done]. cbn [snd replies_to] in Hr.
  by intros [= _ _ <-].
Qed.

(** A request concerns its sender's connection only. *)
Lemma request_isolates {S H} `{ObjectDictionaryStorage S} `{!SdoCommandHandler H S}
    (srv : SdoServer H) pl client (od : ObjectDictionary S) t :
  server_wf srv ->
  let '(srv', _, r) := server_handle_request srv pl client od t in
  server_wf srv' /\ (forall c, c <> client -> connections srv' !! c = connections srv !! c) /\
  replies_to client r /\
  (is_ok r = true -> forall h, connections srv' !! client = Some h -> is_closed h = false).
Proof.
  intros Hwf. unfold server_handle_request. case_if; [by split_and!|].
  set (h0 := unwrap_or _ _).
  assert (Hnew : client_info h0 = client /\ handler_wf h0).
  { unfold h0. destruct (connections srv !! client) as [h|] eqn:Eh; [by apply (Hwf client h)|].
    simpl. split; [done|]. unfold handler_wf, seq_ok; simpl; lia. }
  destruct Hnew as [Hc0 Hw0].
  pose proof (handle_request_wf h0 (handler srv) pl od t Hw0) as Hw1.
  pose proof (handle_request_client h0 (handler srv) pl od t) as [Hc1 Hr1].
  destruct (handle_request h0 (handler srv) pl od t) as [[[h1 ch1] od1] r]. cbn [fst snd] in *.
  assert (Hins : map_Forall (fun c h => client_info h = c /\ handler_wf h) (<[client:=h1]> (connections srv))).
  { apply map_Forall_insert_2; [split; [congruence|done]|done]. }
  rewrite Hc0 in Hr1. destruct r as [d|].
  - unfold server_wf. cbn [connections]. destruct (is_closed h1) eqn:Ecl; split_and!; try done.
    + by apply map_Forall_delete.
    + intros c Hne. by rewrite lookup_delete_ne, lookup_insert_ne.
    + intros _ h. by rewrite lookup_delete_eq.
    + intros c Hne. by rewrite lookup_insert_ne.
    + intros _ h. rewrite lookup_insert_eq. intros ?; by simplify_eq.
  - unfold server_wf. cbn [connections]. split_and!; try done.
    intros c Hne. by rewrite lookup_insert_ne.
Qed.

(** A run of the timer concerns the client it answers and the closed connections. *)
Lemma tick_isolates {S H} `{ObjectDictionaryStorage S} `{!SdoCommandHandler H S}
    (srv : SdoServer H) (od : ObjectDictionary S) t :
  server_wf srv ->
  exists srv' resp, server_tick srv t od = (srv', Ok resp) /\ server_wf srv' /\
   (forall c h, connections srv !! c = Some h -> ~ addressed resp c ->
      connections srv' !! c = if is_closed h then None else Some h) /\
   (forall c h, connections srv' !! c = Some h -> is_closed h = false /\ is_Some (connections srv !! c)) /\
   (forall c, addressed resp c -> is_Some (connections srv !! c)).
Proof.
  intros Hwf. unfold server_tick.
  pose proof (fun c h => elem_of_btree_items client_le (connections srv) c h) as Hitems.
  destruct (tick_loop_spec t od (btree_items client_le (connections srv)) (connections srv) None [])
    as (conns' & resp & pr & -> & Hwf' & Hout & Hin & Hres & _); try done.
  { apply NoDup_btree_items. }
  { intros c h. apply Hitems. }
  { intros c _ Hc. by apply elem_of_nil in Hc. }
  assert (Hfst : forall c, c ∈ (btree_items client_le (connections srv)).*1 <-> is_Some (connections srv !! c)).
  { intros c. rewrite list_elem_of_fmap. split.
    - intros ([c' h] & -> & Hm). apply Hitems in Hm. by eexists.
    - intros [h Hh]. exists (c, h). by rewrite Hitems. }
  exists (mkServer (prune conns' pr) (handler srv)), resp. unfold server_wf. cbn [connections].
  split; [done|]. split; [|split; [|split]].
  + intros c h. rewrite prune_lookup. case_bool_decide; [done|]. apply Hwf'.
  + intros c h Hc Hna. apply Hitems in Hc. destruct (Hin c h Hc) as (h' & Hl & Hp & [?| ->]); [done|].
    rewrite prune_lookup. case_bool_decide as Hd.
    * by rewrite (proj1 Hp Hd).
    * destruct (is_closed h); [by destruct Hd; apply Hp|done].
  + intros c h. rewrite prune_lookup. case_bool_decide as Hd; [done|]. intros Hc.
    destruct (decide (c ∈ (btree_items client_le (connections srv)).*1)) as [Hm|Hm].
    * split; [|by apply Hfst]. apply list_elem_of_fmap in Hm as ([c' h0] & -> & Hm).
      destruct (Hin _ _ Hm) as (h' & Hl & Hp & _). cbn [fst] in *. simplify_eq.
      destruct (is_closed h); [by destruct Hd; apply Hp|done].
    * destruct (Hout c Hm) as [He _]. exfalso. apply Hm, Hfst. rewrite <- He. by eexists.
  + intros c Ha. destruct (Hres c Ha) as [?|Hm]; [done|]. by apply Hfst.
Qed.

(** C26: The clients of a server do not interfere.  A request changes no connection but its
    sender's, is answered, if at all, to its sender, and leaves no closed connection of the
    sender behind when it succeeds.  A run of the timer never fails, answers at most one client,
    changes no other connection than that one's, and removes every closed connection. *)
Theorem server_isolates_clients {S H} `{ObjectDictionaryStorage S} `{!SdoCommandHandler H S}
    (srv : SdoServer H) pl client (od : ObjectDictionary S) t :
  server_wf srv ->
  (let '(srv', _, r) := server_handle_request srv pl client od t in
   server_wf srv' /\ (forall c, c <> client -> connections srv' !! c = connections srv !! c) /\
   replies_to client r /\
   (is_ok r = true -> forall h, connections srv' !! client = Some h -> is_closed h = false)) /\
  (exists srv' resp, server_tick srv t od = (srv', Ok resp) /\ server_wf srv' /\
   (forall c h, connections srv !! c = Some h -> ~ addressed resp c ->
      connections srv' !! c = if is_closed h then None else Some h) /\
   (forall c h, connections srv' !! c = Some h -> is_closed h = false /\ is_Some (connections srv !! c)) /\
   (forall c, addressed resp c -> is_Some (connections srv !! c))).
Proof. intros Hwf. split; [by apply request_isolates|by apply tick_isolates]. Qed.

Lemma server_isolates_clients_witness :
  let srv := mkServer {[ demo_client := demo_handler ]} mkDefaultSdoHandler in
  let other := Client_Udp [10; 0; 0; 1] 3819 in
  let '(srv', _, r) := server_handle_request srv [0; 1; 0; 0] other demo_sdo_od 0 in
  connections srv' !! demo_client = Some demo_handler /\ replies_to other r.
Proof.
  intros srv other.
  assert (Hwf : server_wf srv).
  { unfold server_wf, srv. cbn [connections]. intros c h Hc.
    apply lookup_singleton_Some in Hc as [<- <-].
    split; [reflexivity|exact demo_handler_wf]. }
  destruct (server_isolates_clients srv [0; 1; 0; 0] other demo_sdo_od 0 Hwf) as [Hs _].
  revert Hs. generalize (server_handle_request srv [0; 1; 0; 0] other demo_sdo_od 0).
  intros [[srv' od'] r] (_ & Hother & Hr & _). split; [|exact Hr].
  rewrite (Hother demo_client) by discriminate. reflexivity.
Defined.
