(* ===== verification/SdoEmbedded.v ===== *)
(** * SDO in PDO channels

    [sdo/embedded_server.rs] and [sdo/embedded_client.rs]: SDO requests and
    responses carried in the process data of a channel object.  A connection
    per channel is kept in a map; a method that takes the entry of a channel
    with [or_insert_with] leaves an entry behind, as the code does.  A slice
    expression the code may panic on gives [None]. *)
From S2P Require Import Prelude Utf8 Types ErrorEntry ObjectDict SdoCodec.

(** ** The server ([sdo/embedded_server.rs]) *)
Record EmbServerConnection : Type := mkEmbServerConnection {
  es_last_sequence_number : Z; pending_response : option bytes }.
Definition EmbServerConnection_default : EmbServerConnection := mkEmbServerConnection 0 None.

Abbreviation EmbeddedSdoServer := (gmap Z EmbServerConnection).
Definition EmbeddedSdoServer_new : EmbeddedSdoServer := ∅.
Definition es_connection (s : EmbeddedSdoServer) (channel_index : Z) : EmbServerConnection :=
  unwrap_or (s !! channel_index) EmbServerConnection_default.

(** [n.wrapping_add(1) % 64] and [n.wrapping_sub(1) % 64] of a [u8]. *)
Definition seq_succ (n : Z) : Z := u8 (n + 1) mod 64.
Definition seq_pred (n : Z) : Z := u8 (n - 1) mod 64.

Section EmbeddedServer.
Context {S : Type} `{ObjectDictionaryStorage S}.
Implicit Types od : ObjectDictionary S.

(** The abort code, if any, and the data of the response. *)
Definition execute_command (req : PdoSdoCommand) od
    : ObjectDictionary S * (option Z * bytes) :=
  let missing :=
    match read_object od (psc_index req) with
    | None => (Some 0x06020000, [])
    | Some _ => (Some 0x06090011, [])
    end in
  match psc_command_id req with
  | Cid_ReadByIndex =>
      match read od (psc_index req) (psc_sub_index req) with
      | Some value => (od, (None, ObjectValue_serialize value))
      | None => (od, missing)
      end
  | Cid_WriteByIndex =>
      match read od (psc_index req) (psc_sub_index req) with
      | Some template =>
          match ObjectValue_deserialize (psc_data req) template with
          | Ok value =>
              let '(od, r) := write od (psc_index req) (psc_sub_index req) value in
              (od, match r with
                   | Ok _ => (None, [])
                   | Err e =>
                       (Some (if bool_decide (e = StorageError "Object is read-only") then 0x06010002 else
                              match e with
                              | TypeMismatch => 0x06070010
                              | ValidationError _ => 0x06090030
                              | _ => 0x08000020
                              end), [])
                   end)
          | Err _ => (od, (Some 0x06070010, []))
          end
      | None => (od, missing)
      end
  | _ => (od, (Some 0x05040001, []))
  end.

Definition emb_process_command (req : PdoSdoCommand) od (response_seq_num : Z)
    : ObjectDictionary S * bytes :=
  let '(od, (abort_code, data)) := execute_command req od in
  let aborted := match abort_code with Some _ => true | None => false end in
  (od, PdoSdoCommand_serialize
    (mkPdoSdo (mkPdoSeq response_seq_num (if aborted then 3 else 2)) (psc_transaction_id req)
       true aborted Seg_Expedited 0 (if aborted then Cid_Nil else psc_command_id req)
       (psc_index req) (psc_sub_index req)
       (match abort_code with Some code => le_bytes 4 code | None => data end))).

Definition emb_server_handle_request (s : EmbeddedSdoServer) (channel_index : Z) (payload : bytes) od
    : EmbeddedSdoServer * ObjectDictionary S :=
  let conn := es_connection s channel_index in
  let s := <[channel_index := conn]> s in
  match PdoSdoCommand_deserialize payload with
  | Err _ => (s, od)
  | Ok command =>
      let number := sequence_number (psc_sequence_header command) in
      let expected_seq := seq_succ (es_last_sequence_number conn) in
      if number =? es_last_sequence_number conn then (s, od)
      else if negb (number =? expected_seq) then (s, od)
      else
        let '(od, response_payload) := emb_process_command command od number in
        (<[channel_index := mkEmbServerConnection number (Some response_payload)]> s, od)
  end.
End EmbeddedServer.

(** [Vec::resize(n, 0)]. *)
Definition resize (l : bytes) (n : nat) : bytes := take n l ++ replicate (n - length l) 0.

Definition get_pending_response (s : EmbeddedSdoServer) (channel_index : Z) (container_len : nat)
    : EmbeddedSdoServer * bytes :=
  let conn := es_connection s channel_index in
  match pending_response conn with
  | Some payload =>
      let s := <[channel_index := mkEmbServerConnection (es_last_sequence_number conn) None]> s in
      if (container_len <? length payload)%nat then (s, take container_len payload)
      else (s, resize payload container_len)
  | None => (<[channel_index := conn]> s, replicate container_len 0)
  end.

(** ** The client ([sdo/embedded_client.rs]) *)
Record SdoClientRequest : Type := mkSdoClientRequest {
  scr_command_id : CommandId; scr_index : Z; scr_sub_index : Z; scr_data : bytes }.

Record EmbClientConnection : Type := mkEmbClientConnection {
  ec_last_sequence_number : Z; next_sequence_number : Z; request_queue : list SdoClientRequest }.
Definition EmbClientConnection_default : EmbClientConnection := mkEmbClientConnection 0 0 [].

Abbreviation EmbeddedSdoClient := (gmap Z EmbClientConnection).
Definition EmbeddedSdoClient_new : EmbeddedSdoClient := ∅.
Definition ec_connection (c : EmbeddedSdoClient) (channel_index : Z) : EmbClientConnection :=
  unwrap_or (c !! channel_index) EmbClientConnection_default.

Definition push_request (c : EmbeddedSdoClient) (channel_index : Z) (r : SdoClientRequest)
    : EmbeddedSdoClient * res unit :=
  if negb ((0x1280 <=? channel_index) && (channel_index <=? 0x12FF))
  then (c, Err (InternalError "Invalid SDO client channel index")) else
  let conn := ec_connection c channel_index in
  (<[channel_index := mkEmbClientConnection (ec_last_sequence_number conn)
       (next_sequence_number conn) (request_queue conn ++ [r])]> c, Ok tt).
Definition queue_read (c : EmbeddedSdoClient) (channel_index index sub_index : Z)
    : EmbeddedSdoClient * res unit :=
  push_request c channel_index (mkSdoClientRequest Cid_ReadByIndex index sub_index []).
Definition queue_write (c : EmbeddedSdoClient) (channel_index index sub_index : Z) (data : bytes)
    : EmbeddedSdoClient * res unit :=
  push_request c channel_index (mkSdoClientRequest Cid_WriteByIndex index sub_index data).

(** What the client makes of a response, which it only logs. *)
Inductive ClientReport : Type :=
| Rep_Abort (code : Z) | Rep_Response (data : bytes) | Rep_Ignored.

Definition emb_client_handle_response (c : EmbeddedSdoClient) (channel_index : Z) (payload : bytes)
    : option (EmbeddedSdoClient * ClientReport) :=
  match c !! channel_index with
  | None => Some (c, Rep_Ignored)
  | Some conn =>
      match PdoSdoCommand_deserialize payload with
      | Err _ => Some (c, Rep_Ignored)
      | Ok response =>
          let number := sequence_number (psc_sequence_header response) in
          if negb (number =? seq_pred (next_sequence_number conn)) then Some (c, Rep_Ignored) else
          let c := <[channel_index := mkEmbClientConnection number (next_sequence_number conn)
                       (request_queue conn)]> c in
          if psc_is_aborted response then
            (* [response.data[0..4]] *)
            if (length (psc_data response) <? 4)%nat then None
            else Some (c, Rep_Abort (le_val (slice (psc_data response) 0 4)))
          else Some (c, Rep_Response (psc_data response))
      end
  end.

Definition request_command (number : Z) (r : SdoClientRequest) : PdoSdoCommand :=
  mkPdoSdo (mkPdoSeq number 2) 1 false false Seg_Expedited 0 (scr_command_id r) (scr_index r)
    (scr_sub_index r) (scr_data r).

Definition get_pending_request (c : EmbeddedSdoClient) (channel_index : Z) (container_len : nat)
    : EmbeddedSdoClient * bytes :=
  let conn := ec_connection c channel_index in
  match request_queue conn with
  | [] => (<[channel_index := conn]> c, replicate container_len 0)
  | request :: queue =>
      let cmd := request_command (next_sequence_number conn) request in
      let c := <[channel_index := mkEmbClientConnection (ec_last_sequence_number conn)
                   (seq_succ (next_sequence_number conn)) queue]> c in
      let payload := PdoSdoCommand_serialize cmd in
      if (container_len <? length payload)%nat then (c, replicate container_len 0)
      else (c, resize payload container_len)
  end.

(** ** Containers and counters *)
Lemma length_resize l n : length (resize l n) = n.
Proof. unfold resize. rewrite length_app, length_take, length_replicate. lia. Qed.

Lemma resize_padding l n : (length l <= n)%nat -> resize l n = l ++ replicate (n - length l) 0.
Proof. intros. unfold resize. by rewrite take_ge. Qed.

Lemma seq_succ_range n : 0 <= seq_succ n < 64.
Proof. unfold seq_succ. apply Z.mod_pos_bound. lia. Qed.

Lemma seq_succ_pred n : 0 <= n < 64 -> seq_succ (seq_pred n) = n.
Proof.
  intros Hn. unfold seq_succ, seq_pred, u8, wrap. change (2 ^ 8) with 256.
  Z.div_mod_to_equations. lia.
Qed.

Lemma seq_pred_succ n : 0 <= n < 64 -> seq_pred (seq_succ n) = n.
Proof.
  intros Hn. unfold seq_succ, seq_pred, u8, wrap. change (2 ^ 8) with 256.
  Z.div_mod_to_equations. lia.
Qed.

Lemma seq_pred_neq n : 0 <= n < 64 -> n <> seq_pred n.
Proof.
  intros Hn. unfold seq_pred, u8, wrap. change (2 ^ 8) with 256. Z.div_mod_to_equations. lia.
Qed.

Lemma length_PdoSdoCommand_serialize c : length (PdoSdoCommand_serialize c) = (8 + length (psc_data c))%nat.
Proof. unfold PdoSdoCommand_serialize. wire_len. Qed.

(** A command written into a container that has room for it. *)
Lemma container_roundtrip c n :
  0 <= sequence_number (psc_sequence_header c) < 64 ->
  0 <= connection_state (psc_sequence_header c) < 4 ->
  in_width 16 (psc_index c) -> len (psc_data c) <= 255 ->
  (8 + length (psc_data c) <= n)%nat ->
  (n <? length (PdoSdoCommand_serialize c))%nat = false /\
  PdoSdoCommand_deserialize (resize (PdoSdoCommand_serialize c) n) =
    Ok (mkPdoSdo (psc_sequence_header c) (psc_transaction_id c) (psc_is_response c)
          (psc_is_aborted c) (psc_segmentation c) (len (psc_data c)) (psc_command_id c)
          (psc_index c) (psc_sub_index c) (psc_data c)).
Proof.
  intros Hs Hc Hi Hl Hn. rewrite length_PdoSdoCommand_serialize.
  split; [by apply nat_ltb_false|].
  rewrite resize_padding by (rewrite length_PdoSdoCommand_serialize; lia).
  rewrite pdo_sdo_deserialize_wire by done.
  assert (u8 (len (psc_data c)) = len (psc_data c)) as ->.
  { unfold u8. apply wrap_small. unfold in_width, len in *. lia. }
  rewrite take_ge by (unfold len; lia). done.
Qed.

(** An empty container parses as a NIL command of sequence number 0. *)
Lemma empty_container n : (8 <= n)%nat ->
  PdoSdoCommand_deserialize (replicate n 0) =
    Ok (mkPdoSdo (mkPdoSeq 0 0) 0 false false Seg_Expedited 0 Cid_Nil 0 0 []).
Proof.
  intros Hn. replace n with (8 + (n - 8))%nat by lia. rewrite replicate_add.
  unfold PdoSdoCommand_deserialize.
  rewrite nat_ltb_false by (rewrite length_app, length_replicate; lia).
  change (replicate 8 0) with [0; 0; 0; 0; 0; 0; 0; 0].
  change (slice _ 0 1) with [0]. unfold byte_at. cbn [app nth].
  change (slice _ 5 7) with [0; 0].
  cbn -[nth replicate slice Nat.ltb]. rewrite nat_ltb_false by (simpl; lia). done.
Qed.

(** ** One exchange

    A cycle in which the client's channel [cc] and the server's channel [sc]
    are mapped to each other: the request container goes out, the response
    container comes back. *)
Section Exchange.
Context {S : Type} `{ObjectDictionaryStorage S}.
Implicit Types od : ObjectDictionary S.

Definition exchange (cc sc : Z) (request_len response_len : nat)
    (st : EmbeddedSdoClient * EmbeddedSdoServer * ObjectDictionary S)
    : option (EmbeddedSdoClient * EmbeddedSdoServer * ObjectDictionary S * ClientReport) :=
  let '(c, s, od) := st in
  let '(c, request) := get_pending_request c cc request_len in
  let '(s, od) := emb_server_handle_request s sc request od in
  let '(s, response) := get_pending_response s sc response_len in
  match emb_client_handle_response c cc response with
  | Some (c, report) => Some (c, s, od, report)
  | None => None
  end.

(** The server has answered every request the client has sent. *)
Definition in_step (c : EmbeddedSdoClient) (s : EmbeddedSdoServer) (cc sc : Z) : Prop :=
  0 <= next_sequence_number (ec_connection c cc) < 64 /\
  es_last_sequence_number (es_connection s sc) = seq_pred (next_sequence_number (ec_connection c cc)) /\
  pending_response (es_connection s sc) = None.

Definition request_ok (r : SdoClientRequest) : Prop := in_width 16 (scr_index r) /\ len (scr_data r) <= 255.

Definition outcome_report (o : option Z * bytes) : ClientReport :=
  match fst o with Some code => Rep_Abort code | None => Rep_Response (snd o) end.
Definition outcome_data (o : option Z * bytes) : bytes :=
  match fst o with Some code => le_bytes 4 code | None => snd o end.

Lemma execute_abort_width req od code :
  fst (snd (execute_command req od)) = Some code -> in_width 32 code.
Proof.
  unfold execute_command, in_width. destruct (psc_command_id req);
    repeat case_match; simpl; intros; simplify_eq; lia.
Qed.

Lemma es_connection_insert s k v : es_connection (<[k := v]> s) k = v.
Proof. unfold es_connection. by rewrite lookup_insert_eq. Qed.
Lemma ec_connection_insert c k v : ec_connection (<[k := v]> c) k = v.
Proof. unfold ec_connection. by rewrite lookup_insert_eq. Qed.
End Exchange.

Section ExchangeLemmas.
Context {S : Type} `{ObjectDictionaryStorage S}.
Implicit Types od : ObjectDictionary S.

Lemma execute_request n k r od :
  execute_command (mkPdoSdo (mkPdoSeq n 2) 1 false false Seg_Expedited k (scr_command_id r)
    (scr_index r) (scr_sub_index r) (scr_data r)) od = execute_command (request_command 0 r) od.
Proof. done. Qed.

(** The client's half of an exchange: the request it sends. *)
Lemma send_request (c : EmbeddedSdoClient) cc rl r rest :
  0 <= next_sequence_number (ec_connection c cc) < 64 ->
  request_queue (ec_connection c cc) = r :: rest -> request_ok r ->
  (8 + length (scr_data r) <= rl)%nat ->
  let n := next_sequence_number (ec_connection c cc) in
  exists c1 wire, get_pending_request c cc rl = (c1, wire) /\
    ec_connection c1 cc =
      mkEmbClientConnection (ec_last_sequence_number (ec_connection c cc)) (seq_succ n) rest /\
    is_Some (c1 !! cc) /\
    PdoSdoCommand_deserialize wire =
      Ok (mkPdoSdo (mkPdoSeq n 2) 1 false false Seg_Expedited (len (scr_data r)) (scr_command_id r)
            (scr_index r) (scr_sub_index r) (scr_data r)).
Proof.
  intros Hn Hq [Hi Hl] Hrl n. unfold get_pending_request. rewrite Hq.
  destruct (container_roundtrip (request_command n r) rl) as [Hfit Hd];
    [simpl; done || lia..|].
  fold n. rewrite Hfit. eexists _, _. split; [reflexivity|].
  rewrite ec_connection_insert. split; [done|]. split; [|exact Hd].
  rewrite lookup_insert_eq. by eexists.
Qed.

(** The server's half: the request in step is executed and answered. *)
Lemma serve_request (s : EmbeddedSdoServer) sc wire req sl od od' o :
  PdoSdoCommand_deserialize wire = Ok req -> in_width 16 (psc_index req) ->
  0 <= sequence_number (psc_sequence_header req) < 64 ->
  es_last_sequence_number (es_connection s sc) = seq_pred (sequence_number (psc_sequence_header req)) ->
  execute_command req od = (od', o) ->
  (8 + length (outcome_data o) <= sl)%nat -> len (outcome_data o) <= 255 ->
  exists s1 s2 answer resp, emb_server_handle_request s sc wire od = (s1, od') /\
    get_pending_response s1 sc sl = (s2, answer) /\
    es_connection s2 sc = mkEmbServerConnection (sequence_number (psc_sequence_header req)) None /\
    PdoSdoCommand_deserialize answer = Ok resp /\
    sequence_number (psc_sequence_header resp) = sequence_number (psc_sequence_header req) /\
    psc_is_aborted resp = (match fst o with Some _ => true | None => false end) /\
    psc_data resp = outcome_data o.
Proof.
  intros Hw Hi Hn Hlast Hex Hsl Hlen.
  unfold emb_server_handle_request. rewrite Hw, Hlast, seq_succ_pred, Z.eqb_refl by done.
  rewrite (proj2 (Z.eqb_neq _ _) (seq_pred_neq _ Hn)). cbn [negb].
  unfold emb_process_command. rewrite Hex. destruct o as [code data].
  set (resp := mkPdoSdo _ _ _ _ _ _ _ _ _ _).
  assert (Hdata : psc_data resp = outcome_data (code, data)) by done.
  destruct (container_roundtrip resp sl) as [Hfit Hd]; try (rewrite Hdata; done); try done.
  { unfold resp. simpl. destruct code; lia. }
  eexists _, _, _, _. split; [reflexivity|]. unfold get_pending_response.
  rewrite es_connection_insert. cbn [pending_response es_last_sequence_number]. rewrite Hfit.
  split; [reflexivity|]. rewrite es_connection_insert. split; [done|].
  split; [exact Hd|]. done.
Qed.

(** The client's reaction to a response of the number it waits for. *)
Lemma accept_response (c : EmbeddedSdoClient) cc answer resp o :
  is_Some (c !! cc) -> PdoSdoCommand_deserialize answer = Ok resp ->
  sequence_number (psc_sequence_header resp) = seq_pred (next_sequence_number (ec_connection c cc)) ->
  psc_is_aborted resp = (match fst o with Some _ => true | None => false end) ->
  psc_data resp = outcome_data o -> (forall code, fst o = Some code -> in_width 32 code) ->
  exists c', emb_client_handle_response c cc answer = Some (c', outcome_report o) /\
    next_sequence_number (ec_connection c' cc) = next_sequence_number (ec_connection c cc) /\
    request_queue (ec_connection c' cc) = request_queue (ec_connection c cc).
Proof.
  intros [conn Hc] Hd Hn Ha Hdata Hw. unfold ec_connection in *. rewrite Hc in *. cbn [unwrap_or] in *.
  unfold emb_client_handle_response. rewrite Hc, Hd, Hn, Z.eqb_refl, Ha, Hdata. cbn [negb].
  destruct o as [[code|] data]; cbn [fst snd outcome_data outcome_report].
  - rewrite length_le_bytes. change (4 <? 4)%nat with false. cbv iota.
    change (slice (le_bytes 4 code) 0 4) with (le_bytes 4 code).
    rewrite le_val_le_bytes by (by apply Hw).
    eexists. split; [reflexivity|]. by rewrite lookup_insert_eq.
  - eexists. split; [reflexivity|]. by rewrite lookup_insert_eq.
Qed.

Lemma ignore_duplicate (s : EmbeddedSdoServer) sc wire req od :
  PdoSdoCommand_deserialize wire = Ok req ->
  sequence_number (psc_sequence_header req) = es_last_sequence_number (es_connection s sc) ->
  emb_server_handle_request s sc wire od = (<[sc := es_connection s sc]> s, od).
Proof. intros Hw Hn. unfold emb_server_handle_request. by rewrite Hw, Hn, Z.eqb_refl. Qed.

Lemma no_response (s : EmbeddedSdoServer) sc sl : pending_response (es_connection s sc) = None ->
  get_pending_response s sc sl = (<[sc := es_connection s sc]> s, replicate sl 0).
Proof. intros Hp. unfold get_pending_response. by rewrite Hp. Qed.
End ExchangeLemmas.

(** ** Runs of a channel

    In every cycle the application queues requests, then the containers are
    exchanged. *)
Section Channel.
Context {S : Type} `{ObjectDictionaryStorage S}.
Implicit Types od : ObjectDictionary S.

Definition enqueue (c : EmbeddedSdoClient) (cc : Z) (rs : list SdoClientRequest) : EmbeddedSdoClient :=
  foldl (fun c r => fst (push_request c cc r)) c rs.

Fixpoint run_channel (cc sc : Z) (rl sl : nat)
    (st : EmbeddedSdoClient * EmbeddedSdoServer * ObjectDictionary S)
    (schedule : list (list SdoClientRequest))
    : option (EmbeddedSdoClient * EmbeddedSdoServer * ObjectDictionary S * list ClientReport) :=
  match schedule with
  | [] => Some (st, [])
  | rs :: schedule =>
      let '(c, s, od) := st in
      match exchange cc sc rl sl (enqueue c cc rs, s, od) with
      | Some (c, s, od, report) =>
          match run_channel cc sc rl sl (c, s, od) schedule with
          | Some (st, reports) => Some (st, report :: reports)
          | None => None
          end
      | None => None
      end
  end.

(** The request and its answer fit their containers and the length octet. *)
Definition fits (rl sl : nat) (r : SdoClientRequest) (o : option Z * bytes) : bool :=
  (0 <=? scr_index r) && (scr_index r <? 2 ^ 16) &&
  (8 + length (scr_data r) <=? rl)%nat && (len (scr_data r) <=? 255) &&
  (8 + length (outcome_data o) <=? sl)%nat && (len (outcome_data o) <=? 255).

(** What such a run comes to.  The channel is in step or it has lost its step
    ([lost], at number 0); [number] is the number of the next request. *)
Record Channel : Type := mkChannel {
  lost : bool; number : Z; waiting : list SdoClientRequest; dictionary : ObjectDictionary S }.

Definition channel_cycle (rl sl : nat) (ch : Channel) (rs : list SdoClientRequest)
    : option (Channel * ClientReport) :=
  match waiting ch ++ rs with
  | r :: q =>
      if lost ch then
        (* taken for a duplicate *)
        if fits rl sl r (None, []) then Some (mkChannel false 1 q (dictionary ch), Rep_Response []) else None
      else
        let '(od, o) := execute_command (request_command 0 r) (dictionary ch) in
        if fits rl sl r o then Some (mkChannel false (seq_succ (number ch)) q od, outcome_report o) else None
  | [] =>
      Some (mkChannel (number ch =? 0) (number ch) [] (dictionary ch),
            if number ch =? 1 then Rep_Response [] else Rep_Ignored)
  end.
Fixpoint channel_reference (rl sl : nat) (ch : Channel) (schedule : list (list SdoClientRequest))
    : option (Channel * list ClientReport) :=
  match schedule with
  | [] => Some (ch, [])
  | rs :: schedule =>
      match channel_cycle rl sl ch rs with
      | Some (ch, report) =>
          match channel_reference rl sl ch schedule with
          | Some (ch, reports) => Some (ch, report :: reports)
          | None => None
          end
      | None => None
      end
  end.

Definition shows (c : EmbeddedSdoClient) (s : EmbeddedSdoServer) od cc sc (ch : Channel) : Prop :=
  next_sequence_number (ec_connection c cc) = number ch /\ 0 <= number ch < 64 /\
  request_queue (ec_connection c cc) = waiting ch /\ dictionary ch = od /\
  (if lost ch
   then number ch = 0 /\ es_connection s sc = EmbServerConnection_default
   else es_last_sequence_number (es_connection s sc) = seq_pred (number ch) /\
        pending_response (es_connection s sc) = None).

Lemma enqueue_connection cc rs : 0x1280 <= cc <= 0x12FF -> forall c,
  ec_connection (enqueue c cc rs) cc =
    mkEmbClientConnection (ec_last_sequence_number (ec_connection c cc))
      (next_sequence_number (ec_connection c cc)) (request_queue (ec_connection c cc) ++ rs).
Proof.
  intros Hcc. induction rs as [|r rs IH]; intros c; cbn [enqueue foldl].
  - rewrite app_nil_r. by destruct (ec_connection c cc).
  - fold (enqueue (fst (push_request c cc r)) cc rs). rewrite IH. unfold push_request.
    rewrite (proj2 (Z.leb_le _ _) (proj1 Hcc)), (proj2 (Z.leb_le _ _) (proj2 Hcc)). cbn [andb negb fst].
    rewrite ec_connection_insert. cbn. by rewrite <- app_assoc.
Qed.

Lemma fits_spec rl sl r o : fits rl sl r o = true ->
  request_ok r /\ (8 + length (scr_data r) <= rl)%nat /\ (8 + length (outcome_data o) <= sl)%nat /\
  len (outcome_data o) <= 255.
Proof.
  unfold fits, request_ok, in_width. rewrite !andb_true_iff, !Z.leb_le, Z.ltb_lt, !Nat.leb_le. intuition lia.
Qed.

(** A request in step is executed once, and its outcome is reported. *)
Lemma exchange_in_step (c : EmbeddedSdoClient) (s : EmbeddedSdoServer) od od' o cc sc rl sl r rest :
  in_step c s cc sc -> request_queue (ec_connection c cc) = r :: rest ->
  execute_command (request_command 0 r) od = (od', o) -> fits rl sl r o = true ->
  exists c' s', exchange cc sc rl sl (c, s, od) = Some (c', s', od', outcome_report o) /\
    shows c' s' od' cc sc (mkChannel false (seq_succ (next_sequence_number (ec_connection c cc))) rest od').
Proof.
  intros (Hn & Hlast & _) Hq Hex Hfits. apply fits_spec in Hfits as (Hr & Hrl & Hsl & Hlen).
  destruct (send_request c cc rl r rest Hn Hq Hr Hrl) as (c1 & wire & Hreq & Hc1 & Hsome & Hwire).
  destruct (serve_request s sc wire _ sl od od' o Hwire (proj1 Hr) Hn Hlast Hex Hsl Hlen)
    as (s1 & s2 & answer & resp & Hserve & Hresp & Hs2 & Hans & Hnum & Hab & Hdata).
  cbn [psc_sequence_header sequence_number] in *.
  destruct (accept_response c1 cc answer resp o Hsome Hans) as (c2 & Hacc & Hnext & Hqueue); try done.
  { rewrite Hc1, Hnum. cbn [next_sequence_number]. by rewrite seq_pred_succ. }
  { intros code Hcode. apply (execute_abort_width (request_command 0 r) od code). by rewrite Hex. }
  exists c2, s2. unfold exchange. rewrite Hreq, Hserve, Hresp, Hacc. split; [done|].
  unfold shows. cbn [number waiting dictionary lost]. rewrite Hnext, Hqueue, Hc1, Hs2.
  cbn [next_sequence_number es_last_sequence_number pending_response request_queue].
  rewrite seq_pred_succ by done. split_and!; try done; apply seq_succ_range.
Qed.

(** A request at number 0 of a channel that has lost its step is lost as well. *)
Lemma exchange_lost (c : EmbeddedSdoClient) (s : EmbeddedSdoServer) od cc sc rl sl r rest :
  next_sequence_number (ec_connection c cc) = 0 -> es_connection s sc = EmbServerConnection_default ->
  request_queue (ec_connection c cc) = r :: rest -> fits rl sl r (None, []) = true -> (8 <= sl)%nat ->
  exists c' s', exchange cc sc rl sl (c, s, od) = Some (c', s', od, Rep_Response []) /\
    shows c' s' od cc sc (mkChannel false 1 rest od).
Proof.
  intros H0 Hes Hq Hfits Hsl. apply fits_spec in Hfits as (Hr & Hrl & _ & _).
  destruct (send_request c cc rl r rest ltac:(lia) Hq Hr Hrl) as (c1 & wire & Hreq & Hc1 & Hsome & Hwire).
  rewrite H0 in *.
  destruct (accept_response c1 cc (replicate sl 0) _ (None, []) Hsome (empty_container sl Hsl))
    as (c2 & Hacc & Hnext & Hqueue); try done.
  { by rewrite Hc1. }
  unfold exchange. rewrite Hreq.
  rewrite (ignore_duplicate s sc wire _ od Hwire) by (by rewrite Hes).
  rewrite no_response by (by rewrite es_connection_insert, Hes). rewrite Hacc.
  eexists _, _. split; [reflexivity|].
  unfold shows. by rewrite Hnext, Hqueue, Hc1, !es_connection_insert, Hes.
Qed.

(** What an idle client makes of an empty container. *)
Lemma idle_response (c : EmbeddedSdoClient) cc sl : (8 <= sl)%nat ->
  0 <= next_sequence_number (ec_connection c cc) < 64 ->
  let n := next_sequence_number (ec_connection c cc) in
  exists c', emb_client_handle_response (<[cc := ec_connection c cc]> c) cc (replicate sl 0)
      = Some (c', if n =? 1 then Rep_Response [] else Rep_Ignored) /\
    next_sequence_number (ec_connection c' cc) = n /\
    request_queue (ec_connection c' cc) = request_queue (ec_connection c cc).
Proof.
  intros Hsl Hn n. unfold emb_client_handle_response. rewrite lookup_insert_eq, empty_container by done.
  cbn [psc_sequence_header sequence_number]. fold n.
  assert ((0 =? seq_pred n) = (n =? 1)) as ->.
  { unfold seq_pred, u8, wrap. change (2 ^ 8) with 256. fold n in Hn. apply eq_true_iff_eq. rewrite !Z.eqb_eq.
    Z.div_mod_to_equations. lia. }
  destruct (n =? 1); cbn [negb psc_is_aborted psc_data]; eexists; (split; [done|]); by rewrite ec_connection_insert.
Qed.

(** An idle cycle at another number than 0, or of a channel that has lost its
    step: the server ignores the empty container. *)
Lemma exchange_idle (c : EmbeddedSdoClient) (s : EmbeddedSdoServer) od cc sc rl sl :
  let n := next_sequence_number (ec_connection c cc) in
  0 <= n < 64 -> request_queue (ec_connection c cc) = [] -> (8 <= rl)%nat -> (8 <= sl)%nat ->
  pending_response (es_connection s sc) = None ->
  (if n =? 0 then es_last_sequence_number (es_connection s sc) = 0
   else es_last_sequence_number (es_connection s sc) = seq_pred n) ->
  exists c', exchange cc sc rl sl (c, s, od) =
      Some (c', <[sc := es_connection s sc]> (<[sc := es_connection s sc]> s), od,
            if n =? 1 then Rep_Response [] else Rep_Ignored) /\
    next_sequence_number (ec_connection c' cc) = n /\ request_queue (ec_connection c' cc) = [].
Proof.
  intros n Hn Hq Hrl Hsl Hp Hlast.
  destruct (idle_response c cc sl Hsl Hn) as (c' & Hresp & Hnext & Hqueue).
  exists c'. rewrite Hnext, Hqueue. split; [|done].
  unfold exchange, get_pending_request. rewrite Hq.
  assert (Hserve : emb_server_handle_request s sc (replicate rl 0) od = (<[sc := es_connection s sc]> s, od)).
  { unfold emb_server_handle_request. rewrite empty_container by done.
    cbn [psc_sequence_header sequence_number].
    destruct (Z.eqb_spec 0 (es_last_sequence_number (es_connection s sc))) as [|Hne]; [done|].
    destruct (n =? 0) eqn:E0; [congruence|]. rewrite Hlast, seq_succ_pred by done.
    by rewrite Z.eqb_sym, E0. }
  rewrite Hserve, no_response by (by rewrite es_connection_insert). rewrite es_connection_insert.
  by rewrite Hresp.
Qed.
End Channel.
Arguments mkChannel {S} lost number waiting dictionary.
Arguments lost {S} c.
Arguments number {S} c.
Arguments waiting {S} c.
Arguments dictionary {S} c.

(** Every 64 requests an idle channel loses its step: an empty container is a
    NIL command of number 0, which a server that has just answered number 63
    executes (to an abort) and counts, while the client has sent nothing. *)
Lemma idle_exchange_desynchronises {S} `{ObjectDictionaryStorage S} (c : EmbeddedSdoClient)
    (s : EmbeddedSdoServer) (od : ObjectDictionary S) cc sc rl sl :
  in_step c s cc sc -> request_queue (ec_connection c cc) = [] ->
  next_sequence_number (ec_connection c cc) = 0 -> (8 <= rl)%nat -> (12 <= sl)%nat ->
  exists c' s', exchange cc sc rl sl (c, s, od) = Some (c', s', od, Rep_Ignored) /\
    shows c' s' od cc sc (mkChannel true 0 [] od).
Proof.
  intros (_ & Hlast & _) Hq H0 Hrl Hsl. rewrite H0 in Hlast.
  destruct (serve_request s sc (replicate rl 0) _ sl od od (Some 0x05040001, []) (empty_container rl Hrl))
    as (s1 & s2 & answer & resp & Hserve & Hresp & Hs2 & Hans & Hnum & _ & _);
    try (unfold in_width, len; simpl; done || lia).
  exists (<[cc := ec_connection c cc]> c), s2.
  unfold exchange, get_pending_request. rewrite Hq, Hserve, Hresp.
  unfold emb_client_handle_response. rewrite lookup_insert_eq, Hans, Hnum, H0. cbn [psc_sequence_header sequence_number].
  split; [done|]. unfold shows. by rewrite ec_connection_insert, Hs2, H0, Hq.
Qed.

(** One cycle. *)
Lemma channel_cycle_refines {S} `{ObjectDictionaryStorage S} (c : EmbeddedSdoClient) (s : EmbeddedSdoServer)
    (od : ObjectDictionary S) cc sc rl sl ch ch' rs report :
  0x1280 <= cc <= 0x12FF -> (8 <= rl)%nat -> (12 <= sl)%nat ->
  shows c s od cc sc ch -> channel_cycle rl sl ch rs = Some (ch', report) ->
  exists c' s', exchange cc sc rl sl (enqueue c cc rs, s, od) = Some (c', s', dictionary ch', report) /\
    shows c' s' (dictionary ch') cc sc ch'.
Proof.
  intros Hcc Hrl Hsl (Hnum & Hrange & Hq & Hod & Hst). subst od.
  pose proof (enqueue_connection cc rs Hcc c) as He. rewrite Hq in He.
  set (c1 := enqueue c cc rs) in *.
  assert (Hn1 : next_sequence_number (ec_connection c1 cc) = number ch) by (by rewrite He).
  assert (Hq1 : request_queue (ec_connection c1 cc) = waiting ch ++ rs) by (by rewrite He).
  assert (Hnum1 : 0 <= next_sequence_number (ec_connection c1 cc) < 64) by (by rewrite Hn1).
  clearbody c1. unfold channel_cycle. destruct (waiting ch ++ rs) as [|r q].
  - intros [= <- <-]. cbn [dictionary]. destruct (lost ch) eqn:El; [|destruct (Z.eqb_spec (number ch) 0) as [E0|E0]].
    + destruct Hst as [E0 Hs].
      destruct (exchange_idle c1 s (dictionary ch) cc sc rl sl Hnum1 Hq1 Hrl ltac:(lia)) as (c' & Hx & Hn' & Hq').
      { by rewrite Hs. } { by rewrite Hn1, E0, Hs. }
      rewrite Hn1 in *. eexists _, _. split; [exact Hx|]. rewrite E0 in *. unfold shows. cbn.
      by rewrite Hn', Hq', es_connection_insert.
    + destruct Hst as [Hl Hp]. rewrite E0 in *. change (0 =? 1) with false.
      destruct (idle_exchange_desynchronises c1 s (dictionary ch) cc sc rl sl) as (c' & s' & Hx & Hs'); try done.
      { unfold in_step. by rewrite Hn1. }
      by exists c', s'.
    + destruct Hst as [Hl Hp].
      destruct (exchange_idle c1 s (dictionary ch) cc sc rl sl Hnum1 Hq1 Hrl ltac:(lia) Hp) as (c' & Hx & Hn' & Hq').
      { rewrite Hn1. by rewrite (proj2 (Z.eqb_neq _ _) E0). }
      rewrite Hn1 in *. eexists _, _. split; [exact Hx|]. unfold shows. cbn.
      by rewrite Hn', Hq', es_connection_insert.
  - destruct (lost ch).
    + destruct Hst as [E0 Hs]. destruct (fits rl sl r (None, [])) eqn:Ef; [|done]. intros [= <- <-].
      apply (exchange_lost c1 s (dictionary ch) cc sc rl sl r q); try done; [congruence|lia].
    + destruct Hst as [Hl Hp]. destruct (execute_command _ _) as [od' o] eqn:Ex.
      destruct (fits rl sl r o) eqn:Ef; [|done]. intros [= <- <-].
      rewrite <- Hn1. apply (exchange_in_step c1 s (dictionary ch) od' o cc sc rl sl r q); try done.
      unfold in_step. by rewrite Hn1.
Qed.

Lemma channel_run_refines {S} `{ObjectDictionaryStorage S} cc sc rl sl schedule :
  0x1280 <= cc <= 0x12FF -> (8 <= rl)%nat -> (12 <= sl)%nat ->
  forall (c : EmbeddedSdoClient) (s : EmbeddedSdoServer) (od : ObjectDictionary S) ch ch' reports,
  shows c s od cc sc ch -> channel_reference rl sl ch schedule = Some (ch', reports) ->
  exists c' s', run_channel cc sc rl sl (c, s, od) schedule = Some ((c', s', dictionary ch'), reports) /\
    shows c' s' (dictionary ch') cc sc ch'.
Proof.
  intros Hcc Hrl Hsl. induction schedule as [|rs schedule IH]; intros c s od ch ch' reports Hsh;
    cbn [channel_reference run_channel].
  - intros [= <- <-]. exists c, s. assert (dictionary ch = od) as -> by apply Hsh. by split.
  - destruct (channel_cycle rl sl ch rs) as [[ch1 report]|] eqn:Ec; [|done].
    destruct (channel_reference rl sl ch1 schedule) as [[ch2 reports2]|] eqn:Er; [|done]. intros [= <- <-].
    destruct (channel_cycle_refines c s od cc sc rl sl ch ch1 rs report Hcc Hrl Hsl Hsh Ec) as (c1 & s1 & Hx & Hsh1).
    rewrite Hx. destruct (IH _ _ _ _ _ _ Hsh1 Er) as (c2 & s2 & Hrun & Hsh2). rewrite Hrun. by exists c2, s2.
Qed.

(** A channel pair for the witness: three reads, an idle cycle, a read. *)
Definition demo_emb_od : ObjectDictionary MemStorage :=
  mkOD {[ 0x6000 := demo_entry (Obj_Record [OV_Unsigned16 7; OV_Integer8 (-1)]) ReadWrite None ]} None.
Definition demo_read (i : Z) : SdoClientRequest := mkSdoClientRequest Cid_ReadByIndex i 1 [].
Definition demo_schedule : list (list SdoClientRequest) :=
  [[]; [demo_read 0x6000; demo_read 0x6000]; []; [demo_read 0x7000]; []; [demo_read 0x6000]].
Definition demo_reports : list ClientReport :=
  [Rep_Ignored; Rep_Response []; Rep_Response [7; 0]; Rep_Abort 0x06020000; Rep_Ignored; Rep_Response [7; 0]].

(** ** Properties *)

(** C30: The SDO channels of a client and a server, over every sequence of cycles in which the
    application queues any requests and the containers are exchanged, do what [channel_reference]
    says, as long as each request and its answer fit their containers and have at most 255 octets of
    data (the client's channel is one of 0x1280 to 0x12FF, and the containers of requests and answers
    have room for at least 8 and 12 octets, a header and an abort code).  In step, the request at the
    head of the queue is executed exactly once and the client receives that execution's data or
    abort code; a cycle with nothing to request changes nothing (at number 1 the client takes the
    empty container for a response without data), except at number 0, which comes round every 64
    requests: there the server executes the empty container as a command and the channel has lost
    its step.  A channel that has lost its step stays so until the next request, which the server
    takes for a duplicate: it is not executed, the client reports a successful response without
    data, and the ends are in step again.  A channel that has never been used has lost its step,
    since both ends count from 0. *)
Theorem embedded_exchange {S} `{ObjectDictionaryStorage S} (c : EmbeddedSdoClient)
    (s : EmbeddedSdoServer) (od : ObjectDictionary S) cc sc rl sl :
  0x1280 <= cc <= 0x12FF -> (8 <= rl)%nat -> (12 <= sl)%nat ->
  (forall ch schedule ch' reports, shows c s od cc sc ch ->
     channel_reference rl sl ch schedule = Some (ch', reports) ->
     exists c' s', run_channel cc sc rl sl (c, s, od) schedule = Some ((c', s', dictionary ch'), reports) /\
       shows c' s' (dictionary ch') cc sc ch') /\
  (in_step c s cc sc ->
     shows c s od cc sc (mkChannel false (next_sequence_number (ec_connection c cc))
                           (request_queue (ec_connection c cc)) od)) /\
  (c !! cc = None -> s !! sc = None -> shows c s od cc sc (mkChannel true 0 [] od)).
Proof.
  intros Hcc Hrl Hsl. split_and!.
  - intros ch schedule ch' reports. by apply channel_run_refines.
  - by intros (Hn & Hlast & Hp).
  - intros Hc Hs. unfold shows, ec_connection, es_connection. by rewrite Hc, Hs.
Qed.

Lemma embedded_exchange_witness :
  exists c' s', run_channel 0x1280 0x1200 12 12 (EmbeddedSdoClient_new, EmbeddedSdoServer_new, demo_emb_od)
      demo_schedule = Some ((c', s', demo_emb_od), demo_reports) /\ in_step c' s' 0x1280 0x1200.
Proof.
  destruct (embedded_exchange EmbeddedSdoClient_new EmbeddedSdoServer_new demo_emb_od 0x1280 0x1200 12 12
    ltac:(lia) ltac:(lia) ltac:(lia)) as (Hrun & _ & Hfresh).
  destruct (Hrun _ demo_schedule (mkChannel false 4 [] demo_emb_od) demo_reports (Hfresh eq_refl eq_refl))
    as (c' & s' & Hr & Hn & Hr0 & _ & _ & Hl & Hp).
  - vm_compute. reflexivity.
  - exists c', s'. split; [exact Hr|]. unfold in_step. rewrite Hn. cbn [number] in *. by split_and!.
Defined.
