(* ===== verification/SdoClient.v ===== *)
(** * The SDO client

    [sdo/client.rs] (requests queued for the asynchronous phase),
    [sdo/client_connection.rs] (one connection: its sequence counters, its
    job and the transfer under way) and [sdo/client_manager.rs] (the
    connections of the managing node).  Where the code slices or subtracts
    and may panic, the definition returns [None]; the connection invariant
    shows which of these cases cannot arise. *)
From S2P Require Import Prelude Utf8 Types Frames ErrorEntry ObjectDict SdoCodec SdoServer.

(** ** Queued requests ([sdo/client.rs]) *)
Abbreviation SdoClient := (list (Z * bytes)).
Definition SdoClient_new : SdoClient := [].
Definition queue_request (c : SdoClient) (target_node_id : Z) (payload : bytes) : SdoClient :=
  c ++ [(target_node_id, payload)].
Definition pop_pending_request (c : SdoClient) : SdoClient * option (Z * bytes) :=
  match c with [] => ([], None) | r :: c => (c, Some r) end.
Definition pending_request_count_and_priority (c : SdoClient) : Z * PRFlag :=
  let count := len c in
  if 0 <? count then (Z.min count 7, PrioGenericRequest) else (0, PrioGenericRequest).

(** ** One connection ([sdo/client_connection.rs]) *)
Definition MAX_CLIENT_PAYLOAD : nat := 1452.

Inductive SdoClientConnectionState : Type :=
| Cli_Idle | Cli_Opening | Cli_Established | Cli_UploadInit | Cli_UploadInProgress
| Cli_DownloadInProgress | Cli_Closed.
#[export] Instance SdoClientConnectionState_eq_dec : EqDecision SdoClientConnectionState.
Proof. solve_decision. Defined.

(** [SdoJob::ConciseDcf], the only job. *)
Record SdoJob : Type := ConciseDcf { job_data : bytes; job_offset : nat; entries_remaining : Z }.

Abbreviation Request := (SequenceLayerHeader * SdoCommand)%type.

Record SdoClientConnection : Type := mkConn {
  cc_target_node_id : Z;
  cc_state : SdoClientConnectionState;
  cc_transaction_id : Z;
  cc_send_sequence_number : Z;
  cc_last_received : Z;
  cc_data_buffer : bytes;
  cc_offset : nat;
  cc_total_size : nat;
  cc_deadline_us : option Z;
  retries_left : Z;
  last_sent_command : option Request;
  current_job : option SdoJob;
  pending_command : option SdoCommand
}.

Definition SdoClientConnection_new (target : Z) : SdoClientConnection :=
  mkConn target Cli_Idle 0 0 63 [] 0 0 None 0 None None None.

(** Field updates. *)
Definition with_state (s : SdoClientConnectionState) (c : SdoClientConnection) : SdoClientConnection :=
  mkConn (cc_target_node_id c) s (cc_transaction_id c) (cc_send_sequence_number c) (cc_last_received c)
    (cc_data_buffer c) (cc_offset c) (cc_total_size c) (cc_deadline_us c) (retries_left c)
    (last_sent_command c) (current_job c) (pending_command c).
Definition with_received (n : Z) (c : SdoClientConnection) : SdoClientConnection :=
  mkConn (cc_target_node_id c) (cc_state c) (cc_transaction_id c) (cc_send_sequence_number c) n
    (cc_data_buffer c) (cc_offset c) (cc_total_size c) (cc_deadline_us c) (retries_left c)
    (last_sent_command c) (current_job c) (pending_command c).
Definition with_transfer (tid : Z) (buffer : bytes) (offset total : nat) (c : SdoClientConnection)
    : SdoClientConnection :=
  mkConn (cc_target_node_id c) (cc_state c) tid (cc_send_sequence_number c) (cc_last_received c)
    buffer offset total (cc_deadline_us c) (retries_left c)
    (last_sent_command c) (current_job c) (pending_command c).
Definition with_timer (deadline : option Z) (retries : Z) (c : SdoClientConnection)
    : SdoClientConnection :=
  mkConn (cc_target_node_id c) (cc_state c) (cc_transaction_id c) (cc_send_sequence_number c)
    (cc_last_received c) (cc_data_buffer c) (cc_offset c) (cc_total_size c) deadline retries
    (last_sent_command c) (current_job c) (pending_command c).
Definition with_last_sent (r : option Request) (c : SdoClientConnection) : SdoClientConnection :=
  mkConn (cc_target_node_id c) (cc_state c) (cc_transaction_id c) (cc_send_sequence_number c)
    (cc_last_received c) (cc_data_buffer c) (cc_offset c) (cc_total_size c) (cc_deadline_us c)
    (retries_left c) r (current_job c) (pending_command c).
Definition with_job (j : option SdoJob) (c : SdoClientConnection) : SdoClientConnection :=
  mkConn (cc_target_node_id c) (cc_state c) (cc_transaction_id c) (cc_send_sequence_number c)
    (cc_last_received c) (cc_data_buffer c) (cc_offset c) (cc_total_size c) (cc_deadline_us c)
    (retries_left c) (last_sent_command c) j (pending_command c).
Definition with_pending (p : option SdoCommand) (c : SdoClientConnection) : SdoClientConnection :=
  mkConn (cc_target_node_id c) (cc_state c) (cc_transaction_id c) (cc_send_sequence_number c)
    (cc_last_received c) (cc_data_buffer c) (cc_offset c) (cc_total_size c) (cc_deadline_us c)
    (retries_left c) (last_sent_command c) (current_job c) p.
Definition with_send_seq (n : Z) (c : SdoClientConnection) : SdoClientConnection :=
  mkConn (cc_target_node_id c) (cc_state c) (cc_transaction_id c) n
    (cc_last_received c) (cc_data_buffer c) (cc_offset c) (cc_total_size c) (cc_deadline_us c)
    (retries_left c) (last_sent_command c) (current_job c) (pending_command c).

Definition cc_is_idle (c : SdoClientConnection) : bool :=
  match cc_state c with Cli_Idle | Cli_Closed => true | _ => false end.
Definition cc_is_closed (c : SdoClientConnection) : bool :=
  match cc_state c with Cli_Closed => true | _ => false end.

Definition client_abort (c : SdoClientConnection) (abort_code : Z) : SdoClientConnection * Request :=
  (with_job None (with_timer None (retries_left c) (with_last_sent None (with_state Cli_Closed c))),
   (mkSeqHeader (cc_last_received c) Rcon_ConnectionValid (cc_send_sequence_number c) Scon_NoConnection,
    mkSdoCommand (mkCmdHeader (cc_transaction_id c) false true Seg_Expedited Cid_Nil 4) None
      (le_bytes 4 abort_code))).

(** [wrapping_add(1)], 0 skipped. *)
Definition next_tid (n : Z) : Z := if u8 (n + 1) =? 0 then 1 else u8 (n + 1).

(** The next entry of the job becomes the transfer; [false] when there is none
    or the data does not hold it, and the job is then dropped. *)
Definition prepare_next_job_command (c : SdoClientConnection) : SdoClientConnection * bool :=
  let done := (with_job None c, false) in
  match current_job c with
  | None => done
  | Some job =>
      let data := job_data job in
      let offset := job_offset job in
      if entries_remaining job =? 0 then done
      else if (length data <? offset + 7)%nat then done
      else
        let index := le_val (slice data offset (offset + 2)) in
        let sub_index := byte_at data (offset + 2) in
        let data_size := Z.to_nat (le_val (slice data (offset + 3) (offset + 7))) in
        let offset := (offset + 7)%nat in
        if (length data <? offset + data_size)%nat then done
        else
          let full_payload := le_bytes 2 index ++ [sub_index; 0] ++ slice data offset (offset + data_size) in
          (with_job (Some (ConciseDcf data (offset + data_size) (entries_remaining job - 1)))
             (with_transfer (next_tid (cc_transaction_id c)) full_payload 0 (length full_payload) c), true)
  end.

(** [total_size - 4] and the slice of the buffer panic out of range. *)
Definition get_next_download_segment (c : SdoClientConnection)
    : option (SdoClientConnection * (SdoCommand * bool)) :=
  let total := cc_total_size c in
  let offset := cc_offset c in
  let is_initiate := (offset =? 0)%nat in
  let remaining := (total - offset)%nat in
  if is_initiate && (total <? 4)%nat then None else
  let header_data_len := if is_initiate then total else remaining in
  let chunk_size := Nat.min MAX_CLIENT_PAYLOAD header_data_len in
  let data_end_offset := (offset + chunk_size)%nat in
  if (length (cc_data_buffer c) <? data_end_offset)%nat then None else
  let chunk := slice (cc_data_buffer c) offset data_end_offset in
  let segmentation :=
    if is_initiate
    then if (total <=? MAX_CLIENT_PAYLOAD + 4)%nat then Seg_Expedited else Seg_Initiate
    else if (remaining <=? MAX_CLIENT_PAYLOAD)%nat then Seg_Complete else Seg_Segment in
  Some (with_transfer (cc_transaction_id c) (cc_data_buffer c) data_end_offset total c,
        (mkSdoCommand
           (mkCmdHeader (cc_transaction_id c) false false segmentation Cid_WriteByIndex (u16 (len chunk)))
           (if is_initiate then Some (u32 (Z.of_nat (total - 4))) else None) chunk,
         (total <=? data_end_offset)%nat)).

(** The reaction of each state to an accepted response. *)
Definition accept_response (c : SdoClientConnection) (seq_header : SequenceLayerHeader)
    (cmd : SdoCommand) : SdoClientConnection :=
  match cc_state c with
  | Cli_Opening =>
      with_state
        (if bool_decide (receive_con seq_header = Rcon_Initialization)
            && bool_decide (send_con seq_header = Scon_Initialization)
         then Cli_Established else Cli_Closed) c
  | Cli_DownloadInProgress =>
      if (cc_total_size c <=? cc_offset c)%nat then
        let '(c, more) := prepare_next_job_command c in
        with_state (if more then Cli_Established else Cli_Closed) c
      else c
  | Cli_UploadInit =>
      match segmentation (cmd_header cmd) with
      | Seg_Expedited =>
          with_state Cli_Closed
            (with_transfer (cc_transaction_id c) (payload cmd) (cc_offset c) (cc_total_size c) c)
      | Seg_Initiate =>
          let total := match data_size cmd with Some size => Z.to_nat size | None => cc_total_size c end in
          with_state Cli_UploadInProgress
            (with_transfer (cc_transaction_id c) [] (cc_offset c) total c)
      | _ => with_state Cli_Closed c
      end
  | Cli_UploadInProgress =>
      match segmentation (cmd_header cmd) with
      | Seg_Segment =>
          with_transfer (cc_transaction_id c) (cc_data_buffer c ++ payload cmd) (cc_offset c)
            (cc_total_size c) c
      | Seg_Complete =>
          with_state Cli_Closed
            (with_transfer (cc_transaction_id c) (cc_data_buffer c ++ payload cmd) (cc_offset c)
               (cc_total_size c) c)
      | _ => with_state Cli_Closed c
      end
  | _ => with_state Cli_Closed c
  end.

(** [cmd.payload[0..4]] of an abort panics when the payload is shorter. *)
Definition handle_response (c : SdoClientConnection) (seq_header : SequenceLayerHeader)
    (cmd : SdoCommand) : option SdoClientConnection :=
  match last_sent_command c with
  | None => Some c
  | Some (last_seq, _) =>
      if negb (receive_sequence_number seq_header =? send_sequence_number last_seq) then Some c else
      let c := with_timer None 0 (with_last_sent None c) in
      if send_sequence_number seq_header =? cc_last_received c then Some c
      else if negb (send_sequence_number seq_header =? next_seq (cc_last_received c))
      then Some (with_state Cli_Closed c)
      else
        let c := with_received (send_sequence_number seq_header) c in
        if is_aborted (cmd_header cmd) then
          if (length (payload cmd) <? 4)%nat then None
          else Some (with_job None (with_state Cli_Closed c))
        else Some (accept_response c seq_header cmd)
  end.

Section Connection.
Context {S : Type}.
Implicit Types (od : ObjectDictionary S) (c : SdoClientConnection).

Definition sdo_retries od : Z := unwrap_or (read_u32 od OD_IDX_SDO_RETRIES 0) 2.

Definition client_tick c (current_time_us : Z) od : SdoClientConnection * option Request :=
  match cc_deadline_us c with
  | None => (c, None)
  | Some deadline =>
      if current_time_us <? deadline then (c, None)
      else if 0 <? retries_left c then
        (with_timer (Some (sdo_deadline od current_time_us)) (retries_left c - 1) c, last_sent_command c)
      else let '(c, r) := client_abort c 0x05040000 in (c, Some r)
  end.

(** The header of every frame of an open connection. *)
Definition data_header c : SequenceLayerHeader :=
  mkSeqHeader (cc_last_received c) Rcon_ConnectionValid (cc_send_sequence_number c)
    Scon_ConnectionValidAckRequest.

(** The end of [get_pending_request]: the request is recorded and counted. *)
Definition send_request c (current_time_us : Z) od (r : Request)
    : SdoClientConnection * option Request :=
  (with_send_seq (next_seq (cc_send_sequence_number c))
     (with_last_sent (Some r) (with_timer (Some (sdo_deadline od current_time_us)) (sdo_retries od) c)),
   Some r).

Definition send_download c (current_time_us : Z) od : option (SdoClientConnection * option Request) :=
  match get_next_download_segment c with
  | None => None
  | Some (c, (cmd, _)) =>
      let c := with_state Cli_DownloadInProgress c in
      Some (send_request c current_time_us od (data_header c, cmd))
  end.

(** [get_pending_request] calls itself once, after loading the next entry of the
    job; the buffer is then non-empty. *)
Definition client_get_pending_request c (current_time_us : Z) od
    : option (SdoClientConnection * option Request) :=
  match last_sent_command c with
  | Some _ => Some (c, None)
  | None =>
      match cc_state c with
      | Cli_Opening =>
          Some (send_request c current_time_us od
            (mkSeqHeader (cc_last_received c) Rcon_NoConnection (cc_send_sequence_number c)
               Scon_Initialization,
             mkSdoCommand (mkCmdHeader (cc_transaction_id c) false false Seg_Expedited Cid_Nil 0) None []))
      | Cli_Established =>
          match cc_data_buffer c with
          | _ :: _ => send_download c current_time_us od
          | [] =>
              match pending_command c with
              | Some cmd =>
                  let c := with_state Cli_UploadInit (with_pending None c) in
                  Some (send_request c current_time_us od (data_header c, cmd))
              | None =>
                  let '(c, more) := prepare_next_job_command c in
                  if more then send_download c current_time_us od
                  else Some (with_state Cli_Closed c, None)
              end
          end
      | Cli_DownloadInProgress => send_download c current_time_us od
      | Cli_UploadInProgress =>
          Some (send_request c current_time_us od
            (data_header c,
             mkSdoCommand (mkCmdHeader (cc_transaction_id c) false false Seg_Segment Cid_ReadByIndex 0)
               None []))
      | _ => Some (c, None)
      end
  end.

(** What the three [start_*] operations begin with. *)
Definition open_connection c (tid : Z) (job : option SdoJob) (pending : option SdoCommand)
    (buffer : bytes) (offset total : nat) : SdoClientConnection :=
  with_state Cli_Opening (with_transfer tid buffer offset total
    (with_send_seq 0 (with_received 63 (with_job job (with_pending pending c))))).

Definition arm_timer c (current_time_us : Z) od : SdoClientConnection :=
  with_timer (Some (sdo_deadline od current_time_us)) (sdo_retries od) c.

Definition start_concise_dcf_job c (dcf_data : bytes) (tid current_time_us : Z) od
    : SdoClientConnection * res unit :=
  if negb (cc_is_idle c) then (c, Err (SdoSequenceError "Client is busy"))
  else if (length dcf_data <? 4)%nat then (c, Err (ValidationError "Concise DCF too short"))
  else
    let entries := le_val (slice dcf_data 0 4) in
    let c := open_connection c tid (Some (ConciseDcf dcf_data 4 entries)) (pending_command c) []
               (cc_offset c) (cc_total_size c) in
    (arm_timer (fst (prepare_next_job_command c)) current_time_us od, Ok tt).

Definition start_read_job c (index sub_index tid current_time_us : Z) od
    : SdoClientConnection * res unit :=
  if negb (cc_is_idle c) then (c, Err (SdoSequenceError "Client is busy"))
  else
    (arm_timer (open_connection c tid (current_job c) (Some (read_request tid index sub_index)) []
       (cc_offset c) (cc_total_size c)) current_time_us od, Ok tt).

Definition start_write_job c (index sub_index : Z) (data : bytes) (tid current_time_us : Z) od
    : SdoClientConnection * res unit :=
  if negb (cc_is_idle c) then (c, Err (SdoSequenceError "Client is busy"))
  else
    let full_payload := le_bytes 2 index ++ [sub_index; 0] ++ data in
    (arm_timer (open_connection c tid (current_job c) (pending_command c) full_payload 0
       (length full_payload)) current_time_us od, Ok tt).
End Connection.

(** ** The connections of the managing node ([sdo/client_manager.rs]) *)
Abbreviation ClientConnections := (gmap Z SdoClientConnection).
Record SdoClientManager : Type := mkManager {
  mgr_connections : ClientConnections; next_transaction_id : Z }.
Definition SdoClientManager_new : SdoClientManager := mkManager ∅ 0.

Definition get_next_tid (m : SdoClientManager) : SdoClientManager * Z :=
  let tid := next_tid (next_transaction_id m) in (mkManager (mgr_connections m) tid, tid).

Definition mgr_next_action_time (m : SdoClientManager) : option Z :=
  min_option (omap (fun ic => cc_deadline_us (snd ic)) (btree_items Z.le (mgr_connections m))).

Definition mgr_connection (m : SdoClientManager) (target : Z) : SdoClientConnection :=
  unwrap_or (mgr_connections m !! target) (SdoClientConnection_new target).

(** [entry(target).or_insert_with(..)] and the [start_*] call: the entry stays
    when the call fails. *)
Definition start_on (m : SdoClientManager) (target : Z)
    (start : SdoClientConnection -> Z -> SdoClientConnection * res unit) : SdoClientManager * res unit :=
  let '(m, tid) := get_next_tid m in
  let '(c, r) := start (mgr_connection m target) tid in
  (mkManager (<[target := c]> (mgr_connections m)) (next_transaction_id m), r).

(** The loops of [tick] and [get_pending_request]: connections are asked in
    order until one has something to send, the closed ones are noted. *)
Fixpoint poll_loop (ask : SdoClientConnection -> option (SdoClientConnection * option Request))
    (items : list (Z * SdoClientConnection)) (conns : ClientConnections)
    (found : option (Z * Request)) (closed : list Z)
    : option (ClientConnections * option (Z * Request) * list Z) :=
  match items with
  | [] => Some (conns, found, closed)
  | (id, c) :: items =>
      let asked := match found with None => ask c | Some _ => Some (c, None) end in
      match asked with
      | None => None
      | Some (c, out) =>
          poll_loop ask items (<[id := c]> conns)
            (match found, out with None, Some r => Some (id, r) | _, _ => found end)
            (if cc_is_closed c then closed ++ [id] else closed)
      end
  end.
Definition prune_connections (conns : ClientConnections) (ids : list Z) : ClientConnections :=
  foldl (fun m id => delete id m) conns ids.
Definition poll_connections (ask : SdoClientConnection -> option (SdoClientConnection * option Request))
    (m : SdoClientManager) : option (SdoClientManager * option (Z * Request)) :=
  match poll_loop ask (btree_items Z.le (mgr_connections m)) (mgr_connections m) None [] with
  | None => None
  | Some (conns, found, closed) =>
      Some (mkManager (prune_connections conns closed) (next_transaction_id m), found)
  end.

Section Manager.
Context {S : Type}.
Implicit Types (od : ObjectDictionary S) (m : SdoClientManager).

Definition start_configuration_download m (target : Z) (dcf_data : bytes) (t : Z) od
    : SdoClientManager * res unit :=
  start_on m target (fun c tid => start_concise_dcf_job c dcf_data tid t od).
Definition read_object_by_index m (target index sub_index t : Z) od : SdoClientManager * res unit :=
  start_on m target (fun c tid => start_read_job c index sub_index tid t od).
Definition write_object_by_index m (target index sub_index : Z) (data : bytes) (t : Z) od
    : SdoClientManager * res unit :=
  start_on m target (fun c tid => start_write_job c index sub_index data tid t od).

Definition mgr_handle_response m (source : Z) (seq : SequenceLayerHeader) (cmd : SdoCommand)
    : option SdoClientManager :=
  match mgr_connections m !! source with
  | None => Some m
  | Some c =>
      match handle_response c seq cmd with
      | None => None
      | Some c =>
          Some (mkManager
            (if cc_is_closed c then delete source (mgr_connections m)
             else <[source := c]> (mgr_connections m)) (next_transaction_id m))
      end
  end.

Definition mgr_tick m (t : Z) od : option (SdoClientManager * option (Z * Request)) :=
  poll_connections (fun c => Some (client_tick c t od)) m.
Definition mgr_get_pending_request m (t : Z) od : option (SdoClientManager * option (Z * Request)) :=
  poll_connections (fun c => client_get_pending_request c t od) m.
End Manager.

(** ** The connection invariant *)

(** The transfer of a connection that has one starts at the beginning, and one
    under way has its cursor inside the buffer. *)
Definition conn_wf (c : SdoClientConnection) : Prop :=
  seq_ok (cc_send_sequence_number c) /\ seq_ok (cc_last_received c) /\
  match cc_state c with
  | Cli_Opening | Cli_Established =>
      cc_data_buffer c <> [] ->
      cc_offset c = 0%nat /\ cc_total_size c = length (cc_data_buffer c) /\ (4 <= cc_total_size c)%nat
  | Cli_DownloadInProgress =>
      cc_total_size c = length (cc_data_buffer c) /\ (0 < cc_offset c <= cc_total_size c)%nat
  | _ => True
  end.

(** The rest of a buffer is cut here, and this many bytes go out. *)
Definition client_chunk (c : SdoClientConnection) : bytes :=
  take MAX_CLIENT_PAYLOAD (drop (cc_offset c) (cc_data_buffer c)).

Definition transfer_ready (c : SdoClientConnection) : Prop :=
  cc_total_size c = length (cc_data_buffer c) /\ (4 <= cc_total_size c)%nat /\
  (cc_offset c <= cc_total_size c)%nat.

Lemma next_download_spec c :
  cc_total_size c = length (cc_data_buffer c) -> (cc_offset c <= cc_total_size c)%nat ->
  (cc_offset c = 0%nat -> (4 <= cc_total_size c)%nat) ->
  get_next_download_segment c =
    Some (with_transfer (cc_transaction_id c) (cc_data_buffer c) (cc_offset c + length (client_chunk c))
            (cc_total_size c) c,
          (mkSdoCommand (mkCmdHeader (cc_transaction_id c) false false
             (if (cc_offset c =? 0)%nat
              then if (cc_total_size c <=? MAX_CLIENT_PAYLOAD + 4)%nat then Seg_Expedited else Seg_Initiate
              else if (cc_total_size c - cc_offset c <=? MAX_CLIENT_PAYLOAD)%nat
                   then Seg_Complete else Seg_Segment)
             Cid_WriteByIndex (u16 (len (client_chunk c))))
             (if (cc_offset c =? 0)%nat then Some (u32 (Z.of_nat (cc_total_size c - 4))) else None)
             (client_chunk c),
           (cc_total_size c <=? cc_offset c + length (client_chunk c))%nat)).
Proof.
  intros Ht Ho H4. unfold get_next_download_segment.
  destruct (Nat.eqb_spec (cc_offset c) 0) as [E|E]; cbn [andb].
  1: rewrite nat_ltb_false by (by apply H4).
  all: set (n := Nat.min MAX_CLIENT_PAYLOAD _);
    assert (Hn : n = length (client_chunk c))
      by (unfold n, client_chunk; rewrite length_take, length_drop; lia);
    rewrite (nat_ltb_false (length _)) by (unfold n; lia);
    assert (Hs : slice (cc_data_buffer c) (cc_offset c) (cc_offset c + n) = client_chunk c)
      by (unfold slice, client_chunk; replace (cc_offset c + n - cc_offset c)%nat with n by lia;
          unfold n; destruct (decide (MAX_CLIENT_PAYLOAD <= cc_total_size c - cc_offset c)%nat);
          [by rewrite Nat.min_l by lia
          |rewrite Nat.min_r by lia; rewrite !take_ge; rewrite ?length_drop; lia || done]);
    rewrite Hs, Hn; reflexivity.
Qed.

Lemma prepare_next_spec c :
  let '(c', more) := prepare_next_job_command c in
  cc_state c' = cc_state c /\ last_sent_command c' = last_sent_command c /\
  cc_send_sequence_number c' = cc_send_sequence_number c /\ cc_last_received c' = cc_last_received c /\
  if more then cc_offset c' = 0%nat /\ cc_total_size c' = length (cc_data_buffer c') /\
               (4 <= cc_total_size c')%nat
  else c' = with_job None c.
Proof.
  unfold prepare_next_job_command. destruct (current_job c) as [job|]; [|by split_and!].
  repeat case_if; try by split_and!. cbn. split_and!; try done. lia.
Qed.

Lemma buffer_prepared c c' : prepare_next_job_command c = (c', true) -> cc_data_buffer c' <> [].
Proof.
  intros E. pose proof (prepare_next_spec c) as H. rewrite E in H.
  destruct H as (_&_&_&_&_&Ht&H4). intros E0. rewrite E0 in Ht. simpl in Ht. lia.
Qed.

Section Invariant.
Context {S : Type}.
Implicit Types (od : ObjectDictionary S) (c : SdoClientConnection).

Lemma send_request_wf c t od r : conn_wf c -> conn_wf (fst (send_request c t od r)).
Proof. intros (?&?&Hs). unfold send_request. cbn [fst]. split_and!; [apply next_seq_ok|done|done]. Qed.

Lemma send_download_wf c t od :
  seq_ok (cc_send_sequence_number c) -> seq_ok (cc_last_received c) ->
  cc_total_size c = length (cc_data_buffer c) -> (cc_offset c <= cc_total_size c)%nat ->
  (cc_offset c = 0%nat -> (4 <= cc_total_size c)%nat) ->
  exists c' r, send_download c t od = Some (c', Some r) /\ conn_wf c'.
Proof.
  intros Hs Hr Ht Ho H4. unfold send_download. rewrite next_download_spec by done.
  eexists _, _. split; [reflexivity|]. split_and!; [apply next_seq_ok|done|].
  assert (length (client_chunk c) = Nat.min MAX_CLIENT_PAYLOAD (cc_total_size c - cc_offset c))
    by (unfold client_chunk; rewrite length_take, length_drop; lia).
  unfold MAX_CLIENT_PAYLOAD in *. unfold send_request.
  cbn [cc_state cc_total_size cc_data_buffer cc_offset with_send_seq with_last_sent with_timer with_state
    with_transfer fst]. lia.
Qed.

Lemma get_pending_wf c t od : conn_wf c ->
  exists c' r, client_get_pending_request c t od = Some (c', r) /\ conn_wf c'.
Proof.
  intros Hw. unfold client_get_pending_request.
  destruct (last_sent_command c); [by eexists _, _|]. pose proof Hw as (Hs & Hr & Hst).
  destruct (cc_state c) eqn:Es; try (by eexists _, _).
  - eexists _, _. split; [reflexivity|]. by apply send_request_wf.
  - destruct (cc_data_buffer c) as [|b bs] eqn:Eb.
    + destruct (pending_command c).
      * eexists _, _. split; [reflexivity|]. apply (send_request_wf (with_state _ _)). by split_and!.
      * pose proof (prepare_next_spec c) as Hp. destruct (prepare_next_job_command c) as [c' more].
        destruct Hp as (E1 & E2 & E3 & E4 & Hm). destruct more.
        -- destruct Hm as (?&?&?). destruct (send_download_wf c' t od) as (c2 & r & E & ?);
             rewrite ?E3, ?E4; try (done || lia). by eexists _, _.
        -- subst c'. eexists _, _. split; [reflexivity|]. by split_and!.
    + destruct (Hst ltac:(done)) as (?&?&?).
      destruct (send_download_wf c t od) as (c2 & r & E & ?); rewrite ?Eb; try (done || lia).
      by eexists _, _.
  - eexists _, _. split; [reflexivity|]. apply (send_request_wf c). split_and!; try done. by rewrite Es.
  - destruct Hst as (?&?&?). destruct (send_download_wf c t od) as (c2 & r & E & ?); try (done || lia).
    by eexists _, _.
Qed.

Lemma accept_response_wf c sq cmd : conn_wf c -> conn_wf (accept_response c sq cmd).
Proof.
  intros Hw. pose proof Hw as (Hs & Hr & Hst). unfold accept_response.
  destruct (cc_state c) eqn:Es; try (by split_and!).
  - case_if; by split_and!.
  - destruct (segmentation _); by split_and!.
  - destruct (segmentation _); split_and!; try done. cbn [cc_state with_transfer]. by rewrite Es.
  - case_if; [|done].
    pose proof (prepare_next_spec c) as Hp. destruct (prepare_next_job_command c) as [c' more].
    destruct Hp as (E1 & E2 & E3 & E4 & Hm).
    destruct more; split_and!; cbn; rewrite ?E3, ?E4; done.
Qed.

Lemma client_response_wf c sq cmd c' : conn_wf c -> seq_header_ok sq ->
  handle_response c sq cmd = Some c' -> conn_wf c'.
Proof.
  intros (Hs & Hr & Hst) [? ?]. unfold handle_response.
  destruct (last_sent_command c) as [[lseq lcmd]|]; [|intros; simplify_eq; by split_and!].
  repeat case_if; intros; simplify_eq; try (by split_and!).
  apply accept_response_wf. by split_and!.
Qed.

Lemma client_tick_wf c t od : conn_wf c -> conn_wf (fst (client_tick c t od)).
Proof.
  intros (Hs & Hr & Hst). unfold client_tick.
  destruct (cc_deadline_us c); [|by split_and!]. repeat case_if; by split_and!.
Qed.

Lemma start_jobs_wf c t od :
  conn_wf c ->
  (forall data tid, conn_wf (fst (start_concise_dcf_job c data tid t od))) /\
  (forall i s tid, conn_wf (fst (start_read_job c i s tid t od))) /\
  (forall i s data tid, conn_wf (fst (start_write_job c i s data tid t od))).
Proof.
  intros Hw. unfold start_concise_dcf_job, start_read_job, start_write_job.
  split_and!; intros; repeat case_if; try done; cbn [fst].
  - set (c0 := open_connection _ _ _ _ _ _ _).
    pose proof (prepare_next_spec c0) as Hp. destruct (prepare_next_job_command c0) as [c' more].
    destruct Hp as (E1 & E2 & E3 & E4 & Hm). unfold arm_timer, conn_wf, seq_ok. cbn.
    rewrite E1, E3, E4. unfold c0. cbn. split_and!; try done.
    destruct more; [done|]. by subst c'.
  - unfold arm_timer, open_connection, conn_wf, seq_ok. cbn. split_and!; done || lia.
Qed.
End Invariant.

(** ** The connections of a manager *)
Section ManagerInvariant.
Context {S : Type}.
Implicit Types (od : ObjectDictionary S) (m : SdoClientManager).

Definition conns_wf (conns : ClientConnections) : Prop := map_Forall (fun _ c => conn_wf c) conns.
Definition mgr_wf m : Prop := conns_wf (mgr_connections m).

Lemma prune_wf ids : forall conns, conns_wf conns -> conns_wf (prune_connections conns ids).
Proof.
  unfold prune_connections. induction ids as [|i ids IH]; intros conns Hw; [done|]. cbn [foldl].
  by apply IH, map_Forall_delete.
Qed.

(** Asking the connections never panics when asking one does not. *)
Lemma poll_loop_wf ask items : (forall c, conn_wf c -> exists c' r, ask c = Some (c', r) /\ conn_wf c') ->
  Forall (fun ic => conn_wf (snd ic)) items -> forall conns found closed, conns_wf conns ->
  exists conns' found' closed', poll_loop ask items conns found closed = Some (conns', found', closed') /\
    conns_wf conns'.
Proof.
  intros Hask. induction 1 as [|[i c] items Hc _ IH]; intros conns found closed Hw; [by eexists _, _, _|].
  cbn [poll_loop]. cbn [snd] in Hc.
  assert (exists c' r, (match found with None => ask c | Some _ => Some (c, None) end) = Some (c', r) /\ conn_wf c')
    as (c'&r&->&Hc') by (destruct found; [by eexists _, _|by apply Hask]).
  apply IH. by apply map_Forall_insert_2.
Qed.
Lemma poll_wf ask m : (forall c, conn_wf c -> exists c' r, ask c = Some (c', r) /\ conn_wf c') -> mgr_wf m ->
  exists m' r, poll_connections ask m = Some (m', r) /\ mgr_wf m'.
Proof.
  intros Hask Hw. unfold poll_connections.
  destruct (poll_loop_wf ask (btree_items Z.le (mgr_connections m)) Hask) with (conns := mgr_connections m)
    (found := @None (Z * Request)) (closed := @nil Z) as (conns&found&closed&->&Hc); [|done|].
  - apply Forall_forall. intros [i c] Hi. apply elem_of_btree_items in Hi. by eapply Hw.
  - eexists _, _. split; [done|]. by apply prune_wf.
Qed.

Lemma mgr_pending_wf m t od : mgr_wf m -> exists m' r, mgr_get_pending_request m t od = Some (m', r) /\ mgr_wf m'.
Proof. apply poll_wf. intros c. apply get_pending_wf. Qed.
Lemma mgr_tick_wf m t od : mgr_wf m -> exists m' r, mgr_tick m t od = Some (m', r) /\ mgr_wf m'.
Proof.
  apply poll_wf. intros c Hc. pose proof (client_tick_wf c t od Hc) as Hw.
  destruct (client_tick c t od) as [c' r]. by eexists _, _.
Qed.

Lemma start_on_wf m target start : mgr_wf m -> (forall c tid, conn_wf c -> conn_wf (fst (start c tid))) ->
  mgr_wf (fst (start_on m target start)).
Proof.
  intros Hw Hs. unfold start_on, get_next_tid. set (m1 := mkManager _ _).
  assert (conn_wf (mgr_connection m1 target)) as Hc.
  { unfold mgr_connection, m1. cbn [mgr_connections]. destruct (mgr_connections m !! target) eqn:E; [by eapply Hw|].
    unfold conn_wf, seq_ok. simpl. lia. }
  specialize (Hs _ (next_tid (next_transaction_id m)) Hc). destruct (start _ _) as [c r]. cbn [fst] in *.
  by apply map_Forall_insert_2.
Qed.

Lemma mgr_response_wf m source sq cmd m' : mgr_wf m -> seq_header_ok sq ->
  mgr_handle_response m source sq cmd = Some m' -> mgr_wf m'.
Proof.
  intros Hw Hs. unfold mgr_handle_response. destruct (mgr_connections m !! source) as [c|] eqn:E; [|by intros [= <-]].
  destruct (handle_response c sq cmd) as [c'|] eqn:Er; [|done]. intros [= <-]. unfold mgr_wf. cbn [mgr_connections].
  case_match; [by apply map_Forall_delete|]. apply map_Forall_insert_2; [|done].
  eapply client_response_wf; [by eapply Hw|done|exact Er].
Qed.

(** When a response makes the manager panic: an abort without a complete code, for a frame in flight. *)
Lemma mgr_response_panics m source sq cmd : mgr_handle_response m source sq cmd = None ->
  is_aborted (cmd_header cmd) = true /\ (length (payload cmd) < 4)%nat /\
  exists c, mgr_connections m !! source = Some c /\ last_sent_command c <> None.
Proof.
  unfold mgr_handle_response. destruct (mgr_connections m !! source) as [c|] eqn:E; [|done].
  unfold handle_response. destruct (last_sent_command c) as [[sq' cmd']|] eqn:El; [|done].
  repeat case_if; try done; intros _; split_and!; try done; try (by apply Nat.ltb_lt); exists c; by rewrite El.
Qed.
End ManagerInvariant.

(** ** What a configuration download sends *)

(** An entry of a Concise DCF and its encoding. *)
Record DcfEntry : Type := mkDcfEntry { dcf_index : Z; dcf_sub_index : Z; dcf_value : bytes }.
Definition dcf_entry_ok (e : DcfEntry) : Prop :=
  in_width 16 (dcf_index e) /\ byte_ok (dcf_sub_index e) /\ in_width 32 (len (dcf_value e)).
Definition encode_entry (e : DcfEntry) : bytes :=
  le_bytes 2 (dcf_index e) ++ [dcf_sub_index e] ++ le_bytes 4 (len (dcf_value e)) ++ dcf_value e.
Definition encode_entries (es : list DcfEntry) : bytes := concat (encode_entry <$> es).
Definition encode_dcf (es : list DcfEntry) : bytes := le_bytes 4 (len es) ++ encode_entries es.

(** The payload of the write of an entry. *)
Definition entry_payload (e : DcfEntry) : bytes :=
  le_bytes 2 (dcf_index e) ++ [dcf_sub_index e; 0] ++ dcf_value e.

Definition write_segment (tid : Z) (seg : Segmentation) (size : option Z) (chunk : bytes) : SdoCommand :=
  mkSdoCommand (mkCmdHeader tid false false seg Cid_WriteByIndex (u16 (len chunk))) size chunk.

(** A payload cut into segments of at most [MAX_CLIENT_PAYLOAD] octets. *)
Fixpoint later_segments (fuel : nat) (tid : Z) (rest : bytes) : list SdoCommand :=
  match fuel with
  | O => []
  | Datatypes.S fuel =>
      if (length rest <=? MAX_CLIENT_PAYLOAD)%nat then [write_segment tid Seg_Complete None rest]
      else write_segment tid Seg_Segment None (take MAX_CLIENT_PAYLOAD rest)
           :: later_segments fuel tid (drop MAX_CLIENT_PAYLOAD rest)
  end.
Definition download_segments (tid : Z) (pl : bytes) : list SdoCommand :=
  write_segment tid (if (length pl <=? MAX_CLIENT_PAYLOAD + 4)%nat then Seg_Expedited else Seg_Initiate)
    (Some (u32 (Z.of_nat (length pl - 4)))) (take MAX_CLIENT_PAYLOAD pl)
  :: (if (length pl <=? MAX_CLIENT_PAYLOAD)%nat then []
      else later_segments (length pl) tid (drop MAX_CLIENT_PAYLOAD pl)).

Fixpoint configuration_commands (tid : Z) (es : list DcfEntry) : list SdoCommand :=
  match es with
  | [] => []
  | e :: es =>
      download_segments (next_tid tid) (entry_payload e) ++ configuration_commands (next_tid tid) es
  end.
Definition opening_command (tid : Z) : SdoCommand :=
  mkSdoCommand (mkCmdHeader tid false false Seg_Expedited Cid_Nil 0) None [].

(** A server that confirms every frame: it repeats the client's number, counts
    its own, and answers the connection states of the frame. *)
Definition confirming (sq : SequenceLayerHeader) (cmd : SdoCommand) : Request :=
  let opening := bool_decide (send_con sq = Scon_Initialization) in
  (mkSeqHeader (send_sequence_number sq) (if opening then Rcon_Initialization else Rcon_ConnectionValid)
     (next_seq (receive_sequence_number sq))
     (if opening then Scon_Initialization else Scon_ConnectionValid),
   ack (mkCmdHeader (transaction_id (cmd_header cmd)) true false Seg_Expedited Cid_Nil 0)).

(** The client asked for a frame at each of the given times, every frame
    answered by [peer]: the connection reached and the commands sent. *)
Fixpoint converse {S} (peer : SequenceLayerHeader -> SdoCommand -> Request) (od : ObjectDictionary S)
    (ts : list Z) (c : SdoClientConnection) : option (SdoClientConnection * list SdoCommand) :=
  match ts with
  | [] => Some (c, [])
  | t :: ts =>
      match client_get_pending_request c t od with
      | None => None
      | Some (c, None) => Some (c, [])
      | Some (c, Some (sq, cmd)) =>
          match handle_response c (fst (peer sq cmd)) (snd (peer sq cmd)) with
          | None => None
          | Some c =>
              match converse peer od ts c with
              | None => None
              | Some (c, cmds) => Some (c, cmd :: cmds)
              end
          end
      end
  end.

(** Nothing is in flight, the counters are in range. *)
Definition at_rest (c : SdoClientConnection) : Prop :=
  last_sent_command c = None /\ seq_ok (cc_send_sequence_number c) /\ seq_ok (cc_last_received c).

Section Converse.
Context {S : Type}.
Implicit Types (od : ObjectDictionary S) (c : SdoClientConnection).

(** A confirmed frame of an open connection. *)
Lemma confirmed c t od r : at_rest c -> receive_sequence_number (fst r) = cc_last_received c ->
  send_sequence_number (fst r) = cc_send_sequence_number c ->
  let c1 := fst (send_request c t od r) in
  exists c2, c2 = with_received (next_seq (cc_last_received c)) (with_timer None 0 (with_last_sent None c1)) /\
    handle_response c1 (fst (confirming (fst r) (snd r))) (snd (confirming (fst r) (snd r))) =
      Some (accept_response c2 (fst (confirming (fst r) (snd r))) (snd (confirming (fst r) (snd r)))).
Proof.
  intros (Hn & Hs & Hr) Er Es c1. eexists. split; [reflexivity|].
  unfold handle_response, c1, send_request. destruct r as [sq cmd]. cbn [fst snd] in *.
  cbn [last_sent_command with_send_seq with_last_sent].
  cbn [confirming fst snd receive_sequence_number send_sequence_number cmd_header ack is_aborted].
  rewrite Z.eqb_refl, Er. cbn [negb cc_last_received with_timer with_last_sent with_send_seq].
  rewrite (proj2 (Z.eqb_neq _ _) (next_seq_neq _ Hr)), Z.eqb_refl. reflexivity.
Qed.

(** The connection after a confirmed segment, before the next entry is taken. *)
Definition sent_segment c : SdoClientConnection :=
  mkConn (cc_target_node_id c) Cli_DownloadInProgress (cc_transaction_id c)
    (next_seq (cc_send_sequence_number c)) (next_seq (cc_last_received c)) (cc_data_buffer c)
    (cc_offset c + length (client_chunk c)) (cc_total_size c) None 0 None (current_job c)
    (pending_command c).
Definition take_next_entry c : SdoClientConnection :=
  let '(c, more) := prepare_next_job_command c in
  with_state (if more then Cli_Established else Cli_Closed) c.
Definition prepend (cmds : list SdoCommand) (o : option (SdoClientConnection * list SdoCommand)) :
    option (SdoClientConnection * list SdoCommand) :=
  match o with None => None | Some (c, l) => Some (c, cmds ++ l) end.

Lemma prepend_prepend l1 l2 o : prepend l1 (prepend l2 o) = prepend (l1 ++ l2) o.
Proof. destruct o as [[c l]|]; [|done]. simpl. by rewrite app_assoc. Qed.

(** A connection that has a transfer to send, or is in the middle of one. *)
Definition downloading c : Prop :=
  cc_total_size c = length (cc_data_buffer c) /\
  ((cc_state c = Cli_Established /\ cc_offset c = 0%nat /\ (4 <= cc_total_size c)%nat) \/
   (cc_state c = Cli_DownloadInProgress /\ (0 < cc_offset c < cc_total_size c)%nat)).

Definition segment_of c : SdoCommand :=
  write_segment (cc_transaction_id c)
    (if (cc_offset c =? 0)%nat
     then if (cc_total_size c <=? MAX_CLIENT_PAYLOAD + 4)%nat then Seg_Expedited else Seg_Initiate
     else if (cc_total_size c - cc_offset c <=? MAX_CLIENT_PAYLOAD)%nat then Seg_Complete else Seg_Segment)
    (if (cc_offset c =? 0)%nat then Some (u32 (Z.of_nat (cc_total_size c - 4))) else None)
    (client_chunk c).

Lemma converse_segment c t ts od : at_rest c -> downloading c ->
  let c' := sent_segment c in
  converse confirming od (t :: ts) c =
    prepend [segment_of c]
      (converse confirming od ts
         (if (cc_total_size c <=? cc_offset c')%nat then take_next_entry c' else c')).
Proof.
  intros Hrest [Ht Hd]. cbn [converse].
  assert (Hget : client_get_pending_request c t od = send_download c t od).
  { unfold client_get_pending_request. destruct Hrest as [-> _].
    destruct Hd as [(-> & _ & ?)|[-> _]]; [|done]. destruct (cc_data_buffer c); [simpl in *; lia|done]. }
  rewrite Hget. unfold send_download. rewrite next_download_spec by (done || lia).
  set (c1 := with_state _ _).
  assert (Hr1 : at_rest c1) by done.
  destruct (confirmed c1 t od (data_header c1, segment_of c) Hr1) as (c2 & E2 & Hh); [done..|].
  cbn [fst snd] in Hh. unfold send_request in Hh at 1. cbn [fst] in Hh.
  change (data_header (with_transfer _ _ _ _ _)) with (data_header c1).
  fold (write_segment (cc_transaction_id c) 
     (if (cc_offset c =? 0)%nat
     then if (cc_total_size c <=? MAX_CLIENT_PAYLOAD + 4)%nat then Seg_Expedited else Seg_Initiate
     else if (cc_total_size c - cc_offset c <=? MAX_CLIENT_PAYLOAD)%nat then Seg_Complete else Seg_Segment)
     (if (cc_offset c =? 0)%nat then Some (u32 (Z.of_nat (cc_total_size c - 4))) else None) (client_chunk c)).
  fold (segment_of c). unfold send_request. change (data_header c1) with (data_header c1).
  rewrite Hh. assert (E : accept_response c2 (fst (confirming (data_header c1) (segment_of c)))
    (snd (confirming (data_header c1) (segment_of c))) =
    (if (cc_total_size c <=? cc_offset (sent_segment c))%nat then take_next_entry (sent_segment c)
     else sent_segment c)).
  { subst c2. reflexivity. }
  rewrite E. by destruct (converse _ _ _ _) as [[? ?]|].
Qed.

Lemma sent_segment_rest c : at_rest c -> at_rest (sent_segment c).
Proof. intros. split_and!; [done|apply next_seq_ok..]. Qed.

Lemma length_client_chunk c :
  length (client_chunk c) = Nat.min MAX_CLIENT_PAYLOAD (length (cc_data_buffer c) - cc_offset c).
Proof. unfold client_chunk. by rewrite length_take, length_drop. Qed.

(** The end of a transfer: all of the buffer sent. *)
Definition transferred c c' : Prop :=
  at_rest c' /\ cc_state c' = Cli_DownloadInProgress /\ cc_offset c' = cc_total_size c' /\
  cc_total_size c' = cc_total_size c /\ cc_transaction_id c' = cc_transaction_id c /\
  current_job c' = current_job c.

Lemma converse_later fuel : forall c ts1 ts2 od, at_rest c -> cc_state c = Cli_DownloadInProgress ->
  cc_total_size c = length (cc_data_buffer c) -> (0 < cc_offset c < cc_total_size c)%nat ->
  (cc_total_size c - cc_offset c <= fuel)%nat ->
  let segs := later_segments fuel (cc_transaction_id c) (drop (cc_offset c) (cc_data_buffer c)) in
  length ts1 = length segs ->
  exists c', transferred c c' /\
    converse confirming od (ts1 ++ ts2) c = prepend segs (converse confirming od ts2 (take_next_entry c')).
Proof.
  induction fuel as [|fuel IH]; intros c ts1 ts2 od Hrest Hst Ht Ho Hf; [lia|].
  cbn [later_segments]. rewrite length_drop.
  pose proof (sent_segment_rest c Hrest) as Hrest'. pose proof (length_client_chunk c) as Hch.
  assert (Hd : downloading c) by (split; auto).
  assert (E0 : (cc_offset c =? 0)%nat = false) by (apply Nat.eqb_neq; lia).
  assert (Hseg : segment_of c = write_segment (cc_transaction_id c)
    (if (length (cc_data_buffer c) - cc_offset c <=? MAX_CLIENT_PAYLOAD)%nat then Seg_Complete else Seg_Segment)
    None (client_chunk c)) by (unfold segment_of; by rewrite E0, Ht).
  destruct (Nat.leb_spec (length (cc_data_buffer c) - cc_offset c) MAX_CLIENT_PAYLOAD) as [Hl|Hl];
    cbn zeta; cbn [length]; intros Hts; (destruct ts1 as [|t ts1]; [done|]); cbn [app];
    rewrite converse_segment, Hseg by done;
    change (cc_offset (sent_segment c)) with (cc_offset c + length (client_chunk c))%nat.
  - destruct ts1; [|done]. rewrite (proj2 (Nat.leb_le _ _)) by lia.
    exists (sent_segment c). split.
    + split_and!; try done; try apply next_seq_ok. cbn [cc_offset cc_total_size sent_segment]. lia.
    + cbn [app]. do 3 f_equal. unfold client_chunk. apply take_ge. rewrite length_drop. lia.
  - rewrite (proj2 (Nat.leb_gt _ _)) by lia.
    destruct (IH (sent_segment c) ts1 ts2 od) as (c' & Htr & E); try done.
    + cbn [cc_offset cc_total_size sent_segment]. unfold MAX_CLIENT_PAYLOAD in *. lia.
    + cbn [cc_offset cc_total_size sent_segment]. unfold MAX_CLIENT_PAYLOAD in *. lia.
    + cbn [cc_offset cc_data_buffer cc_transaction_id sent_segment]. injection Hts as ->.
      by rewrite drop_drop, Hch, Nat.min_l by lia.
    + exists c'. split; [done|]. rewrite E, prepend_prepend.
      cbn [cc_offset cc_data_buffer cc_transaction_id sent_segment app].
      rewrite drop_drop, Hch, Nat.min_l by lia. done.
Qed.

Lemma converse_transfer c ts1 ts2 od : at_rest c -> cc_state c = Cli_Established ->
  cc_offset c = 0%nat -> cc_total_size c = length (cc_data_buffer c) -> (4 <= cc_total_size c)%nat ->
  let segs := download_segments (cc_transaction_id c) (cc_data_buffer c) in
  length ts1 = length segs ->
  exists c', transferred c c' /\
    converse confirming od (ts1 ++ ts2) c = prepend segs (converse confirming od ts2 (take_next_entry c')).
Proof.
  intros Hrest Hst Ho Ht H4. unfold download_segments. cbn zeta. cbn [length]. intros Hts.
  destruct ts1 as [|t ts1]; [done|]. injection Hts as Hts. cbn [app].
  pose proof (sent_segment_rest c Hrest) as Hrest'. pose proof (length_client_chunk c) as Hch.
  assert (Hd : downloading c) by (split; auto).
  rewrite converse_segment by done. unfold segment_of. rewrite Ho, Ht. cbn [Nat.eqb].
  assert (Hc : client_chunk c = take MAX_CLIENT_PAYLOAD (cc_data_buffer c))
    by (unfold client_chunk; by rewrite Ho).
  rewrite Hc. change (cc_offset (sent_segment c)) with (cc_offset c + length (client_chunk c))%nat.
  rewrite Ho in *. cbn [Nat.add].
  destruct (Nat.leb_spec (length (cc_data_buffer c)) MAX_CLIENT_PAYLOAD) as [Hl|Hl].
  - destruct ts1; [|done]. rewrite (proj2 (Nat.leb_le _ (length (client_chunk c)))) by lia.
    exists (sent_segment c). split; [|done].
    split_and!; try done; try apply next_seq_ok. cbn [cc_offset cc_total_size sent_segment]. lia.
  - rewrite (proj2 (Nat.leb_gt _ (length (client_chunk c)))) by lia.
    assert (Hm : length (client_chunk c) = MAX_CLIENT_PAYLOAD) by lia.
    assert (Ho' : cc_offset (sent_segment c) = MAX_CLIENT_PAYLOAD)
      by (cbn [cc_offset sent_segment]; by rewrite Ho).
    destruct (converse_later (length (cc_data_buffer c)) (sent_segment c) ts1 ts2 od)
      as (c' & Htr & E); try done; rewrite ?Ho'; cbn [cc_total_size cc_data_buffer sent_segment
        cc_transaction_id]; try (unfold MAX_CLIENT_PAYLOAD in *; lia).
    exists c'. split; [done|].
    rewrite E, prepend_prepend, Ho'. done.
Qed.

(** The job is about to take the entries [es]. *)
Definition job_at (es : list DcfEntry) (rest : bytes) c : Prop :=
  exists data offset, current_job c = Some (ConciseDcf data offset (len es)) /\
    drop offset data = encode_entries es ++ rest.

Lemma drop_eq_slice {A} (l pre mid post : list A) off a b :
  drop off l = pre ++ mid ++ post -> a = (off + length pre)%nat -> b = (a + length mid)%nat ->
  slice l a b = mid.
Proof.
  intros E -> ->. unfold slice.
  replace (off + length pre + length mid - (off + length pre))%nat with (length mid) by lia.
  rewrite <- drop_drop, E, drop_app_length. apply take_app_length.
Qed.

Lemma drop_eq_length {A} (l r : list A) off : drop off l = r -> r <> [] ->
  length l = (off + length r)%nat.
Proof.
  intros <- Hr. rewrite length_drop. destruct (decide (off <= length l)%nat); [lia|].
  destruct Hr. apply drop_ge. lia.
Qed.

Lemma prepare_entry e es rest c : dcf_entry_ok e -> job_at (e :: es) rest c ->
  exists job,
    prepare_next_job_command c =
      (with_job (Some job) (with_transfer (next_tid (cc_transaction_id c)) (entry_payload e) 0
         (length (entry_payload e)) c), true) /\
    job_at es rest (with_job (Some job) c).
Proof.
  intros (Hi & Hs & Hv) (data & offset & Hj & Hd). unfold prepare_next_job_command. rewrite Hj.
  cbn [job_data job_offset entries_remaining].
  unfold encode_entries in Hd. cbn [fmap list_fmap concat] in Hd. fold (encode_entries es) in Hd.
  unfold encode_entry in Hd. rewrite <- !app_assoc in Hd.
  set (R := encode_entries es ++ rest) in *.
  pose proof (drop_eq_length _ _ _ Hd) as Hlen. specialize (Hlen ltac:(by destruct (dcf_index e))).
  rewrite !length_app, !length_le_bytes in Hlen. cbn [length] in Hlen.
  rewrite (proj2 (Z.eqb_neq _ 0)) by (unfold len; cbn; lia).
  rewrite nat_ltb_false by lia.
  rewrite (drop_eq_slice data [] (le_bytes 2 (dcf_index e)) _ offset offset _ Hd)
    by (rewrite ?length_le_bytes; simpl; lia).
  rewrite (byte_at_of_slice data (offset + 2) (dcf_sub_index e))
    by (apply (drop_eq_slice data (le_bytes 2 (dcf_index e)) [dcf_sub_index e] _ offset _ _ Hd);
        rewrite ?length_le_bytes; simpl; lia).
  rewrite (app_assoc (le_bytes 2 _)) in Hd.
  rewrite (drop_eq_slice data _ (le_bytes 4 (len (dcf_value e))) _ offset (offset + 3) _ Hd)
    by (rewrite ?length_app, ?length_le_bytes; simpl; lia).
  rewrite !le_val_le_bytes by done.
  assert (Z.to_nat (len (dcf_value e)) = length (dcf_value e)) as -> by (unfold len; lia).
  rewrite nat_ltb_false by lia.
  rewrite (app_assoc (_ ++ _)) in Hd.
  rewrite (drop_eq_slice data _ (dcf_value e) _ offset (offset + 7) _ Hd)
    by (rewrite ?length_app, ?length_le_bytes; simpl; lia).
  eexists. split; [reflexivity|].
  eexists _, _. split.
  - cbn [current_job with_job]. do 2 f_equal. unfold len. cbn [length]. lia.
  - rewrite (app_assoc (_ ++ _)) in Hd. fold R.
    replace (offset + 7 + length (dcf_value e))%nat with
      (offset + length (((le_bytes 2 (dcf_index e) ++ [dcf_sub_index e]) ++ le_bytes 4 (len (dcf_value e)))
         ++ dcf_value e))%nat by (rewrite !length_app, !length_le_bytes; simpl; lia).
    by rewrite <- drop_drop, Hd, drop_app_length.
Qed.

(** The reference list is what a connection with a loaded transfer sends. *)
Lemma converse_entries es : forall e rest c ts1 ts2 od, Forall dcf_entry_ok es ->
  at_rest c -> cc_state c = Cli_Established -> cc_offset c = 0%nat ->
  cc_total_size c = length (cc_data_buffer c) -> cc_data_buffer c = entry_payload e ->
  job_at es rest c ->
  let cmds := download_segments (cc_transaction_id c) (entry_payload e)
              ++ configuration_commands (cc_transaction_id c) es in
  length ts1 = length cmds ->
  exists c', cc_state c' = Cli_Closed /\ last_sent_command c' = None /\ current_job c' = None /\
    converse confirming od (ts1 ++ ts2) c = Some (c', cmds).
Proof.
  induction es as [|e' es IH]; intros e rest c ts1 ts2 od Hes Hrest Hst Ho Ht Hb Hj cmds Hts.
  all: assert (H4 : (4 <= cc_total_size c)%nat) by (rewrite Ht, Hb; unfold entry_payload;
         rewrite length_app, length_le_bytes; simpl; lia).
  all: rewrite <- (take_drop (length (download_segments (cc_transaction_id c) (entry_payload e))) ts1),
         <- app_assoc.
  all: assert (Hlen : length (take (length (download_segments (cc_transaction_id c) (entry_payload e))) ts1)
         = length (download_segments (cc_transaction_id c) (entry_payload e)))
         by (rewrite length_take; unfold cmds in Hts; rewrite length_app in Hts; lia).
  all: rewrite <- Hb in Hlen at 2; destruct (converse_transfer c _ (drop (length
         (download_segments (cc_transaction_id c) (entry_payload e))) ts1 ++ ts2) od Hrest Hst Ho Ht H4 Hlen)
         as (c1 & (Hr1 & Hs1 & Ho1 & Ht1 & Hid1 & Hj1) & ->).
  all: unfold job_at in Hj; destruct Hj as (data & offset & Hjob & Hdrop).
  - assert (Hn : take_next_entry c1 = with_state Cli_Closed (with_job None c1)).
    { unfold take_next_entry, prepare_next_job_command. by rewrite Hj1, Hjob. }
    rewrite Hn. exists (with_state Cli_Closed (with_job None c1)).
    unfold cmds. rewrite Hb. cbn [configuration_commands]. rewrite app_nil_r.
    split_and!; try done; [by destruct Hr1|].
    destruct (drop _ ts1 ++ ts2); cbn [converse prepend]; [by rewrite app_nil_r|].
    unfold client_get_pending_request. destruct Hr1 as [Hl _].
    change (last_sent_command (with_state Cli_Closed (with_job None c1))) with (last_sent_command c1).
    rewrite Hl. cbn. by rewrite app_nil_r.
  - inversion_clear Hes as [|?? He' Hes'].
    destruct (prepare_entry e' es rest c1 He') as (job & Hp & Hjob').
    { exists data, offset. by rewrite Hj1. }
    unfold take_next_entry. rewrite Hp. destruct Hr1 as (Hl1 & Hq1 & Hq2).
    set (c2 := with_state _ _).
    edestruct (IH e' rest c2 (drop (length (download_segments (cc_transaction_id c) (entry_payload e))) ts1)
                 ts2 od) as (c' & Hc1 & Hc2 & Hc3 & E); try done.
    { unfold c2. cbn [cc_transaction_id with_state with_job with_transfer]. rewrite Hid1.
      rewrite length_drop, Hts. unfold cmds. rewrite length_app. cbn [configuration_commands]. lia. }
    exists c'. split_and!; try done. rewrite E. cbn [prepend]. unfold cmds. rewrite Hb.
    unfold c2. cbn [cc_transaction_id with_state with_job with_transfer configuration_commands].
    by rewrite Hid1.
Qed.

(** The opening handshake. *)
Lemma converse_opening c t ts od : at_rest c -> cc_state c = Cli_Opening ->
  exists c', at_rest c' /\ cc_state c' = Cli_Established /\ cc_data_buffer c' = cc_data_buffer c /\
    cc_offset c' = cc_offset c /\ cc_total_size c' = cc_total_size c /\
    cc_transaction_id c' = cc_transaction_id c /\ current_job c' = current_job c /\
    pending_command c' = pending_command c /\
    converse confirming od (t :: ts) c =
      prepend [opening_command (cc_transaction_id c)] (converse confirming od ts c').
Proof.
  intros Hrest Hst. cbn [converse]. unfold client_get_pending_request.
  pose proof Hrest as (-> & Hs & Hr). rewrite Hst.
  fold (opening_command (cc_transaction_id c)). set (r := (_, opening_command _)).
  destruct (confirmed c t od r Hrest) as (c2 & E2 & Hh); [done..|].
  unfold send_request in Hh |- *. unfold r at 1. cbn [fst] in Hh.
  unfold r in Hh at 2 3 4 5. unfold r in Hh. cbn [fst snd] in Hh. unfold r. rewrite Hh.
  unfold accept_response. subst c2. cbn [cc_state with_received with_timer with_last_sent send_request
    with_send_seq fst]. rewrite Hst. cbn [confirming fst receive_con send_con].
  rewrite !bool_decide_true by done. cbn [andb].
  match goal with |- context [converse confirming od ts ?x] => exists x end.
  split; [|split; [|split; [|split; [|split; [|split; [|split; [|split]]]]]]]; try reflexivity.
  split; [done|split; apply next_seq_ok].
Qed.

(** What starting the job leaves: the first entry loaded, the connection opening. *)
Lemma start_dcf_spec c e es rest tid t od : cc_is_idle c = true -> last_sent_command c = None ->
  Forall dcf_entry_ok (e :: es) -> in_width 32 (len (e :: es)) ->
  exists c1, start_concise_dcf_job c (encode_dcf (e :: es) ++ rest) tid t od = (c1, Ok tt) /\
    at_rest c1 /\ cc_state c1 = Cli_Opening /\ cc_offset c1 = 0%nat /\
    cc_data_buffer c1 = entry_payload e /\ cc_total_size c1 = length (entry_payload e) /\
    cc_transaction_id c1 = next_tid tid /\ job_at es rest c1.
Proof.
  intros Hi Hl Hes Hn. unfold start_concise_dcf_job, encode_dcf. rewrite Hi. cbn [negb].
  rewrite <- app_assoc. rewrite nat_ltb_false by (rewrite length_app, length_le_bytes; lia).
  assert (slice (le_bytes 4 (len (e :: es)) ++ encode_entries (e :: es) ++ rest) 0 4 = le_bytes 4 (len (e :: es)))
    as -> by done.
  rewrite le_val_le_bytes by done. set (c0 := open_connection _ _ _ _ _ _ _).
  inversion_clear Hes as [|?? He Hes'].
  destruct (prepare_entry e es rest c0 He) as (job & Hp & data & offset & Hj & Hd).
  { eexists _, _. split; [reflexivity|]. done. }
  rewrite Hp. eexists. split; [reflexivity|]. cbn [fst]. split_and!; try done.
  eexists _, _. split; [exact Hj|exact Hd].
Qed.
End Converse.

Lemma later_segments_payload fuel : forall tid rest, (length rest <= fuel)%nat -> rest <> [] ->
  concat (payload <$> later_segments fuel tid rest) = rest.
Proof.
  induction fuel as [|fuel IH]; intros tid rest Hf Hr; [destruct rest; simpl in *; [done|lia]|].
  cbn [later_segments]. destruct (Nat.leb_spec (length rest) MAX_CLIENT_PAYLOAD).
  - cbn. by rewrite app_nil_r.
  - cbn [fmap list_fmap concat write_segment payload]. unfold MAX_CLIENT_PAYLOAD in *.
    rewrite IH; [apply take_drop|rewrite length_drop; lia|].
    intros E%(f_equal length). rewrite length_drop in E. simpl in E. lia.
Qed.

Lemma download_segments_payload tid pl : concat (payload <$> download_segments tid pl) = pl.
Proof.
  unfold download_segments. cbn [fmap list_fmap concat payload write_segment].
  destruct (Nat.leb_spec (length pl) MAX_CLIENT_PAYLOAD).
  - cbn. by rewrite app_nil_r, take_ge.
  - rewrite later_segments_payload; [apply take_drop|rewrite length_drop; lia|].
    intros E%(f_equal length). rewrite length_drop in E. simpl in E. lia.
Qed.

Lemma configuration_payload es : forall tid,
  concat (payload <$> configuration_commands tid es) = concat (entry_payload <$> es).
Proof.
  induction es as [|e es IH]; intros tid; [done|]. cbn [configuration_commands].
  rewrite fmap_app, concat_app, IH. by rewrite download_segments_payload.
Qed.

(** The driver loop of the DCF and the reference list. *)
Lemma dcf_dialogue {S} (od : ObjectDictionary S) c e es rest tid t ts :
  cc_is_idle c = true -> last_sent_command c = None ->
  Forall dcf_entry_ok (e :: es) -> in_width 32 (len (e :: es)) ->
  let cmds := opening_command (next_tid tid) :: configuration_commands tid (e :: es) in
  (length cmds <= length ts)%nat ->
  exists c1 c', start_concise_dcf_job c (encode_dcf (e :: es) ++ rest) tid t od = (c1, Ok tt) /\
    converse confirming od ts c1 = Some (c', cmds) /\ cc_state c' = Cli_Closed /\
    last_sent_command c' = None /\ current_job c' = None.
Proof.
  intros Hi Hl Hes Hn cmds Hts.
  destruct (start_dcf_spec c e es rest tid t od Hi Hl Hes Hn)
    as (c1 & Hstart & Hrest & Hst & Ho & Hb & Ht & Hid & data & offset & Hj & Hd).
  destruct ts as [|t1 ts]; [simpl in Hts; lia|].
  destruct (converse_opening c1 t1 ts od Hrest Hst)
    as (c2 & Hrest2 & Hst2 & Hb2 & Ho2 & Ht2 & Hid2 & Hj2 & _ & E2).
  rewrite <- (take_drop (length (configuration_commands tid (e :: es))) ts) in E2 at 2.
  inversion_clear Hes as [|?? He Hes'].
  destruct (converse_entries es e rest c2 (take (length (configuration_commands tid (e :: es))) ts)
    (drop (length (configuration_commands tid (e :: es))) ts) od) as (c' & Hc1 & Hc2 & Hc3 & E); try done.
  - congruence.
  - by rewrite Ht2, Hb2, Ht, Hb.
  - by rewrite Hb2.
  - exists data, offset. by rewrite Hj2.
  - rewrite Hid2, Hid. cbn [configuration_commands] in *.
    rewrite length_take. unfold cmds in Hts. cbn [length] in Hts. lia.
  - exists c1, c'. split; [done|]. split; [|done]. rewrite E2, E, Hid2, Hid. done.
Qed.

(** ** Properties *)

(** A configuration of two entries, the second too long for one segment. *)
Definition demo_dcf : list DcfEntry :=
  [mkDcfEntry 0x1006 0 [0x10; 0x27; 0; 0]; mkDcfEntry 0x2100 1 (replicate (Z.to_nat 3000) 9)].
Definition demo_idle : SdoClientConnection := SdoClientConnection_new 5.

(** C14: Against a server that confirms every frame, a configuration download over an idle
    connection sends exactly the reference sequence: the opening frame, then for each entry of
    the Concise DCF, in order, its write cut into segments of at most 1452 octets, whose
    payloads together are the index, sub-index and data of the entry.  It then closes the
    connection and drops the job; the code walks the encoded buffer with a cursor, the reference
    is defined on the entries. *)
Theorem configuration_download_reference {S} (od : ObjectDictionary S) c e es rest tid t ts :
  cc_is_idle c = true -> last_sent_command c = None ->
  Forall dcf_entry_ok (e :: es) -> in_width 32 (len (e :: es)) ->
  let cmds := opening_command (next_tid tid) :: configuration_commands tid (e :: es) in
  (length cmds <= length ts)%nat ->
  exists c1 c', start_concise_dcf_job c (encode_dcf (e :: es) ++ rest) tid t od = (c1, Ok tt) /\
    converse confirming od ts c1 = Some (c', cmds) /\
    cc_is_closed c' = true /\ current_job c' = None /\
    concat (payload <$> cmds) = concat (entry_payload <$> (e :: es)).
Proof.
  intros Hi Hl Hes Hn cmds Hts.
  destruct (dcf_dialogue od c e es rest tid t ts Hi Hl Hes Hn Hts) as (c1 & c' & Hs & E & Hc & _ & Hj).
  exists c1, c'. split_and!; try done.
  - unfold cc_is_closed. by rewrite Hc.
  - unfold cmds. rewrite fmap_cons. cbn [concat opening_command payload app]. apply configuration_payload.
Qed.

Lemma configuration_download_reference_witness :
  exists c1 c', start_concise_dcf_job demo_idle (encode_dcf demo_dcf ++ []) 1 0 demo_sdo_od = (c1, Ok tt) /\
    converse confirming demo_sdo_od [1; 2; 3; 4; 5; 6] c1 =
      Some (c', opening_command 2 :: configuration_commands 1 demo_dcf) /\
    cc_is_closed c' = true /\ current_job c' = None /\
    concat (payload <$> opening_command 2 :: configuration_commands 1 demo_dcf) =
      concat (entry_payload <$> demo_dcf).
Proof.
  apply (configuration_download_reference demo_sdo_od demo_idle (mkDcfEntry 0x1006 0 [0x10; 0x27; 0; 0])
           [mkDcfEntry 0x2100 1 (replicate (Z.to_nat 3000) 9)] [] 1 0 [1; 2; 3; 4; 5; 6]).
  - reflexivity.
  - reflexivity.
  - repeat constructor; unfold in_width, len; try (vm_compute; congruence).
  - unfold in_width, len; simpl; lia.
  - apply Nat.leb_le. vm_compute. reflexivity.
Defined.

(** What may happen to a connection: the jobs of the application, the poll for
    a frame to send, a frame of the server, the timer, and any change of the
    dictionary the time-outs are read from. *)
Inductive ClientOp (S : Type) : Type :=
| COp_dcf (data : bytes) (tid t : Z) | COp_read (index sub tid t : Z)
| COp_write (index sub : Z) (data : bytes) (tid t : Z) | COp_poll (t : Z)
| COp_response (sq : SequenceLayerHeader) (cmd : SdoCommand) | COp_timer (t : Z)
| COp_dictionary (od : ObjectDictionary S).
Arguments COp_dcf {S} data tid t.
Arguments COp_read {S} index sub tid t.
Arguments COp_write {S} index sub data tid t.
Arguments COp_poll {S} t.
Arguments COp_response {S} sq cmd.
Arguments COp_timer {S} t.
Arguments COp_dictionary {S} od.

(** One operation; [None] when the code panics. *)
Definition client_step {S} (s : SdoClientConnection * ObjectDictionary S) (op : ClientOp S)
    : option (SdoClientConnection * ObjectDictionary S) :=
  let '(c, od) := s in
  match op with
  | COp_dcf data tid t => Some (fst (start_concise_dcf_job c data tid t od), od)
  | COp_read i j tid t => Some (fst (start_read_job c i j tid t od), od)
  | COp_write i j data tid t => Some (fst (start_write_job c i j data tid t od), od)
  | COp_poll t => match client_get_pending_request c t od with Some (c, _) => Some (c, od) | None => None end
  | COp_response sq cmd => match handle_response c sq cmd with Some c => Some (c, od) | None => None end
  | COp_timer t => Some (fst (client_tick c t od), od)
  | COp_dictionary od => Some (c, od)
  end.
Fixpoint client_run {S} (s : SdoClientConnection * ObjectDictionary S) (ops : list (ClientOp S))
    : option (SdoClientConnection * ObjectDictionary S) :=
  match ops with
  | [] => Some s
  | op :: ops => match client_step s op with Some s => client_run s ops | None => None end
  end.
(** The frames a server can send: their numbers come from six bits. *)
Definition op_ok {S} (op : ClientOp S) : Prop :=
  match op with COp_response sq _ => seq_header_ok sq | _ => True end.
(** An abort without a complete code. *)
Definition short_abort {S} (op : ClientOp S) : Prop :=
  match op with
  | COp_response _ cmd => is_aborted (cmd_header cmd) = true /\ (length (payload cmd) < 4)%nat
  | _ => False
  end.

Lemma client_step_wf {S} (c : SdoClientConnection) (od : ObjectDictionary S) op c' od' :
  conn_wf c -> op_ok op -> client_step (c, od) op = Some (c', od') -> conn_wf c'.
Proof.
  intros Hw Hop. destruct op; simpl; intros E; simplify_eq.
  - by apply start_jobs_wf.
  - by apply start_jobs_wf.
  - by apply start_jobs_wf.
  - destruct (get_pending_wf c t od Hw) as (c2 & r & E2 & Hw2). rewrite E2 in E. by simplify_eq.
  - destruct (handle_response c sq cmd) eqn:E2; simplify_eq. by eapply client_response_wf.
  - by apply client_tick_wf.
  - done.
Qed.

Lemma client_run_wf {S} ops : forall (c : SdoClientConnection) (od : ObjectDictionary S) c' od',
  conn_wf c -> Forall op_ok ops -> client_run (c, od) ops = Some (c', od') -> conn_wf c'.
Proof.
  induction ops as [|op ops IH]; intros c od c' od' Hw Hops; cbn [client_run]; [intros; by simplify_eq|].
  inversion_clear Hops as [|?? Hop Hops'].
  destruct (client_step (c, od) op) as [[c1 od1]|] eqn:E; [|done].
  intros Hr. eapply IH; [exact (client_step_wf c od op c1 od1 Hw Hop E)|done|exact Hr].
Qed.

Lemma client_step_total {S} (c : SdoClientConnection) (od : ObjectDictionary S) op :
  conn_wf c -> ~ short_abort op -> exists s, client_step (c, od) op = Some s.
Proof.
  intros Hw Hop. destruct op; simpl; try by eexists.
  - destruct (get_pending_wf c t od Hw) as (c2 & r & -> & _). by eexists.
  - unfold handle_response. destruct (last_sent_command c) as [[lseq lcmd]|]; [|by eexists].
    repeat case_if; try by eexists. destruct Hop. split; [done|by apply Nat.ltb_lt].
Qed.

(** C32: Whatever jobs are started, frames received and times polled, a client connection
    never cuts a segment outside its buffer, and no operation on it panics but the reception of
    an abort whose payload has fewer than four octets; it waits for the answer of a frame before
    it sends the next, and its sequence numbers stay below 64. *)
Theorem client_connection_invariant {S} (od0 : ObjectDictionary S) target ops c od op t :
  Forall op_ok ops -> client_run (SdoClientConnection_new target, od0) ops = Some (c, od) ->
  (short_abort op \/ exists s, client_step (c, od) op = Some s) /\
  (exists c' r, client_get_pending_request c t od = Some (c', r) /\
     (last_sent_command c <> None -> c' = c /\ r = None)) /\
  0 <= cc_send_sequence_number c < 64 /\ 0 <= cc_last_received c < 64 /\
  (cc_state c = Cli_DownloadInProgress -> (cc_offset c <= length (cc_data_buffer c))%nat).
Proof.
  intros Hops Hr. assert (Hw : conn_wf c).
  { eapply client_run_wf; [|exact Hops|exact Hr]. unfold conn_wf, seq_ok. simpl. lia. }
  pose proof Hw as (Hs & Hl & Hst). split_and!.
  - destruct op as [| | | |sq cmd| |]; try (right; apply client_step_total; [done|by intros []]).
    destruct (is_aborted (cmd_header cmd)) eqn:Ea, (decide (length (payload cmd) < 4)%nat); try (by left);
      right; apply client_step_total; simpl; try done; intros [? ?]; (congruence || lia).
  - destruct (get_pending_wf c t od Hw) as (c' & r & E & _). exists c', r. split; [done|].
    unfold client_get_pending_request in E. destruct (last_sent_command c); by simplify_eq.
  - by apply Hs.
  - by apply Hs.
  - by apply Hl.
  - by apply Hl.
  - intros E. rewrite E in Hst. lia.
Qed.

Definition demo_small_od : ObjectDictionary MemStorage := mkOD ∅ None.
Definition demo_client_ops : list (ClientOp MemStorage) :=
  [COp_write 0x6000 2 [0xFE] 7 0; COp_poll 10;
   COp_response (mkSeqHeader 0 Rcon_Initialization 0 Scon_Initialization) nil_command].
Definition demo_open : SdoClientConnection :=
  Eval vm_compute in
  match client_run (demo_idle, demo_small_od) demo_client_ops with Some (c, _) => c | None => demo_idle end.

Lemma client_connection_invariant_witness :
  client_run (demo_idle, demo_small_od) demo_client_ops = Some (demo_open, demo_small_od) /\
  (short_abort (S := MemStorage) (COp_poll 20) \/
     exists s, client_step (demo_open, demo_small_od) (COp_poll 20) = Some s) /\
  (exists c' r, client_get_pending_request demo_open 20 demo_small_od = Some (c', r) /\
     (last_sent_command demo_open <> None -> c' = demo_open /\ r = None)) /\
  0 <= cc_send_sequence_number demo_open < 64 /\ 0 <= cc_last_received demo_open < 64 /\
  (cc_state demo_open = Cli_DownloadInProgress ->
     (cc_offset demo_open <= length (cc_data_buffer demo_open))%nat).
Proof.
  split; [vm_compute; reflexivity|].
  apply (client_connection_invariant demo_small_od 5 demo_client_ops).
  - repeat apply Forall_cons_2; done.
  - vm_compute. reflexivity.
Defined.
