(* ===== verification/SdoExchange.v ===== *)
(** * Client against server

    The connection of [sdo/client_connection.rs] (SdoClient.v) talking to the
    connection of [sdo/sequence_handler.rs] (SdoServer.v): each frame of the
    client, in its wire form, is handed to the server, and each answer of the
    server to the client. *)
From S2P Require Import Prelude Utf8 Types ErrorEntry ObjectDict SdoCodec SdoServer SdoClient.

(** The sequence and command layers of a frame. *)
Definition request_frame (r : Request) : bytes := seq_wire (fst r) ++ cmd_wire (snd r).

Section Link.
Context {S H : Type} `{ST : ObjectDictionaryStorage S} `{!SdoCommandHandler H S}.
Implicit Types (c : SdoClientConnection) (h : SdoSequenceHandler) (ch : H) (od : ObjectDictionary S).

(** A frame that opens a connection, on a closed one. *)
Lemma server_opens h ch od t sq tid : sh_state h = Srv_Closed -> seq_header_ok sq -> byte_ok tid ->
  send_con sq = Scon_Initialization -> receive_con sq = Rcon_NoConnection ->
  exists h' r, handle_request h ch (request_frame (sq, opening_command tid)) od t = (h', ch, od, Ok r) /\
    sh_state h' = Srv_Opening /\ sh_send_sequence_number h' = 0 /\
    last_received_sequence_number h' = send_sequence_number sq /\ client_info h' = client_info h /\
    seq_header r = mkSeqHeader (send_sequence_number sq) Rcon_Initialization 0 Scon_Initialization /\
    rd_command r = ack (mkCmdHeader tid true false Seg_Expedited Cid_Nil 0).
Proof.
  intros Hst Hsq Htid Hscon Hrcon. unfold handle_request, request_frame. cbn [fst snd].
  rewrite nat_ltb_false by (rewrite length_app; simpl; lia).
  change (slice (seq_wire sq ++ _) 0 4) with (seq_wire sq).
  change (drop 4 (seq_wire sq ++ cmd_wire (opening_command tid))) with (cmd_wire (opening_command tid)).
  rewrite <- (app_nil_r (seq_wire _)), seq_deserialize_wire by done. rewrite Hrcon, bool_decide_false by done.
  unfold process_sequence_layer. rewrite Hst, Hscon, bool_decide_true by done.
  replace (match cmd_wire (opening_command tid) with [] => _ | _ :: _ => _ end)
    with (handle_command (set_last_received (set_send_seq (set_state h Srv_Opening) 0) (send_sequence_number sq)) ch
      (mkSeqHeader (send_sequence_number sq) Rcon_Initialization 0 Scon_Initialization)
      (cmd_wire (opening_command tid)) od t) by done.
  unfold handle_command. rewrite <- (app_nil_r (cmd_wire _)), cmd_deserialize_wire by done.
  eexists _, _. split; [reflexivity|]. split_and!; reflexivity.
Qed.

(** The first frame of a transfer, on a connection the server has just opened. *)
Lemma server_refuses h ch od t sq cmd : sh_state h = Srv_Opening -> seq_header_ok sq ->
  send_con sq = Scon_ConnectionValidAckRequest -> receive_con sq = Rcon_ConnectionValid ->
  handle_request h ch (request_frame (sq, cmd)) od t =
    (set_state h Srv_Closed, ch, od,
     Err (SdoSequenceError "Invalid sequence state during SDO opening.")).
Proof.
  intros Hst Hsq Hscon Hrcon. unfold handle_request, request_frame. cbn [fst snd].
  rewrite nat_ltb_false by (rewrite length_app; simpl; lia).
  change (slice (seq_wire sq ++ _) 0 4) with (seq_wire sq).
  rewrite <- (app_nil_r (seq_wire sq)) at 1. rewrite seq_deserialize_wire by done.
  rewrite Hrcon, bool_decide_false by done.
  unfold process_sequence_layer. rewrite Hst, Hscon, bool_decide_false by done. reflexivity.
Qed.

(** A write on a connection that is closed: it is carried out all the same. *)
Lemma server_closed_write h ch od t sq cmd tid i s d : sh_state h = Srv_Closed -> seq_header_ok sq ->
  send_con sq = Scon_ConnectionValidAckRequest -> receive_con sq = Rcon_ConnectionValid ->
  cmd_wire cmd = cmd_wire (write_request tid i s d) -> byte_ok tid -> 4 + len d < 2 ^ 16 ->
  in_width 16 i -> 0 <= s -> is_command i = false -> is_pdo_mapping_index0 i s = false ->
  exists h' od' r, handle_request h ch (request_frame (sq, cmd)) od t = (h', ch, od', Ok r) /\
    sh_state h' = Srv_Closed /\
    receive_sequence_number (seq_header r) = last_received_sequence_number h' /\
    (h' = h \/ h' = SdoSequenceHandler_reset h) /\
    match sdo_write_verdict od i s d with
    | Ok v => write_effect od od' i s v
    | Err code => entries od' = entries od
    end.
Proof.
  intros Hst Hsq Hscon Hrcon Hcmd Ht Hl Hi Hs Hc Hm. unfold handle_request, request_frame. cbn [fst snd].
  rewrite nat_ltb_false by (rewrite length_app; simpl; lia).
  change (slice (seq_wire sq ++ _) 0 4) with (seq_wire sq).
  change (drop 4 (seq_wire sq ++ cmd_wire cmd)) with (cmd_wire cmd).
  rewrite <- (app_nil_r (seq_wire _)), seq_deserialize_wire by done. rewrite Hrcon, bool_decide_false by done.
  unfold process_sequence_layer. rewrite Hst, Hscon, bool_decide_false by done. rewrite Hcmd.
  set (rh := mkSeqHeader _ Rcon_NoConnection _ _).
  replace (match cmd_wire (write_request tid i s d) with [] => _ | _ :: _ => _ end)
    with (handle_command h ch rh (cmd_wire (write_request tid i s d)) od t) by done.
  unfold handle_command.
  rewrite <- (app_nil_r (cmd_wire _)), cmd_deserialize_wire by (by apply write_request_ok).
  destruct (process_write h ch od tid i s d t) as (h1 & od' & c & Hp & Hv); try done; [by rewrite Hst|].
  rewrite Hp. assert (Hclosed : set_state h Srv_Closed = h) by (destruct h; simpl in *; by subst).
  destruct (sdo_write_verdict od i s d); destruct Hv as (-> & -> & He);
    (eexists _, od', _; split; [reflexivity|]); rewrite ?Hst.
  - rewrite !bool_decide_false, !bool_decide_true by done. cbn [orb negb andb cmd_header ack segmentation].
    rewrite Hclosed. split_and!; try done. by left.
  - rewrite !bool_decide_false, !bool_decide_true by done. cbn [orb negb andb cmd_header ack segmentation].
    split_and!; try done. by right.
Qed.

(** The client's retransmissions. *)
Lemma client_ignores c lseq lcmd sq cmd : last_sent_command c = Some (lseq, lcmd) ->
  receive_sequence_number sq <> send_sequence_number lseq -> handle_response c sq cmd = Some c.
Proof. intros Hl Hn. unfold handle_response. rewrite Hl. by rewrite (proj2 (Z.eqb_neq _ _) Hn). Qed.

(** The state of both ends. *)
Abbreviation LinkState := (SdoClientConnection * SdoSequenceHandler * H * ObjectDictionary S)%type.

(** A frame of the client reaches the server and the answer, if any, the client. *)
Definition deliver (c : SdoClientConnection) (h : SdoSequenceHandler) (ch : H)
    (od : ObjectDictionary S) (t : Z) (r : Request) : option LinkState :=
  let '(h, ch, od, resp) := handle_request h ch (request_frame r) od t in
  match resp with
  | Err _ => Some (c, h, ch, od)
  | Ok resp =>
      match handle_response c (seq_header resp) (rd_command resp) with
      | Some c => Some (c, h, ch, od)
      | None => None
      end
  end.

(** The client is polled ([cod] is its own dictionary), or its timer runs. *)
Definition poll_step (cod : ObjectDictionary S) (t : Z) (s : LinkState) : option (LinkState * option Request) :=
  let '(c, h, ch, od) := s in
  match client_get_pending_request c t cod with
  | None => None
  | Some (c, None) => Some ((c, h, ch, od), None)
  | Some (c, Some r) =>
      match deliver c h ch od t r with Some s => Some (s, Some r) | None => None end
  end.
Definition timer_step (cod : ObjectDictionary S) (t : Z) (s : LinkState) : option (LinkState * option Request) :=
  let '(c, h, ch, od) := s in
  match client_tick c t cod with
  | (c, None) => Some ((c, h, ch, od), None)
  | (c, Some r) =>
      match deliver c h ch od t r with Some s => Some (s, Some r) | None => None end
  end.
Fixpoint timer_run (cod : ObjectDictionary S) (ts : list Z) (s : LinkState)
    : option (LinkState * list (option Request)) :=
  match ts with
  | [] => Some (s, [])
  | t :: ts =>
      match timer_step cod t s with
      | None => None
      | Some (s, r) =>
          match timer_run cod ts s with Some (s, rs) => Some (s, r :: rs) | None => None end
      end
  end.

(** A client waiting for the answer to a write, and a server that has closed
    the connection under it. *)
Definition waiting_write (r : Request) (tid i s : Z) (d : bytes) c : Prop :=
  last_sent_command c = Some r /\ seq_header_ok (fst r) /\ send_sequence_number (fst r) = 1 /\
  send_con (fst r) = Scon_ConnectionValidAckRequest /\ receive_con (fst r) = Rcon_ConnectionValid /\
  cmd_wire (snd r) = cmd_wire (write_request tid i s d).
Definition shut h : Prop :=
  sh_state h = Srv_Closed /\ last_received_sequence_number h <> 1.

(** One retransmission. *)
Lemma retransmit_step cod t c h ch od r tid i s d deadline :
  waiting_write r tid i s d c -> shut h -> byte_ok tid -> 4 + len d < 2 ^ 16 -> in_width 16 i -> 0 <= s ->
  is_command i = false -> is_pdo_mapping_index0 i s = false ->
  cc_deadline_us c = Some deadline -> deadline <= t -> 0 < retries_left c ->
  exists h' od',
    timer_step cod t (c, h, ch, od) =
      Some ((with_timer (Some (sdo_deadline cod t)) (retries_left c - 1) c, h', ch, od'), Some r) /\
    shut h' /\
    match sdo_write_verdict od i s d with
    | Ok v => write_effect od od' i s v
    | Err code => entries od' = entries od
    end.
Proof.
  intros (Hl & Hsq & Hn & Hscon & Hrcon & Hw) [Hst Hlast] Ht Hd Hi Hs Hc Hm Hdl Hle Hret.
  destruct r as [sq cmd]. cbn [fst snd] in *.
  destruct (server_closed_write h ch od t sq cmd tid i s d) as (h' & od' & resp & E & Hst' & Hrs & Hh & He);
    try done.
  assert (Hshut : shut h').
  { split; [done|]. destruct Hh as [-> | ->]; [done|]. simpl. lia. }
  exists h', od'. split; [|done]. unfold timer_step, client_tick. rewrite Hdl.
  rewrite (proj2 (Z.ltb_ge _ _) Hle), (proj2 (Z.ltb_lt _ _) Hret).
  rewrite Hl. unfold deliver. rewrite E.
  rewrite (client_ignores (with_timer (Some (sdo_deadline cod t)) (retries_left c - 1) c) sq cmd
             (seq_header resp) (rd_command resp)); [done|done|].
  rewrite Hrs, Hn. apply Hshut.
Qed.

(** The last expiry. *)
Lemma give_up_step cod t c h ch od deadline : cc_deadline_us c = Some deadline -> deadline <= t ->
  retries_left c = 0 ->
  exists h' ch' od', timer_step cod t (c, h, ch, od) =
    Some ((fst (client_abort c 0x05040000), h', ch', od'), Some (snd (client_abort c 0x05040000))).
Proof.
  intros Hdl Hle Hret. unfold timer_step, client_tick. rewrite Hdl.
  rewrite (proj2 (Z.ltb_ge _ _) Hle), Hret. cbn [Z.ltb Z.compare].
  unfold client_abort. cbn [fst snd]. unfold deliver.
  destruct (handle_request h ch _ od t) as [[[h' ch'] od'] [e|resp]]; eexists _, _, _; reflexivity.
Qed.

Lemma timer_run_dead_end cod ts : forall n c h ch od r tid i s d deadline,
  waiting_write r tid i s d c -> shut h -> byte_ok tid -> 4 + len d < 2 ^ 16 -> in_width 16 i -> 0 <= s ->
  is_command i = false -> is_pdo_mapping_index0 i s = false ->
  cc_deadline_us c = Some deadline -> retries_left c = Z.of_nat n ->
  length ts = Datatypes.S n -> overdue cod deadline ts ->
  exists c' h' ch' od',
    timer_run cod ts (c, h, ch, od) =
      Some ((c', h', ch', od'),
            replicate n (Some r) ++ [Some (snd (client_abort c 0x05040000))]) /\
    cc_is_closed c' = true.
Proof.
  induction ts as [|t ts IH]; intros n c h ch od r tid i s d deadline Hw Hsh Ht Hd Hi Hs Hc Hm Hdl Hret Hts Hov;
    [done|].
  destruct Hov as [Hle Hov]. injection Hts as Hts. cbn [timer_run]. destruct n as [|n].
  - destruct ts; [|done].
    destruct (give_up_step cod t c h ch od deadline Hdl Hle Hret) as (h' & ch' & od' & ->).
    eexists _, _, _, _. split; [reflexivity|]. done.
  - destruct (retransmit_step cod t c h ch od r tid i s d deadline Hw Hsh Ht Hd Hi Hs Hc Hm Hdl Hle ltac:(lia))
      as (h' & od' & -> & Hsh' & _).
    destruct (IH n (with_timer (Some (sdo_deadline cod t)) (retries_left c - 1) c) h' ch od' r tid i s d
      (sdo_deadline cod t)) as (c2 & h2 & ch2 & od2 & -> & Hcl); try done.
    { cbn [retries_left with_timer]. lia. }
    eexists _, _, _, _. split; [reflexivity|done].
Qed.
End Link.

(** *** From the start of a write *)
Section Write.
Context {S H : Type} `{ST : ObjectDictionaryStorage S} `{!SdoCommandHandler H S}.
Implicit Types (c : SdoClientConnection) (h : SdoSequenceHandler) (ch : H) (od cod : ObjectDictionary S).

(** The opening exchange succeeds. *)
Lemma opening_exchange c h ch od cod t : at_rest c -> cc_state c = Cli_Opening ->
  cc_send_sequence_number c = 0 -> cc_last_received c = 63 -> byte_ok (cc_transaction_id c) ->
  sh_state h = Srv_Closed ->
  exists c' h' r, poll_step cod t (c, h, ch, od) = Some ((c', h', ch, od), Some r) /\
    at_rest c' /\ cc_state c' = Cli_Established /\ cc_send_sequence_number c' = 1 /\
    cc_last_received c' = 0 /\ cc_data_buffer c' = cc_data_buffer c /\ cc_offset c' = cc_offset c /\
    cc_total_size c' = cc_total_size c /\ cc_transaction_id c' = cc_transaction_id c /\
    sh_state h' = Srv_Opening /\ last_received_sequence_number h' = 0.
Proof.
  intros (Hl & _ & _) Hst Hs Hr Htid Hh. unfold poll_step, client_get_pending_request.
  rewrite Hl, Hst, Hs, Hr. fold (opening_command (cc_transaction_id c)).
  unfold send_request. set (sq := mkSeqHeader 63 _ _ _). set (c1 := with_send_seq _ _).
  destruct (server_opens h ch od t sq (cc_transaction_id c)) as (h' & r & E & Hst' & _ & Hlast & _ & Hrh & Hrc);
    [done|split; simpl; lia|done..|].
  unfold deliver. rewrite E, Hrh, Hrc.
  eexists _, h', _. split.
  { unfold handle_response. cbn [last_sent_command c1 with_send_seq with_last_sent receive_sequence_number
      sq send_sequence_number]. rewrite Z.eqb_refl. cbn [negb].
    cbn [cc_last_received with_last_sent with_timer with_send_seq c1]. rewrite Hr. cbn [Z.eqb].
    change (next_seq 63) with 0. cbn [Z.eqb negb is_aborted cmd_header ack].
    unfold accept_response. cbn [cc_state with_received with_last_sent with_timer with_send_seq c1].
    rewrite Hst. cbn [receive_con send_con]. rewrite !bool_decide_true by done. reflexivity. }
  split; [split; [done|split; cbn; rewrite ?Hs; unfold seq_ok; (lia || apply next_seq_ok)]|].
  unfold c1. cbn. rewrite ?Hs. split_and!; done.
Qed.

(** The wire form of a write the client sends in one frame. *)
Lemma write_segment_wire tid i s d n : 4 + len d < 2 ^ 16 ->
  cmd_wire (write_segment tid Seg_Expedited n (le_bytes 2 i ++ [s; 0] ++ d)) = cmd_wire (write_request tid i s d).
Proof.
  intros Hd. assert (E : u16 (len (le_bytes 2 i ++ [s; 0] ++ d)) = 4 + len d).
  { unfold len in *. rewrite !length_app, length_le_bytes. simpl length.
    unfold u16. rewrite wrap_small; [lia|]. unfold in_width. lia. }
  unfold write_segment. rewrite E. done.
Qed.

(** The write goes out, the server drops it and closes. *)
Lemma transfer_exchange c h ch od cod t tid i s d : at_rest c -> cc_state c = Cli_Established ->
  cc_send_sequence_number c = 1 -> cc_last_received c = 0 ->
  cc_data_buffer c = le_bytes 2 i ++ [s; 0] ++ d -> cc_offset c = 0%nat ->
  cc_total_size c = length (cc_data_buffer c) -> cc_transaction_id c = tid ->
  (4 + length d <= MAX_CLIENT_PAYLOAD)%nat ->
  sh_state h = Srv_Opening -> last_received_sequence_number h = 0 ->
  exists c' r, poll_step cod t (c, h, ch, od) = Some ((c', set_state h Srv_Closed, ch, od), Some r) /\
    waiting_write r tid i s d c' /\ shut (set_state h Srv_Closed) /\
    cc_deadline_us c' = Some (sdo_deadline cod t) /\ retries_left c' = sdo_retries cod.
Proof.
  intros (Hl & _ & _) Hst Hs Hr Hb Ho Htot Htid Hd Hh Hlast. unfold poll_step, client_get_pending_request.
  rewrite Hl, Hst. destruct (cc_data_buffer c) as [|b0 bs] eqn:Eb; [by destruct (le_bytes 2 i)|].
  assert (H4 : cc_total_size c = (4 + length d)%nat).
  { rewrite Htot, Hb, !length_app, length_le_bytes. simpl. lia. }
  unfold send_download. rewrite next_download_spec by (rewrite ?Eb; (done || lia)).
  rewrite Ho. cbn [Nat.eqb]. rewrite (proj2 (Nat.leb_le _ _)) by (unfold MAX_CLIENT_PAYLOAD in *; lia).
  assert (Hch : client_chunk c = le_bytes 2 i ++ [s; 0] ++ d).
  { unfold client_chunk. rewrite Ho, Eb, Hb. cbn [drop]. apply take_ge.
    rewrite !length_app, length_le_bytes. simpl. lia. }
  rewrite Hch. set (c1 := with_state _ _).
  fold (write_segment (cc_transaction_id c) Seg_Expedited (Some (u32 (Z.of_nat (cc_total_size c - 4))))
    (le_bytes 2 i ++ [s; 0] ++ d)).
  set (cmd := write_segment _ _ _ _). change (data_header (with_transfer _ _ _ _ _)) with (data_header c1).
  assert (Hsq : seq_header_ok (data_header c1)).
  { unfold data_header, c1. split; cbn; rewrite ?Hs, ?Hr; lia. }
  unfold send_request, deliver. rewrite server_refuses by done.
  eexists _, _. split; [reflexivity|]. split; [|split; [|done]].
  - split; [done|]. split; [done|]. split; [done|]. split; [done|]. split; [done|].
    unfold cmd. cbn [snd]. rewrite write_segment_wire, Htid; [done|].
    unfold len, MAX_CLIENT_PAYLOAD in *. lia.
  - split; [done|]. cbn. lia.
Qed.
End Write.

(** ** Properties *)

(** C37: A client connection of this crate and a server connection of this crate never get past
    the opening handshake, shown for a write that fits one frame to an object that is neither a
    command nor the count of a PDO mapping: the server takes the first frame of the transfer, which asks for an
    acknowledgement, for a violation of the handshake, answers nothing and closes.  When the
    client times out and sends the frame again the closed server carries the write out, under a
    receive number the client ignores, so that with the retries used up the client reports a
    time-out for a write that has been made. *)
Theorem client_server_dead_end {S H} `{ObjectDictionaryStorage S} `{!SdoCommandHandler H S}
    c0 h0 (ch : H) (od cod : ObjectDictionary S) tid i s d n t0 t1 t2 t3 ts :
  cc_is_idle c0 = true -> last_sent_command c0 = None -> sh_state h0 = Srv_Closed ->
  byte_ok tid -> in_width 16 i -> 0 <= s -> (4 + length d <= MAX_CLIENT_PAYLOAD)%nat ->
  is_command i = false -> is_pdo_mapping_index0 i s = false ->
  sdo_retries cod = Z.of_nat (Datatypes.S n) -> length ts = Datatypes.S n ->
  overdue cod (sdo_deadline cod t2) (t3 :: ts) ->
  exists c1 s2 r1 c2 h2 r2 h3 od3 s4 a,
    start_write_job c0 i s d tid t0 cod = (c1, Ok tt) /\
    poll_step cod t1 (c1, h0, ch, od) = Some (s2, Some r1) /\
    cc_state (fst (fst (fst s2))) = Cli_Established /\
    poll_step cod t2 s2 = Some ((c2, h2, ch, od), Some r2) /\ sh_state h2 = Srv_Closed /\
    timer_step cod t3 (c2, h2, ch, od) =
      Some ((with_timer (Some (sdo_deadline cod t3)) (Z.of_nat n) c2, h3, ch, od3), Some r2) /\
    match sdo_write_verdict od i s d with
    | Ok v => write_effect od od3 i s v
    | Err code => entries od3 = entries od
    end /\
    timer_run cod (t3 :: ts) (c2, h2, ch, od) =
      Some (s4, replicate (Datatypes.S n) (Some r2) ++ [Some a]) /\
    cc_is_closed (fst (fst (fst s4))) = true /\ payload (snd a) = le_bytes 4 0x05040000.
Proof.
  intros Hidle Hl Hh0 Htid Hi Hs Hd Hc Hm Hret Hts Hov.
  unfold start_write_job. rewrite Hidle. cbn [negb]. set (c1 := arm_timer _ _ _).
  destruct (opening_exchange c1 h0 ch od cod t1)
    as (c1' & h1 & r1 & E1 & Hrest & Hst & Hsq & Hlr & Hb & Ho & Htot & Hid & Hh1 & Hlast1); try done.
  destruct (transfer_exchange c1' h1 ch od cod t2 tid i s d) as (c2 & r2 & E2 & Hw & Hsh & Hdl & Hr2); try done.
  { by rewrite Hb, Htot. }
  assert (Hlen : 4 + len d < 2 ^ 16) by (unfold len, MAX_CLIENT_PAYLOAD in *; lia).
  destruct Hov as [Hle Hov]. rewrite Hret in Hr2.
  destruct (retransmit_step cod t3 c2 _ ch od r2 tid i s d _ Hw Hsh Htid Hlen Hi Hs Hc Hm Hdl Hle ltac:(lia))
    as (h3 & od3 & E3 & Hsh3 & He).
  destruct (timer_run_dead_end cod (t3 :: ts) (Datatypes.S n) c2 _ ch od r2 tid i s d _ Hw Hsh Htid Hlen Hi Hs
    Hc Hm Hdl Hr2) as (c4 & h4 & ch4 & od4 & E4 & Hcl); [simpl; lia|done|].
  rewrite Hr2 in E3. replace (Z.of_nat (Datatypes.S n) - 1) with (Z.of_nat n) in E3 by lia.
  exists c1, (c1', h1, ch, od), r1, c2, (set_state h1 Srv_Closed), r2, h3, od3, (c4, h4, ch4, od4).
  eexists. split_and!; try done.
Qed.

Lemma client_server_dead_end_witness :
  exists c1 s2 r1 c2 h2 r2 h3 od3 s4 a,
    start_write_job demo_idle 0x6000 2 [0xFE] 7 0 demo_small_od = (c1, Ok tt) /\
    poll_step demo_small_od 5 (c1, SdoSequenceHandler_new demo_client, mkDefaultSdoHandler, demo_sdo_od)
      = Some (s2, Some r1) /\
    cc_state (fst (fst (fst s2))) = Cli_Established /\
    poll_step demo_small_od 10 s2 = Some ((c2, h2, mkDefaultSdoHandler, demo_sdo_od), Some r2) /\
    sh_state h2 = Srv_Closed /\
    timer_step demo_small_od 15000010 (c2, h2, mkDefaultSdoHandler, demo_sdo_od) =
      Some ((with_timer (Some (sdo_deadline demo_small_od 15000010)) 1 c2, h3, mkDefaultSdoHandler, od3),
            Some r2) /\
    write_effect demo_sdo_od od3 0x6000 2 (OV_Integer8 (-2)) /\
    timer_run demo_small_od [15000010; 30000010; 45000010] (c2, h2, mkDefaultSdoHandler, demo_sdo_od) =
      Some (s4, [Some r2; Some r2; Some a]) /\
    cc_is_closed (fst (fst (fst s4))) = true /\ payload (snd a) = le_bytes 4 0x05040000.
Proof.
  apply (client_server_dead_end demo_idle (SdoSequenceHandler_new demo_client) mkDefaultSdoHandler
    demo_sdo_od demo_small_od 7 0x6000 2 [0xFE] 1 0 5 10 15000010 [30000010; 45000010]).
  all: try reflexivity.
  - unfold byte_ok, in_width; lia.
  - unfold in_width; lia.
  - lia.
  - simpl. unfold MAX_CLIENT_PAYLOAD. lia.
  - cbn [overdue]. split_and!; try exact I; apply Z.leb_le; vm_compute; reflexivity.
Defined.
