(* ===== verification/Node.v ===== *)
(** * What both node types share

    [node/mod.rs] (the core context), [sdo/transport.rs] (frames for SDO
    responses) and [node/pdo_handler.rs], [pdo/error.rs] (consuming process
    data).  [None] stands for a panic: only a short abort handed to the
    embedded client gives it. *)
From S2P Require Import Prelude Utf8 Types Frames Dll ErrorEntry ObjectDict SdoCodec SdoServer.
From S2P Require Import SdoEmbedded SdoClient.

(** ** Common notions *)
Notation "'let!' p ':=' o 'in' k" := (match o with Some p => k | None => None end)
  (at level 200, p pattern, right associativity).

(** [Vec::pop]. *)
Definition vec_pop {A} (l : list A) : option (list A * A) :=
  match rev l with [] => None | x :: r => Some (rev r, x) end.
(** [unwrap_or(NodeAction::NoAction)]. *)
Definition action_of (r : res NodeAction) : NodeAction := match r with Ok a => a | Err _ => NoAction end.

(** The statistics of object 0x1101. *)
Definition TELEGR : Z := 0x1101.
Definition ISOCHR_CYC : Z := 1.
Definition ISOCHR_RX : Z := 2.
Definition ISOCHR_TX : Z := 3.
Definition ASYNC_RX : Z := 4.
Definition ASYNC_TX : Z := 5.
Definition SDO_RX : Z := 6.
Definition SDO_TX : Z := 7.
Definition STATUS_REQ : Z := 8.

(** ** The core context ([node/mod.rs]) *)
Record CoreNodeContext (S : Type) : Type := mkCore {
  od : ObjectDictionary S;
  mac_address : MacAddress;
  sdo_server : SdoServer DefaultSdoHandler;
  sdo_client : SdoClient;
  embedded_sdo_server : EmbeddedSdoServer;
  embedded_sdo_client : EmbeddedSdoClient
}.
Arguments mkCore {S} od mac_address sdo_server sdo_client embedded_sdo_server embedded_sdo_client.
Arguments od {S} c.
Arguments mac_address {S} c.
Arguments sdo_server {S} c.
Arguments sdo_client {S} c.
Arguments embedded_sdo_server {S} c.
Arguments embedded_sdo_client {S} c.

Section Core.
Context {S : Type}.
Implicit Types c : CoreNodeContext S.

Definition with_od (d : ObjectDictionary S) c : CoreNodeContext S :=
  mkCore d (mac_address c) (sdo_server c) (sdo_client c) (embedded_sdo_server c) (embedded_sdo_client c).
Definition with_sdo_server (s : SdoServer DefaultSdoHandler) c : CoreNodeContext S :=
  mkCore (od c) (mac_address c) s (sdo_client c) (embedded_sdo_server c) (embedded_sdo_client c).
Definition with_sdo_client (s : SdoClient) c : CoreNodeContext S :=
  mkCore (od c) (mac_address c) (sdo_server c) s (embedded_sdo_server c) (embedded_sdo_client c).
Definition with_embedded_server (s : EmbeddedSdoServer) c : CoreNodeContext S :=
  mkCore (od c) (mac_address c) (sdo_server c) (sdo_client c) s (embedded_sdo_client c).
Definition with_embedded_client (s : EmbeddedSdoClient) c : CoreNodeContext S :=
  mkCore (od c) (mac_address c) (sdo_server c) (sdo_client c) (embedded_sdo_server c) s.

Definition queue_sdo_request c (target_node_id : NodeId) (payload : bytes) : CoreNodeContext S :=
  with_sdo_client (queue_request (sdo_client c) target_node_id payload) c.
Definition queue_embedded_sdo_read c (channel_index index sub_index : Z)
    : CoreNodeContext S * res unit :=
  let '(e, r) := queue_read (embedded_sdo_client c) channel_index index sub_index in
  (with_embedded_client e c, r).
Definition queue_embedded_sdo_write c (channel_index index sub_index : Z) (data : bytes)
    : CoreNodeContext S * res unit :=
  let '(e, r) := queue_write (embedded_sdo_client c) channel_index index sub_index data in
  (with_embedded_client e c, r).
End Core.

(** ** Frames for SDO responses ([sdo/transport.rs]) *)
Definition asnd_build_response (data : SdoResponseData) (is_cn : bool) (mac : MacAddress)
    (node_id : NodeId) : res NodeAction :=
  match rd_client_info data with
  | Client_Asnd source_node_id source_mac =>
      let? sdo_payload := serialize_sdo_asnd_payload (seq_header data) (rd_command data) in
      serialize_frame_action is_cn
        (PF_ASnd (ASndFrame_new mac source_mac source_node_id node_id Svc_Sdo sdo_payload))
  | Client_Udp _ _ => Err (InternalError "Attempted to build ASnd response for UDP client")
  end.

Definition udp_build_response (data : SdoResponseData) : res NodeAction :=
  match rd_client_info data with
  | Client_Udp source_ip source_port =>
      match serialize_sdo_udp_payload (seq_header data) (rd_command data) (replicate 1500 0) with
      | (buffer, Ok n) => Ok (SendUdp source_ip source_port (take n buffer))
      | (_, Err e) => Err e
      end
  | Client_Asnd _ _ => Err (InternalError "Attempted to build UDP response for ASnd client")
  end.

Definition build_response {S} (is_cn : bool) (c : CoreNodeContext S) (n : NodeId) (data : SdoResponseData)
    : res NodeAction :=
  match rd_client_info data with
  | Client_Asnd _ _ => asnd_build_response data is_cn (mac_address c) n
  | Client_Udp _ _ => udp_build_response data
  end.

(** The datagram as the server's request: both layers serialized again. *)
Definition reserialize (seq_header : SequenceLayerHeader) (cmd : SdoCommand) (n : nat) : bytes :=
  let '(buf, r) := SequenceLayerHeader_serialize seq_header (replicate n 0) in
  let seq_len := match r with Ok k => k | Err _ => 0%nat end in
  let '(tail, r) := SdoCommand_serialize cmd (drop seq_len buf) in
  let cmd_len := match r with Ok k => k | Err _ => 0%nat end in
  take (seq_len + cmd_len) (take seq_len buf ++ tail).

(** An Ethernet frame of the protocol. *)
Definition is_epl (buffer : bytes) : bool :=
  (14 <=? length buffer)%nat && bool_decide (slice buffer 12 14 = be_bytes 2 C_DLL_ETHERTYPE_EPL).
Definition no_action (a : NodeAction) : bool := match a with NoAction => true | _ => false end.

(** ** PDO errors ([pdo/error.rs], [hal.rs]) *)
Inductive PdoError : Type :=
| PdoObjectNotFound (index sub_index : Z)
| PdoTypeMismatch (index sub_index expected_bits actual_bits : Z)
| PdoPayloadTooSmall (expected_bits actual_bytes : Z)
| PdoConfigurationError (s : string).
Definition PowerlinkError_from_PdoError (e : PdoError) : PowerlinkError :=
  match e with
  | PdoObjectNotFound _ _ => ObjectNotFound
  | PdoTypeMismatch _ _ _ _ => TypeMismatch
  | PdoPayloadTooSmall _ _ => BufferTooShort
  | PdoConfigurationError _ => ValidationError "PDO Configuration Error"
  end.

(** ** Consuming process data ([node/pdo_handler.rs]) *)
Definition IDX_RPDO_COMM_PARAM_REC_START : Z := 0x1400.
Definition IDX_RPDO_MAPPING_PARAM_REC_START : Z := 0x1600.
Definition IDX_TPDO_COMM_PARAM_REC_START : Z := 0x1800.
Definition IDX_TPDO_MAPPING_PARAM_REC_START : Z := 0x1A00.
Definition IDX_PDO_ERR_MAP_VERS_OSTR : Z := 0x1C80.
Definition IDX_PDO_ERR_SHORT_RX_OSTR : Z := 0x1C81.

(** [0x1200..=0x127F] and [0x1280..=0x12FF]: the SDO channels. *)
Definition is_server_channel (index : Z) : bool := (0x1200 <=? index) && (index <=? 0x127F).
Definition is_client_channel (index : Z) : bool := (0x1280 <=? index) && (index <=? 0x12FF).

Definition matches_source (source_node_id node_id_val : Z) : bool :=
  ((source_node_id =? C_ADR_MN_DEF_NODE_ID) && (node_id_val =? 0))
  || (negb (source_node_id =? 0) && (node_id_val =? source_node_id)).

Definition version_ok (expected_version received_version : Z) : bool :=
  ((expected_version =? 0) && (received_version =? 0))
  || ((0 <? expected_version) && (Z.shiftr expected_version 4 =? Z.shiftr received_version 4)
      && (Z.land expected_version 0x0F <=? Z.land received_version 0x0F)).

(** [for i in 0..256]: the first channel with the property. *)
Definition channels : list Z := Z.of_nat <$> seq 0 256.

(** [for i in 1..=n] over the entries of a mapping object: [f] makes of each
    entry what the caller keeps. *)
Definition sub_indices (n : Z) : list Z := (fun i => Z.of_nat i + 1) <$> seq 0 (Z.to_nat n).

Section PdoHandler.
Context {S C : Type} `{ST : ObjectDictionaryStorage S} `{EC : ErrorCounters C}.

(** What the handler works on. *)
Record PdoState : Type := mkPdo {
  ps_core : CoreNodeContext S; ps_errors : DllErrorManager C (list DllError) }.
Implicit Types s : PdoState.

Definition ps_od s : ObjectDictionary S := od (ps_core s).
Definition with_core (c : CoreNodeContext S) s : PdoState := mkPdo c (ps_errors s).
Definition ps_with_od (d : ObjectDictionary S) s : PdoState := with_core (with_od d (ps_core s)) s.
Definition report_dll (e : DllError) s : PdoState :=
  mkPdo (ps_core s) (fst (manager_handle_error (ps_errors s) e)).

Definition update_pdo_error_object (object_index : Z) (source_node_id : NodeId) s : PdoState :=
  if (source_node_id =? 0) || (C_ADR_MN_DEF_NODE_ID <=? source_node_id) then s else
  let byte_index := Z.to_nat ((source_node_id - 1) / 8) in
  let bit_index := (source_node_id - 1) mod 8 in
  match read (ps_od s) object_index 0 with
  | Some (OV_OctetString bs) =>
      match bs !! byte_index with
      | Some b =>
          ps_with_od (fst (write_internal (ps_od s) object_index 0
            (OV_OctetString (<[byte_index := Z.lor b (Z.shiftl 1 bit_index)]> bs)) false)) s
      | None => s
      end
  | _ => s
  end.

(** [Ok] to go on with the next entry, [Err] to stop. *)
Definition apply_rpdo_mapping_entry (entry : PdoMappingEntry) (payload : bytes)
    (source_node_id : NodeId) s : option (PdoState * result unit unit) :=
  match byte_offset entry, byte_length entry with
  | Some offset, Some length =>
      if len payload <? offset + length then
        Some (update_pdo_error_object IDX_PDO_ERR_SHORT_RX_OSTR source_node_id
                (report_dll (PdoPayloadShort source_node_id) s), Err tt)
      else
        let data_slice := slice payload (Z.to_nat offset) (Z.to_nat (offset + length)) in
        let core := ps_core s in
        if is_server_channel (pm_index entry) then
          let '(e, d) := emb_server_handle_request (embedded_sdo_server core) (pm_index entry)
                           data_slice (od core) in
          Some (with_core (with_od d (with_embedded_server e core)) s, Ok tt)
        else if is_client_channel (pm_index entry) then
          match emb_client_handle_response (embedded_sdo_client core) (pm_index entry) data_slice with
          | Some (e, _) => Some (with_core (with_embedded_client e core) s, Ok tt)
          | None => None
          end
        else
          match read (ps_od s) (pm_index entry) (pm_sub_index entry) with
          | None => Some (s, Ok tt)
          | Some type_template =>
              match ObjectValue_deserialize data_slice type_template with
              | Ok value =>
                  if negb (discriminant value =? discriminant type_template) then
                    Some (report_dll (PdoMapVersion source_node_id) s, Err tt)
                  else
                    Some (ps_with_od (fst (write_internal (ps_od s) (pm_index entry)
                            (pm_sub_index entry) value false)) s, Ok tt)
              | Err _ => Some (report_dll (PdoPayloadShort source_node_id) s, Err tt)
              end
          end
  | _, _ => Some (s, Ok tt)
  end.

(** The loop over the entries, left at the first error. *)
Fixpoint apply_rpdo_entries (entries : list PdoMappingEntry) (payload : bytes)
    (source_node_id : NodeId) s : option PdoState :=
  match entries with
  | [] => Some s
  | e :: entries =>
      match apply_rpdo_mapping_entry e payload source_node_id s with
      | None => None
      | Some (s, Ok _) => apply_rpdo_entries entries payload source_node_id s
      | Some (s, Err _) => Some s
      end
  end.

(** The mapping entries that are [Unsigned64]. *)
Definition rpdo_entries (d : ObjectDictionary S) (mapping_index num_entries : Z) : list PdoMappingEntry :=
  omap (fun i => match read d mapping_index i with
                 | Some (OV_Unsigned64 raw_mapping) => Some (from_u64 raw_mapping)
                 | _ => None
                 end) (sub_indices num_entries).

Definition find_rpdo_channel (d : ObjectDictionary S) (source_node_id : NodeId) : option Z :=
  List.find (fun i => match read_u8 d (IDX_RPDO_COMM_PARAM_REC_START + i) 1 with
                      | Some node_id_val => matches_source source_node_id node_id_val
                      | None => false
                      end) channels.

Definition consume_pdo_payload (source_node_id : NodeId) (payload : bytes) (received_version : Z)
    (is_ready : bool) s : option PdoState :=
  if negb is_ready then Some s else
  match find_rpdo_channel (ps_od s) source_node_id with
  | None => Some s
  | Some i =>
      let expected_version := unwrap_or (read_u8 (ps_od s) (IDX_RPDO_COMM_PARAM_REC_START + i) 2) 0 in
      if negb (version_ok expected_version received_version) then
        Some (update_pdo_error_object IDX_PDO_ERR_MAP_VERS_OSTR source_node_id
                (report_dll (PdoMapVersion source_node_id) s))
      else
        let mapping_index := IDX_RPDO_MAPPING_PARAM_REC_START + i in
        match read (ps_od s) mapping_index 0 with
        | Some (OV_Unsigned8 num_entries) =>
            if num_entries =? 0 then Some s
            else apply_rpdo_entries (rpdo_entries (ps_od s) mapping_index num_entries) payload
                   source_node_id s
        | _ => Some s
        end
  end.
End PdoHandler.
Arguments PdoState S C : clear implicits.

(** The bytes of a frame, as the other node sends it. *)
Definition frame_bytes (is_cn : bool) (frame : PowerlinkFrame) : bytes :=
  match serialize_frame_action is_cn frame with Ok (SendFrame b) => b | _ => [] end.
