(* ===== verification/StackTypes.v ===== *)
(** * Types under traffic

    Everything that writes the dictionary on behalf of the network keeps its types: the
    commands of the SDO server, the channels in PDOs and the mapped process data
    ([od_evolves] of [OdSchema], lifted to [sdo/], [sdo/embedded_server.rs] and
    [node/pdo_handler.rs]). *)
From S2P Require Import Prelude Types ErrorEntry ObjectDict OdPredefined Dll Nmt OdSchema.
From S2P Require Import SdoCodec SdoServer SdoEmbedded SdoClient Node.

(** What the application promises of the commands it implements itself. *)
Class HandlerKeeps (H S : Type) `{ST : ObjectDictionaryStorage S} `{!SdoCommandHandler H S} : Prop := {
  write_all_keeps : forall h c (od : ObjectDictionary S), od_evolves od (snd (fst (handle_write_all_by_index h c od)));
  write_multiple_keeps : forall h c (od : ObjectDictionary S), od_evolves od (snd (fst (handle_write_multiple_params h c od)));
  file_read_keeps : forall h c (od : ObjectDictionary S), od_evolves od (snd (fst (handle_file_read h c od)));
  file_write_keeps : forall h c (od : ObjectDictionary S), od_evolves od (snd (fst (handle_file_write h c od)))
}.
#[export] Instance DefaultSdoHandler_keeps S `{ST : ObjectDictionaryStorage S} : HandlerKeeps DefaultSdoHandler S.
Proof. by split. Qed.

(** ** The SDO server *)
Section Server.
Context {S H : Type} `{ST : ObjectDictionaryStorage S} `{!SdoCommandHandler H S} `{!HandlerKeeps H S}.
Implicit Types (d : ObjectDictionary S) (h : SdoSequenceHandler).

Lemma types_od_write st d : od_evolves d (fst (perform_od_write st d)).
Proof.
  unfold perform_od_write. destruct (read d _ _) as [w|]; [|by destruct (read_object d _)].
  destruct (ObjectValue_deserialize _ w) as [v|[]]; try done. case_match; [done|].
  pose proof (types_write d (ts_index st) (ts_sub_index st) v) as Hw.
  by destruct (write d _ _ v) as [d' []].
Qed.

Lemma types_download_segment c d t st : od_evolves d (snd (fst (process_download_segment c d t st))).
Proof.
  unfold process_download_segment. case_match; [done|]. case_match; [|done]. case_match; [done|].
  match goal with |- context [perform_od_write ?s d] =>
    pose proof (types_od_write s d) as Hw; destruct (perform_od_write s d) as [d' r] end.
  exact Hw.
Qed.

Lemma types_write_by_index h c rh d t : od_evolves d (snd (fst (handle_write_by_index h c rh d t))).
Proof.
  unfold handle_write_by_index, SdoSequenceHandler_abort.
  destruct (segmentation _); try (destruct (WriteByIndexRequest_from_payload _) as [req|]; [|done]).
  - match goal with |- context [perform_od_write ?s d] =>
      pose proof (types_od_write s d) as Hw; destruct (perform_od_write s d) as [d' []] end; exact Hw.
  - by case_match.
  - destruct (sh_state h) as [| | |st|st]; try done. case_match; [done|].
    pose proof (types_download_segment c d t st) as Hw.
    destruct (process_download_segment c d t st) as [[st' d'] [[]|]]; exact Hw.
  - destruct (sh_state h) as [| | |st|st]; try done. case_match; [done|].
    pose proof (types_download_segment c d t st) as Hw.
    destruct (process_download_segment c d t st) as [[st' d'] [[]|]]; exact Hw.
Qed.

Lemma types_write_by_name h c rh d t : od_evolves d (snd (fst (handle_write_by_name h c rh d t))).
Proof.
  unfold handle_write_by_name, SdoSequenceHandler_abort.
  destruct (WriteByNameRequest_from_payload _) as [req|]; [|done].
  destruct (find_by_name _ _) as [[i s]|]; [|done]. apply types_write_by_index.
Qed.

Lemma types_dispatch h (ch : H) c d t : od_evolves d (snd (fst (dispatch_command h ch c d t))).
Proof.
  unfold dispatch_command, SdoSequenceHandler_abort.
  assert (Hp : forall r : SdoSequenceHandler * SdoCommand,
    od_evolves d (snd (fst (let '(h, c) := r in (h, ch, d, c))))) by (by intros []).
  assert (Hw : forall r : SdoSequenceHandler * ObjectDictionary S * SdoCommand, od_evolves d (snd (fst r)) ->
    od_evolves d (snd (fst (let '(h, od, c) := r in (h, ch, od, c))))) by (by intros [[] ?]).
  assert (Hc : forall r : H * ObjectDictionary S * SdoCommand, od_evolves d (snd (fst r)) ->
    od_evolves d (snd (fst (let '(ch, od, c) := r in (h, ch, od, c))))) by (by intros [[] ?]).
  destruct (command_id _); try apply Hp; try done.
  - apply Hw, types_write_by_index.
  - apply Hc, write_all_keeps.
  - apply Hw, types_write_by_name.
  - apply Hc, file_write_keeps.
  - apply Hc, file_read_keeps.
  - apply Hc, write_multiple_keeps.
Qed.

Lemma types_command_layer h (ch : H) c d t : od_evolves d (snd (fst (process_command_layer h ch c d t))).
Proof.
  unfold process_command_layer, SdoSequenceHandler_abort. destruct (sh_state h) as [| | |st|st];
    repeat case_match; done || apply types_dispatch.
Qed.

Lemma types_handle_request h (ch : H) pl d t : od_evolves d (snd (fst (handle_request h ch pl d t))).
Proof.
  unfold handle_request. case_match; [done|]. destruct (SequenceLayerHeader_deserialize _) as [sq|]; [|done].
  case_match.
  { unfold handle_error_response. by repeat case_match. }
  destruct (process_sequence_layer h sq) as [h1 [rh|]]; [|done]. destruct (drop 4 pl) as [|b l].
  { unfold handle_empty_command. by repeat case_match. }
  unfold handle_command, SdoSequenceHandler_abort. destruct (SdoCommand_deserialize _) as [c|]; [|done].
  pose proof (types_command_layer h1 ch c d t) as Hc.
  by destruct (process_command_layer h1 ch c d t) as [[[h2 ch2] d2] c2].
Qed.

Lemma types_server (srv : SdoServer H) pl info d t :
  od_evolves d (snd (fst (server_handle_request srv pl info d t))).
Proof.
  unfold server_handle_request. case_match; [done|].
  match goal with |- context [handle_request ?h ?ch pl d t] =>
    pose proof (types_handle_request h ch pl d t) as Hr; destruct (handle_request h ch pl d t) as [[[h1 ch1] d1] []] end;
    exact Hr.
Qed.
End Server.

(** ** Channels in PDOs and process data *)
Section Process.
Context {S C : Type} `{ST : ObjectDictionaryStorage S} `{EC : ErrorCounters C}.
Implicit Types (d : ObjectDictionary S) (s : PdoState S C).

Lemma types_embedded e ch pl d : od_evolves d (snd (emb_server_handle_request e ch pl d)).
Proof.
  unfold emb_server_handle_request. destruct (PdoSdoCommand_deserialize pl) as [c|]; [|done].
  case_match; [done|]. case_match; [done|].
  assert (He : od_evolves d (fst (execute_command c d))).
  { unfold execute_command. destruct (psc_command_id c); try done; [|by destruct (read d _ _)].
    destruct (read d _ _) as [w|]; [|done]. destruct (ObjectValue_deserialize _ w) as [v|]; [|done].
    pose proof (types_write d (psc_index c) (psc_sub_index c) v) as Hw.
    by destruct (write d _ _ v) as [d' r]. }
  unfold emb_process_command. by destruct (execute_command c d) as [d' [a l]].
Qed.

Lemma types_error_object i n s : od_evolves (ps_od s) (ps_od (update_pdo_error_object i n s)).
Proof.
  unfold update_pdo_error_object. case_match; [done|]. destruct (read _ i 0) as [[]|]; try done.
  case_match; [|done]. apply types_write_internal.
Qed.

Lemma types_rpdo_entry e pl n s s' r :
  apply_rpdo_mapping_entry e pl n s = Some (s', r) -> od_evolves (ps_od s) (ps_od s').
Proof.
  unfold apply_rpdo_mapping_entry. destruct (byte_offset e), (byte_length e); try by intros [= <- _].
  case_match; [intros [= <- _]; apply (types_error_object _ _ (report_dll _ s))|].
  case_match.
  { match goal with |- context [emb_server_handle_request ?a ?b ?c ?d] =>
      pose proof (types_embedded a b c d) as He; destruct (emb_server_handle_request a b c d) as [e' d'] end.
    by intros [= <- _]. }
  case_match; [destruct (emb_client_handle_response _ _ _) as [[]|]; [by intros [= <- _]|done]|].
  destruct (read _ _ _) as [w|]; [|by intros [= <- _]].
  destruct (ObjectValue_deserialize _ w) as [v|]; [|by intros [= <- _]].
  case_match; [by intros [= <- _]|]. intros [= <- _]. apply types_write_internal.
Qed.

Lemma types_rpdo_entries es pl n : forall s s',
  apply_rpdo_entries es pl n s = Some s' -> od_evolves (ps_od s) (ps_od s').
Proof.
  induction es as [|e es IH]; intros s s'; [by intros [= <-]|]. cbn [apply_rpdo_entries].
  destruct (apply_rpdo_mapping_entry e pl n s) as [[s1 [u|u]]|] eqn:E; [| |done];
    apply types_rpdo_entry in E.
  - intros H. etransitivity; [exact E|by apply IH].
  - by intros [= <-].
Qed.

Lemma types_consume_pdo n pl v rd s s' :
  consume_pdo_payload n pl v rd s = Some s' -> od_evolves (ps_od s) (ps_od s').
Proof.
  unfold consume_pdo_payload. case_match; [by intros [= <-]|].
  destruct (find_rpdo_channel _ n) as [i|]; [|by intros [= <-]].
  case_match; [intros [= <-]; apply (types_error_object _ _ (report_dll _ s))|].
  repeat case_match; try by intros [= <-]. apply types_rpdo_entries.
Qed.
End Process.
