(* ===== verification/MnState.v ===== *)
(** * The state of the managing node

    [node/mn/state.rs], [node/mn/mod.rs] and the interface to the application
    of [hal.rs].  The queue of requests for the asynchronous slot is a
    [BinaryHeap] ordered by priority alone: its order among equal priorities
    is not specified, so the queue is the class [RequestHeap], whose laws are
    the documented ones. *)
From S2P Require Import Prelude Utf8 Types Frames Dll ErrorEntry ObjectDict Nmt SdoCodec SdoServer.
From S2P Require Import SdoEmbedded SdoClient Node.

(** [ip_from_node_id]. *)
Definition ip_from_node_id (node_id : NodeId) : bytes := [192; 168; 100; node_id].

Record Identity : Type := mkIdentity {
  expected_vendor_id : Z; expected_product_code : Z; expected_revision_no : Z;
  expected_serial_no : Z; expected_device_type : Z }.

(** [trait ConfigurationInterface]: provided by the application; the node
    never calls the first operation. *)
Record ConfigurationInterface : Type := mkConfigurationInterface {
  get_expected_identity : NodeId -> option Identity;
  get_configuration : NodeId -> res bytes;
  is_software_update_required : NodeId -> Z -> Z -> bool
}.

Inductive NmtCommandData : Type :=
| Cmd_None | Cmd_HostName (hostname : bytes) | Cmd_FlushArp (target : NodeId).

Inductive CnState : Type :=
| CnUnknown | CnIdentified | CnPreOperational | CnOperational | CnStopped | CnMissing.
#[export] Instance CnState_eq_dec : EqDecision CnState.
Proof. solve_decision. Defined.
(** [derive(PartialOrd)]: the order of the variants. *)
Definition CnState_rank (s : CnState) : Z :=
  match s with
  | CnUnknown => 0 | CnIdentified => 1 | CnPreOperational => 2 | CnOperational => 3
  | CnStopped => 4 | CnMissing => 5
  end.
Definition cn_leb (a b : CnState) : bool := CnState_rank a <=? CnState_rank b.

Record CnIdentity : Type := mkCnIdentity {
  ci_device_type : Z; ci_vendor_id : Z; ci_product_code : Z; ci_revision_no : Z; ci_serial_no : Z }.
Inductive SdoState : Type := Sdo_Idle | Sdo_InProgress | Sdo_Done.

Record CnInfo : Type := mkCnInfo {
  cn_state : CnState;
  cn_nmt_state : NmtState;
  en_flag : bool;
  ea_flag : bool;
  communication_ok : bool;
  last_pres_time_us : Z;
  dll_errors : Z;
  identity : option CnIdentity;
  sdo_state : SdoState
}.
Definition CnInfo_default : CnInfo :=
  mkCnInfo CnUnknown NmtNotActive false false false 0 0 None Sdo_Idle.
Definition info_state (s : CnState) (i : CnInfo) : CnInfo :=
  mkCnInfo s (cn_nmt_state i) (en_flag i) (ea_flag i) (communication_ok i) (last_pres_time_us i)
    (dll_errors i) (identity i) (sdo_state i).
Definition info_pres (s : NmtState) (t : Z) (i : CnInfo) : CnInfo :=
  mkCnInfo (cn_state i) s (en_flag i) (ea_flag i) (communication_ok i) t 0 (identity i) (sdo_state i).
Definition info_flags (en ea : bool) (i : CnInfo) : CnInfo :=
  mkCnInfo (cn_state i) (cn_nmt_state i) en ea (communication_ok i) (last_pres_time_us i)
    (dll_errors i) (identity i) (sdo_state i).
Definition info_communication (ok : bool) (i : CnInfo) : CnInfo :=
  mkCnInfo (cn_state i) (cn_nmt_state i) (en_flag i) (ea_flag i) ok (last_pres_time_us i)
    (dll_errors i) (identity i) (sdo_state i).
Definition info_identity (d : CnIdentity) (i : CnInfo) : CnInfo :=
  mkCnInfo (cn_state i) (cn_nmt_state i) (en_flag i) (ea_flag i) (communication_ok i)
    (last_pres_time_us i) (dll_errors i) (Some d) (sdo_state i).
Definition info_sdo (s : SdoState) (i : CnInfo) : CnInfo :=
  mkCnInfo (cn_state i) (cn_nmt_state i) (en_flag i) (ea_flag i) (communication_ok i)
    (last_pres_time_us i) (dll_errors i) (identity i) s.

Inductive CyclePhase : Type :=
| Ph_Idle | Ph_SoCSent | Ph_IsochronousPReq | Ph_IsochronousDone | Ph_AsynchronousSoA
| Ph_AwaitingMnAsyncSend.
#[export] Instance CyclePhase_eq_dec : EqDecision CyclePhase.
Proof. solve_decision. Defined.

(** ** Requests for the asynchronous slot *)
Record AsyncRequest : Type := mkAsyncRequest { ar_node_id : NodeId; ar_priority : Z }.

(** [BinaryHeap<AsyncRequest>]: [push], [pop] and [is_empty]; the order of
    requests of one priority is left open. *)
Class RequestHeap (Q : Type) : Type := {
  heap_new : Q;
  heap_push : Q -> AsyncRequest -> Q;
  heap_pop : Q -> option (AsyncRequest * Q)
}.
Class RequestHeapLaws (Q : Type) `{RequestHeap Q} : Type := {
  heap_elements : Q -> list AsyncRequest;
  heap_new_elements : heap_elements heap_new = [];
  heap_push_elements : forall q r, heap_elements (heap_push q r) ≡ₚ r :: heap_elements q;
  heap_pop_none : forall q, heap_pop q = None <-> heap_elements q = [];
  heap_pop_some : forall q r q', heap_pop q = Some (r, q') ->
    heap_elements q ≡ₚ r :: heap_elements q' /\
    Forall (fun r' => ar_priority r' <= ar_priority r) (heap_elements q')
}.
Definition heap_is_empty {Q} `{RequestHeap Q} (q : Q) : bool :=
  match heap_pop q with None => true | Some _ => false end.

(** A heap: a list from which the first request of the greatest priority is
    taken. *)
Fixpoint take_greatest (r : AsyncRequest) (l : list AsyncRequest) : AsyncRequest * list AsyncRequest :=
  match l with
  | [] => (r, [])
  | x :: l =>
      if ar_priority r <? ar_priority x
      then let '(m, rest) := take_greatest x l in (m, r :: rest)
      else let '(m, rest) := take_greatest r l in (m, x :: rest)
  end.
#[export] Instance list_heap : RequestHeap (list AsyncRequest) := {
  heap_new := []; heap_push q r := q ++ [r];
  heap_pop q := match q with [] => None | r :: l => Some (take_greatest r l) end
}.

Lemma take_greatest_spec l : forall r m rest, take_greatest r l = (m, rest) ->
  r :: l ≡ₚ m :: rest /\ Forall (fun x => ar_priority x <= ar_priority m) (r :: l).
Proof.
  induction l as [|x l IH]; intros r m rest; simpl.
  { intros; simplify_eq. split; [done|]. repeat constructor. lia. }
  destruct (Z.ltb_spec (ar_priority r) (ar_priority x)) as [Hlt|Hge].
  - destruct (take_greatest x l) as [m' rest'] eqn:E. intros; simplify_eq.
    destruct (IH _ _ _ E) as [Hp Hf]. split; [by rewrite Hp, Permutation_swap|].
    constructor; [|done]. inversion_clear Hf. lia.
  - destruct (take_greatest r l) as [m' rest'] eqn:E. intros; simplify_eq.
    destruct (IH _ _ _ E) as [Hp Hf]. inversion_clear Hf. split; [|repeat constructor; (done || lia)].
    by rewrite Permutation_swap, Hp, Permutation_swap.
Qed.

#[export, refine] Instance list_heap_laws : RequestHeapLaws (list AsyncRequest) := { heap_elements q := q }.
Proof.
  - done.
  - intros q r. simpl. by rewrite Permutation_app_comm.
  - intros []; simpl; [done|]. by split.
  - intros [|x l] r q'; simpl; [done|]. intros [= E].
    destruct (take_greatest_spec _ _ _ _ E) as [Hp Hf]. split; [done|].
    rewrite Hp in Hf. by inversion_clear Hf.
Defined.

(** ** The context *)
Record MnContext (S Q : Type) : Type := mkMn {
  core : CoreNodeContext S;
  configuration_interface : option ConfigurationInterface;
  nmt_state_machine : MnNmtStateMachine;
  dll_state_machine : DllMsState;
  dll_error_manager : DllErrorManager MnErrorCounters (list DllError);
  cycle_time_us : Z;
  multiplex_cycle_len : Z;
  multiplex_assign : gmap NodeId Z;
  publish_config : gmap Z ServiceId;
  current_multiplex_cycle : Z;
  node_info : gmap NodeId CnInfo;
  mandatory_nodes : list NodeId;
  isochronous_nodes : list NodeId;
  async_only_nodes : list NodeId;
  arp_cache : gmap bytes MacAddress;
  next_isoch_node_idx : nat;
  current_phase : CyclePhase;
  current_polled_cn : option NodeId;
  async_request_queue : Q;
  pending_er_requests : list NodeId;
  pending_status_requests : list NodeId;
  pending_nmt_commands : list (MnNmtCommandRequest * NodeId * NmtCommandData);
  mn_async_send_queue : list PowerlinkFrame;
  sdo_client_manager : SdoClientManager;
  last_ident_poll_node_id : NodeId;
  last_status_poll_node_id : NodeId;
  next_tick_us : option Z;
  pending_timeout_event : option DllMsEvent;
  current_cycle_start_time_us : Z;
  initial_operational_actions_done : bool
}.
Arguments mkMn {S Q}.
Arguments core {S Q} m.
Arguments configuration_interface {S Q} m.
Arguments nmt_state_machine {S Q} m.
Arguments dll_state_machine {S Q} m.
Arguments dll_error_manager {S Q} m.
Arguments cycle_time_us {S Q} m.
Arguments multiplex_cycle_len {S Q} m.
Arguments multiplex_assign {S Q} m.
Arguments publish_config {S Q} m.
Arguments current_multiplex_cycle {S Q} m.
Arguments node_info {S Q} m.
Arguments mandatory_nodes {S Q} m.
Arguments isochronous_nodes {S Q} m.
Arguments async_only_nodes {S Q} m.
Arguments arp_cache {S Q} m.
Arguments next_isoch_node_idx {S Q} m.
Arguments current_phase {S Q} m.
Arguments current_polled_cn {S Q} m.
Arguments async_request_queue {S Q} m.
Arguments pending_er_requests {S Q} m.
Arguments pending_status_requests {S Q} m.
Arguments pending_nmt_commands {S Q} m.
Arguments mn_async_send_queue {S Q} m.
Arguments sdo_client_manager {S Q} m.
Arguments last_ident_poll_node_id {S Q} m.
Arguments last_status_poll_node_id {S Q} m.
Arguments next_tick_us {S Q} m.
Arguments pending_timeout_event {S Q} m.
Arguments current_cycle_start_time_us {S Q} m.
Arguments initial_operational_actions_done {S Q} m.

Section Updates.
Context {S Q : Type}.
Implicit Types m : MnContext S Q.

Definition upd_core (v : CoreNodeContext S) m : MnContext S Q :=
  mkMn v (configuration_interface m) (nmt_state_machine m) (dll_state_machine m)
    (dll_error_manager m) (cycle_time_us m) (multiplex_cycle_len m) (multiplex_assign m)
    (publish_config m) (current_multiplex_cycle m) (node_info m) (mandatory_nodes m)
    (isochronous_nodes m) (async_only_nodes m) (arp_cache m) (next_isoch_node_idx m)
    (current_phase m) (current_polled_cn m) (async_request_queue m) (pending_er_requests m)
    (pending_status_requests m) (pending_nmt_commands m) (mn_async_send_queue m)
    (sdo_client_manager m) (last_ident_poll_node_id m) (last_status_poll_node_id m) (next_tick_us
    m) (pending_timeout_event m) (current_cycle_start_time_us m)
    (initial_operational_actions_done m).
Definition upd_nmt_state_machine (v : MnNmtStateMachine) m : MnContext S Q :=
  mkMn (core m) (configuration_interface m) v (dll_state_machine m) (dll_error_manager m)
    (cycle_time_us m) (multiplex_cycle_len m) (multiplex_assign m) (publish_config m)
    (current_multiplex_cycle m) (node_info m) (mandatory_nodes m) (isochronous_nodes m)
    (async_only_nodes m) (arp_cache m) (next_isoch_node_idx m) (current_phase m)
    (current_polled_cn m) (async_request_queue m) (pending_er_requests m)
    (pending_status_requests m) (pending_nmt_commands m) (mn_async_send_queue m)
    (sdo_client_manager m) (last_ident_poll_node_id m) (last_status_poll_node_id m) (next_tick_us
    m) (pending_timeout_event m) (current_cycle_start_time_us m)
    (initial_operational_actions_done m).
Definition upd_dll_state_machine (v : DllMsState) m : MnContext S Q :=
  mkMn (core m) (configuration_interface m) (nmt_state_machine m) v (dll_error_manager m)
    (cycle_time_us m) (multiplex_cycle_len m) (multiplex_assign m) (publish_config m)
    (current_multiplex_cycle m) (node_info m) (mandatory_nodes m) (isochronous_nodes m)
    (async_only_nodes m) (arp_cache m) (next_isoch_node_idx m) (current_phase m)
    (current_polled_cn m) (async_request_queue m) (pending_er_requests m)
    (pending_status_requests m) (pending_nmt_commands m) (mn_async_send_queue m)
    (sdo_client_manager m) (last_ident_poll_node_id m) (last_status_poll_node_id m) (next_tick_us
    m) (pending_timeout_event m) (current_cycle_start_time_us m)
    (initial_operational_actions_done m).
Definition upd_dll_error_manager (v : DllErrorManager MnErrorCounters (list DllError)) m : MnContext S Q :=
  mkMn (core m) (configuration_interface m) (nmt_state_machine m) (dll_state_machine m) v
    (cycle_time_us m) (multiplex_cycle_len m) (multiplex_assign m) (publish_config m)
    (current_multiplex_cycle m) (node_info m) (mandatory_nodes m) (isochronous_nodes m)
    (async_only_nodes m) (arp_cache m) (next_isoch_node_idx m) (current_phase m)
    (current_polled_cn m) (async_request_queue m) (pending_er_requests m)
    (pending_status_requests m) (pending_nmt_commands m) (mn_async_send_queue m)
    (sdo_client_manager m) (last_ident_poll_node_id m) (last_status_poll_node_id m) (next_tick_us
    m) (pending_timeout_event m) (current_cycle_start_time_us m)
    (initial_operational_actions_done m).
Definition upd_current_multiplex_cycle (v : Z) m : MnContext S Q :=
  mkMn (core m) (configuration_interface m) (nmt_state_machine m) (dll_state_machine m)
    (dll_error_manager m) (cycle_time_us m) (multiplex_cycle_len m) (multiplex_assign m)
    (publish_config m) v (node_info m) (mandatory_nodes m) (isochronous_nodes m)
    (async_only_nodes m) (arp_cache m) (next_isoch_node_idx m) (current_phase m)
    (current_polled_cn m) (async_request_queue m) (pending_er_requests m)
    (pending_status_requests m) (pending_nmt_commands m) (mn_async_send_queue m)
    (sdo_client_manager m) (last_ident_poll_node_id m) (last_status_poll_node_id m) (next_tick_us
    m) (pending_timeout_event m) (current_cycle_start_time_us m)
    (initial_operational_actions_done m).
Definition upd_node_info (v : gmap NodeId CnInfo) m : MnContext S Q :=
  mkMn (core m) (configuration_interface m) (nmt_state_machine m) (dll_state_machine m)
    (dll_error_manager m) (cycle_time_us m) (multiplex_cycle_len m) (multiplex_assign m)
    (publish_config m) (current_multiplex_cycle m) v (mandatory_nodes m) (isochronous_nodes m)
    (async_only_nodes m) (arp_cache m) (next_isoch_node_idx m) (current_phase m)
    (current_polled_cn m) (async_request_queue m) (pending_er_requests m)
    (pending_status_requests m) (pending_nmt_commands m) (mn_async_send_queue m)
    (sdo_client_manager m) (last_ident_poll_node_id m) (last_status_poll_node_id m) (next_tick_us
    m) (pending_timeout_event m) (current_cycle_start_time_us m)
    (initial_operational_actions_done m).
Definition upd_arp_cache (v : gmap bytes MacAddress) m : MnContext S Q :=
  mkMn (core m) (configuration_interface m) (nmt_state_machine m) (dll_state_machine m)
    (dll_error_manager m) (cycle_time_us m) (multiplex_cycle_len m) (multiplex_assign m)
    (publish_config m) (current_multiplex_cycle m) (node_info m) (mandatory_nodes m)
    (isochronous_nodes m) (async_only_nodes m) v (next_isoch_node_idx m) (current_phase m)
    (current_polled_cn m) (async_request_queue m) (pending_er_requests m)
    (pending_status_requests m) (pending_nmt_commands m) (mn_async_send_queue m)
    (sdo_client_manager m) (last_ident_poll_node_id m) (last_status_poll_node_id m) (next_tick_us
    m) (pending_timeout_event m) (current_cycle_start_time_us m)
    (initial_operational_actions_done m).
Definition upd_next_isoch_node_idx (v : nat) m : MnContext S Q :=
  mkMn (core m) (configuration_interface m) (nmt_state_machine m) (dll_state_machine m)
    (dll_error_manager m) (cycle_time_us m) (multiplex_cycle_len m) (multiplex_assign m)
    (publish_config m) (current_multiplex_cycle m) (node_info m) (mandatory_nodes m)
    (isochronous_nodes m) (async_only_nodes m) (arp_cache m) v (current_phase m)
    (current_polled_cn m) (async_request_queue m) (pending_er_requests m)
    (pending_status_requests m) (pending_nmt_commands m) (mn_async_send_queue m)
    (sdo_client_manager m) (last_ident_poll_node_id m) (last_status_poll_node_id m) (next_tick_us
    m) (pending_timeout_event m) (current_cycle_start_time_us m)
    (initial_operational_actions_done m).
Definition upd_current_phase (v : CyclePhase) m : MnContext S Q :=
  mkMn (core m) (configuration_interface m) (nmt_state_machine m) (dll_state_machine m)
    (dll_error_manager m) (cycle_time_us m) (multiplex_cycle_len m) (multiplex_assign m)
    (publish_config m) (current_multiplex_cycle m) (node_info m) (mandatory_nodes m)
    (isochronous_nodes m) (async_only_nodes m) (arp_cache m) (next_isoch_node_idx m) v
    (current_polled_cn m) (async_request_queue m) (pending_er_requests m)
    (pending_status_requests m) (pending_nmt_commands m) (mn_async_send_queue m)
    (sdo_client_manager m) (last_ident_poll_node_id m) (last_status_poll_node_id m) (next_tick_us
    m) (pending_timeout_event m) (current_cycle_start_time_us m)
    (initial_operational_actions_done m).
Definition upd_current_polled_cn (v : option NodeId) m : MnContext S Q :=
  mkMn (core m) (configuration_interface m) (nmt_state_machine m) (dll_state_machine m)
    (dll_error_manager m) (cycle_time_us m) (multiplex_cycle_len m) (multiplex_assign m)
    (publish_config m) (current_multiplex_cycle m) (node_info m) (mandatory_nodes m)
    (isochronous_nodes m) (async_only_nodes m) (arp_cache m) (next_isoch_node_idx m)
    (current_phase m) v (async_request_queue m) (pending_er_requests m) (pending_status_requests
    m) (pending_nmt_commands m) (mn_async_send_queue m) (sdo_client_manager m)
    (last_ident_poll_node_id m) (last_status_poll_node_id m) (next_tick_us m)
    (pending_timeout_event m) (current_cycle_start_time_us m) (initial_operational_actions_done
    m).
Definition upd_async_request_queue (v : Q) m : MnContext S Q :=
  mkMn (core m) (configuration_interface m) (nmt_state_machine m) (dll_state_machine m)
    (dll_error_manager m) (cycle_time_us m) (multiplex_cycle_len m) (multiplex_assign m)
    (publish_config m) (current_multiplex_cycle m) (node_info m) (mandatory_nodes m)
    (isochronous_nodes m) (async_only_nodes m) (arp_cache m) (next_isoch_node_idx m)
    (current_phase m) (current_polled_cn m) v (pending_er_requests m) (pending_status_requests m)
    (pending_nmt_commands m) (mn_async_send_queue m) (sdo_client_manager m)
    (last_ident_poll_node_id m) (last_status_poll_node_id m) (next_tick_us m)
    (pending_timeout_event m) (current_cycle_start_time_us m) (initial_operational_actions_done
    m).
Definition upd_pending_er_requests (v : list NodeId) m : MnContext S Q :=
  mkMn (core m) (configuration_interface m) (nmt_state_machine m) (dll_state_machine m)
    (dll_error_manager m) (cycle_time_us m) (multiplex_cycle_len m) (multiplex_assign m)
    (publish_config m) (current_multiplex_cycle m) (node_info m) (mandatory_nodes m)
    (isochronous_nodes m) (async_only_nodes m) (arp_cache m) (next_isoch_node_idx m)
    (current_phase m) (current_polled_cn m) (async_request_queue m) v (pending_status_requests m)
    (pending_nmt_commands m) (mn_async_send_queue m) (sdo_client_manager m)
    (last_ident_poll_node_id m) (last_status_poll_node_id m) (next_tick_us m)
    (pending_timeout_event m) (current_cycle_start_time_us m) (initial_operational_actions_done
    m).
Definition upd_pending_status_requests (v : list NodeId) m : MnContext S Q :=
  mkMn (core m) (configuration_interface m) (nmt_state_machine m) (dll_state_machine m)
    (dll_error_manager m) (cycle_time_us m) (multiplex_cycle_len m) (multiplex_assign m)
    (publish_config m) (current_multiplex_cycle m) (node_info m) (mandatory_nodes m)
    (isochronous_nodes m) (async_only_nodes m) (arp_cache m) (next_isoch_node_idx m)
    (current_phase m) (current_polled_cn m) (async_request_queue m) (pending_er_requests m) v
    (pending_nmt_commands m) (mn_async_send_queue m) (sdo_client_manager m)
    (last_ident_poll_node_id m) (last_status_poll_node_id m) (next_tick_us m)
    (pending_timeout_event m) (current_cycle_start_time_us m) (initial_operational_actions_done
    m).
Definition upd_pending_nmt_commands (v : list (MnNmtCommandRequest * NodeId * NmtCommandData)) m : MnContext S Q :=
  mkMn (core m) (configuration_interface m) (nmt_state_machine m) (dll_state_machine m)
    (dll_error_manager m) (cycle_time_us m) (multiplex_cycle_len m) (multiplex_assign m)
    (publish_config m) (current_multiplex_cycle m) (node_info m) (mandatory_nodes m)
    (isochronous_nodes m) (async_only_nodes m) (arp_cache m) (next_isoch_node_idx m)
    (current_phase m) (current_polled_cn m) (async_request_queue m) (pending_er_requests m)
    (pending_status_requests m) v (mn_async_send_queue m) (sdo_client_manager m)
    (last_ident_poll_node_id m) (last_status_poll_node_id m) (next_tick_us m)
    (pending_timeout_event m) (current_cycle_start_time_us m) (initial_operational_actions_done
    m).
Definition upd_mn_async_send_queue (v : list PowerlinkFrame) m : MnContext S Q :=
  mkMn (core m) (configuration_interface m) (nmt_state_machine m) (dll_state_machine m)
    (dll_error_manager m) (cycle_time_us m) (multiplex_cycle_len m) (multiplex_assign m)
    (publish_config m) (current_multiplex_cycle m) (node_info m) (mandatory_nodes m)
    (isochronous_nodes m) (async_only_nodes m) (arp_cache m) (next_isoch_node_idx m)
    (current_phase m) (current_polled_cn m) (async_request_queue m) (pending_er_requests m)
    (pending_status_requests m) (pending_nmt_commands m) v (sdo_client_manager m)
    (last_ident_poll_node_id m) (last_status_poll_node_id m) (next_tick_us m)
    (pending_timeout_event m) (current_cycle_start_time_us m) (initial_operational_actions_done
    m).
Definition upd_sdo_client_manager (v : SdoClientManager) m : MnContext S Q :=
  mkMn (core m) (configuration_interface m) (nmt_state_machine m) (dll_state_machine m)
    (dll_error_manager m) (cycle_time_us m) (multiplex_cycle_len m) (multiplex_assign m)
    (publish_config m) (current_multiplex_cycle m) (node_info m) (mandatory_nodes m)
    (isochronous_nodes m) (async_only_nodes m) (arp_cache m) (next_isoch_node_idx m)
    (current_phase m) (current_polled_cn m) (async_request_queue m) (pending_er_requests m)
    (pending_status_requests m) (pending_nmt_commands m) (mn_async_send_queue m) v
    (last_ident_poll_node_id m) (last_status_poll_node_id m) (next_tick_us m)
    (pending_timeout_event m) (current_cycle_start_time_us m) (initial_operational_actions_done
    m).
Definition upd_last_ident_poll_node_id (v : NodeId) m : MnContext S Q :=
  mkMn (core m) (configuration_interface m) (nmt_state_machine m) (dll_state_machine m)
    (dll_error_manager m) (cycle_time_us m) (multiplex_cycle_len m) (multiplex_assign m)
    (publish_config m) (current_multiplex_cycle m) (node_info m) (mandatory_nodes m)
    (isochronous_nodes m) (async_only_nodes m) (arp_cache m) (next_isoch_node_idx m)
    (current_phase m) (current_polled_cn m) (async_request_queue m) (pending_er_requests m)
    (pending_status_requests m) (pending_nmt_commands m) (mn_async_send_queue m)
    (sdo_client_manager m) v (last_status_poll_node_id m) (next_tick_us m) (pending_timeout_event
    m) (current_cycle_start_time_us m) (initial_operational_actions_done m).
Definition upd_last_status_poll_node_id (v : NodeId) m : MnContext S Q :=
  mkMn (core m) (configuration_interface m) (nmt_state_machine m) (dll_state_machine m)
    (dll_error_manager m) (cycle_time_us m) (multiplex_cycle_len m) (multiplex_assign m)
    (publish_config m) (current_multiplex_cycle m) (node_info m) (mandatory_nodes m)
    (isochronous_nodes m) (async_only_nodes m) (arp_cache m) (next_isoch_node_idx m)
    (current_phase m) (current_polled_cn m) (async_request_queue m) (pending_er_requests m)
    (pending_status_requests m) (pending_nmt_commands m) (mn_async_send_queue m)
    (sdo_client_manager m) (last_ident_poll_node_id m) v (next_tick_us m) (pending_timeout_event
    m) (current_cycle_start_time_us m) (initial_operational_actions_done m).
Definition upd_next_tick_us (v : option Z) m : MnContext S Q :=
  mkMn (core m) (configuration_interface m) (nmt_state_machine m) (dll_state_machine m)
    (dll_error_manager m) (cycle_time_us m) (multiplex_cycle_len m) (multiplex_assign m)
    (publish_config m) (current_multiplex_cycle m) (node_info m) (mandatory_nodes m)
    (isochronous_nodes m) (async_only_nodes m) (arp_cache m) (next_isoch_node_idx m)
    (current_phase m) (current_polled_cn m) (async_request_queue m) (pending_er_requests m)
    (pending_status_requests m) (pending_nmt_commands m) (mn_async_send_queue m)
    (sdo_client_manager m) (last_ident_poll_node_id m) (last_status_poll_node_id m) v
    (pending_timeout_event m) (current_cycle_start_time_us m) (initial_operational_actions_done
    m).
Definition upd_pending_timeout_event (v : option DllMsEvent) m : MnContext S Q :=
  mkMn (core m) (configuration_interface m) (nmt_state_machine m) (dll_state_machine m)
    (dll_error_manager m) (cycle_time_us m) (multiplex_cycle_len m) (multiplex_assign m)
    (publish_config m) (current_multiplex_cycle m) (node_info m) (mandatory_nodes m)
    (isochronous_nodes m) (async_only_nodes m) (arp_cache m) (next_isoch_node_idx m)
    (current_phase m) (current_polled_cn m) (async_request_queue m) (pending_er_requests m)
    (pending_status_requests m) (pending_nmt_commands m) (mn_async_send_queue m)
    (sdo_client_manager m) (last_ident_poll_node_id m) (last_status_poll_node_id m) (next_tick_us
    m) v (current_cycle_start_time_us m) (initial_operational_actions_done m).
Definition upd_current_cycle_start_time_us (v : Z) m : MnContext S Q :=
  mkMn (core m) (configuration_interface m) (nmt_state_machine m) (dll_state_machine m)
    (dll_error_manager m) (cycle_time_us m) (multiplex_cycle_len m) (multiplex_assign m)
    (publish_config m) (current_multiplex_cycle m) (node_info m) (mandatory_nodes m)
    (isochronous_nodes m) (async_only_nodes m) (arp_cache m) (next_isoch_node_idx m)
    (current_phase m) (current_polled_cn m) (async_request_queue m) (pending_er_requests m)
    (pending_status_requests m) (pending_nmt_commands m) (mn_async_send_queue m)
    (sdo_client_manager m) (last_ident_poll_node_id m) (last_status_poll_node_id m) (next_tick_us
    m) (pending_timeout_event m) v (initial_operational_actions_done m).
Definition upd_initial_operational_actions_done (v : bool) m : MnContext S Q :=
  mkMn (core m) (configuration_interface m) (nmt_state_machine m) (dll_state_machine m)
    (dll_error_manager m) (cycle_time_us m) (multiplex_cycle_len m) (multiplex_assign m)
    (publish_config m) (current_multiplex_cycle m) (node_info m) (mandatory_nodes m)
    (isochronous_nodes m) (async_only_nodes m) (arp_cache m) (next_isoch_node_idx m)
    (current_phase m) (current_polled_cn m) (async_request_queue m) (pending_er_requests m)
    (pending_status_requests m) (pending_nmt_commands m) (mn_async_send_queue m)
    (sdo_client_manager m) (last_ident_poll_node_id m) (last_status_poll_node_id m) (next_tick_us
    m) (pending_timeout_event m) (current_cycle_start_time_us m) v.
End Updates.
