(* ===== verification/MnScheduler.v ===== *)
(** * Scheduling of the managing node

    [node/mn/config.rs] (the node lists of the dictionary),
    [node/mn/validation.rs] (the checks of the boot-up) and
    [node/mn/scheduler.rs] (whom to poll next).  The search for an
    unidentified node is a loop without a bound: it runs on fuel, and [None]
    means that the fuel did not suffice. *)
From S2P Require Import Prelude Utf8 Types Frames Dll ErrorEntry ObjectDict Nmt StatusFrames SdoCodec.
From S2P Require Import SdoServer SdoEmbedded SdoClient Node MnState.

(** ** The node lists ([config.rs]) *)
Record NodeLists : Type := mkNodeLists {
  nl_node_info : gmap NodeId CnInfo;
  nl_mandatory : list NodeId;
  nl_isochronous : list NodeId;
  nl_async_only : list NodeId;
  nl_multiplex_assign : gmap NodeId Z
}.

Section Config.
Context {S : Type}.
Implicit Types od : ObjectDictionary S.

(** The body of the loop over the entries of 0x1F81. *)
Definition assign_node od (l : NodeLists) (ie : nat * ObjectValue) : NodeLists :=
  match snd ie with
  | OV_Unsigned32 assignment =>
      if bit assignment 0 then
        match NodeId_try_from (u8 (Z.of_nat (fst ie) + 1)) with
        | Ok node_id =>
            let info := <[node_id := CnInfo_default]> (nl_node_info l) in
            let mandatory := if bit assignment 3 then nl_mandatory l ++ [node_id] else nl_mandatory l in
            if negb (bit assignment 8) then
              mkNodeLists info mandatory (nl_isochronous l ++ [node_id]) (nl_async_only l)
                (<[node_id := unwrap_or (read_u8 od 0x1F9B node_id) 0]> (nl_multiplex_assign l))
            else
              mkNodeLists info mandatory (nl_isochronous l) (nl_async_only l ++ [node_id])
                (nl_multiplex_assign l)
        | Err _ => l
        end
      else l
  | _ => l
  end.

Definition enumerate {A} (l : list A) : list (nat * A) := zip (seq 0 (length l)) l.

Definition parse_mn_node_lists od : res NodeLists :=
  match read_object od 0x1F81 with
  | Some (Obj_Array entries) =>
      Ok (foldl (assign_node od) (mkNodeLists ∅ [] [] [] ∅) (enumerate entries))
  | _ => Err (ValidationError "Missing 0x1F81 NMT_NodeAssignment_AU32")
  end.

Definition assign_service (m : gmap Z ServiceId) (ie : nat * ObjectValue) : gmap Z ServiceId :=
  match snd ie with
  | OV_Unsigned32 config_val =>
      let service_id_byte := u8 (Z.land config_val 0xFF) in
      let cycle_num := u8 (Z.land (Z.shiftr config_val 8) 0xFF) in
      if (0 <? cycle_num) && (0 <? service_id_byte) then
        match ServiceId_try_from service_id_byte with
        | Ok service_id => <[cycle_num := service_id]> m
        | Err _ => m
        end
      else m
  | _ => m
  end.
Definition parse_publish_config od : gmap Z ServiceId :=
  match read_object od 0x1F9E with
  | Some (Obj_Array entries) => foldl assign_service ∅ (enumerate entries)
  | _ => ∅
  end.
End Config.

Section Scheduler.
Context {S Q : Type} `{ST : ObjectDictionaryStorage S} `{QH : RequestHeap Q}.
Implicit Types m : MnContext S Q.

Definition mn_od m : ObjectDictionary S := od (core m).
Definition mn_with_od (d : ObjectDictionary S) m : MnContext S Q := upd_core (with_od d (core m)) m.
(** [od.increment_counter(..)]. *)
Definition mn_count (index sub_index : Z) m : MnContext S Q :=
  mn_with_od (increment_counter (mn_od m) index sub_index) m.
(** [nmt_state_machine.process_event(event, &mut od)]. *)
Definition mn_nmt_event (event : NmtEvent) m : MnContext S Q :=
  let '(machine, d, _) := process_event (nmt_state_machine m) event (mn_od m) in
  upd_nmt_state_machine machine (mn_with_od d m).
Definition mn_state m : NmtState := current_state (nmt_state_machine m).
(** [node_info.get_mut(&n)] followed by a change. *)
Definition modify_info (f : CnInfo -> CnInfo) (n : NodeId) m : MnContext S Q :=
  upd_node_info (alter f n (node_info m)) m.
Definition state_of (info : gmap NodeId CnInfo) (n : NodeId) : CnState :=
  match info !! n with Some i => cn_state i | None => CnUnknown end.

(** ** Checks of the boot-up ([validation.rs]) *)
Definition check_all_mandatory_identified (mandatory : list NodeId) (info : gmap NodeId CnInfo) : bool :=
  forallb (fun n => cn_leb CnIdentified (state_of info n) && cn_leb (state_of info n) CnOperational)
    mandatory.
Definition check_all_mandatory_preop (mandatory : list NodeId) (info : gmap NodeId CnInfo) : bool :=
  forallb (fun n => cn_leb CnPreOperational (state_of info n) && cn_leb (state_of info n) CnOperational)
    mandatory.
Definition check_all_mandatory_comm_verified (mandatory : list NodeId) (info : gmap NodeId CnInfo)
    : bool :=
  forallb (fun n => match info !! n with Some i => communication_ok i | None => false end) mandatory.

(** An expectation of 0 accepts any value. *)
Definition identity_ok (expected received : Z) : bool :=
  (expected =? 0) || (received =? expected).

Definition validate_boot_step1_checks m (node_id : NodeId) (payload : IdentResponsePayload)
    (current_time_us : Z) : MnContext S Q * bool :=
  let expected index := unwrap_or (read_u32 (mn_od m) index node_id) 0 in
  let startup := unwrap_or (read_u32 (mn_od m) 0x1F80 0) 0 in
  if negb (identity_ok (expected 0x1F84) (id_device_type payload)) then (m, false)
  else if negb (identity_ok (expected 0x1F85) (id_vendor_id payload)) then (m, false)
  else if negb (identity_ok (expected 0x1F86) (id_product_code payload)) then (m, false)
  else if negb (identity_ok (expected 0x1F87) (id_revision_number payload)) then (m, false)
  else
    let sw_update_required :=
      match configuration_interface m with
      | Some cfg_if =>
          is_software_update_required cfg_if node_id (id_app_sw_date payload) (id_app_sw_time payload)
      | None =>
          negb (expected 0x1F53 =? 0)
          && (negb (id_app_sw_date payload =? expected 0x1F53)
              || negb (id_app_sw_time payload =? expected 0x1F54))
      end in
    if bit startup 10 && sw_update_required then (m, false)
    else
      let config_mismatch :=
        negb (expected 0x1F26 =? 0)
        && (negb (id_verify_conf_date payload =? expected 0x1F26)
            || negb (id_verify_conf_time payload =? expected 0x1F27)) in
      if bit startup 11 && config_mismatch then
        match configuration_interface m with
        | Some cfg_if =>
            match get_configuration cfg_if node_id with
            | Ok concise_dcf =>
                let '(manager, r) := start_configuration_download (sdo_client_manager m) node_id
                                       concise_dcf current_time_us (mn_od m) in
                let m := upd_sdo_client_manager manager m in
                (match r with
                 | Ok _ => modify_info (info_sdo Sdo_InProgress) node_id m
                 | Err _ => m
                 end, false)
            | Err _ => (m, false)
            end
        | None => (m, false)
        end
      else (m, true).

(** ** Scheduling ([scheduler.rs]) *)
Definition get_cn_mac_address m (node_id : NodeId) : option MacAddress :=
  arp_cache m !! ip_from_node_id node_id.

(** [NMTEnableReadyToOperate] for the identified nodes, in the order of the map. *)
Definition ready_commands (info : gmap NodeId CnInfo)
    : list (MnNmtCommandRequest * NodeId * NmtCommandData) :=
  omap (fun ni => if bool_decide (cn_state (snd ni) = CnIdentified)
                  then Some (MnReq_State Cmd_EnableReadyToOperate, fst ni, Cmd_None) else None)
    (btree_items Z.le info).

Definition check_bootup_state m : MnContext S Q :=
  match mn_state m with
  | NmtPreOperational1 =>
      if check_all_mandatory_identified (mandatory_nodes m) (node_info m) then
        let m := mn_nmt_event Ev_AllCnsIdentified m in
        upd_pending_nmt_commands (pending_nmt_commands m ++ ready_commands (node_info m)) m
      else m
  | NmtPreOperational2 =>
      if check_all_mandatory_preop (mandatory_nodes m) (node_info m)
         && negb (bit (startup_flags (nmt_state_machine m)) 8)
      then mn_nmt_event Ev_ConfigurationCompleteCnsReady m else m
  | NmtReadyToOperate =>
      if check_all_mandatory_comm_verified (mandatory_nodes m) (node_info m)
         && negb (bit (startup_flags (nmt_state_machine m)) 2)
      then mn_nmt_event Ev_AllMandatoryCnsOperational m else m
  | _ => m
  end.

(** A node to identify. *)
Definition unidentified (info : gmap NodeId CnInfo) (n : NodeId) : bool :=
  match info !! n with
  | Some i => match cn_state i with CnUnknown | CnMissing => true | _ => false end
  | None => false
  end.

(** The loop of [find_next_node_to_identify]; [Some None] when the circle is
    closed without a node. *)
Fixpoint ident_loop (fuel : nat) (info : gmap NodeId CnInfo) (start current : Z) (wrapped : bool)
    : option (option NodeId) :=
  match fuel with
  | O => None
  | Datatypes.S fuel =>
      let current := if (current =? 0) || (239 <? current) then 1 else current in
      if (current =? start) && wrapped then Some None
      else if unidentified info current then Some (Some current)
      else ident_loop fuel info start (u8 (current + 1)) (wrapped || (current =? start))
  end.
Definition IDENT_FUEL : nat := 512.
Definition ident_search (info : gmap NodeId CnInfo) (last : NodeId) : option (option NodeId) :=
  ident_loop IDENT_FUEL info (u8 (last + 1)) (u8 (last + 1)) false.
Definition find_next_node_to_identify m : option (MnContext S Q * option NodeId) :=
  match ident_search (node_info m) (last_ident_poll_node_id m) with
  | None => None
  | Some (Some node_id) => Some (upd_last_ident_poll_node_id node_id m, Some node_id)
  | Some None => Some (m, None)
  end.

(** The indices from [start] on, cyclically. *)
Definition rotation (start n : nat) : list nat := (fun i => (start + i) mod n)%nat <$> seq 0 n.
Definition find_next_async_only_to_poll m : MnContext S Q * option NodeId :=
  let nodes := async_only_nodes m in
  match nodes with
  | [] => (m, None)
  | _ =>
      let start_idx :=
        match position (fun id => id =? last_status_poll_node_id m) nodes with
        | Some i => ((i + 1) mod length nodes)%nat
        | None => 0%nat
        end in
      let pollable n :=
        match node_info m !! n with
        | Some i => negb (bool_decide (cn_state i = CnMissing))
        | None => false
        end in
      match List.find (fun i => pollable (nth i nodes 0)) (rotation start_idx (length nodes)) with
      | Some i => (upd_last_status_poll_node_id (nth i nodes 0) m, Some (nth i nodes 0))
      | None => (m, None)
      end
  end.

(** Polled in the current multiplexed cycle, and in a state to be polled. *)
Definition pollable_now m (current_multiplex_cycle : Z) (node_id : NodeId) : bool :=
  let assigned_cycle := unwrap_or (multiplex_assign m !! node_id) 0 in
  ((assigned_cycle =? 0)
   || ((0 <? multiplex_cycle_len m) && (assigned_cycle =? u8 (current_multiplex_cycle + 1))))
  && (let state := state_of (node_info m) node_id in
      cn_leb CnPreOperational state && negb (bool_decide (state = CnStopped))).

Fixpoint isochronous_loop (poll : NodeId -> bool) (nodes : list NodeId) (idx : nat)
    : nat * option NodeId :=
  match nodes with
  | [] => (idx, None)
  | n :: nodes =>
      if poll n then (Datatypes.S idx, Some n) else isochronous_loop poll nodes (Datatypes.S idx)
  end.
Definition get_next_isochronous_node_to_poll m (current_multiplex_cycle : Z)
    : MnContext S Q * option NodeId :=
  let idx := next_isoch_node_idx m in
  let '(idx, r) := isochronous_loop (pollable_now m current_multiplex_cycle)
                     (drop idx (isochronous_nodes m)) idx in
  (upd_next_isoch_node_idx idx m, r).
Definition has_more_isochronous_nodes m (current_multiplex_cycle : Z) : bool :=
  existsb (pollable_now m current_multiplex_cycle) (drop (next_isoch_node_idx m) (isochronous_nodes m)).

Definition schedule_timeout m (deadline_us : Z) (event : DllMsEvent) : MnContext S Q :=
  let m := upd_pending_timeout_event (Some event) m in
  match next_tick_us m with
  | Some existing_deadline =>
      if deadline_us <? existing_deadline then upd_next_tick_us (Some deadline_us) m else m
  | None => upd_next_tick_us (Some deadline_us) m
  end.
End Scheduler.

(** ** The search for an unidentified node *)

(** The order of the search: the nodes after [last], then the others. *)
Definition node_range : list NodeId := (fun i => Z.of_nat i + 1) <$> seq 0 239.

Lemma ident_loop_mono fuel : forall info start current wrapped r,
  ident_loop fuel info start current wrapped = Some r ->
  forall fuel', (fuel <= fuel')%nat -> ident_loop fuel' info start current wrapped = Some r.
Proof.
  induction fuel as [|fuel IH]; intros info start current wrapped r H fuel' Hf; [done|].
  destruct fuel' as [|fuel']; [lia|]. cbn [ident_loop] in *.
  destruct (_ && wrapped); [done|]. destruct (unidentified _ _); [done|]. apply (IH _ _ _ _ _ H). lia.
Qed.

(** [e] nodes further on the circle 1..239. *)
Definition adv (c e : Z) : Z := (c - 1 + e) mod 239 + 1.
Definition on_circle (n : Z) : Prop := 1 <= n <= 239.
Definition norm (c : Z) : Z := if (c =? 0) || (239 <? c) then 1 else c.

Lemma adv_range c e : on_circle (adv c e).
Proof. unfold adv, on_circle. pose proof (Z.mod_pos_bound (c - 1 + e) 239). lia. Qed.
Lemma adv_0 c : on_circle c -> adv c 0 = c.
Proof. unfold adv, on_circle. intros. rewrite Z.mod_small; lia. Qed.
Lemma adv_adv c a b : adv (adv c a) b = adv c (a + b).
Proof.
  unfold adv. f_equal. replace ((c - 1 + a) mod 239 + 1 - 1 + b) with ((c - 1 + a) mod 239 + b) by lia.
  rewrite Zplus_mod_idemp_l. f_equal. lia.
Qed.
Lemma norm_succ c : on_circle c -> norm (u8 (c + 1)) = adv c 1.
Proof.
  unfold on_circle, norm, adv, u8, wrap. intros. change (2 ^ 8) with 256. rewrite (Z.mod_small (c + 1)) by lia.
  destruct (Z.eqb_spec (c + 1) 0); [lia|]. destruct (Z.ltb_spec 239 (c + 1)); cbn [orb].
  - replace c with 239 by lia. reflexivity.
  - rewrite Z.mod_small by lia. lia.
Qed.
Lemma adv_distance c k : on_circle c -> on_circle k ->
  exists e, 0 <= e < 239 /\ adv c e = k.
Proof.
  intros Hc Hk. exists ((k - c) mod 239). split; [apply Z.mod_pos_bound; lia|].
  unfold adv, on_circle in *. rewrite Zplus_mod_idemp_r. replace (c - 1 + (k - c)) with (k - 1) by lia.
  rewrite Z.mod_small; lia.
Qed.
Lemma adv_inj c a b : 0 <= a < 239 -> 0 <= b < 239 -> adv c a = adv c b -> a = b.
Proof.
  intros Ha Hb. unfold adv. intros H. assert (E : (c - 1 + a) mod 239 = (c - 1 + b) mod 239) by lia.
  assert (((c - 1 + a) - (c - 1 + b)) mod 239 = 0) as Hd by (rewrite Zminus_mod, E, Z.sub_diag; done).
  apply Z.mod_divide in Hd as [q Hq]; lia.
Qed.

(** The walk reaches a node to identify, at the latest one it is [e] steps from. *)
Lemma ident_walk info start k fuel : forall e c wrapped, 0 <= e < 239 -> on_circle (norm c) ->
  adv (norm c) e = k -> unidentified info k = true -> e < Z.of_nat fuel ->
  (wrapped = true -> forall i, 0 <= i <= e -> adv (norm c) i <> start) ->
  exists i, 0 <= i <= e /\ ident_loop fuel info start c wrapped = Some (Some (adv (norm c) i)) /\
    unidentified info (adv (norm c) i) = true.
Proof.
  induction fuel as [|fuel IH]; intros e c wrapped He Hc Hk Hu Hf Hw; [lia|].
  cbn [ident_loop]. fold (norm c).
  assert (Htrip : (norm c =? start) && wrapped = false).
  { destruct wrapped; [|by rewrite andb_false_r]. rewrite andb_true_r. apply Z.eqb_neq.
    rewrite <- (adv_0 (norm c)) by done. apply Hw; [done|lia]. }
  rewrite Htrip. destruct (unidentified info (norm c)) eqn:Eu.
  { exists 0. rewrite adv_0 by done. split; [lia|done]. }
  destruct (decide (e = 0)) as [->|He0]. { rewrite adv_0 in Hk by done. congruence. }
  destruct (IH (e - 1) (u8 (norm c + 1)) (wrapped || (norm c =? start))) as (i & Hi & E & Ei); try lia.
  - rewrite norm_succ by done. apply adv_range.
  - rewrite norm_succ, adv_adv by done. by replace (1 + (e - 1)) with e by lia.
  - done.
  - intros Hw' i Hi. rewrite norm_succ, adv_adv by done. apply orb_true_iff in Hw' as [Hw'|Hs].
    + apply Hw; [done|lia].
    + apply Z.eqb_eq in Hs. intros E. rewrite <- Hs in E. rewrite <- (adv_0 (norm c)) in E at 2 by done.
      apply adv_inj in E; lia.
  - rewrite norm_succ, adv_adv in E, Ei by done. exists (1 + i). split; [lia|done].
Qed.

(** With nothing to find, the walk ends where it started, if that is on the circle ... *)
Lemma ident_walk_none info start fuel : forall e c, 0 <= e < 239 -> on_circle (norm c) ->
  adv (norm c) e = start -> (forall n, on_circle n -> unidentified info n = false) ->
  e < Z.of_nat fuel -> ident_loop fuel info start c true = Some None.
Proof.
  induction fuel as [|fuel IH]; intros e c He Hc Hs Hu Hf; [lia|].
  cbn [ident_loop]. fold (norm c). rewrite andb_true_r.
  destruct (Z.eqb_spec (norm c) start) as [|Hne]; [done|]. rewrite Hu by done. cbn [orb].
  destruct (decide (e = 0)) as [->|He0]. { rewrite adv_0 in Hs by done. done. }
  apply (IH (e - 1)); try lia; [| |done].
  - rewrite norm_succ by done. apply adv_range.
  - rewrite norm_succ, adv_adv by done. by replace (1 + (e - 1)) with e by lia.
Qed.

(** ... and never ends otherwise. *)
Lemma ident_walk_forever info start fuel : forall c wrapped, on_circle (norm c) -> ~ on_circle start ->
  (forall n, on_circle n -> unidentified info n = false) ->
  ident_loop fuel info start c wrapped = None.
Proof.
  induction fuel as [|fuel IH]; intros c wrapped Hc Hs Hu; [done|]. cbn [ident_loop]. fold (norm c).
  destruct (Z.eqb_spec (norm c) start) as [E|Hne]; [by rewrite E in Hc|]. cbn [andb]. rewrite Hu by done.
  apply IH; try done. rewrite norm_succ by done. apply adv_range.
Qed.

Lemma norm_start last : 0 <= last <= 239 -> on_circle (norm (u8 (last + 1))).
Proof.
  intros. unfold norm, on_circle, u8, wrap. change (2 ^ 8) with 256. rewrite Z.mod_small by lia.
  destruct (Z.eqb_spec (last + 1) 0); [lia|]. destruct (Z.ltb_spec 239 (last + 1)); cbn [orb]; lia.
Qed.

(** *** The searches of successive cycles, over a network that changes *)
Fixpoint ident_cycles {S Q} (m : MnContext S Q) (infos : list (gmap NodeId CnInfo))
    : option (MnContext S Q * list NodeId) :=
  match infos with
  | [] => Some (m, [])
  | info :: infos =>
      match find_next_node_to_identify (upd_node_info info m) with
      | None => None
      | Some (m, None) => ident_cycles m infos
      | Some (m, Some n) =>
          match ident_cycles m infos with
          | Some (m, found) => Some (m, n :: found)
          | None => None
          end
      end
  end.

Lemma ident_search_finds info last k : 0 <= last <= 239 -> on_circle k -> unidentified info k = true ->
  forall e, 0 <= e < 239 -> adv (norm (u8 (last + 1))) e = k ->
  exists i, 0 <= i <= e /\ ident_search info last = Some (Some (adv (norm (u8 (last + 1))) i)) /\
    unidentified info (adv (norm (u8 (last + 1))) i) = true.
Proof.
  intros Hl Hk Hu e He Hd. unfold ident_search. apply (ident_walk info _ k); try done.
  - by apply norm_start.
  - change (Z.of_nat IDENT_FUEL) with 512. lia.
Qed.

Lemma ident_cycles_reach {S Q} k infos : forall e (m : MnContext S Q),
  0 <= last_ident_poll_node_id m <= 239 -> on_circle k -> 0 <= e < 239 ->
  adv (norm (u8 (last_ident_poll_node_id m + 1))) e = k ->
  Forall (fun info => unidentified info k = true) infos ->
  exists m' found, ident_cycles m infos = Some (m', found) /\
    length found = length infos /\ (e < len infos -> k ∈ found).
Proof.
  unfold len. induction infos as [|info infos IH]; intros e m Hl Hk He Hd Hall.
  { exists m, []. split_and!; try done. simpl. lia. }
  inversion_clear Hall as [|?? Hu Hall']. cbn [ident_cycles]. unfold find_next_node_to_identify.
  cbn [node_info upd_node_info last_ident_poll_node_id].
  destruct (ident_search_finds info _ k Hl Hk Hu e He Hd) as (i & Hi & -> & _).
  set (n := adv _ i) in *. assert (Hn : on_circle n) by apply adv_range.
  destruct (adv_distance (norm (u8 (n + 1))) k) as (e' & He' & Hd'); [|done|].
  { apply norm_start. unfold on_circle in *. lia. }
  destruct (IH e' (upd_last_ident_poll_node_id n (upd_node_info info m))) as (m' & found & -> & Hlen & Hin);
    try done.
  { cbn. unfold on_circle in *. lia. }
  exists m', (n :: found). split_and!; [done|simpl; lia|].
  intros Hlt. cbn [length] in Hlt. destruct (decide (i = e)) as [->|Hne].
  - unfold n. rewrite Hd. apply list_elem_of_here.
  - apply list_elem_of_further, Hin.
    assert (adv (norm (u8 (n + 1))) (e - i - 1) = k) as E.
    { rewrite norm_succ by done. unfold n. rewrite !adv_adv. rewrite <- Hd. f_equal. lia. }
    rewrite <- Hd' in E. apply adv_inj in E; lia.
Qed.

(** ** The polls of an isochronous phase *)

(** The nodes a cycle is meant to poll: those of the cycle's slot and the
    continuous ones, once they take part in the cyclic communication. *)
Definition eligible {S Q} (m : MnContext S Q) (mux_cycle : Z) (n : NodeId) : Prop :=
  (unwrap_or (multiplex_assign m !! n) 0 = 0
   \/ (0 < multiplex_cycle_len m /\ multiplex_assign m !! n = Some (u8 (mux_cycle + 1)))) /\
  (state_of (node_info m) n = CnPreOperational \/ state_of (node_info m) n = CnOperational
   \/ state_of (node_info m) n = CnMissing).
#[export] Instance eligible_dec {S Q} (m : MnContext S Q) c n : Decision (eligible m c n).
Proof. unfold eligible. apply _. Defined.

Lemma pollable_now_eligible {S Q} (m : MnContext S Q) c n :
  u8 (c + 1) <> 0 -> pollable_now m c n = bool_decide (eligible m c n).
Proof.
  intros Hc. unfold pollable_now. apply eq_bool_prop_intro.
  rewrite andb_True, orb_True, andb_True, bool_decide_spec, !Is_true_true, !Z.eqb_eq, Z.ltb_lt.
  unfold eligible. split.
  - intros [Ha Hs]. split.
    + destruct Ha as [Ha|[Hl Ha]]; [by left|]. destruct (multiplex_assign m !! n) as [v|] eqn:E.
      * right. simpl in Ha. by subst v.
      * by left.
    + destruct (state_of (node_info m) n); naive_solver.
  - intros [Ha Hs]. split.
    + destruct Ha as [Ha|[Hl Ha]]; [by left|]. right. by rewrite Ha.
    + by destruct Hs as [-> | [-> | ->]].
Qed.

(** The polls of a phase: asked until there is none left. *)
Fixpoint polled_nodes {S Q} (fuel : nat) (m : MnContext S Q) (mux_cycle : Z) : list NodeId :=
  match fuel with
  | O => []
  | Datatypes.S fuel =>
      match get_next_isochronous_node_to_poll m mux_cycle with
      | (m, Some n) => n :: polled_nodes fuel m mux_cycle
      | (_, None) => []
      end
  end.

Lemma polled_nodes_spec {S Q} fuel : forall (m : MnContext S Q) c,
  (length (isochronous_nodes m) - next_isoch_node_idx m < fuel)%nat ->
  polled_nodes fuel m c =
    List.filter (pollable_now m c) (drop (next_isoch_node_idx m) (isochronous_nodes m)).
Proof.
  induction fuel as [|fuel IH]; intros m c Hf; [lia|]. cbn [polled_nodes].
  unfold get_next_isochronous_node_to_poll.
  assert (Hloop : forall nodes idx, drop idx (isochronous_nodes m) = nodes ->
    match isochronous_loop (pollable_now m c) nodes idx with
    | (i, Some n) => (idx < i <= length (isochronous_nodes m))%nat /\ List.filter (pollable_now m c) nodes =
                       n :: List.filter (pollable_now m c) (drop i (isochronous_nodes m))
    | (i, None) => List.filter (pollable_now m c) nodes = []
    end).
  { induction nodes as [|n nodes IHn]; intros idx Hd; [done|]. cbn [isochronous_loop List.filter].
    assert (Hd' : drop (Datatypes.S idx) (isochronous_nodes m) = nodes).
    { change (Datatypes.S idx) with (1 + idx)%nat. rewrite Nat.add_comm, <- drop_drop, Hd. done. }
    assert (idx < length (isochronous_nodes m))%nat.
    { apply (f_equal length) in Hd. rewrite length_drop in Hd. simpl in Hd. lia. }
    destruct (pollable_now m c n); [split; [lia|by rewrite Hd']|].
    specialize (IHn _ Hd'). destruct (isochronous_loop _ _ _) as [i [r|]]; [|done].
    destruct IHn. split; [lia|done]. }
  specialize (Hloop _ (next_isoch_node_idx m) eq_refl).
  destruct (isochronous_loop _ _ _) as [i [n|]]; [|by rewrite Hloop].
  destruct Hloop as [Hi ->]. f_equal. rewrite IH; [done|]. simpl.
  lia.
Qed.

Lemma ident_search_none info last : 0 <= last < 239 ->
  (forall n, on_circle n -> unidentified info n = false) -> ident_search info last = Some None.
Proof.
  intros Hl Hu. assert (Hs : u8 (last + 1) = last + 1) by (unfold u8; apply wrap_small; unfold in_width; lia).
  assert (Hc : on_circle (last + 1)) by (unfold on_circle; lia).
  assert (Hn : norm (last + 1) = last + 1).
  { unfold norm. destruct (Z.eqb_spec (last + 1) 0); [lia|]. by destruct (Z.ltb_spec 239 (last + 1)); [lia|]. }
  unfold ident_search. rewrite Hs. change IDENT_FUEL with (Datatypes.S 511).
  assert (Hf : 238 < Z.of_nat 511) by done. revert Hf. generalize 511%nat as f. intros f Hf. cbn [ident_loop].
  fold (norm (last + 1)). rewrite Hn, Z.eqb_refl, Hu by done. cbn [andb orb].
  apply (ident_walk_none info (last + 1) f 238).
  - lia.
  - rewrite norm_succ by done. apply adv_range.
  - rewrite norm_succ, adv_adv by done. unfold adv. change (1 + 238) with (1 * 239).
    rewrite Z_mod_plus_full, Z.mod_small; unfold on_circle in *; lia.
  - done.
  - done.
Qed.

(** The node found is the first one to identify. *)
Lemma ident_first info last e : 0 <= last <= 239 -> 0 <= e < 239 ->
  unidentified info (adv (norm (u8 (last + 1))) e) = true ->
  exists i, 0 <= i < 239 /\ ident_search info last = Some (Some (adv (norm (u8 (last + 1))) i)) /\
    unidentified info (adv (norm (u8 (last + 1))) i) = true /\
    forall j, 0 <= j < i -> unidentified info (adv (norm (u8 (last + 1))) j) = false.
Proof.
  intros Hl He Hu.
  destruct (ident_search_finds info last _ Hl (adv_range _ _) Hu e He eq_refl) as (i & Hi & Hs & Hui).
  exists i. split_and!; try done; try lia. intros j Hj.
  destruct (unidentified info (adv (norm (u8 (last + 1))) j)) eqn:Ej; [|done].
  destruct (ident_search_finds info last _ Hl (adv_range _ _) Ej j ltac:(lia) eq_refl) as (i' & Hi' & Hs' & _).
  rewrite Hs in Hs'. injection Hs' as E. apply adv_inj in E; lia.
Qed.

(** From any place of the circle an unidentified node is reached, or there is none. *)
Lemma unidentified_ahead info c : on_circle c ->
  (exists e, 0 <= e < 239 /\ unidentified info (adv c e) = true) \/
  (forall n, on_circle n -> unidentified info n = false).
Proof.
  intros Hc. destruct (decide (Exists (fun i => unidentified info (adv c i) = true) (Z.of_nat <$> seq 0 239)))
    as [Hex|Hex].
  - left. apply Exists_exists in Hex as (i & Hin & Hi). apply list_elem_of_fmap in Hin as (k & -> & Hk).
    apply elem_of_seq in Hk. exists (Z.of_nat k). split; [lia|done].
  - right. intros n Hn. destruct (unidentified info n) eqn:Hu; [|done]. destruct Hex. apply Exists_exists.
    destruct (adv_distance c n Hc Hn) as (e & He & Ee). exists e. split; [|by rewrite Ee].
    apply list_elem_of_fmap. exists (Z.to_nat e). split; [lia|]. apply elem_of_seq. lia.
Qed.

(** The search does not end only after node 239 was asked. *)
Lemma ident_search_endless info last : 0 <= last <= 239 -> ident_search info last = None ->
  last = 239 /\ forall n, on_circle n -> unidentified info n = false.
Proof.
  intros Hl Hs. destruct (unidentified_ahead info _ (norm_start last Hl)) as [(e & He & Hu)|Hn].
  - destruct (ident_first info last e Hl He Hu) as (i & _ & Hf & _). congruence.
  - split; [|done]. destruct (decide (last = 239)); [done|]. by rewrite ident_search_none in Hs by (done || lia).
Qed.

(** A managing node with the given lists. *)
Definition demo_context (od : ObjectDictionary MemStorage) (machine : MnNmtStateMachine)
    (nodes : list NodeId) (states : list CnState) : MnContext MemStorage (list AsyncRequest) :=
  mkMn (mkCore od demo_mac SdoServer_default SdoClient_new EmbeddedSdoServer_new EmbeddedSdoClient_new) None machine Ms_NonCyclic
    (mkDllErrorManager MnErrorCounters_new []) 10000 8 ∅ ∅ 0
    (list_to_map (zip nodes (map (fun s => info_state s CnInfo_default) states)))
    nodes nodes [] ∅ 0 Ph_Idle None [] [] [] [] [] SdoClientManager_new 0 0 None None 0 false.
Definition demo_machine (s : NmtState) : MnNmtStateMachine :=
  mkMnNmt s C_ADR_MN_DEF_NODE_ID 0 1000000 0.

(** ** Properties *)

(** C22: The polls of an isochronous phase, asked for one by one, are exactly the isochronous
    nodes of the list that belong to the cycle (continuous nodes, or multiplexed ones whose slot
    it is) and are pre-operational, operational or missing, in the order of the list and each
    once; and at every point the look-ahead [has_more] agrees with whether the next poll finds
    a node. *)
Theorem isochronous_polls_reference {S Q} (m : MnContext S Q) c fuel :
  next_isoch_node_idx m = 0%nat -> (length (isochronous_nodes m) < fuel)%nat -> u8 (c + 1) <> 0 ->
  polled_nodes fuel m c = filter (eligible m c) (isochronous_nodes m) /\
  (forall m' : MnContext S Q, has_more_isochronous_nodes m' c =
     match snd (get_next_isochronous_node_to_poll m' c) with Some _ => true | None => false end).
Proof.
  intros Hi Hf Hc. split.
  - rewrite polled_nodes_spec, Hi, drop_0 by lia.
    clear Hi Hf. induction (isochronous_nodes m) as [|n l IH]; [done|]. cbn [List.filter].
    rewrite filter_cons, pollable_now_eligible by done. by case_bool_decide; case_decide; rewrite ?IH.
  - intros m'. unfold has_more_isochronous_nodes, get_next_isochronous_node_to_poll.
    generalize (drop (next_isoch_node_idx m') (isochronous_nodes m')) as l.
    generalize (next_isoch_node_idx m') as i. intros i l. revert i.
    induction l as [|n l IH]; intros i; [done|]. cbn [existsb isochronous_loop].
    destruct (pollable_now m' c n); [done|]. apply IH.
Qed.

Lemma isochronous_polls_reference_witness :
  let m := demo_context (ObjectDictionary_new None) (demo_machine NmtOperational) [1; 2; 3; 4]
             [CnOperational; CnStopped; CnPreOperational; CnIdentified] in
  polled_nodes 5 m 0 = filter (eligible m 0) [1; 2; 3; 4] /\
  (forall m' : MnContext MemStorage (list AsyncRequest), has_more_isochronous_nodes m' 0 =
     match snd (get_next_isochronous_node_to_poll m' 0) with Some _ => true | None => false end).
Proof.
  intros m. apply (isochronous_polls_reference m 0 5).
  - reflexivity.
  - simpl. lia.
  - vm_compute. discriminate.
Defined.

(** C39: The search for a node to identify ends, within the fuel given, exactly when a
    configured node is unidentified or the last node polled is not 239; it then finds the first
    unidentified node after the last one polled, going round the node numbers 1 to 239, or none
    when there is none.  With node 239 polled last and every node identified the loop of the
    code never ends: no number of iterations suffices. *)
Theorem identification_search {S Q} (m : MnContext S Q) :
  let last := last_ident_poll_node_id m in
  let next i := adv (norm (u8 (last + 1))) i in
  let found n := on_circle n /\ unidentified (node_info m) n = true in
  0 <= last <= 239 ->
  ((last <> 239 \/ exists n, found n) ->
     (exists i, 0 <= i < 239 /\ found (next i) /\ (forall j, 0 <= j < i -> ~ found (next j)) /\
        find_next_node_to_identify m = Some (upd_last_ident_poll_node_id (next i) m, Some (next i)))
     \/ ((forall n, ~ found n) /\ find_next_node_to_identify m = Some (m, None))) /\
  (last = 239 -> (forall n, ~ found n) ->
     forall fuel, ident_loop fuel (node_info m) (u8 (last + 1)) (u8 (last + 1)) false = None).
Proof.
  intros last next found Hl. pose proof (norm_start last Hl) as Hn.
  unfold find_next_node_to_identify. fold last. split.
  - intros Hor.
    destruct (unidentified_ahead (node_info m) _ Hn) as [(e & He & Hu)|Hnone].
    + left. destruct (ident_first (node_info m) last e Hl He Hu) as (i & Hi & Hs & Hui & Hmin).
      exists i. split; [lia|]. rewrite Hs. split; [split; [apply adv_range|done]|].
      split; [|done]. intros j Hj [_ Hf]. specialize (Hmin j Hj). unfold next in Hf. congruence.
    + right. assert (Hno : forall n, ~ found n) by (intros n [Hc Hu]; by rewrite (Hnone n Hc) in Hu).
      split; [done|]. destruct Hor as [Hne|[n Hf]]; [|by destruct (Hno n)].
      by rewrite ident_search_none by (done || lia).
  - intros -> Hnone fuel. apply ident_walk_forever.
    + apply norm_start. lia.
    + unfold on_circle. vm_compute. intuition congruence.
    + intros n Hc. destruct (unidentified _ n) eqn:E; [|done]. destruct (Hnone n). by split.
Qed.

Lemma identification_search_witness :
  let m := upd_last_ident_poll_node_id 2
    (demo_context (ObjectDictionary_new None) (demo_machine NmtPreOperational1) [1; 2; 5]
       [CnMissing; CnUnknown; CnIdentified]) in
  let next i := adv (norm (u8 (2 + 1))) i in
  let found n := on_circle n /\ unidentified (node_info m) n = true in
  ((2 <> 239 \/ exists n, found n) ->
     (exists i, 0 <= i < 239 /\ found (next i) /\ (forall j, 0 <= j < i -> ~ found (next j)) /\
        find_next_node_to_identify m = Some (upd_last_ident_poll_node_id (next i) m, Some (next i)))
     \/ ((forall n, ~ found n) /\ find_next_node_to_identify m = Some (m, None))) /\
  (2 = 239 -> (forall n, ~ found n) ->
     forall fuel, ident_loop fuel (node_info m) (u8 (2 + 1)) (u8 (2 + 1)) false = None).
Proof. intros m. apply (identification_search m). simpl. lia. Defined.

(** C24: Over successive searches, while the states of the nodes change between them in any way,
    a node that stays unidentified is asked for within 239 searches: each search finds a node,
    and node [k] is among those found. *)
Theorem identification_fair {S Q} (m : MnContext S Q) infos k :
  0 <= last_ident_poll_node_id m <= 239 -> on_circle k ->
  Forall (fun info => unidentified info k = true) infos -> 239 <= len infos ->
  exists m' found, ident_cycles m infos = Some (m', found) /\
    length found = length infos /\ k ∈ found.
Proof.
  intros Hl Hk Hall Hlen.
  destruct (adv_distance (norm (u8 (last_ident_poll_node_id m + 1))) k) as (e & He & Hd); [by apply norm_start|done|].
  destruct (ident_cycles_reach k infos e m Hl Hk He Hd Hall) as (m' & found & Hr & Hm & Hin).
  exists m', found. split_and!; try done. apply Hin. lia.
Qed.

Lemma identification_fair_witness :
  let m := demo_context (ObjectDictionary_new None) (demo_machine NmtPreOperational1) [1; 2]
             [CnUnknown; CnMissing] in
  exists m' found, ident_cycles m (replicate 240 (node_info m)) = Some (m', found) /\
    length found = length (replicate 240 (node_info m)) /\ 2 ∈ found.
Proof.
  intros m. apply (identification_fair m (replicate 240 (node_info m)) 2).
  - simpl. lia.
  - unfold on_circle. lia.
  - apply Forall_replicate. reflexivity.
  - unfold len. rewrite length_replicate. lia.
Defined.
