(* ===== verification/MnPayload.v ===== *)
(** * The frames of the managing node

    [node/mn/payload.rs]: the frames of the cycle with the process data of
    the transmit PDOs, NMT commands, NMT information services and SDO
    requests. *)
From S2P Require Import Prelude Utf8 Types Frames Dll ErrorEntry ObjectDict Nmt SdoCodec SdoServer.
From S2P Require Import SdoEmbedded SdoClient Node MnState MnScheduler.

Definition OD_IDX_TPDO_COMM_PARAM_BASE : Z := 0x1800.
Definition OD_IDX_TPDO_MAPP_PARAM_BASE : Z := 0x1A00.
Definition OD_IDX_MN_PREQ_PAYLOAD_LIMIT_LIST : Z := 0x1F8B.
Definition OD_IDX_EPL_VERSION : Z := 0x1F83.

(** [vec\[i\] |= 1 << b]. *)
Definition set_bit_in (l : bytes) (node_id : NodeId) : bytes :=
  if (node_id =? 0) || (254 <? node_id) then l else
  alter (fun b => Z.lor b (Z.shiftl 1 ((node_id - 1) mod 8))) (Z.to_nat ((node_id - 1) / 8)) l.

(** Microseconds as a network time. *)
Definition net_time_of (t : Z) : NetTime := mkNetTime (u32 (t / 1000000)) (u32 (t mod 1000000 * 1000)).
Definition zero_net_time : NetTime := mkNetTime 0 0.
Definition zero_relative_time : RelativeTime := mkRelativeTime 0 0.

Section Payload.
Context {S Q : Type}.
Implicit Types (m : MnContext S Q) (c : CoreNodeContext S).

Definition mn_mac m : MacAddress := mac_address (core m).

Definition build_soc_frame m (current_multiplex_cycle multiplex_cycle_len : Z) : PowerlinkFrame :=
  PF_Soc (SocFrame_new (mn_mac m)
    (mkSocFlags ((0 <? multiplex_cycle_len) && (current_multiplex_cycle =? 0)) false)
    (net_time_of (current_cycle_start_time_us m)) zero_relative_time).

(** What the builders return when they fail. *)
Definition dummy_soc m : PowerlinkFrame :=
  PF_Soc (SocFrame_new (mn_mac m) (mkSocFlags false false) zero_net_time zero_relative_time).

(** The data of one entry: what goes into its slice of the payload, if
    anything. *)
Definition mn_tpdo_data c (entry : PdoMappingEntry) (length : Z) : CoreNodeContext S * option bytes :=
  if is_server_channel (pm_index entry) then
    let '(e, data) := get_pending_response (embedded_sdo_server c) (pm_index entry) (Z.to_nat length) in
    (with_embedded_server e c, Some data)
  else if is_client_channel (pm_index entry) then
    let '(e, data) := SdoEmbedded.get_pending_request (embedded_sdo_client c) (pm_index entry) (Z.to_nat length) in
    (with_embedded_client e c, Some data)
  else
    match read (od c) (pm_index entry) (pm_sub_index entry) with
    | None => (c, None)
    | Some value =>
        let serialized_data := ObjectValue_serialize value in
        (c, Some (take (Nat.min (List.length serialized_data) (Z.to_nat length)) serialized_data))
    end.

Fixpoint mn_tpdo_loop (mapping_index payload_limit : Z) (subs : list Z) c (payload : bytes)
    : CoreNodeContext S * res bytes :=
  match subs with
  | [] => (c, Ok payload)
  | i :: subs =>
      match read (od c) mapping_index i with
      | Some (OV_Unsigned64 raw_mapping) =>
          let entry := from_u64 raw_mapping in
          match byte_offset entry, byte_length entry with
          | Some offset, Some length =>
              if payload_limit <? offset + length then (c, Err PdoMapOverrun)
              else
                let '(c, data) := mn_tpdo_data c entry length in
                mn_tpdo_loop mapping_index payload_limit subs c
                  (match data with Some bs => put payload (Z.to_nat offset) bs | None => payload end)
          | _, _ => mn_tpdo_loop mapping_index payload_limit subs c payload
          end
      | _ => mn_tpdo_loop mapping_index payload_limit subs c payload
      end
  end.

Definition mn_build_tpdo_payload c (channel_index : Z) : CoreNodeContext S * res (bytes * Z) :=
  let comm_param_index := OD_IDX_TPDO_COMM_PARAM_BASE + channel_index in
  let mapping_index := OD_IDX_TPDO_MAPP_PARAM_BASE + channel_index in
  let target_node_id := unwrap_or (read_u8 (od c) comm_param_index 1) 0 in
  let pdo_version := unwrap_or (read_u8 (od c) comm_param_index 2) 0 in
  let payload_limit :=
    Z.min (unwrap_or (read_u16 (od c) OD_IDX_MN_PREQ_PAYLOAD_LIMIT_LIST target_node_id) 36)
      C_DLL_ISOCHR_MAX_PAYL in
  let payload := replicate (Z.to_nat payload_limit) 0 in
  match read (od c) mapping_index 0 with
  | Some (OV_Unsigned8 num_entries) =>
      match mn_tpdo_loop mapping_index payload_limit (sub_indices num_entries) c payload with
      | (c, Ok payload) => (c, Ok (payload, pdo_version))
      | (c, Err e) => (c, Err e)
      end
  | _ => (c, Ok (payload, pdo_version))
  end.

Definition find_tpdo_channel (d : ObjectDictionary S) (target_node_id : NodeId) : option Z :=
  List.find (fun i => bool_decide (read_u8 d (OD_IDX_TPDO_COMM_PARAM_BASE + i) 1 = Some target_node_id))
    channels.

Definition build_preq_frame m (target_node_id : NodeId) (is_multiplexed : bool)
    : MnContext S Q * PowerlinkFrame :=
  match get_cn_mac_address m target_node_id with
  | None => (m, dummy_soc m)
  | Some dest_mac =>
      let '(c, payload_result) :=
        match find_tpdo_channel (mn_od m) target_node_id with
        | None => (core m, Ok ([], 0))
        | Some channel => mn_build_tpdo_payload (core m) channel
        end in
      let m := upd_core c m in
      (m, match payload_result with
          | Ok (payload, pdo_version) =>
              let rd_flag := bool_decide (mn_state m = NmtOperational) in
              let ea := match node_info m !! target_node_id with
                        | Some info => ea_flag info | None => false end in
              PF_PReq (PReqFrame_new (mn_mac m) dest_mac target_node_id
                (mkPReqFlags is_multiplexed ea rd_flag) pdo_version payload)
          | Err _ => dummy_soc m
          end)
  end.

Definition build_soa_frame m (req_service : RequestedServiceId) (target_node : NodeId)
    (set_er_flag : bool) : PowerlinkFrame :=
  PF_SoA (SoAFrame_new (mn_mac m) (mn_state m) (mkSoAFlags false set_er_flag) req_service target_node
    (unwrap_or (read_u8 (mn_od m) OD_IDX_EPL_VERSION 0) 0x15)).

Definition nmt_command_payload (command : MnNmtCommandRequest) (data : NmtCommandData) : bytes :=
  let id := MnNmtCommandRequest_as_u8 command in
  match data with
  | Cmd_None => [id; 0]
  | Cmd_HostName hostname => resize ([id; 0] ++ take (Nat.min (length hostname) 32) hostname) 34
  | Cmd_FlushArp flush_target_node => [id; 0; flush_target_node]
  end.

Definition build_nmt_command_frame m (command : MnNmtCommandRequest) (target_node_id : NodeId)
    (command_data : NmtCommandData) : PowerlinkFrame :=
  let frame dest_mac :=
    PF_ASnd (ASndFrame_new (mn_mac m) dest_mac target_node_id C_ADR_MN_DEF_NODE_ID Svc_NmtCommand
      (nmt_command_payload command command_data)) in
  if target_node_id =? C_ADR_BROADCAST_NODE_ID then frame C_DLL_MULTICAST_ASND
  else match get_cn_mac_address m target_node_id with
       | None => dummy_soc m
       | Some mac => frame mac
       end.

(** The loop of [build_node_state_payload] over the map. *)
Definition build_node_state_payload m : bytes :=
  foldl (fun payload ni =>
           let idx := Z.to_nat (fst ni - 1) in
           if (idx <? length payload)%nat then <[idx := NmtState_as_u8 (cn_nmt_state (snd ni))]> payload
           else payload)
    (replicate 239 0) (btree_items Z.le (node_info m)).

Definition build_node_list_payload m (keep : CnInfo -> bool) : bytes :=
  let payload :=
    foldl (fun payload ni => if keep (snd ni) then set_bit_in payload (fst ni) else payload)
      (replicate 32 0) (btree_items Z.le (node_info m)) in
  if nmt_leb NmtPreOperational1 (mn_state m) && keep (info_state CnOperational CnInfo_default)
  then set_bit_in payload (mn_node_id (nmt_state_machine m)) else payload.

Definition build_publish_time_payload m : bytes :=
  let t := net_time_of (current_cycle_start_time_us m) in
  le_bytes 4 (nt_seconds t) ++ le_bytes 4 (nt_nanoseconds t).

Definition build_nmt_info_frame m (service_id : ServiceId) : PowerlinkFrame :=
  let nmt_payload :=
    match service_id with
    | NMTPublishTime => build_publish_time_payload m
    | NMTPublishNMTState => [NmtState_as_u8 (mn_state m)]
    | NMTPublishNodeState => build_node_state_payload m
    | NMTPublishNodeList => build_node_list_payload m (fun info => cn_leb CnIdentified (cn_state info))
    | NMTPublishActiveNodes =>
        build_node_list_payload m (fun info => bool_decide (cn_state info = CnOperational))
    | NMTPublishEmergNew => build_node_list_payload m en_flag
    | NMTPublishHeartbeat => replicate 32 0
    | _ => []
    end in
  PF_ASnd (ASndFrame_new (mn_mac m) C_DLL_MULTICAST_ASND C_ADR_BROADCAST_NODE_ID
    C_ADR_MN_DEF_NODE_ID service_id nmt_payload).

Definition build_sdo_asnd_request m (target_node_id : NodeId) (r : Request) : res PowerlinkFrame :=
  match get_cn_mac_address m target_node_id with
  | None => Err (InternalError "Missing CN MAC address")
  | Some dest_mac =>
      let? sdo_payload := serialize_sdo_asnd_payload (fst r) (snd r) in
      Ok (PF_ASnd (ASndFrame_new (mn_mac m) dest_mac target_node_id C_ADR_MN_DEF_NODE_ID Svc_Sdo
        sdo_payload))
  end.
End Payload.
