(* ===== verification/MnNode.v ===== *)
(** * The managing node

    [node/mn/cycle.rs], [node/mn/events.rs], [node/mn/tick.rs],
    [node/mn/main.rs] and the choice of the next asynchronous action of
    [node/mn/scheduler.rs].  A handler returns the context it leaves; [None]
    is a panic (a short SDO abort) or the endless search of the scheduler. *)
From S2P Require Import Prelude Utf8 Types Frames Dll ErrorEntry ObjectDict OdPredefined StatusFrames Nmt.
From S2P Require Import SdoCodec SdoServer SdoEmbedded SdoClient Node MnState MnScheduler MnPayload.

Section Node.
Context {S Q : Type} `{ST : ObjectDictionaryStorage S} `{QH : RequestHeap Q}.
Implicit Types m : MnContext S Q.

(** ** The asynchronous slot ([scheduler.rs]) *)

(** The payload of an SDO request: both layers are serialized into an empty
    vector. *)
Definition scheduler_sdo_payload (r : Request) : bytes :=
  let buf := fst (SequenceLayerHeader_serialize (fst r) []) in
  fst (SdoCommand_serialize (snd r) buf).

Definition AsyncAction : Type := RequestedServiceId * NodeId * bool.
Definition mn_slot : AsyncAction := (Req_UnspecifiedInvite, C_ADR_MN_DEF_NODE_ID, false).

(** The last two priorities: published information, then the requests of the
    controlled nodes. *)
Definition grant_or_publish m : MnContext S Q * AsyncAction :=
  let publish :=
    match mn_async_send_queue m with
    | [] => publish_config m !! current_multiplex_cycle m
    | _ => None
    end in
  match publish with
  | Some service_id =>
      (upd_mn_async_send_queue (mn_async_send_queue m ++ [build_nmt_info_frame m service_id]) m, mn_slot)
  | None =>
      match heap_pop (async_request_queue m) with
      | Some (request, q) =>
          (upd_async_request_queue q m,
           (if ar_priority request =? 7 then Req_NmtRequestInvite else Req_UnspecifiedInvite,
            ar_node_id request, false))
      | None => (m, (Req_NoService, 0, false))
      end
  end.

Definition determine_next_async_action m : option (MnContext S Q * AsyncAction) :=
  match vec_pop (pending_er_requests m) with
  | Some (l, n) => Some (upd_pending_er_requests l m, (Req_StatusRequest, n, true))
  | None =>
  match vec_pop (pending_status_requests m) with
  | Some (l, n) => Some (upd_pending_status_requests l m, (Req_StatusRequest, n, false))
  | None =>
  match pending_nmt_commands m, mn_async_send_queue m with
  | _ :: _, _ | _, _ :: _ => Some (m, mn_slot)
  | [], [] =>
      let! (manager, request) := mgr_get_pending_request (sdo_client_manager m)
                                   (current_cycle_start_time_us m) (mn_od m) in
      let m := upd_sdo_client_manager manager m in
      match request with
      | Some (target_node_id, r) =>
          let dest_mac := unwrap_or (get_cn_mac_address m target_node_id) C_DLL_MULTICAST_ASND in
          let frame := PF_ASnd (ASndFrame_new (mn_mac m) dest_mac target_node_id C_ADR_MN_DEF_NODE_ID
                                  Svc_Sdo (scheduler_sdo_payload r)) in
          Some (upd_mn_async_send_queue (mn_async_send_queue m ++ [frame]) m, mn_slot)
      | None =>
          let! (m, ident) := find_next_node_to_identify m in
          match ident with
          | Some n => Some (m, (Req_IdentRequest, n, false))
          | None =>
              let '(m, status) := find_next_async_only_to_poll m in
              match status with
              | Some n => Some (m, (Req_StatusRequest, n, false))
              | None => Some (grant_or_publish m)
              end
          end
      end
  end end end.

(** ** The cycle ([cycle.rs]) *)
Definition poll_node m (node_id : NodeId) (current_time_us : Z) : MnContext S Q * NodeAction :=
  let m := upd_current_phase Ph_IsochronousPReq (upd_current_polled_cn (Some node_id) m) in
  let timeout_ns := unwrap_or (read_u32 (mn_od m) 0x1F92 node_id) 25000 in
  let m := schedule_timeout m (u64 (current_time_us + timeout_ns / 1000)) ME_PresTimeout in
  let is_multiplexed := 0 <? unwrap_or (multiplex_assign m !! node_id) 0 in
  let '(m, frame) := build_preq_frame m node_id is_multiplexed in
  (mn_count TELEGR ISOCHR_TX m, action_of (serialize_frame_action false frame)).

(** The end of the isochronous phase: a publication, or the SoA. *)
Definition end_isochronous m (current_time_us : Z) : option (MnContext S Q * NodeAction) :=
  let m := upd_current_phase Ph_IsochronousDone (upd_current_polled_cn None m) in
  match publish_config m !! u8 (current_multiplex_cycle m + 1) with
  | Some service_id =>
      let m := mn_count TELEGR ASYNC_TX (upd_current_phase Ph_Idle m) in
      Some (m, action_of (serialize_frame_action false (build_nmt_info_frame m service_id)))
  | None =>
      let! (m, (req_service, target_node, set_er_flag)) := determine_next_async_action m in
      let m :=
        if negb (target_node =? C_ADR_MN_DEF_NODE_ID)
           && negb (bool_decide (req_service = Req_NoService)) then
          let timeout_ns := unwrap_or (read_u32 (mn_od m) 0x1F8A 2) 100000 in
          schedule_timeout (upd_current_phase Ph_AsynchronousSoA m)
            (u64 (current_time_us + timeout_ns / 1000)) ME_AsndTimeout
        else if target_node =? C_ADR_MN_DEF_NODE_ID then upd_current_phase Ph_AwaitingMnAsyncSend m
        else upd_current_phase Ph_Idle m in
      let m := mn_count TELEGR ASYNC_TX m in
      let m := if bool_decide (req_service = Req_StatusRequest) then mn_count TELEGR STATUS_REQ m else m in
      Some (m, action_of (serialize_frame_action false
                 (build_soa_frame m req_service target_node set_er_flag)))
  end.

Definition advance_cycle_phase m (current_time_us : Z) : option (MnContext S Q * NodeAction) :=
  if nmt_leb NmtPreOperational2 (mn_state m) then
    match get_next_isochronous_node_to_poll m (current_multiplex_cycle m) with
    | (m, Some node_id) => Some (poll_node m node_id current_time_us)
    | (m, None) => end_isochronous m current_time_us
    end
  else end_isochronous m current_time_us.

(** ** Events ([events.rs]) *)
Definition apply_nmt_action m (a : NmtAction) : MnContext S Q :=
  match a with
  | Act_ResetNode node_id =>
      let m := modify_info (info_state CnMissing) node_id m in
      upd_pending_nmt_commands
        (pending_nmt_commands m ++ [(MnReq_State Cmd_ResetNode, node_id, Cmd_None)]) m
  | Act_ResetCommunication => upd_current_phase Ph_Idle (mn_nmt_event Ev_Error m)
  | Act_None => m
  end.

Definition handle_reported_error (reporting_node_id : NodeId) m (error : DllError) : MnContext S Q :=
  let error_with_node :=
    match error with LossOfPres _ => LossOfPres reporting_node_id | e => e end in
  let '(manager, (nmt_action, _)) := manager_handle_error (dll_error_manager m) error_with_node in
  apply_nmt_action (upd_dll_error_manager manager m) nmt_action.

Definition handle_dll_event m (event : DllMsEvent) (frame_context : PowerlinkFrame) : MnContext S Q :=
  let reporting_node_id :=
    match frame_context with
    | PF_PRes f => pres_source f
    | PF_ASnd f => asnd_source f
    | _ => unwrap_or (current_polled_cn m) 0
    end in
  let isochr := has_more_isochronous_nodes m (current_multiplex_cycle m)
                || bool_decide (current_phase m = Ph_IsochronousPReq) in
  let '(state, errors) :=
    DllMs_process_event (dll_state_machine m) event (mn_state m)
      (match event with ME_Pres | ME_Asnd => true | _ => false end)
      (negb (heap_is_empty (async_request_queue m)))
      (match mn_async_send_queue m with [] => false | _ => true end)
      isochr false reporting_node_id in
  foldl (handle_reported_error reporting_node_id) (upd_dll_state_machine state m)
    (unwrap_or errors []).

Definition update_cn_state m (node_id : NodeId) (reported_state : NmtState) : MnContext S Q :=
  match node_info m !! node_id with
  | None => m
  | Some current_info =>
      let new_state :=
        match reported_state with
        | NmtPreOperational1 => CnIdentified
        | NmtPreOperational2 | NmtReadyToOperate => CnPreOperational
        | NmtOperational => CnOperational
        | NmtCsStopped => CnStopped
        | _ => cn_state current_info
        end in
      if bool_decide (cn_state current_info = new_state) then m
      else
        check_bootup_state
          (modify_info (fun i => let i := info_state new_state i in
                                 if cn_leb CnPreOperational new_state then i
                                 else info_communication false i) node_id m)
  end.

(** The request of a PRes for the asynchronous slot. *)
Definition push_async_request m (pres : PResFrame) : MnContext S Q :=
  if 0 <? pres_rs (pres_flags pres) then
    upd_async_request_queue
      (heap_push (async_request_queue m)
         (mkAsyncRequest (pres_source pres) (PRFlag_as_u8 (pres_pr (pres_flags pres))))) m
  else m.
(** The EN flag of a PRes: a StatusRequest when it differs from EA. *)
Definition note_en m (source : NodeId) (en ea : bool) : MnContext S Q :=
  let m := modify_info (info_flags en ea) source m in
  if negb (eqb en ea) && negb (bool_decide (source ∈ pending_status_requests m))
  then upd_pending_status_requests (pending_status_requests m ++ [source]) m else m.
(** [handle_pres_frame]: the request, the flags, and CHECK_COMMUNICATION. *)
Definition handle_pres_frame m (pres : PResFrame) : MnContext S Q :=
  let source := pres_source pres in
  let m := push_async_request m pres in
  match node_info m !! source with
  | None => m
  | Some info =>
      let m := note_en m source (pres_en (pres_flags pres)) (ea_flag info) in
      if bool_decide (mn_state m = NmtReadyToOperate) && negb (communication_ok info) then
        let expected_payload_size := unwrap_or (read_u16 (mn_od m) 0x1F8D source) 0 in
        if len (pres_payload pres) <=? expected_payload_size then
          check_bootup_state (modify_info (info_communication true) source m)
        else m
      else m
  end.

Definition handle_ident_response m (frame : ASndFrame) (current_time_us : Z) : MnContext S Q :=
  let n := asnd_source frame in
  match node_info m !! n with
  | None => m
  | Some info =>
      if unidentified (node_info m) n then
        match IdentResponsePayload_deserialize (asnd_payload frame) with
        | Err _ => m
        | Ok payload =>
            match validate_boot_step1_checks m n payload current_time_us with
            | (m, false) => m
            | (m, true) =>
                let m := upd_arp_cache
                  (<[ip_from_node_id n := source_mac (asnd_eth_header frame)]> (arp_cache m)) m in
                let id := mkCnIdentity (id_device_type payload) (id_vendor_id payload)
                  (id_product_code payload) (id_revision_number payload) (id_serial_number payload) in
                check_bootup_state
                  (modify_info (fun i => info_identity id (info_state CnIdentified i)) n m)
            end
        end
      else m
  end.

Definition handle_asnd_frame m (frame : ASndFrame) (current_time_us : Z) : MnContext S Q :=
  let n := asnd_source frame in
  match asnd_service_id frame with
  | Svc_IdentResponse => handle_ident_response m frame current_time_us
  | Svc_StatusResponse =>
      match node_info m !! n with
      | None => m
      | Some info =>
          let m := modify_info (info_flags (en_flag info) (en_flag info)) n m in
          match StatusResponsePayload_deserialize (asnd_payload frame) with
          | Ok payload => update_cn_state m n (sr_nmt_state payload)
          | Err _ => m
          end
      end
  | _ => m
  end.

(** Process data, with the error manager of the node. *)
Definition mn_consume m (source : NodeId) (payload : bytes) (version : Z) (rd : bool)
    : option (MnContext S Q) :=
  let! s := consume_pdo_payload source payload version rd (mkPdo (core m) (dll_error_manager m)) in
  Some (upd_dll_error_manager (ps_errors s) (upd_core (ps_core s) m)).

(** The state a PRes reports. *)
Definition note_pres m (f : PResFrame) (current_time_us : Z) : MnContext S Q :=
  match node_info m !! pres_source f with
  | None => m
  | Some _ =>
      update_cn_state (modify_info (info_pres (pres_nmt_state f) current_time_us) (pres_source f) m)
        (pres_source f) (pres_nmt_state f)
  end.

(** The action that advancing the cycle gives is dropped. *)
Definition process_pres m (f : PResFrame) (current_time_us : Z) : option (MnContext S Q) :=
  let m := note_pres (mn_count TELEGR ISOCHR_RX m) f current_time_us in
  if bool_decide (current_phase m = Ph_IsochronousPReq)
     && bool_decide (current_polled_cn m = Some (pres_source f)) then
    let m := upd_pending_timeout_event None m in
    let! consumed := mn_consume m (pres_source f) (pres_payload f) (pres_pdo_version f)
                       (pres_rd (pres_flags f)) in
    let! (m, _) := advance_cycle_phase (handle_pres_frame consumed f) current_time_us in
    Some m
  else Some (handle_pres_frame m f).

Definition process_asnd m (f : ASndFrame) (current_time_us : Z) : MnContext S Q :=
  let m := mn_count TELEGR ASYNC_RX m in
  if bool_decide (current_phase m = Ph_AsynchronousSoA) then
    upd_current_phase Ph_Idle
      (handle_asnd_frame (upd_pending_timeout_event None m) f current_time_us)
  else handle_asnd_frame m f current_time_us.

Definition mn_process_frame m (frame : PowerlinkFrame) (current_time_us : Z) : option (MnContext S Q) :=
  let m :=
    match nmt_event frame with
    | Some event => if bool_decide (mn_state m = NmtNotActive) then m else mn_nmt_event event m
    | None => m
    end in
  let m := handle_dll_event m (dll_mn_event frame) frame in
  match frame with
  | PF_PRes f => process_pres m f current_time_us
  | PF_ASnd f => Some (process_asnd m f current_time_us)
  | _ => Some m
  end.

(** ** Starting a cycle and the cycle's tick ([cycle.rs]) *)
Definition start_cycle m (current_time_us : Z) : MnContext S Q * NodeAction :=
  let m := upd_current_cycle_start_time_us current_time_us m in
  let m :=
    if 0 <? multiplex_cycle_len m then
      upd_current_multiplex_cycle (u8 (current_multiplex_cycle m + 1) mod multiplex_cycle_len m) m
    else m in
  let m := upd_next_isoch_node_idx 0 m in
  let soc_frame := build_soc_frame m (current_multiplex_cycle m) (multiplex_cycle_len m) in
  let m := handle_dll_event m ME_SocTrig soc_frame in
  let m := mn_count TELEGR ISOCHR_CYC (upd_current_phase Ph_SoCSent m) in
  (m, action_of (serialize_frame_action false soc_frame)).

(** The first [NMTStartNode] in NMT_OPERATIONAL: [Some] action when the tick ends here. *)
Definition initial_start m : MnContext S Q * option NodeAction :=
  if bool_decide (mn_state m = NmtOperational) && negb (initial_operational_actions_done m) then
    let m := upd_initial_operational_actions_done true m in
    if bit (startup_flags (nmt_state_machine m)) 1 then
      let m := mn_count TELEGR ASYNC_TX m in
      (m, Some (action_of (serialize_frame_action false
             (build_nmt_command_frame m (MnReq_State Cmd_StartNode) C_ADR_BROADCAST_NODE_ID Cmd_None))))
    else match mandatory_nodes m with
         | node_id :: _ =>
             (upd_pending_nmt_commands
                (pending_nmt_commands m ++ [(MnReq_State Cmd_StartNode, node_id, Cmd_None)]) m, None)
         | [] => (m, None)
         end
  else if nmt_ltb (mn_state m) NmtOperational then (upd_initial_operational_actions_done false m, None)
  else (m, None).

(** The last source of the awaited frame: the queue of the node. *)
Definition send_queued m : MnContext S Q * NodeAction :=
  match vec_pop (mn_async_send_queue m) with
  | Some (l, frame) =>
      (mn_count TELEGR ASYNC_TX (upd_mn_async_send_queue l m), action_of (serialize_frame_action false frame))
  | None => (m, NoAction)
  end.

Definition send_awaited m (current_time_us : Z) : option (MnContext S Q * NodeAction) :=
  let m := upd_current_phase Ph_Idle m in
  match vec_pop (pending_nmt_commands m) with
  | Some (l, (command_req, target_node_id, command_data)) =>
      let m := mn_count TELEGR ASYNC_TX (upd_pending_nmt_commands l m) in
      Some (m, action_of (serialize_frame_action false
                 (build_nmt_command_frame m command_req target_node_id command_data)))
  | None =>
      let! (manager, request) := mgr_get_pending_request (sdo_client_manager m) current_time_us (mn_od m) in
      let m := upd_sdo_client_manager manager m in
      match request with
      | Some (target_node_id, r) =>
          match build_sdo_asnd_request m target_node_id r with
          | Ok frame => Some (mn_count TELEGR SDO_TX m, action_of (serialize_frame_action false frame))
          | Err _ => Some (send_queued m)
          end
      | None => Some (send_queued m)
      end
  end.

Definition cycle_tick m (current_time_us : Z) : option (MnContext S Q * NodeAction) :=
  let state := mn_state m in
  match initial_start m with
  | (m, Some action) => Some (m, action)
  | (m, None) =>
      match current_phase m with
      | Ph_AwaitingMnAsyncSend => send_awaited m current_time_us
      | Ph_SoCSent => advance_cycle_phase m current_time_us
      | _ =>
          if bool_decide (state = NmtNotActive) && negb (bool_decide (is_Some (next_tick_us m))) then
            Some (upd_next_tick_us
                    (Some (u64 (current_time_us + wait_not_active_timeout (nmt_state_machine m)))) m,
                  NoAction)
          else Some (m, NoAction)
      end
  end.

(** ** The node's tick ([tick.rs]) *)
Definition mn_response m (data : SdoResponseData) : res NodeAction :=
  build_response false (core m) (mn_node_id (nmt_state_machine m)) data.

(** The retransmissions and time-outs of the SDO client. *)
Definition tick_sdo_client m (current_time_us : Z) : option (MnContext S Q * option NodeAction) :=
  let! (manager, frame) := mgr_tick (sdo_client_manager m) current_time_us (mn_od m) in
  let m := upd_sdo_client_manager manager m in
  match frame with
  | Some (target_node_id, r) =>
      match build_sdo_asnd_request m target_node_id r with
      | Ok frame => Some (mn_count TELEGR SDO_TX m, Some (action_of (serialize_frame_action false frame)))
      | Err _ => Some (m, None)
      end
  | None => Some (m, None)
  end.

(** Those of the SDO server. *)
Definition tick_sdo_server m (current_time_us : Z) : MnContext S Q * option NodeAction :=
  match next_action_time (sdo_server (core m)) with
  | None => (m, None)
  | Some deadline =>
      if current_time_us <? deadline then (m, None) else
      let '(srv, r) := server_tick (sdo_server (core m)) current_time_us (mn_od m) in
      let m := upd_core (with_sdo_server srv (core m)) m in
      match r with
      | Ok (Some response_data) =>
          let m := mn_count TELEGR SDO_TX m in
          match mn_response m response_data with
          | Ok action => (m, Some action)
          | Err _ => (m, None)
          end
      | _ => (m, None)
      end
  end.

Definition dummy_frame : PowerlinkFrame :=
  PF_Soc (SocFrame_new (replicate 6 0) (mkSocFlags false false) zero_net_time zero_relative_time).

(** The end of the tick: the phases that go on at once, then the cycle's tick. *)
Definition progress m (state : NmtState) (is_bootstrapping deadline_passed : bool) (current_time_us : Z)
    : option (MnContext S Q * NodeAction) :=
  if bool_decide (state = NmtPreOperational1) && bool_decide (current_phase m = Ph_SoCSent) then
    advance_cycle_phase m current_time_us
  else if negb deadline_passed && negb is_bootstrapping && bool_decide (current_phase m = Ph_Idle) then
    Some (m, NoAction)
  else cycle_tick m current_time_us.

Definition handle_tick m (current_time_us : Z) : option (MnContext S Q * NodeAction) :=
  let time_since_last_cycle := sat_sub current_time_us (current_cycle_start_time_us m) in
  let state := mn_state m in
  if (cycle_time_us m <=? time_since_last_cycle) && nmt_leb NmtPreOperational1 state
     && bool_decide (current_phase m = Ph_Idle)
  then Some (start_cycle m current_time_us)
  else
    let! (m, sent) := tick_sdo_client m current_time_us in
    match sent with Some action => Some (m, action) | None =>
    let '(m, sent) := tick_sdo_server m current_time_us in
    match sent with Some action => Some (m, action) | None =>
    let is_bootstrapping := bool_decide (state = NmtNotActive) && negb (bool_decide (is_Some (next_tick_us m))) in
    let deadline_passed :=
      match next_tick_us m with Some deadline => deadline <=? current_time_us | None => false end in
    if deadline_passed then
      let m := upd_next_tick_us None m in
      if bool_decide (state = NmtNotActive) then Some (mn_nmt_event Ev_Timeout m, NoAction)
      else
        match pending_timeout_event m with
        | Some event =>
            advance_cycle_phase
              (handle_dll_event (upd_pending_timeout_event None m) event dummy_frame) current_time_us
        | None => progress m state is_bootstrapping true current_time_us
        end
    else progress m state is_bootstrapping false current_time_us
    end end.


(** ** The node ([main.rs]) *)
Definition mn_new (d : ObjectDictionary S) (mac : MacAddress) (cfg : option ConfigurationInterface)
    : res (MnContext S Q) :=
  let '(d, r) := init d in
  let? _ := r in
  let? _ := validate_mandatory_objects d true in
  let? nmt_state_machine := mn_from_od d in
  let? cycle_time_us :=
    ok_or (read_u32 d 0x1006 0) (ValidationError "Failed to read 0x1006 NMT_CycleLen_U32") in
  let? lists := parse_mn_node_lists d in
  let publish_config := parse_publish_config d in
  let '(machine, d) := run_internal_initialisation nmt_state_machine d in
  Ok (mkMn (mkCore d mac SdoServer_default SdoClient_new EmbeddedSdoServer_new EmbeddedSdoClient_new) cfg machine Ms_NonCyclic
        (mkDllErrorManager MnErrorCounters_new []) cycle_time_us 8 (nl_multiplex_assign lists)
        publish_config 0 (nl_node_info lists) (nl_mandatory lists) (nl_isochronous lists)
        (nl_async_only lists) ∅ 0 Ph_Idle None heap_new [] [] [] [] SdoClientManager_new 0 0 None None 0
        false).

(** A request to the server of the node: the answer, if one can be built. *)
Definition mn_server_request m (sdo_payload : bytes) (client_info : SdoClientInfo) (t : Z)
    : MnContext S Q * res NodeAction :=
  let '(srv, d, r) := server_handle_request (sdo_server (core m)) sdo_payload client_info (mn_od m) t in
  let m := upd_core (with_od d (with_sdo_server srv (core m))) m in
  match r with
  | Ok response_data => (m, mn_response m response_data)
  | Err e => (m, Err e)
  end.

Definition handle_sdo_server_request m (sdo_payload : bytes) (client_info : SdoClientInfo) (t : Z)
    : MnContext S Q * NodeAction :=
  match mn_server_request m sdo_payload client_info t with
  | (m, Ok action) => (mn_count TELEGR SDO_TX m, action)
  | (m, Err _) => (m, NoAction)
  end.

Definition process_asnd_frame m (f : ASndFrame) (t : Z) : option (MnContext S Q * NodeAction) :=
  if bool_decide (asnd_service_id f = Svc_Sdo)
     && (asnd_destination f =? mn_node_id (nmt_state_machine m)) then
    let m := mn_count TELEGR SDO_RX m in
    if (length (asnd_payload f) <? 8)%nat then Some (m, NoAction) else
    match SequenceLayerHeader_deserialize (slice (asnd_payload f) 0 4),
          SdoCommand_deserialize (drop 4 (asnd_payload f)) with
    | Ok seq_header, Ok cmd =>
        let! manager := mgr_handle_response (sdo_client_manager m) (asnd_source f) seq_header cmd in
        Some (upd_sdo_client_manager manager m, NoAction)
    | _, _ => Some (m, NoAction)
    end
  else if bool_decide (asnd_service_id f = Svc_Sdo) && (asnd_destination f =? C_ADR_MN_DEF_NODE_ID) then
    Some (handle_sdo_server_request (mn_count TELEGR SDO_RX m) (asnd_payload f)
            (Client_Asnd (asnd_source f) (source_mac (asnd_eth_header f))) t)
  else
    let! processed := mn_process_frame m (PF_ASnd f) t in
    Some (processed, NoAction).

Definition process_powerlink_frame m (frame : PowerlinkFrame) (t : Z)
    : option (MnContext S Q * NodeAction) :=
  match frame with
  | PF_PRes f =>
      let! processed := mn_process_frame m (PF_PRes f) t in Some (processed, NoAction)
  | PF_ASnd f => process_asnd_frame m f t
  | _ => Some (m, NoAction)
  end.

Definition mn_process_ethernet_frame m (frame_bytes : bytes) (t : Z)
    : option (MnContext S Q * NodeAction) :=
  if bool_decide (mn_state m = NmtGsResetCommunication) then Some (mn_nmt_event Ev_Error m, NoAction)
  else match deserialize_frame frame_bytes with
       | Ok frame => process_powerlink_frame m frame t
       | Err _ => Some (m, NoAction)
       end.

Definition push_command m (c : MnNmtCommandRequest) (target : NodeId) (d : NmtCommandData) : MnContext S Q :=
  upd_pending_nmt_commands (pending_nmt_commands m ++ [(c, target, d)]) m.
Definition queue_nmt_state_command m (command : NmtStateCommand) (target : NodeId) : MnContext S Q :=
  push_command m (MnReq_State command) target Cmd_None.
Definition set_hostname m (target : NodeId) (hostname : bytes) : MnContext S Q * res unit :=
  if 32 <? len hostname then (m, Err (ValidationError "Hostname exceeds 32 characters"))
  else if target =? C_ADR_BROADCAST_NODE_ID then (m, Err (ValidationError "NmtNetHostNameSet must be unicast"))
  else (push_command m (MnReq_Managing NmtNetHostNameSet) target (Cmd_HostName hostname), Ok tt).
Definition flush_arp_entry m (target : NodeId) : MnContext S Q :=
  push_command m (MnReq_Managing NmtFlushArpEntry) C_ADR_BROADCAST_NODE_ID (Cmd_FlushArp target).
Definition mn_read_object m (target index sub_index t : Z) : MnContext S Q * res unit :=
  let '(manager, r) := read_object_by_index (sdo_client_manager m) target index sub_index t (mn_od m) in
  (upd_sdo_client_manager manager m, r).
Definition mn_write_object m (target index sub_index : Z) (data : bytes) (t : Z) : MnContext S Q * res unit :=
  let '(manager, r) :=
    write_object_by_index (sdo_client_manager m) target index sub_index data t (mn_od m) in
  (upd_sdo_client_manager manager m, r).

Definition mn_process_udp_datagram m (payload : bytes) (ip : bytes) (port t : Z)
    : MnContext S Q * NodeAction :=
  match deserialize_sdo_udp_payload payload with
  | Ok (seq_header, cmd) =>
      match mn_server_request (mn_count TELEGR SDO_RX m)
              (reserialize seq_header cmd (length payload)) (Client_Udp ip port) t with
      | (m, Ok action) => (m, action)
      | (m, Err _) => (m, NoAction)
      end
  | Err _ => (m, NoAction)
  end.

Definition mn_run_cycle m (ethernet_frame : option bytes) (udp_datagram : option (bytes * bytes * Z)) (t : Z)
    : option (MnContext S Q * NodeAction) :=
  let! (m, action) :=
    match ethernet_frame with
    | Some buffer => if is_epl buffer then mn_process_ethernet_frame m buffer t else Some (m, NoAction)
    | None => Some (m, NoAction)
    end in
  if negb (no_action action) then Some (m, action) else
  let '(m, action) :=
    match udp_datagram with
    | Some (buffer, ip, port) =>
        let '(m, action) := mn_process_udp_datagram m buffer ip port t in
        (match action with SendUdp _ _ _ => mn_count TELEGR SDO_TX m | _ => m end, action)
    | None => (m, NoAction)
    end in
  if negb (no_action action) then Some (m, action) else handle_tick m t.

Definition mn_next_action_time m : option Z :=
  match current_phase m with
  | Ph_SoCSent | Ph_AwaitingMnAsyncSend => Some (current_cycle_start_time_us m)
  | _ =>
      if bool_decide (mn_state m = NmtNotActive) && negb (bool_decide (is_Some (next_tick_us m)))
      then Some 0
      else
        let cycle_start_time :=
          if nmt_leb NmtPreOperational2 (mn_state m) && bool_decide (current_phase m = Ph_Idle)
          then Some (u64 (current_cycle_start_time_us m + cycle_time_us m)) else None in
        min_option (omap id [next_action_time (sdo_server (core m));
                             mgr_next_action_time (sdo_client_manager m); next_tick_us m; cycle_start_time])
  end.
End Node.

(** ** Runs of a node *)

(** A call of the node by its application. *)
Inductive MnInput : Type :=
| Mn_Cycle (ethernet_frame : option bytes) (udp_datagram : option (bytes * bytes * Z)) (t : Z)
| Mn_Command (command : NmtStateCommand) (target : NodeId)
| Mn_Hostname (target : NodeId) (hostname : bytes)
| Mn_FlushArp (target : NodeId)
| Mn_ReadObject (target index sub_index t : Z)
| Mn_WriteObject (target index sub_index : Z) (data : bytes) (t : Z).

Section Runs.
Context {S Q : Type} `{ST : ObjectDictionaryStorage S} `{QH : RequestHeap Q}.
Implicit Types m : MnContext S Q.

Definition mn_input (i : MnInput) m : option (MnContext S Q * NodeAction) :=
  match i with
  | Mn_Cycle eth udp t => mn_run_cycle m eth udp t
  | Mn_Command cmd target => Some (queue_nmt_state_command m cmd target, NoAction)
  | Mn_Hostname target h => Some (fst (set_hostname m target h), NoAction)
  | Mn_FlushArp target => Some (flush_arp_entry m target, NoAction)
  | Mn_ReadObject target i s t => Some (fst (mn_read_object m target i s t), NoAction)
  | Mn_WriteObject target i s data t => Some (fst (mn_write_object m target i s data t), NoAction)
  end.
Fixpoint mn_run (ins : list MnInput) m : option (MnContext S Q * list NodeAction) :=
  match ins with
  | [] => Some (m, [])
  | i :: ins =>
      let! (m, a) := mn_input i m in
      let! (m, actions) := mn_run ins m in Some (m, a :: actions)
  end.
End Runs.

