(* ===== verification/MnAsync.v ===== *)
(** * The asynchronous slot

    Which request of [node/mn/scheduler.rs] the SoA of a cycle serves: what the controlled nodes
    ask for in their PRes ([node/mn/events.rs]), in the order of its priority, and only when
    nothing of the managing node itself is due. *)
From S2P Require Import Prelude Types Frames Dll ErrorEntry ObjectDict Nmt SdoCodec SdoServer SdoEmbedded SdoClient Node.
From S2P Require Import MnState MnScheduler MnPayload MnNode.
From Stdlib Require Import Sorted.

Section Slots.
Context {S Q : Type} `{ST : ObjectDictionaryStorage S} `{QL : RequestHeapLaws Q}.
Implicit Types m : MnContext S Q.

(** The slot given to a request. *)
Definition slot_of (r : AsyncRequest) : AsyncAction :=
  (if ar_priority r =? 7 then Req_NmtRequestInvite else Req_UnspecifiedInvite, ar_node_id r, false).

(** The request of a PRes. *)
Definition request_of (f : PResFrame) : option AsyncRequest :=
  if 0 <? pres_rs (pres_flags f) then
    Some (mkAsyncRequest (pres_source f) (PRFlag_as_u8 (pres_pr (pres_flags f)))) else None.

(** Nothing of the managing node is due. *)
Record quiet m : Prop := mkQuiet {
  quiet_er : pending_er_requests m = []; quiet_status : pending_status_requests m = [];
  quiet_nmt : pending_nmt_commands m = []; quiet_send : mn_async_send_queue m = [];
  quiet_sdo : mgr_connections (sdo_client_manager m) = ∅;
  quiet_ident : forall n, on_circle n -> unidentified (node_info m) n = false;
  quiet_last : 0 <= last_ident_poll_node_id m < 239;
  quiet_async_only : async_only_nodes m = [];
  quiet_publish : publish_config m !! current_multiplex_cycle m = None
}.

(** The next [n] slots. *)
Fixpoint slots (n : nat) m : option (MnContext S Q * list AsyncAction) :=
  match n with
  | O => Some (m, [])
  | Datatypes.S n =>
      match determine_next_async_action m with
      | Some (m, a) => match slots n m with Some (m, l) => Some (m, a :: l) | None => None end
      | None => None
      end
  end.

Definition at_least (a b : AsyncRequest) : Prop := ar_priority b <= ar_priority a.

Lemma vec_pop_none {A} (l : list A) : vec_pop l = None <-> l = [].
Proof.
  unfold vec_pop. destruct (rev l) eqn:E; [|split; [done|intros ->; discriminate E]].
  split; [|done]. intros _. rewrite <- (rev_involutive l), E. done.
Qed.

Lemma no_sdo_request mgr t (d : ObjectDictionary S) : mgr_connections mgr = ∅ ->
  mgr_get_pending_request mgr t d = Some (mgr, None).
Proof.
  intros E. unfold mgr_get_pending_request, poll_connections. rewrite E. destruct mgr as [c tid]. simpl in E. by subst.
Qed.

(** In a quiet moment the slot goes to the requests of the nodes. *)
Lemma quiet_slot m : quiet m -> exists m1, m1 = m /\ determine_next_async_action m = Some (grant_or_publish m1).
Proof.
  intros [H1 H2 H3 H4 H5 H6 H7 H8 H9]. exists m. split; [done|]. unfold determine_next_async_action.
  rewrite H1, H2, H3, H4. cbn [vec_pop rev]. rewrite no_sdo_request by done.
  replace (upd_sdo_client_manager (sdo_client_manager m) m) with m by (by destruct m).
  unfold find_next_node_to_identify. rewrite ident_search_none by done.
  unfold find_next_async_only_to_poll. by rewrite H8.
Qed.

Lemma quiet_grant m : quiet m ->
  match heap_pop (async_request_queue m) with
  | Some (r, q) => determine_next_async_action m = Some (upd_async_request_queue q m, slot_of r)
  | None => determine_next_async_action m = Some (m, (Req_NoService, 0, false))
  end.
Proof.
  intros Hq. destruct (quiet_slot m Hq) as (m1 & -> & ->). destruct Hq as [_ _ _ H4 _ _ _ _ H9].
  unfold grant_or_publish. rewrite H4, H9. by destruct (heap_pop _) as [[r q]|].
Qed.

Lemma quiet_queue q m : quiet m -> quiet (upd_async_request_queue q m).
Proof. intros []. by split. Qed.

(** Pushing the requests of received PRes frames. *)
Lemma push_requests fs : forall m, quiet m ->
  quiet (foldl push_async_request m fs) /\
  heap_elements (async_request_queue (foldl push_async_request m fs)) ≡ₚ
    omap request_of fs ++ heap_elements (async_request_queue m).
Proof.
  induction fs as [|f fs IH]; intros m Hq; [done|]. cbn [foldl omap list_omap].
  assert (Hp : quiet (push_async_request m f)) by (unfold push_async_request; case_match; [by apply quiet_queue|done]).
  destruct (IH _ Hp) as [H1 H2]. split; [done|]. rewrite H2. unfold push_async_request, request_of.
  case_match; [|done]. cbn [async_request_queue upd_async_request_queue]. rewrite heap_push_elements.
  by rewrite <- Permutation_middle.
Qed.

(** Heap sort, one slot at a time. *)
Lemma slots_sort n : forall m, quiet m -> length (heap_elements (async_request_queue m)) = n ->
  exists m' rs, slots n m = Some (m', slot_of <$> rs) /\ quiet m' /\
    rs ≡ₚ heap_elements (async_request_queue m) /\ StronglySorted at_least rs /\
    heap_elements (async_request_queue m') = [].
Proof.
  induction n as [|n IH]; intros m Hq Hn.
  { exists m, []. apply length_zero_iff_nil in Hn. rewrite Hn. split_and!; try done. constructor. }
  cbn [slots]. pose proof (quiet_grant m Hq) as Hg.
  destruct (heap_pop (async_request_queue m)) as [[r q]|] eqn:Ep.
  - rewrite Hg. destruct (heap_pop_some _ _ _ Ep) as [Hperm Hmax].
    destruct (IH (upd_async_request_queue q m)) as (m' & rs & -> & Hq' & Hp & Hs & He).
    { by apply quiet_queue. }
    { cbn [async_request_queue upd_async_request_queue]. rewrite Hperm in Hn. simpl in Hn. lia. }
    cbn [async_request_queue upd_async_request_queue] in Hp.
    exists m', (r :: rs). split_and!; try done; [by rewrite Hp, Hperm|].
    constructor; [done|]. rewrite Hp. exact Hmax.
  - apply heap_pop_none in Ep. by rewrite Ep in Hn.
Qed.

(** A slot that takes from the queue of the nodes. *)
Lemma slot_takes m m' a : determine_next_async_action m = Some (m', a) ->
  async_request_queue m' = async_request_queue m \/
  (pending_er_requests m = [] /\ pending_status_requests m = [] /\ pending_nmt_commands m = [] /\
   mn_async_send_queue m = [] /\ ident_search (node_info m) (last_ident_poll_node_id m) = Some None /\
   exists r q, heap_pop (async_request_queue m) = Some (r, q) /\ async_request_queue m' = q /\ a = slot_of r).
Proof.
  unfold determine_next_async_action.
  destruct (vec_pop (pending_er_requests m)) as [[l n]|] eqn:E1; [intros [= <- _]; by left|].
  destruct (vec_pop (pending_status_requests m)) as [[l n]|] eqn:E2; [intros [= <- _]; by left|].
  apply vec_pop_none in E1, E2.
  destruct (pending_nmt_commands m) eqn:E3, (mn_async_send_queue m) eqn:E4; try (intros [= <- _]; by left).
  destruct (mgr_get_pending_request _ _ _) as [[mgr [[n r]|]]|]; [intros [= <- _]; by left| |done].
  unfold find_next_node_to_identify. cbn [node_info last_ident_poll_node_id upd_sdo_client_manager].
  destruct (ident_search _ _) as [[n|]|] eqn:E5; [intros [= <- _]; by left| |done].
  assert (Hf : forall d : MnContext S Q, async_request_queue (fst (find_next_async_only_to_poll d)) = async_request_queue d /\
    mn_async_send_queue (fst (find_next_async_only_to_poll d)) = mn_async_send_queue d).
  { intros d. unfold find_next_async_only_to_poll. repeat case_match; done. }
  match goal with |- context [find_next_async_only_to_poll ?d] => destruct (Hf d) as [Ha Hb];
    destruct (find_next_async_only_to_poll d) as [m1 [n|]] end; cbn [fst] in *; [intros [= <- _]; by left|].
  unfold grant_or_publish. cbn [async_request_queue mn_async_send_queue upd_sdo_client_manager] in Ha, Hb.
  rewrite Hb, E4, Ha. destruct (publish_config m1 !! _); [intros [= <- _]; by left|].
  destruct (heap_pop (async_request_queue m)) as [[r q]|] eqn:Ep; intros [= <- <-]; [|by left].
  right. split_and!; try done. by exists r, q.
Qed.
End Slots.

(** ** Properties *)

(** C23: The asynchronous slot serves the requests of the controlled nodes by priority, each once,
    and after everything else.  A slot that takes a request from their queue does so only when no
    error reset, status request, NMT command or frame of the managing node waits and the search
    finds no unidentified node; it takes one of the greatest priority.  When nothing else is due,
    the slots that follow any number of PRes frames are exactly the requests of these frames and
    those queued before, in descending order of priority, each served once, as an NMT request
    invite for priority 7 and an unspecified invite otherwise, and then the slot is free. *)
Theorem async_slots_by_priority {S Q} `{ST : ObjectDictionaryStorage S} `{QL : RequestHeapLaws Q}
    (m : MnContext S Q) (fs : list PResFrame) :
  (forall m' a, determine_next_async_action m = Some (m', a) ->
     async_request_queue m' <> async_request_queue m ->
     (pending_er_requests m = [] /\ pending_status_requests m = [] /\ pending_nmt_commands m = [] /\
      mn_async_send_queue m = [] /\ ident_search (node_info m) (last_ident_poll_node_id m) = Some None) /\
     exists r, a = slot_of r /\
       heap_elements (async_request_queue m) ≡ₚ r :: heap_elements (async_request_queue m') /\
       Forall (at_least r) (heap_elements (async_request_queue m'))) /\
  (quiet m ->
     let m1 := foldl push_async_request m fs in
     exists m' rs, slots (length (heap_elements (async_request_queue m1))) m1 = Some (m', slot_of <$> rs) /\
       rs ≡ₚ omap request_of fs ++ heap_elements (async_request_queue m) /\ StronglySorted at_least rs /\
       determine_next_async_action m' = Some (m', (Req_NoService, 0, false))).
Proof.
  split.
  - intros m' a Hd Hne. destruct (slot_takes m m' a Hd) as [?|(H1&H2&H3&H4&H5&r&q&Hp&<-&->)]; [done|].
    destruct (heap_pop_some _ _ _ Hp) as [Hperm Hmax]. split; [done|]. by exists r.
  - intros Hq m1. destruct (push_requests fs m Hq) as [Hq1 Hp].
    destruct (slots_sort _ m1 Hq1 eq_refl) as (m' & rs & Hs & Hq' & Hr & Hsort & He).
    exists m', rs. split; [done|]. split; [by rewrite Hr|]. split; [done|].
    pose proof (quiet_grant m' Hq') as Hg. apply heap_pop_none in He. by rewrite He in Hg.
Qed.

Lemma async_slots_by_priority_witness :
  let m := demo_context (ObjectDictionary_new None) (demo_machine NmtOperational) [1; 2; 3]
             [CnOperational; CnOperational; CnOperational] in
  let pres n pr := PResFrame_new demo_mac n NmtOperational (mkPResFlags false false false pr 1) 0 [] in
  let m1 := foldl push_async_request m [pres 1 Low1; pres 2 PrioNmtRequest; pres 3 High1] in
  exists m' rs, slots (length (heap_elements (async_request_queue m1))) m1 = Some (m', slot_of <$> rs) /\
    rs ≡ₚ [mkAsyncRequest 1 0; mkAsyncRequest 2 7; mkAsyncRequest 3 4] /\ StronglySorted at_least rs /\
    determine_next_async_action m' = Some (m', (Req_NoService, 0, false)).
Proof.
  intros m pres m1.
  destruct (proj2 (async_slots_by_priority m [pres 1 Low1; pres 2 PrioNmtRequest; pres 3 High1]))
    as (m' & rs & Hs & Hp & Hsort & Hnone).
  - split; try reflexivity.
    + intros n Hn. unfold unidentified. destruct (node_info m !! n) as [i|] eqn:Ei; [|reflexivity].
      apply elem_of_list_to_map_2 in Ei. repeat (apply elem_of_cons in Ei as [Ei|Ei]; [by simplify_eq|]).
      by apply elem_of_nil in Ei.
    + cbn. lia.
  - exists m', rs. split; [exact Hs|]. split; [exact Hp|]. split; [exact Hsort|exact Hnone].
Defined.
