(* ===== verification/MnBoot.v ===== *)
(** * What the managing node knows of its nodes

    The invariant of [node/mn/]: which nodes the node list records as heard, and what the
    states of the NMT machine of the managing node presuppose.  Most handlers leave the node
    list and the machine alone ([same_net], a preorder); the others are treated one by one. *)
From S2P Require Import Prelude Utf8 Types Frames Dll ErrorEntry ObjectDict OdPredefined StatusFrames Nmt.
From S2P Require Import OdSchema SdoCodec SdoServer SdoEmbedded SdoClient Node StackTypes MnState MnScheduler MnPayload MnNode.

(** ** Who has been heard *)

(** [H]: the nodes a frame was received from; [P]: those a PRes was received
    from; [L]: the mandatory nodes; [K]: the nodes of the list; [D]: a dictionary the one of the node has evolved from. *)
Definition heard_state (s : CnState) : bool :=
  match s with CnIdentified | CnPreOperational | CnOperational | CnStopped => true | _ => false end.
Definition started_state (s : NmtState) : bool :=
  match s with NmtPreOperational2 | NmtReadyToOperate | NmtOperational => true | _ => false end.
(** What the SDO client and the search for unidentified nodes rely on: every connection is well
    formed, and the node asked last is none or one of the list. *)
Record search_safe (clients : SdoClientManager) (last : NodeId) (info : gmap NodeId CnInfo) : Prop := mkSafe {
  safe_clients : mgr_wf clients;
  safe_ident : 0 <= last <= 239 /\ (last <> 0 -> is_Some (info !! last))
}.
Definition mn_safe {S Q} (m : MnContext S Q) : Prop :=
  search_safe (sdo_client_manager m) (last_ident_poll_node_id m) (node_info m).
Record mn_inv {S Q} `{ST : ObjectDictionaryStorage S} (H P : NodeId -> Prop) (L : list NodeId)
    (K : gset NodeId) (D : ObjectDictionary S) (m : MnContext S Q) : Prop := mkInv {
  inv_info : forall n i, node_info m !! n = Some i ->
    (heard_state (cn_state i) = true -> H n) /\ (communication_ok i = true -> P n);
  inv_started : started_state (mn_state m) = true -> Forall H L;
  inv_operational : mn_state m = NmtOperational -> Forall P L;
  inv_list : mandatory_nodes m = L;
  inv_od : od_evolves D (mn_od m);
  inv_safe : mn_safe m;
  inv_nodes : dom (node_info m) = K
}.

(** Steps that leave the nodes and the NMT machine alone, and keep the types of the dictionary. *)
Record same_net {S Q} `{ST : ObjectDictionaryStorage S} (m m' : MnContext S Q) : Prop := mkSame {
  same_info : node_info m' = node_info m;
  same_machine : nmt_state_machine m' = nmt_state_machine m;
  same_mandatory : mandatory_nodes m' = mandatory_nodes m;
  same_types : od_evolves (mn_od m) (mn_od m');
  same_safe : mn_safe m -> mn_safe m'
}.
#[export] Instance same_net_preorder S Q `{ST : ObjectDictionaryStorage S} : PreOrder (@same_net S Q ST).
Proof.
  split; [by split|]. intros a b c [? ? ? ?] [? ? ? ?]. split; [congruence..|by transitivity (mn_od b)|auto].
Qed.
Ltac same_od := first [reflexivity | assumption | apply types_increment | etransitivity; [|apply types_increment]; same_od].
Ltac same_mgr := unfold mn_safe; exact (fun H => H).
Ltac same := first [reflexivity | split; [reflexivity|reflexivity|reflexivity|same_od|same_mgr]].

Section Invariant.
Context {S Q : Type} `{ST : ObjectDictionaryStorage S} `{QH : RequestHeap Q}.
Context (H P : NodeId -> Prop) (L : list NodeId) (K : gset NodeId) (D : ObjectDictionary S).
Implicit Types m : MnContext S Q.

Lemma inv_same m m' : same_net m m' -> mn_inv H P L K D m -> mn_inv H P L K D m'.
Proof.
  intros [E1 E2 E3 E4 E5] [I1 I2 I3 I4 I5 I6 I7]. unfold mn_state in *.
  split; unfold mn_state; rewrite ?E1, ?E2, ?E3; auto. by transitivity (mn_od m).
Qed.

Lemma mn_event_machine e m :
  let m' := mn_nmt_event e m in
  mn_state m' = mn_next (startup_flags (nmt_state_machine m)) (mn_state m) e /\
  node_info m' = node_info m /\ mandatory_nodes m' = mandatory_nodes m /\
  (od_evolves D (mn_od m) -> od_evolves D (mn_od m')) /\ (mn_safe m -> mn_safe m').
Proof.
  unfold mn_nmt_event. destruct (mn_process_state (nmt_state_machine m) e (mn_od m)) as [Hs _].
  pose proof (types_process_event (nmt_state_machine m) e (mn_od m)) as Ho.
  destruct (process_event _ e _) as [[machine d] r]. split_and!; try done.
  intros Hd. etransitivity; [exact Hd|exact Ho].
Qed.

Lemma inv_event e m : (forall f s, mn_next f s e = s \/ started_state (mn_next f s e) = false) ->
  mn_inv H P L K D m -> mn_inv H P L K D (mn_nmt_event e m).
Proof.
  intros He [I1 I2 I3 I4 I5 I6 I7]. destruct (mn_event_machine e m) as (Es & Ei & Em & Eo & Ef).
  destruct (He (startup_flags (nmt_state_machine m)) (mn_state m)) as [E|E].
  - rewrite E in Es. split; rewrite ?Ei, ?Em, ?Es; auto.
  - rewrite <- Es in E. split; rewrite ?Ei, ?Em; [done|congruence| |done|auto..].
    intros Ho. by rewrite Ho in E.
Qed.
Lemma inv_error m : mn_inv H P L K D m -> mn_inv H P L K D (mn_nmt_event Ev_Error m).
Proof. apply inv_event. intros f []; auto. Qed.
Lemma inv_timeout m : mn_inv H P L K D m -> mn_inv H P L K D (mn_nmt_event Ev_Timeout m).
Proof. apply inv_event. intros f []; cbn; auto. destruct (bit f 13); auto. Qed.

Lemma inv_modify f n m :
  (forall i, heard_state (cn_state (f i)) = true -> heard_state (cn_state i) = true \/ H n) ->
  (forall i, communication_ok (f i) = true -> communication_ok i = true \/ P n) ->
  mn_inv H P L K D m -> mn_inv H P L K D (modify_info f n m).
Proof.
  intros Hf Pf [I1 I2 I3 I4 I5 I6 I7]. split; try done; cycle 1; [|cycle 1|].
  { destruct I6 as [S1 [S2 S3]]. split; [done|]. split; [done|]. cbn [node_info modify_info upd_node_info].
    intros Hne. by apply lookup_alter_is_Some, S3. }
  { cbn [node_info modify_info upd_node_info]. by rewrite dom_alter_L. }
  intros k i. cbn [node_info modify_info upd_node_info].
  destruct (decide (k = n)) as [->|Hne].
  - rewrite lookup_alter_eq. destruct (node_info m !! n) as [j|] eqn:Ej; [|done]. intros [= <-].
    destruct (I1 _ _ Ej). split; intros Hi; [destruct (Hf _ Hi)|destruct (Pf _ Hi)]; auto.
  - rewrite lookup_alter_ne by done. apply I1.
Qed.

Lemma check_identified info l : check_all_mandatory_identified l info = true ->
  Forall (fun n => exists i, info !! n = Some i /\ heard_state (cn_state i) = true) l.
Proof.
  unfold check_all_mandatory_identified. rewrite forallb_forall. intros Hall.
  apply List.Forall_forall. intros n Hn. specialize (Hall n Hn).
  unfold state_of in Hall. destruct (info !! n) as [i|]; [|done]. exists i. split; [done|].
  by destruct (cn_state i).
Qed.
Lemma check_verified info l : check_all_mandatory_comm_verified l info = true ->
  Forall (fun n => exists i, info !! n = Some i /\ communication_ok i = true) l.
Proof.
  unfold check_all_mandatory_comm_verified. rewrite forallb_forall. intros Hall.
  apply List.Forall_forall. intros n Hn. specialize (Hall n Hn).
  destruct (info !! n) as [i|]; [|done]. by exists i.
Qed.

Lemma inv_bootup m : mn_inv H P L K D m -> mn_inv H P L K D (check_bootup_state m).
Proof.
  intros I. pose proof I as [I1 I2 I3 I4 I5 I6 I7]. unfold check_bootup_state.
  destruct (mn_state m) eqn:Es; try done.
  - destruct (check_all_mandatory_identified _ _) eqn:Ec; [|done].
    apply (inv_same (mn_nmt_event Ev_AllCnsIdentified m)); [same|].
    destruct (mn_event_machine Ev_AllCnsIdentified m) as (Es' & Ei & Em & Eo & Ef). rewrite Es in Es'.
    split; rewrite ?Ei, ?Em, ?Es'; [done| |done|done|auto..]. intros _.
    rewrite <- I4. eapply Forall_impl; [by apply check_identified|]. intros n (i & Hi & Hh). by eapply I1.
  - destruct (_ && _) eqn:Ec; [|done].
    destruct (mn_event_machine Ev_ConfigurationCompleteCnsReady m) as (Es' & Ei & Em & Eo & Ef). rewrite Es in Es'.
    split; rewrite ?Ei, ?Em, ?Es'; auto; done.
  - destruct (_ && _) eqn:Ec; [|done]. apply andb_prop in Ec as [Ec _].
    destruct (mn_event_machine Ev_AllMandatoryCnsOperational m) as (Es' & Ei & Em & Eo & Ef). rewrite Es in Es'.
    split; rewrite ?Ei, ?Em, ?Es'; try done; [|auto..].
    intros _. rewrite <- I4. eapply Forall_impl; [by apply check_verified|]. intros n (i & Hi & Hh). by eapply I1.
Qed.

Lemma inv_update_cn_state n s m : H n -> mn_inv H P L K D m -> mn_inv H P L K D (update_cn_state m n s).
Proof.
  intros Hn I. unfold update_cn_state. destruct (node_info m !! n) as [i|]; [|done].
  case_bool_decide; [done|]. apply inv_bootup, inv_modify; [|intros j|done].
  - intros j _. by right.
  - destruct (cn_leb _ _); simpl; [by left|done].
Qed.
End Invariant.

Section Quiet.
Context {S Q : Type} `{ST : ObjectDictionaryStorage S} `{QH : RequestHeap Q}.
Implicit Types m : MnContext S Q.

Lemma same_count i s m : same_net m (mn_count i s m).
Proof. same. Qed.
Lemma same_schedule t e m : same_net m (schedule_timeout m t e).
Proof. unfold schedule_timeout. repeat case_match; same. Qed.
Lemma same_grant m : same_net m (fst (grant_or_publish m)).
Proof. unfold grant_or_publish. repeat case_match; same. Qed.

Lemma same_async_only m : same_net m (fst (find_next_async_only_to_poll m)).
Proof. unfold find_next_async_only_to_poll. repeat case_match; same. Qed.

(** A manager that was asked. *)
Lemma same_manager m mgr : (mgr_wf (sdo_client_manager m) -> mgr_wf mgr) -> same_net m (upd_sdo_client_manager mgr m).
Proof. intros Hw. split; [reflexivity..|same_od|]. intros [S1 S2]. split; [by apply Hw|done]. Qed.
Lemma same_pending m t (d : ObjectDictionary S) mgr r : mgr_get_pending_request (sdo_client_manager m) t d = Some (mgr, r) ->
  same_net m (upd_sdo_client_manager mgr m).
Proof.
  intros E. apply same_manager. intros Hw. destruct (mgr_pending_wf _ t d Hw) as (m'&r'&E'&Hw').
  rewrite E in E'. by simplify_eq.
Qed.
Lemma same_ticked m t (d : ObjectDictionary S) mgr r : mgr_tick (sdo_client_manager m) t d = Some (mgr, r) ->
  same_net m (upd_sdo_client_manager mgr m).
Proof.
  intros E. apply same_manager. intros Hw. destruct (mgr_tick_wf _ t d Hw) as (m'&r'&E'&Hw').
  rewrite E in E'. by simplify_eq.
Qed.
Lemma same_started m n start mgr r : (forall c tid, conn_wf c -> conn_wf (fst (start c tid))) ->
  start_on (sdo_client_manager m) n start = (mgr, r) -> same_net m (upd_sdo_client_manager mgr m).
Proof.
  intros Hs E. apply same_manager. intros Hw. pose proof (start_on_wf _ n start Hw Hs) as H. by rewrite E in H.
Qed.

(** The search only finds nodes of the list. *)
Lemma ident_loop_found fuel info start n : forall current wrapped, 0 <= current ->
  ident_loop fuel info start current wrapped = Some (Some n) -> 1 <= n <= 239 /\ unidentified info n = true.
Proof.
  induction fuel as [|fuel IH]; intros current wrapped Hc; [done|]. cbn [ident_loop].
  set (cur := if _ || _ then 1 else current).
  assert (1 <= cur <= 239) as Hcur.
  { unfold cur. destruct (Z.eqb_spec current 0), (Z.ltb_spec 239 current); cbn [orb]; lia. }
  destruct (_ && _); [done|]. destruct (unidentified info cur) eqn:Eu; [by intros [= <-]|].
  apply IH. apply (wrap_range 8). lia.
Qed.
Lemma same_ident m n : ident_search (node_info m) (last_ident_poll_node_id m) = Some (Some n) ->
  same_net m (upd_last_ident_poll_node_id n m).
Proof.
  unfold ident_search. generalize IDENT_FUEL as fuel. intros fuel E.
  apply ident_loop_found in E as [Hn Hu]; [|apply (wrap_range 8); lia]. split; [reflexivity..|same_od|]. intros [S1 _]. split; [done|].
  cbn [last_ident_poll_node_id upd_last_ident_poll_node_id node_info]. split; [lia|]. intros _.
  unfold unidentified in Hu. by destruct (node_info m !! n).
Qed.

Lemma same_async m m' a : determine_next_async_action m = Some (m', a) -> same_net m m'.
Proof.
  unfold determine_next_async_action.
  destruct (vec_pop (pending_er_requests m)) as [[l n]|]; [intros [= <- <-]; same|].
  destruct (vec_pop (pending_status_requests m)) as [[l n]|]; [intros [= <- <-]; same|].
  destruct (pending_nmt_commands m), (mn_async_send_queue m); try (intros [= <- <-]; same).
  destruct (mgr_get_pending_request _ _ _) as [[mgr r]|] eqn:Eg; [|done]. apply same_pending in Eg.
  destruct r as [[n r]|]; [intros [= <- <-]; (etransitivity; [exact Eg|same])|]. unfold find_next_node_to_identify.
  destruct (ident_search _ _) as [[n|]|] eqn:Ei;
    [apply same_ident in Ei; intros [= <- <-]; (etransitivity; [exact Eg|exact Ei])| |done].
  match goal with |- context [find_next_async_only_to_poll ?d] =>
    pose proof (same_async_only d) as Ha; destruct (find_next_async_only_to_poll d) as [m1 [n|]] end;
    cbn [fst] in Ha; intros [= E]; (transitivity (upd_sdo_client_manager mgr m); [exact Eg|]).
  - by subst m1.
  - pose proof (same_grant m1) as Hg. rewrite E in Hg. by etransitivity.
Qed.

Lemma same_end m t m' a : end_isochronous m t = Some (m', a) -> same_net m m'.
Proof.
  unfold end_isochronous. destruct (publish_config _ !! _) as [s|]; [intros [= <- <-]; same|].
  destruct (determine_next_async_action _) as [[m1 [[req n] er]]|] eqn:E; [|done]. apply same_async in E.
  intros [= <- _]. etransitivity; [transitivity (upd_current_phase Ph_IsochronousDone (upd_current_polled_cn None m));
    [same|exact E]|].
  unfold schedule_timeout. repeat case_match; same.
Qed.

Lemma mn_tpdo_loop_od (i limit : Z) subs : forall (c : CoreNodeContext S) buf,
  od (fst (mn_tpdo_loop i limit subs c buf)) = od c.
Proof.
  induction subs as [|s subs IH]; intros c buf; [done|]. cbn [mn_tpdo_loop].
  destruct (read (od c) i s) as [[]|]; try apply IH. cbv zeta.
  destruct (byte_offset (from_u64 v)), (byte_length (from_u64 v)) as [n|]; try apply IH. case_match; [done|].
  match goal with |- context [mn_tpdo_data c ?e n] =>
    assert (od (fst (mn_tpdo_data c e n)) = od c) as He; [|destruct (mn_tpdo_data c e n) as [c1 data]] end.
  { unfold mn_tpdo_data. case_match; [by destruct (get_pending_response _ _ _)|].
    case_match; [by destruct (SdoEmbedded.get_pending_request _ _ _)|]. by case_match. }
  cbn [fst] in He. by rewrite IH.
Qed.
Lemma mn_build_tpdo_od (c : CoreNodeContext S) i : od (fst (mn_build_tpdo_payload c i)) = od c.
Proof.
  unfold mn_build_tpdo_payload. cbv zeta. destruct (read _ _ 0) as [[]|]; try done.
  match goal with |- context [mn_tpdo_loop ?i ?l ?s c ?b] => pose proof (mn_tpdo_loop_od i l s c b) as Ho;
    destruct (mn_tpdo_loop i l s c b) as [c1 []] end; done.
Qed.

Lemma same_preq m n mux : same_net m (fst (build_preq_frame m n mux)).
Proof.
  unfold build_preq_frame. destruct (get_cn_mac_address m n); [|same].
  destruct (find_tpdo_channel _ _) as [i|]; [|same].
  pose proof (mn_build_tpdo_od (core m) i) as Ho. destruct (mn_build_tpdo_payload _ _) as [k r]. cbn [fst] in Ho.
  destruct r as [[]|]; (split; [reflexivity|reflexivity|reflexivity| |same_mgr]); change (od_evolves (od (core m)) (od k)); by rewrite Ho.
Qed.
Lemma same_poll m n t : same_net m (fst (poll_node m n t)).
Proof.
  unfold poll_node.
  match goal with |- context [build_preq_frame ?d n ?b] =>
    pose proof (same_preq d n b) as Hp; destruct (build_preq_frame d n b) as [m1 f] end.
  cbn [fst] in *. etransitivity; [|apply same_count]. etransitivity; [|exact Hp].
  etransitivity; [|apply same_schedule]. same.
Qed.

Lemma same_advance m t m' a : advance_cycle_phase m t = Some (m', a) -> same_net m m'.
Proof.
  unfold advance_cycle_phase. destruct (nmt_leb _ _); [|apply same_end].
  unfold get_next_isochronous_node_to_poll. destruct (isochronous_loop _ _ _) as [i [n|]].
  - intros [= E]. pose proof (same_poll (upd_next_isoch_node_idx i m) n t) as Hp. rewrite E in Hp.
    etransitivity; [|exact Hp]. same.
  - intros E. apply same_end in E. etransitivity; [|exact E]. same.
Qed.

Lemma same_consume m s p v rd m' : mn_consume m s p v rd = Some m' -> same_net m m'.
Proof.
  unfold mn_consume. destruct (consume_pdo_payload _ _ _ _ _) eqn:E; [|done]. apply types_consume_pdo in E.
  intros [= <-]. same.
Qed.

Lemma same_server_request m p i t : same_net m (fst (mn_server_request m p i t)).
Proof.
  unfold mn_server_request. pose proof (types_server (sdo_server (core m)) p i (mn_od m) t) as Ho.
  destruct (server_handle_request _ p i _ t) as [[srv d] r]. cbn [fst snd] in Ho. destruct r; same.
Qed.

Lemma same_tick_client m t m' a : tick_sdo_client m t = Some (m', a) -> same_net m m'.
Proof.
  unfold tick_sdo_client. destruct (mgr_tick _ _ _) as [[mgr f]|] eqn:Eg; [|done]. apply same_ticked in Eg.
  repeat case_match; intros; simplify_eq; first [exact Eg|etransitivity; [exact Eg|same]].
Qed.
Lemma same_tick_server m t : same_net m (fst (tick_sdo_server m t)).
Proof.
  unfold tick_sdo_server. destruct (next_action_time _); [|same]. destruct (_ <? _); [same|].
  destruct (server_tick _ t _) as [srv r]. repeat case_match; same.
Qed.

Lemma same_cycle_tick m t m' a : cycle_tick m t = Some (m', a) -> same_net m m'.
Proof.
  unfold cycle_tick. assert (Hi : same_net m (fst (initial_start m))).
  { unfold initial_start. repeat case_match; same. }
  destruct (initial_start m) as [m1 [a1|]]; cbn [fst] in Hi; [by intros [= <- <-]|].
  assert (Hs : forall d : MnContext S Q, same_net d (fst (send_queued d))).
  { intros d. unfold send_queued. repeat case_match; same. }
  destruct (current_phase m1); try (destruct (_ && _); intros [= <- <-]; (etransitivity; [exact Hi|same])).
  - intros E. apply same_advance in E. by etransitivity.
  - unfold send_awaited. destruct (vec_pop _) as [[l [[c n] d]]|].
    { intros [= <- <-]. etransitivity; [exact Hi|same]. }
    destruct (mgr_get_pending_request _ _ _) as [[mgr r]|] eqn:Eg; [|done]. apply (same_pending (upd_current_phase Ph_Idle m1)) in Eg.
    match goal with |- context [upd_sdo_client_manager mgr ?d] =>
      pose proof (Hs (upd_sdo_client_manager mgr d)) as Hd; assert (Hm : same_net m (upd_sdo_client_manager mgr d))
        by (etransitivity; [exact Hi|etransitivity; [|exact Eg]; same]) end.
    repeat case_match; intros E; simplify_eq; try (etransitivity; [exact Hm|same]);
      match goal with E : send_queued _ = _ |- _ => rewrite E in Hd end; by etransitivity.
Qed.
End Quiet.

Section Handlers.
Context {S Q : Type} `{ST : ObjectDictionaryStorage S} `{QH : RequestHeap Q}.
Context (H P : NodeId -> Prop) (L : list NodeId) (K : gset NodeId) (D : ObjectDictionary S).
Implicit Types m : MnContext S Q.

Lemma inv_count i s m : mn_inv H P L K D m -> mn_inv H P L K D (mn_count i s m).
Proof. apply inv_same. same. Qed.

Lemma inv_reported n m e : mn_inv H P L K D m -> mn_inv H P L K D (handle_reported_error n m e).
Proof.
  intros I. unfold handle_reported_error. destruct (manager_handle_error _ _) as [mgr [a s]].
  assert (mn_inv H P L K D (upd_dll_error_manager mgr m)) as I' by (revert I; apply inv_same; same).
  destruct a as [| |k]; cbn [apply_nmt_action]; [done| |].
  - apply (inv_same _ _ _ _ _ (mn_nmt_event Ev_Error (upd_dll_error_manager mgr m))); [same|by apply inv_error].
  - apply (inv_same _ _ _ _ _ (modify_info (info_state CnMissing) k (upd_dll_error_manager mgr m))); [same|].
    apply inv_modify; [done| |done]. intros i Hi. by left.
Qed.

Lemma inv_dll_event m e f : mn_inv H P L K D m -> mn_inv H P L K D (handle_dll_event m e f).
Proof.
  intros I. unfold handle_dll_event. destruct (DllMs_process_event _ _ _ _ _ _ _ _ _) as [s errors].
  assert (mn_inv H P L K D (upd_dll_state_machine s m)) as I' by (revert I; apply inv_same; same).
  revert I'. generalize (upd_dll_state_machine s m) as d. induction (unwrap_or errors []) as [|x l IH]; intros d Id;
    [done|]. cbn [foldl]. by apply IH, inv_reported.
Qed.

Lemma inv_pres_frame f m : P (pres_source f) -> mn_inv H P L K D m -> mn_inv H P L K D (handle_pres_frame m f).
Proof.
  intros HP I. unfold handle_pres_frame.
  assert (I1 : mn_inv H P L K D (push_async_request m f)).
  { unfold push_async_request. destruct (_ <? _); [|done]. revert I. apply inv_same. same. }
  revert I1. generalize (push_async_request m f) as d. intros d I1.
  destruct (node_info d !! pres_source f) as [i|]; [|done].
  assert (I2 : mn_inv H P L K D (note_en d (pres_source f) (pres_en (pres_flags f)) (ea_flag i))).
  { unfold note_en.
    assert (I2 : mn_inv H P L K D (modify_info (info_flags (pres_en (pres_flags f)) (ea_flag i)) (pres_source f) d)).
    { apply inv_modify; [| |done]; intros j Hj; by left. }
    destruct (_ && _); [|done]. revert I2. apply inv_same. same. }
  revert I2. generalize (note_en d (pres_source f) (pres_en (pres_flags f)) (ea_flag i)) as d2. intros d2 I2.
  destruct (_ && _); [|done]. destruct (_ <=? _); [|done].
  apply inv_bootup, inv_modify; [intros j Hj; by left|intros j _; by right|done].
Qed.

Lemma inv_checks n p t m : mn_inv H P L K D m -> mn_inv H P L K D (fst (validate_boot_step1_checks m n p t)).
Proof.
  intros I. unfold validate_boot_step1_checks. repeat (case_match; try exact I).
  all: cbn [fst]; try (apply inv_modify; [intros j Hj; by left|intros j Hj; by left|]);
    revert I; apply inv_same; (eapply same_started; [|eassumption]); intros cl tid Hcl; by apply (start_jobs_wf cl t (mn_od m)).
Qed.

Lemma inv_asnd_frame m f t : H (asnd_source f) -> mn_inv H P L K D m -> mn_inv H P L K D (handle_asnd_frame m f t).
Proof.
  intros Hf I. unfold handle_asnd_frame. destruct (asnd_service_id f); try exact I.
  - unfold handle_ident_response. destruct (node_info m !! asnd_source f); [|done].
    destruct (unidentified _ _); [|done]. destruct (IdentResponsePayload_deserialize _) as [p|]; [|done].
    pose proof (inv_checks (asnd_source f) p t m I) as Ic.
    destruct (validate_boot_step1_checks m _ p t) as [d []]; [|done]. cbn [fst] in Ic. cbv zeta.
    apply inv_bootup, inv_modify; [intros j _; by right|intros j Hj; by left|].
    revert Ic. apply inv_same. same.
  - destruct (node_info m !! asnd_source f) as [i|]; [|done].
    assert (I1 : mn_inv H P L K D (modify_info (info_flags (en_flag i) (en_flag i)) (asnd_source f) m)).
    { apply inv_modify; [| |done]; intros j Hj; by left. }
    cbv zeta. destruct (StatusResponsePayload_deserialize _); [|done]. by apply inv_update_cn_state.
Qed.

Lemma inv_pres m f t m' : H (pres_source f) -> P (pres_source f) -> mn_inv H P L K D m ->
  process_pres m f t = Some m' -> mn_inv H P L K D m'.
Proof.
  intros Hf Pf I. unfold process_pres.
  assert (I1 : mn_inv H P L K D (note_pres (mn_count TELEGR ISOCHR_RX m) f t)).
  { unfold note_pres. destruct (node_info _ !! pres_source f); [|by apply inv_count].
    apply inv_update_cn_state; [done|]. apply inv_modify; [| |by apply inv_count]; intros j Hj; by left. }
  revert I1. generalize (note_pres (mn_count TELEGR ISOCHR_RX m) f t) as m1. intros m1 I1. cbv zeta.
  destruct (_ && _); [|intros [= <-]; by apply inv_pres_frame].
  destruct (mn_consume _ _ _ _ _) as [d|] eqn:Ed; [|done]. apply same_consume in Ed.
  destruct (advance_cycle_phase _ t) as [[d2 a]|] eqn:Ea; [|done]. apply same_advance in Ea.
  intros [= <-]. apply (inv_same _ _ _ _ _ _ _ Ea). apply inv_pres_frame; [done|]. apply (inv_same _ _ _ _ _ _ _ Ed).
  revert I1. apply inv_same. same.
Qed.

(** The frames the node handles, and whom they come from. *)
Definition frame_source (f : PowerlinkFrame) : option NodeId :=
  match f with PF_PRes f => Some (pres_source f) | PF_ASnd f => Some (asnd_source f) | _ => None end.
Definition pres_from (f : PowerlinkFrame) : option NodeId :=
  match f with PF_PRes f => Some (pres_source f) | _ => None end.

Lemma inv_process_frame m f t m' : (forall n, frame_source f = Some n -> H n) ->
  (forall n, pres_from f = Some n -> P n) -> mn_inv H P L K D m ->
  mn_process_frame m f t = Some m' -> mn_inv H P L K D m'.
Proof.
  intros Hf Pf I. unfold mn_process_frame.
  match goal with |- context [handle_dll_event ?d (dll_mn_event f) f] =>
    assert (I1 : mn_inv H P L K D (handle_dll_event d (dll_mn_event f) f)) end.
  { apply inv_dll_event. destruct (nmt_event f) as [e|] eqn:Ee; [|done]. destruct (bool_decide _); [done|].
    apply inv_event; [|done]. intros fl s. destruct f; simplify_eq/=; destruct s; by left. }
  revert I1. match goal with |- mn_inv H P L K D ?d -> _ => generalize d end. intros d I1.
  destruct f as [f|f|f|f|f]; try (by intros [= <-]).
  - intros E. eapply inv_pres; [| |exact I1|exact E]; [by apply Hf|by apply Pf].
  - intros [= <-]. unfold process_asnd. cbv zeta. destruct (bool_decide _).
    + match goal with |- mn_inv H P L K D (upd_current_phase _ ?d2) => apply (inv_same _ _ _ _ _ d2); [same|] end.
      apply inv_asnd_frame; [by apply Hf|].
      apply (inv_same _ _ _ _ _ (mn_count TELEGR ASYNC_RX d)); [same|by apply inv_count].
    + apply inv_asnd_frame; [by apply Hf|by apply inv_count].
Qed.
End Handlers.

Section Entry.
Context {S Q : Type} `{ST : ObjectDictionaryStorage S} `{QH : RequestHeap Q}.
Context (H P : NodeId -> Prop) (L : list NodeId) (K : gset NodeId) (D : ObjectDictionary S).
Implicit Types m : MnContext S Q.

Lemma inv_start m t : mn_inv H P L K D m -> mn_inv H P L K D (fst (start_cycle m t)).
Proof.
  intros I. unfold start_cycle. cbv zeta. cbn [fst]. apply inv_count.
  match goal with |- mn_inv _ _ _ _ _ (upd_current_phase _ ?d) => apply (inv_same _ _ _ _ _ d); [same|] end.
  apply inv_dll_event. revert I. apply inv_same. destruct (0 <? _); same.
Qed.

Lemma inv_progress m s b p t m' a : mn_inv H P L K D m -> progress m s b p t = Some (m', a) -> mn_inv H P L K D m'.
Proof.
  intros I. unfold progress.
  destruct (_ && _); [intros E; apply same_advance in E; by apply (inv_same _ _ _ _ _ _ _ E)|].
  destruct (_ && _); [by intros [= <- _]|]. intros E. apply same_cycle_tick in E. by apply (inv_same _ _ _ _ _ _ _ E).
Qed.

Lemma inv_tick m t m' a : mn_inv H P L K D m -> handle_tick m t = Some (m', a) -> mn_inv H P L K D m'.
Proof.
  intros I. unfold handle_tick. cbv zeta.
  destruct (_ && _).
  { pose proof (inv_start m t I) as I'. destruct (start_cycle m t). by intros [= <- _]. }
  destruct (tick_sdo_client m t) as [[m1 s1]|] eqn:E1; [|done]. apply same_tick_client in E1.
  pose proof (inv_same H P L K D _ _ E1 I) as I1. destruct s1; [by intros [= <- _]|].
  pose proof (same_tick_server m1 t) as E2. destruct (tick_sdo_server m1 t) as [m2 s2]. cbn [fst] in E2.
  pose proof (inv_same H P L K D _ _ E2 I1) as I2. destruct s2; [by intros [= <- _]|].
  destruct (match next_tick_us m2 with Some _ => _ | None => _ end); [|by apply inv_progress].
  assert (I3 : mn_inv H P L K D (upd_next_tick_us None m2)) by (revert I2; apply inv_same; same).
  destruct (bool_decide _); [intros [= <- _]; by apply inv_timeout|].
  destruct (pending_timeout_event _); [|by apply inv_progress].
  intros E. apply same_advance in E. apply (inv_same _ _ _ _ _ _ _ E), inv_dll_event. revert I3. apply inv_same. same.
Qed.

Lemma inv_asnd_entry m f t m' a : H (asnd_source f) -> mn_inv H P L K D m ->
  process_asnd_frame m f t = Some (m', a) -> mn_inv H P L K D m'.
Proof.
  intros Hf I. unfold process_asnd_frame.
  pose proof (inv_count H P L K D TELEGR SDO_RX m I) as Ic.
  destruct (_ && _).
  - destruct (_ <? _)%nat; [by intros [= <- _]|].
    destruct (SequenceLayerHeader_deserialize _) as [sq|] eqn:Es; [|by intros [= <- _]].
    destruct (SdoCommand_deserialize _); [|by intros [= <- _]].
    destruct (mgr_handle_response _ _ _ _) as [mgr|] eqn:Eg; [|done]. intros [= <- _]. revert Ic. apply inv_same.
    apply same_manager. intros Hw. eapply mgr_response_wf; [exact Hw| |exact Eg]. by eapply seq_deserialize_ok.
  - destruct (_ && _).
    + unfold handle_sdo_server_request.
      match goal with |- context [mn_server_request ?d ?p ?c t] => pose proof (same_server_request d p c t) as E;
        destruct (mn_server_request d p c t) as [m1 r] end.
      cbn [fst] in E. pose proof (inv_same H P L K D _ _ E Ic) as I1.
      destruct r; intros [= <- _]; [by apply inv_count|done].
    + destruct (mn_process_frame _ _ _) as [d|] eqn:E; [|done]. intros [= <- _].
      eapply inv_process_frame; [| |exact I|exact E]; [by intros n [= <-]|done].
Qed.

Lemma inv_ethernet m buf t m' a :
  (forall f, deserialize_frame buf = Ok f ->
     (forall n, frame_source f = Some n -> H n) /\ (forall n, pres_from f = Some n -> P n)) ->
  mn_inv H P L K D m -> mn_process_ethernet_frame m buf t = Some (m', a) -> mn_inv H P L K D m'.
Proof.
  intros Hb I. unfold mn_process_ethernet_frame.
  destruct (bool_decide _); [intros [= <- _]; by apply inv_error|].
  destruct (deserialize_frame buf) as [f|]; [|by intros [= <- _]]. destruct (Hb _ eq_refl) as [Hf Pf].
  unfold process_powerlink_frame. destruct f as [f|f|f|f|f]; try (by intros [= <- _]).
  - destruct (mn_process_frame _ _ _) as [d|] eqn:E; [|done]. intros [= <- _].
    by eapply inv_process_frame; [exact Hf|exact Pf|exact I|exact E].
  - apply inv_asnd_entry; [by apply Hf|done].
Qed.

Lemma same_udp m p ip port t : same_net m (fst (mn_process_udp_datagram m p ip port t)).
Proof.
  unfold mn_process_udp_datagram. destruct (deserialize_sdo_udp_payload p) as [[h c]|]; [|same].
  match goal with |- context [mn_server_request ?d ?q ?c t] => pose proof (same_server_request d q c t) as E;
    destruct (mn_server_request d q c t) as [m1 r] end.
  cbn [fst] in E. destruct r; (etransitivity; [|exact E]); same.
Qed.

Lemma inv_run_cycle m eth udp t m' a :
  (forall buf f, eth = Some buf -> deserialize_frame buf = Ok f ->
     (forall n, frame_source f = Some n -> H n) /\ (forall n, pres_from f = Some n -> P n)) ->
  mn_inv H P L K D m -> mn_run_cycle m eth udp t = Some (m', a) -> mn_inv H P L K D m'.
Proof.
  intros Hb I. unfold mn_run_cycle.
  match goal with |- context [match ?e with Some _ => _ | None => None end] =>
    assert (I1 : forall m1 a1, e = Some (m1, a1) -> mn_inv H P L K D m1); [|destruct e as [[m1 a1]|]; [|done]] end.
  { intros m1 a1. destruct eth as [buf|]; [|by intros [= <- _]]. destruct (is_epl buf); [|by intros [= <- _]].
    apply inv_ethernet; [|done]. intros f. by apply Hb. }
  specialize (I1 _ _ eq_refl). destruct (negb _); [by intros [= <- _]|].
  destruct udp as [[[buf ip] port]|].
  - pose proof (same_udp m1 buf ip port t) as E. destruct (mn_process_udp_datagram m1 buf ip port t) as [m2 a2].
    cbn [fst] in E. pose proof (inv_same H P L K D _ _ E I1) as I2.
    assert (I3 : mn_inv H P L K D (match a2 with SendUdp _ _ _ => mn_count TELEGR SDO_TX m2 | _ => m2 end)).
    { destruct a2; try done. by apply inv_count. }
    destruct (negb _); [by intros [= <- _]|]. by apply inv_tick.
  - destruct (negb _); [by intros [= <- _]|]. by apply inv_tick.
Qed.
End Entry.

(** ** Runs *)
(** The nodes the frames of a run come from, and those a PRes came from. *)
Definition heard_from (source : PowerlinkFrame -> option NodeId) (ins : list MnInput) (n : NodeId) : Prop :=
  exists buf udp t f, Mn_Cycle (Some buf) udp t ∈ ins /\ deserialize_frame buf = Ok f /\ source f = Some n.

(** A node that object 0x1F81 assigns as mandatory: bits 0 and 3 of its entry. *)
Definition mandatory_in {S} (d : ObjectDictionary S) (n : NodeId) : Prop :=
  exists entries i a, read_object d 0x1F81 = Some (Obj_Array entries) /\
    entries !! i = Some (OV_Unsigned32 a) /\ bit a 0 = true /\ bit a 3 = true /\
    NodeId_try_from (u8 (Z.of_nat i + 1)) = Ok n.

Section RunFacts.
Context {S Q : Type} `{ST : ObjectDictionaryStorage S} `{QH : RequestHeap Q}.
Implicit Types m : MnContext S Q.

Lemma inv_input H P L K D i m m' a :
  (forall n, heard_from frame_source [i] n -> H n) -> (forall n, heard_from pres_from [i] n -> P n) ->
  mn_inv H P L K D m -> mn_input i m = Some (m', a) -> mn_inv H P L K D m'.
Proof.
  intros Hi Pi I. destruct i as [eth udp t|cmd target|target h|target|target ix s t|target ix s data t];
    cbn [mn_input].
  - apply inv_run_cycle; [|done]. intros buf f -> Ef. split; intros n En.
    + apply Hi. exists buf, udp, t, f. split_and!; [by left|done|done].
    + apply Pi. exists buf, udp, t, f. split_and!; [by left|done|done].
  - intros [= <- _]. revert I. apply inv_same. same.
  - intros [= <- _]. revert I. apply inv_same. unfold set_hostname. repeat case_match; same.
  - intros [= <- _]. revert I. apply inv_same. same.
  - intros [= <- _]. revert I. apply inv_same. unfold mn_read_object.
    destruct (read_object_by_index _ _ _ _ _ _) eqn:E. eapply same_started; [|exact E].
    intros cl tid Hc. by apply (start_jobs_wf cl t (mn_od m)).
  - intros [= <- _]. revert I. apply inv_same. unfold mn_write_object.
    destruct (write_object_by_index _ _ _ _ _ _ _) eqn:E. eapply same_started; [|exact E].
    intros cl tid Hc. by apply (start_jobs_wf cl t (mn_od m)).
Qed.

Lemma inv_run H P L K D ins : forall m m' actions,
  (forall n, heard_from frame_source ins n -> H n) -> (forall n, heard_from pres_from ins n -> P n) ->
  mn_inv H P L K D m -> mn_run ins m = Some (m', actions) -> mn_inv H P L K D m'.
Proof.
  induction ins as [|i ins IH]; intros m m' actions Hi Pi I; cbn [mn_run]; [by intros [= <- _]|].
  destruct (mn_input i m) as [[m1 a]|] eqn:E1; [|done].
  destruct (mn_run ins m1) as [[m2 l]|] eqn:E2; [|done]. intros [= <- _].
  assert (Hm : forall src n, heard_from src [i] n -> heard_from src (i :: ins) n).
  { intros src n (b & u & t & f & Hin & ?). exists b, u, t, f. split; [|done].
    apply list_elem_of_singleton in Hin as <-. by left. }
  assert (Ht : forall src n, heard_from src ins n -> heard_from src (i :: ins) n).
  { intros src n (b & u & t & f & Hin & ?). exists b, u, t, f. split; [by right|done]. }
  eapply IH; [| | |exact E2]; [by eauto|by eauto|].
  eapply inv_input; [| |exact I|exact E1]; eauto.
Qed.

(** The lists of the configuration. *)
Lemma assign_all (d : ObjectDictionary S) l : forall nl k,
  (forall n i, nl_node_info nl !! n = Some i -> i = CnInfo_default) ->
  let r := foldl (assign_node d) nl (zip (seq k (length l)) l) in
  (forall n i, nl_node_info r !! n = Some i -> i = CnInfo_default) /\
  (forall n, n ∈ nl_mandatory r <-> n ∈ nl_mandatory nl \/
     exists i a, l !! i = Some (OV_Unsigned32 a) /\ bit a 0 = true /\ bit a 3 = true /\
       NodeId_try_from (u8 (Z.of_nat (k + i) + 1)) = Ok n).
Proof.
  induction l as [|v l IH]; intros nl k Hd; cbn [length seq zip zip_with foldl].
  { split; [done|]. intros n. split; [by left|]. intros [?|(i & a & Hi & _)]; [done|by rewrite lookup_nil in Hi]. }
  assert (Hv : (forall n i, nl_node_info (assign_node d nl (k, v)) !! n = Some i -> i = CnInfo_default) /\
    (forall n, n ∈ nl_mandatory (assign_node d nl (k, v)) <-> n ∈ nl_mandatory nl \/
       exists a, v = OV_Unsigned32 a /\ bit a 0 = true /\ bit a 3 = true /\
         NodeId_try_from (u8 (Z.of_nat k + 1)) = Ok n)).
  { unfold assign_node. cbn [fst snd].
    destruct v as [x|x|x|x|x|x|x|z|x|x|x|x|x|x|x|x|x|x|x|x]; try (split; [done|]; intros n; split; [by left|intros [?|(? & ? & _)]; done]).
    destruct (bit z 0) eqn:E0; [|split; [done|]; intros n; split; [by left|intros [?|(? & ? & ? & _)]; [done|congruence]]].
    destruct (NodeId_try_from _) as [q|] eqn:Eq;
      [|split; [done|]; intros n; split; [by left|intros [?|(? & _ & _ & _ & ?)]; done]].
    split.
    - assert (forall n i, (<[q:=CnInfo_default]> (nl_node_info nl)) !! n = Some i -> i = CnInfo_default).
      { intros n i. rewrite lookup_insert_Some. intros [[_ <-]|[_ ?]]; [done|by eapply Hd]. }
      destruct (negb _); done.
    - intros n. destruct (negb _); cbn [nl_mandatory]; (destruct (bit z 3) eqn:E3;
        [rewrite elem_of_app, list_elem_of_singleton|]; split;
        [intros [?| ->]; [by left|right; by exists z]
        |intros [?|(a & ? & ? & ? & ?)]; [by left|right; congruence]
        |by left|intros [?|(a & ? & ? & ? & ?)]; [done|congruence]]). }
  destruct Hv as [H1 H2]. destruct (IH (assign_node d nl (k, v)) (Datatypes.S k) H1) as [R1 R2]. split; [exact R1|].
  intros n. rewrite R2, H2. split.
  - intros [[?|(a & -> & ?)]|(i & a & ? & ? & ? & ?)]; [by left| |].
    + right. exists 0%nat, a. by rewrite Nat.add_0_r.
    + right. exists (Datatypes.S i), a. by replace (k + Datatypes.S i)%nat with (Datatypes.S k + i)%nat by lia.
  - intros [?|([|i] & a & ? & ? & ? & ?)]; [by do 2 left| |].
    + left. right. exists a. rewrite Nat.add_0_r in *. simplify_eq/=. done.
    + right. exists i, a. by replace (Datatypes.S k + i)%nat with (k + Datatypes.S i)%nat by lia.
Qed.

(** The nodes of the isochronous phase and the others ([async]), by bit 8 of their assignment. *)
Definition listed (async : bool) (nl : NodeLists) : list NodeId :=
  if async then nl_async_only nl else nl_isochronous nl.
Definition assigned (async : bool) (entries : list ObjectValue) (k : nat) (n : NodeId) : Prop :=
  exists i a, entries !! i = Some (OV_Unsigned32 a) /\ bit a 0 = true /\ bit a 8 = async /\
    NodeId_try_from (u8 (Z.of_nat (k + i) + 1)) = Ok n.

Lemma assign_node_listed (d : ObjectDictionary S) nl k v async n :
  n ∈ listed async (assign_node d nl (k, v)) ->
  n ∈ listed async nl \/ exists a, v = OV_Unsigned32 a /\ bit a 0 = true /\ bit a 8 = async /\
    NodeId_try_from (u8 (Z.of_nat k + 1)) = Ok n.
Proof.
  unfold assign_node. cbn [fst snd]. destruct v; try (by left). destruct (bit v 0) eqn:E0; [|by left].
  destruct (NodeId_try_from _) as [q|] eqn:Eq; [|by left].
  destruct (bit v 8) eqn:E8, async; cbn [negb listed nl_isochronous nl_async_only]; try (by left);
    (rewrite elem_of_app, list_elem_of_singleton; intros [?| ->]; [by left|right; by exists v]).
Qed.

Lemma assign_listed (d : ObjectDictionary S) async n l : forall nl k,
  n ∈ listed async (foldl (assign_node d) nl (zip (seq k (length l)) l)) ->
  n ∈ listed async nl \/ assigned async l k n.
Proof.
  induction l as [|v l IH]; intros nl k; cbn [length seq zip zip_with foldl]; [by left|].
  intros Hn. apply IH in Hn as [Hn|(i & a & Hi & ?)].
  - apply assign_node_listed in Hn as [Hn|(a & -> & ?)]; [by left|right].
    exists 0%nat, a. by rewrite Nat.add_0_r.
  - right. exists (Datatypes.S i), a. by replace (k + Datatypes.S i)%nat with (Datatypes.S k + i)%nat by lia.
Qed.

Lemma new_listed d mac cfg m : mn_new d mac cfg = Ok m ->
  exists entries, read_object (fst (init d)) 0x1F81 = Some (Obj_Array entries) /\
    (forall n, n ∈ isochronous_nodes m -> assigned false entries 0 n) /\
    (forall n, n ∈ async_only_nodes m -> assigned true entries 0 n).
Proof.
  unfold mn_new. destruct (init d) as [d1 [[]|]]; [|done]. cbn [fst].
  destruct (validate_mandatory_objects d1 true) as [[]|]; [|done].
  destruct (mn_from_od d1) as [machine|]; [|done]. destruct (ok_or _ _) as [ct|]; [|done].
  destruct (parse_mn_node_lists d1) as [nl|] eqn:El; [|done].
  destruct (run_internal_initialisation machine d1) as [m1 d2]. intros [= <-].
  revert El. unfold parse_mn_node_lists. destruct (read_object d1 0x1F81) as [[|vs|]|]; try done.
  intros [= <-]. exists vs. split; [done|]. cbn [isochronous_nodes async_only_nodes].
  split; intros n Hn; [pose proof (assign_listed d1 false n vs _ 0 Hn) as Ha|
                       pose proof (assign_listed d1 true n vs _ 0 Hn) as Ha];
    (destruct Ha as [Ha|Ha]; [by apply not_elem_of_nil in Ha|done]).
Qed.

Lemma new_inv d mac cfg m : mn_new d mac cfg = Ok m ->
  mn_inv (fun _ => False) (fun _ => False) (mandatory_nodes m) (dom (node_info m))
    (populate_protocol_objects d) m /\
  (forall n, n ∈ mandatory_nodes m <-> mandatory_in (fst (init d)) n).
Proof.
  unfold mn_new. pose proof (types_init d) as Ho.
  destruct (init d) as [d1 r]. destruct r as [[]|]; [|done]. cbn [fst] in Ho.
  destruct (validate_mandatory_objects d1 true) as [[]|]; [|done].
  destruct (mn_from_od d1) as [machine|] eqn:Em; [|done].
  destruct (ok_or _ _) as [ct|]; [|done].
  assert (mn_current_state machine = NmtGsInitialising) as Hs.
  { revert Em. unfold mn_from_od.
    destruct (read d1 0x1F82 0) as [[]|]; try done. cbn [ok_or].
    destruct (read d1 0x1F89 1) as [[]|]; try done. cbn [ok_or].
    destruct (read d1 0x1F80 0) as [[]|]; try done. cbn [ok_or]. by intros [= <-]. }
  destruct (parse_mn_node_lists d1) as [nl|] eqn:El; [|done].
  unfold run_internal_initialisation. cbn [current_state MnNmt_core]. rewrite Hs.
  rewrite bool_decide_eq_true_2 by done. cbn [negb].
  pose proof (types_reset_od machine Ev_SwReset d1) as Hr.
  destruct (reset machine Ev_SwReset d1) as [m1 d2] eqn:Er. intros [= <-]. cbn [snd] in Hr.
  assert (mn_current_state m1 = NmtNotActive) as Hm1.
  { change m1 with (fst (m1, d2)). by rewrite <- Er. }
  cbn [mandatory_nodes fst].
  revert El. unfold parse_mn_node_lists. destruct (read_object d1 0x1F81) as [[|vs|]|] eqn:Eo; try done.
  intros [= <-]. unfold enumerate.
  destruct (assign_all d1 vs (mkNodeLists ∅ [] [] [] ∅) 0) as [R1 R2].
  { intros n i. cbn [nl_node_info]. by rewrite lookup_empty. }
  split.
  - split; cbn [node_info mandatory_nodes]; unfold mn_state; cbn [nmt_state_machine current_state MnNmt_core];
      rewrite ?Hm1; [|done|done|done|by transitivity d1
                    |split; [apply map_Forall_empty|cbn [last_ident_poll_node_id]; split; [lia|done]]|done].
    intros n i Hi. by rewrite (R1 _ _ Hi).
  - intros n. rewrite R2. cbn [nl_mandatory]. split.
    + intros [Hn|(i & a & Hi)]; [by apply not_elem_of_nil in Hn|]. exists vs, i, a. done.
    + intros (l & i & a & Hl & Hi). rewrite Eo in Hl. simplify_eq. right. by exists i, a.
Qed.
End RunFacts.

(** A node that manages node 5, which is mandatory. *)
Definition demo_mn_od : ObjectDictionary MemStorage :=
  match new_mn_default 240 with
  | Ok d => insert_entry d 0x1F81 (mkObjectEntry
      (Obj_Array ([OV_Unsigned32 0; OV_Unsigned32 0; OV_Unsigned32 0; OV_Unsigned32 0; OV_Unsigned32 9]))
      "NMT_NodeAssignment_AU32" Cat_Mandatory (Some ReadWrite) None None None)
  | Err _ => ObjectDictionary_new None
  end.
Definition demo_report (s : NmtState) : MnInput :=
  Mn_Cycle (Some (frame_bytes true (PF_PRes (PResFrame_new demo_mac 5 s
    (mkPResFlags false false false High2 0) 0 [])))) None 3000000.
Definition demo_mn_inputs : list MnInput :=
  [Mn_Cycle None None 0; Mn_Cycle None None 2000000; demo_report NmtPreOperational1;
   demo_report NmtPreOperational2; demo_report NmtReadyToOperate].

(** The invariant after any run of a new node. *)
Lemma run_from_new {S Q} `{ST : ObjectDictionaryStorage S} `{QH : RequestHeap Q}
    d mac cfg (m m' : MnContext S Q) inputs actions :
  mn_new d mac cfg = Ok m -> mn_run inputs m = Some (m', actions) ->
  mn_inv (heard_from frame_source inputs) (heard_from pres_from inputs) (mandatory_nodes m)
    (dom (node_info m)) (populate_protocol_objects d) m' /\
  (forall n, n ∈ mandatory_nodes m <-> mandatory_in (fst (init d)) n).
Proof.
  intros Hn Hr. destruct (new_inv d mac cfg m Hn) as [I HL]. split; [|exact HL].
  eapply inv_run; [by eauto|by eauto| |exact Hr]. destruct I as [I1 I2 I3 I4 I5 I6 I7]. split; [| | |done..].
  - intros n i Hi. destruct (I1 n i Hi) as [Hh Hc]. split; intros Hx; [destruct (Hh Hx)|destruct (Hc Hx)].
  - intros Hx. eapply Forall_impl; [exact (I2 Hx)|done].
  - intros Hx. eapply Forall_impl; [exact (I3 Hx)|done].
Qed.

(** ** Properties *)

(** C2: A managing node starts the network only with nodes it has heard.  From its creation on,
    whatever frames, datagrams and times [run_cycle] is given and whatever the application asks
    for: a node is recorded as identified, pre-operational, operational or stopped only when a
    PRes or ASnd frame of that node was received; the managing node is in
    NMT_MS_PRE_OPERATIONAL_2 or beyond only when every node that object 0x1F81 assigns as
    mandatory was heard; and it is in NMT_MS_OPERATIONAL only when a PRes of every mandatory
    node was received. *)
Theorem mn_starts_heard_nodes {S Q} `{ST : ObjectDictionaryStorage S} `{QH : RequestHeap Q}
    d mac cfg (m m' : MnContext S Q) inputs actions :
  mn_new d mac cfg = Ok m -> mn_run inputs m = Some (m', actions) ->
  (forall n i, node_info m' !! n = Some i -> heard_state (cn_state i) = true ->
     heard_from frame_source inputs n) /\
  (started_state (mn_state m') = true -> forall n, mandatory_in (fst (init d)) n ->
     heard_from frame_source inputs n) /\
  (mn_state m' = NmtOperational -> forall n, mandatory_in (fst (init d)) n -> heard_from pres_from inputs n).
Proof.
  intros Hn Hr. destruct (run_from_new d mac cfg m m' inputs actions Hn Hr) as [[I1 I2 I3 _ _ _ _] HL].
  split_and!.
  - intros n i Hi. apply (I1 n i Hi).
  - intros Hs n Hm. apply HL in Hm. specialize (I2 Hs). rewrite Forall_forall in I2. by apply I2.
  - intros Hs n Hm. apply HL in Hm. specialize (I3 Hs). rewrite Forall_forall in I3. by apply I3.
Qed.

Lemma mn_starts_heard_nodes_witness :
  exists (m m' : MnContext MemStorage (list AsyncRequest)) actions,
  mn_new demo_mn_od demo_mac None = Ok m /\ mn_run demo_mn_inputs m = Some (m', actions) /\
  mn_state m' = NmtOperational /\
  ((forall n i, node_info m' !! n = Some i -> heard_state (cn_state i) = true ->
     heard_from frame_source demo_mn_inputs n) /\
  (started_state (mn_state m') = true -> forall n, mandatory_in (fst (init demo_mn_od)) n ->
     heard_from frame_source demo_mn_inputs n) /\
  (mn_state m' = NmtOperational -> forall n, mandatory_in (fst (init demo_mn_od)) n ->
     heard_from pres_from demo_mn_inputs n)).
Proof.
  assert (match mn_new demo_mn_od demo_mac None with
    | Ok m => option_map (fun r => mn_state (fst r)) (mn_run (Q := list AsyncRequest) demo_mn_inputs m)
    | Err _ => None end = Some NmtOperational) as H by (vm_compute; reflexivity).
  destruct (mn_new (Q := list AsyncRequest) demo_mn_od demo_mac None) as [m|] eqn:En; [|discriminate H].
  destruct (mn_run demo_mn_inputs m) as [[m' actions]|] eqn:Er; [|discriminate H].
  exists m, m', actions. split; [reflexivity|]. split; [exact Er|]. split; [simpl in H; congruence|].
  apply (mn_starts_heard_nodes demo_mn_od demo_mac None m m' demo_mn_inputs actions); [exact En|exact Er].
Defined.
