(* ===== verification/MnQuiet.v ===== *)
(** * A managing node without process data

    What a frame says survives the wire whatever the addresses in its Ethernet header are.  With
    that, what a managing node says and learns while it hears no PRes: it then asks only the nodes
    that are not isochronous for their status, polls none, and so hears none ([node/mn/]). *)
From S2P Require Import Prelude Utf8 Types Frames Dll ErrorEntry ObjectDict OdPredefined StatusFrames Nmt.
From S2P Require Import SdoCodec SdoServer SdoEmbedded SdoClient Node MnState MnScheduler MnPayload MnNode MnBoot.

(** ** What a frame says on the wire *)
Definition frame_type (F : PowerlinkFrame) : MessageType :=
  match F with
  | PF_Soc f => soc_message_type f | PF_PReq f => preq_message_type f | PF_PRes f => pres_message_type f
  | PF_SoA f => soa_message_type f | PF_ASnd f => asnd_message_type f
  end.
(** A frame as its constructor makes it. *)
Definition typed (F : PowerlinkFrame) : Prop :=
  frame_type F = match F with
                 | PF_Soc _ => MT_SoC | PF_PReq _ => MT_PReq | PF_PRes _ => MT_PRes
                 | PF_SoA _ => MT_SoA | PF_ASnd _ => MT_ASnd
                 end.

(** The parsed frame [f] says what the sent frame [F] says: its kind, whom it is for and from,
    the state of a PRes, the services of an SoA and an ASnd. *)
Definition same_message (F f : PowerlinkFrame) : Prop :=
  match F, f with
  | PF_Soc _, PF_Soc _ => True
  | PF_PReq a, PF_PReq b => preq_destination b = preq_destination a
  | PF_PRes a, PF_PRes b => pres_source b = pres_source a /\ pres_nmt_state b = pres_nmt_state a
  | PF_SoA a, PF_SoA b =>
      soa_req_service_id b = soa_req_service_id a /\ soa_target_node_id b = soa_target_node_id a
  | PF_ASnd a, PF_ASnd b =>
      asnd_service_id b = asnd_service_id a /\ asnd_source b = asnd_source a /\
      asnd_destination b = asnd_destination a
  | _, _ => False
  end.

Lemma length_put_ge (buf : bytes) off bs : (length buf <= length (put buf off bs))%nat.
Proof. unfold put. rewrite !length_app, length_take, length_drop. lia. Qed.
Lemma length_eth_header h (buf : bytes) : (length buf <= length (serialize_eth_header h buf))%nat.
Proof.
  unfold serialize_eth_header. destruct (14 <=? length buf)%nat; [|done].
  do 2 (etransitivity; [|apply length_put_ge]). apply length_put_ge.
Qed.

(** Behind the 14 octets of the Ethernet header is the encoding of the frame. *)
Lemma sent_octets is_cn F b : serialize_frame_action is_cn F = Ok (SendFrame b) ->
  may_send is_cn F = true /\ drop 14 b = PowerlinkFrame_wire F.
Proof.
  unfold serialize_frame_action. destruct (may_send is_cn F); cbn [negb]; [|done].
  pose proof (length_eth_header (ethernet_header F) (replicate 1518 0)) as Hl. rewrite length_replicate in Hl.
  revert Hl. generalize (serialize_eth_header (ethernet_header F) (replicate 1518 0)) as buf. intros buf Hl.
  pose proof (PowerlinkFrame_wire_min F) as Hm.
  destruct (Nat.ltb_spec (length (drop 14 buf)) (length (PowerlinkFrame_wire F))) as [Hs|Hs].
  - pose proof (PowerlinkFrame_serialize_too_short F _ Hs) as He.
    destruct (PowerlinkFrame_serialize F _) as [? r]. cbn [snd] in He. by subst r.
  - rewrite PowerlinkFrame_serialize_fits by done. rewrite (nat_ltb_false _ 60) by lia.
    rewrite Nat.max_l by lia. intros [= <-]. split; [done|].
    match goal with |- drop 14 (take ?n _) = _ => change n with (14 + length (PowerlinkFrame_wire F))%nat end.
    rewrite take_app_add' by (rewrite length_take; lia). rewrite drop_app_length' by (rewrite length_take; lia).
    by rewrite take_app_length.
Qed.

Lemma wire_first F : byte_at (PowerlinkFrame_wire F) 0 = MessageType_as_u8 (frame_type F).
Proof. by destruct F. Qed.

(** The parsers, on any encoding. *)
Lemma preq_says h F f : PReqFrame_deserialize h (PReqFrame_wire F) = Ok f ->
  preq_destination f = preq_destination F.
Proof.
  unfold PReqFrame_deserialize. destruct (_ <? _)%nat; [done|].
  unfold PReqFrame_wire at 1, pad46 at 1. rewrite <- !app_assoc, deserialize_pl_header_spec.
  cbv zeta iota beta. destruct (negb _); [done|]. destruct (_ <? _)%nat; [done|]. by intros [= <-].
Qed.
Lemma pres_says h F f : PResFrame_deserialize h (PResFrame_wire F) = Ok f ->
  pres_source f = pres_source F /\ pres_nmt_state f = pres_nmt_state F.
Proof.
  unfold PResFrame_deserialize. destruct (_ <? _)%nat; [done|].
  unfold PResFrame_wire at 1, pad46 at 1. rewrite <- !app_assoc, deserialize_pl_header_spec.
  change (byte_at (PResFrame_wire F) 3) with (NmtState_as_u8 (pres_nmt_state F)).
  rewrite NmtState_round. cbv zeta iota beta. destruct (negb _); [done|]. destruct (negb _); [done|].
  destruct (PRFlag_try_from _); [|done]. destruct (_ <? _)%nat; [done|]. by intros [= <-].
Qed.
Lemma soa_says h F f : SoAFrame_deserialize h (SoAFrame_wire F) = Ok f ->
  soa_req_service_id f = soa_req_service_id F /\ soa_target_node_id f = soa_target_node_id F.
Proof.
  unfold SoAFrame_deserialize. destruct (_ <? _)%nat; [done|].
  unfold SoAFrame_wire at 1. rewrite deserialize_pl_header_spec.
  change (byte_at (SoAFrame_wire F) 3) with (NmtState_as_u8 (soa_nmt_state F)).
  change (byte_at (SoAFrame_wire F) 6) with (RequestedServiceId_as_u8 (soa_req_service_id F)).
  rewrite NmtState_round, RequestedServiceId_round. cbv zeta iota beta. destruct (negb _); [done|].
  by intros [= <-].
Qed.
Lemma asnd_says h F f : ASndFrame_deserialize h (ASndFrame_wire F) = Ok f ->
  asnd_service_id f = asnd_service_id F /\ asnd_source f = asnd_source F /\
  asnd_destination f = asnd_destination F.
Proof.
  unfold ASndFrame_deserialize. destruct (_ <? _)%nat; [done|].
  unfold ASndFrame_wire at 1, pad46 at 1. rewrite <- !app_assoc, deserialize_pl_header_spec.
  change (byte_at (ASndFrame_wire F) 3) with (ServiceId_as_u8 (asnd_service_id F)).
  rewrite ServiceId_round. cbv zeta iota beta. destruct (negb _); [done|]. by intros [= <-].
Qed.

(** What is parsed of a frame that was sent. *)
Lemma sent_message is_cn F b f : typed F ->
  serialize_frame_action is_cn F = Ok (SendFrame b) -> deserialize_frame b = Ok f -> same_message F f.
Proof.
  intros Ht Hs Hd. apply sent_octets in Hs as [_ Hw]. revert Hd. unfold deserialize_frame.
  destruct (deserialize_eth_header b) as [h|]; [|done]. destruct (negb _); [done|]. rewrite Hw.
  pose proof (wire_first F) as H0. rewrite Ht in H0. unfold byte_at in H0. clear Ht Hw.
  destruct (PowerlinkFrame_wire F) as [|b0 l] eqn:Ew; [by intros [= <-]|]. cbn in H0. subst b0.
  destruct F as [F|F|F|F|F]; cbv beta iota zeta; cbn [PowerlinkFrame_wire] in Ew.
  - change (MessageType_try_from _) with (Ok (E:=PowerlinkError) MT_SoC). cbv beta iota zeta.
    by destruct (deserialize h _); intros [= <-].
  - change (MessageType_try_from _) with (Ok (E:=PowerlinkError) MT_PReq). cbv beta iota zeta.
    rewrite <- Ew. destruct (deserialize h _) eqn:E; intros [= <-]. by apply preq_says in E.
  - change (MessageType_try_from _) with (Ok (E:=PowerlinkError) MT_PRes). cbv beta iota zeta.
    rewrite <- Ew. destruct (deserialize h _) eqn:E; intros [= <-]. by apply pres_says in E.
  - change (MessageType_try_from _) with (Ok (E:=PowerlinkError) MT_SoA). cbv beta iota zeta.
    rewrite <- Ew. destruct (deserialize h _) eqn:E; intros [= <-]. by apply soa_says in E.
  - change (MessageType_try_from _) with (Ok (E:=PowerlinkError) MT_ASnd). cbv beta iota zeta.
    rewrite <- Ew. destruct (deserialize h _) eqn:E; intros [= <-]. by apply asnd_says in E.
Qed.

(** ** What a managing node says that hears no PRes *)

(** [A]: the nodes of its list that are polled for their status only; [id]: its own number. *)
Section ManagingNode.
Context {S Q : Type} `{ST : ObjectDictionaryStorage S} `{QH : RequestHeap Q}.
Context (A I : list NodeId) (id : NodeId).
Implicit Types m : MnContext S Q.

Definition mn_frame (F : PowerlinkFrame) : Prop :=
  typed F /\
  match F with
  | PF_Soc _ => True
  | PF_SoA f => soa_req_service_id f = Req_StatusRequest -> soa_target_node_id f ∈ A
  | PF_ASnd f => (asnd_source f = C_ADR_MN_DEF_NODE_ID \/ asnd_source f = id) /\
                 (asnd_service_id f = Svc_StatusResponse -> asnd_source f = C_ADR_MN_DEF_NODE_ID)
  | _ => False
  end.
Definition mn_says (a : NodeAction) : Prop :=
  match a with
  | SendFrame b => exists F, mn_frame F /\ serialize_frame_action false F = Ok (SendFrame b)
  | _ => True
  end.

(** The nodes whose state it can learn beyond their identification. *)
Definition reporting (n : NodeId) : Prop := n ∈ C_ADR_MN_DEF_NODE_ID :: A.
Definition beyond (s : NmtState) : Prop := s = NmtReadyToOperate \/ s = NmtOperational.
Record calm m : Prop := mkCalm {
  calm_isochronous : isochronous_nodes m = I;
  calm_async : async_only_nodes m = A;
  calm_er : pending_er_requests m = [];
  calm_status : pending_status_requests m = [];
  calm_timeout : pending_timeout_event m <> Some ME_PresTimeout;
  calm_queue : Forall mn_frame (mn_async_send_queue m);
  calm_id : mn_node_id (nmt_state_machine m) = id;
  calm_info : forall n i, node_info m !! n = Some i -> cn_leb CnPreOperational (cn_state i) = true ->
    reporting n;
  calm_ready : beyond (mn_state m) -> Forall reporting (mandatory_nodes m)
}.

(** Steps that change nothing of this. *)
Ltac still H := destruct H as [? ? ? ? ? ? ? ? ?]; split; (assumption || done).

Lemma says_action F : mn_frame F -> mn_says (action_of (serialize_frame_action false F)).
Proof.
  intros HF. destruct (serialize_frame_action false F) as [[b| |]|] eqn:E; try done. by exists F.
Qed.
Lemma calm_count i s m : calm m -> calm (mn_count i s m).
Proof. intros H. still H. Qed.
Lemma calm_clients mgr m : calm m -> calm (upd_sdo_client_manager mgr m).
Proof. intros H. still H. Qed.

Lemma soa_frame m req n er : (req = Req_StatusRequest -> n ∈ A) -> mn_frame (build_soa_frame m req n er).
Proof. by split. Qed.
Lemma asnd_frame a b n s p : s <> Svc_StatusResponse ->
  mn_frame (PF_ASnd (ASndFrame_new a b n C_ADR_MN_DEF_NODE_ID s p)).
Proof. split; [done|]. split; [by left|done]. Qed.
Lemma info_frame m s : mn_frame (build_nmt_info_frame m s).
Proof. split; [done|]. split; [by left|done]. Qed.
Lemma command_frames m c n d : mn_frame (build_nmt_command_frame m c n d).
Proof.
  unfold build_nmt_command_frame. cbv zeta. destruct (_ =? _); [by apply asnd_frame|].
  destruct (get_cn_mac_address m n); [by apply asnd_frame|done].
Qed.
Lemma sdo_frame m n r F : build_sdo_asnd_request m n r = Ok F -> mn_frame F.
Proof.
  unfold build_sdo_asnd_request. destruct (get_cn_mac_address m n); [|done].
  destruct (serialize_sdo_asnd_payload _ _); [|done]. intros [= <-]. by apply asnd_frame.
Qed.

(** *** The asynchronous slot *)
Lemma async_only_found m m' n : calm m -> find_next_async_only_to_poll m = (m', Some n) -> n ∈ A.
Proof.
  intros H. unfold find_next_async_only_to_poll. rewrite (calm_async m H).
  destruct A as [|a l] eqn:EA; [done|]. rewrite <- EA. cbv zeta.
  destruct (List.find _ _) as [i|] eqn:Ef; [|done]. intros [= _ <-]. apply List.find_some in Ef as [Hi _].
  unfold rotation in Hi. apply list_elem_of_In, list_elem_of_fmap in Hi as (k&->&_).
  rewrite EA. apply list_elem_of_In, List.nth_In, Nat.mod_upper_bound. done.
Qed.
Lemma calm_async_only m : calm m -> calm (fst (find_next_async_only_to_poll m)).
Proof. intros H. unfold find_next_async_only_to_poll. repeat case_match; still H. Qed.
Lemma calm_queued F m : mn_frame F -> calm m -> calm (upd_mn_async_send_queue (mn_async_send_queue m ++ [F]) m).
Proof.
  intros HF [? ? ? ? ? Hq ? ? ?]. split; try done. apply Forall_app. split; [exact Hq|by apply Forall_singleton].
Qed.
Lemma calm_grant m : calm m ->
  calm (fst (grant_or_publish m)) /\ fst (fst (snd (grant_or_publish m))) <> Req_StatusRequest.
Proof.
  intros H. unfold grant_or_publish. destruct (match mn_async_send_queue m with [] => _ | _ => _ end).
  - split; [|done]. apply calm_queued; [apply info_frame|done].
  - destruct (heap_pop _) as [[r q]|]; [|by split]. split; [still H|]. cbn. by destruct (_ =? _).
Qed.

Lemma calm_choice m m' req n er : calm m -> determine_next_async_action m = Some (m', (req, n, er)) ->
  calm m' /\ (req = Req_StatusRequest -> n ∈ A).
Proof.
  intros H. unfold determine_next_async_action. rewrite (calm_er m H), (calm_status m H). cbn [vec_pop rev].
  destruct (pending_nmt_commands m), (mn_async_send_queue m) eqn:Eq; try (by intros [= <- <- <- <-]).
  destruct (mgr_get_pending_request _ _ _) as [[mgr [[t r]|]]|]; [| |done].
  { intros [= <- <- <- <-]. split; [|done]. apply (calm_queued _ (upd_sdo_client_manager mgr m)).
    - by apply asnd_frame.
    - by apply calm_clients. }
  pose proof (calm_clients mgr m H) as H1. revert H1. generalize (upd_sdo_client_manager mgr m) as d. intros d H1.
  unfold find_next_node_to_identify. destruct (ident_search _ _) as [[k|]|]; [|  |done].
  { intros [= <- <- <- <-]. split; [still H1|done]. }
  pose proof (calm_async_only d H1) as H2. pose proof (async_only_found d) as Hf.
  destruct (find_next_async_only_to_poll d) as [d2 [k|]]; cbn [fst] in H2.
  { intros [= <- <- <- <-]. split; [done|]. intros _. by apply (Hf d2). }
  pose proof (calm_grant d2 H2) as [H3 Hn]. intros [= E]. rewrite E in H3, Hn. by split.
Qed.

Lemma calm_scheduled t e m : e <> ME_PresTimeout -> calm m -> calm (schedule_timeout m t e).
Proof.
  intros He H. assert (H1 : calm (upd_pending_timeout_event (Some e) m)).
  { destruct H as [? ? ? ? ? ? ? ? ?]. split; try done. cbn. congruence. }
  unfold schedule_timeout. cbv zeta. repeat case_match; still H1.
Qed.

(** *** The cycle *)
Context (HI : Forall (fun n => ~ reporting n) I).

Lemma calm_phase p m : calm m -> calm (upd_current_phase p m).
Proof. intros H. still H. Qed.

Lemma calm_end m t m' a : calm m -> end_isochronous m t = Some (m', a) -> calm m' /\ mn_says a.
Proof.
  intros H. unfold end_isochronous. cbv zeta.
  assert (H0 : calm (upd_current_phase Ph_IsochronousDone (upd_current_polled_cn None m))) by still H.
  revert H0. generalize (upd_current_phase Ph_IsochronousDone (upd_current_polled_cn None m)) as d. intros d H0.
  destruct (publish_config _ !! _) as [s|].
  { intros [= <- <-]. split; [by apply calm_count, calm_phase|]. apply says_action, info_frame. }
  destruct (determine_next_async_action d) as [[d1 [[req n] er]]|] eqn:E; [|done].
  apply calm_choice in E as [H1 Hr]; [|done]. intros [= <- <-]. split; [|by apply says_action, soa_frame].
  assert (forall x : MnContext S Q, calm x -> calm (if bool_decide (req = Req_StatusRequest)
    then mn_count TELEGR STATUS_REQ x else x)) as Hc by (intros x Hx; case_match; [by apply calm_count|done]).
  apply Hc, calm_count. destruct (_ && _); [|destruct (_ =? _); by apply calm_phase].
  apply calm_scheduled; [done|]. by apply calm_phase.
Qed.

Lemma none_pollable m k n : calm m -> n ∈ I -> pollable_now m k n = false.
Proof.
  intros H Hn. unfold pollable_now, state_of. destruct (node_info m !! n) as [i|] eqn:Ei; [|by rewrite !andb_false_r].
  destruct (cn_leb CnPreOperational (MnState.cn_state i)) eqn:El; [|by rewrite andb_false_r].
  exfalso. rewrite Forall_forall in HI. apply (HI n Hn). by eapply (calm_info m H).
Qed.
Lemma none_polled m k l idx : calm m -> (forall n, n ∈ l -> n ∈ I) -> exists j, isochronous_loop (pollable_now m k) l idx = (j, None).
Proof.
  intros H. revert idx. induction l as [|n l IH]; intros idx Hl; cbn [isochronous_loop]; [by eexists|].
  rewrite none_pollable by (done || (apply Hl; by left)). apply IH. intros k' Hk. apply Hl. by right.
Qed.
Lemma calm_advance m t m' a : calm m -> advance_cycle_phase m t = Some (m', a) -> calm m' /\ mn_says a.
Proof.
  intros H. unfold advance_cycle_phase. destruct (nmt_leb _ _); [|by apply calm_end].
  unfold get_next_isochronous_node_to_poll.
  destruct (none_polled m (current_multiplex_cycle m) (drop (next_isoch_node_idx m) (isochronous_nodes m))
    (next_isoch_node_idx m) H) as [j ->].
  { intros n Hn. rewrite <- (calm_isochronous m H). apply list_elem_of_In.
    rewrite <- (take_drop (next_isoch_node_idx m) (isochronous_nodes m)). apply List.in_app_iff. right.
    by apply list_elem_of_In. }
  apply calm_end. still H.
Qed.

(** *** Events of the NMT and data link layers *)
Lemma event_parts e m :
  let m' := mn_nmt_event e m in
  mn_state m' = mn_next (startup_flags (nmt_state_machine m)) (mn_state m) e /\
  mn_node_id (nmt_state_machine m') = mn_node_id (nmt_state_machine m) /\
  node_info m' = node_info m /\ mandatory_nodes m' = mandatory_nodes m /\
  isochronous_nodes m' = isochronous_nodes m /\ async_only_nodes m' = async_only_nodes m /\
  pending_er_requests m' = pending_er_requests m /\ pending_status_requests m' = pending_status_requests m /\
  pending_timeout_event m' = pending_timeout_event m /\ mn_async_send_queue m' = mn_async_send_queue m.
Proof.
  unfold mn_nmt_event. destruct (mn_process_state (nmt_state_machine m) e (mn_od m)) as [Hs _].
  assert (Hi : mn_node_id (fst (fst (process_event (nmt_state_machine m) e (mn_od m)))) =
    mn_node_id (nmt_state_machine m)).
  { cbn [process_event MnNmt_machine]. unfold mn_process_event. destruct (is_reset_event e) eqn:He.
    - unfold handle_reset. destruct e; try discriminate He; reflexivity.
    - unfold change_state. by case_bool_decide. }
  destruct (process_event _ e _) as [[machine d] r]. by split_and!.
Qed.
Lemma calm_event_if e m : (beyond (mn_state (mn_nmt_event e m)) -> Forall reporting (mandatory_nodes m)) ->
  calm m -> calm (mn_nmt_event e m).
Proof.
  intros Hb [? ? ? ? ? ? ? ? ?]. destruct (event_parts e m) as (Es&Ei&En&Em&E1&E2&E3&E4&E5&E6).
  split; rewrite ?Ei, ?En, ?Em, ?E1, ?E2, ?E3, ?E4, ?E5, ?E6; done.
Qed.
Lemma calm_event e m : (forall f s, beyond (mn_next f s e) -> mn_next f s e = s) -> calm m -> calm (mn_nmt_event e m).
Proof.
  intros He H. apply calm_event_if; [|done]. destruct (event_parts e m) as (Es&_). rewrite Es.
  intros Hb. apply (calm_ready m H). by rewrite <- (He _ _ Hb).
Qed.
Lemma calm_error m : calm m -> calm (mn_nmt_event Ev_Error m).
Proof. apply calm_event. intros f []; cbn; intros [?|?]; congruence. Qed.
Lemma calm_timeout_event m : calm m -> calm (mn_nmt_event Ev_Timeout m).
Proof. apply calm_event. intros f []; cbn; try (destruct (bit f 13)); intros [?|?]; congruence. Qed.

Lemma bootup_calm m : calm m -> calm (check_bootup_state m).
Proof.
  intros H. unfold check_bootup_state. destruct (mn_state m) eqn:Es; try done.
  - case_match; [|done]. cbv zeta.
    assert (H1 : calm (mn_nmt_event Ev_AllCnsIdentified m)) by
      (apply calm_event; [intros f []; cbn; intros [?|?]; congruence|done]). still H1.
  - destruct (check_all_mandatory_preop _ _) eqn:Ec; [|done]. cbn [andb]. case_match; [|done].
    apply calm_event_if; [|done]. intros _. apply List.Forall_forall. intros n Hn.
    unfold check_all_mandatory_preop in Ec. rewrite forallb_forall in Ec. specialize (Ec n Hn).
    apply andb_true_iff in Ec as [Ec _]. unfold state_of in Ec.
    destruct (node_info m !! n) as [i|] eqn:Ei; [|done]. by eapply (calm_info m H).
  - case_match; [|done]. apply calm_event_if; [|done]. intros _. apply (calm_ready m H). by left.
Qed.

Lemma calm_modify f n m :
  (forall i, cn_leb CnPreOperational (MnState.cn_state (f i)) = true ->
     cn_leb CnPreOperational (MnState.cn_state i) = true \/ reporting n) ->
  calm m -> calm (modify_info f n m).
Proof.
  intros Hf [? ? ? ? ? ? ? Hinfo ?]. split; try done. intros k i. cbn [node_info modify_info upd_node_info].
  destruct (decide (k = n)) as [->|Hne].
  - rewrite lookup_alter_eq. destruct (node_info m !! n) as [j|] eqn:Ej; [|done]. intros [= <-] Hi.
    destruct (Hf _ Hi); [by eapply Hinfo|done].
  - rewrite lookup_alter_ne by done. apply Hinfo.
Qed.

(** Without a missed PRes, no error counts against a node. *)
Definition mild (e : DllError) : Prop :=
  match e with MevAsndTimeout | UnexpectedEventInState _ _ => True | _ => False end.
Lemma ms_errors_mild s e nmt rexp ain aout iso isoout n : e <> ME_PresTimeout ->
  Forall mild (unwrap_or (snd (DllMs_process_event s e nmt rexp ain aout iso isoout n)) []).
Proof.
  intros He. unfold DllMs_process_event.
  destruct nmt; try apply Forall_nil_2; destruct s, e; try done;
    destruct rexp, ain, aout, iso, isoout; cbn; repeat constructor.
Qed.
Lemma calm_mild n m e : mild e -> calm m -> calm (handle_reported_error n m e).
Proof. intros He H. unfold handle_reported_error, manager_handle_error. destruct e; try done; cbn; still H. Qed.
Lemma calm_dll_event m e f : e <> ME_PresTimeout -> calm m -> calm (handle_dll_event m e f).
Proof.
  intros He H. unfold handle_dll_event.
  match goal with |- context [DllMs_process_event ?a e ?b ?c ?d ?g ?h ?i ?j] =>
    pose proof (ms_errors_mild a e b c d g h i j He) as Hm;
    destruct (DllMs_process_event a e b c d g h i j) as [s errors] end.
  cbn [snd] in Hm. assert (H0 : calm (upd_dll_state_machine s m)) by still H.
  revert H0. generalize (upd_dll_state_machine s m) as d.
  induction Hm as [|x l Hx Hl IH]; intros d Hd; [done|]. cbn [foldl]. by apply IH, calm_mild.
Qed.

(** *** Received frames *)
Lemma calm_checks n p t m : calm m -> calm (fst (validate_boot_step1_checks m n p t)).
Proof.
  intros H. unfold validate_boot_step1_checks. repeat (case_match; try exact H).
  all: cbn [fst]; try (apply calm_modify; [intros i Hi; by left|]); by apply calm_clients.
Qed.
Lemma calm_asnd m f t : (asnd_service_id f = Svc_StatusResponse -> reporting (asnd_source f)) ->
  calm m -> calm (handle_asnd_frame m f t).
Proof.
  intros Hf H. unfold handle_asnd_frame. destruct (asnd_service_id f); try exact H.
  - unfold handle_ident_response. destruct (node_info m !! asnd_source f); [|done].
    destruct (unidentified _ _); [|done]. destruct (IdentResponsePayload_deserialize _) as [p|]; [|done].
    pose proof (calm_checks (asnd_source f) p t m H) as Hc.
    destruct (validate_boot_step1_checks m _ p t) as [d []]; [|done]. cbn [fst] in Hc. cbv zeta.
    apply bootup_calm, calm_modify; [intros i Hi; by left|]. still Hc.
  - destruct (node_info m !! asnd_source f) as [i|]; [|done]. cbv zeta.
    assert (H1 : calm (modify_info (info_flags (en_flag i) (en_flag i)) (asnd_source f) m)).
    { apply calm_modify; [|done]. intros j Hj. by left. }
    destruct (StatusResponsePayload_deserialize _) as [p|]; [|done]. unfold update_cn_state.
    destruct (node_info _ !! asnd_source f); [|done]. case_match; [done|].
    apply bootup_calm, calm_modify; [|done]. intros j _. right. by apply Hf.
Qed.

Lemma calm_process_asnd m f t : (asnd_service_id f = Svc_StatusResponse -> reporting (asnd_source f)) ->
  calm m -> forall d, mn_process_frame m (PF_ASnd f) t = Some d -> calm d.
Proof.
  intros Hf H d. unfold mn_process_frame. cbn [nmt_event dll_mn_event]. intros [= <-].
  assert (H1 : calm (handle_dll_event m ME_Asnd (PF_ASnd f))) by (by apply calm_dll_event).
  revert H1. generalize (handle_dll_event m ME_Asnd (PF_ASnd f)) as d. intros d H1. unfold process_asnd. cbv zeta.
  pose proof (calm_count TELEGR ASYNC_RX d H1) as H2. case_match; [|by apply calm_asnd].
  apply calm_phase, calm_asnd; [done|]. destruct H2. by split.
Qed.

(** A response of the SDO server. *)
Lemma response_says m data a : calm m -> mn_response m data = Ok a -> mn_says a.
Proof.
  intros H. unfold mn_response, build_response. destruct (rd_client_info data) as [n mac|ip port] eqn:Ei.
  - unfold asnd_build_response. rewrite Ei. destruct (serialize_sdo_asnd_payload _ _) as [p|]; [|done].
    intros E. destruct a as [b| |]; [|done..].
    match type of E with serialize_frame_action _ ?F = _ => exists F end. split; [|exact E].
    split; [done|]. split; [right; exact (calm_id m H)|done].
  - unfold udp_build_response. rewrite Ei. destruct (serialize_sdo_udp_payload _ _ _) as [buf [k|]]; [|done].
    by intros [= <-].
Qed.
Lemma calm_server m p i t : calm m -> calm (fst (mn_server_request m p i t)) /\
  forall a, snd (mn_server_request m p i t) = Ok a -> mn_says a.
Proof.
  intros H. unfold mn_server_request. destruct (server_handle_request _ p i _ t) as [[srv d] r].
  assert (H1 : calm (upd_core (with_od d (with_sdo_server srv (core m))) m)) by still H.
  destruct r as [data|]; (split; [exact H1|]); [|done]. intros a. by apply response_says.
Qed.

Lemma calm_asnd_entry m f t m' a : (asnd_service_id f = Svc_StatusResponse -> reporting (asnd_source f)) ->
  calm m -> process_asnd_frame m f t = Some (m', a) -> calm m' /\ mn_says a.
Proof.
  intros Hf H. unfold process_asnd_frame. pose proof (calm_count TELEGR SDO_RX m H) as Hc. destruct (_ && _).
  - destruct (_ <? _)%nat; [by intros [= <- <-]|].
    destruct (SequenceLayerHeader_deserialize _); [|by intros [= <- <-]].
    destruct (SdoCommand_deserialize _); [|by intros [= <- <-]].
    destruct (mgr_handle_response _ _ _ _); [|done]. intros [= <- <-]. split; [by apply calm_clients|done].
  - destruct (_ && _).
    + unfold handle_sdo_server_request.
      match goal with |- context [mn_server_request ?d ?p ?i t] => destruct (calm_server d p i t Hc) as [H1 Hs];
        destruct (mn_server_request d p i t) as [d1 r] end. cbn [fst snd] in *.
      destruct r; intros [= <- <-]; [|done]. split; [by apply calm_count|by apply Hs].
    + destruct (mn_process_frame _ _ _) as [d|] eqn:E; [|done]. intros [= <- <-]. split; [|done].
      eapply calm_process_asnd; [exact Hf|exact H|exact E].
Qed.

(** *** The tick *)
Lemma calm_start m t : calm m -> calm (fst (start_cycle m t)) /\ mn_says (snd (start_cycle m t)).
Proof.
  intros H. unfold start_cycle. cbv zeta. cbn [fst snd]. split; [|by apply says_action].
  apply calm_count, calm_phase, calm_dll_event; [done|].
  assert (H1 : calm (upd_current_cycle_start_time_us t m)) by still H. destruct (0 <? _); still H1.
Qed.
Lemma calm_initial m : calm m -> calm (fst (initial_start m)) /\
  forall a, snd (initial_start m) = Some a -> mn_says a.
Proof.
  intros H. unfold initial_start. cbv zeta.
  assert (H1 : forall b, calm (upd_initial_operational_actions_done b m)) by (intros b; still H).
  destruct (_ && _).
  - destruct (bit _ 1).
    + split; [by apply calm_count|]. intros a [= <-]. apply says_action, command_frames.
    + destruct (mandatory_nodes _) as [|n l]; (split; [|done]); [apply H1|].
      specialize (H1 true). still H1.
  - destruct (nmt_ltb _ _); (split; [|done]); [apply H1|done].
Qed.
Lemma calm_send_queued m : calm m -> calm (fst (send_queued m)) /\ mn_says (snd (send_queued m)).
Proof.
  intros H. unfold send_queued. destruct (vec_pop _) as [[l F]|] eqn:E; [|by split].
  unfold vec_pop in E. destruct (rev (mn_async_send_queue m)) as [|x r] eqn:Er; [done|]. simplify_eq.
  pose proof (calm_queue m H) as Hq. apply (f_equal (@rev _)) in Er. rewrite rev_involutive in Er. cbn in Er.
  rewrite Er in Hq. apply Forall_app in Hq as [Hl HF]. cbn [fst snd]. split.
  - apply calm_count. destruct H. by split.
  - apply says_action. by inversion_clear HF.
Qed.
Lemma calm_send m t m' a : calm m -> send_awaited m t = Some (m', a) -> calm m' /\ mn_says a.
Proof.
  intros H. unfold send_awaited. cbv zeta. pose proof (calm_phase Ph_Idle m H) as H1.
  revert H1. generalize (upd_current_phase Ph_Idle m) as d. intros d H1.
  destruct (vec_pop (pending_nmt_commands d)) as [[l [[c n] x]]|].
  { intros [= <- <-]. split; [apply calm_count; still H1|apply says_action, command_frames]. }
  destruct (mgr_get_pending_request _ t _) as [[mgr r]|]; [|done].
  pose proof (calm_clients mgr d H1) as H2. destruct (calm_send_queued _ H2) as [H3 Hs].
  destruct r as [[n r]|]; [|intros [= E]; by rewrite E in H3, Hs].
  destruct (build_sdo_asnd_request _ n r) as [F|] eqn:EF; [|intros [= E]; by rewrite E in H3, Hs].
  intros [= <- <-]. split; [by apply calm_count|]. eapply says_action, sdo_frame, EF.
Qed.
Lemma calm_cycle_tick m t m' a : calm m -> cycle_tick m t = Some (m', a) -> calm m' /\ mn_says a.
Proof.
  intros H. unfold cycle_tick. cbv zeta. destruct (calm_initial m H) as [H1 Hs].
  destruct (initial_start m) as [d [b|]]; cbn [fst snd] in *.
  { intros [= <- <-]. split; [done|by apply Hs]. }
  destruct (current_phase d);
    try (destruct (_ && _); intros [= <- <-]; (split; [|done]); first [exact H1|still H1]).
  - by apply calm_advance.
  - by apply calm_send.
Qed.
Lemma calm_tick_client m t m' r : calm m -> tick_sdo_client m t = Some (m', r) ->
  calm m' /\ forall a, r = Some a -> mn_says a.
Proof.
  intros H. unfold tick_sdo_client. destruct (mgr_tick _ t _) as [[mgr F]|]; [|done].
  pose proof (calm_clients mgr m H) as H1. destruct F as [[n q]|]; [|by intros [= <- <-]].
  destruct (build_sdo_asnd_request _ n q) as [F|] eqn:EF; intros [= <- <-]; [|by split].
  split; [by apply calm_count|]. intros a [= <-]. eapply says_action, sdo_frame, EF.
Qed.
Lemma calm_tick_server m t : calm m -> calm (fst (tick_sdo_server m t)) /\
  forall a, snd (tick_sdo_server m t) = Some a -> mn_says a.
Proof.
  intros H. unfold tick_sdo_server. destruct (next_action_time _); [|done]. destruct (_ <? _); [done|].
  destruct (server_tick _ t _) as [srv r]. cbv zeta.
  assert (H1 : calm (upd_core (with_sdo_server srv (core m)) m)) by still H.
  destruct r as [[data|]|]; try done. pose proof (calm_count TELEGR SDO_TX _ H1) as H2.
  match goal with |- context [mn_response ?d data] => pose proof (response_says d data) as Hr;
    destruct (mn_response d data) as [b|] end; (split; [exact H2|]); [|done].
  intros a [= <-]. by apply Hr.
Qed.
Lemma calm_progress m s b p t m' a : calm m -> progress m s b p t = Some (m', a) -> calm m' /\ mn_says a.
Proof.
  intros H. unfold progress. destruct (_ && _); [by apply calm_advance|].
  destruct (_ && _); [by intros [= <- <-]|by apply calm_cycle_tick].
Qed.
Lemma calm_tick m t m' a : calm m -> handle_tick m t = Some (m', a) -> calm m' /\ mn_says a.
Proof.
  intros H. unfold handle_tick. cbv zeta. destruct (_ && _).
  { destruct (calm_start m t H) as [H1 H2]. destruct (start_cycle m t). by intros [= <- <-]. }
  destruct (tick_sdo_client m t) as [[m1 s1]|] eqn:E1; [|done].
  apply calm_tick_client in E1 as [H1 Hs1]; [|done]. destruct s1; [intros [= <- <-]; auto|].
  destruct (calm_tick_server m1 t H1) as [H2 Hs2]. destruct (tick_sdo_server m1 t) as [m2 [s2|]]; cbn [fst snd] in *.
  { intros [= <- <-]; auto. }
  destruct (match next_tick_us m2 with Some _ => _ | None => _ end); [|by apply calm_progress].
  assert (H3 : calm (upd_next_tick_us None m2)) by still H2.
  destruct (bool_decide _); [intros [= <- <-]; split; [by apply calm_timeout_event|done]|].
  destruct (pending_timeout_event _) as [e|] eqn:Ee; [|by apply calm_progress]. apply calm_advance.
  apply calm_dll_event; [pose proof (calm_timeout _ H3); congruence|]. destruct H3. by split.
Qed.

(** *** [run_cycle], and the requests of the application *)

(** Nothing this node parses is a PRes, and whoever reports a status may. *)
Definition harmless (f : PowerlinkFrame) : Prop :=
  match f with
  | PF_PRes _ => False
  | PF_ASnd g => asnd_service_id g = Svc_StatusResponse -> reporting (asnd_source g)
  | _ => True
  end.
Lemma calm_ethernet m buf t m' a : (forall f, deserialize_frame buf = Ok f -> harmless f) ->
  calm m -> mn_process_ethernet_frame m buf t = Some (m', a) -> calm m' /\ mn_says a.
Proof.
  intros Hb H. unfold mn_process_ethernet_frame.
  destruct (bool_decide _); [intros [= <- <-]; split; [by apply calm_error|done]|].
  destruct (deserialize_frame buf) as [f|]; [|by intros [= <- <-]]. specialize (Hb f eq_refl).
  unfold process_powerlink_frame. destruct f as [f|f|f|f|f]; try (by intros [= <- <-]); [done|].
  by apply calm_asnd_entry.
Qed.
Lemma calm_udp m p ip port t : calm m -> calm (fst (mn_process_udp_datagram m p ip port t)) /\
  mn_says (snd (mn_process_udp_datagram m p ip port t)).
Proof.
  intros H. unfold mn_process_udp_datagram. destruct (deserialize_sdo_udp_payload p) as [[h c]|]; [|done].
  pose proof (calm_count TELEGR SDO_RX m H) as Hc.
  match goal with |- context [mn_server_request ?d ?q ?i t] => destruct (calm_server d q i t Hc) as [H1 Hs];
    destruct (mn_server_request d q i t) as [m1 [b|]] end; cbn [fst snd] in *; (split; [done|]); [by apply Hs|done].
Qed.
Lemma calm_run_cycle m eth udp t m' a :
  (forall buf f, eth = Some buf -> deserialize_frame buf = Ok f -> harmless f) ->
  calm m -> mn_run_cycle m eth udp t = Some (m', a) -> calm m' /\ mn_says a.
Proof.
  intros Hb H. unfold mn_run_cycle.
  match goal with |- context [match ?e with Some _ => _ | None => None end] =>
    assert (H1 : forall m1 a1, e = Some (m1, a1) -> calm m1 /\ mn_says a1); [|destruct e as [[m1 a1]|]; [|done]] end.
  { intros m1 a1. destruct eth as [buf|]; [|by intros [= <- <-]]. destruct (is_epl buf); [|by intros [= <- <-]].
    apply calm_ethernet; [|done]. intros f. by apply Hb. }
  destruct (H1 _ _ eq_refl) as [H2 Hs]. destruct (negb _); [by intros [= <- <-]|].
  destruct udp as [[[buf ip] port]|].
  - destruct (calm_udp m1 buf ip port t H2) as [H3 Hs3].
    destruct (mn_process_udp_datagram m1 buf ip port t) as [m2 a2]. cbn [fst snd] in *.
    assert (H4 : calm (match a2 with SendUdp _ _ _ => mn_count TELEGR SDO_TX m2 | _ => m2 end)).
    { destruct a2; try done. by apply calm_count. }
    destruct (negb _); [by intros [= <- <-]|]. by apply calm_tick.
  - destruct (negb _); [by intros [= <- <-]|]. by apply calm_tick.
Qed.
Lemma calm_input i m m' a :
  (forall buf udp t f, i = Mn_Cycle (Some buf) udp t -> deserialize_frame buf = Ok f -> harmless f) ->
  calm m -> mn_input i m = Some (m', a) -> calm m' /\ mn_says a.
Proof.
  intros Hi H. destruct i as [eth udp t|cmd target|target h|target|target ix s t|target ix s data t];
    cbn [mn_input].
  - apply calm_run_cycle; [|done]. intros buf f -> Ef. by eapply Hi.
  - intros [= <- <-]. split; [still H|done].
  - intros [= <- <-]. split; [|done]. unfold set_hostname. repeat case_match; try exact H. still H.
  - intros [= <- <-]. split; [still H|done].
  - intros [= <- <-]. split; [|done]. unfold mn_read_object.
    destruct (read_object_by_index _ _ _ _ _ _). by apply calm_clients.
  - intros [= <- <-]. split; [|done]. unfold mn_write_object.
    destruct (write_object_by_index _ _ _ _ _ _ _). by apply calm_clients.
Qed.
End ManagingNode.

(** A new node hears nobody yet. *)
Lemma calm_new {S Q} `{ST : ObjectDictionaryStorage S} `{QH : RequestHeap Q} d mac cfg (m : MnContext S Q) :
  mn_new d mac cfg = Ok m -> calm (async_only_nodes m) (isochronous_nodes m) (mn_node_id (nmt_state_machine m)) m.
Proof.
  intros Hn. destruct (new_inv d mac cfg m Hn) as [[I1 I2 I3 I4 _ _ _] _]. revert Hn I1 I2 I3 I4.
  unfold mn_new. destruct (init d) as [d1 [[]|]]; [|done].
  destruct (validate_mandatory_objects d1 true) as [[]|]; [|done].
  destruct (mn_from_od d1) as [machine|]; [|done]. destruct (ok_or _ _) as [ct|]; [|done].
  destruct (parse_mn_node_lists d1) as [nl|] eqn:El; [|done].
  destruct (run_internal_initialisation machine d1) as [m1 d2]. intros [= <-] I1 I2 I3 I4.
  split; try done.
  - cbn [node_info]. revert El. unfold parse_mn_node_lists.
    destruct (read_object d1 0x1F81) as [[|vs|]|]; try done. intros [= <-] n i Hi Hl.
    destruct (assign_all d1 vs (mkNodeLists ∅ [] [] [] ∅) 0) as [R1 _].
    { intros k j. cbn [nl_node_info]. by rewrite lookup_empty. }
    cbn [nl_node_info] in Hi. unfold enumerate in Hi. rewrite (R1 _ _ Hi) in Hl. done.
  - intros [Hb|Hb]; [assert (Hf := I2 ltac:(by rewrite Hb))|assert (Hf := I3 Hb)];
      (eapply Forall_impl; [exact Hf|done]).
Qed.
