(* ===== verification/Monitor.v ===== *)
(** * The monitor

    [src/crates/powerlink-rs-monitor/src/model.rs]: the snapshot of a managing node that the
    diagnostic front end is sent, and what it tells of the network.  The web server that
    distributes the snapshots, and their JSON form, are third-party code. *)
From S2P Require Import Prelude Utf8 Types Frames Dll ErrorEntry ObjectDict OdPredefined StatusFrames Nmt.
From S2P Require Import SdoCodec SdoServer SdoEmbedded SdoClient Node MnState MnScheduler MnPayload MnNode MnBoot.

(** ** The snapshot *)
Record CnLine : Type := mkCnLine { line_node_id : Z; line_nmt_state : string; line_communication_ok : bool }.
Definition state_to_string (state : CnState) : string :=
  match state with
  | CnUnknown => "Unknown" | CnIdentified => "Identified" | CnPreOperational => "PreOperational"
  | CnOperational => "Operational" | CnStopped => "Stopped" | CnMissing => "Missing"
  end.
(** The derived [Debug] of [NmtState]: the names of the variants. *)
Definition NmtState_debug (s : NmtState) : string :=
  match s with
  | NmtGsOff => "NmtGsOff" | NmtGsInitialising => "NmtGsInitialising"
  | NmtGsResetApplication => "NmtGsResetApplication"
  | NmtGsResetCommunication => "NmtGsResetCommunication"
  | NmtGsResetConfiguration => "NmtGsResetConfiguration" | NmtNotActive => "NmtNotActive"
  | NmtPreOperational1 => "NmtPreOperational1" | NmtPreOperational2 => "NmtPreOperational2"
  | NmtReadyToOperate => "NmtReadyToOperate" | NmtOperational => "NmtOperational"
  | NmtCsStopped => "NmtCsStopped" | NmtBasicEthernet => "NmtBasicEthernet"
  end.

Record DiagnosticCounters : Type := mkDiagnosticCounters {
  isochr_cycles : Z; isochr_rx : Z; isochr_tx : Z; async_rx : Z; async_tx : Z; emergency_queue_overflow : Z
}.
Definition DiagnosticCounters_from_od {S} (od : ObjectDictionary S) : DiagnosticCounters :=
  let count index sub := unwrap_or (read_u32 od index sub) 0 in
  mkDiagnosticCounters (count 0x1101 1) (count 0x1101 2) (count 0x1101 3) (count 0x1101 4) (count 0x1101 5)
    (count 0x1102 2).

Record MnDllErrorCounters : Type := mkMnDllErrorCounters {
  crc_errors : Z; collision : Z; cycle_time_exceeded : Z; loss_of_link_cumulative : Z
}.
Definition MnDllErrorCounters_from_core (counters : MnErrorCounters) : MnDllErrorCounters :=
  mkMnDllErrorCounters (cumulative_cnt (mn_crc_errors counters)) (cumulative_cnt (mn_collision counters))
    (cumulative_cnt (mn_cycle_time_exceeded counters)) (mn_loss_of_link_cumulative counters).

Record DiagnosticSnapshot : Type := mkDiagnosticSnapshot {
  mn_nmt_state : string; cn_states : list CnLine; dll_error_counters : MnDllErrorCounters;
  diagnostic_counters : DiagnosticCounters
}.
Definition cn_line (item : NodeId * CnInfo) : CnLine :=
  mkCnLine (fst item) (state_to_string (cn_state (snd item))) (communication_ok (snd item)).
Definition from_context {S Q} (context : MnContext S Q) : DiagnosticSnapshot :=
  mkDiagnosticSnapshot (NmtState_debug (mn_state context)) (map cn_line (btree_items Z.le (node_info context)))
    (MnDllErrorCounters_from_core (counters (dll_error_manager context)))
    (DiagnosticCounters_from_od (mn_od context)).

(** ** What it tells *)

Lemma cn_line_ids (items : list (NodeId * CnInfo)) : map line_node_id (map cn_line items) = items.*1.
Proof. rewrite map_map. by apply map_ext. Qed.
Lemma heard_names state :
  state_to_string state ∈ ["Identified"; "PreOperational"; "Operational"; "Stopped"]%string ->
  heard_state state = true.
Proof. destruct state; cbn; [set_solver|done|done|done|done|set_solver]. Qed.
Lemma operational_name s : NmtState_debug s = "NmtOperational"%string -> s = NmtOperational.
Proof. by destruct s. Qed.

(** C27: The monitor tells what was heard.  In the snapshot of a managing node after any run from
    its creation, the configured nodes are listed once each in ascending order; a node that is
    shown as identified, pre-operational, operational or stopped was heard in a PRes or ASnd
    frame, and one whose communication is shown as working in a PRes; and when the managing node
    is shown as operational, a PRes of every mandatory node was received. *)
Theorem monitor_tells_what_was_heard {S Q} `{ST : ObjectDictionaryStorage S} `{QH : RequestHeap Q}
    d mac cfg (m m' : MnContext S Q) inputs actions :
  mn_new d mac cfg = Ok m -> mn_run inputs m = Some (m', actions) ->
  let s := from_context m' in
  StronglySorted Z.lt (map line_node_id (cn_states s)) /\
  (forall n, n ∈ map line_node_id (cn_states s) <-> is_Some (node_info m' !! n)) /\
  (forall l, l ∈ cn_states s ->
     (line_nmt_state l ∈ ["Identified"; "PreOperational"; "Operational"; "Stopped"]%string ->
      heard_from frame_source inputs (line_node_id l)) /\
     (line_communication_ok l = true -> heard_from pres_from inputs (line_node_id l))) /\
  (mn_nmt_state s = "NmtOperational"%string ->
   forall n, mandatory_in (fst (init d)) n -> heard_from pres_from inputs n).
Proof.
  intros Hn Hr s. destruct (run_from_new d mac cfg m m' inputs actions Hn Hr) as [[I1 I2 I3 _] HL].
  cbn [s from_context cn_states mn_nmt_state]. rewrite cn_line_ids. split_and!.
  - apply btree_items_ascending.
  - intros n. rewrite list_elem_of_fmap. split.
    + intros ([k i] & -> & Hin). apply elem_of_btree_items in Hin. by exists i.
    + intros [i Hi]. exists (n, i). split; [done|]. by apply elem_of_btree_items.
  - intros l Hl. apply list_elem_of_fmap in Hl as ([n i] & -> & Hin). apply elem_of_btree_items in Hin.
    destruct (I1 n i Hin) as [H1 H2]. split; [|exact H2]. intros Hs. by apply H1, heard_names.
  - intros Hs n Hm. apply operational_name in Hs. specialize (I3 Hs). rewrite Forall_forall in I3.
    apply I3. by apply HL.
Qed.
Lemma monitor_tells_what_was_heard_witness :
  exists (m m' : MnContext MemStorage (list AsyncRequest)) actions,
  mn_new demo_mn_od demo_mac None = Ok m /\ mn_run demo_mn_inputs m = Some (m', actions) /\
  mn_nmt_state (from_context m') = "NmtOperational"%string /\
  (forall n, mandatory_in (fst (init demo_mn_od)) n -> heard_from pres_from demo_mn_inputs n).
Proof.
  assert (match mn_new demo_mn_od demo_mac None with
    | Ok m => option_map (fun r => mn_nmt_state (from_context (fst r)))
                (mn_run (Q := list AsyncRequest) demo_mn_inputs m)
    | Err _ => None end = Some "NmtOperational"%string) as H by (vm_compute; reflexivity).
  destruct (mn_new (Q := list AsyncRequest) demo_mn_od demo_mac None) as [m|] eqn:En; [|discriminate H].
  destruct (mn_run demo_mn_inputs m) as [[m' actions]|] eqn:Er; [|discriminate H].
  apply (f_equal (fun o => match o with Some s => s | None => EmptyString end)) in H. cbn [option_map fst] in H.
  exists m, m', actions. split; [reflexivity|]. split; [exact Er|]. split; [exact H|].
  apply (monitor_tells_what_was_heard demo_mn_od demo_mac None m m' demo_mn_inputs actions En Er). exact H.
Defined.
