(* ===== verification/MonitorServer.v ===== *)
(** * The monitor's server

    [start_in_process_monitor] of [src/crates/powerlink-rs-monitor/src/lib.rs]: the bridge that
    hands the snapshots of the real-time thread to a broadcast channel, and [handle_socket] of
    [server.rs], which forwards them to one WebSocket.  The channel (crate [tokio]), the socket
    (crate [axum]) and the serialization (crate [serde_json]) are parameters. *)
From S2P Require Import Prelude Types Monitor.

(** ** The broadcast channel

    [tokio::sync::broadcast]: a value is sent to the receivers there are, and refused when there
    is none. *)
Class Broadcast (B : Type) : Type := {
  broadcast_new : B;
  receiver_count : B -> nat;
  broadcast_send : B -> DiagnosticSnapshot -> B * bool;
  subscribe : B -> B;
  drop_receiver : B -> B
}.
Class BroadcastLaws (B : Type) `{Broadcast B} : Prop := {
  new_count : receiver_count broadcast_new = 1%nat;
  send_count : forall b s, receiver_count (fst (broadcast_send b s)) = receiver_count b;
  send_result : forall b s, snd (broadcast_send b s) = negb (receiver_count b =? 0)%nat;
  subscribe_count : forall b, receiver_count (subscribe b) = S (receiver_count b);
  drop_count : forall b, receiver_count (drop_receiver b) = pred (receiver_count b)
}.

(** ** The bridge *)
Section Bridge.
Context {B : Type} `{BC : Broadcast B}.

Record MonitorState : Type := mkMonitor { snapshot_tx : B; bridge_running : bool }.

(** The channel is created and its first receiver dropped at once. *)
Definition start_in_process_monitor : MonitorState := mkMonitor (drop_receiver broadcast_new) true.

(** A snapshot of the node; a WebSocket that is opened; one that is closed. *)
Inductive MonitorEvent : Type := MEv_Snapshot (s : DiagnosticSnapshot) | MEv_Open | MEv_Close.

(** One turn of the [while] of the bridge; it ends with the first error. *)
Definition bridge_snapshot (s : DiagnosticSnapshot) (m : MonitorState) : MonitorState :=
  if bridge_running m then
    let '(tx, sent) := broadcast_send (snapshot_tx m) s in mkMonitor tx sent
  else m.
Definition monitor_step (m : MonitorState) (e : MonitorEvent) : MonitorState :=
  match e with
  | MEv_Snapshot s => bridge_snapshot s m
  | MEv_Open => mkMonitor (subscribe (snapshot_tx m)) (bridge_running m)
  | MEv_Close => mkMonitor (drop_receiver (snapshot_tx m)) (bridge_running m)
  end.
Definition monitor_run : MonitorState -> list MonitorEvent -> MonitorState := foldl monitor_step.

(** Every snapshot finds a WebSocket open, of [n] at the start. *)
Fixpoint always_watched (n : nat) (es : list MonitorEvent) : bool :=
  match es with
  | [] => true
  | MEv_Snapshot _ :: es => negb (n =? 0)%nat && always_watched n es
  | MEv_Open :: es => always_watched (S n) es
  | MEv_Close :: es => always_watched (pred n) es
  end.
End Bridge.
Arguments MonitorState B : clear implicits.

(** ** A WebSocket ([handle_socket]) *)
(** What [select!] takes: a snapshot, a message of the client, or no branch that matches. *)
Inductive SocketEvent : Type := Sock_Snapshot (s : DiagnosticSnapshot) | Sock_Close | Sock_Message | Sock_Else.

Section WebSocket.
Context {W : Type} (sock_send : W -> bytes -> W * bool) (to_json : DiagnosticSnapshot -> option bytes).

(** The socket, and whether the loop goes on. *)
Definition socket_step (w : W) (e : SocketEvent) : W * bool :=
  match e with
  | Sock_Snapshot s =>
      match to_json s with
      | Some json_payload => sock_send w json_payload
      | None => (w, true)
      end
  | Sock_Message => (w, true)
  | Sock_Close | Sock_Else => (w, false)
  end.
Fixpoint handle_socket (w : W) (es : list SocketEvent) : W * list SocketEvent :=
  match es with
  | [] => (w, [])
  | e :: es => match socket_step w e with (w, true) => handle_socket w es | (w, false) => (w, es) end
  end.
End WebSocket.

(** ** Properties *)
Section Stops.
Context {B : Type} `{BL : BroadcastLaws B}.

Lemma monitor_run_spec es : forall m : MonitorState B,
  bridge_running (monitor_run m es) = bridge_running m && always_watched (receiver_count (snapshot_tx m)) es.
Proof.
  unfold monitor_run. induction es as [|e es IH]; intros m; cbn [foldl always_watched]; [by rewrite andb_true_r|].
  rewrite IH. destruct e as [s| |]; cbn [monitor_step].
  - unfold bridge_snapshot. destruct (bridge_running m) eqn:E; [|by rewrite E].
    pose proof (send_count (snapshot_tx m) s) as Hc. pose proof (send_result (snapshot_tx m) s) as Hr.
    destruct (broadcast_send _ s) as [tx sent]. cbn [fst snd bridge_running snapshot_tx] in *. by rewrite Hc, Hr.
  - cbn [bridge_running snapshot_tx]. by rewrite subscribe_count.
  - cbn [bridge_running snapshot_tx]. by rewrite drop_count.
Qed.

(** The bridge runs exactly as long as every snapshot found a WebSocket open: a node that takes
    its first snapshot before a page is opened, or between two pages, ends it for good, and no
    page shows anything after that. *)
Theorem bridge_needs_a_page (es : list MonitorEvent) :
  bridge_running (monitor_run (B := B) start_in_process_monitor es) = always_watched 0 es /\
  (forall s m, bridge_running m = false -> monitor_step (B := B) m (MEv_Snapshot s) = m).
Proof.
  split.
  - rewrite monitor_run_spec. cbn [start_in_process_monitor snapshot_tx bridge_running andb].
    by rewrite drop_count, new_count.
  - intros s m Hm. cbn [monitor_step]. unfold bridge_snapshot. by rewrite Hm.
Qed.
End Stops.

(** A channel that counts, and the first snapshot without a page. *)
#[export, refine] Instance Counting_broadcast : Broadcast nat :=
  { broadcast_new := 1%nat; receiver_count n := n; broadcast_send n _ := (n, negb (n =? 0)%nat);
    subscribe := S; drop_receiver := pred }.
Defined.
#[export] Instance Counting_laws : BroadcastLaws nat.
Proof. by split. Qed.

Example bridge_ends_before_the_page s :
  bridge_running (monitor_run (B := nat) start_in_process_monitor [MEv_Snapshot s; MEv_Open; MEv_Snapshot s]) = false.
Proof. rewrite (proj1 (bridge_needs_a_page (B := nat) _)). reflexivity. Qed.
