(* ===== verification/CnPayload.v ===== *)
(** * The state and the frames of the controlled node

    [node/cn/state.rs] (the context and the payload of the transmit PDO) and
    [node/cn/payload.rs] (the responses).  The emergency queue is a
    [VecDeque] made [with_capacity(10)]; its capacity, which the code asks the
    queue for, is a field. *)
From S2P Require Import Prelude Utf8 Types Frames Dll ErrorEntry ObjectDict Nmt StatusFrames SdoCodec.
From S2P Require Import SdoServer SdoEmbedded SdoClient Node.

(** The error statistics of object 0x1102. *)
Definition ERR_STAT : Z := 0x1102.
Definition HIST_WRITE : Z := 1.
Definition EMCY_WRITE : Z := 2.
Definition EMCY_OVERFLOW : Z := 3.
Definition STATIC_ERR_CHG : Z := 5.
Definition ER_POS_EDGE : Z := 6.
Definition EN_EDGE : Z := 7.

(** ** The context ([state.rs]) *)
Record CnContext (S : Type) : Type := mkCn {
  core : CoreNodeContext S;
  nmt_state_machine : CnNmtStateMachine;
  dll_state_machine : DllCsState;
  dll_error_manager : DllErrorManager CnErrorCounters (list DllError);
  pending_nmt_requests : list (CnNmtRequest * NodeId);
  emergency_queue : list ErrorEntry;
  emergency_capacity : Z;
  heartbeat_consumers : gmap NodeId (Z * Z);
  last_soc_reception_time_us : Z;
  soc_timeout_check_active : bool;
  next_tick_us : option Z;
  en_flag : bool;
  ec_flag : bool;
  error_status_changed : bool
}.
Arguments mkCn {S}.
Arguments core {S} c.
Arguments nmt_state_machine {S} c.
Arguments dll_state_machine {S} c.
Arguments dll_error_manager {S} c.
Arguments pending_nmt_requests {S} c.
Arguments emergency_queue {S} c.
Arguments emergency_capacity {S} c.
Arguments heartbeat_consumers {S} c.
Arguments last_soc_reception_time_us {S} c.
Arguments soc_timeout_check_active {S} c.
Arguments next_tick_us {S} c.
Arguments en_flag {S} c.
Arguments ec_flag {S} c.
Arguments error_status_changed {S} c.

Section Updates.
Context {S : Type}.
Implicit Types c : CnContext S.

Definition upd_core (v : CoreNodeContext S) c : CnContext S :=
  mkCn v (nmt_state_machine c) (dll_state_machine c) (dll_error_manager c) (pending_nmt_requests
    c) (emergency_queue c) (emergency_capacity c) (heartbeat_consumers c)
    (last_soc_reception_time_us c) (soc_timeout_check_active c) (next_tick_us c) (en_flag c)
    (ec_flag c) (error_status_changed c).
Definition upd_nmt_state_machine (v : CnNmtStateMachine) c : CnContext S :=
  mkCn (core c) v (dll_state_machine c) (dll_error_manager c) (pending_nmt_requests c)
    (emergency_queue c) (emergency_capacity c) (heartbeat_consumers c)
    (last_soc_reception_time_us c) (soc_timeout_check_active c) (next_tick_us c) (en_flag c)
    (ec_flag c) (error_status_changed c).
Definition upd_dll_state_machine (v : DllCsState) c : CnContext S :=
  mkCn (core c) (nmt_state_machine c) v (dll_error_manager c) (pending_nmt_requests c)
    (emergency_queue c) (emergency_capacity c) (heartbeat_consumers c)
    (last_soc_reception_time_us c) (soc_timeout_check_active c) (next_tick_us c) (en_flag c)
    (ec_flag c) (error_status_changed c).
Definition upd_dll_error_manager (v : DllErrorManager CnErrorCounters (list DllError)) c : CnContext S :=
  mkCn (core c) (nmt_state_machine c) (dll_state_machine c) v (pending_nmt_requests c)
    (emergency_queue c) (emergency_capacity c) (heartbeat_consumers c)
    (last_soc_reception_time_us c) (soc_timeout_check_active c) (next_tick_us c) (en_flag c)
    (ec_flag c) (error_status_changed c).
Definition upd_pending_nmt_requests (v : list (CnNmtRequest * NodeId)) c : CnContext S :=
  mkCn (core c) (nmt_state_machine c) (dll_state_machine c) (dll_error_manager c) v
    (emergency_queue c) (emergency_capacity c) (heartbeat_consumers c)
    (last_soc_reception_time_us c) (soc_timeout_check_active c) (next_tick_us c) (en_flag c)
    (ec_flag c) (error_status_changed c).
Definition upd_emergency_queue (v : list ErrorEntry) c : CnContext S :=
  mkCn (core c) (nmt_state_machine c) (dll_state_machine c) (dll_error_manager c)
    (pending_nmt_requests c) v (emergency_capacity c) (heartbeat_consumers c)
    (last_soc_reception_time_us c) (soc_timeout_check_active c) (next_tick_us c) (en_flag c)
    (ec_flag c) (error_status_changed c).
Definition upd_heartbeat_consumers (v : gmap NodeId (Z * Z)) c : CnContext S :=
  mkCn (core c) (nmt_state_machine c) (dll_state_machine c) (dll_error_manager c)
    (pending_nmt_requests c) (emergency_queue c) (emergency_capacity c) v
    (last_soc_reception_time_us c) (soc_timeout_check_active c) (next_tick_us c) (en_flag c)
    (ec_flag c) (error_status_changed c).
Definition upd_last_soc_reception_time_us (v : Z) c : CnContext S :=
  mkCn (core c) (nmt_state_machine c) (dll_state_machine c) (dll_error_manager c)
    (pending_nmt_requests c) (emergency_queue c) (emergency_capacity c) (heartbeat_consumers c)
    v (soc_timeout_check_active c) (next_tick_us c) (en_flag c) (ec_flag c)
    (error_status_changed c).
Definition upd_soc_timeout_check_active (v : bool) c : CnContext S :=
  mkCn (core c) (nmt_state_machine c) (dll_state_machine c) (dll_error_manager c)
    (pending_nmt_requests c) (emergency_queue c) (emergency_capacity c) (heartbeat_consumers c)
    (last_soc_reception_time_us c) v (next_tick_us c) (en_flag c) (ec_flag c)
    (error_status_changed c).
Definition upd_next_tick_us (v : option Z) c : CnContext S :=
  mkCn (core c) (nmt_state_machine c) (dll_state_machine c) (dll_error_manager c)
    (pending_nmt_requests c) (emergency_queue c) (emergency_capacity c) (heartbeat_consumers c)
    (last_soc_reception_time_us c) (soc_timeout_check_active c) v (en_flag c) (ec_flag c)
    (error_status_changed c).
Definition upd_en_flag (v : bool) c : CnContext S :=
  mkCn (core c) (nmt_state_machine c) (dll_state_machine c) (dll_error_manager c)
    (pending_nmt_requests c) (emergency_queue c) (emergency_capacity c) (heartbeat_consumers c)
    (last_soc_reception_time_us c) (soc_timeout_check_active c) (next_tick_us c) v (ec_flag c)
    (error_status_changed c).
Definition upd_ec_flag (v : bool) c : CnContext S :=
  mkCn (core c) (nmt_state_machine c) (dll_state_machine c) (dll_error_manager c)
    (pending_nmt_requests c) (emergency_queue c) (emergency_capacity c) (heartbeat_consumers c)
    (last_soc_reception_time_us c) (soc_timeout_check_active c) (next_tick_us c) (en_flag c) v
    (error_status_changed c).
Definition upd_error_status_changed (v : bool) c : CnContext S :=
  mkCn (core c) (nmt_state_machine c) (dll_state_machine c) (dll_error_manager c)
    (pending_nmt_requests c) (emergency_queue c) (emergency_capacity c) (heartbeat_consumers c)
    (last_soc_reception_time_us c) (soc_timeout_check_active c) (next_tick_us c) (en_flag c)
    (ec_flag c) v.
End Updates.

Section Payload.
Context {S : Type} `{ST : ObjectDictionaryStorage S}.
Implicit Types (c : CnContext S) (k : CoreNodeContext S).

Definition cn_od c : ObjectDictionary S := od (core c).
Definition cn_with_od (d : ObjectDictionary S) c : CnContext S := upd_core (with_od d (core c)) c.
(** [od.increment_counter(..)]. *)
Definition cn_count (index sub_index : Z) c : CnContext S :=
  cn_with_od (increment_counter (cn_od c) index sub_index) c.
(** [nmt_state_machine.process_event(event, &mut od)]. *)
Definition cn_nmt_event (event : NmtEvent) c : CnContext S :=
  let '(machine, d, _) := process_event (nmt_state_machine c) event (cn_od c) in
  upd_nmt_state_machine machine (cn_with_od d c).
Definition cn_state c : NmtState := current_state (nmt_state_machine c).
Definition cn_id c : NodeId := node_id (nmt_state_machine c).

Definition queue_nmt_service_request (service : NmtServiceRequest) (target : NodeId) c : CnContext S :=
  upd_pending_nmt_requests (pending_nmt_requests c ++ [(CnReq_Service service, target)]) c.

(** ** The process data of the PRes *)
Definition apply_tpdo_mapping_entry k (entry : PdoMappingEntry) (payload_buffer : bytes)
    : CoreNodeContext S * result PdoError bytes :=
  match byte_offset entry, byte_length entry with
  | Some offset, Some length =>
      if len payload_buffer <? offset + length then
        (k, Err (PdoPayloadTooSmall (u16 (u16 (offset + length) * 8)) (len payload_buffer)))
      else if is_server_channel (pm_index entry) then
        let '(e, response) :=
          get_pending_response (embedded_sdo_server k) (pm_index entry) (Z.to_nat length) in
        (with_embedded_server e k, Ok (put payload_buffer (Z.to_nat offset) response))
      else if is_client_channel (pm_index entry) then
        let '(e, request) :=
          SdoEmbedded.get_pending_request (embedded_sdo_client k) (pm_index entry) (Z.to_nat length) in
        (with_embedded_client e k, Ok (put payload_buffer (Z.to_nat offset) request))
      else
        match read (od k) (pm_index entry) (pm_sub_index entry) with
        | None => (k, Ok payload_buffer)
        | Some value =>
            let bytes_to_pack := ObjectValue_serialize value in
            if negb (len bytes_to_pack =? length) then
              (k, Err (PdoTypeMismatch (pm_index entry) (pm_sub_index entry) (u16 (u16 length * 8))
                         (u16 (len bytes_to_pack * 8))))
            else (k, Ok (put payload_buffer (Z.to_nat offset) bytes_to_pack))
        end
  | _, _ => (k, Ok payload_buffer)
  end.

Fixpoint tpdo_loop (entries : list PdoMappingEntry) k (payload : bytes)
    : CoreNodeContext S * result PdoError bytes :=
  match entries with
  | [] => (k, Ok payload)
  | e :: entries =>
      match apply_tpdo_mapping_entry k e payload with
      | (k, Ok payload) => tpdo_loop entries k payload
      | (k, Err e) => (k, Err e)
      end
  end.

(** The mapping entries; one that is not [Unsigned64] counts as 0. *)
Definition tpdo_entries (d : ObjectDictionary S) (mapping_index num_entries : Z) : list PdoMappingEntry :=
  (fun i => match read d mapping_index i with
            | Some (OV_Unsigned64 raw_mapping) => from_u64 raw_mapping
            | _ => from_u64 0
            end) <$> sub_indices num_entries.

Definition pres_payload_limit (d : ObjectDictionary S) : Z := unwrap_or (read_u16 d 0x1F98 5) 36.

Definition build_tpdo_payload k : CoreNodeContext S * res (bytes * Z) :=
  let mapping_index := IDX_TPDO_MAPPING_PARAM_REC_START in
  let pdo_version := unwrap_or (read_u8 (od k) IDX_TPDO_COMM_PARAM_REC_START 2) 0 in
  let payload_limit := Z.min (pres_payload_limit (od k)) C_DLL_ISOCHR_MAX_PAYL in
  let payload := replicate (Z.to_nat payload_limit) 0 in
  let num_entries := match read (od k) mapping_index 0 with Some (OV_Unsigned8 num) => num | _ => 0 end in
  if 0 <? num_entries then
    match tpdo_loop (tpdo_entries (od k) mapping_index num_entries) k payload with
    | (k, Ok payload) => (k, Ok (payload, pdo_version))
    | (k, Err e) => (k, Err (PowerlinkError_from_PdoError e))
    end
  else (k, Ok (payload, pdo_version)).

(** ** The responses ([payload.rs]) *)

(** What the node asks the asynchronous slot for. *)
Definition request_status (pending : list (CnNmtRequest * NodeId)) (sdo_client : SdoClient) : Z * PRFlag :=
  match pending with
  | [] => pending_request_count_and_priority sdo_client
  | _ => (u8 (Z.min (len pending) 7), PrioNmtRequest)
  end.

Definition cn_mac c : MacAddress := mac_address (core c).
Definition answer c (soa : SoAFrame) (service : ServiceId) (payload : bytes) : PowerlinkFrame :=
  PF_ASnd (ASndFrame_new (cn_mac c) (source_mac (soa_eth_header soa)) C_ADR_MN_DEF_NODE_ID (cn_id c)
    service payload).

Definition build_ident_response c (soa : SoAFrame) : PowerlinkFrame :=
  let p := IdentResponsePayload_new (cn_od c) in
  let '(rs_count, pr_flag) := request_status (pending_nmt_requests c) (sdo_client (core c)) in
  let p := {| id_pr := pr_flag; id_rs := RSFlag_new rs_count; id_nmt_state := id_nmt_state p;
              id_epl_version := id_epl_version p; id_feature_flags := id_feature_flags p;
              id_mtu := id_mtu p; id_poll_in_size := id_poll_in_size p;
              id_poll_out_size := id_poll_out_size p; id_response_time := id_response_time p;
              id_device_type := id_device_type p; id_vendor_id := id_vendor_id p;
              id_product_code := id_product_code p; id_revision_number := id_revision_number p;
              id_serial_number := id_serial_number p; id_verify_conf_date := id_verify_conf_date p;
              id_verify_conf_time := id_verify_conf_time p; id_app_sw_date := id_app_sw_date p;
              id_app_sw_time := id_app_sw_time p; id_ip_address := id_ip_address p;
              id_subnet_mask := id_subnet_mask p; id_default_gateway := id_default_gateway p;
              id_host_name := id_host_name p |} in
  let '(payload_buf, r) := IdentResponsePayload_serialize p (replicate 256 0) in
  let payload_len := match r with Ok n => n | Err _ => 158%nat end in
  answer c soa Svc_IdentResponse (take payload_len payload_buf).

Definition build_status_response c (soa : SoAFrame) : CnContext S * PowerlinkFrame :=
  let nmt_state :=
    match read_u8 (cn_od c) 0x1F8C 0 with
    | Some val => match NmtState_try_from val with Ok s => s | Err _ => NmtNotActive end
    | None => NmtNotActive
    end in
  let static_errors := StaticErrorBitField_new (cn_od c) in
  let '(rs_count, pr_flag) := request_status (pending_nmt_requests c) (sdo_client (core c)) in
  let max_payload_size := sat_sub (unwrap_or (read_u16 (cn_od c) 0x1F98 8) 300) 4 in
  let max_entries := Z.to_nat (sat_sub max_payload_size (14 + 20) / 20) in
  let n := Nat.min max_entries (length (emergency_queue c)) in
  let entries := take n (emergency_queue c) in
  let c := upd_emergency_queue (drop n (emergency_queue c)) c in
  let c := match entries with [] => c | _ => cn_count ERR_STAT EMCY_WRITE c end in
  let payload es := mkStatus (en_flag c) (ec_flag c) pr_flag (RSFlag_new rs_count) nmt_state
                      static_errors es in
  let '(payload_buf, payload_len) :=
    match StatusResponsePayload_serialize (payload entries) (replicate (Z.to_nat max_payload_size) 0) with
    | (buf, Ok n) => (buf, n)
    | (buf, Err _) =>
        let buf := replicate (length (take (14 + 20) buf)) 0 in
        match StatusResponsePayload_serialize (payload []) buf with
        | (buf, Ok n) => (buf, n)
        | (buf, Err _) => (buf, (14 + 20)%nat)
        end
    end in
  (c, answer c soa Svc_StatusResponse (take payload_len payload_buf)).

Definition build_nmt_request c (command_id : Z) (target : NodeId) (soa : SoAFrame) : PowerlinkFrame :=
  answer c soa Svc_NmtRequest [command_id; target].

Definition build_pres_response c (en : bool) : CnContext S * PowerlinkFrame :=
  let nmt_state := cn_state c in
  let '(k, r) := build_tpdo_payload (core c) in
  let c := upd_core k c in
  let '(payload, pdo_version, payload_is_valid) :=
    match r with
    | Ok (payload, version) => (payload, version, true)
    | Err _ => (replicate (Z.to_nat (pres_payload_limit (cn_od c))) 0, 0, false)
    end in
  let rd_flag := bool_decide (nmt_state = NmtOperational) && payload_is_valid in
  let '(rs_count, pr_flag) := request_status (pending_nmt_requests c) (sdo_client (core c)) in
  (c, PF_PRes (PResFrame_new (cn_mac c) (cn_id c) nmt_state
        (mkPResFlags false en rd_flag pr_flag (RSFlag_new rs_count)) pdo_version payload)).
End Payload.
