(* ===== verification/CnNode.v ===== *)
(** * The controlled node

    [node/cn/events.rs], [node/cn/tick.rs], [node/cn/main.rs].  A handler
    returns the context it leaves and the action; [None] is a panic: a short
    SDO abort in a container of a received PDO. *)
From S2P Require Import Prelude Utf8 Types Frames Dll ErrorEntry ObjectDict OdPredefined StatusFrames Nmt.
From S2P Require Import OdSchema SdoCodec SdoServer SdoEmbedded SdoClient Node StackTypes CnPayload.

Definition IDX_ERROR_REGISTER : Z := 0x1001.
Definition IDX_CYCLE_LEN : Z := 0x1006.
Definition IDX_LOSS_OF_SOC_TOL : Z := 0x1C14.
Definition IDX_HOST_NAME : Z := 0x1F9A.

Section Node.
Context {S : Type} `{ST : ObjectDictionaryStorage S}.
Implicit Types c : CnContext S.

(** ** Errors *)
Definition error_register_value c : Z := unwrap_or (read_u8 (cn_od c) IDX_ERROR_REGISTER 0) 0.
Definition write_error_register (v : Z) c : CnContext S :=
  cn_with_od (fst (write_internal (cn_od c) IDX_ERROR_REGISTER 0 (OV_Unsigned8 v) false)) c.
Definition report_to_manager (error : DllError) c : CnContext S * (NmtAction * bool) :=
  let '(manager, r) := manager_handle_error (dll_error_manager c) error in
  (upd_dll_error_manager manager c, r).
(** The reset that an NMT action of the error manager asks for. *)
Definition error_reset c : CnContext S := upd_soc_timeout_check_active false (cn_nmt_event Ev_Error c).

Definition error_entry_of (error : DllError) (t : Z) : ErrorEntry :=
  mkErrorEntry (mkEntryType false true Mode_EventOccurred 0x002) (to_error_code error)
    (mkNetTime (u32 (t / 1000000)) (u32 (t mod 1000000 * 1000)))
    (match error with LossOfPres n | LatePres n | LossOfStatusRes n => n | _ => 0 end).

Definition queue_error (entry : ErrorEntry) c : CnContext S :=
  if len (emergency_queue c) <? emergency_capacity c then
    let c := upd_emergency_queue (emergency_queue c ++ [entry]) c in
    cn_count ERR_STAT EMCY_WRITE (cn_with_od (write_error_to_history (cn_od c) entry) c)
  else cn_count ERR_STAT EMCY_OVERFLOW c.

(** One error of the data link layer; [true] when it asked for a reset. *)
Definition report_error (error : DllError) (t : Z) c : CnContext S * bool :=
  let c := cn_count ERR_STAT HIST_WRITE c in
  let '(c, (nmt_action, signaled)) := report_to_manager error c in
  let c :=
    if signaled then
      let c := upd_error_status_changed true c in
      let current_err_reg := error_register_value c in
      let new_err_reg := Z.lor current_err_reg 1 in
      let c := if negb (current_err_reg =? new_err_reg) then cn_count ERR_STAT STATIC_ERR_CHG c else c in
      queue_error (error_entry_of error t) (write_error_register new_err_reg c)
    else c in
  if negb (bool_decide (nmt_action = Act_None)) then (error_reset c, true) else (c, false).

(** The errors in turn, left at the first reset. *)
Fixpoint report_errors (errors : list DllError) (t : Z) c : CnContext S * bool :=
  match errors with
  | [] => (c, false)
  | e :: errors =>
      match report_error e t c with
      | (c, true) => (c, true)
      | (c, false) => report_errors errors t c
      end
  end.

Definition cn_dll_event (event : DllCsEvent) (nmt : NmtState) (t : Z) c : CnContext S * bool :=
  let '(state, errors) := DllCs_process_event (dll_state_machine c) event nmt in
  report_errors (unwrap_or errors []) t (upd_dll_state_machine state c).

(** ** Received frames ([events.rs]) *)

Definition cn_response c (data : SdoResponseData) : res NodeAction :=
  build_response true (core c) (cn_id c) data.
Definition cn_server_request (sdo_payload : bytes) (client_info : SdoClientInfo) (t : Z) c
    : CnContext S * res NodeAction :=
  let '(srv, d, r) := server_handle_request (sdo_server (core c)) sdo_payload client_info (cn_od c) t in
  let c := upd_core (with_od d (with_sdo_server srv (core c))) c in
  match r with
  | Ok response_data => (c, cn_response c response_data)
  | Err e => (c, Err e)
  end.

Definition process_sdo_asnd (f : ASndFrame) (t : Z) c : CnContext S * NodeAction :=
  let c := cn_count TELEGR SDO_RX c in
  match cn_server_request (asnd_payload f)
          (Client_Asnd (asnd_source f) (source_mac (asnd_eth_header f))) t c with
  | (c, Ok action) => (cn_count TELEGR SDO_TX c, action)
  | (c, Err _) => (c, NoAction)
  end.

(** The deadline for the next SoC, if the dictionary has the cycle. *)
Definition schedule_soc_timeout (t : Z) c : CnContext S :=
  match read_u32 (cn_od c) IDX_CYCLE_LEN 0, read_u32 (cn_od c) IDX_LOSS_OF_SOC_TOL 0 with
  | Some cycle_time_us, Some tolerance_ns =>
      if 0 <? cycle_time_us then
        let deadline := u64 (t + cycle_time_us + tolerance_ns / 1000) in
        match next_tick_us c with
        | Some current_deadline =>
            if deadline <? current_deadline then upd_next_tick_us (Some deadline) c else c
        | None => upd_next_tick_us (Some deadline) c
        end
      else upd_soc_timeout_check_active false c
  | _, _ => upd_soc_timeout_check_active false c
  end.

Definition on_soc (t : Z) c : CnContext S :=
  let c := upd_soc_timeout_check_active true (upd_last_soc_reception_time_us t c) in
  let c := cn_count TELEGR ISOCHR_CYC c in
  let '(manager, cleared) := manager_on_cycle_complete (dll_error_manager c) in
  let c := upd_dll_error_manager manager c in
  let c :=
    if cleared then
      let c := write_error_register (Z.land (error_register_value c) 0xFE) c in
      cn_count ERR_STAT STATIC_ERR_CHG (upd_error_status_changed true c)
    else c in
  schedule_soc_timeout t c.

Definition count_frame (frame : PowerlinkFrame) (t : Z) c : CnContext S :=
  match frame with
  | PF_PReq _ => cn_count TELEGR ISOCHR_RX c
  | PF_PRes f =>
      let c := cn_count TELEGR ISOCHR_RX c in
      upd_heartbeat_consumers
        (alter (fun hb => (fst hb, t)) (pres_source f) (heartbeat_consumers c)) c
  | PF_SoA f =>
      let c := cn_count TELEGR ASYNC_RX c in
      if bool_decide (soa_req_service_id f = Req_StatusRequest) then cn_count TELEGR STATUS_REQ c else c
  | _ => c
  end.

(** ER and EC of an SoA for this node. *)
Definition soa_flags_step (frame : PowerlinkFrame) c : CnContext S :=
  match frame with
  | PF_SoA soa =>
      if soa_target_node_id soa =? cn_id c then
        let er := soa_er (soa_flags soa) in
        let c :=
          if er then cn_count ERR_STAT ER_POS_EDGE (upd_emergency_queue [] (upd_en_flag false c)) else c in
        upd_ec_flag er c
      else c
  | _ => c
  end.

Definition event_of_command (cmd : NmtStateCommand) : NmtEvent :=
  match cmd with
  | Cmd_StartNode => Ev_StartNode
  | Cmd_StopNode => Ev_StopNode
  | Cmd_EnterPreOperational2 => Ev_EnterPreOperational2
  | Cmd_EnableReadyToOperate => Ev_EnableReadyToOperate
  | Cmd_ResetNode => Ev_ResetNode
  | Cmd_ResetCommunication => Ev_ResetCommunication
  | Cmd_ResetConfiguration => Ev_ResetConfiguration
  | Cmd_SwReset => Ev_SwReset
  end.

Definition set_host_name_command (payload : bytes) c : CnContext S :=
  if (34 <=? length payload)%nat then
    let hostname_bytes := slice payload 2 34 in
    let n := unwrap_or (position (fun b => b =? 0) hostname_bytes) 32%nat in
    match from_utf8 (take n hostname_bytes) with
    | Some hostname =>
        let d := fst (write_internal (cn_od c) IDX_HOST_NAME 0 (OV_VisibleString hostname) false) in
        queue_nmt_service_request Srv_IdentRequest (cn_id c) (cn_with_od d c)
    | None => c
    end
  else c.

(** The event of a frame, and the effect of a managing command. *)
Definition frame_event (frame : PowerlinkFrame) c : CnContext S * option NmtEvent :=
  match frame with
  | PF_Soc _ => (c, Some Ev_SocReceived)
  | PF_SoA _ => (c, Some Ev_SocSoAReceived)
  | PF_ASnd f =>
      if (asnd_destination f =? cn_id c) && bool_decide (asnd_service_id f = Svc_NmtCommand) then
        match asnd_payload f with
        | [] => (c, None)
        | cmd_id_byte :: _ =>
            match NmtStateCommand_try_from cmd_id_byte, NmtManagingCommand_try_from cmd_id_byte with
            | Ok cmd, _ => (c, Some (event_of_command cmd))
            | Err _, Ok NmtNetHostNameSet => (set_host_name_command (asnd_payload f) c, None)
            | Err _, _ => (c, None)
            end
        end
      else (c, None)
  | _ => (c, None)
  end.

Definition cn_consume (source : NodeId) (payload : bytes) (version : Z) (rd : bool) c
    : option (CnContext S) :=
  let! s := consume_pdo_payload source payload version rd (mkPdo (core c) (dll_error_manager c)) in
  Some (upd_dll_error_manager (ps_errors s) (upd_core (ps_core s) c)).

Definition consume_frame (frame : PowerlinkFrame) c : option (CnContext S) :=
  match frame with
  | PF_PReq f =>
      if preq_destination f =? cn_id c then
        cn_consume (preq_source f) (preq_payload f) (preq_pdo_version f) (preq_rd (preq_flags f)) c
      else Some c
  | PF_PRes f => cn_consume (pres_source f) (pres_payload f) (pres_pdo_version f) (pres_rd (pres_flags f)) c
  | _ => Some c
  end.

Definition toggle_en c : CnContext S :=
  if error_status_changed c then
    cn_count ERR_STAT EN_EDGE (upd_error_status_changed false (upd_en_flag (negb (en_flag c)) c))
  else c.

(** The answer to an SoA for this node. *)
Definition answer_soa (soa : SoAFrame) c : CnContext S * option PowerlinkFrame :=
  match soa_req_service_id soa with
  | Req_IdentRequest =>
      let c := cn_count TELEGR ASYNC_TX c in (c, Some (build_ident_response c soa))
  | Req_StatusRequest =>
      let '(c, frame) := build_status_response (cn_count TELEGR ASYNC_TX c) soa in (c, Some frame)
  | Req_NmtRequestInvite =>
      match vec_pop (pending_nmt_requests c) with
      | Some (l, (cmd_type, tgt)) =>
          let c := cn_count TELEGR ASYNC_TX (upd_pending_nmt_requests l c) in
          (c, Some (build_nmt_request c (CnNmtRequest_as_u8 cmd_type) tgt soa))
      | None => (c, None)
      end
  | Req_UnspecifiedInvite =>
      match pop_pending_request (sdo_client (core c)) with
      | (client, Some (_, sdo_payload)) =>
          let c := cn_count TELEGR SDO_TX (upd_core (with_sdo_client client (core c)) c) in
          (c, Some (answer c soa Svc_Sdo sdo_payload))
      | (client, None) => (upd_core (with_sdo_client client (core c)) c, None)
      end
  | Req_NoService => (c, None)
  end.

(** States in which the node answers an SoA, and a PReq. *)
Definition answers_soa (s : NmtState) : bool :=
  match s with
  | NmtPreOperational1 | NmtPreOperational2 | NmtReadyToOperate | NmtOperational | NmtCsStopped => true
  | _ => false
  end.
Definition answers_preq (s : NmtState) : bool :=
  match s with NmtPreOperational2 | NmtReadyToOperate | NmtOperational => true | _ => false end.

Definition respond (frame : PowerlinkFrame) c : CnContext S * option PowerlinkFrame :=
  if nmt_leb NmtNotActive (cn_state c) then
    match frame with
    | PF_SoA soa =>
        if (soa_target_node_id soa =? cn_id c) && answers_soa (cn_state c) then answer_soa soa c
        else (c, None)
    | PF_PReq f =>
        if (preq_destination f =? cn_id c) && answers_preq (cn_state c) then
          let c := cn_count TELEGR ISOCHR_TX c in
          let '(c, frame) := build_pres_response c (en_flag c) in (c, Some frame)
        else (c, None)
    | _ => (c, None)
    end
  else (c, None).

(** From the event of the frame on. *)
Definition process_event_and_respond (frame : PowerlinkFrame) (t : Z) c : option (CnContext S * NodeAction) :=
  let '(c, event) := frame_event frame c in
  let c := match event with Some e => cn_nmt_event e c | None => c end in
  match cn_dll_event (dll_cn_event frame) (cn_state c) t c with
  | (c, true) => Some (c, NoAction)
  | (c, false) =>
      let! consumed := consume_frame frame c in
      match respond frame (toggle_en consumed) with
      | (c, Some response) => Some (c, action_of (serialize_frame_action true response))
      | (c, None) => Some (c, NoAction)
      end
  end.

Definition cn_process_frame (frame : PowerlinkFrame) (t : Z) c : option (CnContext S * NodeAction) :=
  let process c := process_event_and_respond frame t (soa_flags_step frame (count_frame frame t c)) in
  match frame with
  | PF_ASnd f =>
      if negb (asnd_destination f =? cn_id c) then Some (c, NoAction)
      else if bool_decide (asnd_service_id f = Svc_Sdo) then Some (process_sdo_asnd f t c)
      else process (cn_count TELEGR ASYNC_RX c)
  | PF_Soc _ => process (on_soc t c)
  | _ => process c
  end.

(** ** The tick ([tick.rs]) *)

(** One consumer: its new entry, and whether it timed out. *)
Definition heartbeat_step (t : Z) (hb : Z * Z) : (Z * Z) * bool :=
  let '(timeout_us, last_seen_us) := hb in
  if last_seen_us =? 0 then ((timeout_us, t), false)
  else if (0 <? timeout_us) && (timeout_us <? u64 (t - last_seen_us)) then ((timeout_us, t), true)
  else ((timeout_us, last_seen_us), false).

Definition timed_out_nodes (t : Z) (consumers : gmap NodeId (Z * Z)) : list NodeId :=
  omap (fun nh => if snd (heartbeat_step t (snd nh)) then Some (fst nh) else None)
    (btree_items Z.le consumers).

(** One heartbeat error; [true] when it asked for a reset. *)
Definition report_heartbeat (n : NodeId) c : CnContext S * bool :=
  let '(c, (nmt_action, signaled)) := report_to_manager (HeartbeatTimeout n) c in
  let c :=
    if signaled then
      let c := upd_error_status_changed true c in
      let current_err_reg := error_register_value c in
      let new_err_reg := Z.lor current_err_reg 1 in
      if negb (current_err_reg =? new_err_reg) then
        write_error_register new_err_reg (cn_count ERR_STAT STATIC_ERR_CHG c)
      else c
    else c in
  if negb (bool_decide (nmt_action = Act_None)) then (error_reset c, true) else (c, false).

Fixpoint report_heartbeats (nodes : list NodeId) c : CnContext S * bool :=
  match nodes with
  | [] => (c, false)
  | n :: nodes =>
      match report_heartbeat n c with
      | (c, true) => (c, true)
      | (c, false) => report_heartbeats nodes c
      end
  end.

Definition check_heartbeats (nmt : NmtState) (t : Z) c : CnContext S * bool :=
  if nmt_leb NmtPreOperational2 nmt then
    let nodes := timed_out_nodes t (heartbeat_consumers c) in
    report_heartbeats nodes
      (upd_heartbeat_consumers ((fun hb => fst (heartbeat_step t hb)) <$> heartbeat_consumers c) c)
  else (c, false).

(** The abort the SDO server sends on a time-out. *)
Definition cn_tick_sdo_server (t : Z) c : CnContext S * option NodeAction :=
  let '(srv, r) := server_tick (sdo_server (core c)) t (cn_od c) in
  let c := upd_core (with_sdo_server srv (core c)) c in
  match r with
  | Ok (Some response_data) =>
      let c := cn_count TELEGR SDO_TX c in
      match cn_response c response_data with
      | Ok action => (c, Some action)
      | Err _ => (c, None)
      end
  | _ => (c, None)
  end.

(** The next check after a missed SoC. *)
Definition reschedule_soc_check (t : Z) c : CnContext S :=
  match read_u32 (cn_od c) IDX_CYCLE_LEN 0, read_u32 (cn_od c) IDX_LOSS_OF_SOC_TOL 0 with
  | Some cycle_time_us, Some tolerance_ns =>
      if 0 <? cycle_time_us then
        let last := last_soc_reception_time_us c in
        let cycles_missed := u64 (u64 (t - last) / cycle_time_us + 1) in
        upd_next_tick_us (Some (u64 (last + cycles_missed * cycle_time_us + tolerance_ns / 1000))) c
      else upd_soc_timeout_check_active false c
  | _, _ => upd_soc_timeout_check_active false c
  end.

Definition soc_timeout (nmt : NmtState) (t : Z) c : CnContext S :=
  if soc_timeout_check_active c then
    match cn_dll_event CE_SocTimeout nmt t c with
    | (c, true) => c
    | (c, false) => if soc_timeout_check_active c then reschedule_soc_check t c else c
    end
  else c.

Definition process_tick (t : Z) c : CnContext S * NodeAction :=
  match cn_tick_sdo_server t c with
  | (c, Some action) => (c, action)
  | (c, None) =>
      let nmt := cn_state c in
      match check_heartbeats nmt t c with
      | (c, true) => (c, NoAction)
      | (c, false) =>
          let timeout_us := cn_basic_ethernet_timeout (nmt_state_machine c) in
          if bool_decide (nmt = NmtNotActive) && negb (bool_decide (is_Some (next_tick_us c))) then
            (if 0 <? timeout_us then upd_next_tick_us (Some (u64 (t + timeout_us))) c else c, NoAction)
          else if negb (match next_tick_us c with Some deadline => deadline <=? t | None => false end)
          then (c, NoAction)
          else
            let c := upd_next_tick_us None c in
            if bool_decide (nmt = NmtNotActive) then
              (if 0 <? timeout_us then upd_soc_timeout_check_active false (cn_nmt_event Ev_Timeout c)
               else c, NoAction)
            else (soc_timeout nmt t c, NoAction)
      end
  end.

(** ** The node ([main.rs]) *)
Definition heartbeat_entry (m : gmap NodeId (Z * Z)) (hb_value : ObjectValue) : gmap NodeId (Z * Z) :=
  match hb_value with
  | OV_Unsigned32 hb_description =>
      let heartbeat_time_ms := u16 (Z.land hb_description 0xFFFF) in
      let node_id_val := u8 (Z.land (Z.shiftr hb_description 16) 0xFF) in
      if (0 <? heartbeat_time_ms) && (0 <? node_id_val) then
        match NodeId_try_from node_id_val with
        | Ok node_id => <[node_id := (heartbeat_time_ms * 1000, 0)]> m
        | Err _ => m
        end
      else m
  | _ => m
  end.

Definition cn_new (d : ObjectDictionary S) (mac : MacAddress) (capacity : Z) : res (CnContext S) :=
  let '(d, r) := init d in
  let? _ := r in
  let? _ := validate_mandatory_objects d false in
  let? nmt_state_machine := cn_from_od d in
  let heartbeat_consumers :=
    match read_object d 0x1016 with
    | Some (Obj_Array entries) => foldl heartbeat_entry ∅ entries
    | _ => ∅
    end in
  let '(machine, d) := run_internal_initialisation nmt_state_machine d in
  Ok (mkCn (mkCore d mac SdoServer_default SdoClient_new EmbeddedSdoServer_new EmbeddedSdoClient_new) machine Cs_NonCyclic
        (mkDllErrorManager CnErrorCounters_new []) [] [] capacity heartbeat_consumers 0 false None false
        true false).

Definition cn_queue_sdo_request (payload : bytes) c : CnContext S :=
  upd_core (queue_sdo_request (core c) C_ADR_MN_DEF_NODE_ID payload) c.
Definition queue_nmt_request (command : NmtStateCommand) (target : NodeId) c : CnContext S :=
  upd_pending_nmt_requests (pending_nmt_requests c ++ [(CnReq_Command command, target)]) c.

(** A frame that does not parse. *)
Definition invalid_format c : CnContext S :=
  let '(c, (nmt_action, signaled)) := report_to_manager InvalidFormat c in
  let c :=
    if signaled then
      let c := upd_error_status_changed true c in
      write_error_register (Z.lor (error_register_value c) 1) c
    else c in
  if negb (bool_decide (nmt_action = Act_None)) then cn_nmt_event Ev_Error c else c.

Definition cn_process_ethernet_frame (buffer : bytes) (t : Z) c : option (CnContext S * NodeAction) :=
  let c := if bool_decide (cn_state c = NmtBasicEthernet) then cn_nmt_event Ev_PowerlinkFrameReceived c
           else c in
  let c :=
    if (17 <? length buffer)%nat && (byte_at buffer 14 =? MessageType_as_u8 MT_ASnd)
       && (byte_at buffer 15 =? cn_id c) && (byte_at buffer 17 =? ServiceId_as_u8 Svc_Sdo)
    then cn_count TELEGR SDO_RX c else c in
  match deserialize_frame buffer with
  | Ok frame => cn_process_frame frame t c
  | Err InvalidEthernetFrame => Some (c, NoAction)
  | Err _ => Some (invalid_format c, NoAction)
  end.

Definition cn_process_udp_datagram (buffer : bytes) (source_ip : bytes) (source_port t : Z) c
    : CnContext S * NodeAction :=
  match deserialize_sdo_udp_payload buffer with
  | Ok (seq_header, cmd) =>
      match cn_server_request (reserialize seq_header cmd (length buffer))
              (Client_Udp source_ip source_port) t (cn_count TELEGR SDO_RX c) with
      | (c, Ok action) => (c, action)
      | (c, Err _) => (c, NoAction)
      end
  | Err _ => (c, NoAction)
  end.

(** The two sources of [run_cycle] before the tick. *)
Definition cn_ethernet_input (ethernet_frame : option bytes) (t : Z) c : option (CnContext S * NodeAction) :=
  match ethernet_frame with
  | Some buffer => if is_epl buffer then cn_process_ethernet_frame buffer t c else Some (c, NoAction)
  | None => Some (c, NoAction)
  end.
Definition cn_udp_input (udp_datagram : option (bytes * bytes * Z)) (t : Z) c : CnContext S * NodeAction :=
  match udp_datagram with
  | Some (buffer, ip, port) =>
      let '(c, action) := cn_process_udp_datagram buffer ip port t c in
      (match action with SendUdp _ _ _ => cn_count TELEGR SDO_TX c | _ => c end, action)
  | None => (c, NoAction)
  end.
Definition cn_run_cycle (ethernet_frame : option bytes) (udp_datagram : option (bytes * bytes * Z)) (t : Z)
    c : option (CnContext S * NodeAction) :=
  let! (c, action) := cn_ethernet_input ethernet_frame t c in
  if negb (no_action action) then Some (c, action) else
  let '(c, action) := cn_udp_input udp_datagram t c in
  if negb (no_action action) then Some (c, action) else Some (process_tick t c).

Definition cn_next_action_time c : option Z := next_tick_us c.
End Node.

(** ** How a node evolves *)

(** Everything a node does to its state: NMT events other than the completed
    configuration, which nothing in the node raises; the node number and the
    capacity of the emergency queue stay, the queue keeps to it, and the dictionary
    keeps its types. *)
Definition node_event (e : NmtEvent) : Prop := e <> Ev_CnConfigurationComplete.
Record evolves {S} `{ST : ObjectDictionaryStorage S} (c c' : CnContext S) : Prop := mkEvolves {
  ev_od : od_evolves (cn_od c) (cn_od c');
  ev_events : exists es, Forall node_event es /\ cn_state c' = foldl cn_next (cn_state c) es;
  ev_id : cn_id c' = cn_id c;
  ev_capacity : emergency_capacity c' = emergency_capacity c;
  ev_queue : len (emergency_queue c) <= emergency_capacity c ->
             len (emergency_queue c') <= emergency_capacity c
}.

Section Evolution.
Context {S : Type} `{ST : ObjectDictionaryStorage S}.
Implicit Types c : CnContext S.

#[export] Instance evolves_preorder : PreOrder (@evolves S ST).
Proof.
  split.
  - intros c. split; try done. by exists [].
  - intros a b c [O1 (es1 & H1 & E1) I1 C1 Q1] [O2 (es2 & H2 & E2) I2 C2 Q2]. split.
    + by transitivity (cn_od b).
    + exists (es1 ++ es2). rewrite Forall_app, foldl_app, <- E1. done.
    + congruence.
    + congruence.
    + intros Hq. rewrite <- C1. apply Q2. rewrite C1. auto.
Qed.

Lemma evolves_quiet c c' : od_evolves (cn_od c) (cn_od c') ->
  nmt_state_machine c' = nmt_state_machine c -> emergency_capacity c' = emergency_capacity c ->
  (length (emergency_queue c') <= length (emergency_queue c))%nat -> evolves c c'.
Proof.
  intros Ho Hm Hc Hq. split; unfold cn_state, cn_id, len; rewrite ?Hm; try done; [by exists []|lia].
Qed.

Lemma cn_process_id m e (od : ObjectDictionary S) :
  cn_node_id (fst (fst (process_event m e od))) = cn_node_id m.
Proof.
  cbn [process_event CnNmt_machine]. unfold cn_process_event.
  destruct (is_reset_event e) eqn:He.
  - unfold handle_reset. destruct e; try discriminate He; reflexivity.
  - destruct (cn_transition _ e) as [next errs]. unfold change_state. by case_bool_decide.
Qed.

Lemma evolves_event e c : node_event e -> evolves c (cn_nmt_event e c).
Proof.
  intros He. unfold cn_nmt_event.
  pose proof (cn_process_state (nmt_state_machine c) e (cn_od c)) as Hs.
  pose proof (cn_process_id (nmt_state_machine c) e (cn_od c)) as Hi.
  pose proof (types_process_event (nmt_state_machine c) e (cn_od c)) as Ho.
  destruct (process_event _ e _) as [[m d] r]. split; try done.
  exists [e]. split; [by constructor|]. exact Hs.
Qed.

Lemma evolves_count i s c : evolves c (cn_count i s c).
Proof. apply evolves_quiet; [apply types_increment|done..]. Qed.
Lemma evolves_error_register v c : evolves c (write_error_register v c).
Proof. apply evolves_quiet; [apply types_write_internal|done..]. Qed.
Lemma evolves_reset c : evolves c (error_reset c).
Proof. unfold error_reset. transitivity (cn_nmt_event Ev_Error c); [by apply evolves_event|by apply evolves_quiet]. Qed.
Lemma evolves_queue_error e c : evolves c (queue_error e c).
Proof.
  unfold queue_error. destruct (Z.ltb_spec (len (emergency_queue c)) (emergency_capacity c));
    [|apply evolves_count].
  split; try done; [|by exists []|].
  - etransitivity; [apply types_history|apply types_increment].
  - simpl. unfold len in *. rewrite length_app. simpl. lia.
Qed.
Lemma evolves_manager e c : evolves c (fst (report_to_manager e c)).
Proof. unfold report_to_manager. destruct (manager_handle_error _ e) as [m r]. by apply evolves_quiet. Qed.
End Evolution.

(** Chains of steps, one at a time. *)
Ltac quiet := apply evolves_quiet; [first [reflexivity|assumption|apply types_write_internal|apply types_increment]|simpl; (done || lia)..].
Ltac evolve := repeat first
  [ reflexivity | apply evolves_reset | apply evolves_count | apply evolves_error_register
  | apply evolves_queue_error | quiet
  | etransitivity; [|apply evolves_count] | etransitivity; [|apply evolves_error_register]
  | etransitivity; [|apply evolves_queue_error] | etransitivity; [|apply evolves_reset] ].

Section Handlers.
Context {S : Type} `{ST : ObjectDictionaryStorage S}.
Implicit Types c : CnContext S.

Lemma evolves_report_error e t c : evolves c (fst (report_error e t c)).
Proof.
  unfold report_error.
  pose proof (evolves_manager e (cn_count ERR_STAT HIST_WRITE c)) as Hm.
  destruct (report_to_manager e _) as [c1 [a signaled]]. cbn [fst] in Hm.
  transitivity c1; [etransitivity; [apply evolves_count|exact Hm]|].
  match goal with |- evolves c1 (fst (if _ then (error_reset ?d, _) else _)) => assert (He : evolves c1 d) end.
  { destruct signaled; [|reflexivity]. destruct (negb _); evolve. }
  destruct (negb (bool_decide _)); [|exact He]. etransitivity; [exact He|apply evolves_reset].
Qed.

Lemma evolves_report_errors errors t : forall c, evolves c (fst (report_errors errors t c)).
Proof.
  induction errors as [|e errors IH]; intros c; [done|]. cbn [report_errors].
  pose proof (evolves_report_error e t c) as He. destruct (report_error e t c) as [c1 []]; [done|].
  etransitivity; [exact He|apply IH].
Qed.

Lemma evolves_dll_event e nmt t c : evolves c (fst (cn_dll_event e nmt t c)).
Proof.
  unfold cn_dll_event. destruct (DllCs_process_event _ e nmt) as [s errors].
  etransitivity; [|apply evolves_report_errors]. quiet.
Qed.

Lemma evolves_server_request p i t c : evolves c (fst (cn_server_request p i t c)).
Proof.
  unfold cn_server_request. pose proof (types_server (sdo_server (core c)) p i (cn_od c) t) as Ho.
  destruct (server_handle_request _ p i _ t) as [[srv d] r]. cbn [fst snd] in Ho. destruct r; quiet.
Qed.

Lemma evolves_sdo_asnd f t c : evolves c (fst (process_sdo_asnd f t c)).
Proof.
  unfold process_sdo_asnd.
  pose proof (evolves_server_request (asnd_payload f)
    (Client_Asnd (asnd_source f) (source_mac (asnd_eth_header f))) t (cn_count TELEGR SDO_RX c)) as Hs.
  destruct (cn_server_request _ _ t _) as [c1 r]. cbn [fst] in Hs.
  transitivity c1; [etransitivity; [apply evolves_count|exact Hs]|]. destruct r; evolve.
Qed.

Lemma evolves_schedule t c : evolves c (schedule_soc_timeout t c).
Proof.
  unfold schedule_soc_timeout. repeat case_match; evolve.
Qed.

Lemma evolves_on_soc t c : evolves c (on_soc t c).
Proof.
  unfold on_soc. destruct (manager_on_cycle_complete _) as [m cleared].
  etransitivity; [|apply evolves_schedule].
  match goal with |- evolves c (if _ then cn_count _ _ (upd_error_status_changed _ (write_error_register _ ?d)) else _) =>
    assert (evolves c d) as Hd by (transitivity (cn_count TELEGR ISOCHR_CYC
      (upd_soc_timeout_check_active true (upd_last_soc_reception_time_us t c)));
      [etransitivity; [|apply evolves_count]|]; quiet); revert Hd; generalize d end.
  intros d Hd. destruct cleared; [|done]. etransitivity; [|apply evolves_count].
  transitivity (write_error_register (Z.land (error_register_value d) 0xFE) d); [|quiet].
  etransitivity; [exact Hd|apply evolves_error_register].
Qed.

Lemma evolves_count_frame f t c : evolves c (count_frame f t c).
Proof.
  destruct f as [| | |f|]; simpl; evolve. destruct (bool_decide _); evolve.
Qed.

Lemma evolves_soa_flags f c : evolves c (soa_flags_step f c).
Proof.
  destruct f as [| | |f|]; simpl; evolve. destruct (_ =? _); evolve. destruct (soa_er _); quiet.
Qed.

Lemma evolves_frame_event f c : evolves c (fst (frame_event f c)) /\
  match snd (frame_event f c) with Some e => node_event e | None => True end.
Proof.
  destruct f as [| | | |f]; cbn [frame_event]; try (split; [done|discriminate || exact I]).
  destruct (_ && _); [|split; done]. destruct (asnd_payload f) as [|b l]; [done|].
  destruct (NmtStateCommand_try_from b) as [cmd|]; [split; [done|by destruct cmd]|].
  destruct (NmtManagingCommand_try_from b) as [[]|]; try done.
  split; [|done]. cbn [fst]. unfold set_host_name_command.
  destruct (34 <=? _)%nat; [|done]. destruct (from_utf8 _); [|done]. quiet.
Qed.

Lemma evolves_consume f c c' : consume_frame f c = Some c' -> evolves c c'.
Proof.
  assert (Hc : forall s p v rd c', cn_consume s p v rd c = Some c' -> evolves c c').
  { intros s p v rd c1. unfold cn_consume. destruct (consume_pdo_payload _ _ _ _ _) as [st|] eqn:E; [|done].
    apply types_consume_pdo in E. intros [= <-]. quiet. }
  destruct f as [|f|f| |]; cbn [consume_frame]; try (by intros [= <-]).
  - destruct (_ =? _); [apply Hc|by intros [= <-]].
  - apply Hc.
Qed.

Lemma evolves_toggle c : evolves c (toggle_en c).
Proof. unfold toggle_en. destruct (error_status_changed c); evolve. Qed.

Lemma evolves_status_response c soa : evolves c (fst (build_status_response c soa)).
Proof.
  unfold build_status_response. destruct (request_status _ _) as [rs pr]. cbv zeta.
  match goal with |- context [drop ?n (emergency_queue c)] => generalize n as k end. intros k.
  generalize (replicate (Z.to_nat (sat_sub (unwrap_or (read_u16 (cn_od c) 8088 8) 300) 4)) 0). intros buf.
  assert (evolves c (upd_emergency_queue (drop k (emergency_queue c)) c)) as Hd.
  { apply evolves_quiet; [done|done|done|]. simpl. rewrite length_drop. lia. }
  destruct (take k (emergency_queue c)) as [|e es]; repeat case_match; cbn [fst]; try exact Hd;
    (etransitivity; [exact Hd|apply evolves_count]).
Qed.

Lemma evolves_answer_soa soa c : evolves c (fst (answer_soa soa c)).
Proof.
  unfold answer_soa. destruct (soa_req_service_id soa); try (evolve; fail).
  - pose proof (evolves_status_response (cn_count TELEGR ASYNC_TX c) soa) as Hs.
    destruct (build_status_response _ soa) as [c1 f]. etransitivity; [apply evolves_count|exact Hs].
  - destruct (vec_pop _) as [[l [cmd tgt]]|]; evolve.
  - destruct (pop_pending_request _) as [cl [[n p]|]]; quiet.
Qed.

Lemma tpdo_entry_od (k : CoreNodeContext S) e buf : od (fst (apply_tpdo_mapping_entry k e buf)) = od k.
Proof.
  unfold apply_tpdo_mapping_entry. destruct (byte_offset e), (byte_length e); try done.
  case_match; [done|]. case_match; [by destruct (get_pending_response _ _ _)|].
  case_match; [by destruct (SdoEmbedded.get_pending_request _ _ _)|].
  destruct (read _ _ _); [|done]. by case_match.
Qed.
Lemma tpdo_loop_od es : forall (k : CoreNodeContext S) buf, od (fst (tpdo_loop es k buf)) = od k.
Proof.
  induction es as [|e es IH]; intros k buf; [done|]. cbn [tpdo_loop].
  pose proof (tpdo_entry_od k e buf) as He. destruct (apply_tpdo_mapping_entry k e buf) as [k1 [b|x]];
    cbn [fst] in He; [|done]. by rewrite IH.
Qed.
Lemma build_tpdo_od (k : CoreNodeContext S) : od (fst (build_tpdo_payload k)) = od k.
Proof.
  unfold build_tpdo_payload. case_match; [|done].
  match goal with |- context [tpdo_loop ?es k ?b] => pose proof (tpdo_loop_od es k b) as Ho;
    destruct (tpdo_loop es k b) as [k1 []] end; done.
Qed.

Lemma evolves_respond f c : evolves c (fst (respond f c)).
Proof.
  unfold respond. destruct (nmt_leb _ _); [|done].
  destruct f as [|f| |soa|]; try done.
  - destruct (_ && _); [|done]. etransitivity; [apply (evolves_count TELEGR ISOCHR_TX)|].
    unfold build_pres_response. pose proof (build_tpdo_od (core (cn_count TELEGR ISOCHR_TX c))) as Ho.
    destruct (build_tpdo_payload _) as [k r]. cbn [fst] in Ho.
    destruct r as [[p v]|e]; destruct (request_status _ _);
      (apply evolves_quiet; [|simpl; (done || lia)..]); change (od_evolves (od (core (cn_count TELEGR ISOCHR_TX c))) (od k));
      by rewrite Ho.
  - destruct (_ && _); [apply evolves_answer_soa|done].
Qed.
End Handlers.

Section Cycle.
Context {S : Type} `{ST : ObjectDictionaryStorage S}.
Implicit Types c : CnContext S.

Lemma evolves_process_event f t c c' a :
  process_event_and_respond f t c = Some (c', a) -> evolves c c'.
Proof.
  unfold process_event_and_respond. destruct (evolves_frame_event f c) as [Hf He].
  destruct (frame_event f c) as [c1 e]. cbn [fst snd] in Hf, He.
  set (c2 := match e with Some e => cn_nmt_event e c1 | None => c1 end).
  assert (evolves c c2) as H2.
  { etransitivity; [exact Hf|]. unfold c2. destruct e; [by apply evolves_event|reflexivity]. }
  pose proof (evolves_dll_event (dll_cn_event f) (cn_state c2) t c2) as H3.
  destruct (cn_dll_event _ _ t c2) as [c3 []]; cbn [fst] in H3.
  { intros [= <- <-]. by etransitivity. }
  destruct (consume_frame f c3) as [c4|] eqn:E4; [|done]. apply evolves_consume in E4.
  pose proof (evolves_respond f (toggle_en c4)) as H5.
  assert (evolves c (toggle_en c4)) as H6.
  { etransitivity; [exact H2|]. etransitivity; [exact H3|]. etransitivity; [exact E4|]. apply evolves_toggle. }
  destruct (respond f _) as [c5 [r|]]; cbn [fst] in H5; intros [= <- <-]; by etransitivity.
Qed.

Lemma evolves_process_frame f t c c' a : cn_process_frame f t c = Some (c', a) -> evolves c c'.
Proof.
  assert (Hp : forall d, evolves c d ->
    process_event_and_respond f t (soa_flags_step f (count_frame f t d)) = Some (c', a) -> evolves c c').
  { intros d Hd H. apply evolves_process_event in H. etransitivity; [exact Hd|].
    etransitivity; [apply (evolves_count_frame f t)|]. etransitivity; [apply (evolves_soa_flags f)|exact H]. }
  unfold cn_process_frame. destruct f as [f|f|f|f|f]; try (by apply Hp).
  - apply Hp, evolves_on_soc.
  - destruct (negb _); [by intros [= <- <-]|]. destruct (bool_decide _).
    + intros [= H]. pose proof (evolves_sdo_asnd f t c) as Hs. by rewrite H in Hs.
    + apply Hp, evolves_count.
Qed.

Lemma evolves_invalid_format c : evolves c (invalid_format c).
Proof.
  unfold invalid_format. pose proof (evolves_manager InvalidFormat c) as Hm.
  destruct (report_to_manager _ c) as [c1 [a s]]. cbn [fst] in Hm. etransitivity; [exact Hm|].
  destruct s, (negb _); try (by apply evolves_event); try quiet; try reflexivity.
  etransitivity; [|by apply evolves_event]. quiet.
Qed.

Lemma evolves_if (b : bool) c d : evolves c d -> evolves c (if b then d else c).
Proof. intros. destruct b; [done|reflexivity]. Qed.

Lemma evolves_ethernet b t c c' a : cn_process_ethernet_frame b t c = Some (c', a) -> evolves c c'.
Proof.
  unfold cn_process_ethernet_frame.
  match goal with |- context [cn_process_frame _ t ?d] => assert (evolves c d) as H2 end.
  { etransitivity; [|apply evolves_if, evolves_count]. by apply evolves_if, evolves_event. }
  destruct (deserialize_frame b) as [f|e].
  - intros H. apply evolves_process_frame in H. by etransitivity.
  - destruct e; intros [= <- <-]; first [exact H2|etransitivity; [exact H2|apply evolves_invalid_format]].
Qed.

Lemma evolves_udp b ip port t c : evolves c (fst (cn_process_udp_datagram b ip port t c)).
Proof.
  unfold cn_process_udp_datagram. destruct (deserialize_sdo_udp_payload b) as [[h cmd]|]; [|reflexivity].
  pose proof (evolves_server_request (reserialize h cmd (length b)) (Client_Udp ip port) t
    (cn_count TELEGR SDO_RX c)) as Hs.
  destruct (cn_server_request _ _ t _) as [c1 r]. cbn [fst] in Hs.
  destruct r; (etransitivity; [apply (evolves_count TELEGR SDO_RX)|exact Hs]).
Qed.

Lemma evolves_heartbeat n c : evolves c (fst (report_heartbeat n c)).
Proof.
  unfold report_heartbeat. pose proof (evolves_manager (HeartbeatTimeout n) c) as Hm.
  destruct (report_to_manager _ c) as [c1 [a signaled]]. cbn [fst] in Hm.
  match goal with |- evolves c (fst (if _ then (error_reset ?d, _) else _)) => assert (He : evolves c d) end.
  { etransitivity; [exact Hm|]. destruct signaled; [|reflexivity]. destruct (negb _); evolve. }
  destruct (negb (bool_decide _)); [|exact He]. etransitivity; [exact He|apply evolves_reset].
Qed.

Lemma evolves_heartbeats nodes : forall c, evolves c (fst (report_heartbeats nodes c)).
Proof.
  induction nodes as [|n nodes IH]; intros c; [reflexivity|]. cbn [report_heartbeats].
  pose proof (evolves_heartbeat n c) as He. destruct (report_heartbeat n c) as [c1 []]; [done|].
  etransitivity; [exact He|apply IH].
Qed.

Lemma evolves_soc_timeout nmt t c : evolves c (soc_timeout nmt t c).
Proof.
  unfold soc_timeout. destruct (soc_timeout_check_active c); [|reflexivity].
  pose proof (evolves_dll_event CE_SocTimeout nmt t c) as Hd.
  destruct (cn_dll_event _ nmt t c) as [c1 []]; [done|]. cbn [fst] in Hd.
  etransitivity; [exact Hd|]. destruct (soc_timeout_check_active c1); [|reflexivity].
  unfold reschedule_soc_check. repeat case_match; evolve.
Qed.

Lemma evolves_tick t c : evolves c (fst (process_tick t c)).
Proof.
  unfold process_tick.
  assert (evolves c (fst (cn_tick_sdo_server t c))) as H1.
  { unfold cn_tick_sdo_server. destruct (server_tick _ t _) as [srv r]. repeat case_match; quiet. }
  destruct (cn_tick_sdo_server t c) as [c1 [a|]]; cbn [fst] in H1; [exact H1|].
  assert (evolves c (fst (check_heartbeats (cn_state c1) t c1))) as H2.
  { etransitivity; [exact H1|]. unfold check_heartbeats. destruct (nmt_leb _ _); [|reflexivity].
    etransitivity; [|apply evolves_heartbeats]. quiet. }
  destruct (check_heartbeats _ t c1) as [c2 []]; cbn [fst] in H2; [exact H2|].
  destruct (_ && _).
  { cbn [fst]. etransitivity; [exact H2|]. destruct (_ <? _); evolve. }
  destruct (negb _); [exact H2|].
  destruct (bool_decide _); cbn [fst]; (etransitivity; [exact H2|]).
  - destruct (_ <? _); [|quiet].
    transitivity (cn_nmt_event Ev_Timeout (upd_next_tick_us None c2)); [|quiet].
    etransitivity; [|by apply evolves_event]. quiet.
  - etransitivity; [|apply evolves_soc_timeout]. quiet.
Qed.

Lemma evolves_ethernet_input eth t c c' a : cn_ethernet_input eth t c = Some (c', a) -> evolves c c'.
Proof.
  unfold cn_ethernet_input. destruct eth as [b|]; [destruct (is_epl b); [apply evolves_ethernet|]|];
    by intros [= <- <-].
Qed.
Lemma evolves_udp_input udp t c : evolves c (fst (cn_udp_input udp t c)).
Proof.
  unfold cn_udp_input. destruct udp as [[[b ip] port]|]; [|reflexivity].
  pose proof (evolves_udp b ip port t c) as Hu. destruct (cn_process_udp_datagram _ _ _ _ _) as [c2 a2].
  cbn [fst] in *. destruct a2; try exact Hu. etransitivity; [exact Hu|apply evolves_count].
Qed.
Lemma evolves_cycle eth udp t c c' a : cn_run_cycle eth udp t c = Some (c', a) -> evolves c c'.
Proof.
  unfold cn_run_cycle. destruct (cn_ethernet_input eth t c) as [[c1 a1]|] eqn:E; [|done].
  apply evolves_ethernet_input in E as H1.
  destruct (negb (no_action a1)); [by intros [= <- <-]|].
  assert (evolves c (fst (cn_udp_input udp t c1))) as H2.
  { etransitivity; [exact H1|apply evolves_udp_input]. }
  destruct (cn_udp_input udp t c1) as [c2 a2]. cbn [fst] in H2.
  destruct (negb (no_action a2)); [by intros [= <- <-]|].
  intros [= H]. pose proof (evolves_tick t c2) as Ht. rewrite H in Ht. by etransitivity.
Qed.
End Cycle.

(** ** Runs of a node *)

(** A call of the node by its application. *)
Inductive CnInput : Type :=
| Cn_Cycle (ethernet_frame : option bytes) (udp_datagram : option (bytes * bytes * Z)) (t : Z)
| Cn_SdoRequest (payload : bytes)
| Cn_NmtRequest (command : NmtStateCommand) (target : NodeId).

Definition cn_input {S} `{ObjectDictionaryStorage S} (i : CnInput) (c : CnContext S)
    : option (CnContext S * NodeAction) :=
  match i with
  | Cn_Cycle eth udp t => cn_run_cycle eth udp t c
  | Cn_SdoRequest p => Some (cn_queue_sdo_request p c, NoAction)
  | Cn_NmtRequest cmd target => Some (queue_nmt_request cmd target c, NoAction)
  end.
Fixpoint cn_run {S} `{ObjectDictionaryStorage S} (ins : list CnInput) (c : CnContext S)
    : option (CnContext S * list NodeAction) :=
  match ins with
  | [] => Some (c, [])
  | i :: ins =>
      let! (c, a) := cn_input i c in
      let! (c, actions) := cn_run ins c in Some (c, a :: actions)
  end.

Lemma evolves_run {S} `{ST : ObjectDictionaryStorage S} ins : forall (c c' : CnContext S) actions,
  cn_run ins c = Some (c', actions) -> evolves c c'.
Proof.
  induction ins as [|i ins IH]; intros c c' actions; cbn [cn_run]; [by intros [= <- <-]|].
  assert (forall c1 a, cn_input i c = Some (c1, a) -> evolves c c1) as Hi.
  { intros c1 a. destruct i; cbn [cn_input]; [apply evolves_cycle| |]; intros [= <- <-]; quiet. }
  destruct (cn_input i c) as [[c1 a]|]; [|done]. specialize (Hi _ _ eq_refl).
  destruct (cn_run ins c1) as [[c2 as']|] eqn:E; [|done]. intros [= <- <-].
  etransitivity; [exact Hi|by eapply IH].
Qed.

Lemma cn_new_state {S} `{ST : ObjectDictionaryStorage S} d mac cap (c : CnContext S) :
  cn_new d mac cap = Ok c ->
  cn_state c = NmtNotActive /\ emergency_queue c = [] /\ emergency_capacity c = cap /\
  read_u8 (fst (init d)) 0x1F93 1 = Some (cn_id c).
Proof.
  unfold cn_new. destruct (init d) as [d1 r]. destruct r as [[]|]; [|done].
  destruct (validate_mandatory_objects d1 false) as [[]|]; [|done].
  destruct (cn_from_od d1) as [m|] eqn:Em; [|done].
  assert (read_u8 d1 0x1F93 1 = Some (cn_node_id m) /\ cn_current_state m = NmtGsInitialising) as [Hn Hs].
  { revert Em. unfold cn_from_od, read_u8. destruct (read d1 0x1F93 1) as [[]|]; try done. cbn [ok_or].
    destruct (NodeId_try_from v) as [n|] eqn:En; [|done].
    destruct (read d1 0x1F82 0) as [[]|]; try done. cbn [ok_or].
    destruct (read d1 0x1F99 0) as [[]|]; try done. cbn [ok_or]. intros [= <-]. split; [|done].
    simpl. unfold NodeId_try_from in En. repeat case_match; congruence. }
  unfold run_internal_initialisation. cbn [current_state CnNmt_core]. rewrite Hs.
  rewrite bool_decide_eq_true_2 by done. cbn [negb].
  destruct (reset m Ev_SwReset d1) as [m1 d2] eqn:Er. intros [= <-].
  unfold cn_state, cn_id. cbn. assert (cn_current_state m1 = NmtNotActive /\ cn_node_id m1 = cn_node_id m) as [-> ->].
  { change m1 with (fst (m1, d2)). rewrite <- Er. by split. }
  done.
Qed.

(** The state of a node that its configuration was never completed for. *)
Definition before_operation (s : NmtState) : Prop := s <> NmtReadyToOperate /\ s <> NmtOperational.
Lemma cn_next_before s e : node_event e -> before_operation s -> before_operation (cn_next s e).
Proof. unfold node_event, before_operation. intros He [H1 H2]. destruct s, e; split; done. Qed.
Lemma cn_steps_before es : forall s, Forall node_event es -> before_operation s ->
  before_operation (foldl cn_next s es).
Proof.
  induction es as [|e es IH]; intros s Hes Hs; [done|]. inversion_clear Hes.
  by apply IH, cn_next_before.
Qed.

Definition demo_cn_od (id : NodeId) : ObjectDictionary MemStorage :=
  match new_cn_default id with Ok d => d | Err _ => ObjectDictionary_new None end.
Definition demo_soc : PowerlinkFrame :=
  PF_Soc (SocFrame_new demo_mac (mkSocFlags false false) (mkNetTime 0 0) (mkRelativeTime 0 0)).
Definition demo_soa (service : RequestedServiceId) (target : NodeId) : PowerlinkFrame :=
  PF_SoA (SoAFrame_new demo_mac NmtPreOperational1 (mkSoAFlags false false) service target 0x15).
Definition demo_command (cmd : NmtStateCommand) (target : NodeId) : PowerlinkFrame :=
  PF_ASnd (ASndFrame_new demo_mac demo_mac target C_ADR_MN_DEF_NODE_ID Svc_NmtCommand
    [NmtStateCommand_as_u8 cmd; 0]).
Definition demo_preq (target : NodeId) : PowerlinkFrame :=
  PF_PReq (PReqFrame_new demo_mac demo_mac target (mkPReqFlags false false true) 0 [1; 2; 3; 4]).
(** A complete boot-up by the managing node. *)
Definition demo_boot_frames : list PowerlinkFrame :=
  [demo_soa Req_IdentRequest 42; demo_soc; demo_preq 42; demo_soa Req_UnspecifiedInvite 240;
   demo_command Cmd_EnableReadyToOperate 42; demo_soc; demo_preq 42;
   demo_soa Req_UnspecifiedInvite 240; demo_command Cmd_StartNode 42; demo_soc; demo_preq 42].
Definition demo_inputs (frames : list PowerlinkFrame) : list CnInput :=
  (fun f => Cn_Cycle (Some (frame_bytes false f)) None 1000) <$> frames.

(** ** Properties *)

(** C20: A controlled node never becomes operational.  From its creation on, whatever frames,
    datagrams and times [run_cycle] is given and whatever the application queues, its NMT state
    is the one of the NMT machine after events none of which is the completed configuration
    (nothing in the node raises it), so it is never NMT_CS_READY_TO_OPERATE nor NMT_CS_OPERATIONAL
    and no PRes it answers with has the RD flag: its process data is never valid.  Besides, its
    node number stays that of object 0x1F93 and the emergency queue keeps to its capacity. *)
Theorem cn_node_never_operational {S} `{ST : ObjectDictionaryStorage S} d mac cap (c c' : CnContext S)
    inputs actions :
  0 <= cap -> cn_new d mac cap = Ok c -> cn_run inputs c = Some (c', actions) ->
  (exists es, Forall node_event es /\ cn_state c' = foldl cn_next NmtNotActive es) /\
  cn_state c' <> NmtReadyToOperate /\ cn_state c' <> NmtOperational /\
  (forall f r, snd (respond (PF_PReq f) c') = Some (PF_PRes r) -> pres_rd (pres_flags r) = false) /\
  read_u8 (fst (init d)) 0x1F93 1 = Some (cn_id c') /\ len (emergency_queue c') <= cap.
Proof.
  intros Hcap Hn Hr. destruct (cn_new_state d mac cap c Hn) as (Hs & Hq & Hc & Hi).
  destruct (evolves_run inputs c c' actions Hr) as [_ (es & Hes & E) I C Q]. rewrite Hs in E.
  assert (before_operation (cn_state c')) as [H1 H2].
  { rewrite E. by apply cn_steps_before. }
  split_and!; try done.
  - by exists es.
  - intros f r. unfold respond. destruct (nmt_leb _ _); [|done]. destruct (_ && _); [|done].
    unfold build_pres_response. cbn [snd].
    change (cn_state (cn_count TELEGR ISOCHR_TX c')) with (cn_state c').
    rewrite bool_decide_eq_false_2 by done.
    destruct (build_tpdo_payload _) as [k [[p v]|e]]; destruct (request_status _ _); cbn;
      by intros [= <-].
  - by rewrite I.
  - rewrite <- Hc. apply Q. rewrite Hq, Hc. done.
Qed.

Lemma cn_node_never_operational_witness :
  exists c c' actions, cn_new (demo_cn_od 42) demo_mac 10 = Ok c /\
  cn_run (demo_inputs demo_boot_frames) c = Some (c', actions) /\ cn_state c' = NmtPreOperational2 /\
  ((exists es, Forall node_event es /\ cn_state c' = foldl cn_next NmtNotActive es) /\
  cn_state c' <> NmtReadyToOperate /\ cn_state c' <> NmtOperational /\
  (forall f r, snd (respond (PF_PReq f) c') = Some (PF_PRes r) -> pres_rd (pres_flags r) = false) /\
  read_u8 (fst (init (demo_cn_od 42))) 0x1F93 1 = Some (cn_id c') /\ len (emergency_queue c') <= 10).
Proof.
  destruct (cn_new (demo_cn_od 42) demo_mac 10) as [c|] eqn:En; [|vm_compute in En; discriminate].
  destruct (cn_run (demo_inputs demo_boot_frames) c) as [[c' actions]|] eqn:Er.
  - exists c, c', actions. split; [reflexivity|]. split; [exact Er|]. split.
    + assert (option_map (fun r => cn_state (fst r))
        (match cn_new (demo_cn_od 42) demo_mac 10 with
         | Ok c => cn_run (demo_inputs demo_boot_frames) c | Err _ => None end) = Some NmtPreOperational2)
        as H by (vm_compute; reflexivity).
      rewrite En, Er in H. simpl in H. congruence.
    + apply (cn_node_never_operational (demo_cn_od 42) demo_mac 10 c c' (demo_inputs demo_boot_frames) actions);
        [lia|exact En|exact Er].
  - exfalso. assert (match cn_new (demo_cn_od 42) demo_mac 10 with
      | Ok c => cn_run (demo_inputs demo_boot_frames) c | Err _ => None end <> None) as H by (vm_compute; discriminate).
    rewrite En in H. exact (H Er).
Defined.

(** ** Who is answered *)
Section Answers.
Context {S : Type} `{ST : ObjectDictionaryStorage S}.
Implicit Types c : CnContext S.

(** The service that answers a requested one. *)
Definition answering_service (s : RequestedServiceId) : option ServiceId :=
  match s with
  | Req_IdentRequest => Some Svc_IdentResponse
  | Req_StatusRequest => Some Svc_StatusResponse
  | Req_NmtRequestInvite => Some Svc_NmtRequest
  | Req_UnspecifiedInvite => Some Svc_Sdo
  | Req_NoService => None
  end.

(** [response] is what [frame] asks node [id] for, which is in state [s]. *)
Definition asked_for (id : NodeId) (s : NmtState) (frame response : PowerlinkFrame) : Prop :=
  match frame, response with
  | PF_SoA soa, PF_ASnd f =>
      soa_target_node_id soa = id /\ answers_soa s = true /\
      answering_service (soa_req_service_id soa) = Some (asnd_service_id f) /\
      asnd_source f = id /\ asnd_destination f = C_ADR_MN_DEF_NODE_ID /\ asnd_message_type f = MT_ASnd
  | PF_PReq p, PF_PRes f =>
      preq_destination p = id /\ answers_preq s = true /\ pres_source f = id /\ pres_nmt_state f = s /\
      pres_message_type f = MT_PRes
  | _, _ => False
  end.

(** [a] is an answer of the SDO server of the node that is [c] now. *)
Definition sdo_answer c (a : NodeAction) : Prop :=
  exists (d : CnContext S) data, cn_id d = cn_id c /\ cn_response d data = Ok a.

(** [a] is what the SDO server of the node [c] replies to a request of [client], to whom the
    connection of the client leads; the dictionary has at most been written to since. *)
Definition sdo_reply c (request : bytes) (client : SdoClientInfo) (t : Z) (a : NodeAction) : Prop :=
  exists (d e : CnContext S) srv od data,
    evolves c d /\ sdo_server (core d) = sdo_server (core c) /\
    server_handle_request (sdo_server (core d)) request client (cn_od d) t = (srv, od, Ok data) /\
    rd_client_info data = client_info (connection_of (sdo_server (core c)) client) /\
    cn_id e = cn_id c /\ cn_response e data = Ok a.

(** [a] is what the SDO server of the node [c] sends for a connection of it that timed out. *)
Definition sdo_timeout c (t : Z) (a : NodeAction) : Prop :=
  exists (e : CnContext S) client h data,
    connections (sdo_server (core c)) !! client = Some h /\ timed_out_answer t h data /\
    cn_id e = cn_id c /\ cn_response e data = Ok a.

Lemma status_response_machine c soa : exists c' p, build_status_response c soa = (c', answer c' soa Svc_StatusResponse p)
  /\ nmt_state_machine c' = nmt_state_machine c.
Proof.
  unfold build_status_response. destruct (request_status _ _) as [rs pr]. cbv zeta.
  match goal with |- context [drop ?n (emergency_queue c)] => generalize n as k end. intros k.
  generalize (replicate (Z.to_nat (sat_sub (unwrap_or (read_u16 (cn_od c) 8088 8) 300) 4)) 0). intros buf.
  destruct (take k (emergency_queue c)) as [|e es]; repeat case_match; eexists _, _; by split.
Qed.

Lemma ident_response_answer c soa : exists p, build_ident_response c soa = answer c soa Svc_IdentResponse p.
Proof.
  unfold build_ident_response. destruct (request_status _ _) as [rs pr]. cbv zeta.
  destruct (IdentResponsePayload_serialize _ _) as [b r]. by eexists.
Qed.

Lemma respond_asked f c c' r : respond f c = (c', Some r) ->
  cn_state c' = cn_state c /\ asked_for (cn_id c) (cn_state c) f r.
Proof.
  unfold respond. destruct (nmt_leb _ _); [|done]. destruct f as [|f| |soa|]; try done.
  - destruct (Z.eqb_spec (preq_destination f) (cn_id c)) as [Hd|]; [|done].
    destruct (answers_preq (cn_state c)) eqn:Ha; [|done]. cbn [andb].
    unfold build_pres_response. destruct (build_tpdo_payload _) as [k r'].
    destruct r' as [[p v]|e]; destruct (request_status _ _); intros [= <- <-]; by split_and!.
  - destruct (Z.eqb_spec (soa_target_node_id soa) (cn_id c)) as [Hd|]; [|done].
    destruct (answers_soa (cn_state c)) eqn:Ha; [|done]. cbn [andb]. unfold answer_soa.
    destruct (soa_req_service_id soa) eqn:Hq; cbn [asked_for].
    + done.
    + destruct (ident_response_answer (cn_count TELEGR ASYNC_TX c) soa) as [p ->].
      intros [= <- <-]. simpl. rewrite Hq. by split_and!.
    + destruct (status_response_machine (cn_count TELEGR ASYNC_TX c) soa) as (c1 & p & -> & Hm).
      assert (cn_state c1 = cn_state c /\ cn_id c1 = cn_id c) as [Hs Hi] by (unfold cn_state, cn_id; by rewrite Hm).
      intros [= <- <-]. cbn [asked_for answer asnd_service_id asnd_source asnd_destination asnd_message_type ASndFrame_new].
      rewrite Hq. by split_and!.
    + destruct (vec_pop _) as [[l [cmd tgt]]|]; [|done]. intros [= <- <-]. simpl. rewrite Hq. by split_and!.
    + destruct (pop_pending_request _) as [cl [[n p]|]]; [|done]. intros [= <- <-]. simpl. rewrite Hq.
      by split_and!.
Qed.
End Answers.

Section Speaking.
Context {S : Type} `{ST : ObjectDictionaryStorage S}.
Implicit Types c : CnContext S.

Lemma process_event_asked f t c c' a : process_event_and_respond f t c = Some (c', a) -> a <> NoAction ->
  exists r, a = action_of (serialize_frame_action true r) /\ asked_for (cn_id c) (cn_state c') f r.
Proof.
  unfold process_event_and_respond. destruct (evolves_frame_event f c) as [Hf He].
  destruct (frame_event f c) as [c1 e]. cbn [fst snd] in Hf, He.
  set (c2 := match e with Some e => cn_nmt_event e c1 | None => c1 end).
  assert (evolves c c2) as H2.
  { etransitivity; [exact Hf|]. unfold c2. destruct e; [by apply evolves_event|reflexivity]. }
  pose proof (evolves_dll_event (dll_cn_event f) (cn_state c2) t c2) as H3.
  destruct (cn_dll_event _ _ t c2) as [c3 []]; cbn [fst] in H3; [congruence|].
  destruct (consume_frame f c3) as [c4|] eqn:E4; [|done]. apply evolves_consume in E4.
  assert (evolves c (toggle_en c4)) as H6.
  { etransitivity; [exact H2|]. etransitivity; [exact H3|]. etransitivity; [exact E4|]. apply evolves_toggle. }
  destruct (respond f _) as [c5 [r|]] eqn:Er; [|congruence]. intros [= <- <-] _. exists r. split; [done|].
  apply respond_asked in Er as [-> Hr]. by rewrite (ev_id _ _ H6) in Hr.
Qed.

Lemma sdo_answer_of c (d : CnContext S) a : cn_id c = cn_id d -> sdo_answer c a -> sdo_answer d a.
Proof. intros Hi (e&data&He&Ha). exists e, data. by rewrite He. Qed.
Lemma server_replies p i t c c' a : cn_server_request p i t c = (c', Ok a) -> sdo_reply c p i t a.
Proof.
  intros E. pose proof (evolves_server_request p i t c) as He. rewrite E in He. revert E.
  unfold cn_server_request.
  destruct (server_handle_request _ p i _ t) as [[srv d] [data|]] eqn:Es; [|done].
  intros [= Ec Ea]. exists c, c', srv, d, data. split_and!; try done; [|exact (ev_id _ _ He)|by rewrite <- Ec].
  by apply server_reply_client in Es.
Qed.
Lemma sdo_reply_of c (d : CnContext S) p i t a : evolves c d -> sdo_server (core d) = sdo_server (core c) ->
  sdo_reply d p i t a -> sdo_reply c p i t a.
Proof.
  intros He Hs (d'&e&srv&od&data&H1&H2&H3&H4&H5&H6). exists d', e, srv, od, data. rewrite <- Hs.
  split_and!; try done; [by etransitivity|]. by rewrite H5, (ev_id _ _ He).
Qed.
Lemma sdo_reply_answer c p i t a : sdo_reply c p i t a -> sdo_answer c a.
Proof. intros (d&e&srv&od&data&_&_&_&_&He&Ha). by exists e, data. Qed.
Lemma sdo_timeout_answer c t a : sdo_timeout c t a -> sdo_answer c a.
Proof. intros (e&client&h&data&_&_&He&Ha). by exists e, data. Qed.
Lemma tick_timeout t c a : snd (cn_tick_sdo_server t c) = Some a -> sdo_timeout c t a.
Proof.
  unfold cn_tick_sdo_server. pose proof (server_tick_answer (sdo_server (core c)) t (cn_od c)) as Ht.
  destruct (server_tick _ t _) as [srv [[data|]|]]; try done. cbn [snd] in Ht.
  destruct (Ht data eq_refl) as (client&h&Hh&Ha).
  match goal with |- context [cn_response ?d data] => destruct (cn_response d data) as [b|] eqn:E;
    [|done]; intros [= <-]; exists d, client, h, data end.
  by split_and!.
Qed.

Lemma count_server i k c : sdo_server (core (cn_count i k c)) = sdo_server (core c).
Proof. done. Qed.
Lemma event_server e c : sdo_server (core (cn_nmt_event e c)) = sdo_server (core c).
Proof. unfold cn_nmt_event. repeat case_match; done. Qed.

Lemma process_frame_asked f t c c' a : cn_process_frame f t c = Some (c', a) -> a <> NoAction ->
  (exists r, a = action_of (serialize_frame_action true r) /\ asked_for (cn_id c) (cn_state c') f r) \/
  (exists g, f = PF_ASnd g /\ asnd_destination g = cn_id c /\ asnd_service_id g = Svc_Sdo /\
     sdo_reply c (asnd_payload g) (Client_Asnd (asnd_source g) (source_mac (asnd_eth_header g))) t a).
Proof.
  intros H Ha.
  assert (Hp : forall d, evolves c d ->
    process_event_and_respond f t (soa_flags_step f (count_frame f t d)) = Some (c', a) ->
    exists r, a = action_of (serialize_frame_action true r) /\ asked_for (cn_id c) (cn_state c') f r).
  { intros d Hd Hd'. apply process_event_asked in Hd' as (r & Er & Hr); [|done]. exists r. split; [done|].
    rewrite <- (ev_id c (soa_flags_step f (count_frame f t d))); [done|].
    etransitivity; [exact Hd|]. etransitivity; [apply (evolves_count_frame f t)|apply (evolves_soa_flags f)]. }
  revert H. unfold cn_process_frame. destruct f as [f|f|f|f|f]; try (intros H; left; by apply (Hp c)).
  - intros H. left. apply (Hp (on_soc t c)); [apply evolves_on_soc|done].
  - destruct (Z.eqb_spec (asnd_destination f) (cn_id c)) as [Hd|]; cbn [negb]; [|congruence].
    case_bool_decide as Hs.
    + intros [= H]. right. exists f. split_and!; try done. revert H. unfold process_sdo_asnd.
      destruct (cn_server_request _ _ t _) as [c1 [b|]] eqn:E; [|congruence].
      intros [= _ ->]. apply server_replies in E.
      eapply sdo_reply_of; [apply evolves_count|apply count_server|exact E].
    + intros H. left. apply (Hp (cn_count TELEGR ASYNC_RX c)); [apply evolves_count|done].
Qed.
End Speaking.

(** What the node is given before it is asked for the frame that it sends. *)
Lemma ethernet_speaks {S} `{ST : ObjectDictionaryStorage S} eth t (c c' : CnContext S) a :
  cn_ethernet_input eth t c = Some (c', a) -> a <> NoAction ->
  exists buffer frame, eth = Some buffer /\ deserialize_frame buffer = Ok frame /\
    ((exists r, a = action_of (serialize_frame_action true r) /\
        asked_for (cn_id c) (cn_state c') frame r) \/
     (exists f, frame = PF_ASnd f /\ asnd_destination f = cn_id c /\ asnd_service_id f = Svc_Sdo /\
        sdo_reply c (asnd_payload f) (Client_Asnd (asnd_source f) (source_mac (asnd_eth_header f))) t a)).
Proof.
  unfold cn_ethernet_input. intros H Ha. destruct eth as [b|]; [|congruence].
  destruct (is_epl b); [|congruence]. revert H. unfold cn_process_ethernet_frame.
  match goal with |- context [cn_process_frame _ t ?d] =>
    assert (evolves c d /\ sdo_server (core d) = sdo_server (core c)) as [He Hsrv] end.
  { split; [etransitivity; [|apply evolves_if, evolves_count]; by apply evolves_if, evolves_event|].
    destruct (_ && _); rewrite ?count_server; by destruct (bool_decide _); rewrite ?event_server. }
  intros H. destruct (deserialize_frame b) as [f|e] eqn:Ef; [|exfalso; destruct e; congruence].
  exists b, f. split; [done|]. split; [done|]. apply process_frame_asked in H; [|done]. rewrite (ev_id _ _ He) in H.
  destruct H as [Hr|(g&Hg&Hd&Hs&Hsdo)]; [by left|right]. exists g. split_and!; try done. by eapply sdo_reply_of.
Qed.
Lemma udp_speaks {S} `{ST : ObjectDictionaryStorage S} udp t (c c' : CnContext S) a :
  cn_udp_input udp t c = (c', a) -> a <> NoAction ->
  exists buffer ip port h cmd, udp = Some (buffer, ip, port) /\
    deserialize_sdo_udp_payload buffer = Ok (h, cmd) /\
    sdo_reply c (reserialize h cmd (length buffer)) (Client_Udp ip port) t a.
Proof.
  unfold cn_udp_input. destruct udp as [[[b ip] port]|]; [|congruence]. unfold cn_process_udp_datagram.
  destruct (deserialize_sdo_udp_payload b) as [[h cmd]|] eqn:Ed; [|congruence].
  destruct (cn_server_request _ _ t _) as [c3 [a3|]] eqn:E3; [|congruence]. apply server_replies in E3.
  intros [= _ ->] _. exists b, ip, port, h, cmd. split; [done|]. split; [done|].
  eapply sdo_reply_of; [apply evolves_count|apply count_server|exact E3].
Qed.

(** Whenever the node sends something, what it is and why. *)
Lemma cn_cycle_speaks {S} `{ST : ObjectDictionaryStorage S} eth udp t (c c' : CnContext S) a :
  cn_run_cycle eth udp t c = Some (c', a) -> a <> NoAction ->
  (exists buffer frame, eth = Some buffer /\ deserialize_frame buffer = Ok frame /\
     ((exists r, a = action_of (serialize_frame_action true r) /\
         asked_for (cn_id c) (cn_state c') frame r) \/
      (exists f, frame = PF_ASnd f /\ asnd_destination f = cn_id c /\ asnd_service_id f = Svc_Sdo /\
         sdo_reply c (asnd_payload f) (Client_Asnd (asnd_source f) (source_mac (asnd_eth_header f))) t a))) \/
  (exists c1, cn_ethernet_input eth t c = Some (c1, NoAction) /\
     ((exists buffer ip port h cmd, udp = Some (buffer, ip, port) /\
         deserialize_sdo_udp_payload buffer = Ok (h, cmd) /\
         sdo_reply c1 (reserialize h cmd (length buffer)) (Client_Udp ip port) t a) \/
      (exists c2, cn_udp_input udp t c1 = (c2, NoAction) /\ sdo_timeout c2 t a))).
Proof.
  unfold cn_run_cycle. destruct (cn_ethernet_input eth t c) as [[c1 a1]|] eqn:E1; [|done].
  destruct (no_action a1) eqn:Hn1; cbn [negb].
  2: { intros [= -> ->] Ha. left. by eapply ethernet_speaks. }
  assert (a1 = NoAction) as -> by (by destruct a1).
  destruct (cn_udp_input udp t c1) as [c2 a2] eqn:E2.
  destruct (no_action a2) eqn:Hn2; cbn [negb].
  2: { intros [= -> ->] Ha. right. exists c1. split; [done|]. left. by eapply udp_speaks. }
  assert (a2 = NoAction) as -> by (by destruct a2).
  intros [= H] Ha. right. exists c1. split; [done|]. right. exists c2. split; [done|]. apply tick_timeout.
  revert H. unfold process_tick. destruct (cn_tick_sdo_server t c2) as [c3 [a3|]]; [by intros [= _ ->]|].
  intros H. exfalso. apply Ha. revert H. clear. repeat (case_match; try (by intros [= _ <-])).
  all: by intros [= _ <-].
Qed.

(** C13: A controlled node speaks only when it is addressed or a transfer times out, and then in one
    frame.  If [run_cycle] has something to send, then
    - the Ethernet frame it was given is a POWERLINK frame that asks this very node for it: an SoA
      whose target it is is answered, by an ASnd to the managing node of the service requested and
      in the states that answer; a PReq sent to it is answered by the PRes with its number and
      state; an SDO frame sent to it is answered by the reply of its SDO server to that request; or
    - nothing was to be said to that frame, and the datagram it was given is an SDO request, which
      is answered by the reply of the SDO server; or
    - nothing was to be said to either, and a segmented transfer of a connection of the SDO server
      has passed its deadline: the last segment of an upload is sent again while retransmissions
      are left, otherwise the transfer is aborted with code 0x05040000.
    A reply goes to the client that the connection was opened for. *)
Theorem cn_speaks_when_addressed {S} `{ST : ObjectDictionaryStorage S} eth udp t (c c' : CnContext S) a :
  cn_run_cycle eth udp t c = Some (c', a) -> a <> NoAction ->
  (exists buffer frame, eth = Some buffer /\ deserialize_frame buffer = Ok frame /\
     ((exists r, a = action_of (serialize_frame_action true r) /\
         asked_for (cn_id c) (cn_state c') frame r) \/
      (exists f, frame = PF_ASnd f /\ asnd_destination f = cn_id c /\ asnd_service_id f = Svc_Sdo /\
         sdo_reply c (asnd_payload f) (Client_Asnd (asnd_source f) (source_mac (asnd_eth_header f))) t a))) \/
  (exists c1, cn_ethernet_input eth t c = Some (c1, NoAction) /\
     ((exists buffer ip port h cmd, udp = Some (buffer, ip, port) /\
         deserialize_sdo_udp_payload buffer = Ok (h, cmd) /\
         sdo_reply c1 (reserialize h cmd (length buffer)) (Client_Udp ip port) t a) \/
      (exists c2, cn_udp_input udp t c1 = (c2, NoAction) /\ sdo_timeout c2 t a))).
Proof. apply cn_cycle_speaks. Qed.

Lemma cn_speaks_when_addressed_witness :
  exists c c' b, cn_new (demo_cn_od 42) demo_mac 10 = Ok c /\
  let a := SendFrame b in
  let eth := Some (frame_bytes false (demo_soa Req_IdentRequest 42)) in
  cn_run_cycle eth None 5 c = Some (c', a) /\
  ((exists buffer frame, eth = Some buffer /\ deserialize_frame buffer = Ok frame /\
     ((exists r, a = action_of (serialize_frame_action true r) /\
         asked_for (cn_id c) (cn_state c') frame r) \/
      (exists f, frame = PF_ASnd f /\ asnd_destination f = cn_id c /\ asnd_service_id f = Svc_Sdo /\
         sdo_reply c (asnd_payload f) (Client_Asnd (asnd_source f) (source_mac (asnd_eth_header f))) 5 a))) \/
   (exists c1, cn_ethernet_input eth 5 c = Some (c1, NoAction) /\
     ((exists buffer ip port h cmd, @None (bytes * bytes * Z) = Some (buffer, ip, port) /\
         deserialize_sdo_udp_payload buffer = Ok (h, cmd) /\
         sdo_reply c1 (reserialize h cmd (length buffer)) (Client_Udp ip port) 5 a) \/
      (exists c2, cn_udp_input None 5 c1 = (c2, NoAction) /\ sdo_timeout c2 5 a)))).
Proof.
  set (eth := Some (frame_bytes false (demo_soa Req_IdentRequest 42))).
  assert (match cn_new (demo_cn_od 42) demo_mac 10 with
          | Ok c => match cn_run_cycle eth None 5 c with Some (_, SendFrame _) => true | _ => false end
          | Err _ => false end = true) as H by (vm_compute; reflexivity).
  destruct (cn_new (demo_cn_od 42) demo_mac 10) as [c|]; [|discriminate H].
  destruct (cn_run_cycle eth None 5 c) as [[c' [b| |]]|] eqn:Er; try discriminate H.
  exists c, c', b. split; [reflexivity|]. cbv zeta. split; [exact Er|].
  apply (cn_speaks_when_addressed eth None 5 c c' (SendFrame b) Er). discriminate.
Defined.
