(* ===== verification/NodeTypes.v ===== *)
(** * The dictionary of a running node

    The types of its dictionary, whatever a node receives ([OdSchema] and [StackTypes], along
    the runs of [CnNode] and [MnBoot]), and a test for the hypothesis on the dictionary a node
    is created with. *)
From S2P Require Import Prelude Types Frames Dll ErrorEntry ObjectDict OdPredefined Nmt OdSchema SdoCodec SdoServer Node.
From S2P Require Import MnState MnScheduler MnPayload MnNode MnBoot CnPayload CnNode.

(** ** What keeping the types means for a reader *)

(** The same objects with the same attributes, and under each sub-index a value of the same
    type or none. *)
Definition keeps_types {S} (d d' : ObjectDictionary S) : Prop :=
  forall i, match entries d !! i, entries d' !! i with
            | None, None => True
            | Some e, Some e' =>
                set_object e' (Obj_Array []) = set_object e (Obj_Array []) /\
                (i <> error_history ->
                   length (object_values (object e')) = length (object_values (object e)) /\
                   forall s, discriminant <$> read_entry e' s = discriminant <$> read_entry e s)
            | _, _ => False
            end.

Lemma signatures_keep {S} (d d' : ObjectDictionary S) : signatures d' = signatures d -> keeps_types d d'.
Proof.
  intros Hs i. pose proof (f_equal (lookup i) Hs) as Hl. rewrite !signatures_lookup in Hl.
  destruct (entries d' !! i) as [e'|] eqn:He'; [|by destruct (entries d !! i)].
  destruct (same_signature d d' i e' Hs He') as (e&He&Hm&Hsh). rewrite He. split; [done|].
  intros Hne. specialize (Hsh Hne). split; [by apply shape_length|].
  intros s. by rewrite !read_entry_type, Hsh.
Qed.

(** ** A test *)
Definition entry_typed (e : ObjectEntry) : bool :=
  (length (object_values (object e)) <=? 254)%nat &&
  match object e, default_value e with
  | Obj_Variable v, Some w => discriminant w =? discriminant v
  | _, _ => true
  end.
Definition stored_typed {S} (d : ObjectDictionary S) (kv : (Z * Z) * ObjectValue) : bool :=
  match entries d !! fst (fst kv) with
  | Some e =>
      is_count e (snd (fst kv)) ||
      match read_entry e (snd (fst kv)) with
      | Some v => discriminant (snd kv) =? discriminant v
      | None => true
      end
  | None => true
  end.
Definition od_typed_test (d : ObjectDictionary MemStorage) : bool :=
  forallb (fun ie => entry_typed (snd ie)) (map_to_list (entries d)) &&
  match storage d with
  | Some st => forallb (stored_typed d) (map_to_list (mem_params st))
  | None => true
  end.

Lemma entries_typed {S} `{StorageKeeps S} (d : ObjectDictionary S) :
  forallb (fun ie => entry_typed (snd ie)) (map_to_list (entries d)) = true ->
  (forall st i e s v w, storage d = Some st -> entries d !! i = Some e -> is_count e s = false ->
     read_entry e s = Some v -> may_load st (i, s) w -> discriminant w = discriminant v) ->
  od_typed d.
Proof.
  rewrite forallb_forall. intros He Hs.
  assert (Hent : forall i e, entries d !! i = Some e -> entry_typed e = true).
  { intros i e Hi. apply (He (i, e)). apply list_elem_of_In. by apply elem_of_map_to_list. }
  split.
  - intros i e Hi. apply Hent in Hi. unfold entry_typed in Hi. apply andb_true_iff in Hi as [Hi _].
    by apply Nat.leb_le in Hi.
  - intros i e v w Hi Ho Hd. apply Hent in Hi. unfold entry_typed in Hi. rewrite Ho, Hd in Hi.
    apply andb_true_iff in Hi as [_ Hi]. by apply Z.eqb_eq in Hi.
  - intros st i e s v w Hst _ _ Hi Hc Hr Hm. by eapply Hs.
Qed.

Lemma od_typed_tested (d : ObjectDictionary MemStorage) : od_typed_test d = true -> od_typed d.
Proof.
  unfold od_typed_test. rewrite andb_true_iff. intros [He Hs]. apply entries_typed; [done|].
  intros st i e s v w Hst Hi Hc Hr Hm. rewrite Hst, forallb_forall in Hs.
  specialize (Hs ((i, s), w)). unfold stored_typed in Hs. cbn [fst snd] in Hs. rewrite Hi, Hc, Hr in Hs.
  apply Z.eqb_eq, Hs, list_elem_of_In. by apply elem_of_map_to_list.
Qed.

(** ** The nodes *)
Lemma cn_new_types {S} `{ST : ObjectDictionaryStorage S} d mac cap (c : CnContext S) :
  cn_new d mac cap = Ok c -> od_evolves (populate_protocol_objects d) (cn_od c).
Proof.
  unfold cn_new. pose proof (types_init d) as Ho.
  destruct (init d) as [d1 r]. destruct r as [[]|]; [|done]. cbn [fst] in Ho.
  destruct (validate_mandatory_objects d1 false) as [[]|]; [|done].
  destruct (cn_from_od d1) as [m|]; [|done].
  pose proof (types_initialisation m d1) as Hr. destruct (run_internal_initialisation m d1) as [m1 d2].
  intros [= <-]. by transitivity d1.
Qed.

Lemma cn_run_types {S} `{ST : ObjectDictionaryStorage S} d mac cap (c c' : CnContext S) inputs actions :
  cn_new d mac cap = Ok c -> cn_run inputs c = Some (c', actions) ->
  od_evolves (populate_protocol_objects d) (cn_od c').
Proof.
  intros Hn Hr. transitivity (cn_od c); [by eapply cn_new_types|].
  exact (ev_od _ _ (evolves_run inputs c c' actions Hr)).
Qed.

(** ** Properties *)

(** C4: The dictionary of a node keeps its types.  Where the defaults and the stored parameters
    of the dictionary a node is created with have the types of their objects (and no object has
    more than 254 values), no frame, datagram, SDO or NMT command, time-out, reset, restored
    parameter or request of the application ever adds or removes an object of the node, changes
    its name, access or default, or changes the number or the type of its values; only the error
    history 0x1003 varies in length.  The storage keeps to these types as well. *)
Theorem node_dictionary_typed {S Q} `{ST : ObjectDictionaryStorage S} `{QH : RequestHeap Q} `{!StorageKeeps S}
    (d : ObjectDictionary S) mac :
  od_typed (populate_protocol_objects d) ->
  (forall cap c c' inputs actions, cn_new d mac cap = Ok c -> cn_run inputs c = Some (c', actions) ->
     keeps_types (populate_protocol_objects d) (cn_od c') /\ od_typed (cn_od c')) /\
  (forall cfg (m m' : MnContext S Q) inputs actions, mn_new d mac cfg = Ok m -> mn_run inputs m = Some (m', actions) ->
     keeps_types (populate_protocol_objects d) (mn_od m') /\ od_typed (mn_od m')).
Proof.
  intros Ht. split.
  - intros cap c c' inputs actions Hn Hr.
    destruct (cn_run_types d mac cap c c' inputs actions Hn Hr _ Ht) as [Ht' Hs].
    split; [by apply signatures_keep|done].
  - intros cfg m m' inputs actions Hn Hr.
    destruct (run_from_new d mac cfg m m' inputs actions Hn Hr) as [I _].
    destruct (inv_od _ _ _ _ _ _ I _ Ht) as [Ht' Hs]. split; [by apply signatures_keep|done].
Qed.

(** A node with stored parameters, after a complete boot-up. *)
Definition demo_typed_od : ObjectDictionary MemStorage :=
  mkOD (entries (demo_cn_od 42)) (Some (mkMemStorage {[ (0x1006, 0) := OV_Unsigned32 10000 ]} false)).

Lemma node_dictionary_typed_witness :
  exists c c' actions, cn_new demo_typed_od demo_mac 10 = Ok c /\
  cn_run (demo_inputs demo_boot_frames) c = Some (c', actions) /\
  cn_state c' = NmtPreOperational2 /\
  keeps_types (populate_protocol_objects demo_typed_od) (cn_od c') /\ od_typed (cn_od c').
Proof.
  assert (od_typed (populate_protocol_objects demo_typed_od)) as Ht
    by (apply od_typed_tested; vm_compute; reflexivity).
  assert (match cn_new demo_typed_od demo_mac 10 with
    | Ok c => option_map (fun r => cn_state (fst r)) (cn_run (demo_inputs demo_boot_frames) c)
    | Err _ => None end = Some NmtPreOperational2) as H by (vm_compute; reflexivity).
  destruct (cn_new demo_typed_od demo_mac 10) as [c|] eqn:En; [|discriminate H].
  destruct (cn_run (demo_inputs demo_boot_frames) c) as [[c' actions]|] eqn:Er; [|discriminate H].
  exists c, c', actions. split; [reflexivity|]. split; [exact Er|]. split; [simpl in H; congruence|].
  exact (proj1 (node_dictionary_typed (Q := list AsyncRequest) demo_typed_od demo_mac Ht) 10 c c'
    (demo_inputs demo_boot_frames) actions En Er).
Defined.
