(* ===== verification/CnSafety.v ===== *)
(** * When a controlled node panics

    [run_cycle] of [node/cn/main.rs] returns in every case but one: a received PDO carries, in
    the container of an open channel of the embedded SDO client, an abort with fewer than the
    four octets of its code.  And a managing node, or whoever speaks SDO to the node, can open
    such a channel and send the abort. *)
From S2P Require Import Prelude Types Frames Dll ErrorEntry ObjectDict OdPredefined Nmt SdoCodec SdoServer SdoEmbedded SdoClient Node.
From S2P Require Import CnPayload CnNode.

(** An abort without its code, in answer to the last request of the channel. *)
Definition short_abort (e : EmbeddedSdoClient) (channel : Z) (container : bytes) : Prop :=
  exists conn r, e !! channel = Some conn /\ PdoSdoCommand_deserialize container = Ok r /\
    sequence_number (psc_sequence_header r) = seq_pred (next_sequence_number conn) /\
    psc_is_aborted r = true /\ (length (psc_data r) < 4)%nat.

(** The process data of a frame that node [n] consumes, when it is valid. *)
Definition pdo_for (n : NodeId) (f : PowerlinkFrame) : option bytes :=
  match f with
  | PF_PReq f => if (preq_destination f =? n) && preq_rd (preq_flags f) then Some (preq_payload f) else None
  | PF_PRes f => if pres_rd (pres_flags f) then Some (pres_payload f) else None
  | _ => None
  end.

Lemma client_response_panics e ch p : emb_client_handle_response e ch p = None <-> short_abort e ch p.
Proof.
  unfold emb_client_handle_response, short_abort. split.
  - destruct (e !! ch) as [conn|]; [|done]. destruct (PdoSdoCommand_deserialize p) as [r|]; [|done]. cbv zeta.
    case_match eqn:Hn; [done|]. apply negb_false_iff, Z.eqb_eq in Hn.
    case_match; [|done]. case_match eqn:Hl; [|done]. apply Nat.ltb_lt in Hl. intros _. by exists conn, r.
  - intros (conn&r&->&->&->&->&Hl). rewrite Z.eqb_refl. cbn [negb]. cbv zeta.
    apply Nat.ltb_lt in Hl. by rewrite Hl.
Qed.

(** A response that is handled opens no channel and moves no sequence number. *)
Lemma client_response_keeps e ch p e' rep : emb_client_handle_response e ch p = Some (e', rep) ->
  forall ch' p', short_abort e' ch' p' -> short_abort e ch' p'.
Proof.
  unfold emb_client_handle_response. destruct (e !! ch) as [conn|] eqn:Ec; [|by intros [= <- _]].
  destruct (PdoSdoCommand_deserialize p) as [r|]; [|by intros [= <- _]]. cbv zeta.
  case_match; [by intros [= <- _]|].
  intros H1 ch' p' (c'&r'&Hc&Hr&Hn&Ha&Hl).
  assert (e' = <[ch:=mkEmbClientConnection (sequence_number (psc_sequence_header r)) (next_sequence_number conn)
    (request_queue conn)]> e) as -> by (repeat case_match; simplify_eq; done).
  destruct (decide (ch' = ch)) as [->|Hne].
  - rewrite lookup_insert_eq in Hc. injection Hc as <-. by exists conn, r'.
  - rewrite lookup_insert_ne in Hc by done. by exists c', r'.
Qed.

Section Consume.
Context {S C : Type} `{ST : ObjectDictionaryStorage S} `{EC : ErrorCounters C}.
Implicit Types s : PdoState S C.

Definition ps_client s : EmbeddedSdoClient := embedded_sdo_client (ps_core s).

Lemma error_object_client i n s : ps_client (update_pdo_error_object i n s) = ps_client s.
Proof. unfold update_pdo_error_object. by repeat case_match. Qed.

Lemma rpdo_entry_client e pl n s :
  match apply_rpdo_mapping_entry e pl n s with
  | None => is_client_channel (pm_index e) = true /\ exists lo hi, short_abort (ps_client s) (pm_index e) (slice pl lo hi)
  | Some (s', _) => forall ch p, short_abort (ps_client s') ch p -> short_abort (ps_client s) ch p
  end.
Proof.
  unfold apply_rpdo_mapping_entry. destruct (byte_offset e) as [o|], (byte_length e) as [l|]; try done.
  destruct (len pl <? o + l); [intros ch p; by rewrite error_object_client|]. cbv zeta.
  destruct (is_server_channel _); [by destruct (emb_server_handle_request _ _ _ _)|].
  destruct (is_client_channel _) eqn:Hc.
  - destruct (emb_client_handle_response _ _ _) as [[e' rep]|] eqn:Er.
    + intros ch p. by eapply client_response_keeps.
    + split; [done|]. apply client_response_panics in Er. by eexists _, _.
  - destruct (read _ _ _) as [w|]; [|done]. destruct (ObjectValue_deserialize _ w) as [v|]; [|done]. by destruct (negb _).
Qed.

Lemma rpdo_entries_client es pl n : forall s, apply_rpdo_entries es pl n s = None ->
  exists ch lo hi, is_client_channel ch = true /\ short_abort (ps_client s) ch (slice pl lo hi).
Proof.
  induction es as [|e es IH]; intros s; [done|]. cbn [apply_rpdo_entries].
  pose proof (rpdo_entry_client e pl n s) as He.
  destruct (apply_rpdo_mapping_entry e pl n s) as [[s' [|]]|]; [| done|].
  - intros Hn. destruct (IH s' Hn) as (ch&lo&hi&Hc&Ha). exists ch, lo, hi. split; [done|by apply He].
  - intros _. destruct He as (Hc&lo&hi&Ha). by exists (pm_index e), lo, hi.
Qed.

Lemma consume_pdo_panics n pl v rd s : consume_pdo_payload n pl v rd s = None ->
  rd = true /\ exists ch lo hi, is_client_channel ch = true /\ short_abort (ps_client s) ch (slice pl lo hi).
Proof.
  unfold consume_pdo_payload. destruct rd; [|done]. cbn [negb]. intros H. split; [done|]. revert H.
  destruct (find_rpdo_channel _ n); [|done]. case_match; [done|]. repeat case_match; try done.
  apply rpdo_entries_client.
Qed.
End Consume.

Section Node.
Context {S : Type} `{ST : ObjectDictionaryStorage S}.
Implicit Types c : CnContext S.

Definition cn_client c : EmbeddedSdoClient := embedded_sdo_client (core c).

Lemma event_client e c : cn_client (cn_nmt_event e c) = cn_client c.
Proof. unfold cn_nmt_event. by destruct (process_event _ e _) as [[]]. Qed.

Lemma report_error_client e t c : cn_client (fst (report_error e t c)) = cn_client c.
Proof.
  unfold report_error, report_to_manager. destruct (manager_handle_error _ e) as [m [a b]]. cbv zeta.
  assert (Hq : forall en d, cn_client (queue_error en d) = cn_client d) by (intros; unfold queue_error; by case_match).
  assert (Hr : forall d, cn_client (error_reset d) = cn_client d).
  { intros d. exact (event_client Ev_Error d). }
  destruct b, (negb (bool_decide _)); cbn [fst]; rewrite ?Hr, ?Hq; try done; by case_match.
Qed.

Lemma dll_event_client e nmt t c : cn_client (fst (cn_dll_event e nmt t c)) = cn_client c.
Proof.
  unfold cn_dll_event. destruct (DllCs_process_event _ e nmt) as [s errors].
  change (cn_client c) with (cn_client (upd_dll_state_machine s c)).
  generalize (upd_dll_state_machine s c) as d. induction (unwrap_or errors []) as [|x l IH]; intros d; [done|].
  cbn [report_errors]. pose proof (report_error_client x t d) as Hx.
  destruct (report_error x t d) as [d1 []]; [done|]. cbn [fst] in Hx. by rewrite IH.
Qed.

Lemma consume_frame_panics f c : consume_frame f c = None ->
  exists p ch lo hi, pdo_for (cn_id c) f = Some p /\ is_client_channel ch = true /\
    short_abort (cn_client c) ch (slice p lo hi).
Proof.
  assert (Hc : forall n p v rd, cn_consume n p v rd c = None ->
    rd = true /\ exists ch lo hi, is_client_channel ch = true /\ short_abort (cn_client c) ch (slice p lo hi)).
  { intros n p v rd. unfold cn_consume. destruct (consume_pdo_payload _ _ _ _ _) eqn:E; [done|].
    intros _. exact (consume_pdo_panics _ _ _ _ _ E). }
  destruct f as [|f|f| |]; try done; cbn [consume_frame pdo_for].
  - destruct (_ =? _); [|done]. intros H. destruct (Hc _ _ _ _ H) as (->&ch&lo&hi&?).
    exists (preq_payload f), ch, lo, hi. done.
  - intros H. destruct (Hc _ _ _ _ H) as (->&ch&lo&hi&?). exists (pres_payload f), ch, lo, hi. done.
Qed.

(** The steps before the process data of a PReq or a PRes is consumed. *)
Lemma process_event_panics f t c : process_event_and_respond f t c = None ->
  exists p ch lo hi, pdo_for (cn_id c) f = Some p /\ is_client_channel ch = true /\
    short_abort (cn_client c) ch (slice p lo hi).
Proof.
  intros Hp. assert (frame_event f c = (c, None)) as He.
  { destruct f as [f|f|f|f|f]; try done; revert Hp; unfold process_event_and_respond;
      destruct (frame_event _ c) as [c1 e]; destruct (cn_dll_event _ _ _ _) as [c2 []]; try done;
      cbn [consume_frame]; by destruct (respond _ _) as [c3 []]. }
  revert Hp. unfold process_event_and_respond. rewrite He.
  pose proof (dll_event_client (dll_cn_event f) (cn_state c) t c) as Hd.
  pose proof (ev_id _ _ (evolves_dll_event (dll_cn_event f) (cn_state c) t c)) as Hi.
  destruct (cn_dll_event _ _ t c) as [c2 []]; [done|]. cbn [fst] in *.
  destruct (consume_frame f c2) as [c3|] eqn:E; [by destruct (respond _ _) as [c4 []]|]. intros _.
  rewrite <- Hd, <- Hi. by apply consume_frame_panics.
Qed.

Lemma cycle_panics eth udp t c : cn_run_cycle eth udp t c = None ->
  exists buf f p ch lo hi, eth = Some buf /\ deserialize_frame buf = Ok f /\ pdo_for (cn_id c) f = Some p /\
    is_client_channel ch = true /\ short_abort (cn_client c) ch (slice p lo hi).
Proof.
  unfold cn_run_cycle, cn_ethernet_input. destruct eth as [buf|];
    [|cbn [no_action negb]; destruct (cn_udp_input _ _ _); by case_match].
  destruct (is_epl buf); [|cbn [no_action negb]; destruct (cn_udp_input _ _ _); by case_match].
  match goal with |- match ?e with Some _ => _ | None => None end = None -> _ => destruct e as [[c1 a]|] eqn:E end.
  { case_match; [done|]. destruct (cn_udp_input _ _ _). by case_match. }
  intros _. revert E. unfold cn_process_ethernet_frame. cbv zeta.
  match goal with |- context [cn_process_frame _ t ?d] => assert (cn_client d = cn_client c /\ cn_id d = cn_id c) as [Hc Hi] end.
  { assert (Hb : cn_client (if bool_decide (cn_state c = NmtBasicEthernet)
        then cn_nmt_event Ev_PowerlinkFrameReceived c else c) = cn_client c /\
      cn_id (if bool_decide (cn_state c = NmtBasicEthernet)
        then cn_nmt_event Ev_PowerlinkFrameReceived c else c) = cn_id c).
    { case_bool_decide; [|done]. split; [apply event_client|]. by apply (evolves_event Ev_PowerlinkFrameReceived c). }
    revert Hb. generalize (if bool_decide (cn_state c = NmtBasicEthernet)
      then cn_nmt_event Ev_PowerlinkFrameReceived c else c). intros d Hb. by case_match. }
  destruct (deserialize_frame buf) as [f|[]] eqn:Ef; try done. intros Hp.
  rewrite <- Hc, <- Hi. exists buf, f.
  match type of Hp with cn_process_frame f _ ?d = None => assert (exists p ch lo hi, pdo_for (cn_id d) f = Some p /\
    is_client_channel ch = true /\ short_abort (cn_client d) ch (slice p lo hi)) as (p&ch&lo&hi&?&?&?) end.
  { revert Hp. match goal with |- cn_process_frame f t ?d = None -> _ => generalize d end. intros d Hp.
    destruct f as [f|f|f|f|f]; cbn [cn_process_frame] in Hp;
      [ | | | |repeat case_match; try done]; apply process_event_panics in Hp; destruct Hp as (p&ch&lo&hi&Hf&?&?);
      try done; by exists p, ch, lo, hi. }
  by exists p, ch, lo, hi.
Qed.
End Node.
