(* ===== verification/MnSafety.v ===== *)
(** * When a managing node stops

    [run_cycle] of [node/mn/main.rs] returns in every case but three: the short abort in a PDO
    container that also stops a controlled node ([CnSafety]), an abort without its code in an SDO
    response to the client of the node, and the search for an unidentified node after node 239
    was asked.  The invariant of [MnBoot] gives what the rest relies on. *)
From S2P Require Import Prelude Utf8 Types Frames Dll ErrorEntry ObjectDict OdPredefined StatusFrames Nmt.
From S2P Require Import OdSchema SdoCodec SdoServer SdoEmbedded SdoClient Node StackTypes CnSafety.
From S2P Require Import MnState MnScheduler MnPayload MnNode MnBoot.

(** An abort with fewer than four octets, for a request in flight to the node that sends it. *)
Definition short_response (clients : SdoClientManager) (f : ASndFrame) : Prop :=
  asnd_service_id f = Svc_Sdo /\
  exists sq cmd c, SequenceLayerHeader_deserialize (slice (asnd_payload f) 0 4) = Ok sq /\
    SdoCommand_deserialize (drop 4 (asnd_payload f)) = Ok cmd /\
    is_aborted (cmd_header cmd) = true /\ (length (payload cmd) < 4)%nat /\
    mgr_connections clients !! asnd_source f = Some c /\ last_sent_command c <> None.

Section Stops.
Context {S Q : Type} `{ST : ObjectDictionaryStorage S} `{QH : RequestHeap Q}.
Context (L : list NodeId) (K : gset NodeId) (D : ObjectDictionary S).
Implicit Types m : MnContext S Q.
Abbreviation inv := (mn_inv (fun _ => True) (fun _ => True) L K D).

Definition mn_client m : EmbeddedSdoClient := embedded_sdo_client (core m).

(** ** The search *)
Lemma async_stops m : inv m -> determine_next_async_action m = None -> 239 ∈ K.
Proof.
  intros I. unfold determine_next_async_action.
  destruct (vec_pop (pending_er_requests m)) as [[l n]|]; [done|].
  destruct (vec_pop (pending_status_requests m)) as [[l n]|]; [done|].
  destruct (pending_nmt_commands m), (mn_async_send_queue m); try done.
  destruct (mgr_pending_wf _ (current_cycle_start_time_us m) (mn_od m) (safe_clients _ _ _ (inv_safe _ _ _ _ _ _ I)))
    as (mgr&r&->&_).
  destruct r as [[n r]|]; [done|]. unfold find_next_node_to_identify. cbn [node_info last_ident_poll_node_id upd_sdo_client_manager].
  destruct (ident_search _ _) as [[n|]|] eqn:Es; [done| |].
  - match goal with |- context [find_next_async_only_to_poll ?d] => by destruct (find_next_async_only_to_poll d) as [m1 [n|]] end.
  - intros _. destruct (safe_ident _ _ _ (inv_safe _ _ _ _ _ _ I)) as [Hr Hi].
    destruct (ident_search_endless _ _ Hr Es) as [E _]. rewrite E in Hi.
    rewrite <- (inv_nodes _ _ _ _ _ _ I). apply elem_of_dom, Hi. lia.
Qed.

Lemma end_stops m t : inv m -> end_isochronous m t = None -> 239 ∈ K.
Proof.
  intros I. unfold end_isochronous. destruct (publish_config _ !! _); [done|].
  destruct (determine_next_async_action _) as [[m1 [[req n] er]]|] eqn:E; [done|]. intros _.
  eapply async_stops; [|exact E]. revert I. apply inv_same. same.
Qed.
Lemma advance_stops m t : inv m -> advance_cycle_phase m t = None -> 239 ∈ K.
Proof.
  intros I. unfold advance_cycle_phase. destruct (nmt_leb _ _); [|by apply end_stops].
  unfold get_next_isochronous_node_to_poll. destruct (isochronous_loop _ _ _) as [i [n|]]; [done|].
  apply end_stops. revert I. apply inv_same. same.
Qed.

(** ** The tick *)
Lemma send_awaited_runs m t : inv m -> send_awaited m t <> None.
Proof.
  intros I. unfold send_awaited. destruct (vec_pop _) as [[l [[c n] d]]|]; [done|].
  destruct (mgr_pending_wf _ t (mn_od (upd_current_phase Ph_Idle m)) (safe_clients _ _ _ (inv_safe _ _ _ _ _ _ I)))
    as (mgr&r&E&_).
  change (sdo_client_manager (upd_current_phase Ph_Idle m)) with (sdo_client_manager m). rewrite E.
  by repeat case_match.
Qed.

Lemma initial_inv m : inv m -> inv (fst (initial_start m)).
Proof. apply inv_same. unfold initial_start. repeat case_match; same. Qed.

Lemma progress_stops m s b p t : inv m -> progress m s b p t = None -> 239 ∈ K.
Proof.
  intros I. unfold progress. destruct (_ && _); [by apply advance_stops|]. destruct (_ && _); [done|].
  unfold cycle_tick. pose proof (initial_inv m I) as I1. destruct (initial_start m) as [m1 [a|]]; [done|].
  cbn [fst] in I1. destruct (current_phase m1); try by case_match.
  - by apply advance_stops.
  - intros E. by destruct (send_awaited_runs m1 t I1).
Qed.

Lemma tick_stops m t : inv m -> handle_tick m t = None -> 239 ∈ K.
Proof.
  intros I. unfold handle_tick. cbv zeta. destruct (_ && _); [done|].
  destruct (tick_sdo_client m t) as [[m1 s1]|] eqn:E1.
  2:{ exfalso. revert E1. unfold tick_sdo_client.
      destruct (mgr_tick_wf _ t (mn_od m) (safe_clients _ _ _ (inv_safe _ _ _ _ _ _ I))) as (mgr&r&->&_).
      by repeat case_match. }
  pose proof (inv_same _ _ _ _ _ _ _ (same_tick_client _ _ _ _ E1) I) as I1. destruct s1; [done|].
  pose proof (inv_same _ _ _ _ _ _ _ (same_tick_server m1 t) I1) as I2.
  destruct (tick_sdo_server m1 t) as [m2 s2]. cbn [fst] in I2. destruct s2; [done|].
  destruct (match next_tick_us m2 with Some _ => _ | None => _ end); [|by apply progress_stops].
  assert (I3 : inv (upd_next_tick_us None m2)) by (revert I2; apply inv_same; same).
  destruct (bool_decide _); [done|]. destruct (pending_timeout_event _); [|by apply progress_stops].
  apply advance_stops, inv_dll_event. revert I3. apply inv_same. same.
Qed.

(** ** Frames *)
Lemma nmt_client e m : mn_client (mn_nmt_event e m) = mn_client m.
Proof. unfold mn_nmt_event. by destruct (process_event _ e _) as [[]]. Qed.
Lemma bootup_client m : mn_client (check_bootup_state m) = mn_client m.
Proof.
  unfold check_bootup_state. destruct (mn_state m); try done.
  - case_match; [|done]. exact (nmt_client Ev_AllCnsIdentified m).
  - case_match; [|done]. apply nmt_client.
  - case_match; [|done]. apply nmt_client.
Qed.
Lemma dll_client e f m : mn_client (handle_dll_event m e f) = mn_client m.
Proof.
  unfold handle_dll_event. destruct (DllMs_process_event _ _ _ _ _ _ _ _ _) as [s errors].
  change (mn_client m) with (mn_client (upd_dll_state_machine s m)). generalize (upd_dll_state_machine s m) as d.
  induction (unwrap_or errors []) as [|x l IH]; intros d; [done|]. cbn [foldl]. rewrite IH.
  unfold handle_reported_error. destruct (manager_handle_error _ _) as [mgr [a b]]. destruct a; try done.
  exact (nmt_client Ev_Error (upd_dll_error_manager mgr d)).
Qed.
Lemma note_client f t m : mn_client (note_pres m f t) = mn_client m.
Proof.
  unfold note_pres, update_cn_state. destruct (node_info m !! pres_source f); [|done]. case_match; [|done].
  case_match; [done|]. by rewrite bootup_client.
Qed.

(** Process data that makes the node panic. *)
Definition short_pdo m (f : PowerlinkFrame) : Prop :=
  exists g ch lo hi, f = PF_PRes g /\ pres_rd (pres_flags g) = true /\ is_client_channel ch = true /\
    short_abort (mn_client m) ch (slice (pres_payload g) lo hi).

Lemma pres_stops m g t : inv m -> process_pres m g t = None -> short_pdo m (PF_PRes g) \/ 239 ∈ K.
Proof.
  intros I. unfold process_pres.
  assert (I1 : inv (note_pres (mn_count TELEGR ISOCHR_RX m) g t)).
  { unfold note_pres. pose proof (inv_count _ _ _ _ _ TELEGR ISOCHR_RX m I) as Ic.
    destruct (node_info _ !! pres_source g); [|done]. apply inv_update_cn_state; [done|].
    apply inv_modify; [| |done]; intros j Hj; by left. }
  pose proof (note_client g t (mn_count TELEGR ISOCHR_RX m)) as Hc. revert I1 Hc.
  change (mn_client (mn_count TELEGR ISOCHR_RX m)) with (mn_client m).
  generalize (note_pres (mn_count TELEGR ISOCHR_RX m) g t) as m1. intros m1 I1 Hc. cbv zeta. destruct (_ && _); [|done].
  assert (I2 : inv (upd_pending_timeout_event None m1)) by (revert I1; apply inv_same; same).
  destruct (mn_consume _ _ _ _ _) as [d|] eqn:Ed.
  - destruct (advance_cycle_phase _ t) as [[d2 a]|] eqn:Ea; [done|]. intros _. right.
    eapply advance_stops; [|exact Ea]. apply inv_pres_frame; [done|].
    apply same_consume in Ed. exact (inv_same _ _ _ _ _ _ _ Ed I2).
  - intros _. left. revert Ed. unfold mn_consume.
    destruct (consume_pdo_payload _ _ _ _ _) eqn:E; [done|]. intros _. apply consume_pdo_panics in E as (Hrd&ch&lo&hi&Hch&Ha).
    exists g, ch, lo, hi. split; [done|]. split; [done|]. split; [done|]. by rewrite <- Hc.
Qed.

Lemma frame_stops m f t : inv m -> mn_process_frame m f t = None -> short_pdo m f \/ 239 ∈ K.
Proof.
  intros I. unfold mn_process_frame. destruct f as [f|f|f|f|f]; try done. cbn [nmt_event].
  intros Hp. apply pres_stops in Hp; [|by apply inv_dll_event].
  destruct Hp as [(g&ch&lo&hi&Hg&Hrd&Hch&Ha)|]; [left|by right]. exists g, ch, lo, hi. by rewrite dll_client in Ha.
Qed.

Lemma asnd_stops m f t : process_asnd_frame m f t = None -> short_response (sdo_client_manager m) f.
Proof.
  unfold process_asnd_frame. destruct (bool_decide_reflect (asnd_service_id f = Svc_Sdo)) as [Hs|Hs]; cbn [andb].
  - destruct (_ =? _).
    + destruct (_ <? _)%nat; [done|]. destruct (SequenceLayerHeader_deserialize _) as [sq|] eqn:E1; [|done].
      destruct (SdoCommand_deserialize _) as [cmd|] eqn:E2; [|done].
      destruct (mgr_handle_response _ _ _ _) eqn:E3; [done|]. intros _.
      apply mgr_response_panics in E3 as (Ha&Hl&c&Hc&Hf). split; [done|]. by exists sq, cmd, c.
    + destruct (_ =? _); [by destruct (handle_sdo_server_request _ _ _ _)|]. done.
  - done.
Qed.

Lemma cycle_stops m eth udp t : inv m -> mn_run_cycle m eth udp t = None ->
  (exists buf f, eth = Some buf /\ deserialize_frame buf = Ok f /\
     (short_pdo m f \/ exists g, f = PF_ASnd g /\ short_response (sdo_client_manager m) g)) \/ 239 ∈ K.
Proof.
  intros I. unfold mn_run_cycle.
  match goal with |- context [match ?e with Some _ => _ | None => None end] => destruct e as [[m1 a]|] eqn:E end.
  - destruct (negb _); [done|].
    assert (I1 : inv m1).
    { destruct eth as [buf|]; [|by simplify_eq]. destruct (is_epl buf); [|by simplify_eq].
      eapply inv_ethernet; [|exact I|exact E]. done. }
    destruct udp as [[[buf ip] port]|].
    + pose proof (same_udp m1 buf ip port t) as Hs. destruct (mn_process_udp_datagram m1 buf ip port t) as [m2 a2].
      cbn [fst] in Hs. pose proof (inv_same _ _ _ _ _ _ _ Hs I1) as I2. destruct (negb _); [done|].
      intros Ht. right. eapply tick_stops; [|exact Ht]. destruct a2; try done. by apply inv_count.
    + destruct (negb _); [done|]. intros Ht. right. by eapply tick_stops.
  - intros _. destruct eth as [buf|]; [|done]. destruct (is_epl buf); [|done]. revert E.
    unfold mn_process_ethernet_frame. destruct (bool_decide _); [done|].
    destruct (deserialize_frame buf) as [f|] eqn:Ef; [|done]. unfold process_powerlink_frame.
    destruct f as [f|f|f|f|f]; try done.
    + destruct (mn_process_frame _ _ _) as [d|] eqn:Ed; [done|]. intros _.
      destruct (frame_stops m _ t I Ed) as [Hp|]; [|by right]. left. exists buf, (PF_PRes f). auto.
    + intros Hp. left. exists buf, (PF_ASnd f). split; [done|]. split; [done|]. right. exists f.
      split; [done|]. by eapply asnd_stops.
Qed.
End Stops.

(** A node that manages node 239 and identifies it. *)
Definition demo_239_od : ObjectDictionary MemStorage :=
  match new_mn_default 240 with
  | Ok d => insert_entry d 0x1F81 (mkObjectEntry
      (Obj_Array (replicate 238 (OV_Unsigned32 0) ++ [OV_Unsigned32 9]))
      "NMT_NodeAssignment_AU32" Cat_Mandatory (Some ReadWrite) None None None)
  | Err _ => ObjectDictionary_new None
  end.
Definition demo_239_inputs : list MnInput :=
  [Mn_Cycle None None 0; Mn_Cycle None None 2000000; Mn_Cycle None None 2100000; Mn_Cycle None None 2100001;
   Mn_Cycle (Some (frame_bytes true (PF_PRes (PResFrame_new demo_mac 239 NmtPreOperational1
     (mkPResFlags false false false High2 0) 0 [])))) None 2100002;
   Mn_Cycle None None 2200000; Mn_Cycle None None 2230000; Mn_Cycle None None 2260000].

(** ** Properties *)

(** C3: A managing node goes on for ever but in three cases.  From its creation on, whatever
    frames, datagrams and times [run_cycle] was given and whatever the application asked for, the
    next [run_cycle] returns unless the frame it is given is a PRes with valid process data that
    carries, for an open channel of the embedded SDO client, an abort with fewer than four octets;
    or an SDO frame of a node that the SDO client of the managing node waits for, again with an
    abort of fewer than four octets; or controlled node 239 is on the list of the managing node,
    for the search for unidentified nodes does not end when 239 was asked last and every node is
    identified. *)
Theorem managing_node_stops {S Q} `{ST : ObjectDictionaryStorage S} `{QH : RequestHeap Q}
    d mac cfg (m m' : MnContext S Q) inputs actions eth udp t :
  mn_new d mac cfg = Ok m -> mn_run inputs m = Some (m', actions) -> mn_run_cycle m' eth udp t = None ->
  (exists buf f, eth = Some buf /\ deserialize_frame buf = Ok f /\
     (short_pdo m' f \/ exists g, f = PF_ASnd g /\ short_response (sdo_client_manager m') g)) \/
  239 ∈ dom (node_info m).
Proof.
  intros Hn Hr Hs. destruct (new_inv d mac cfg m Hn) as [I _].
  eapply cycle_stops; [|exact Hs]. eapply inv_run; [done|done| |exact Hr].
  destruct I as [I1 I2 I3 I4 I5 I6 I7]. split; [done| | |done..].
  - intros _. by apply Forall_true.
  - intros _. by apply Forall_true.
Qed.

Lemma managing_node_stops_witness :
  exists m m' actions, mn_new demo_239_od demo_mac None = Ok m /\
    mn_run (Q := list AsyncRequest) demo_239_inputs m = Some (m', actions) /\
    mn_run_cycle m' None None 2290000 = None /\ 239 ∈ dom (node_info m).
Proof.
  assert (match mn_new demo_239_od demo_mac None with
    | Ok m => match mn_run (Q := list AsyncRequest) demo_239_inputs m with
              | Some (m', _) => match mn_run_cycle m' None None 2290000 with None => true | Some _ => false end
              | None => false end
    | Err _ => false end = true) as H by (vm_compute; reflexivity).
  destruct (mn_new demo_239_od demo_mac None) as [m|] eqn:Em; [|discriminate H].
  destruct (mn_run demo_239_inputs m) as [[m' actions]|] eqn:Er; [|discriminate H].
  destruct (mn_run_cycle m' None None 2290000) eqn:Es; [discriminate H|].
  exists m, m', actions. split; [reflexivity|]. split; [exact Er|]. split; [exact Es|].
  destruct (managing_node_stops demo_239_od demo_mac None m m' demo_239_inputs actions None None 2290000 Em Er Es)
    as [(buf&f&Hf&_)|Hk]; [discriminate Hf|exact Hk].
Defined.
