(* ===== verification/IoModule.v ===== *)
(** * The I/O module

    The application [src/crates/powerlink-rs-linux/examples/io_module.rs]: the dictionaries of
    its two nodes and the main loop of its controlled node, over any [NetworkInterface].
    [None] is a panic.  The main loop of its managing node is not modelled: [setup_mn_node]
    calls [ManagingNode::new] with two arguments of three, so that it does not compile. *)
From S2P Require Import Prelude Types Platform Frames Dll ErrorEntry ObjectDict OdPredefined Nmt OdSchema.
From S2P Require Import SdoCodec SdoServer SdoEmbedded SdoClient Node StackTypes NodeTypes CnPayload CnNode CnSafety.

Definition CN_NODE_ID : Z := 42.
Definition CYCLE_TIME_US : Z := 20000.
Definition IDX_DIGITAL_INPUTS : Z := 0x6000.
Definition IDX_ANALOG_INPUTS : Z := 0x6001.
Definition IDX_DIGITAL_OUTPUTS : Z := 0x6200.
Definition IDX_ANALOG_OUTPUTS : Z := 0x6201.

Section Dictionaries.
Context {S : Type} `{ST : ObjectDictionaryStorage S}.

(** A series of [od.insert(..)], and [od.write(..).unwrap()]. *)
Definition insert_all (l : list (Z * ObjectEntry)) (d : ObjectDictionary S) : ObjectDictionary S :=
  foldl (fun d ie => insert_entry d (fst ie) (snd ie)) d l.
Definition write_unwrap (index sub_index : Z) (v : ObjectValue) (d : ObjectDictionary S) : option (ObjectDictionary S) :=
  match write d index sub_index v with (d, Ok _) => Some d | (_, Err _) => None end.

(** ** The controlled node *)
Definition add_mandatory_cn_objects (node_id : Z) (d : ObjectDictionary S) : ObjectDictionary S :=
  let flags := FeatureFlags.bitor (FeatureFlags.bitor FeatureFlags.ISOCHRONOUS FeatureFlags.SDO_ASND) FeatureFlags.SDO_UDP in
  insert_all
    [(0x1000, mkObjectEntry (Obj_Variable (OV_Unsigned32 0x000F0191)) "NMT_DeviceType_U32"
        Cat_Mandatory (Some Constant) None None None);
     (0x1018, mkObjectEntry (Obj_Record [OV_Unsigned32 0x12345678; OV_Unsigned32 0x00000002;
        OV_Unsigned32 0x00010000; OV_Unsigned32 0x98765432]) "NMT_IdentityObject_REC"
        Cat_Mandatory None None None None);
     (0x1F82, mkObjectEntry (Obj_Variable (OV_Unsigned32 flags)) "NMT_FeatureFlags_U32"
        Cat_Mandatory (Some Constant) None None None);
     (0x1F93, mkObjectEntry (Obj_Record [OV_Unsigned8 node_id; OV_Boolean 0]) "NMT_EPLNodeID_REC"
        Cat_Mandatory None None None None);
     (0x1F99, mkObjectEntry (Obj_Variable (OV_Unsigned32 5000000)) "NMT_CNBasicEthernetTimeout_U32"
        Cat_Mandatory (Some ReadWriteStore) (Some (OV_Unsigned32 5000000)) None None);
     (0x1006, mkObjectEntry (Obj_Variable (OV_Unsigned32 CYCLE_TIME_US)) "NMT_CycleLen_U32"
        Cat_Mandatory (Some ReadWriteStore) (Some (OV_Unsigned32 CYCLE_TIME_US)) None None);
     (0x1C14, mkObjectEntry (Obj_Variable (OV_Unsigned32 1000000)) "DLL_CNLossOfSocTolerance_U32"
        Cat_Mandatory (Some ReadWriteStore) (Some (OV_Unsigned32 1000000)) None None);
     (0x1F8C, mkObjectEntry (Obj_Variable (OV_Unsigned8 0)) "NMT_CurrNMTState_U8"
        Cat_Mandatory (Some ReadOnly) None None (Some Pdo_No));
     (0x1F98, mkObjectEntry (Obj_Record [OV_Unsigned16 1490; OV_Unsigned16 1490; OV_Unsigned32 10000;
        OV_Unsigned16 36; OV_Unsigned16 36; OV_Unsigned32 20000; OV_Unsigned8 0; OV_Unsigned16 300;
        OV_Unsigned16 2]) "NMT_CycleTiming_REC"
        Cat_Mandatory (Some ReadWriteStore) None None None)] d.

Definition analog_values : Object :=
  Obj_Array [OV_Unsigned16 0; OV_Unsigned16 0; OV_Unsigned16 0; OV_Unsigned16 0].
Definition digital_value : Object := Obj_Variable (OV_Unsigned8 0).

(** A mapping of one octet of [digital] and the first value of [analog]. *)
Definition io_mapping (digital analog : Z) : Object :=
  Obj_Array [OV_Unsigned64 (to_u64 (mkPdoMappingEntry digital 0 0 8));
             OV_Unsigned64 (to_u64 (mkPdoMappingEntry analog 1 8 16))].
Definition mapping_entry (o : Object) (nm : string) : ObjectEntry :=
  mkObjectEntry o nm Cat_Mandatory (Some ReadWriteStore) None None None.

Definition get_cn_od (node_id : Z) : option (ObjectDictionary S) :=
  let d := add_mandatory_cn_objects node_id (ObjectDictionary_new None) in
  let d := insert_all
    [(IDX_DIGITAL_INPUTS, mkObjectEntry digital_value "Digital_Inputs_8bit"
        Cat_Mandatory (Some ReadWrite) (Some (OV_Unsigned8 0)) None (Some Pdo_Optional));
     (IDX_ANALOG_INPUTS, mkObjectEntry analog_values "Analog_Inputs_4x16bit"
        Cat_Mandatory None None None None);
     (IDX_DIGITAL_OUTPUTS, mkObjectEntry digital_value "Digital_Outputs_8bit"
        Cat_Mandatory (Some ReadWrite) (Some (OV_Unsigned8 0)) None (Some Pdo_Optional));
     (IDX_ANALOG_OUTPUTS, mkObjectEntry analog_values "Analog_Outputs_4x16bit"
        Cat_Mandatory None None None None);
     (0x1A00, mapping_entry (io_mapping IDX_DIGITAL_INPUTS IDX_ANALOG_INPUTS) "PDO_TxMappParam_00h_AU64")] d in
  let! d := write_unwrap 0x1A00 0 (OV_Unsigned8 2) d in
  let d := insert_all
    [(0x1600, mapping_entry (io_mapping IDX_DIGITAL_OUTPUTS IDX_ANALOG_OUTPUTS) "PDO_RxMappParam_00h_AU64")] d in
  write_unwrap 0x1600 0 (OV_Unsigned8 2) d.

(** ** The managing node *)

(** An array over the node numbers 1 to 254. *)
Definition per_node (f : Z -> ObjectValue) : Object :=
  Obj_Array ((fun i => f (Z.of_nat i)) <$> seq 1 254).

Definition node_assignment_entry : Z * ObjectEntry :=
  (0x1F81, mapping_entry (per_node (fun i => OV_Unsigned32 (if i =? CN_NODE_ID then Z.lor 1 (Z.shiftl 1 3) else 0)))
     "NMT_NodeAssignment_AU32").
Definition mn_identity_objects : list (Z * ObjectEntry) :=
  let flags := FeatureFlags.bitor (FeatureFlags.bitor FeatureFlags.ISOCHRONOUS FeatureFlags.SDO_ASND) FeatureFlags.SDO_UDP in
  [(0x1000, mkObjectEntry (Obj_Variable (OV_Unsigned32 0x000F0191)) "NMT_DeviceType_U32"
      Cat_Mandatory (Some Constant) None None None);
   (0x1018, mkObjectEntry (Obj_Record [OV_Unsigned32 0x12345678; OV_Unsigned32 0x00000001;
      OV_Unsigned32 0x00010000; OV_Unsigned32 0x12345678]) "NMT_IdentityObject_REC"
      Cat_Mandatory None None None None);
   (0x1F82, mkObjectEntry (Obj_Variable (OV_Unsigned32 flags)) "NMT_FeatureFlags_U32"
      Cat_Mandatory (Some Constant) None None None);
   (0x1006, mkObjectEntry (Obj_Variable (OV_Unsigned32 CYCLE_TIME_US)) "NMT_CycleLen_U32"
      Cat_Mandatory (Some ReadWriteStore) (Some (OV_Unsigned32 CYCLE_TIME_US)) None None);
   node_assignment_entry].
Definition mn_timing_objects : list (Z * ObjectEntry) :=
  [(0x1F89, mkObjectEntry (Obj_Record [OV_Unsigned32 1000000; OV_Unsigned32 500000; OV_Unsigned32 500000;
      OV_Unsigned32 500000; OV_Unsigned32 500000; OV_Unsigned32 500000; OV_Unsigned32 500000;
      OV_Unsigned32 500000; OV_Unsigned32 500000]) "NMT_BootTime_REC"
      Cat_Mandatory (Some ReadWriteStore) None None None);
   (0x1F80, mkObjectEntry (Obj_Variable (OV_Unsigned32 0)) "NMT_StartUp_U32"
      Cat_Mandatory (Some ReadWriteStore) (Some (OV_Unsigned32 0)) None None);
   (0x1F98, mkObjectEntry (Obj_Record [OV_Unsigned16 1490; OV_Unsigned16 1490; OV_Unsigned32 10000;
      OV_Unsigned16 100; OV_Unsigned16 100; OV_Unsigned32 20000; OV_Unsigned8 0; OV_Unsigned16 300;
      OV_Unsigned16 2]) "NMT_CycleTiming_REC"
      Cat_Mandatory (Some ReadWriteStore) None None None);
   (0x1F8C, mkObjectEntry (Obj_Variable (OV_Unsigned8 0)) "NMT_CurrNMTState_U8"
      Cat_Mandatory (Some ReadOnly) None None (Some Pdo_No));
   (0x1F8B, mapping_entry (per_node (fun _ => OV_Unsigned16 36)) "NMT_MNPReqPayloadLimitList_AU16")].

Definition add_mandatory_mn_objects (d : ObjectDictionary S) : option (ObjectDictionary S) :=
  let! d := write_unwrap 0x1F81 0 (OV_Unsigned8 254) (insert_all mn_identity_objects d) in
  let! d := write_unwrap 0x1F8B 0 (OV_Unsigned8 254) (insert_all mn_timing_objects d) in
  let d := insert_all
    [(0x1F8D, mapping_entry (per_node (fun _ => OV_Unsigned16 36)) "NMT_PresPayloadLimitList_AU16")] d in
  let! d := write_unwrap 0x1F8D 0 (OV_Unsigned8 254) d in
  let d := insert_all
    [(0x1F92, mapping_entry (per_node (fun _ => OV_Unsigned32 100000)) "NMT_MNCNPResTimeout_AU32")] d in
  write_unwrap 0x1F92 0 (OV_Unsigned8 254) d.

Definition mn_tpdo_objects : list (Z * ObjectEntry) :=
  [(0x1801, mapping_entry (Obj_Record [OV_Unsigned8 CN_NODE_ID; OV_Unsigned8 0]) "PDO_TxCommParam_01h_REC");
   (0x1A01, mapping_entry (io_mapping IDX_DIGITAL_OUTPUTS IDX_ANALOG_OUTPUTS) "PDO_TxMappParam_01h_AU64")].

Definition get_mn_od (cn_mac : MacAddress) : option (ObjectDictionary S) :=
  let! d := add_mandatory_mn_objects (ObjectDictionary_new None) in
  let d := insert_all
    [(0x2100, mkObjectEntry
        (per_node (fun i => OV_OctetString (if i =? CN_NODE_ID then cn_mac else [0; 0; 0; 0; 0; 0])))
        "MAN_CNMacAddressList_AOS" Cat_Optional (Some ReadWrite) None None None);
     (IDX_DIGITAL_INPUTS, mkObjectEntry digital_value "Digital_Inputs_CN42"
        Cat_Mandatory (Some ReadOnly) (Some (OV_Unsigned8 0)) None None);
     (IDX_ANALOG_INPUTS, mkObjectEntry analog_values "Analog_Inputs_CN42" Cat_Mandatory None None None None);
     (IDX_DIGITAL_OUTPUTS, mkObjectEntry digital_value "Digital_Outputs_CN42"
        Cat_Mandatory (Some ReadWrite) (Some (OV_Unsigned8 0)) None None);
     (IDX_ANALOG_OUTPUTS, mkObjectEntry analog_values "Analog_Outputs_CN42" Cat_Mandatory None None None None);
     (0x1401, mapping_entry (Obj_Record [OV_Unsigned8 CN_NODE_ID; OV_Unsigned8 0]) "PDO_RxCommParam_01h_REC");
     (0x1601, mapping_entry (io_mapping IDX_DIGITAL_INPUTS IDX_ANALOG_INPUTS) "PDO_RxMappParam_01h_AU64")] d in
  let! d := write_unwrap 0x1601 0 (OV_Unsigned8 2) d in
  let d := insert_all mn_tpdo_objects d in
  write_unwrap 0x1A01 0 (OV_Unsigned8 2) d.
End Dictionaries.

(** ** The controlled node's program *)
Section Loop.
Context {S I : Type} `{ST : ObjectDictionaryStorage S} `{NI : NetworkInterface I}.

(** The variables of the loop of [run_cn_logic]. *)
Record CnApp : Type := mkCnApp {
  ca_interface : I; ca_node : CnContext S; eth_buffer : bytes; udp_buffer : bytes;
  digital_input_counter : Z }.

(** [&buffer[..n]]. *)
Definition slice_to (n : Z) (buffer : bytes) : option bytes :=
  if n <=? len buffer then Some (take (Z.to_nat n) buffer) else None.

Definition poll_ethernet (i : I) (buffer : bytes) : option (I * bytes * option bytes) :=
  let '(i, buffer, r) := receive_frame i buffer in
  match r with
  | Ok n => if 0 <? n then let! s := slice_to n buffer in Some (i, buffer, Some s) else Some (i, buffer, None)
  | Err _ => Some (i, buffer, None)
  end.
Definition poll_udp (i : I) (buffer : bytes) : option (I * bytes * option (bytes * bytes * Z)) :=
  let '(i, buffer, r) := receive_udp i buffer in
  match r with
  | Ok (Some (size, ip, port)) => let! s := slice_to size buffer in Some (i, buffer, Some (s, ip, port))
  | _ => Some (i, buffer, None)
  end.

(** The action of the cycle; an error is only logged. *)
Definition execute_action (action : NodeAction) (i : I) : I :=
  match action with
  | SendFrame frame => fst (send_frame i frame)
  | SendUdp dest_ip dest_port data => fst (send_udp i dest_ip dest_port data)
  | NoAction => i
  end.

(** One iteration at time [t]; the outputs it reads are only logged. *)
Definition run_cn_iteration (t : Z) (app : CnApp) : option CnApp :=
  let counter := u8 (digital_input_counter app + 1) in
  let! d := write_unwrap IDX_DIGITAL_INPUTS 0 (OV_Unsigned8 counter) (cn_od (ca_node app)) in
  let! (i, eth_buf, eth_slice) := poll_ethernet (ca_interface app) (eth_buffer app) in
  let! (i, udp_buf, udp_info) := poll_udp i (udp_buffer app) in
  let! (node, action) := cn_run_cycle eth_slice udp_info t (cn_with_od d (ca_node app)) in
  Some (mkCnApp (execute_action action i) node eth_buf udp_buf counter).

Fixpoint run_cn_loop (ts : list Z) (app : CnApp) : option CnApp :=
  match ts with
  | [] => Some app
  | t :: ts => let! next := run_cn_iteration t app in run_cn_loop ts next
  end.

(** Up to the loop, from [setup_cn_node]. *)
Definition run_cn_start (i : I) (capacity : Z) : option CnApp :=
  let! d := get_cn_od CN_NODE_ID in
  match cn_new d (local_mac_address i) capacity with
  | Ok node => Some (mkCnApp i node (replicate 1518 0) (replicate 1500 0) 0)
  | Err _ => None
  end.
End Loop.
Arguments CnApp S I : clear implicits.

(** [setup_cn_node] up to the node: the interface with its time-out. *)
Definition setup_interface {T R U} `{SY : System T R U} (interface_name : bytes) (node_id : Z)
    : res (LinuxPnetInterface T R U) :=
  match LinuxPnetInterface_new interface_name node_id with
  | Err _ => Err IoError
  | Ok i => match set_read_timeout 10000 i with (i, Ok _) => Ok i | (_, Err e) => Err e end
  end.

(** An interface that delivers a list of frames and keeps what is sent. *)
Record Script : Type := mkScript { to_deliver : list bytes; sent : list bytes }.
#[export] Instance Script_interface : NetworkInterface Script :=
  { send_frame s f := (mkScript (to_deliver s) (sent s ++ [f]), Ok tt);
    receive_frame s buf :=
      match to_deliver s with
      | f :: l => if (length f <=? length buf)%nat then (mkScript l (sent s), f ++ drop (length f) buf, Ok (len f))
                  else (mkScript l (sent s), buf, Err BufferTooShort)
      | [] => (s, buf, Ok 0)
      end;
    local_node_id _ := CN_NODE_ID; local_mac_address _ := demo_mac;
    send_udp s _ _ _ := (s, Ok tt); receive_udp s buf := (s, buf, Ok None);
    local_ip_address _ := [0; 0; 0; 0] }.
#[export] Instance Script_laws : InterfaceLaws Script.
Proof.
  split; [|intros i buf i' buf' r [= <- <- <-]; by split].
  intros [[|f l] s] buf i' buf' r; cbn [receive_frame Script_interface to_deliver].
  - intros [= <- <- <-]. split; [done|]. intros n [= <-]. unfold len. lia.
  - destruct (Nat.leb_spec (length f) (length buf)); intros [= <- <- <-]; [|done].
    split; [rewrite length_app, length_drop; lia|]. intros n [= <-]. unfold len. lia.
Qed.

(** What makes the node panic: two SDO clients map a channel of the embedded client into both
    PDOs, each in the frame that opens its connection, and the managing node polls twice with an
    abort of no octets. *)
Definition sdo_write_frame (source index sub_index : Z) (data : bytes) : bytes :=
  frame_bytes false (PF_ASnd (ASndFrame_new demo_mac demo_mac CN_NODE_ID source Svc_Sdo
    (seq_wire (mkSeqHeader 0 Rcon_NoConnection 0 Scon_Initialization) ++
     cmd_wire (write_request 1 index sub_index data)))).
Definition channel_mapping : bytes := le_bytes 8 (to_u64 (mkPdoMappingEntry 0x1280 0 0 256)).
Definition empty_abort : bytes :=
  PdoSdoCommand_serialize (mkPdoSdo (mkPdoSeq 63 2) 1 true true Seg_Expedited 0 Cid_Nil 0 0 []).
Definition poll_with_abort : bytes :=
  frame_bytes false (PF_PReq (PReqFrame_new demo_mac demo_mac CN_NODE_ID (mkPReqFlags false false true) 0
    (resize empty_abort 32))).
Definition panic_frames : list bytes :=
  [frame_bytes false demo_soc; frame_bytes false demo_soc; sdo_write_frame 240 0x1A00 1 channel_mapping;
   sdo_write_frame 241 0x1600 1 channel_mapping; poll_with_abort; poll_with_abort].

(** ** Facts *)
Lemma get_cn_od_spec {S} `{ST : ObjectDictionaryStorage S} :
  exists d : ObjectDictionary S, get_cn_od CN_NODE_ID = Some d /\ storage d = None /\
    forallb (fun ie => entry_typed (snd ie)) (map_to_list (entries (populate_protocol_objects d))) = true /\
    (exists e, entries (populate_protocol_objects d) !! IDX_DIGITAL_INPUTS = Some e /\
       object e = digital_value /\ access e = Some ReadWrite) /\
    forall mac cap, exists c, cn_new d mac cap = Ok c /\ cn_state c = NmtNotActive /\ cn_id c = CN_NODE_ID /\
      cn_client c = ∅.
Proof.
  destruct (get_cn_od (S := S) CN_NODE_ID) as [d|] eqn:Ed; [|vm_compute in Ed; discriminate].
  exists d. split; [done|]. vm_compute in Ed. injection Ed as <-. split; [done|].
  split; [by vm_compute|]. split; [eexists; split; [vm_compute; reflexivity|done]|].
  intros mac cap. eexists. split; [vm_compute; reflexivity|]. done.
Qed.

Section Runs.
Context {S I : Type} `{ST : ObjectDictionaryStorage S} `{!StorageKeeps S} `{IL : InterfaceLaws I}.
Implicit Types app : CnApp S I.

(** The dictionary has evolved from that of the example, and the node has its number. *)
Definition io_inv (D : ObjectDictionary S) app : Prop :=
  od_evolves D (cn_od (ca_node app)) /\ cn_id (ca_node app) = CN_NODE_ID.

(** The digital inputs can be written in every dictionary that one with them evolves into. *)
Lemma input_write_ok D d n e : od_typed D -> entries D !! IDX_DIGITAL_INPUTS = Some e ->
  object e = digital_value -> access e = Some ReadWrite -> od_evolves D d ->
  exists d', write_unwrap IDX_DIGITAL_INPUTS 0 (OV_Unsigned8 n) d = Some d' /\ od_evolves D d'.
Proof.
  intros Ht He Ho Ha Hev. destruct (Hev _ Ht) as [_ Hs].
  pose proof (signatures_keep _ _ Hs IDX_DIGITAL_INPUTS) as Hk. rewrite He in Hk.
  destruct (entries d !! IDX_DIGITAL_INPUTS) as [e'|] eqn:He'; [|done]. destruct Hk as [Hm Hk].
  destruct (Hk ltac:(done)) as [_ Hr]. specialize (Hr 0). unfold read_entry at 2 in Hr. rewrite Ho in Hr.
  assert (access e' = Some ReadWrite) as Ha' by (unfold set_object in Hm; congruence).
  unfold write_unwrap. rewrite write_plain by done.
  pose proof (types_write_internal d IDX_DIGITAL_INPUTS 0 (OV_Unsigned8 n) true) as Hw.
  unfold write_internal in *. rewrite He' in *. unfold write_entry in *. rewrite Ha' in *. cbn [andb] in *.
  unfold read_entry in Hr. destruct (object e') as [x|vs|vs] eqn:Eo.
  - cbn in Hr. injection Hr as Hr. change 5 with (discriminant (OV_Unsigned8 n)) in Hr. cbn [Z.eqb] in *.
    rewrite Hr, Z.eqb_refl in *. cbn [negb fst] in *. eexists. split; [done|]. by transitivity d.
  - pose proof (f_equal (lookup IDX_DIGITAL_INPUTS) Hs) as Hl. rewrite !signatures_lookup, He, He' in Hl.
    unfold signature in Hl. cbn in Hl. rewrite Ho, Eo in Hl. discriminate.
  - pose proof (f_equal (lookup IDX_DIGITAL_INPUTS) Hs) as Hl. rewrite !signatures_lookup, He, He' in Hl.
    unfold signature in Hl. cbn in Hl. rewrite Ho, Eo in Hl. discriminate.
Qed.

Lemma poll_ethernet_some (i : I) buf : exists i' buf' r, poll_ethernet i buf = Some (i', buf', r) /\
  forall s, r = Some s -> exists n, receive_frame i buf = (i', buf', Ok n) /\ s = take (Z.to_nat n) buf'.
Proof.
  unfold poll_ethernet. destruct (receive_frame i buf) as [[i' buf'] r] eqn:E.
  destruct (receive_frame_length _ _ _ _ _ E) as [Hl Hn]. destruct r as [n|]; [|by eexists _, _, _].
  destruct (0 <? n); [|by eexists _, _, _]. unfold slice_to, len in *. rewrite Hl.
  destruct (Hn n eq_refl). rewrite (proj2 (Z.leb_le _ _)) by done.
  eexists _, _, _. split; [done|]. intros s [= <-]. by exists n.
Qed.

Lemma poll_udp_some (i : I) buf : exists i' buf' r, poll_udp i buf = Some (i', buf', r).
Proof.
  unfold poll_udp. destruct (receive_udp i buf) as [[i' buf'] r] eqn:E.
  destruct (receive_udp_length _ _ _ _ _ E) as [Hl Hn]. destruct r as [[[[n ip] port]|]|]; [|by eexists _, _, _..].
  unfold slice_to, len in *. rewrite Hl. destruct (Hn n ip port eq_refl). rewrite (proj2 (Z.leb_le _ _)) by done.
  by eexists _, _, _.
Qed.

(** The next frame of the interface carries an abort without its code in answer to a channel
    of the embedded client. *)
Definition short_abort_arrives app : Prop :=
  exists i' buf' n f p ch lo hi, receive_frame (ca_interface app) (eth_buffer app) = (i', buf', Ok n) /\
    deserialize_frame (take (Z.to_nat n) buf') = Ok f /\ pdo_for CN_NODE_ID f = Some p /\
    is_client_channel ch = true /\ short_abort (cn_client (ca_node app)) ch (slice p lo hi).

Lemma iteration_spec D e t app : od_typed D -> entries D !! IDX_DIGITAL_INPUTS = Some e ->
  object e = digital_value -> access e = Some ReadWrite -> io_inv D app ->
  match run_cn_iteration t app with
  | Some app' => io_inv D app' /\ digital_input_counter app' = u8 (digital_input_counter app + 1)
  | None => short_abort_arrives app
  end.
Proof.
  intros Ht He Ho Ha [Hev Hid]. unfold run_cn_iteration. cbv zeta.
  destruct (input_write_ok D _ (u8 (digital_input_counter app + 1)) e Ht He Ho Ha Hev) as (d & -> & Hd).
  destruct (poll_ethernet_some (ca_interface app) (eth_buffer app)) as (i1 & buf1 & r1 & -> & Hr1).
  destruct (poll_udp_some i1 (udp_buffer app)) as (i2 & buf2 & r2 & ->).
  destruct (cn_run_cycle r1 r2 t (cn_with_od d (ca_node app))) as [[node action]|] eqn:Ec.
  - apply evolves_cycle in Ec. split; [|done]. split; cbn [ca_node].
    + transitivity d; [done|]. exact (ev_od _ _ Ec).
    + rewrite (ev_id _ _ Ec). exact Hid.
  - destruct (cycle_panics _ _ _ _ Ec) as (buf & f & p & ch & lo & hi & Hb & Hf & Hp & Hc & Hs).
    destruct (Hr1 _ Hb) as (n & Hr & ->). change (cn_id (cn_with_od d (ca_node app))) with (cn_id (ca_node app)) in Hp.
    rewrite Hid in Hp. by exists i1, buf1, n, f, p, ch, lo, hi.
Qed.

Lemma loop_spec D e ts : od_typed D -> entries D !! IDX_DIGITAL_INPUTS = Some e ->
  object e = digital_value -> access e = Some ReadWrite -> forall app, io_inv D app ->
  match run_cn_loop ts app with
  | Some app' => io_inv D app' /\ cn_id (ca_node app') = CN_NODE_ID
  | None => exists ts1 t ts2 app', ts = ts1 ++ t :: ts2 /\ run_cn_loop ts1 app = Some app' /\ short_abort_arrives app'
  end.
Proof.
  intros Ht He Ho Ha. induction ts as [|t ts IH]; intros app Hi; [by destruct Hi|]. cbn [run_cn_loop].
  pose proof (iteration_spec D e t app Ht He Ho Ha Hi) as Hs.
  destruct (run_cn_iteration t app) as [app1|] eqn:E1; [|by exists [], t, ts, app].
  destruct Hs as [Hi1 _]. specialize (IH app1 Hi1). destruct (run_cn_loop ts app1) as [app2|]; [done|].
  destruct IH as (ts1 & t1 & ts2 & app' & -> & Hr & Hp). exists (t :: ts1), t1, ts2, app'.
  split; [done|]. cbn [run_cn_loop]. by rewrite E1.
Qed.
End Runs.

(** ** Properties *)

(** C10: The controlled node of the I/O module panics for one reason only.  It starts on every
    interface that keeps its buffers; and when its loop panics at some iteration, the frame
    received in that iteration is a PReq to the node or a PRes whose process data has, in the
    place of a container of an open channel of the embedded SDO client, an abort of fewer than
    four octets.  Neither the [unwrap] of the application's own write, nor a slice of a buffer,
    nor any other frame, datagram, time or error of the interface stops it, whatever the network
    wrote into its dictionary before. *)
Theorem io_module_cn_panics_only_on_short_abort {S I} `{ST : ObjectDictionaryStorage S} `{!StorageKeeps S}
    `{IL : InterfaceLaws I} (i : I) capacity :
  exists app : CnApp S I, run_cn_start i capacity = Some app /\ cn_state (ca_node app) = NmtNotActive /\
  forall ts, run_cn_loop ts app = None ->
    exists ts1 t ts2 app', ts = ts1 ++ t :: ts2 /\ run_cn_loop ts1 app = Some app' /\ short_abort_arrives app'.
Proof.
  destruct (get_cn_od_spec (S := S)) as (d & Ed & Hst & Hty & (e & He & Ho & Ha) & Hnew).
  destruct (Hnew (local_mac_address i) capacity) as (c & Ec & Hs & Hid & _).
  exists (mkCnApp i c (replicate 1518 0) (replicate 1500 0) 0). unfold run_cn_start. rewrite Ed, Ec.
  split; [done|]. split; [exact Hs|]. intros ts Hn.
  assert (od_typed (populate_protocol_objects d)) as Ht.
  { apply entries_typed; [done|]. intros st j x s v w Hstore. rewrite populate_storage, Hst in Hstore. done. }
  assert (io_inv (populate_protocol_objects d) (mkCnApp i c (replicate 1518 0) (replicate 1500 0) 0)) as Hi.
  { split; [by eapply cn_new_types|done]. }
  pose proof (loop_spec _ e ts Ht He Ho Ha _ Hi) as Hl. by rewrite Hn in Hl.
Qed.

(** It does panic: two SDO writes and two polls are enough. *)
Lemma io_module_cn_panics_only_on_short_abort_witness :
  exists app : CnApp MemStorage Script, run_cn_start (mkScript panic_frames []) 10 = Some app /\
    run_cn_loop [1000; 2000; 3000; 4000; 5000; 6000] app = None /\
    exists ts1 t ts2 app', [1000; 2000; 3000; 4000; 5000; 6000] = ts1 ++ t :: ts2 /\
      run_cn_loop ts1 app = Some app' /\ short_abort_arrives app'.
Proof.
  assert (match run_cn_start (S := MemStorage) (mkScript panic_frames []) 10 with
    | Some app => match run_cn_loop [1000; 2000; 3000; 4000; 5000; 6000] app with None => true | Some _ => false end
    | None => false end = true) as H by (vm_compute; reflexivity).
  destruct (io_module_cn_panics_only_on_short_abort (S := MemStorage) (mkScript panic_frames []) 10)
    as (app & Hs & _ & Hp).
  rewrite Hs in H. destruct (run_cn_loop [1000; 2000; 3000; 4000; 5000; 6000] app) eqn:Er; [discriminate H|].
  exists app. split; [exact Hs|]. split; [exact Er|]. exact (Hp _ Er).
Defined.

(** The dictionary of the managing node of the I/O module cannot be made: [get_mn_od] panics
    whatever the address of the controlled node, in the [unwrap] of its first write to
    sub-index 0 of an array that is no PDO mapping, which the dictionary refuses. *)
Theorem io_module_mn_never_starts {S} `{ST : ObjectDictionaryStorage S} (cn_mac : MacAddress) :
  (forall d : ObjectDictionary S, snd (write (insert_all mn_identity_objects d) 0x1F81 0 (OV_Unsigned8 254)) =
     Err (StorageError "Cannot write to sub-index 0 of standard Array/Record")) /\
  get_mn_od (S := S) cn_mac = None.
Proof.
  assert (Hw : forall d : ObjectDictionary S,
    snd (write (insert_all mn_identity_objects d) 0x1F81 0 (OV_Unsigned8 254)) =
    Err (StorageError "Cannot write to sub-index 0 of standard Array/Record")).
  { intros d. rewrite write_plain by done. unfold write_internal, insert_all, mn_identity_objects.
    cbn [foldl fst snd node_assignment_entry insert_entry set_entries entries]. by rewrite lookup_insert_eq. }
  split; [done|]. unfold get_mn_od, add_mandatory_mn_objects, write_unwrap.
  specialize (Hw (ObjectDictionary_new None)). destruct (write _ 0x1F81 0 _) as [d [x|x]]; [|done]. discriminate Hw.
Qed.
