(* ===== verification/Platforms.v ===== *)
(** * The interfaces of the platforms

    [src/crates/powerlink-rs-windows/src/lib.rs], and [src/crates/powerlink-rs-linux/src/lib.rs]
    with the feature [pcap], against the plain Linux interface of [Platform]: the relation
    between two interfaces that an application cannot tell apart, and the I/O module over both. *)
From S2P Require Import Prelude Utf8 Types Platform Frames Dll ErrorEntry ObjectDict OdPredefined StatusFrames Nmt.
From S2P Require Import SdoCodec SdoServer SdoEmbedded SdoClient Node CnPayload CnNode IoModule.

(** ** [WindowsPnetInterface] *)
Record WindowsPnetInterface (T R U : Type) : Type := mkWindows {
  wn_tx : T; wn_rx : R; wn_pnet_iface : PnetInterface; wn_node_id : Z; wn_mac_address : bytes;
  wn_udp_socket : U; wn_local_ip_address : bytes }.
Arguments mkWindows {T R U}.
Arguments wn_tx {T R U} w.
Arguments wn_rx {T R U} w.
Arguments wn_pnet_iface {T R U} w.
Arguments wn_node_id {T R U} w.
Arguments wn_mac_address {T R U} w.
Arguments wn_udp_socket {T R U} w.
Arguments wn_local_ip_address {T R U} w.

Section Windows.
Context {T R U : Type} `{RC : RawChannel T R} `{SK : Socket U}.
Implicit Types w : WindowsPnetInterface T R U.

Definition wn_with_channel w (tx : T) (rx : R) : WindowsPnetInterface T R U :=
  mkWindows tx rx (wn_pnet_iface w) (wn_node_id w) (wn_mac_address w) (wn_udp_socket w) (wn_local_ip_address w).
Definition wn_with_socket w (u : U) : WindowsPnetInterface T R U :=
  mkWindows (wn_tx w) (wn_rx w) (wn_pnet_iface w) (wn_node_id w) (wn_mac_address w) u (wn_local_ip_address w).

Definition WindowsPnetInterface_new `{SY : System T R U} (interface_name : bytes) (node_id : Z)
    : result InterfaceError (WindowsPnetInterface T R U) :=
  let? interface :=
    ok_or (List.find (fun iface => bool_decide (pnet_name iface = interface_name)) interfaces)
      (If_NotFound interface_name) in
  let? mac_address := ok_or (pnet_mac interface) If_NoMac in
  match channel interface 1000 with
  | Ok (Channel_Ethernet tx rx) =>
      let? local_ip := ok_or (first_ipv4 (pnet_ips interface)) (If_NoIpv4 interface_name) in
      match bind local_ip C_SDO_EPL_PORT with
      | Ok udp_socket =>
          match set_nonblocking udp_socket with
          | Ok udp_socket => Ok (mkWindows tx rx interface node_id mac_address udp_socket local_ip)
          | Err e => Err (If_Nonblocking e)
          end
      | Err e => Err (If_Bind local_ip C_SDO_EPL_PORT e)
      end
  | Ok Channel_Other => Err If_UnsupportedChannel
  | Err e => Err (If_ChannelError e)
  end.

Definition wn_set_read_timeout `{SY : System T R U} (duration_us : Z) w : WindowsPnetInterface T R U * res unit :=
  match channel (wn_pnet_iface w) duration_us with
  | Ok (Channel_Ethernet tx rx) => (wn_with_channel w tx rx, Ok tt)
  | Ok Channel_Other | Err _ => (w, Err IoError)
  end.

Definition wn_send_frame w (frame : bytes) : WindowsPnetInterface T R U * res unit :=
  let '(tx, r) := tx_send_to (wn_tx w) frame in
  (wn_with_channel w tx (wn_rx w), match r with Some (Ok _) => Ok tt | _ => Err IoError end).

Definition wn_receive_frame w (buffer : bytes) : WindowsPnetInterface T R U * bytes * res Z :=
  let '(rx, r) := rx_next (wn_rx w) in
  let w := wn_with_channel w (wn_tx w) rx in
  match r with
  | Ok frame =>
      if (length frame <=? length buffer)%nat
      then (w, frame ++ drop (length frame) buffer, Ok (len frame))
      else (w, buffer, Err BufferTooShort)
  | Err TimedOut => (w, buffer, Ok 0)
  | Err _ => (w, buffer, Err IoError)
  end.

Definition wn_send_udp w (dest_ip : bytes) (dest_port : Z) (data : bytes) : WindowsPnetInterface T R U * res unit :=
  let '(u, r) := sock_send_to (wn_udp_socket w) data (Addr_V4 dest_ip dest_port) in
  (wn_with_socket w u, match r with Ok _ => Ok tt | Err _ => Err IoError end).

Definition wn_receive_udp w (buffer : bytes)
    : WindowsPnetInterface T R U * bytes * res (option (Z * bytes * Z)) :=
  let '(u, buffer, r) := recv_from (wn_udp_socket w) buffer in
  (wn_with_socket w u, buffer,
   match r with
   | Ok (size, Addr_V4 src_ip src_port) => Ok (Some (size, src_ip, src_port))
   | Ok (_, Addr_V6 _ _) => Ok None
   | Err WouldBlock => Ok None
   | Err _ => Err IoError
   end).

#[export] Instance Windows_interface : NetworkInterface (WindowsPnetInterface T R U) :=
  { send_frame := wn_send_frame; receive_frame := wn_receive_frame;
    local_node_id := wn_node_id; local_mac_address := wn_mac_address;
    send_udp := wn_send_udp; receive_udp := wn_receive_udp; local_ip_address := wn_local_ip_address }.

(** The Linux interface with the same parts. *)
Definition as_linux w : LinuxPnetInterface T R U :=
  mkLinux (wn_tx w) (wn_rx w) (wn_pnet_iface w) (wn_node_id w) (wn_mac_address w) (wn_udp_socket w)
    (wn_local_ip_address w).
End Windows.
Arguments WindowsPnetInterface_new {T R U} {SY} interface_name node_id.

(** ** The feature [pcap] of the Linux interface *)

(** The errors of [with_pcap]: those of [new], and those of the file and of its writer. *)
Inductive PcapError : Type := Pc_Interface (e : InterfaceError) | Pc_File | Pc_Writer.

(** [File::create] with [Savefile] of the crate [pcap]: the two calls say whether they succeeded. *)
Class CaptureFile (W : Type) : Type := {
  capture_create : bytes -> result PcapError W;
  capture_write : W -> Z -> Z -> bytes -> Z -> W * bool;
  capture_flush : W -> W * bool
}.
(** [SystemTime::now] since the epoch, in microseconds; [None] before it. *)
Class WallClock (K : Type) : Type := { now : K -> K * option Z }.

Record PcapInterface (T R U W K : Type) : Type := mkPcap {
  plain : LinuxPnetInterface T R U; pcap_writer : option W; wall_clock : K }.
Arguments mkPcap {T R U W K}.
Arguments plain {T R U W K} p.
Arguments pcap_writer {T R U W K} p.
Arguments wall_clock {T R U W K} p.

Section Pcap.
Context {T R U W K : Type} `{RC : RawChannel T R} `{SK : Socket U} `{CF : CaptureFile W} `{WC : WallClock K}.
Implicit Types i : PcapInterface T R U W K.

Definition with_plain i (l : LinuxPnetInterface T R U) : PcapInterface T R U W K :=
  mkPcap l (pcap_writer i) (wall_clock i).
Definition get_pcap_timestamp (k : K) : K * (Z * Z) :=
  let '(k, t) := now k in
  let t := unwrap_or t 0 in (k, (u32 (t / 1000000), t mod 1000000)).

(** What each operation does with its data first, or last. *)
Definition capture i (data : bytes) : PcapInterface T R U W K * res unit :=
  match pcap_writer i with
  | None => (i, Ok tt)
  | Some w =>
      let '(k, (secs, micros)) := get_pcap_timestamp (wall_clock i) in
      match capture_write w secs micros data (u32 (len data)) with
      | (w, false) => (mkPcap (plain i) (Some w) k, Err IoError)
      | (w, true) =>
          let '(w, ok) := capture_flush w in
          (mkPcap (plain i) (Some w) k, if ok then Ok tt else Err IoError)
      end
  end.

Definition pcap_send_frame i (frame : bytes) : PcapInterface T R U W K * res unit :=
  match capture i frame with
  | (i, Err e) => (i, Err e)
  | (i, Ok _) => let '(l, r) := linux_send_frame (plain i) frame in (with_plain i l, r)
  end.

Definition pcap_receive_frame i (buffer : bytes) : PcapInterface T R U W K * bytes * res Z :=
  let '(rx, r) := rx_next (rx_raw (plain i)) in
  let i := with_plain i (with_channel (plain i) (tx_raw (plain i)) rx) in
  match r with
  | Ok frame =>
      if (length frame <=? length buffer)%nat then
        let buffer := frame ++ drop (length frame) buffer in
        match capture i (take (length frame) buffer) with
        | (i, Err e) => (i, buffer, Err e)
        | (i, Ok _) => (i, buffer, Ok (len frame))
        end
      else (i, buffer, Err BufferTooShort)
  | Err TimedOut => (i, buffer, Ok 0)
  | Err _ => (i, buffer, Err IoError)
  end.

Definition pcap_send_udp i (dest_ip : bytes) (dest_port : Z) (data : bytes) : PcapInterface T R U W K * res unit :=
  match capture i data with
  | (i, Err e) => (i, Err e)
  | (i, Ok _) => let '(l, r) := linux_send_udp (plain i) dest_ip dest_port data in (with_plain i l, r)
  end.

Definition pcap_receive_udp i (buffer : bytes)
    : PcapInterface T R U W K * bytes * res (option (Z * bytes * Z)) :=
  let '(u, buffer, r) := recv_from (udp_socket (plain i)) buffer in
  let i := with_plain i (with_socket (plain i) u) in
  match r with
  | Ok (size, src_sock_addr) =>
      match capture i (take (Z.to_nat size) buffer) with
      | (i, Err e) => (i, buffer, Err e)
      | (i, Ok _) =>
          (i, buffer,
           match src_sock_addr with
           | Addr_V4 src_ip src_port => Ok (Some (size, src_ip, src_port))
           | Addr_V6 _ _ => Ok None
           end)
      end
  | Err WouldBlock => (i, buffer, Ok None)
  | Err _ => (i, buffer, Err IoError)
  end.

#[export] Instance Pcap_interface : NetworkInterface (PcapInterface T R U W K) :=
  { send_frame := pcap_send_frame; receive_frame := pcap_receive_frame;
    local_node_id i := lx_node_id (plain i); local_mac_address i := lx_mac_address (plain i);
    send_udp := pcap_send_udp; receive_udp := pcap_receive_udp;
    local_ip_address i := lx_local_ip_address (plain i) }.

Definition with_pcap `{SY : System T R U} (interface_name : bytes) (node_id : Z) (pcap_filename : bytes) (k : K)
    : result PcapError (PcapInterface T R U W K) :=
  match LinuxPnetInterface_new interface_name node_id with
  | Ok interface =>
      let? writer := capture_create pcap_filename in
      Ok (mkPcap interface (Some writer) k)
  | Err e => Err (Pc_Interface e)
  end.
End Pcap.

(** ** Interfaces that cannot be told apart *)

(** Related interfaces give the same results and stay related. *)
Record interface_sim {I J} `{NetworkInterface I} `{NetworkInterface J} (R : I -> J -> Prop) : Prop := mkIfSim {
  if_send : forall i j f, R i j ->
    R (fst (send_frame i f)) (fst (send_frame j f)) /\ snd (send_frame i f) = snd (send_frame j f);
  if_receive : forall i j buf, R i j ->
    R (fst (fst (receive_frame i buf))) (fst (fst (receive_frame j buf))) /\
    snd (fst (receive_frame i buf)) = snd (fst (receive_frame j buf)) /\
    snd (receive_frame i buf) = snd (receive_frame j buf);
  if_send_udp : forall i j ip port data, R i j ->
    R (fst (send_udp i ip port data)) (fst (send_udp j ip port data)) /\
    snd (send_udp i ip port data) = snd (send_udp j ip port data);
  if_receive_udp : forall i j buf, R i j ->
    R (fst (fst (receive_udp i buf))) (fst (fst (receive_udp j buf))) /\
    snd (fst (receive_udp i buf)) = snd (fst (receive_udp j buf)) /\
    snd (receive_udp i buf) = snd (receive_udp j buf);
  if_addresses : forall i j, R i j -> local_node_id i = local_node_id j /\
    local_mac_address i = local_mac_address j /\ local_ip_address i = local_ip_address j
}.

Section Application.
Context {S I J : Type} `{ST : ObjectDictionaryStorage S} `{NI : NetworkInterface I} `{NJ : NetworkInterface J}.
Context (R : I -> J -> Prop) (HR : interface_sim R).

(** The I/O module over related interfaces. *)
Definition same_app (a : CnApp S I) (b : CnApp S J) : Prop :=
  R (ca_interface a) (ca_interface b) /\ ca_node a = ca_node b /\ eth_buffer a = eth_buffer b /\
  udp_buffer a = udp_buffer b /\ digital_input_counter a = digital_input_counter b.

Lemma poll_ethernet_sim i j buf : R i j ->
  option_Forall2 (fun x y => R (fst (fst x)) (fst (fst y)) /\ snd (fst x) = snd (fst y) /\ snd x = snd y)
    (poll_ethernet i buf) (poll_ethernet j buf).
Proof.
  intros Hij. unfold poll_ethernet. destruct (if_receive R HR i j buf Hij) as (H1&H2&H3).
  destruct (receive_frame i buf) as [[i' b] r], (receive_frame j buf) as [[j' b'] r']. cbn [fst snd] in *. subst b' r'.
  destruct r as [n|]; [|by constructor]. destruct (0 <? n); [|by constructor].
  destruct (slice_to n b); by constructor.
Qed.
Lemma poll_udp_sim i j buf : R i j ->
  option_Forall2 (fun x y => R (fst (fst x)) (fst (fst y)) /\ snd (fst x) = snd (fst y) /\ snd x = snd y)
    (poll_udp i buf) (poll_udp j buf).
Proof.
  intros Hij. unfold poll_udp. destruct (if_receive_udp R HR i j buf Hij) as (H1&H2&H3).
  destruct (receive_udp i buf) as [[i' b] r], (receive_udp j buf) as [[j' b'] r']. cbn [fst snd] in *. subst b' r'.
  destruct r as [[[[n ip] port]|]|]; try by constructor. destruct (slice_to n b); by constructor.
Qed.
Lemma execute_sim a i j : R i j -> R (execute_action a i) (execute_action a j).
Proof.
  intros Hij. destruct a; cbn [execute_action]; [apply (if_send R HR i j _ Hij)|apply (if_send_udp R HR i j _ _ _ Hij)|done].
Qed.

Lemma iteration_sim t a b : same_app a b -> option_Forall2 same_app (run_cn_iteration t a) (run_cn_iteration t b).
Proof.
  intros (Hi&Hn&He&Hu&Hc). unfold run_cn_iteration. rewrite Hn, He, Hu, Hc.
  destruct (write_unwrap _ _ _ _) as [d|]; [|constructor]. pose proof (poll_ethernet_sim _ _ (eth_buffer b) Hi) as H1.
  destruct H1 as [[[i1 b1] r1] [[j1 b1'] r1'] (H1&E1&E1')|]; [|constructor]. cbn [fst snd] in *. subst b1' r1'.
  destruct (poll_udp_sim _ _ (udp_buffer b) H1) as [[[i2 b2] r2] [[j2 b2'] r2'] (H2&E2&E2')|]; [|constructor].
  cbn [fst snd] in *. subst b2' r2'. destruct (cn_run_cycle r1 r2 t _) as [[node action]|]; constructor.
  split; [by apply execute_sim|]. by split_and!.
Qed.
Lemma io_loop_sim ts : forall a b, same_app a b -> option_Forall2 same_app (run_cn_loop ts a) (run_cn_loop ts b).
Proof.
  induction ts as [|t ts IH]; intros a b Hab; cbn [run_cn_loop]; [by constructor|].
  destruct (iteration_sim t a b Hab) as [a1 b1 H1|]; [by apply IH|constructor].
Qed.
Lemma io_start_sim i j capacity : R i j -> option_Forall2 same_app (run_cn_start i capacity) (run_cn_start j capacity).
Proof.
  intros Hij. unfold run_cn_start. destruct (if_addresses R HR i j Hij) as (_&->&_).
  destruct (get_cn_od CN_NODE_ID) as [d|]; [|constructor]. destruct (cn_new _ _ _); constructor. by split_and!.
Qed.
End Application.

Lemma option_Forall2_some {A B} (P : A -> B -> Prop) x o : option_Forall2 P (Some x) o -> exists y, o = Some y /\ P x y.
Proof. inversion 1. by eexists. Qed.

(** [run_cn_logic] for the times of [ts]. *)
Definition run_cn_for {S I} `{ST : ObjectDictionaryStorage S} `{NI : NetworkInterface I} (i : I) (capacity : Z)
    (ts : list Z) : option (CnApp S I) :=
  let! app := run_cn_start i capacity in run_cn_loop ts app.
Lemma run_cn_for_sim {S I J} `{ST : ObjectDictionaryStorage S} `{NI : NetworkInterface I} `{NJ : NetworkInterface J}
    (R : I -> J -> Prop) (i : I) (j : J) capacity ts : interface_sim R -> R i j ->
  option_Forall2 (same_app (S := S) R) (run_cn_for i capacity ts) (run_cn_for j capacity ts).
Proof.
  intros HR Hij. unfold run_cn_for. destruct (io_start_sim (S := S) R HR i j capacity Hij) as [a b Hab|]; [|constructor].
  by apply io_loop_sim.
Qed.

(** ** The three interfaces *)

(** A file that takes what is written to it. *)
Definition capture_reliable (W : Type) `{CaptureFile W} : Prop :=
  (forall w secs micros data n, snd (capture_write w secs micros data n) = true) /\ (forall w, snd (capture_flush w) = true).
(** A file that takes nothing any more, as on a full disk. *)
Definition capture_fails {W : Type} `{CaptureFile W} (full : W -> Prop) : Prop :=
  forall w secs micros data n, full w ->
    full (fst (capture_write w secs micros data n)) /\ snd (capture_write w secs micros data n) = false.

Section Interfaces.
Context {T R U W K : Type} `{RC : RawChannel T R} `{SK : Socket U} `{CF : CaptureFile W} `{WC : WallClock K}.
Implicit Types i : PcapInterface T R U W K.

Definition same_parts (w : WindowsPnetInterface T R U) (l : LinuxPnetInterface T R U) : Prop := as_linux w = l.
Lemma windows_sim : interface_sim same_parts.
Proof.
  split; unfold same_parts; intros w l; [intros f|intros b|intros ip port d|intros b|]; intros <-; [..|done].
  - cbn. unfold wn_send_frame, linux_send_frame. cbn. by destruct (tx_send_to (wn_tx w) f).
  - cbn. unfold wn_receive_frame, linux_receive_frame. cbn. destruct (rx_next (wn_rx w)) as [rx [f|[]]]; try done.
    by destruct (length f <=? length b)%nat.
  - cbn. unfold wn_send_udp, linux_send_udp. cbn. by destruct (sock_send_to _ _ _).
  - cbn. unfold wn_receive_udp, linux_receive_udp. cbn. by destruct (recv_from _ _) as [[u b'] r].
Qed.

(** The plain interface under one that captures nothing, or all it is asked to. *)
Definition same_plain i (l : LinuxPnetInterface T R U) : Prop :=
  plain i = l /\ (pcap_writer i = None \/ capture_reliable W).

(** A capture touches its file and the clock only. *)
Lemma capture_plain i data : plain (fst (capture i data)) = plain i /\
  (pcap_writer i = None -> pcap_writer (fst (capture i data)) = None).
Proof.
  unfold capture. destruct (pcap_writer i) as [w|] eqn:Ew; [|by split]. split; [|done].
  destruct (get_pcap_timestamp _) as [k [secs micros]].
  destruct (capture_write _ _ _ _ _) as [w' []]; [|done]. by destruct (capture_flush w').
Qed.
Lemma capture_ok i l data : same_plain i l -> same_plain (fst (capture i data)) l /\ snd (capture i data) = Ok tt.
Proof.
  intros [Hp Hc]. destruct (capture_plain i data) as [E1 E2]. split.
  - split; [by rewrite E1|]. destruct Hc; auto.
  - unfold capture. destruct (pcap_writer i) as [w|]; [|done]. destruct Hc as [|[Hw Hf]]; [done|].
    destruct (get_pcap_timestamp _) as [k [secs micros]].
    specialize (Hw w secs micros data (u32 (len data))). destruct (capture_write _ _ _ _ _) as [w' ok].
    cbn in Hw. subst ok. specialize (Hf w'). destruct (capture_flush w') as [w2 ok]. cbn in Hf. by subst ok.
Qed.
Lemma with_plain_same i l l' : same_plain i l -> same_plain (with_plain i l') l'.
Proof. intros [_ H]. by split. Qed.
#[local] Hint Resolve with_plain_same : core.

Lemma pcap_sim : interface_sim same_plain.
Proof.
  split; intros i l; [intros f|intros b|intros ip port d|intros b|]; intros H.
  - cbn. unfold pcap_send_frame. destruct (capture_ok i l f H) as [H' E]. destruct (capture i f) as [i' r].
    cbn in H', E. subst r. pose proof H' as [<- _]. destruct (linux_send_frame _ _). cbn. eauto.
  - cbn. unfold pcap_receive_frame, linux_receive_frame. destruct (H) as [<- _].
    destruct (rx_next _) as [rx [f|[]]]; cbv zeta; cbn [fst snd]; eauto.
    destruct (length f <=? length b)%nat; [|cbn; eauto]. set (i' := with_plain _ _).
    destruct (capture_ok i' _ (take (length f) (f ++ drop (length f) b)) (with_plain_same _ _ _ H)) as [H' E].
    destruct (capture i' _) as [i2 r]. cbn in H', E. by subst r.
  - cbn. unfold pcap_send_udp. destruct (capture_ok i l d H) as [H' E]. destruct (capture i d) as [i' r].
    cbn in H', E. subst r. pose proof H' as [<- _]. destruct (linux_send_udp _ _ _ _). cbn. eauto.
  - cbn. unfold pcap_receive_udp, linux_receive_udp. destruct (H) as [<- _].
    destruct (recv_from _ _) as [[u b'] r]. cbv zeta. destruct r as [[n addr]|[]]; cbn [fst snd]; eauto. set (i' := with_plain _ _).
    destruct (capture_ok i' _ (take (Z.to_nat n) b') (with_plain_same _ _ _ H)) as [H' E].
    destruct (capture i' _) as [i2 r]. cbn in H', E. subst r. by destruct addr.
  - destruct H as [<- _]. done.
Qed.

#[export] Instance Windows_laws `{!SocketLaws U} : InterfaceLaws (WindowsPnetInterface T R U).
Proof.
  split; intros w buf w' buf' r E.
  - destruct (if_receive _ windows_sim w (as_linux w) buf eq_refl) as (_&H2&H3). rewrite E in H2, H3. cbn [fst snd] in *.
    destruct (receive_frame (as_linux w) buf) as [[l b] q] eqn:El. cbn [fst snd] in *. subst b q.
    exact (receive_frame_length _ _ _ _ _ El).
  - destruct (if_receive_udp _ windows_sim w (as_linux w) buf eq_refl) as (_&H2&H3). rewrite E in H2, H3. cbn [fst snd] in *.
    destruct (receive_udp (as_linux w) buf) as [[l b] q] eqn:El. cbn [fst snd] in *. subst b q.
    exact (receive_udp_length _ _ _ _ _ El).
Qed.
#[export] Instance Pcap_laws `{!SocketLaws U} : InterfaceLaws (PcapInterface T R U W K).
Proof.
  split; intros i buf i' buf' r.
  - cbn. unfold pcap_receive_frame. destruct (rx_next _) as [rx [f|[]]]; cbv zeta; try (intros [= <- <- <-]; split; [done|]; 
      intros n [= <-]; unfold len; lia).
    destruct (Nat.leb_spec (length f) (length buf)); [|by intros [= <- <- <-]].
    assert (length (f ++ drop (length f) buf) = length buf) as Hl by (rewrite length_app, length_drop; lia).
    destruct (capture _ _) as [i2 [x|x]]; intros [= <- <- <-]; (split; [done|]); [|done]. intros n [= <-]. unfold len. lia.
  - cbn. unfold pcap_receive_udp. destruct (recv_from _ _) as [[u b] q] eqn:E.
    destruct (recv_from_length _ _ _ _ _ E) as [Hl Hn]. cbv zeta. destruct q as [[size addr]|[]]; [|by intros [= <- <- <-]..].
    destruct (capture _ _) as [i2 [x|x]]; intros [= <- <- <-]; (split; [done|]); [|done].
    intros n ip port Hr. destruct addr; simplify_eq. by eapply Hn.
Qed.
End Interfaces.

(** ** A capture that fails *)
Section Failing.
Context {S T R U W K : Type} `{ST : ObjectDictionaryStorage S} `{RC : RawChannel T R} `{SK : Socket U} `{LK : !SocketLaws U}.
Context `{CF : CaptureFile W} `{WC : WallClock K} (full : W -> Prop) (Hfull : capture_fails full).
Implicit Types (i : PcapInterface T R U W K) (app : CnApp S (PcapInterface T R U W K)).

Definition captures_nothing i : Prop := exists w, pcap_writer i = Some w /\ full w.
Lemma capture_full i data : captures_nothing i ->
  captures_nothing (fst (capture i data)) /\ snd (capture i data) = Err IoError.
Proof.
  intros (w & Hw & Hf). unfold capture. rewrite Hw. destruct (get_pcap_timestamp _) as [k [secs micros]].
  destruct (Hfull w secs micros data (u32 (len data)) Hf) as [H1 H2].
  destruct (capture_write _ _ _ _ _) as [w' ok]. cbn in H1, H2. subst ok. split; [by exists w'|done].
Qed.

(** The node is told of no frame, but the frame has left the channel. *)
Lemma full_poll_ethernet i buf : captures_nothing i -> exists i' buf', poll_ethernet i buf = Some (i', buf', None) /\
  captures_nothing i' /\ tx_raw (plain i') = tx_raw (plain i) /\ udp_socket (plain i') = udp_socket (plain i) /\
  rx_raw (plain i') = fst (rx_next (rx_raw (plain i))).
Proof.
  intros H. unfold poll_ethernet. cbn [receive_frame Pcap_interface]. unfold pcap_receive_frame.
  destruct (rx_next _) as [rx [f|[]]]; cbv zeta; try (by eexists _, _).
  destruct (length f <=? length buf)%nat; [|by eexists _, _]. set (i1 := with_plain _ _). set (data := take _ _).
  assert (captures_nothing i1) as H1 by exact H. destruct (capture_full i1 data H1) as [Hc E].
  destruct (capture_plain i1 data) as [Hp _]. destruct (capture i1 data) as [i2 r]. cbn in Hc, E, Hp. subst r.
  eexists _, _. split; [done|]. by rewrite Hp.
Qed.
Lemma full_poll_udp i buf : captures_nothing i -> exists i' buf', poll_udp i buf = Some (i', buf', None) /\
  captures_nothing i' /\ tx_raw (plain i') = tx_raw (plain i) /\ rx_raw (plain i') = rx_raw (plain i) /\
  udp_socket (plain i') = fst (fst (recv_from (udp_socket (plain i)) buf)).
Proof.
  intros H. unfold poll_udp. cbn [receive_udp Pcap_interface]. unfold pcap_receive_udp.
  destruct (recv_from _ _) as [[u b] [[n addr]|[]]]; cbv zeta; try (by eexists _, _).
  set (i1 := with_plain _ _). set (data := take _ _).
  assert (captures_nothing i1) as H1 by exact H. destruct (capture_full i1 data H1) as [Hc E].
  destruct (capture_plain i1 data) as [Hp _]. destruct (capture i1 data) as [i2 r]. cbn in Hc, E, Hp. subst r.
  eexists _, _. split; [done|]. by rewrite Hp.
Qed.
Lemma full_execute a i : captures_nothing i ->
  captures_nothing (execute_action a i) /\ plain (execute_action a i) = plain i.
Proof.
  intros H. destruct a as [f|ip port d|]; cbn [execute_action send_frame send_udp Pcap_interface]; [| |done].
  - unfold pcap_send_frame. destruct (capture_full i f H) as [Hc E]. destruct (capture_plain i f) as [Hp _].
    destruct (capture i f) as [i' r]. cbn in Hc, E, Hp. by subst r.
  - unfold pcap_send_udp. destruct (capture_full i d H) as [Hc E]. destruct (capture_plain i d) as [Hp _].
    destruct (capture i d) as [i' r]. cbn in Hc, E, Hp. by subst r.
Qed.
End Failing.

(** ** A small system *)

(** Channels and a capture that are lists, no datagrams, and a clock that counts. *)
#[export] Instance List_channel : RawChannel (list bytes) (list bytes) :=
  { tx_send_to t f := (t ++ [f], Some (Ok tt));
    rx_next r := match r with [] => ([], Err TimedOut) | f :: r => (r, Ok f) end }.
#[export] Instance No_socket : Socket unit :=
  { sock_send_to u data _ := (u, Ok (len data)); recv_from u buf := (u, buf, Err WouldBlock) }.
#[export] Instance No_socket_laws : SocketLaws unit.
Proof. split. by intros u buf u' buf' r [= <- <- <-]. Qed.
Definition demo_pnet : PnetInterface := mkPnet [101; 116; 104; 48] (Some demo_mac) [Addr_V6 [] 0; Addr_V4 [192; 168; 100; 42] 24].
#[export] Instance List_system : System (list bytes) (list bytes) unit :=
  { interfaces := [demo_pnet]; channel _ _ := Ok (Channel_Ethernet [] (take 4 panic_frames));
    bind _ _ := Ok tt; set_nonblocking u := Ok u }.
(** Records with their times; the number is how many the disk still takes. *)
#[export] Instance List_capture : CaptureFile (nat * list (Z * Z * bytes)) :=
  { capture_create name := if bool_decide (name = []) then Err Pc_File else Ok (100%nat, []);
    capture_write w secs micros data _ :=
      match w with (O, l) => ((O, l), false) | (n, l) => (((n - 1)%nat, l ++ [(secs, micros, data)]), true) end;
    capture_flush w := (w, true) }.
Definition Recording : Type := list (Z * Z * bytes).
#[export] Instance Recording_capture : CaptureFile Recording :=
  { capture_create name := if bool_decide (name = []) then Err Pc_File else Ok [];
    capture_write w secs micros data _ := (w ++ [(secs, micros, data)], true); capture_flush w := (w, true) }.
#[export] Instance Counting_clock : WallClock Z := { now k := (k + 400000, Some k) }.

(** ** Properties *)

(** C11: An application cannot tell the interfaces apart.  [WindowsPnetInterface::new] succeeds
    and fails as [LinuxPnetInterface::new] does, with the same parts, and [set_read_timeout]
    changes both alike; and the controlled node of the I/O module, over a Windows interface or
    over a Linux interface that captures (into no file, or into one that takes what is written),
    starts, runs and panics exactly as over the plain Linux interface with the same channel and
    socket, for any times, and leaves the same node and buffers and the same channel and
    socket. *)
Theorem platforms_agree {S T R U W K} `{ST : ObjectDictionaryStorage S} `{RC : RawChannel T R} `{SK : Socket U}
    `{SY : !System T R U} `{CF : CaptureFile W} `{WC : WallClock K} (interface_name : bytes) (node_id capacity : Z) (ts : list Z) :
  (match WindowsPnetInterface_new interface_name node_id with Ok w => Ok (as_linux w) | Err e => Err e end =
     LinuxPnetInterface_new interface_name node_id) /\
  (forall (w : WindowsPnetInterface T R U) d,
     (as_linux (fst (wn_set_read_timeout d w)), snd (wn_set_read_timeout d w)) = set_read_timeout d (as_linux w)) /\
  (forall w : WindowsPnetInterface T R U,
     option_Forall2 (same_app (S := S) same_parts) (run_cn_for w capacity ts) (run_cn_for (as_linux w) capacity ts)) /\
  (forall pcap_filename (k : K) (i : PcapInterface T R U W K), with_pcap interface_name node_id pcap_filename k = Ok i ->
     LinuxPnetInterface_new interface_name node_id = Ok (plain i)) /\
  (forall i : PcapInterface T R U W K, pcap_writer i = None \/ capture_reliable W ->
     option_Forall2 (same_app (S := S) same_plain) (run_cn_for i capacity ts) (run_cn_for (plain i) capacity ts)).
Proof.
  split_and!.
  - unfold WindowsPnetInterface_new, LinuxPnetInterface_new. destruct (ok_or _ _) as [p|e]; [|done].
    destruct (ok_or (pnet_mac p) _) as [m|e]; [|done]. destruct (channel p 1000) as [[tx rx|]|e]; [|done..].
    destruct (ok_or (first_ipv4 _) _) as [ip|e]; [|done]. destruct (bind ip _) as [u|e]; [|done].
    by destruct (set_nonblocking u).
  - intros w d. unfold wn_set_read_timeout, set_read_timeout. cbn.
    by destruct (channel (wn_pnet_iface w) d) as [[tx rx|]|e].
  - intros w. by apply run_cn_for_sim; [apply windows_sim|].
  - intros f k i. unfold with_pcap. destruct (LinuxPnetInterface_new _ _) as [l|e]; [|done].
    destruct (capture_create f) as [w|e]; [|done]. by intros [= <-].
  - intros i H. apply run_cn_for_sim; [apply pcap_sim|]. by split.
Qed.

(** Four frames, over a captured interface: the same answers as over the plain one. *)
Lemma platforms_agree_witness :
  exists (i : PcapInterface (list bytes) (list bytes) unit Recording Z) (app : CnApp MemStorage _)
      (plain_app : CnApp MemStorage (LinuxPnetInterface (list bytes) (list bytes) unit)),
    with_pcap [101; 116; 104; 48] 42 [97] 1000000 = Ok i /\ LinuxPnetInterface_new [101; 116; 104; 48] 42 = Ok (plain i) /\
    run_cn_for i 10 [1000; 2000; 3000; 4000; 5000] = Some app /\
    run_cn_for (plain i) 10 [1000; 2000; 3000; 4000; 5000] = Some plain_app /\ same_app same_plain app plain_app.
Proof.
  assert (Hrel : capture_reliable Recording) by done.
  destruct (platforms_agree (S := MemStorage) (T := list bytes) (R := list bytes) (U := unit) (W := Recording) (K := Z)
    [101; 116; 104; 48] 42 10 [1000; 2000; 3000; 4000; 5000]) as (_ & _ & _ & Hw & Hp).
  assert (match with_pcap (W := Recording) [101; 116; 104; 48] 42 [97] 1000000 with
    | Ok i => match run_cn_for (S := MemStorage) i 10 [1000; 2000; 3000; 4000; 5000] with Some _ => true | None => false end
    | Err _ => false end = true) as H by (vm_compute; reflexivity).
  destruct (with_pcap (W := Recording) [101; 116; 104; 48] 42 [97] 1000000) as [i|e] eqn:Ei; [|discriminate H].
  specialize (Hp i (or_intror Hrel)). destruct (run_cn_for i 10 _) as [app|] eqn:Ea; [|discriminate H].
  destruct (option_Forall2_some _ _ _ Hp) as (y & E2 & Hxy). exists i, app, y. split; [reflexivity|].
  split; [exact (Hw _ _ _ Ei)|]. split; [exact Ea|]. split; [exact E2|exact Hxy].
Defined.

(** C12: A capture that fails cuts the node off.  When the file takes nothing any more, an
    iteration of the I/O module's controlled node removes the next frame and datagram from the
    channel and the socket, but the node runs its cycle as if nothing had arrived; its action is
    not performed: nothing is sent; and so it stays in every later iteration. *)
Theorem capture_failure_cuts_the_node {S T R U W K} `{ST : ObjectDictionaryStorage S} `{RC : RawChannel T R} `{SK : Socket U}
    `{CF : CaptureFile W} `{WC : WallClock K} (full : W -> Prop) (t : Z) (app : CnApp S (PcapInterface T R U W K)) :
  capture_fails full -> captures_nothing full (ca_interface app) ->
  exists i eth udp,
    run_cn_iteration t app =
      (let counter := u8 (digital_input_counter app + 1) in
       let! d := write_unwrap IDX_DIGITAL_INPUTS 0 (OV_Unsigned8 counter) (cn_od (ca_node app)) in
       let! (node, _) := cn_run_cycle None None t (cn_with_od d (ca_node app)) in
       Some (mkCnApp i node eth udp counter)) /\
    captures_nothing full i /\ tx_raw (plain i) = tx_raw (plain (ca_interface app)) /\
    rx_raw (plain i) = fst (rx_next (rx_raw (plain (ca_interface app)))) /\
    udp_socket (plain i) = fst (fst (recv_from (udp_socket (plain (ca_interface app))) (udp_buffer app))).
Proof.
  intros Hf Hc. unfold run_cn_iteration. cbv zeta.
  destruct (full_poll_ethernet full Hf _ (eth_buffer app) Hc) as (i1 & b1 & -> & H1 & T1 & U1 & R1).
  destruct (full_poll_udp full Hf i1 (udp_buffer app) H1) as (i2 & b2 & -> & H2 & T2 & R2 & U2).
  destruct (write_unwrap _ _ _ _) as [d|]; [|exists i2, b1, b2; split; [done|]; split_and!; congruence].
  cbn. destruct (process_tick t (cn_with_od d (ca_node app))) as [node a].
  destruct (full_execute full Hf a i2 H2) as [H3 Hp]. exists (execute_action a i2), b1, b2. split; [done|].
  split; [done|]. rewrite Hp. split_and!; congruence.
Qed.

(** A disk that is full from the start: the first four frames are lost. *)
Lemma capture_failure_cuts_the_node_witness :
  exists (app : CnApp MemStorage (PcapInterface (list bytes) (list bytes) unit (nat * list (Z * Z * bytes)) Z)) i eth udp,
    run_cn_start (mkPcap (mkLinux [] (take 4 panic_frames) demo_pnet 42 demo_mac tt [192; 168; 100; 42]) (Some (0%nat, [])) 0) 10
      = Some app /\
    run_cn_iteration 1000 app =
      (let counter := u8 (digital_input_counter app + 1) in
       let! d := write_unwrap IDX_DIGITAL_INPUTS 0 (OV_Unsigned8 counter) (cn_od (ca_node app)) in
       let! (node, _) := cn_run_cycle None None 1000 (cn_with_od d (ca_node app)) in
       Some (mkCnApp i node eth udp counter)) /\
    tx_raw (plain i) = [] /\ rx_raw (plain i) = drop 1 (take 4 panic_frames).
Proof.
  set (i0 := mkPcap (mkLinux [] (take 4 panic_frames) demo_pnet 42 demo_mac tt [192; 168; 100; 42]) (Some (0%nat, [])) 0).
  assert (Hfull : capture_fails (fun w : nat * list (Z * Z * bytes) => fst w = 0%nat)).
  { by intros [[|n] l] secs micros data k. }
  assert (match run_cn_start (S := MemStorage) i0 10 with Some _ => true | None => false end = true) as H
    by (vm_compute; reflexivity).
  assert (Hi : forall app, run_cn_start (S := MemStorage) i0 10 = Some app -> ca_interface app = i0).
  { intros app. unfold run_cn_start. destruct (get_cn_od _); [|discriminate]. destruct (cn_new _ _ _); [|discriminate].
    by intros [= <-]. }
  destruct (run_cn_start i0 10) as [app|] eqn:Es; [|discriminate H]. specialize (Hi app eq_refl).
  destruct (capture_failure_cuts_the_node (fun w => fst w = 0%nat) 1000 app) as (i & eth & udp & E & _ & Ht & Hr & _).
  - exact Hfull.
  - rewrite Hi. exists (0%nat, []). split; reflexivity.
  - exists app, i, eth, udp. split; [reflexivity|]. split; [exact E|]. rewrite Ht, Hr, Hi. split; reflexivity.
Defined.
