(* ===== verification/PdoExchange.v ===== *)
(** * Process data from one node to another

    What the transmit PDO of one node carries ([node/cn/state.rs],
    [node/mn/payload.rs]) and the receive PDO of another stores
    ([node/pdo_handler.rs]): the composition of the two ends, for mappings
    that agree on the layout of the payload. *)
From S2P Require Import Prelude Utf8 Types Frames Dll ErrorEntry ObjectDict Nmt SdoCodec SdoServer.
From S2P Require Import SdoEmbedded SdoClient Node MnState MnScheduler MnPayload CnPayload.

(** One object of the sender, its place in the payload and the object of the
    receiver. *)
Record Link : Type := mkLink {
  lk_out : PdoMappingEntry; lk_in : PdoMappingEntry; lk_off : nat; lk_len : nat; lk_value : ObjectValue
}.

(** A mapped entry of whole bytes that is no SDO channel. *)
Definition data_entry (e : PdoMappingEntry) (off n : nat) : Prop :=
  byte_offset e = Some (Z.of_nat off) /\ byte_length e = Some (Z.of_nat n) /\
  is_server_channel (pm_index e) = false /\ is_client_channel (pm_index e) = false.

(** The sender has the value, and its encoding fits its place. *)
Definition sends {S} (d : ObjectDictionary S) (limit : nat) (k : Link) : Prop :=
  data_entry (lk_out k) (lk_off k) (lk_len k) /\
  read d (pm_index (lk_out k)) (pm_sub_index (lk_out k)) = Some (lk_value k) /\
  length (ObjectValue_serialize (lk_value k)) = lk_len k /\ value_ok (lk_value k) /\
  (lk_off k + lk_len k <= limit)%nat.

(** The receiver has an object of that type, not the element count of an
    array or a record. *)
Definition target (k : Link) : Z * Z := (pm_index (lk_in k), pm_sub_index (lk_in k)).
Definition is_element {S} (d : ObjectDictionary S) (index sub_index : Z) : Prop :=
  exists kind types, shape d !! index = Some (kind, types) /\ (kind = 0 \/ sub_index <> 0).
Definition receives {S} (d : ObjectDictionary S) (k : Link) : Prop :=
  data_entry (lk_in k) (lk_off k) (lk_len k) /\ 0 <= snd (target k) /\
  is_element d (fst (target k)) (snd (target k)) /\
  exists t, read d (fst (target k)) (snd (target k)) = Some t /\ discriminant t = discriminant (lk_value k).

Definition apart (a b : Link) : Prop :=
  (lk_off a + lk_len a <= lk_off b)%nat \/ (lk_off b + lk_len b <= lk_off a)%nat.

(** A payload that carries the links. *)
Definition carries (payload : bytes) (k : Link) : Prop :=
  slice payload (lk_off k) (lk_off k + lk_len k) = ObjectValue_serialize (lk_value k).

(** ** The two senders *)
Section Sender.
Context {S : Type}.
Implicit Types c : CoreNodeContext S.

(** What either loop does to the payload. *)
Definition fill_links (payload : bytes) (ks : list Link) : bytes :=
  foldl (fun p k => put p (lk_off k) (ObjectValue_serialize (lk_value k))) payload ks.

Lemma fill_links_carries d limit ks : forall payload, length payload = limit ->
  Forall (sends (S:=S) d limit) ks -> ForallOrdPairs apart ks ->
  length (fill_links payload ks) = limit /\ Forall (carries (fill_links payload ks)) ks /\
  forall k, Forall (apart k) ks -> (lk_off k + lk_len k <= limit)%nat ->
    carries payload k -> carries (fill_links payload ks) k.
Proof.
  induction ks as [|k ks IH]; intros payload Hl Hs Ha; [done|].
  apply Forall_cons in Hs as [(He & Hr & Hn & Hv & Hlim) Hs']. inversion_clear Ha as [|?? Hk Ha'].
  set (p1 := put payload (lk_off k) (ObjectValue_serialize (lk_value k))).
  assert (Hl1 : length p1 = limit) by (unfold p1; rewrite length_put; lia).
  destruct (IH p1 Hl1 Hs' Ha') as (HL & HC & HK). change (fill_links payload (k :: ks)) with (fill_links p1 ks).
  split; [done|]. split.
  - constructor; [|done]. apply HK; [done..|]. unfold carries, p1. apply slice_put_same; lia.
  - intros k' Hk' Hlim' Hc. inversion_clear Hk' as [|?? H1 H2]. apply HK; [done..|].
    unfold carries, p1 in *. rewrite <- Hc. destruct H1 as [H1|H1].
    + apply slice_put_before; lia.
    + apply slice_put_after; lia.
Qed.

Lemma tpdo_loop_fills c limit ks : forall payload, length payload = limit ->
  Forall (sends (od c) limit) ks -> tpdo_loop (lk_out <$> ks) c payload = (c, Ok (fill_links payload ks)).
Proof.
  induction ks as [|k ks IH]; intros payload Hl Hs; [done|].
  apply Forall_cons in Hs as [((Ho & Hb & Hsc & Hcc) & Hr & Hn & Hv & Hlim) Hs']. cbn [fmap list_fmap tpdo_loop].
  unfold apply_tpdo_mapping_entry. rewrite Ho, Hb, Hsc, Hcc, Hr. unfold len.
  destruct (Z.ltb_spec (Z.of_nat (length payload)) (Z.of_nat (lk_off k) + Z.of_nat (lk_len k))); [lia|].
  destruct (Z.eqb_spec (Z.of_nat (length (ObjectValue_serialize (lk_value k)))) (Z.of_nat (lk_len k))); [|lia].
  cbn [negb]. rewrite Nat2Z.id. apply IH; [|done]. rewrite length_put; lia.
Qed.

Lemma mn_tpdo_loop_fills c mapping subs limit : forall ks payload, length payload = limit ->
  omap (fun i => match read (od c) mapping i with
                 | Some (OV_Unsigned64 raw) => Some (from_u64 raw) | _ => None end) subs = lk_out <$> ks ->
  Forall (sends (od c) limit) ks ->
  mn_tpdo_loop mapping (Z.of_nat limit) subs c payload = (c, Ok (fill_links payload ks)).
Proof.
  induction subs as [|i subs IH]; intros ks payload Hl Hm Hs; cbn [omap list_omap mn_tpdo_loop] in *.
  { by destruct ks. }
  destruct (read (od c) mapping i) as [v|] eqn:Er; [|by apply IH].
  destruct v; try (by apply IH).
  destruct ks as [|k ks]; [discriminate Hm|]. injection Hm as Hk Hm.
  apply Forall_cons in Hs as [((Ho & Hb & Hsc & Hcc) & Hr & Hn & Hv & Hlim) Hs'].
  rewrite Hk, Ho, Hb. destruct (Z.ltb_spec (Z.of_nat limit) (Z.of_nat (lk_off k) + Z.of_nat (lk_len k))); [lia|].
  unfold mn_tpdo_data. rewrite Hsc, Hcc, Hr, !Nat2Z.id. rewrite Hn, Nat.min_id, take_ge by lia.
  apply (IH ks); [rewrite length_put; lia|done..].
Qed.
End Sender.

(** ** The receiver *)
Section Receiver.
Context {S C : Type} `{ST : ObjectDictionaryStorage S} `{EC : ErrorCounters C}.
Implicit Types (d : ObjectDictionary S) (st : PdoState S C).

Lemma is_element_count d i s e : is_element d i s -> entries d !! i = Some e -> is_count e s = false.
Proof.
  intros (kind & types & Hsh & Hk) He. unfold shape in Hsh. rewrite lookup_fmap, He in Hsh. injection Hsh as Hsh.
  unfold is_count, object_shape in *. destruct (object e); [by rewrite andb_false_r| |]; rewrite andb_true_r;
    apply Z.eqb_neq; destruct Hk; congruence.
Qed.

(** A write to an element of the right type succeeds, and is what is read. *)
Lemma write_element d i s v t : 0 <= s -> is_element d i s -> read d i s = Some t ->
  discriminant t = discriminant v ->
  exists d', write_internal d i s v false = (d', Ok tt) /\ storage d' = storage d /\ shape d' = shape d /\
    read d' i s = Some v /\
    forall i' s', 0 <= s' -> (i', s') <> (i, s) -> read d' i' s' = read d i' s'.
Proof.
  intros Hs Hel Hr Ht. destruct (write_internal d i s v false) as [d' r] eqn:Ew. exists d'.
  destruct (write_internal_effect d i s v false d' r Hs Ew) as (Hst & _ & Hok).
  assert (Hsh : shape d' = shape d) by (change d' with (fst (d', r)); rewrite <- Ew; apply write_internal_shape).
  assert (r = Ok tt) as ->.
  { change r with (snd (d', r)). rewrite <- Ew. unfold write_internal. unfold read in Hr.
    destruct (entries d !! i) as [e|] eqn:Ee; [|done]. cbn in Hr.
    pose proof (is_element_count d i s e Hel Ee) as Hc. unfold write_entry. cbn [andb].
    unfold is_count, read_entry in *. destruct (object e) as [x|vs|vs].
    - destruct (s =? 0); [|done]. injection Hr as ->. by rewrite Ht, Z.eqb_refl.
    - destruct (s =? 0); [done|]. rewrite Hr, Ht, Z.eqb_refl. done.
    - destruct (s =? 0); [done|]. rewrite Hr, Ht, Z.eqb_refl. done. }
  destruct (Hok eq_refl) as (Hother & e & Ee & He). rewrite (is_element_count d i s e Hel Ee) in He.
  by split_and!.
Qed.

Lemma receives_shape d d' k : shape d' = shape d ->
  read d' (fst (target k)) (snd (target k)) = read d (fst (target k)) (snd (target k)) ->
  receives d k -> receives d' k.
Proof.
  intros Hsh Hr (H1 & H2 & (kind & types & Hk) & t & Ht). split_and!; try done.
  - exists kind, types. by rewrite Hsh.
  - exists t. by rewrite Hr.
Qed.

Lemma apply_link payload source k st : receives (ps_od st) k -> carries payload k ->
  value_ok (lk_value k) -> (lk_off k + lk_len k <= length payload)%nat ->
  exists d', apply_rpdo_mapping_entry (lk_in k) payload source st = Some (ps_with_od d' st, Ok tt) /\
    storage d' = storage (ps_od st) /\ shape d' = shape (ps_od st) /\
    read d' (fst (target k)) (snd (target k)) = Some (lk_value k) /\
    forall i' s', 0 <= s' -> (i', s') <> target k -> read d' i' s' = read (ps_od st) i' s'.
Proof.
  intros ((Ho & Hb & Hsc & Hcc) & Hs & Hel & t & Hr & Ht) Hc Hv Hlim.
  destruct (write_element (ps_od st) _ _ (lk_value k) t Hs Hel Hr Ht) as (d' & Hw & Hrest).
  exists d'. split; [|exact Hrest]. unfold apply_rpdo_mapping_entry. rewrite Ho, Hb. unfold len.
  destruct (Z.ltb_spec (Z.of_nat (length payload)) (Z.of_nat (lk_off k) + Z.of_nat (lk_len k))); [lia|].
  rewrite Hsc, Hcc, <- Nat2Z.inj_add, !Nat2Z.id. cbn [target fst snd] in Hr. rewrite Hr.
  unfold carries in Hc. rewrite Hc, ObjectValue_round by done. rewrite Ht, Z.eqb_refl. cbn [negb].
  cbn [target fst snd] in Hw. by rewrite Hw.
Qed.

Lemma apply_links payload source ks : forall st, Forall (receives (ps_od st)) ks ->
  Forall (carries payload) ks -> Forall (fun k => value_ok (lk_value k)) ks ->
  Forall (fun k => lk_off k + lk_len k <= length payload)%nat ks -> NoDup (target <$> ks) ->
  exists d', apply_rpdo_entries (lk_in <$> ks) payload source st = Some (ps_with_od d' st) /\
    Forall (fun k => read d' (fst (target k)) (snd (target k)) = Some (lk_value k)) ks /\
    forall i' s', 0 <= s' -> (i', s') ∉ target <$> ks -> read d' i' s' = read (ps_od st) i' s'.
Proof.
  induction ks as [|k ks IH]; intros st Hr Hc Hv Hl Hd.
  { exists (ps_od st). split_and!; try done. by destruct st as [[]]. }
  apply Forall_cons in Hr as [Hr Hrs]. apply Forall_cons in Hc as [Hc Hcs].
  apply Forall_cons in Hv as [Hv Hvs]. apply Forall_cons in Hl as [Hl Hls].
  cbn [fmap list_fmap] in *. apply NoDup_cons in Hd as [Hk Hd]. cbn [apply_rpdo_entries].
  destruct (apply_link payload source k st Hr Hc Hv Hl) as (d1 & -> & _ & Hsh & Hrk & Hother).
  destruct (IH (ps_with_od d1 st)) as (d' & -> & HF & HO); try done.
  { apply Forall_forall. intros k' Hin. apply (receives_shape (ps_od st)); [done| |by eapply Forall_forall].
    apply Hother; [eapply Forall_forall in Hrs as (_ & ? & _); done|].
    intros E. apply Hk. rewrite <- E. destruct (target k') eqn:Et. cbn. rewrite <- Et.
    by apply list_elem_of_fmap_2. }
  exists d'. split; [done|]. split.
  - constructor; [|done]. rewrite HO; [done| |].
    + by destruct Hr as (_ & ? & _).
    + by destruct (target k).
  - intros i' s' Hs' Hn. apply not_elem_of_cons in Hn as [H1 H2]. rewrite HO by done. by apply Hother.
Qed.
End Receiver.

(** ** Examples *)
Definition demo_mapping (index : Z) : Object :=
  Obj_Array [OV_Unsigned64 (to_u64 (mkPdoMappingEntry index 1 0 16));
             OV_Unsigned64 (to_u64 (mkPdoMappingEntry index 2 24 8))].
Definition demo_pdo_od : ObjectDictionary MemStorage :=
  mkOD (list_to_map
    [(0x1400, demo_entry (Obj_Record [OV_Unsigned8 5; OV_Unsigned8 0]) ReadWrite None);
     (0x1600, demo_entry (demo_mapping 0x7000) ReadWrite None);
     (0x1A00, demo_entry (demo_mapping 0x6000) ReadWrite None);
     (0x6000, demo_entry (Obj_Record [OV_Unsigned16 0x1234; OV_Integer8 (-1)]) ReadWrite None);
     (0x7000, demo_entry (Obj_Record [OV_Unsigned16 0; OV_Integer8 0]) ReadOnly None)]) None.
Definition demo_core : CoreNodeContext MemStorage :=
  mkCore demo_pdo_od demo_mac SdoServer_default SdoClient_new ∅ ∅.
Definition demo_state : PdoState MemStorage CnErrorCounters :=
  mkPdo demo_core (mkDllErrorManager CnErrorCounters_new []).
Definition demo_links : list Link :=
  [mkLink (mkPdoMappingEntry 0x6000 1 0 16) (mkPdoMappingEntry 0x7000 1 0 16) 0 2 (OV_Unsigned16 0x1234);
   mkLink (mkPdoMappingEntry 0x6000 2 24 8) (mkPdoMappingEntry 0x7000 2 24 8) 3 1 (OV_Integer8 (-1))].

(** ** Properties *)

(** C16: Process data arrives.  For a sender and a receiver whose mappings agree on the layout of
    the payload (whole bytes, places that do not overlap, values of the length of their place,
    objects of the same types, no object mapped twice at the receiver), the payload that the controlled node puts into a PRes, and
    the one that the managing node puts into a PReq, consumed by the receiver with an
    accepted mapping version and the RD flag set, leaves in every mapped object of the receiver the value of the
    sender's object, every other object as it was and no error; building it leaves the
    sender as it was. *)
Theorem process_data_transfer {S C} `{ST : ObjectDictionaryStorage S} `{EC : ErrorCounters C}
    (c : CoreNodeContext S) (st : PdoState S C) source ks limit i version n :
  Forall (sends (od c) limit) ks -> ForallOrdPairs apart ks ->
  Forall (receives (ps_od st)) ks -> NoDup (target <$> ks) ->
  find_rpdo_channel (ps_od st) source = Some i ->
  version_ok (unwrap_or (read_u8 (ps_od st) (IDX_RPDO_COMM_PARAM_REC_START + i) 2) 0) version = true ->
  read (ps_od st) (IDX_RPDO_MAPPING_PARAM_REC_START + i) 0 = Some (OV_Unsigned8 n) -> n <> 0 ->
  rpdo_entries (ps_od st) (IDX_RPDO_MAPPING_PARAM_REC_START + i) n = lk_in <$> ks ->
  let delivered payload :=
    exists d', consume_pdo_payload source payload version true st = Some (ps_with_od d' st) /\
      Forall (fun k => read d' (fst (target k)) (snd (target k)) = Some (lk_value k)) ks /\
      forall i' s', 0 <= s' -> (i', s') ∉ target <$> ks -> read d' i' s' = read (ps_od st) i' s' in
  (forall num, read (od c) IDX_TPDO_MAPPING_PARAM_REC_START 0 = Some (OV_Unsigned8 num) -> 0 < num ->
     tpdo_entries (od c) IDX_TPDO_MAPPING_PARAM_REC_START num = lk_out <$> ks ->
     version = unwrap_or (read_u8 (od c) IDX_TPDO_COMM_PARAM_REC_START 2) 0 ->
     Z.of_nat limit = Z.min (pres_payload_limit (od c)) C_DLL_ISOCHR_MAX_PAYL ->
     exists payload, build_tpdo_payload c = (c, Ok (payload, version)) /\ delivered payload) /\
  (forall channel num,
     read (od c) (OD_IDX_TPDO_MAPP_PARAM_BASE + channel) 0 = Some (OV_Unsigned8 num) ->
     rpdo_entries (od c) (OD_IDX_TPDO_MAPP_PARAM_BASE + channel) num = lk_out <$> ks ->
     version = unwrap_or (read_u8 (od c) (OD_IDX_TPDO_COMM_PARAM_BASE + channel) 2) 0 ->
     Z.of_nat limit =
       Z.min (unwrap_or (read_u16 (od c) OD_IDX_MN_PREQ_PAYLOAD_LIMIT_LIST
                (unwrap_or (read_u8 (od c) (OD_IDX_TPDO_COMM_PARAM_BASE + channel) 1) 0)) 36)
         C_DLL_ISOCHR_MAX_PAYL ->
     exists payload, mn_build_tpdo_payload c channel = (c, Ok (payload, version)) /\ delivered payload).
Proof.
  intros Hs Ha Hr Hd Hi Hver Hn Hn0 Hm delivered.
  set (payload := fill_links (replicate limit 0) ks).
  destruct (fill_links_carries (od c) limit ks (replicate limit 0) (length_replicate _ _) Hs Ha) as (HL & HC & _).
  assert (Hdel : delivered payload).
  { destruct (apply_links payload source ks st Hr HC) as (d' & He & Hrd & Ho); [| |done|].
    - eapply Forall_impl; [exact Hs|]. by intros k (_ & _ & _ & ? & _).
    - eapply Forall_impl; [exact Hs|]. intros k (_ & _ & _ & _ & ?). fold payload in HL. by rewrite HL.
    - exists d'. split; [|by split]. unfold consume_pdo_payload. cbn [negb]. rewrite Hi. cbv zeta.
      rewrite Hver. cbn [negb]. rewrite Hn. destruct (Z.eqb_spec n 0); [done|]. by rewrite Hm. }
  assert (Hrep : length (replicate limit 0) = limit) by apply length_replicate.
  split.
  - intros num Hnum Hpos Hout -> Hlim. exists payload. split; [|done].
    unfold build_tpdo_payload. rewrite <- Hlim, Nat2Z.id, Hnum, Hout.
    destruct (Z.ltb_spec 0 num); [|lia]. by rewrite (tpdo_loop_fills c limit ks _ Hrep Hs).
  - intros channel num Hnum Hout -> Hlim. exists payload. split; [|done].
    unfold mn_build_tpdo_payload. rewrite <- Hlim, Nat2Z.id, Hnum.
    by rewrite (mn_tpdo_loop_fills c _ (sub_indices num) limit ks _ Hrep Hout Hs).
Qed.

Lemma process_data_transfer_witness :
  exists payload, build_tpdo_payload demo_core = (demo_core, Ok (payload, 0)) /\
  exists d', consume_pdo_payload 5 payload 0 true demo_state = Some (ps_with_od d' demo_state) /\
    Forall (fun k => read d' (fst (target k)) (snd (target k)) = Some (lk_value k)) demo_links /\
    forall i' s', 0 <= s' -> (i', s') ∉ target <$> demo_links -> read d' i' s' = read (ps_od demo_state) i' s'.
Proof.
  assert (Hs : Forall (sends (od demo_core) 36) demo_links).
  { repeat constructor; vm_compute; (reflexivity || lia || intuition congruence). }
  assert (Ha : ForallOrdPairs apart demo_links).
  { repeat constructor. }
  assert (Hr : Forall (receives (ps_od demo_state)) demo_links).
  { assert (He : shape demo_pdo_od !! 0x7000 = Some (2, [6; 1])) by reflexivity.
    repeat constructor; try (vm_compute; (reflexivity || congruence)).
    - exists 2, [6; 1]. split; [exact He|right; discriminate].
    - exists (OV_Unsigned16 0). split; reflexivity.
    - exists 2, [6; 1]. split; [exact He|right; discriminate].
    - exists (OV_Integer8 0). split; reflexivity. }
  apply (process_data_transfer demo_core demo_state 5 demo_links 36 0 0 2 Hs Ha Hr
           ltac:(apply NoDup_ListNoDup; repeat constructor; vm_compute; intuition congruence)
           eq_refl eq_refl eq_refl ltac:(discriminate) eq_refl) with (num := 2); reflexivity.
Defined.
