(* ===== verification/Network.v ===== *)
(** * Managing and controlled nodes together

    What the managing node sends ([node/mn/payload.rs]), put on the wire,
    parsed and handled by a controlled node ([node/cn/events.rs]). *)
From S2P Require Import Prelude Utf8 Types Frames Dll ErrorEntry ObjectDict StatusFrames Nmt SdoCodec SdoServer.
From S2P Require Import SdoEmbedded SdoClient Node MnState MnScheduler MnPayload MnNode CnPayload CnNode.

(** What a receiver makes of an ASnd frame: padded to the minimum size, it
    loses the zeros at the end of its payload. *)
Definition received_payload (payload : bytes) : bytes :=
  if (length payload <=? 42)%nat then strip_zeros payload else payload.
Definition received (f : ASndFrame) : ASndFrame :=
  mkASndFrame (asnd_eth_header f) MT_ASnd (asnd_destination f) (asnd_source f) (asnd_service_id f)
    (received_payload (asnd_payload f)).

Lemma asnd_on_the_wire is_cn f :
  eth_ok (asnd_eth_header f) -> asnd_message_type f = MT_ASnd -> (length (asnd_payload f) <= 1500)%nat ->
  exists b, serialize_frame_action is_cn (PF_ASnd f) = Ok (SendFrame b) /\
    deserialize_frame b = Ok (PF_ASnd (received f)).
Proof.
  intros He Ht Hl. exists (full_wire (PF_ASnd f)). rewrite serialize_frame_action_eq by done.
  cbn [may_send negb PowerlinkFrame_wire]. rewrite nat_ltb_false.
  2:{ change (wire f) with (ASndFrame_wire f). rewrite length_ASndFrame_wire. lia. }
  split; [done|]. unfold full_wire. cbn [ethernet_header PowerlinkFrame_wire].
  change (wire f) with (ASndFrame_wire f).
  rewrite deserialize_frame_eth; [|done|rewrite length_ASndFrame_wire; lia].
  assert (byte_at (ASndFrame_wire f) 0 = MessageType_as_u8 MT_ASnd) as ->.
  { unfold ASndFrame_wire. by rewrite Ht. }
  change (MessageType_try_from (Z.land (MessageType_as_u8 MT_ASnd) 0x7F)) with (Ok (E:=PowerlinkError) MT_ASnd).
  unfold dispatch. cbn [deserialize ASndFrame_codec]. by rewrite ASndFrame_deserialize_wire, Ht.
Qed.

(** A frame for another node. *)
Lemma asnd_not_mine {S} `{ST : ObjectDictionaryStorage S} f t (c : CnContext S) :
  asnd_destination f <> cn_id c -> cn_process_frame (PF_ASnd f) t c = Some (c, NoAction).
Proof. intros Hd. cbn [cn_process_frame]. apply Z.eqb_neq in Hd. by rewrite Hd. Qed.

Section Commands.
Context {S Q S' : Type} `{ST : ObjectDictionaryStorage S'}.
Implicit Types (m : MnContext S Q) (c : CnContext S').

Lemma command_frame m command target data : mac_ok (mn_mac m) ->
  (target = C_ADR_BROADCAST_NODE_ID \/ exists mac, get_cn_mac_address m target = Some mac /\ mac_ok mac) ->
  exists mac, mac_ok mac /\ build_nmt_command_frame m command target data =
    PF_ASnd (ASndFrame_new (mn_mac m) mac target C_ADR_MN_DEF_NODE_ID Svc_NmtCommand
      (nmt_command_payload command data)).
Proof.
  intros Hm Ht. unfold build_nmt_command_frame. destruct (Z.eqb_spec target C_ADR_BROADCAST_NODE_ID).
  - exists C_DLL_MULTICAST_ASND. split; [|done]. split; [done|]. repeat constructor; done.
  - destruct Ht as [|(mac & Hmac & Hok)]; [done|]. exists mac. by rewrite Hmac.
Qed.

(** The frame on the wire, as it is received. *)
Lemma command_received m command target data : mac_ok (mn_mac m) ->
  (target = C_ADR_BROADCAST_NODE_ID \/ exists mac, get_cn_mac_address m target = Some mac /\ mac_ok mac) ->
  (length (nmt_command_payload command data) <= 1500)%nat ->
  exists b g, serialize_frame_action false (build_nmt_command_frame m command target data) = Ok (SendFrame b) /\
    deserialize_frame b = Ok (PF_ASnd g) /\ asnd_destination g = target /\
    asnd_service_id g = Svc_NmtCommand /\ asnd_payload g = received_payload (nmt_command_payload command data).
Proof.
  intros Hm Ht Hl. destruct (command_frame m command target data Hm Ht) as (mac & Hok & ->).
  match goal with |- context [PF_ASnd ?f] => destruct (asnd_on_the_wire false f) as (b & Hb & Hd) end;
    [by split_and!|done|done|].
  eexists b, _. split; [exact Hb|]. split; [exact Hd|]. by split_and!.
Qed.

Lemma state_command_payload command :
  received_payload (nmt_command_payload (MnReq_State command) Cmd_None) = [NmtStateCommand_as_u8 command].
Proof. by destruct command. Qed.

Lemma strip_zeros_short l n : (length (strip_zeros (l ++ replicate n 0%Z)) <= length l)%nat.
Proof. rewrite strip_zeros_app_replicate. apply length_strip_zeros. Qed.

Lemma host_payload h : (length h <= 32)%nat ->
  nmt_command_payload (MnReq_Managing NmtNetHostNameSet) (Cmd_HostName h) =
    (NmtManagingCommand_as_u8 NmtNetHostNameSet :: 0 :: h) ++ replicate (32 - length h) 0.
Proof.
  intros Hh. unfold nmt_command_payload. rewrite Nat.min_l, (take_ge h) by lia. unfold resize.
  rewrite take_ge by (simpl; lia). cbn [MnNmtCommandRequest_as_u8 app]. do 3 f_equal.
Qed.

(** The event a command for this node stands for. *)
Lemma state_command_event g command c : asnd_destination g = cn_id c ->
  asnd_service_id g = Svc_NmtCommand -> asnd_payload g = [NmtStateCommand_as_u8 command] ->
  frame_event (PF_ASnd g) c = (c, Some (event_of_command command)).
Proof.
  intros Hd Hs Hp. cbn [frame_event]. rewrite Hd, Z.eqb_refl, Hs, Hp. cbn [andb].
  rewrite bool_decide_eq_true_2 by done. by rewrite NmtStateCommand_round.
Qed.

Lemma host_command_event g payload c : asnd_destination g = cn_id c ->
  asnd_service_id g = Svc_NmtCommand ->
  asnd_payload g = NmtManagingCommand_as_u8 NmtNetHostNameSet :: payload ->
  frame_event (PF_ASnd g) c = (set_host_name_command (asnd_payload g) c, None).
Proof.
  intros Hd Hs Hp. cbn [frame_event]. rewrite Hd, Z.eqb_refl, Hs, Hp. cbn [andb].
  by rewrite bool_decide_eq_true_2 by done.
Qed.
End Commands.

Lemma position_absent {A} (p : A -> bool) l : Forall (fun x => p x = false) l -> position p l = None.
Proof. induction 1 as [|x l Hx Hl IH]; [done|]. simpl. by rewrite Hx, IH. Qed.

(** The ASnd frame that the receivers of a command see. *)
Definition sends {S Q} (m : MnContext S Q) (target : NodeId) (command : MnNmtCommandRequest)
    (data : NmtCommandData) (g : ASndFrame) : Prop :=
  exists b, serialize_frame_action false (build_nmt_command_frame m command target data) = Ok (SendFrame b) /\
    deserialize_frame b = Ok (PF_ASnd g).

(** ** Properties *)

(** C25: What an NMT command of the managing node does.  Put on the wire and parsed again, a
    state command is taken as its event by the controlled node whose number it carries, and by
    every other node it is dropped: so a broadcast command, such as the NMTStartNode with which
    the managing node starts the network, reaches no node at all.  A host name of fewer than
    32 octets is lost, since the receiver cuts the zeros that complete it and then finds the
    command too short; one of 32 octets, UTF-8 and none of them zero, is stored. *)
Theorem nmt_command_delivery {S Q S'} `{ST : ObjectDictionaryStorage S'} (m : MnContext S Q) target :
  mac_ok (mn_mac m) ->
  (target = C_ADR_BROADCAST_NODE_ID \/ exists mac, get_cn_mac_address m target = Some mac /\ mac_ok mac) ->
  (forall command, exists g, sends m target (MnReq_State command) Cmd_None g /\
     (forall c : CnContext S', cn_id c = target ->
        frame_event (PF_ASnd g) c = (c, Some (event_of_command command))) /\
     (forall (c : CnContext S') t, cn_id c <> target ->
        cn_process_frame (PF_ASnd g) t c = Some (c, NoAction))) /\
  (forall h, (length h <= 32)%nat -> exists g,
     sends m target (MnReq_Managing NmtNetHostNameSet) (Cmd_HostName h) g /\
     forall c : CnContext S', cn_id c = target ->
       ((length h < 32)%nat -> frame_event (PF_ASnd g) c = (c, None)) /\
       (length h = 32%nat -> 0 ∉ h -> utf8_valid h = true ->
        frame_event (PF_ASnd g) c =
          (queue_nmt_service_request Srv_IdentRequest (cn_id c)
             (cn_with_od (fst (write_internal (cn_od c) IDX_HOST_NAME 0 (OV_VisibleString h) false)) c),
           None))).
Proof.
  intros Hm Ht. split.
  - intros command.
    destruct (command_received m (MnReq_State command) target Cmd_None Hm Ht) as (b & g & Hb & Hg & Hd & Hs & Hp);
      [simpl; lia|].
    rewrite state_command_payload in Hp. exists g. split; [by exists b|]. split.
    + intros c Hc. apply state_command_event; congruence.
    + intros c t Hc. apply asnd_not_mine. congruence.
  - intros h Hh.
    destruct (command_received m (MnReq_Managing NmtNetHostNameSet) target (Cmd_HostName h) Hm Ht)
      as (b & g & Hb & Hg & Hd & Hs & Hp).
    { rewrite host_payload by done. rewrite length_app, length_replicate. simpl. lia. }
    rewrite host_payload in Hp by done. unfold received_payload in Hp.
    rewrite (proj2 (Nat.leb_le _ _)) in Hp by (rewrite length_app, length_replicate; simpl; lia).
    exists g. split; [by exists b|]. intros c Hc.
    assert (Hcons : exists p, asnd_payload g = NmtManagingCommand_as_u8 NmtNetHostNameSet :: p).
    { rewrite Hp, strip_zeros_app_replicate, strip_zeros_cons. by destruct (strip_zeros (0 :: h)); eexists. }
    destruct Hcons as [p Hcons]. rewrite (host_command_event g p c) by congruence.
    unfold set_host_name_command. split.
    + intros Hl. rewrite (proj2 (Nat.leb_gt _ _)); [done|]. rewrite Hp, strip_zeros_app_replicate.
      eapply Nat.le_lt_trans; [apply length_strip_zeros|simpl; lia].
    + intros Hl H0 Hu. rewrite Hl in Hp. cbn [Nat.sub replicate] in Hp. rewrite app_nil_r in Hp.
      rewrite strip_zeros_id in Hp.
      2:{ rewrite (last_cons_cons _ 0), last_cons. destruct (last h) as [x|] eqn:Ex.
          - intros [= ->]. apply H0. by apply last_Some_elem_of.
          - apply last_None in Ex. by subst h. }
      rewrite Hp. rewrite (proj2 (Nat.leb_le 34 _)) by (simpl; lia).
      change (slice (_ :: 0 :: h) 2 34) with (take 32 h). rewrite (take_ge h) by lia.
      rewrite position_absent.
      2:{ apply Forall_forall. intros x Hx. apply Z.eqb_neq. intros ->. done. }
      cbn [unwrap_or]. rewrite take_ge by lia. unfold from_utf8. by rewrite Hu.
Qed.

(** A managing node that has seen node 42. *)
Definition demo_network : MnContext MemStorage (list AsyncRequest) :=
  upd_arp_cache {[ ip_from_node_id 42 := demo_mac ]}
    (demo_context (ObjectDictionary_new None) (demo_machine NmtOperational) [42] [CnPreOperational]).

Lemma nmt_command_delivery_witness :
  exists b g,
    serialize_frame_action false (build_nmt_command_frame demo_network (MnReq_State Cmd_StartNode) 42 Cmd_None)
      = Ok (SendFrame b) /\ deserialize_frame b = Ok (PF_ASnd g) /\
    (forall c : CnContext MemStorage, cn_id c = 42 ->
        frame_event (PF_ASnd g) c = (c, Some Ev_StartNode)) /\
    (forall (c : CnContext MemStorage) t, cn_id c <> 42 ->
        cn_process_frame (PF_ASnd g) t c = Some (c, NoAction)).
Proof.
  destruct (proj1 (nmt_command_delivery (S' := MemStorage) demo_network 42
    ltac:(split; [done|repeat constructor; done])
    ltac:(right; exists demo_mac; split; [reflexivity|split; [done|repeat constructor; done]]))
    Cmd_StartNode) as (g & (b & Hb & Hg) & H1 & H2).
  exists b, g. split; [exact Hb|]. split; [exact Hg|]. split; [exact H1|exact H2].
Defined.
