(* ===== verification/NetworkSystem.v ===== *)
(** * The network

    A managing node and controlled nodes that hear only each other: the transition system
    whose steps are the calls of [run_cycle] and the requests of the applications, over the
    frames sent so far ([node/mn/main.rs], [node/cn/main.rs]). *)
From stdpp Require Import relations.
From S2P Require Import Prelude Utf8 Types Frames Dll ErrorEntry ObjectDict OdPredefined StatusFrames Nmt.
From S2P Require Import SdoCodec SdoServer SdoEmbedded SdoClient Node MnState MnScheduler MnPayload MnNode MnBoot.
From S2P Require Import MnQuiet CnPayload CnNode.

(** ** The system *)
Record Net (S Q S' : Type) : Type := mkNet {
  net_mn : MnContext S Q;
  net_cns : list (CnContext S');
  net_wire : list bytes
}.
Arguments mkNet {S Q S'}.
Arguments net_mn {S Q S'} n.
Arguments net_cns {S Q S'} n.
Arguments net_wire {S Q S'} n.

(** What an action puts on the wire. *)
Definition sent (a : NodeAction) : list bytes := match a with SendFrame b => [b] | _ => [] end.

(** What a node may be given: a frame that was sent, whenever and as often as it may be, or
    octets that are no POWERLINK frame. *)
Definition may_hear (wire : list bytes) (ethernet_frame : option bytes) : Prop :=
  match ethernet_frame with
  | Some buffer => buffer ∈ wire \/ is_ok (deserialize_frame buffer) = false
  | None => True
  end.
Definition mn_may (wire : list bytes) (i : MnInput) : Prop :=
  match i with Mn_Cycle eth _ _ => may_hear wire eth | _ => True end.
Definition cn_may (wire : list bytes) (i : CnInput) : Prop :=
  match i with Cn_Cycle eth _ _ => may_hear wire eth | _ => True end.

Inductive net_step {S Q S'} `{ST : ObjectDictionaryStorage S} `{QH : RequestHeap Q} `{ST' : ObjectDictionaryStorage S'} :
    Net S Q S' -> Net S Q S' -> Prop :=
| Step_Mn s i m a : mn_may (net_wire s) i -> mn_input i (net_mn s) = Some (m, a) ->
    net_step s (mkNet m (net_cns s) (net_wire s ++ sent a))
| Step_Cn s k c i c' a : net_cns s !! k = Some c -> cn_may (net_wire s) i -> cn_input i c = Some (c', a) ->
    net_step s (mkNet (net_mn s) (<[k := c']> (net_cns s)) (net_wire s ++ sent a)).

(** ** Frames of a network in which nobody is polled *)

(** [ids]: the nodes there are; [A]: those the managing node asks for their status. *)
Definition peaceful (ids : NodeId -> Prop) (A : list NodeId) (f : PowerlinkFrame) : Prop :=
  match f with
  | PF_Soc _ => True
  | PF_SoA g => soa_req_service_id g = Req_StatusRequest -> soa_target_node_id g ∈ A
  | PF_ASnd g => ids (asnd_source g) /\ (asnd_service_id g = Svc_StatusResponse -> reporting A (asnd_source g))
  | _ => False
  end.
Definition peace (ids : NodeId -> Prop) (A : list NodeId) (wire : list bytes) : Prop :=
  forall b f, b ∈ wire -> deserialize_frame b = Ok f -> peaceful ids A f.

Section Peace.
Context (ids : NodeId -> Prop) (A : list NodeId).

Lemma peaceful_message F f : same_message F f -> peaceful ids A F -> peaceful ids A f.
Proof.
  destruct F as [F|F|F|F|F], f as [f|f|f|f|f]; cbn [same_message peaceful]; try done.
  - by intros [-> ->].
  - by intros (-> & -> & _).
Qed.
Lemma peace_heard wire eth buf f : peace ids A wire -> may_hear wire eth -> eth = Some buf ->
  deserialize_frame buf = Ok f -> peaceful ids A f.
Proof. intros Hp Hh -> Hd. destruct Hh as [Hin|Hn]; [by eapply Hp|]. by rewrite Hd in Hn. Qed.
Lemma peace_sent wire a : peace ids A wire ->
  (forall b f, a = SendFrame b -> deserialize_frame b = Ok f -> peaceful ids A f) ->
  peace ids A (wire ++ sent a).
Proof.
  intros Hp Ha b f Hb. apply elem_of_app in Hb as [Hb|Hb]; [by apply Hp|]. intros Hd.
  destruct a as [x|x y z|]; cbn [sent] in Hb; try by apply not_elem_of_nil in Hb.
  apply list_elem_of_singleton in Hb as ->. by eapply Ha.
Qed.

(** What a managing node sends is peaceful. *)
Lemma mn_peaceful id a b f : ids C_ADR_MN_DEF_NODE_ID -> ids id -> mn_says A id a ->
  a = SendFrame b -> deserialize_frame b = Ok f -> peaceful ids A f.
Proof.
  intros H0 Hid Hs -> Hd. destruct Hs as (F&[Ht HF]&HS).
  apply (peaceful_message F); [by eapply sent_message|].
  destruct F as [F|F|F|F|F]; try done. cbn [peaceful]. destruct HF as [Hsrc Hst]. split.
  - by destruct Hsrc as [-> | ->].
  - intros Hs. rewrite (Hst Hs). by left.
Qed.
End Peace.

Section ControlledNode.
Context {S : Type} `{ST : ObjectDictionaryStorage S}.
Context (ids : NodeId -> Prop) (A : list NodeId).
Implicit Types c : CnContext S.

(** What one answers, when nobody polls it. *)
Lemma answer_peaceful c s frame r b f : ids (cn_id c) -> peaceful ids A frame ->
  asked_for (cn_id c) s frame r -> action_of (serialize_frame_action true r) = SendFrame b ->
  deserialize_frame b = Ok f -> peaceful ids A f.
Proof.
  intros Hid Hp Hr Hb Hd. destruct (serialize_frame_action true r) as [x|] eqn:E; [|done]. cbn in Hb. subst x.
  destruct frame as [g|g|g|g|g]; try done. destruct r as [r|r|r|r|r]; try done.
  destruct Hr as (Htgt&_&Hsvc&Hsrc&_&Ht). apply (peaceful_message ids A (PF_ASnd r)); [by eapply sent_message|].
  cbn [peaceful]. rewrite Hsrc. split; [done|]. intros Hs. rewrite Hs in Hsvc.
  right. rewrite <- Htgt. apply Hp. by destruct (soa_req_service_id g).
Qed.
Lemma sdo_peaceful c a b f : ids (cn_id c) -> sdo_answer c a -> a = SendFrame b ->
  deserialize_frame b = Ok f -> peaceful ids A f.
Proof.
  intros Hid (d&data&Hi&Hr) -> Hd. revert Hr. unfold cn_response, build_response.
  destruct (rd_client_info data) as [n mac|ip port] eqn:Ei.
  - unfold asnd_build_response. rewrite Ei. destruct (serialize_sdo_asnd_payload _ _) as [p|]; [|done].
    intros E. eapply sent_message in E; [|done|exact Hd].
    eapply peaceful_message; [exact E|]. cbn [peaceful asnd_source ASndFrame_new asnd_service_id].
    rewrite Hi. by split.
  - unfold udp_build_response. rewrite Ei. by destruct (serialize_sdo_udp_payload _ _ _) as [buf [k|]].
Qed.

Lemma cn_peaceful wire i c c' a b f : ids (cn_id c) -> peace ids A wire -> cn_may wire i ->
  cn_input i c = Some (c', a) -> a = SendFrame b -> deserialize_frame b = Ok f -> peaceful ids A f.
Proof.
  intros Hid Hp Hi. destruct i as [eth udp t|p|cmd n]; cbn [cn_input]; try (intros [= _ <-]; done).
  intros Hr Ha Hd. destruct (cn_cycle_speaks eth udp t c c' a Hr ltac:(by subst a))
    as [(buf&frame&He&Hf&[(r&Er&Hr')|(g&_&_&_&Hs)])|(c1&H1&[(?&?&?&?&?&_&_&Hs)|(c2&H2&Hs)])].
  - eapply answer_peaceful; [exact Hid|by eapply peace_heard|exact Hr'|by rewrite <- Er|exact Hd].
  - apply sdo_reply_answer in Hs. by eapply sdo_peaceful.
  - apply evolves_ethernet_input, ev_id in H1. apply sdo_reply_answer in Hs.
    eapply sdo_peaceful; [|exact Hs|done|exact Hd]. by rewrite H1.
  - apply evolves_ethernet_input, ev_id in H1. pose proof (evolves_udp_input udp t c1) as Hu.
    rewrite H2 in Hu. apply ev_id in Hu. apply sdo_timeout_answer in Hs.
    eapply sdo_peaceful; [|exact Hs|done|exact Hd]. cbn [fst] in Hu. by rewrite Hu, H1.
Qed.
Lemma evolves_input i c c' a : cn_input i c = Some (c', a) -> evolves c c'.
Proof.
  intros Hi. apply (evolves_run [i] c c' [a]). cbn [cn_run]. by rewrite Hi.
Qed.
End ControlledNode.

(** ** The invariant of the network *)
Section Network.
Context {S Q S' : Type} `{ST : ObjectDictionaryStorage S} `{QH : RequestHeap Q} `{ST' : ObjectDictionaryStorage S'}.
Implicit Types (m : MnContext S Q) (cns : list (CnContext S')) (s : Net S Q S').

(** The numbers of the nodes: those of the managing node, and those of the others. *)
Definition member m cns (n : NodeId) : Prop :=
  n = C_ADR_MN_DEF_NODE_ID \/ n = mn_node_id (MnState.nmt_state_machine m) \/ exists c, c ∈ cns /\ cn_id c = n.

Context (D : ObjectDictionary S) (m0 : MnContext S Q) (cns0 : list (CnContext S')).
Record net_inv s : Prop := mkNetInv {
  ni_mn : mn_inv (member m0 cns0) (fun _ => False) (mandatory_nodes m0) (dom (node_info m0)) D (net_mn s);
  ni_calm : calm (async_only_nodes m0) (isochronous_nodes m0) (mn_node_id (MnState.nmt_state_machine m0)) (net_mn s);
  ni_cns : Forall2 evolves cns0 (net_cns s);
  ni_wire : peace (member m0 cns0) (async_only_nodes m0) (net_wire s)
}.
Context (Hsep : Forall (fun n => ~ reporting (async_only_nodes m0) n) (isochronous_nodes m0)).

Lemma mn_hears s i buf udp t f : net_inv s -> mn_may (net_wire s) i -> i = Mn_Cycle (Some buf) udp t ->
  deserialize_frame buf = Ok f -> peaceful (member m0 cns0) (async_only_nodes m0) f.
Proof. intros [_ _ _ Hw] Hi -> Hd. eapply peace_heard; [exact Hw|exact Hi|done|exact Hd]. Qed.
Lemma peaceful_harmless f : peaceful (member m0 cns0) (async_only_nodes m0) f -> harmless (async_only_nodes m0) f.
Proof. destruct f as [f|f|f|f|f]; try done. by intros [_ Hf]. Qed.

Lemma inv_mn_step s i m a : net_inv s -> mn_may (net_wire s) i -> mn_input i (net_mn s) = Some (m, a) ->
  net_inv (mkNet m (net_cns s) (net_wire s ++ sent a)).
Proof.
  intros Hs Hi Hm. pose proof Hs as [I1 I2 I3 I4].
  destruct (calm_input _ _ (mn_node_id (MnState.nmt_state_machine m0)) Hsep i (net_mn s) m a) as [Hc Ha]; [|done|done|].
  { intros buf udp t f Hin Hd. eapply peaceful_harmless, mn_hears; done. }
  split; cbn [net_mn net_cns net_wire]; try done.
  - eapply inv_input; [| |exact I1|exact Hm].
    + intros n (buf&udp&t&f&Hin&Hd&Hn). apply list_elem_of_singleton in Hin as <-.
      pose proof (mn_hears s _ buf udp t f Hs Hi eq_refl Hd) as Hp.
      destruct f as [f|f|f|f|f]; try done. cbn in Hn. injection Hn as <-. apply Hp.
    + intros n (buf&udp&t&f&Hin&Hd&Hn). apply list_elem_of_singleton in Hin as <-.
      pose proof (mn_hears s _ buf udp t f Hs Hi eq_refl Hd) as Hp. by destruct f.
  - apply peace_sent; [done|]. intros b f. eapply mn_peaceful; [| |exact Ha]; unfold member; auto.
Qed.

Lemma inv_cn_step s k c i c' a : net_inv s -> net_cns s !! k = Some c -> cn_may (net_wire s) i ->
  cn_input i c = Some (c', a) -> net_inv (mkNet (net_mn s) (<[k := c']> (net_cns s)) (net_wire s ++ sent a)).
Proof.
  intros [I1 I2 I3 I4] Hk Hi Hc. destruct (Forall2_lookup_r _ _ _ _ _ I3 Hk) as (c0&Hk0&He).
  split; cbn [net_mn net_cns net_wire]; try done.
  - rewrite <- (list_insert_id cns0 k c0) by done. apply Forall2_insert; [done|].
    etransitivity; [exact He|by eapply evolves_input].
  - apply peace_sent; [done|]. intros b f. eapply cn_peaceful; [|exact I4|exact Hi|exact Hc].
    right. right. exists c0. split; [by eapply list_elem_of_lookup_2|]. symmetry. exact (ev_id _ _ He).
Qed.

Lemma inv_reachable s0 s : net_inv s0 -> rtc net_step s0 s -> net_inv s.
Proof.
  intros H0 Hr. induction Hr as [|s0 s1 s2 Hstep _ IH]; [done|]. apply IH.
  destruct Hstep; [by eapply inv_mn_step|by eapply inv_cn_step].
Qed.
End Network.

(** Object 0x1F81 has no more entries than there are node numbers, and does not assign number 240,
    the managing node's own, to the isochronous phase. *)
Definition manager_not_polled {S} (d : ObjectDictionary S) : Prop :=
  forall entries, read_object d 0x1F81 = Some (Obj_Array entries) ->
    (length entries <= 255)%nat /\
    forall a, entries !! 239%nat = Some (OV_Unsigned32 a) -> bit a 0 = true -> bit a 8 = true.

Lemma assigned_number i n : (i < 255)%nat ->
  NodeId_try_from (u8 (Z.of_nat (0 + i) + 1)) = Ok n -> n = Z.of_nat i + 1.
Proof.
  intros Hi. unfold NodeId_try_from, u8. rewrite wrap_small by (unfold in_width; lia).
  repeat case_match; try done; intros [= <-]; simpl; lia.
Qed.

(** A network of new nodes. *)
Record net_start {S Q S'} `{ST : ObjectDictionaryStorage S} `{QH : RequestHeap Q} `{ST' : ObjectDictionaryStorage S'}
    (d : ObjectDictionary S) (m : MnContext S Q) (cns : list (CnContext S')) : Prop := mkStart {
  start_mn : exists mac cfg, mn_new d mac cfg = Ok m;
  start_cns : Forall (fun c => exists d mac cap, cn_new d mac cap = Ok c) cns;
  start_assignment : manager_not_polled (fst (init d))
}.

Lemma start_lists {S Q S'} `{ST : ObjectDictionaryStorage S} `{QH : RequestHeap Q} `{ST' : ObjectDictionaryStorage S'}
    d (m : MnContext S Q) (cns : list (CnContext S')) :
  net_start d m cns -> Forall (fun n => ~ reporting (async_only_nodes m) n) (isochronous_nodes m).
Proof.
  intros [(mac&cfg&Hm) _ Ha]. destruct (new_listed d mac cfg m Hm) as (entries&He&Hi&Hy).
  destruct (Ha entries He) as [Hlen H240]. apply Forall_forall. intros n (i&a&Hia&H0&H8&Hn)%Hi.
  apply lookup_lt_Some in Hia as Hlt. apply assigned_number in Hn; [|lia].
  unfold reporting. intros [Hr|(j&b&Hjb&_&Hb&Hj)%Hy]%elem_of_cons.
  - assert (i = 239%nat) as -> by (unfold C_ADR_MN_DEF_NODE_ID in Hr; lia). specialize (H240 a Hia H0). congruence.
  - apply lookup_lt_Some in Hjb as Hlt'. apply assigned_number in Hj; [|lia].
    assert (i = j) as -> by lia. rewrite Hia in Hjb. congruence.
Qed.

Lemma started_inv {S Q S'} `{ST : ObjectDictionaryStorage S} `{QH : RequestHeap Q} `{ST' : ObjectDictionaryStorage S'}
    d (m : MnContext S Q) (cns : list (CnContext S')) s :
  net_start d m cns -> rtc net_step (mkNet m cns []) s -> net_inv (populate_protocol_objects d) m cns s.
Proof.
  intros Hn Hr. eapply inv_reachable; [exact (start_lists d m cns Hn)| |exact Hr].
  destruct (start_mn _ _ _ Hn) as (mac&cfg&Hm).
  split; cbn [net_mn net_cns net_wire].
  - destruct (new_inv d mac cfg m Hm) as [[I1 I2 I3 I4 I5 I6 I7] _]. split; [| | |done..].
    + intros n i Hi. destruct (I1 n i Hi) as [Hh Hp]. split; [|done]. intros Hx. destruct (Hh Hx).
    + intros Hx. eapply Forall_impl; [exact (I2 Hx)|done].
    + done.
  - exact (calm_new d mac cfg m Hm).
  - clear. induction cns; constructor; [reflexivity|done].
  - intros b f Hb. by apply not_elem_of_nil in Hb.
Qed.

(** ** Runs that can be executed *)

(** [run_cycle] of the managing node ([None]) or of a controlled node, with a frame of the wire. *)
Definition net_call {S Q S'} `{ST : ObjectDictionaryStorage S} `{QH : RequestHeap Q} `{ST' : ObjectDictionaryStorage S'}
    (who : option nat) (heard : option nat) (t : Z) (s : Net S Q S') : option (Net S Q S') :=
  let eth := match heard with Some i => net_wire s !! i | None => None end in
  match who with
  | None =>
      let! (m, a) := mn_input (Mn_Cycle eth None t) (net_mn s) in
      Some (mkNet m (net_cns s) (net_wire s ++ sent a))
  | Some k =>
      let! c := net_cns s !! k in
      let! (c, a) := cn_input (Cn_Cycle eth None t) c in
      Some (mkNet (net_mn s) (<[k := c]> (net_cns s)) (net_wire s ++ sent a))
  end.
Fixpoint net_calls {S Q S'} `{ST : ObjectDictionaryStorage S} `{QH : RequestHeap Q} `{ST' : ObjectDictionaryStorage S'}
    (calls : list (option nat * option nat * Z)) (s : Net S Q S') : option (Net S Q S') :=
  match calls with
  | [] => Some s
  | (who, heard, t) :: calls => let! s := net_call who heard t s in net_calls calls s
  end.

Lemma heard_may (wire : list bytes) (heard : option nat) :
  may_hear wire (match heard with Some i => wire !! i | None => None end).
Proof.
  destruct heard as [i|]; [|done]. destruct (wire !! i) as [b|] eqn:E; [|done]. left.
  by eapply list_elem_of_lookup_2.
Qed.
Lemma net_call_step {S Q S'} `{ST : ObjectDictionaryStorage S} `{QH : RequestHeap Q} `{ST' : ObjectDictionaryStorage S'}
    who heard t (s s' : Net S Q S') : net_call who heard t s = Some s' -> net_step s s'.
Proof.
  unfold net_call. cbv zeta. pose proof (heard_may (net_wire s) heard) as Hh. revert Hh.
  generalize (match heard with Some i => net_wire s !! i | None => None end) as eth. intros eth Hh.
  destruct who as [k|].
  - destruct (net_cns s !! k) as [c|] eqn:Ek; [|done].
    destruct (cn_input (Cn_Cycle eth None t) c) as [[c' a]|] eqn:E; [|done]. intros [= <-].
    by apply (Step_Cn s k c (Cn_Cycle eth None t)).
  - destruct (mn_input (Mn_Cycle eth None t) (net_mn s)) as [[m a]|] eqn:E; [|done]. intros [= <-].
    by apply (Step_Mn s (Mn_Cycle eth None t)).
Qed.
Lemma net_calls_steps {S Q S'} `{ST : ObjectDictionaryStorage S} `{QH : RequestHeap Q} `{ST' : ObjectDictionaryStorage S'}
    calls : forall s s' : Net S Q S', net_calls calls s = Some s' -> rtc net_step s s'.
Proof.
  induction calls as [|[[who heard] t] calls IH]; intros s s'; cbn [net_calls]; [by intros [= <-]|].
  destruct (net_call who heard t s) as [s1|] eqn:E; [|done]. intros Hr.
  eapply rtc_l; [by eapply net_call_step|by apply IH].
Qed.

(** ** What never happens *)
Section Never.
Context {S Q S' : Type} `{ST : ObjectDictionaryStorage S} `{QH : RequestHeap Q} `{ST' : ObjectDictionaryStorage S'}.
Context (d : ObjectDictionary S) (m : MnContext S Q) (cns : list (CnContext S')) (s : Net S Q S').
Context (Hn : net_start d m cns) (Hr : rtc net_step (mkNet m cns []) s).

Lemma nobody_polled b f : b ∈ net_wire s -> deserialize_frame b = Ok f ->
  match f with PF_PReq _ | PF_PRes _ => False | _ => True end.
Proof.
  destruct (started_inv d m cns s Hn Hr) as [_ _ _ Hw]. intros Hb Hd. specialize (Hw b f Hb Hd). by destruct f.
Qed.
Lemma mandatory_listed n : mandatory_in (fst (init d)) n -> n ∈ mandatory_nodes m.
Proof.
  destruct (start_mn _ _ _ Hn) as (mac&cfg&Hm). destruct (new_inv d mac cfg m Hm) as [_ HL]. apply HL.
Qed.
Lemma never_operational n : mandatory_in (fst (init d)) n -> mn_state (net_mn s) <> NmtOperational.
Proof.
  intros Hm Ho. destruct (started_inv d m cns s Hn Hr) as [[_ _ I3 _ _ _ _] _ _ _].
  specialize (I3 Ho). rewrite Forall_forall in I3. by apply (I3 n), mandatory_listed.
Qed.
Lemma never_ready n : mandatory_in (fst (init d)) n -> n ∈ isochronous_nodes m ->
  mn_state (net_mn s) <> NmtReadyToOperate.
Proof.
  intros Hm Hi Ho. destruct (started_inv d m cns s Hn Hr) as [[_ _ _ I4 _ _ _] Hc _ _].
  pose proof (calm_ready _ _ _ _ Hc (or_introl Ho)) as Hf. rewrite I4, Forall_forall in Hf.
  pose proof (start_lists _ _ _ Hn) as Hl. rewrite Forall_forall in Hl. by apply (Hl n Hi), Hf, mandatory_listed.
Qed.
Lemma cns_before_operation : Forall (fun c => before_operation (cn_state c)) (net_cns s).
Proof.
  destruct (started_inv d m cns s Hn Hr) as [_ _ He _]. pose proof (start_cns _ _ _ Hn) as Hs.
  apply Forall_lookup. intros k c Hk. destruct (Forall2_lookup_r _ _ _ _ _ He Hk) as (c0&Hk0&[_ (es&Hes&E) _ _ _]).
  rewrite Forall_lookup in Hs. destruct (Hs _ _ Hk0) as (d0&mac0&cap&Hc0).
  destruct (cn_new_state d0 mac0 cap c0 Hc0) as (Hst&_). rewrite E, Hst. by apply cn_steps_before.
Qed.
End Never.

(** Node 5 and a managing node for which it is mandatory: they meet, and the managing node goes on. *)
Definition demo_calls : list (option nat * option nat * Z) :=
  [(None, None, 0); (None, None, 2000000); (None, None, 2100000); (None, None, 2100001);
   (Some 0%nat, Some 1%nat, 2100002); (None, Some 2%nat, 2100003); (None, None, 2200000);
   (Some 0%nat, Some 3%nat, 2200001)].
Lemma demo_assignment : manager_not_polled (fst (init demo_mn_od)).
Proof.
  intros vs E. assert (read_object (fst (init demo_mn_od)) 0x1F81 = Some (Obj_Array
    [OV_Unsigned32 0; OV_Unsigned32 0; OV_Unsigned32 0; OV_Unsigned32 0; OV_Unsigned32 9])) as H
    by (vm_compute; reflexivity).
  rewrite H in E. injection E as <-. split; [simpl; lia|]. intros a Ha. discriminate Ha.
Qed.
Lemma demo_net_runs : exists (m : MnContext MemStorage (list AsyncRequest)) (c : CnContext MemStorage) s,
  net_start demo_mn_od m [c] /\ isochronous_nodes m = [5] /\ net_calls demo_calls (mkNet m [c] []) = Some s /\
  mn_state (net_mn s) = NmtPreOperational2 /\ MnState.cn_state <$> (node_info (net_mn s) !! 5) = Some CnIdentified /\
  length (net_wire s) = 4%nat.
Proof.
  assert (match mn_new (Q := list AsyncRequest) demo_mn_od demo_mac None, cn_new (demo_cn_od 5) demo_mac 10 with
    | Ok m, Ok c =>
        option_map (fun s => (mn_state (net_mn s), MnState.cn_state <$> (node_info (net_mn s) !! 5),
                              isochronous_nodes m, async_only_nodes m, length (net_wire s))) (net_calls demo_calls (mkNet m [c] []))
    | _, _ => None end = Some (NmtPreOperational2, Some CnIdentified, [5], [], 4%nat)) as H by (vm_compute; reflexivity).
  destruct (mn_new (Q := list AsyncRequest) demo_mn_od demo_mac None) as [m|] eqn:Em; [|discriminate H].
  destruct (cn_new (demo_cn_od 5) demo_mac 10) as [c|] eqn:Ec; [|discriminate H].
  destruct (net_calls demo_calls (mkNet m [c] [])) as [s|] eqn:Es; [|discriminate H].
  cbn [option_map] in H. injection H as H1 H2 H3 H4 H5. exists m, c, s.
  split; [|split; [exact H3|split; [exact Es|split; [exact H1|split; [exact H2|exact H5]]]]]. split.
  - exists demo_mac, None. exact Em.
  - constructor; [|constructor]. exists (demo_cn_od 5), demo_mac, 10. exact Ec.
  - exact demo_assignment.
Qed.
Lemma demo_mandatory : mandatory_in (fst (init demo_mn_od)) 5.
Proof.
  destruct (read_object (fst (init demo_mn_od)) 0x1F81) as [[|vs|]|] eqn:E;
    try (vm_compute in E; discriminate E).
  exists vs, 4%nat, 9. split; [done|]. vm_compute in E. injection E as <-. split_and!; reflexivity.
Qed.

(** ** Properties *)

(** C6: What the managing node knows of a network is true.  In every state that a network of a
    new managing node and new controlled nodes reaches, whatever the order in which their
    [run_cycle] is called, whatever frames are lost, delayed, repeated or reordered on the way,
    whatever other octets, datagrams and times the nodes are given and whatever the applications ask for
    ([net_start]: object 0x1F81 of the managing node, once initialised, has at most 255 entries and does not
    assign number 240, its own, to the isochronous phase; that is, bit 8 is set if number 240 is assigned): a
    node that the managing node records as identified, pre-operational, operational or stopped
    is in the network (or bears the number of the managing node itself), and when the managing node is
    in NMT_MS_PRE_OPERATIONAL_2 or beyond, so is every node that object 0x1F81 assigns as mandatory. *)
Theorem network_knowledge_sound {S Q S'} `{ST : ObjectDictionaryStorage S} `{QH : RequestHeap Q}
    `{ST' : ObjectDictionaryStorage S'} d (m : MnContext S Q) (cns : list (CnContext S')) s :
  net_start d m cns -> rtc net_step (mkNet m cns []) s ->
  (forall n i, node_info (net_mn s) !! n = Some i -> heard_state (MnState.cn_state i) = true -> member m cns n) /\
  (started_state (mn_state (net_mn s)) = true -> forall n, mandatory_in (fst (init d)) n -> member m cns n).
Proof.
  intros Hn Hr. destruct (started_inv d m cns s Hn Hr) as [[I1 I2 _ _ _ _ _] _ _ _].
  destruct (start_mn _ _ _ Hn) as (mac&cfg&Hm). destruct (new_inv d mac cfg m Hm) as [_ HL]. split.
  - intros n i Hi. apply (I1 n i Hi).
  - intros Hs n Hm'. apply HL in Hm'. specialize (I2 Hs). rewrite Forall_forall in I2. by apply I2.
Qed.

Lemma network_knowledge_sound_witness :
  exists (m : MnContext MemStorage (list AsyncRequest)) (c : CnContext MemStorage) s,
  net_start demo_mn_od m [c] /\ rtc net_step (mkNet m [c] []) s /\ mn_state (net_mn s) = NmtPreOperational2 /\
  (forall n i, node_info (net_mn s) !! n = Some i -> heard_state (MnState.cn_state i) = true -> member m [c] n) /\
  member m [c] 5.
Proof.
  destruct demo_net_runs as (m&c&s&Hn&_&Hs&Hst&_). exists m, c, s. apply net_calls_steps in Hs.
  destruct (network_knowledge_sound demo_mn_od m [c] s Hn Hs) as [H1 H2].
  split; [exact Hn|]. split; [exact Hs|]. split; [exact Hst|]. split; [exact H1|].
  apply H2; [by rewrite Hst|apply demo_mandatory].
Defined.

(** C5: A network of these nodes never starts.  In every state that a network of a new managing
    node and new controlled nodes reaches, whatever the order of the calls and whatever is lost, delayed,
    repeated or reordered on the way, no PReq and no PRes was ever sent: the managing node polls a node
    only when it knows it to be pre-operational, and of a node that is polled it learns that only from its
    PRes.  This is stated for a managing node whose object 0x1F81, once initialised, has at most 255 entries
    and does not assign number 240, its own, to the isochronous phase ([net_start]; an assignment of 240
    has bit 8 set).  So with a mandatory node on its list the managing node is never in NMT_MS_OPERATIONAL;
    with one that is to be polled in the isochronous phase it does not even reach NMT_MS_READY_TO_OPERATE;
    and no controlled node is ever ready to operate or operational. *)
Theorem network_never_starts {S Q S'} `{ST : ObjectDictionaryStorage S} `{QH : RequestHeap Q}
    `{ST' : ObjectDictionaryStorage S'} d (m : MnContext S Q) (cns : list (CnContext S')) s :
  net_start d m cns -> rtc net_step (mkNet m cns []) s ->
  (forall b f, b ∈ net_wire s -> deserialize_frame b = Ok f ->
     match f with PF_PReq _ | PF_PRes _ => False | _ => True end) /\
  (forall n, mandatory_in (fst (init d)) n -> mn_state (net_mn s) <> NmtOperational) /\
  (forall n, mandatory_in (fst (init d)) n -> n ∈ isochronous_nodes m -> mn_state (net_mn s) <> NmtReadyToOperate) /\
  Forall (fun c => before_operation (cn_state c)) (net_cns s).
Proof.
  intros Hn Hr. split_and!.
  - by apply (nobody_polled d m cns).
  - by apply (never_operational d m cns).
  - by apply (never_ready d m cns).
  - by apply (cns_before_operation d m cns).
Qed.

Lemma network_never_starts_witness :
  exists (m : MnContext MemStorage (list AsyncRequest)) (c : CnContext MemStorage) s,
  net_start demo_mn_od m [c] /\ rtc net_step (mkNet m [c] []) s /\ net_wire s <> [] /\
  mn_state (net_mn s) <> NmtOperational /\ mn_state (net_mn s) <> NmtReadyToOperate /\
  Forall (fun c => before_operation (cn_state c)) (net_cns s).
Proof.
  destruct demo_net_runs as (m&c&s&Hn&Hi&Hs&_&_&Hw). exists m, c, s. split; [exact Hn|].
  apply net_calls_steps in Hs.
  destruct (network_never_starts demo_mn_od m [c] s Hn Hs) as (_&H2&H3&H4).
  split; [exact Hs|]. split; [intros E; rewrite E in Hw; discriminate|]. split; [exact (H2 5 demo_mandatory)|]. split; [|exact H4].
  apply (H3 5 demo_mandatory). rewrite Hi. by left.
Defined.
