(* ===== verification/Simulator.v ===== *)
(** * The repository's own network test

    The virtual network of [src/crates/powerlink-rs/tests/simulator] and the boot-up test
    [src/crates/powerlink-rs/tests/boot_up_test.rs], over the trait [Node] of [node/mod.rs]: a
    program that couples both nodes, run here as it is and shown to be a run of the network of
    [NetworkSystem]. *)
From stdpp Require Import relations.
From S2P Require Import Prelude Utf8 Types Platform Frames Dll ErrorEntry ObjectDict OdPredefined StatusFrames Nmt.
From S2P Require Import SdoCodec SdoServer SdoEmbedded SdoClient Node MnState MnScheduler MnPayload MnNode MnBoot.
From S2P Require Import MnQuiet CnPayload CnNode NetworkSystem.

(** ** The trait [Node] ([node/mod.rs]) *)
Class NodeTrait (N : Type) : Type := {
  node_run_cycle : option bytes -> option (bytes * bytes * Z) -> Z -> N -> option (N * NodeAction);
  node_nmt_state : N -> NmtState;
  node_next_action_time : N -> option Z
}.
#[export] Instance ControlledNode {S} `{ObjectDictionaryStorage S} : NodeTrait (CnContext S) :=
  { node_run_cycle := cn_run_cycle; node_nmt_state := cn_state; node_next_action_time := cn_next_action_time }.
#[export] Instance ManagingNode {S Q} `{ObjectDictionaryStorage S} `{RequestHeap Q} : NodeTrait (MnContext S Q) :=
  { node_run_cycle eth udp t m := mn_run_cycle m eth udp t; node_nmt_state := mn_state;
    node_next_action_time := mn_next_action_time }.

(** ** The interface ([interface.rs]) *)
Record SimulatedInterface : Type := mkSim {
  sim_node_id : Z; sim_mac : bytes; rx_queue : list bytes; tx_queue : list bytes }.
Definition SimulatedInterface_new (node_id : Z) (mac : bytes) : SimulatedInterface := mkSim node_id mac [] [].
Definition push_rx (i : SimulatedInterface) (frame : bytes) : SimulatedInterface :=
  mkSim (sim_node_id i) (sim_mac i) (rx_queue i ++ [frame]) (tx_queue i).
Definition take_tx_frames (i : SimulatedInterface) : SimulatedInterface * list bytes :=
  (mkSim (sim_node_id i) (sim_mac i) (rx_queue i) [], tx_queue i).

Definition sim_send_frame (i : SimulatedInterface) (frame : bytes) : SimulatedInterface * res unit :=
  (mkSim (sim_node_id i) (sim_mac i) (rx_queue i) (tx_queue i ++ [frame]), Ok tt).
Definition sim_receive_frame (i : SimulatedInterface) (buffer : bytes) : SimulatedInterface * bytes * res Z :=
  match rx_queue i with
  | frame :: rest =>
      let i := mkSim (sim_node_id i) (sim_mac i) rest (tx_queue i) in
      if (length buffer <? length frame)%nat then (i, buffer, Err BufferTooShort)
      else (i, put buffer 0 frame, Ok (len frame))
  | [] => (i, buffer, Ok 0)
  end.

#[export] Instance Simulated_interface : NetworkInterface SimulatedInterface :=
  { send_frame := sim_send_frame; receive_frame := sim_receive_frame;
    local_node_id := sim_node_id; local_mac_address := sim_mac;
    send_udp i _ _ _ := (i, Ok tt); receive_udp i buffer := (i, buffer, Ok None);
    local_ip_address i := [192; 168; 100; sim_node_id i] }.
#[export] Instance Simulated_laws : InterfaceLaws SimulatedInterface.
Proof.
  split.
  - intros i buf i' buf' r. cbn [receive_frame Simulated_interface]. unfold sim_receive_frame.
    destruct (rx_queue i) as [|frame rest].
    { intros [= <- <- <-]. split; [done|]. intros n [= <-]. unfold len. lia. }
    cbv zeta. destruct (Nat.ltb_spec (length buf) (length frame)); intros [= <- <- <-]; [done|].
    split; [|intros n [= <-]; unfold len; lia]. rewrite put_0, length_app, length_drop. lia.
  - intros i buf i' buf' r [= <- <- <-]. done.
Qed.

(** ** The network ([simulator/mod.rs]) *)
Record Packet : Type := mkPacket { pk_data : bytes; pk_src_node_id : Z; pk_transmit_time_us : Z }.
Record VirtualNetwork : Type := mkVirtual {
  vn_current_time_us : Z; inboxes : gmap Z (list Packet); packet_history : list Packet }.

Definition VirtualNetwork_new : VirtualNetwork := mkVirtual 0 ∅ [].
Definition vn_tick (v : VirtualNetwork) (duration_us : Z) : VirtualNetwork :=
  mkVirtual (u64 (vn_current_time_us v + duration_us)) (inboxes v) (packet_history v).
Definition inbox (v : VirtualNetwork) (node_id : Z) : list Packet := unwrap_or (inboxes v !! node_id) [].
Definition with_inbox (v : VirtualNetwork) (node_id : Z) (q : list Packet) : VirtualNetwork :=
  mkVirtual (vn_current_time_us v) (<[node_id := q]> (inboxes v)) (packet_history v).
Definition transmit (v : VirtualNetwork) (packet : Packet) (dest_node_id : option Z) : VirtualNetwork :=
  let v := mkVirtual (vn_current_time_us v) (inboxes v) (packet_history v ++ [packet]) in
  match dest_node_id with
  | Some dest => with_inbox v dest (inbox v dest ++ [packet])
  | None => mkVirtual (vn_current_time_us v) ((fun q => q ++ [packet]) <$> inboxes v) (packet_history v)
  end.
Definition vn_receive (v : VirtualNetwork) (node_id : Z) : VirtualNetwork * option Packet :=
  match inbox v node_id with
  | p :: q => (with_inbox v node_id q, Some p)
  | [] => (with_inbox v node_id [], None)
  end.
Definition register_node (v : VirtualNetwork) (node_id : Z) : VirtualNetwork :=
  with_inbox v node_id (inbox v node_id).

(** ** A node and its interface *)
Record NodeHarness (N : Type) : Type := mkHarness {
  h_node : N; h_interface : SimulatedInterface; h_node_id : Z }.
Arguments mkHarness {N}.
Arguments h_node {N} n.
Arguments h_interface {N} n.
Arguments h_node_id {N} n.

(** The loop that empties the inbox, on fuel; one step more than there are packets is enough
    ([drain_empties]). *)
Fixpoint drain (fuel : nat) (node_id : Z) (v : VirtualNetwork) (i : SimulatedInterface)
    : VirtualNetwork * SimulatedInterface :=
  match fuel with
  | O => (v, i)
  | Datatypes.S fuel =>
      match vn_receive v node_id with
      | (v, Some packet) => drain fuel node_id v (push_rx i (pk_data packet))
      | (v, None) => (v, i)
      end
  end.
Definition take_inbox (node_id : Z) (v : VirtualNetwork) (i : SimulatedInterface)
    : VirtualNetwork * SimulatedInterface :=
  drain (Datatypes.S (length (inbox v node_id))) node_id v i.

Definition broadcast (node_id : Z) (v : VirtualNetwork) (tx_frames : list bytes) : VirtualNetwork :=
  foldl (fun v data => transmit v (mkPacket data node_id (vn_current_time_us v)) None) v tx_frames.

Definition RX_BUFFER : bytes := replicate 1518 0.
Definition harness_run_cycle {N} `{NodeTrait N} (h : NodeHarness N) (v : VirtualNetwork)
    : option (NodeHarness N * VirtualNetwork) :=
  let '(v, i) := take_inbox (h_node_id h) v (h_interface h) in
  let '(i, rx_buffer, r) := receive_frame i RX_BUFFER in
  let rx_len := match r with Ok n => n | Err _ => 0 end in
  let frame := if 0 <? rx_len then Some (take (Z.to_nat rx_len) rx_buffer) else None in
  let! (node, action) := node_run_cycle frame None (vn_current_time_us v) (h_node h) in
  match action with
  | SendFrame frame =>
      match send_frame i frame with
      | (i, Ok _) =>
          let '(i, tx_frames) := take_tx_frames i in
          Some (mkHarness node i (h_node_id h), broadcast (h_node_id h) v tx_frames)
      | (_, Err _) => None
      end
  | _ => Some (mkHarness node i (h_node_id h), v)
  end.

(** ** The boot-up test ([boot_up_test.rs]) *)
Inductive MockStorage : Type := mkMock.
#[export] Instance Mock_storage : ObjectDictionaryStorage MockStorage := {
  load s := (s, Ok ∅); save s _ := (s, Ok tt); clear s := (s, Ok tt);
  restore_defaults_requested _ := false; request_restore_defaults s := (s, Ok tt);
  clear_restore_defaults_flag s := (s, Ok tt)
}.

Definition default_object_entry (value : ObjectValue) : ObjectEntry :=
  mkObjectEntry (Obj_Variable value) "TestObject" Cat_Optional None None None None.

(** [capacity]: that of the emergency queue, which [with_capacity] leaves open; an [Err] is a panic
    of the test. *)
Definition create_cn (capacity : Z) (node_id : NodeId) : res (NodeHarness (CnContext MockStorage)) :=
  let mac := [0x02; 0x00; 0x00; 0x00; 0x00; node_id] in
  let? d := new_cn_default node_id in
  let d := insert_entry d 0x1000 (default_object_entry (OV_Unsigned32 0x12345678)) in
  let? node := cn_new d mac capacity in
  Ok (mkHarness node (SimulatedInterface_new node_id mac) node_id).

Definition test_mn_od : res (ObjectDictionary MockStorage) :=
  let? d := new_mn_default 240 in
  let '(d, r) := write d 0x1F81 1 (OV_Unsigned32 0xB) in
  let? _ := r in
  let '(d, r) := write d 0x1F84 1 (OV_Unsigned32 0) in
  let? _ := r in Ok d.
Definition create_mn {Q} `{RequestHeap Q} : res (NodeHarness (MnContext MockStorage Q)) :=
  let mac := [0x02; 0x00; 0x00; 0x00; 0x00; 0xF0] in
  let? d := test_mn_od in
  let? node := mn_new d mac None in
  Ok (mkHarness node (SimulatedInterface_new 240 mac) 240).

Record BootTest (S Q S' : Type) : Type := mkTest {
  bt_network : VirtualNetwork;
  bt_mn : NodeHarness (MnContext S Q);
  bt_cn : NodeHarness (CnContext S');
  mn_reached_operational : bool;
  cn_reached_operational : bool
}.
Arguments mkTest {S Q S'}.
Arguments bt_network {S Q S'} b.
Arguments bt_mn {S Q S'} b.
Arguments bt_cn {S Q S'} b.
Arguments mn_reached_operational {S Q S'} b.
Arguments cn_reached_operational {S Q S'} b.

Section Test.
Context {S Q S' : Type} `{ST : ObjectDictionaryStorage S} `{QH : RequestHeap Q} `{ST' : ObjectDictionaryStorage S'}.

(** The body of the loop up to the check of both flags. *)
Definition test_round (b : BootTest S Q S') : option (BootTest S Q S') :=
  let! (mn, v) := harness_run_cycle (bt_mn b) (bt_network b) in
  let! (cn, v) := harness_run_cycle (bt_cn b) v in
  Some (mkTest v mn cn
    (mn_reached_operational b || bool_decide (node_nmt_state (h_node mn) = NmtOperational))
    (cn_reached_operational b || bool_decide (node_nmt_state (h_node cn) = NmtOperational))).

(** The loop, on fuel: [false] when the fuel ran out. *)
Fixpoint test_loop (fuel : nat) (dt max_time : Z) (b : BootTest S Q S') : option (BootTest S Q S' * bool) :=
  if negb (vn_current_time_us (bt_network b) <? max_time) then Some (b, true) else
  match fuel with
  | O => Some (b, false)
  | Datatypes.S fuel =>
      let! b := test_round b in
      if mn_reached_operational b && cn_reached_operational b then Some (b, true)
      else test_loop fuel dt max_time
             (mkTest (vn_tick (bt_network b) dt) (bt_mn b) (bt_cn b) (mn_reached_operational b)
                (cn_reached_operational b))
  end.
End Test.

(** The test up to its assertions, which are on the flags. *)
Definition test_boot_up_sequence {Q} `{RequestHeap Q} (capacity : Z) (fuel : nat)
    : option (BootTest MockStorage Q MockStorage * bool) :=
  let network := register_node (register_node VirtualNetwork_new 1) 240 in
  match create_cn capacity 1, create_mn with
  | Ok cn, Ok mn => test_loop fuel 1000 5000000 (mkTest network mn cn false false)
  | _, _ => None
  end.
Definition TEST_FUEL : nat := 5000.

(** ** Every packet was sent *)

(** [wire]: the octets sent so far. *)
Definition carries (wire : list bytes) (v : VirtualNetwork) : Prop :=
  pk_data <$> packet_history v = wire /\
  forall n q, inboxes v !! n = Some q -> Forall (fun p => pk_data p ∈ wire) q.
Definition holds (wire : list bytes) (i : SimulatedInterface) : Prop :=
  Forall (fun frame => frame ∈ wire) (rx_queue i) /\ tx_queue i = [].

Lemma carries_inbox wire v n : carries wire v -> Forall (fun p => pk_data p ∈ wire) (inbox v n).
Proof.
  intros [_ Hi]. unfold inbox. destruct (inboxes v !! n) as [q|] eqn:E; [by eapply Hi|by constructor].
Qed.
Lemma carries_with wire v n q : carries wire v -> Forall (fun p => pk_data p ∈ wire) q ->
  carries wire (with_inbox v n q).
Proof.
  intros [Hh Hi] Hq. split; [done|]. intros k q'. cbn [inboxes with_inbox].
  rewrite lookup_insert_Some. intros [[_ <-]|[_ Hk]]; [done|by eapply Hi].
Qed.

(** The queue of a node, handed over. *)
Lemma inbox_with v n q : inbox (with_inbox v n q) n = q.
Proof. unfold inbox. cbn [inboxes with_inbox]. by rewrite lookup_insert_eq. Qed.
Lemma drain_empties n fuel : forall v i, (length (inbox v n) < fuel)%nat ->
  inbox (fst (drain fuel n v i)) n = [] /\
  rx_queue (snd (drain fuel n v i)) = rx_queue i ++ (pk_data <$> inbox v n).
Proof.
  induction fuel as [|fuel IH]; intros v i Hf; [lia|]. cbn [drain]. unfold vn_receive.
  destruct (inbox v n) as [|p q] eqn:E; cbn [fst snd].
  - by rewrite inbox_with, app_nil_r.
  - destruct (IH (with_inbox v n q) (push_rx i (pk_data p))) as [H1 H2].
    { rewrite inbox_with. simpl in Hf. lia. }
    split; [exact H1|]. rewrite H2, inbox_with. cbn [rx_queue push_rx fmap list_fmap]. by rewrite <- app_assoc.
Qed.
Lemma drain_ok wire n fuel : forall v i v' i', carries wire v -> holds wire i -> drain fuel n v i = (v', i') ->
  carries wire v' /\ holds wire i' /\ vn_current_time_us v' = vn_current_time_us v.
Proof.
  induction fuel as [|fuel IH]; intros v i v' i' Hv Hi; cbn [drain]; [by intros [= <- <-]|].
  unfold vn_receive. pose proof (carries_inbox wire v n Hv) as Hq.
  destruct (inbox v n) as [|p q] eqn:E.
  - intros [= <- <-]. split; [by apply carries_with|]. by split.
  - inversion_clear Hq as [|? ? Hp Hq']. intros Hd. apply IH in Hd; [exact Hd|by apply carries_with|].
    destruct Hi as [Hr Ht]. split; [|done]. apply Forall_app. split; [done|by constructor].
Qed.

Lemma carries_more wire x v : carries wire v -> forall n q, inboxes v !! n = Some q ->
  Forall (fun p => pk_data p ∈ wire ++ x) q.
Proof.
  intros [_ Hi] n q Hq. eapply Forall_impl; [by eapply Hi|]. intros p Hp. apply elem_of_app. by left.
Qed.
Lemma carries_broadcast wire n b v : carries wire v -> carries (wire ++ [b]) (broadcast n v [b]).
Proof.
  intros Hv. cbn [broadcast foldl transmit]. split.
  - cbn [packet_history]. rewrite fmap_app. by rewrite (proj1 Hv).
  - intros k q. cbn [inboxes]. rewrite lookup_fmap_Some. intros (q0&<-&Hq0). apply Forall_app. split.
    + by eapply carries_more.
    + constructor; [|constructor]. apply elem_of_app. right. by left.
Qed.
Lemma holds_more wire x i : holds wire i -> holds (wire ++ x) i.
Proof.
  intros [Hr Ht]. split; [|done]. eapply Forall_impl; [exact Hr|]. intros f Hf. apply elem_of_app. by left.
Qed.

(** The frame a node is given. *)
Lemma received_ok wire i i' buf r : holds wire i -> receive_frame i RX_BUFFER = (i', buf, r) ->
  holds wire i' /\
  may_hear wire (let n := match r with Ok n => n | Err _ => 0 end in
                 if 0 <? n then Some (take (Z.to_nat n) buf) else None).
Proof.
  intros [Hr Ht]. cbn [receive_frame Simulated_interface]. unfold sim_receive_frame.
  destruct (rx_queue i) as [|frame rest] eqn:E; [intros [= <- <- <-]; split; [|done]; split; [by rewrite E|done]|].
  inversion_clear Hr as [|? ? Hf Hr']. cbv zeta. destruct (Nat.ltb_spec (length RX_BUFFER) (length frame)) as [_|_].
  - intros [= <- <- <-]. by split; [split|].
  - intros [= <- <- <-]. split; [by split|]. cbv zeta. destruct (0 <? len frame); [|done]. left.
    unfold len. rewrite Nat2Z.id, put_0. by rewrite take_app_length.
Qed.

(** ** A round is a run of the network *)

(** What [run_cycle] of a harness is: one call of its node, with a frame that was sent or none;
    what the node sends is broadcast. *)
Lemma harness_step {N} `{NodeTrait N} wire (h h' : NodeHarness N) v v' :
  carries wire v -> holds wire (h_interface h) -> harness_run_cycle h v = Some (h', v') ->
  exists eth a, may_hear wire eth /\ node_run_cycle eth None (vn_current_time_us v) (h_node h) = Some (h_node h', a) /\
    carries (wire ++ sent a) v' /\ holds (wire ++ sent a) (h_interface h') /\
    vn_current_time_us v' = vn_current_time_us v.
Proof.
  intros Hv Hi. unfold harness_run_cycle, take_inbox. destruct (drain _ _ v _) as [v1 i1] eqn:Ed.
  destruct (drain_ok _ _ _ _ _ _ _ Hv Hi Ed) as (Hv1&Hi1&Et).
  destruct (receive_frame i1 RX_BUFFER) as [[i2 buf] r] eqn:Er.
  destruct (received_ok _ _ _ _ _ Hi1 Er) as [Hi2 Hh]. cbv zeta in Hh. cbv zeta. revert Hh.
  match goal with |- may_hear wire ?e -> _ => generalize e end. intros eth Hh.
  rewrite <- Et. destruct (node_run_cycle eth None (vn_current_time_us v1) (h_node h)) as [[node a]|] eqn:En; [|done].
  intros Hc. exists eth, a. split; [done|]. destruct a as [b|x y z|]; cbn [sent];
    try (injection Hc as <- <-; rewrite app_nil_r; by split_and!).
  destruct Hi2 as [Hr Ht]. cbn in Hc. rewrite Ht in Hc. cbn [app] in Hc. injection Hc as <- <-. split; [done|].
  split; [by apply carries_broadcast|]. split; [|by cbn].
  apply holds_more. by split.
Qed.

Section Refinement.
Context {S Q S' : Type} `{ST : ObjectDictionaryStorage S} `{QH : RequestHeap Q} `{ST' : ObjectDictionaryStorage S'}.
Implicit Types b : BootTest S Q S'.

(** The network that a state of the test stands for. *)
Definition net_of b : Net S Q S' :=
  mkNet (h_node (bt_mn b)) [h_node (bt_cn b)] (pk_data <$> packet_history (bt_network b)).
Definition test_ok b : Prop :=
  let wire := pk_data <$> packet_history (bt_network b) in
  carries wire (bt_network b) /\ holds wire (h_interface (bt_mn b)) /\ holds wire (h_interface (bt_cn b)).

Lemma round_steps b b' : test_ok b -> test_round b = Some b' ->
  test_ok b' /\ rtc net_step (net_of b) (net_of b') /\
  vn_current_time_us (bt_network b') = vn_current_time_us (bt_network b).
Proof.
  intros (Hv&Hm&Hc). unfold test_round.
  destruct (harness_run_cycle (bt_mn b) (bt_network b)) as [[mn v1]|] eqn:E1; [|done].
  destruct (harness_step _ _ _ _ _ Hv Hm E1) as (e1&a1&Hh1&Hr1&Hv1&Hm1&Et1).
  destruct (harness_run_cycle (bt_cn b) v1) as [[cn v2]|] eqn:E2; [|done].
  destruct (harness_step _ _ _ _ _ Hv1 (holds_more _ _ _ Hc) E2) as (e2&a2&Hh2&Hr2&Hv2&Hc2&Et2).
  intros [= <-]. unfold test_ok, net_of. cbn [bt_network bt_mn bt_cn].
  rewrite (proj1 Hv2). split; [split; [done|]; split; [by apply holds_more|done]|].
  split; [|by rewrite Et2].
  eapply rtc_l; [exact (Step_Mn (net_of b) (Mn_Cycle e1 None (vn_current_time_us (bt_network b))) _ _ Hh1 Hr1)|].
  eapply rtc_l; [|apply rtc_refl].
  refine (Step_Cn (mkNet (h_node mn) [h_node (bt_cn b)] _) 0 (h_node (bt_cn b)) (Cn_Cycle e2 None (vn_current_time_us v1))
    (h_node cn) a2 eq_refl Hh2 Hr2).
Qed.

Lemma loop_steps dt max_time fuel : forall b b' x, test_ok b -> test_loop fuel dt max_time b = Some (b', x) ->
  rtc net_step (net_of b) (net_of b').
Proof.
  induction fuel as [|fuel IH]; intros b b' x Hb; cbn [test_loop]; destruct (negb _); try (by intros [= <- _]).
  destruct (test_round b) as [b1|] eqn:E1; [|done]. destruct (round_steps b b1 Hb E1) as (H1&Hs&_).
  destruct (_ && _); [by intros [= <- _]|]. intros Hl. etransitivity; [exact Hs|].
  refine (IH _ _ _ _ Hl). exact H1.
Qed.

(** A step of the time for each round: the fuel is enough. *)
Lemma loop_ends dt max_time fuel : forall b b' x, 0 < dt -> max_time + dt < 2 ^ 64 -> test_ok b ->
  0 <= vn_current_time_us (bt_network b) -> max_time <= vn_current_time_us (bt_network b) + Z.of_nat fuel * dt ->
  test_loop fuel dt max_time b = Some (b', x) -> x = true.
Proof.
  induction fuel as [|fuel IH]; intros b b' x Hdt Hmax Hb H0 Hf; cbn [test_loop];
    destruct (Z.ltb_spec (vn_current_time_us (bt_network b)) max_time) as [Hlt|]; cbn [negb]; try (by intros [= _ <-]).
  { exfalso. lia. }
  destruct (test_round b) as [b1|] eqn:E1; [|done]. destruct (round_steps b b1 Hb E1) as (H1&_&Et).
  destruct (_ && _); [by intros [= _ <-]|].
  assert (Ht : u64 (vn_current_time_us (bt_network b1) + dt) = vn_current_time_us (bt_network b) + dt).
  { rewrite Et. unfold u64, wrap. apply Z.mod_small. lia. }
  apply IH; try done; cbn [bt_network vn_tick vn_current_time_us]; rewrite Ht; lia.
Qed.

(** The flags, when no node is ever operational. *)
Lemma loop_flags dt max_time d m c fuel : forall b b' x, net_start d m [c] ->
  (exists n, mandatory_in (fst (init d)) n) -> rtc net_step (mkNet m [c] []) (net_of b) -> test_ok b ->
  mn_reached_operational b = false -> cn_reached_operational b = false ->
  test_loop fuel dt max_time b = Some (b', x) ->
  mn_reached_operational b' = false /\ cn_reached_operational b' = false.
Proof.
  induction fuel as [|fuel IH]; intros b b' x Hn [n Hm] Hr Hb H1 H2; cbn [test_loop];
    destruct (negb _); try (by intros [= <- _]).
  destruct (test_round b) as [b1|] eqn:E1; [|done]. destruct (round_steps b b1 Hb E1) as (Hb1&Hs&_).
  assert (Hr1 : rtc net_step (mkNet m [c] []) (net_of b1)) by (by etransitivity).
  assert (Hf : mn_reached_operational b1 = false /\ cn_reached_operational b1 = false).
  { pose proof (never_operational d m [c] _ Hn Hr1 n Hm) as Ho.
    pose proof (cns_before_operation d m [c] _ Hn Hr1) as Hc. inversion_clear Hc as [|? ? [_ Hc'] _].
    revert E1 Ho Hc'. unfold test_round. destruct (harness_run_cycle _ _) as [[mn v1]|]; [|done].
    destruct (harness_run_cycle _ v1) as [[cn v2]|]; [|done]. intros [= <-] Ho Hc'.
    cbn [mn_reached_operational cn_reached_operational]. rewrite H1, H2. split; by apply bool_decide_eq_false_2. }
  destruct Hf as [F1 F2]. rewrite F1. cbn [andb]. apply IH; try done. by exists n.
Qed.
End Refinement.

(** ** The nodes of the test *)
Lemma registered_carries ids : carries [] (foldl register_node VirtualNetwork_new ids).
Proof.
  assert (H : forall v, carries [] v -> carries [] (foldl register_node v ids)).
  { induction ids as [|n ids IH]; intros v Hv; [done|]. cbn [foldl]. apply IH, carries_with; [done|].
    by apply carries_inbox. }
  apply H. split; [done|]. intros n q. cbn [inboxes VirtualNetwork_new]. by rewrite lookup_empty.
Qed.
Lemma fresh_test_ok {S Q S'} `{ST : ObjectDictionaryStorage S} `{QH : RequestHeap Q} `{ST' : ObjectDictionaryStorage S'}
    ids (m : MnContext S Q) (c : CnContext S') n mac k mac' :
  test_ok (mkTest (foldl register_node VirtualNetwork_new ids) (mkHarness m (SimulatedInterface_new n mac) n)
    (mkHarness c (SimulatedInterface_new k mac') k) false false).
Proof.
  pose proof (registered_carries ids) as Hv. pose proof (proj1 Hv) as Hw. unfold test_ok. cbn [bt_network].
  rewrite Hw. split; [exact Hv|]. split; by split.
Qed.
Lemma registered_time ids : vn_current_time_us (foldl register_node VirtualNetwork_new ids) = 0.
Proof.
  change 0 with (vn_current_time_us VirtualNetwork_new). generalize VirtualNetwork_new as v.
  induction ids as [|n ids IH]; intros v; [done|]. cbn [foldl]. by rewrite IH.
Qed.

Lemma create_cn_new capacity n h : create_cn capacity n = Ok h ->
  h = mkHarness (h_node h) (SimulatedInterface_new n [2; 0; 0; 0; 0; n]) n /\
  exists d mac cap, cn_new d mac cap = Ok (h_node h).
Proof.
  unfold create_cn. destruct (new_cn_default n) as [d|]; [|done]. cbv zeta.
  destruct (cn_new _ _ capacity) as [c|] eqn:E; [|done]. intros [= <-]. split; [done|]. by eexists _, _, _.
Qed.
Lemma create_mn_new {Q} `{RequestHeap Q} (h : NodeHarness (MnContext MockStorage Q)) : create_mn = Ok h ->
  h = mkHarness (h_node h) (SimulatedInterface_new 240 [2; 0; 0; 0; 0; 240]) 240 /\
  exists d, test_mn_od = Ok d /\ mn_new d [2; 0; 0; 0; 0; 240] None = Ok (h_node h).
Proof.
  unfold create_mn. destruct test_mn_od as [d|]; [|done]. cbv zeta.
  destruct (mn_new d _ None) as [m|] eqn:E; [|done]. intros [= <-]. split; [done|]. by exists d.
Qed.
Lemma test_mandatory d : test_mn_od = Ok d -> mandatory_in (fst (init d)) 1.
Proof.
  intros E. assert (match test_mn_od with
    | Ok d => match read_object (fst (init d)) 0x1F81 with
              | Some (Obj_Array vs) => vs !! 0%nat = Some (OV_Unsigned32 0xB)
              | _ => False
              end
    | Err _ => False end) as H by (vm_compute; reflexivity).
  rewrite E in H. clear E. destruct (read_object (fst (init d)) 0x1F81) as [[|vs|]|] eqn:Er; try done.
  exists vs, 0%nat, 0xB. by split_and!.
Qed.
Lemma test_assignment d : test_mn_od = Ok d -> manager_not_polled (fst (init d)).
Proof.
  intros E vs Hvs. assert (match test_mn_od with
    | Ok d => match read_object (fst (init d)) 0x1F81 with
              | Some (Obj_Array vs) =>
                  (length vs <=? 255)%nat &&
                  match vs !! 239%nat with Some (OV_Unsigned32 a) => negb (bit a 0) || bit a 8 | _ => true end
              | _ => true
              end
    | Err _ => true end = true) as H by (vm_compute; reflexivity).
  rewrite E, Hvs in H. apply andb_true_iff in H as [Hl H]. apply Nat.leb_le in Hl. split; [exact Hl|].
  intros a Ha H0. by rewrite Ha, H0 in H.
Qed.
Lemma test_start {Q} `{RequestHeap Q} capacity mn cn :
  create_mn (Q := Q) = Ok mn -> create_cn capacity 1 = Ok cn ->
  exists d, net_start d (h_node mn) [h_node cn] /\ mandatory_in (fst (init d)) 1.
Proof.
  intros Em Ec. destruct (create_mn_new mn Em) as (_&d&Hd&Hm).
  exists d. split; [|by apply test_mandatory]. split.
  - by eexists _, _.
  - constructor; [|constructor]. apply (create_cn_new capacity 1 cn Ec).
  - by apply test_assignment.
Qed.

(** ** Properties *)

(** C7: The simulator is a network.  Whatever nodes are put in its harnesses and whichever numbers
    are registered, every state that the loop of the test reaches is reached by the network of
    these two nodes (with the packets of the history for the octets on the wire): the inboxes,
    the queues of the interfaces and the receive buffer hand a node only whole frames that were
    sent.  And the loop ends: one round for each step of the time is enough. *)
Theorem simulator_refines_network {S Q S'} `{ST : ObjectDictionaryStorage S} `{QH : RequestHeap Q}
    `{ST' : ObjectDictionaryStorage S'} (m : MnContext S Q) (c : CnContext S') ids n mac k mac' dt max_time fuel b x :
  test_loop fuel dt max_time
    (mkTest (foldl register_node VirtualNetwork_new ids) (mkHarness m (SimulatedInterface_new n mac) n)
       (mkHarness c (SimulatedInterface_new k mac') k) false false) = Some (b, x) ->
  rtc net_step (mkNet m [c] []) (net_of b) /\
  (0 < dt -> max_time + dt < 2 ^ 64 -> max_time <= Z.of_nat fuel * dt -> x = true).
Proof.
  intros Hl. pose proof (fresh_test_ok ids m c n mac k mac') as Hok. split.
  - pose proof (loop_steps _ _ _ _ _ _ Hok Hl) as Hs. unfold net_of in Hs at 1.
    cbn [bt_network bt_mn bt_cn h_node] in Hs. by rewrite (proj1 (registered_carries ids)) in Hs.
  - intros Hdt Hmax Hf. refine (loop_ends _ _ _ _ _ _ Hdt Hmax Hok _ _ Hl);
      cbn [bt_network]; rewrite registered_time; lia.
Qed.

(** A tenth of a second of the test from the beginning of the boot-up. *)
Definition demo_sim_mn : option (MnContext MockStorage (list AsyncRequest)) :=
  match create_mn with Ok h => Some (h_node h) | Err _ => None end.
Definition demo_sim_cn : option (CnContext MockStorage) :=
  match create_cn 10 1 with Ok h => Some (h_node h) | Err _ => None end.

Lemma simulator_refines_network_witness :
  exists m c b x, demo_sim_mn = Some m /\ demo_sim_cn = Some c /\
  test_loop 1100 1000 1100000
    (mkTest (foldl register_node VirtualNetwork_new [1; 240]) (mkHarness m (SimulatedInterface_new 240 []) 240)
       (mkHarness c (SimulatedInterface_new 1 []) 1) false false) = Some (b, x) /\
  mn_state (h_node (bt_mn b)) = NmtPreOperational2 /\ x = true /\ rtc net_step (mkNet m [c] []) (net_of b).
Proof.
  assert (match demo_sim_mn, demo_sim_cn with
    | Some m, Some c =>
        option_map (fun r => mn_state (h_node (bt_mn (fst r)))) (test_loop 1100 1000 1100000
          (mkTest (foldl register_node VirtualNetwork_new [1; 240]) (mkHarness m (SimulatedInterface_new 240 []) 240)
             (mkHarness c (SimulatedInterface_new 1 []) 1) false false))
    | _, _ => None end = Some NmtPreOperational2) as H by (vm_compute; reflexivity).
  destruct demo_sim_mn as [m|]; [|discriminate H]. destruct demo_sim_cn as [c|]; [|discriminate H].
  match type of H with option_map _ ?l = _ => destruct l as [[b x]|] eqn:Er; [|discriminate H] end.
  exists m, c, b, x. split; [exact eq_refl|]. split; [exact eq_refl|]. split; [exact Er|].
  cbn [option_map fst] in H. split; [injection H as H; exact H|].
  destruct (simulator_refines_network m c [1; 240] 240 [] 1 [] 1000 1100000 1100 b x Er) as [Hr Hx].
  split; [apply Hx; vm_compute; congruence|exact Hr].
Defined.

(** C8: The boot-up test of the repository cannot pass.  Run with any queue of requests, whatever the order in
    which it serves equal priorities, the loop of [test_boot_up_sequence] ends within its five
    simulated seconds with both flags false, so its assertions that the managing node and the
    controlled node reach the operational state fail; no PReq and no PRes was sent. *)
Theorem boot_up_test_fails {Q} `{QH : RequestHeap Q} capacity (b : BootTest MockStorage Q MockStorage) x :
  test_boot_up_sequence capacity TEST_FUEL = Some (b, x) ->
  x = true /\ mn_reached_operational b = false /\ cn_reached_operational b = false /\
  forall p f, p ∈ packet_history (bt_network b) -> deserialize_frame (pk_data p) = Ok f ->
    match f with PF_PReq _ | PF_PRes _ => False | _ => True end.
Proof.
  unfold test_boot_up_sequence. generalize (eq_refl : TEST_FUEL = 5000%nat). generalize TEST_FUEL as fuel. intros fuel Hfuel.
  destruct (create_cn capacity 1) as [cn|] eqn:Ec; [|done].
  destruct (create_mn (Q := Q)) as [mn|] eqn:Em; [|done]. destruct (test_start capacity mn cn Em Ec) as (d&Hn&Hm).
  destruct (create_cn_new _ _ _ Ec) as [-> _]. destruct (create_mn_new _ Em) as [-> _].
  change (register_node (register_node VirtualNetwork_new 1) 240) with
    (foldl register_node VirtualNetwork_new [1; 240]). intros Hl.
  pose proof (fresh_test_ok [1; 240] (h_node mn) (h_node cn) 240 [2; 0; 0; 0; 0; 240] 1 [2; 0; 0; 0; 0; 1]) as Hok.
  pose proof (loop_steps _ _ _ _ _ _ Hok Hl) as Hs. split_and!.
  - refine (loop_ends _ _ _ _ _ _ _ _ Hok _ _ Hl); cbn [bt_network]; rewrite ?registered_time; lia.
  - refine (proj1 (loop_flags _ _ d _ _ _ _ _ _ Hn _ _ Hok eq_refl eq_refl Hl)); [by exists 1|apply rtc_refl].
  - refine (proj2 (loop_flags _ _ d _ _ _ _ _ _ Hn _ _ Hok eq_refl eq_refl Hl)); [by exists 1|apply rtc_refl].
  - intros p f Hp Hf. refine (nobody_polled d _ _ _ Hn Hs (pk_data p) f _ Hf). by apply list_elem_of_fmap_2.
Qed.

(** All of the five seconds: both nodes end in their second pre-operational state. *)
Lemma boot_up_test_fails_witness :
  exists b x, test_boot_up_sequence (Q := list AsyncRequest) 10 TEST_FUEL = Some (b, x) /\
  vn_current_time_us (bt_network b) = 5000000 /\ mn_state (h_node (bt_mn b)) = NmtPreOperational2 /\
  cn_state (h_node (bt_cn b)) = NmtPreOperational2 /\
  x = true /\ mn_reached_operational b = false /\ cn_reached_operational b = false.
Proof.
  assert (option_map (fun r => (vn_current_time_us (bt_network (fst r)), mn_state (h_node (bt_mn (fst r))),
      cn_state (h_node (bt_cn (fst r))))) (test_boot_up_sequence (Q := list AsyncRequest) 10 TEST_FUEL)
    = Some (5000000, NmtPreOperational2, NmtPreOperational2)) as H by (vm_compute; reflexivity).
  destruct (test_boot_up_sequence (Q := list AsyncRequest) 10 TEST_FUEL) as [[b x]|] eqn:Er; [|discriminate H].
  cbn [option_map fst] in H. injection H as H1 H2 H3. exists b, x.
  split; [exact eq_refl|]. split; [exact H1|]. split; [exact H2|]. split; [exact H3|].
  destruct (boot_up_test_fails 10 b x Er) as (Hx&Hm&Hc&_). split; [exact Hx|]. split; [exact Hm|exact Hc].
Defined.
