(* ===== verification/Identification.v ===== *)
(** * The identification of a controlled node

    The exchange of the boot-up between [node/mn/] and [node/cn/]: the SoA that asks a node
    to identify itself, the IdentResponse the node builds from its object dictionary, and the
    check of the managing node against its own. *)
From S2P Require Import Prelude Utf8 Types Frames Dll ErrorEntry ObjectDict StatusFrames Nmt SdoCodec SdoServer.
From S2P Require Import SdoEmbedded SdoClient Node MnState MnScheduler MnPayload MnNode CnPayload CnNode Network.

(** ** What the dictionaries hold *)
Section Reads.
Context {S : Type}.
Implicit Types d : ObjectDictionary S.

(** A counter changes no other object. *)
Lemma read_increment d i s j k : j <> i -> read (increment_counter d i s) j k = read d j k.
Proof.
  intros Hne. unfold increment_counter. destruct (entries d !! i) as [e|]; [|done].
  assert (H : forall e', read (insert_entry d i e') j k = read d j k).
  { intros e'. by rewrite read_insert_entry, bool_decide_eq_false_2. }
  repeat case_match; done || apply H.
Qed.
Lemma read_u32_increment d i s j k : j <> i -> read_u32 (increment_counter d i s) j k = read_u32 d j k.
Proof. intros. unfold read_u32. by rewrite read_increment. Qed.

Lemma read_value_ok d i s v : od_wf d -> read d i s = Some v -> value_ok v.
Proof.
  intros Hd. unfold read. destruct (entries d !! i) as [e|] eqn:Ee; [|done]. cbn [mbind option_bind].
  pose proof (Hd _ _ Ee) as He. cbn beta in He. unfold read_entry, object_values in *.
  assert (H8 : forall n, value_ok (OV_Unsigned8 (u8 n))) by (intros n; apply wrap_range; lia).
  destruct (object e) as [w|ws|ws].
  - destruct (_ =? _); [|done]. intros [= <-]. by inversion He.
  - destruct (_ =? _); [intros [= <-]; apply H8|]. intros Hv. by eapply Forall_lookup_1.
  - destruct (_ =? _); [intros [= <-]; apply H8|]. intros Hv. by eapply Forall_lookup_1.
Qed.
Lemma read_u32_ok d i s : od_wf d -> in_width 32 (unwrap_or (read_u32 d i s) 0).
Proof.
  intros Hd. unfold read_u32. destruct (read d i s) as [v|] eqn:E; [|by split].
  apply (read_value_ok _ _ _ _ Hd) in E. destruct v; done.
Qed.
Lemma read_u16_ok d i s : od_wf d -> in_width 16 (unwrap_or (read_u16 d i s) 0).
Proof.
  intros Hd. unfold read_u16. destruct (read d i s) as [v|] eqn:E; [|by split].
  apply (read_value_ok _ _ _ _ Hd) in E. destruct v; done.
Qed.
Lemma read_u8_ok d i s x : od_wf d -> byte_ok x -> byte_ok (unwrap_or (read_u8 d i s) x).
Proof.
  intros Hd Hx. unfold read_u8. destruct (read d i s) as [v|] eqn:E; [|done].
  apply (read_value_ok _ _ _ _ Hd) in E. destruct v; done.
Qed.

(** The payload a node builds from a dictionary fits its fields. *)
Lemma ident_new_ok d : od_wf d -> ident_ok (IdentResponsePayload_new d).
Proof.
  intros Hd. assert (H4 : forall v, ip_ok (le_bytes 4 v)).
  { intros v. split; [apply length_le_bytes|apply le_bytes_ok]. }
  unfold ident_ok, IdentResponsePayload_new. cbn.
  split_and!; first [lia | by apply read_u8_ok | by apply read_u16_ok | by apply read_u32_ok | apply H4].
Qed.
End Reads.

(** What the managing node expects of a node, and what a node says of itself. *)
Definition expected_node {S S'} (mn : ObjectDictionary S) (cn : ObjectDictionary S') (n : NodeId) : bool :=
  let expected index := unwrap_or (read_u32 mn index n) 0 in
  let own index sub_index := unwrap_or (read_u32 cn index sub_index) 0 in
  identity_ok (expected 0x1F84) (own 0x1000 0) && identity_ok (expected 0x1F85) (own 0x1018 1)
  && identity_ok (expected 0x1F86) (own 0x1018 2) && identity_ok (expected 0x1F87) (own 0x1018 3).
Definition identity_of {S} (cn : ObjectDictionary S) : CnIdentity :=
  let own index sub_index := unwrap_or (read_u32 cn index sub_index) 0 in
  mkCnIdentity (own 0x1000 0) (own 0x1018 1) (own 0x1018 2) (own 0x1018 3) (own 0x1018 4).

(** An IdentResponse that states the identity of a dictionary. *)
Definition identifies {S} (cn : ObjectDictionary S) (p : IdentResponsePayload) : Prop :=
  mkCnIdentity (id_device_type p) (id_vendor_id p) (id_product_code p) (id_revision_number p)
    (id_serial_number p) = identity_of cn.

Section ControlledNode.
Context {S : Type} `{ST : ObjectDictionaryStorage S}.
Implicit Types c : CnContext S.

Lemma request_status_ok l sc : 0 <= RSFlag_new (fst (request_status l sc)) <= 7.
Proof.
  unfold RSFlag_new, request_status, pending_request_count_and_priority.
  destruct l; [destruct (0 <? len sc) eqn:E; simpl; lia|].
  cbn [fst]. pose proof (wrap_range 8 (Z.min (len (p :: l)) 7) ltac:(lia)) as [? _]. unfold u8. lia.
Qed.

(** The answer of a controlled node to an IdentRequest. *)
Lemma ident_response_payload c soa : od_wf (cn_od c) -> exists payload p,
  build_ident_response c soa = answer c soa Svc_IdentResponse payload /\ length payload = 158%nat /\
  IdentResponsePayload_deserialize payload = Ok p /\ identifies (cn_od c) p.
Proof.
  intros Hd. pose proof (ident_new_ok _ Hd) as Hok. unfold build_ident_response.
  pose proof (request_status_ok (pending_nmt_requests c) (sdo_client (core c))) as Hrs.
  destruct (request_status _ _) as [rs pr]. cbn [fst] in Hrs. cbv zeta.
  match goal with |- context [IdentResponsePayload_serialize ?x _] => set (q := x) end.
  assert (Hq : ident_ok q) by (destruct Hok as [_ Hok]; split; [exact Hrs|exact Hok]).
  assert (Hl : (158 <= length (replicate 256 0%Z))%nat) by (rewrite length_replicate; lia).
  rewrite ident_serialize_puts by exact Hl.
  pose proof (ident_length q _ Hq Hl) as Hlen. pose proof (ident_deserialize_out q _ Hq Hl) as Hout.
  cbv zeta in Hlen, Hout. set (out := puts _ _) in *. cbn iota. rewrite length_replicate in Hlen.
  assert (Ht : IdentResponsePayload_deserialize (take 158 out) = IdentResponsePayload_deserialize out).
  { unfold IdentResponsePayload_deserialize, IDENT_RESPONSE_PAYLOAD_SIZE, HOSTNAME_OFFSET, HOSTNAME_SIZE.
    rewrite !nat_ltb_false by (rewrite ?length_take; lia).
    assert (Hs : forall i j, (j <= 158)%nat -> slice (take 158 out) i j = slice out i j).
    { intros i j Hj. unfold slice. rewrite skipn_firstn_comm, take_take. f_equal. lia. }
    rewrite !Hs by lia. unfold byte_at. by rewrite !nth_firstn by lia. }
  exists (take 158 out). eexists. split; [done|]. split; [rewrite length_take; lia|].
  split; [rewrite Ht; exact Hout|]. done.
Qed.
End ControlledNode.

Section Exchange.
Context {S Q S' : Type} `{ST : ObjectDictionaryStorage S} `{QH : RequestHeap Q} `{ST' : ObjectDictionaryStorage S'}.
Implicit Types (m : MnContext S Q) (c : CnContext S').

(** The request on the wire. *)
Lemma ident_request_received m n er : mac_ok (mn_mac m) -> od_wf (mn_od m) -> byte_ok n -> exists b soa,
  serialize_frame_action false (build_soa_frame m Req_IdentRequest n er) = Ok (SendFrame b) /\
  deserialize_frame b = Ok (PF_SoA soa) /\ soa_req_service_id soa = Req_IdentRequest /\
  soa_target_node_id soa = n /\ source_mac (soa_eth_header soa) = mn_mac m.
Proof.
  intros Hm Hd Hn. set (f := build_soa_frame m Req_IdentRequest n er).
  assert (Hf : PowerlinkFrame_wf f).
  { destruct Hm. split_and!; first [done | repeat constructor; done | exact Hn | by apply read_u8_ok]. }
  exists (full_wire f). eexists. rewrite serialize_frame_action_eq by (by apply PowerlinkFrame_wf_eth).
  rewrite nat_ltb_false.
  2:{ cbn [f build_soa_frame PowerlinkFrame_wire]. rewrite length_SoAFrame_wire. lia. }
  split; [done|]. split; [by rewrite deserialize_full_wire|]. done.
Qed.

(** The answer: the request is for this node, and its state answers. *)
Lemma ident_respond c soa : od_wf (cn_od c) -> soa_req_service_id soa = Req_IdentRequest ->
  soa_target_node_id soa = cn_id c -> answers_soa (cn_state c) = true -> exists c' payload p,
  respond (PF_SoA soa) c = (c', Some (answer c soa Svc_IdentResponse payload)) /\
  length payload = 158%nat /\ IdentResponsePayload_deserialize payload = Ok p /\ identifies (cn_od c) p.
Proof.
  intros Hd Hs Ht Ha. set (c1 := cn_count TELEGR ASYNC_TX c).
  assert (Hd1 : od_wf (cn_od c1)) by (apply increment_counter_wf; done).
  destruct (ident_response_payload c1 soa Hd1) as (payload & p & E & Hl & Hp & Hi).
  exists c1, payload, p. split_and!; [|done|done|].
  - unfold respond. assert (nmt_leb NmtNotActive (cn_state c) = true) as -> by (by destruct (cn_state c)).
    rewrite Ht, Z.eqb_refl, Ha. cbn [andb]. unfold answer_soa. rewrite Hs. fold c1. by rewrite E.
  - unfold identifies in *. rewrite Hi. unfold identity_of.
    change (cn_od c1) with (increment_counter (cn_od c) TELEGR ASYNC_TX).
    by rewrite !read_u32_increment by done.
Qed.

(** What the managing node makes of it. *)
Lemma boot_step1_decision m n p t (d : ObjectDictionary S') :
  identifies d p -> let startup := unwrap_or (read_u32 (mn_od m) 0x1F80 0) 0 in
  bit startup 10 = false -> bit startup 11 = false ->
  validate_boot_step1_checks m n p t = (m, expected_node (mn_od m) d n).
Proof.
  intros Hi startup H10 H11. injection Hi as E1 E2 E3 E4 E5.
  unfold validate_boot_step1_checks, expected_node. fold startup. rewrite H10, H11, E1, E2, E3, E4.
  cbn [andb]. repeat (destruct (identity_ok _ _); [|done]). done.
Qed.

Lemma bootup_node_info m : node_info (check_bootup_state m) = node_info m.
Proof.
  unfold check_bootup_state.
  assert (H : forall e, node_info (mn_nmt_event e m) = node_info m).
  { intros e. unfold mn_nmt_event. by destruct (process_event _ e _) as [[machine d] r]. }
  repeat case_match; done || apply H.
Qed.
Lemma bootup_arp m : arp_cache (check_bootup_state m) = arp_cache m.
Proof.
  unfold check_bootup_state.
  assert (H : forall e, arp_cache (mn_nmt_event e m) = arp_cache m).
  { intros e. unfold mn_nmt_event. by destruct (process_event _ e _) as [[machine d] r]. }
  repeat case_match; done || apply H.
Qed.
End Exchange.

(** The node list and the ARP cache after an IdentResponse. *)
Lemma ident_response_taken {S Q S'} `{ST : ObjectDictionaryStorage S} `{QH : RequestHeap Q}
    (m : MnContext S Q) g p t i (d : ObjectDictionary S') :
  asnd_service_id g = Svc_IdentResponse -> node_info m !! asnd_source g = Some i ->
  unidentified (node_info m) (asnd_source g) = true ->
  IdentResponsePayload_deserialize (asnd_payload g) = Ok p -> identifies d p ->
  let startup := unwrap_or (read_u32 (mn_od m) 0x1F80 0) 0 in
  bit startup 10 = false -> bit startup 11 = false ->
  let m' := handle_asnd_frame m g t in
  if expected_node (mn_od m) d (asnd_source g)
  then node_info m' = <[asnd_source g := info_identity (identity_of d) (info_state CnIdentified i)]> (node_info m) /\
       arp_cache m' = <[ip_from_node_id (asnd_source g) := source_mac (asnd_eth_header g)]> (arp_cache m)
  else m' = m.
Proof.
  intros Hs Hi Hu Hp Hd startup H10 H11. cbv zeta. unfold handle_asnd_frame, handle_ident_response.
  rewrite Hs, Hi, Hu, Hp. rewrite (boot_step1_decision m (asnd_source g) p t d Hd H10 H11).
  destruct (expected_node _ _ _); [|done]. cbv zeta. rewrite bootup_node_info, bootup_arp. split; [|done].
  rewrite Hd. cbn [node_info modify_info upd_node_info upd_arp_cache].
  apply map_eq. intros k. destruct (decide (k = asnd_source g)) as [->|Hne].
  - by rewrite lookup_alter_eq, Hi, lookup_insert_eq.
  - by rewrite lookup_alter_ne, lookup_insert_ne.
Qed.

(** A managing node that expects vendor 26 of node 42, and such a node. *)
Definition demo_object (o : Object) : ObjectEntry :=
  mkObjectEntry o "Object" Cat_Mandatory (Some ReadOnly) None None None.
Definition demo_search : MnContext MemStorage (list AsyncRequest) :=
  demo_context
    (insert_entry (ObjectDictionary_new None) 0x1F85 (demo_object (Obj_Array (replicate 42 (OV_Unsigned32 26)))))
    (demo_machine NmtPreOperational1) [42] [CnUnknown].
Definition demo_identity : ObjectDictionary MemStorage :=
  insert_entry (ObjectDictionary_new None) 0x1018
    (demo_object (Obj_Record (OV_Unsigned32 <$> [26; 2; 3; 4]))).
Definition demo_node : option (CnContext MemStorage) :=
  match cn_new (demo_cn_od 42) demo_mac 10 with
  | Ok c => Some (cn_with_od demo_identity (cn_nmt_event Ev_SocSoAReceived c))
  | Err _ => None
  end.

Lemma demo_node_od c : demo_node = Some c -> cn_od c = demo_identity.
Proof. unfold demo_node. destruct (cn_new _ _ _); [|done]. by intros [= <-]. Qed.
Lemma od_wf_single i e : Forall value_ok (object_values (object e)) ->
  od_wf (insert_entry (@ObjectDictionary_new MemStorage None) i e).
Proof.
  intros He k e'. unfold insert_entry. cbn [entries set_entries ObjectDictionary_new].
  rewrite lookup_insert_Some. intros [[_ <-]|[_ Hx]]; [done|]. by rewrite lookup_empty in Hx.
Qed.
Lemma unsigned32_ok v : 0 <= v < 4294967296 -> value_ok (OV_Unsigned32 v).
Proof. done. Qed.
Lemma demo_search_wf : od_wf (mn_od demo_search).
Proof. apply od_wf_single, Forall_replicate, unsigned32_ok. lia. Qed.
Lemma demo_identity_wf : od_wf demo_identity.
Proof.
  apply od_wf_single. repeat (apply Forall_cons; split; [apply unsigned32_ok; lia|]). by apply Forall_nil.
Qed.

(** ** Properties *)

(** C15: The identification of a controlled node.  The IdentRequest of the managing node, put on
    the wire, is answered by the node it names, in every state that answers an SoA, with one
    frame; and the managing node, when it receives that frame and was still looking for the
    node, either finds that device type, vendor, product and revision in the node's own object
    dictionary are the ones of its objects 0x1F84 to 0x1F87 (0 expects nothing): then the node
    is identified, with exactly that identity, its MAC address is known, and no other node
    changes; or it finds a difference, and nothing changes.  (Start-up flags 10 and 11, the
    checks of software and configuration, are off.) *)
Theorem identification_exchange {S Q S'} `{ST : ObjectDictionaryStorage S} `{QH : RequestHeap Q}
    `{ST' : ObjectDictionaryStorage S'} (m : MnContext S Q) (c : CnContext S') er t i :
  let n := cn_id c in
  let startup := unwrap_or (read_u32 (mn_od m) 0x1F80 0) 0 in
  mac_ok (mn_mac m) -> mac_ok (cn_mac c) -> od_wf (mn_od m) -> od_wf (cn_od c) -> byte_ok n ->
  answers_soa (cn_state c) = true ->
  node_info m !! n = Some i -> unidentified (node_info m) n = true ->
  bit startup 10 = false -> bit startup 11 = false ->
  exists request soa c' frame response g,
    serialize_frame_action false (build_soa_frame m Req_IdentRequest n er) = Ok (SendFrame request) /\
    deserialize_frame request = Ok (PF_SoA soa) /\
    respond (PF_SoA soa) c = (c', Some frame) /\
    serialize_frame_action true frame = Ok (SendFrame response) /\
    deserialize_frame response = Ok (PF_ASnd g) /\
    let m' := handle_asnd_frame m g t in
    if expected_node (mn_od m) (cn_od c) n
    then node_info m' =
           <[n := info_identity (identity_of (cn_od c)) (info_state CnIdentified i)]> (node_info m) /\
         arp_cache m' = <[ip_from_node_id n := cn_mac c]> (arp_cache m)
    else m' = m.
Proof.
  intros n startup Hm Hc Hdm Hdc Hn Ha Hi Hu H10 H11.
  destruct (ident_request_received m n er Hm Hdm Hn) as (request & soa & Hreq & Hsoa & Hs & Ht & Hmac).
  destruct (ident_respond c soa Hdc Hs Ht Ha) as (c' & payload & p & Hr & Hl & Hp & Hid).
  match type of Hr with _ = (_, Some (answer c soa _ _)) =>
    set (f := ASndFrame_new (cn_mac c) (source_mac (soa_eth_header soa)) C_ADR_MN_DEF_NODE_ID n
                Svc_IdentResponse payload) end.
  assert (He : eth_ok (asnd_eth_header f)).
  { split_and!; cbn; [by rewrite Hmac|done|done]. }
  destruct (asnd_on_the_wire true f He eq_refl) as (response & Hb & Hg); [cbn; lia|].
  exists request, soa, c', (PF_ASnd f), response, (received f).
  split; [exact Hreq|]. split; [exact Hsoa|]. split; [exact Hr|]. split; [exact Hb|]. split; [exact Hg|].
  assert (asnd_payload (received f) = payload) as Hpay.
  { cbn [received asnd_payload f ASndFrame_new]. unfold received_payload.
    by rewrite (proj2 (Nat.leb_gt _ _)) by lia. }
  apply (ident_response_taken m (received f) p t i (cn_od c) eq_refl Hi Hu); [by rewrite Hpay|done..].
Qed.

Lemma identification_exchange_witness :
  exists c request soa c' frame response g,
    demo_node = Some c /\
    serialize_frame_action false (build_soa_frame demo_search Req_IdentRequest 42 false) = Ok (SendFrame request) /\
    deserialize_frame request = Ok (PF_SoA soa) /\
    respond (PF_SoA soa) c = (c', Some frame) /\
    serialize_frame_action true frame = Ok (SendFrame response) /\
    deserialize_frame response = Ok (PF_ASnd g) /\
    node_info (handle_asnd_frame demo_search g 7) =
      <[42 := info_identity (mkCnIdentity 0 26 2 3 4) (info_state CnIdentified CnInfo_default)]>
        (node_info demo_search).
Proof.
  assert (option_map (fun c => (cn_id c, answers_soa (cn_state c), cn_mac c)) demo_node
            = Some (42, true, demo_mac)) as H by (vm_compute; reflexivity).
  destruct demo_node as [c|] eqn:En; [|discriminate H]. injection H as Hn Ha Hm.
  pose proof (demo_node_od c En) as Ho.
  assert (mac_ok demo_mac) as Hok by (split; [reflexivity|repeat constructor; done]).
  destruct (identification_exchange demo_search c false 7 (info_state CnUnknown CnInfo_default))
    as (request & soa & c' & frame & response & g & H1 & H2 & H3 & H4 & H5 & H6).
  - exact Hok.
  - rewrite Hm. exact Hok.
  - exact demo_search_wf.
  - rewrite Ho. exact demo_identity_wf.
  - rewrite Hn. split; lia.
  - exact Ha.
  - rewrite Hn. vm_compute. reflexivity.
  - rewrite Hn. vm_compute. reflexivity.
  - vm_compute. reflexivity.
  - vm_compute. reflexivity.
  - rewrite Hn, Ho in *. exists c, request, soa, c', frame, response, g.
    assert (expected_node (mn_od demo_search) demo_identity 42 = true) as He by (vm_compute; reflexivity).
    assert (identity_of demo_identity = mkCnIdentity 0 26 2 3 4) as Hi by (vm_compute; reflexivity).
    cbv zeta in H6. rewrite He, Hi in H6. destruct H6 as [H6 _].
    split; [reflexivity|]. split; [exact H1|]. split; [exact H2|]. split; [exact H3|].
    split; [exact H4|]. split; [exact H5|]. exact H6.
Defined.
