(* ===== verification/XdcText.v ===== *)
(** * The text of device descriptions

    What the crate [powerlink-rs-xdc] ([src/crates/powerlink-rs-xdc/src]) does with the text of
    attributes: the number parsers and formatters of the standard library it calls, [trim], and
    the hexadecimal helpers of [parser.rs].  A [String] is the list of its UTF-8 octets. *)
From S2P Require Import Prelude Utf8.

(** A string literal. *)
Definition str (s : string) : bytes := map (fun c => Z.of_N (Ascii.N_of_ascii c)) (String.list_ascii_of_string s).
Definition string_of_bytes (l : bytes) : string :=
  String.string_of_list_ascii (map (fun b => Ascii.ascii_of_N (Z.to_N b)) l).

(** [str::strip_prefix] and [str::starts_with]. *)
Fixpoint strip_prefix (p l : bytes) : option bytes :=
  match p, l with
  | [], _ => Some l
  | x :: p, y :: l => if x =? y then strip_prefix p l else None
  | _ :: _, [] => None
  end.
Definition starts_with (p l : bytes) : bool :=
  match strip_prefix p l with Some _ => true | None => false end.

(** ** [str::trim] *)

(** The encodings of the characters with the property White_Space. *)
Definition white_space : list bytes :=
  [[0x09]; [0x0A]; [0x0B]; [0x0C]; [0x0D]; [0x20]; [0xC2; 0x85]; [0xC2; 0xA0]; [0xE1; 0x9A; 0x80];
   [0xE2; 0x80; 0xA8]; [0xE2; 0x80; 0xA9]; [0xE2; 0x80; 0xAF]; [0xE2; 0x81; 0x9F]; [0xE3; 0x80; 0x80]]
  ++ map (fun i => [0xE2; 0x80; 0x80 + Z.of_nat i]) (seq 0 11).
Fixpoint first_some {A B} (f : A -> option B) (l : list A) : option B :=
  match l with [] => None | x :: l => match f x with Some y => Some y | None => first_some f l end end.
Fixpoint trim_fuel (fuel : nat) (spaces : list bytes) (l : bytes) : bytes :=
  match fuel with
  | O => l
  | S fuel =>
      match first_some (fun w => strip_prefix w l) spaces with
      | Some l' => trim_fuel fuel spaces l'
      | None => l
      end
  end.
Definition trim_start (l : bytes) : bytes := trim_fuel (length l) white_space l.
Definition trim_end (l : bytes) : bytes := rev (trim_fuel (length l) (map (@rev Z) white_space) (rev l)).
Definition trim (l : bytes) : bytes := trim_end (trim_start l).

(** ** Integers: [from_str_radix] and [str::parse] *)
Definition PLUS : Z := 43.
Definition MINUS : Z := 45.

(** [char::to_digit]. *)
Definition to_digit (radix c : Z) : option Z :=
  let d :=
    if (48 <=? c) && (c <=? 57) then c - 48
    else if (97 <=? c) && (c <=? 122) then c - 87
    else if (65 <=? c) && (c <=? 90) then c - 55
    else radix in
  if d <? radix then Some d else None.

(** The digits, with the checked multiplication and addition (subtraction for
    a negative number) of a type from [lo] to [hi]. *)
Fixpoint parse_digits (lo hi radix : Z) (negative : bool) (acc : Z) (l : bytes) : option Z :=
  match l with
  | [] => Some acc
  | c :: l =>
      match to_digit radix c with
      | None => None
      | Some d =>
          let mul := acc * radix in
          let next := if negative then mul - d else mul + d in
          if (lo <=? mul) && (mul <=? hi) && (lo <=? next) && (next <=? hi)
          then parse_digits lo hi radix negative next l else None
      end
  end.
Definition from_str_radix (signed : bool) (lo hi radix : Z) (s : bytes) : option Z :=
  match s with
  | [] => None
  | c :: rest =>
      if ((c =? PLUS) || (c =? MINUS)) && bool_decide (rest = []) then None
      else if c =? PLUS then parse_digits lo hi radix false 0 rest
      else if (c =? MINUS) && signed then parse_digits lo hi radix true 0 rest
      else parse_digits lo hi radix false 0 s
  end.
Definition parse_unsigned (w radix : Z) : bytes -> option Z := from_str_radix false 0 (2 ^ w - 1) radix.
Definition parse_signed (w radix : Z) : bytes -> option Z :=
  from_str_radix true (- 2 ^ (w - 1)) (2 ^ (w - 1) - 1) radix.

(** [format!("{:04X}")] and the like, and [to_string] of an unsigned integer. *)
Definition digit_char (d : Z) : Z := if d <? 10 then 48 + d else 55 + d.
Fixpoint format_digits (fuel : nat) (radix n : Z) (acc : bytes) : bytes :=
  match fuel with
  | O => acc
  | S fuel =>
      let acc := digit_char (n mod radix) :: acc in
      if n / radix =? 0 then acc else format_digits fuel radix (n / radix) acc
  end.
Definition FORMAT_FUEL : nat := 64.
Definition format_radix (radix : Z) (width : nat) (n : Z) : bytes :=
  let digits := format_digits FORMAT_FUEL radix n [] in
  replicate (width - length digits) 48 ++ digits.
Definition to_string (n : Z) : bytes := format_radix 10 0 n.

(** ** [parser.rs] *)
Definition HEX_PREFIX : bytes := [48; 120].
Definition parse_hex_u32 (s : bytes) : option Z := parse_unsigned 32 16 (unwrap_or (strip_prefix HEX_PREFIX s) s).
Definition parse_hex_u16 (s : bytes) : option Z := parse_unsigned 16 16 (unwrap_or (strip_prefix HEX_PREFIX s) s).
Definition parse_hex_u8 (s : bytes) : option Z := parse_unsigned 8 16 (unwrap_or (strip_prefix HEX_PREFIX s) s).

(** [hex::decode] of the crate [hex], as documented: a pair of hexadecimal
    digits per octet. *)
Class HexDecode : Type := hex_decode : bytes -> option bytes.
Class HexDecodeLaws `{HexDecode} : Prop :=
  hex_decode_ok : forall s l, hex_decode s = Some l -> bytes_ok l /\ length s = (2 * length l)%nat.

Definition parse_hex_string `{HexDecode} (s : bytes) : option bytes :=
  let s_no_prefix := unwrap_or (strip_prefix HEX_PREFIX s) s in
  if negb (Nat.even (length s_no_prefix)) then hex_decode (48 :: s_no_prefix) else hex_decode s_no_prefix.

(** ** Floating point: [str::parse::<f32>] and [str::parse::<f64>]

    The value is [mantissa * 10 ^ exponent], rounded to the nearest number of [p] significant
    bits whose last bit weighs at least [2 ^ emin], ties to even; the result is the bit
    pattern.  [inf] is the pattern of the infinity. *)
Section Float.
Context (p emin inf quiet_nan sign_bit : Z).

(** [num / den] rounded to an integer. *)
Definition round_half_even (num den : Z) : Z :=
  let q := num / den in
  let r := 2 * (num mod den) in
  if (den <? r) || ((r =? den) && Z.odd q) then q + 1 else q.

(** The pattern of [num / den]: the weight [2 ^ k] of the last bit is the
    smallest one that leaves at most [p] bits. *)
Definition round_float (num den : Z) : Z :=
  if num =? 0 then 0 else
  let log := Z.log2 num - Z.log2 den in
  let log := if num * 2 ^ Z.max 0 (- log) <? den * 2 ^ Z.max 0 log then log - 1 else log in
  let k := Z.max (log - p + 1) emin in
  let m := round_half_even (num * 2 ^ Z.max 0 (- k)) (den * 2 ^ Z.max 0 k) in
  Z.min inf ((k - emin) * 2 ^ (p - 1) + m).

Definition is_digit (c : Z) : bool := (48 <=? c) && (c <=? 57).
Fixpoint span_digits (l : bytes) : bytes * bytes :=
  match l with
  | c :: l => if is_digit c then let '(ds, r) := span_digits l in (c :: ds, r) else ([], c :: l)
  | [] => ([], [])
  end.
Definition digits_value (l : bytes) : Z := foldl (fun acc c => 10 * acc + (c - 48)) 0 l.

Definition split_sign (s : bytes) : bool * bytes :=
  match s with
  | c :: r => if c =? MINUS then (true, r) else if c =? PLUS then (false, r) else (false, s)
  | [] => (false, s)
  end.

(** The exponent at the end: [None] when the text is malformed. *)
Definition parse_exponent (l : bytes) : option Z :=
  match l with
  | [] => Some 0
  | e :: l =>
      if (e =? 101) || (e =? 69) then
        let '(negative, l) := split_sign l in
        match span_digits l with
        | ((_ :: _) as ds, []) => Some (if negative then - digits_value ds else digits_value ds)
        | _ => None
        end
      else None
  end.
(** The digits after a point. *)
Definition span_fraction (l : bytes) : bytes * bytes :=
  match l with c :: r => if c =? 46 then span_digits r else ([], l) | [] => ([], []) end.
Definition parse_number (l : bytes) : option Z :=
  let '(whole, l) := span_digits l in
  let '(fraction, l) := span_fraction l in
  match whole ++ fraction with
  | [] => None
  | ds =>
      match parse_exponent l with
      | None => None
      | Some e =>
          let e := e - Z.of_nat (length fraction) in
          Some (round_float (digits_value ds * 10 ^ Z.max 0 e) (10 ^ Z.max 0 (- e)))
      end
  end.

Definition to_lower (c : Z) : Z := if (65 <=? c) && (c <=? 90) then c + 32 else c.
Definition parse_magnitude (l : bytes) : option Z :=
  let lower := map to_lower l in
  if bool_decide (lower = str "inf") || bool_decide (lower = str "infinity") then Some inf
  else if bool_decide (lower = str "nan") then Some quiet_nan
  else parse_number l.
Definition parse_float (s : bytes) : option Z :=
  let '(negative, l) := split_sign s in
  match parse_magnitude l with
  | Some v => Some (if negative then sign_bit + v else v)
  | None => None
  end.
End Float.
Definition parse_f32 : bytes -> option Z := parse_float 24 (-149) 0x7F800000 0x7FC00000 0x80000000.
Definition parse_f64 : bytes -> option Z :=
  parse_float 53 (-1074) 0x7FF0000000000000 0x7FF8000000000000 0x8000000000000000.

Example parse_floats :
  map parse_f32 (map str ["1"; "-0.1"; ".5e1"; "3."; "1e39"; "-inf"; "16777217"; "1e-45"; "e5"; "."; "1e"])
  = [Some 0x3F800000; Some 0xBDCCCCCD; Some 0x40A00000; Some 0x40400000; Some 0x7F800000; Some 0xFF800000;
     Some 0x4B800000; Some 1; None; None; None].
Proof. vm_compute. reflexivity. Qed.

(** ** What is formatted is parsed back *)

(** A text of digits, most significant first, that reads as [n]. *)
Definition digits_of (radix : Z) (n : Z) (l : bytes) : Prop :=
  Forall (fun c => exists d, c = digit_char d /\ 0 <= d < radix) l /\
  foldl (fun acc c => unwrap_or (to_digit radix c) 0 + acc * radix) 0 l = n.

Section Format.
Context (radix : Z) (Hr : 2 <= radix <= 16).

Lemma to_digit_char d : 0 <= d < radix -> to_digit radix (digit_char d) = Some d.
Proof.
  intros Hd. unfold to_digit, digit_char. destruct (Z.ltb_spec d 10).
  - rewrite (proj2 (Z.leb_le 48 _)), (proj2 (Z.leb_le _ 57)) by lia. cbn [andb].
    replace (48 + d - 48) with d by lia. by rewrite (proj2 (Z.ltb_lt _ _)) by lia.
  - rewrite (proj2 (Z.leb_gt _ 57)), andb_false_r by lia. rewrite (proj2 (Z.leb_gt 97 _)) by lia. cbn [andb].
    rewrite (proj2 (Z.leb_le 65 _)), (proj2 (Z.leb_le _ 90)) by lia. cbn [andb].
    replace (55 + d - 55) with d by lia. by rewrite (proj2 (Z.ltb_lt _ _)) by lia.
Qed.

Lemma format_digits_app fuel : forall n acc, format_digits fuel radix n acc = format_digits fuel radix n [] ++ acc.
Proof.
  induction fuel as [|fuel IH]; intros n acc; [done|]. cbn [format_digits]. cbv zeta.
  destruct (_ =? 0); [done|]. rewrite IH, (IH _ [_]), <- app_assoc. done.
Qed.

Lemma format_digits_ne fuel n : format_digits (S fuel) radix n [] <> [].
Proof.
  cbn [format_digits]. cbv zeta. destruct (_ =? 0); [done|].
  rewrite format_digits_app. intros Hnil. by apply app_nil in Hnil as [_ ?].
Qed.

Lemma format_digits_of fuel : forall n, 0 <= n < radix ^ Z.of_nat fuel ->
  digits_of radix n (format_digits fuel radix n []).
Proof.
  induction fuel as [|fuel IH]; intros n Hn.
  { simpl in Hn. split; [constructor|]. simpl. lia. }
  cbn [format_digits]. cbv zeta. rewrite Nat2Z.inj_succ, Z.pow_succ_r in Hn by lia.
  pose proof (Z.mod_pos_bound n radix ltac:(lia)) as Hm. pose proof (Z.div_mod n radix ltac:(lia)) as Hdm.
  destruct (Z.eqb_spec (n / radix) 0) as [E|E].
  - split.
    + constructor; [|constructor]. by eexists.
    + cbn [foldl]. rewrite to_digit_char by lia. cbn [unwrap_or]. lia.
  - assert (0 <= n / radix < radix ^ Z.of_nat fuel) as Hq.
    { split; [apply Z.div_pos; lia|apply Z.div_lt_upper_bound; lia]. }
    destruct (IH _ Hq) as [H1 H2]. rewrite format_digits_app. split.
    + apply Forall_app. split; [done|]. constructor; [by eexists|constructor].
    + rewrite foldl_app, H2. cbn [foldl]. rewrite to_digit_char by lia. cbn [unwrap_or]. lia.
Qed.

Lemma parse_digits_of lo hi l : forall acc, lo <= 0 <= acc ->
  Forall (fun c => exists d, c = digit_char d /\ 0 <= d < radix) l ->
  let v := foldl (fun acc c => unwrap_or (to_digit radix c) 0 + acc * radix) acc l in
  v <= hi -> parse_digits lo hi radix false acc l = Some v.
Proof.
  induction l as [|c l IH]; intros acc Hacc Hl; cbn [parse_digits foldl]; [done|].
  apply Forall_cons in Hl as [(d & -> & Hd) Hl']. cbv zeta. rewrite to_digit_char by done. cbn [unwrap_or].
  intros Hv.
  assert (d + acc * radix <= foldl (fun acc c => unwrap_or (to_digit radix c) 0 + acc * radix)
                              (d + acc * radix) l) as Hle.
  { clear IH Hv. assert (0 <= d + acc * radix) as H0 by nia. revert H0. generalize (d + acc * radix).
    induction Hl' as [|x xs (d' & -> & Hd') _ IH]; intros a Ha; cbn [foldl]; [lia|].
    rewrite to_digit_char by done. cbn [unwrap_or]. etransitivity; [|apply IH; nia]. nia. }
  replace (acc * radix + d) with (d + acc * radix) by lia.
  rewrite !(proj2 (Z.leb_le _ _)) by nia. cbn [andb]. apply IH; [nia|done|done].
Qed.

Lemma digit_char_sign d : 0 <= d < radix -> digit_char d <> PLUS /\ digit_char d <> MINUS.
Proof. unfold digit_char, PLUS, MINUS. intros Hd. destruct (_ <? _) eqn:E; lia. Qed.

Lemma parse_formatted w width n : 1 <= w <= 64 -> in_width w n ->
  parse_unsigned w radix (format_radix radix width n) = Some n.
Proof.
  intros Hw Hn. unfold format_radix.
  assert (0 <= n < radix ^ Z.of_nat FORMAT_FUEL) as Hf.
  { unfold in_width in Hn. split; [lia|]. apply Z.lt_le_trans with (2 ^ 64).
    - eapply Z.lt_le_trans; [apply Hn|]. apply Z.pow_le_mono_r; lia.
    - change (Z.of_nat FORMAT_FUEL) with 64. apply Z.pow_le_mono_l. lia. }
  destruct (format_digits_of FORMAT_FUEL n Hf) as [H1 H2].
  assert (Hne : format_digits FORMAT_FUEL radix n [] <> []).
  { apply (format_digits_ne 63). }
  revert H1 H2 Hne. generalize (format_digits FORMAT_FUEL radix n []) as ds. intros ds H1 H2 Hne.
  set (l := replicate _ 48 ++ ds).
  assert (Hl : Forall (fun c => exists d, c = digit_char d /\ 0 <= d < radix) l).
  { apply Forall_app. split; [|done]. apply Forall_replicate. exists 0. split; [done|lia]. }
  assert (Hv : foldl (fun acc c => unwrap_or (to_digit radix c) 0 + acc * radix) 0 l = n).
  { unfold l. rewrite foldl_app. rewrite <- H2. f_equal. generalize (width - length ds)%nat as k.
    induction k as [|k IH]; [done|]. cbn [replicate foldl].
    change 48 with (digit_char 0). rewrite to_digit_char by lia. exact IH. }
  assert (l <> []) as Hl0. { unfold l. intros Hnil. by apply app_nil in Hnil as [_ ?]. }
  clearbody l. destruct l as [|c l]; [done|]. unfold parse_unsigned, from_str_radix.
  apply Forall_cons in Hl as [(d & -> & Hd) Hl']. destruct (digit_char_sign d Hd) as [N1 N2].
  apply Z.eqb_neq in N1, N2. rewrite N1, N2. cbn [orb andb].
  rewrite parse_digits_of; [by rewrite Hv|lia|by apply Forall_cons; split; [exists d|]|].
  rewrite Hv. unfold in_width in Hn. lia.
Qed.
End Format.

(** A formatted number has no prefix [0x]. *)
Lemma format_no_prefix radix width n : 2 <= radix <= 16 -> in_width 64 n ->
  strip_prefix HEX_PREFIX (format_radix radix width n) = None.
Proof.
  intros Hr Hn. unfold format_radix.
  assert (0 <= n < radix ^ Z.of_nat FORMAT_FUEL) as Hf.
  { unfold in_width in Hn. split; [lia|]. eapply Z.lt_le_trans; [apply Hn|].
    change (Z.of_nat FORMAT_FUEL) with 64. apply Z.pow_le_mono_l. lia. }
  destruct (format_digits_of radix Hr FORMAT_FUEL n Hf) as [H1 _].
  assert (Hx : Forall (fun c => c <> 120) (replicate (width - length (format_digits FORMAT_FUEL radix n [])) 48
                               ++ format_digits FORMAT_FUEL radix n [])).
  { apply Forall_app. split; [by apply Forall_replicate|]. eapply Forall_impl; [exact H1|].
    intros c (d & -> & Hd). unfold digit_char. destruct (_ <? _) eqn:E; lia. }
  revert Hx. generalize (replicate (width - length (format_digits FORMAT_FUEL radix n [])) 48
                               ++ format_digits FORMAT_FUEL radix n []) as l.
  unfold HEX_PREFIX. intros [|a [|b l]] Hl; cbn [strip_prefix]; [done|by destruct (_ =? _)|].
  apply Forall_cons in Hl as [_ Hl]. apply Forall_cons in Hl as [Hb _].
  rewrite (proj2 (Z.eqb_neq 120 b)) by congruence. by destruct (_ =? _).
Qed.
Lemma parse_hex_format_u16 n : in_width 16 n -> parse_hex_u16 (format_radix 16 4 n) = Some n.
Proof.
  intros Hn. unfold parse_hex_u16. rewrite format_no_prefix; [|lia|unfold in_width in *; change (2 ^ 64) with 18446744073709551616; lia].
  cbn [unwrap_or]. apply parse_formatted; [lia|lia|done].
Qed.
Lemma parse_hex_format_u8 n : in_width 8 n -> parse_hex_u8 (format_radix 16 2 n) = Some n.
Proof.
  intros Hn. unfold parse_hex_u8. rewrite format_no_prefix; [|lia|unfold in_width in *; change (2 ^ 64) with 18446744073709551616; lia].
  cbn [unwrap_or]. apply parse_formatted; [lia|lia|done].
Qed.
Lemma parse_to_string w n : 1 <= w <= 64 -> in_width w n -> parse_unsigned w 10 (to_string n) = Some n.
Proof. intros Hw Hn. apply parse_formatted; [lia|done|done]. Qed.

(** What a parser of integers accepts fits its type. *)
Lemma parse_digits_range lo hi radix neg l : forall acc v, lo <= acc <= hi ->
  parse_digits lo hi radix neg acc l = Some v -> lo <= v <= hi.
Proof.
  induction l as [|c l IH]; intros acc v Ha; cbn [parse_digits]; [by intros [= <-]|].
  destruct (to_digit radix c) as [d|]; [|done]. cbv zeta.
  destruct (_ && _) eqn:E; [|done]. apply IH.
  apply andb_prop in E as [E ?]. apply andb_prop in E as [_ ?]. lia.
Qed.
Lemma from_str_radix_range signed lo hi radix s v : lo <= 0 <= hi ->
  from_str_radix signed lo hi radix s = Some v -> lo <= v <= hi.
Proof.
  intros H0. unfold from_str_radix. destruct s as [|c r]; [done|]. destruct (_ && _); [done|].
  destruct (c =? PLUS); [by apply parse_digits_range|].
  destruct (_ && _); by apply parse_digits_range.
Qed.

#[global] Arguments parse_hex_u32 : simpl never.
#[global] Arguments parse_hex_u16 : simpl never.
#[global] Arguments parse_hex_u8 : simpl never.
#[global] Arguments parse_unsigned : simpl never.
#[global] Arguments parse_signed : simpl never.
#[global] Arguments format_radix : simpl never.
#[global] Arguments to_string : simpl never.
#[global] Arguments str : simpl never.
