(* ===== verification/XdcTypes.v ===== *)
(** * Device descriptions: the data

    The structures of the crate [powerlink-rs-xdc] for the communication profile: the public
    ones of [types.rs] (prefix [X]) and those of [model/], which follow the XML schema (prefix
    [M]).  A field that the public structure of the same name also has keeps its name behind the
    prefix of its record.  The XML parser and printer are third-party code. *)
From S2P Require Import Prelude XdcText.

(** ** Errors ([error.rs]); the payloads of third-party errors are dropped *)
Inductive XdcError : Type :=
| XmlParsing | XmlSerializing | XmlWriting | HexParsing | FmtError
| MissingElement (element : string) | MissingAttribute (attribute : string)
| InvalidAttributeFormat (attribute : string) | XdcValidationError (message : string)
| TypeValidationError (index sub_index : Z) (data_type : bytes) (expected_bytes actual_bytes : Z)
| NotImplemented.
(** [From<ParseIntError>] and [From<FromHexError>]. *)
Definition XdcError_from_ParseIntError : XdcError := InvalidAttributeFormat "index or subIndex".
Definition XdcError_from_FromHexError : XdcError := HexParsing.
Definition xres (A : Type) : Type := result XdcError A.

(** ** Public structures ([types.rs]) *)

Inductive XParameterAccess : Type :=
| XConstant | XReadOnly | XWriteOnly | XReadWrite | XReadWriteInput | XReadWriteOutput |
  XNoAccess.

Inductive XParameterSupport : Type :=
| XMandatory | XOptional | XConditional.

Inductive XObjectPdoMapping : Type :=
| XPdoNo | XPdoDefault | XPdoOptional | XTpdo | XRpdo.

Record XValue : Type := mkXValue {
  xv_value : bytes; xv_label : option bytes; xv_offset : option bytes; xv_multiplier : option
  bytes
}.

Record XValueRange : Type := mkXValueRange {
  xvr_min_value : bytes; xvr_max_value : bytes; xvr_step : option bytes
}.

Record XAllowedValues : Type := mkXAllowedValues {
  xav_template_id_ref : option bytes; xav_values : list XValue; xav_ranges : list XValueRange
}.

Record XSubObject : Type := mkXSubObject {
  xs_sub_index : Z; xs_name : bytes; xs_object_type : bytes; xs_data_type : option bytes;
  xs_low_limit : option bytes; xs_high_limit : option bytes; xs_access_type : option
  XParameterAccess; xs_pdo_mapping : option XObjectPdoMapping; xs_obj_flags : option bytes;
  xs_support : option XParameterSupport; xs_persistent : bool; xs_allowed_values : option
  XAllowedValues; xs_data : option bytes
}.

Record XObject : Type := mkXObject {
  xo_index : Z; xo_name : bytes; xo_object_type : bytes; xo_data_type : option bytes;
  xo_low_limit : option bytes; xo_high_limit : option bytes; xo_access_type : option
  XParameterAccess; xo_pdo_mapping : option XObjectPdoMapping; xo_obj_flags : option bytes;
  xo_support : option XParameterSupport; xo_persistent : bool; xo_allowed_values : option
  XAllowedValues; xo_data : option bytes; xo_sub_objects : list XSubObject
}.

Record XObjectDictionary : Type := mkXObjectDictionary {
  xod_objects : list XObject
}.

Record XRange : Type := mkXRange {
  xr_name : bytes; xr_base_index : Z; xr_max_index : option Z; xr_max_sub_index : Z;
  xr_sort_mode : bytes; xr_sort_number : bytes; xr_sort_step : option Z; xr_pdo_mapping : option
  XObjectPdoMapping
}.

Record XInterfaceComm : Type := mkXInterfaceComm {
  xi_unique_id_ref : bytes; xi_ranges : list XRange
}.

Record XModuleManagementComm : Type := mkXModuleManagementComm {
  xm_interfaces : list XInterfaceComm
}.

Inductive XNmtCnDna : Type :=
| XDoNotClear | XClearOnPreOp1ToPreOp2 | XClearOnNmtResetNode.

Record XGeneralFeatures : Type := mkXGeneralFeatures {
  xgf_dll_feature_mn : bool; xgf_nmt_boot_time_not_active : Z; xgf_nmt_cycle_time_max : Z;
  xgf_nmt_cycle_time_min : Z; xgf_nmt_error_entries : Z; xgf_nmt_max_cn_number : option Z;
  xgf_pdo_dynamic_mapping : option bool; xgf_sdo_client : option bool; xgf_sdo_server : option
  bool; xgf_sdo_support_asnd : option bool; xgf_sdo_support_udp_ip : option bool;
  xgf_nmt_isochronous : option bool; xgf_sdo_support_pdo : option bool; xgf_nmt_ext_nmt_cmds :
  option bool; xgf_cfm_config_manager : option bool; xgf_nmt_node_id_by_sw : option bool;
  xgf_sdo_cmd_read_all_by_index : option bool; xgf_sdo_cmd_write_all_by_index : option bool;
  xgf_sdo_cmd_read_mult_param : option bool; xgf_sdo_cmd_write_mult_param : option bool;
  xgf_nmt_publish_active_nodes : option bool; xgf_nmt_publish_config_nodes : option bool
}.

Record XMnFeatures : Type := mkXMnFeatures {
  xmf_dll_mn_feature_multiplex : option bool; xmf_dll_mn_pres_chaining : option bool;
  xmf_nmt_simple_boot : bool; xmf_nmt_service_udp_ip : option bool; xmf_nmt_mn_basic_ethernet :
  option bool
}.

Record XCnFeatures : Type := mkXCnFeatures {
  xcf_dll_cn_feature_multiplex : option bool; xcf_dll_cn_pres_chaining : option bool;
  xcf_nmt_cn_pre_op2_to_ready2_op : option Z; xcf_nmt_cn_soc_2_preq : Z; xcf_nmt_cn_dna : option
  XNmtCnDna
}.

Record XAddInfo : Type := mkXAddInfo {
  xai_name : bytes; xai_bit_offset : Z; xai_len : Z; xai_description : option bytes
}.

Record XErrorDefinition : Type := mkXErrorDefinition {
  xed_name : bytes; xed_value : bytes; xed_add_info : list XAddInfo
}.

Record XStaticErrorBit : Type := mkXStaticErrorBit {
  xeb_name : bytes; xeb_offset : Z; xeb_label : option bytes; xeb_description : option bytes
}.

Record XDiagnostic : Type := mkXDiagnostic {
  xd_errors : list XErrorDefinition; xd_static_error_bit_field : option (list XStaticErrorBit)
}.

Record XNetworkManagement : Type := mkXNetworkManagement {
  xn_general_features : XGeneralFeatures; xn_mn_features : option XMnFeatures; xn_cn_features :
  option XCnFeatures; xn_diagnostic : option XDiagnostic
}.

Record XProfileHeader : Type := mkXProfileHeader {
  xh_identification : bytes; xh_revision : bytes; xh_name : bytes; xh_source : bytes; xh_date :
  option bytes
}.

(** ** The schema ([model/common.rs], [model/header.rs]) *)

Record MLabel : Type := mkMLabel {
  ml_lang : bytes; ml_value : bytes
}.

Record MDescription : Type := mkMDescription {
  md_lang : bytes; md_uri : option bytes; md_value : bytes
}.

Record MLabelRef : Type := mkMLabelRef {
  mlr_dict_id : bytes; mlr_text_id : bytes; mlr_value : bytes
}.

Record MDescriptionRef : Type := mkMDescriptionRef {
  mdr_dict_id : bytes; mdr_text_id : bytes; mdr_value : bytes
}.

Inductive MLabelChoice : Type :=
| MLC_Label (l : MLabel) | MLC_Description (d : MDescription) | MLC_LabelRef (l : MLabelRef) |
  MLC_DescriptionRef (d : MDescriptionRef).

Record MGlabels : Type := mkMGlabels {
  mg_items : list MLabelChoice
}.

Inductive MProfileClassId : Type :=
| MAIP | MProcess | MInformationExchange | MResource | MDevice | MCommunicationNetwork |
  MEquipment | MHuman | MMaterial.

Record MIso15745Reference : Type := mkMIso15745Reference {
  mir_iso15745_part : Z; mir_iso15745_edition : Z; mir_profile_technology : bytes
}.

Record MIasInterfaceType : Type := mkMIasInterfaceType {
  mit_ias_interface_type : bytes
}.

Record MProfileHeader : Type := mkMProfileHeader {
  mh_profile_identification : bytes; mh_profile_revision : bytes; mh_profile_name : bytes;
  mh_profile_source : bytes; mh_profile_class_id : MProfileClassId; mh_profile_date : option
  bytes; mh_additional_information : option bytes; mh_iso15745_reference : option
  MIso15745Reference; mh_ias_interface_type : list MIasInterfaceType
}.

(** ** The schema of the object dictionary ([model/app_layers.rs]) *)

Inductive MObjectAccessType : Type :=
| MReadOnly | MWriteOnly | MReadWrite | MConstant.

Inductive MObjectPdoMapping : Type :=
| MPdoNo | MPdoDefault | MPdoOptional | MTpdo | MRpdo.

Record MSubObject : Type := mkMSubObject {
  ms_sub_index : bytes; ms_name : bytes; ms_object_type : bytes; ms_data_type : option bytes;
  ms_low_limit : option bytes; ms_high_limit : option bytes; ms_access_type : option
  MObjectAccessType; ms_default_value : option bytes; ms_actual_value : option bytes;
  ms_denotation : option bytes; ms_pdo_mapping : option MObjectPdoMapping; ms_obj_flags : option
  bytes; ms_unique_id_ref : option bytes
}.

Record MObject : Type := mkMObject {
  mo_index : bytes; mo_name : bytes; mo_object_type : bytes; mo_data_type : option bytes;
  mo_low_limit : option bytes; mo_high_limit : option bytes; mo_access_type : option
  MObjectAccessType; mo_default_value : option bytes; mo_actual_value : option bytes;
  mo_denotation : option bytes; mo_pdo_mapping : option MObjectPdoMapping; mo_obj_flags : option
  bytes; mo_unique_id_ref : option bytes; mo_range_selector : option bytes; mo_sub_object : list
  MSubObject
}.

Record MObjectList : Type := mkMObjectList {
  mol_object : list MObject
}.

Inductive DataTypeName : Type :=
| DT_Boolean | DT_Integer8 | DT_Integer16 | DT_Integer32 | DT_Unsigned8 | DT_Unsigned16 |
  DT_Unsigned32 | DT_Real32 | DT_VisibleString | DT_Integer24 | DT_Real64 | DT_Integer40 |
  DT_Integer48 | DT_Integer56 | DT_Integer64 | DT_OctetString | DT_UnicodeString | DT_TimeOfDay
  | DT_TimeDiff | DT_Domain | DT_Unsigned24 | DT_Unsigned40 | DT_Unsigned48 | DT_Unsigned56 |
  DT_Unsigned64 | DT_MacAddress | DT_IpAddress | DT_NETTIME.

Record MDefType : Type := mkMDefType {
  mdt_data_type : bytes; mdt_type_name : DataTypeName
}.

Record MDataTypeList : Type := mkMDataTypeList {
  mdl_def_type : list MDefType
}.

(** ** The schema of modular devices ([model/modular.rs]), communication profile *)

Inductive MSortMode : Type :=
| MSort_Index | MSort_Subindex.

Inductive MAddressingAttribute : Type :=
| MAddr_Continuous | MAddr_Address.

Record MRange : Type := mkMRange {
  mr_name : bytes; mr_base_index : bytes; mr_max_index : option bytes; mr_max_sub_index : bytes;
  mr_sort_mode : MSortMode; mr_sort_number : MAddressingAttribute; mr_sort_step : option bytes;
  mr_pdo_mapping : option MObjectPdoMapping
}.

Record MRangeList : Type := mkMRangeList {
  mrl_range : list MRange
}.

Record MInterfaceComm : Type := mkMInterfaceComm {
  mi_range_list : MRangeList; mi_unique_id_ref : bytes
}.

Record MInterfaceListComm : Type := mkMInterfaceListComm {
  mil_interface : list MInterfaceComm
}.

Record MModuleManagementComm : Type := mkMModuleManagementComm {
  mm_interface_list : MInterfaceListComm
}.

Record MApplicationLayers : Type := mkMApplicationLayers {
  mal_data_type_list : option MDataTypeList; mal_object_list : MObjectList;
  mal_module_management : option MModuleManagementComm
}.

(** ** The schema of the network management ([model/net_mgmt.rs]) *)

Inductive MCnFeaturesNmtCnDna : Type :=
| MDoNotClear | MClearOnPreOp1ToPreOp2 | MClearOnNmtResetNode.

Record MGeneralFeatures : Type := mkMGeneralFeatures {
  mgf_cfm_config_manager : option bool; mgf_dll_err_bad_phys_mode : option bool;
  mgf_dll_err_mac_buffer : option bool; mgf_dll_feature_cn : option bool; mgf_dll_feature_mn :
  bool; mgf_nmt_boot_time_not_active : bytes; mgf_nmt_cycle_time_granularity : option bytes;
  mgf_nmt_cycle_time_max : bytes; mgf_nmt_cycle_time_min : bytes; mgf_nmt_min_red_cycle_time :
  option bytes; mgf_nmt_emergency_queue_size : option bytes; mgf_nmt_error_entries : bytes;
  mgf_nmt_ext_nmt_cmds : option bool; mgf_nmt_flush_arp_entry : option bool; mgf_nmt_isochronous
  : option bool; mgf_nmt_net_host_name_set : option bool; mgf_nmt_max_cn_node_id : option bytes;
  mgf_nmt_max_cn_number : option bytes; mgf_nmt_max_heartbeats : option bytes;
  mgf_nmt_node_id_by_hw : option bool; mgf_nmt_node_id_by_sw : option bool; mgf_nmt_product_code
  : option bytes; mgf_nmt_publish_active_nodes : option bool; mgf_nmt_publish_config_nodes :
  option bool; mgf_nmt_publish_emergency_new : option bool; mgf_nmt_publish_node_state : option
  bool; mgf_nmt_publish_operational : option bool; mgf_nmt_publish_pre_op1 : option bool;
  mgf_nmt_publish_pre_op2 : option bool; mgf_nmt_publish_ready_to_op : option bool;
  mgf_nmt_publish_stopped : option bool; mgf_nmt_publish_time : option bool; mgf_nmt_revision_no
  : option bytes; mgf_nwl_forward : option bool; mgf_nwl_icmp_support : option bool;
  mgf_nwl_ip_support : option bool; mgf_pdo_dynamic_mapping : option bool; mgf_pdo_granularity :
  option bytes; mgf_pdo_max_descr_mem : option bytes; mgf_pdo_rpdo_channel_objects : option
  bytes; mgf_pdo_rpdo_channels : option bytes; mgf_pdo_rpdo_cycle_data_lim : option bytes;
  mgf_pdo_rpdo_overall_objects : option bytes; mgf_pdo_self_receipt : option bool;
  mgf_pdo_tpdo_channel_objects : option bytes; mgf_pdo_tpdo_cycle_data_lim : option bytes;
  mgf_pdo_tpdo_overall_objects : option bytes; mgf_phy_ext_epl_ports : option bytes;
  mgf_phy_hub_delay : option bytes; mgf_phy_hub_integrated : option bool; mgf_phy_hub_jitter :
  option bytes; mgf_rt1_rt1_security_support : option bool; mgf_rt1_rt1_support : option bool;
  mgf_rt2_rt2_support : option bool; mgf_sdo_client : option bool; mgf_sdo_cmd_file_read :
  option bool; mgf_sdo_cmd_file_write : option bool; mgf_sdo_cmd_link_name : option bool;
  mgf_sdo_cmd_read_all_by_index : option bool; mgf_sdo_cmd_read_by_name : option bool;
  mgf_sdo_cmd_read_mult_param : option bool; mgf_sdo_cmd_write_all_by_index : option bool;
  mgf_sdo_cmd_write_by_name : option bool; mgf_sdo_cmd_write_mult_param : option bool;
  mgf_sdo_max_connections : option bytes; mgf_sdo_max_parallel_connections : option bytes;
  mgf_sdo_seq_layer_tx_history_size : option bytes; mgf_sdo_server : option bool;
  mgf_sdo_support_asnd : option bool; mgf_sdo_support_pdo : option bool; mgf_sdo_support_udp_ip
  : option bool; mgf_dll_multiple_preq_pres : option bool
}.

Record MMnFeatures : Type := mkMMnFeatures {
  mmf_dll_err_mn_multiple_mn : option bool; mmf_dll_mn_feature_multiplex : option bool;
  mmf_dll_mn_pres_chaining : option bool; mmf_dll_mn_feature_pres_tx : option bool;
  mmf_nmt_mn_asnd_2_soc : bytes; mmf_nmt_mn_basic_ethernet : option bool;
  mmf_nmt_mn_multipl_cyc_max : option bytes; mmf_nmt_mn_pres_2_preq : bytes;
  mmf_nmt_mn_pres_2_pres : bytes; mmf_nmt_mn_pres_rx_2_soa : bytes; mmf_nmt_mn_pres_tx_2_soa :
  bytes; mmf_nmt_mn_soa_2_asnd_tx : bytes; mmf_nmt_mn_soc_2_preq : bytes; mmf_nmt_net_time :
  option bool; mmf_nmt_net_time_is_real_time : option bool; mmf_nmt_relative_time : option bool;
  mmf_nmt_service_udp_ip : option bool; mmf_nmt_simple_boot : bool; mmf_pdo_tpdo_channels :
  option bytes; mmf_nmt_mn_dna : option bool; mmf_nmt_mn_redundancy : option bool;
  mmf_dll_mn_ring_redundancy : option bool; mmf_nmt_mn_max_asynchronous_slots : option bytes
}.

Record MCnFeatures : Type := mkMCnFeatures {
  mcf_dll_cn_feature_multiplex : option bool; mcf_dll_cn_pres_chaining : option bool;
  mcf_nmt_cn_pre_op2_to_ready2_op : option bytes; mcf_nmt_cn_soc_2_preq : bytes;
  mcf_nmt_cn_set_node_number_time : option bytes; mcf_nmt_cn_dna : option MCnFeaturesNmtCnDna;
  mcf_nmt_cn_max_ainv : option bytes; mcf_dll_cn_loss_of_soc_tolerance_max : option bytes
}.

Record MDeviceCommissioning : Type := mkMDeviceCommissioning {
  mdc_network_name : bytes; mdc_node_id : bytes; mdc_node_name : bytes; mdc_node_type : bytes;
  mdc_used_network_interface : option bytes
}.

Record MAddInfoValue : Type := mkMAddInfoValue {
  maiv_value : bytes; maiv_name : bytes; maiv_labels : option MGlabels
}.

Record MAddInfo : Type := mkMAddInfo {
  mai_bit_offset : bytes; mai_len : bytes; mai_name : bytes; mai_labels : option MGlabels;
  mai_value : list MAddInfoValue
}.

Record MError : Type := mkMError {
  me_name : bytes; me_value : bytes; me_labels : option MGlabels; me_add_info : list MAddInfo
}.

Record MErrorList : Type := mkMErrorList {
  mel_error : list MError
}.

Record MErrorBit : Type := mkMErrorBit {
  meb_name : bytes; meb_offset : bytes; meb_labels : option MGlabels
}.

Record MStaticErrorBitField : Type := mkMStaticErrorBitField {
  msf_error_bit : list MErrorBit
}.

Record MDiagnostic : Type := mkMDiagnostic {
  mdg_error_list : option MErrorList; mdg_static_error_bit_field : option MStaticErrorBitField
}.

Record MNetworkManagement : Type := mkMNetworkManagement {
  mn_general_features : MGeneralFeatures; mn_mn_features : option MMnFeatures; mn_cn_features :
  option MCnFeatures; mn_device_commissioning : option MDeviceCommissioning; mn_diagnostic :
  option MDiagnostic
}.

(** ** The schema of the parameters ([model/app_process.rs]) that objects refer to *)

Inductive MParameterAccess : Type :=
| MPA_Const | MPA_Read | MPA_Write | MPA_ReadWrite | MPA_ReadWriteInput | MPA_ReadWriteOutput |
  MPA_NoAccess.

Inductive MParameterSupport : Type :=
| MPS_Mandatory | MPS_Optional | MPS_Conditional.

Record MDataTypeIDRef : Type := mkMDataTypeIDRef {
  mdi_unique_id_ref : bytes
}.

Record MInstanceIDRef : Type := mkMInstanceIDRef {
  mii_unique_id_ref : bytes
}.

Record MVariableIDRef : Type := mkMVariableIDRef {
  mvi_unique_id_ref : bytes
}.

Record MMemberRef : Type := mkMMemberRef {
  mmr_unique_id_ref : option bytes; mmr_index : option Z
}.

Record MVariableRef : Type := mkMVariableRef {
  mvr_instance_id_ref : list MInstanceIDRef; mvr_variable_id_ref : MVariableIDRef;
  mvr_member_ref : list MMemberRef; mvr_position : option Z
}.

Inductive MParameterDataType : Type :=
| PDT_BOOL | PDT_BITSTRING | PDT_BYTE | PDT_CHAR | PDT_WORD | PDT_DWORD | PDT_LWORD | PDT_SINT |
  PDT_INT | PDT_DINT | PDT_LINT | PDT_USINT | PDT_UINT | PDT_UDINT | PDT_ULINT | PDT_REAL |
  PDT_LREAL | PDT_STRING | PDT_WSTRING | PDT_DataTypeIDRef (r : MDataTypeIDRef) |
  PDT_VariableRef (r : MVariableRef).

Record MConditionalSupport : Type := mkMConditionalSupport {
  mcs_param_id_ref : bytes
}.

Record MDenotation : Type := mkMDenotation {
  mdn_labels : MGlabels
}.

Record MValue : Type := mkMValue {
  mv_labels : option MGlabels; mv_value : bytes; mv_offset : option bytes; mv_multiplier :
  option bytes
}.

Record MValueRange : Type := mkMValueRange {
  mvg_min_value : MValue; mvg_max_value : MValue; mvg_step : option MValue
}.

Record MAllowedValues : Type := mkMAllowedValues {
  mav_template_id_ref : option bytes; mav_value : list MValue; mav_range : list MValueRange
}.

Record MUnit : Type := mkMUnit {
  mu_labels : MGlabels; mu_multiplier : option bytes; mu_unit_uri : option bytes
}.

Record MProperty : Type := mkMProperty {
  mpr_name : bytes; mpr_value : bytes
}.

Record MParameter : Type := mkMParameter {
  mp_unique_id : bytes; mp_access : option MParameterAccess; mp_support : option
  MParameterSupport; mp_persistent : bool; mp_offset : option bytes; mp_multiplier : option
  bytes; mp_template_id_ref : option bytes; mp_labels : MGlabels; mp_data_type :
  MParameterDataType; mp_conditional_support : list MConditionalSupport; mp_denotation : option
  MDenotation; mp_actual_value : option MValue; mp_default_value : option MValue;
  mp_substitute_value : option MValue; mp_allowed_values : option MAllowedValues; mp_unit :
  option MUnit; mp_property : list MProperty
}.
