(* ===== verification/XdcResolve.v ===== *)
(** * Device descriptions: from the schema to the public structures

    [resolver/utils.rs], [resolver/header.rs], [resolver/od.rs], [resolver/net_mgmt.rs], the
    communication part of [resolver/modular.rs], and of [resolver/mod.rs] the value mode and the
    maps of templates and parameters.  A [BTreeMap] keyed by a string is a [gmap]: it is only
    looked up. *)
From S2P Require Import Prelude XdcText XdcTypes.

(** [collect::<Result<Vec<_>, _>>()], and [Option::map] followed by
    [transpose()?]. *)
Fixpoint collect {E A B} (f : A -> result E B) (l : list A) : result E (list B) :=
  match l with
  | [] => Ok []
  | x :: l => let? y := f x in let? ys := collect f l in Ok (y :: ys)
  end.
Definition transpose {E A B} (f : A -> result E B) (o : option A) : result E (option B) :=
  match o with None => Ok None | Some x => let? y := f x in Ok (Some y) end.
(** [Option::or]. *)
Definition or_else {A} (a b : option A) : option A := match a with Some _ => a | None => b end.

(** ** [resolver/utils.rs] *)
Definition extract_label (items : list MLabelChoice) : option bytes :=
  first_some (fun item => match item with MLC_Label l => Some (ml_value l) | _ => None end) items.
Definition extract_description (items : list MLabelChoice) : option bytes :=
  first_some (fun item => match item with MLC_Description d => Some (md_value d) | _ => None end) items.

Definition standard_types : list (bytes * DataTypeName) :=
  [(str "0001", DT_Boolean); (str "0002", DT_Integer8); (str "0003", DT_Integer16);
   (str "0004", DT_Integer32); (str "0005", DT_Unsigned8); (str "0006", DT_Unsigned16);
   (str "0007", DT_Unsigned32); (str "0008", DT_Real32); (str "0009", DT_VisibleString);
   (str "0010", DT_Integer24); (str "0011", DT_Real64); (str "0012", DT_Integer40);
   (str "0013", DT_Integer48); (str "0014", DT_Integer56); (str "0015", DT_Integer64);
   (str "000A", DT_OctetString); (str "000B", DT_UnicodeString); (str "000C", DT_TimeOfDay);
   (str "000D", DT_TimeDiff); (str "000F", DT_Domain); (str "0016", DT_Unsigned24);
   (str "0018", DT_Unsigned40); (str "0019", DT_Unsigned48); (str "001A", DT_Unsigned56);
   (str "001B", DT_Unsigned64); (str "0401", DT_MacAddress); (str "0402", DT_IpAddress);
   (str "0403", DT_NETTIME)].
Definition get_standard_type_from_hex (type_id : bytes) : option DataTypeName :=
  let id := unwrap_or (strip_prefix HEX_PREFIX type_id) type_id in
  first_some (fun e => if bool_decide (id = fst e) then Some (snd e) else None) standard_types.

Definition map_access_type (model : MObjectAccessType) : XParameterAccess :=
  match model with
  | MReadOnly => XReadOnly | MWriteOnly => XWriteOnly | MReadWrite => XReadWrite | MConstant => XConstant
  end.
Definition map_pdo_mapping (model : MObjectPdoMapping) : XObjectPdoMapping :=
  match model with
  | MPdoNo => XPdoNo | MPdoDefault => XPdoDefault | MPdoOptional => XPdoOptional
  | MTpdo => XTpdo | MRpdo => XRpdo
  end.
Definition map_param_access (model : MParameterAccess) : XParameterAccess :=
  match model with
  | MPA_Const => XConstant | MPA_Read => XReadOnly | MPA_Write => XWriteOnly
  | MPA_ReadWrite => XReadWrite | MPA_ReadWriteInput => XReadWriteInput
  | MPA_ReadWriteOutput => XReadWriteOutput | MPA_NoAccess => XNoAccess
  end.
Definition map_param_support (model : MParameterSupport) : XParameterSupport :=
  match model with
  | MPS_Mandatory => XMandatory | MPS_Optional => XOptional | MPS_Conditional => XConditional
  end.

(** ** [resolver/mod.rs] *)
Inductive ValueMode : Type := Mode_Actual | Mode_Default.

(** The value a mode prefers. *)
Definition preferred {A} (mode : ValueMode) (actual default : option A) : option A :=
  match mode with Mode_Actual => or_else actual default | Mode_Default => or_else default actual end.

Definition template_map (mode : ValueMode) (templates : list MParameter) : gmap bytes MValue :=
  foldl (fun m t => match preferred mode (mp_actual_value t) (mp_default_value t) with
                    | Some v => <[mp_unique_id t := v]> m
                    | None => m
                    end) ∅ templates.
Definition param_map (params : list MParameter) : gmap bytes MParameter :=
  foldl (fun m p => <[mp_unique_id p := p]> m) ∅ params.

(** ** [resolver/od.rs] *)
Record ResolvedAttributes : Type := mkResolvedAttributes {
  ra_access : option XParameterAccess; ra_support : option XParameterSupport; ra_persistent : bool;
  ra_allowed_values : option XAllowedValues; ra_data : option bytes; ra_data_type : option bytes
}.

Definition map_param_type_to_hex (dt : MParameterDataType) : option bytes :=
  match dt with
  | PDT_BOOL => Some (str "0001")
  | PDT_SINT => Some (str "0002")
  | PDT_INT => Some (str "0003")
  | PDT_DINT => Some (str "0004")
  | PDT_USINT | PDT_BYTE => Some (str "0005")
  | PDT_UINT | PDT_WORD => Some (str "0006")
  | PDT_UDINT | PDT_DWORD => Some (str "0007")
  | PDT_REAL => Some (str "0008")
  | PDT_STRING => Some (str "0009")
  | PDT_LINT => Some (str "0015")
  | PDT_ULINT | PDT_LWORD => Some (str "001B")
  | PDT_LREAL => Some (str "0011")
  | PDT_WSTRING => Some (str "000B")
  | _ => None
  end.

Definition resolve_allowed_values (model : MAllowedValues) : XAllowedValues :=
  mkXAllowedValues (mav_template_id_ref model)
    (map (fun v => mkXValue (mv_value v) (match mv_labels v with Some g => extract_label (mg_items g) | None => None end)
                     (mv_offset v) (mv_multiplier v)) (mav_value model))
    (map (fun r => mkXValueRange (mv_value (mvg_min_value r)) (mv_value (mvg_max_value r))
                     (option_map mv_value (mvg_step r))) (mav_range model)).

Definition apply_parameter_attributes (param : MParameter) (r : ResolvedAttributes) : ResolvedAttributes :=
  mkResolvedAttributes
    (match mp_access param with Some acc => Some (map_param_access acc) | None => ra_access r end)
    (match mp_support param with Some supp => Some (map_param_support supp) | None => ra_support r end)
    (mp_persistent param)
    (match mp_allowed_values param with
     | Some av => Some (resolve_allowed_values av) | None => ra_allowed_values r end)
    (ra_data r) (ra_data_type r).

Section Od.
Context (params : gmap bytes MParameter) (templates : gmap bytes MValue) (mode : ValueMode).

Definition resolve_value_from_param (param : MParameter) : option bytes :=
  or_else (option_map mv_value (preferred mode (mp_actual_value param) (mp_default_value param)))
    (mp_template_id_ref param ≫= fun template_id => option_map mv_value (templates !! template_id)).

(** The value a reference leads to. *)
Definition value_of_reference (id_ref : option bytes) : option bytes :=
  id_ref ≫= fun id => params !! id ≫= resolve_value_from_param.
Definition get_value_str_for_object (o : MObject) : option bytes :=
  or_else (preferred mode (mo_actual_value o) (mo_default_value o)) (value_of_reference (mo_unique_id_ref o)).
Definition get_value_str_for_subobject (s : MSubObject) (parent_unique_id_ref : option bytes)
    (sub_index : Z) : option bytes :=
  or_else (or_else (preferred mode (ms_actual_value s) (ms_default_value s))
                   (value_of_reference (ms_unique_id_ref s)))
    (if sub_index =? 0 then value_of_reference parent_unique_id_ref else None).

(** What a reference adds to the attributes of an object or sub-object. *)
Definition inherit (id_ref : option bytes) (r : ResolvedAttributes) : ResolvedAttributes :=
  match id_ref ≫= fun id => params !! id with
  | Some param =>
      let r := apply_parameter_attributes param r in
      mkResolvedAttributes (ra_access r) (ra_support r) (ra_persistent r) (ra_allowed_values r) (ra_data r)
        (match ra_data_type r with None => map_param_type_to_hex (mp_data_type param) | t => t end)
  | None => r
  end.
Definition with_data (data : option bytes) (r : ResolvedAttributes) : ResolvedAttributes :=
  mkResolvedAttributes (ra_access r) (ra_support r) (ra_persistent r) (ra_allowed_values r) data (ra_data_type r).

Definition resolve_object_attributes (o : MObject) : ResolvedAttributes :=
  let r := inherit (mo_unique_id_ref o)
    (mkResolvedAttributes (option_map map_access_type (mo_access_type o)) None false None None
       (mo_data_type o)) in
  if bool_decide (mo_object_type o = str "7") then with_data (get_value_str_for_object o) r else r.

Definition resolve_sub_object (parent_unique_id_ref : option bytes) (s : MSubObject) : xres XSubObject :=
  let? sub_index := ok_or (parse_hex_u8 (ms_sub_index s)) XdcError_from_ParseIntError in
  let r := inherit (ms_unique_id_ref s)
    (mkResolvedAttributes (option_map map_access_type (ms_access_type s)) None false None None
       (ms_data_type s)) in
  let r := with_data (get_value_str_for_subobject s parent_unique_id_ref sub_index) r in
  Ok (mkXSubObject sub_index (ms_name s) (ms_object_type s) (ra_data_type r) (ms_low_limit s)
        (ms_high_limit s) (ra_access r) (option_map map_pdo_mapping (ms_pdo_mapping s)) (ms_obj_flags s)
        (ra_support r) (ra_persistent r) (ra_allowed_values r) (ra_data r)).
Definition resolve_sub_objects (subs : list MSubObject) (parent_unique_id_ref : option bytes)
    : xres (list XSubObject) := collect (resolve_sub_object parent_unique_id_ref) subs.

Definition resolve_object (o : MObject) : xres XObject :=
  let? index := ok_or (parse_hex_u16 (mo_index o)) XdcError_from_ParseIntError in
  let attributes := resolve_object_attributes o in
  let? sub_objects := resolve_sub_objects (mo_sub_object o) (mo_unique_id_ref o) in
  Ok (mkXObject index (mo_name o) (mo_object_type o) (ra_data_type attributes) (mo_low_limit o)
        (mo_high_limit o) (ra_access attributes) (option_map map_pdo_mapping (mo_pdo_mapping o))
        (mo_obj_flags o) (ra_support attributes) (ra_persistent attributes)
        (ra_allowed_values attributes) (ra_data attributes) sub_objects).
Definition resolve_object_dictionary (app_layers : MApplicationLayers) : xres XObjectDictionary :=
  let? od_objects := collect resolve_object (mol_object (mal_object_list app_layers)) in
  Ok (mkXObjectDictionary od_objects).
End Od.

(** ** [resolver/header.rs] *)
Definition resolve_header (model : MProfileHeader) : XProfileHeader :=
  mkXProfileHeader (mh_profile_identification model) (mh_profile_revision model) (mh_profile_name model)
    (mh_profile_source model) (mh_profile_date model).

(** ** [resolver/modular.rs], communication profile *)
Definition resolve_range (model : MRange) : xres XRange :=
  let? base_index := ok_or (parse_hex_u16 (mr_base_index model)) XdcError_from_ParseIntError in
  let? max_index :=
    transpose (fun idx => ok_or (parse_hex_u16 idx) XdcError_from_ParseIntError) (mr_max_index model) in
  let? max_sub_index := ok_or (parse_hex_u8 (mr_max_sub_index model)) XdcError_from_ParseIntError in
  let sort_mode := match mr_sort_mode model with MSort_Index => str "index" | MSort_Subindex => str "subindex" end in
  let sort_number :=
    match mr_sort_number model with MAddr_Continuous => str "continuous" | MAddr_Address => str "address" end in
  let? sort_step :=
    transpose (fun s => ok_or (parse_unsigned 32 10 s) (InvalidAttributeFormat "range @sortStep"))
      (mr_sort_step model) in
  Ok (mkXRange (mr_name model) base_index max_index max_sub_index sort_mode sort_number sort_step
        (option_map map_pdo_mapping (mr_pdo_mapping model))).
Definition resolve_interface_comm (model : MInterfaceComm) : xres XInterfaceComm :=
  let? ranges := collect resolve_range (mrl_range (mi_range_list model)) in
  Ok (mkXInterfaceComm (mi_unique_id_ref model) ranges).
Definition resolve_module_management_comm (model : MModuleManagementComm) : xres XModuleManagementComm :=
  let? interfaces := collect resolve_interface_comm (mil_interface (mm_interface_list model)) in
  Ok (mkXModuleManagementComm interfaces).

(** ** [resolver/net_mgmt.rs] *)
Definition parse_u32_attr (s : option bytes) : Z := unwrap_or (s ≫= parse_unsigned 32 10) 0.

Definition resolve_add_info (ai : MAddInfo) : XAddInfo :=
  mkXAddInfo (mai_name ai) (unwrap_or (parse_unsigned 8 10 (mai_bit_offset ai)) 0)
    (unwrap_or (parse_unsigned 8 10 (mai_len ai)) 0)
    (mai_labels ai ≫= fun l => extract_description (mg_items l)).
Definition resolve_error (e : MError) : XErrorDefinition :=
  mkXErrorDefinition (me_name e) (me_value e) (map resolve_add_info (me_add_info e)).
Definition resolve_error_bit (b : MErrorBit) : XStaticErrorBit :=
  mkXStaticErrorBit (meb_name b) (unwrap_or (parse_unsigned 8 10 (meb_offset b)) 0)
    (meb_labels b ≫= fun l => extract_label (mg_items l))
    (meb_labels b ≫= fun l => extract_description (mg_items l)).
Definition resolve_diagnostic (model : MDiagnostic) : XDiagnostic :=
  mkXDiagnostic
    (match mdg_error_list model with Some l => map resolve_error (mel_error l) | None => [] end)
    (option_map (fun f => map resolve_error_bit (msf_error_bit f)) (mdg_static_error_bit_field model)).

Definition resolve_cn_dna (dna : MCnFeaturesNmtCnDna) : XNmtCnDna :=
  match dna with
  | MDoNotClear => XDoNotClear
  | MClearOnPreOp1ToPreOp2 => XClearOnPreOp1ToPreOp2
  | MClearOnNmtResetNode => XClearOnNmtResetNode
  end.
Definition resolve_general_features (g : MGeneralFeatures) : XGeneralFeatures :=
  {| xgf_dll_feature_mn := mgf_dll_feature_mn g;
     xgf_nmt_boot_time_not_active := parse_u32_attr (Some (mgf_nmt_boot_time_not_active g));
     xgf_nmt_cycle_time_max := parse_u32_attr (Some (mgf_nmt_cycle_time_max g));
     xgf_nmt_cycle_time_min := parse_u32_attr (Some (mgf_nmt_cycle_time_min g));
     xgf_nmt_error_entries := parse_u32_attr (Some (mgf_nmt_error_entries g));
     xgf_nmt_max_cn_number := mgf_nmt_max_cn_number g ≫= parse_unsigned 8 10;
     xgf_pdo_dynamic_mapping := mgf_pdo_dynamic_mapping g;
     xgf_sdo_client := mgf_sdo_client g;
     xgf_sdo_server := mgf_sdo_server g;
     xgf_sdo_support_asnd := mgf_sdo_support_asnd g;
     xgf_sdo_support_udp_ip := mgf_sdo_support_udp_ip g;
     xgf_nmt_isochronous := mgf_nmt_isochronous g;
     xgf_sdo_support_pdo := mgf_sdo_support_pdo g;
     xgf_nmt_ext_nmt_cmds := mgf_nmt_ext_nmt_cmds g;
     xgf_cfm_config_manager := mgf_cfm_config_manager g;
     xgf_nmt_node_id_by_sw := mgf_nmt_node_id_by_sw g;
     xgf_sdo_cmd_read_all_by_index := mgf_sdo_cmd_read_all_by_index g;
     xgf_sdo_cmd_write_all_by_index := mgf_sdo_cmd_write_all_by_index g;
     xgf_sdo_cmd_read_mult_param := mgf_sdo_cmd_read_mult_param g;
     xgf_sdo_cmd_write_mult_param := mgf_sdo_cmd_write_mult_param g;
     xgf_nmt_publish_active_nodes := mgf_nmt_publish_active_nodes g;
     xgf_nmt_publish_config_nodes := mgf_nmt_publish_config_nodes g |}.
Definition resolve_mn_features (mn : MMnFeatures) : XMnFeatures :=
  mkXMnFeatures (mmf_dll_mn_feature_multiplex mn) (mmf_dll_mn_pres_chaining mn) (mmf_nmt_simple_boot mn)
    (mmf_nmt_service_udp_ip mn) (mmf_nmt_mn_basic_ethernet mn).
Definition resolve_cn_features (cn : MCnFeatures) : XCnFeatures :=
  mkXCnFeatures (mcf_dll_cn_feature_multiplex cn) (mcf_dll_cn_pres_chaining cn)
    (mcf_nmt_cn_pre_op2_to_ready2_op cn ≫= parse_unsigned 32 10)
    (parse_u32_attr (Some (mcf_nmt_cn_soc_2_preq cn))) (option_map resolve_cn_dna (mcf_nmt_cn_dna cn)).
Definition resolve_network_management (model : MNetworkManagement) : XNetworkManagement :=
  mkXNetworkManagement (resolve_general_features (mn_general_features model))
    (option_map resolve_mn_features (mn_mn_features model))
    (option_map resolve_cn_features (mn_cn_features model))
    (option_map resolve_diagnostic (mn_diagnostic model)).
