(* ===== verification/XdcBuild.v ===== *)
(** * Device descriptions: from the public structures to the schema

    The communication profile of [builder/mod.rs], [builder/net_mgmt.rs] and the communication
    part of [builder/modular.rs].  The XML printer is third-party code. *)
From S2P Require Import Prelude Utf8 XdcText XdcTypes XdcResolve.

(** ** [builder/mod.rs] *)
Definition format_hex_u16 (val : Z) : bytes := format_radix 16 4 val.
Definition format_hex_u8 (val : Z) : bytes := format_radix 16 2 val.

Definition format_value_to_string (data : bytes) (data_type_id : option bytes) : xres bytes :=
  match from_utf8 data with Some s => Ok s | None => Err FmtError end.

Definition map_access_type_to_model (public : XParameterAccess) : MObjectAccessType :=
  match public with
  | XReadOnly => MReadOnly | XWriteOnly => MWriteOnly | XReadWrite => MReadWrite | XConstant => MConstant
  | XReadWriteInput => MReadWrite | XReadWriteOutput => MReadWrite | XNoAccess => MReadOnly
  end.
Definition map_pdo_mapping_to_model (public : XObjectPdoMapping) : MObjectPdoMapping :=
  match public with
  | XPdoNo => MPdoNo | XPdoDefault => MPdoDefault | XPdoOptional => MPdoOptional
  | XTpdo => MTpdo | XRpdo => MRpdo
  end.

Definition build_model_header (header : XProfileHeader) : MProfileHeader :=
  mkMProfileHeader (xh_identification header) (xh_revision header) (xh_name header) (xh_source header)
    MDevice (xh_date header) None None [].

Definition build_sub_object (s : XSubObject) : xres MSubObject :=
  let? actual_value := transpose (fun d => format_value_to_string d (xs_data_type s)) (xs_data s) in
  Ok (mkMSubObject (format_hex_u8 (xs_sub_index s)) (xs_name s) (xs_object_type s) (xs_data_type s)
        (xs_low_limit s) (xs_high_limit s) (option_map map_access_type_to_model (xs_access_type s)) None
        actual_value None (option_map map_pdo_mapping_to_model (xs_pdo_mapping s)) (xs_obj_flags s) None).
Definition build_object (o : XObject) : xres MObject :=
  let? model_sub_objects := collect build_sub_object (xo_sub_objects o) in
  let? object_actual_value := transpose (fun d => format_value_to_string d (xo_data_type o)) (xo_data o) in
  Ok (mkMObject (format_hex_u16 (xo_index o)) (xo_name o) (xo_object_type o) (xo_data_type o)
        (xo_low_limit o) (xo_high_limit o) (option_map map_access_type_to_model (xo_access_type o)) None
        object_actual_value None (option_map map_pdo_mapping_to_model (xo_pdo_mapping o)) (xo_obj_flags o)
        None None model_sub_objects).

(** ** [builder/modular.rs], communication profile *)
Definition build_model_range (public : XRange) : MRange :=
  mkMRange (xr_name public) (format_radix 16 4 (xr_base_index public))
    (option_map (format_radix 16 4) (xr_max_index public)) (format_radix 16 2 (xr_max_sub_index public))
    (if bool_decide (xr_sort_mode public = str "index") then MSort_Index
     else if bool_decide (xr_sort_mode public = str "subindex") then MSort_Subindex else MSort_Index)
    (if bool_decide (xr_sort_number public = str "continuous") then MAddr_Continuous
     else if bool_decide (xr_sort_number public = str "address") then MAddr_Address else MAddr_Continuous)
    (option_map to_string (xr_sort_step public))
    (option_map map_pdo_mapping_to_model (xr_pdo_mapping public)).
Definition build_interface_comm (i : XInterfaceComm) : MInterfaceComm :=
  mkMInterfaceComm (mkMRangeList (map build_model_range (xi_ranges i))) (xi_unique_id_ref i).
Definition build_model_module_management_comm (public : XModuleManagementComm) : MModuleManagementComm :=
  mkMModuleManagementComm (mkMInterfaceListComm (map build_interface_comm (xm_interfaces public))).

(** ** [builder/net_mgmt.rs] *)
Definition build_glabels (label description : option bytes) : option MGlabels :=
  let items :=
    match label with Some l => [MLC_Label (mkMLabel (str "en") l)] | None => [] end
    ++ match description with Some d => [MLC_Description (mkMDescription (str "en") None d)] | None => [] end in
  match items with [] => None | _ => Some (mkMGlabels items) end.
Definition build_model_add_info (public : XAddInfo) : MAddInfo :=
  mkMAddInfo (to_string (xai_bit_offset public)) (to_string (xai_len public)) (xai_name public)
    (build_glabels None (xai_description public)) [].
Definition build_model_error (public : XErrorDefinition) : MError :=
  mkMError (xed_name public) (xed_value public) None (map build_model_add_info (xed_add_info public)).
Definition build_model_error_bit (public : XStaticErrorBit) : MErrorBit :=
  mkMErrorBit (xeb_name public) (to_string (xeb_offset public))
    (build_glabels (xeb_label public) (xeb_description public)).
Definition build_model_diagnostic (public : XDiagnostic) : MDiagnostic :=
  mkMDiagnostic
    (match xd_errors public with [] => None | l => Some (mkMErrorList (map build_model_error l)) end)
    (option_map (fun bits => mkMStaticErrorBitField (map build_model_error_bit bits))
       (xd_static_error_bit_field public)).

Definition build_cn_dna (dna : XNmtCnDna) : MCnFeaturesNmtCnDna :=
  match dna with
  | XDoNotClear => MDoNotClear
  | XClearOnPreOp1ToPreOp2 => MClearOnPreOp1ToPreOp2
  | XClearOnNmtResetNode => MClearOnNmtResetNode
  end.
Definition build_general_features (g : XGeneralFeatures) : MGeneralFeatures :=
  {| mgf_cfm_config_manager := xgf_cfm_config_manager g; mgf_dll_err_bad_phys_mode := None;
     mgf_dll_err_mac_buffer := None; mgf_dll_feature_cn := None; mgf_dll_feature_mn :=
     xgf_dll_feature_mn g; mgf_nmt_boot_time_not_active := to_string (xgf_nmt_boot_time_not_active
     g); mgf_nmt_cycle_time_granularity := None; mgf_nmt_cycle_time_max := to_string
     (xgf_nmt_cycle_time_max g); mgf_nmt_cycle_time_min := to_string (xgf_nmt_cycle_time_min g);
     mgf_nmt_min_red_cycle_time := None; mgf_nmt_emergency_queue_size := None;
     mgf_nmt_error_entries := to_string (xgf_nmt_error_entries g); mgf_nmt_ext_nmt_cmds :=
     xgf_nmt_ext_nmt_cmds g; mgf_nmt_flush_arp_entry := None; mgf_nmt_isochronous :=
     xgf_nmt_isochronous g; mgf_nmt_net_host_name_set := None; mgf_nmt_max_cn_node_id := None;
     mgf_nmt_max_cn_number := option_map to_string (xgf_nmt_max_cn_number g);
     mgf_nmt_max_heartbeats := None; mgf_nmt_node_id_by_hw := None; mgf_nmt_node_id_by_sw :=
     xgf_nmt_node_id_by_sw g; mgf_nmt_product_code := None; mgf_nmt_publish_active_nodes :=
     xgf_nmt_publish_active_nodes g; mgf_nmt_publish_config_nodes := xgf_nmt_publish_config_nodes
     g; mgf_nmt_publish_emergency_new := None; mgf_nmt_publish_node_state := None;
     mgf_nmt_publish_operational := None; mgf_nmt_publish_pre_op1 := None; mgf_nmt_publish_pre_op2
     := None; mgf_nmt_publish_ready_to_op := None; mgf_nmt_publish_stopped := None;
     mgf_nmt_publish_time := None; mgf_nmt_revision_no := None; mgf_nwl_forward := None;
     mgf_nwl_icmp_support := None; mgf_nwl_ip_support := None; mgf_pdo_dynamic_mapping :=
     xgf_pdo_dynamic_mapping g; mgf_pdo_granularity := None; mgf_pdo_max_descr_mem := None;
     mgf_pdo_rpdo_channel_objects := None; mgf_pdo_rpdo_channels := None;
     mgf_pdo_rpdo_cycle_data_lim := None; mgf_pdo_rpdo_overall_objects := None;
     mgf_pdo_self_receipt := None; mgf_pdo_tpdo_channel_objects := None;
     mgf_pdo_tpdo_cycle_data_lim := None; mgf_pdo_tpdo_overall_objects := None;
     mgf_phy_ext_epl_ports := None; mgf_phy_hub_delay := None; mgf_phy_hub_integrated := None;
     mgf_phy_hub_jitter := None; mgf_rt1_rt1_security_support := None; mgf_rt1_rt1_support :=
     None; mgf_rt2_rt2_support := None; mgf_sdo_client := xgf_sdo_client g; mgf_sdo_cmd_file_read
     := None; mgf_sdo_cmd_file_write := None; mgf_sdo_cmd_link_name := None;
     mgf_sdo_cmd_read_all_by_index := xgf_sdo_cmd_read_all_by_index g; mgf_sdo_cmd_read_by_name :=
     None; mgf_sdo_cmd_read_mult_param := xgf_sdo_cmd_read_mult_param g;
     mgf_sdo_cmd_write_all_by_index := xgf_sdo_cmd_write_all_by_index g; mgf_sdo_cmd_write_by_name
     := None; mgf_sdo_cmd_write_mult_param := xgf_sdo_cmd_write_mult_param g;
     mgf_sdo_max_connections := None; mgf_sdo_max_parallel_connections := None;
     mgf_sdo_seq_layer_tx_history_size := None; mgf_sdo_server := xgf_sdo_server g;
     mgf_sdo_support_asnd := xgf_sdo_support_asnd g; mgf_sdo_support_pdo := xgf_sdo_support_pdo g;
     mgf_sdo_support_udp_ip := xgf_sdo_support_udp_ip g; mgf_dll_multiple_preq_pres := None |}.
Definition build_mn_features (f : XMnFeatures) : MMnFeatures :=
  {| mmf_dll_err_mn_multiple_mn := None; mmf_dll_mn_feature_multiplex := xmf_dll_mn_feature_multiplex
     f; mmf_dll_mn_pres_chaining := xmf_dll_mn_pres_chaining f; mmf_dll_mn_feature_pres_tx :=
     None; mmf_nmt_mn_asnd_2_soc := []; mmf_nmt_mn_basic_ethernet := xmf_nmt_mn_basic_ethernet f;
     mmf_nmt_mn_multipl_cyc_max := None; mmf_nmt_mn_pres_2_preq := []; mmf_nmt_mn_pres_2_pres :=
     []; mmf_nmt_mn_pres_rx_2_soa := []; mmf_nmt_mn_pres_tx_2_soa := []; mmf_nmt_mn_soa_2_asnd_tx
     := []; mmf_nmt_mn_soc_2_preq := []; mmf_nmt_net_time := None; mmf_nmt_net_time_is_real_time
     := None; mmf_nmt_relative_time := None; mmf_nmt_service_udp_ip := xmf_nmt_service_udp_ip f;
     mmf_nmt_simple_boot := xmf_nmt_simple_boot f; mmf_pdo_tpdo_channels := None; mmf_nmt_mn_dna
     := None; mmf_nmt_mn_redundancy := None; mmf_dll_mn_ring_redundancy := None;
     mmf_nmt_mn_max_asynchronous_slots := None |}.
Definition build_cn_features (f : XCnFeatures) : MCnFeatures :=
  {| mcf_dll_cn_feature_multiplex := xcf_dll_cn_feature_multiplex f; mcf_dll_cn_pres_chaining :=
     xcf_dll_cn_pres_chaining f; mcf_nmt_cn_pre_op2_to_ready2_op := option_map to_string
     (xcf_nmt_cn_pre_op2_to_ready2_op f); mcf_nmt_cn_soc_2_preq := to_string
     (xcf_nmt_cn_soc_2_preq f); mcf_nmt_cn_set_node_number_time := None; mcf_nmt_cn_dna :=
     option_map build_cn_dna (xcf_nmt_cn_dna f); mcf_nmt_cn_max_ainv := None;
     mcf_dll_cn_loss_of_soc_tolerance_max := None |}.
Definition build_model_network_management (public : XNetworkManagement) : MNetworkManagement :=
  mkMNetworkManagement (build_general_features (xn_general_features public))
    (option_map build_mn_features (xn_mn_features public))
    (option_map build_cn_features (xn_cn_features public)) None
    (option_map build_model_diagnostic (xn_diagnostic public)).

(** The communication profile: its header, its application layers and its
    network management; the other parts of its body are empty. *)
Definition build_comm_profile (header : XProfileHeader) (objects : XObjectDictionary)
    (network_management : option XNetworkManagement) (module_management_comm : option XModuleManagementComm)
    : xres (MProfileHeader * MApplicationLayers * option MNetworkManagement) :=
  let? model_objects := collect build_object (xod_objects objects) in
  Ok (build_model_header header,
      mkMApplicationLayers None (mkMObjectList model_objects)
        (option_map build_model_module_management_comm module_management_comm),
      option_map build_model_network_management network_management).
