(* ===== verification/XdcConvert.v ===== *)
(** * Device descriptions: the dictionary the stack runs with

    [converter.rs]: the object dictionary of [ObjectDict] from the public structures, the
    parameters for the storage, and the NMT settings. *)
From S2P Require Import Prelude Utf8 Types ErrorEntry ObjectDict.
From S2P Require Import XdcText XdcTypes XdcResolve.

(** ** NMT settings *)
Record NmtSettings : Type := mkNmtSettings {
  feature_flags : Z; boot_time_not_active : Z; cycle_time_min : Z; cycle_time_max : Z
}.

Definition insert_if (b : bool) (flag flags : Z) : Z := if b then FeatureFlags.insert flags flag else flags.

Definition extract_nmt_settings (network_management : option XNetworkManagement) : xres NmtSettings :=
  let? nm := ok_or network_management
               (XdcValidationError "XDC file missing required <NetworkManagement> block") in
  let gf := xn_general_features nm in
  let on o := unwrap_or o false in
  let flags := FeatureFlags.empty in
  let flags := insert_if (unwrap_or (xgf_nmt_isochronous gf) true) FeatureFlags.ISOCHRONOUS flags in
  let flags := insert_if (on (xgf_sdo_support_udp_ip gf)) FeatureFlags.SDO_UDP flags in
  let flags := insert_if (on (xgf_sdo_support_asnd gf)) FeatureFlags.SDO_ASND flags in
  let flags := insert_if (on (xgf_sdo_support_pdo gf)) FeatureFlags.SDO_PDO flags in
  let flags := insert_if (on (xgf_nmt_ext_nmt_cmds gf)) FeatureFlags.EXTENDED_NMT_CMDS flags in
  let flags := insert_if (unwrap_or (xgf_pdo_dynamic_mapping gf) true) FeatureFlags.DYNAMIC_PDO_MAPPING flags in
  let flags := insert_if (on (xgf_cfm_config_manager gf)) FeatureFlags.CONFIG_MANAGER flags in
  let flags := insert_if (on (xgf_nmt_node_id_by_sw gf)) FeatureFlags.NODE_ID_BY_SW flags in
  let flags := insert_if (on (xgf_sdo_cmd_read_all_by_index gf) || on (xgf_sdo_cmd_write_all_by_index gf))
                 FeatureFlags.SDO_RW_ALL_BY_INDEX flags in
  let flags := insert_if (on (xgf_sdo_cmd_read_mult_param gf) || on (xgf_sdo_cmd_write_mult_param gf))
                 FeatureFlags.SDO_RW_MULTIPLE_BY_INDEX flags in
  let flags :=
    match xn_mn_features nm with
    | None => flags
    | Some mnf =>
        let flags := insert_if (on (xmf_nmt_service_udp_ip mnf)) FeatureFlags.NMT_SERVICE_UDP flags in
        let flags := insert_if (unwrap_or (xmf_dll_mn_feature_multiplex mnf) true)
                       FeatureFlags.MULTIPLEXED_ACCESS flags in
        let flags := insert_if (on (xmf_nmt_mn_basic_ethernet mnf)) FeatureFlags.MN_BASIC_ETHERNET flags in
        insert_if (on (xgf_nmt_publish_active_nodes gf) || on (xgf_nmt_publish_config_nodes gf))
          FeatureFlags.NMT_INFO_SERVICES flags
    end in
  let flags :=
    match xn_cn_features nm with
    | None => flags
    | Some cnf => insert_if (on (xcf_dll_cn_feature_multiplex cnf)) FeatureFlags.MULTIPLEXED_ACCESS flags
    end in
  Ok (mkNmtSettings flags (xgf_nmt_boot_time_not_active gf) (xgf_nmt_cycle_time_min gf)
        (xgf_nmt_cycle_time_max gf)).

(** ** Values *)
Section Convert.
Context `{HexDecode}.

(** The macro [parse_num!]. *)
Definition parse_num (parse : Z -> bytes -> option Z) (variant : Z -> ObjectValue) (value_str : bytes)
    : xres (option ObjectValue) :=
  let s := trim value_str in
  let val :=
    if starts_with (str "0x") s || starts_with (str "0X") s then parse 16 (drop 2 s) else parse 10 s in
  match val with
  | Some v => Ok (Some (variant v))
  | None => Err (InvalidAttributeFormat "defaultValue or actualValue (numeric)")
  end.
Definition parse_real (parse : bytes -> option Z) (variant : Z -> ObjectValue) (attribute : string)
    (value_str : bytes) : xres (option ObjectValue) :=
  match parse value_str with Some v => Ok (Some (variant v)) | None => Err (InvalidAttributeFormat attribute) end.
Definition hex_string (value_str : bytes) : xres bytes :=
  ok_or (parse_hex_string value_str) XdcError_from_FromHexError.

Definition map_data_to_value (value_str : bytes) (data_type_id : option bytes) : xres (option ObjectValue) :=
  match data_type_id ≫= get_standard_type_from_hex with
  | None => Ok None
  | Some type_name =>
      match type_name with
      | DT_Boolean =>
          let s := trim value_str in
          if bool_decide (s = str "true") || bool_decide (s = str "1") then Ok (Some (OV_Boolean 1))
          else if bool_decide (s = str "false") || bool_decide (s = str "0") then Ok (Some (OV_Boolean 0))
          else Err (InvalidAttributeFormat "boolean value")
      | DT_Integer8 => parse_num (parse_signed 8) OV_Integer8 value_str
      | DT_Integer16 => parse_num (parse_signed 16) OV_Integer16 value_str
      | DT_Integer32 => parse_num (parse_signed 32) OV_Integer32 value_str
      | DT_Unsigned8 => parse_num (parse_unsigned 8) OV_Unsigned8 value_str
      | DT_Unsigned16 => parse_num (parse_unsigned 16) OV_Unsigned16 value_str
      | DT_Unsigned32 => parse_num (parse_unsigned 32) OV_Unsigned32 value_str
      | DT_Real32 => parse_real parse_f32 OV_Real32 "real32" value_str
      | DT_VisibleString => Ok (Some (OV_VisibleString value_str))
      | DT_OctetString => let? bytes := hex_string value_str in Ok (Some (OV_OctetString bytes))
      | DT_Domain => let? bytes := hex_string value_str in Ok (Some (OV_Domain bytes))
      | DT_Real64 => parse_real parse_f64 OV_Real64 "real64" value_str
      | DT_Integer64 => parse_num (parse_signed 64) OV_Integer64 value_str
      | DT_Unsigned64 => parse_num (parse_unsigned 64) OV_Unsigned64 value_str
      | DT_MacAddress =>
          let? bytes := hex_string value_str in
          if negb (length bytes =? 6)%nat then Err (XdcValidationError "Invalid MAC address length")
          else Ok (Some (OV_MacAddress bytes))
      | DT_IpAddress =>
          let? bytes := hex_string value_str in
          if negb (length bytes =? 4)%nat then Err (XdcValidationError "Invalid IP address length")
          else Ok (Some (OV_IpAddress bytes))
      | _ => Ok None
      end
  end.

(** [data.map(map_data_to_value).transpose()?.flatten()]. *)
Definition data_value (data : option bytes) (data_type : option bytes) : xres (option ObjectValue) :=
  match data with None => Ok None | Some d => map_data_to_value d data_type end.

(** ** Objects *)
Definition sub_object_size (subs : list XSubObject) : nat :=
  let count_from_idx0 :=
    List.find (fun s => xs_sub_index s =? 0) subs ≫= fun s => xs_data s ≫= parse_unsigned 64 10 in
  match count_from_idx0 with
  | Some c => Z.to_nat c
  | None => Z.to_nat (foldl Z.max 0 (map xs_sub_index subs))
  end.
Fixpoint fill_sub_values (missing : string) (subs : list XSubObject) (sub_values : list ObjectValue)
    : xres (list ObjectValue) :=
  match subs with
  | [] => Ok sub_values
  | s :: subs =>
      if xs_sub_index s =? 0 then fill_sub_values missing subs sub_values
      else
        let? value := data_value (xs_data s) (xs_data_type s) in
        let? value := ok_or value (XdcValidationError missing) in
        fill_sub_values missing subs (<[Z.to_nat (xs_sub_index s - 1) := value]> sub_values)
  end.
Definition object_sub_values (missing : string) (subs : list XSubObject) : xres (list ObjectValue) :=
  fill_sub_values missing subs (replicate (sub_object_size subs) (OV_Unsigned8 0)).

Definition map_object (obj : XObject) : xres Object :=
  if bool_decide (xo_object_type obj = str "7") then
    let? value := data_value (xo_data obj) (xo_data_type obj) in
    let? value := ok_or value (XdcValidationError "VAR object (7) missing data or dataType") in
    Ok (Obj_Variable value)
  else if bool_decide (xo_object_type obj = str "8") then
    let? values := object_sub_values "Array sub-object missing data" (xo_sub_objects obj) in Ok (Obj_Array values)
  else if bool_decide (xo_object_type obj = str "9") then
    let? values := object_sub_values "Record sub-object missing data" (xo_sub_objects obj) in Ok (Obj_Record values)
  else Err (XdcValidationError "Unknown objectType").

(** ** Attributes *)
Definition convert_access_type (access : XParameterAccess) : AccessType :=
  match access with
  | XConstant => Constant | XReadOnly => ReadOnly | XWriteOnly => WriteOnly | XReadWrite => ReadWrite
  | XReadWriteInput => ReadWrite | XReadWriteOutput => ReadWrite | XNoAccess => ReadOnly
  end.
Definition convert_pdo_mapping (mapping : XObjectPdoMapping) : PdoMapping :=
  match mapping with
  | XPdoNo => Pdo_No | XPdoDefault => Pdo_Default | XPdoOptional => Pdo_Optional
  | XTpdo => Pdo_Optional | XRpdo => Pdo_Optional
  end.
Definition map_support_to_category (support : option XParameterSupport) : Category :=
  match support with
  | Some XMandatory => Cat_Mandatory | Some XOptional => Cat_Optional
  | Some XConditional => Cat_Conditional | None => Cat_Optional
  end.

Definition parse_string_to_value (s data_type_id : bytes) : option ObjectValue :=
  match map_data_to_value s (Some data_type_id) with Ok v => v | Err _ => None end.
Definition value_range_of (low high : bytes) (dt_id : bytes) : option ValueRange :=
  match parse_string_to_value low dt_id, parse_string_to_value high dt_id with
  | Some min_val, Some max_val => Some (mkValueRange min_val max_val)
  | _, _ => None
  end.
Definition resolve_value_range (low_limit high_limit : option bytes) (allowed_values : option XAllowedValues)
    (data_type_id : option bytes) : option ValueRange :=
  match data_type_id with
  | None => None
  | Some dt_id =>
      or_else
        (match low_limit, high_limit with
         | Some low, Some high => value_range_of low high dt_id
         | _, _ => None
         end)
        (allowed_values ≫= fun av => head (xav_ranges av) ≫= fun r =>
           value_range_of (xvr_min_value r) (xvr_max_value r) dt_id)
  end.

(** ** The dictionary and the storage *)
Definition core_entry (obj : XObject) : xres ObjectEntry :=
  let? core_object := map_object obj in
  let value_range := resolve_value_range (xo_low_limit obj) (xo_high_limit obj) (xo_allowed_values obj)
                       (xo_data_type obj) in
  let? default_value := data_value (xo_data obj) (xo_data_type obj) in
  Ok (mkObjectEntry core_object (string_of_bytes (xo_name obj)) (map_support_to_category (xo_support obj))
        (option_map convert_access_type (xo_access_type obj)) default_value value_range
        (option_map convert_pdo_mapping (xo_pdo_mapping obj))).
Fixpoint insert_objects {S} (objs : list XObject) (core_od : ObjectDictionary S) : xres (ObjectDictionary S) :=
  match objs with
  | [] => Ok core_od
  | obj :: objs =>
      let? entry := core_entry obj in insert_objects objs (insert_entry core_od (xo_index obj) entry)
  end.
Definition to_core_od {S} (dictionary : XObjectDictionary) : xres (ObjectDictionary S) :=
  insert_objects (xod_objects dictionary) (ObjectDictionary_new None).

(** One parameter: it needs data and a known data type. *)
Definition store_value (key : Z * Z) (data data_type : option bytes) (map : gmap (Z * Z) ObjectValue)
    : xres (gmap (Z * Z) ObjectValue) :=
  match data, data_type with
  | Some d, Some t =>
      let? value := map_data_to_value d (Some t) in
      Ok (match value with Some v => <[key := v]> map | None => map end)
  | _, _ => Ok map
  end.
Fixpoint store_sub_values (index : Z) (subs : list XSubObject) (map : gmap (Z * Z) ObjectValue)
    : xres (gmap (Z * Z) ObjectValue) :=
  match subs with
  | [] => Ok map
  | s :: subs =>
      let? map := store_value (index, xs_sub_index s) (xs_data s) (xs_data_type s) map in
      store_sub_values index subs map
  end.
Fixpoint store_objects (objs : list XObject) (map : gmap (Z * Z) ObjectValue)
    : xres (gmap (Z * Z) ObjectValue) :=
  match objs with
  | [] => Ok map
  | obj :: objs =>
      let? map :=
        if bool_decide (xo_object_type obj = str "7")
        then store_value (xo_index obj, 0) (xo_data obj) (xo_data_type obj) map
        else store_sub_values (xo_index obj) (xo_sub_objects obj) map in
      store_objects objs map
  end.
Definition xdc_to_storage_map (dictionary : XObjectDictionary) : xres (gmap (Z * Z) ObjectValue) :=
  store_objects (xod_objects dictionary) ∅.
End Convert.
