(* ===== verification/XdcRoundtrip.v ===== *)
(** * Device descriptions: saving and loading

    What [builder/] writes, [resolver/] reads back, and the dictionary that [converter.rs] makes
    of it.  The XML text in between belongs to third-party code. *)
From S2P Require Import Prelude Utf8 Types ErrorEntry ObjectDict.
From S2P Require Import XdcText XdcTypes XdcResolve XdcBuild XdcConvert.

Lemma collect_map {E A B} (f : A -> result E B) (g : A -> B) l :
  Forall (fun x => f x = Ok (g x)) l -> collect f l = Ok (map g l).
Proof. induction 1 as [|x l Hx _ IH]; [done|]. cbn [collect map]. by rewrite Hx, IH. Qed.
Lemma collect_compose {E A B C} (f : A -> result E B) (h : B -> result E C) (g : A -> C) l :
  Forall (fun x => exists y, f x = Ok y /\ h y = Ok (g x)) l ->
  exists ys, collect f l = Ok ys /\ collect h ys = Ok (map g l).
Proof.
  induction 1 as [|x l (y & Hy & Hg) _ (ys & IH1 & IH2)]; [by exists []|].
  exists (y :: ys). cbn [collect map]. by rewrite Hy, IH1, Hg, IH2.
Qed.

(** ** What a saved file keeps *)

(** [String]s are UTF-8, and the numbers fit their types. *)
Definition text_ok (o : option bytes) : Prop := match o with Some d => utf8_valid d = true | None => True end.
Definition opt_width (w : Z) (o : option Z) : Prop := match o with Some n => in_width w n | None => True end.
Definition sub_ok (s : XSubObject) : Prop := in_width 8 (xs_sub_index s) /\ text_ok (xs_data s).
Definition object_ok (o : XObject) : Prop :=
  in_width 16 (xo_index o) /\ text_ok (xo_data o) /\ Forall sub_ok (xo_sub_objects o).

(** The object that is read back: the access type is one of the four of the
    schema; support, persistence and allowed values are lost, and so is the
    data of an object that is no variable. *)
Definition saved_access (a : XParameterAccess) : XParameterAccess := map_access_type (map_access_type_to_model a).
Definition saved_sub (s : XSubObject) : XSubObject :=
  mkXSubObject (xs_sub_index s) (xs_name s) (xs_object_type s) (xs_data_type s) (xs_low_limit s)
    (xs_high_limit s) (option_map saved_access (xs_access_type s)) (xs_pdo_mapping s) (xs_obj_flags s)
    None false None (xs_data s).
Definition saved_object (o : XObject) : XObject :=
  mkXObject (xo_index o) (xo_name o) (xo_object_type o) (xo_data_type o) (xo_low_limit o) (xo_high_limit o)
    (option_map saved_access (xo_access_type o)) (xo_pdo_mapping o) (xo_obj_flags o) None false None
    (if bool_decide (xo_object_type o = str "7") then xo_data o else None) (map saved_sub (xo_sub_objects o)).
Definition saved_dictionary (d : XObjectDictionary) : XObjectDictionary :=
  mkXObjectDictionary (map saved_object (xod_objects d)).

Lemma saved_pdo p : option_map map_pdo_mapping (option_map map_pdo_mapping_to_model p) = p.
Proof. by destruct p as [[]|]. Qed.
Lemma formatted_text o t : text_ok o -> transpose (fun d => format_value_to_string d t) o = Ok o.
Proof.
  destruct o as [d|]; [|done]. intros Hd. cbn [transpose text_ok] in *.
  unfold format_value_to_string, from_utf8. by rewrite Hd.
Qed.
Lemma option_map_map {A B C} (f : B -> C) (g : A -> B) (o : option A) :
  option_map f (option_map g o) = option_map (fun x => f (g x)) o.
Proof. by destruct o. Qed.

Section Dictionary.
Context (params : gmap bytes MParameter) (templates : gmap bytes MValue) (mode : ValueMode).

Lemma preferred_actual {A} (a : option A) : preferred mode a None = a.
Proof. by destruct mode, a. Qed.

Lemma sub_roundtrip s : sub_ok s ->
  exists m, build_sub_object s = Ok m /\ resolve_sub_object params templates mode None m = Ok (saved_sub s).
Proof.
  intros [Hi Ht]. unfold build_sub_object. rewrite formatted_text by done. eexists. split; [done|].
  unfold resolve_sub_object, saved_sub. cbn. unfold format_hex_u8. rewrite parse_hex_format_u8 by done. cbn.
  rewrite saved_pdo, option_map_map. unfold get_value_str_for_subobject. cbn. rewrite preferred_actual.
  f_equal. f_equal. destruct (xs_data s); cbn; [done|by destruct (_ =? 0)].
Qed.

Lemma object_roundtrip o : object_ok o ->
  exists m, build_object o = Ok m /\ resolve_object params templates mode m = Ok (saved_object o).
Proof.
  intros (Hi & Ht & Hs). unfold build_object.
  destruct (collect_compose build_sub_object (resolve_sub_object params templates mode None) saved_sub
              (xo_sub_objects o)) as (ms & Hms & Hres).
  { eapply Forall_impl; [exact Hs|]. intros s. apply sub_roundtrip. }
  rewrite Hms, formatted_text by done. eexists. split; [done|].
  unfold resolve_object, saved_object. cbn. unfold format_hex_u16. rewrite parse_hex_format_u16 by done. cbn.
  unfold resolve_sub_objects. rewrite Hres, saved_pdo.
  unfold resolve_object_attributes. cbn. rewrite option_map_map.
  case_bool_decide; cbn; [|done]. unfold get_value_str_for_object. cbn. rewrite preferred_actual.
  by destruct (xo_data o).
Qed.

Lemma dictionary_roundtrip objs : Forall object_ok objs -> exists ms, collect build_object objs = Ok ms /\
  collect (resolve_object params templates mode) ms = Ok (map saved_object objs).
Proof.
  intros H. apply collect_compose. eapply Forall_impl; [exact H|]. intros o. apply object_roundtrip.
Qed.
End Dictionary.

(** ** Modular devices and network management *)

(** A name outside its list is written as the default. *)
Definition one_of (names : list bytes) (default name : bytes) : bytes :=
  if bool_decide (name ∈ names) then name else default.

(** The chain of comparisons of a builder, and the name its result is read back as. *)
Lemma one_of_here a names default name :
  one_of (a :: names) default name = if bool_decide (name = a) then a else one_of names default name.
Proof. unfold one_of. repeat case_bool_decide; set_solver. Qed.
Lemma one_of_none default name : one_of [] default name = default.
Proof. done. Qed.
#[export] Hint Rewrite one_of_here one_of_none : names.
Ltac by_name := autorewrite with names; repeat case_bool_decide; reflexivity.

Definition saved_range (r : XRange) : XRange :=
  mkXRange (xr_name r) (xr_base_index r) (xr_max_index r) (xr_max_sub_index r)
    (one_of [str "index"; str "subindex"] (str "index") (xr_sort_mode r))
    (one_of [str "continuous"; str "address"] (str "continuous") (xr_sort_number r))
    (xr_sort_step r) (xr_pdo_mapping r).
Definition saved_interface_comm (i : XInterfaceComm) : XInterfaceComm :=
  mkXInterfaceComm (xi_unique_id_ref i) (map saved_range (xi_ranges i)).
Definition saved_modules (m : XModuleManagementComm) : XModuleManagementComm :=
  mkXModuleManagementComm (map saved_interface_comm (xm_interfaces m)).

Definition range_ok (r : XRange) : Prop :=
  in_width 16 (xr_base_index r) /\ opt_width 16 (xr_max_index r) /\ in_width 8 (xr_max_sub_index r) /\
  opt_width 32 (xr_sort_step r).
Definition modules_ok (m : XModuleManagementComm) : Prop :=
  Forall (fun i => Forall range_ok (xi_ranges i)) (xm_interfaces m).

Lemma formatted_opt {E} (parse : bytes -> option Z) (format : Z -> bytes) (e : E) w o :
  (forall n, in_width w n -> parse (format n) = Some n) -> opt_width w o ->
  transpose (fun s => ok_or (parse s) e) (option_map format o) = Ok o.
Proof. intros Hp. destruct o as [n|]; [|done]. intros Hn. cbn. by rewrite Hp. Qed.

Lemma range_roundtrip r : range_ok r -> resolve_range (build_model_range r) = Ok (saved_range r).
Proof.
  intros (H1 & H2 & H3 & H6). unfold resolve_range, build_model_range, saved_range. cbn.
  rewrite parse_hex_format_u16 by done. cbn. rewrite (formatted_opt _ _ _ 16 _ parse_hex_format_u16 H2).
  rewrite parse_hex_format_u8 by done. cbn.
  rewrite (formatted_opt _ _ _ 32 _ (fun n => parse_to_string 32 n ltac:(lia)) H6), saved_pdo.
  f_equal. f_equal; by_name.
Qed.

Lemma modules_roundtrip m : modules_ok m ->
  resolve_module_management_comm (build_model_module_management_comm m) = Ok (saved_modules m).
Proof.
  destruct m as [l]. intros Hl. unfold modules_ok in Hl. cbn in Hl.
  unfold resolve_module_management_comm, build_model_module_management_comm, saved_modules. cbn.
  assert (collect resolve_interface_comm (map build_interface_comm l) = Ok (map saved_interface_comm l)) as ->; [|done].
  induction Hl as [|i l Hi _ IH]; [done|]. cbn [map collect].
  assert (resolve_interface_comm (build_interface_comm i) = Ok (saved_interface_comm i)) as ->; [|by rewrite IH].
  destruct i as [u rs]. unfold resolve_interface_comm, build_interface_comm, saved_interface_comm. cbn.
  assert (collect resolve_range (map build_model_range rs) = Ok (map saved_range rs)) as ->; [|done].
  cbn in Hi. clear IH. induction Hi as [|r rs Hr _ IH]; [done|]. cbn [map collect].
  by rewrite range_roundtrip, IH.
Qed.

Definition add_info_ok (a : XAddInfo) : Prop := in_width 8 (xai_bit_offset a) /\ in_width 8 (xai_len a).
Definition diagnostic_ok (d : XDiagnostic) : Prop :=
  Forall (fun e => Forall add_info_ok (xed_add_info e)) (xd_errors d) /\
  match xd_static_error_bit_field d with Some l => Forall (fun b => in_width 8 (xeb_offset b)) l | None => True end.
Definition general_ok (g : XGeneralFeatures) : Prop :=
  in_width 32 (xgf_nmt_boot_time_not_active g) /\ in_width 32 (xgf_nmt_cycle_time_max g) /\
  in_width 32 (xgf_nmt_cycle_time_min g) /\ in_width 32 (xgf_nmt_error_entries g) /\
  opt_width 8 (xgf_nmt_max_cn_number g).
Definition cn_features_ok (f : XCnFeatures) : Prop :=
  opt_width 32 (xcf_nmt_cn_pre_op2_to_ready2_op f) /\ in_width 32 (xcf_nmt_cn_soc_2_preq f).
Definition network_ok (n : XNetworkManagement) : Prop :=
  general_ok (xn_general_features n) /\
  match xn_cn_features n with Some f => cn_features_ok f | None => True end /\
  match xn_diagnostic n with Some d => diagnostic_ok d | None => True end.

Lemma parsed_u32 n : in_width 32 n -> parse_u32_attr (Some (to_string n)) = n.
Proof. intros Hn. unfold parse_u32_attr. cbn. by rewrite parse_to_string. Qed.
Lemma parsed_opt w o : 1 <= w <= 64 -> opt_width w o -> option_map to_string o ≫= parse_unsigned w 10 = o.
Proof. intros Hw. destruct o as [n|]; [|done]. intros Hn. cbn. by rewrite parse_to_string. Qed.

Lemma glabels_label l d : (build_glabels l d ≫= fun g => extract_label (mg_items g)) = l.
Proof. by destruct l, d. Qed.
Lemma glabels_description l d : (build_glabels l d ≫= fun g => extract_description (mg_items g)) = d.
Proof. by destruct l, d. Qed.

Lemma map_id_Forall {A B} (f : A -> B) (g : B -> A) (Q : A -> Prop) l :
  (forall x, Q x -> g (f x) = x) -> Forall Q l -> map g (map f l) = l.
Proof. intros H. induction 1 as [|x l Hx _ IH]; [done|]. cbn. by rewrite H, IH. Qed.

Lemma add_info_roundtrip a : add_info_ok a -> resolve_add_info (build_model_add_info a) = a.
Proof.
  intros [H1 H2]. unfold resolve_add_info, build_model_add_info. cbn.
  rewrite !parse_to_string, glabels_description by done. by destruct a.
Qed.
Lemma error_roundtrip e : Forall add_info_ok (xed_add_info e) -> resolve_error (build_model_error e) = e.
Proof.
  intros H. unfold resolve_error, build_model_error. cbn.
  rewrite (map_id_Forall _ _ _ _ add_info_roundtrip H). by destruct e.
Qed.
Lemma error_bit_roundtrip b : in_width 8 (xeb_offset b) -> resolve_error_bit (build_model_error_bit b) = b.
Proof.
  intros H. unfold resolve_error_bit, build_model_error_bit. cbn.
  rewrite parse_to_string, glabels_label, glabels_description by done. by destruct b.
Qed.
Lemma diagnostic_roundtrip d : diagnostic_ok d -> resolve_diagnostic (build_model_diagnostic d) = d.
Proof.
  intros [H1 H2]. unfold resolve_diagnostic, build_model_diagnostic. cbn. destruct d as [es bits]. cbn in *.
  f_equal.
  - destruct es as [|e es]; [done|]. cbn [mel_error].
    change (build_model_error e :: _) with (map build_model_error (e :: es)). by apply (map_id_Forall _ _ _ _ error_roundtrip).
  - destruct bits as [l|]; [|done]. cbn. f_equal. by apply (map_id_Forall _ _ _ _ error_bit_roundtrip).
Qed.

Lemma network_roundtrip n : network_ok n -> resolve_network_management (build_model_network_management n) = n.
Proof.
  intros (Hg & Hc & Hd). destruct n as [g mn cn dg]. cbn in *.
  unfold resolve_network_management, build_model_network_management. cbn. f_equal.
  - destruct Hg as (H1 & H2 & H3 & H4 & H5). unfold resolve_general_features, build_general_features. cbn.
    rewrite !parsed_u32, parsed_opt by done. by destruct g.
  - by destruct mn as [[]|].
  - destruct cn as [f|]; [|done]. destruct Hc as [H1 H2]. cbn. f_equal.
    unfold resolve_cn_features, build_cn_features. cbn. rewrite parsed_u32, parsed_opt by done.
    destruct f as [? ? ? ? dna]. cbn. f_equal. by destruct dna as [[]|].
  - destruct dg as [d|]; [|done]. cbn. f_equal. by apply diagnostic_roundtrip.
Qed.

(** ** The dictionary the stack runs with *)

(** What the stack uses of an entry at run time. *)
Definition runtime (e : ObjectEntry) : Object * string * option AccessType * option PdoMapping :=
  (object e, name e, access e, pdo_mapping e).

Section Run.
Context `{HexDecode}.

Lemma saved_access_core a :
  option_map convert_access_type (option_map saved_access a) = option_map convert_access_type a.
Proof. by destruct a as [[]|]. Qed.

Lemma fill_saved msg subs : forall l,
  fill_sub_values msg (map saved_sub subs) l = fill_sub_values msg subs l.
Proof.
  induction subs as [|s subs IH]; intros l; [done|]. cbn [map fill_sub_values].
  cbn [saved_sub xs_sub_index xs_data xs_data_type]. destruct (_ =? 0); [apply IH|].
  destruct (data_value _ _) as [v|]; [|done]. destruct (ok_or _ _); [|done]. apply IH.
Qed.
Lemma size_saved subs : sub_object_size (map saved_sub subs) = sub_object_size subs.
Proof.
  unfold sub_object_size. rewrite map_map. cbn [saved_sub xs_sub_index].
  assert ((List.find (fun s => xs_sub_index s =? 0) (map saved_sub subs) ≫= fun s => xs_data s ≫= parse_unsigned 64 10)
    = (List.find (fun s => xs_sub_index s =? 0) subs ≫= fun s => xs_data s ≫= parse_unsigned 64 10)) as ->; [|done].
  induction subs as [|s subs IH]; [done|]. cbn [map List.find saved_sub xs_sub_index].
  by destruct (_ =? 0).
Qed.
Lemma map_object_saved o : map_object (saved_object o) = map_object o.
Proof.
  unfold map_object. cbn [saved_object xo_object_type xo_data xo_data_type xo_sub_objects].
  case_bool_decide; [done|]. unfold object_sub_values. by rewrite size_saved, !fill_saved.
Qed.

Lemma core_entry_saved o e : core_entry o = Ok e ->
  exists e', core_entry (saved_object o) = Ok e' /\ runtime e' = runtime e.
Proof.
  unfold core_entry. rewrite map_object_saved. destruct (map_object o) as [c|]; [|done].
  cbn [saved_object xo_data xo_data_type]. destruct (data_value (xo_data o) (xo_data_type o)) as [v|] eqn:Ev; [|done].
  intros [= <-].
  assert (exists v', data_value (if bool_decide (xo_object_type o = str "7") then xo_data o else None)
                       (xo_data_type o) = Ok v') as [v' ->].
  { case_bool_decide; [by exists v|by exists None]. }
  eexists. split; [done|]. unfold runtime. cbn. by rewrite saved_access_core.
Qed.

Lemma core_od_saved {S} objs : forall d d2 r : ObjectDictionary S,
  runtime <$> entries d2 = runtime <$> entries d -> insert_objects objs d = Ok r ->
  exists r2, insert_objects (map saved_object objs) d2 = Ok r2 /\ runtime <$> entries r2 = runtime <$> entries r.
Proof.
  induction objs as [|o objs IH]; intros d d2 r Hd; cbn [insert_objects map].
  { intros [= <-]. by exists d2. }
  destruct (core_entry o) as [e|] eqn:Ee; [|done]. destruct (core_entry_saved o e Ee) as (e' & -> & Hr).
  apply IH. unfold insert_entry, set_entries. cbn [entries saved_object xo_index].
  by rewrite !fmap_insert, Hd, Hr.
Qed.

Lemma storage_saved objs : forall m, store_objects (map saved_object objs) m = store_objects objs m.
Proof.
  assert (Hs : forall i subs m, store_sub_values i (map saved_sub subs) m = store_sub_values i subs m).
  { intros i subs. induction subs as [|s subs IH]; intros m; [done|]. cbn [map store_sub_values].
    cbn [saved_sub xs_sub_index xs_data xs_data_type]. destruct (store_value _ _ _ _); [apply IH|done]. }
  induction objs as [|o objs IH]; intros m; [done|]. cbn [map store_objects].
  cbn [saved_object xo_object_type xo_index xo_data xo_data_type xo_sub_objects].
  case_bool_decide; [destruct (store_value _ _ _ _); [apply IH|done]|].
  rewrite Hs. destruct (store_sub_values _ _ _); [apply IH|done].
Qed.
End Run.

(** ** Its values fit their types *)
Section FloatRange.
Context (p emin inf quiet_nan sign_bit : Z).

Lemma digits_value_pos l : Forall (fun c => is_digit c = true) l -> 0 <= digits_value l.
Proof.
  unfold digits_value. assert (H : forall acc, 0 <= acc -> Forall (fun c => is_digit c = true) l ->
    0 <= foldl (fun acc c => 10 * acc + (c - 48)) acc l).
  { induction l as [|c l IH]; intros acc Ha Hl; [done|]. inversion_clear Hl as [|? ? Hc Hl']. cbn [foldl].
    apply IH; [|done]. unfold is_digit in Hc. apply andb_prop in Hc as [Hc _]. lia. }
  by apply H.
Qed.
Lemma span_digits_ok l : Forall (fun c => is_digit c = true) (fst (span_digits l)).
Proof.
  induction l as [|c l IH]; [constructor|]. cbn [span_digits]. destruct (is_digit c) eqn:E; [|constructor].
  destruct (span_digits l) as [ds r]. by constructor.
Qed.
Lemma round_half_even_pos num den : 0 <= num -> 0 < den -> 0 <= round_half_even num den.
Proof.
  intros Hn Hd. unfold round_half_even. pose proof (Z.div_pos num den Hn Hd). cbv zeta. destruct (_ || _); lia.
Qed.

Hypotheses (Hp : 1 <= p) (Hinf : 0 <= inf).
Lemma round_float_range num den : 0 <= num -> 0 < den -> 0 <= round_float p emin inf num den <= inf.
Proof.
  intros Hn Hd. unfold round_float. destruct (num =? 0); [lia|]. cbv zeta.
  match goal with |- context [Z.max ?a emin] => generalize (Z.max_spec a emin); generalize (Z.max a emin) as k end.
  intros k Hk. assert (emin <= k) by lia.
  assert (0 <= round_half_even (num * 2 ^ Z.max 0 (- k)) (den * 2 ^ Z.max 0 k)).
  { apply round_half_even_pos; [|apply Z.mul_pos_pos; [done|apply Z.pow_pos_nonneg; lia]].
    apply Z.mul_nonneg_nonneg; [done|apply Z.pow_nonneg; lia]. }
  assert (0 <= (k - emin) * 2 ^ (p - 1)) by (apply Z.mul_nonneg_nonneg; [lia|apply Z.pow_nonneg; lia]).
  lia.
Qed.
Lemma parse_number_range l v : parse_number p emin inf l = Some v -> 0 <= v <= inf.
Proof.
  unfold parse_number. pose proof (span_digits_ok l) as H1. destruct (span_digits l) as [whole l1]. cbn [fst] in H1.
  assert (H2 : Forall (fun c => is_digit c = true) (fst (span_fraction l1))).
  { unfold span_fraction. destruct l1 as [|c r]; [constructor|].
    destruct (c =? 46); [apply span_digits_ok|constructor]. }
  destruct (span_fraction l1) as [fraction l2]. cbn [fst] in H2.
  assert (Hds : Forall (fun c => is_digit c = true) (whole ++ fraction)) by (by apply Forall_app).
  destruct (whole ++ fraction) as [|c ds] eqn:E; [done|].
  destruct (parse_exponent l2); [|done]. intros [= <-]. apply round_float_range.
  - apply Z.mul_nonneg_nonneg; [by apply digits_value_pos|apply Z.pow_nonneg; lia].
  - apply Z.pow_pos_nonneg; lia.
Qed.
Lemma parse_float_range s v : inf <= quiet_nan -> quiet_nan < sign_bit ->
  parse_float p emin inf quiet_nan sign_bit s = Some v -> 0 <= v < 2 * sign_bit.
Proof.
  intros Hq Hs. unfold parse_float. destruct (split_sign s) as [negative l].
  assert (H : forall x, parse_magnitude p emin inf quiet_nan l = Some x -> 0 <= x <= quiet_nan).
  { intros x. unfold parse_magnitude. cbv zeta. destruct (_ || _); [intros [= <-]; lia|].
    destruct (bool_decide _); [intros [= <-]; lia|]. intros E. apply parse_number_range in E. lia. }
  destruct (parse_magnitude _ _ _ _ l) as [x|]; [|done]. specialize (H x eq_refl).
  destruct negative; intros [= <-]; lia.
Qed.
End FloatRange.

Section WellFormed.
Context `{HD : HexDecode} `{HL : !HexDecodeLaws}.
Definition string_ok (d : bytes) : Prop := bytes_ok d /\ utf8_valid d = true.
Definition data_ok (o : option bytes) : Prop := match o with Some d => string_ok d | None => True end.

Lemma parse_hex_string_ok s l : parse_hex_string s = Some l -> bytes_ok l.
Proof. unfold parse_hex_string. destruct (negb _); intros H; by apply hex_decode_ok in H as [? _]. Qed.

Lemma parse_num_ok parse variant s v : (forall r t n, parse r t = Some n -> value_ok (variant n)) ->
  parse_num parse variant s = Ok (Some v) -> value_ok v.
Proof.
  intros Hp. unfold parse_num. destruct (if _ : bool then _ else _) as [n|] eqn:E; [|done]. intros [= <-].
  destruct (_ || _); by eapply Hp.
Qed.
Lemma parse_unsigned_ok w r t n : 1 <= w -> parse_unsigned w r t = Some n -> in_width w n.
Proof.
  intros Hw E. apply from_str_radix_range in E; [unfold in_width; lia|].
  pose proof (Z.pow_pos_nonneg 2 w ltac:(lia) ltac:(lia)). lia.
Qed.
Lemma parse_signed_ok w r t n : 1 <= w -> parse_signed w r t = Some n -> in_signed w n.
Proof.
  intros Hw E. pose proof (Z.pow_pos_nonneg 2 (w - 1) ltac:(lia) ltac:(lia)).
  apply from_str_radix_range in E; [unfold in_signed; lia|lia].
Qed.

Lemma map_data_ok d t v : string_ok d -> map_data_to_value d t = Ok (Some v) -> value_ok v.
Proof.
  intros Hd. unfold map_data_to_value. destruct (t ≫= _) as [ty|]; [|done].
  assert (HU : forall w var, 1 <= w -> (forall n, in_width w n -> value_ok (var n)) ->
    parse_num (parse_unsigned w) var d = Ok (Some v) -> value_ok v).
  { intros w var Hw Hv. apply parse_num_ok. intros r s n E. by apply Hv, (parse_unsigned_ok w r s n). }
  assert (HS : forall w var, 1 <= w -> (forall n, in_signed w n -> value_ok (var n)) ->
    parse_num (parse_signed w) var d = Ok (Some v) -> value_ok v).
  { intros w var Hw Hv. apply parse_num_ok. intros r s n E. by apply Hv, (parse_signed_ok w r s n). }
  destruct ty; try done.
  - destruct (_ || _); [intros [= <-]; split; lia|]. destruct (_ || _); [intros [= <-]; split; lia|done].
  - by apply HS.
  - by apply HS.
  - by apply HS.
  - by apply HU.
  - by apply HU.
  - by apply HU.
  - unfold parse_real. destruct (parse_f32 d) as [x|] eqn:E; [|done]. intros [= <-].
    apply parse_float_range in E; [exact E|lia..].
  - by intros [= <-].
  - unfold parse_real. destruct (parse_f64 d) as [x|] eqn:E; [|done]. intros [= <-].
    apply parse_float_range in E; [exact E|lia..].
  - by apply HS.
  - unfold hex_string. destruct (parse_hex_string d) as [l|] eqn:E; [|done]. intros [= <-].
    by apply parse_hex_string_ok in E.
  - unfold hex_string. destruct (parse_hex_string d) as [l|] eqn:E; [|done]. intros [= <-].
    by apply parse_hex_string_ok in E.
  - by apply HU.
  - unfold hex_string. destruct (parse_hex_string d) as [l|] eqn:E; [|done]. cbn.
    destruct (Nat.eqb_spec (length l) 6); [|done]. intros [= <-]. split; [done|]. by apply parse_hex_string_ok in E.
  - unfold hex_string. destruct (parse_hex_string d) as [l|] eqn:E; [|done]. cbn.
    destruct (Nat.eqb_spec (length l) 4); [|done]. intros [= <-]. split; [done|]. by apply parse_hex_string_ok in E.
Qed.
Lemma data_value_ok d t v : data_ok d -> data_value d t = Ok (Some v) -> value_ok v.
Proof. destruct d as [d|]; [|done]. apply map_data_ok. Qed.

Lemma fill_ok msg subs : Forall (fun s => data_ok (xs_data s)) subs -> forall l r,
  Forall value_ok l -> fill_sub_values msg subs l = Ok r -> Forall value_ok r.
Proof.
  induction 1 as [|s subs Hs _ IH]; intros l r Hl; cbn [fill_sub_values]; [by intros [= <-]|].
  destruct (_ =? 0); [by apply IH|].
  destruct (data_value _ _) as [[v|]|] eqn:Ev; [|done|done]. cbn [ok_or]. apply IH.
  apply Forall_insert; [done|]. by eapply data_value_ok.
Qed.

Lemma map_object_ok o e : data_ok (xo_data o) -> Forall (fun s => data_ok (xs_data s)) (xo_sub_objects o) ->
  map_object o = Ok e -> Forall value_ok (object_values e).
Proof.
  intros Hd Hs. unfold map_object.
  assert (Hv : forall msg l, object_sub_values msg (xo_sub_objects o) = Ok l -> Forall value_ok l).
  { intros msg l. unfold object_sub_values. apply fill_ok; [done|]. apply Forall_replicate. split; lia. }
  case_bool_decide; [|case_bool_decide; [|case_bool_decide; [|done]]].
  - destruct (data_value _ _) as [[v|]|] eqn:Ev; [|done|done]. intros [= <-].
    constructor; [by eapply data_value_ok|constructor].
  - destruct (object_sub_values _ _) as [l|] eqn:El; [|done]. intros [= <-]. by eapply Hv.
  - destruct (object_sub_values _ _) as [l|] eqn:El; [|done]. intros [= <-]. by eapply Hv.
Qed.

Lemma insert_objects_ok {S} objs :
  Forall (fun o => data_ok (xo_data o) /\ Forall (fun s => data_ok (xs_data s)) (xo_sub_objects o)) objs ->
  forall d r : ObjectDictionary S, od_wf d -> insert_objects objs d = Ok r -> od_wf r.
Proof.
  induction 1 as [|o objs [Hd Hs] _ IH]; intros d r Hw; cbn [insert_objects]; [by intros [= <-]|].
  unfold core_entry. destruct (map_object o) as [c|] eqn:Ec; [|done].
  destruct (data_value _ _) as [v|]; [|done]. apply IH. unfold od_wf, insert_entry, set_entries. cbn [entries].
  apply map_Forall_insert_2; [|done]. cbn [object]. by eapply map_object_ok.
Qed.
End WellFormed.

(** ** Where the values end up *)
Section Lookup.
Context `{HexDecode}.

Lemma insert_other {S} objs i : i ∉ map xo_index objs -> forall d r : ObjectDictionary S,
  insert_objects objs d = Ok r -> entries r !! i = entries d !! i.
Proof.
  induction objs as [|o objs IH]; intros Hi d r; cbn [insert_objects]; [by intros [= <-]|].
  cbn [map] in Hi. apply not_elem_of_cons in Hi as [Hne Hi].
  destruct (core_entry o) as [e|]; [|done]. intros E. rewrite (IH Hi _ _ E).
  unfold insert_entry, set_entries. cbn [entries]. by rewrite lookup_insert_ne.
Qed.
Lemma insert_lookup {S} objs o : NoDup (map xo_index objs) -> o ∈ objs -> forall d r : ObjectDictionary S,
  insert_objects objs d = Ok r -> exists e, core_entry o = Ok e /\ entries r !! xo_index o = Some e.
Proof.
  induction objs as [|x objs IH]; intros Hnd Ho d r; [by apply not_elem_of_nil in Ho|].
  cbn [map insert_objects] in *. apply NoDup_cons in Hnd as [Hx Hnd].
  destruct (core_entry x) as [e|] eqn:Ee; [|done]. intros E. apply elem_of_cons in Ho as [->|Ho].
  - exists e. split; [done|]. rewrite (insert_other objs _ Hx _ _ E).
    unfold insert_entry, set_entries. cbn [entries]. by rewrite lookup_insert_eq.
  - by eapply IH.
Qed.

Lemma store_value_other k i s d t m r : k <> (i, s) -> store_value (i, s) d t m = Ok r -> r !! k = m !! k.
Proof.
  intros Hk. unfold store_value. destruct d as [d|], t as [t|]; try (by intros [= <-]).
  destruct (map_data_to_value d (Some t)) as [[v|]|]; [|by intros [= <-]|done].
  intros [= <-]. by rewrite lookup_insert_ne.
Qed.
Lemma store_sub_other k i subs : fst k <> i -> forall m r, store_sub_values i subs m = Ok r -> r !! k = m !! k.
Proof.
  intros Hk. induction subs as [|s subs IH]; intros m r; cbn [store_sub_values]; [by intros [= <-]|].
  destruct (store_value _ _ _ _) as [m1|] eqn:E1; [|done]. intros E. rewrite (IH _ _ E).
  eapply store_value_other; [|exact E1]. intros ->. done.
Qed.
Lemma store_other k objs : fst k ∉ map xo_index objs -> forall m r, store_objects objs m = Ok r -> r !! k = m !! k.
Proof.
  induction objs as [|o objs IH]; intros Hi m r; cbn [store_objects]; [by intros [= <-]|].
  cbn [map] in Hi. apply not_elem_of_cons in Hi as [Hne Hi]. case_bool_decide.
  - destruct (store_value _ _ _ _) as [m1|] eqn:E1; [|done]. intros E. rewrite (IH Hi _ _ E).
    eapply store_value_other; [|exact E1]. intros ->. done.
  - destruct (store_sub_values _ _ _) as [m1|] eqn:E1; [|done]. intros E. rewrite (IH Hi _ _ E).
    by eapply store_sub_other.
Qed.
Lemma store_lookup objs o v : NoDup (map xo_index objs) -> o ∈ objs -> xo_object_type o = str "7" ->
  data_value (xo_data o) (xo_data_type o) = Ok (Some v) -> forall m r,
  store_objects objs m = Ok r -> r !! (xo_index o, 0) = Some v.
Proof.
  intros Hnd Ho Ht Hv. induction objs as [|x objs IH]; intros m r; [by apply not_elem_of_nil in Ho|].
  cbn [map store_objects] in *. apply NoDup_cons in Hnd as [Hx Hnd]. apply elem_of_cons in Ho as [<-|Ho].
  - rewrite bool_decide_eq_true_2 by done. unfold store_value.
    destruct (xo_data o) as [d|]; [|done]. cbn [data_value] in Hv.
    destruct (xo_data_type o) as [t|]; [|done]. rewrite Hv. intros E.
    rewrite (store_other (xo_index o, 0) objs Hx _ _ E). by rewrite lookup_insert_eq.
  - destruct (if _ : bool then _ else _) as [m1|]; [|done]. by apply IH.
Qed.
End Lookup.

(** A decoder of hexadecimal text. *)
Fixpoint decode_pairs (l : bytes) : option bytes :=
  match l with
  | [] => Some []
  | [_] => None
  | a :: b :: l =>
      match to_digit 16 a, to_digit 16 b, decode_pairs l with
      | Some x, Some y, Some r => Some (16 * x + y :: r)
      | _, _, _ => None
      end
  end.
#[export] Instance demo_decode : HexDecode := decode_pairs.
Lemma to_digit_range c d : to_digit 16 c = Some d -> 0 <= d < 16.
Proof. unfold to_digit. repeat case_match; intros [= <-]; lia. Qed.
#[export] Instance demo_decode_laws : HexDecodeLaws.
Proof.
  intros s. unfold hex_decode, demo_decode. induction s as [s IH] using (induction_ltof1 _ length).
  unfold ltof in IH. destruct s as [|a [|b s]]; intros l; cbn [decode_pairs];
    [intros [= <-]; split; [constructor|done]|done|].
  destruct (to_digit 16 a) as [x|] eqn:Ea; [|done]. destruct (to_digit 16 b) as [y|] eqn:Eb; [|done].
  destruct (decode_pairs s) as [r|] eqn:Er; [|done]. intros [= <-].
  destruct (IH s ltac:(simpl; lia) r Er) as [H1 H2]. apply to_digit_range in Ea, Eb. split.
  - constructor; [unfold byte_ok, in_width; change (2 ^ 8) with 256; lia|done].
  - cbn [length]. lia.
Qed.

Definition demo_description : XObjectDictionary := mkXObjectDictionary
  [mkXObject 0x1000 (str "NMT_DeviceType_U32") (str "7") (Some (str "0007")) None None (Some XConstant)
     (Some XPdoNo) None (Some XMandatory) false None (Some (str "0x000F0191")) [];
   mkXObject 0x1018 (str "NMT_IdentityObject_REC") (str "9") None None None (Some XReadOnly) None None None
     false None None
     [mkXSubObject 0 (str "NumberOfEntries") (str "7") (Some (str "0005")) None None None None None None false
        None (Some (str "2"));
      mkXSubObject 1 (str "VendorId_U32") (str "7") (Some (str "0007")) None None (Some XNoAccess) None None None
        false None (Some (str " 26 "));
      mkXSubObject 2 (str "ProductCode_U32") (str "7") (Some (str "0007")) None None None None None None false
        None (Some (str "0x00001234"))]].

Definition all_text (d : XObjectDictionary) : Prop :=
  Forall (fun o => data_ok (xo_data o) /\ Forall (fun s => data_ok (xs_data s)) (xo_sub_objects o)) (xod_objects d).

(** ** Properties *)

(** The communication profile that is built from a description is read back as [saved_dictionary]
    says, with the network management as it was and the modular ranges as [saved_modules] says. *)
Lemma comm_profile_loads header dictionary network modules params templates mode :
  Forall object_ok (xod_objects dictionary) ->
  match network with Some n => network_ok n | None => True end ->
  match modules with Some m => modules_ok m | None => True end ->
  exists layers nm, build_comm_profile header dictionary network modules = Ok (build_model_header header, layers, nm) /\
    resolve_object_dictionary params templates mode layers = Ok (saved_dictionary dictionary) /\
    option_map resolve_network_management nm = network /\
    transpose resolve_module_management_comm (mal_module_management layers) = Ok (option_map saved_modules modules).
Proof.
  intros Ho Hn Hm. destruct (dictionary_roundtrip params templates mode _ Ho) as (ms & Hms & Hres).
  unfold build_comm_profile. rewrite Hms. do 2 eexists. split; [done|].
  unfold resolve_object_dictionary. cbn [mal_object_list mol_object mal_module_management].
  rewrite Hres. split; [done|]. split.
  - destruct network as [n|]; [|done]. cbn. by rewrite network_roundtrip.
  - destruct modules as [m|]; [|done]. cbn. by rewrite modules_roundtrip.
Qed.

(** The dictionary made from a device description is a dictionary of the stack: every value
    fits the type it is tagged with, so the invariant that all the operations of the dictionary
    preserve holds when the node starts; and a variable of the description reads as the value
    its text stands for, the one that is also stored for it. *)
Theorem core_od_well_formed {S} `{HexDecodeLaws} dictionary (d : ObjectDictionary S) :
  all_text dictionary -> to_core_od dictionary = Ok d ->
  od_wf d /\
  (forall o, NoDup (map xo_index (xod_objects dictionary)) -> o ∈ xod_objects dictionary ->
     xo_object_type o = str "7" ->
     exists v, data_value (xo_data o) (xo_data_type o) = Ok (Some v) /\ read d (xo_index o) 0 = Some v /\
       (forall m, xdc_to_storage_map dictionary = Ok m -> m !! (xo_index o, 0) = Some v)).
Proof.
  intros Ht Hd. split.
  - eapply insert_objects_ok; [exact Ht| |exact Hd]. apply map_Forall_empty.
  - intros o Hnd Ho H7. destruct (insert_lookup _ o Hnd Ho _ _ Hd) as (e & He & Hl).
    unfold core_entry, map_object in He. rewrite bool_decide_eq_true_2 in He by done.
    destruct (data_value (xo_data o) (xo_data_type o)) as [[v|]|] eqn:Ev; [|done|done].
    cbn [ok_or] in He. injection He as <-. exists v. split; [done|]. split.
    + unfold read. by rewrite Hl.
    + intros m. by apply (store_lookup _ o v).
Qed.

Lemma core_od_well_formed_witness :
  exists d : ObjectDictionary MemStorage, to_core_od demo_description = Ok d /\
    od_wf d /\ read d 0x1000 0 = Some (OV_Unsigned32 0x000F0191) /\ read d 0x1018 1 = Some (OV_Unsigned32 26).
Proof.
  destruct (to_core_od (S := MemStorage) demo_description) as [d|] eqn:Ed; [|vm_compute in Ed; discriminate].
  exists d. split; [reflexivity|]. split.
  - apply (core_od_well_formed demo_description d); [|exact Ed].
    repeat constructor; vm_compute; first [reflexivity | discriminate | split; (reflexivity || discriminate)].
  - assert (match to_core_od (S := MemStorage) demo_description with
            | Ok d => (read d 0x1000 0, read d 0x1018 1) | Err _ => (None, None) end
            = (Some (OV_Unsigned32 0x000F0191), Some (OV_Unsigned32 26))) as H by (vm_compute; reflexivity).
    rewrite Ed in H. injection H as H1 H2. split; [exact H1|exact H2].
Defined.
