(* ===== verification/XdcDevice.v ===== *)
(** * Device descriptions: the data of the device profile

    The structures of the crate [powerlink-rs-xdc] that describe the device itself - identity,
    functions, indicators, modules and the application process - and the whole file: the public
    ones of [types.rs] (prefix [X]) and those of [model/] (prefix [M]), as in [XdcTypes]. *)
From S2P Require Import Prelude XdcText XdcTypes.

(** ** Identity *)

Record XVersion : Type := mkXVersion {
  xver_version_type : bytes; xver_value : bytes
}.

Record XIdentity : Type := mkXIdentity {
  xid_vendor_name : bytes; xid_vendor_id : Z; xid_vendor_text : option bytes; xid_device_family
  : option bytes; xid_product_family : option bytes; xid_product_name : bytes; xid_product_id :
  Z; xid_product_text : option bytes; xid_order_number : list bytes; xid_versions : list
  XVersion; xid_build_date : option bytes; xid_specification_revision : option bytes;
  xid_instance_name : option bytes
}.

Record MReadOnlyString : Type := mkMReadOnlyString {
  mro_read_only : bool; mro_value : bytes
}.

Record MInstanceName : Type := mkMInstanceName {
  min_read_only : bool; min_value : bytes
}.

Record MAttributedGlabels : Type := mkMAttributedGlabels {
  mag_items : list MLabelChoice; mag_read_only : bool
}.

Record MVersion : Type := mkMVersion {
  mver_version_type : bytes; mver_read_only : bool; mver_value : bytes
}.

Record MDeviceIdentity : Type := mkMDeviceIdentity {
  mident_vendor_name : MReadOnlyString; mident_vendor_id : option MReadOnlyString;
  mident_vendor_text : option MAttributedGlabels; mident_device_family : option
  MAttributedGlabels; mident_product_family : option MReadOnlyString; mident_product_name :
  MReadOnlyString; mident_product_id : option MReadOnlyString; mident_product_text : option
  MAttributedGlabels; mident_order_number : list MReadOnlyString; mident_version : list
  MVersion; mident_build_date : option bytes; mident_specification_revision : option
  MReadOnlyString; mident_instance_name : option MInstanceName
}.

(** ** Functions of the device *)

Record XCharacteristic : Type := mkXCharacteristic {
  xch_name : bytes; xch_content : list bytes
}.

Record XCharacteristicList : Type := mkXCharacteristicList {
  xcl_category : option bytes; xcl_characteristics : list XCharacteristic
}.

Record XStandardCompliance : Type := mkXStandardCompliance {
  xsc_name : bytes; xsc_range : bytes; xsc_description : option bytes
}.

Record XCapabilities : Type := mkXCapabilities {
  xca_characteristics : list XCharacteristicList; xca_standard_compliance : list
  XStandardCompliance
}.

Record XPicture : Type := mkXPicture {
  xpi_uri : bytes; xpi_picture_type : bytes; xpi_number : option Z; xpi_label : option bytes;
  xpi_description : option bytes
}.

Record XDictionary : Type := mkXDictionary {
  xdi_uri : bytes; xdi_lang : bytes; xdi_dict_id : bytes
}.

Record XConnector : Type := mkXConnector {
  xco_id : bytes; xco_connector_type : bytes; xco_interface_id_ref : option bytes; xco_label :
  option bytes; xco_description : option bytes
}.

Record XFirmware : Type := mkXFirmware {
  xfw_uri : bytes; xfw_device_revision_number : Z; xfw_build_date : option bytes; xfw_label :
  option bytes; xfw_description : option bytes
}.

Record XClassification : Type := mkXClassification {
  xcn_value : bytes
}.

Record XDeviceFunction : Type := mkXDeviceFunction {
  xdf_capabilities : option XCapabilities; xdf_pictures : list XPicture; xdf_dictionaries : list
  XDictionary; xdf_connectors : list XConnector; xdf_firmware_list : list XFirmware;
  xdf_classifications : list XClassification
}.

Record MCategory : Type := mkMCategory {
  mca_labels : MGlabels
}.

Record MCharacteristicName : Type := mkMCharacteristicName {
  mcn_items : list MLabelChoice
}.

Record MCharacteristicContent : Type := mkMCharacteristicContent {
  mcc_items : list MLabelChoice; mcc_value : option bytes
}.

Record MCharacteristic : Type := mkMCharacteristic {
  mch_characteristic_name : MCharacteristicName; mch_characteristic_content : list
  MCharacteristicContent
}.

Record MCharacteristicsList : Type := mkMCharacteristicsList {
  mcl_category : option MCategory; mcl_characteristic : list MCharacteristic
}.

Record MCompliantWith : Type := mkMCompliantWith {
  mcw_labels : MGlabels; mcw_name : bytes; mcw_range : option bytes
}.

Record MStandardComplianceList : Type := mkMStandardComplianceList {
  mscl_compliant_with : list MCompliantWith
}.

Record MCapabilities : Type := mkMCapabilities {
  mcap_characteristics_list : list MCharacteristicsList; mcap_standard_compliance_list : option
  MStandardComplianceList
}.

Record MPicture : Type := mkMPicture {
  mpi_labels : MGlabels; mpi_uri : bytes; mpi_picture_type : option bytes; mpi_number : option
  bytes
}.

Record MPicturesList : Type := mkMPicturesList {
  mpl_picture : list MPicture
}.

Record MDictionaryFile : Type := mkMDictionaryFile {
  mdf_uri : bytes
}.

Record MDictionary : Type := mkMDictionary {
  mdc_file : MDictionaryFile; mdc_lang : bytes; mdc_dict_id : bytes
}.

Record MDictionaryList : Type := mkMDictionaryList {
  mdl_dictionary : list MDictionary
}.

Record MConnector : Type := mkMConnector {
  mco_labels : MGlabels; mco_id : bytes; mco_connector_type : option bytes; mco_interface_id_ref
  : option bytes; mco_pos_x : option bytes; mco_pos_y : option bytes; mco_positioning : option
  bytes
}.

Record MConnectorList : Type := mkMConnectorList {
  mcol_connector : list MConnector
}.

Record MFirmware : Type := mkMFirmware {
  mfw_labels : MGlabels; mfw_uri : bytes; mfw_device_revision_number : bytes; mfw_build_date :
  option bytes
}.

Record MFirmwareList : Type := mkMFirmwareList {
  mfl_firmware : list MFirmware
}.

Record MClassification : Type := mkMClassification {
  mcs_value : bytes
}.

Record MClassificationList : Type := mkMClassificationList {
  mcsl_classification : list MClassification
}.

Record MDeviceFunction : Type := mkMDeviceFunction {
  mdfn_capabilities : option MCapabilities; mdfn_pictures_list : option MPicturesList;
  mdfn_dictionary_list : option MDictionaryList; mdfn_connector_list : option MConnectorList;
  mdfn_firmware_list : option MFirmwareList; mdfn_classification_list : option
  MClassificationList
}.

(** ** Modules *)

Record XConnectedModule : Type := mkXConnectedModule {
  xcm_child_id_ref : bytes; xcm_position : Z; xcm_address : option Z
}.

Record XModuleInterface : Type := mkXModuleInterface {
  xmi_child_id : bytes; xmi_interface_type : bytes; xmi_module_addressing : bytes
}.

Record XInterfaceDevice : Type := mkXInterfaceDevice {
  xif_unique_id : bytes; xif_interface_type : bytes; xif_max_modules : Z; xif_module_addressing
  : bytes; xif_file_list : list bytes; xif_connected_modules : list XConnectedModule
}.

Record XModuleManagementDevice : Type := mkXModuleManagementDevice {
  xmm_interfaces : list XInterfaceDevice; xmm_module_interface : option XModuleInterface
}.

Record MFile : Type := mkMFile {
  mfi_uri : bytes
}.

Record MFileList : Type := mkMFileList {
  mfil_file : list MFile
}.

Record MModuleType : Type := mkMModuleType {
  mmt_unique_id : bytes; mmt_module_type : bytes
}.

Record MModuleTypeList : Type := mkMModuleTypeList {
  mmtl_module_type : list MModuleType
}.

Inductive MModuleAddressingChild : Type :=
| MChild_Manual | MChild_Position | MChild_Next.

Inductive MModuleAddressingHead : Type :=
| MHead_Manual | MHead_Position.

Record MModuleInterface : Type := mkMModuleInterface {
  mmi_labels : MGlabels; mmi_file_list : MFileList; mmi_module_type_list : MModuleTypeList;
  mmi_child_id : bytes; mmi_interface_type : bytes; mmi_module_addressing :
  MModuleAddressingChild; mmi_min_address : option bytes; mmi_max_address : option bytes;
  mmi_min_position : option bytes; mmi_max_position : option bytes; mmi_max_count : option bytes
}.

Record MConnectedModule : Type := mkMConnectedModule {
  mcm_child_id_ref : bytes; mcm_position : bytes; mcm_address : option bytes
}.

Record MConnectedModuleList : Type := mkMConnectedModuleList {
  mcml_connected_module : list MConnectedModule
}.

Record MInterfaceDevice : Type := mkMInterfaceDevice {
  mid_labels : MGlabels; mid_file_list : MFileList; mid_connected_module_list : option
  MConnectedModuleList; mid_unique_id : bytes; mid_interface_type : bytes; mid_max_modules :
  bytes; mid_unused_slots : bool; mid_module_addressing : MModuleAddressingHead;
  mid_multiple_modules : option bool; mid_ident_list : option bytes; mid_firmware_list : option
  bytes
}.

Record MInterfaceListDevice : Type := mkMInterfaceListDevice {
  mild_interface : list MInterfaceDevice
}.

Record MModuleManagementDevice : Type := mkMModuleManagementDevice {
  mmd_interface_list : MInterfaceListDevice; mmd_module_interface : option MModuleInterface
}.

(** ** Indicators *)

Record XLEDstate : Type := mkXLEDstate {
  xls_unique_id : bytes; xls_state : bytes; xls_color : bytes; xls_label : option bytes;
  xls_description : option bytes
}.

Record XLED : Type := mkXLED {
  xled_label : option bytes; xled_description : option bytes; xled_colors : bytes; xled_led_type
  : option bytes; xled_states : list XLEDstate
}.

Record XCombinedState : Type := mkXCombinedState {
  xcs_label : option bytes; xcs_description : option bytes; xcs_led_state_refs : list bytes
}.

Record XIndicatorList : Type := mkXIndicatorList {
  xil_leds : list XLED; xil_combined_states : list XCombinedState
}.

Record XDeviceManager : Type := mkXDeviceManager {
  xdm_indicator_list : option XIndicatorList; xdm_module_management : option
  XModuleManagementDevice
}.

Inductive MLEDcolors : Type :=
| Monocolor | Bicolor.

Inductive MLEDtype : Type :=
| LED_Io | LED_Device | LED_Communication.

Inductive MLEDstateEnum : Type :=
| LED_On | LED_Off | LED_Flashing.

Inductive MLEDcolor : Type :=
| LED_Green | LED_Amber | LED_Red.

Record MLEDstate : Type := mkMLEDstate {
  mls_labels : MGlabels; mls_unique_id : bytes; mls_state : MLEDstateEnum; mls_led_color :
  MLEDcolor; mls_flashing_period : option bytes; mls_impuls_width : option bytes;
  mls_number_of_impulses : option bytes
}.

Record MLED : Type := mkMLED {
  mled_labels : MGlabels; mled_led_colors : MLEDcolors; mled_led_type : option MLEDtype;
  mled_led_state : list MLEDstate
}.

Record MLEDstateRef : Type := mkMLEDstateRef {
  mlsr_state_id_ref : bytes
}.

Record MCombinedState : Type := mkMCombinedState {
  mcst_labels : MGlabels; mcst_led_state_ref : list MLEDstateRef
}.

Record MLEDList : Type := mkMLEDList {
  mll_led : list MLED; mll_combined_state : list MCombinedState
}.

Record MIndicatorList : Type := mkMIndicatorList {
  mind_led_list : option MLEDList
}.

Record MDeviceManager : Type := mkMDeviceManager {
  mdm_indicator_list : option MIndicatorList; mdm_module_management : option
  MModuleManagementDevice
}.

(** ** The application process: public structures *)

Record XStructMember : Type := mkXStructMember {
  xsm_name : bytes; xsm_unique_id : bytes; xsm_data_type : bytes; xsm_size : option Z; xsm_label
  : option bytes; xsm_description : option bytes
}.

Record XAppStruct : Type := mkXAppStruct {
  xas_name : bytes; xas_unique_id : bytes; xas_label : option bytes; xas_description : option
  bytes; xas_members : list XStructMember
}.

Record XAppArray : Type := mkXAppArray {
  xaa_name : bytes; xaa_unique_id : bytes; xaa_label : option bytes; xaa_description : option
  bytes; xaa_lower_limit : Z; xaa_upper_limit : Z; xaa_data_type : bytes
}.

Record XEnumValue : Type := mkXEnumValue {
  xev_name : bytes; xev_value : bytes; xev_label : option bytes; xev_description : option bytes
}.

Record XAppEnum : Type := mkXAppEnum {
  xae_name : bytes; xae_unique_id : bytes; xae_label : option bytes; xae_description : option
  bytes; xae_data_type : bytes; xae_size_in_bits : option Z; xae_values : list XEnumValue
}.

Record XCount : Type := mkXCount {
  xct_unique_id : bytes; xct_access : option XParameterAccess; xct_default_value : option bytes
}.

Record XAppDerived : Type := mkXAppDerived {
  xad_name : bytes; xad_unique_id : bytes; xad_label : option bytes; xad_description : option
  bytes; xad_data_type : bytes; xad_count : option XCount
}.

Inductive XAppDataType : Type :=
| XDT_Struct (s : XAppStruct) | XDT_Array (a : XAppArray) | XDT_Enum (e : XAppEnum) |
  XDT_Derived (d : XAppDerived).

Record XParameterRef : Type := mkXParameterRef {
  xpr_unique_id_ref : bytes; xpr_visible : bool; xpr_locked : bool; xpr_bit_offset : option Z
}.

(** A group holds groups and references. *)
Inductive XParameterGroup : Type :=
| mkXParameterGroup (xpg_unique_id : bytes) (xpg_label xpg_description : option bytes)
    (xpg_items : list XParameterGroupItem)
with XParameterGroupItem : Type :=
| XGroup (g : XParameterGroup) | XParameterItem (p : XParameterRef).

Inductive XParameterDataType : Type :=
| XPDT_BOOL | XPDT_BITSTRING | XPDT_BYTE | XPDT_CHAR | XPDT_WORD | XPDT_DWORD | XPDT_LWORD |
  XPDT_SINT | XPDT_INT | XPDT_DINT | XPDT_LINT | XPDT_USINT | XPDT_UINT | XPDT_UDINT |
  XPDT_ULINT | XPDT_REAL | XPDT_LREAL | XPDT_STRING | XPDT_WSTRING | XPDT_DataTypeIDRef (id :
  bytes) | XPDT_VariableRef.

Record XParameter : Type := mkXParameter {
  xp_unique_id : bytes; xp_access : option XParameterAccess; xp_support : option
  XParameterSupport; xp_persistent : bool; xp_offset : option bytes; xp_multiplier : option
  bytes; xp_template_id_ref : option bytes; xp_data_type : XParameterDataType; xp_label : option
  bytes; xp_description : option bytes; xp_actual_value : option XValue; xp_default_value :
  option XValue; xp_allowed_values : option XAllowedValues
}.

Record XVersionInfo : Type := mkXVersionInfo {
  xvi_organization : bytes; xvi_version : bytes; xvi_author : bytes; xvi_date : bytes; xvi_label
  : option bytes; xvi_description : option bytes
}.

Record XVarDeclaration : Type := mkXVarDeclaration {
  xvd_name : bytes; xvd_unique_id : bytes; xvd_data_type : bytes; xvd_size : option Z;
  xvd_initial_value : option bytes; xvd_label : option bytes; xvd_description : option bytes
}.

Record XInterfaceList : Type := mkXInterfaceList {
  xifl_inputs : list XVarDeclaration; xifl_outputs : list XVarDeclaration; xifl_configs : list
  XVarDeclaration
}.

Record XFunctionType : Type := mkXFunctionType {
  xft_name : bytes; xft_unique_id : bytes; xft_package : option bytes; xft_label : option bytes;
  xft_description : option bytes; xft_version_info : list XVersionInfo; xft_interface :
  XInterfaceList
}.

Record XFunctionInstance : Type := mkXFunctionInstance {
  xfi_name : bytes; xfi_unique_id : bytes; xfi_type_id_ref : bytes; xfi_label : option bytes;
  xfi_description : option bytes
}.

Record XApplicationProcess : Type := mkXApplicationProcess {
  xap_data_types : list XAppDataType; xap_templates : list XParameter; xap_parameters : list
  XParameter; xap_parameter_groups : list XParameterGroup; xap_function_types : list
  XFunctionType; xap_function_instances : list XFunctionInstance
}.

(** ** The application process: schema *)

Record MSubrange : Type := mkMSubrange {
  msr_lower_limit : bytes; msr_upper_limit : bytes
}.

Record MAppArray : Type := mkMAppArray {
  maa_name : bytes; maa_unique_id : bytes; maa_labels : MGlabels; maa_subrange : list MSubrange;
  maa_data_type : MParameterDataType
}.

Record MVarDeclaration : Type := mkMVarDeclaration {
  mvd_name : bytes; mvd_unique_id : bytes; mvd_size : option bytes; mvd_initial_value : option
  bytes; mvd_labels : MGlabels; mvd_data_type : MParameterDataType
}.

Record MAppStruct : Type := mkMAppStruct {
  mas_name : bytes; mas_unique_id : bytes; mas_labels : MGlabels; mas_var_declaration : list
  MVarDeclaration
}.

Record MEnumValue : Type := mkMEnumValue {
  mev_value : option bytes; mev_labels : MGlabels
}.

Record MAppEnum : Type := mkMAppEnum {
  mae_name : bytes; mae_unique_id : bytes; mae_size : option bytes; mae_labels : MGlabels;
  mae_enum_value : list MEnumValue; mae_data_type : option MParameterDataType
}.

Record MCount : Type := mkMCount {
  mct_unique_id : bytes; mct_access : option MParameterAccess; mct_labels : MGlabels;
  mct_default_value : MValue; mct_allowed_values : option MAllowedValues
}.

Record MAppDerived : Type := mkMAppDerived {
  mad_name : bytes; mad_unique_id : bytes; mad_description : option bytes; mad_labels :
  MGlabels; mad_count : option MCount; mad_data_type : MParameterDataType
}.

Inductive MAppDataTypeChoice : Type :=
| MDT_Array (a : MAppArray) | MDT_Struct (s : MAppStruct) | MDT_Enum (e : MAppEnum) |
  MDT_Derived (d : MAppDerived).

Record MAppDataTypeList : Type := mkMAppDataTypeList {
  madl_items : list MAppDataTypeChoice
}.

Record MVersionInfo : Type := mkMVersionInfo {
  mvi_organization : bytes; mvi_version : bytes; mvi_author : bytes; mvi_date : bytes;
  mvi_labels : MGlabels
}.

Record MVarList : Type := mkMVarList {
  mvl_var_declaration : list MVarDeclaration
}.

Record MInterfaceList : Type := mkMInterfaceList {
  mifl_input_vars : option MVarList; mifl_output_vars : option MVarList; mifl_config_vars :
  option MVarList
}.

Record MFunctionInstance : Type := mkMFunctionInstance {
  mfin_name : bytes; mfin_unique_id : bytes; mfin_type_id_ref : bytes; mfin_labels : MGlabels
}.

Record MConnection : Type := mkMConnection {
  mcx_source : bytes; mcx_destination : bytes; mcx_description : option bytes
}.

Record MFunctionInstanceList : Type := mkMFunctionInstanceList {
  mfil2_function_instance : list MFunctionInstance; mfil2_connection : list MConnection
}.

Record MFunctionType : Type := mkMFunctionType {
  mft_name : bytes; mft_unique_id : bytes; mft_package : option bytes; mft_labels : MGlabels;
  mft_version_info : list MVersionInfo; mft_interface_list : MInterfaceList;
  mft_function_instance_list : option MFunctionInstanceList
}.

Record MFunctionTypeList : Type := mkMFunctionTypeList {
  mftl_function_type : list MFunctionType
}.

Record MParameterRef : Type := mkMParameterRef {
  mpr_unique_id_ref : bytes; mpr_actual_value : option bytes; mpr_visible : bool; mpr_locked :
  bool; mpr_bit_offset : option bytes
}.

Inductive MParameterGroup : Type :=
| mkMParameterGroup (mpg_unique_id : bytes) (mpg_kind_of_access : option bytes)
    (mpg_config_parameter mpg_group_level_visible : bool)
    (mpg_conditional_unique_id_ref mpg_conditional_value mpg_bit_offset : option bytes)
    (mpg_labels : MGlabels) (mpg_items : list MParameterGroupItem)
with MParameterGroupItem : Type :=
| MGroup (g : MParameterGroup) | MParameterItem (p : MParameterRef).

Record MParameterGroupList : Type := mkMParameterGroupList {
  mpgl_parameter_group : list MParameterGroup
}.

Record MAllowedValuesTemplate : Type := mkMAllowedValuesTemplate {
  mavt_unique_id : bytes; mavt_value : list MValue; mavt_range : list MValueRange
}.

Record MTemplateList : Type := mkMTemplateList {
  mtl_parameter_template : list MParameter; mtl_allowed_values_template : list
  MAllowedValuesTemplate
}.

Record MParameterList : Type := mkMParameterList {
  mpll_parameter : list MParameter
}.

Record MApplicationProcess : Type := mkMApplicationProcess {
  mapp_data_type_list : option MAppDataTypeList; mapp_function_type_list : option
  MFunctionTypeList; mapp_function_instance_list : option MFunctionInstanceList;
  mapp_template_list : option MTemplateList; mapp_parameter_list : MParameterList;
  mapp_parameter_group_list : option MParameterGroupList
}.

(** ** The file *)

Record XdcFile : Type := mkXdcFile {
  xf_header : XProfileHeader; xf_identity : XIdentity; xf_device_function : list
  XDeviceFunction; xf_device_manager : option XDeviceManager; xf_network_management : option
  XNetworkManagement; xf_application_process : option XApplicationProcess; xf_object_dictionary
  : XObjectDictionary; xf_module_management_comm : option XModuleManagementComm
}.

Record MProfileBody : Type := mkMProfileBody {
  mb_xsi_type : option bytes; mb_application_layers : option MApplicationLayers;
  mb_device_identity : option MDeviceIdentity; mb_device_manager : option MDeviceManager;
  mb_device_function : list MDeviceFunction; mb_application_process : option
  MApplicationProcess; mb_network_management : option MNetworkManagement
}.

Record MIso15745Profile : Type := mkMIso15745Profile {
  mpf_profile_header : MProfileHeader; mpf_profile_body : MProfileBody
}.

Record MIso15745ProfileContainer : Type := mkMIso15745ProfileContainer {
  mcon_xmlns : bytes; mcon_xmlns_xsi : bytes; mcon_xsi_schema_location : bytes; mcon_profile :
  list MIso15745Profile
}.
