(* ===== verification/XdcDevResolve.v ===== *)
(** * Device descriptions: the device profile, from the schema

    [resolver/identity.rs], [resolver/device_function.rs], [resolver/device_manager.rs] and the
    device part of [resolver/modular.rs].  A resolver of the code that returns a [Result] and has
    no error is a plain function here. *)
From S2P Require Import Prelude XdcText XdcTypes XdcResolve XdcDevice.

Definition label_of (l : MGlabels) : option bytes := extract_label (mg_items l).
Definition description_of (l : MGlabels) : option bytes := extract_description (mg_items l).
Definition parse_u32 (s : bytes) : option Z := parse_unsigned 32 10 s.
Definition parse_or_error (attribute : string) (s : bytes) : xres Z :=
  ok_or (parse_u32 s) (InvalidAttributeFormat attribute).

(** ** [resolver/identity.rs] *)
Definition extract_label_from_attributed_glabels (l : MAttributedGlabels) : option bytes :=
  extract_label (mag_items l).
Definition parse_product_id (value : bytes) : option Z :=
  if starts_with (str "0x") value then parse_hex_u32 value else parse_u32 value.
Definition resolve_identity (model : MDeviceIdentity) : xres XIdentity :=
  let? vendor_id :=
    transpose (fun v => ok_or (parse_hex_u32 (mro_value v)) XdcError_from_ParseIntError) (mident_vendor_id model) in
  Ok {| xid_vendor_name := mro_value (mident_vendor_name model);
        xid_vendor_id := unwrap_or vendor_id 0;
        xid_vendor_text := mident_vendor_text model ≫= extract_label_from_attributed_glabels;
        xid_device_family := mident_device_family model ≫= extract_label_from_attributed_glabels;
        xid_product_family := option_map mro_value (mident_product_family model);
        xid_product_name := mro_value (mident_product_name model);
        xid_product_id := unwrap_or (mident_product_id model ≫= fun p => parse_product_id (mro_value p)) 0;
        xid_product_text := mident_product_text model ≫= extract_label_from_attributed_glabels;
        xid_order_number := map mro_value (mident_order_number model);
        xid_versions := map (fun v => mkXVersion (mver_version_type v) (mver_value v)) (mident_version model);
        xid_build_date := mident_build_date model;
        xid_specification_revision := option_map mro_value (mident_specification_revision model);
        xid_instance_name := option_map min_value (mident_instance_name model) |}.

(** ** [resolver/device_function.rs] *)
Definition resolve_characteristic (c : MCharacteristic) : xres XCharacteristic :=
  let? name := ok_or (extract_label (mcn_items (mch_characteristic_name c)))
                 (MissingElement "characteristicName/label") in
  let? content :=
    collect (fun cc => ok_or (extract_label (mcc_items cc)) (MissingElement "characteristicContent/label"))
      (mch_characteristic_content c) in
  Ok (mkXCharacteristic name content).
Definition resolve_characteristics_list (cl : MCharacteristicsList) : xres XCharacteristicList :=
  let? characteristics := collect resolve_characteristic (mcl_characteristic cl) in
  Ok (mkXCharacteristicList (mcl_category cl ≫= fun c => label_of (mca_labels c)) characteristics).
Definition resolve_compliant_with (cw : MCompliantWith) : XStandardCompliance :=
  mkXStandardCompliance (mcw_name cw) (unwrap_or (mcw_range cw) (str "international"))
    (description_of (mcw_labels cw)).
Definition resolve_capabilities (model : MCapabilities) : xres XCapabilities :=
  let? characteristics := collect resolve_characteristics_list (mcap_characteristics_list model) in
  Ok (mkXCapabilities characteristics
        (match mcap_standard_compliance_list model with
         | None => [] | Some scl => map resolve_compliant_with (mscl_compliant_with scl) end)).
Definition resolve_picture (p : MPicture) : XPicture :=
  mkXPicture (mpi_uri p) (unwrap_or (mpi_picture_type p) (str "none")) (mpi_number p ≫= parse_u32)
    (label_of (mpi_labels p)) (description_of (mpi_labels p)).
Definition resolve_pictures_list (model : MPicturesList) : list XPicture := map resolve_picture (mpl_picture model).
Definition resolve_dictionary_list (model : MDictionaryList) : list XDictionary :=
  map (fun d => mkXDictionary (mdf_uri (mdc_file d)) (mdc_lang d) (mdc_dict_id d)) (mdl_dictionary model).
Definition resolve_connector (c : MConnector) : XConnector :=
  mkXConnector (mco_id c) (unwrap_or (mco_connector_type c) (str "POWERLINK")) (mco_interface_id_ref c)
    (label_of (mco_labels c)) (description_of (mco_labels c)).
Definition resolve_connector_list (model : MConnectorList) : list XConnector :=
  map resolve_connector (mcol_connector model).
Definition resolve_firmware (f : MFirmware) : xres XFirmware :=
  let? device_revision_number := parse_or_error "deviceRevisionNumber" (mfw_device_revision_number f) in
  Ok (mkXFirmware (mfw_uri f) device_revision_number (mfw_build_date f) (label_of (mfw_labels f))
        (description_of (mfw_labels f))).
Definition resolve_firmware_list (model : MFirmwareList) : xres (list XFirmware) :=
  collect resolve_firmware (mfl_firmware model).
Definition resolve_classification_list (model : MClassificationList) : list XClassification :=
  map (fun c => mkXClassification (mcs_value c)) (mcsl_classification model).

(** [.map(resolve).unwrap_or_default()] of an optional list. *)
Definition list_or_default {A B} (resolve : A -> list B) (o : option A) : list B :=
  match o with None => [] | Some x => resolve x end.
Definition list_or_default_r {A B} (resolve : A -> xres (list B)) (o : option A) : xres (list B) :=
  match o with None => Ok [] | Some x => resolve x end.

Definition resolve_function (model : MDeviceFunction) : xres XDeviceFunction :=
  let? capabilities := transpose resolve_capabilities (mdfn_capabilities model) in
  let? firmware_list := list_or_default_r resolve_firmware_list (mdfn_firmware_list model) in
  Ok (mkXDeviceFunction capabilities
        (list_or_default resolve_pictures_list (mdfn_pictures_list model))
        (list_or_default resolve_dictionary_list (mdfn_dictionary_list model))
        (list_or_default resolve_connector_list (mdfn_connector_list model))
        firmware_list
        (list_or_default resolve_classification_list (mdfn_classification_list model))).
Definition resolve_device_function (model_vec : list MDeviceFunction) : xres (list XDeviceFunction) :=
  collect resolve_function model_vec.

(** ** [resolver/modular.rs], device profile *)
Definition resolve_file_list (model : MFileList) : list bytes := map mfi_uri (mfil_file model).
Definition resolve_connected_module (model : MConnectedModule) : xres XConnectedModule :=
  let? position := parse_or_error "connectedModule @position" (mcm_position model) in
  let? address := transpose (parse_or_error "connectedModule @address") (mcm_address model) in
  Ok (mkXConnectedModule (mcm_child_id_ref model) position address).
Definition resolve_connected_module_list (model : MConnectedModuleList) : xres (list XConnectedModule) :=
  collect resolve_connected_module (mcml_connected_module model).
Definition resolve_interface_device (model : MInterfaceDevice) : xres XInterfaceDevice :=
  let? connected_modules := list_or_default_r resolve_connected_module_list (mid_connected_module_list model) in
  let? max_modules := parse_or_error "interface @maxModules" (mid_max_modules model) in
  let module_addressing :=
    match mid_module_addressing model with
    | MHead_Manual => str "manual" | MHead_Position => str "position" end in
  Ok (mkXInterfaceDevice (mid_unique_id model) (mid_interface_type model) max_modules module_addressing
        (resolve_file_list (mid_file_list model)) connected_modules).
Definition resolve_module_interface (model : MModuleInterface) : XModuleInterface :=
  let module_addressing :=
    match mmi_module_addressing model with
    | MChild_Manual => str "manual" | MChild_Position => str "position" | MChild_Next => str "next" end in
  mkXModuleInterface (mmi_child_id model) (mmi_interface_type model) module_addressing.
Definition resolve_module_management_device (model : MModuleManagementDevice) : xres XModuleManagementDevice :=
  let? interfaces := collect resolve_interface_device (mild_interface (mmd_interface_list model)) in
  Ok (mkXModuleManagementDevice interfaces (option_map resolve_module_interface (mmd_module_interface model))).

(** ** [resolver/device_manager.rs], with the [Display] instances of [model/device_manager.rs] *)
Definition LEDcolors_fmt (c : MLEDcolors) : bytes :=
  match c with Monocolor => str "monocolor" | Bicolor => str "bicolor" end.
Definition LEDtype_fmt (t : MLEDtype) : bytes :=
  match t with LED_Io => str "IO" | LED_Device => str "device" | LED_Communication => str "communication" end.
Definition LEDstateEnum_fmt (s : MLEDstateEnum) : bytes :=
  match s with LED_On => str "on" | LED_Off => str "off" | LED_Flashing => str "flashing" end.
Definition LEDcolor_fmt (c : MLEDcolor) : bytes :=
  match c with LED_Green => str "green" | LED_Amber => str "amber" | LED_Red => str "red" end.

Definition resolve_led_state (model : MLEDstate) : XLEDstate :=
  mkXLEDstate (mls_unique_id model) (LEDstateEnum_fmt (mls_state model)) (LEDcolor_fmt (mls_led_color model))
    (label_of (mls_labels model)) (description_of (mls_labels model)).
Definition resolve_led (model : MLED) : XLED :=
  mkXLED (label_of (mled_labels model)) (description_of (mled_labels model))
    (LEDcolors_fmt (mled_led_colors model)) (option_map LEDtype_fmt (mled_led_type model))
    (map resolve_led_state (mled_led_state model)).
Definition resolve_combined_state (model : MCombinedState) : XCombinedState :=
  mkXCombinedState (label_of (mcst_labels model)) (description_of (mcst_labels model))
    (map mlsr_state_id_ref (mcst_led_state_ref model)).
Definition resolve_indicator_list (model : MIndicatorList) : XIndicatorList :=
  mkXIndicatorList (list_or_default (fun l => map resolve_led (mll_led l)) (mind_led_list model))
    (list_or_default (fun l => map resolve_combined_state (mll_combined_state l)) (mind_led_list model)).
Definition resolve_device_manager (model : MDeviceManager) : xres XDeviceManager :=
  let? module_management := transpose resolve_module_management_device (mdm_module_management model) in
  Ok (mkXDeviceManager (option_map resolve_indicator_list (mdm_indicator_list model)) module_management).
