(* ===== verification/XdcAppProcess.v ===== *)
(** * Device descriptions: the application process

    [resolver/app_process.rs] and [builder/app_process.rs]: data types, templates, parameters,
    groups of parameters, function types and function instances, read from the schema and
    written to it.  Groups nest, so both directions recurse over a tree. *)
From S2P Require Import Prelude XdcText XdcTypes XdcResolve XdcDevice XdcDevResolve.

(** ** [resolver/app_process.rs] *)
Definition get_data_type_name (data_type : MParameterDataType) : bytes :=
  match data_type with
  | PDT_BOOL => str "BOOL" | PDT_BITSTRING => str "BITSTRING" | PDT_BYTE => str "BYTE"
  | PDT_CHAR => str "CHAR" | PDT_WORD => str "WORD" | PDT_DWORD => str "DWORD"
  | PDT_LWORD => str "LWORD" | PDT_SINT => str "SINT" | PDT_INT => str "INT" | PDT_DINT => str "DINT"
  | PDT_LINT => str "LINT" | PDT_USINT => str "USINT" | PDT_UINT => str "UINT"
  | PDT_UDINT => str "UDINT" | PDT_ULINT => str "ULINT" | PDT_REAL => str "REAL"
  | PDT_LREAL => str "LREAL" | PDT_STRING => str "STRING" | PDT_WSTRING => str "WSTRING"
  | PDT_DataTypeIDRef r => mdi_unique_id_ref r
  | PDT_VariableRef _ => str "variableRef"
  end.
Definition resolve_parameter_data_type (model : MParameterDataType) : XParameterDataType :=
  match model with
  | PDT_BOOL => XPDT_BOOL | PDT_BITSTRING => XPDT_BITSTRING | PDT_BYTE => XPDT_BYTE
  | PDT_CHAR => XPDT_CHAR | PDT_WORD => XPDT_WORD | PDT_DWORD => XPDT_DWORD | PDT_LWORD => XPDT_LWORD
  | PDT_SINT => XPDT_SINT | PDT_INT => XPDT_INT | PDT_DINT => XPDT_DINT | PDT_LINT => XPDT_LINT
  | PDT_USINT => XPDT_USINT | PDT_UINT => XPDT_UINT | PDT_UDINT => XPDT_UDINT
  | PDT_ULINT => XPDT_ULINT | PDT_REAL => XPDT_REAL | PDT_LREAL => XPDT_LREAL
  | PDT_STRING => XPDT_STRING | PDT_WSTRING => XPDT_WSTRING
  | PDT_DataTypeIDRef r => XPDT_DataTypeIDRef (mdi_unique_id_ref r)
  | PDT_VariableRef _ => XPDT_VariableRef
  end.

Definition resolve_value (model : MValue) : XValue :=
  mkXValue (mv_value model) (mv_labels model ≫= label_of) (mv_offset model) (mv_multiplier model).
Definition resolve_value_range_of (r : MValueRange) : XValueRange :=
  mkXValueRange (mv_value (mvg_min_value r)) (mv_value (mvg_max_value r)) (option_map mv_value (mvg_step r)).
Definition resolve_app_allowed_values (model : MAllowedValues) : XAllowedValues :=
  mkXAllowedValues (mav_template_id_ref model) (map resolve_value (mav_value model))
    (map resolve_value_range_of (mav_range model)).
Definition resolve_parameter (model : MParameter) : XParameter :=
  {| xp_unique_id := mp_unique_id model;
     xp_access := option_map map_param_access (mp_access model);
     xp_support := option_map map_param_support (mp_support model);
     xp_persistent := mp_persistent model;
     xp_offset := mp_offset model;
     xp_multiplier := mp_multiplier model;
     xp_template_id_ref := mp_template_id_ref model;
     xp_data_type := resolve_parameter_data_type (mp_data_type model);
     xp_label := label_of (mp_labels model);
     xp_description := description_of (mp_labels model);
     xp_actual_value := option_map resolve_value (mp_actual_value model);
     xp_default_value := option_map resolve_value (mp_default_value model);
     xp_allowed_values := option_map resolve_app_allowed_values (mp_allowed_values model) |}.
Definition resolve_parameter_list (l : MParameterList) : list XParameter := map resolve_parameter (mpll_parameter l).
Definition resolve_template_list (l : MTemplateList) : list XParameter :=
  map resolve_parameter (mtl_parameter_template l).

Definition resolve_member (var : MVarDeclaration) : XStructMember :=
  mkXStructMember (mvd_name var) (mvd_unique_id var) (get_data_type_name (mvd_data_type var))
    (mvd_size var ≫= parse_u32) (label_of (mvd_labels var)) (description_of (mvd_labels var)).
Definition resolve_struct (model : MAppStruct) : XAppStruct :=
  mkXAppStruct (mas_name model) (mas_unique_id model) (label_of (mas_labels model))
    (description_of (mas_labels model)) (map resolve_member (mas_var_declaration model)).
Definition resolve_array (model : MAppArray) : xres XAppArray :=
  let? subrange := ok_or (head (maa_subrange model)) (MissingElement "subrange") in
  Ok (mkXAppArray (maa_name model) (maa_unique_id model) (label_of (maa_labels model))
        (description_of (maa_labels model)) (unwrap_or (parse_u32 (msr_lower_limit subrange)) 0)
        (unwrap_or (parse_u32 (msr_upper_limit subrange)) 0) (get_data_type_name (maa_data_type model))).
Definition resolve_enum_value (val : MEnumValue) : XEnumValue :=
  mkXEnumValue (unwrap_or (label_of (mev_labels val)) []) (unwrap_or (mev_value val) [])
    (label_of (mev_labels val)) (description_of (mev_labels val)).
Definition resolve_enum (model : MAppEnum) : XAppEnum :=
  mkXAppEnum (mae_name model) (mae_unique_id model) (label_of (mae_labels model))
    (description_of (mae_labels model)) (unwrap_or (option_map get_data_type_name (mae_data_type model)) [])
    (mae_size model ≫= parse_u32) (map resolve_enum_value (mae_enum_value model)).
Definition resolve_count (c : MCount) : XCount :=
  mkXCount (mct_unique_id c) (option_map map_param_access (mct_access c)) (Some (mv_value (mct_default_value c))).
Definition resolve_derived (model : MAppDerived) : XAppDerived :=
  mkXAppDerived (mad_name model) (mad_unique_id model) (label_of (mad_labels model))
    (description_of (mad_labels model)) (get_data_type_name (mad_data_type model))
    (option_map resolve_count (mad_count model)).
Definition resolve_data_type (item : MAppDataTypeChoice) : xres XAppDataType :=
  match item with
  | MDT_Struct s => Ok (XDT_Struct (resolve_struct s))
  | MDT_Array a => let? a := resolve_array a in Ok (XDT_Array a)
  | MDT_Enum e => Ok (XDT_Enum (resolve_enum e))
  | MDT_Derived d => Ok (XDT_Derived (resolve_derived d))
  end.
Definition resolve_data_type_list (l : MAppDataTypeList) : xres (list XAppDataType) :=
  collect resolve_data_type (madl_items l).

Definition resolve_parameter_ref (pr : MParameterRef) : XParameterRef :=
  mkXParameterRef (mpr_unique_id_ref pr) (mpr_visible pr) (mpr_locked pr) (mpr_bit_offset pr ≫= parse_u32).
Fixpoint resolve_parameter_group (model : MParameterGroup) : XParameterGroup :=
  match model with
  | mkMParameterGroup unique_id _ _ _ _ _ _ labels items =>
      mkXParameterGroup unique_id (label_of labels) (description_of labels)
        (map (fun item => match item with
                          | MGroup pg => XGroup (resolve_parameter_group pg)
                          | MParameterItem pr => XParameterItem (resolve_parameter_ref pr)
                          end) items)
  end.
Definition resolve_parameter_group_list (l : MParameterGroupList) : list XParameterGroup :=
  map resolve_parameter_group (mpgl_parameter_group l).

Definition resolve_var_declaration (model : MVarDeclaration) : XVarDeclaration :=
  mkXVarDeclaration (mvd_name model) (mvd_unique_id model) (get_data_type_name (mvd_data_type model))
    (mvd_size model ≫= parse_u32) (mvd_initial_value model) (label_of (mvd_labels model))
    (description_of (mvd_labels model)).
Definition resolve_interface_list (model : MInterfaceList) : XInterfaceList :=
  let vars := list_or_default (fun v => map resolve_var_declaration (mvl_var_declaration v)) in
  mkXInterfaceList (vars (mifl_input_vars model)) (vars (mifl_output_vars model)) (vars (mifl_config_vars model)).
Definition resolve_version_info (v : MVersionInfo) : XVersionInfo :=
  mkXVersionInfo (mvi_organization v) (mvi_version v) (mvi_author v) (mvi_date v)
    (label_of (mvi_labels v)) (description_of (mvi_labels v)).
Definition resolve_function_type (model : MFunctionType) : XFunctionType :=
  mkXFunctionType (mft_name model) (mft_unique_id model) (mft_package model) (label_of (mft_labels model))
    (description_of (mft_labels model)) (map resolve_version_info (mft_version_info model))
    (resolve_interface_list (mft_interface_list model)).
Definition resolve_function_type_list (l : MFunctionTypeList) : list XFunctionType :=
  map resolve_function_type (mftl_function_type l).
Definition resolve_function_instance (inst : MFunctionInstance) : XFunctionInstance :=
  mkXFunctionInstance (mfin_name inst) (mfin_unique_id inst) (mfin_type_id_ref inst)
    (label_of (mfin_labels inst)) (description_of (mfin_labels inst)).
Definition resolve_function_instance_list (l : MFunctionInstanceList) : list XFunctionInstance :=
  map resolve_function_instance (mfil2_function_instance l).

Definition resolve_application_process (model : MApplicationProcess) : xres XApplicationProcess :=
  let? data_types := list_or_default_r resolve_data_type_list (mapp_data_type_list model) in
  Ok (mkXApplicationProcess data_types
        (list_or_default resolve_template_list (mapp_template_list model))
        (resolve_parameter_list (mapp_parameter_list model))
        (list_or_default resolve_parameter_group_list (mapp_parameter_group_list model))
        (list_or_default resolve_function_type_list (mapp_function_type_list model))
        (list_or_default resolve_function_instance_list (mapp_function_instance_list model))).

(** ** [builder/app_process.rs]; [builder/device_function.rs] has the same [build_glabels] *)
Definition glabels_of (label description : option bytes) : MGlabels :=
  mkMGlabels
    (match label with Some l => [MLC_Label (mkMLabel (str "en") l)] | None => [] end
     ++ match description with Some d => [MLC_Description (mkMDescription (str "en") None d)] | None => [] end).
Definition build_param_access (access : XParameterAccess) : MParameterAccess :=
  match access with
  | XConstant => MPA_Const | XReadOnly => MPA_Read | XWriteOnly => MPA_Write | XReadWrite => MPA_ReadWrite
  | XReadWriteInput => MPA_ReadWriteInput | XReadWriteOutput => MPA_ReadWriteOutput
  | XNoAccess => MPA_NoAccess
  end.
Definition build_param_support (support : XParameterSupport) : MParameterSupport :=
  match support with XMandatory => MPS_Mandatory | XOptional => MPS_Optional | XConditional => MPS_Conditional end.
(** [VariableRef::default()]. *)
Definition VariableRef_default : MVariableRef := mkMVariableRef [] (mkMVariableIDRef []) [] None.
Definition build_param_data_type (dt : XParameterDataType) : MParameterDataType :=
  match dt with
  | XPDT_BOOL => PDT_BOOL | XPDT_BITSTRING => PDT_BITSTRING | XPDT_BYTE => PDT_BYTE
  | XPDT_CHAR => PDT_CHAR | XPDT_WORD => PDT_WORD | XPDT_DWORD => PDT_DWORD | XPDT_LWORD => PDT_LWORD
  | XPDT_SINT => PDT_SINT | XPDT_INT => PDT_INT | XPDT_DINT => PDT_DINT | XPDT_LINT => PDT_LINT
  | XPDT_USINT => PDT_USINT | XPDT_UINT => PDT_UINT | XPDT_UDINT => PDT_UDINT
  | XPDT_ULINT => PDT_ULINT | XPDT_REAL => PDT_REAL | XPDT_LREAL => PDT_LREAL
  | XPDT_STRING => PDT_STRING | XPDT_WSTRING => PDT_WSTRING
  | XPDT_DataTypeIDRef id => PDT_DataTypeIDRef (mkMDataTypeIDRef id)
  | XPDT_VariableRef => PDT_VariableRef VariableRef_default
  end.

Definition build_value (val : XValue) : MValue :=
  mkMValue (Some (glabels_of (xv_label val) None)) (xv_value val) (xv_offset val) (xv_multiplier val).
(** [Value { value, ..Default::default() }]. *)
Definition plain_value (value : bytes) : MValue := mkMValue None value None None.
Definition build_value_range (r : XValueRange) : MValueRange :=
  mkMValueRange (plain_value (xvr_min_value r)) (plain_value (xvr_max_value r)) (option_map plain_value (xvr_step r)).
Definition build_allowed_values (av : XAllowedValues) : MAllowedValues :=
  mkMAllowedValues (xav_template_id_ref av) (map build_value (xav_values av)) (map build_value_range (xav_ranges av)).
Definition build_parameter (param : XParameter) : MParameter :=
  {| mp_unique_id := xp_unique_id param;
     mp_access := option_map build_param_access (xp_access param);
     mp_support := option_map build_param_support (xp_support param);
     mp_persistent := xp_persistent param;
     mp_offset := xp_offset param;
     mp_multiplier := xp_multiplier param;
     mp_template_id_ref := xp_template_id_ref param;
     mp_labels := glabels_of (xp_label param) (xp_description param);
     mp_data_type := build_param_data_type (xp_data_type param);
     mp_conditional_support := [];
     mp_denotation := None;
     mp_actual_value := option_map build_value (xp_actual_value param);
     mp_default_value := option_map build_value (xp_default_value param);
     mp_substitute_value := None;
     mp_allowed_values := option_map build_allowed_values (xp_allowed_values param);
     mp_unit := None;
     mp_property := [] |}.

(** A type is written as a reference to its name. *)
Definition type_reference (data_type : bytes) : MParameterDataType := PDT_DataTypeIDRef (mkMDataTypeIDRef data_type).
Definition build_member (m : XStructMember) : MVarDeclaration :=
  {| mvd_name := xsm_name m; mvd_unique_id := xsm_unique_id m; mvd_size := option_map to_string (xsm_size m);
     mvd_initial_value := None; mvd_labels := glabels_of (xsm_label m) (xsm_description m);
     mvd_data_type := type_reference (xsm_data_type m) |}.
Definition build_enum_value (v : XEnumValue) : MEnumValue :=
  mkMEnumValue (Some (xev_value v)) (glabels_of (Some (xev_name v)) None).
Definition build_count (c : XCount) : MCount :=
  {| mct_unique_id := xct_unique_id c; mct_access := option_map build_param_access (xct_access c);
     mct_labels := mkMGlabels []; mct_default_value := plain_value (unwrap_or (xct_default_value c) []);
     mct_allowed_values := None |}.
Definition build_data_type (dt : XAppDataType) : MAppDataTypeChoice :=
  match dt with
  | XDT_Struct s =>
      MDT_Struct {| mas_name := xas_name s; mas_unique_id := xas_unique_id s;
                    mas_labels := glabels_of (xas_label s) (xas_description s);
                    mas_var_declaration := map build_member (xas_members s) |}
  | XDT_Array a =>
      MDT_Array {| maa_name := xaa_name a; maa_unique_id := xaa_unique_id a;
                   maa_labels := glabels_of (xaa_label a) (xaa_description a);
                   maa_subrange := [mkMSubrange (to_string (xaa_lower_limit a)) (to_string (xaa_upper_limit a))];
                   maa_data_type := type_reference (xaa_data_type a) |}
  | XDT_Enum e =>
      MDT_Enum {| mae_name := xae_name e; mae_unique_id := xae_unique_id e;
                  mae_size := option_map to_string (xae_size_in_bits e);
                  mae_labels := glabels_of (xae_label e) (xae_description e);
                  mae_enum_value := map build_enum_value (xae_values e);
                  mae_data_type := Some (type_reference (xae_data_type e)) |}
  | XDT_Derived d =>
      MDT_Derived {| mad_name := xad_name d; mad_unique_id := xad_unique_id d; mad_description := None;
                     mad_labels := glabels_of (xad_label d) (xad_description d);
                     mad_count := option_map build_count (xad_count d);
                     mad_data_type := type_reference (xad_data_type d) |}
  end.
(** A list that is left out when it is empty. *)
Definition unless_empty {A B} (build : list A -> B) (l : list A) : option B :=
  match l with [] => None | _ => Some (build l) end.
Definition build_data_type_list (types : list XAppDataType) : option MAppDataTypeList :=
  unless_empty (fun types => mkMAppDataTypeList (map build_data_type types)) types.

Definition build_parameter_ref (p : XParameterRef) : MParameterRef :=
  {| mpr_unique_id_ref := xpr_unique_id_ref p; mpr_actual_value := None; mpr_visible := xpr_visible p;
     mpr_locked := xpr_locked p; mpr_bit_offset := option_map to_string (xpr_bit_offset p) |}.
Fixpoint build_parameter_group (group : XParameterGroup) : MParameterGroup :=
  match group with
  | mkXParameterGroup unique_id label description items =>
      mkMParameterGroup unique_id None false false None None None (glabels_of label description)
        (map (fun item => match item with
                          | XGroup g => MGroup (build_parameter_group g)
                          | XParameterItem p => MParameterItem (build_parameter_ref p)
                          end) items)
  end.

Definition build_var_declaration (v : XVarDeclaration) : MVarDeclaration :=
  {| mvd_name := xvd_name v; mvd_unique_id := xvd_unique_id v; mvd_size := option_map to_string (xvd_size v);
     mvd_initial_value := xvd_initial_value v; mvd_labels := glabels_of (xvd_label v) (xvd_description v);
     mvd_data_type := type_reference (xvd_data_type v) |}.
Definition build_version_info (v : XVersionInfo) : MVersionInfo :=
  mkMVersionInfo (xvi_organization v) (xvi_version v) (xvi_author v) (xvi_date v)
    (glabels_of (xvi_label v) (xvi_description v)).
(** Only the inputs of the interface are written. *)
Definition build_function_type (ft : XFunctionType) : MFunctionType :=
  {| mft_name := xft_name ft; mft_unique_id := xft_unique_id ft; mft_package := xft_package ft;
     mft_labels := glabels_of (xft_label ft) (xft_description ft);
     mft_version_info := map build_version_info (xft_version_info ft);
     mft_interface_list :=
       mkMInterfaceList (Some (mkMVarList (map build_var_declaration (xifl_inputs (xft_interface ft))))) None None;
     mft_function_instance_list := None |}.
Definition build_function_instance (fi : XFunctionInstance) : MFunctionInstance :=
  {| mfin_name := xfi_name fi; mfin_unique_id := xfi_unique_id fi; mfin_type_id_ref := xfi_type_id_ref fi;
     mfin_labels := glabels_of (xfi_label fi) (xfi_description fi) |}.

Definition build_model_application_process (public : XApplicationProcess) : MApplicationProcess :=
  {| mapp_data_type_list := build_data_type_list (xap_data_types public);
     mapp_function_type_list :=
       unless_empty (fun l => mkMFunctionTypeList (map build_function_type l)) (xap_function_types public);
     mapp_function_instance_list :=
       unless_empty (fun l => mkMFunctionInstanceList (map build_function_instance l) []) (xap_function_instances public);
     mapp_template_list :=
       unless_empty (fun l => mkMTemplateList (map build_parameter l) []) (xap_templates public);
     mapp_parameter_list := mkMParameterList (map build_parameter (xap_parameters public));
     mapp_parameter_group_list :=
       unless_empty (fun l => mkMParameterGroupList (map build_parameter_group l)) (xap_parameter_groups public) |}.
