(* ===== verification/XdcFile.v ===== *)
(** * Device descriptions: the whole file

    The device profile of [builder/] ([builder/mod.rs], [builder/device_function.rs],
    [builder/device_manager.rs] and the device part of [builder/modular.rs]), the container that
    [save_xdc_to_string] serializes, and [resolve_data] of [resolver/mod.rs], which
    [load_xdc_from_str] and [load_xdd_defaults_from_str] apply to the container they parse. *)
From S2P Require Import Prelude XdcText XdcTypes XdcResolve XdcBuild XdcDevice XdcDevResolve XdcAppProcess.

(** ** [builder/device_function.rs] *)
Definition build_model_characteristic (public : XCharacteristic) : MCharacteristic :=
  mkMCharacteristic (mkMCharacteristicName (mg_items (glabels_of (Some (xch_name public)) None)))
    (map (fun c => mkMCharacteristicContent (mg_items (glabels_of (Some c) None)) None) (xch_content public)).
Definition build_model_characteristics_list (public : XCharacteristicList) : MCharacteristicsList :=
  mkMCharacteristicsList (option_map (fun c => mkMCategory (glabels_of (Some c) None)) (xcl_category public))
    (map build_model_characteristic (xcl_characteristics public)).
Definition build_model_compliant_with (public : XStandardCompliance) : MCompliantWith :=
  mkMCompliantWith (glabels_of None (xsc_description public)) (xsc_name public) (Some (xsc_range public)).
Definition build_model_capabilities (public : XCapabilities) : MCapabilities :=
  mkMCapabilities (map build_model_characteristics_list (xca_characteristics public))
    (Some (mkMStandardComplianceList (map build_model_compliant_with (xca_standard_compliance public)))).
Definition build_model_picture (public : XPicture) : MPicture :=
  mkMPicture (glabels_of (xpi_label public) (xpi_description public)) (xpi_uri public)
    (Some (xpi_picture_type public)) (option_map to_string (xpi_number public)).
Definition build_model_dictionary (public : XDictionary) : MDictionary :=
  mkMDictionary (mkMDictionaryFile (xdi_uri public)) (xdi_lang public) (xdi_dict_id public).
Definition build_model_connector (public : XConnector) : MConnector :=
  {| mco_labels := glabels_of (xco_label public) (xco_description public); mco_id := xco_id public;
     mco_connector_type := Some (xco_connector_type public); mco_interface_id_ref := xco_interface_id_ref public;
     mco_pos_x := None; mco_pos_y := None; mco_positioning := None |}.
Definition build_model_firmware (public : XFirmware) : MFirmware :=
  mkMFirmware (glabels_of (xfw_label public) (xfw_description public)) (xfw_uri public)
    (to_string (xfw_device_revision_number public)) (xfw_build_date public).
Definition build_model_classification (public : XClassification) : MClassification :=
  mkMClassification (xcn_value public).
Definition build_model_function (public : XDeviceFunction) : MDeviceFunction :=
  mkMDeviceFunction (option_map build_model_capabilities (xdf_capabilities public))
    (Some (mkMPicturesList (map build_model_picture (xdf_pictures public))))
    (Some (mkMDictionaryList (map build_model_dictionary (xdf_dictionaries public))))
    (Some (mkMConnectorList (map build_model_connector (xdf_connectors public))))
    (Some (mkMFirmwareList (map build_model_firmware (xdf_firmware_list public))))
    (Some (mkMClassificationList (map build_model_classification (xdf_classifications public)))).
Definition build_model_device_function (public_vec : list XDeviceFunction) : list MDeviceFunction :=
  map build_model_function public_vec.

(** ** [builder/modular.rs], device profile *)
Definition build_model_connected_module (m : XConnectedModule) : MConnectedModule :=
  mkMConnectedModule (xcm_child_id_ref m) (to_string (xcm_position m)) (option_map to_string (xcm_address m)).
Definition build_model_interface_device (public : XInterfaceDevice) : MInterfaceDevice :=
  {| mid_labels := mkMGlabels [];
     mid_file_list := mkMFileList (map mkMFile (xif_file_list public));
     mid_connected_module_list :=
       Some (mkMConnectedModuleList (map build_model_connected_module (xif_connected_modules public)));
     mid_unique_id := xif_unique_id public; mid_interface_type := xif_interface_type public;
     mid_max_modules := to_string (xif_max_modules public); mid_unused_slots := false;
     mid_module_addressing :=
       (if bool_decide (xif_module_addressing public = str "manual") then MHead_Manual
        else if bool_decide (xif_module_addressing public = str "position") then MHead_Position
        else MHead_Position);
     mid_multiple_modules := None; mid_ident_list := None; mid_firmware_list := None |}.
Definition build_model_module_interface (public : XModuleInterface) : MModuleInterface :=
  {| mmi_labels := mkMGlabels []; mmi_file_list := mkMFileList []; mmi_module_type_list := mkMModuleTypeList [];
     mmi_child_id := xmi_child_id public; mmi_interface_type := xmi_interface_type public;
     mmi_module_addressing :=
       (if bool_decide (xmi_module_addressing public = str "manual") then MChild_Manual
        else if bool_decide (xmi_module_addressing public = str "position") then MChild_Position
        else if bool_decide (xmi_module_addressing public = str "next") then MChild_Next
        else MChild_Position);
     mmi_min_address := None; mmi_max_address := None; mmi_min_position := None; mmi_max_position := None;
     mmi_max_count := None |}.
Definition build_model_module_management_device (public : XModuleManagementDevice) : MModuleManagementDevice :=
  mkMModuleManagementDevice (mkMInterfaceListDevice (map build_model_interface_device (xmm_interfaces public)))
    (option_map build_model_module_interface (xmm_module_interface public)).

(** ** [builder/device_manager.rs] *)
(** The labels of an indicator: both are always written, empty when there is none. *)
Definition indicator_labels (label description : option bytes) : MGlabels :=
  mkMGlabels [MLC_Label (mkMLabel (str "en") (unwrap_or label []));
              MLC_Description (mkMDescription (str "en") None (unwrap_or description []))].
Definition build_model_led_state (public : XLEDstate) : MLEDstate :=
  {| mls_labels := indicator_labels (xls_label public) (xls_description public);
     mls_unique_id := xls_unique_id public;
     mls_state :=
       (if bool_decide (xls_state public = str "on") then LED_On
        else if bool_decide (xls_state public = str "off") then LED_Off
        else if bool_decide (xls_state public = str "flashing") then LED_Flashing
        else LED_Off);
     mls_led_color :=
       (if bool_decide (xls_color public = str "green") then LED_Green
        else if bool_decide (xls_color public = str "amber") then LED_Amber
        else if bool_decide (xls_color public = str "red") then LED_Red
        else LED_Green);
     mls_flashing_period := None; mls_impuls_width := None; mls_number_of_impulses := None |}.
Definition led_type_of (t : bytes) : MLEDtype :=
  if bool_decide (t = str "IO") then LED_Io
  else if bool_decide (t = str "device") then LED_Device
  else if bool_decide (t = str "communication") then LED_Communication
  else LED_Device.
Definition build_model_led (public : XLED) : MLED :=
  {| mled_labels := indicator_labels (xled_label public) (xled_description public);
     mled_led_colors :=
       (if bool_decide (xled_colors public = str "monocolor") then Monocolor
        else if bool_decide (xled_colors public = str "bicolor") then Bicolor
        else Monocolor);
     mled_led_type := option_map led_type_of (xled_led_type public);
     mled_led_state := map build_model_led_state (xled_states public) |}.
Definition build_model_combined_state (public : XCombinedState) : MCombinedState :=
  mkMCombinedState (indicator_labels (xcs_label public) (xcs_description public))
    (map mkMLEDstateRef (xcs_led_state_refs public)).
Definition build_model_indicator_list (indicators : XIndicatorList) : MIndicatorList :=
  mkMIndicatorList (Some (mkMLEDList (map build_model_led (xil_leds indicators))
                            (map build_model_combined_state (xil_combined_states indicators)))).
Definition build_model_device_manager (public : XDeviceManager) : MDeviceManager :=
  mkMDeviceManager (option_map build_model_indicator_list (xdm_indicator_list public))
    (option_map build_model_module_management_device (xdm_module_management public)).

(** ** [builder/mod.rs]: the profiles and the container *)
(** [ReadOnlyString { value, ..Default::default() }]: the derived default of [read_only] is false. *)
Definition read_only_string (value : bytes) : MReadOnlyString := mkMReadOnlyString false value.
Definition attributed_label (t : bytes) : MAttributedGlabels :=
  mkMAttributedGlabels [MLC_Label (mkMLabel (str "en") t)] false.
Definition build_device_identity (identity : XIdentity) : MDeviceIdentity :=
  {| mident_vendor_name := read_only_string (xid_vendor_name identity);
     mident_vendor_id := Some (read_only_string (str "0x" ++ format_radix 16 8 (xid_vendor_id identity)));
     mident_vendor_text := option_map attributed_label (xid_vendor_text identity);
     mident_device_family := option_map attributed_label (xid_device_family identity);
     mident_product_family := option_map read_only_string (xid_product_family identity);
     mident_product_name := read_only_string (xid_product_name identity);
     mident_product_id := Some (read_only_string (str "0x" ++ format_radix 16 0 (xid_product_id identity)));
     mident_product_text := option_map attributed_label (xid_product_text identity);
     mident_order_number := map read_only_string (xid_order_number identity);
     mident_version := map (fun v => mkMVersion (xver_version_type v) true (xver_value v)) (xid_versions identity);
     mident_build_date := xid_build_date identity;
     mident_specification_revision := option_map read_only_string (xid_specification_revision identity);
     mident_instance_name := option_map (mkMInstanceName false) (xid_instance_name identity) |}.
Definition build_device_profile (header : XProfileHeader) (identity : XIdentity)
    (device_function : list XDeviceFunction) (device_manager : option XDeviceManager)
    (application_process : option XApplicationProcess) : MIso15745Profile :=
  mkMIso15745Profile (build_model_header header)
    {| mb_xsi_type := Some (str "ProfileBody_Device_Powerlink");
       mb_application_layers := None;
       mb_device_identity := Some (build_device_identity identity);
       mb_device_manager := option_map build_model_device_manager device_manager;
       mb_device_function := build_model_device_function device_function;
       mb_application_process := option_map build_model_application_process application_process;
       mb_network_management := None |}.
(** The communication profile, from its parts. *)
Definition comm_profile_of (parts : MProfileHeader * MApplicationLayers * option MNetworkManagement)
    : MIso15745Profile :=
  let '(header, layers, network_management) := parts in
  mkMIso15745Profile header
    {| mb_xsi_type := Some (str "ProfileBody_CommunicationNetwork_Powerlink");
       mb_application_layers := Some layers;
       mb_device_identity := None; mb_device_manager := None; mb_device_function := [];
       mb_application_process := None;
       mb_network_management := network_management |}.
(** [Iso15745ProfileContainer::default()] with profiles. *)
Definition container_of (profile : list MIso15745Profile) : MIso15745ProfileContainer :=
  {| mcon_xmlns := str "http://www.ethernet-powerlink.org";
     mcon_xmlns_xsi := str "http://www.w3.org/2001/XMLSchema-instance";
     mcon_xsi_schema_location := str "http://www.ethernet-powerlink.org Powerlink_Main.xsd";
     mcon_profile := profile |}.
(** What [save_xdc_to_string] hands to the XML serializer. *)
Definition save_xdc_to_container (file : XdcFile) : xres MIso15745ProfileContainer :=
  let device_profile :=
    build_device_profile (xf_header file) (xf_identity file) (xf_device_function file) (xf_device_manager file)
      (xf_application_process file) in
  let? comm_profile :=
    build_comm_profile (xf_header file) (xf_object_dictionary file) (xf_network_management file)
      (xf_module_management_comm file) in
  Ok (container_of [device_profile; comm_profile_of comm_profile]).

(** ** [resolver/mod.rs] *)
Definition is_some {A} (o : option A) : bool := match o with Some _ => true | None => false end.
(** [Identity::default()]. *)
Definition Identity_default : XIdentity := mkXIdentity [] 0 None None None [] 0 None [] [] None None None.

Definition resolve_data (container : MIso15745ProfileContainer) (mode : ValueMode) : xres XdcFile :=
  let device_profile :=
    List.find (fun p => is_some (mb_device_identity (mpf_profile_body p))) (mcon_profile container) in
  let? comm_profile :=
    ok_or (List.find (fun p => is_some (mb_application_layers (mpf_profile_body p))) (mcon_profile container))
      (MissingElement "Profile containing ApplicationLayers") in
  let device_profile_body := option_map mpf_profile_body device_profile in
  let comm_profile_body := mpf_profile_body comm_profile in
  let app_process := device_profile_body ≫= mb_application_process in
  let templates :=
    template_map mode (list_or_default (list_or_default mtl_parameter_template)
                         (option_map mapp_template_list app_process)) in
  let params := param_map (list_or_default (fun a => mpll_parameter (mapp_parameter_list a)) app_process) in
  let? app_layers := ok_or (mb_application_layers comm_profile_body) (MissingElement "ApplicationLayers") in
  let header :=
    resolve_header (unwrap_or (option_map mpf_profile_header device_profile) (mpf_profile_header comm_profile)) in
  let? identity := transpose resolve_identity (device_profile_body ≫= mb_device_identity) in
  let? device_function :=
    transpose (fun b => resolve_device_function (mb_device_function b)) device_profile_body in
  let? device_manager := transpose resolve_device_manager (device_profile_body ≫= mb_device_manager) in
  let network_management := option_map resolve_network_management (mb_network_management comm_profile_body) in
  let? application_process := transpose resolve_application_process app_process in
  let? module_management_comm := transpose resolve_module_management_comm (mal_module_management app_layers) in
  let? object_dictionary := resolve_object_dictionary params templates mode app_layers in
  Ok {| xf_header := header;
        xf_identity := unwrap_or identity Identity_default;
        xf_device_function := unwrap_or device_function [];
        xf_device_manager := device_manager;
        xf_network_management := network_management;
        xf_application_process := application_process;
        xf_object_dictionary := object_dictionary;
        xf_module_management_comm := module_management_comm |}.
