(* ===== verification/XdcFileRoundtrip.v ===== *)
(** * Device descriptions: a saved file loads

    The device profile that [builder/] writes is read back by [resolver/]; with the communication
    profile of [XdcRoundtrip] this gives the round trip of a whole file. *)
From S2P Require Import Prelude Utf8 Types ErrorEntry ObjectDict.
From S2P Require Import XdcText XdcTypes XdcResolve XdcBuild XdcConvert XdcRoundtrip.
From S2P Require Import XdcDevice XdcDevResolve XdcAppProcess XdcFile.

(** ** Lists and labels *)
Lemma collect_built {E A B} (build : A -> B) (resolve : B -> result E A) (saved : A -> A) l :
  Forall (fun x => resolve (build x) = Ok (saved x)) l -> collect resolve (map build l) = Ok (map saved l).
Proof. induction 1 as [|x l Hx _ IH]; [done|]. cbn [map collect]. by rewrite Hx, IH. Qed.
Lemma collect_same {E A B} (build : A -> B) (resolve : B -> result E A) (Q : A -> Prop) l :
  (forall x, Q x -> resolve (build x) = Ok x) -> Forall Q l -> collect resolve (map build l) = Ok l.
Proof.
  intros H Hl. rewrite (collect_built build resolve (fun x => x)), map_id; [done|].
  eapply Forall_impl; [exact Hl|exact H].
Qed.
Lemma map_built {A B} (build : A -> B) (resolve : B -> A) (saved : A -> A) l :
  (forall x, resolve (build x) = saved x) -> map resolve (map build l) = map saved l.
Proof. intros H. rewrite map_map. by apply map_ext. Qed.
Lemma map_same {A B} (build : A -> B) (resolve : B -> A) l :
  (forall x, resolve (build x) = x) -> map resolve (map build l) = l.
Proof. intros H. rewrite (map_built _ _ (fun x => x)); [apply map_id|done]. Qed.
Lemma option_same {A B} (build : A -> B) (resolve : B -> A) o :
  (forall x, resolve (build x) = x) -> option_map resolve (option_map build o) = o.
Proof. intros H. destruct o as [x|]; [|done]. cbn. by rewrite H. Qed.
Lemma transpose_same {E A B} (build : A -> B) (resolve : B -> result E A) (Q : A -> Prop) o :
  (forall x, Q x -> resolve (build x) = Ok x) -> match o with Some x => Q x | None => True end ->
  transpose resolve (option_map build o) = Ok o.
Proof. intros H. destruct o as [x|]; [|done]. intros Hx. cbn. by rewrite H. Qed.

Lemma label_built l d : label_of (glabels_of l d) = l.
Proof. by destruct l, d. Qed.
Lemma description_built l d : description_of (glabels_of l d) = d.
Proof. by destruct l, d. Qed.
Lemma number_built attribute n : in_width 32 n -> parse_or_error attribute (to_string n) = Ok n.
Proof. intros H. unfold parse_or_error, parse_u32. by rewrite parse_to_string. Qed.
Lemma size_built o : opt_width 32 o -> option_map to_string o ≫= parse_u32 = o.
Proof. apply parsed_opt. lia. Qed.
#[local] Arguments label_of : simpl never.
#[local] Arguments description_of : simpl never.
#[local] Arguments glabels_of : simpl never.
#[local] Arguments parse_u32 : simpl never.
#[local] Arguments parse_or_error : simpl never.
#[local] Hint Rewrite @label_built @description_built : built.

(** ** Identity *)
Definition ids_ok (i : XIdentity) : Prop := in_width 32 (xid_vendor_id i) /\ in_width 32 (xid_product_id i).

Lemma parse_hex_prefixed width n : in_width 32 n -> parse_hex_u32 (str "0x" ++ format_radix 16 width n) = Some n.
Proof.
  intros Hn. unfold parse_hex_u32. change (str "0x") with HEX_PREFIX.
  cbn [HEX_PREFIX app strip_prefix]. rewrite !Z.eqb_refl. cbn. by apply parse_formatted.
Qed.
Lemma product_id_built n : in_width 32 n -> parse_product_id (str "0x" ++ format_radix 16 0 n) = Some n.
Proof. intros Hn. unfold parse_product_id. rewrite parse_hex_prefixed by done. done. Qed.

Lemma identity_roundtrip i : ids_ok i -> resolve_identity (build_device_identity i) = Ok i.
Proof.
  intros [Hv Hp]. unfold resolve_identity, build_device_identity. cbn.
  rewrite parse_hex_prefixed by done. cbn. rewrite product_id_built by done. cbn.
  rewrite !map_map. cbn. rewrite map_id, (map_ext _ (fun v => v)), map_id by (by intros []).
  rewrite !option_map_map. destruct i as [? ? vt df pf ? ? pt ? ? ? sr inn]. cbn.
  by destruct vt, df, pf, pt, sr, inn.
Qed.

(** ** Functions of the device *)
Definition function_ok (f : XDeviceFunction) : Prop :=
  Forall (fun p => opt_width 32 (xpi_number p)) (xdf_pictures f) /\
  Forall (fun w => in_width 32 (xfw_device_revision_number w)) (xdf_firmware_list f).

Lemma characteristic_roundtrip c : resolve_characteristic (build_model_characteristic c) = Ok c.
Proof.
  destruct c as [n l]. unfold resolve_characteristic, build_model_characteristic. cbn.
  rewrite (collect_same _ _ (fun _ => True)); [done|done|]. by apply Forall_true.
Qed.
Lemma characteristics_roundtrip l : resolve_characteristics_list (build_model_characteristics_list l) = Ok l.
Proof.
  destruct l as [c l]. unfold resolve_characteristics_list, build_model_characteristics_list. cbn.
  rewrite (collect_same _ _ (fun _ => True)); [by destruct c| |by apply Forall_true].
  intros x _. apply characteristic_roundtrip.
Qed.
Lemma capabilities_roundtrip c : resolve_capabilities (build_model_capabilities c) = Ok c.
Proof.
  destruct c as [l s]. unfold resolve_capabilities, build_model_capabilities. cbn.
  rewrite (collect_same _ _ (fun _ => True)); [|intros x _; apply characteristics_roundtrip|by apply Forall_true].
  rewrite map_same; [done|]. intros [n r d]. unfold resolve_compliant_with. cbn. by rewrite description_built.
Qed.
Lemma picture_roundtrip p : opt_width 32 (xpi_number p) -> resolve_picture (build_model_picture p) = p.
Proof.
  intros H. unfold resolve_picture, build_model_picture. cbn. autorewrite with built.
  rewrite size_built by done. by destruct p.
Qed.
Lemma firmware_roundtrip f : in_width 32 (xfw_device_revision_number f) ->
  resolve_firmware (build_model_firmware f) = Ok f.
Proof.
  intros H. unfold resolve_firmware, build_model_firmware. cbn. rewrite number_built by done.
  autorewrite with built. by destruct f.
Qed.
Lemma connector_roundtrip c : resolve_connector (build_model_connector c) = c.
Proof. destruct c. unfold resolve_connector. cbn. by autorewrite with built. Qed.

Lemma function_roundtrip f : function_ok f -> resolve_function (build_model_function f) = Ok f.
Proof.
  intros [Hp Hf]. destruct f as [c ps ds cs fs ls]. cbn in *.
  unfold resolve_function, build_model_function. cbn.
  rewrite (transpose_same _ _ (fun _ => True)); [|intros x _; apply capabilities_roundtrip|by destruct c].
  unfold resolve_firmware_list, resolve_pictures_list, resolve_dictionary_list, resolve_connector_list,
    resolve_classification_list. cbn.
  rewrite (collect_same _ _ _ _ firmware_roundtrip Hf), (map_id_Forall _ _ _ _ picture_roundtrip Hp).
  rewrite (map_same _ _ _ connector_roundtrip), !map_same by (by intros []). done.
Qed.

(** ** Modules and indicators *)

Definition saved_interface (i : XInterfaceDevice) : XInterfaceDevice :=
  mkXInterfaceDevice (xif_unique_id i) (xif_interface_type i) (xif_max_modules i)
    (one_of [str "manual"; str "position"] (str "position") (xif_module_addressing i)) (xif_file_list i)
    (xif_connected_modules i).
Definition saved_module_interface (m : XModuleInterface) : XModuleInterface :=
  mkXModuleInterface (xmi_child_id m) (xmi_interface_type m)
    (one_of [str "manual"; str "position"; str "next"] (str "position") (xmi_module_addressing m)).
Definition saved_module_management (m : XModuleManagementDevice) : XModuleManagementDevice :=
  mkXModuleManagementDevice (map saved_interface (xmm_interfaces m))
    (option_map saved_module_interface (xmm_module_interface m)).

(** The labels of an indicator are there after the first save. *)
Definition saved_text (o : option bytes) : option bytes := Some (unwrap_or o []).
Definition saved_led_state (s : XLEDstate) : XLEDstate :=
  mkXLEDstate (xls_unique_id s) (one_of [str "on"; str "off"; str "flashing"] (str "off") (xls_state s))
    (one_of [str "green"; str "amber"; str "red"] (str "green") (xls_color s))
    (saved_text (xls_label s)) (saved_text (xls_description s)).
Definition saved_led (l : XLED) : XLED :=
  mkXLED (saved_text (xled_label l)) (saved_text (xled_description l))
    (one_of [str "monocolor"; str "bicolor"] (str "monocolor") (xled_colors l))
    (option_map (one_of [str "IO"; str "device"; str "communication"] (str "device")) (xled_led_type l))
    (map saved_led_state (xled_states l)).
Definition saved_combined_state (c : XCombinedState) : XCombinedState :=
  mkXCombinedState (saved_text (xcs_label c)) (saved_text (xcs_description c)) (xcs_led_state_refs c).
Definition saved_indicators (i : XIndicatorList) : XIndicatorList :=
  mkXIndicatorList (map saved_led (xil_leds i)) (map saved_combined_state (xil_combined_states i)).
Definition saved_manager (m : XDeviceManager) : XDeviceManager :=
  mkXDeviceManager (option_map saved_indicators (xdm_indicator_list m))
    (option_map saved_module_management (xdm_module_management m)).

Definition module_ok (m : XConnectedModule) : Prop := in_width 32 (xcm_position m) /\ opt_width 32 (xcm_address m).
Definition interface_ok (i : XInterfaceDevice) : Prop :=
  in_width 32 (xif_max_modules i) /\ Forall module_ok (xif_connected_modules i).
Definition manager_ok (m : XDeviceManager) : Prop :=
  match xdm_module_management m with Some mm => Forall interface_ok (xmm_interfaces mm) | None => True end.

Lemma addressing_head n :
  match (if bool_decide (n = str "manual") then MHead_Manual
         else if bool_decide (n = str "position") then MHead_Position else MHead_Position) with
  | MHead_Manual => str "manual" | MHead_Position => str "position" end
  = one_of [str "manual"; str "position"] (str "position") n.
Proof. by_name. Qed.
Lemma addressing_child n :
  match (if bool_decide (n = str "manual") then MChild_Manual
         else if bool_decide (n = str "position") then MChild_Position
         else if bool_decide (n = str "next") then MChild_Next else MChild_Position) with
  | MChild_Manual => str "manual" | MChild_Position => str "position" | MChild_Next => str "next" end
  = one_of [str "manual"; str "position"; str "next"] (str "position") n.
Proof. by_name. Qed.

Lemma connected_module_roundtrip m : module_ok m ->
  resolve_connected_module (build_model_connected_module m) = Ok m.
Proof.
  intros [Hp Ha]. unfold resolve_connected_module, build_model_connected_module. cbn.
  rewrite number_built by done. destruct m as [c p [a|]]; cbn in *; [|done]. by rewrite number_built.
Qed.
Lemma interface_roundtrip i : interface_ok i ->
  resolve_interface_device (build_model_interface_device i) = Ok (saved_interface i).
Proof.
  intros [Hn Hm]. unfold resolve_interface_device, build_model_interface_device, saved_interface. cbn.
  unfold resolve_connected_module_list. cbn. rewrite (collect_same _ _ _ _ connected_module_roundtrip Hm).
  rewrite number_built by done. unfold resolve_file_list. cbn.
  rewrite map_same by done. by rewrite addressing_head.
Qed.
Lemma manager_roundtrip m : manager_ok m ->
  resolve_device_manager (build_model_device_manager m) = Ok (saved_manager m).
Proof.
  destruct m as [il mm]. unfold manager_ok, resolve_device_manager, build_model_device_manager, saved_manager.
  cbn. intros Hm.
  assert (transpose resolve_module_management_device (option_map build_model_module_management_device mm)
          = Ok (option_map saved_module_management mm)) as ->.
  { destruct mm as [[ifs mi]|]; [|done]. cbn in Hm |- *. unfold resolve_module_management_device. cbn.
    rewrite (collect_built _ _ saved_interface).
    - destruct mi as [i|]; [|done]. cbn. unfold resolve_module_interface. cbn. by rewrite addressing_child.
    - eapply Forall_impl; [exact Hm|]. apply interface_roundtrip. }
  f_equal. f_equal. destruct il as [[ls cs]|]; [|done]. cbn. f_equal. unfold resolve_indicator_list, saved_indicators.
  cbn. f_equal.
  - apply map_built. intros [lb ds co ty st]. unfold resolve_led, saved_led. cbn. f_equal.
    + by_name.
    + destruct ty as [t|]; [|done]. cbn. f_equal. unfold led_type_of. by_name.
    + apply map_built. intros s. unfold resolve_led_state, saved_led_state. cbn. f_equal; by_name.
  - apply map_built. intros [lb ds rs]. unfold resolve_combined_state, saved_combined_state. cbn.
    by rewrite map_same.
Qed.

(** ** The application process *)

(** An enumeration value gets its name as label and loses its description; a count gets a default
    value; only the inputs of an interface are kept. *)
Definition saved_enum_value (v : XEnumValue) : XEnumValue :=
  mkXEnumValue (xev_name v) (xev_value v) (Some (xev_name v)) None.
Definition saved_count (c : XCount) : XCount :=
  mkXCount (xct_unique_id c) (xct_access c) (Some (unwrap_or (xct_default_value c) [])).
Definition saved_data_type (dt : XAppDataType) : XAppDataType :=
  match dt with
  | XDT_Enum e =>
      XDT_Enum (mkXAppEnum (xae_name e) (xae_unique_id e) (xae_label e) (xae_description e) (xae_data_type e)
                  (xae_size_in_bits e) (map saved_enum_value (xae_values e)))
  | XDT_Derived d =>
      XDT_Derived (mkXAppDerived (xad_name d) (xad_unique_id d) (xad_label d) (xad_description d)
                     (xad_data_type d) (option_map saved_count (xad_count d)))
  | dt => dt
  end.
Definition saved_function_type (f : XFunctionType) : XFunctionType :=
  mkXFunctionType (xft_name f) (xft_unique_id f) (xft_package f) (xft_label f) (xft_description f)
    (xft_version_info f) (mkXInterfaceList (xifl_inputs (xft_interface f)) [] []).
Definition saved_process (a : XApplicationProcess) : XApplicationProcess :=
  mkXApplicationProcess (map saved_data_type (xap_data_types a)) (xap_templates a) (xap_parameters a)
    (xap_parameter_groups a) (map saved_function_type (xap_function_types a)) (xap_function_instances a).

Definition data_type_ok (dt : XAppDataType) : Prop :=
  match dt with
  | XDT_Struct s => Forall (fun m => opt_width 32 (xsm_size m)) (xas_members s)
  | XDT_Array a => in_width 32 (xaa_lower_limit a) /\ in_width 32 (xaa_upper_limit a)
  | XDT_Enum e => opt_width 32 (xae_size_in_bits e)
  | XDT_Derived _ => True
  end.
Fixpoint group_ok (g : XParameterGroup) : Prop :=
  match g with
  | mkXParameterGroup _ _ _ items =>
      fold_right (fun item P => match item with
                                | XGroup g => group_ok g
                                | XParameterItem p => opt_width 32 (xpr_bit_offset p)
                                end /\ P) True items
  end.
Definition function_type_ok (f : XFunctionType) : Prop :=
  Forall (fun v => opt_width 32 (xvd_size v)) (xifl_inputs (xft_interface f)).
Definition process_ok (a : XApplicationProcess) : Prop :=
  Forall data_type_ok (xap_data_types a) /\ Forall group_ok (xap_parameter_groups a) /\
  Forall function_type_ok (xap_function_types a).

Lemma value_roundtrip v : resolve_value (build_value v) = v.
Proof. destruct v. unfold resolve_value. cbn. by rewrite label_built. Qed.
Lemma allowed_values_roundtrip av : resolve_app_allowed_values (build_allowed_values av) = av.
Proof.
  destruct av as [t vs rs]. unfold resolve_app_allowed_values. cbn.
  rewrite (map_same _ _ _ value_roundtrip), map_same; [done|]. by intros [? ? [|]].
Qed.
Lemma parameter_roundtrip p : resolve_parameter (build_parameter p) = p.
Proof.
  destruct p as [u ac su pe off mu te dt la de av dv al]. unfold resolve_parameter, build_parameter. cbn.
  rewrite label_built, description_built, !(option_same _ _ _ value_roundtrip),
    (option_same _ _ _ allowed_values_roundtrip).
  rewrite (option_same build_param_access) by (by intros []).
  rewrite (option_same build_param_support) by (by intros []). by destruct dt.
Qed.

Lemma member_roundtrip m : opt_width 32 (xsm_size m) -> resolve_member (build_member m) = m.
Proof.
  intros H. unfold resolve_member. cbn. autorewrite with built. rewrite size_built by done. by destruct m.
Qed.
Lemma data_type_roundtrip dt : data_type_ok dt -> resolve_data_type (build_data_type dt) = Ok (saved_data_type dt).
Proof.
  destruct dt as [s|a|e|d]; intros Hok; cbn in Hok |- *.
  - unfold resolve_struct. cbn. autorewrite with built.
    rewrite (map_id_Forall _ _ _ _ member_roundtrip Hok). by destruct s.
  - destruct Hok as [H1 H2]. unfold resolve_array. cbn. unfold parse_u32. rewrite !parse_to_string by done.
    autorewrite with built. by destruct a.
  - unfold resolve_enum. cbn. autorewrite with built. rewrite size_built by done.
    rewrite (map_built _ _ saved_enum_value); [by destruct e|]. done.
  - unfold resolve_derived. cbn. autorewrite with built. destruct d as [? ? ? ? ? [c|]]; [|done]. cbn.
    unfold resolve_count. cbn. rewrite (option_same build_param_access) by (by intros []). done.
Qed.

(** Induction over the tree of groups. *)
Lemma group_induction (P : XParameterGroup -> Prop) :
  (forall u l d items, (forall g, XGroup g ∈ items -> P g) -> P (mkXParameterGroup u l d items)) ->
  forall g, P g.
Proof.
  intros H. fix IH 1. intros [u l d items]. apply H.
  induction items as [|[g'|p] items IHi]; intros g Hg.
  - exfalso. exact (not_elem_of_nil _ Hg).
  - apply elem_of_cons in Hg as [Hg|Hg]; [injection Hg as ->; exact (IH g')|exact (IHi g Hg)].
  - apply elem_of_cons in Hg as [Hg|Hg]; [discriminate Hg|exact (IHi g Hg)].
Qed.
Lemma group_roundtrip g : group_ok g -> resolve_parameter_group (build_parameter_group g) = g.
Proof.
  induction g as [u l d items IH] using group_induction. cbn. rewrite label_built, description_built, map_map.
  intros Hok. f_equal. induction items as [|item items IHi]; [done|]. cbn in Hok |- *. destruct Hok as [Hi Hok].
  f_equal; [|apply IHi; [intros g Hg; apply IH; by apply list_elem_of_further|done]].
  destruct item as [g|p].
  - f_equal. apply IH; [apply list_elem_of_here|done].
  - f_equal. unfold resolve_parameter_ref. cbn. rewrite size_built by done. by destruct p.
Qed.

Lemma var_declaration_roundtrip v : opt_width 32 (xvd_size v) ->
  resolve_var_declaration (build_var_declaration v) = v.
Proof.
  intros H. unfold resolve_var_declaration. cbn. autorewrite with built. rewrite size_built by done. by destruct v.
Qed.
Lemma function_type_roundtrip f : function_type_ok f ->
  resolve_function_type (build_function_type f) = saved_function_type f.
Proof.
  intros H. unfold resolve_function_type, saved_function_type, resolve_interface_list. cbn.
  autorewrite with built. rewrite (map_id_Forall _ _ _ _ var_declaration_roundtrip H), map_same; [done|].
  intros v. unfold resolve_version_info. cbn. autorewrite with built. by destruct v.
Qed.

Lemma unless_empty_default {A B C} (build : list A -> B) (resolve : B -> list C) l :
  resolve (build []) = [] -> list_or_default resolve (unless_empty build l) = resolve (build l).
Proof. by destruct l. Qed.
Lemma process_roundtrip a : process_ok a ->
  resolve_application_process (build_model_application_process a) = Ok (saved_process a).
Proof.
  intros (Hd & Hg & Hf). unfold resolve_application_process, build_model_application_process, saved_process.
  destruct a as [ds ts ps gs fs ins]. cbn in *.
  assert (list_or_default_r resolve_data_type_list (build_data_type_list ds) = Ok (map saved_data_type ds)) as ->.
  { destruct ds as [|d ds]; [done|]. change (resolve_data_type_list (mkMAppDataTypeList
      (map build_data_type (d :: ds))) = Ok (map saved_data_type (d :: ds))).
    unfold resolve_data_type_list. cbn [madl_items]. apply collect_built.
    eapply Forall_impl; [exact Hd|]. apply data_type_roundtrip. }
  rewrite !unless_empty_default by done. cbn.
  unfold resolve_template_list, resolve_parameter_list, resolve_parameter_group_list, resolve_function_type_list,
    resolve_function_instance_list. cbn.
  rewrite !(map_same _ _ _ parameter_roundtrip), (map_id_Forall _ _ _ _ group_roundtrip Hg).
  f_equal. f_equal.
  - rewrite map_map. apply map_ext_Forall. eapply Forall_impl; [exact Hf|]. apply function_type_roundtrip.
  - apply map_same. intros i. unfold resolve_function_instance. cbn. autorewrite with built. by destruct i.
Qed.

(** ** The file *)
Definition saved_file (f : XdcFile) : XdcFile :=
  {| xf_header := xf_header f; xf_identity := xf_identity f; xf_device_function := xf_device_function f;
     xf_device_manager := option_map saved_manager (xf_device_manager f);
     xf_network_management := xf_network_management f;
     xf_application_process := option_map saved_process (xf_application_process f);
     xf_object_dictionary := saved_dictionary (xf_object_dictionary f);
     xf_module_management_comm := option_map saved_modules (xf_module_management_comm f) |}.

(** What Rust's types say of the values of a file: every number fits the integer type of its field,
    and the data of objects and sub-objects, a [String], is UTF-8. *)
Record file_ok (f : XdcFile) : Prop := {
  file_identity_ok : ids_ok (xf_identity f);
  file_functions_ok : Forall function_ok (xf_device_function f);
  file_manager_ok : match xf_device_manager f with Some m => manager_ok m | None => True end;
  file_network_ok : match xf_network_management f with Some n => network_ok n | None => True end;
  file_process_ok : match xf_application_process f with Some a => process_ok a | None => True end;
  file_objects_ok : Forall object_ok (xod_objects (xf_object_dictionary f));
  file_modules_ok : match xf_module_management_comm f with Some m => modules_ok m | None => True end
}.

Lemma file_roundtrip f : file_ok f ->
  exists c, save_xdc_to_container f = Ok c /\ forall mode, resolve_data c mode = Ok (saved_file f).
Proof.
  intros [Hi Hf Hm Hn Ha Ho Hc]. unfold save_xdc_to_container.
  destruct (comm_profile_loads (xf_header f) _ _ _ ∅ ∅ Mode_Actual Ho Hn Hc) as (layers & nm & Hb & _).
  rewrite Hb. eexists. split; [done|]. intros mode.
  unfold resolve_data. cbn -[template_map param_map build_model_header].
  set (templates := template_map _ _). set (params := param_map _).
  destruct (comm_profile_loads (xf_header f) _ _ _ params templates mode Ho Hn Hc)
    as (layers' & nm' & Hb' & Hres & Hnm & Hmm).
  rewrite Hb in Hb'. injection Hb' as <- <-.
  rewrite identity_roundtrip by done. cbn -[build_model_header].
  unfold resolve_device_function, build_model_device_function.
  rewrite (collect_same _ _ _ _ function_roundtrip Hf). cbn -[build_model_header].
  assert (transpose resolve_device_manager (option_map build_model_device_manager (xf_device_manager f))
          = Ok (option_map saved_manager (xf_device_manager f))) as ->.
  { destruct (xf_device_manager f); [|done]. cbn. by rewrite manager_roundtrip. }
  assert (transpose resolve_application_process
            (option_map build_model_application_process (xf_application_process f))
          = Ok (option_map saved_process (xf_application_process f))) as ->.
  { destruct (xf_application_process f); [|done]. cbn. by rewrite process_roundtrip. }
  rewrite Hmm, Hres, Hnm. unfold saved_file. by destruct f as [[] ? ? ? ? ? ? ?].
Qed.

(** *** Saving again changes nothing *)
Lemma map_twice {A} (f : A -> A) l : (forall x, f (f x) = f x) -> map f (map f l) = map f l.
Proof. intros H. rewrite map_map. by apply map_ext. Qed.
Lemma option_twice {A} (f : A -> A) o : (forall x, f (f x) = f x) -> option_map f (option_map f o) = option_map f o.
Proof. intros H. destruct o; [|done]. cbn. by rewrite H. Qed.
Lemma one_of_twice names default n : default ∈ names ->
  one_of names default (one_of names default n) = one_of names default n.
Proof. intros H. unfold one_of. by repeat case_bool_decide. Qed.
(** The rewriting that each structure needs: its lists, options and names. *)
Ltac twice := repeat first
  [ rewrite map_twice by assumption | rewrite option_twice by assumption
  | rewrite one_of_twice by set_solver | reflexivity ].

Lemma saved_dictionary_twice d : saved_dictionary (saved_dictionary d) = saved_dictionary d.
Proof.
  unfold saved_dictionary. cbn. f_equal. apply map_twice. intros o. unfold saved_object. cbn.
  assert (Ha : forall a, saved_access (saved_access a) = saved_access a) by (by intros []).
  assert (Hs : forall s, saved_sub (saved_sub s) = saved_sub s).
  { intros s. unfold saved_sub. cbn. twice. }
  twice. by case_bool_decide.
Qed.
Lemma saved_manager_twice m : saved_manager (saved_manager m) = saved_manager m.
Proof.
  assert (H1 : forall s, saved_led_state (saved_led_state s) = saved_led_state s).
  { intros s. unfold saved_led_state. cbn. twice. }
  assert (H2 : forall l, saved_led (saved_led l) = saved_led l).
  { intros l. unfold saved_led. cbn. rewrite (option_twice (one_of _ _)) by (intros t; twice). twice. }
  assert (H3 : forall i, saved_indicators (saved_indicators i) = saved_indicators i).
  { intros i. unfold saved_indicators. cbn. rewrite (map_twice saved_combined_state) by done. twice. }
  assert (H4 : forall i, saved_interface (saved_interface i) = saved_interface i).
  { intros i. unfold saved_interface. cbn. twice. }
  assert (H5 : forall i, saved_module_interface (saved_module_interface i) = saved_module_interface i).
  { intros i. unfold saved_module_interface. cbn. twice. }
  assert (H6 : forall i, saved_module_management (saved_module_management i) = saved_module_management i).
  { intros i. unfold saved_module_management. cbn. twice. }
  unfold saved_manager. cbn. twice.
Qed.
Lemma saved_modules_twice m : saved_modules (saved_modules m) = saved_modules m.
Proof.
  assert (H1 : forall r, saved_range (saved_range r) = saved_range r).
  { intros r. unfold saved_range. cbn. twice. }
  assert (H2 : forall i, saved_interface_comm (saved_interface_comm i) = saved_interface_comm i).
  { intros i. unfold saved_interface_comm. cbn. twice. }
  unfold saved_modules. cbn. twice.
Qed.
Lemma saved_process_twice a : saved_process (saved_process a) = saved_process a.
Proof.
  assert (H : forall dt, saved_data_type (saved_data_type dt) = saved_data_type dt).
  { intros [s|r|e|d]; [done|done| |]; cbn; do 2 f_equal.
    - by apply map_twice.
    - by apply option_twice. }
  unfold saved_process. cbn. rewrite (map_twice saved_function_type) by done. twice.
Qed.
Lemma saved_file_twice f : saved_file (saved_file f) = saved_file f.
Proof.
  unfold saved_file. cbn. rewrite saved_dictionary_twice, (option_twice _ _ saved_manager_twice),
    (option_twice _ _ saved_process_twice), (option_twice _ _ saved_modules_twice). done.
Qed.

(** ** Properties *)
Definition demo_file : XdcFile :=
  {| xf_header := mkXProfileHeader (str "EPSG_301") (str "1") (str "Demo") (str "vendor") None;
     xf_identity := mkXIdentity (str "Vendor") 0x1A (Some (str "text")) None None (str "Product") 0xFFFFFFFF None
                      [str "42"] [mkXVersion (str "HW") (str "1.0")] None None None;
     xf_device_function :=
       [mkXDeviceFunction
          (Some (mkXCapabilities [mkXCharacteristicList None [mkXCharacteristic (str "Rate") [str "100 MBit/s"]]]
                   [mkXStandardCompliance (str "EN 61131-2") (str "internal") None]))
          [mkXPicture (str "a.png") (str "icon") (Some 1) None (Some (str "front"))] [] [] 
          [mkXFirmware (str "a.fw") 7 None None None] []];
     xf_device_manager :=
       Some (mkXDeviceManager
               (Some (mkXIndicatorList [mkXLED None None (str "bicolor") (Some (str "IO"))
                        [mkXLEDstate (str "s1") (str "flashing") (str "violet") None None]] []))
               (Some (mkXModuleManagementDevice
                        [mkXInterfaceDevice (str "if1") (str "X2X") 250 (str "manual") []
                           [mkXConnectedModule (str "m1") 1 None]] None)));
     xf_network_management := None;
     xf_application_process :=
       Some (mkXApplicationProcess
               [XDT_Array (mkXAppArray (str "a") (str "t1") None None 1 8 (str "UINT"));
                XDT_Enum (mkXAppEnum (str "e") (str "t2") None None (str "USINT") (Some 8)
                            [mkXEnumValue (str "on") (str "1") None (Some (str "is on"))])]
               [] []
               [mkXParameterGroup (str "g1") None None
                  [XGroup (mkXParameterGroup (str "g2") None None
                     [XParameterItem (mkXParameterRef (str "p1") true false (Some 3))])]]
               [mkXFunctionType (str "f") (str "f1") None None None []
                  (mkXInterfaceList [] [mkXVarDeclaration (str "out") (str "v1") (str "BOOL") None None None None] [])]
               []);
     xf_object_dictionary := demo_description;
     xf_module_management_comm :=
       Some (mkXModuleManagementComm [mkXInterfaceComm (str "if1")
         [mkXRange (str "r1") 0x6000 (Some 0x6FFF) 254 (str "x") (str "address") (Some 1) None]]) |}.

(** C29: A saved file loads.  From every file (its numbers fit the integer types of their fields and
    the data of its objects is UTF-8, as in Rust) the builders make a container, and the resolver
    gives the file back from it in either mode, changed exactly as [saved_file] says.  What is not
    kept: the access types of objects that the schema has no name for; support, persistence and
    allowed values of objects and sub-objects; the own value of an object that is no variable; label
    and description of enumeration values (the name becomes the label); the outputs and configuration
    variables of function types.  What is replaced by a default: the addressing of modules, type,
    colours, states and colour of an LED, and sort mode and sort number of a modular range, where
    they are outside the schema; a missing label or description of an LED, LED state or combined
    state and a missing default value of a count, which become empty ones.  Saving and loading again
    changes nothing more.  The stack is not affected: the settings of the network management and
    the parameters for the storage are the same, and so is the object dictionary, up to the category,
    the default values and the value ranges of its entries, whenever the original could be converted. *)
Theorem saved_file_loads {S} `{HexDecode} f : file_ok f ->
  exists c, save_xdc_to_container f = Ok c /\
    (forall mode, resolve_data c mode = Ok (saved_file f)) /\
    saved_file (saved_file f) = saved_file f /\
    extract_nmt_settings (xf_network_management (saved_file f)) = extract_nmt_settings (xf_network_management f) /\
    xdc_to_storage_map (xf_object_dictionary (saved_file f)) = xdc_to_storage_map (xf_object_dictionary f) /\
    (forall d : ObjectDictionary S, to_core_od (xf_object_dictionary f) = Ok d ->
       exists d' : ObjectDictionary S, to_core_od (xf_object_dictionary (saved_file f)) = Ok d' /\
         runtime <$> entries d' = runtime <$> entries d).
Proof.
  intros Hf. destruct (file_roundtrip f Hf) as (c & Hc & Hr). exists c. split; [done|]. split; [done|].
  split; [apply saved_file_twice|]. split; [done|]. split; [apply storage_saved|].
  intros d Hd. by apply (core_od_saved _ (ObjectDictionary_new None)).
Qed.

Lemma demo_file_ok : file_ok demo_file.
Proof.
  constructor; cbn; repeat constructor;
    vm_compute; first [reflexivity | discriminate | split; (reflexivity || discriminate)].
Qed.
Lemma saved_file_loads_witness :
  exists c, save_xdc_to_container demo_file = Ok c /\ resolve_data c Mode_Actual = Ok (saved_file demo_file) /\
    saved_file demo_file <> demo_file.
Proof.
  destruct (saved_file_loads (S := MemStorage) demo_file demo_file_ok) as (c & Hc & Hr & _).
  exists c. split; [exact Hc|]. split; [exact (Hr Mode_Actual)|].
  intros He. apply (f_equal xf_device_manager) in He. vm_compute in He. discriminate He.
Defined.
