(* ===== verification/XdcNode.v ===== *)
(** * A device description becomes a node

    [to_core_od] of [converter.rs] makes the dictionary a node is created with.  This file
    follows it through the creation of both nodes ([init] fills in the protocol objects,
    [run_internal_initialisation] restores the power-on values) up to the identity the node
    answers with. *)
From S2P Require Import Prelude Types Frames ErrorEntry ObjectDict OdPredefined StatusFrames Nmt OdSchema Node.
From S2P Require Import MnState MnScheduler MnPayload MnNode CnPayload CnNode NodeTypes.
From S2P Require Import XdcText XdcTypes XdcResolve XdcBuild XdcConvert XdcRoundtrip.

(** ** Descriptions of a node

    What the well-formedness of a file gives beyond its grammar: no index or sub-index twice, a
    value for the whole object only on a variable, no more sub-objects than sub-indexes. *)
Definition node_object (o : XObject) : Prop :=
  xo_object_type o = str "7" \/
  (xo_data o = None /\ NoDup (map xs_sub_index (xo_sub_objects o)) /\
   Forall (fun s => 0 <= xs_sub_index s) (xo_sub_objects o) /\ (sub_object_size (xo_sub_objects o) <= 254)%nat).
Record node_description (dict : XObjectDictionary) : Prop := mkNodeDescription {
  nd_indexes : NoDup (map xo_index (xod_objects dict));
  nd_objects : Forall node_object (xod_objects dict)
}.

(** An entry that restoring its power-on value leaves as it is, when nothing is stored. *)
Definition steady (e : ObjectEntry) : Prop :=
  match default_value e with None => True | Some v => object e = Obj_Variable v end.

Lemma steady_restore a b i e : steady e -> restore_entry None a b i e = e.
Proof.
  intros Hs. unfold restore_entry. repeat case_match; try done.
  enough (restore_object None i e = object e) as -> by (by destruct e).
  unfold steady in Hs. unfold restore_object. destruct (default_value e) as [v|].
  - by rewrite Hs.
  - destruct (object e) as [v|vs|vs]; [done| |]; f_equal; apply list_eq; intros k;
      rewrite list_lookup_imap; by destruct (vs !! k).
Qed.

(** *** Entries made from objects *)
Section Entries.
Context `{HexDecode}.

Lemma fill_length missing subs : forall vs r, fill_sub_values missing subs vs = Ok r -> length r = length vs.
Proof.
  induction subs as [|s subs IH]; intros vs r; cbn [fill_sub_values]; [by intros [= <-]|].
  destruct (xs_sub_index s =? 0); [apply IH|]. destruct (data_value _ _) as [[v|]|]; [|done|done]. cbn [ok_or].
  intros Hr. rewrite (IH _ _ Hr). apply length_insert.
Qed.

Lemma fill_other missing subs k : forall vs r, fill_sub_values missing subs vs = Ok r ->
  Forall (fun s => xs_sub_index s = 0 \/ Z.to_nat (xs_sub_index s - 1) <> k) subs -> r !! k = vs !! k.
Proof.
  induction subs as [|s subs IH]; intros vs r; cbn [fill_sub_values]; [by intros [= <-]|].
  intros Hr Hf. apply Forall_cons in Hf as [Hs Hf]. destruct (Z.eqb_spec (xs_sub_index s) 0); [by apply IH|].
  destruct (data_value _ _) as [[v|]|]; [|done|done]. cbn [ok_or] in Hr. rewrite (IH _ _ Hr Hf).
  apply list_lookup_insert_ne. by destruct Hs.
Qed.

Lemma fill_lookup missing subs s : forall vs r, fill_sub_values missing subs vs = Ok r ->
  NoDup (map xs_sub_index subs) -> Forall (fun s => 0 <= xs_sub_index s) subs -> s ∈ subs ->
  0 < xs_sub_index s <= len vs ->
  exists v, data_value (xs_data s) (xs_data_type s) = Ok (Some v) /\ r !! Z.to_nat (xs_sub_index s - 1) = Some v.
Proof.
  induction subs as [|x subs IH]; intros vs r; cbn [fill_sub_values map]; [by intros _ _ _ ?%elem_of_nil|].
  intros Hr Hnd Hp Hin Hlen. apply NoDup_cons in Hnd as [Hx Hnd]. apply Forall_cons in Hp as [Hpx Hp].
  apply elem_of_cons in Hin as [->|Hin].
  - destruct (Z.eqb_spec (xs_sub_index x) 0); [lia|].
    destruct (data_value _ _) as [[v|]|]; [|done|done]. cbn [ok_or] in Hr. exists v. split; [done|].
    rewrite (fill_other _ _ _ _ _ Hr).
    + apply list_lookup_insert_eq. unfold len in Hlen. lia.
    + rewrite Forall_forall in Hp |- *. intros y Hy. specialize (Hp y Hy). cbn beta in Hp.
      destruct (decide (xs_sub_index y = 0)); [by left|right]. intros E. apply Hx.
      replace (xs_sub_index x) with (xs_sub_index y) by lia. by apply list_elem_of_fmap_2.
  - destruct (xs_sub_index x =? 0); [by apply (IH vs)|].
    destruct (data_value (xs_data x) _) as [[v|]|]; [|done|done]. cbn [ok_or] in Hr.
    apply (IH _ _ Hr Hnd Hp Hin). unfold len in *. by rewrite length_insert.
Qed.

(** What becomes of an object. *)
Inductive made_from (o : XObject) (e : ObjectEntry) : Prop :=
| made_variable v : xo_object_type o = str "7" ->
    data_value (xo_data o) (xo_data_type o) = Ok (Some v) -> object e = Obj_Variable v ->
    default_value e = Some v -> made_from o e
| made_values vs : xo_object_type o <> str "7" ->
    (object e = Obj_Array vs \/ object e = Obj_Record vs) ->
    (exists missing, object_sub_values missing (xo_sub_objects o) = Ok vs) ->
    (xo_data o = None -> default_value e = None) -> made_from o e.

Lemma core_entry_made o e : core_entry o = Ok e -> made_from o e.
Proof.
  unfold core_entry, map_object. destruct (bool_decide_reflect (xo_object_type o = str "7")) as [H7|H7].
  - destruct (data_value _ _) as [[v|]|] eqn:Ev; [|done|done]. cbn [ok_or]. intros [= <-].
    by apply (made_variable _ _ v).
  - intros He. assert (exists c vs m, (c = Obj_Array vs \/ c = Obj_Record vs) /\
      object_sub_values m (xo_sub_objects o) = Ok vs /\
      exists d, data_value (xo_data o) (xo_data_type o) = Ok d /\ object e = c /\ default_value e = d)
      as (c&vs&m&Hc&Hs&d&Hd&Ho&Hdf).
    { repeat case_match; simplify_eq; do 3 eexists; (split; [by (left + right)|]); (split; [done|]); by eexists. }
    apply (made_values _ _ vs); [done|naive_solver|by exists m|]. intros Hn. rewrite Hn in Hd. by injection Hd as <-.
Qed.

Lemma made_steady o e : node_object o -> made_from o e -> steady e.
Proof.
  unfold steady. intros Hn [v H7 Hv Ho ->|vs H7 Ho Hs Hd]; [done|].
  destruct Hn as [|[Hn _]]; [done|]. by rewrite Hd.
Qed.

Lemma made_length o e : node_object o -> made_from o e -> (length (object_values (object e)) <= 254)%nat.
Proof.
  intros Hn [v H7 Hv Ho Hd|vs H7 Ho (m&Hs) Hd]; [rewrite Ho; simpl; lia|].
  destruct Hn as [|(_&_&_&Hl)]; [done|]. apply fill_length in Hs. rewrite length_replicate in Hs.
  destruct Ho as [->| ->]; simpl; lia.
Qed.

(** Every described value is understood, within the declared count or not. *)
Lemma fill_understood missing subs s : forall vs r, fill_sub_values missing subs vs = Ok r ->
  s ∈ subs -> xs_sub_index s <> 0 -> exists v, data_value (xs_data s) (xs_data_type s) = Ok (Some v).
Proof.
  induction subs as [|x subs IH]; intros vs r; cbn [fill_sub_values]; [by intros _ ?%elem_of_nil|].
  intros Hr Hin Hs. apply elem_of_cons in Hin as [->|Hin].
  - destruct (Z.eqb_spec (xs_sub_index x) 0); [done|]. destruct (data_value _ _) as [[v|]|]; [by exists v|done|done].
  - destruct (xs_sub_index x =? 0); [by apply (IH vs r)|].
    destruct (data_value (xs_data x) _) as [[v|]|]; [|done|done]. exact (IH _ _ Hr Hin Hs).
Qed.

(** The values up to the count that the description does not give are UNSIGNED8 zeros, and
    there are none above it. *)
Lemma made_rest o e k : node_object o -> made_from o e -> xo_object_type o <> str "7" -> 0 < k ->
  let size := Z.of_nat (sub_object_size (xo_sub_objects o)) in
  (size < k -> read_entry e k = None) /\
  (k <= size -> k ∉ map xs_sub_index (xo_sub_objects o) -> read_entry e k = Some (OV_Unsigned8 0)).
Proof.
  intros Hn [v H7 Hv Ho Hd|vs _ Ho (m&Hs) Hd] Hne Hk size; [done|].
  destruct Hn as [|(_&_&Hp&_)]; [done|]. unfold object_sub_values in Hs.
  assert (read_entry e k = vs !! Z.to_nat (k - 1)) as ->.
  { unfold read_entry. destruct (Z.eqb_spec k 0); [lia|]. by destruct Ho as [->| ->]. }
  split; intros Hle.
  - apply lookup_ge_None_2. apply fill_length in Hs. rewrite Hs, length_replicate. lia.
  - intros Hnot. rewrite (fill_other _ _ (Z.to_nat (k - 1)) _ _ Hs); [apply lookup_replicate_2; lia|].
    apply Forall_forall. intros s Hin. rewrite Forall_forall in Hp. specialize (Hp s Hin). cbn beta in Hp.
    destruct (decide (xs_sub_index s = 0)); [by left|right]. intros E. apply Hnot.
    replace k with (xs_sub_index s) by lia. by apply list_elem_of_fmap_2.
Qed.

Lemma made_understood o e s : made_from o e -> xo_object_type o <> str "7" -> s ∈ xo_sub_objects o ->
  xs_sub_index s <> 0 -> exists v, data_value (xs_data s) (xs_data_type s) = Ok (Some v).
Proof. intros [v H7 Hv Ho Hd|vs _ Ho (m&Hs) Hd] Hne; [done|]. by apply (fill_understood m _ _ _ _ Hs). Qed.

Lemma made_read o e s : node_object o -> made_from o e -> xo_object_type o <> str "7" ->
  s ∈ xo_sub_objects o -> 0 < xs_sub_index s <= Z.of_nat (sub_object_size (xo_sub_objects o)) ->
  exists v, data_value (xs_data s) (xs_data_type s) = Ok (Some v) /\ read_entry e (xs_sub_index s) = Some v.
Proof.
  intros Hn [v H7 Hv Ho Hd|vs _ Ho (m&Hs) Hd] Hne Hin Hi; [done|].
  destruct Hn as [|(_&Hnd&Hp&_)]; [done|]. unfold object_sub_values in Hs.
  destruct (fill_lookup _ _ s _ _ Hs Hnd Hp Hin) as (v&Hv&Hl); [unfold len; by rewrite length_replicate|].
  exists v. split; [done|]. unfold read_entry. destruct (Z.eqb_spec (xs_sub_index s) 0); [lia|].
  by destruct Ho as [->| ->].
Qed.

(** *** The whole dictionary *)
Lemma insert_objects_from {S} objs : forall d r : ObjectDictionary S, insert_objects objs d = Ok r ->
  storage r = storage d /\
  forall i e, entries r !! i = Some e ->
    entries d !! i = Some e \/ exists o, o ∈ objs /\ xo_index o = i /\ core_entry o = Ok e.
Proof.
  induction objs as [|o objs IH]; intros d r; cbn [insert_objects]; [by intros [= <-]; split; [|left]|].
  destruct (core_entry o) as [e0|] eqn:Eo; [|done]. intros Hr. destruct (IH _ _ Hr) as [Hs Hl]. split; [done|].
  intros i e Hi. destruct (Hl i e Hi) as [He|(x&Hx&Hix&Hex)].
  - unfold insert_entry, set_entries in He. cbn [entries] in He. apply lookup_insert_Some in He as [[<- <-]|[_ He]].
    + right. exists o. by split; [left|].
    + by left.
  - right. exists x. by split; [right|].
Qed.
End Entries.

(** ** From the dictionary to the node *)
Lemma populate_lookup {S} (d : ObjectDictionary S) i e :
  entries (populate_protocol_objects d) !! i = Some e -> entries d !! i = Some e \/ (i, e) ∈ protocol_objects.
Proof.
  unfold populate_protocol_objects. generalize protocol_objects as l. intros l. revert d.
  induction l as [|[j x] l IH]; intros d; [by left|]. cbn [foldl]. intros Hi.
  destruct (IH _ Hi) as [He|He]; [|by right; right].
  unfold insert_if_missing in He. cbn [fst snd] in He. destruct (entries d !! j); [by left|].
  unfold insert_entry, set_entries in He. cbn [entries] in He.
  apply lookup_insert_Some in He as [[<- <-]|[_ He]]; [right; left|by left].
Qed.

Lemma protocol_objects_typed i e : (i, e) ∈ protocol_objects -> entry_typed e = true.
Proof.
  intros Hi. assert (forallb (fun ie => entry_typed (snd ie)) protocol_objects = true) as Ha by (vm_compute; reflexivity).
  rewrite forallb_forall in Ha. apply (Ha (i, e)). by apply list_elem_of_In.
Qed.

Section Creation.
Context {S : Type} `{ST : ObjectDictionaryStorage S} `{HD : HexDecode}.
Implicit Types d : ObjectDictionary S.

(** The objects of a description as they are in a dictionary. *)
Definition holds (dict : XObjectDictionary) d : Prop :=
  storage d = None /\
  forall o, o ∈ xod_objects dict -> xo_index o <> 0x1F8C ->
    exists e, core_entry o = Ok e /\ entries d !! xo_index o = Some e.

Lemma holds_init dict d : node_description dict -> to_core_od dict = Ok d ->
  snd (init d) = Ok tt /\ holds dict (fst (init d)).
Proof.
  intros [Hnd _] Hd. unfold to_core_od in Hd. destruct (insert_objects_from _ _ _ Hd) as [Hs _].
  unfold ObjectDictionary_new in Hs. cbn [storage] in Hs.
  rewrite init_eq. unfold init_storage. rewrite populate_storage, Hs. cbn [fst snd]. split; [done|].
  split; [by rewrite populate_storage|]. intros o Ho _.
  destruct (insert_lookup _ o Hnd Ho _ _ Hd) as (e&He&Hl). exists e. split; [done|]. by apply populate_keeps.
Qed.

Lemma holds_agree dict d1 d2 : agree d1 d2 -> holds dict d2 -> holds dict d1.
Proof.
  intros [Es Ee] [Hs Hl]. split; [by rewrite Es|]. intros o Ho Hne.
  destruct (Hl o Ho Hne) as (e&He&Hi). exists e. by rewrite (Ee _ Hne).
Qed.

Lemma holds_restore dict rs : node_description dict -> forall d, holds dict d -> holds dict (restore_ranges d rs).
Proof.
  intros [_ Hn]. unfold restore_ranges. induction rs as [|[a b] rs IH]; intros d Hd; [done|]. cbn [foldl fst snd].
  apply IH. destruct Hd as [Hs Hl].
  assert (load_for_restore d = (d, None)) as El by (unfold load_for_restore; by rewrite Hs).
  split; [unfold restore_power_on_values; by rewrite El|]. intros o Ho Hne. destruct (Hl o Ho Hne) as (e&He&Hi).
  exists e. split; [done|]. rewrite restore_lookup, El, Hi. cbn [snd fmap option_fmap option_map].
  rewrite steady_restore; [done|]. rewrite Forall_forall in Hn. eapply made_steady; [by apply Hn|by apply core_entry_made].
Qed.

Lemma holds_initialisation {M} `{NmtLaws M} dict (m : M) d : node_description dict -> holds dict d ->
  holds dict (snd (run_internal_initialisation m d)).
Proof.
  intros Hn Hd. unfold run_internal_initialisation. case_match; [done|].
  eapply holds_agree; [by apply reset_agrees|]. by apply holds_restore.
Qed.

Lemma cn_new_holds dict d mac cap (c : CnContext S) : node_description dict -> to_core_od dict = Ok d ->
  cn_new d mac cap = Ok c -> holds dict (cn_od c).
Proof.
  intros Hn Hd. destruct (holds_init dict d Hn Hd) as [Hok Hi]. unfold cn_new. destruct (init d) as [d1 r].
  cbn [fst snd] in *. subst r. destruct (validate_mandatory_objects d1 false); [|done].
  destruct (cn_from_od d1) as [m|]; [|done].
  pose proof (holds_initialisation dict m d1 Hn Hi) as Hr. destruct (run_internal_initialisation m d1). by intros [= <-].
Qed.

Lemma mn_new_holds {Q} `{RequestHeap Q} dict d mac cfg (m : MnContext S Q) :
  node_description dict -> to_core_od dict = Ok d -> mn_new d mac cfg = Ok m -> holds dict (mn_od m).
Proof.
  intros Hn Hd. destruct (holds_init dict d Hn Hd) as [Hok Hi]. unfold mn_new. destruct (init d) as [d1 r].
  cbn [fst snd] in *. subst r. destruct (validate_mandatory_objects d1 true); [|done].
  destruct (mn_from_od d1) as [n|]; [|done]. destruct (ok_or _ _); [|done]. destruct (parse_mn_node_lists d1); [|done].
  pose proof (holds_initialisation dict n d1 Hn Hi) as Hr. destruct (run_internal_initialisation n d1). by intros [= <-].
Qed.

Lemma description_typed `{!StorageKeeps S} dict d : node_description dict -> to_core_od dict = Ok d ->
  od_typed (populate_protocol_objects d).
Proof.
  intros [_ Hn] Hd. unfold to_core_od in Hd. destruct (insert_objects_from _ _ _ Hd) as [Hs Hl]. apply entries_typed.
  - apply forallb_forall. intros [i e] Hi. apply list_elem_of_In, elem_of_map_to_list, populate_lookup in Hi as [Hi|Hi].
    + destruct (Hl i e Hi) as [He|(o&Ho&_&He)]; [done|]. rewrite Forall_forall in Hn. specialize (Hn o Ho).
      apply core_entry_made in He. pose proof (made_length o e Hn He). pose proof (made_steady o e Hn He) as Hst.
      unfold entry_typed, steady in *. cbn [snd]. apply andb_true_iff. split; [by apply Nat.leb_le|].
      destruct (object e), (default_value e); try done. injection Hst as ->. apply Z.eqb_refl.
    + by apply (protocol_objects_typed i).
  - intros st i e s v w Hst. by rewrite populate_storage, Hs in Hst.
Qed.

(** The value that the text of a description stands for, at each variable and at each sub-index
    of an array or record up to its declared count. *)
Definition reads_as (dict : XObjectDictionary) d : Prop :=
  forall o, o ∈ xod_objects dict -> xo_index o <> 0x1F8C ->
    (xo_object_type o = str "7" ->
       exists v, data_value (xo_data o) (xo_data_type o) = Ok (Some v) /\ read d (xo_index o) 0 = Some v) /\
    (xo_object_type o <> str "7" ->
       let size := Z.of_nat (sub_object_size (xo_sub_objects o)) in
       (forall s, s ∈ xo_sub_objects o -> 0 < xs_sub_index s ->
          exists v, data_value (xs_data s) (xs_data_type s) = Ok (Some v) /\
            read d (xo_index o) (xs_sub_index s) = if xs_sub_index s <=? size then Some v else None) /\
       (forall k, 0 < k -> k ∉ map xs_sub_index (xo_sub_objects o) ->
          read d (xo_index o) k = if k <=? size then Some (OV_Unsigned8 0) else None)).

Lemma holds_reads dict d : node_description dict -> holds dict d -> reads_as dict d.
Proof.
  intros [_ Hn] [_ Hl] o Ho Hne. rewrite Forall_forall in Hn. specialize (Hn o Ho).
  destruct (Hl o Ho Hne) as (e&He&Hi). apply core_entry_made in He. unfold read. rewrite Hi. cbn [mbind option_bind]. split.
  - intros H7. destruct He as [v _ Hv Hob Hdf|]; [|done]. exists v. split; [done|]. unfold read_entry. by rewrite Hob.
  - intros H7. split; [intros s Hin Hs|intros k Hk Hnot].
    + destruct (made_rest o e (xs_sub_index s) Hn He H7 Hs) as [Hgt _].
      destruct (Z.leb_spec (xs_sub_index s) (Z.of_nat (sub_object_size (xo_sub_objects o)))).
      * by apply (made_read o e s).
      * destruct (made_understood o e s He H7 Hin) as [v Hv]; [lia|]. exists v. split; [done|]. by apply Hgt.
    + destruct (made_rest o e k Hn He H7 Hk) as [Hgt Hle].
      by destruct (Z.leb_spec k (Z.of_nat (sub_object_size (xo_sub_objects o)))); [apply Hle|apply Hgt].
Qed.

(** The fields of an IdentResponse that object 0x1018 gives. *)
Definition identity_fields (p : IdentResponsePayload) : list Z :=
  [id_vendor_id p; id_product_code p; id_revision_number p; id_serial_number p].

Lemma reads_identity dict d o s n : reads_as dict d -> o ∈ xod_objects dict -> xo_index o = 0x1018 ->
  xo_object_type o <> str "7" -> s ∈ xo_sub_objects o -> 1 <= xs_sub_index s <= 4 ->
  xs_sub_index s <= Z.of_nat (sub_object_size (xo_sub_objects o)) ->
  data_value (xs_data s) (xs_data_type s) = Ok (Some (OV_Unsigned32 n)) ->
  identity_fields (IdentResponsePayload_new d) !! Z.to_nat (xs_sub_index s - 1) = Some n.
Proof.
  intros Hr Ho Hi H7 Hs H4 Hsz Hv. destruct (Hr o Ho) as [_ Hsub]; [by rewrite Hi|].
  destruct (Hsub H7) as [Hval _]. destruct (Hval s Hs) as (v&Hv'&Hrd); [lia|].
  rewrite Hv in Hv'. injection Hv' as <-. rewrite Hi in Hrd.
  rewrite (proj2 (Z.leb_le _ _) Hsz) in Hrd.
  assert (read_u32 d 0x1018 (xs_sub_index s) = Some n) as Hu by (unfold read_u32; by rewrite Hrd).
  assert (xs_sub_index s = 1 \/ xs_sub_index s = 2 \/ xs_sub_index s = 3 \/ xs_sub_index s = 4) as Hc by lia.
  unfold identity_fields, IdentResponsePayload_new. cbn [id_vendor_id id_product_code id_revision_number id_serial_number].
  destruct Hc as [E|[E|[E|E]]]; rewrite E in Hu |- *; by rewrite Hu.
Qed.
End Creation.

(** The device description of a controlled node with number 42. *)
Definition demo_sub (i : Z) (ty data : string) : XSubObject :=
  mkXSubObject i (str "Sub") (str "7") (Some (str ty)) None None (Some XReadOnly) None None None false None
    (Some (str data)).
Definition demo_variable (i : Z) (ty data : string) : XObject :=
  mkXObject i (str "Var") (str "7") (Some (str ty)) None None (Some XReadOnly) None None (Some XMandatory) false None
    (Some (str data)) [].
Definition demo_record (i : Z) (subs : list XSubObject) : XObject :=
  mkXObject i (str "Rec") (str "9") None None None (Some XReadOnly) None None None false None None subs.
Lemma demo_variable_ok i ty data : node_object (demo_variable i ty data).
Proof. by left. Qed.
Lemma demo_record_ok i subs :
  bool_decide (NoDup (map xs_sub_index subs)) && forallb (fun s => 0 <=? xs_sub_index s) subs
    && (sub_object_size subs <=? 254)%nat = true -> node_object (demo_record i subs).
Proof.
  rewrite !andb_true_iff. intros [[H1 H2] H3]. right. apply bool_decide_eq_true in H1. apply Nat.leb_le in H3.
  rewrite forallb_forall in H2. split_and!; try done. apply Forall_forall. intros s Hs. apply Z.leb_le, H2.
  by apply list_elem_of_In.
Qed.
Definition demo_node_description : XObjectDictionary := mkXObjectDictionary
  [demo_variable 0x1000 "0007" "0x000F0191";
   demo_record 0x1018 [demo_sub 0 "0005" "4"; demo_sub 1 "0007" "0x0000001A"; demo_sub 2 "0007" " 4660";
                       demo_sub 3 "0007" "0x00010002"; demo_sub 4 "0007" "99"];
   demo_variable 0x1F82 "0007" "0x00000005";
   demo_record 0x1F93 [demo_sub 0 "0005" "2"; demo_sub 1 "0005" "42"; demo_sub 2 "0001" "0"];
   demo_variable 0x1F99 "0007" "2000000";
   demo_record 0x6000 [demo_sub 1 "0005" "0x0F"]].

(** ** Properties *)

(** C38: The node a device description is made into is the node it describes.  Where no index and
    no sub-index of the description is given twice, no object has more than 254 values and only
    a variable has a value of its own, the dictionary that [to_core_od] makes satisfies what
    [node_dictionary_typed] asks of it, and a controlled or managing node created with it starts,
    after the protocol objects are filled in and the power-on values restored, with the described
    objects (but for the NMT state in 0x1F8C).  Each variable reads as what its text stands for.
    An array or record has as many values as its sub-index 0 declares (in decimal; without such a
    number, as many as its greatest sub-index): each value described up to that count reads as what
    its text stands for, those not described as an UNSIGNED8 zero, and a value described beyond the
    count is parsed and dropped, so that its sub-index does not exist in the node.  The vendor,
    product, revision and serial number that the node identifies itself with are those that the
    description gives as UNSIGNED32 values of 0x1018 within its count. *)
Theorem description_becomes_node {S Q} `{ST : ObjectDictionaryStorage S} `{QH : RequestHeap Q} `{!StorageKeeps S}
    `{HD : HexDecode} dict (d : ObjectDictionary S) mac :
  node_description dict -> to_core_od dict = Ok d ->
  let described (od : ObjectDictionary S) :=
    holds dict od /\ reads_as dict od /\
    forall o s n, o ∈ xod_objects dict -> xo_index o = 0x1018 -> xo_object_type o <> str "7" ->
      s ∈ xo_sub_objects o -> 1 <= xs_sub_index s <= 4 ->
      xs_sub_index s <= Z.of_nat (sub_object_size (xo_sub_objects o)) ->
      data_value (xs_data s) (xs_data_type s) = Ok (Some (OV_Unsigned32 n)) ->
      identity_fields (IdentResponsePayload_new od) !! Z.to_nat (xs_sub_index s - 1) = Some n in
  od_typed (populate_protocol_objects d) /\
  (forall cap c, cn_new d mac cap = Ok c -> described (cn_od c)) /\
  (forall cfg (m : MnContext S Q), mn_new d mac cfg = Ok m -> described (mn_od m)).
Proof.
  intros Hn Hd described.
  assert (forall od : ObjectDictionary S, holds dict od -> described od) as Hall.
  { intros od Ho. pose proof (holds_reads dict od Hn Ho) as Hr. split; [done|]. split; [done|].
    intros o s n. by apply reads_identity. }
  split; [by apply (description_typed dict)|]. split.
  - intros cap c Hc. by eapply Hall, cn_new_holds.
  - intros cfg m Hm. by eapply Hall, mn_new_holds.
Qed.

Lemma description_becomes_node_witness :
  exists (d : ObjectDictionary MemStorage) c, to_core_od demo_node_description = Ok d /\ cn_new d demo_mac 10 = Ok c /\
    cn_id c = 42 /\ identity_fields (IdentResponsePayload_new (cn_od c)) = [26; 4660; 0x10002; 99] /\
    od_typed (populate_protocol_objects d) /\ holds demo_node_description (cn_od c).
Proof.
  assert (match to_core_od (S := MemStorage) demo_node_description with
    | Ok d => match cn_new d demo_mac 10 with
              | Ok c => Some (cn_id c, identity_fields (IdentResponsePayload_new (cn_od c)))
              | Err _ => None end
    | Err _ => None end = Some (42, [26; 4660; 0x10002; 99])) as H by (vm_compute; reflexivity).
  destruct (to_core_od (S := MemStorage) demo_node_description) as [d|] eqn:Ed; [|discriminate H].
  destruct (cn_new d demo_mac 10) as [c|] eqn:Ec; [|discriminate H].
  assert (node_description demo_node_description) as Hn.
  { split; [apply (bool_decide_unpack _); vm_compute; reflexivity|].
    repeat (apply Forall_cons; split); try (by apply Forall_nil);
      first [apply demo_variable_ok|apply demo_record_ok; vm_compute; reflexivity]. }
  destruct (description_becomes_node (Q := list AsyncRequest) demo_node_description d demo_mac Hn Ed) as (Ht&Hc&_).
  exists d, c. split; [reflexivity|]. split; [exact Ec|]. split; [congruence|]. split; [congruence|].
  split; [exact Ht|]. exact (proj1 (Hc 10 c Ec)).
Defined.
