(* ===== verification/LoopbackTest.v ===== *)
(** * The test over real interfaces

    [src/crates/powerlink-rs-linux/tests/loopback_test.rs]: the dictionary and the loop of its
    controlled node and the script of its managing node, which is no [ManagingNode] but sends
    frames of its own and waits for the answers; over any [NetworkInterface].  The bench of both, over Linux
    interfaces on one Ethernet segment and any sockets, for any sequence of their steps.  A panic of the script
    is a place of its own. *)
From S2P Require Import Prelude Utf8 Types Platform Frames Dll ErrorEntry ObjectDict OdPredefined StatusFrames Nmt.
From S2P Require Import SdoCodec SdoServer SdoEmbedded SdoClient Node CnPayload CnNode IoModule Platforms XdcText.

(** In microseconds. *)
Definition TEST_TIMEOUT : Z := 20000000.
Definition TEST_INTERFACE : bytes := str "eth0".
Definition FALLBACK_INTERFACE : bytes := str "lo".
Definition find_test_interface {T R U} `{SY : System T R U} : bytes :=
  unwrap_or (pnet_name <$> List.find (fun iface => bool_decide (pnet_name iface = TEST_INTERFACE)) interfaces)
    FALLBACK_INTERFACE.

(** ** The controlled node *)
Definition DEVICE_NAME : bytes := str "powerlink-rs CN Test".

Section Dictionary.
Context {S : Type} `{ST : ObjectDictionaryStorage S}.

Definition test_parameter_objects (node_id : Z) : list (Z * ObjectEntry) :=
  let flags := FeatureFlags.bitor (FeatureFlags.bitor FeatureFlags.ISOCHRONOUS FeatureFlags.SDO_ASND) FeatureFlags.SDO_UDP in
  [(0x1000, mkObjectEntry (Obj_Variable (OV_Unsigned32 0x000F0191)) "NMT_DeviceType_U32"
      Cat_Mandatory (Some Constant) None None None);
   (0x1006, mkObjectEntry (Obj_Variable (OV_Unsigned32 10000)) "NMT_CycleLen_U32"
      Cat_Mandatory (Some ReadWriteStore) None None None);
   (0x1008, mkObjectEntry (Obj_Variable (OV_VisibleString DEVICE_NAME)) "NMT_ManufactDevName_VS"
      Cat_Optional (Some Constant) None None None);
   (0x1018, mkObjectEntry (Obj_Record [OV_Unsigned32 0x12345678; OV_Unsigned32 0x00000001;
      OV_Unsigned32 0x00010000; OV_Unsigned32 0xABCDEF01]) "NMT_IdentityObject_REC"
      Cat_Mandatory None None None None);
   (0x1F93, mkObjectEntry (Obj_Record [OV_Unsigned8 node_id; OV_Boolean 0]) "NMT_EPLNodeID_REC"
      Cat_Mandatory None None None None);
   (0x1F82, mkObjectEntry (Obj_Variable (OV_Unsigned32 flags)) "NMT_FeatureFlags_U32"
      Cat_Mandatory (Some Constant) None None None);
   (0x1C14, mkObjectEntry (Obj_Variable (OV_Unsigned32 100000)) "DLL_CNLossOfSocTolerance_U32"
      Cat_Mandatory (Some ReadWriteStore) None None None);
   (0x1F99, mkObjectEntry (Obj_Variable (OV_Unsigned32 5000000)) "NMT_CNBasicEthernetTimeout_U32"
      Cat_Mandatory (Some ReadWriteStore) None None None);
   (0x1F8C, mkObjectEntry (Obj_Variable (OV_Unsigned8 (NmtState_as_u8 NmtGsInitialising))) "NMT_CurrNMTState_U8"
      Cat_Mandatory (Some ReadOnly) None None (Some Pdo_No));
   (0x1F83, mkObjectEntry (Obj_Variable (OV_Unsigned8 0x15)) "NMT_EPLVersion_U8"
      Cat_Mandatory (Some Constant) None None None)].
Definition test_profile_objects (node_id : Z) : list (Z * ObjectEntry) :=
  [(0x1F98, mkObjectEntry (Obj_Record [OV_Unsigned16 1490; OV_Unsigned16 1490; OV_Unsigned32 10000;
      OV_Unsigned16 100; OV_Unsigned16 100; OV_Unsigned32 20000; OV_Unsigned8 0; OV_Unsigned16 300;
      OV_Unsigned16 2]) "NMT_CycleTiming_REC" Cat_Mandatory None None None None);
   (0x1020, mkObjectEntry (Obj_Record [OV_Unsigned32 0; OV_Unsigned32 0]) "CFM_VerifyConfiguration_REC"
      Cat_Mandatory None None None None);
   (0x1F52, mkObjectEntry (Obj_Record [OV_Unsigned32 0; OV_Unsigned32 0]) "PDL_LocVerApplSw_REC"
      Cat_Conditional None None None None);
   (0x1E40, mkObjectEntry (Obj_Record [OV_Unsigned16 1; OV_Unsigned32 (Z.lor 0xC0A86400 node_id);
      OV_Unsigned32 0xFFFFFF00; OV_Unsigned16 1500; OV_Unsigned32 0xC0A864FE]) "NWL_IpAddrTable_0h_REC"
      Cat_Conditional None None None None);
   (0x1F9A, mkObjectEntry (Obj_Variable (OV_VisibleString (to_string node_id ++ str "-TestHost"))) "NMT_HostName_VSTR"
      Cat_Conditional (Some ReadWriteStore) None None None)].
Definition get_test_od (node_id : Z) : ObjectDictionary S :=
  insert_all (test_parameter_objects node_id ++ test_profile_objects node_id) (ObjectDictionary_new None).
End Dictionary.

(** The variables of [run_cn_logic]. *)
Record CnTest (S I : Type) : Type := mkCnTest {
  ct_interface : I; ct_node : CnContext S; ct_mac : bytes; ct_eth_buffer : bytes; ct_udp_buffer : bytes }.
Arguments mkCnTest {S I}.
Arguments ct_interface {S I} c.
Arguments ct_node {S I} c.
Arguments ct_mac {S I} c.
Arguments ct_eth_buffer {S I} c.
Arguments ct_udp_buffer {S I} c.

Section ControlledNode.
Context {S I : Type} `{ST : ObjectDictionaryStorage S} `{NI : NetworkInterface I}.

(** [setup_node] once the interface is there; [None]: a panic. *)
Definition node_setup (i : I) (od : ObjectDictionary S) (capacity : Z) : option (CnTest S I) :=
  match cn_new od (local_mac_address i) capacity with
  | Ok node => Some (mkCnTest i node (local_mac_address i) (replicate 1518 0) (replicate 1500 0))
  | Err _ => None
  end.

(** The frames of the node itself are passed over. *)
Definition own_frame (bytes_received : Z) (buffer mac : bytes) : bool :=
  (12 <=? bytes_received) && bool_decide (slice buffer 6 12 = mac).
Definition poll_others (i : I) (buffer mac : bytes) : option (I * bytes * option bytes) :=
  let '(i, buffer, r) := receive_frame i buffer in
  match r with
  | Ok n =>
      if 0 <? n then
        if own_frame n buffer mac then Some (i, buffer, None)
        else let! s := slice_to n buffer in Some (i, buffer, Some s)
      else Some (i, buffer, None)
  | Err _ => Some (i, buffer, None)
  end.

(** One round of the loop of [run_cn_logic], with the two times it reads. *)
Definition cn_test_round (elapsed t : Z) (c : CnTest S I) : option (CnTest S I) :=
  if TEST_TIMEOUT <? elapsed then None else
  let! (i, eth_buf, eth_slice) := poll_others (ct_interface c) (ct_eth_buffer c) (ct_mac c) in
  let! (i, udp_buf, udp_info) := poll_udp i (ct_udp_buffer c) in
  let! (node, action) := cn_run_cycle eth_slice udp_info t (ct_node c) in
  Some (mkCnTest (execute_action action i) node (ct_mac c) eth_buf udp_buf).
End ControlledNode.

Definition setup_node {S T R U} `{ST : ObjectDictionaryStorage S} `{RC : RawChannel T R} `{SK : Socket U}
    `{SY : !System T R U} (interface_name : bytes) (node_id : Z) (od : ObjectDictionary S) (capacity : Z)
    : option (CnTest S (LinuxPnetInterface T R U)) :=
  match LinuxPnetInterface_new interface_name node_id with
  | Ok interface => node_setup interface od capacity
  | Err _ => None
  end.

(** ** The frames of the script *)

(** A buffer of [n] octets, written, unwrapped and cut to the size returned. *)
Definition serialized (write : bytes -> bytes * res nat) (n : nat) : option bytes :=
  match write (replicate n 0) with (buffer, Ok size) => Some (take size buffer) | (_, Err _) => None end.
Definition test_soc (mac : MacAddress) : option bytes :=
  serialized (SocFrame_serialize (SocFrame_new mac (mkSocFlags false false) (mkNetTime 0 0) (mkRelativeTime 0 0))) 64.
Definition test_soa (mac : MacAddress) (cn_node_id : NodeId) : option bytes :=
  serialized (SoAFrame_serialize (SoAFrame_new mac NmtPreOperational1 (mkSoAFlags false false) Req_IdentRequest
    cn_node_id 0x15)) 64.

Definition unwrap_size (r : res nat) : nat := match r with Ok n => n | Err _ => O end.
Definition build_sdo_payload (seq_header : SequenceLayerHeader) (cmd : SdoCommand) : bytes :=
  let payload := replicate 1500 0 in
  let '(head, r) := SequenceLayerHeader_serialize seq_header (slice payload 0 4) in
  let payload := put payload 0 head in
  let offset := unwrap_size r in
  let '(tail, r) := SdoCommand_serialize cmd (drop offset payload) in
  take (offset + unwrap_size r) (put payload offset tail).

Definition test_asnd (mac : MacAddress) (cn_node_id : NodeId) (payload : bytes) : option bytes :=
  serialized (ASndFrame_serialize (ASndFrame_new mac [0x01; 0x11; 0x1E; 0x00; 0x00; cn_node_id] cn_node_id
    C_ADR_MN_DEF_NODE_ID Svc_Sdo payload)) 1500.
(** [63]: before the first frame of the other end. *)
Definition INITIAL_ACK : Z := 63.
Definition init_request : bytes :=
  build_sdo_payload (mkSeqHeader INITIAL_ACK Rcon_NoConnection 0 Scon_Initialization)
    (mkSdoCommand CommandLayerHeader_default None []).
Definition next_sequence (n : Z) : Z := u8 (n + 1) mod 64.
Definition device_name_request (acked : Z) : bytes :=
  build_sdo_payload (mkSeqHeader acked Rcon_ConnectionValid (next_sequence 0) Scon_ConnectionValid)
    (mkSdoCommand (mkCmdHeader 1 false false Seg_Expedited Cid_ReadByIndex 4) None [0x08; 0x10; 0x00; 0x00]).

(** ** The script of the managing node *)

(** The tests by name; any other name panics. *)
Inductive LoopbackTest : Type := Lt_IdentRequest | Lt_SdoRead | Lt_Unknown.
(** Where the script is: the frame it sends next or the answer it waits for, or how it ended. *)
Inductive MnPoint : Type :=
| At_Soc | At_Soa | At_Ident | At_SecondSoc | At_Init | At_InitAck | At_Read | At_Response | At_Success | At_Panic.
#[export] Instance MnPoint_eq_dec : EqDecision MnPoint.
Proof. solve_decision. Defined.

(** Its place and variables: [mn_mac], [last_acked_cn_sdo_seq] and the buffer of
    [receive_frame_helper]. *)
Record MnTest : Type := mkMnTest { mt_at : MnPoint; mt_mac : bytes; mt_acked : Z; mt_buffer : bytes }.
Definition MnTest_new (mac : bytes) : MnTest := mkMnTest At_Soc mac INITIAL_ACK [].
Definition goes_to (p : MnPoint) (m : MnTest) : MnTest := mkMnTest p (mt_mac m) (mt_acked m) (mt_buffer m).
Definition waits_at (p : MnPoint) (m : MnTest) : MnTest := mkMnTest p (mt_mac m) (mt_acked m) (replicate 1518 0).
Definition polled_with (acked : Z) (buffer : bytes) (m : MnTest) : MnTest := mkMnTest (mt_at m) (mt_mac m) acked buffer.

(** The conditions, with the acknowledged number they change; [None]: the slice of a payload of
    fewer than four octets panics. *)
Definition is_ident_response (cn_node_id : NodeId) (frame : PowerlinkFrame) (acked : Z) : option (Z * bool) :=
  match frame with
  | PF_ASnd asnd =>
      Some (acked, (asnd_source asnd =? cn_node_id) && (asnd_destination asnd =? C_ADR_MN_DEF_NODE_ID)
                   && bool_decide (asnd_service_id asnd = Svc_IdentResponse))
  | _ => Some (acked, false)
  end.
Definition sdo_payload_of (frame : PowerlinkFrame) : option bytes :=
  match frame with
  | PF_ASnd asnd => if bool_decide (asnd_service_id asnd = Svc_Sdo) then Some (asnd_payload asnd) else None
  | _ => None
  end.
Definition is_init_ack (frame : PowerlinkFrame) (acked : Z) : option (Z * bool) :=
  match sdo_payload_of frame with
  | Some payload =>
      if (length payload <? 4)%nat then None else
      match SequenceLayerHeader_deserialize (slice payload 0 4) with
      | Ok seq =>
          if bool_decide (send_con seq = Scon_Initialization) && (receive_sequence_number seq =? 0)
          then Some (send_sequence_number seq, true) else Some (acked, false)
      | Err _ => Some (acked, false)
      end
  | None => Some (acked, false)
  end.
Definition is_data_response (frame : PowerlinkFrame) (acked : Z) : option (Z * bool) :=
  match sdo_payload_of frame with
  | Some payload =>
      if (length payload <? 4)%nat then None else
      match SequenceLayerHeader_deserialize (slice payload 0 4) with
      | Ok seq =>
          if receive_sequence_number seq =? next_sequence 0 then
            Some (send_sequence_number seq,
                  match SdoCommand_deserialize (drop 4 payload) with
                  | Ok cmd => is_response (cmd_header cmd) && negb (is_aborted (cmd_header cmd))
                  | Err _ => false
                  end)
          else Some (acked, false)
      | Err _ => Some (acked, false)
      end
  | None => Some (acked, false)
  end.

(** The last check: the name of the device. *)
Definition reads_device_name (frame : PowerlinkFrame) : bool :=
  match frame with
  | PF_ASnd asnd =>
      match SdoCommand_deserialize (drop 4 (asnd_payload asnd)) with
      | Ok cmd => bool_decide (payload cmd = DEVICE_NAME)
      | Err _ => false
      end
  | _ => false
  end.

Inductive Polled : Type := Poll_Again | Poll_Frame (frame : PowerlinkFrame) | Poll_Panic.

Section Script.
Context {I : Type} `{NI : NetworkInterface I}.

(** One round of [receive_frame_helper], [elapsed] after it began; its [Err] is a panic of the caller. *)
Definition receive_frame_round (condition : PowerlinkFrame -> Z -> option (Z * bool)) (elapsed : Z) (i : I) (m : MnTest)
    : I * MnTest * Polled :=
  if negb (elapsed <? TEST_TIMEOUT) then (i, m, Poll_Panic) else
  let '(i, buffer, r) := receive_frame i (mt_buffer m) in
  let again := (i, polled_with (mt_acked m) buffer m, Poll_Again) in
  match r with
  | Ok n =>
      if 0 <? n then
        match slice_to n buffer with
        | None => (i, m, Poll_Panic)
        | Some received =>
            if own_frame n received (mt_mac m) then again else
            match deserialize_frame received with
            | Ok frame =>
                match condition frame (mt_acked m) with
                | Some (acked, true) => (i, polled_with acked buffer m, Poll_Frame frame)
                | Some (acked, false) => (i, polled_with acked buffer m, Poll_Again)
                | None => (i, m, Poll_Panic)
                end
            | Err _ => again
            end
        end
      else again
  | Err _ => again
  end.

(** [send_frame_helper] with a frame that was built before it. *)
Definition send_frame_helper (frame : option bytes) (next : MnTest -> MnTest) (i : I) (m : MnTest) : I * MnTest :=
  match frame with
  | Some frame =>
      match send_frame i frame with
      | (i, Ok _) => (i, next m)
      | (i, Err _) => (i, goes_to At_Panic m)
      end
  | None => (i, goes_to At_Panic m)
  end.
Definition wait_for (condition : PowerlinkFrame -> Z -> option (Z * bool)) (next : PowerlinkFrame -> MnPoint)
    (elapsed : Z) (i : I) (m : MnTest) : I * MnTest :=
  match receive_frame_round condition elapsed i m with
  | (i, m, Poll_Again) => (i, m)
  | (i, m, Poll_Frame frame) => (i, goes_to (next frame) m)
  | (i, m, Poll_Panic) => (i, goes_to At_Panic m)
  end.

(** [run_mn_logic] and [run_sdo_test_logic]: one frame sent, or one round of a wait. *)
Definition mn_test_step (test : LoopbackTest) (cn_node_id : NodeId) (elapsed : Z) (i : I) (m : MnTest) : I * MnTest :=
  match mt_at m with
  | At_Soc => send_frame_helper (test_soc (mt_mac m)) (goes_to At_Soa) i m
  | At_Soa => send_frame_helper (test_soa (mt_mac m) cn_node_id) (waits_at At_Ident) i m
  | At_Ident =>
      wait_for (is_ident_response cn_node_id)
        (fun _ => match test with Lt_IdentRequest => At_Success | Lt_SdoRead => At_SecondSoc | Lt_Unknown => At_Panic end)
        elapsed i m
  | At_SecondSoc => send_frame_helper (test_soc (mt_mac m)) (goes_to At_Init) i m
  | At_Init => send_frame_helper (test_asnd (mt_mac m) cn_node_id init_request) (waits_at At_InitAck) i m
  | At_InitAck => wait_for is_init_ack (fun _ => At_Read) elapsed i m
  | At_Read =>
      send_frame_helper (test_asnd (mt_mac m) cn_node_id (device_name_request (mt_acked m))) (waits_at At_Response) i m
  | At_Response =>
      wait_for is_data_response (fun frame => if reads_device_name frame then At_Success else At_Panic) elapsed i m
  | At_Success | At_Panic => (i, m)
  end.
End Script.

(** ** The bench *)

(** Both programs over Linux interfaces with sockets of any kind [U]; [None]: the controlled node
    has panicked. *)
Abbreviation Port U := (LinuxPnetInterface (list bytes) (list bytes) U).
Record Bench (S U : Type) : Type := mkBench { b_port : Port U; b_mn : MnTest; b_cn : option (CnTest S (Port U)) }.
Arguments mkBench {S U}.
Arguments b_port {S U} b.
Arguments b_mn {S U} b.
Arguments b_cn {S U} b.

Definition port {U} (node_id : Z) (mac : bytes) (u : U) : Port U :=
  mkLinux [] [] demo_pnet node_id mac u [192; 168; 100; node_id].
Definition hears {U} (buffer : bytes) (i : Port U) : Port U := with_channel i (tx_raw i) (rx_raw i ++ [buffer]).

(** Octets that neither [run_cycle] nor [deserialize_frame] takes for a POWERLINK frame. *)
Definition no_frame (buffer : bytes) : bool := negb (is_epl buffer) && negb (is_ok (deserialize_frame buffer)).

(** What happens: a step of the script, a round of the node, octets that reach one of them on the
    segment, or a change of the node's socket (datagrams that reach it, to hand out as it likes). *)
Inductive BenchStep (U : Type) : Type :=
| Mn_Step (elapsed : Z) | Cn_Round (elapsed t : Z) | Mn_Hears (buffer : bytes) | Cn_Hears (buffer : bytes)
| Cn_Socket (u : U).
Arguments Mn_Step {U} elapsed.
Arguments Cn_Round {U} elapsed t.
Arguments Mn_Hears {U} buffer.
Arguments Cn_Hears {U} buffer.
Arguments Cn_Socket {U} u.

Section Bench.
Context {S U : Type} `{ST : ObjectDictionaryStorage S} `{SK : Socket U} (test : LoopbackTest) (cn_node_id : NodeId).
Implicit Types b : Bench S U.

Definition cn_frames b : list bytes := match b_cn b with Some c => tx_raw (ct_interface c) | None => [] end.
(** Only what one of the two sent, to whomever and however often, and octets that are no
    POWERLINK frame. *)
Definition on_segment b (buffer : bytes) : bool :=
  bool_decide (buffer ∈ tx_raw (b_port b) ++ cn_frames b) || no_frame buffer.

Definition bench_step (s : BenchStep U) b : option (Bench S U) :=
  match s with
  | Mn_Step elapsed =>
      let '(i, m) := mn_test_step test cn_node_id elapsed (b_port b) (b_mn b) in Some (mkBench i m (b_cn b))
  | Cn_Round elapsed t => Some (mkBench (b_port b) (b_mn b) (let! c := b_cn b in cn_test_round elapsed t c))
  | Mn_Hears buffer =>
      if on_segment b buffer then Some (mkBench (hears buffer (b_port b)) (b_mn b) (b_cn b)) else None
  | Cn_Hears buffer =>
      if on_segment b buffer then
        Some (mkBench (b_port b) (b_mn b)
          (let! c := b_cn b in Some (mkCnTest (hears buffer (ct_interface c)) (ct_node c) (ct_mac c) (ct_eth_buffer c)
             (ct_udp_buffer c))))
      else None
  | Cn_Socket u =>
      Some (mkBench (b_port b) (b_mn b)
        (let! c := b_cn b in Some (mkCnTest (with_socket (ct_interface c) u) (ct_node c) (ct_mac c) (ct_eth_buffer c)
           (ct_udp_buffer c))))
  end.
(** [None]: no run of the bench. *)
Fixpoint bench_run (steps : list (BenchStep U)) b : option (Bench S U) :=
  match steps with
  | [] => Some b
  | s :: steps => let! next := bench_step s b in bench_run steps next
  end.
Definition bench_new (mn_mac cn_mac : bytes) (mn_socket cn_socket : U) (capacity : Z) : option (Bench S U) :=
  let! c := node_setup (port cn_node_id cn_mac cn_socket) (get_test_od cn_node_id) capacity in
  Some (mkBench (port C_ADR_MN_DEF_NODE_ID mn_mac mn_socket) (MnTest_new mn_mac) (Some c)).
End Bench.

(** ** Frames without a header *)
Lemma test_soc_headless mac : exists f, test_soc mac = Some f /\ no_frame f = true.
Proof. eexists. split; reflexivity. Qed.
Lemma test_soa_headless mac n : exists f, test_soa mac n = Some f /\ no_frame f = true.
Proof. eexists. split; reflexivity. Qed.

(** ** A node that hears no frame *)

(** All the connections of the SDO server are with UDP clients. *)
Definition udp_only {H} (srv : SdoServer H) : Prop :=
  server_wf srv /\ forall c h, connections srv !! c = Some h -> exists ip port, c = Client_Udp ip port.

Lemma udp_only_request {S H} `{ObjectDictionaryStorage S} `{!SdoCommandHandler H S} (srv : SdoServer H) pl ip port
    (od : ObjectDictionary S) t : udp_only srv ->
  let '(srv', _, r) := server_handle_request srv pl (Client_Udp ip port) od t in
  udp_only srv' /\ replies_to (Client_Udp ip port) r.
Proof.
  intros [Hw Hc]. pose proof (request_isolates srv pl (Client_Udp ip port) od t Hw) as Hi.
  destruct (server_handle_request _ _ _ _ _) as [[srv' d] r]. destruct Hi as (Hw' & Hoth & Hr & _).
  split; [|done]. split; [done|]. intros c h Hh. destruct (decide (c = Client_Udp ip port)) as [->|Hne]; [by exists ip, port|].
  apply (Hc c h). by rewrite <- Hoth.
Qed.
Lemma udp_only_tick {S H} `{ObjectDictionaryStorage S} `{!SdoCommandHandler H S} (srv : SdoServer H)
    (od : ObjectDictionary S) t : udp_only srv ->
  exists srv' resp, server_tick srv t od = (srv', Ok resp) /\ udp_only srv' /\
    forall d, resp = Some d -> exists ip port, rd_client_info d = Client_Udp ip port.
Proof.
  intros [Hw Hc]. destruct (tick_isolates srv od t Hw) as (srv' & resp & -> & Hw' & _ & Hfrom & Hans).
  exists srv', resp. split; [done|]. split; [split; [done|]|].
  - intros c h Hh. destruct (Hfrom c h Hh) as [_ [h0 Hh0]]. by apply (Hc c h0).
  - intros d ->. destruct (Hans (rd_client_info d) eq_refl) as [h Hh]. by apply (Hc _ h).
Qed.

(** What goes to no raw channel. *)
Definition by_udp (a : NodeAction) : Prop := match a with SendFrame _ => False | _ => True end.

Section Silence.
Context {S : Type} `{ST : ObjectDictionaryStorage S}.
Implicit Types c : CnContext S.

Definition silent c : Prop :=
  udp_only (sdo_server (core c)) /\ soc_timeout_check_active c = false /\
  (cn_state c = NmtNotActive \/ cn_state c = NmtBasicEthernet).

Lemma response_by_udp c data ip port a : rd_client_info data = Client_Udp ip port -> cn_response c data = Ok a ->
  by_udp a.
Proof.
  intros Hd. unfold cn_response, build_response, udp_build_response. rewrite Hd.
  destruct (serialize_sdo_udp_payload _ _ _) as [buf [k|]]; [|done]. by intros [= <-].
Qed.

Lemma timeout_event c : cn_state c = NmtNotActive -> cn_state (cn_nmt_event Ev_Timeout c) = NmtBasicEthernet.
Proof.
  intros E. unfold cn_nmt_event. pose proof (cn_process_state (nmt_state_machine c) Ev_Timeout (cn_od c)) as Hs.
  destruct (process_event _ _ _) as [[m d] r]. unfold cn_state in *. cbn. cbn in Hs, E. by rewrite Hs, E.
Qed.

(** The timer of the SDO server. *)
Lemma silent_sdo_tick t c : silent c ->
  silent (fst (cn_tick_sdo_server t c)) /\
  match snd (cn_tick_sdo_server t c) with Some a => by_udp a | None => True end.
Proof.
  intros (Hc & Hs & Hn). unfold cn_tick_sdo_server.
  destruct (udp_only_tick (sdo_server (core c)) (cn_od c) t Hc) as (srv & resp & -> & Hsrv & Hd).
  destruct resp as [d|]; [|by split].
  destruct (Hd d eq_refl) as (ip & p & Hud).
  match goal with |- context [cn_response ?e d] => pose proof (response_by_udp e d ip p) as Hr;
    destruct (cn_response e d) as [a|]; [specialize (Hr a Hud eq_refl)|]; by split end.
Qed.

Lemma silent_tick t c : silent c -> silent (fst (process_tick t c)) /\ by_udp (snd (process_tick t c)).
Proof.
  intros H. unfold process_tick. destruct (silent_sdo_tick t c H) as [H1 Ha]. clear H.
  destruct (cn_tick_sdo_server t c) as [c1 [a|]]; cbn [fst snd] in *; [by split|]. clear Ha c.
  destruct H1 as (Hc & Hs & Hn). unfold check_heartbeats.
  replace (nmt_leb NmtPreOperational2 (cn_state c1)) with false by (by destruct Hn as [-> | ->]).
  destruct (_ && _); [destruct (0 <? _); by split|]. destruct (negb _); [by split|].
  destruct (bool_decide_reflect (cn_state c1 = NmtNotActive)) as [E|].
  - destruct (0 <? _); [|by split]. split; [|done]. cbn [fst]. split_and!; [|done|].
    + change (udp_only (sdo_server (core (cn_nmt_event Ev_Timeout (upd_next_tick_us None c1))))).
      by rewrite event_server.
    + right. by apply (timeout_event (upd_next_tick_us None c1)).
  - split; [|done]. cbn [fst]. unfold soc_timeout. change (soc_timeout_check_active (upd_next_tick_us None c1)) with
      (soc_timeout_check_active c1). rewrite Hs. by split_and!.
Qed.

(** A datagram, whatever it holds. *)
Lemma silent_udp udp t c : silent c -> let '(c', a) := cn_udp_input udp t c in silent c' /\ by_udp a.
Proof.
  intros (Hc & Hs & Hn). unfold cn_udp_input. destruct udp as [[[b ip] p]|]; [|by split].
  unfold cn_process_udp_datagram. destruct (deserialize_sdo_udp_payload b) as [[h cmd]|]; [|by split].
  unfold cn_server_request.
  pose proof (udp_only_request (sdo_server (core (cn_count TELEGR SDO_RX c))) (reserialize h cmd (length b)) ip p
    (cn_od (cn_count TELEGR SDO_RX c)) t Hc) as Hreq.
  destruct (server_handle_request _ _ _ _ _) as [[srv d] [data|]]; destruct Hreq as [Hsrv Hr]; [|by split].
  match goal with |- context [cn_response ?e data] => pose proof (response_by_udp e data ip p) as Ha;
    destruct (cn_response e data) as [a|]; [specialize (Ha a Hr eq_refl)|by split] end.
  by destruct a.
Qed.

(** A cycle with no frame, or with octets that are none, and any datagram. *)
Lemma silent_cycle eth udp t c c' a : silent c -> (forall buffer, eth = Some buffer -> no_frame buffer = true) ->
  cn_run_cycle eth udp t c = Some (c', a) -> silent c' /\ by_udp a.
Proof.
  intros Hc He. unfold cn_run_cycle.
  assert (cn_ethernet_input eth t c = Some (c, NoAction)) as ->.
  { unfold cn_ethernet_input. destruct eth as [buf|]; [|done]. specialize (He buf eq_refl).
    apply andb_true_iff in He as [He _]. by destruct (is_epl buf). }
  cbn [negb no_action]. pose proof (silent_udp udp t c Hc) as Hu. destruct (cn_udp_input udp t c) as [c1 a1].
  destruct Hu as [Hc1 Ha1]. destruct (negb _); [by intros [= <- <-]|].
  pose proof (silent_tick t c1 Hc1) as [H1 H2]. destruct (process_tick t c1) as [c2 a2]. by intros [= <- <-].
Qed.

Lemma silent_new d mac capacity c : cn_new d mac capacity = Ok c -> silent c.
Proof.
  intros E. split; [|split; [|left; by apply (cn_new_state _ _ _ _ E)]].
  all: revert E; unfold cn_new; destruct (init d) as [d1 [r|]]; [|done]; 
    destruct (validate_mandatory_objects d1 false); [|done]; destruct (cn_from_od d1); [|done];
    destruct (run_internal_initialisation _ _); intros [= <-]; try done.
Qed.
End Silence.

(** ** The bench keeps quiet *)

Lemma port_receive {U} `{SK : Socket U} (i : Port U) buffer i' buffer' r : Forall (fun f => no_frame f = true) (rx_raw i) ->
  receive_frame i buffer = (i', buffer', r) ->
  Forall (fun f => no_frame f = true) (rx_raw i') /\ tx_raw i' = tx_raw i /\
  forall n s, r = Ok n -> slice_to n buffer' = Some s -> 0 < n -> no_frame s = true.
Proof.
  intros Hf. cbn [receive_frame Linux_interface]. unfold linux_receive_frame. cbn [rx_next List_channel].
  destruct (rx_raw i) as [|f l] eqn:El; cbv zeta.
  - intros [= <- <- <-]. split_and!; [done|done|]. intros n s [= <-] _ Hn. lia.
  - apply Forall_cons in Hf as [Hf Hl]. destruct (length f <=? length buffer)%nat; intros [= <- <- <-];
      (split_and!; [done|done|]); [|done]. intros n s [= <-] Hs _. revert Hs. unfold slice_to.
    destruct (len f <=? _); [|done]. intros [= <-]. unfold len. by rewrite Nat2Z.id, take_app_length.
Qed.

Section Quiet.
Context {S U : Type} `{ST : ObjectDictionaryStorage S} `{SK : Socket U}.

(** Datagrams leave the channel alone. *)
Lemma port_poll_udp (i i' : Port U) buffer buffer' info : poll_udp i buffer = Some (i', buffer', info) ->
  tx_raw i' = tx_raw i /\ rx_raw i' = rx_raw i.
Proof.
  unfold poll_udp. cbn [receive_udp Linux_interface]. unfold linux_receive_udp.
  destruct (recv_from _ _) as [[u buf] r]. destruct r as [[n [ip p|ip p]]|[]]; try (by intros [= <- _ _]).
  destruct (slice_to n buf); [|done]. by intros [= <- _ _].
Qed.
Lemma port_execute a (i : Port U) : by_udp a -> tx_raw (execute_action a i) = tx_raw i /\ rx_raw (execute_action a i) = rx_raw i.
Proof.
  destruct a as [f|ip p data|]; [done| |done]. intros _. cbn [execute_action send_udp Linux_interface].
  unfold linux_send_udp. by destruct (sock_send_to _ _ _).
Qed.

Definition cn_quiet (c : CnTest S (Port U)) : Prop :=
  tx_raw (ct_interface c) = [] /\ Forall (fun f => no_frame f = true) (rx_raw (ct_interface c)) /\ silent (ct_node c).
Record bench_quiet (b : Bench S U) : Prop := mkQuiet {
  q_at : mt_at (b_mn b) ∈ [At_Soc; At_Soa; At_Ident; At_Panic];
  q_sent : Forall (fun f => no_frame f = true) (tx_raw (b_port b));
  q_heard : Forall (fun f => no_frame f = true) (rx_raw (b_port b));
  q_cn : forall c, b_cn b = Some c -> cn_quiet c }.

Lemma round_quiet elapsed t (c c' : CnTest S (Port U)) : cn_quiet c -> cn_test_round elapsed t c = Some c' -> cn_quiet c'.
Proof.
  intros (Ht & Hr & Hn). unfold cn_test_round. destruct (_ <? _); [done|]. unfold poll_others.
  destruct (receive_frame (ct_interface c) (ct_eth_buffer c)) as [[i buf] r] eqn:E.
  destruct (port_receive _ _ _ _ _ Hr E) as (H1 & H2 & H3). rewrite Ht in H2.
  assert (forall s, (forall buffer, s = Some buffer -> no_frame buffer = true) ->
    (let! (i, udp_buf, udp_info) := poll_udp i (ct_udp_buffer c) in
     let! (node, action) := cn_run_cycle s udp_info t (ct_node c) in
     Some (mkCnTest (execute_action action i) node (ct_mac c) buf udp_buf)) = Some c' -> cn_quiet c') as Hcont.
  { intros s Hs. destruct (poll_udp i (ct_udp_buffer c)) as [[[i1 ubuf] info]|] eqn:Eu; [|done].
    apply port_poll_udp in Eu as [E1 E2].
    destruct (cn_run_cycle s info t (ct_node c)) as [[node a]|] eqn:Ec; [|done].
    destruct (silent_cycle s info t _ _ _ Hn Hs Ec) as [Hn' Ha]. apply (port_execute a i1) in Ha as [E3 E4].
    intros [= <-]. unfold cn_quiet. cbn [ct_interface ct_node]. by rewrite E3, E4, E1, E2. }
  destruct r as [n|e]; [|by apply (Hcont None)]. destruct (Z.ltb_spec 0 n); [|by apply (Hcont None)].
  destruct (own_frame n buf (ct_mac c)); [by apply (Hcont None)|]. destruct (slice_to n buf) as [s|] eqn:Es; [|done].
  apply (Hcont (Some s)). intros buffer [= <-]. by eapply H3.
Qed.

(** Waiting for the answer, the script waits on. *)
Lemma ident_wait_quiet condition next elapsed (i : Port U) m : Forall (fun f => no_frame f = true) (rx_raw i) ->
  mt_at m = At_Ident -> let '(i', m') := wait_for condition next elapsed i m in
  Forall (fun f => no_frame f = true) (rx_raw i') /\ tx_raw i' = tx_raw i /\ mt_at m' ∈ [At_Ident; At_Panic].
Proof.
  intros Hr Hm. unfold wait_for, receive_frame_round. destruct (negb _); [split_and!; [done|done|]; right; left|].
  destruct (receive_frame i (mt_buffer m)) as [[i' buf] r] eqn:E. destruct (port_receive _ _ _ _ _ Hr E) as (H1 & H2 & H3).
  assert (At_Panic ∈ [At_Ident; At_Panic]) by (right; left).
  assert (mt_at m ∈ [At_Ident; At_Panic]) by (rewrite Hm; left).
  destruct r as [n|e]; [|by split_and!]. destruct (Z.ltb_spec 0 n); [|by split_and!].
  destruct (slice_to n buf) as [s|] eqn:Es; [|by split_and!]. destruct (own_frame _ _ _); [by split_and!|].
  specialize (H3 n s eq_refl Es ltac:(done)). apply andb_true_iff in H3 as [_ H3].
  destruct (deserialize_frame s); [done|by split_and!].
Qed.
Lemma send_quiet frame next (i : Port U) m : (exists f, frame = Some f /\ no_frame f = true) ->
  Forall (fun f => no_frame f = true) (tx_raw i) ->
  let '(i', m') := send_frame_helper frame next i m in
  Forall (fun f => no_frame f = true) (tx_raw i') /\ rx_raw i' = rx_raw i /\ m' = next m.
Proof. intros (f & -> & Hf) Ht. cbn. split_and!; [|done|done]. apply Forall_app. by split; [|constructor]. Qed.

Lemma mn_step_quiet test n elapsed (i : Port U) m : mt_at m ∈ [At_Soc; At_Soa; At_Ident; At_Panic] ->
  Forall (fun f => no_frame f = true) (tx_raw i) -> Forall (fun f => no_frame f = true) (rx_raw i) ->
  let '(i', m') := mn_test_step test n elapsed i m in
  Forall (fun f => no_frame f = true) (tx_raw i') /\ Forall (fun f => no_frame f = true) (rx_raw i') /\
  mt_at m' ∈ [At_Soc; At_Soa; At_Ident; At_Panic].
Proof.
  intros Hm Ht Hr. rewrite !elem_of_cons in Hm. unfold mn_test_step.
  destruct Hm as [E|[E|[E|[E|[]%elem_of_nil]]]]; rewrite E.
  - pose proof (send_quiet _ (goes_to At_Soa) i m (test_soc_headless (mt_mac m)) Ht) as H.
    destruct (send_frame_helper _ _ i m) as [i' m']. destruct H as (H1 & -> & ->). split_and!; [done|done|set_solver].
  - pose proof (send_quiet _ (waits_at At_Ident) i m (test_soa_headless (mt_mac m) n) Ht) as H.
    destruct (send_frame_helper _ _ i m) as [i' m']. destruct H as (H1 & -> & ->). split_and!; [done|done|set_solver].
  - match goal with |- context [wait_for ?c ?k elapsed i m] => pose proof (ident_wait_quiet c k elapsed i m Hr E) as H end.
    destruct (wait_for _ _ _ _ _) as [i' m']. destruct H as (H1 & -> & H2). split_and!; [done|done|set_solver].
  - split_and!; [done|done|]. rewrite E. set_solver.
Qed.

Lemma segment_quiet b buffer : bench_quiet b -> on_segment b buffer = true -> no_frame buffer = true.
Proof.
  intros [_ Ht _ Hc]. unfold on_segment, cn_frames. intros [H|H]%orb_true_iff; [|done]. apply bool_decide_eq_true in H.
  rewrite Forall_forall in Ht. destruct (b_cn b) as [c|]; [destruct (Hc c eq_refl) as (E & _); rewrite E in H|];
    rewrite app_nil_r in H; by apply Ht.
Qed.
Lemma hears_quiet b buffer (i : Port U) : bench_quiet b -> on_segment b buffer = true ->
  Forall (fun f => no_frame f = true) (rx_raw i) -> Forall (fun f => no_frame f = true) (rx_raw (hears buffer i)).
Proof. intros Hb Hs Hi. apply Forall_app. split; [done|]. constructor; [by eapply segment_quiet|done]. Qed.

Lemma step_quiet test n s b b' : bench_quiet b -> bench_step test n s b = Some b' -> bench_quiet b'.
Proof.
  intros Hb. destruct (Hb) as [Ha Ht Hr Hc]. destruct s as [elapsed|elapsed t|buffer|buffer|u]; cbn [bench_step].
  - pose proof (mn_step_quiet test n elapsed _ _ Ha Ht Hr) as H. destruct (mn_test_step _ _ _ _ _) as [i m].
    destruct H as (H1 & H2 & H3). by intros [= <-].
  - intros [= <-]. split; [done..|]. cbn [b_cn]. intros c'. destruct (b_cn b) as [c|]; [|done].
    apply round_quiet, (Hc c eq_refl).
  - destruct (on_segment b buffer) eqn:Es; [|done]. intros [= <-]. split; [done|done| |done].
    by apply (hears_quiet b).
  - destruct (on_segment b buffer) eqn:Es; [|done]. intros [= <-]. split; [done..|]. cbn [b_cn]. intros c'.
    destruct (b_cn b) as [c|]; [|done]. destruct (Hc c eq_refl) as (H1 & H2 & H3). intros [= <-].
    split_and!; [done| |done]. by apply (hears_quiet b).
  - intros [= <-]. split; [done..|]. cbn [b_cn]. intros c'. destruct (b_cn b) as [c|]; [|done].
    destruct (Hc c eq_refl) as (H1 & H2 & H3). intros [= <-]. by split_and!.
Qed.
Lemma run_quiet test n steps : forall b b', bench_quiet b -> bench_run test n steps b = Some b' -> bench_quiet b'.
Proof.
  induction steps as [|s steps IH]; intros b b' Hb; cbn [bench_run]; [by intros [= <-]|].
  destruct (bench_step test n s b) as [b1|] eqn:E; [|done]. apply IH. by eapply step_quiet.
Qed.
Lemma new_quiet n mn_mac cn_mac u v capacity b : bench_new n mn_mac cn_mac u v capacity = Some b -> bench_quiet b.
Proof.
  unfold bench_new, node_setup. destruct (cn_new _ _ _) as [c|] eqn:E; [|done]. intros [= <-].
  split; [left|constructor|constructor|]. cbn [b_cn]. intros c' [= <-]. split_and!; [done|constructor|].
  by eapply silent_new.
Qed.
End Quiet.

(** ** With headers *)

(** The frames as they should have been sent, and what the node makes of them, 200 ms apart. *)
Definition headed (dest mac : MacAddress) (frame : option bytes) : option bytes :=
  let! frame := frame in Some (dest ++ mac ++ be_bytes 2 C_DLL_ETHERTYPE_EPL ++ frame).
Fixpoint headed_answers {S} `{ST : ObjectDictionaryStorage S} (t : Z) (frames : list (option bytes)) (c : CnContext S)
    : list NodeAction :=
  match frames with
  | [] => []
  | frame :: frames =>
      match cn_run_cycle frame None t c with
      | Some (c, a) => a :: headed_answers (t + 200000) frames c
      | None => []
      end
  end.
Definition demo_cn_mac : MacAddress := [2; 0; 0; 0; 0; 42].
Definition headed_frames (mac : MacAddress) : list (option bytes) :=
  [headed C_DLL_MULTICAST_SOC mac (test_soc mac); headed C_DLL_MULTICAST_SOA mac (test_soa mac 42);
   headed C_DLL_MULTICAST_SOC mac (test_soc mac); headed demo_cn_mac mac (test_asnd mac 42 init_request)].

(** The IdentRequest would be answered, and the first test pass; the SDO request, whose command is all
    zeros, loses them with its padding and would not be answered. *)
Lemma headed_test_half_passes : exists (c : CnContext MemStorage) ident f,
  cn_new (get_test_od 42) demo_cn_mac 10 = Ok c /\
  headed_answers 1000 (headed_frames demo_mac) c = [NoAction; SendFrame ident; NoAction; NoAction] /\
  deserialize_frame ident = Ok f /\ is_ident_response 42 f INITIAL_ACK = Some (INITIAL_ACK, true).
Proof.
  assert (match cn_new (S := MemStorage) (get_test_od 42) demo_cn_mac 10 with
    | Ok c => match headed_answers 1000 (headed_frames demo_mac) c with
              | [NoAction; SendFrame b; NoAction; NoAction] =>
                  match deserialize_frame b with Ok f => is_ident_response 42 f INITIAL_ACK | Err _ => None end
              | _ => None end
    | Err _ => None end = Some (INITIAL_ACK, true)) as H by (vm_compute; reflexivity).
  destruct (cn_new (get_test_od 42) demo_cn_mac 10) as [c|]; [|discriminate H].
  destruct (headed_answers 1000 (headed_frames demo_mac) c) as [|a0 [|a1 [|a2 [|a3 [|a4 l]]]]] eqn:Ea; try discriminate H;
    destruct a0; try discriminate H; destruct a1 as [b| |]; try discriminate H;
    destruct a2; try discriminate H; destruct a3; try discriminate H.
  destruct (deserialize_frame b) as [f|] eqn:Ef; [|discriminate H]. exists c, b, f. split; [reflexivity|].
  split; [exact Ea|]. split; [exact Ef|exact H].
Qed.

(** ** Properties *)

(** C9: The tests over real interfaces cannot pass.  The script of the managing node sends its
    frames without their Ethernet headers, which the serializers leave to the caller.  So whatever
    the test, the node's number, the addresses and times, whatever reaches whom and how often, as
    long as all other traffic on the segment is no POWERLINK frame, and whatever datagrams the node's
    socket hands it: the script never gets past its wait for the IdentResponse, a round of that wait
    after the twenty seconds of the time-out panics, the controlled node sends no Ethernet frame (to
    an SDO datagram it answers by its socket), and it leaves NMT_CS_NOT_ACTIVE only for
    NMT_CS_BASIC_ETHERNET. *)
Theorem integration_tests_fail {S U} `{ST : ObjectDictionaryStorage S} `{SK : Socket U} test (cn_node_id : NodeId)
    mn_mac cn_mac (mn_socket cn_socket : U) capacity steps (b0 b : Bench S U) :
  bench_new cn_node_id mn_mac cn_mac mn_socket cn_socket capacity = Some b0 ->
  bench_run test cn_node_id steps b0 = Some b ->
  mt_at (b_mn b) ∈ [At_Soc; At_Soa; At_Ident; At_Panic] /\
  (mt_at (b_mn b) = At_Ident -> forall elapsed, TEST_TIMEOUT <= elapsed ->
     bench_step test cn_node_id (Mn_Step elapsed) b = Some (mkBench (b_port b) (goes_to At_Panic (b_mn b)) (b_cn b))) /\
  (forall c, b_cn b = Some c -> tx_raw (ct_interface c) = [] /\
     (cn_state (ct_node c) = NmtNotActive \/ cn_state (ct_node c) = NmtBasicEthernet)).
Proof.
  intros Hn Hr. destruct (run_quiet _ _ _ _ _ (new_quiet _ _ _ _ _ _ _ Hn) Hr) as [Ha _ _ Hc]. clear Hn Hr.
  split; [exact Ha|split].
  - intros E elapsed He. cbn [bench_step]. unfold mn_test_step. rewrite E. unfold wait_for, receive_frame_round.
    by rewrite (proj2 (Z.ltb_ge _ _)) by exact He.
  - intros c Ec. destruct (Hc c Ec) as (Ht & _ & _ & _ & Hs). by split.
Qed.

(** A socket with the datagrams to hand out and those sent. *)
Record Mailbox : Type := mkMailbox { mail_in : list (bytes * SocketAddr); mail_out : list (bytes * SocketAddr) }.
#[export] Instance Mailbox_socket : Socket Mailbox :=
  { sock_send_to u data addr := (mkMailbox (mail_in u) (mail_out u ++ [(data, addr)]), Ok (len data));
    recv_from u buf :=
      match mail_in u with
      | [] => (u, buf, Err WouldBlock)
      | (data, addr) :: l =>
          let n := Nat.min (length data) (length buf) in
          (mkMailbox l (mail_out u), take n data ++ drop n buf, Ok (Z.of_nat n, addr))
      end }.
(** A datagram that opens an SDO connection. *)
Definition demo_datagram : bytes :=
  match serialize_sdo_udp_payload (mkSeqHeader INITIAL_ACK Rcon_NoConnection 0 Scon_Initialization)
          (mkSdoCommand CommandLayerHeader_default None []) (replicate 64 0) with
  | (buffer, Ok n) => take n buffer
  | (_, Err _) => []
  end.
Definition demo_client_address : SocketAddr := Addr_V4 [192; 168; 100; 1] 50000.

(** Both frames reach the node, which answers an SDO datagram by UDP, hears no frame for five seconds
    and turns to Basic Ethernet; after twenty the script panics. *)
Definition demo_bench_steps : list (BenchStep Mailbox) :=
  let soc := unwrap_or (test_soc demo_mac) [] in
  let soa := unwrap_or (test_soa demo_mac 42) [] in
  [Cn_Round 0 0; Mn_Step 0; Cn_Hears soc; Cn_Round 700000 700000; Mn_Step 0; Cn_Hears soa; Mn_Hears soa;
   Cn_Socket (mkMailbox [(demo_datagram, demo_client_address)] []);
   Cn_Round 900000 900000; Mn_Step 10000; Cn_Round 5000000 5000001; Mn_Step 20000000].

Lemma integration_tests_fail_witness :
  exists (b0 b : Bench MemStorage Mailbox) c,
    bench_new 42 demo_mac demo_cn_mac (mkMailbox [] []) (mkMailbox [] []) 10 = Some b0 /\ bench_run Lt_SdoRead 42 demo_bench_steps b0 = Some b /\
    length (tx_raw (b_port b)) = 2%nat /\ mt_at (b_mn b) = At_Panic /\ b_cn b = Some c /\
    cn_state (ct_node c) = NmtBasicEthernet /\ length (mail_out (udp_socket (ct_interface c))) = 1%nat /\
    tx_raw (ct_interface c) = [].
Proof.
  assert (match bench_new (S := MemStorage) 42 demo_mac demo_cn_mac (mkMailbox [] []) (mkMailbox [] []) 10 with
    | Some b0 => match bench_run Lt_SdoRead 42 demo_bench_steps b0 with
        | Some b => match b_cn b with
            | Some c => Some (length (tx_raw (b_port b)), mt_at (b_mn b), cn_state (ct_node c),
                              length (mail_out (udp_socket (ct_interface c)))) | None => None end
        | None => None end
    | None => None end = Some (2%nat, At_Panic, NmtBasicEthernet, 1%nat)) as H by (vm_compute; reflexivity).
  destruct (bench_new 42 demo_mac demo_cn_mac (mkMailbox [] []) (mkMailbox [] []) 10) as [b0|] eqn:E0; [|discriminate H].
  destruct (bench_run Lt_SdoRead 42 demo_bench_steps b0) as [b|] eqn:Er; [|discriminate H].
  destruct (integration_tests_fail Lt_SdoRead 42 demo_mac demo_cn_mac _ _ 10 demo_bench_steps b0 b E0 Er) as (_ & _ & Hc).
  destruct (b_cn b) as [c|] eqn:Ec; [|discriminate H]. injection H as H1 H2 H3 H4. exists b0, b, c.
  split; [reflexivity|]. split; [exact Er|]. split; [exact H1|]. split; [exact H2|]. split; [exact Ec|].
  split; [exact H3|]. split; [exact H4|]. exact (proj1 (Hc c eq_refl)).
Defined.
